(* ===== verification/_CoqProject ===== *)
-Q . S2P
Prelude.v
Proto.v
CodecBuiltin.v
CodecWire.v
CodecFacts.v
CodecTypes.v
CodecConfig.v
CodecConfigFacts.v
CodecExtra.v
CodecRequests.v
CodecTransmit.v
CodecRequestFacts.v
CodecProps.v
Eff.v
FieldValidation.v
Json.v
GoPath.v
GoNet.v
WanEndpoints.v
HotBackup.v
HotBackupFacts.v
Regexp.v
HazelcastTypes.v
DataStructureTypes.v
ConfigTypes.v
CustomConfig.v
HazelcastValidation.v
HazelcastValidationFacts.v
MapValidation.v
DataStructureConfig.v
DataStructureValidation.v
WanTypes.v
HazelcastConfig.v
JetJobValidation.v
Kube.v
WanController.v
WanFacts.v
WanProps.v
DataStructures.v
ConfigSecret.v
UcnController.v
SnapController.v
SnapFacts.v
WanSyncController.v
WanSyncFacts.v
WanSyncQueue.v
CronHotBackup.v
CronFacts.v
HazelcastConfigFacts.v
HzTypes.v
HzObjects.v
HzStatefulSet.v
HzStatefulSetFacts.v
McTypes.v
HzKube.v
HzServices.v
HzSecrets.v
HzStatus.v
HzController.v
HzLogic.v
HzControllerFacts.v
HzReconcileFacts.v
HzStatusFacts.v
StatusService.v
StatusRegistry.v
ClientRegistry.v
McController.v
McProps.v
McFacts.v
Webhooks.v
PhoneHome.v
DataStructuresFacts.v
MemberConfig.v
AnnotationFacts.v
MapController.v
MapControllerFacts.v
JetChecker.v
JetJob.v
JetJobFacts.v
Agents.v
