(* ===== verification/Prelude.v ===== *)
(** * Hazelcast Platform Operator: a verification library

    The operator (Go, src/) reconciles custom resources of a Kubernetes
    cluster with Hazelcast clusters and Management Centers.  Its parts, and
    how they interact:

    - [api/v1alpha1]: the resource types, and the validators that both the
      admission webhooks and the reconcilers call;
    - [internal/controller]: one reconciler per resource.  A reconciler reads
      its resource, validates it, writes Kubernetes objects or talks to the
      members through the client services, and writes the status back;
    - [internal/hazelcast-client]: the registries that share one client and
      one status service per cluster among the reconcilers, and the services
      that send requests to members;
    - [internal/protocol]: the binary client protocol.  The reconcilers build
      configuration structures and requests, the codecs turn them into frames,
      the members read them;
    - [internal/config]: the structs of hazelcast.yaml, which the Hazelcast
      controller writes to a secret and the members read when they start;
    - [internal/backup], [internal/upload], [internal/local_backup]: the
      cluster backup the HotBackup reconciler drives, member by member, and
      the requests to the backup agents, which [internal/rest] and
      [internal/mtls] carry;
    - [internal/phonehome], [internal/platform], [internal/util],
      [internal/naming]: usage reports, what the operator runs on, helpers and
      constants.

    ** Files: the common ground

    - [Prelude] (this file): outcomes of Go code ([res]), machine integers,
      bytes and little-endian words, byte slices with bounds, Go strings.
    - [Eff]: programs over external calls, their executions as traces of
      calls and answers, parallel composition as interleaving, retries; the
      results a program can return, and the result of a reconciliation.  Then
      a program logic for them: a guard on the calls, and what is known when a
      result is returned; goroutines that are waited for are verified one by
      one against a history the others may extend.
    - [FieldValidation]: api/v1alpha1/field_validation.go.
    - [Json], [GoPath], [GoNet], [Regexp]: encoding/json as far as annotations
      use it; path.Join and strings.Split; net.SplitHostPort, JoinHostPort and
      strconv.Quote; the regular expressions of the validators.

    ** Files: the client protocol

    - [Proto]: the interface of hazelcast-go-client's protocol package
      (messages, frames, the forward frame iterator) with its laws, a concrete
      instance, and the encoder and decoder monads.
    - [CodecBuiltin]: internal/protocol/codec/builtin.go, the fixed-width,
      string, list and map codecs; [CodecWire]: rules for an encoder and a
      decoder walked in lockstep; [CodecFacts]: their round trips.
    - [CodecTypes], [CodecConfig]: the structures of internal/protocol/types
      and their codecs; [CodecConfigFacts]: their round trips; [CodecExtra]:
      resources, caches, job summaries and Management Center events.
    - [CodecRequests]: the request encoders and response decoders;
      [CodecTransmit], [CodecRequestFacts]: a member that reads a request by
      the protocol definition; [CodecProps]: the theorems.

    ** Files: resources and their validation

    - [HazelcastTypes], [HzTypes]: api/v1alpha1/hazelcast_types.go, what
      validation and the configuration read and what only the builders of
      Kubernetes objects read; [HazelcastValidation]: hazelcast_validation.go;
      [HazelcastValidationFacts]: its theorems.
    - [DataStructureTypes]: data_structure.go and the types of maps, multi
      maps, queues, topics, caches and replicated maps; [MapValidation]:
      data_structure_validation.go, map_validation.go and cache_validation.go
      with their theorems; [DataStructureValidation]: the other data
      structures behind the interface [DataStructure].
    - [WanTypes]: WAN replications and user code namespaces;
      [JetJobValidation]: Jet jobs, WAN synchronisations, Jet job snapshots,
      their validators, and internal/controller/annotation.go; [McTypes]:
      Management Center.
    - [Webhooks]: the *_webhook.go files, one [Validator] per kind, and their
      agreement with what the controllers check.

    ** Files: the configuration of a member

    - [ConfigTypes]: the structs of internal/config/hazelcast.go and what YAML
      leaves of them; [CustomConfig]: the merge with a custom configuration.
    - [DataStructureConfig]: the section of hazelcast.yaml and the request for
      a member, of every kind of data structure; [MemberConfig]: both refine
      one specification.
    - [HazelcastConfig], [ConfigSecret]: the configuration of a cluster as
      hazelcast_resources.go builds it, the pure part and the part that
      collects the resources from the API server; [HazelcastConfigFacts].

    ** Files: the Hazelcast controller and Management Center

    - [HzObjects], [HzStatefulSet]: the Kubernetes objects built by
      hazelcast_resources.go; [HzStatefulSetFacts]: their theorems.
    - [HzKube]: the calls of these controllers, and [util.CreateOrUpdate];
      [HzServices], [HzSecrets]: reconciling services, roles, endpoints, and
      secrets, the key store and the restoration of a backup; [HzStatus]:
      hazelcast_status.go; [HzController]: hazelcast_controller.go, the
      finalizer, annotations and the calls to members.
    - [HzLogic], [HzControllerFacts]: the guard every call of a reconciliation
      keeps to; [HzReconcileFacts], [HzStatusFacts]: the theorems.
    - [StatusService], [StatusRegistry], [ClientRegistry]: what the operator
      knows of the members of a cluster; the registries of status services
      and of clients, as transition systems.
    - [McController]: internal/controller/managementcenter; [McProps]: its
      objects; [McFacts]: its reconciliation.

    ** Files: the controllers of what runs on a cluster

    - [Kube]: the calls of the other controllers, the helpers they share, and
      the rules for these.
    - [DataStructures], [DataStructuresFacts]: data_structure_controller.go,
      data_structure_status.go and the five kinds; [AnnotationFacts]: the
      recorded spec; [MapController], [MapControllerFacts]: maps.
    - [WanEndpoints]: what the WAN controller makes of spec.endpoints;
      [WanController]: wanreplication_controller.go, wanreplication_status.go,
      wan_resources.go, internal/dialer and wan_service.go; [WanFacts],
      [WanProps].
    - [WanSyncController], [WanSyncFacts]: wansync_controller.go,
      wansync_status.go and the requests of wan_sync_service.go, with one
      goroutine per member; [WanSyncQueue]: the queue, the mutex and the
      workers of that service as a transition system.
    - [UcnController]: usercodenamespace_controller.go and its status and
      service, with their theorems.
    - [JetJob], [JetJobFacts]: jetjob_controller.go; [JetChecker]:
      jetjob_status.go, the goroutine that watches the jobs of a cluster, as a
      transition system; [SnapController], [SnapFacts]: snapshots, with the
      goroutine that exports.
    - [HotBackup], [HotBackupFacts]: hot_backup_controller.go,
      hot_backup_status.go, hotbackup_validation.go, internal/backup,
      internal/upload and internal/local_backup; [CronHotBackup], [CronFacts]:
      cronhotbackup_controller.go.
    - [PhoneHome]: internal/phonehome, internal/platform and operator_info.go;
      [Agents]: internal/mtls, internal/rest and the member REST client.

    ** Correspondence

    A Go function is a definition of the same name (a method [T.m] is [T_m]
    where the bare name is taken).  Structs are records, with the field names
    prefixed; pointers are [option]; a panic is the outcome [Panic], or
    [Crash] in a program.  Codecs are functions to [res].  Code that calls out
    (the API server, members, agents) is a [prog]: a tree of calls whose
    answers are arbitrary, so that a theorem about all executions of a program
    covers every failure and every order of answers.  State a reconciler keeps
    (locks, cancel functions) is a record passed from one reconciliation to
    the next.  Goroutines that share state with the reconcilers are transition
    systems whose steps are the accesses to that state.  Validators are
    functions to the list of field errors they append.

    Third-party code is a parameter with the laws the code relies on:
    hash-map iteration order, [retry.OnError] (a tree of runs of the closure,
    each but the last ending in an error worth retrying), [CreateOrUpdate] of
    controller-runtime, [kerrors.NewInvalid], JSON and YAML, key stores and
    certificates, [resource.Quantity], [semver.Compare], the order
    [sort.Slice] leaves equal elements in, owner references, the scheduler of
    cron backups and the identifiers it gives out.

    ** Theorems

    - Hazelcast controller: Running is stored only after the specification was
      found valid, the configuration made of it was stored and the stateful
      set was rolled out; the stateful set follows the secret; objects are
      deleted only for a reason the code names; the finalizer is given up only
      when no dependent resource is left; a restored cluster is activated
      exactly when its restoration succeeded and all members are passive.
    - Kubernetes objects: every mount has its volume, also after updates that
      were accepted against a recorded specification; every service port has
      its container port; what the user configures of the JVM is kept.
    - Registries: one status goroutine per cluster, operations on the registry
      finish (two operations on one cluster never overlap, as controller-runtime
      guarantees), a registered client runs with the configuration of its cluster,
      an update leaves exactly the members that answered.
    - Management Center: the statuses are the steps of a state machine; its
      secret has the files its commands refer to, with the key stores made of
      the secrets of its clusters.
    - Webhooks: a reconciliation goes on exactly with what the webhooks admit,
      and otherwise reports their error.
    - Protocol: the frames of a request are read back by a member field by
      field, for the requests that configure data structures, executors, WAN
      publishers, CP objects and Jet jobs; configuration structures decode to
      what was encoded, also with unknown trailing frames; fixed-width writes
      stay in bounds; message types are distinct.
    - Hot backup: a backup is started once, under the lock, only for a valid
      resource; a cluster is asked to become active again; Success is stored
      only when every member reported it; waiting for a member ends.
    - Validation: acceptance is characterised, for Hazelcast resources and
      maps, by declarative specifications; WAN ports are claimed once; names
      are DNS labels; immutable fields stay what they were along chains of
      accepted updates.
    - Data structures and maps: Success is stored only for a valid resource of
      a running cluster whose configuration every member acknowledged, or was
      recorded to have, and the document was seen to hold; members are sent
      nothing else; the request and the section of hazelcast.yaml mean the
      same, but for the idle time of a map and the name and large numbers of
      its near cache; a recorded spec is read back.
    - Configuration: without a custom configuration the document has what the
      controllers of persisted resources wait for, the immutable properties,
      and stable directories;
      the merge with a custom configuration loses nothing it should keep;
      computing it does not panic for admitted resources, with one exception.
    - Jet jobs: one reconciliation asks the cluster for at most one action,
      the one the stored status and the requested state call for, and only
      for a validated resource; the finalizer is removed only when the job was
      cancelled or cannot be running; the status checker runs one loop at a
      time and, as long as no old ticker is about to be stopped, goes on
      ticking.
    - WAN replications: Success only for publishers that the document was seen
      to hold; a finalizer is removed only when publishers were stopped and
      their queues cleared on every member; publishers only for valid
      resources with reachable endpoints.
    - WAN synchronisations: a map is completed only when every member reported
      so; polling a member is bounded; no queued request is lost or handed out
      twice, and the workers come to rest.
    - User code namespaces and snapshots: bundles before configuration, on
      every member, before Success; one export at a time, reported truthfully.
    - Scheduled backups: one entry of the scheduler for each resource; history
      limits and references are respected.
    - Phone home and agents: a report counts exactly the listed resources, and
      every trigger is answered; a client of the agents trusts the authority of
      its namespace.
    - Flaws shown by the model are theorems too: decoders that lose entries or
      disagree with their encoder, two messages with one type, a nil error
      whose text is taken, an empty cluster that is backed up successfully, a
      nil native memory or Jet configuration that is dereferenced, port ranges
      that wrap around, a status checker that stops the ticker of its
      successor, a job's URL that can be replaced, results of one WAN
      synchronisation that are written to another, a change of a schedule that
      is recorded and never scheduled, clients created twice and never shut
      down, a storage class compared by its pointer, a sidecar whose image is
      not updated, an update before the first success that leaves members with
      a mount and no volume.

    ** Bounds and fuel

    Integers keep their width: arithmetic that can wrap is written with
    [int32], [uint64] and so on.  The polling loops of a backup take a fuel
    argument that bounds the number of polls; running out of it is an outcome
    of its own ([Exhausted] after [Spin], or [OutOfFuel]), and the theorems say
    when it is reached: only after every poll was answered by a state that
    means to go on.  Polling a member about a WAN synchronisation takes at
    most 100 polls and 100 more for each report of progress; any fuel beyond
    that is enough.  Frame iteration is structural on the frames of a message.

    ** Not modelled

    - Logging, metrics, the registration of controllers, watches and webhooks
      with the manager, and process start-up (cmd/main.go): no logic beyond
      calls of libraries.
    - Time: waits and tickers take no time; a tick may come whenever the code
      waits for it.
    - Generated code (deep copies), the kubebuilder markers and the generator
      of the documentation.
    - Third-party code: the Kubernetes API, the members, cryptography and
      HTTP are calls or parameters.
    - Of the protocol: the float and double codecs, the encoder of a response
      that only a member sends, and the JSON text of a member's state, which
      is a parameter ([MemberStateJson] of [StatusService]). *)

From Stdlib Require Export ZArith Lia.
From Stdlib.Strings Require Export Byte Ascii String.
From stdpp Require Export base list strings gmap.

#[global] Open Scope Z_scope.

(** ** Outcomes of Go code

    A Go call returns a value or panics (nil dereference, index or slice
    bound out of range).  Loops that are not structurally recursive are
    modelled with fuel; running out of it is a third outcome, so that a
    theorem that says [f fuel x = Ret y] also says the loop ended. *)

Inductive res (A : Type) : Type :=
| Ret (a : A)
| Panic
| OutOfFuel.
Arguments Ret {A} a.
Arguments Panic {A}.
Arguments OutOfFuel {A}.

Definition bind_res {A B} (r : res A) (k : A -> res B) : res B :=
  match r with
  | Ret a => k a
  | Panic => Panic
  | OutOfFuel => OutOfFuel
  end.

Declare Scope go_scope.
Delimit Scope go_scope with go.
Notation "x <-! c ;; k" := (bind_res c (fun x => k))
  (at level 100, c at next level, right associativity) : go_scope.

Lemma bind_res_assoc {A B C} (r : res A) (f : A -> res B) (g : B -> res C) :
  bind_res (bind_res r f) g = bind_res r (fun a => bind_res (f a) g).
Proof. by destruct r. Qed.

(** ** Machine integers

    A w-bit Go integer is a [Z] in the range of its type; conversions wrap. *)

Definition uwrap (w : Z) (z : Z) : Z := z mod 2 ^ w.
Definition swrap (w : Z) (z : Z) : Z := (z + 2 ^ (w - 1)) mod 2 ^ w - 2 ^ (w - 1).

Definition int32 (z : Z) : Z := swrap 32 z.
Definition int64 (z : Z) : Z := swrap 64 z.
Definition int16 (z : Z) : Z := swrap 16 z.
Definition uint16 (z : Z) : Z := uwrap 16 z.
Definition uint32 (z : Z) : Z := uwrap 32 z.
Definition uint64 (z : Z) : Z := uwrap 64 z.

Definition is_sint (w z : Z) : Prop := - 2 ^ (w - 1) <= z < 2 ^ (w - 1).
Abbreviation is_int32 := (is_sint 32).
Abbreviation is_int64 := (is_sint 64).
Abbreviation is_int16 := (is_sint 16).
Definition is_uint (w z : Z) : Prop := 0 <= z < 2 ^ w.

Lemma swrap_id w z : 0 < w -> is_sint w z -> swrap w z = z.
Proof.
  intros Hw [H1 H2]. unfold swrap.
  assert (2 ^ w = 2 * 2 ^ (w - 1)) as Hp.
  { rewrite <-Z.pow_succ_r by lia. f_equal; lia. }
  rewrite Z.mod_small by lia. lia.
Qed.

Lemma swrap_range w z : 0 < w -> is_sint w (swrap w z).
Proof.
  intros Hw. unfold swrap, is_sint.
  assert (2 ^ w = 2 * 2 ^ (w - 1)) as Hp.
  { rewrite <-Z.pow_succ_r by lia. f_equal; lia. }
  assert (0 < 2 ^ (w - 1)) by (apply Z.pow_pos_nonneg; lia).
  pose proof (Z.mod_pos_bound (z + 2 ^ (w - 1)) (2 ^ w)). lia.
Qed.

Lemma swrap_add w a b : swrap w (swrap w a + b) = swrap w (a + b).
Proof.
  unfold swrap. f_equal.
  replace ((a + 2 ^ (w - 1)) mod 2 ^ w - 2 ^ (w - 1) + b + 2 ^ (w - 1)) with ((a + 2 ^ (w - 1)) mod 2 ^ w + b) by lia.
  rewrite Zplus_mod_idemp_l. f_equal. lia.
Qed.

Lemma swrap_uwrap w z : swrap w (uwrap w z) = swrap w z.
Proof. unfold swrap, uwrap. by rewrite Zplus_mod_idemp_l. Qed.

Lemma uwrap_uwrap w z : uwrap w (uwrap w z) = uwrap w z.
Proof. apply Zmod_mod. Qed.

(** ** Bytes and little-endian words *)

#[export] Instance byte_eq_dec : EqDecision byte := Byte.byte_eq_dec.

Definition byte_of_Z (z : Z) : byte := default x00 (Byte.of_N (Z.to_N (z mod 256))).
Definition Z_of_byte (b : byte) : Z := Z.of_N (Byte.to_N b).

Lemma Z_of_byte_range b : 0 <= Z_of_byte b < 256.
Proof. unfold Z_of_byte. pose proof (Byte.to_N_bounded b). lia. Qed.

Lemma Z_of_byte_of_Z z : Z_of_byte (byte_of_Z z) = z mod 256.
Proof.
  unfold Z_of_byte, byte_of_Z.
  pose proof (Z.mod_pos_bound z 256 ltac:(lia)) as Hb.
  destruct (Byte.of_N (Z.to_N (z mod 256))) as [b|] eqn:E; simpl.
  - apply Byte.to_of_N in E. rewrite E. lia.
  - apply Byte.of_N_None_iff in E. lia.
Qed.

Lemma byte_of_Z_of_byte b : byte_of_Z (Z_of_byte b) = b.
Proof.
  unfold byte_of_Z. rewrite Z.mod_small by apply Z_of_byte_range.
  unfold Z_of_byte. rewrite N2Z.id, Byte.of_to_N. done.
Qed.

(** [le_bytes n z]: the [n] bytes [binary.LittleEndian.PutUint*] writes;
    [le_val]: what [binary.LittleEndian.Uint*] reads back. *)
Fixpoint le_bytes (n : nat) (z : Z) : list byte :=
  match n with
  | O => []
  | S n => byte_of_Z z :: le_bytes n (z / 256)
  end.

Fixpoint le_val (bs : list byte) : Z :=
  match bs with
  | [] => 0
  | b :: bs => Z_of_byte b + 256 * le_val bs
  end.

Lemma length_le_bytes n z : length (le_bytes n z) = n.
Proof. revert z; induction n; intros; simpl; [done|]. by rewrite IHn. Qed.

Lemma le_val_bytes n z : le_val (le_bytes n z) = z mod 2 ^ (8 * Z.of_nat n).
Proof.
  revert z; induction n as [|n IH]; intros z; simpl le_bytes; simpl le_val.
  - by rewrite Z.mod_1_r.
  - rewrite IH, Z_of_byte_of_Z.
    replace (8 * Z.of_nat (S n)) with (8 + 8 * Z.of_nat n) by lia.
    rewrite Z.pow_add_r by lia. change (2 ^ 8) with 256.
    rewrite Z.rem_mul_r by (try apply Z.pow_nonzero; lia). lia.
Qed.

Lemma le_val_bytes_uwrap n z : le_val (le_bytes n z) = uwrap (8 * Z.of_nat n) z.
Proof. apply le_val_bytes. Qed.

(** ** Byte slices

    Positions are [Z]; an access outside the slice panics. *)

Definition len {A} (l : list A) : Z := Z.of_nat (length l).

Definition splice (b : list byte) (off : Z) (bs : list byte) : list byte :=
  take (Z.to_nat off) b ++ bs ++ drop (Z.to_nat off + length bs) b.

Definition in_slice (b : list byte) (off : Z) (n : nat) : bool :=
  (0 <=? off) && (off + Z.of_nat n <=? len b).

(** [copy(b[off:], bs)] with the bounds check of the fixed-width writers. *)
Definition put_bytes (b : list byte) (off : Z) (bs : list byte) : res (list byte) :=
  if in_slice b off (length bs) then Ret (splice b off bs) else Panic.

Definition get_bytes (b : list byte) (off : Z) (n : nat) : res (list byte) :=
  if in_slice b off n then Ret (take n (drop (Z.to_nat off) b)) else Panic.

(** [make([]byte, n)]: zeroed; a negative length panics at run time. *)
Definition make_bytes (n : Z) : list byte := replicate (Z.to_nat n) x00.

Lemma len_make_bytes n : 0 <= n -> len (make_bytes n) = n.
Proof. intros. unfold len, make_bytes. rewrite length_replicate. lia. Qed.

Lemma in_slice_true b off n : in_slice b off n = true <-> 0 <= off /\ off + Z.of_nat n <= len b.
Proof. unfold in_slice. rewrite andb_true_iff, !Z.leb_le. done. Qed.

Lemma len_splice b off bs :
  0 <= off -> off + len bs <= len b -> len (splice b off bs) = len b.
Proof.
  unfold len, splice. intros. rewrite !length_app, length_take, length_drop. lia.
Qed.

Lemma put_bytes_ok b off bs :
  0 <= off -> off + len bs <= len b -> put_bytes b off bs = Ret (splice b off bs).
Proof.
  intros H1 H2. unfold put_bytes.
  rewrite (proj2 (in_slice_true _ _ _)); [done|]. unfold len in *; lia.
Qed.

Lemma get_bytes_splice_same b off bs n :
  n = length bs -> 0 <= off -> off + len bs <= len b ->
  get_bytes (splice b off bs) off n = Ret bs.
Proof.
  intros -> H1 H2. unfold get_bytes.
  rewrite (proj2 (in_slice_true _ _ _)); [|rewrite len_splice by done; unfold len in *; lia].
  f_equal. unfold splice, len in *.
  rewrite drop_app_length' by (rewrite length_take; lia).
  by rewrite take_app_length.
Qed.

Lemma get_bytes_splice_other b off bs o n :
  0 <= off -> off + len bs <= len b ->
  o + Z.of_nat n <= off \/ off + len bs <= o ->
  get_bytes (splice b off bs) o n = get_bytes b o n.
Proof.
  intros H1 H2 H3. unfold get_bytes, in_slice. rewrite len_splice by done.
  destruct (0 <=? o) eqn:E1; [|done]. destruct (o + Z.of_nat n <=? len b) eqn:E2; [|done].
  simpl. f_equal. apply Z.leb_le in E1, E2. unfold len, splice in *.
  apply list_eq. intros i. destruct (decide (i < n)%nat) as [Hi|Hi].
  - rewrite !lookup_take_lt, !lookup_drop by lia.
    destruct H3 as [H3|H3].
    + rewrite lookup_app_l by (rewrite length_take; lia).
      by rewrite lookup_take_lt by lia.
    + rewrite app_assoc, lookup_app_r by (rewrite length_app, length_take; lia).
      rewrite length_app, length_take, lookup_drop. f_equal. lia.
  - rewrite !lookup_take_ge by lia. done.
Qed.

(** ** Go strings

    A Go string is its bytes: [string].  [strings.TrimSpace] strips leading
    and trailing white space runes; only its emptiness is observed by the
    code, which is decided by stripping on the left. *)

Definition bytes_of_string (s : string) : list byte := String.list_byte_of_string s.
Definition string_of_bytes (b : list byte) : string := String.string_of_list_byte b.

Lemma string_of_bytes_of_string s : string_of_bytes (bytes_of_string s) = s.
Proof. apply String.string_of_list_byte_of_string. Qed.

Definition code (a : Ascii.ascii) : Z := Z.of_N (Ascii.N_of_ascii a).

(** White space runes, by the number of bytes of their UTF-8 encoding. *)
Definition space1 (a : Ascii.ascii) : bool :=
  (9 <=? code a) && (code a <=? 13) || (code a =? 32).
Definition space2 (a b : Ascii.ascii) : bool :=
  (code a =? 194) && ((code b =? 133) || (code b =? 160)).
Definition space3 (a b c : Ascii.ascii) : bool :=
  ((code a =? 225) && (code b =? 154) && (code c =? 128))
  || ((code a =? 226) && (code b =? 128) &&
      ((128 <=? code c) && (code c <=? 138) || (code c =? 168) || (code c =? 169) || (code c =? 175)))
  || ((code a =? 226) && (code b =? 129) && (code c =? 159))
  || ((code a =? 227) && (code b =? 128) && (code c =? 128)).

Fixpoint trim_left_space (s : string) : string :=
  match s with
  | EmptyString => EmptyString
  | String a r =>
      if space1 a then trim_left_space r else
      match r with
      | EmptyString => s
      | String b r2 =>
          if space2 a b then trim_left_space r2 else
          match r2 with
          | EmptyString => s
          | String c r3 => if space3 a b c then trim_left_space r3 else s
          end
      end
  end.

(** [strings.TrimSpace(s) == ""] *)
Definition is_blank (s : string) : bool := String.eqb (trim_left_space s) EmptyString.
