(* ===== verification/Proto.v ===== *)
(** * The Hazelcast Go client's protocol package, as an interface

    The codecs of src/internal/protocol/codec are written against the package
    [github.com/hazelcast/hazelcast-go-client] (imported there as [proto] and
    [iserialization]), which is not part of the repository.  Everything they
    use of it is a field of the class [Proto]: the model is parametric in it.
    [ProtoLaws] states what the codecs rely on, in terms of two views, the
    frames of a message and the frames an iterator has still to deliver.
    [RefProto] is a concrete instance satisfying the laws; it is used only to
    evaluate witnesses.

    The encoder and decoder monads of the codec layer are defined here. *)

From S2P Require Import Prelude.

Class Proto := {
  Frame : Type;
  ClientMessage : Type;
  ForwardFrameIterator : Type;
  UUID : Type;
  Address : Type;
  (* sizes and offsets of the fixed part of a frame *)
  ByteSizeInBytes : Z;
  BooleanSizeInBytes : Z;
  IntSizeInBytes : Z;
  LongSizeInBytes : Z;
  UuidSizeInBytes : Z;
  PartitionIDOffset : Z;
  ResponseBackupAcksOffset : Z;
  UnfragmentedMessage : Z;
  (* frames; [Content] is an exported field, which the codecs write through *)
  NewFrame : list byte -> Frame;
  NewFrameWith : list byte -> Z -> Frame;
  Content : Frame -> list byte;
  SetContent : Frame -> list byte -> Frame;
  Copy : Frame -> Frame;
  NullFrame : Frame;
  BeginFrame : Frame;
  EndFrame : Frame;
  IsNullFrame : Frame -> bool;
  IsBeginFrame : Frame -> bool;
  IsEndFrame : Frame -> bool;
  (* messages *)
  NewClientMessageForEncode : ClientMessage;
  SetRetryable : ClientMessage -> bool -> ClientMessage;
  SetMessageType : ClientMessage -> Z -> ClientMessage;
  SetPartitionId : ClientMessage -> Z -> ClientMessage;
  AddFrame : ClientMessage -> Frame -> ClientMessage;
  (* iterators: [Next] and [PeekNext] return a frame pointer, [None] is nil *)
  FrameIterator : ClientMessage -> ForwardFrameIterator;
  HasNext : ForwardFrameIterator -> bool;
  Next : ForwardFrameIterator -> option Frame * ForwardFrameIterator;
  PeekNext : ForwardFrameIterator -> option Frame;
  (* serialized data: a byte slice with a method *)
  ToByteArray : list byte -> list byte;
  (* UUIDs and addresses *)
  UUID_zero : UUID;
  UUID_Default : UUID -> bool;
  MostSignificantBits : UUID -> Z;
  LeastSignificantBits : UUID -> Z;
  NewUUIDWith : Z -> Z -> UUID;
  NewAddress : string -> Z -> Address;
}.

(** What the codecs rely on. *)
Class ProtoLaws (P : Proto) := {
  frames : ClientMessage -> list Frame;
  pending : ForwardFrameIterator -> list Frame;
  (* every size leaves room for the value it is the size of *)
  ByteSize_law : 1 <= ByteSizeInBytes;
  BooleanSize_law : 1 <= BooleanSizeInBytes;
  IntSize_law : 4 <= IntSizeInBytes;
  LongSize_law : 8 <= LongSizeInBytes;
  UuidSize_law : BooleanSizeInBytes + 2 * LongSizeInBytes <= UuidSizeInBytes;
  PartitionID_law : 0 <= PartitionIDOffset;
  ResponseBackupAcks_law : 0 <= ResponseBackupAcksOffset;
  (* frames carry their content and a kind *)
  Content_NewFrame c : Content (NewFrame c) = c;
  Content_NewFrameWith c fl : Content (NewFrameWith c fl) = c;
  Content_SetContent f c : Content (SetContent f c) = c;
  NewFrame_null c : IsNullFrame (NewFrame c) = false;
  NewFrame_begin c : IsBeginFrame (NewFrame c) = false;
  NewFrame_end c : IsEndFrame (NewFrame c) = false;
  SetContent_null f c : IsNullFrame (SetContent f c) = IsNullFrame f;
  SetContent_begin f c : IsBeginFrame (SetContent f c) = IsBeginFrame f;
  SetContent_end f c : IsEndFrame (SetContent f c) = IsEndFrame f;
  Null_null : IsNullFrame (Copy NullFrame) = true;
  Null_begin : IsBeginFrame (Copy NullFrame) = false;
  Null_end : IsEndFrame (Copy NullFrame) = false;
  Begin_null : IsNullFrame (Copy BeginFrame) = false;
  Begin_begin : IsBeginFrame (Copy BeginFrame) = true;
  Begin_end : IsEndFrame (Copy BeginFrame) = false;
  End_null : IsNullFrame (Copy EndFrame) = false;
  End_begin : IsBeginFrame (Copy EndFrame) = false;
  End_end : IsEndFrame (Copy EndFrame) = true;
  (* messages are sequences of frames *)
  frames_New : frames NewClientMessageForEncode = [];
  frames_SetRetryable m b : frames (SetRetryable m b) = frames m;
  frames_AddFrame m f : frames (AddFrame m f) = frames m ++ [f];
  (* the header setters write below the end of the partition id of frame 0 *)
  frames_SetMessageType m t f fs : frames m = f :: fs ->
    exists f', frames (SetMessageType m t) = f' :: fs /\
      len (Content f') = len (Content f) /\
      (forall o n, PartitionIDOffset + IntSizeInBytes <= o ->
         get_bytes (Content f') o n = get_bytes (Content f) o n);
  frames_SetPartitionId m p f fs : frames m = f :: fs ->
    exists f', frames (SetPartitionId m p) = f' :: fs /\
      len (Content f') = len (Content f) /\
      (forall o n, PartitionIDOffset + IntSizeInBytes <= o ->
         get_bytes (Content f') o n = get_bytes (Content f) o n);
  (* iterators deliver the frames in order *)
  pending_FrameIterator m : pending (FrameIterator m) = frames m;
  HasNext_law it : HasNext it = match pending it with [] => false | _ => true end;
  Next_law it f fs : pending it = f :: fs ->
    exists it', Next it = (Some f, it') /\ pending it' = fs;
  PeekNext_law it f fs : pending it = f :: fs -> PeekNext it = Some f;
  ToByteArray_law d : ToByteArray d = d;
  (* UUIDs *)
  UUID_Default_law u : UUID_Default u = true <-> u = UUID_zero;
  UUID_msb_range u : is_uint 64 (MostSignificantBits u);
  UUID_lsb_range u : is_uint 64 (LeastSignificantBits u);
  UUID_eta u : NewUUIDWith (MostSignificantBits u) (LeastSignificantBits u) = u;
}.

(** ** Encoders

    [func EncodeX(message *proto.ClientMessage, x X)] mutates the message:
    [EncodeX x : Enc]. *)

Section Monads.
Context `{P : Proto}.

Definition Enc : Type := ClientMessage -> res ClientMessage.

Definition enc_nop : Enc := fun m => Ret m.
Definition enc_seq (e1 e2 : Enc) : Enc := fun m => bind_res (e1 m) e2.
Definition enc_frame (f : Frame) : Enc := fun m => Ret (AddFrame m f).
(** A computation that may panic before the message is touched further. *)
Definition enc_with {A} (r : res A) (k : A -> Enc) : Enc := fun m => bind_res r (fun a => k a m).

Fixpoint enc_each {A} (f : A -> Enc) (l : list A) : Enc :=
  match l with
  | [] => enc_nop
  | x :: l => enc_seq (f x) (enc_each f l)
  end.

(** ** Decoders

    [func DecodeX(it *proto.ForwardFrameIterator) X] advances the iterator.
    The first argument is the fuel of the loops inside. *)

Definition Dec (A : Type) : Type := nat -> ForwardFrameIterator -> res (A * ForwardFrameIterator).

Definition dec_ret {A} (a : A) : Dec A := fun _ it => Ret (a, it).
Definition dec_bind {A B} (d : Dec A) (k : A -> Dec B) : Dec B :=
  fun n it => bind_res (d n it) (fun p => k p.1 n p.2).
Definition dec_lift {A} (r : res A) : Dec A := fun _ it => bind_res r (fun a => Ret (a, it)).

(** [it.Next()], result unused or used as a pointer. *)
Definition dec_next : Dec (option Frame) := fun _ it => Ret (Next it).
(** Dereferencing a frame pointer: nil panics. *)
Definition deref (f : option Frame) : res Frame :=
  match f with Some f => Ret f | None => Panic end.
(** [it.Next()], result dereferenced. *)
Definition dec_frame : Dec Frame := dec_bind dec_next (fun f => dec_lift (deref f)).
(** [it.PeekNext()], result dereferenced. *)
Definition dec_peek : Dec Frame := fun _ it => bind_res (deref (PeekNext it)) (fun f => Ret (f, it)).

End Monads.

Notation "e1 >>> e2" := (enc_seq e1 e2) (at level 62, right associativity) : go_scope.
Notation "x <~ d ;; k" := (dec_bind d (fun x => k))
  (at level 100, d at next level, right associativity) : go_scope.
Notation "d ;;; k" := (dec_bind d (fun _ => k))
  (at level 100, right associativity) : go_scope.

(** ** A concrete instance, for evaluation *)

Module RefProto.

Inductive kind := KData | KNull | KBegin | KEnd.

Record frame := mkFrame { f_kind : kind; f_flags : Z; f_content : list byte }.
Record message := mkMessage { m_retryable : bool; m_frames : list frame }.

(** Message type at offset 0, partition id at offset 12 of the first frame. *)
Definition write_header (m : message) (off v : Z) : message :=
  match m_frames m with
  | [] => m
  | f :: fs =>
      match put_bytes (f_content f) off (le_bytes 4 v) with
      | Ret c => mkMessage (m_retryable m) (mkFrame (f_kind f) (f_flags f) c :: fs)
      | _ => m
      end
  end.

Definition kind_is (k : kind) (f : frame) : bool :=
  match k, f_kind f with
  | KNull, KNull | KBegin, KBegin | KEnd, KEnd => true
  | _, _ => false
  end.

(** Two 64-bit halves. *)
Definition uuid_ok (p : Z * Z) : Prop :=
  (uwrap 64 p.1 =? p.1) && (uwrap 64 p.2 =? p.2) = true.
Definition uuid : Type := { p : Z * Z | uuid_ok p }.

Lemma uuid_ok_wrap h l : uuid_ok (uwrap 64 h, uwrap 64 l).
Proof. unfold uuid_ok, uwrap; simpl. by rewrite !Zmod_mod, !Z.eqb_refl. Qed.

Definition mk_uuid (h l : Z) : uuid := exist _ _ (uuid_ok_wrap h l).

Lemma uuid_eq (u v : uuid) : `u = `v -> u = v.
Proof.
  destruct u as [p Hp], v as [q Hq]. simpl. intros ->. f_equal.
  apply (eq_pi _ _).
Qed.

#[global] Instance ref : Proto := {|
  Frame := frame; ClientMessage := message; ForwardFrameIterator := list frame;
  UUID := uuid; Address := string * Z;
  ByteSizeInBytes := 1; BooleanSizeInBytes := 1; IntSizeInBytes := 4;
  LongSizeInBytes := 8; UuidSizeInBytes := 17;
  PartitionIDOffset := 12; ResponseBackupAcksOffset := 12;
  UnfragmentedMessage := 49152;
  NewFrame c := mkFrame KData 0 c;
  NewFrameWith c fl := mkFrame KData fl c;
  Content := f_content;
  SetContent f c := mkFrame (f_kind f) (f_flags f) c;
  Copy f := f;
  NullFrame := mkFrame KNull 1024 [];
  BeginFrame := mkFrame KBegin 4096 [];
  EndFrame := mkFrame KEnd 2048 [];
  IsNullFrame := kind_is KNull;
  IsBeginFrame := kind_is KBegin;
  IsEndFrame := kind_is KEnd;
  NewClientMessageForEncode := mkMessage false [];
  SetRetryable m b := mkMessage b (m_frames m);
  SetMessageType m t := write_header m 0 t;
  SetPartitionId m p := write_header m 12 p;
  AddFrame m f := mkMessage (m_retryable m) (m_frames m ++ [f]);
  FrameIterator := m_frames;
  HasNext it := match it with [] => false | _ => true end;
  Next it := match it with [] => (None, []) | f :: fs => (Some f, fs) end;
  PeekNext it := match it with [] => None | f :: _ => Some f end;
  ToByteArray d := d;
  UUID_zero := mk_uuid 0 0;
  UUID_Default u := ((`u).1 =? 0) && ((`u).2 =? 0);
  MostSignificantBits u := (`u).1;
  LeastSignificantBits u := (`u).2;
  NewUUIDWith := mk_uuid;
  NewAddress h p := (h, p);
|}.

Lemma uuid_range (u : uuid) : is_uint 64 (`u).1 /\ is_uint 64 (`u).2.
Proof.
  destruct u as [[h l] H]. unfold uuid_ok in H. simpl in *.
  apply andb_true_iff in H as [<-%Z.eqb_eq <-%Z.eqb_eq].
  split; apply Z.mod_pos_bound; lia.
Qed.

Lemma uuid_default (u : uuid) :
  (((`u).1 =? 0) && ((`u).2 =? 0) = true) <-> u = mk_uuid 0 0.
Proof.
  rewrite andb_true_iff, !Z.eqb_eq. split.
  - intros [H1 H2]. apply uuid_eq. destruct u as [[h l] H]. simpl in *. by subst.
  - intros ->. done.
Qed.

Lemma uuid_eta (u : uuid) : mk_uuid (`u).1 (`u).2 = u.
Proof.
  apply uuid_eq. destruct u as [[h l] H]. unfold uuid_ok in H. simpl in *.
  apply andb_true_iff in H as [H1%Z.eqb_eq H2%Z.eqb_eq]. by rewrite H1, H2.
Qed.

Lemma write_header_frames m off v f fs :
  0 <= off -> off + 4 <= 16 -> m_frames m = f :: fs ->
  exists f', m_frames (write_header m off v) = f' :: fs /\
    len (f_content f') = len (f_content f) /\
    (forall o n, 16 <= o -> get_bytes (f_content f') o n = get_bytes (f_content f) o n).
Proof.
  intros H0 H4 Hm. unfold write_header. rewrite Hm. unfold put_bytes.
  destruct (in_slice _ _ _) eqn:E; [|eauto].
  assert (len (le_bytes 4 v) = 4) as Hl by (unfold len; by rewrite length_le_bytes).
  apply in_slice_true in E. fold (len (le_bytes 4 v)) in E.
  eexists; split; [done|]; cbn [f_content].
  split; [apply len_splice; lia|].
  intros o n Ho. apply get_bytes_splice_other; lia.
Qed.

#[global] Instance ref_laws : ProtoLaws ref.
Proof.
  refine {| frames := (m_frames : @ClientMessage ref -> list (@Frame ref));
            pending := (fun it => it : list (@Frame ref)) |}; simpl; try done; try lia.
  - intros m t f fs H. apply write_header_frames; [lia|lia|done].
  - intros m t f fs H. apply write_header_frames; [lia|lia|done].
  - intros it f fs ->. eauto.
  - by intros it f fs ->.
  - apply uuid_default.
  - intros u. apply uuid_range.
  - intros u. apply uuid_range.
  - apply uuid_eta.
Defined.

End RefProto.
