(* ===== verification/CodecBuiltin.v ===== *)
(** * Built-in codecs (src/internal/protocol/codec/builtin.go)

    Fixed-width values written into and read from the content of a frame,
    strings, serialized data, string maps, lists, and the null/begin/end frame
    protocol that delimits structures.  A nil slice or map is [None]. *)

From S2P Require Import Prelude Proto.

#[local] Open Scope go_scope.

(** Iteration over a Go map visits the entries in an unspecified order. *)
Class MapRange := {
  range : gmap string string -> list (string * string);
  range_perm m : range m ≡ₚ map_to_list m;
}.

#[global] Instance map_range_default : MapRange :=
  {| range := map_to_list; range_perm m := reflexivity _ |}.

Section Builtin.
Context `{P : Proto}.

(** [iserialization.Data]: nil or bytes. *)
Definition Data : Type := option (list byte).
Definition data_bytes (d : Data) : list byte := default [] d.

(** ** Fixed-width values *)

Definition EncodeBoolean (buffer : list byte) (offset : Z) (value : bool) : res (list byte) :=
  if value then put_bytes buffer offset [byte_of_Z 1] else put_bytes buffer offset [byte_of_Z 0].

Definition DecodeBoolean (buffer : list byte) (offset : Z) : res bool :=
  bs <-! get_bytes buffer offset 1 ;; Ret (le_val bs =? 1).

Definition EncodeByte (buffer : list byte) (offset : Z) (value : byte) : res (list byte) :=
  put_bytes buffer offset [value].

Definition DecodeByte (buffer : list byte) (offset : Z) : res byte :=
  bs <-! get_bytes buffer offset 1 ;; Ret (default x00 (head bs)).

Definition EncodeShort (buffer : list byte) (offset value : Z) : res (list byte) :=
  put_bytes buffer offset (le_bytes 2 (uint16 value)).

Definition DecodeShort (buffer : list byte) (offset : Z) : res Z :=
  bs <-! get_bytes buffer offset 2 ;; Ret (int16 (le_val bs)).

Definition EncodeInt (buffer : list byte) (offset value : Z) : res (list byte) :=
  put_bytes buffer offset (le_bytes 4 (uint32 value)).

Definition DecodeInt (buffer : list byte) (offset : Z) : res Z :=
  bs <-! get_bytes buffer offset 4 ;; Ret (int32 (le_val bs)).

Definition EncodeLong (buffer : list byte) (offset value : Z) : res (list byte) :=
  put_bytes buffer offset (le_bytes 8 (uint64 value)).

Definition DecodeLong (buffer : list byte) (offset : Z) : res Z :=
  bs <-! get_bytes buffer offset 8 ;; Ret (int64 (le_val bs)).

Definition EncodeUUID (buffer : list byte) (offset : Z) (uuid : UUID) : res (list byte) :=
  let isNullEncode := UUID_Default uuid in
  buffer <-! EncodeBoolean buffer offset isNullEncode ;;
  if isNullEncode then Ret buffer else
  let bufferOffset := offset + BooleanSizeInBytes in
  buffer <-! EncodeLong buffer bufferOffset (int64 (MostSignificantBits uuid)) ;;
  EncodeLong buffer (bufferOffset + LongSizeInBytes) (int64 (LeastSignificantBits uuid)).

Definition DecodeUUID (buffer : list byte) (offset : Z) : res UUID :=
  isNull <-! DecodeBoolean buffer offset ;;
  if isNull : bool then Ret UUID_zero else
  let mostSignificantOffset := offset + BooleanSizeInBytes in
  let leastSignificantOffset := mostSignificantOffset + LongSizeInBytes in
  mostSignificant <-! DecodeLong buffer mostSignificantOffset ;;
  leastSignificant <-! DecodeLong buffer leastSignificantOffset ;;
  Ret (NewUUIDWith (uint64 mostSignificant) (uint64 leastSignificant)).

(** Writing through [initialFrame.Content]. *)
Definition write_content (f : Frame) (w : list byte -> res (list byte)) : res Frame :=
  c <-! w (Content f) ;; Ret (SetContent f c).

(** ** Strings, data and byte arrays *)

Definition EncodeString (value : string) : Enc := enc_frame (NewFrame (bytes_of_string value)).

Definition DecodeString : Dec string :=
  f <~ dec_frame ;; dec_ret (string_of_bytes (Content f)).

Definition EncodeNullableForString (value : string) : Enc :=
  if is_blank value then enc_frame (Copy NullFrame) else EncodeString value.

(** [value interface{}] is nil only when no value was boxed at all. *)
Definition EncodeNullable {A} (value : option A) (encoder : A -> Enc) : Enc :=
  match value with
  | None => enc_frame (Copy NullFrame)
  | Some v => encoder v
  end.

Definition EncodeData (value : Data) : Enc :=
  enc_frame (NewFrame (ToByteArray (data_bytes value))).

Definition EncodeNullableForData (data : Data) : Enc :=
  match data with
  | None => enc_frame (Copy NullFrame)
  | Some _ => EncodeData data
  end.

Definition EncodeNullableData (data : Data) : Enc :=
  match data with
  | None => enc_frame (Copy NullFrame)
  | Some _ => enc_frame (NewFrame (ToByteArray (data_bytes data)))
  end.

Definition DecodeData : Dec Data := f <~ dec_frame ;; dec_ret (Some (Content f)).

Definition NextFrameIsNullFrame : Dec bool :=
  f <~ dec_peek ;;
  if IsNullFrame f then (dec_next ;;; dec_ret true) else dec_ret false.

Definition DecodeNullableForData : Dec Data :=
  isNull <~ NextFrameIsNullFrame ;;
  if isNull : bool then dec_ret (Some []) else DecodeData.

Definition DecodeNullableData : Dec Data :=
  isNull <~ NextFrameIsNullFrame ;;
  if isNull : bool then dec_ret (Some []) else DecodeData.

Definition DecodeNullableForString : Dec string :=
  isNull <~ NextFrameIsNullFrame ;;
  if isNull : bool then dec_ret EmptyString else DecodeString.

Definition EncodeByteArray (value : list byte) : Enc := enc_frame (NewFrame value).

Definition EncodeNullableForByteArray (data : list byte) : Enc :=
  if decide (len data = 0) then enc_frame (Copy NullFrame) else EncodeByteArray data.

Definition NextFrameIsDataStructureEndFrame : Dec bool :=
  f <~ dec_peek ;; dec_ret (IsEndFrame f).

(** ** Skipping to the end of a structure *)

Fixpoint fast_forward (k : nat) (expectedEndFrames : Z) : Dec unit :=
  match k with
  | O => fun _ _ => OutOfFuel
  | S k =>
      if expectedEndFrames =? 0 then dec_ret tt else
      frame <~ dec_frame ;;
      if IsEndFrame frame then fast_forward k (expectedEndFrames - 1)
      else if IsBeginFrame frame then fast_forward k (expectedEndFrames + 1)
      else fast_forward k expectedEndFrames
  end.

Definition FastForwardToEndFrame : Dec unit := fun n it => fast_forward n 1 n it.

(** ** Lists

    [for !stop(it) { result = append(result, decoder(it)) }] *)

Fixpoint collect_loop {A} (stop : Dec bool) (decoder : Dec A) (k : nat) (result : list A) : Dec (list A) :=
  match k with
  | O => fun _ _ => OutOfFuel
  | S k =>
      b <~ stop ;;
      if b : bool then dec_ret result
      else (x <~ decoder ;; collect_loop stop decoder k (result ++ [x]))
  end.

(** [var xs []T] is nil until something is appended to it. *)
Definition nil_if_empty {A} (l : list A) : option (list A) :=
  match l with [] => None | _ => Some l end.

(** [DecodeListMultiFrame(it, func(it) { result = append(result, decoder(it)) })] *)
Definition DecodeListMultiFrame {A} (decoder : Dec A) : Dec (list A) :=
  dec_next ;;;
  result <~ (fun n it => collect_loop NextFrameIsDataStructureEndFrame decoder n [] n it) ;;
  dec_next ;;;
  dec_ret result.

Definition EncodeListMultiFrame {A} (encoder : A -> Enc) (values : list A) : Enc :=
  enc_frame (Copy BeginFrame) >>> enc_each encoder values >>> enc_frame (Copy EndFrame).

Definition EncodeListMultiFrameForString (values : list string) : Enc :=
  EncodeListMultiFrame EncodeString values.

Definition EncodeNullableListMultiFrameForString (values : option (list string)) : Enc :=
  match values with
  | None => enc_frame (Copy NullFrame)
  | Some l => EncodeListMultiFrameForString l
  end.

Definition DecodeListMultiFrameForString : Dec (list string) := DecodeListMultiFrame DecodeString.

Definition DecodeNullableListMultiFrameForString : Dec (option (list string)) :=
  isNull <~ NextFrameIsNullFrame ;;
  if isNull : bool then dec_ret None
  else (l <~ DecodeListMultiFrameForString ;; dec_ret (Some l)).

Definition EncodeListMultiFrameForData (values : list Data) : Enc :=
  EncodeListMultiFrame EncodeData values.

(** The loops of the next two functions run while the next frame IS the end
    frame: [for NextFrameIsDataStructureEndFrame(it) {...}]. *)
Definition NextFrameIsNotEnd : Dec bool := b <~ NextFrameIsDataStructureEndFrame ;; dec_ret (negb b).

Definition DecodeEntryListForDataAndData : Dec (list (Data * Data)) :=
  dec_next ;;;
  result <~ (fun n it => collect_loop NextFrameIsNotEnd
               (key <~ DecodeData ;; value <~ DecodeData ;; dec_ret (key, value)) n [] n it) ;;
  dec_next ;;;
  dec_ret result.

Definition EncodeEntryListForDataAndData (entries : list (Data * Data)) : Enc :=
  EncodeListMultiFrame (fun e => EncodeData e.1 >>> EncodeData e.2) entries.

Definition DecodeListMultiFrameForDataContainsNullable : Dec (list Data) :=
  dec_next ;;;
  result <~ (fun n it => collect_loop NextFrameIsNotEnd
               (isNull <~ NextFrameIsNullFrame ;;
                if isNull : bool then dec_ret None else DecodeData) n [] n it) ;;
  dec_next ;;;
  dec_ret result.

(** ** String maps *)

Context `{R : MapRange}.

Definition EncodeMapForStringAndString (values : gmap string string) : Enc :=
  EncodeListMultiFrame (fun kv => EncodeString kv.1 >>> EncodeString kv.2) (range values).

Definition EncodeNullableMapForStringAndString (values : option (gmap string string)) : Enc :=
  match values with
  | None => enc_frame (Copy NullFrame)
  | Some m => EncodeMapForStringAndString m
  end.

Definition DecodeMapForStringAndString : Dec (gmap string string) :=
  dec_next ;;;
  kvs <~ (fun n it => collect_loop NextFrameIsDataStructureEndFrame
            (key <~ DecodeString ;; value <~ DecodeString ;; dec_ret (key, value)) n [] n it) ;;
  dec_next ;;;
  dec_ret (foldl (fun m kv => <[kv.1 := kv.2]> m) ∅ kvs).

Definition DecodeNullableMapForStringAndString : Dec (option (gmap string string)) :=
  isNull <~ NextFrameIsNullFrame ;;
  if isNull : bool then dec_ret None
  else (m <~ DecodeMapForStringAndString ;; dec_ret (Some m)).

(** [DecodeLongArray]: the content of one frame as 64-bit integers. *)
Definition DecodeLongArray : Dec (list Z) :=
  frame <~ dec_frame ;;
  let itemCount := len (Content frame) / LongSizeInBytes in
  dec_lift (foldr (fun i acc =>
              x <-! DecodeLong (Content frame) (int32 (Z.of_nat i * LongSizeInBytes)) ;;
              l <-! acc ;; Ret (x :: l))
            (Ret []) (seq 0 (Z.to_nat itemCount))).

(** ** The deprecated method forms

    [FixSizedTypesCodec] and [CodecUtil] repeat some of the functions above as
    methods of empty structs. *)

Definition FixSizedTypesCodec_EncodeBoolean := EncodeBoolean.
Definition FixSizedTypesCodec_DecodeBoolean := DecodeBoolean.

Definition FixSizedTypesCodec_EncodeByte (buffer : list byte) (offset : Z) (value : byte) : res (list byte) :=
  put_bytes buffer offset [value].

Definition FixSizedTypesCodec_DecodeByte (buffer : list byte) (offset : Z) : res byte :=
  bs <-! get_bytes buffer offset 1 ;; Ret (default x00 (head bs)).

Definition FixSizedTypesCodec_EncodeLong (buffer : list byte) (offset value : Z) : res (list byte) :=
  put_bytes buffer offset (le_bytes 8 (uint64 value)).

Definition FixSizedTypesCodec_DecodeLong (buffer : list byte) (offset : Z) : res Z :=
  bs <-! get_bytes buffer offset 8 ;; Ret (int64 (le_val bs)).

Definition FixSizedTypesCodec_DecodeInt (buffer : list byte) (offset : Z) : res Z :=
  bs <-! get_bytes buffer offset 4 ;; Ret (int32 (le_val bs)).

Definition FixSizedTypesCodec_EncodeUUID (buffer : list byte) (offset : Z) (uuid : UUID) : res (list byte) :=
  let isNullEncode := UUID_Default uuid in
  buffer <-! FixSizedTypesCodec_EncodeBoolean buffer offset isNullEncode ;;
  if isNullEncode then Ret buffer else
  let bufferOffset := offset + BooleanSizeInBytes in
  buffer <-! FixSizedTypesCodec_EncodeLong buffer bufferOffset (int64 (MostSignificantBits uuid)) ;;
  FixSizedTypesCodec_EncodeLong buffer (bufferOffset + LongSizeInBytes) (int64 (LeastSignificantBits uuid)).

Definition FixSizedTypesCodec_DecodeUUID (buffer : list byte) (offset : Z) : res UUID :=
  isNull <-! FixSizedTypesCodec_DecodeBoolean buffer offset ;;
  if isNull : bool then Ret UUID_zero else
  let mostSignificantOffset := offset + BooleanSizeInBytes in
  let leastSignificantOffset := mostSignificantOffset + LongSizeInBytes in
  mostSignificant <-! FixSizedTypesCodec_DecodeLong buffer mostSignificantOffset ;;
  leastSignificant <-! FixSizedTypesCodec_DecodeLong buffer leastSignificantOffset ;;
  Ret (NewUUIDWith (uint64 mostSignificant) (uint64 leastSignificant)).

Definition CodecUtil_EncodeNullableForString (value : string) : Enc :=
  if is_blank value then enc_frame (Copy NullFrame) else EncodeString value.

(** The same loop as [FastForwardToEndFrame]. *)
Definition CodecUtil_FastForwardToEndFrame : Dec unit := fun n it => fast_forward n 1 n it.

(** [DecodeNullableForLongArray] *)
Definition CodecUtil_DecodeNullableForLongArray : Dec (option (list Z)) :=
  isNull <~ NextFrameIsNullFrame ;;
  if isNull : bool then dec_ret None else (l <~ DecodeLongArray ;; dec_ret (Some l)).

End Builtin.

Notation "& f <<= w ;; k" := (enc_with (write_content f w) (fun f => k))
  (at level 100, f name, w at next level, right associativity) : go_scope.
