(* ===== verification/CodecWire.v ===== *)
(** * Wire relations: an encoder and a decoder in lockstep

    [Emits e fs]: encoder [e] appends exactly the frames [fs].
    [Parses d fs v]: on an iterator whose next frames are [fs], decoder [d]
    returns [v] and stops right after [fs], whatever follows.
    [Wire e d v]: some non-empty, well-bracketed sequence of frames is both
    emitted by [e] and parsed by [d] to [v].  [Body] is the same for the part
    of a structure up to its end frame, with unknown trailing frames allowed.

    The rules below walk through an encoder and a decoder side by side. *)

From S2P Require Import Prelude Proto CodecBuiltin.

#[local] Open Scope go_scope.

Section Wire.
Context `{P : Proto} `{!ProtoLaws P}.

Definition Emits (e : Enc) (fs : list Frame) : Prop :=
  forall m, exists m', e m = Ret m' /\ frames m' = frames m ++ fs.

Definition Parses {A} (d : Dec A) (fs : list Frame) (v : A) : Prop :=
  forall n it rest, pending it = fs ++ rest -> (length fs < n)%nat ->
    exists it', d n it = Ret (v, it') /\ pending it' = rest.

(** Well-bracketed sequences of frames. *)
Inductive balanced : list Frame -> Prop :=
| bal_nil : balanced []
| bal_data f fs : IsBeginFrame f = false -> IsEndFrame f = false ->
    balanced fs -> balanced (f :: fs)
| bal_nest b fs e gs : IsBeginFrame b = true -> IsEndFrame b = false -> balanced fs ->
    IsEndFrame e = true -> balanced gs -> balanced (b :: fs ++ e :: gs).

Lemma balanced_app fs gs : balanced fs -> balanced gs -> balanced (fs ++ gs).
Proof.
  intros Hf Hg. induction Hf; simpl; [done| |].
  - by apply bal_data.
  - rewrite <-app_assoc. simpl. by apply bal_nest.
Qed.

Lemma balanced_one f : IsBeginFrame f = false -> IsEndFrame f = false -> balanced [f].
Proof. intros. apply bal_data; auto using bal_nil. Qed.

Lemma balanced_struct fs : balanced fs -> balanced (Copy BeginFrame :: fs ++ [Copy EndFrame]).
Proof.
  intros. apply bal_nest; auto using bal_nil, Begin_begin, Begin_end, End_end.
Qed.

Definition Wire {A} (e : Enc) (d : Dec A) (v : A) : Prop :=
  exists f fs, IsEndFrame f = false /\ balanced (f :: fs) /\
    Emits e (f :: fs) /\ Parses d (f :: fs) v.

(** A value whose encoding cannot be taken for a null frame. *)
Definition WireNN {A} (e : Enc) (d : Dec A) (v : A) : Prop :=
  exists f fs, IsEndFrame f = false /\ IsNullFrame f = false /\ balanced (f :: fs) /\
    Emits e (f :: fs) /\ Parses d (f :: fs) v.

Definition Body {A} (e : Enc) (d : Dec A) (v : A) : Prop :=
  exists fs, balanced fs /\ Emits e (fs ++ [Copy EndFrame]) /\
    forall extra, balanced extra -> Parses d (fs ++ extra ++ [Copy EndFrame]) v.

Lemma WireNN_Wire {A} e (d : Dec A) v : WireNN e d v -> Wire e d v.
Proof. intros (f & fs & ? & _ & ? & ? & ?). by exists f, fs. Qed.

(** ** Emission *)

Lemma emits_nop : Emits enc_nop [].
Proof. intros m. exists m. by rewrite app_nil_r. Qed.

Lemma emits_frame f : Emits (enc_frame f) [f].
Proof. intros m. eexists; split; [done|]. apply frames_AddFrame. Qed.

Lemma emits_seq e1 e2 fs1 fs2 : Emits e1 fs1 -> Emits e2 fs2 -> Emits (e1 >>> e2) (fs1 ++ fs2).
Proof.
  intros H1 H2 m. destruct (H1 m) as (m1 & E1 & F1), (H2 m1) as (m2 & E2 & F2).
  exists m2. unfold enc_seq. rewrite E1. simpl. by rewrite E2, F2, F1, app_assoc.
Qed.

Lemma emits_frame_seq f e fs : Emits e fs -> Emits (enc_frame f >>> e) (f :: fs).
Proof. intros. apply (emits_seq _ _ [f]); [apply emits_frame|done]. Qed.

Lemma emits_with {A} (r : res A) a (k : A -> Enc) fs :
  r = Ret a -> Emits (k a) fs -> Emits (enc_with r k) fs.
Proof. intros -> H m. apply H. Qed.

(** ** Parsing *)

Lemma parses_ret {A} (a : A) : Parses (dec_ret a) [] a.
Proof. intros n it rest H _. exists it. by rewrite H. Qed.

Lemma parses_bind {A B} (d : Dec A) (k : A -> Dec B) fs1 fs2 a b :
  Parses d fs1 a -> Parses (k a) fs2 b -> Parses (dec_bind d k) (fs1 ++ fs2) b.
Proof.
  intros H1 H2 n it rest Hp Hn. rewrite <-app_assoc in Hp. rewrite length_app in Hn.
  destruct (H1 n it _ Hp) as (it1 & E1 & Hp1); [lia|].
  destruct (H2 n it1 _ Hp1) as (it2 & E2 & Hp2); [lia|].
  exists it2. unfold dec_bind. rewrite E1. simpl. by rewrite E2.
Qed.

Lemma parses_next f : Parses dec_next [f] (Some f).
Proof.
  intros n it rest Hp _. destruct (Next_law it f rest Hp) as (it' & E & Hp').
  exists it'. unfold dec_next. by rewrite E.
Qed.

Lemma parses_lift {A} (r : res A) a : r = Ret a -> Parses (dec_lift r) [] a.
Proof. intros -> n it rest Hp _. exists it. by rewrite Hp. Qed.

Lemma parses_frame f : Parses dec_frame [f] f.
Proof. eapply (parses_bind _ _ [f] []); [apply parses_next|by apply parses_lift]. Qed.

(** Peeking: the rest of the decoder still sees the frame. *)
Lemma parses_peek {B} f fs (k : Frame -> Dec B) b :
  Parses (k f) (f :: fs) b -> Parses (f <~ dec_peek ;; k f) (f :: fs) b.
Proof.
  intros H n it rest Hp Hn. destruct (H n it rest Hp Hn) as (it' & E & Hp').
  exists it'. unfold dec_bind, dec_peek. by rewrite (PeekNext_law it f _ Hp).
Qed.

Lemma parses_bind_peek {A B} (k1 : Frame -> Dec A) (k2 : A -> Dec B) f fs b :
  Parses (dec_bind (k1 f) k2) (f :: fs) b ->
  Parses (dec_bind (dec_bind dec_peek k1) k2) (f :: fs) b.
Proof.
  intros H n it rest Hp Hn. destruct (H n it rest Hp Hn) as (it' & E & Hp').
  exists it'. split; [|done]. rewrite <-E.
  unfold dec_bind, dec_peek. by rewrite (PeekNext_law it f _ Hp).
Qed.

Lemma parses_not_null {B} (k : bool -> Dec B) f fs b :
  IsNullFrame f = false -> Parses (k false) (f :: fs) b ->
  Parses (dec_bind NextFrameIsNullFrame k) (f :: fs) b.
Proof. intros Hf H. apply parses_bind_peek. by rewrite Hf. Qed.

Lemma parses_null {B} (k : bool -> Dec B) f fs b :
  IsNullFrame f = true -> Parses (k true) fs b ->
  Parses (dec_bind NextFrameIsNullFrame k) (f :: fs) b.
Proof.
  intros Hf H. apply parses_bind_peek. rewrite Hf.
  apply (parses_bind _ _ [f] fs true); [|done].
  eapply (parses_bind _ _ [f] []); [apply parses_next|apply parses_ret].
Qed.

Lemma parses_stop {B} (k : bool -> Dec B) f fs b :
  Parses (k (IsEndFrame f)) (f :: fs) b ->
  Parses (dec_bind NextFrameIsDataStructureEndFrame k) (f :: fs) b.
Proof. intros H. by apply parses_bind_peek. Qed.

(** ** Fast forward

    From depth [d] the loop skips every well-bracketed frame, so from depth
    [1] it stops exactly after the end frame of the structure it is in. *)

Lemma dec_frame_ok n it f rest : pending it = f :: rest ->
  exists it', dec_frame n it = Ret (f, it') /\ pending it' = rest.
Proof.
  intros Hp. destruct (Next_law it f rest Hp) as (it' & E & Hp').
  exists it'. unfold dec_frame, dec_bind, dec_next. by rewrite E.
Qed.

Lemma fast_forward_step k d n it f rest : d <> 0 -> pending it = f :: rest ->
  exists it', pending it' = rest /\
    fast_forward (S k) d n it =
    fast_forward k (if IsEndFrame f then d - 1 else if IsBeginFrame f then d + 1 else d) n it'.
Proof.
  intros Hd Hp. destruct (dec_frame_ok n it f rest Hp) as (it' & E & Hp').
  exists it'. split; [done|]. cbn [fast_forward].
  rewrite (proj2 (Z.eqb_neq _ _) Hd). unfold dec_bind. rewrite E. simpl.
  destruct (IsEndFrame f); [done|]. by destruct (IsBeginFrame f).
Qed.

Lemma fast_forward_balanced fs : balanced fs ->
  forall k d n it rest, 0 < d -> pending it = fs ++ rest ->
  exists it', pending it' = rest /\
    fast_forward (length fs + k) d n it = fast_forward k d n it'.
Proof.
  induction 1 as [|f fs Hb He Hfs IH|b fs e gs Hb He Hfs IHfs Hend Hgs IHgs];
    intros k d n it rest Hd Hp.
  - by exists it.
  - destruct (fast_forward_step (length fs + k) d n it f (fs ++ rest))
      as (it1 & Hp1 & E1); [lia|done|].
    rewrite Hb, He in E1. simpl Nat.add. rewrite E1. by apply IH.
  - simpl in Hp. rewrite <-app_assoc in Hp. simpl in Hp.
    replace (length (b :: fs ++ e :: gs) + k)%nat
      with (S (length fs + S (length gs) + k))
      by (simpl; rewrite length_app; simpl; lia).
    destruct (fast_forward_step (length fs + S (length gs) + k) d n it b (fs ++ e :: gs ++ rest))
      as (it1 & Hp1 & ->); [lia|done|].
    rewrite Hb, He. rewrite <-Nat.add_assoc.
    destruct (IHfs (S (length gs) + k)%nat (d + 1) n it1 (e :: gs ++ rest))
      as (it2 & Hp2 & ->); [lia|done|].
    destruct (fast_forward_step (length gs + k) (d + 1) n it2 e (gs ++ rest))
      as (it3 & Hp3 & E3); [lia|done|].
    simpl Nat.add. rewrite E3, Hend. replace (d + 1 - 1) with d by lia. by apply IHgs.
Qed.

Lemma parses_fast_forward extra : balanced extra ->
  Parses FastForwardToEndFrame (extra ++ [Copy EndFrame]) tt.
Proof.
  intros Hx n it rest Hp Hn. rewrite <-app_assoc in Hp. rewrite length_app in Hn. simpl in *.
  unfold FastForwardToEndFrame.
  destruct (fast_forward_balanced extra Hx (n - length extra) 1 n it (Copy EndFrame :: rest))
    as (it1 & Hp1 & E1); [lia|done|].
  replace (length extra + (n - length extra))%nat with n in E1 by lia. rewrite E1.
  destruct (n - length extra)%nat as [|[|k]] eqn:Ek; [lia|lia|].
  destruct (fast_forward_step (S k) 1 n it1 (Copy EndFrame) rest) as (it2 & Hp2 & ->); [lia|done|].
  rewrite End_end. by exists it2.
Qed.

(** ** Rules for the body of a structure *)

Lemma body_end {A} (v : A) :
  Body (enc_frame (Copy EndFrame)) (FastForwardToEndFrame ;;; dec_ret v) v.
Proof.
  exists []. split; [constructor|]. split; [apply emits_frame|].
  intros extra Hx. rewrite <-(app_nil_r (_ ++ _ ++ _)).
  apply (parses_bind _ _ _ _ tt); [by apply parses_fast_forward|apply parses_ret].
Qed.

Lemma body_with {A B} (r : res A) a (k : A -> Enc) (d : Dec B) v :
  r = Ret a -> Body (k a) d v -> Body (enc_with r k) d v.
Proof.
  intros Hr (fs & Hb & He & Hp). exists fs. split; [done|]. split; [|done].
  by eapply emits_with.
Qed.

Lemma body_lift {A B} e (r : res A) a (k : A -> Dec B) v :
  r = Ret a -> Body e (k a) v -> Body e (dec_bind (dec_lift r) k) v.
Proof.
  intros Hr (fs & Hb & He & Hp). exists fs. split; [done|]. split; [done|].
  intros extra Hx. apply (parses_bind _ _ [] _ a); [by apply parses_lift|by apply Hp].
Qed.

Lemma body_frame {B} f e (k : Frame -> Dec B) v :
  IsBeginFrame f = false -> IsEndFrame f = false ->
  Body e (k f) v -> Body (enc_frame f >>> e) (dec_bind dec_frame k) v.
Proof.
  intros H1 H2 (fs & Hb & He & Hp). exists (f :: fs).
  split; [by apply bal_data|]. split; [by apply emits_frame_seq|].
  intros extra Hx. apply (parses_bind _ _ [f] _ f); [apply parses_frame|by apply Hp].
Qed.

Lemma body_field {A B} e1 (d1 : Dec A) a e2 (k : A -> Dec B) v :
  Wire e1 d1 a -> Body e2 (k a) v -> Body (e1 >>> e2) (dec_bind d1 k) v.
Proof.
  intros (f & gs & _ & Hbg & Heg & Hpg) (fs & Hb & He & Hp).
  exists ((f :: gs) ++ fs). split; [by apply balanced_app|].
  split; [rewrite <-app_assoc; by apply emits_seq|].
  intros extra Hx. rewrite <-app_assoc. eapply parses_bind; [done|by apply Hp].
Qed.

(** A field the decoder does not know: skipped by the fast forward. *)
Lemma body_unknown {A} e1 (d1 : Dec A) a e2 {B} (v : B) :
  Wire e1 d1 a -> Body e2 (FastForwardToEndFrame ;;; dec_ret v) v ->
  Body (e1 >>> e2) (FastForwardToEndFrame ;;; dec_ret v) v.
Proof.
  intros (f & gs & _ & Hbg & Heg & Hpg) (fs & Hb & He & Hp).
  exists ((f :: gs) ++ fs). split; [by apply balanced_app|].
  split; [rewrite <-app_assoc; by apply emits_seq|].
  intros extra Hx. rewrite app_assoc, <-(app_nil_r (_ ++ _)).
  apply (parses_bind _ _ _ _ tt); [|apply parses_ret].
  apply parses_fast_forward. auto using balanced_app.
Qed.

Lemma wire_struct {A} e (d : Dec A) v :
  Body e d v -> WireNN (enc_frame (Copy BeginFrame) >>> e) (dec_next ;;; d) v.
Proof.
  intros (fs & Hb & He & Hp). exists (Copy BeginFrame), (fs ++ [Copy EndFrame]).
  split; [apply Begin_end|]. split; [apply Begin_null|].
  split; [by apply balanced_struct|]. split; [by apply emits_frame_seq|].
  apply (parses_bind _ _ [Copy BeginFrame] _ (Some (Copy BeginFrame))); [apply parses_next|].
  apply (Hp []). constructor.
Qed.

(** The forward-compatible reading of [wire_struct]: well-bracketed frames a
    newer peer puts before the end frame do not change what is decoded. *)
Definition ForwardCompatible {A} (e : Enc) (d : Dec A) (v : A) : Prop :=
  exists fs, Emits e (Copy BeginFrame :: fs ++ [Copy EndFrame]) /\
    forall extra, balanced extra -> Parses d (Copy BeginFrame :: fs ++ extra ++ [Copy EndFrame]) v.

Lemma body_forward_compatible {A} e (d : Dec A) v :
  Body e d v -> ForwardCompatible (enc_frame (Copy BeginFrame) >>> e) (dec_next ;;; d) v.
Proof.
  intros (fs & Hb & He & Hp). exists fs. split; [by apply emits_frame_seq|].
  intros extra Hx.
  apply (parses_bind _ _ [Copy BeginFrame] _ (Some (Copy BeginFrame))); [apply parses_next|].
  by apply Hp.
Qed.

(** An encoder and a decoder of a begin/end delimited structure that agree. *)
Definition StructWire {A} (e : Enc) (d : Dec A) (v : A) : Prop :=
  exists e' d', e = (enc_frame (Copy BeginFrame) >>> e') /\ d = (dec_next ;;; d') /\ Body e' d' v.

Lemma StructWire_NN {A} e (d : Dec A) v : StructWire e d v -> WireNN e d v.
Proof. intros (e' & d' & -> & -> & H). by apply wire_struct. Qed.

Lemma StructWire_forward_compatible {A} e (d : Dec A) v :
  StructWire e d v -> ForwardCompatible e d v.
Proof. intros (e' & d' & -> & -> & H). by apply body_forward_compatible. Qed.

(** ** Single frames, nullable values *)

Lemma wire_one {A} f (d : Dec A) v :
  IsBeginFrame f = false -> IsEndFrame f = false -> Parses d [f] v -> Wire (enc_frame f) d v.
Proof.
  intros H1 H2 H. exists f, []. split; [done|]. split; [by apply balanced_one|].
  split; [apply emits_frame|done].
Qed.

Lemma wireNN_one {A} c (d : Dec A) v :
  Parses d [NewFrame c] v -> WireNN (enc_frame (NewFrame c)) d v.
Proof.
  intros H. exists (NewFrame c), []. split; [apply NewFrame_end|]. split; [apply NewFrame_null|].
  split; [apply balanced_one; [apply NewFrame_begin|apply NewFrame_end]|].
  split; [apply emits_frame|done].
Qed.

Lemma wire_null {A} (zero : A) (d : Dec A) :
  Wire (enc_frame (Copy NullFrame))
    (isNull <~ NextFrameIsNullFrame ;; if isNull : bool then dec_ret zero else d) zero.
Proof.
  apply wire_one; [apply Null_begin|apply Null_end|].
  apply parses_null; [apply Null_null|apply parses_ret].
Qed.

Lemma wire_not_null {A} (zero : A) e (d : Dec A) v :
  WireNN e d v ->
  Wire e (isNull <~ NextFrameIsNullFrame ;; if isNull : bool then dec_ret zero else d) v.
Proof.
  intros (f & fs & ? & ? & ? & ? & ?). exists f, fs. do 3 (split; [done|]).
  by apply parses_not_null.
Qed.

Lemma wireNN_map {A B} e (d : Dec A) v (g : A -> B) :
  WireNN e d v -> WireNN e (x <~ d ;; dec_ret (g x)) (g v).
Proof.
  intros (f & fs & ? & ? & ? & ? & ?). exists f, fs. do 4 (split; [done|]).
  rewrite <-(app_nil_r (f :: fs)). eapply parses_bind; [done|apply parses_ret].
Qed.

(** ** Lists *)

Lemma stop_ok n it f rest : pending it = f :: rest ->
  NextFrameIsDataStructureEndFrame n it = Ret (IsEndFrame f, it).
Proof.
  intros Hp. unfold NextFrameIsDataStructureEndFrame, dec_bind, dec_peek.
  by rewrite (PeekNext_law it f rest Hp).
Qed.

Lemma collect_loop_S {A} (stop : Dec bool) (d : Dec A) k acc n it b it' :
  stop n it = Ret (b, it') ->
  collect_loop stop d (S k) acc n it =
    if b then Ret (acc, it')
    else (x <~ d ;; collect_loop stop d k (acc ++ [x])) n it'.
Proof. intros E. simpl. unfold dec_bind at 1. rewrite E. by destruct b. Qed.

Lemma parses_loop {A} (enc : A -> Enc) (d : Dec A) (norm : A -> A) l :
  Forall (fun a => Wire (enc a) d (norm a)) l ->
  exists fs, balanced fs /\ (length l <= length fs)%nat /\ Emits (enc_each enc l) fs /\
    forall k acc, (length l < k)%nat ->
      forall n it rest, pending it = fs ++ Copy EndFrame :: rest -> (length fs < n)%nat ->
      exists it', collect_loop NextFrameIsDataStructureEndFrame d k acc n it =
                  Ret (acc ++ map norm l, it') /\ pending it' = Copy EndFrame :: rest.
Proof.
  induction 1 as [|a l (f & gs & Hf & Hbg & Heg & Hpg) _ (fs & Hb & Hl & He & Hp)].
  - exists []. split; [constructor|]. split; [done|]. split; [apply emits_nop|].
    intros k acc Hk n it rest Hpi _. destruct k as [|k]; [simpl in *; lia|]. exists it.
    rewrite (collect_loop_S _ _ _ _ _ _ _ _ (stop_ok n it _ _ Hpi)), End_end.
    by rewrite app_nil_r.
  - exists ((f :: gs) ++ fs). split; [by apply balanced_app|].
    split; [rewrite length_app; simpl; lia|]. split; [by apply emits_seq|].
    intros k acc Hk n it rest Hpi Hn. destruct k as [|k]; [simpl in *; lia|].
    rewrite length_app in Hn. rewrite <-app_assoc in Hpi.
    destruct (Hpg n it _ Hpi) as (it1 & E1 & Hp1); [lia|].
    destruct (Hp k (acc ++ [norm a])) with (n := n) (it := it1) (rest := rest)
      as (it2 & E2 & Hp2); [simpl in *; lia|done|lia|].
    exists it2. split; [|done]. rewrite <-app_assoc in E2. simpl map. etrans; [|exact E2].
    rewrite (collect_loop_S _ _ _ _ _ _ _ _ (stop_ok n it _ _ Hpi)), Hf.
    unfold dec_bind. by rewrite E1.
Qed.

Lemma wire_loop {A B} (enc : A -> Enc) (d : Dec A) (norm : A -> A) l (k : list A -> B) :
  Forall (fun a => Wire (enc a) d (norm a)) l ->
  WireNN (EncodeListMultiFrame enc l)
    (dec_next ;;;
     r <~ (fun n it => collect_loop NextFrameIsDataStructureEndFrame d n [] n it) ;;
     dec_next ;;; dec_ret (k r)) (k (map norm l)).
Proof.
  intros (fs & Hb & Hl & He & Hp)%parses_loop.
  exists (Copy BeginFrame), (fs ++ [Copy EndFrame]).
  split; [apply Begin_end|]. split; [apply Begin_null|]. split; [by apply balanced_struct|].
  split; [apply emits_frame_seq, emits_seq; [done|apply emits_frame]|].
  intros n it rest Hpi Hn. simpl in *. rewrite <-app_assoc in Hpi. rewrite length_app in Hn.
  destruct (Next_law it _ _ Hpi) as (it1 & E1 & Hp1).
  destruct (Hp n [] ltac:(lia) n it1 rest Hp1 ltac:(lia)) as (it2 & E2 & Hp2).
  destruct (Next_law it2 _ _ Hp2) as (it3 & E3 & Hp3).
  exists it3. split; [|done].
  unfold dec_bind at 1, dec_next at 1. rewrite E1. cbn.
  unfold dec_bind at 1. rewrite E2. cbn. unfold dec_bind, dec_next. by rewrite E3.
Qed.

Lemma wire_list {A} (enc : A -> Enc) (d : Dec A) (norm : A -> A) l :
  Forall (fun a => Wire (enc a) d (norm a)) l ->
  WireNN (EncodeListMultiFrame enc l) (DecodeListMultiFrame d) (map norm l).
Proof. apply (wire_loop enc d norm l (fun r => r)). Qed.

End Wire.
