(* ===== verification/CodecFacts.v ===== *)
(** * Round trips of the built-in codecs, and the automation for structures

    The fixed-size part of a structure is a frame whose content the encoder
    fills field by field at increasing offsets; [filled] records what has been
    written so far.  The tactic [struct_wire] proves that an encoder and a
    decoder of a structure agree by walking through both. *)

From S2P Require Import Prelude Proto CodecBuiltin CodecWire.

#[local] Open Scope go_scope.

Create HintDb wire.
Create HintDb offsets.

Section Facts.
Context `{P : Proto} `{!ProtoLaws P}.

(** ** Fixed-width values *)

Definition bool_bytes (b : bool) : list byte := if b then [byte_of_Z 1] else [byte_of_Z 0].

Lemma EncodeBoolean_put c off v : EncodeBoolean c off v = put_bytes c off (bool_bytes v).
Proof. by destruct v. Qed.

Lemma length_bool_bytes v : length (bool_bytes v) = 1%nat.
Proof. by destruct v. Qed.

Lemma DecodeBoolean_get c off v :
  get_bytes c off 1 = Ret (bool_bytes v) -> DecodeBoolean c off = Ret v.
Proof. unfold DecodeBoolean. intros ->. by destruct v. Qed.

Lemma DecodeByte_get c off v : get_bytes c off 1 = Ret [v] -> DecodeByte c off = Ret v.
Proof. unfold DecodeByte. by intros ->. Qed.

Lemma DecodeInt_get c off v : is_int32 v ->
  get_bytes c off 4 = Ret (le_bytes 4 (uint32 v)) -> DecodeInt c off = Ret v.
Proof.
  unfold DecodeInt. intros Hv ->. cbn [bind_res]. rewrite le_val_bytes_uwrap.
  change (8 * Z.of_nat 4) with 32. unfold uint32, int32.
  rewrite uwrap_uwrap, swrap_uwrap, swrap_id by (done || lia). done.
Qed.

Lemma DecodeLong_get c off v : is_int64 v ->
  get_bytes c off 8 = Ret (le_bytes 8 (uint64 v)) -> DecodeLong c off = Ret v.
Proof.
  unfold DecodeLong. intros Hv ->. cbn [bind_res]. rewrite le_val_bytes_uwrap.
  change (8 * Z.of_nat 8) with 64. unfold uint64, int64.
  rewrite uwrap_uwrap, swrap_uwrap, swrap_id by (done || lia). done.
Qed.

Lemma DecodeShort_get c off v : is_int16 v ->
  get_bytes c off 2 = Ret (le_bytes 2 (uint16 v)) -> DecodeShort c off = Ret v.
Proof.
  unfold DecodeShort. intros Hv ->. cbn [bind_res]. rewrite le_val_bytes_uwrap.
  change (8 * Z.of_nat 2) with 16. unfold uint16, int16.
  rewrite uwrap_uwrap, swrap_uwrap, swrap_id by (done || lia). done.
Qed.

(** ** Contents being filled

    [filled c lo size cur fields]: [c] has [size] bytes in which every
    [(offset, bytes)] of [fields] is stored, all of them between [lo] and
    [cur]. *)

Record filled (c : list byte) (lo size cur : Z) (fields : list (Z * list byte)) : Prop := {
  filled_size : len c = size;
  filled_lo : 0 <= lo;
  filled_cur : lo <= cur;
  filled_fields : Forall (fun p => get_bytes c p.1 (length p.2) = Ret p.2 /\
                                   lo <= p.1 /\ p.1 + len p.2 <= cur) fields;
}.

Definition data_frame (f : Frame) : Prop := IsBeginFrame f = false /\ IsEndFrame f = false.

Lemma filled_make c lo size : 0 <= lo -> 0 <= size -> c = make_bytes size ->
  filled c lo size lo [].
Proof. intros ? ? ->. split; [by apply len_make_bytes|lia..|constructor]. Qed.

Lemma filled_NewFrame n : 0 <= n -> filled (Content (NewFrame (make_bytes n))) 0 n 0 [].
Proof. intros. apply filled_make; [lia|done|apply Content_NewFrame]. Qed.

(** The initial frame of a message: its fields follow the message header. *)
Definition header_size : Z := PartitionIDOffset + IntSizeInBytes.

Lemma filled_NewFrameWith n fl : 0 <= n ->
  filled (Content (NewFrameWith (make_bytes n) fl)) header_size n header_size [].
Proof.
  intros. apply filled_make; [|done|apply Content_NewFrameWith].
  unfold header_size. pose proof PartitionID_law. pose proof IntSize_law. lia.
Qed.

(** Another content with the same bytes from [lo] on. *)
Lemma filled_same c c' lo size cur fields :
  filled c lo size cur fields -> len c' = len c ->
  (forall o n, lo <= o -> get_bytes c' o n = get_bytes c o n) ->
  filled c' lo size cur fields.
Proof.
  intros [Hs Hl Hc Hf] Hlen Hsame. split; [congruence|done..|].
  eapply Forall_impl; [exact Hf|]. intros [o b] (Hg & Ho & Ho'); simpl in *.
  by rewrite Hsame.
Qed.

Lemma filled_put c lo size cur fields off bs :
  filled c lo size cur fields -> cur <= off -> off + len bs <= size ->
  exists c', put_bytes c off bs = Ret c' /\
    filled c' lo size (off + len bs) ((off, bs) :: fields).
Proof.
  intros [Hs Hl Hc Hf] H1 H2. exists (splice c off bs).
  split; [by rewrite put_bytes_ok by lia|].
  assert (0 <= len bs) by (unfold len; lia). split.
  - rewrite len_splice by lia. done.
  - lia.
  - lia.
  - constructor; simpl.
    + split; [apply get_bytes_splice_same; [done|lia..]|lia].
    + eapply Forall_impl; [exact Hf|]. intros [o b] (Hg & Ho & Ho'); simpl in *.
      split; [|lia]. rewrite get_bytes_splice_other; [done|lia..|].
      left. unfold len in *. lia.
Qed.

(** ** Reading fields back *)

Section Reads.
Context (c : list byte) (lo size cur : Z) (fields : list (Z * list byte)).
Hypothesis Hf : filled c lo size cur fields.

Lemma filled_get off bs : In (off, bs) fields -> get_bytes c off (length bs) = Ret bs.
Proof.
  intros Hin. destruct Hf as [_ _ _ Hall]. rewrite Forall_forall in Hall.
  apply list_elem_of_In in Hin. apply (Hall _ Hin).
Qed.

Lemma filled_boolean off v : In (off, bool_bytes v) fields -> DecodeBoolean c off = Ret v.
Proof.
  intros Hin. apply DecodeBoolean_get. rewrite <-(length_bool_bytes v). by apply filled_get.
Qed.

Lemma filled_byte off v : In (off, [v]) fields -> DecodeByte c off = Ret v.
Proof. intros Hin. apply DecodeByte_get. by apply (filled_get off [v]). Qed.

Lemma filled_int off v : is_int32 v -> In (off, le_bytes 4 (uint32 v)) fields ->
  DecodeInt c off = Ret v.
Proof.
  intros Hv Hin. apply DecodeInt_get; [done|].
  rewrite <-(length_le_bytes 4 (uint32 v)) at 1. by apply filled_get.
Qed.

Lemma filled_long off v : is_int64 v -> In (off, le_bytes 8 (uint64 v)) fields ->
  DecodeLong c off = Ret v.
Proof.
  intros Hv Hin. apply DecodeLong_get; [done|].
  rewrite <-(length_le_bytes 8 (uint64 v)) at 1. by apply filled_get.
Qed.

(** What [EncodeUUID] stores. *)
Definition uuid_fields (off : Z) (u : UUID) : list (Z * list byte) :=
  if UUID_Default u then [(off, bool_bytes true)]
  else [(off + BooleanSizeInBytes + LongSizeInBytes,
           le_bytes 8 (uint64 (int64 (LeastSignificantBits u))));
        (off + BooleanSizeInBytes, le_bytes 8 (uint64 (int64 (MostSignificantBits u))));
        (off, bool_bytes false)].

Lemma uint64_int64 z : is_uint 64 z -> uint64 (int64 z) = z.
Proof.
  intros Hz. unfold uint64, int64, uwrap, swrap, is_uint in *.
  rewrite Zminus_mod_idemp_l. replace (z + 2 ^ (64 - 1) - 2 ^ (64 - 1)) with z by lia.
  by apply Z.mod_small.
Qed.

Lemma filled_uuid off u : (forall p, In p (uuid_fields off u) -> In p fields) ->
  DecodeUUID c off = Ret u.
Proof.
  unfold uuid_fields, DecodeUUID. intros Hin.
  destruct (UUID_Default u) eqn:Hd.
  - rewrite (filled_boolean off true) by (apply Hin; by left). cbn [bind_res].
    apply UUID_Default_law in Hd. by rewrite Hd.
  - rewrite (filled_boolean off false) by (apply Hin; simpl; auto). cbn [bind_res].
    rewrite (filled_long _ (int64 (MostSignificantBits u)))
      by (try (apply Hin; simpl; auto); by apply swrap_range).
    cbn [bind_res].
    rewrite (filled_long _ (int64 (LeastSignificantBits u)))
      by (try (apply Hin; simpl; auto); by apply swrap_range).
    cbn [bind_res].
    rewrite !uint64_int64 by (apply UUID_msb_range || apply UUID_lsb_range).
    by rewrite UUID_eta.
Qed.

End Reads.

(** ** Writing into an initial frame

    The rules hold for any property [Q] of the encoder that does the write. *)

Section Put.
Context (Q : Enc -> Prop).
Context (f : Frame) (lo size cur : Z) (fields : list (Z * list byte)) (off : Z).
Hypothesis Hf : filled (Content f) lo size cur fields.
Hypothesis Hcur : cur <= off.

Lemma put_rule cur' fields' w (k : Frame -> Enc) :
  (exists c', w (Content f) = Ret c' /\ filled c' lo size cur' fields') ->
  (forall f', (data_frame f -> data_frame f') -> filled (Content f') lo size cur' fields' -> Q (k f')) ->
  Q (enc_with (write_content f w) k).
Proof.
  intros (c' & E & Hc') Hk. unfold enc_with, write_content. rewrite E. cbn [bind_res].
  apply (Hk (SetContent f c')).
  - unfold data_frame. by rewrite SetContent_begin, SetContent_end.
  - by rewrite Content_SetContent.
Qed.

Lemma put_boolean v (k : Frame -> Enc) :
  off + 1 <= size ->
  (forall f', (data_frame f -> data_frame f') ->
     filled (Content f') lo size (off + 1) ((off, bool_bytes v) :: fields) -> Q (k f')) ->
  Q (enc_with (write_content f (fun c => EncodeBoolean c off v)) k).
Proof.
  replace 1 with (len (bool_bytes v)) by by destruct v.
  intros Hs. apply put_rule. rewrite EncodeBoolean_put. by apply (filled_put _ _ _ cur).
Qed.

Lemma put_byte v (k : Frame -> Enc) :
  off + 1 <= size ->
  (forall f', (data_frame f -> data_frame f') ->
     filled (Content f') lo size (off + 1) ((off, [v]) :: fields) -> Q (k f')) ->
  Q (enc_with (write_content f (fun c => EncodeByte c off v)) k).
Proof. intros Hs. apply put_rule. by apply (filled_put _ _ _ cur _ _ [v]). Qed.

Lemma put_int v (k : Frame -> Enc) :
  off + 4 <= size ->
  (forall f', (data_frame f -> data_frame f') ->
     filled (Content f') lo size (off + 4) ((off, le_bytes 4 (uint32 v)) :: fields) -> Q (k f')) ->
  Q (enc_with (write_content f (fun c => EncodeInt c off v)) k).
Proof. intros Hs. apply put_rule. by apply (filled_put _ _ _ cur _ _ (le_bytes 4 (uint32 v))). Qed.

Lemma put_long v (k : Frame -> Enc) :
  off + 8 <= size ->
  (forall f', (data_frame f -> data_frame f') ->
     filled (Content f') lo size (off + 8) ((off, le_bytes 8 (uint64 v)) :: fields) -> Q (k f')) ->
  Q (enc_with (write_content f (fun c => EncodeLong c off v)) k).
Proof. intros Hs. apply put_rule. by apply (filled_put _ _ _ cur _ _ (le_bytes 8 (uint64 v))). Qed.

Lemma filled_weaken c lo' size' cur0 cur1 fl : filled c lo' size' cur0 fl -> cur0 <= cur1 ->
  filled c lo' size' cur1 fl.
Proof.
  intros [Hs Hl Hc Hfl] Hle. split; [done|done|lia|].
  eapply Forall_impl; [exact Hfl|]. intros p (? & ? & ?). repeat split; [done|lia..].
Qed.

Lemma put_uuid u (k : Frame -> Enc) :
  off + UuidSizeInBytes <= size ->
  (forall f', (data_frame f -> data_frame f') ->
     filled (Content f') lo size (off + UuidSizeInBytes) (uuid_fields off u ++ fields) -> Q (k f')) ->
  Q (enc_with (write_content f (fun c => EncodeUUID c off u)) k).
Proof.
  intros Hs. apply put_rule. unfold EncodeUUID, uuid_fields.
  pose proof BooleanSize_law; pose proof LongSize_law; pose proof UuidSize_law.
  rewrite EncodeBoolean_put.
  destruct (filled_put _ _ _ _ _ off (bool_bytes (UUID_Default u)) Hf Hcur) as (c1 & E1 & Hf1).
  { destruct (UUID_Default u); simpl; unfold len; simpl; lia. }
  rewrite E1. cbn [bind_res]. destruct (UUID_Default u).
  { exists c1. split; [done|]. eapply filled_weaken; [exact Hf1|]. unfold len; simpl; lia. }
  destruct (filled_put _ _ _ _ _ (off + BooleanSizeInBytes)
    (le_bytes 8 (uint64 (int64 (MostSignificantBits u)))) Hf1) as (c2 & E2 & Hf2).
  { unfold len; simpl; lia. }
  { unfold len; rewrite length_le_bytes; lia. }
  unfold EncodeLong. rewrite E2. cbn [bind_res].
  destruct (filled_put _ _ _ _ _ (off + BooleanSizeInBytes + LongSizeInBytes)
    (le_bytes 8 (uint64 (int64 (LeastSignificantBits u)))) Hf2) as (c3 & E3 & Hf3).
  { unfold len; rewrite length_le_bytes; lia. }
  { unfold len; rewrite length_le_bytes; lia. }
  exists c3. split; [done|]. eapply filled_weaken; [exact Hf3|].
  unfold len; rewrite length_le_bytes; lia.
Qed.

End Put.

Lemma body_data_frame {A} f e (k : Frame -> Dec A) v :
  data_frame f -> Body e (k f) v -> Body (enc_frame f >>> e) (dec_bind dec_frame k) v.
Proof. intros [Hb He]. by apply body_frame. Qed.

Lemma data_frame_NewFrame c : data_frame (NewFrame c).
Proof. split; [apply NewFrame_begin|apply NewFrame_end]. Qed.

(** ** Strings and data *)

Lemma wire_string s : WireNN (EncodeString s) DecodeString s.
Proof.
  apply wireNN_one. eapply (parses_bind _ _ [_] []); [apply parses_frame|].
  rewrite Content_NewFrame, string_of_bytes_of_string. apply parses_ret.
Qed.

(** What a nullable string comes back as: a blank string is sent as null. *)
Definition norm_string (s : string) : string := if is_blank s then EmptyString else s.

Lemma wire_nullable_string s :
  Wire (EncodeNullableForString s) DecodeNullableForString (norm_string s).
Proof.
  unfold EncodeNullableForString, norm_string. destruct (is_blank s).
  - apply wire_null.
  - apply wire_not_null, wire_string.
Qed.

Lemma wire_data d : WireNN (EncodeData d) DecodeData (Some (data_bytes d)).
Proof.
  apply wireNN_one. eapply (parses_bind _ _ [_] []); [apply parses_frame|].
  rewrite Content_NewFrame, ToByteArray_law. apply parses_ret.
Qed.

(** Nil data comes back as empty, non-nil data. *)
Definition norm_data (d : Data) : Data := Some (data_bytes d).

Lemma wire_nullable_data d : Wire (EncodeNullableForData d) DecodeNullableForData (norm_data d).
Proof. destruct d; [apply wire_not_null, wire_data|apply wire_null]. Qed.

(** ** Lists and maps of strings *)

Lemma Forall_wire {A} (enc : A -> Enc) (d : Dec A) (norm : A -> A) l :
  (forall a, Wire (enc a) d (norm a)) -> Forall (fun a => Wire (enc a) d (norm a)) l.
Proof. intros H. apply Forall_forall. auto. Qed.

Lemma wire_strings l : WireNN (EncodeListMultiFrameForString l) DecodeListMultiFrameForString l.
Proof.
  rewrite <-(list_fmap_id l) at 2. apply wire_list, Forall_wire.
  intros s. apply WireNN_Wire, wire_string.
Qed.

(** A nullable list of records. *)
Lemma wire_nullable_list {A B} (encl : list A -> Enc) (decl : Dec (list B)) (f : list A -> list B) vs :
  (forall l, vs = Some l -> WireNN (encl l) decl (f l)) ->
  Wire (match vs with None => enc_frame (Copy NullFrame) | Some l => encl l end)
    (isNull <~ NextFrameIsNullFrame ;;
     if isNull : bool then dec_ret None else (l <~ decl ;; dec_ret (Some l)))
    (f <$> vs).
Proof.
  intros H. destruct vs as [l|]; [|apply wire_null].
  apply wire_not_null, (wireNN_map _ _ _ Some), H. done.
Qed.

(** A slice read back through [nil_if_empty]. *)
Definition norm_list {A} (norm : A -> A) (vs : option (list A)) : option (list A) :=
  vs ≫= fun l => nil_if_empty (map norm l).

Lemma wire_nullable_structs {A} (enc : A -> Enc) (d : Dec A) (norm : A -> A) vs :
  Forall (fun a => StructWire (enc a) d (norm a)) (default [] vs) ->
  Wire (match vs with None => enc_frame (Copy NullFrame) | Some l => EncodeListMultiFrame enc l end)
    (isNull <~ NextFrameIsNullFrame ;;
     if isNull : bool then dec_ret None else (l <~ DecodeListMultiFrame d ;; dec_ret (nil_if_empty l)))
    (norm_list norm vs).
Proof.
  intros H. destruct vs as [l|]; [|apply wire_null].
  apply wire_not_null, (wireNN_map _ _ _ nil_if_empty), wire_list.
  eapply Forall_impl; [exact H|]. intros a Ha. by apply WireNN_Wire, StructWire_NN.
Qed.

Lemma wire_nullable_struct {A} `{!EqDecision A} (zero : A) (enc : A -> Enc) (d : Dec A) v :
  StructWire (enc v) d v ->
  Wire (if decide (v = zero) then enc_frame (Copy NullFrame) else enc v)
    (isNull <~ NextFrameIsNullFrame ;; if isNull : bool then dec_ret zero else d) v.
Proof.
  intros H. case_decide as E; [subst; apply wire_null|].
  by apply wire_not_null, StructWire_NN.
Qed.

Lemma wire_nullable_strings vs :
  Wire (EncodeNullableListMultiFrameForString vs) DecodeNullableListMultiFrameForString vs.
Proof.
  replace vs with ((fun l : list string => l) <$> vs) at 2 by by destruct vs.
  apply wire_nullable_list. intros l _. apply wire_strings.
Qed.

Lemma foldl_insert_fresh (l : list (string * string)) (m : gmap string string) :
  NoDup l.*1 -> (forall k, k ∈ l.*1 -> m !! k = None) ->
  foldl (fun m kv => <[kv.1 := kv.2]> m) m l = list_to_map l ∪ m.
Proof.
  revert m. induction l as [|[k v] l IH]; intros m Hnd Hfr; simpl.
  - by rewrite (left_id_L ∅ (∪)).
  - inversion Hnd as [|? ? Hk Hnd']; subst. rewrite IH.
    + rewrite <-insert_union_l, <-insert_union_r; [done|].
      by apply not_elem_of_list_to_map_1.
    + done.
    + intros k' Hk'. rewrite lookup_insert_ne; [|intros ->; done].
      apply Hfr. simpl. by right.
Qed.

Context `{R : MapRange}.

Lemma foldl_range (m : gmap string string) :
  foldl (fun m kv => <[kv.1 := kv.2]> m) ∅ (range m) = m.
Proof.
  assert (NoDup (range m).*1) as Hnd.
  { rewrite (range_perm m). apply NoDup_fst_map_to_list. }
  rewrite foldl_insert_fresh; [|done|intros; apply lookup_empty].
  rewrite (right_id_L ∅ (∪)).
  rewrite <-(list_to_map_to_list m) at 2. apply list_to_map_proper; [done|].
  apply range_perm.
Qed.

(** Two encoders in sequence against two decoders in sequence. *)
Lemma wire_pair {A B} e1 (d1 : Dec A) a e2 (d2 : Dec B) b :
  WireNN e1 d1 a -> Wire e2 d2 b ->
  WireNN (e1 >>> e2) (x <~ d1 ;; y <~ d2 ;; dec_ret (x, y)) (a, b).
Proof.
  intros (f & fs & ? & ? & Hb1 & He1 & Hp1) (g & gs & ? & Hb2 & He2 & Hp2).
  exists f, (fs ++ g :: gs). do 2 (split; [done|]).
  split; [apply (balanced_app (f :: fs)); done|].
  split; [apply (emits_seq _ _ (f :: fs)); done|].
  eapply (parses_bind _ _ (f :: fs)); [done|].
  rewrite <-(app_nil_r (g :: gs)). eapply parses_bind; [done|apply parses_ret].
Qed.

Lemma wire_string_map m : WireNN (EncodeMapForStringAndString m) DecodeMapForStringAndString m.
Proof.
  unfold EncodeMapForStringAndString, DecodeMapForStringAndString.
  replace m with (foldl (fun m kv => <[kv.1 := kv.2]> m) (∅ : gmap string string)
                    (map (fun kv => kv) (range m))) at 2
    by by rewrite map_id, foldl_range.
  apply (wire_loop _ _ (fun kv => kv) _
           (foldl (fun (m : gmap string string) kv => <[kv.1 := kv.2]> m) ∅)).
  apply (Forall_wire _ _ (fun kv => kv)). intros [k v]. apply WireNN_Wire.
  apply wire_pair; [apply wire_string|apply WireNN_Wire, wire_string].
Qed.

Lemma wire_nullable_string_map vs :
  Wire (EncodeNullableMapForStringAndString vs) DecodeNullableMapForStringAndString vs.
Proof.
  destruct vs as [m|]; [|apply wire_null].
  apply wire_not_null, (wireNN_map _ _ _ Some), wire_string_map.
Qed.

End Facts.

#[export] Hint Resolve wire_string wire_nullable_string wire_data wire_nullable_data
  wire_strings wire_nullable_strings wire_string_map wire_nullable_string_map : wire.
#[export] Hint Resolve WireNN_Wire | 5 : wire.
#[export] Hint Resolve StructWire_NN | 5 : wire.

(** Size laws into the context, offsets unfolded, linear arithmetic. *)
Ltac proto_lia :=
  autounfold with offsets;
  pose proof ByteSize_law; pose proof BooleanSize_law; pose proof IntSize_law;
  pose proof LongSize_law; pose proof UuidSize_law; pose proof PartitionID_law;
  pose proof ResponseBackupAcks_law; unfold header_size in *; lia.

Ltac in_fields :=
  lazymatch goal with
  | |- In _ (_ :: _) => first [left; reflexivity | right; in_fields]
  | |- In _ (_ ++ _) => first [apply in_or_app; left; eassumption | apply in_or_app; right; in_fields]
  end.

(** Discharge a read of a field from the [filled] hypothesis of its frame. *)
Ltac read_field :=
  match goal with
  | H : filled (Content ?f) _ ?size _ _ |- (if ?x <=? len (Content ?f) then _ else _) = Ret _ =>
      rewrite (filled_size _ _ _ _ _ H), (proj2 (Z.leb_le x size)) by proto_lia; read_field
  | H : filled (Content ?f) _ _ _ _ |- DecodeBoolean (Content ?f) _ = Ret _ =>
      eapply (filled_boolean _ _ _ _ _ H); in_fields
  | H : filled (Content ?f) _ _ _ _ |- DecodeByte (Content ?f) _ = Ret _ =>
      eapply (filled_byte _ _ _ _ _ H); in_fields
  | H : filled (Content ?f) _ _ _ _ |- DecodeInt (Content ?f) _ = Ret _ =>
      eapply (filled_int _ _ _ _ _ H); [|in_fields]; [try done]
  | H : filled (Content ?f) _ _ _ _ |- DecodeLong (Content ?f) _ = Ret _ =>
      eapply (filled_long _ _ _ _ _ H); [|in_fields]; [try done]
  | H : filled (Content ?f) _ _ _ _ |- DecodeUUID (Content ?f) _ = Ret _ =>
      eapply (filled_uuid _ _ _ _ _ H); intros ? ?; in_fields
  end.

(** One write into the initial frame, for the property [Q] of the encoder.
    The oldest frame is forgotten: only the newest content matters. *)
Ltac put_step Q e :=
  lazymatch e with
  | enc_with (write_content _ (fun c => EncodeBoolean c _ _)) _ => eapply (put_boolean Q)
  | enc_with (write_content _ (fun c => EncodeByte c _ _)) _ => eapply (put_byte Q)
  | enc_with (write_content _ (fun c => EncodeInt c _ _)) _ => eapply (put_int Q)
  | enc_with (write_content _ (fun c => EncodeLong c _ _)) _ => eapply (put_long Q)
  | enc_with (write_content _ (fun c => EncodeUUID c _ _)) _ => eapply (put_uuid Q)
  end;
  [first [eassumption | apply filled_NewFrame; proto_lia | apply filled_NewFrameWith; proto_lia]
  |proto_lia|proto_lia
  |let f := fresh "f" in let Hd := fresh "Hd" in let H := fresh "Hf" in intros f Hd H;
   try (assert (data_frame f) by (apply Hd; first [assumption | apply data_frame_NewFrame]));
   clear Hd].

Ltac wire_field := solve [eauto 4 with wire].

Ltac body_step :=
  lazymatch goal with
  | |- Body _ (dec_bind (dec_lift _) _) _ => eapply body_lift; [read_field|]
  | |- Body (enc_with ?r ?k) ?d ?v => put_step (fun e => Body e d v) (enc_with r k)
  | |- Body (enc_frame _) _ _ => apply body_end
  | |- Body (enc_frame _ >>> _)%go (dec_bind dec_frame _) _ =>
      eapply body_data_frame; [first [eassumption | apply data_frame_NewFrame]|]
  | |- Body (_ >>> _)%go (dec_bind _ _) _ => eapply body_field; [wire_field|]
  end.

(** Both sides are [begin ... end] structures: walk through the bodies. *)
Ltac struct_wire :=
  eexists _, _; split; [reflexivity|]; split; [reflexivity|];
  cbv zeta; repeat body_step.
