(* ===== verification/CodecTypes.v ===== *)
(** * Data of the client protocol (src/internal/protocol/types)

    One record per Go struct, fields in the order of the source and prefixed
    with the struct's name.  [X_zero] is Go's zero value [types.X{}]; [X_ok]
    says that the integer fields are in the range of their Go type.  A slice
    or map the code compares with nil is an option. *)

From S2P Require Import Prelude CodecBuiltin.

Record Capacity := mkCapacity {
  Capacity_Value : Z;
  Capacity_Unit : string;
}.
#[export] Instance Capacity_eq_dec : EqDecision Capacity.
Proof. solve_decision. Defined.
Definition Capacity_zero : Capacity := mkCapacity 0 EmptyString.
Definition Capacity_ok (v : Capacity) : Prop :=
  is_int64 (Capacity_Value v).

Record MemoryTierConfig := mkMemoryTierConfig {
  MemoryTierConfig_Capacity : Capacity;
}.
#[export] Instance MemoryTierConfig_eq_dec : EqDecision MemoryTierConfig.
Proof. solve_decision. Defined.
Definition MemoryTierConfig_zero : MemoryTierConfig := mkMemoryTierConfig Capacity_zero.
Definition MemoryTierConfig_ok (v : MemoryTierConfig) : Prop :=
  Capacity_ok (MemoryTierConfig_Capacity v).

Record DiskTierConfig := mkDiskTierConfig {
  DiskTierConfig_Enabled : bool;
  DiskTierConfig_DeviceName : string;
}.
#[export] Instance DiskTierConfig_eq_dec : EqDecision DiskTierConfig.
Proof. solve_decision. Defined.
Definition DiskTierConfig_zero : DiskTierConfig := mkDiskTierConfig false EmptyString.

Record TieredStoreConfig := mkTieredStoreConfig {
  TieredStoreConfig_Enabled : bool;
  TieredStoreConfig_MemoryTierConfig : MemoryTierConfig;
  TieredStoreConfig_DiskTierConfig : DiskTierConfig;
}.
#[export] Instance TieredStoreConfig_eq_dec : EqDecision TieredStoreConfig.
Proof. solve_decision. Defined.
Definition TieredStoreConfig_zero : TieredStoreConfig := mkTieredStoreConfig false MemoryTierConfig_zero DiskTierConfig_zero.
Definition TieredStoreConfig_ok (v : TieredStoreConfig) : Prop :=
  MemoryTierConfig_ok (TieredStoreConfig_MemoryTierConfig v).

Record BitmapIndexOptions := mkBitmapIndexOptions {
  BitmapIndexOptions_UniqueKey : string;
  BitmapIndexOptions_UniqueKeyTransformation : Z;
}.
#[export] Instance BitmapIndexOptions_eq_dec : EqDecision BitmapIndexOptions.
Proof. solve_decision. Defined.
Definition BitmapIndexOptions_zero : BitmapIndexOptions := mkBitmapIndexOptions EmptyString 0.
Definition BitmapIndexOptions_ok (v : BitmapIndexOptions) : Prop :=
  is_int32 (BitmapIndexOptions_UniqueKeyTransformation v).

Record IndexConfig := mkIndexConfig {
  IndexConfig_Name : string;
  IndexConfig_Type : Z;
  IndexConfig_Attributes : list string;
  IndexConfig_BitmapIndexOptions : BitmapIndexOptions;
}.
#[export] Instance IndexConfig_eq_dec : EqDecision IndexConfig.
Proof. solve_decision. Defined.
Definition IndexConfig_zero : IndexConfig := mkIndexConfig EmptyString 0 [] BitmapIndexOptions_zero.
Definition IndexConfig_ok (v : IndexConfig) : Prop :=
  is_int32 (IndexConfig_Type v) /\
  BitmapIndexOptions_ok (IndexConfig_BitmapIndexOptions v).

Record AttributeConfig := mkAttributeConfig {
  AttributeConfig_Name : string;
  AttributeConfig_ExtractorClassName : string;
}.
#[export] Instance AttributeConfig_eq_dec : EqDecision AttributeConfig.
Proof. solve_decision. Defined.
Definition AttributeConfig_zero : AttributeConfig := mkAttributeConfig EmptyString EmptyString.

Record EvictionConfigHolder := mkEvictionConfigHolder {
  EvictionConfigHolder_Size : Z;
  EvictionConfigHolder_MaxSizePolicy : string;
  EvictionConfigHolder_EvictionPolicy : string;
  EvictionConfigHolder_ComparatorClassName : string;
  EvictionConfigHolder_Comparator : Data;
}.
#[export] Instance EvictionConfigHolder_eq_dec : EqDecision EvictionConfigHolder.
Proof. solve_decision. Defined.
Definition EvictionConfigHolder_zero : EvictionConfigHolder := mkEvictionConfigHolder 0 EmptyString EmptyString EmptyString None.
Definition EvictionConfigHolder_ok (v : EvictionConfigHolder) : Prop :=
  is_int32 (EvictionConfigHolder_Size v).

Record HotRestartConfig := mkHotRestartConfig {
  HotRestartConfig_Enabled : bool;
  HotRestartConfig_Fsync : bool;
}.
#[export] Instance HotRestartConfig_eq_dec : EqDecision HotRestartConfig.
Proof. solve_decision. Defined.
Definition HotRestartConfig_zero : HotRestartConfig := mkHotRestartConfig false false.

Record EventJournalConfig := mkEventJournalConfig {
  EventJournalConfig_Enabled : bool;
  EventJournalConfig_Capacity : Z;
  EventJournalConfig_TimeToLiveSeconds : Z;
}.
#[export] Instance EventJournalConfig_eq_dec : EqDecision EventJournalConfig.
Proof. solve_decision. Defined.
Definition EventJournalConfig_zero : EventJournalConfig := mkEventJournalConfig false 0 0.
Definition EventJournalConfig_ok (v : EventJournalConfig) : Prop :=
  is_int32 (EventJournalConfig_Capacity v) /\
  is_int32 (EventJournalConfig_TimeToLiveSeconds v).

Record MerkleTreeConfig := mkMerkleTreeConfig {
  MerkleTreeConfig_Enabled : bool;
  MerkleTreeConfig_Depth : Z;
  MerkleTreeConfig_EnabledSet : bool;
}.
#[export] Instance MerkleTreeConfig_eq_dec : EqDecision MerkleTreeConfig.
Proof. solve_decision. Defined.
Definition MerkleTreeConfig_zero : MerkleTreeConfig := mkMerkleTreeConfig false 0 false.
Definition MerkleTreeConfig_ok (v : MerkleTreeConfig) : Prop :=
  is_int32 (MerkleTreeConfig_Depth v).

Record DataPersistenceConfig := mkDataPersistenceConfig {
  DataPersistenceConfig_Enabled : bool;
  DataPersistenceConfig_Fsync : bool;
}.
#[export] Instance DataPersistenceConfig_eq_dec : EqDecision DataPersistenceConfig.
Proof. solve_decision. Defined.
Definition DataPersistenceConfig_zero : DataPersistenceConfig := mkDataPersistenceConfig false false.

Record DurationConfig := mkDurationConfig {
  DurationConfig_DurationAmount : Z;
  DurationConfig_TimeUnit : Z;
}.
#[export] Instance DurationConfig_eq_dec : EqDecision DurationConfig.
Proof. solve_decision. Defined.
Definition DurationConfig_zero : DurationConfig := mkDurationConfig 0 0.
Definition DurationConfig_ok (v : DurationConfig) : Prop :=
  is_int64 (DurationConfig_DurationAmount v) /\
  is_int32 (DurationConfig_TimeUnit v).

Record TimedExpiryPolicyFactoryConfig := mkTimedExpiryPolicyFactoryConfig {
  TimedExpiryPolicyFactoryConfig_ExpiryPolicyType : Z;
  TimedExpiryPolicyFactoryConfig_DurationConfig : DurationConfig;
}.
#[export] Instance TimedExpiryPolicyFactoryConfig_eq_dec : EqDecision TimedExpiryPolicyFactoryConfig.
Proof. solve_decision. Defined.
Definition TimedExpiryPolicyFactoryConfig_zero : TimedExpiryPolicyFactoryConfig := mkTimedExpiryPolicyFactoryConfig 0 DurationConfig_zero.
Definition TimedExpiryPolicyFactoryConfig_ok (v : TimedExpiryPolicyFactoryConfig) : Prop :=
  is_int32 (TimedExpiryPolicyFactoryConfig_ExpiryPolicyType v) /\
  DurationConfig_ok (TimedExpiryPolicyFactoryConfig_DurationConfig v).

Record MergePolicyConfig := mkMergePolicyConfig {
  MergePolicyConfig_Policy : string;
  MergePolicyConfig_BatchSize : Z;
}.
#[export] Instance MergePolicyConfig_eq_dec : EqDecision MergePolicyConfig.
Proof. solve_decision. Defined.
Definition MergePolicyConfig_zero : MergePolicyConfig := mkMergePolicyConfig EmptyString 0.
Definition MergePolicyConfig_ok (v : MergePolicyConfig) : Prop :=
  is_int32 (MergePolicyConfig_BatchSize v).

Record NearCachePreloaderConfig := mkNearCachePreloaderConfig {
  NearCachePreloaderConfig_Enabled : bool;
  NearCachePreloaderConfig_Directory : string;
  NearCachePreloaderConfig_StoreInitialDelaySeconds : Z;
  NearCachePreloaderConfig_StoreIntervalSeconds : Z;
}.
#[export] Instance NearCachePreloaderConfig_eq_dec : EqDecision NearCachePreloaderConfig.
Proof. solve_decision. Defined.
Definition NearCachePreloaderConfig_zero : NearCachePreloaderConfig := mkNearCachePreloaderConfig false EmptyString 0 0.
Definition NearCachePreloaderConfig_ok (v : NearCachePreloaderConfig) : Prop :=
  is_int32 (NearCachePreloaderConfig_StoreInitialDelaySeconds v) /\
  is_int32 (NearCachePreloaderConfig_StoreIntervalSeconds v).

Record NearCacheConfigHolder := mkNearCacheConfigHolder {
  NearCacheConfigHolder_Name : string;
  NearCacheConfigHolder_InMemoryFormat : string;
  NearCacheConfigHolder_SerializeKeys : bool;
  NearCacheConfigHolder_InvalidateOnChange : bool;
  NearCacheConfigHolder_TimeToLiveSeconds : Z;
  NearCacheConfigHolder_MaxIdleSeconds : Z;
  NearCacheConfigHolder_EvictionConfigHolder : EvictionConfigHolder;
  NearCacheConfigHolder_CacheLocalEntries : bool;
  NearCacheConfigHolder_LocalUpdatePolicy : string;
  NearCacheConfigHolder_PreloaderConfig : NearCachePreloaderConfig;
}.
#[export] Instance NearCacheConfigHolder_eq_dec : EqDecision NearCacheConfigHolder.
Proof. solve_decision. Defined.
Definition NearCacheConfigHolder_zero : NearCacheConfigHolder := mkNearCacheConfigHolder EmptyString EmptyString false false 0 0 EvictionConfigHolder_zero false EmptyString NearCachePreloaderConfig_zero.
Definition NearCacheConfigHolder_ok (v : NearCacheConfigHolder) : Prop :=
  is_int32 (NearCacheConfigHolder_TimeToLiveSeconds v) /\
  is_int32 (NearCacheConfigHolder_MaxIdleSeconds v) /\
  EvictionConfigHolder_ok (NearCacheConfigHolder_EvictionConfigHolder v) /\
  NearCachePreloaderConfig_ok (NearCacheConfigHolder_PreloaderConfig v).

Record PredicateConfigHolder := mkPredicateConfigHolder {
  PredicateConfigHolder_ClassName : string;
  PredicateConfigHolder_Sql : string;
  PredicateConfigHolder_Implementation : Data;
}.
#[export] Instance PredicateConfigHolder_eq_dec : EqDecision PredicateConfigHolder.
Proof. solve_decision. Defined.
Definition PredicateConfigHolder_zero : PredicateConfigHolder := mkPredicateConfigHolder EmptyString EmptyString None.

Record ListenerConfigHolder := mkListenerConfigHolder {
  ListenerConfigHolder_ListenerType : Z;
  ListenerConfigHolder_ListenerImplementation : Data;
  ListenerConfigHolder_ClassName : string;
  ListenerConfigHolder_IncludeValue : bool;
  ListenerConfigHolder_Local : bool;
}.
#[export] Instance ListenerConfigHolder_eq_dec : EqDecision ListenerConfigHolder.
Proof. solve_decision. Defined.
Definition ListenerConfigHolder_zero : ListenerConfigHolder := mkListenerConfigHolder 0 None EmptyString false false.
Definition ListenerConfigHolder_ok (v : ListenerConfigHolder) : Prop :=
  is_int32 (ListenerConfigHolder_ListenerType v).

Record QueryCacheConfigHolder := mkQueryCacheConfigHolder {
  QueryCacheConfigHolder_BatchSize : Z;
  QueryCacheConfigHolder_BufferSize : Z;
  QueryCacheConfigHolder_DelaySeconds : Z;
  QueryCacheConfigHolder_IncludeValue : bool;
  QueryCacheConfigHolder_Populate : bool;
  QueryCacheConfigHolder_Coalesce : bool;
  QueryCacheConfigHolder_InMemoryFormat : string;
  QueryCacheConfigHolder_Name : string;
  QueryCacheConfigHolder_PredicateConfigHolder : PredicateConfigHolder;
  QueryCacheConfigHolder_EvictionConfigHolder : EvictionConfigHolder;
  QueryCacheConfigHolder_ListenerConfigs : option (list ListenerConfigHolder);
  QueryCacheConfigHolder_IndexConfigs : option (list IndexConfig);
}.
#[export] Instance QueryCacheConfigHolder_eq_dec : EqDecision QueryCacheConfigHolder.
Proof. solve_decision. Defined.
Definition QueryCacheConfigHolder_zero : QueryCacheConfigHolder := mkQueryCacheConfigHolder 0 0 0 false false false EmptyString EmptyString PredicateConfigHolder_zero EvictionConfigHolder_zero None None.
Definition QueryCacheConfigHolder_ok (v : QueryCacheConfigHolder) : Prop :=
  is_int32 (QueryCacheConfigHolder_BatchSize v) /\
  is_int32 (QueryCacheConfigHolder_BufferSize v) /\
  is_int32 (QueryCacheConfigHolder_DelaySeconds v) /\
  EvictionConfigHolder_ok (QueryCacheConfigHolder_EvictionConfigHolder v) /\
  Forall ListenerConfigHolder_ok (default [] (QueryCacheConfigHolder_ListenerConfigs v)) /\
  Forall IndexConfig_ok (default [] (QueryCacheConfigHolder_IndexConfigs v)).

Record MapStoreConfigHolder := mkMapStoreConfigHolder {
  MapStoreConfigHolder_Enabled : bool;
  MapStoreConfigHolder_WriteCoalescing : bool;
  MapStoreConfigHolder_WriteDelaySeconds : Z;
  MapStoreConfigHolder_WriteBatchSize : Z;
  MapStoreConfigHolder_ClassName : string;
  MapStoreConfigHolder_Implementation : Data;
  MapStoreConfigHolder_FactoryClassName : string;
  MapStoreConfigHolder_FactoryImplementation : Data;
  MapStoreConfigHolder_Properties : option (gmap string string);
  MapStoreConfigHolder_InitialLoadMode : string;
}.
#[export] Instance MapStoreConfigHolder_eq_dec : EqDecision MapStoreConfigHolder.
Proof. solve_decision. Defined.
Definition MapStoreConfigHolder_zero : MapStoreConfigHolder := mkMapStoreConfigHolder false false 0 0 EmptyString None EmptyString None None EmptyString.
Definition MapStoreConfigHolder_ok (v : MapStoreConfigHolder) : Prop :=
  is_int32 (MapStoreConfigHolder_WriteDelaySeconds v) /\
  is_int32 (MapStoreConfigHolder_WriteBatchSize v).

Record WanReplicationRef := mkWanReplicationRef {
  WanReplicationRef_Name : string;
  WanReplicationRef_MergePolicyClassName : string;
  WanReplicationRef_Filters : option (list string);
  WanReplicationRef_RepublishingEnabled : bool;
}.
#[export] Instance WanReplicationRef_eq_dec : EqDecision WanReplicationRef.
Proof. solve_decision. Defined.
Definition WanReplicationRef_zero : WanReplicationRef := mkWanReplicationRef EmptyString EmptyString None false.

Record RaftGroupId := mkRaftGroupId {
  RaftGroupId_Name : string;
  RaftGroupId_Seed : Z;
  RaftGroupId_Id : Z;
}.
#[export] Instance RaftGroupId_eq_dec : EqDecision RaftGroupId.
Proof. solve_decision. Defined.
Definition RaftGroupId_zero : RaftGroupId := mkRaftGroupId EmptyString 0 0.
Definition RaftGroupId_ok (v : RaftGroupId) : Prop :=
  is_int64 (RaftGroupId_Seed v) /\
  is_int64 (RaftGroupId_Id v).

Record ResourceDefinition := mkResourceDefinition {
  ResourceDefinition_ID : string;
  ResourceDefinition_ResourceType : Z;
  ResourceDefinition_Payload : list byte;
  ResourceDefinition_ResourceURL : string;
}.
#[export] Instance ResourceDefinition_eq_dec : EqDecision ResourceDefinition.
Proof. solve_decision. Defined.
Definition ResourceDefinition_zero : ResourceDefinition := mkResourceDefinition EmptyString 0 [] EmptyString.
Definition ResourceDefinition_ok (v : ResourceDefinition) : Prop :=
  is_int32 (ResourceDefinition_ResourceType v).

Record CacheConfigHolder := mkCacheConfigHolder {
  CacheConfigHolder_Name : string;
  CacheConfigHolder_ManagerPrefix : string;
  CacheConfigHolder_UriString : string;
  CacheConfigHolder_BackupCount : Z;
  CacheConfigHolder_AsyncBackupCount : Z;
  CacheConfigHolder_InMemoryFormat : string;
  CacheConfigHolder_EvictionConfigHolder : EvictionConfigHolder;
  CacheConfigHolder_WanReplicationRef : WanReplicationRef;
  CacheConfigHolder_KeyClassName : string;
  CacheConfigHolder_ValueClassName : string;
  CacheConfigHolder_CacheLoaderFactory : Data;
  CacheConfigHolder_CacheWriterFactory : Data;
  CacheConfigHolder_ExpiryPolicyFactory : Data;
  CacheConfigHolder_ReadThrough : bool;
  CacheConfigHolder_WriteThrough : bool;
  CacheConfigHolder_StoreByValue : bool;
  CacheConfigHolder_ManagementEnabled : bool;
  CacheConfigHolder_StatisticsEnabled : bool;
  CacheConfigHolder_HotRestartConfig : HotRestartConfig;
  CacheConfigHolder_EventJournalConfig : EventJournalConfig;
  CacheConfigHolder_SplitBrainProtectionName : string;
  CacheConfigHolder_ListenerConfigurations : list Data;
  CacheConfigHolder_MergePolicyConfig : MergePolicyConfig;
  CacheConfigHolder_DisablePerEntryInvalidationEvents : bool;
  CacheConfigHolder_CachePartitionLostListenerConfigs : option (list ListenerConfigHolder);
  CacheConfigHolder_MerkleTreeConfig : MerkleTreeConfig;
  CacheConfigHolder_DataPersistenceConfig : DataPersistenceConfig;
  CacheConfigHolder_UserCodeNamespace : string;
}.
#[export] Instance CacheConfigHolder_eq_dec : EqDecision CacheConfigHolder.
Proof. solve_decision. Defined.
Definition CacheConfigHolder_zero : CacheConfigHolder := mkCacheConfigHolder EmptyString EmptyString EmptyString 0 0 EmptyString EvictionConfigHolder_zero WanReplicationRef_zero EmptyString EmptyString None None None false false false false false HotRestartConfig_zero EventJournalConfig_zero EmptyString [] MergePolicyConfig_zero false None MerkleTreeConfig_zero DataPersistenceConfig_zero EmptyString.
Definition CacheConfigHolder_ok (v : CacheConfigHolder) : Prop :=
  is_int32 (CacheConfigHolder_BackupCount v) /\
  is_int32 (CacheConfigHolder_AsyncBackupCount v) /\
  EvictionConfigHolder_ok (CacheConfigHolder_EvictionConfigHolder v) /\
  EventJournalConfig_ok (CacheConfigHolder_EventJournalConfig v) /\
  MergePolicyConfig_ok (CacheConfigHolder_MergePolicyConfig v) /\
  Forall ListenerConfigHolder_ok (default [] (CacheConfigHolder_CachePartitionLostListenerConfigs v)) /\
  MerkleTreeConfig_ok (CacheConfigHolder_MerkleTreeConfig v).

Record UserCodeNamespaceConfig := mkUserCodeNamespaceConfig {
  UserCodeNamespaceConfig_Name : string;
  UserCodeNamespaceConfig_Resources : list ResourceDefinition;
}.
#[export] Instance UserCodeNamespaceConfig_eq_dec : EqDecision UserCodeNamespaceConfig.
Proof. solve_decision. Defined.
Definition UserCodeNamespaceConfig_zero : UserCodeNamespaceConfig := mkUserCodeNamespaceConfig EmptyString [].
Definition UserCodeNamespaceConfig_ok (v : UserCodeNamespaceConfig) : Prop :=
  Forall ResourceDefinition_ok (UserCodeNamespaceConfig_Resources v).

Record SqlSummary := mkSqlSummary {
  SqlSummary_Query : string;
  SqlSummary_Unbounded : bool;
}.
#[export] Instance SqlSummary_eq_dec : EqDecision SqlSummary.
Proof. solve_decision. Defined.
Definition SqlSummary_zero : SqlSummary := mkSqlSummary EmptyString false.

Record JobAndSqlSummary := mkJobAndSqlSummary {
  JobAndSqlSummary_LightJob : bool;
  JobAndSqlSummary_JobId : Z;
  JobAndSqlSummary_ExecutionId : Z;
  JobAndSqlSummary_NameOrId : string;
  JobAndSqlSummary_Status : Z;
  JobAndSqlSummary_SubmissionTime : Z;
  JobAndSqlSummary_CompletionTime : Z;
  JobAndSqlSummary_FailureText : string;
  JobAndSqlSummary_SqlSummary : SqlSummary;
  JobAndSqlSummary_SuspensionCause : string;
}.
#[export] Instance JobAndSqlSummary_eq_dec : EqDecision JobAndSqlSummary.
Proof. solve_decision. Defined.
Definition JobAndSqlSummary_zero : JobAndSqlSummary := mkJobAndSqlSummary false 0 0 EmptyString 0 0 0 EmptyString SqlSummary_zero EmptyString.
Definition JobAndSqlSummary_ok (v : JobAndSqlSummary) : Prop :=
  is_int64 (JobAndSqlSummary_JobId v) /\
  is_int64 (JobAndSqlSummary_ExecutionId v) /\
  is_int32 (JobAndSqlSummary_Status v) /\
  is_int64 (JobAndSqlSummary_SubmissionTime v) /\
  is_int64 (JobAndSqlSummary_CompletionTime v).

Record AddMapConfigInput := mkAddMapConfigInput {
  AddMapConfigInput_Name : string;
  AddMapConfigInput_BackupCount : Z;
  AddMapConfigInput_AsyncBackupCount : Z;
  AddMapConfigInput_TimeToLiveSeconds : Z;
  AddMapConfigInput_MaxIdleSeconds : Z;
  AddMapConfigInput_EvictionConfig : EvictionConfigHolder;
  AddMapConfigInput_ReadBackupData : bool;
  AddMapConfigInput_CacheDeserializedValues : string;
  AddMapConfigInput_MergePolicy : string;
  AddMapConfigInput_MergeBatchSize : Z;
  AddMapConfigInput_InMemoryFormat : string;
  AddMapConfigInput_ListenerConfigs : option (list ListenerConfigHolder);
  AddMapConfigInput_PartitionLostListenerConfigs : option (list ListenerConfigHolder);
  AddMapConfigInput_StatisticsEnabled : bool;
  AddMapConfigInput_SplitBrainProtectionName : string;
  AddMapConfigInput_MapStoreConfig : MapStoreConfigHolder;
  AddMapConfigInput_NearCacheConfig : NearCacheConfigHolder;
  AddMapConfigInput_WanReplicationRef : WanReplicationRef;
  AddMapConfigInput_IndexConfigs : option (list IndexConfig);
  AddMapConfigInput_AttributeConfigs : option (list AttributeConfig);
  AddMapConfigInput_QueryCacheConfigs : option (list QueryCacheConfigHolder);
  AddMapConfigInput_PartitioningStrategyClassName : string;
  AddMapConfigInput_PartitioningStrategyImplementation : Data;
  AddMapConfigInput_HotRestartConfig : HotRestartConfig;
  AddMapConfigInput_EventJournalConfig : EventJournalConfig;
  AddMapConfigInput_MerkleTreeConfig : MerkleTreeConfig;
  AddMapConfigInput_MetadataPolicy : Z;
  AddMapConfigInput_PerEntryStatsEnabled : bool;
  AddMapConfigInput_TieredStoreConfig : TieredStoreConfig;
  AddMapConfigInput_DataPersistenceConfig : DataPersistenceConfig;
  AddMapConfigInput_UserCodeNamespace : string;
}.
#[export] Instance AddMapConfigInput_eq_dec : EqDecision AddMapConfigInput.
Proof. solve_decision. Defined.
Definition AddMapConfigInput_zero : AddMapConfigInput := mkAddMapConfigInput EmptyString 0 0 0 0 EvictionConfigHolder_zero false EmptyString EmptyString 0 EmptyString None None false EmptyString MapStoreConfigHolder_zero NearCacheConfigHolder_zero WanReplicationRef_zero None None None EmptyString None HotRestartConfig_zero EventJournalConfig_zero MerkleTreeConfig_zero 0 false TieredStoreConfig_zero DataPersistenceConfig_zero EmptyString.
Definition AddMapConfigInput_ok (v : AddMapConfigInput) : Prop :=
  is_int32 (AddMapConfigInput_BackupCount v) /\
  is_int32 (AddMapConfigInput_AsyncBackupCount v) /\
  is_int32 (AddMapConfigInput_TimeToLiveSeconds v) /\
  is_int32 (AddMapConfigInput_MaxIdleSeconds v) /\
  EvictionConfigHolder_ok (AddMapConfigInput_EvictionConfig v) /\
  is_int32 (AddMapConfigInput_MergeBatchSize v) /\
  Forall ListenerConfigHolder_ok (default [] (AddMapConfigInput_ListenerConfigs v)) /\
  Forall ListenerConfigHolder_ok (default [] (AddMapConfigInput_PartitionLostListenerConfigs v)) /\
  MapStoreConfigHolder_ok (AddMapConfigInput_MapStoreConfig v) /\
  NearCacheConfigHolder_ok (AddMapConfigInput_NearCacheConfig v) /\
  Forall IndexConfig_ok (default [] (AddMapConfigInput_IndexConfigs v)) /\
  Forall QueryCacheConfigHolder_ok (default [] (AddMapConfigInput_QueryCacheConfigs v)) /\
  EventJournalConfig_ok (AddMapConfigInput_EventJournalConfig v) /\
  MerkleTreeConfig_ok (AddMapConfigInput_MerkleTreeConfig v) /\
  is_int32 (AddMapConfigInput_MetadataPolicy v) /\
  TieredStoreConfig_ok (AddMapConfigInput_TieredStoreConfig v).

Record CacheConfigInput := mkCacheConfigInput {
  CacheConfigInput_Name : string;
  CacheConfigInput_BackupCount : Z;
  CacheConfigInput_AsyncBackupCount : Z;
  CacheConfigInput_StatisticsEnabled : bool;
  CacheConfigInput_ManagementEnabled : bool;
  CacheConfigInput_ReadThrough : bool;
  CacheConfigInput_WriteThrough : bool;
  CacheConfigInput_MergePolicy : string;
  CacheConfigInput_MergeBatchSize : Z;
  CacheConfigInput_DisablePerEntryInvalidationEvents : bool;
  CacheConfigInput_KeyType : string;
  CacheConfigInput_ValueType : string;
  CacheConfigInput_CacheLoaderFactory : string;
  CacheConfigInput_CacheWriterFactory : string;
  CacheConfigInput_CacheLoader : string;
  CacheConfigInput_CacheWriter : string;
  CacheConfigInput_InMemoryFormat : string;
  CacheConfigInput_SplitBrainProtectionName : string;
  CacheConfigInput_PartitionLostListenerConfigs : option (list ListenerConfigHolder);
  CacheConfigInput_ExpiryPolicyFactoryClassName : string;
  CacheConfigInput_TimedExpiryPolicyFactoryConfig : TimedExpiryPolicyFactoryConfig;
  CacheConfigInput_CacheEntryListeners : option (list ListenerConfigHolder);
  CacheConfigInput_EvictionConfig : EvictionConfigHolder;
  CacheConfigInput_WanReplicationRef : WanReplicationRef;
  CacheConfigInput_EventJournalConfig : EventJournalConfig;
  CacheConfigInput_HotRestartConfig : HotRestartConfig;
  CacheConfigInput_MerkleTreeConfig : MerkleTreeConfig;
  CacheConfigInput_DataPersistenceConfig : DataPersistenceConfig;
  CacheConfigInput_UserCodeNamespace : string;
}.
#[export] Instance CacheConfigInput_eq_dec : EqDecision CacheConfigInput.
Proof. solve_decision. Defined.
Definition CacheConfigInput_zero : CacheConfigInput := mkCacheConfigInput EmptyString 0 0 false false false false EmptyString 0 false EmptyString EmptyString EmptyString EmptyString EmptyString EmptyString EmptyString EmptyString None EmptyString TimedExpiryPolicyFactoryConfig_zero None EvictionConfigHolder_zero WanReplicationRef_zero EventJournalConfig_zero HotRestartConfig_zero MerkleTreeConfig_zero DataPersistenceConfig_zero EmptyString.
Definition CacheConfigInput_ok (v : CacheConfigInput) : Prop :=
  is_int32 (CacheConfigInput_BackupCount v) /\
  is_int32 (CacheConfigInput_AsyncBackupCount v) /\
  is_int32 (CacheConfigInput_MergeBatchSize v) /\
  Forall ListenerConfigHolder_ok (default [] (CacheConfigInput_PartitionLostListenerConfigs v)) /\
  TimedExpiryPolicyFactoryConfig_ok (CacheConfigInput_TimedExpiryPolicyFactoryConfig v) /\
  Forall ListenerConfigHolder_ok (default [] (CacheConfigInput_CacheEntryListeners v)) /\
  EvictionConfigHolder_ok (CacheConfigInput_EvictionConfig v) /\
  EventJournalConfig_ok (CacheConfigInput_EventJournalConfig v) /\
  MerkleTreeConfig_ok (CacheConfigInput_MerkleTreeConfig v).

Record QueueStoreConfigHolder := mkQueueStoreConfigHolder {
  QueueStoreConfigHolder_ClassName : string;
  QueueStoreConfigHolder_FactoryClassName : string;
  QueueStoreConfigHolder_Implementation : Data;
  QueueStoreConfigHolder_FactoryImplementation : Data;
  QueueStoreConfigHolder_Properties : option (gmap string string);
  QueueStoreConfigHolder_Enabled : bool;
}.
#[export] Instance QueueStoreConfigHolder_eq_dec : EqDecision QueueStoreConfigHolder.
Proof. solve_decision. Defined.
Definition QueueStoreConfigHolder_zero : QueueStoreConfigHolder := mkQueueStoreConfigHolder EmptyString EmptyString None None None false.

Record QueueConfigInput := mkQueueConfigInput {
  QueueConfigInput_Name : string;
  QueueConfigInput_ListenerConfigs : option (list ListenerConfigHolder);
  QueueConfigInput_BackupCount : Z;
  QueueConfigInput_AsyncBackupCount : Z;
  QueueConfigInput_MaxSize : Z;
  QueueConfigInput_EmptyQueueTtl : Z;
  QueueConfigInput_StatisticsEnabled : bool;
  QueueConfigInput_SplitBrainProtectionName : string;
  QueueConfigInput_QueueStoreConfig : QueueStoreConfigHolder;
  QueueConfigInput_MergePolicy : string;
  QueueConfigInput_MergeBatchSize : Z;
  QueueConfigInput_PriorityComparatorClassName : string;
  QueueConfigInput_UserCodeNamespace : string;
}.
#[export] Instance QueueConfigInput_eq_dec : EqDecision QueueConfigInput.
Proof. solve_decision. Defined.
Definition QueueConfigInput_zero : QueueConfigInput := mkQueueConfigInput EmptyString None 0 0 0 0 false EmptyString QueueStoreConfigHolder_zero EmptyString 0 EmptyString EmptyString.
Definition QueueConfigInput_ok (v : QueueConfigInput) : Prop :=
  Forall ListenerConfigHolder_ok (default [] (QueueConfigInput_ListenerConfigs v)) /\
  is_int32 (QueueConfigInput_BackupCount v) /\
  is_int32 (QueueConfigInput_AsyncBackupCount v) /\
  is_int32 (QueueConfigInput_MaxSize v) /\
  is_int32 (QueueConfigInput_EmptyQueueTtl v) /\
  is_int32 (QueueConfigInput_MergeBatchSize v).

Record MultiMapConfig := mkMultiMapConfig {
  MultiMapConfig_Name : string;
  MultiMapConfig_CollectionType : string;
  MultiMapConfig_BackupCount : Z;
  MultiMapConfig_AsyncBackupCount : Z;
  MultiMapConfig_Binary : bool;
  MultiMapConfig_MergePolicy : string;
  MultiMapConfig_MergeBatchSize : Z;
  MultiMapConfig_StatisticsEnabled : bool;
  MultiMapConfig_ListenerConfigs : option (list ListenerConfigHolder);
  MultiMapConfig_SplitBrainProtectionName : string;
  MultiMapConfig_UserCodeNamespace : string;
}.
#[export] Instance MultiMapConfig_eq_dec : EqDecision MultiMapConfig.
Proof. solve_decision. Defined.
Definition MultiMapConfig_zero : MultiMapConfig := mkMultiMapConfig EmptyString EmptyString 0 0 false EmptyString 0 false None EmptyString EmptyString.
Definition MultiMapConfig_ok (v : MultiMapConfig) : Prop :=
  is_int32 (MultiMapConfig_BackupCount v) /\
  is_int32 (MultiMapConfig_AsyncBackupCount v) /\
  is_int32 (MultiMapConfig_MergeBatchSize v) /\
  Forall ListenerConfigHolder_ok (default [] (MultiMapConfig_ListenerConfigs v)).

Record TopicConfig := mkTopicConfig {
  TopicConfig_Name : string;
  TopicConfig_GlobalOrderingEnabled : bool;
  TopicConfig_MultiThreadingEnabled : bool;
  TopicConfig_StatisticsEnabled : bool;
  TopicConfig_ListenerConfigs : option (list ListenerConfigHolder);
  TopicConfig_UserCodeNamespace : string;
}.
#[export] Instance TopicConfig_eq_dec : EqDecision TopicConfig.
Proof. solve_decision. Defined.
Definition TopicConfig_zero : TopicConfig := mkTopicConfig EmptyString false false false None EmptyString.
Definition TopicConfig_ok (v : TopicConfig) : Prop :=
  Forall ListenerConfigHolder_ok (default [] (TopicConfig_ListenerConfigs v)).

Record ReplicatedMapConfig := mkReplicatedMapConfig {
  ReplicatedMapConfig_Name : string;
  ReplicatedMapConfig_InMemoryFormat : string;
  ReplicatedMapConfig_AsyncFillup : bool;
  ReplicatedMapConfig_MergePolicy : string;
  ReplicatedMapConfig_MergeBatchSize : Z;
  ReplicatedMapConfig_StatisticsEnabled : bool;
  ReplicatedMapConfig_ListenerConfigs : option (list ListenerConfigHolder);
  ReplicatedMapConfig_SplitBrainProtectionName : string;
  ReplicatedMapConfig_UserCodeNamespace : string;
}.
#[export] Instance ReplicatedMapConfig_eq_dec : EqDecision ReplicatedMapConfig.
Proof. solve_decision. Defined.
Definition ReplicatedMapConfig_zero : ReplicatedMapConfig := mkReplicatedMapConfig EmptyString EmptyString false EmptyString 0 false None EmptyString EmptyString.
Definition ReplicatedMapConfig_ok (v : ReplicatedMapConfig) : Prop :=
  is_int32 (ReplicatedMapConfig_MergeBatchSize v) /\
  Forall ListenerConfigHolder_ok (default [] (ReplicatedMapConfig_ListenerConfigs v)).

Record ExecutorServiceConfig := mkExecutorServiceConfig {
  ExecutorServiceConfig_Name : string;
  ExecutorServiceConfig_PoolSize : Z;
  ExecutorServiceConfig_QueueCapacity : Z;
  ExecutorServiceConfig_StatisticsEnabled : bool;
  ExecutorServiceConfig_SplitBrainProtectionName : string;
  ExecutorServiceConfig_UserCodeNamespace : string;
}.
#[export] Instance ExecutorServiceConfig_eq_dec : EqDecision ExecutorServiceConfig.
Proof. solve_decision. Defined.
Definition ExecutorServiceConfig_zero : ExecutorServiceConfig := mkExecutorServiceConfig EmptyString 0 0 false EmptyString EmptyString.
Definition ExecutorServiceConfig_ok (v : ExecutorServiceConfig) : Prop :=
  is_int32 (ExecutorServiceConfig_PoolSize v) /\
  is_int32 (ExecutorServiceConfig_QueueCapacity v).

Record DurableExecutorServiceConfig := mkDurableExecutorServiceConfig {
  DurableExecutorServiceConfig_Name : string;
  DurableExecutorServiceConfig_PoolSize : Z;
  DurableExecutorServiceConfig_Durability : Z;
  DurableExecutorServiceConfig_Capacity : Z;
  DurableExecutorServiceConfig_StatisticsEnabled : bool;
  DurableExecutorServiceConfig_SplitBrainProtectionName : string;
  DurableExecutorServiceConfig_UserCodeNamespace : string;
}.
#[export] Instance DurableExecutorServiceConfig_eq_dec : EqDecision DurableExecutorServiceConfig.
Proof. solve_decision. Defined.
Definition DurableExecutorServiceConfig_zero : DurableExecutorServiceConfig := mkDurableExecutorServiceConfig EmptyString 0 0 0 false EmptyString EmptyString.
Definition DurableExecutorServiceConfig_ok (v : DurableExecutorServiceConfig) : Prop :=
  is_int32 (DurableExecutorServiceConfig_PoolSize v) /\
  is_int32 (DurableExecutorServiceConfig_Durability v) /\
  is_int32 (DurableExecutorServiceConfig_Capacity v).

Record ScheduledExecutorServiceConfig := mkScheduledExecutorServiceConfig {
  ScheduledExecutorServiceConfig_Name : string;
  ScheduledExecutorServiceConfig_PoolSize : Z;
  ScheduledExecutorServiceConfig_Durability : Z;
  ScheduledExecutorServiceConfig_Capacity : Z;
  ScheduledExecutorServiceConfig_CapacityPolicy : string;
  ScheduledExecutorServiceConfig_StatisticsEnabled : bool;
  ScheduledExecutorServiceConfig_MergePolicy : string;
  ScheduledExecutorServiceConfig_MergeBatchSize : Z;
  ScheduledExecutorServiceConfig_SplitBrainProtectionName : string;
  ScheduledExecutorServiceConfig_UserCodeNamespace : string;
}.
#[export] Instance ScheduledExecutorServiceConfig_eq_dec : EqDecision ScheduledExecutorServiceConfig.
Proof. solve_decision. Defined.
Definition ScheduledExecutorServiceConfig_zero : ScheduledExecutorServiceConfig := mkScheduledExecutorServiceConfig EmptyString 0 0 0 EmptyString false EmptyString 0 EmptyString EmptyString.
Definition ScheduledExecutorServiceConfig_ok (v : ScheduledExecutorServiceConfig) : Prop :=
  is_int32 (ScheduledExecutorServiceConfig_PoolSize v) /\
  is_int32 (ScheduledExecutorServiceConfig_Durability v) /\
  is_int32 (ScheduledExecutorServiceConfig_Capacity v) /\
  is_int32 (ScheduledExecutorServiceConfig_MergeBatchSize v).

Record MapConfig := mkMapConfig {
  MapConfig_InMemoryFormat : Z;
  MapConfig_BackupCount : Z;
  MapConfig_AsyncBackupCount : Z;
  MapConfig_TimeToLiveSeconds : Z;
  MapConfig_MaxIdleSeconds : Z;
  MapConfig_MaxSize : Z;
  MapConfig_MaxSizePolicy : Z;
  MapConfig_ReadBackupData : bool;
  MapConfig_EvictionPolicy : Z;
  MapConfig_MergePolicy : string;
  MapConfig_Indexes : list IndexConfig;
  MapConfig_TieredStoreConfig : TieredStoreConfig;
}.
#[export] Instance MapConfig_eq_dec : EqDecision MapConfig.
Proof. solve_decision. Defined.
Definition MapConfig_zero : MapConfig := mkMapConfig 0 0 0 0 0 0 0 false 0 EmptyString [] TieredStoreConfig_zero.
Definition MapConfig_ok (v : MapConfig) : Prop :=
  is_int32 (MapConfig_InMemoryFormat v) /\
  is_int32 (MapConfig_BackupCount v) /\
  is_int32 (MapConfig_AsyncBackupCount v) /\
  is_int32 (MapConfig_TimeToLiveSeconds v) /\
  is_int32 (MapConfig_MaxIdleSeconds v) /\
  is_int32 (MapConfig_MaxSize v) /\
  is_int32 (MapConfig_MaxSizePolicy v) /\
  is_int32 (MapConfig_EvictionPolicy v) /\
  Forall IndexConfig_ok (MapConfig_Indexes v) /\
  TieredStoreConfig_ok (MapConfig_TieredStoreConfig v).
