(* ===== verification/CodecConfig.v ===== *)
(** * Codecs of configuration structures
    (src/internal/protocol/codec/*_codec.go, the files that encode and decode
    one struct of src/internal/protocol/types)

    An encoder opens the structure with a begin frame, writes the fixed-size
    fields at constant offsets of an initial frame, appends the other fields
    and closes with an end frame; the decoder reads in the same order and then
    fast-forwards to the end frame.  A conversion such as [int32(x.Size)] of a
    field that already has that type is the identity and is left out. *)

From S2P Require Import Prelude Proto CodecBuiltin CodecTypes.

#[local] Open Scope go_scope.
#[local] Open Scope string_scope.
#[local] Open Scope list_scope.
#[local] Open Scope Z_scope.

Section Config.
Context `{P : Proto} `{R : MapRange}.

(** ** capacity_codec.go *)

Definition CapacityCodecValueFieldOffset : Z := 0.
Definition CapacityCodecUnitFieldOffset : Z := CapacityCodecValueFieldOffset + LongSizeInBytes.
Definition CapacityCodecUnitInitialFrameSize : Z := CapacityCodecUnitFieldOffset + IntSizeInBytes.

(** The two unit tables; a missing key yields Go's zero value. *)
Definition EncodeUnit (unit : string) : Z :=
  if decide (unit = "BYTES") then 0
  else if decide (unit = "KILOBYTES") then 1
  else if decide (unit = "MEGABYTES") then 2
  else if decide (unit = "GIGABYTES") then 3
  else 0.

Definition DecodeUnit (unit : Z) : string :=
  if unit =? 0 then "BYTES"
  else if unit =? 1 then "KILOBYTES"
  else if unit =? 2 then "MEGABYTES"
  else if unit =? 3 then "GIGABYTES"
  else EmptyString.

Definition EncodeCapacity (capacity : Capacity) : Enc :=
  enc_frame (Copy BeginFrame) >>>
  (let initialFrame := NewFrame (make_bytes CapacityCodecUnitInitialFrameSize) in
  & initialFrame <<= (fun buf => EncodeLong buf CapacityCodecValueFieldOffset (Capacity_Value capacity)) ;;
  & initialFrame <<= (fun buf => EncodeInt buf CapacityCodecUnitFieldOffset (EncodeUnit (Capacity_Unit capacity))) ;;
  enc_frame initialFrame >>>
  enc_frame (Copy EndFrame)).

Definition DecodeCapacity : Dec Capacity :=
  dec_next ;;;
  initialFrame <~ dec_frame ;;
  value <~ dec_lift (DecodeLong (Content initialFrame) CapacityCodecValueFieldOffset) ;;
  unit <~ dec_lift (DecodeInt (Content initialFrame) CapacityCodecUnitFieldOffset) ;;
  FastForwardToEndFrame ;;;
  dec_ret {|
    Capacity_Value := value;
    Capacity_Unit := DecodeUnit unit |}.

(** ** memory_tier_config_codec.go *)

Definition EncodeMemoryTierConfig (memoryTierConfig : MemoryTierConfig) : Enc :=
  enc_frame (Copy BeginFrame) >>>
  EncodeCapacity (MemoryTierConfig_Capacity memoryTierConfig) >>>
  enc_frame (Copy EndFrame).

Definition DecodeMemoryTierConfig : Dec MemoryTierConfig :=
  dec_next ;;;
  capacity <~ DecodeCapacity ;;
  FastForwardToEndFrame ;;;
  dec_ret {|
    MemoryTierConfig_Capacity := capacity |}.

(** ** disk_tier_config_codec.go *)

Definition DiskTierConfigCodecEnabledFieldOffset : Z := 0.
Definition DiskTierConfigCodecEnabledInitialFrameSize : Z := DiskTierConfigCodecEnabledFieldOffset + BooleanSizeInBytes.

Definition EncodeDiskTierConfig (diskTierConfig : DiskTierConfig) : Enc :=
  enc_frame (Copy BeginFrame) >>>
  (let initialFrame := NewFrame (make_bytes DiskTierConfigCodecEnabledInitialFrameSize) in
  & initialFrame <<= (fun buf => EncodeBoolean buf DiskTierConfigCodecEnabledFieldOffset (DiskTierConfig_Enabled diskTierConfig)) ;;
  enc_frame initialFrame >>>
  EncodeString (DiskTierConfig_DeviceName diskTierConfig) >>>
  enc_frame (Copy EndFrame)).

Definition DecodeDiskTierConfig : Dec DiskTierConfig :=
  dec_next ;;;
  initialFrame <~ dec_frame ;;
  enabled <~ dec_lift (DecodeBoolean (Content initialFrame) DiskTierConfigCodecEnabledFieldOffset) ;;
  deviceName <~ DecodeString ;;
  FastForwardToEndFrame ;;;
  dec_ret {|
    DiskTierConfig_Enabled := enabled;
    DiskTierConfig_DeviceName := deviceName |}.

(** ** tiered_store_config_codec.go *)

Definition TieredStoreConfigCodecEnabledFieldOffset : Z := 0.
Definition TieredStoreConfigCodecEnabledInitialFrameSize : Z := TieredStoreConfigCodecEnabledFieldOffset + BooleanSizeInBytes.

Definition EncodeTieredStoreConfig (tieredStoreConfig : TieredStoreConfig) : Enc :=
  enc_frame (Copy BeginFrame) >>>
  (let initialFrame := NewFrame (make_bytes TieredStoreConfigCodecEnabledInitialFrameSize) in
  & initialFrame <<= (fun buf => EncodeBoolean buf TieredStoreConfigCodecEnabledFieldOffset (TieredStoreConfig_Enabled tieredStoreConfig)) ;;
  enc_frame initialFrame >>>
  EncodeMemoryTierConfig (TieredStoreConfig_MemoryTierConfig tieredStoreConfig) >>>
  EncodeDiskTierConfig (TieredStoreConfig_DiskTierConfig tieredStoreConfig) >>>
  enc_frame (Copy EndFrame)).

Definition DecodeTieredStoreConfig : Dec TieredStoreConfig :=
  dec_next ;;;
  initialFrame <~ dec_frame ;;
  enabled <~ dec_lift (DecodeBoolean (Content initialFrame) TieredStoreConfigCodecEnabledFieldOffset) ;;
  memoryTierConfig <~ DecodeMemoryTierConfig ;;
  diskTierConfig <~ DecodeDiskTierConfig ;;
  FastForwardToEndFrame ;;;
  dec_ret {|
    TieredStoreConfig_Enabled := enabled;
    TieredStoreConfig_MemoryTierConfig := memoryTierConfig;
    TieredStoreConfig_DiskTierConfig := diskTierConfig |}.

(** ** bitmap_index_options_codec.go *)

Definition BitmapIndexOptionsCodecUniqueKeyTransformationFieldOffset : Z := 0.
Definition BitmapIndexOptionsCodecUniqueKeyTransformationInitialFrameSize : Z := BitmapIndexOptionsCodecUniqueKeyTransformationFieldOffset + IntSizeInBytes.

Definition EncodeBitmapIndexOptions (bitmapIndexOptions : BitmapIndexOptions) : Enc :=
  enc_frame (Copy BeginFrame) >>>
  (let initialFrame := NewFrame (make_bytes BitmapIndexOptionsCodecUniqueKeyTransformationInitialFrameSize) in
  & initialFrame <<= (fun buf => EncodeInt buf BitmapIndexOptionsCodecUniqueKeyTransformationFieldOffset (BitmapIndexOptions_UniqueKeyTransformation bitmapIndexOptions)) ;;
  enc_frame initialFrame >>>
  EncodeString (BitmapIndexOptions_UniqueKey bitmapIndexOptions) >>>
  enc_frame (Copy EndFrame)).

Definition EncodeNullableForBitmapIndexOptions (options : BitmapIndexOptions) : Enc :=
  if decide (options = BitmapIndexOptions_zero) then enc_frame (Copy NullFrame) else EncodeBitmapIndexOptions options.

Definition DecodeBitmapIndexOptions : Dec BitmapIndexOptions :=
  dec_next ;;;
  initialFrame <~ dec_frame ;;
  uniqueKeyTransformation <~ dec_lift (DecodeInt (Content initialFrame) BitmapIndexOptionsCodecUniqueKeyTransformationFieldOffset) ;;
  uniqueKey <~ DecodeString ;;
  FastForwardToEndFrame ;;;
  dec_ret {|
    BitmapIndexOptions_UniqueKey := uniqueKey;
    BitmapIndexOptions_UniqueKeyTransformation := uniqueKeyTransformation |}.

Definition DecodeNullableForBitmapIndexOptions : Dec BitmapIndexOptions :=
  isNull <~ NextFrameIsNullFrame ;;
  if isNull : bool then dec_ret BitmapIndexOptions_zero else DecodeBitmapIndexOptions.

(** ** index_config_codec.go *)

Definition IndexConfigCodecTypeFieldOffset : Z := 0.
Definition IndexConfigCodecTypeInitialFrameSize : Z := IndexConfigCodecTypeFieldOffset + IntSizeInBytes.

Definition EncodeIndexConfig (indexConfig : IndexConfig) : Enc :=
  enc_frame (Copy BeginFrame) >>>
  (let initialFrame := NewFrame (make_bytes IndexConfigCodecTypeInitialFrameSize) in
  & initialFrame <<= (fun buf => EncodeInt buf IndexConfigCodecTypeFieldOffset (IndexConfig_Type indexConfig)) ;;
  enc_frame initialFrame >>>
  EncodeNullableForString (IndexConfig_Name indexConfig) >>>
  EncodeListMultiFrameForString (IndexConfig_Attributes indexConfig) >>>
  EncodeNullableForBitmapIndexOptions (IndexConfig_BitmapIndexOptions indexConfig) >>>
  enc_frame (Copy EndFrame)).

Definition EncodeListMultiFrameIndexConfig (values : list IndexConfig) : Enc :=
  EncodeListMultiFrame EncodeIndexConfig values.

Definition EncodeNullableListMultiFrameForIndexConfig (values : option (list IndexConfig)) : Enc :=
  match values with
  | None => enc_frame (Copy NullFrame)
  | Some l => EncodeListMultiFrameIndexConfig l
  end.

Definition DecodeIndexConfig : Dec IndexConfig :=
  dec_next ;;;
  initialFrame <~ dec_frame ;;
  _type <~ dec_lift (DecodeInt (Content initialFrame) IndexConfigCodecTypeFieldOffset) ;;
  name <~ DecodeNullableForString ;;
  attributes <~ DecodeListMultiFrameForString ;;
  bitmapIndexOptions <~ DecodeNullableForBitmapIndexOptions ;;
  FastForwardToEndFrame ;;;
  dec_ret {|
    IndexConfig_Name := name;
    IndexConfig_Type := _type;
    IndexConfig_Attributes := attributes;
    IndexConfig_BitmapIndexOptions := bitmapIndexOptions |}.

Definition DecodeNullableListMultiFrameForIndexConfig : Dec (option (list IndexConfig)) :=
  isNull <~ NextFrameIsNullFrame ;;
  if isNull : bool then dec_ret None
  else (l <~ DecodeListMultiFrame DecodeIndexConfig ;; dec_ret (nil_if_empty l)).

(** ** attribute_config_codec.go *)

Definition EncodeAttributeConfig (attributeConfig : AttributeConfig) : Enc :=
  enc_frame (Copy BeginFrame) >>>
  EncodeString (AttributeConfig_Name attributeConfig) >>>
  EncodeString (AttributeConfig_ExtractorClassName attributeConfig) >>>
  enc_frame (Copy EndFrame).

Definition EncodeListMultiFrameAttributeConfig (values : list AttributeConfig) : Enc :=
  EncodeListMultiFrame EncodeAttributeConfig values.

Definition EncodeNullableListMultiFrameForAttributeConfig (values : option (list AttributeConfig)) : Enc :=
  match values with
  | None => enc_frame (Copy NullFrame)
  | Some l => EncodeListMultiFrameAttributeConfig l
  end.

Definition DecodeAttributeConfig : Dec AttributeConfig :=
  dec_next ;;;
  name <~ DecodeString ;;
  extractorClassName <~ DecodeString ;;
  FastForwardToEndFrame ;;;
  dec_ret {|
    AttributeConfig_Name := name;
    AttributeConfig_ExtractorClassName := extractorClassName |}.

(** ** eviction_config_holder_codec.go *)

Definition EvictionConfigHolderCodecSizeFieldOffset : Z := 0.
Definition EvictionConfigHolderCodecSizeInitialFrameSize : Z := EvictionConfigHolderCodecSizeFieldOffset + IntSizeInBytes.

Definition EncodeEvictionConfigHolder (evictionConfigHolder : EvictionConfigHolder) : Enc :=
  enc_frame (Copy BeginFrame) >>>
  (let initialFrame := NewFrame (make_bytes EvictionConfigHolderCodecSizeInitialFrameSize) in
  & initialFrame <<= (fun buf => EncodeInt buf EvictionConfigHolderCodecSizeFieldOffset (EvictionConfigHolder_Size evictionConfigHolder)) ;;
  enc_frame initialFrame >>>
  EncodeString (EvictionConfigHolder_MaxSizePolicy evictionConfigHolder) >>>
  EncodeString (EvictionConfigHolder_EvictionPolicy evictionConfigHolder) >>>
  EncodeNullableForString (EvictionConfigHolder_ComparatorClassName evictionConfigHolder) >>>
  EncodeNullableForData (EvictionConfigHolder_Comparator evictionConfigHolder) >>>
  enc_frame (Copy EndFrame)).

Definition EncodeNullableForEvictionConfigHolder (evictionConfigHolder : EvictionConfigHolder) : Enc :=
  if decide (evictionConfigHolder = EvictionConfigHolder_zero) then enc_frame (Copy NullFrame) else EncodeEvictionConfigHolder evictionConfigHolder.

Definition DecodeEvictionConfigHolder : Dec EvictionConfigHolder :=
  dec_next ;;;
  initialFrame <~ dec_frame ;;
  size <~ dec_lift (DecodeInt (Content initialFrame) EvictionConfigHolderCodecSizeFieldOffset) ;;
  maxSizePolicy <~ DecodeString ;;
  evictionPolicy <~ DecodeString ;;
  comparatorClassName <~ DecodeNullableForString ;;
  comparator <~ DecodeNullableForData ;;
  FastForwardToEndFrame ;;;
  dec_ret {|
    EvictionConfigHolder_Size := size;
    EvictionConfigHolder_MaxSizePolicy := maxSizePolicy;
    EvictionConfigHolder_EvictionPolicy := evictionPolicy;
    EvictionConfigHolder_ComparatorClassName := comparatorClassName;
    EvictionConfigHolder_Comparator := comparator |}.

(** ** hot_restart_config_codec.go *)

Definition HotRestartConfigCodecEnabledFieldOffset : Z := 0.
Definition HotRestartConfigCodecFsyncFieldOffset : Z := HotRestartConfigCodecEnabledFieldOffset + BooleanSizeInBytes.
Definition HotRestartConfigCodecFsyncInitialFrameSize : Z := HotRestartConfigCodecFsyncFieldOffset + BooleanSizeInBytes.

Definition EncodeHotRestartConfig (hotRestartConfig : HotRestartConfig) : Enc :=
  enc_frame (Copy BeginFrame) >>>
  (let initialFrame := NewFrame (make_bytes HotRestartConfigCodecFsyncInitialFrameSize) in
  & initialFrame <<= (fun buf => EncodeBoolean buf HotRestartConfigCodecEnabledFieldOffset (HotRestartConfig_Enabled hotRestartConfig)) ;;
  & initialFrame <<= (fun buf => EncodeBoolean buf HotRestartConfigCodecFsyncFieldOffset (HotRestartConfig_Fsync hotRestartConfig)) ;;
  enc_frame initialFrame >>>
  enc_frame (Copy EndFrame)).

Definition EncodeNullableForHotRestartConfig (hotRestartConfig : HotRestartConfig) : Enc :=
  if decide (hotRestartConfig = HotRestartConfig_zero) then enc_frame (Copy NullFrame) else EncodeHotRestartConfig hotRestartConfig.

Definition DecodeHotRestartConfig : Dec HotRestartConfig :=
  dec_next ;;;
  initialFrame <~ dec_frame ;;
  enabled <~ dec_lift (DecodeBoolean (Content initialFrame) HotRestartConfigCodecEnabledFieldOffset) ;;
  fsync <~ dec_lift (DecodeBoolean (Content initialFrame) HotRestartConfigCodecFsyncFieldOffset) ;;
  FastForwardToEndFrame ;;;
  dec_ret {|
    HotRestartConfig_Enabled := enabled;
    HotRestartConfig_Fsync := fsync |}.

(** ** event_journal_config_codec.go *)

Definition EventJournalConfigCodecEnabledFieldOffset : Z := 0.
Definition EventJournalConfigCodecCapacityFieldOffset : Z := EventJournalConfigCodecEnabledFieldOffset + BooleanSizeInBytes.
Definition EventJournalConfigCodecTimeToLiveSecondsFieldOffset : Z := EventJournalConfigCodecCapacityFieldOffset + IntSizeInBytes.
Definition EventJournalConfigCodecTimeToLiveSecondsInitialFrameSize : Z := EventJournalConfigCodecTimeToLiveSecondsFieldOffset + IntSizeInBytes.

Definition EncodeEventJournalConfig (eventJournalConfig : EventJournalConfig) : Enc :=
  enc_frame (Copy BeginFrame) >>>
  (let initialFrame := NewFrame (make_bytes EventJournalConfigCodecTimeToLiveSecondsInitialFrameSize) in
  & initialFrame <<= (fun buf => EncodeBoolean buf EventJournalConfigCodecEnabledFieldOffset (EventJournalConfig_Enabled eventJournalConfig)) ;;
  & initialFrame <<= (fun buf => EncodeInt buf EventJournalConfigCodecCapacityFieldOffset (EventJournalConfig_Capacity eventJournalConfig)) ;;
  & initialFrame <<= (fun buf => EncodeInt buf EventJournalConfigCodecTimeToLiveSecondsFieldOffset (EventJournalConfig_TimeToLiveSeconds eventJournalConfig)) ;;
  enc_frame initialFrame >>>
  enc_frame (Copy EndFrame)).

Definition EncodeNullableForEventJournalConfig (eventJournalConfig : EventJournalConfig) : Enc :=
  if decide (eventJournalConfig = EventJournalConfig_zero) then enc_frame (Copy NullFrame) else EncodeEventJournalConfig eventJournalConfig.

Definition DecodeEventJournalConfig : Dec EventJournalConfig :=
  dec_next ;;;
  initialFrame <~ dec_frame ;;
  enabled <~ dec_lift (DecodeBoolean (Content initialFrame) EventJournalConfigCodecEnabledFieldOffset) ;;
  capacity <~ dec_lift (DecodeInt (Content initialFrame) EventJournalConfigCodecCapacityFieldOffset) ;;
  timeToLiveSeconds <~ dec_lift (DecodeInt (Content initialFrame) EventJournalConfigCodecTimeToLiveSecondsFieldOffset) ;;
  FastForwardToEndFrame ;;;
  dec_ret {|
    EventJournalConfig_Enabled := enabled;
    EventJournalConfig_Capacity := capacity;
    EventJournalConfig_TimeToLiveSeconds := timeToLiveSeconds |}.

(** ** merkle_tree_config_codec.go *)

Definition MerkleTreeConfigCodecEnabledFieldOffset : Z := 0.
Definition MerkleTreeConfigCodecDepthFieldOffset : Z := MerkleTreeConfigCodecEnabledFieldOffset + BooleanSizeInBytes.
Definition MerkleTreeConfigCodecEnabledSetFieldOffset : Z := MerkleTreeConfigCodecDepthFieldOffset + IntSizeInBytes.
Definition MerkleTreeConfigCodecEnabledSetInitialFrameSize : Z := MerkleTreeConfigCodecEnabledSetFieldOffset + BooleanSizeInBytes.

Definition EncodeMerkleTreeConfig (merkleTreeConfig : MerkleTreeConfig) : Enc :=
  enc_frame (Copy BeginFrame) >>>
  (let initialFrame := NewFrame (make_bytes MerkleTreeConfigCodecEnabledSetInitialFrameSize) in
  & initialFrame <<= (fun buf => EncodeBoolean buf MerkleTreeConfigCodecEnabledFieldOffset (MerkleTreeConfig_Enabled merkleTreeConfig)) ;;
  & initialFrame <<= (fun buf => EncodeInt buf MerkleTreeConfigCodecDepthFieldOffset (MerkleTreeConfig_Depth merkleTreeConfig)) ;;
  & initialFrame <<= (fun buf => EncodeBoolean buf MerkleTreeConfigCodecEnabledSetFieldOffset (MerkleTreeConfig_EnabledSet merkleTreeConfig)) ;;
  enc_frame initialFrame >>>
  enc_frame (Copy EndFrame)).

Definition EncodeNullableForMerkleTreeConfig (merkleTreeConfig : MerkleTreeConfig) : Enc :=
  if decide (merkleTreeConfig = MerkleTreeConfig_zero) then enc_frame (Copy NullFrame) else EncodeMerkleTreeConfig merkleTreeConfig.

Definition DecodeMerkleTreeConfig : Dec MerkleTreeConfig :=
  dec_next ;;;
  initialFrame <~ dec_frame ;;
  enabled <~ dec_lift (DecodeBoolean (Content initialFrame) MerkleTreeConfigCodecEnabledFieldOffset) ;;
  depth <~ dec_lift (DecodeInt (Content initialFrame) MerkleTreeConfigCodecDepthFieldOffset) ;;
  enabledSet <~ dec_lift (if MerkleTreeConfigCodecEnabledSetFieldOffset + BooleanSizeInBytes <=? len (Content initialFrame)
    then DecodeBoolean (Content initialFrame) MerkleTreeConfigCodecEnabledSetFieldOffset else Ret false) ;;
  FastForwardToEndFrame ;;;
  dec_ret {|
    MerkleTreeConfig_Enabled := enabled;
    MerkleTreeConfig_Depth := depth;
    MerkleTreeConfig_EnabledSet := enabledSet |}.

(** ** data_persistence_config_codec.go *)

Definition DataPersistenceConfigCodecEnabledFieldOffset : Z := 0.
Definition DataPersistenceConfigCodecFsyncFieldOffset : Z := DataPersistenceConfigCodecEnabledFieldOffset + BooleanSizeInBytes.
Definition DataPersistenceConfigCodecFsyncInitialFrameSize : Z := DataPersistenceConfigCodecFsyncFieldOffset + BooleanSizeInBytes.

Definition EncodeDataPersistenceConfig (dataPersistenceConfig : DataPersistenceConfig) : Enc :=
  enc_frame (Copy BeginFrame) >>>
  (let initialFrame := NewFrame (make_bytes DataPersistenceConfigCodecFsyncInitialFrameSize) in
  & initialFrame <<= (fun buf => EncodeBoolean buf DataPersistenceConfigCodecEnabledFieldOffset (DataPersistenceConfig_Enabled dataPersistenceConfig)) ;;
  & initialFrame <<= (fun buf => EncodeBoolean buf DataPersistenceConfigCodecFsyncFieldOffset (DataPersistenceConfig_Fsync dataPersistenceConfig)) ;;
  enc_frame initialFrame >>>
  enc_frame (Copy EndFrame)).

Definition DecodeDataPersistenceConfig : Dec DataPersistenceConfig :=
  dec_next ;;;
  initialFrame <~ dec_frame ;;
  enabled <~ dec_lift (DecodeBoolean (Content initialFrame) DataPersistenceConfigCodecEnabledFieldOffset) ;;
  fsync <~ dec_lift (DecodeBoolean (Content initialFrame) DataPersistenceConfigCodecFsyncFieldOffset) ;;
  FastForwardToEndFrame ;;;
  dec_ret {|
    DataPersistenceConfig_Enabled := enabled;
    DataPersistenceConfig_Fsync := fsync |}.

(** ** duration_config_codec.go *)

Definition DurationConfigCodecDurationAmountFieldOffset : Z := 0.
Definition DurationConfigCodecTimeUnitFieldOffset : Z := DurationConfigCodecDurationAmountFieldOffset + LongSizeInBytes.
Definition DurationConfigCodecTimeUnitInitialFrameSize : Z := DurationConfigCodecTimeUnitFieldOffset + IntSizeInBytes.

Definition EncodeDurationConfig (durationConfig : DurationConfig) : Enc :=
  enc_frame (Copy BeginFrame) >>>
  (let initialFrame := NewFrame (make_bytes DurationConfigCodecTimeUnitInitialFrameSize) in
  & initialFrame <<= (fun buf => EncodeLong buf DurationConfigCodecDurationAmountFieldOffset (DurationConfig_DurationAmount durationConfig)) ;;
  & initialFrame <<= (fun buf => EncodeInt buf DurationConfigCodecTimeUnitFieldOffset (DurationConfig_TimeUnit durationConfig)) ;;
  enc_frame initialFrame >>>
  enc_frame (Copy EndFrame)).

Definition DecodeDurationConfig : Dec DurationConfig :=
  dec_next ;;;
  initialFrame <~ dec_frame ;;
  durationAmount <~ dec_lift (DecodeLong (Content initialFrame) DurationConfigCodecDurationAmountFieldOffset) ;;
  timeUnit <~ dec_lift (DecodeInt (Content initialFrame) DurationConfigCodecTimeUnitFieldOffset) ;;
  FastForwardToEndFrame ;;;
  dec_ret {|
    DurationConfig_DurationAmount := durationAmount;
    DurationConfig_TimeUnit := timeUnit |}.

(** ** timed_expiry_policy_factory_config_codec.go *)

Definition TimedExpiryPolicyFactoryConfigCodecExpiryPolicyTypeFieldOffset : Z := 0.
Definition TimedExpiryPolicyFactoryConfigCodecExpiryPolicyTypeInitialFrameSize : Z := TimedExpiryPolicyFactoryConfigCodecExpiryPolicyTypeFieldOffset + IntSizeInBytes.

Definition EncodeTimedExpiryPolicyFactoryConfig (timedExpiryPolicyFactoryConfig : TimedExpiryPolicyFactoryConfig) : Enc :=
  enc_frame (Copy BeginFrame) >>>
  (let initialFrame := NewFrame (make_bytes TimedExpiryPolicyFactoryConfigCodecExpiryPolicyTypeInitialFrameSize) in
  & initialFrame <<= (fun buf => EncodeInt buf TimedExpiryPolicyFactoryConfigCodecExpiryPolicyTypeFieldOffset (TimedExpiryPolicyFactoryConfig_ExpiryPolicyType timedExpiryPolicyFactoryConfig)) ;;
  enc_frame initialFrame >>>
  EncodeDurationConfig (TimedExpiryPolicyFactoryConfig_DurationConfig timedExpiryPolicyFactoryConfig) >>>
  enc_frame (Copy EndFrame)).

Definition EncodeNullableForEncodeTimedExpiryPolicyFactoryConfig (timedExpiryPolicyFactoryConfig : TimedExpiryPolicyFactoryConfig) : Enc :=
  if decide (timedExpiryPolicyFactoryConfig = TimedExpiryPolicyFactoryConfig_zero) then enc_frame (Copy NullFrame) else EncodeTimedExpiryPolicyFactoryConfig timedExpiryPolicyFactoryConfig.

Definition DecodeTimedExpiryPolicyFactoryConfig : Dec TimedExpiryPolicyFactoryConfig :=
  dec_next ;;;
  initialFrame <~ dec_frame ;;
  expiryPolicyType <~ dec_lift (DecodeInt (Content initialFrame) TimedExpiryPolicyFactoryConfigCodecExpiryPolicyTypeFieldOffset) ;;
  durationConfig <~ DecodeDurationConfig ;;
  FastForwardToEndFrame ;;;
  dec_ret {|
    TimedExpiryPolicyFactoryConfig_ExpiryPolicyType := expiryPolicyType;
    TimedExpiryPolicyFactoryConfig_DurationConfig := durationConfig |}.

(** ** merge_policy_config_codec.go *)

Definition MergePolicyConfigCodecBatchSizeFieldOffset : Z := 0.
Definition MergePolicyConfigCodecBatchSizeInitialFrameSize : Z := MergePolicyConfigCodecBatchSizeFieldOffset + IntSizeInBytes.

Definition EncodeMergePolicyConfig (mergePolicyConfig : MergePolicyConfig) : Enc :=
  enc_frame (Copy BeginFrame) >>>
  (let initialFrame := NewFrame (make_bytes MergePolicyConfigCodecBatchSizeInitialFrameSize) in
  & initialFrame <<= (fun buf => EncodeInt buf MergePolicyConfigCodecBatchSizeFieldOffset (MergePolicyConfig_BatchSize mergePolicyConfig)) ;;
  enc_frame initialFrame >>>
  EncodeString (MergePolicyConfig_Policy mergePolicyConfig) >>>
  enc_frame (Copy EndFrame)).

Definition DecodeMergePolicyConfig : Dec MergePolicyConfig :=
  dec_next ;;;
  initialFrame <~ dec_frame ;;
  batchSize <~ dec_lift (DecodeInt (Content initialFrame) MergePolicyConfigCodecBatchSizeFieldOffset) ;;
  policy <~ DecodeString ;;
  FastForwardToEndFrame ;;;
  dec_ret {|
    MergePolicyConfig_Policy := policy;
    MergePolicyConfig_BatchSize := batchSize |}.

(** ** near_cache_preloader_config_codec.go *)

Definition NearCachePreloaderConfigCodecEnabledFieldOffset : Z := 0.
Definition NearCachePreloaderConfigCodecStoreInitialDelaySecondsFieldOffset : Z := NearCachePreloaderConfigCodecEnabledFieldOffset + BooleanSizeInBytes.
Definition NearCachePreloaderConfigCodecStoreIntervalSecondsFieldOffset : Z := NearCachePreloaderConfigCodecStoreInitialDelaySecondsFieldOffset + IntSizeInBytes.
Definition NearCachePreloaderConfigCodecStoreIntervalSecondsInitialFrameSize : Z := NearCachePreloaderConfigCodecStoreIntervalSecondsFieldOffset + IntSizeInBytes.

Definition EncodeNearCachePreloaderConfig (nearCachePreloaderConfig : NearCachePreloaderConfig) : Enc :=
  enc_frame (Copy BeginFrame) >>>
  (let initialFrame := NewFrame (make_bytes NearCachePreloaderConfigCodecStoreIntervalSecondsInitialFrameSize) in
  & initialFrame <<= (fun buf => EncodeBoolean buf NearCachePreloaderConfigCodecEnabledFieldOffset (NearCachePreloaderConfig_Enabled nearCachePreloaderConfig)) ;;
  & initialFrame <<= (fun buf => EncodeInt buf NearCachePreloaderConfigCodecStoreInitialDelaySecondsFieldOffset (NearCachePreloaderConfig_StoreInitialDelaySeconds nearCachePreloaderConfig)) ;;
  & initialFrame <<= (fun buf => EncodeInt buf NearCachePreloaderConfigCodecStoreIntervalSecondsFieldOffset (NearCachePreloaderConfig_StoreIntervalSeconds nearCachePreloaderConfig)) ;;
  enc_frame initialFrame >>>
  EncodeString (NearCachePreloaderConfig_Directory nearCachePreloaderConfig) >>>
  enc_frame (Copy EndFrame)).

Definition EncodeNullableForNearCachePreloaderConfig (nearCachePreloaderConfig : NearCachePreloaderConfig) : Enc :=
  if decide (nearCachePreloaderConfig = NearCachePreloaderConfig_zero) then enc_frame (Copy NullFrame) else EncodeNearCachePreloaderConfig nearCachePreloaderConfig.

Definition DecodeNearCachePreloaderConfig : Dec NearCachePreloaderConfig :=
  dec_next ;;;
  initialFrame <~ dec_frame ;;
  enabled <~ dec_lift (DecodeBoolean (Content initialFrame) NearCachePreloaderConfigCodecEnabledFieldOffset) ;;
  storeInitialDelaySeconds <~ dec_lift (DecodeInt (Content initialFrame) NearCachePreloaderConfigCodecStoreInitialDelaySecondsFieldOffset) ;;
  storeIntervalSeconds <~ dec_lift (DecodeInt (Content initialFrame) NearCachePreloaderConfigCodecStoreIntervalSecondsFieldOffset) ;;
  directory <~ DecodeString ;;
  FastForwardToEndFrame ;;;
  dec_ret {|
    NearCachePreloaderConfig_Enabled := enabled;
    NearCachePreloaderConfig_Directory := directory;
    NearCachePreloaderConfig_StoreInitialDelaySeconds := storeInitialDelaySeconds;
    NearCachePreloaderConfig_StoreIntervalSeconds := storeIntervalSeconds |}.

Definition DecodeNullableForNearCachePreloaderConfig : Dec NearCachePreloaderConfig :=
  isNull <~ NextFrameIsNullFrame ;;
  if isNull : bool then dec_ret NearCachePreloaderConfig_zero else DecodeNearCachePreloaderConfig.

(** ** near_cache_config_holder_codec.go *)

Definition NearCacheConfigHolderCodecSerializeKeysFieldOffset : Z := 0.
Definition NearCacheConfigHolderCodecInvalidateOnChangeFieldOffset : Z := NearCacheConfigHolderCodecSerializeKeysFieldOffset + BooleanSizeInBytes.
Definition NearCacheConfigHolderCodecTimeToLiveSecondsFieldOffset : Z := NearCacheConfigHolderCodecInvalidateOnChangeFieldOffset + BooleanSizeInBytes.
Definition NearCacheConfigHolderCodecMaxIdleSecondsFieldOffset : Z := NearCacheConfigHolderCodecTimeToLiveSecondsFieldOffset + IntSizeInBytes.
Definition NearCacheConfigHolderCodecCacheLocalEntriesFieldOffset : Z := NearCacheConfigHolderCodecMaxIdleSecondsFieldOffset + IntSizeInBytes.
Definition NearCacheConfigHolderCodecCacheLocalEntriesInitialFrameSize : Z := NearCacheConfigHolderCodecCacheLocalEntriesFieldOffset + BooleanSizeInBytes.

Definition EncodeNearCacheConfigHolder (nearCacheConfigHolder : NearCacheConfigHolder) : Enc :=
  enc_frame (Copy BeginFrame) >>>
  (let initialFrame := NewFrame (make_bytes NearCacheConfigHolderCodecCacheLocalEntriesInitialFrameSize) in
  & initialFrame <<= (fun buf => EncodeBoolean buf NearCacheConfigHolderCodecSerializeKeysFieldOffset (NearCacheConfigHolder_SerializeKeys nearCacheConfigHolder)) ;;
  & initialFrame <<= (fun buf => EncodeBoolean buf NearCacheConfigHolderCodecInvalidateOnChangeFieldOffset (NearCacheConfigHolder_InvalidateOnChange nearCacheConfigHolder)) ;;
  & initialFrame <<= (fun buf => EncodeInt buf NearCacheConfigHolderCodecTimeToLiveSecondsFieldOffset (NearCacheConfigHolder_TimeToLiveSeconds nearCacheConfigHolder)) ;;
  & initialFrame <<= (fun buf => EncodeInt buf NearCacheConfigHolderCodecMaxIdleSecondsFieldOffset (NearCacheConfigHolder_MaxIdleSeconds nearCacheConfigHolder)) ;;
  & initialFrame <<= (fun buf => EncodeBoolean buf NearCacheConfigHolderCodecCacheLocalEntriesFieldOffset (NearCacheConfigHolder_CacheLocalEntries nearCacheConfigHolder)) ;;
  enc_frame initialFrame >>>
  EncodeString (NearCacheConfigHolder_Name nearCacheConfigHolder) >>>
  EncodeString (NearCacheConfigHolder_InMemoryFormat nearCacheConfigHolder) >>>
  EncodeEvictionConfigHolder (NearCacheConfigHolder_EvictionConfigHolder nearCacheConfigHolder) >>>
  EncodeString (NearCacheConfigHolder_LocalUpdatePolicy nearCacheConfigHolder) >>>
  EncodeNullableForNearCachePreloaderConfig (NearCacheConfigHolder_PreloaderConfig nearCacheConfigHolder) >>>
  enc_frame (Copy EndFrame)).

Definition EncodeNullableForNearCacheConfigHolder (nearCacheConfigHolder : NearCacheConfigHolder) : Enc :=
  if decide (nearCacheConfigHolder = NearCacheConfigHolder_zero) then enc_frame (Copy NullFrame) else EncodeNearCacheConfigHolder nearCacheConfigHolder.

Definition DecodeNearCacheConfigHolder : Dec NearCacheConfigHolder :=
  dec_next ;;;
  initialFrame <~ dec_frame ;;
  serializeKeys <~ dec_lift (DecodeBoolean (Content initialFrame) NearCacheConfigHolderCodecSerializeKeysFieldOffset) ;;
  invalidateOnChange <~ dec_lift (DecodeBoolean (Content initialFrame) NearCacheConfigHolderCodecInvalidateOnChangeFieldOffset) ;;
  timeToLiveSeconds <~ dec_lift (DecodeInt (Content initialFrame) NearCacheConfigHolderCodecTimeToLiveSecondsFieldOffset) ;;
  maxIdleSeconds <~ dec_lift (DecodeInt (Content initialFrame) NearCacheConfigHolderCodecMaxIdleSecondsFieldOffset) ;;
  cacheLocalEntries <~ dec_lift (DecodeBoolean (Content initialFrame) NearCacheConfigHolderCodecCacheLocalEntriesFieldOffset) ;;
  name <~ DecodeString ;;
  inMemoryFormat <~ DecodeString ;;
  evictionConfigHolder <~ DecodeEvictionConfigHolder ;;
  localUpdatePolicy <~ DecodeString ;;
  preloaderConfig <~ DecodeNullableForNearCachePreloaderConfig ;;
  FastForwardToEndFrame ;;;
  dec_ret {|
    NearCacheConfigHolder_Name := name;
    NearCacheConfigHolder_InMemoryFormat := inMemoryFormat;
    NearCacheConfigHolder_SerializeKeys := serializeKeys;
    NearCacheConfigHolder_InvalidateOnChange := invalidateOnChange;
    NearCacheConfigHolder_TimeToLiveSeconds := timeToLiveSeconds;
    NearCacheConfigHolder_MaxIdleSeconds := maxIdleSeconds;
    NearCacheConfigHolder_EvictionConfigHolder := evictionConfigHolder;
    NearCacheConfigHolder_CacheLocalEntries := cacheLocalEntries;
    NearCacheConfigHolder_LocalUpdatePolicy := localUpdatePolicy;
    NearCacheConfigHolder_PreloaderConfig := preloaderConfig |}.

(** ** predicate_config_holder_codec.go *)

Definition EncodePredicateConfigHolder (predicateConfigHolder : PredicateConfigHolder) : Enc :=
  enc_frame (Copy BeginFrame) >>>
  EncodeNullableForString (PredicateConfigHolder_ClassName predicateConfigHolder) >>>
  EncodeNullableForString (PredicateConfigHolder_Sql predicateConfigHolder) >>>
  EncodeNullableForData (PredicateConfigHolder_Implementation predicateConfigHolder) >>>
  enc_frame (Copy EndFrame).

Definition DecodePredicateConfigHolder : Dec PredicateConfigHolder :=
  dec_next ;;;
  className <~ DecodeNullableForString ;;
  sql <~ DecodeNullableForString ;;
  implementation <~ DecodeNullableForData ;;
  FastForwardToEndFrame ;;;
  dec_ret {|
    PredicateConfigHolder_ClassName := className;
    PredicateConfigHolder_Sql := sql;
    PredicateConfigHolder_Implementation := implementation |}.

(** ** listener_config_holder_codec.go *)

Definition ListenerConfigHolderCodecListenerTypeFieldOffset : Z := 0.
Definition ListenerConfigHolderCodecIncludeValueFieldOffset : Z := ListenerConfigHolderCodecListenerTypeFieldOffset + IntSizeInBytes.
Definition ListenerConfigHolderCodecLocalFieldOffset : Z := ListenerConfigHolderCodecIncludeValueFieldOffset + BooleanSizeInBytes.
Definition ListenerConfigHolderCodecLocalInitialFrameSize : Z := ListenerConfigHolderCodecLocalFieldOffset + BooleanSizeInBytes.

Definition EncodeListenerConfigHolder (listenerConfigHolder : ListenerConfigHolder) : Enc :=
  enc_frame (Copy BeginFrame) >>>
  (let initialFrame := NewFrame (make_bytes ListenerConfigHolderCodecLocalInitialFrameSize) in
  & initialFrame <<= (fun buf => EncodeInt buf ListenerConfigHolderCodecListenerTypeFieldOffset (ListenerConfigHolder_ListenerType listenerConfigHolder)) ;;
  & initialFrame <<= (fun buf => EncodeBoolean buf ListenerConfigHolderCodecIncludeValueFieldOffset (ListenerConfigHolder_IncludeValue listenerConfigHolder)) ;;
  & initialFrame <<= (fun buf => EncodeBoolean buf ListenerConfigHolderCodecLocalFieldOffset (ListenerConfigHolder_Local listenerConfigHolder)) ;;
  enc_frame initialFrame >>>
  EncodeNullableForData (ListenerConfigHolder_ListenerImplementation listenerConfigHolder) >>>
  EncodeNullableForString (ListenerConfigHolder_ClassName listenerConfigHolder) >>>
  enc_frame (Copy EndFrame)).

Definition EncodeListMultiFrameListenerConfigHolder (values : list ListenerConfigHolder) : Enc :=
  EncodeListMultiFrame EncodeListenerConfigHolder values.

Definition EncodeNullableListMultiFrameForListenerConfigHolder (values : option (list ListenerConfigHolder)) : Enc :=
  match values with
  | None => enc_frame (Copy NullFrame)
  | Some l => EncodeListMultiFrameListenerConfigHolder l
  end.

Definition DecodeListenerConfigHolder : Dec ListenerConfigHolder :=
  dec_next ;;;
  initialFrame <~ dec_frame ;;
  listenerType <~ dec_lift (DecodeInt (Content initialFrame) ListenerConfigHolderCodecListenerTypeFieldOffset) ;;
  includeValue <~ dec_lift (DecodeBoolean (Content initialFrame) ListenerConfigHolderCodecIncludeValueFieldOffset) ;;
  local <~ dec_lift (DecodeBoolean (Content initialFrame) ListenerConfigHolderCodecLocalFieldOffset) ;;
  listenerImplementation <~ DecodeNullableForData ;;
  className <~ DecodeNullableForString ;;
  FastForwardToEndFrame ;;;
  dec_ret {|
    ListenerConfigHolder_ListenerType := listenerType;
    ListenerConfigHolder_ListenerImplementation := listenerImplementation;
    ListenerConfigHolder_ClassName := className;
    ListenerConfigHolder_IncludeValue := includeValue;
    ListenerConfigHolder_Local := local |}.

Definition DecodeNullableListMultiFrameForListenerConfigHolder : Dec (option (list ListenerConfigHolder)) :=
  isNull <~ NextFrameIsNullFrame ;;
  if isNull : bool then dec_ret None
  else (l <~ DecodeListMultiFrame DecodeListenerConfigHolder ;; dec_ret (nil_if_empty l)).

(** ** query_cache_config_holder_codec.go *)

Definition QueryCacheConfigHolderCodecBatchSizeFieldOffset : Z := 0.
Definition QueryCacheConfigHolderCodecBufferSizeFieldOffset : Z := QueryCacheConfigHolderCodecBatchSizeFieldOffset + IntSizeInBytes.
Definition QueryCacheConfigHolderCodecDelaySecondsFieldOffset : Z := QueryCacheConfigHolderCodecBufferSizeFieldOffset + IntSizeInBytes.
Definition QueryCacheConfigHolderCodecIncludeValueFieldOffset : Z := QueryCacheConfigHolderCodecDelaySecondsFieldOffset + IntSizeInBytes.
Definition QueryCacheConfigHolderCodecPopulateFieldOffset : Z := QueryCacheConfigHolderCodecIncludeValueFieldOffset + BooleanSizeInBytes.
Definition QueryCacheConfigHolderCodecCoalesceFieldOffset : Z := QueryCacheConfigHolderCodecPopulateFieldOffset + BooleanSizeInBytes.
Definition QueryCacheConfigHolderCodecCoalesceInitialFrameSize : Z := QueryCacheConfigHolderCodecCoalesceFieldOffset + BooleanSizeInBytes.

Definition EncodeQueryCacheConfigHolder (queryCacheConfigHolder : QueryCacheConfigHolder) : Enc :=
  enc_frame (Copy BeginFrame) >>>
  (let initialFrame := NewFrame (make_bytes QueryCacheConfigHolderCodecCoalesceInitialFrameSize) in
  & initialFrame <<= (fun buf => EncodeInt buf QueryCacheConfigHolderCodecBatchSizeFieldOffset (QueryCacheConfigHolder_BatchSize queryCacheConfigHolder)) ;;
  & initialFrame <<= (fun buf => EncodeInt buf QueryCacheConfigHolderCodecBufferSizeFieldOffset (QueryCacheConfigHolder_BufferSize queryCacheConfigHolder)) ;;
  & initialFrame <<= (fun buf => EncodeInt buf QueryCacheConfigHolderCodecDelaySecondsFieldOffset (QueryCacheConfigHolder_DelaySeconds queryCacheConfigHolder)) ;;
  & initialFrame <<= (fun buf => EncodeBoolean buf QueryCacheConfigHolderCodecIncludeValueFieldOffset (QueryCacheConfigHolder_IncludeValue queryCacheConfigHolder)) ;;
  & initialFrame <<= (fun buf => EncodeBoolean buf QueryCacheConfigHolderCodecPopulateFieldOffset (QueryCacheConfigHolder_Populate queryCacheConfigHolder)) ;;
  & initialFrame <<= (fun buf => EncodeBoolean buf QueryCacheConfigHolderCodecCoalesceFieldOffset (QueryCacheConfigHolder_Coalesce queryCacheConfigHolder)) ;;
  enc_frame initialFrame >>>
  EncodeString (QueryCacheConfigHolder_InMemoryFormat queryCacheConfigHolder) >>>
  EncodeString (QueryCacheConfigHolder_Name queryCacheConfigHolder) >>>
  EncodePredicateConfigHolder (QueryCacheConfigHolder_PredicateConfigHolder queryCacheConfigHolder) >>>
  EncodeEvictionConfigHolder (QueryCacheConfigHolder_EvictionConfigHolder queryCacheConfigHolder) >>>
  EncodeNullableListMultiFrameForListenerConfigHolder (QueryCacheConfigHolder_ListenerConfigs queryCacheConfigHolder) >>>
  EncodeNullableListMultiFrameForIndexConfig (QueryCacheConfigHolder_IndexConfigs queryCacheConfigHolder) >>>
  enc_frame (Copy EndFrame)).

Definition EncodeListMultiFrameQueryCacheConfigHolder (values : list QueryCacheConfigHolder) : Enc :=
  EncodeListMultiFrame EncodeQueryCacheConfigHolder values.

Definition EncodeNullableListMultiFrameForQueryCacheConfigHolder (values : option (list QueryCacheConfigHolder)) : Enc :=
  match values with
  | None => enc_frame (Copy NullFrame)
  | Some l => EncodeListMultiFrameQueryCacheConfigHolder l
  end.

Definition DecodeQueryCacheConfigHolder : Dec QueryCacheConfigHolder :=
  dec_next ;;;
  initialFrame <~ dec_frame ;;
  batchSize <~ dec_lift (DecodeInt (Content initialFrame) QueryCacheConfigHolderCodecBatchSizeFieldOffset) ;;
  bufferSize <~ dec_lift (DecodeInt (Content initialFrame) QueryCacheConfigHolderCodecBufferSizeFieldOffset) ;;
  delaySeconds <~ dec_lift (DecodeInt (Content initialFrame) QueryCacheConfigHolderCodecDelaySecondsFieldOffset) ;;
  includeValue <~ dec_lift (DecodeBoolean (Content initialFrame) QueryCacheConfigHolderCodecIncludeValueFieldOffset) ;;
  populate <~ dec_lift (DecodeBoolean (Content initialFrame) QueryCacheConfigHolderCodecPopulateFieldOffset) ;;
  coalesce <~ dec_lift (DecodeBoolean (Content initialFrame) QueryCacheConfigHolderCodecCoalesceFieldOffset) ;;
  inMemoryFormat <~ DecodeString ;;
  name <~ DecodeString ;;
  predicateConfigHolder <~ DecodePredicateConfigHolder ;;
  evictionConfigHolder <~ DecodeEvictionConfigHolder ;;
  listenerConfigs <~ DecodeNullableListMultiFrameForListenerConfigHolder ;;
  indexConfigs <~ DecodeNullableListMultiFrameForIndexConfig ;;
  FastForwardToEndFrame ;;;
  dec_ret {|
    QueryCacheConfigHolder_BatchSize := batchSize;
    QueryCacheConfigHolder_BufferSize := bufferSize;
    QueryCacheConfigHolder_DelaySeconds := delaySeconds;
    QueryCacheConfigHolder_IncludeValue := includeValue;
    QueryCacheConfigHolder_Populate := populate;
    QueryCacheConfigHolder_Coalesce := coalesce;
    QueryCacheConfigHolder_InMemoryFormat := inMemoryFormat;
    QueryCacheConfigHolder_Name := name;
    QueryCacheConfigHolder_PredicateConfigHolder := predicateConfigHolder;
    QueryCacheConfigHolder_EvictionConfigHolder := evictionConfigHolder;
    QueryCacheConfigHolder_ListenerConfigs := listenerConfigs;
    QueryCacheConfigHolder_IndexConfigs := indexConfigs |}.

(** ** map_store_config_holder_codec.go *)

Definition MapStoreConfigHolderCodecEnabledFieldOffset : Z := 0.
Definition MapStoreConfigHolderCodecWriteCoalescingFieldOffset : Z := MapStoreConfigHolderCodecEnabledFieldOffset + BooleanSizeInBytes.
Definition MapStoreConfigHolderCodecWriteDelaySecondsFieldOffset : Z := MapStoreConfigHolderCodecWriteCoalescingFieldOffset + BooleanSizeInBytes.
Definition MapStoreConfigHolderCodecWriteBatchSizeFieldOffset : Z := MapStoreConfigHolderCodecWriteDelaySecondsFieldOffset + IntSizeInBytes.
Definition MapStoreConfigHolderCodecWriteBatchSizeInitialFrameSize : Z := MapStoreConfigHolderCodecWriteBatchSizeFieldOffset + IntSizeInBytes.

Definition EncodeMapStoreConfigHolder (mapStoreConfigHolder : MapStoreConfigHolder) : Enc :=
  enc_frame (Copy BeginFrame) >>>
  (let initialFrame := NewFrame (make_bytes MapStoreConfigHolderCodecWriteBatchSizeInitialFrameSize) in
  & initialFrame <<= (fun buf => EncodeBoolean buf MapStoreConfigHolderCodecEnabledFieldOffset (MapStoreConfigHolder_Enabled mapStoreConfigHolder)) ;;
  & initialFrame <<= (fun buf => EncodeBoolean buf MapStoreConfigHolderCodecWriteCoalescingFieldOffset (MapStoreConfigHolder_WriteCoalescing mapStoreConfigHolder)) ;;
  & initialFrame <<= (fun buf => EncodeInt buf MapStoreConfigHolderCodecWriteDelaySecondsFieldOffset (MapStoreConfigHolder_WriteDelaySeconds mapStoreConfigHolder)) ;;
  & initialFrame <<= (fun buf => EncodeInt buf MapStoreConfigHolderCodecWriteBatchSizeFieldOffset (MapStoreConfigHolder_WriteBatchSize mapStoreConfigHolder)) ;;
  enc_frame initialFrame >>>
  EncodeNullableForString (MapStoreConfigHolder_ClassName mapStoreConfigHolder) >>>
  EncodeNullableForData (MapStoreConfigHolder_Implementation mapStoreConfigHolder) >>>
  EncodeNullableForString (MapStoreConfigHolder_FactoryClassName mapStoreConfigHolder) >>>
  EncodeNullableForData (MapStoreConfigHolder_FactoryImplementation mapStoreConfigHolder) >>>
  EncodeNullableMapForStringAndString (MapStoreConfigHolder_Properties mapStoreConfigHolder) >>>
  EncodeString (MapStoreConfigHolder_InitialLoadMode mapStoreConfigHolder) >>>
  enc_frame (Copy EndFrame)).

Definition EncodeNullableForMapStoreConfigHolder (mapStoreConfigHolder : MapStoreConfigHolder) : Enc :=
  if decide (mapStoreConfigHolder = MapStoreConfigHolder_zero) then enc_frame (Copy NullFrame) else EncodeMapStoreConfigHolder mapStoreConfigHolder.

Definition DecodeMapStoreConfigHolder : Dec MapStoreConfigHolder :=
  dec_next ;;;
  initialFrame <~ dec_frame ;;
  enabled <~ dec_lift (DecodeBoolean (Content initialFrame) MapStoreConfigHolderCodecEnabledFieldOffset) ;;
  writeCoalescing <~ dec_lift (DecodeBoolean (Content initialFrame) MapStoreConfigHolderCodecWriteCoalescingFieldOffset) ;;
  writeDelaySeconds <~ dec_lift (DecodeInt (Content initialFrame) MapStoreConfigHolderCodecWriteDelaySecondsFieldOffset) ;;
  writeBatchSize <~ dec_lift (DecodeInt (Content initialFrame) MapStoreConfigHolderCodecWriteBatchSizeFieldOffset) ;;
  className <~ DecodeNullableForString ;;
  implementation <~ DecodeNullableForData ;;
  factoryClassName <~ DecodeNullableForString ;;
  factoryImplementation <~ DecodeNullableForData ;;
  properties <~ DecodeNullableMapForStringAndString ;;
  initialLoadMode <~ DecodeString ;;
  FastForwardToEndFrame ;;;
  dec_ret {|
    MapStoreConfigHolder_Enabled := enabled;
    MapStoreConfigHolder_WriteCoalescing := writeCoalescing;
    MapStoreConfigHolder_WriteDelaySeconds := writeDelaySeconds;
    MapStoreConfigHolder_WriteBatchSize := writeBatchSize;
    MapStoreConfigHolder_ClassName := className;
    MapStoreConfigHolder_Implementation := implementation;
    MapStoreConfigHolder_FactoryClassName := factoryClassName;
    MapStoreConfigHolder_FactoryImplementation := factoryImplementation;
    MapStoreConfigHolder_Properties := properties;
    MapStoreConfigHolder_InitialLoadMode := initialLoadMode |}.

(** ** wan_replication_ref_codec.go *)

Definition WanReplicationRefCodecRepublishingEnabledFieldOffset : Z := 0.
Definition WanReplicationRefCodecRepublishingEnabledInitialFrameSize : Z := WanReplicationRefCodecRepublishingEnabledFieldOffset + BooleanSizeInBytes.

Definition EncodeWanReplicationRef (wanReplicationRef : WanReplicationRef) : Enc :=
  enc_frame (Copy BeginFrame) >>>
  (let initialFrame := NewFrame (make_bytes WanReplicationRefCodecRepublishingEnabledInitialFrameSize) in
  & initialFrame <<= (fun buf => EncodeBoolean buf WanReplicationRefCodecRepublishingEnabledFieldOffset (WanReplicationRef_RepublishingEnabled wanReplicationRef)) ;;
  enc_frame initialFrame >>>
  EncodeString (WanReplicationRef_Name wanReplicationRef) >>>
  EncodeString (WanReplicationRef_MergePolicyClassName wanReplicationRef) >>>
  EncodeNullableListMultiFrameForString (WanReplicationRef_Filters wanReplicationRef) >>>
  enc_frame (Copy EndFrame)).

Definition EncodeNullableForWanReplicationRef (wanReplicationRef : WanReplicationRef) : Enc :=
  if decide (wanReplicationRef = WanReplicationRef_zero) then enc_frame (Copy NullFrame) else EncodeWanReplicationRef wanReplicationRef.

Definition DecodeWanReplicationRef : Dec WanReplicationRef :=
  dec_next ;;;
  initialFrame <~ dec_frame ;;
  republishingEnabled <~ dec_lift (DecodeBoolean (Content initialFrame) WanReplicationRefCodecRepublishingEnabledFieldOffset) ;;
  name <~ DecodeString ;;
  mergePolicyClassName <~ DecodeString ;;
  filters <~ DecodeNullableListMultiFrameForString ;;
  FastForwardToEndFrame ;;;
  dec_ret {|
    WanReplicationRef_Name := name;
    WanReplicationRef_MergePolicyClassName := mergePolicyClassName;
    WanReplicationRef_Filters := filters;
    WanReplicationRef_RepublishingEnabled := republishingEnabled |}.

(** ** raft_group_id_codec.go *)

Definition RaftGroupIdCodecSeedFieldOffset : Z := 0.
Definition RaftGroupIdCodecIdFieldOffset : Z := RaftGroupIdCodecSeedFieldOffset + LongSizeInBytes.
Definition RaftGroupIdCodecIdInitialFrameSize : Z := RaftGroupIdCodecIdFieldOffset + LongSizeInBytes.

Definition EncodeRaftGroupId (raftGroupId : RaftGroupId) : Enc :=
  enc_frame (Copy BeginFrame) >>>
  (let initialFrame := NewFrame (make_bytes RaftGroupIdCodecIdInitialFrameSize) in
  & initialFrame <<= (fun buf => EncodeLong buf RaftGroupIdCodecSeedFieldOffset (RaftGroupId_Seed raftGroupId)) ;;
  & initialFrame <<= (fun buf => EncodeLong buf RaftGroupIdCodecIdFieldOffset (RaftGroupId_Id raftGroupId)) ;;
  enc_frame initialFrame >>>
  EncodeString (RaftGroupId_Name raftGroupId) >>>
  enc_frame (Copy EndFrame)).

Definition DecodeRaftGroupId : Dec RaftGroupId :=
  dec_next ;;;
  initialFrame <~ dec_frame ;;
  seed <~ dec_lift (DecodeLong (Content initialFrame) RaftGroupIdCodecSeedFieldOffset) ;;
  id <~ dec_lift (DecodeLong (Content initialFrame) RaftGroupIdCodecIdFieldOffset) ;;
  name <~ DecodeString ;;
  FastForwardToEndFrame ;;;
  dec_ret {|
    RaftGroupId_Name := name;
    RaftGroupId_Seed := seed;
    RaftGroupId_Id := id |}.

End Config.
