(* ===== verification/CodecConfigFacts.v ===== *)
(** * Round trips of the configuration structures

    For every structure: what is encoded is decoded back, up to [X_norm], which
    says exactly what the wire format loses (blank nullable strings become
    empty, nil data becomes empty data, an empty list becomes nil, an unknown
    capacity unit becomes BYTES), and whatever well-bracketed frames a newer
    peer appends to the structure are skipped ([StructWire] gives both). *)

From S2P Require Import Prelude Proto CodecBuiltin CodecWire CodecFacts CodecTypes CodecConfig.

#[local] Open Scope go_scope.

#[export] Hint Unfold
  CapacityCodecValueFieldOffset
  CapacityCodecUnitFieldOffset
  CapacityCodecUnitInitialFrameSize
  DiskTierConfigCodecEnabledFieldOffset
  DiskTierConfigCodecEnabledInitialFrameSize
  TieredStoreConfigCodecEnabledFieldOffset
  TieredStoreConfigCodecEnabledInitialFrameSize
  BitmapIndexOptionsCodecUniqueKeyTransformationFieldOffset
  BitmapIndexOptionsCodecUniqueKeyTransformationInitialFrameSize
  IndexConfigCodecTypeFieldOffset
  IndexConfigCodecTypeInitialFrameSize
  EvictionConfigHolderCodecSizeFieldOffset
  EvictionConfigHolderCodecSizeInitialFrameSize
  HotRestartConfigCodecEnabledFieldOffset
  HotRestartConfigCodecFsyncFieldOffset
  HotRestartConfigCodecFsyncInitialFrameSize
  EventJournalConfigCodecEnabledFieldOffset
  EventJournalConfigCodecCapacityFieldOffset
  EventJournalConfigCodecTimeToLiveSecondsFieldOffset
  EventJournalConfigCodecTimeToLiveSecondsInitialFrameSize
  MerkleTreeConfigCodecEnabledFieldOffset
  MerkleTreeConfigCodecDepthFieldOffset
  MerkleTreeConfigCodecEnabledSetFieldOffset
  MerkleTreeConfigCodecEnabledSetInitialFrameSize
  DataPersistenceConfigCodecEnabledFieldOffset
  DataPersistenceConfigCodecFsyncFieldOffset
  DataPersistenceConfigCodecFsyncInitialFrameSize
  DurationConfigCodecDurationAmountFieldOffset
  DurationConfigCodecTimeUnitFieldOffset
  DurationConfigCodecTimeUnitInitialFrameSize
  TimedExpiryPolicyFactoryConfigCodecExpiryPolicyTypeFieldOffset
  TimedExpiryPolicyFactoryConfigCodecExpiryPolicyTypeInitialFrameSize
  MergePolicyConfigCodecBatchSizeFieldOffset
  MergePolicyConfigCodecBatchSizeInitialFrameSize
  NearCachePreloaderConfigCodecEnabledFieldOffset
  NearCachePreloaderConfigCodecStoreInitialDelaySecondsFieldOffset
  NearCachePreloaderConfigCodecStoreIntervalSecondsFieldOffset
  NearCachePreloaderConfigCodecStoreIntervalSecondsInitialFrameSize
  NearCacheConfigHolderCodecSerializeKeysFieldOffset
  NearCacheConfigHolderCodecInvalidateOnChangeFieldOffset
  NearCacheConfigHolderCodecTimeToLiveSecondsFieldOffset
  NearCacheConfigHolderCodecMaxIdleSecondsFieldOffset
  NearCacheConfigHolderCodecCacheLocalEntriesFieldOffset
  NearCacheConfigHolderCodecCacheLocalEntriesInitialFrameSize
  ListenerConfigHolderCodecListenerTypeFieldOffset
  ListenerConfigHolderCodecIncludeValueFieldOffset
  ListenerConfigHolderCodecLocalFieldOffset
  ListenerConfigHolderCodecLocalInitialFrameSize
  QueryCacheConfigHolderCodecBatchSizeFieldOffset
  QueryCacheConfigHolderCodecBufferSizeFieldOffset
  QueryCacheConfigHolderCodecDelaySecondsFieldOffset
  QueryCacheConfigHolderCodecIncludeValueFieldOffset
  QueryCacheConfigHolderCodecPopulateFieldOffset
  QueryCacheConfigHolderCodecCoalesceFieldOffset
  QueryCacheConfigHolderCodecCoalesceInitialFrameSize
  MapStoreConfigHolderCodecEnabledFieldOffset
  MapStoreConfigHolderCodecWriteCoalescingFieldOffset
  MapStoreConfigHolderCodecWriteDelaySecondsFieldOffset
  MapStoreConfigHolderCodecWriteBatchSizeFieldOffset
  MapStoreConfigHolderCodecWriteBatchSizeInitialFrameSize
  WanReplicationRefCodecRepublishingEnabledFieldOffset
  WanReplicationRefCodecRepublishingEnabledInitialFrameSize
  RaftGroupIdCodecSeedFieldOffset
  RaftGroupIdCodecIdFieldOffset
  RaftGroupIdCodecIdInitialFrameSize : offsets.

Section ConfigFacts.
Context `{P : Proto} `{!ProtoLaws P} `{R : MapRange}.

Lemma EncodeUnit_int32 u : is_int32 (EncodeUnit u).
Proof. unfold EncodeUnit, is_sint. repeat case_decide; lia. Qed.
#[local] Hint Resolve EncodeUnit_int32 : core.

Definition Capacity_norm (v : Capacity) : Capacity := {|
  Capacity_Value := Capacity_Value v;
  Capacity_Unit := DecodeUnit (EncodeUnit (Capacity_Unit v)) |}.

Lemma Capacity_wire v : Capacity_ok v -> StructWire (EncodeCapacity v) DecodeCapacity (Capacity_norm v).
Proof.
  intros Hok; destruct v; unfold Capacity_ok in Hok; simpl in Hok; destruct_and?.
  struct_wire.
Qed.
#[local] Hint Resolve Capacity_wire : wire.

Definition MemoryTierConfig_norm (v : MemoryTierConfig) : MemoryTierConfig := {|
  MemoryTierConfig_Capacity := Capacity_norm (MemoryTierConfig_Capacity v) |}.

Lemma MemoryTierConfig_wire v : MemoryTierConfig_ok v -> StructWire (EncodeMemoryTierConfig v) DecodeMemoryTierConfig (MemoryTierConfig_norm v).
Proof.
  intros Hok; destruct v; unfold MemoryTierConfig_ok in Hok; simpl in Hok; destruct_and?.
  struct_wire.
Qed.
#[local] Hint Resolve MemoryTierConfig_wire : wire.

Lemma DiskTierConfig_wire v : StructWire (EncodeDiskTierConfig v) DecodeDiskTierConfig v.
Proof. destruct v. struct_wire. Qed.
#[local] Hint Resolve DiskTierConfig_wire : wire.

Definition TieredStoreConfig_norm (v : TieredStoreConfig) : TieredStoreConfig := {|
  TieredStoreConfig_Enabled := TieredStoreConfig_Enabled v;
  TieredStoreConfig_MemoryTierConfig := MemoryTierConfig_norm (TieredStoreConfig_MemoryTierConfig v);
  TieredStoreConfig_DiskTierConfig := TieredStoreConfig_DiskTierConfig v |}.

Lemma TieredStoreConfig_wire v : TieredStoreConfig_ok v -> StructWire (EncodeTieredStoreConfig v) DecodeTieredStoreConfig (TieredStoreConfig_norm v).
Proof.
  intros Hok; destruct v; unfold TieredStoreConfig_ok in Hok; simpl in Hok; destruct_and?.
  struct_wire.
Qed.
#[local] Hint Resolve TieredStoreConfig_wire : wire.

Lemma BitmapIndexOptions_wire v : BitmapIndexOptions_ok v -> StructWire (EncodeBitmapIndexOptions v) DecodeBitmapIndexOptions v.
Proof.
  intros Hok; destruct v; unfold BitmapIndexOptions_ok in Hok; simpl in Hok; destruct_and?.
  struct_wire.
Qed.
#[local] Hint Resolve BitmapIndexOptions_wire : wire.

Lemma BitmapIndexOptions_nullable_wire v : BitmapIndexOptions_ok v -> Wire (EncodeNullableForBitmapIndexOptions v) DecodeNullableForBitmapIndexOptions v.
Proof. intros. apply wire_nullable_struct; auto with wire. Qed.
#[local] Hint Resolve BitmapIndexOptions_nullable_wire : wire.

Definition IndexConfig_norm (v : IndexConfig) : IndexConfig := {|
  IndexConfig_Name := norm_string (IndexConfig_Name v);
  IndexConfig_Type := IndexConfig_Type v;
  IndexConfig_Attributes := IndexConfig_Attributes v;
  IndexConfig_BitmapIndexOptions := IndexConfig_BitmapIndexOptions v |}.

Lemma IndexConfig_wire v : IndexConfig_ok v -> StructWire (EncodeIndexConfig v) DecodeIndexConfig (IndexConfig_norm v).
Proof.
  intros Hok; destruct v; unfold IndexConfig_ok in Hok; simpl in Hok; destruct_and?.
  struct_wire.
Qed.
#[local] Hint Resolve IndexConfig_wire : wire.

Lemma IndexConfig_nullable_list_wire vs : Forall IndexConfig_ok (default [] vs) -> 
  Wire (EncodeNullableListMultiFrameForIndexConfig vs) DecodeNullableListMultiFrameForIndexConfig (norm_list IndexConfig_norm vs).
Proof.
  intros H. apply wire_nullable_structs.
  eapply Forall_impl; [exact H|]. auto with wire.
Qed.
#[local] Hint Resolve IndexConfig_nullable_list_wire : wire.

Lemma AttributeConfig_wire v : StructWire (EncodeAttributeConfig v) DecodeAttributeConfig v.
Proof. destruct v. struct_wire. Qed.
#[local] Hint Resolve AttributeConfig_wire : wire.

Definition EvictionConfigHolder_norm (v : EvictionConfigHolder) : EvictionConfigHolder := {|
  EvictionConfigHolder_Size := EvictionConfigHolder_Size v;
  EvictionConfigHolder_MaxSizePolicy := EvictionConfigHolder_MaxSizePolicy v;
  EvictionConfigHolder_EvictionPolicy := EvictionConfigHolder_EvictionPolicy v;
  EvictionConfigHolder_ComparatorClassName := norm_string (EvictionConfigHolder_ComparatorClassName v);
  EvictionConfigHolder_Comparator := norm_data (EvictionConfigHolder_Comparator v) |}.

Lemma EvictionConfigHolder_wire v : EvictionConfigHolder_ok v -> StructWire (EncodeEvictionConfigHolder v) DecodeEvictionConfigHolder (EvictionConfigHolder_norm v).
Proof.
  intros Hok; destruct v; unfold EvictionConfigHolder_ok in Hok; simpl in Hok; destruct_and?.
  struct_wire.
Qed.
#[local] Hint Resolve EvictionConfigHolder_wire : wire.

Lemma HotRestartConfig_wire v : StructWire (EncodeHotRestartConfig v) DecodeHotRestartConfig v.
Proof. destruct v. struct_wire. Qed.
#[local] Hint Resolve HotRestartConfig_wire : wire.

Lemma EventJournalConfig_wire v : EventJournalConfig_ok v -> StructWire (EncodeEventJournalConfig v) DecodeEventJournalConfig v.
Proof.
  intros Hok; destruct v; unfold EventJournalConfig_ok in Hok; simpl in Hok; destruct_and?.
  struct_wire.
Qed.
#[local] Hint Resolve EventJournalConfig_wire : wire.

Lemma MerkleTreeConfig_wire v : MerkleTreeConfig_ok v -> StructWire (EncodeMerkleTreeConfig v) DecodeMerkleTreeConfig v.
Proof.
  intros Hok; destruct v; unfold MerkleTreeConfig_ok in Hok; simpl in Hok; destruct_and?.
  struct_wire.
Qed.
#[local] Hint Resolve MerkleTreeConfig_wire : wire.

Lemma DataPersistenceConfig_wire v : StructWire (EncodeDataPersistenceConfig v) DecodeDataPersistenceConfig v.
Proof. destruct v. struct_wire. Qed.
#[local] Hint Resolve DataPersistenceConfig_wire : wire.

Lemma DurationConfig_wire v : DurationConfig_ok v -> StructWire (EncodeDurationConfig v) DecodeDurationConfig v.
Proof.
  intros Hok; destruct v; unfold DurationConfig_ok in Hok; simpl in Hok; destruct_and?.
  struct_wire.
Qed.
#[local] Hint Resolve DurationConfig_wire : wire.

Lemma TimedExpiryPolicyFactoryConfig_wire v : TimedExpiryPolicyFactoryConfig_ok v -> StructWire (EncodeTimedExpiryPolicyFactoryConfig v) DecodeTimedExpiryPolicyFactoryConfig v.
Proof.
  intros Hok; destruct v; unfold TimedExpiryPolicyFactoryConfig_ok in Hok; simpl in Hok; destruct_and?.
  struct_wire.
Qed.
#[local] Hint Resolve TimedExpiryPolicyFactoryConfig_wire : wire.

Lemma MergePolicyConfig_wire v : MergePolicyConfig_ok v -> StructWire (EncodeMergePolicyConfig v) DecodeMergePolicyConfig v.
Proof.
  intros Hok; destruct v; unfold MergePolicyConfig_ok in Hok; simpl in Hok; destruct_and?.
  struct_wire.
Qed.
#[local] Hint Resolve MergePolicyConfig_wire : wire.

Lemma NearCachePreloaderConfig_wire v : NearCachePreloaderConfig_ok v -> StructWire (EncodeNearCachePreloaderConfig v) DecodeNearCachePreloaderConfig v.
Proof.
  intros Hok; destruct v; unfold NearCachePreloaderConfig_ok in Hok; simpl in Hok; destruct_and?.
  struct_wire.
Qed.
#[local] Hint Resolve NearCachePreloaderConfig_wire : wire.

Lemma NearCachePreloaderConfig_nullable_wire v : NearCachePreloaderConfig_ok v -> Wire (EncodeNullableForNearCachePreloaderConfig v) DecodeNullableForNearCachePreloaderConfig v.
Proof. intros. apply wire_nullable_struct; auto with wire. Qed.
#[local] Hint Resolve NearCachePreloaderConfig_nullable_wire : wire.

Definition NearCacheConfigHolder_norm (v : NearCacheConfigHolder) : NearCacheConfigHolder := {|
  NearCacheConfigHolder_Name := NearCacheConfigHolder_Name v;
  NearCacheConfigHolder_InMemoryFormat := NearCacheConfigHolder_InMemoryFormat v;
  NearCacheConfigHolder_SerializeKeys := NearCacheConfigHolder_SerializeKeys v;
  NearCacheConfigHolder_InvalidateOnChange := NearCacheConfigHolder_InvalidateOnChange v;
  NearCacheConfigHolder_TimeToLiveSeconds := NearCacheConfigHolder_TimeToLiveSeconds v;
  NearCacheConfigHolder_MaxIdleSeconds := NearCacheConfigHolder_MaxIdleSeconds v;
  NearCacheConfigHolder_EvictionConfigHolder := EvictionConfigHolder_norm (NearCacheConfigHolder_EvictionConfigHolder v);
  NearCacheConfigHolder_CacheLocalEntries := NearCacheConfigHolder_CacheLocalEntries v;
  NearCacheConfigHolder_LocalUpdatePolicy := NearCacheConfigHolder_LocalUpdatePolicy v;
  NearCacheConfigHolder_PreloaderConfig := NearCacheConfigHolder_PreloaderConfig v |}.

Lemma NearCacheConfigHolder_wire v : NearCacheConfigHolder_ok v -> StructWire (EncodeNearCacheConfigHolder v) DecodeNearCacheConfigHolder (NearCacheConfigHolder_norm v).
Proof.
  intros Hok; destruct v; unfold NearCacheConfigHolder_ok in Hok; simpl in Hok; destruct_and?.
  struct_wire.
Qed.
#[local] Hint Resolve NearCacheConfigHolder_wire : wire.

Definition PredicateConfigHolder_norm (v : PredicateConfigHolder) : PredicateConfigHolder := {|
  PredicateConfigHolder_ClassName := norm_string (PredicateConfigHolder_ClassName v);
  PredicateConfigHolder_Sql := norm_string (PredicateConfigHolder_Sql v);
  PredicateConfigHolder_Implementation := norm_data (PredicateConfigHolder_Implementation v) |}.

Lemma PredicateConfigHolder_wire v : StructWire (EncodePredicateConfigHolder v) DecodePredicateConfigHolder (PredicateConfigHolder_norm v).
Proof. destruct v. struct_wire. Qed.
#[local] Hint Resolve PredicateConfigHolder_wire : wire.

Definition ListenerConfigHolder_norm (v : ListenerConfigHolder) : ListenerConfigHolder := {|
  ListenerConfigHolder_ListenerType := ListenerConfigHolder_ListenerType v;
  ListenerConfigHolder_ListenerImplementation := norm_data (ListenerConfigHolder_ListenerImplementation v);
  ListenerConfigHolder_ClassName := norm_string (ListenerConfigHolder_ClassName v);
  ListenerConfigHolder_IncludeValue := ListenerConfigHolder_IncludeValue v;
  ListenerConfigHolder_Local := ListenerConfigHolder_Local v |}.

Lemma ListenerConfigHolder_wire v : ListenerConfigHolder_ok v -> StructWire (EncodeListenerConfigHolder v) DecodeListenerConfigHolder (ListenerConfigHolder_norm v).
Proof.
  intros Hok; destruct v; unfold ListenerConfigHolder_ok in Hok; simpl in Hok; destruct_and?.
  struct_wire.
Qed.
#[local] Hint Resolve ListenerConfigHolder_wire : wire.

Lemma ListenerConfigHolder_nullable_list_wire vs : Forall ListenerConfigHolder_ok (default [] vs) -> 
  Wire (EncodeNullableListMultiFrameForListenerConfigHolder vs) DecodeNullableListMultiFrameForListenerConfigHolder (norm_list ListenerConfigHolder_norm vs).
Proof.
  intros H. apply wire_nullable_structs.
  eapply Forall_impl; [exact H|]. auto with wire.
Qed.
#[local] Hint Resolve ListenerConfigHolder_nullable_list_wire : wire.

Definition QueryCacheConfigHolder_norm (v : QueryCacheConfigHolder) : QueryCacheConfigHolder := {|
  QueryCacheConfigHolder_BatchSize := QueryCacheConfigHolder_BatchSize v;
  QueryCacheConfigHolder_BufferSize := QueryCacheConfigHolder_BufferSize v;
  QueryCacheConfigHolder_DelaySeconds := QueryCacheConfigHolder_DelaySeconds v;
  QueryCacheConfigHolder_IncludeValue := QueryCacheConfigHolder_IncludeValue v;
  QueryCacheConfigHolder_Populate := QueryCacheConfigHolder_Populate v;
  QueryCacheConfigHolder_Coalesce := QueryCacheConfigHolder_Coalesce v;
  QueryCacheConfigHolder_InMemoryFormat := QueryCacheConfigHolder_InMemoryFormat v;
  QueryCacheConfigHolder_Name := QueryCacheConfigHolder_Name v;
  QueryCacheConfigHolder_PredicateConfigHolder := PredicateConfigHolder_norm (QueryCacheConfigHolder_PredicateConfigHolder v);
  QueryCacheConfigHolder_EvictionConfigHolder := EvictionConfigHolder_norm (QueryCacheConfigHolder_EvictionConfigHolder v);
  QueryCacheConfigHolder_ListenerConfigs := norm_list ListenerConfigHolder_norm (QueryCacheConfigHolder_ListenerConfigs v);
  QueryCacheConfigHolder_IndexConfigs := norm_list IndexConfig_norm (QueryCacheConfigHolder_IndexConfigs v) |}.

Lemma QueryCacheConfigHolder_wire v : QueryCacheConfigHolder_ok v -> StructWire (EncodeQueryCacheConfigHolder v) DecodeQueryCacheConfigHolder (QueryCacheConfigHolder_norm v).
Proof.
  intros Hok; destruct v; unfold QueryCacheConfigHolder_ok in Hok; simpl in Hok; destruct_and?.
  struct_wire.
Qed.
#[local] Hint Resolve QueryCacheConfigHolder_wire : wire.

Definition MapStoreConfigHolder_norm (v : MapStoreConfigHolder) : MapStoreConfigHolder := {|
  MapStoreConfigHolder_Enabled := MapStoreConfigHolder_Enabled v;
  MapStoreConfigHolder_WriteCoalescing := MapStoreConfigHolder_WriteCoalescing v;
  MapStoreConfigHolder_WriteDelaySeconds := MapStoreConfigHolder_WriteDelaySeconds v;
  MapStoreConfigHolder_WriteBatchSize := MapStoreConfigHolder_WriteBatchSize v;
  MapStoreConfigHolder_ClassName := norm_string (MapStoreConfigHolder_ClassName v);
  MapStoreConfigHolder_Implementation := norm_data (MapStoreConfigHolder_Implementation v);
  MapStoreConfigHolder_FactoryClassName := norm_string (MapStoreConfigHolder_FactoryClassName v);
  MapStoreConfigHolder_FactoryImplementation := norm_data (MapStoreConfigHolder_FactoryImplementation v);
  MapStoreConfigHolder_Properties := MapStoreConfigHolder_Properties v;
  MapStoreConfigHolder_InitialLoadMode := MapStoreConfigHolder_InitialLoadMode v |}.

Lemma MapStoreConfigHolder_wire v : MapStoreConfigHolder_ok v -> StructWire (EncodeMapStoreConfigHolder v) DecodeMapStoreConfigHolder (MapStoreConfigHolder_norm v).
Proof.
  intros Hok; destruct v; unfold MapStoreConfigHolder_ok in Hok; simpl in Hok; destruct_and?.
  struct_wire.
Qed.
#[local] Hint Resolve MapStoreConfigHolder_wire : wire.

Lemma WanReplicationRef_wire v : StructWire (EncodeWanReplicationRef v) DecodeWanReplicationRef v.
Proof. destruct v. struct_wire. Qed.
#[local] Hint Resolve WanReplicationRef_wire : wire.

Lemma RaftGroupId_wire v : RaftGroupId_ok v -> StructWire (EncodeRaftGroupId v) DecodeRaftGroupId v.
Proof.
  intros Hok; destruct v; unfold RaftGroupId_ok in Hok; simpl in Hok; destruct_and?.
  struct_wire.
Qed.
#[local] Hint Resolve RaftGroupId_wire : wire.

End ConfigFacts.

#[export] Hint Resolve
  Capacity_wire
  MemoryTierConfig_wire
  DiskTierConfig_wire
  TieredStoreConfig_wire
  BitmapIndexOptions_wire
  BitmapIndexOptions_nullable_wire
  IndexConfig_wire
  IndexConfig_nullable_list_wire
  AttributeConfig_wire
  EvictionConfigHolder_wire
  HotRestartConfig_wire
  EventJournalConfig_wire
  MerkleTreeConfig_wire
  DataPersistenceConfig_wire
  DurationConfig_wire
  TimedExpiryPolicyFactoryConfig_wire
  MergePolicyConfig_wire
  NearCachePreloaderConfig_wire
  NearCachePreloaderConfig_nullable_wire
  NearCacheConfigHolder_wire
  PredicateConfigHolder_wire
  ListenerConfigHolder_wire
  ListenerConfigHolder_nullable_list_wire
  QueryCacheConfigHolder_wire
  MapStoreConfigHolder_wire
  WanReplicationRef_wire
  RaftGroupId_wire : wire.
