(* ===== verification/CodecExtra.v ===== *)
(** * Codecs with hand-written parts: resources, caches, jobs, events

    [CacheConfigHolder] is encoded with nullable fields that its decoder reads
    as non-nullable; job summaries and Management Center events are only read;
    [json.Unmarshal] on the payload of an event is the parameter
    [unmarshal_event] (the standard library's JSON decoder into a
    [map[string]interface{}]). *)

From S2P Require Import Prelude Proto CodecBuiltin CodecTypes CodecConfig.

#[local] Open Scope go_scope.
#[local] Open Scope string_scope.
#[local] Open Scope list_scope.
#[local] Open Scope Z_scope.

(** ** Management Center events (src/internal/protocol/types/mc_event.go) *)

(** A JSON value stored in a [map[string]interface{}]; the code only asks
    whether it is a string. *)
Inductive json_value :=
| JString (s : string)
| JOther.

Record MCEvent := mkMCEvent {
  MCEvent_Timestamp : Z;
  MCEvent_Type : Z;
  MCEvent_DataJson : string;
  MCEvent_Data : option (gmap string json_value);
}.

Definition WanConsistencyCheckStarted : Z := 1.
Definition WanConsistencyCheckFinished : Z := 2.
Definition WanSyncStarted : Z := 3.
Definition WanSyncFinishedFull : Z := 4.
Definition WanConsistencyCheckIgnored : Z := 5.
Definition WanSyncProgressUpdate : Z := 6.
Definition WanSyncFinishedMerkle : Z := 7.
Definition WanConfigurationAdded : Z := 8.
Definition AddWanConfigurationIgnored : Z := 9.
Definition WanSyncIgnored : Z := 10.
Definition WanConfigurationExtended : Z := 11.

Definition IsWanSync (e : Z) : bool :=
  (e =? WanSyncIgnored) || (e =? WanSyncFinishedFull) || (e =? WanSyncStarted)
  || (e =? WanSyncFinishedMerkle) || (e =? WanSyncProgressUpdate).

Definition IsInProgress (e : Z) : bool :=
  (e =? WanConsistencyCheckStarted) || (e =? WanSyncStarted) || (e =? WanSyncProgressUpdate).

Definition IsDone (e : Z) : bool :=
  (e =? WanConsistencyCheckFinished) || (e =? WanSyncFinishedFull) || (e =? WanSyncFinishedMerkle)
  || (e =? WanConfigurationAdded) || (e =? WanConfigurationExtended).

Definition IsError (e : Z) : bool :=
  (e =? WanSyncIgnored) || (e =? AddWanConfigurationIgnored) || (e =? WanConsistencyCheckIgnored).

Definition stringProperty (d : MCEvent) (property : string) : string :=
  match MCEvent_Data d with
  | None => EmptyString
  | Some m =>
      match m !! property with
      | Some (JString p) => p
      | _ => EmptyString
      end
  end.

(** The event is passed by value; a nil map is replaced by a fresh one, so a
    literal event (whose data is nil) is extended functionally. *)
Definition setProperty (d : MCEvent) (property value : string) : MCEvent :=
  {| MCEvent_Timestamp := MCEvent_Timestamp d; MCEvent_Type := MCEvent_Type d;
     MCEvent_DataJson := MCEvent_DataJson d;
     MCEvent_Data := Some (<[property := JString value]> (default ∅ (MCEvent_Data d))) |}.

Definition WithReason (d : MCEvent) (r : string) : MCEvent := setProperty d "reason" r.
Definition WithMapName (d : MCEvent) (m : string) : MCEvent := setProperty d "mapName" m.
Definition Reason (d : MCEvent) : string := stringProperty d "reason".
Definition MapName (d : MCEvent) : string := stringProperty d "mapName".
Definition EventUUID (d : MCEvent) : string := stringProperty d "uuid".
Definition PublisherId (d : MCEvent) : string := stringProperty d "wanPublisherId".

Class EventJson := {
  (** [json.Unmarshal([]byte(dataJson), &eventData)]: [None] on error. *)
  unmarshal_event : string -> option (gmap string json_value);
}.

Definition NewMCEvent `{EventJson} (timestamp eventType : Z) (dataJson : string) : MCEvent :=
  {| MCEvent_Timestamp := timestamp; MCEvent_Type := eventType;
     MCEvent_DataJson := dataJson; MCEvent_Data := unmarshal_event dataJson |}.

Section Extra.
Context `{P : Proto} `{R : MapRange} `{J : EventJson}.

(** ** resource_definition_codec.go *)

Definition ResourceDefinitionTypeFieldOffset : Z := 0.

Definition EncodeResourceDefinition (resource : ResourceDefinition) : Enc :=
  enc_frame (Copy BeginFrame) >>>
  (let initialFrame := NewFrame (make_bytes ListenerConfigHolderCodecLocalInitialFrameSize) in
  & initialFrame <<= (fun buf => EncodeInt buf ResourceDefinitionTypeFieldOffset (ResourceDefinition_ResourceType resource)) ;;
  enc_frame initialFrame >>>
  EncodeString (ResourceDefinition_ID resource) >>>
  EncodeNullableForByteArray (ResourceDefinition_Payload resource) >>>
  EncodeNullableForString (ResourceDefinition_ResourceURL resource) >>>
  enc_frame (Copy EndFrame)).

Definition EncodeListMultiFrameResourceDefinition (resources : list ResourceDefinition) : Enc :=
  EncodeListMultiFrame EncodeResourceDefinition resources.

(** ** cache_config_holder_codec.go *)

Definition CacheConfigHolderCodecBackupCountFieldOffset : Z := 0.
Definition CacheConfigHolderCodecAsyncBackupCountFieldOffset : Z := CacheConfigHolderCodecBackupCountFieldOffset + IntSizeInBytes.
Definition CacheConfigHolderCodecReadThroughFieldOffset : Z := CacheConfigHolderCodecAsyncBackupCountFieldOffset + IntSizeInBytes.
Definition CacheConfigHolderCodecWriteThroughFieldOffset : Z := CacheConfigHolderCodecReadThroughFieldOffset + BooleanSizeInBytes.
Definition CacheConfigHolderCodecStoreByValueFieldOffset : Z := CacheConfigHolderCodecWriteThroughFieldOffset + BooleanSizeInBytes.
Definition CacheConfigHolderCodecManagementEnabledFieldOffset : Z := CacheConfigHolderCodecStoreByValueFieldOffset + BooleanSizeInBytes.
Definition CacheConfigHolderCodecStatisticsEnabledFieldOffset : Z := CacheConfigHolderCodecManagementEnabledFieldOffset + BooleanSizeInBytes.
Definition CacheConfigHolderCodecDisablePerEntryInvalidationEventsFieldOffset : Z := CacheConfigHolderCodecStatisticsEnabledFieldOffset + BooleanSizeInBytes.
Definition CacheConfigHolderCodecDisablePerEntryInvalidationEventsInitialFrameSize : Z := CacheConfigHolderCodecDisablePerEntryInvalidationEventsFieldOffset + BooleanSizeInBytes.

Definition EncodeCacheConfigHolder (cacheConfigHolder : CacheConfigHolder) : Enc :=
  enc_frame (Copy BeginFrame) >>>
  (let initialFrame := NewFrame (make_bytes CacheConfigHolderCodecDisablePerEntryInvalidationEventsInitialFrameSize) in
  & initialFrame <<= (fun buf => EncodeInt buf CacheConfigHolderCodecBackupCountFieldOffset (CacheConfigHolder_BackupCount cacheConfigHolder)) ;;
  & initialFrame <<= (fun buf => EncodeInt buf CacheConfigHolderCodecAsyncBackupCountFieldOffset (CacheConfigHolder_AsyncBackupCount cacheConfigHolder)) ;;
  & initialFrame <<= (fun buf => EncodeBoolean buf CacheConfigHolderCodecReadThroughFieldOffset (CacheConfigHolder_ReadThrough cacheConfigHolder)) ;;
  & initialFrame <<= (fun buf => EncodeBoolean buf CacheConfigHolderCodecWriteThroughFieldOffset (CacheConfigHolder_WriteThrough cacheConfigHolder)) ;;
  & initialFrame <<= (fun buf => EncodeBoolean buf CacheConfigHolderCodecStoreByValueFieldOffset (CacheConfigHolder_StoreByValue cacheConfigHolder)) ;;
  & initialFrame <<= (fun buf => EncodeBoolean buf CacheConfigHolderCodecManagementEnabledFieldOffset (CacheConfigHolder_ManagementEnabled cacheConfigHolder)) ;;
  & initialFrame <<= (fun buf => EncodeBoolean buf CacheConfigHolderCodecStatisticsEnabledFieldOffset (CacheConfigHolder_StatisticsEnabled cacheConfigHolder)) ;;
  & initialFrame <<= (fun buf => EncodeBoolean buf CacheConfigHolderCodecDisablePerEntryInvalidationEventsFieldOffset (CacheConfigHolder_DisablePerEntryInvalidationEvents cacheConfigHolder)) ;;
  enc_frame initialFrame >>>
  EncodeString (CacheConfigHolder_Name cacheConfigHolder) >>>
  EncodeNullableForString (CacheConfigHolder_ManagerPrefix cacheConfigHolder) >>>
  EncodeNullableForString (CacheConfigHolder_UriString cacheConfigHolder) >>>
  EncodeString (CacheConfigHolder_InMemoryFormat cacheConfigHolder) >>>
  EncodeEvictionConfigHolder (CacheConfigHolder_EvictionConfigHolder cacheConfigHolder) >>>
  EncodeNullableForWanReplicationRef (CacheConfigHolder_WanReplicationRef cacheConfigHolder) >>>
  EncodeString (CacheConfigHolder_KeyClassName cacheConfigHolder) >>>
  EncodeString (CacheConfigHolder_ValueClassName cacheConfigHolder) >>>
  EncodeNullableForData (CacheConfigHolder_CacheLoaderFactory cacheConfigHolder) >>>
  EncodeNullableForData (CacheConfigHolder_CacheWriterFactory cacheConfigHolder) >>>
  EncodeData (CacheConfigHolder_ExpiryPolicyFactory cacheConfigHolder) >>>
  EncodeNullableForHotRestartConfig (CacheConfigHolder_HotRestartConfig cacheConfigHolder) >>>
  EncodeNullableForEventJournalConfig (CacheConfigHolder_EventJournalConfig cacheConfigHolder) >>>
  EncodeNullableForString (CacheConfigHolder_SplitBrainProtectionName cacheConfigHolder) >>>
  EncodeListMultiFrameForData (CacheConfigHolder_ListenerConfigurations cacheConfigHolder) >>>
  EncodeMergePolicyConfig (CacheConfigHolder_MergePolicyConfig cacheConfigHolder) >>>
  EncodeNullableListMultiFrameForListenerConfigHolder (CacheConfigHolder_CachePartitionLostListenerConfigs cacheConfigHolder) >>>
  EncodeNullableForMerkleTreeConfig (CacheConfigHolder_MerkleTreeConfig cacheConfigHolder) >>>
  EncodeDataPersistenceConfig (CacheConfigHolder_DataPersistenceConfig cacheConfigHolder) >>>
  EncodeNullableForString (CacheConfigHolder_UserCodeNamespace cacheConfigHolder) >>>
  enc_frame (Copy EndFrame)).

(** [var x T; if !it.PeekNext().IsEndFrame() { x = decoder(it) }] *)
Definition unless_end {A} (zero : A) (decoder : Dec A) : Dec A :=
  f <~ dec_peek ;; if negb (IsEndFrame f) then decoder else dec_ret zero.

(** [UserCodeNamespace] is not read back: it keeps its zero value. *)
Definition DecodeCacheConfigHolder : Dec CacheConfigHolder :=
  dec_next ;;;
  initialFrame <~ dec_frame ;;
  backupCount <~ dec_lift (DecodeInt (Content initialFrame) CacheConfigHolderCodecBackupCountFieldOffset) ;;
  asyncBackupCount <~ dec_lift (DecodeInt (Content initialFrame) CacheConfigHolderCodecAsyncBackupCountFieldOffset) ;;
  readThrough <~ dec_lift (DecodeBoolean (Content initialFrame) CacheConfigHolderCodecReadThroughFieldOffset) ;;
  writeThrough <~ dec_lift (DecodeBoolean (Content initialFrame) CacheConfigHolderCodecWriteThroughFieldOffset) ;;
  storeByValue <~ dec_lift (DecodeBoolean (Content initialFrame) CacheConfigHolderCodecStoreByValueFieldOffset) ;;
  managementEnabled <~ dec_lift (DecodeBoolean (Content initialFrame) CacheConfigHolderCodecManagementEnabledFieldOffset) ;;
  statisticsEnabled <~ dec_lift (DecodeBoolean (Content initialFrame) CacheConfigHolderCodecStatisticsEnabledFieldOffset) ;;
  disablePerEntryInvalidationEvents <~ dec_lift (DecodeBoolean (Content initialFrame) CacheConfigHolderCodecDisablePerEntryInvalidationEventsFieldOffset) ;;
  name <~ DecodeString ;;
  managerPrefix <~ DecodeNullableForString ;;
  uriString <~ DecodeNullableForString ;;
  inMemoryFormat <~ DecodeString ;;
  evictionConfigHolder <~ DecodeEvictionConfigHolder ;;
  wanReplicationRef <~ DecodeWanReplicationRef ;;
  keyClassName <~ DecodeString ;;
  valueClassName <~ DecodeString ;;
  cacheLoaderFactory <~ DecodeNullableForData ;;
  cacheWriterFactory <~ DecodeNullableForData ;;
  expiryPolicyFactory <~ DecodeData ;;
  hotRestartConfig <~ DecodeHotRestartConfig ;;
  eventJournalConfig <~ DecodeEventJournalConfig ;;
  splitBrainProtectionName <~ DecodeNullableForString ;;
  listenerConfigurations <~ DecodeListMultiFrameForDataContainsNullable ;;
  mergePolicyConfig <~ DecodeMergePolicyConfig ;;
  cachePartitionLostListenerConfigs <~ DecodeNullableListMultiFrameForListenerConfigHolder ;;
  merkleTreeConfig <~ unless_end MerkleTreeConfig_zero DecodeMerkleTreeConfig ;;
  dataPersistenceConfig <~ unless_end DataPersistenceConfig_zero DecodeDataPersistenceConfig ;;
  FastForwardToEndFrame ;;;
  dec_ret {|
    CacheConfigHolder_Name := name;
    CacheConfigHolder_ManagerPrefix := managerPrefix;
    CacheConfigHolder_UriString := uriString;
    CacheConfigHolder_BackupCount := backupCount;
    CacheConfigHolder_AsyncBackupCount := asyncBackupCount;
    CacheConfigHolder_InMemoryFormat := inMemoryFormat;
    CacheConfigHolder_EvictionConfigHolder := evictionConfigHolder;
    CacheConfigHolder_WanReplicationRef := wanReplicationRef;
    CacheConfigHolder_KeyClassName := keyClassName;
    CacheConfigHolder_ValueClassName := valueClassName;
    CacheConfigHolder_CacheLoaderFactory := cacheLoaderFactory;
    CacheConfigHolder_CacheWriterFactory := cacheWriterFactory;
    CacheConfigHolder_ExpiryPolicyFactory := expiryPolicyFactory;
    CacheConfigHolder_ReadThrough := readThrough;
    CacheConfigHolder_WriteThrough := writeThrough;
    CacheConfigHolder_StoreByValue := storeByValue;
    CacheConfigHolder_ManagementEnabled := managementEnabled;
    CacheConfigHolder_StatisticsEnabled := statisticsEnabled;
    CacheConfigHolder_HotRestartConfig := hotRestartConfig;
    CacheConfigHolder_EventJournalConfig := eventJournalConfig;
    CacheConfigHolder_SplitBrainProtectionName := splitBrainProtectionName;
    CacheConfigHolder_ListenerConfigurations := listenerConfigurations;
    CacheConfigHolder_MergePolicyConfig := mergePolicyConfig;
    CacheConfigHolder_DisablePerEntryInvalidationEvents := disablePerEntryInvalidationEvents;
    CacheConfigHolder_CachePartitionLostListenerConfigs := cachePartitionLostListenerConfigs;
    CacheConfigHolder_MerkleTreeConfig := merkleTreeConfig;
    CacheConfigHolder_DataPersistenceConfig := dataPersistenceConfig;
    CacheConfigHolder_UserCodeNamespace := EmptyString |}.

Definition DecodeNullableForCacheConfigHolder : Dec CacheConfigHolder :=
  isNull <~ NextFrameIsNullFrame ;;
  if isNull : bool then dec_ret CacheConfigHolder_zero else DecodeCacheConfigHolder.

(** ** sql_summary_codec.go, job_and_sql_summary_codec.go *)

Definition SqlSummaryCodecUnboundedFieldOffset : Z := 0.
Definition SqlSummaryCodecUnboundedInitialFrameSize : Z := SqlSummaryCodecUnboundedFieldOffset + BooleanSizeInBytes.

Definition DecodeSqlSummary : Dec SqlSummary :=
  dec_next ;;;
  initialFrame <~ dec_frame ;;
  unbounded <~ dec_lift (DecodeBoolean (Content initialFrame) SqlSummaryCodecUnboundedFieldOffset) ;;
  query <~ DecodeString ;;
  FastForwardToEndFrame ;;;
  dec_ret {|
    SqlSummary_Query := query;
    SqlSummary_Unbounded := unbounded |}.

Definition JobAndSqlSummaryCodecLightJobFieldOffset : Z := 0.
Definition JobAndSqlSummaryCodecJobIdFieldOffset : Z := JobAndSqlSummaryCodecLightJobFieldOffset + BooleanSizeInBytes.
Definition JobAndSqlSummaryCodecExecutionIdFieldOffset : Z := JobAndSqlSummaryCodecJobIdFieldOffset + LongSizeInBytes.
Definition JobAndSqlSummaryCodecStatusFieldOffset : Z := JobAndSqlSummaryCodecExecutionIdFieldOffset + LongSizeInBytes.
Definition JobAndSqlSummaryCodecSubmissionTimeFieldOffset : Z := JobAndSqlSummaryCodecStatusFieldOffset + IntSizeInBytes.
Definition JobAndSqlSummaryCodecCompletionTimeFieldOffset : Z := JobAndSqlSummaryCodecSubmissionTimeFieldOffset + LongSizeInBytes.
Definition JobAndSqlSummaryCodecCompletionTimeInitialFrameSize : Z := JobAndSqlSummaryCodecCompletionTimeFieldOffset + LongSizeInBytes.

Definition DecodeNullableForSqlSummary : Dec (SqlSummary * bool) :=
  isNull <~ NextFrameIsNullFrame ;;
  if isNull : bool then dec_ret (SqlSummary_zero, false)
  else (ss <~ DecodeSqlSummary ;; dec_ret (ss, true)).

Definition DecodeJobAndSqlSummary : Dec JobAndSqlSummary :=
  dec_next ;;;
  initialFrame <~ dec_frame ;;
  lightJob <~ dec_lift (DecodeBoolean (Content initialFrame) JobAndSqlSummaryCodecLightJobFieldOffset) ;;
  jobId <~ dec_lift (DecodeLong (Content initialFrame) JobAndSqlSummaryCodecJobIdFieldOffset) ;;
  executionId <~ dec_lift (DecodeLong (Content initialFrame) JobAndSqlSummaryCodecExecutionIdFieldOffset) ;;
  status <~ dec_lift (DecodeInt (Content initialFrame) JobAndSqlSummaryCodecStatusFieldOffset) ;;
  submissionTime <~ dec_lift (DecodeLong (Content initialFrame) JobAndSqlSummaryCodecSubmissionTimeFieldOffset) ;;
  completionTime <~ dec_lift (DecodeLong (Content initialFrame) JobAndSqlSummaryCodecCompletionTimeFieldOffset) ;;
  nameOrId <~ DecodeString ;;
  failureText <~ DecodeNullableForString ;;
  sqlSummary <~ DecodeNullableForSqlSummary ;;
  suspensionCause <~ unless_end EmptyString DecodeNullableForString ;;
  FastForwardToEndFrame ;;;
  dec_ret {|
    JobAndSqlSummary_LightJob := lightJob;
    JobAndSqlSummary_JobId := jobId;
    JobAndSqlSummary_ExecutionId := executionId;
    JobAndSqlSummary_NameOrId := nameOrId;
    JobAndSqlSummary_Status := status;
    JobAndSqlSummary_SubmissionTime := submissionTime;
    JobAndSqlSummary_CompletionTime := completionTime;
    JobAndSqlSummary_FailureText := failureText;
    JobAndSqlSummary_SqlSummary := sqlSummary.1;
    JobAndSqlSummary_SuspensionCause := suspensionCause |}.

Definition DecodeListMultiFrameForJobAndSqlSummary : Dec (list JobAndSqlSummary) :=
  DecodeListMultiFrame DecodeJobAndSqlSummary.

(** ** address_codec.go *)

Definition AddressCodecPortFieldOffset : Z := 0.
Definition AddressCodecPortInitialFrameSize : Z := AddressCodecPortFieldOffset + IntSizeInBytes.

Definition DecodeAddress : Dec Address :=
  dec_next ;;;
  initialFrame <~ dec_frame ;;
  port <~ dec_lift (FixSizedTypesCodec_DecodeInt (Content initialFrame) AddressCodecPortFieldOffset) ;;
  host <~ DecodeString ;;
  CodecUtil_FastForwardToEndFrame ;;;
  dec_ret (NewAddress host port).

Definition CodecUtil_DecodeNullableForAddress : Dec (option Address) :=
  isNull <~ NextFrameIsNullFrame ;;
  if isNull : bool then dec_ret None else (addr <~ DecodeAddress ;; dec_ret (Some addr)).

(** ** mc_event_codec.go *)

Definition MCEventCodecTimestampFieldOffset : Z := 0.
Definition MCEventCodecTypeFieldOffset : Z := MCEventCodecTimestampFieldOffset + LongSizeInBytes.
Definition MCEventCodecTypeInitialFrameSize : Z := MCEventCodecTypeFieldOffset + IntSizeInBytes.

Definition EncodeMCEvent (mCEvent : MCEvent) : Enc :=
  enc_frame (Copy BeginFrame) >>>
  (let initialFrame := NewFrame (make_bytes MCEventCodecTypeInitialFrameSize) in
  & initialFrame <<= (fun buf => EncodeLong buf MCEventCodecTimestampFieldOffset (MCEvent_Timestamp mCEvent)) ;;
  & initialFrame <<= (fun buf => EncodeInt buf MCEventCodecTypeFieldOffset (MCEvent_Type mCEvent)) ;;
  enc_frame initialFrame >>>
  EncodeString (MCEvent_DataJson mCEvent) >>>
  enc_frame (Copy EndFrame)).

Definition DecodeMCEvent : Dec MCEvent :=
  dec_next ;;;
  initialFrame <~ dec_frame ;;
  timestamp <~ dec_lift (DecodeLong (Content initialFrame) MCEventCodecTimestampFieldOffset) ;;
  _type <~ dec_lift (DecodeInt (Content initialFrame) MCEventCodecTypeFieldOffset) ;;
  dataJson <~ DecodeString ;;
  FastForwardToEndFrame ;;;
  dec_ret (NewMCEvent timestamp _type dataJson).

Definition DecodeListMultiFrameForMCEvent : Dec (list MCEvent) :=
  DecodeListMultiFrame DecodeMCEvent.

End Extra.
