(* ===== verification/CodecRequests.v ===== *)
(** * Requests and responses of the client protocol

    The message codecs of src/internal/protocol/codec: every [EncodeXRequest]
    builds a message (initial frame with the fixed-size fields behind the
    message header, then one or more frames per field), every
    [DecodeXResponse] reads one.  [FixSizedTypesCodec_] and [CodecUtil_] stand
    for the methods of the two empty structs of builtin.go. *)

From S2P Require Import Prelude Proto CodecBuiltin CodecTypes CodecConfig CodecExtra.

#[local] Open Scope go_scope.
#[local] Open Scope string_scope.
#[local] Open Scope list_scope.
#[local] Open Scope Z_scope.

(** ** Messages' data (src/internal/protocol/types) *)

Record ClusterMetadata := mkClusterMetadata {
  ClusterMetadata_CurrentState : Z;
  ClusterMetadata_MemberVersion : string;
  ClusterMetadata_JetVersion : string;
  ClusterMetadata_ClusterTime : Z;
}.

Definition AllMaps : Z := 0.
Definition SingleMap : Z := 1.

Record WanSyncRef := mkWanSyncRef {
  WanSyncRef_WanReplicationName : string;
  WanSyncRef_WanPublisherId : string;
  WanSyncRef_Type : Z;
  WanSyncRef_MapName : string;
}.

Definition RestartGracefully : Z := 0.
Definition RestartForcefully : Z := 1.
Definition SuspendGracefully : Z := 2.
Definition SuspendForcefully : Z := 3.
Definition CancelGracefully : Z := 4.
Definition CancelForcefully : Z := 5.

Section Requests.
Context `{P : Proto} `{R : MapRange} `{E : EventJson}.

Record JetTerminateJob := mkJetTerminateJob {
  JetTerminateJob_JobId : Z;
  JetTerminateJob_TerminateMode : Z;
  JetTerminateJob_LightJobCoordinator : UUID;
}.

Record JobMetaData := mkJobMetaData {
  JobMetaData_SessionId : UUID;
  JobMetaData_JarOnMember : bool;
  JobMetaData_FileName : string;
  JobMetaData_Sha256Hex : string;
  JobMetaData_SnapshotName : string;
  JobMetaData_JobName : string;
  JobMetaData_MainClass : string;
  JobMetaData_JobParameters : list string;
}.

(** [clientMessage.SetMessageType], [clientMessage.SetPartitionId]. *)
Definition enc_message_type (t : Z) : Enc := fun m => Ret (SetMessageType m t).
Definition enc_partition_id (p : Z) : Enc := fun m => Ret (SetPartitionId m p).

(** A response decoder owns its iterator and drops it on return. *)
Definition run_dec {A} (n : nat) (it : ForwardFrameIterator) (d : Dec A) : res A :=
  p <-! d n it ;; Ret p.1.

(** ** dynamic_config_add_map_config_codec.go *)

Definition DynamicConfigAddMapConfigCodecRequestMessageType : Z := 0x1B0C00.
Definition DynamicConfigAddMapConfigCodecResponseMessageType : Z := 0x1B0C01.
Definition DynamicConfigAddMapConfigCodecRequestBackupCountOffset : Z := PartitionIDOffset + IntSizeInBytes.
Definition DynamicConfigAddMapConfigCodecRequestAsyncBackupCountOffset : Z := DynamicConfigAddMapConfigCodecRequestBackupCountOffset + IntSizeInBytes.
Definition DynamicConfigAddMapConfigCodecRequestTimeToLiveSecondsOffset : Z := DynamicConfigAddMapConfigCodecRequestAsyncBackupCountOffset + IntSizeInBytes.
Definition DynamicConfigAddMapConfigCodecRequestMaxIdleSecondsOffset : Z := DynamicConfigAddMapConfigCodecRequestTimeToLiveSecondsOffset + IntSizeInBytes.
Definition DynamicConfigAddMapConfigCodecRequestReadBackupDataOffset : Z := DynamicConfigAddMapConfigCodecRequestMaxIdleSecondsOffset + IntSizeInBytes.
Definition DynamicConfigAddMapConfigCodecRequestMergeBatchSizeOffset : Z := DynamicConfigAddMapConfigCodecRequestReadBackupDataOffset + BooleanSizeInBytes.
Definition DynamicConfigAddMapConfigCodecRequestStatisticsEnabledOffset : Z := DynamicConfigAddMapConfigCodecRequestMergeBatchSizeOffset + IntSizeInBytes.
Definition DynamicConfigAddMapConfigCodecRequestMetadataPolicyOffset : Z := DynamicConfigAddMapConfigCodecRequestStatisticsEnabledOffset + BooleanSizeInBytes.
Definition DynamicConfigAddMapConfigCodecRequestPerEntryStatsEnabledOffset : Z := DynamicConfigAddMapConfigCodecRequestMetadataPolicyOffset + IntSizeInBytes.
Definition DynamicConfigAddMapConfigCodecRequestInitialFrameSize : Z := DynamicConfigAddMapConfigCodecRequestPerEntryStatsEnabledOffset + BooleanSizeInBytes.

Definition EncodeDynamicConfigAddMapConfigRequest (c : AddMapConfigInput) : res ClientMessage :=
  let clientMessage := SetRetryable NewClientMessageForEncode false in
  (let initialFrame := NewFrameWith (make_bytes DynamicConfigAddMapConfigCodecRequestInitialFrameSize) UnfragmentedMessage in
   & initialFrame <<= (fun buf => EncodeInt buf DynamicConfigAddMapConfigCodecRequestBackupCountOffset (AddMapConfigInput_BackupCount c)) ;;
   & initialFrame <<= (fun buf => EncodeInt buf DynamicConfigAddMapConfigCodecRequestAsyncBackupCountOffset (AddMapConfigInput_AsyncBackupCount c)) ;;
   & initialFrame <<= (fun buf => EncodeInt buf DynamicConfigAddMapConfigCodecRequestTimeToLiveSecondsOffset (AddMapConfigInput_TimeToLiveSeconds c)) ;;
   & initialFrame <<= (fun buf => EncodeInt buf DynamicConfigAddMapConfigCodecRequestMaxIdleSecondsOffset (AddMapConfigInput_MaxIdleSeconds c)) ;;
   & initialFrame <<= (fun buf => EncodeBoolean buf DynamicConfigAddMapConfigCodecRequestReadBackupDataOffset (AddMapConfigInput_ReadBackupData c)) ;;
   & initialFrame <<= (fun buf => EncodeInt buf DynamicConfigAddMapConfigCodecRequestMergeBatchSizeOffset (AddMapConfigInput_MergeBatchSize c)) ;;
   & initialFrame <<= (fun buf => EncodeBoolean buf DynamicConfigAddMapConfigCodecRequestStatisticsEnabledOffset (AddMapConfigInput_StatisticsEnabled c)) ;;
   & initialFrame <<= (fun buf => EncodeInt buf DynamicConfigAddMapConfigCodecRequestMetadataPolicyOffset (AddMapConfigInput_MetadataPolicy c)) ;;
   & initialFrame <<= (fun buf => EncodeBoolean buf DynamicConfigAddMapConfigCodecRequestPerEntryStatsEnabledOffset (AddMapConfigInput_PerEntryStatsEnabled c)) ;;
   enc_frame initialFrame >>>
   enc_message_type DynamicConfigAddMapConfigCodecRequestMessageType >>>
   enc_partition_id (-1) >>>
   EncodeString (AddMapConfigInput_Name c) >>>
   EncodeNullableForEvictionConfigHolder (AddMapConfigInput_EvictionConfig c) >>>
   EncodeString (AddMapConfigInput_CacheDeserializedValues c) >>>
   EncodeString (AddMapConfigInput_MergePolicy c) >>>
   EncodeString (AddMapConfigInput_InMemoryFormat c) >>>
   EncodeNullableListMultiFrameForListenerConfigHolder (AddMapConfigInput_ListenerConfigs c) >>>
   EncodeNullableListMultiFrameForListenerConfigHolder (AddMapConfigInput_PartitionLostListenerConfigs c) >>>
   EncodeNullableForString (AddMapConfigInput_SplitBrainProtectionName c) >>>
   EncodeNullableForMapStoreConfigHolder (AddMapConfigInput_MapStoreConfig c) >>>
   EncodeNullableForNearCacheConfigHolder (AddMapConfigInput_NearCacheConfig c) >>>
   EncodeNullableForWanReplicationRef (AddMapConfigInput_WanReplicationRef c) >>>
   EncodeNullableListMultiFrameForIndexConfig (AddMapConfigInput_IndexConfigs c) >>>
   EncodeNullableListMultiFrameForAttributeConfig (AddMapConfigInput_AttributeConfigs c) >>>
   EncodeNullableListMultiFrameForQueryCacheConfigHolder (AddMapConfigInput_QueryCacheConfigs c) >>>
   EncodeNullableForString (AddMapConfigInput_PartitioningStrategyClassName c) >>>
   EncodeNullableData (AddMapConfigInput_PartitioningStrategyImplementation c) >>>
   EncodeNullableForHotRestartConfig (AddMapConfigInput_HotRestartConfig c) >>>
   EncodeNullableForEventJournalConfig (AddMapConfigInput_EventJournalConfig c) >>>
   EncodeNullableForMerkleTreeConfig (AddMapConfigInput_MerkleTreeConfig c) >>>
   EncodeDataPersistenceConfig (AddMapConfigInput_DataPersistenceConfig c) >>>
   EncodeTieredStoreConfig (AddMapConfigInput_TieredStoreConfig c) >>>
   enc_frame (Copy NullFrame) >>>
   EncodeNullableForString (AddMapConfigInput_UserCodeNamespace c)) clientMessage.

(** ** dynamic_config_add_cache_config_codec.go *)

Definition DynamicConfigAddCacheConfigCodecRequestMessageType : Z := 0x1B0E00.
Definition DynamicConfigAddCacheConfigCodecResponseMessageType : Z := 0x1B0E01.
Definition DynamicConfigAddCacheConfigCodecRequestStatisticsEnabledOffset : Z := PartitionIDOffset + IntSizeInBytes.
Definition DynamicConfigAddCacheConfigCodecRequestManagementEnabledOffset : Z := DynamicConfigAddCacheConfigCodecRequestStatisticsEnabledOffset + BooleanSizeInBytes.
Definition DynamicConfigAddCacheConfigCodecRequestReadThroughOffset : Z := DynamicConfigAddCacheConfigCodecRequestManagementEnabledOffset + BooleanSizeInBytes.
Definition DynamicConfigAddCacheConfigCodecRequestWriteThroughOffset : Z := DynamicConfigAddCacheConfigCodecRequestReadThroughOffset + BooleanSizeInBytes.
Definition DynamicConfigAddCacheConfigCodecRequestBackupCountOffset : Z := DynamicConfigAddCacheConfigCodecRequestWriteThroughOffset + BooleanSizeInBytes.
Definition DynamicConfigAddCacheConfigCodecRequestAsyncBackupCountOffset : Z := DynamicConfigAddCacheConfigCodecRequestBackupCountOffset + IntSizeInBytes.
Definition DynamicConfigAddCacheConfigCodecRequestMergeBatchSizeOffset : Z := DynamicConfigAddCacheConfigCodecRequestAsyncBackupCountOffset + IntSizeInBytes.
Definition DynamicConfigAddCacheConfigCodecRequestDisablePerEntryInvalidationEventsOffset : Z := DynamicConfigAddCacheConfigCodecRequestMergeBatchSizeOffset + IntSizeInBytes.
Definition DynamicConfigAddCacheConfigCodecRequestInitialFrameSize : Z := DynamicConfigAddCacheConfigCodecRequestDisablePerEntryInvalidationEventsOffset + BooleanSizeInBytes.

Definition EncodeDynamicConfigAddCacheConfigRequest (c : CacheConfigInput) : res ClientMessage :=
  let clientMessage := SetRetryable NewClientMessageForEncode false in
  (let initialFrame := NewFrameWith (make_bytes DynamicConfigAddCacheConfigCodecRequestInitialFrameSize) UnfragmentedMessage in
   & initialFrame <<= (fun buf => EncodeBoolean buf DynamicConfigAddCacheConfigCodecRequestStatisticsEnabledOffset (CacheConfigInput_StatisticsEnabled c)) ;;
   & initialFrame <<= (fun buf => EncodeBoolean buf DynamicConfigAddCacheConfigCodecRequestManagementEnabledOffset (CacheConfigInput_ManagementEnabled c)) ;;
   & initialFrame <<= (fun buf => EncodeBoolean buf DynamicConfigAddCacheConfigCodecRequestReadThroughOffset (CacheConfigInput_ReadThrough c)) ;;
   & initialFrame <<= (fun buf => EncodeBoolean buf DynamicConfigAddCacheConfigCodecRequestWriteThroughOffset (CacheConfigInput_WriteThrough c)) ;;
   & initialFrame <<= (fun buf => EncodeInt buf DynamicConfigAddCacheConfigCodecRequestBackupCountOffset (CacheConfigInput_BackupCount c)) ;;
   & initialFrame <<= (fun buf => EncodeInt buf DynamicConfigAddCacheConfigCodecRequestAsyncBackupCountOffset (CacheConfigInput_AsyncBackupCount c)) ;;
   & initialFrame <<= (fun buf => EncodeInt buf DynamicConfigAddCacheConfigCodecRequestMergeBatchSizeOffset (CacheConfigInput_MergeBatchSize c)) ;;
   & initialFrame <<= (fun buf => EncodeBoolean buf DynamicConfigAddCacheConfigCodecRequestDisablePerEntryInvalidationEventsOffset (CacheConfigInput_DisablePerEntryInvalidationEvents c)) ;;
   enc_frame initialFrame >>>
   enc_message_type DynamicConfigAddCacheConfigCodecRequestMessageType >>>
   enc_partition_id (-1) >>>
   EncodeString (CacheConfigInput_Name c) >>>
   EncodeNullableForString (CacheConfigInput_KeyType c) >>>
   EncodeNullableForString (CacheConfigInput_ValueType c) >>>
   EncodeNullableForString (CacheConfigInput_CacheLoaderFactory c) >>>
   EncodeNullableForString (CacheConfigInput_CacheWriterFactory c) >>>
   EncodeNullableForString (CacheConfigInput_CacheLoader c) >>>
   EncodeNullableForString (CacheConfigInput_CacheWriter c) >>>
   EncodeString (CacheConfigInput_InMemoryFormat c) >>>
   EncodeNullableForString (CacheConfigInput_SplitBrainProtectionName c) >>>
   EncodeNullableForString (CacheConfigInput_MergePolicy c) >>>
   EncodeNullableListMultiFrameForListenerConfigHolder (CacheConfigInput_PartitionLostListenerConfigs c) >>>
   EncodeNullableForString (CacheConfigInput_ExpiryPolicyFactoryClassName c) >>>
   EncodeNullableForEncodeTimedExpiryPolicyFactoryConfig (CacheConfigInput_TimedExpiryPolicyFactoryConfig c) >>>
   EncodeNullableListMultiFrameForListenerConfigHolder (CacheConfigInput_CacheEntryListeners c) >>>
   EncodeNullableForEvictionConfigHolder (CacheConfigInput_EvictionConfig c) >>>
   EncodeNullableForWanReplicationRef (CacheConfigInput_WanReplicationRef c) >>>
   EncodeNullableForEventJournalConfig (CacheConfigInput_EventJournalConfig c) >>>
   EncodeNullableForHotRestartConfig (CacheConfigInput_HotRestartConfig c) >>>
   EncodeNullableForMerkleTreeConfig (CacheConfigInput_MerkleTreeConfig c) >>>
   EncodeDataPersistenceConfig (CacheConfigInput_DataPersistenceConfig c) >>>
   EncodeNullableForString (CacheConfigInput_UserCodeNamespace c)) clientMessage.

(** ** dynamic_config_add_multimap_config_codec.go *)

Definition DynamicConfigAddMultiMapConfigCodecRequestMessageType : Z := 0x1B0100.
Definition DynamicConfigAddMultiMapConfigCodecResponseMessageType : Z := 0x1B0101.
Definition DynamicConfigAddMultiMapConfigCodecRequestBinaryOffset : Z := PartitionIDOffset + IntSizeInBytes.
Definition DynamicConfigAddMultiMapConfigCodecRequestBackupCountOffset : Z := DynamicConfigAddMultiMapConfigCodecRequestBinaryOffset + BooleanSizeInBytes.
Definition DynamicConfigAddMultiMapConfigCodecRequestAsyncBackupCountOffset : Z := DynamicConfigAddMultiMapConfigCodecRequestBackupCountOffset + IntSizeInBytes.
Definition DynamicConfigAddMultiMapConfigCodecRequestStatisticsEnabledOffset : Z := DynamicConfigAddMultiMapConfigCodecRequestAsyncBackupCountOffset + IntSizeInBytes.
Definition DynamicConfigAddMultiMapConfigCodecRequestMergeBatchSizeOffset : Z := DynamicConfigAddMultiMapConfigCodecRequestStatisticsEnabledOffset + BooleanSizeInBytes.
Definition DynamicConfigAddMultiMapConfigCodecRequestInitialFrameSize : Z := DynamicConfigAddMultiMapConfigCodecRequestMergeBatchSizeOffset + IntSizeInBytes.

Definition EncodeDynamicConfigAddMultiMapConfigRequest (c : MultiMapConfig) : res ClientMessage :=
  let clientMessage := SetRetryable NewClientMessageForEncode false in
  (let initialFrame := NewFrameWith (make_bytes DynamicConfigAddMultiMapConfigCodecRequestInitialFrameSize) UnfragmentedMessage in
   & initialFrame <<= (fun buf => EncodeBoolean buf DynamicConfigAddMultiMapConfigCodecRequestBinaryOffset (MultiMapConfig_Binary c)) ;;
   & initialFrame <<= (fun buf => EncodeInt buf DynamicConfigAddMultiMapConfigCodecRequestBackupCountOffset (MultiMapConfig_BackupCount c)) ;;
   & initialFrame <<= (fun buf => EncodeInt buf DynamicConfigAddMultiMapConfigCodecRequestAsyncBackupCountOffset (MultiMapConfig_AsyncBackupCount c)) ;;
   & initialFrame <<= (fun buf => EncodeBoolean buf DynamicConfigAddMultiMapConfigCodecRequestStatisticsEnabledOffset (MultiMapConfig_StatisticsEnabled c)) ;;
   & initialFrame <<= (fun buf => EncodeInt buf DynamicConfigAddMultiMapConfigCodecRequestMergeBatchSizeOffset (MultiMapConfig_MergeBatchSize c)) ;;
   enc_frame initialFrame >>>
   enc_message_type DynamicConfigAddMultiMapConfigCodecRequestMessageType >>>
   enc_partition_id (-1) >>>
   EncodeString (MultiMapConfig_Name c) >>>
   EncodeString (MultiMapConfig_CollectionType c) >>>
   EncodeNullableListMultiFrameForListenerConfigHolder (MultiMapConfig_ListenerConfigs c) >>>
   EncodeNullableForString (MultiMapConfig_SplitBrainProtectionName c) >>>
   EncodeString (MultiMapConfig_MergePolicy c) >>>
   EncodeNullableForString (MultiMapConfig_UserCodeNamespace c)) clientMessage.

(** ** dynamic_config_add_topic_config_codec.go *)

Definition DynamicConfigAddTopicConfigCodecRequestMessageType : Z := 0x1B0700.
Definition DynamicConfigAddTopicConfigCodecResponseMessageType : Z := 0x1B0701.
Definition DynamicConfigAddTopicConfigCodecRequestGlobalOrderingEnabledOffset : Z := PartitionIDOffset + IntSizeInBytes.
Definition DynamicConfigAddTopicConfigCodecRequestStatisticsEnabledOffset : Z := DynamicConfigAddTopicConfigCodecRequestGlobalOrderingEnabledOffset + BooleanSizeInBytes.
Definition DynamicConfigAddTopicConfigCodecRequestMultiThreadingEnabledOffset : Z := DynamicConfigAddTopicConfigCodecRequestStatisticsEnabledOffset + BooleanSizeInBytes.
Definition DynamicConfigAddTopicConfigCodecRequestInitialFrameSize : Z := DynamicConfigAddTopicConfigCodecRequestMultiThreadingEnabledOffset + BooleanSizeInBytes.

Definition EncodeDynamicConfigAddTopicConfigRequest (t : TopicConfig) : res ClientMessage :=
  let clientMessage := SetRetryable NewClientMessageForEncode false in
  (let initialFrame := NewFrameWith (make_bytes DynamicConfigAddTopicConfigCodecRequestInitialFrameSize) UnfragmentedMessage in
   & initialFrame <<= (fun buf => EncodeBoolean buf DynamicConfigAddTopicConfigCodecRequestGlobalOrderingEnabledOffset (TopicConfig_GlobalOrderingEnabled t)) ;;
   & initialFrame <<= (fun buf => EncodeBoolean buf DynamicConfigAddTopicConfigCodecRequestStatisticsEnabledOffset (TopicConfig_StatisticsEnabled t)) ;;
   & initialFrame <<= (fun buf => EncodeBoolean buf DynamicConfigAddTopicConfigCodecRequestMultiThreadingEnabledOffset (TopicConfig_MultiThreadingEnabled t)) ;;
   enc_frame initialFrame >>>
   enc_message_type DynamicConfigAddTopicConfigCodecRequestMessageType >>>
   enc_partition_id (-1) >>>
   EncodeString (TopicConfig_Name t) >>>
   EncodeNullableListMultiFrameForListenerConfigHolder (TopicConfig_ListenerConfigs t) >>>
   EncodeNullableForString (TopicConfig_UserCodeNamespace t)) clientMessage.

(** ** dynamic_config_add_replicatedmap_config_codec.go *)

Definition DynamicConfigAddReplicatedMapConfigCodecRequestMessageType : Z := 0x1B0600.
Definition DynamicConfigAddReplicatedMapConfigCodecResponseMessageType : Z := 0x1B0601.
Definition DynamicConfigAddReplicatedMapConfigCodecRequestAsyncFillupOffset : Z := PartitionIDOffset + IntSizeInBytes.
Definition DynamicConfigAddReplicatedMapConfigCodecRequestStatisticsEnabledOffset : Z := DynamicConfigAddReplicatedMapConfigCodecRequestAsyncFillupOffset + BooleanSizeInBytes.
Definition DynamicConfigAddReplicatedMapConfigCodecRequestMergeBatchSizeOffset : Z := DynamicConfigAddReplicatedMapConfigCodecRequestStatisticsEnabledOffset + BooleanSizeInBytes.
Definition DynamicConfigAddReplicatedMapConfigCodecRequestInitialFrameSize : Z := DynamicConfigAddReplicatedMapConfigCodecRequestMergeBatchSizeOffset + IntSizeInBytes.

Definition EncodeDynamicConfigAddReplicatedMapConfigRequest (c : ReplicatedMapConfig) : res ClientMessage :=
  let clientMessage := SetRetryable NewClientMessageForEncode false in
  (let initialFrame := NewFrameWith (make_bytes DynamicConfigAddReplicatedMapConfigCodecRequestInitialFrameSize) UnfragmentedMessage in
   & initialFrame <<= (fun buf => EncodeBoolean buf DynamicConfigAddReplicatedMapConfigCodecRequestAsyncFillupOffset (ReplicatedMapConfig_AsyncFillup c)) ;;
   & initialFrame <<= (fun buf => EncodeBoolean buf DynamicConfigAddReplicatedMapConfigCodecRequestStatisticsEnabledOffset (ReplicatedMapConfig_StatisticsEnabled c)) ;;
   & initialFrame <<= (fun buf => EncodeInt buf DynamicConfigAddReplicatedMapConfigCodecRequestMergeBatchSizeOffset (ReplicatedMapConfig_MergeBatchSize c)) ;;
   enc_frame initialFrame >>>
   enc_message_type DynamicConfigAddReplicatedMapConfigCodecRequestMessageType >>>
   enc_partition_id (-1) >>>
   EncodeString (ReplicatedMapConfig_Name c) >>>
   EncodeString (ReplicatedMapConfig_InMemoryFormat c) >>>
   EncodeString (ReplicatedMapConfig_MergePolicy c) >>>
   EncodeNullableListMultiFrameForListenerConfigHolder (ReplicatedMapConfig_ListenerConfigs c) >>>
   EncodeNullableForString (ReplicatedMapConfig_SplitBrainProtectionName c) >>>
   EncodeNullableForString (ReplicatedMapConfig_UserCodeNamespace c)) clientMessage.

(** ** dynamic_config_add_queue_config_codec.go *)

Definition DynamicConfigAddQueueConfigCodecRequestMessageType : Z := 0x1B0B00.
Definition DynamicConfigAddQueueConfigCodecResponseMessageType : Z := 0x1B0B01.
Definition DynamicConfigAddQueueConfigCodecRequestBackupCountOffset : Z := PartitionIDOffset + IntSizeInBytes.
Definition DynamicConfigAddQueueConfigCodecRequestAsyncBackupCountOffset : Z := DynamicConfigAddQueueConfigCodecRequestBackupCountOffset + IntSizeInBytes.
Definition DynamicConfigAddQueueConfigCodecRequestMaxSizeOffset : Z := DynamicConfigAddQueueConfigCodecRequestAsyncBackupCountOffset + IntSizeInBytes.
Definition DynamicConfigAddQueueConfigCodecRequestEmptyQueueTtlOffset : Z := DynamicConfigAddQueueConfigCodecRequestMaxSizeOffset + IntSizeInBytes.
Definition DynamicConfigAddQueueConfigCodecRequestStatisticsEnabledOffset : Z := DynamicConfigAddQueueConfigCodecRequestEmptyQueueTtlOffset + IntSizeInBytes.
Definition DynamicConfigAddQueueConfigCodecRequestMergeBatchSizeOffset : Z := DynamicConfigAddQueueConfigCodecRequestStatisticsEnabledOffset + BooleanSizeInBytes.
Definition DynamicConfigAddQueueConfigCodecRequestInitialFrameSize : Z := DynamicConfigAddQueueConfigCodecRequestMergeBatchSizeOffset + IntSizeInBytes.

(** Not implemented in the source: always a null frame. *)
Definition EncodeNullableForQueueStoreConfigHolder (_ : QueueStoreConfigHolder) : Enc :=
  enc_frame (Copy NullFrame).

Definition EncodeDynamicConfigAddQueueConfigRequest (input : QueueConfigInput) : res ClientMessage :=
  let clientMessage := SetRetryable NewClientMessageForEncode false in
  (let initialFrame := NewFrameWith (make_bytes DynamicConfigAddQueueConfigCodecRequestInitialFrameSize) UnfragmentedMessage in
   & initialFrame <<= (fun buf => EncodeInt buf DynamicConfigAddQueueConfigCodecRequestBackupCountOffset (QueueConfigInput_BackupCount input)) ;;
   & initialFrame <<= (fun buf => EncodeInt buf DynamicConfigAddQueueConfigCodecRequestAsyncBackupCountOffset (QueueConfigInput_AsyncBackupCount input)) ;;
   & initialFrame <<= (fun buf => EncodeInt buf DynamicConfigAddQueueConfigCodecRequestMaxSizeOffset (QueueConfigInput_MaxSize input)) ;;
   & initialFrame <<= (fun buf => EncodeInt buf DynamicConfigAddQueueConfigCodecRequestEmptyQueueTtlOffset (QueueConfigInput_EmptyQueueTtl input)) ;;
   & initialFrame <<= (fun buf => EncodeBoolean buf DynamicConfigAddQueueConfigCodecRequestStatisticsEnabledOffset (QueueConfigInput_StatisticsEnabled input)) ;;
   & initialFrame <<= (fun buf => EncodeInt buf DynamicConfigAddQueueConfigCodecRequestMergeBatchSizeOffset (QueueConfigInput_MergeBatchSize input)) ;;
   enc_frame initialFrame >>>
   enc_message_type DynamicConfigAddQueueConfigCodecRequestMessageType >>>
   enc_partition_id (-1) >>>
   EncodeString (QueueConfigInput_Name input) >>>
   EncodeNullableListMultiFrameForListenerConfigHolder (QueueConfigInput_ListenerConfigs input) >>>
   EncodeNullableForString (QueueConfigInput_SplitBrainProtectionName input) >>>
   EncodeNullableForQueueStoreConfigHolder (QueueConfigInput_QueueStoreConfig input) >>>
   EncodeString (QueueConfigInput_MergePolicy input) >>>
   EncodeNullableForString (QueueConfigInput_PriorityComparatorClassName input) >>>
   EncodeNullableForString (QueueConfigInput_UserCodeNamespace input)) clientMessage.

(** ** dynamic_config_add_executor_config_codec.go *)

Definition DynamicConfigAddExecutorConfigCodecRequestMessageType : Z := 0x1B0800.
Definition DynamicConfigAddExecutorConfigCodecResponseMessageType : Z := 0x1B0801.
Definition DynamicConfigAddExecutorConfigCodecRequestPoolSizeOffset : Z := PartitionIDOffset + IntSizeInBytes.
Definition DynamicConfigAddExecutorConfigCodecRequestQueueCapacityOffset : Z := DynamicConfigAddExecutorConfigCodecRequestPoolSizeOffset + IntSizeInBytes.
Definition DynamicConfigAddExecutorConfigCodecRequestStatisticsEnabledOffset : Z := DynamicConfigAddExecutorConfigCodecRequestQueueCapacityOffset + IntSizeInBytes.
Definition DynamicConfigAddExecutorConfigCodecRequestInitialFrameSize : Z := DynamicConfigAddExecutorConfigCodecRequestStatisticsEnabledOffset + BooleanSizeInBytes.

Definition EncodeDynamicConfigAddExecutorConfigRequest (es : ExecutorServiceConfig) : res ClientMessage :=
  let clientMessage := SetRetryable NewClientMessageForEncode false in
  (let initialFrame := NewFrameWith (make_bytes DynamicConfigAddExecutorConfigCodecRequestInitialFrameSize) UnfragmentedMessage in
   & initialFrame <<= (fun buf => EncodeInt buf DynamicConfigAddExecutorConfigCodecRequestPoolSizeOffset (ExecutorServiceConfig_PoolSize es)) ;;
   & initialFrame <<= (fun buf => EncodeInt buf DynamicConfigAddExecutorConfigCodecRequestQueueCapacityOffset (ExecutorServiceConfig_QueueCapacity es)) ;;
   & initialFrame <<= (fun buf => EncodeBoolean buf DynamicConfigAddExecutorConfigCodecRequestStatisticsEnabledOffset (ExecutorServiceConfig_StatisticsEnabled es)) ;;
   enc_frame initialFrame >>>
   enc_message_type DynamicConfigAddExecutorConfigCodecRequestMessageType >>>
   enc_partition_id (-1) >>>
   EncodeString (ExecutorServiceConfig_Name es) >>>
   EncodeNullableForString (ExecutorServiceConfig_SplitBrainProtectionName es) >>>
   EncodeNullableForString (ExecutorServiceConfig_UserCodeNamespace es)) clientMessage.

(** ** dynamic_config_add_durable_executor_config_codec.go *)

Definition DynamicConfigAddDurableExecutorConfigCodecRequestMessageType : Z := 0x1B0900.
Definition DynamicConfigAddDurableExecutorConfigCodecResponseMessageType : Z := 0x1B0901.
Definition DynamicConfigAddDurableExecutorConfigCodecRequestPoolSizeOffset : Z := PartitionIDOffset + IntSizeInBytes.
Definition DynamicConfigAddDurableExecutorConfigCodecRequestDurabilityOffset : Z := DynamicConfigAddDurableExecutorConfigCodecRequestPoolSizeOffset + IntSizeInBytes.
Definition DynamicConfigAddDurableExecutorConfigCodecRequestCapacityOffset : Z := DynamicConfigAddDurableExecutorConfigCodecRequestDurabilityOffset + IntSizeInBytes.
Definition DynamicConfigAddDurableExecutorConfigCodecRequestStatisticsEnabledOffset : Z := DynamicConfigAddDurableExecutorConfigCodecRequestCapacityOffset + IntSizeInBytes.
Definition DynamicConfigAddDurableExecutorConfigCodecRequestInitialFrameSize : Z := DynamicConfigAddDurableExecutorConfigCodecRequestStatisticsEnabledOffset + BooleanSizeInBytes.

Definition EncodeDynamicConfigAddDurableExecutorConfigRequest (es : DurableExecutorServiceConfig) : res ClientMessage :=
  let clientMessage := SetRetryable NewClientMessageForEncode false in
  (let initialFrame := NewFrameWith (make_bytes DynamicConfigAddDurableExecutorConfigCodecRequestInitialFrameSize) UnfragmentedMessage in
   & initialFrame <<= (fun buf => EncodeInt buf DynamicConfigAddDurableExecutorConfigCodecRequestPoolSizeOffset (DurableExecutorServiceConfig_PoolSize es)) ;;
   & initialFrame <<= (fun buf => EncodeInt buf DynamicConfigAddDurableExecutorConfigCodecRequestDurabilityOffset (DurableExecutorServiceConfig_Durability es)) ;;
   & initialFrame <<= (fun buf => EncodeInt buf DynamicConfigAddDurableExecutorConfigCodecRequestCapacityOffset (DurableExecutorServiceConfig_Capacity es)) ;;
   & initialFrame <<= (fun buf => EncodeBoolean buf DynamicConfigAddDurableExecutorConfigCodecRequestStatisticsEnabledOffset (DurableExecutorServiceConfig_StatisticsEnabled es)) ;;
   enc_frame initialFrame >>>
   enc_message_type DynamicConfigAddDurableExecutorConfigCodecRequestMessageType >>>
   enc_partition_id (-1) >>>
   EncodeString (DurableExecutorServiceConfig_Name es) >>>
   EncodeNullableForString (DurableExecutorServiceConfig_SplitBrainProtectionName es) >>>
   EncodeNullableForString (DurableExecutorServiceConfig_UserCodeNamespace es)) clientMessage.

(** ** dynamic_config_add_scheduled_executor_config_codec.go *)

Definition DynamicConfigAddScheduledExecutorConfigCodecRequestMessageType : Z := 0x1B0A00.
Definition DynamicConfigAddScheduledExecutorConfigCodecResponseMessageType : Z := 0x1B0A01.
Definition DynamicConfigAddScheduledExecutorConfigCodecRequestPoolSizeOffset : Z := PartitionIDOffset + IntSizeInBytes.
Definition DynamicConfigAddScheduledExecutorConfigCodecRequestDurabilityOffset : Z := DynamicConfigAddScheduledExecutorConfigCodecRequestPoolSizeOffset + IntSizeInBytes.
Definition DynamicConfigAddScheduledExecutorConfigCodecRequestCapacityOffset : Z := DynamicConfigAddScheduledExecutorConfigCodecRequestDurabilityOffset + IntSizeInBytes.
Definition DynamicConfigAddScheduledExecutorConfigCodecRequestMergeBatchSizeOffset : Z := DynamicConfigAddScheduledExecutorConfigCodecRequestCapacityOffset + IntSizeInBytes.
Definition DynamicConfigAddScheduledExecutorConfigCodecRequestStatisticsEnabledOffset : Z := DynamicConfigAddScheduledExecutorConfigCodecRequestMergeBatchSizeOffset + IntSizeInBytes.
Definition DynamicConfigAddScheduledExecutorConfigCodecRequestInitialFrameSize : Z := DynamicConfigAddScheduledExecutorConfigCodecRequestStatisticsEnabledOffset + BooleanSizeInBytes.

Definition EncodeDynamicConfigAddScheduledExecutorConfigRequest (es : ScheduledExecutorServiceConfig) : res ClientMessage :=
  let clientMessage := SetRetryable NewClientMessageForEncode false in
  (let initialFrame := NewFrameWith (make_bytes DynamicConfigAddScheduledExecutorConfigCodecRequestInitialFrameSize) UnfragmentedMessage in
   & initialFrame <<= (fun buf => EncodeInt buf DynamicConfigAddScheduledExecutorConfigCodecRequestPoolSizeOffset (ScheduledExecutorServiceConfig_PoolSize es)) ;;
   & initialFrame <<= (fun buf => EncodeInt buf DynamicConfigAddScheduledExecutorConfigCodecRequestDurabilityOffset (ScheduledExecutorServiceConfig_Durability es)) ;;
   & initialFrame <<= (fun buf => EncodeInt buf DynamicConfigAddScheduledExecutorConfigCodecRequestCapacityOffset (ScheduledExecutorServiceConfig_Capacity es)) ;;
   & initialFrame <<= (fun buf => EncodeInt buf DynamicConfigAddScheduledExecutorConfigCodecRequestMergeBatchSizeOffset (ScheduledExecutorServiceConfig_MergeBatchSize es)) ;;
   & initialFrame <<= (fun buf => EncodeBoolean buf DynamicConfigAddScheduledExecutorConfigCodecRequestStatisticsEnabledOffset (ScheduledExecutorServiceConfig_StatisticsEnabled es)) ;;
   enc_frame initialFrame >>>
   enc_message_type DynamicConfigAddScheduledExecutorConfigCodecRequestMessageType >>>
   enc_partition_id (-1) >>>
   EncodeString (ScheduledExecutorServiceConfig_Name es) >>>
   EncodeNullableForString (ScheduledExecutorServiceConfig_SplitBrainProtectionName es) >>>
   EncodeString (ScheduledExecutorServiceConfig_MergePolicy es) >>>
   EncodeNullableForString (ScheduledExecutorServiceConfig_UserCodeNamespace es)) clientMessage.

(** ** dynamic_config_add_usercode_namespace_config.go *)

Definition DynamicConfigAddUserCodeNamespaceConfigCodecRequestMessageType : Z := 0x1b1300.
Definition DynamicConfigAddUserCodeNamespaceConfigCodecResponseMessageType : Z := 0x1b1301.
Definition DynamicConfigAddUserCodeNamespaceConfigCodecRequestInitialFrameSize : Z := PartitionIDOffset + IntSizeInBytes.

Definition EncodeDynamicConfigAddUserCodeNamespaceConfigRequest (config : UserCodeNamespaceConfig) : res ClientMessage :=
  let clientMessage := SetRetryable NewClientMessageForEncode false in
  (let initialFrame := NewFrameWith (make_bytes DynamicConfigAddUserCodeNamespaceConfigCodecRequestInitialFrameSize) UnfragmentedMessage in
   enc_frame initialFrame >>>
   enc_message_type DynamicConfigAddUserCodeNamespaceConfigCodecRequestMessageType >>>
   enc_partition_id (-1) >>>
   EncodeString (UserCodeNamespaceConfig_Name config) >>>
   EncodeListMultiFrameResourceDefinition (UserCodeNamespaceConfig_Resources config)) clientMessage.

(** ** mc_update_map_config_codec.go *)

Definition MCUpdateMapConfigCodecRequestMessageType : Z := 0x200400.
Definition MCUpdateMapConfigCodecResponseMessageType : Z := 0x200401.
Definition MCUpdateMapConfigCodecRequestTimeToLiveSecondsOffset : Z := PartitionIDOffset + IntSizeInBytes.
Definition MCUpdateMapConfigCodecRequestMaxIdleSecondsOffset : Z := MCUpdateMapConfigCodecRequestTimeToLiveSecondsOffset + IntSizeInBytes.
Definition MCUpdateMapConfigCodecRequestEvictionPolicyOffset : Z := MCUpdateMapConfigCodecRequestMaxIdleSecondsOffset + IntSizeInBytes.
Definition MCUpdateMapConfigCodecRequestReadBackupDataOffset : Z := MCUpdateMapConfigCodecRequestEvictionPolicyOffset + IntSizeInBytes.
Definition MCUpdateMapConfigCodecRequestMaxSizeOffset : Z := MCUpdateMapConfigCodecRequestReadBackupDataOffset + BooleanSizeInBytes.
Definition MCUpdateMapConfigCodecRequestMaxSizePolicyOffset : Z := MCUpdateMapConfigCodecRequestMaxSizeOffset + IntSizeInBytes.
Definition MCUpdateMapConfigCodecRequestInitialFrameSize : Z := MCUpdateMapConfigCodecRequestMaxSizePolicyOffset + IntSizeInBytes.

Definition EncodeMCUpdateMapConfigRequest (mapName : string) (timeToLiveSeconds : Z) (maxIdleSeconds : Z) (evictionPolicy : Z) (readBackupData : bool) (maxSize : Z) (maxSizePolicy : Z) (wrr : WanReplicationRef) : res ClientMessage :=
  let clientMessage := SetRetryable NewClientMessageForEncode false in
  (let initialFrame := NewFrameWith (make_bytes MCUpdateMapConfigCodecRequestInitialFrameSize) UnfragmentedMessage in
   & initialFrame <<= (fun buf => EncodeInt buf MCUpdateMapConfigCodecRequestTimeToLiveSecondsOffset timeToLiveSeconds) ;;
   & initialFrame <<= (fun buf => EncodeInt buf MCUpdateMapConfigCodecRequestMaxIdleSecondsOffset maxIdleSeconds) ;;
   & initialFrame <<= (fun buf => EncodeInt buf MCUpdateMapConfigCodecRequestEvictionPolicyOffset evictionPolicy) ;;
   & initialFrame <<= (fun buf => EncodeBoolean buf MCUpdateMapConfigCodecRequestReadBackupDataOffset readBackupData) ;;
   & initialFrame <<= (fun buf => EncodeInt buf MCUpdateMapConfigCodecRequestMaxSizeOffset maxSize) ;;
   & initialFrame <<= (fun buf => EncodeInt buf MCUpdateMapConfigCodecRequestMaxSizePolicyOffset maxSizePolicy) ;;
   enc_frame initialFrame >>>
   enc_message_type MCUpdateMapConfigCodecRequestMessageType >>>
   enc_partition_id (-1) >>>
   EncodeString mapName >>>
   EncodeNullableForWanReplicationRef wrr) clientMessage.

(** ** mc_get_map_config_codec.go *)

Definition MCGetMapConfigCodecRequestMessageType : Z := 0x200300.
Definition MCGetMapConfigCodecResponseMessageType : Z := 0x200301.
Definition MCGetMapConfigCodecRequestInitialFrameSize : Z := PartitionIDOffset + IntSizeInBytes.
Definition MCGetMapConfigResponseInMemoryFormatOffset : Z := ResponseBackupAcksOffset + ByteSizeInBytes.
Definition MCGetMapConfigResponseBackupCountOffset : Z := MCGetMapConfigResponseInMemoryFormatOffset + IntSizeInBytes.
Definition MCGetMapConfigResponseAsyncBackupCountOffset : Z := MCGetMapConfigResponseBackupCountOffset + IntSizeInBytes.
Definition MCGetMapConfigResponseTimeToLiveSecondsOffset : Z := MCGetMapConfigResponseAsyncBackupCountOffset + IntSizeInBytes.
Definition MCGetMapConfigResponseMaxIdleSecondsOffset : Z := MCGetMapConfigResponseTimeToLiveSecondsOffset + IntSizeInBytes.
Definition MCGetMapConfigResponseMaxSizeOffset : Z := MCGetMapConfigResponseMaxIdleSecondsOffset + IntSizeInBytes.
Definition MCGetMapConfigResponseMaxSizePolicyOffset : Z := MCGetMapConfigResponseMaxSizeOffset + IntSizeInBytes.
Definition MCGetMapConfigResponseReadBackupDataOffset : Z := MCGetMapConfigResponseMaxSizePolicyOffset + IntSizeInBytes.
Definition MCGetMapConfigResponseEvictionPolicyOffset : Z := MCGetMapConfigResponseReadBackupDataOffset + BooleanSizeInBytes.

Definition EncodeMCGetMapConfigRequest (mapName : string) : res ClientMessage :=
  let clientMessage := SetRetryable NewClientMessageForEncode true in
  (let initialFrame := NewFrameWith (make_bytes MCGetMapConfigCodecRequestInitialFrameSize) UnfragmentedMessage in
   enc_frame initialFrame >>>
   enc_message_type MCGetMapConfigCodecRequestMessageType >>>
   enc_partition_id (-1) >>>
   EncodeString mapName) clientMessage.

Definition DecodeListMultiFrameForIndexConfig : Dec (list IndexConfig) :=
  hasNext <~ (fun _ it => Ret (HasNext it, it)) ;;
  if hasNext : bool then
    dec_next ;;;
    result <~ (fun n it => collect_loop NextFrameIsDataStructureEndFrame DecodeIndexConfig n [] n it) ;;
    dec_next ;;;
    dec_ret result
  else dec_ret [].

Definition DecodeMCGetMapConfigResponse (n : nat) (clientMessage : ClientMessage) : res MapConfig :=
  run_dec n (FrameIterator clientMessage) (
  initialFrame <~ dec_frame ;;
  inMemoryFormat <~ dec_lift (DecodeInt (Content initialFrame) MCGetMapConfigResponseInMemoryFormatOffset) ;;
  backupCount <~ dec_lift (DecodeInt (Content initialFrame) MCGetMapConfigResponseBackupCountOffset) ;;
  asyncBackupCount <~ dec_lift (DecodeInt (Content initialFrame) MCGetMapConfigResponseAsyncBackupCountOffset) ;;
  timeToLiveSeconds <~ dec_lift (DecodeInt (Content initialFrame) MCGetMapConfigResponseTimeToLiveSecondsOffset) ;;
  maxIdleSeconds <~ dec_lift (DecodeInt (Content initialFrame) MCGetMapConfigResponseMaxIdleSecondsOffset) ;;
  maxSize <~ dec_lift (DecodeInt (Content initialFrame) MCGetMapConfigResponseMaxSizeOffset) ;;
  maxSizePolicy <~ dec_lift (DecodeInt (Content initialFrame) MCGetMapConfigResponseMaxSizePolicyOffset) ;;
  readBackupData <~ dec_lift (DecodeBoolean (Content initialFrame) MCGetMapConfigResponseReadBackupDataOffset) ;;
  evictionPolicy <~ dec_lift (DecodeInt (Content initialFrame) MCGetMapConfigResponseEvictionPolicyOffset) ;;
  mergePolicy <~ DecodeString ;;
  indexes <~ DecodeListMultiFrameForIndexConfig ;;
  dec_ret {|
    MapConfig_InMemoryFormat := inMemoryFormat;
    MapConfig_BackupCount := backupCount;
    MapConfig_AsyncBackupCount := asyncBackupCount;
    MapConfig_TimeToLiveSeconds := timeToLiveSeconds;
    MapConfig_MaxIdleSeconds := maxIdleSeconds;
    MapConfig_MaxSize := maxSize;
    MapConfig_MaxSizePolicy := maxSizePolicy;
    MapConfig_ReadBackupData := readBackupData;
    MapConfig_EvictionPolicy := evictionPolicy;
    MapConfig_MergePolicy := mergePolicy;
    MapConfig_Indexes := indexes;
    MapConfig_TieredStoreConfig := TieredStoreConfig_zero |}).

(** ** mc_change_cluster_state_codec.go *)

Definition MCChangeClusterStateCodecRequestMessageType : Z := 0x200200.
Definition MCChangeClusterStateCodecResponseMessageType : Z := 0x200201.
Definition MCChangeClusterStateCodecRequestNewStateOffset : Z := PartitionIDOffset + IntSizeInBytes.
Definition MCChangeClusterStateCodecRequestInitialFrameSize : Z := MCChangeClusterStateCodecRequestNewStateOffset + IntSizeInBytes.

Definition EncodeMCChangeClusterStateRequest (newState : Z) : res ClientMessage :=
  let clientMessage := SetRetryable NewClientMessageForEncode false in
  (let initialFrame := NewFrameWith (make_bytes MCChangeClusterStateCodecRequestInitialFrameSize) UnfragmentedMessage in
   & initialFrame <<= (fun buf => EncodeInt buf MCChangeClusterStateCodecRequestNewStateOffset newState) ;;
   enc_frame initialFrame >>>
   enc_message_type MCChangeClusterStateCodecRequestMessageType >>>
   enc_partition_id (-1)) clientMessage.

Definition DecodeMCChangeClusterStateRequest (n : nat) (clientMessage : ClientMessage) : res Z :=
  run_dec n (FrameIterator clientMessage) (
  initialFrame <~ dec_frame ;;
  currentState <~ dec_lift (DecodeByte (Content initialFrame) MCChangeClusterStateCodecRequestNewStateOffset) ;;
  dec_ret (Z_of_byte currentState)).

(** ** mc_get_cluster_metadata_codec.go *)

Definition MCGetClusterMetadataCodecRequestMessageType : Z := 0x200E00.
Definition MCGetClusterMetadataCodecResponseMessageType : Z := 0x200E01.
Definition MCGetClusterMetadataCodecRequestInitialFrameSize : Z := PartitionIDOffset + IntSizeInBytes.
Definition MCGetClusterMetadataResponseCurrentStateOffset : Z := ResponseBackupAcksOffset + ByteSizeInBytes.
Definition MCGetClusterMetadataResponseClusterTimeOffset : Z := MCGetClusterMetadataResponseCurrentStateOffset + ByteSizeInBytes.

Definition EncodeMCGetClusterMetadataRequest  : res ClientMessage :=
  let clientMessage := SetRetryable NewClientMessageForEncode true in
  (let initialFrame := NewFrameWith (make_bytes MCGetClusterMetadataCodecRequestInitialFrameSize) UnfragmentedMessage in
   enc_frame initialFrame >>>
   enc_message_type MCGetClusterMetadataCodecRequestMessageType >>>
   enc_partition_id (-1)) clientMessage.

Definition DecodeMCGetClusterMetadataResponse (n : nat) (clientMessage : ClientMessage) : res ClusterMetadata :=
  run_dec n (FrameIterator clientMessage) (
  initialFrame <~ dec_frame ;;
  currentState <~ dec_lift (DecodeByte (Content initialFrame) MCGetClusterMetadataResponseCurrentStateOffset) ;;
  clusterTime <~ dec_lift (DecodeLong (Content initialFrame) MCGetClusterMetadataResponseClusterTimeOffset) ;;
  memberVersion <~ DecodeString ;;
  jetVersion <~ DecodeNullableForString ;;
  dec_ret {|
    ClusterMetadata_CurrentState := Z_of_byte currentState;
    ClusterMetadata_MemberVersion := memberVersion;
    ClusterMetadata_JetVersion := jetVersion;
    ClusterMetadata_ClusterTime := clusterTime |}).

(** ** mc_get_member_config_codec.go *)

Definition MCGetMemberConfigCodecRequestMessageType : Z := 0x200500.
Definition MCGetMemberConfigCodecResponseMessageType : Z := 0x200501.
Definition MCGetMemberConfigCodecRequestInitialFrameSize : Z := PartitionIDOffset + IntSizeInBytes.

Definition EncodeMCGetMemberConfigRequest  : res ClientMessage :=
  let clientMessage := SetRetryable NewClientMessageForEncode true in
  (let initialFrame := NewFrameWith (make_bytes MCGetMemberConfigCodecRequestInitialFrameSize) UnfragmentedMessage in
   enc_frame initialFrame >>>
   enc_message_type MCGetMemberConfigCodecRequestMessageType >>>
   enc_partition_id (-1)) clientMessage.

Definition DecodeMCGetMemberConfigResponse (n : nat) (clientMessage : ClientMessage) : res string :=
  run_dec n (FrameIterator clientMessage) (
  dec_next ;;;
  DecodeString).

(** ** mc_get_timed_member_state_codec.go *)

Definition MCGetTimedMemberStateCodecRequestMessageType : Z := 0x200B00.
Definition MCGetTimedMemberStateCodecResponseMessageType : Z := 0x200B01.
Definition MCGetTimedMemberStateCodecRequestInitialFrameSize : Z := PartitionIDOffset + IntSizeInBytes.

Definition EncodeMCGetTimedMemberStateRequest  : res ClientMessage :=
  let clientMessage := SetRetryable NewClientMessageForEncode true in
  (let initialFrame := NewFrameWith (make_bytes MCGetTimedMemberStateCodecRequestInitialFrameSize) UnfragmentedMessage in
   enc_frame initialFrame >>>
   enc_message_type MCGetTimedMemberStateCodecRequestMessageType >>>
   enc_partition_id (-1)) clientMessage.

Definition DecodeMCGetTimedMemberStateResponse (n : nat) (clientMessage : ClientMessage) : res string :=
  run_dec n (FrameIterator clientMessage) (
  dec_next ;;;
  DecodeNullableForString).

(** ** mc_trigger_hot_restart_backup_codec.go *)

Definition MCTriggerHotRestartBackupCodecRequestMessageType : Z := 0x201F00.
Definition MCTriggerHotRestartBackupCodecResponseMessageType : Z := 0x201F01.
Definition MCTriggerHotRestartBackupCodecRequestInitialFrameSize : Z := PartitionIDOffset + IntSizeInBytes.

Definition EncodeMCTriggerHotRestartBackupRequest  : res ClientMessage :=
  let clientMessage := SetRetryable NewClientMessageForEncode false in
  (let initialFrame := NewFrameWith (make_bytes MCTriggerHotRestartBackupCodecRequestInitialFrameSize) UnfragmentedMessage in
   enc_frame initialFrame >>>
   enc_message_type MCTriggerHotRestartBackupCodecRequestMessageType >>>
   enc_partition_id (-1)) clientMessage.

(** ** mc_interrupt_hot_restart_backup_codec.go *)

Definition MCInterruptHotRestartBackupCodecRequestMessageType : Z := 0x202000.
Definition MCInterruptHotRestartBackupCodecResponseMessageType : Z := 0x202001.
Definition MCInterruptHotRestartBackupCodecRequestInitialFrameSize : Z := PartitionIDOffset + IntSizeInBytes.

Definition EncodeMCInterruptHotRestartBackupRequest  : res ClientMessage :=
  let clientMessage := SetRetryable NewClientMessageForEncode false in
  (let initialFrame := NewFrameWith (make_bytes MCInterruptHotRestartBackupCodecRequestInitialFrameSize) UnfragmentedMessage in
   enc_frame initialFrame >>>
   enc_message_type MCInterruptHotRestartBackupCodecRequestMessageType >>>
   enc_partition_id (-1)) clientMessage.

(** ** mc_add_wan_batch_publisher_config_codec.go *)

Definition MCAddWanBatchPublisherConfigCodecRequestMessageType : Z := 0x201500.
Definition MCAddWanBatchPublisherConfigCodecResponseMessageType : Z := 0x201501.
Definition MCAddWanBatchPublisherConfigCodecRequestQueueCapacityOffset : Z := PartitionIDOffset + IntSizeInBytes.
Definition MCAddWanBatchPublisherConfigCodecRequestBatchSizeOffset : Z := MCAddWanBatchPublisherConfigCodecRequestQueueCapacityOffset + IntSizeInBytes.
Definition MCAddWanBatchPublisherConfigCodecRequestBatchMaxDelayMillisOffset : Z := MCAddWanBatchPublisherConfigCodecRequestBatchSizeOffset + IntSizeInBytes.
Definition MCAddWanBatchPublisherConfigCodecRequestResponseTimeoutMillisOffset : Z := MCAddWanBatchPublisherConfigCodecRequestBatchMaxDelayMillisOffset + IntSizeInBytes.
Definition MCAddWanBatchPublisherConfigCodecRequestAckTypeOffset : Z := MCAddWanBatchPublisherConfigCodecRequestResponseTimeoutMillisOffset + IntSizeInBytes.
Definition MCAddWanBatchPublisherConfigCodecRequestQueueFullBehaviorOffset : Z := MCAddWanBatchPublisherConfigCodecRequestAckTypeOffset + IntSizeInBytes.
Definition MCAddWanBatchPublisherConfigCodecRequestConsistencyCheckStrategyOffset : Z := MCAddWanBatchPublisherConfigCodecRequestQueueFullBehaviorOffset + IntSizeInBytes.
Definition MCAddWanBatchPublisherConfigCodecRequestInitialFrameSize : Z := MCAddWanBatchPublisherConfigCodecRequestConsistencyCheckStrategyOffset + ByteSizeInBytes.

Definition EncodeMCAddWanBatchPublisherConfigRequest (name : string) (targetCluster : string) (publisherId : string) (endpoints : string) (queueCapacity : Z) (batchSize : Z) (batchMaxDelayMillis : Z) (responseTimeoutMillis : Z) (ackType : Z) (queueFullBehavior : Z) (consistencyCheckStrategy : byte) : res ClientMessage :=
  let clientMessage := SetRetryable NewClientMessageForEncode false in
  (let initialFrame := NewFrameWith (make_bytes MCAddWanBatchPublisherConfigCodecRequestInitialFrameSize) UnfragmentedMessage in
   & initialFrame <<= (fun buf => EncodeInt buf MCAddWanBatchPublisherConfigCodecRequestQueueCapacityOffset queueCapacity) ;;
   & initialFrame <<= (fun buf => EncodeInt buf MCAddWanBatchPublisherConfigCodecRequestBatchSizeOffset batchSize) ;;
   & initialFrame <<= (fun buf => EncodeInt buf MCAddWanBatchPublisherConfigCodecRequestBatchMaxDelayMillisOffset batchMaxDelayMillis) ;;
   & initialFrame <<= (fun buf => EncodeInt buf MCAddWanBatchPublisherConfigCodecRequestResponseTimeoutMillisOffset responseTimeoutMillis) ;;
   & initialFrame <<= (fun buf => EncodeInt buf MCAddWanBatchPublisherConfigCodecRequestAckTypeOffset ackType) ;;
   & initialFrame <<= (fun buf => EncodeInt buf MCAddWanBatchPublisherConfigCodecRequestQueueFullBehaviorOffset queueFullBehavior) ;;
   & initialFrame <<= (fun buf => EncodeByte buf MCAddWanBatchPublisherConfigCodecRequestConsistencyCheckStrategyOffset consistencyCheckStrategy) ;;
   enc_frame initialFrame >>>
   enc_message_type MCAddWanBatchPublisherConfigCodecRequestMessageType >>>
   enc_partition_id (-1) >>>
   EncodeString name >>>
   EncodeString targetCluster >>>
   EncodeNullableForString publisherId >>>
   EncodeString endpoints) clientMessage.

Definition DecodeMCAddWanBatchPublisherConfigResponse (n : nat) (clientMessage : ClientMessage) :
    res (list string * list string) :=
  run_dec n (FrameIterator clientMessage) (
  dec_next ;;;
  addedPublisherIds <~ DecodeListMultiFrameForString ;;
  ignoredPublisherIds <~ DecodeListMultiFrameForString ;;
  dec_ret (addedPublisherIds, ignoredPublisherIds)).

(** ** mc_change_wan_replication_state_codec.go *)

Definition MCChangeWanReplicationStateCodecRequestMessageType : Z := 0x201300.
Definition MCChangeWanReplicationStateCodecResponseMessageType : Z := 0x201301.
Definition MCChangeWanReplicationStateCodecRequestNewStateOffset : Z := PartitionIDOffset + IntSizeInBytes.
Definition MCChangeWanReplicationStateCodecRequestInitialFrameSize : Z := MCChangeWanReplicationStateCodecRequestNewStateOffset + ByteSizeInBytes.

Definition EncodeMCChangeWanReplicationStateRequest (wanReplicationName : string) (wanPublisherId : string) (newState : byte) : res ClientMessage :=
  let clientMessage := SetRetryable NewClientMessageForEncode false in
  (let initialFrame := NewFrameWith (make_bytes MCChangeWanReplicationStateCodecRequestInitialFrameSize) UnfragmentedMessage in
   & initialFrame <<= (fun buf => EncodeByte buf MCChangeWanReplicationStateCodecRequestNewStateOffset newState) ;;
   enc_frame initialFrame >>>
   enc_message_type MCChangeWanReplicationStateCodecRequestMessageType >>>
   enc_partition_id (-1) >>>
   EncodeString wanReplicationName >>>
   EncodeString wanPublisherId) clientMessage.

(** ** mc_clear_wan_queues_codec.go *)

Definition MCClearWanQueuesCodecRequestMessageType : Z := 0x201400.
Definition MCClearWanQueuesCodecResponseMessageType : Z := 0x201401.
Definition MCClearWanQueuesCodecRequestInitialFrameSize : Z := PartitionIDOffset + IntSizeInBytes.

Definition EncodeMCClearWanQueuesRequest (wanReplicationName : string) (wanPublisherId : string) : res ClientMessage :=
  let clientMessage := SetRetryable NewClientMessageForEncode false in
  (let initialFrame := NewFrameWith (make_bytes MCClearWanQueuesCodecRequestInitialFrameSize) UnfragmentedMessage in
   enc_frame initialFrame >>>
   enc_message_type MCClearWanQueuesCodecRequestMessageType >>>
   enc_partition_id (-1) >>>
   EncodeString wanReplicationName >>>
   EncodeString wanPublisherId) clientMessage.

(** ** mc_wan_sync_map_codec.go *)

Definition MCWanSyncMapCodecRequestMessageType : Z := 0x201600.
Definition MCWanSyncMapCodecResponseMessageType : Z := 0x201601.
Definition MCWanSyncMapCodecRequestWanSyncTypeOffset : Z := PartitionIDOffset + IntSizeInBytes.
Definition MCWanSyncMapCodecRequestInitialFrameSize : Z := MCWanSyncMapCodecRequestWanSyncTypeOffset + IntSizeInBytes.
Definition MCWanSyncMapResponseUuidOffset : Z := ResponseBackupAcksOffset + ByteSizeInBytes.

Definition EncodeMCWanSyncMapRequest (wanSync : WanSyncRef) : res ClientMessage :=
  let clientMessage := SetRetryable NewClientMessageForEncode false in
  (let initialFrame := NewFrameWith (make_bytes MCWanSyncMapCodecRequestInitialFrameSize) UnfragmentedMessage in
   & initialFrame <<= (fun buf => EncodeInt buf MCWanSyncMapCodecRequestWanSyncTypeOffset (WanSyncRef_Type wanSync)) ;;
   enc_frame initialFrame >>>
   enc_message_type MCWanSyncMapCodecRequestMessageType >>>
   enc_partition_id (-1) >>>
   EncodeString (WanSyncRef_WanReplicationName wanSync) >>>
   EncodeString (WanSyncRef_WanPublisherId wanSync) >>>
   EncodeNullableForString (WanSyncRef_MapName wanSync)) clientMessage.

Definition DecodeMCWanSyncMapResponse (n : nat) (clientMessage : ClientMessage) : res UUID :=
  run_dec n (FrameIterator clientMessage) (
  initialFrame <~ dec_frame ;;
  dec_lift (DecodeUUID (Content initialFrame) MCWanSyncMapResponseUuidOffset)).

(** ** mc_poll_mc_events_codec.go *)

Definition MCPollMCEventsCodecRequestMessageType : Z := 0x201800.
Definition MCPollMCEventsCodecResponseMessageType : Z := 0x201801.
Definition MCPollMCEventsCodecRequestInitialFrameSize : Z := PartitionIDOffset + IntSizeInBytes.

Definition EncodeMCPollMCEventsRequest  : res ClientMessage :=
  let clientMessage := SetRetryable NewClientMessageForEncode false in
  (let initialFrame := NewFrameWith (make_bytes MCPollMCEventsCodecRequestInitialFrameSize) UnfragmentedMessage in
   enc_frame initialFrame >>>
   enc_message_type MCPollMCEventsCodecRequestMessageType >>>
   enc_partition_id (-1)) clientMessage.

Definition DecodeMCPollMCEventsResponse (n : nat) (clientMessage : ClientMessage) : res (list MCEvent) :=
  run_dec n (FrameIterator clientMessage) (
  dec_next ;;;
  DecodeListMultiFrameForMCEvent).

(** ** jet_upload_job_meta_data_codec.go *)

Definition JetUploadJobMetaDataCodecRequestMessageType : Z := 0xFE1100.
Definition JetUploadJobMetaDataCodecResponseMessageType : Z := 0xFE1101.
Definition JetUploadJobMetaDataCodecRequestSessionIdOffset : Z := PartitionIDOffset + IntSizeInBytes.
Definition JetUploadJobMetaDataCodecRequestJarOnMemberOffset : Z := JetUploadJobMetaDataCodecRequestSessionIdOffset + UuidSizeInBytes.
Definition JetUploadJobMetaDataCodecRequestInitialFrameSize : Z := JetUploadJobMetaDataCodecRequestJarOnMemberOffset + BooleanSizeInBytes.

Definition EncodeJetUploadJobMetaDataRequest (jobMetaData : JobMetaData) : res ClientMessage :=
  let clientMessage := SetRetryable NewClientMessageForEncode true in
  (let initialFrame := NewFrameWith (make_bytes JetUploadJobMetaDataCodecRequestInitialFrameSize) UnfragmentedMessage in
   & initialFrame <<= (fun buf => EncodeUUID buf JetUploadJobMetaDataCodecRequestSessionIdOffset (JobMetaData_SessionId jobMetaData)) ;;
   & initialFrame <<= (fun buf => EncodeBoolean buf JetUploadJobMetaDataCodecRequestJarOnMemberOffset (JobMetaData_JarOnMember jobMetaData)) ;;
   enc_frame initialFrame >>>
   enc_message_type JetUploadJobMetaDataCodecRequestMessageType >>>
   enc_partition_id (-1) >>>
   EncodeString (JobMetaData_FileName jobMetaData) >>>
   EncodeString (JobMetaData_Sha256Hex jobMetaData) >>>
   EncodeNullableForString (JobMetaData_SnapshotName jobMetaData) >>>
   EncodeNullableForString (JobMetaData_JobName jobMetaData) >>>
   EncodeNullableForString (JobMetaData_MainClass jobMetaData) >>>
   EncodeListMultiFrameForString (JobMetaData_JobParameters jobMetaData)) clientMessage.

(** ** jet_upload_job_multipart_codec.go *)

Definition JetUploadJobMultipartCodecRequestMessageType : Z := 0xFE1100.
Definition JetUploadJobMultipartCodecResponseMessageType : Z := 0xFE1101.
Definition JetUploadJobMultipartCodecRequestSessionIdOffset : Z := PartitionIDOffset + IntSizeInBytes.
Definition JetUploadJobMultipartCodecRequestCurrentPartNumberOffset : Z := JetUploadJobMultipartCodecRequestSessionIdOffset + UuidSizeInBytes.
Definition JetUploadJobMultipartCodecRequestTotalPartNumberOffset : Z := JetUploadJobMultipartCodecRequestCurrentPartNumberOffset + IntSizeInBytes.
Definition JetUploadJobMultipartCodecRequestPartSizeOffset : Z := JetUploadJobMultipartCodecRequestTotalPartNumberOffset + IntSizeInBytes.
Definition JetUploadJobMultipartCodecRequestInitialFrameSize : Z := JetUploadJobMultipartCodecRequestPartSizeOffset + IntSizeInBytes.
Definition JetUploadJobMultipartResponseResponseOffset : Z := ResponseBackupAcksOffset + ByteSizeInBytes.

Definition EncodeJetUploadJobMultipartRequest (sessionId : UUID) (currentPartNumber : Z) (totalPartNumber : Z) (partData : list byte) (partSize : Z) : res ClientMessage :=
  let clientMessage := SetRetryable NewClientMessageForEncode true in
  (let initialFrame := NewFrameWith (make_bytes JetUploadJobMultipartCodecRequestInitialFrameSize) UnfragmentedMessage in
   & initialFrame <<= (fun buf => EncodeUUID buf JetUploadJobMultipartCodecRequestSessionIdOffset sessionId) ;;
   & initialFrame <<= (fun buf => EncodeInt buf JetUploadJobMultipartCodecRequestCurrentPartNumberOffset currentPartNumber) ;;
   & initialFrame <<= (fun buf => EncodeInt buf JetUploadJobMultipartCodecRequestTotalPartNumberOffset totalPartNumber) ;;
   & initialFrame <<= (fun buf => EncodeInt buf JetUploadJobMultipartCodecRequestPartSizeOffset partSize) ;;
   enc_frame initialFrame >>>
   enc_message_type JetUploadJobMultipartCodecRequestMessageType >>>
   enc_partition_id (-1) >>>
   EncodeByteArray partData) clientMessage.

Definition DecodeJetUploadJobMultipartResponse (n : nat) (clientMessage : ClientMessage) : res bool :=
  run_dec n (FrameIterator clientMessage) (
  initialFrame <~ dec_frame ;;
  dec_lift (DecodeBoolean (Content initialFrame) JetUploadJobMultipartResponseResponseOffset)).

(** ** jet_terminate_job_codec.go *)

Definition JetTerminateJobCodecRequestMessageType : Z := 0xFE0200.
Definition JetTerminateJobCodecResponseMessageType : Z := 0xFE0201.
Definition JetTerminateJobCodecRequestJobIdOffset : Z := PartitionIDOffset + IntSizeInBytes.
Definition JetTerminateJobCodecRequestTerminateModeOffset : Z := JetTerminateJobCodecRequestJobIdOffset + LongSizeInBytes.
Definition JetTerminateJobCodecRequestLightJobCoordinatorOffset : Z := JetTerminateJobCodecRequestTerminateModeOffset + IntSizeInBytes.
Definition JetTerminateJobCodecRequestInitialFrameSize : Z := JetTerminateJobCodecRequestLightJobCoordinatorOffset + UuidSizeInBytes.

Definition EncodeJetTerminateJobRequest (job : JetTerminateJob) : res ClientMessage :=
  let clientMessage := SetRetryable NewClientMessageForEncode false in
  (let initialFrame := NewFrameWith (make_bytes JetTerminateJobCodecRequestInitialFrameSize) UnfragmentedMessage in
   & initialFrame <<= (fun buf => EncodeLong buf JetTerminateJobCodecRequestJobIdOffset (JetTerminateJob_JobId job)) ;;
   & initialFrame <<= (fun buf => EncodeInt buf JetTerminateJobCodecRequestTerminateModeOffset (JetTerminateJob_TerminateMode job)) ;;
   & initialFrame <<= (fun buf => EncodeUUID buf JetTerminateJobCodecRequestLightJobCoordinatorOffset (JetTerminateJob_LightJobCoordinator job)) ;;
   enc_frame initialFrame >>>
   enc_message_type JetTerminateJobCodecRequestMessageType >>>
   enc_partition_id (-1)) clientMessage.

(** ** jet_resume_job_codec.go *)

Definition JetResumeJobCodecRequestMessageType : Z := 0xFE0900.
Definition JetResumeJobCodecResponseMessageType : Z := 0xFE0901.
Definition JetResumeJobCodecRequestJobIdOffset : Z := PartitionIDOffset + IntSizeInBytes.
Definition JetResumeJobCodecRequestInitialFrameSize : Z := JetResumeJobCodecRequestJobIdOffset + LongSizeInBytes.

Definition EncodeJetResumeJobRequest (jobId : Z) : res ClientMessage :=
  let clientMessage := SetRetryable NewClientMessageForEncode false in
  (let initialFrame := NewFrameWith (make_bytes JetResumeJobCodecRequestInitialFrameSize) UnfragmentedMessage in
   & initialFrame <<= (fun buf => EncodeLong buf JetResumeJobCodecRequestJobIdOffset jobId) ;;
   enc_frame initialFrame >>>
   enc_message_type JetResumeJobCodecRequestMessageType >>>
   enc_partition_id (-1)) clientMessage.

(** ** jet_export_snapshot_codec.go *)

Definition JetExportSnapshotCodecRequestMessageType : Z := 0xFE0A00.
Definition JetExportSnapshotCodecResponseMessageType : Z := 0xFE0A01.
Definition JetExportSnapshotCodecRequestJobIdOffset : Z := PartitionIDOffset + IntSizeInBytes.
Definition JetExportSnapshotCodecRequestCancelJobOffset : Z := JetExportSnapshotCodecRequestJobIdOffset + LongSizeInBytes.
Definition JetExportSnapshotCodecRequestInitialFrameSize : Z := JetExportSnapshotCodecRequestCancelJobOffset + BooleanSizeInBytes.

Definition EncodeJetExportSnapshotRequest (jobId : Z) (name : string) (cancelJob : bool) : res ClientMessage :=
  let clientMessage := SetRetryable NewClientMessageForEncode false in
  (let initialFrame := NewFrameWith (make_bytes JetExportSnapshotCodecRequestInitialFrameSize) UnfragmentedMessage in
   & initialFrame <<= (fun buf => EncodeLong buf JetExportSnapshotCodecRequestJobIdOffset jobId) ;;
   & initialFrame <<= (fun buf => EncodeBoolean buf JetExportSnapshotCodecRequestCancelJobOffset cancelJob) ;;
   enc_frame initialFrame >>>
   enc_message_type JetExportSnapshotCodecRequestMessageType >>>
   enc_partition_id (-1) >>>
   EncodeString name) clientMessage.

(** ** jet_get_job_and_sql_summary_list_codec.go *)

Definition JetGetJobAndSqlSummaryListCodecRequestMessageType : Z := 0xFE0F00.
Definition JetGetJobAndSqlSummaryListCodecResponseMessageType : Z := 0xFE0F01.
Definition JetGetJobAndSqlSummaryListCodecRequestInitialFrameSize : Z := PartitionIDOffset + IntSizeInBytes.

Definition EncodeJetGetJobAndSqlSummaryListRequest  : res ClientMessage :=
  let clientMessage := SetRetryable NewClientMessageForEncode true in
  (let initialFrame := NewFrameWith (make_bytes JetGetJobAndSqlSummaryListCodecRequestInitialFrameSize) UnfragmentedMessage in
   enc_frame initialFrame >>>
   enc_message_type JetGetJobAndSqlSummaryListCodecRequestMessageType >>>
   enc_partition_id (-1)) clientMessage.

Definition DecodeJetGetJobAndSqlSummaryListResponse (n : nat) (clientMessage : ClientMessage) : res (list JobAndSqlSummary) :=
  run_dec n (FrameIterator clientMessage) (
  dec_next ;;;
  DecodeListMultiFrameForJobAndSqlSummary).

(** ** cache_get_codec.go *)

Definition CacheGetCodecRequestMessageType : Z := 0x130D00.
Definition CacheGetCodecResponseMessageType : Z := 0x130D01.
Definition CacheGetCodecRequestInitialFrameSize : Z := PartitionIDOffset + IntSizeInBytes.

Definition EncodeCacheGetRequest (name : string) (key : Data) (expiryPolicy : Data) : res ClientMessage :=
  let clientMessage := SetRetryable NewClientMessageForEncode true in
  (let initialFrame := NewFrameWith (make_bytes CacheGetCodecRequestInitialFrameSize) UnfragmentedMessage in
   enc_frame initialFrame >>>
   enc_message_type CacheGetCodecRequestMessageType >>>
   enc_partition_id (-1) >>>
   EncodeString name >>>
   EncodeData key >>>
   EncodeNullable (Some expiryPolicy) EncodeData) clientMessage.

Definition DecodeCacheGetResponse (n : nat) (clientMessage : ClientMessage) : res Data :=
  run_dec n (FrameIterator clientMessage) (
  dec_next ;;;
  DecodeNullableForData).

(** ** cache_get_all_codec.go *)

Definition CacheGetAllCodecRequestMessageType : Z := 0x130900.
Definition CacheGetAllCodecResponseMessageType : Z := 0x130901.
Definition CacheGetAllCodecRequestInitialFrameSize : Z := PartitionIDOffset + IntSizeInBytes.

Definition EncodeCacheGetAllRequest (name : string) (keys : list Data) (expiryPolicy : Data) : res ClientMessage :=
  let clientMessage := SetRetryable NewClientMessageForEncode false in
  (let initialFrame := NewFrameWith (make_bytes CacheGetAllCodecRequestInitialFrameSize) UnfragmentedMessage in
   enc_frame initialFrame >>>
   enc_message_type CacheGetAllCodecRequestMessageType >>>
   enc_partition_id (-1) >>>
   EncodeString name >>>
   EncodeListMultiFrameForData keys >>>
   EncodeNullable (Some expiryPolicy) EncodeData) clientMessage.

Definition DecodeCacheGetAllResponse (n : nat) (clientMessage : ClientMessage) : res (list (Data * Data)) :=
  run_dec n (FrameIterator clientMessage) (
  dec_next ;;;
  DecodeEntryListForDataAndData).

(** ** cache_put_codec.go *)

Definition CachePutCodecRequestMessageType : Z := 0x131300.
Definition CachePutCodecResponseMessageType : Z := 0x131301.
Definition CachePutCodecRequestGetOffset : Z := PartitionIDOffset + IntSizeInBytes.
Definition CachePutCodecRequestCompletionIdOffset : Z := CachePutCodecRequestGetOffset + BooleanSizeInBytes.
Definition CachePutCodecRequestInitialFrameSize : Z := CachePutCodecRequestCompletionIdOffset + IntSizeInBytes.

Definition EncodeCachePutRequest (name : string) (key : Data) (value : Data) (expiryPolicy : Data) (get : bool) (completionId : Z) : res ClientMessage :=
  let clientMessage := SetRetryable NewClientMessageForEncode false in
  (let initialFrame := NewFrameWith (make_bytes CachePutCodecRequestInitialFrameSize) UnfragmentedMessage in
   & initialFrame <<= (fun buf => EncodeBoolean buf CachePutCodecRequestGetOffset get) ;;
   & initialFrame <<= (fun buf => EncodeInt buf CachePutCodecRequestCompletionIdOffset completionId) ;;
   enc_frame initialFrame >>>
   enc_message_type CachePutCodecRequestMessageType >>>
   enc_partition_id (1) >>>
   EncodeString name >>>
   EncodeData key >>>
   EncodeData value >>>
   EncodeNullable (Some expiryPolicy) EncodeData) clientMessage.

Definition DecodeCachePutResponse (n : nat) (clientMessage : ClientMessage) : res Data :=
  run_dec n (FrameIterator clientMessage) (
  dec_next ;;;
  DecodeNullableForData).

(** ** cache_put_all_codec.go *)

Definition CachePutAllCodecRequestMessageType : Z := 0x131B00.
Definition CachePutAllCodecResponseMessageType : Z := 0x131B01.
Definition CachePutAllCodecRequestCompletionIdOffset : Z := PartitionIDOffset + IntSizeInBytes.
Definition CachePutAllCodecRequestInitialFrameSize : Z := CachePutAllCodecRequestCompletionIdOffset + IntSizeInBytes.

Definition EncodeCachePutAllRequest (name : string) (entries : list (Data * Data)) (expiryPolicy : Data) (completionId : Z) : res ClientMessage :=
  let clientMessage := SetRetryable NewClientMessageForEncode false in
  (let initialFrame := NewFrameWith (make_bytes CachePutAllCodecRequestInitialFrameSize) UnfragmentedMessage in
   & initialFrame <<= (fun buf => EncodeInt buf CachePutAllCodecRequestCompletionIdOffset completionId) ;;
   enc_frame initialFrame >>>
   enc_message_type CachePutAllCodecRequestMessageType >>>
   enc_partition_id (-1) >>>
   EncodeString name >>>
   EncodeEntryListForDataAndData entries >>>
   EncodeNullable (Some expiryPolicy) EncodeData) clientMessage.

(** ** cache_create_config_codec.go *)

Definition CacheCreateConfigCodecRequestMessageType : Z := 0x130600.
Definition CacheCreateConfigCodecResponseMessageType : Z := 0x130601.
Definition CacheCreateConfigCodecRequestCreateAlsoOnOthersOffset : Z := PartitionIDOffset + IntSizeInBytes.
Definition CacheCreateConfigCodecRequestInitialFrameSize : Z := CacheCreateConfigCodecRequestCreateAlsoOnOthersOffset + BooleanSizeInBytes.

Definition EncodeCacheCreateConfigRequest (cacheConfig : CacheConfigHolder) (createAlsoOnOthers : bool) : res ClientMessage :=
  let clientMessage := SetRetryable NewClientMessageForEncode true in
  (let initialFrame := NewFrameWith (make_bytes CacheCreateConfigCodecRequestInitialFrameSize) UnfragmentedMessage in
   & initialFrame <<= (fun buf => EncodeBoolean buf CacheCreateConfigCodecRequestCreateAlsoOnOthersOffset createAlsoOnOthers) ;;
   enc_frame initialFrame >>>
   enc_message_type CacheCreateConfigCodecRequestMessageType >>>
   enc_partition_id (-1) >>>
   EncodeCacheConfigHolder cacheConfig) clientMessage.

Definition DecodeCacheCreateConfigResponse (n : nat) (clientMessage : ClientMessage) : res CacheConfigHolder :=
  run_dec n (FrameIterator clientMessage) (
  dec_next ;;;
  DecodeCacheConfigHolder).

(** ** cache_get_config_codec.go *)

Definition CacheGetConfigCodecRequestMessageType : Z := 0x130C00.
Definition CacheGetConfigCodecResponseMessageType : Z := 0x130C01.
Definition CacheGetConfigCodecRequestInitialFrameSize : Z := PartitionIDOffset + IntSizeInBytes.

Definition EncodeCacheGetConfigRequest (name : string) (simpleName : string) : res ClientMessage :=
  let clientMessage := SetRetryable NewClientMessageForEncode true in
  (let initialFrame := NewFrameWith (make_bytes CacheGetConfigCodecRequestInitialFrameSize) UnfragmentedMessage in
   enc_frame initialFrame >>>
   enc_message_type CacheGetConfigCodecRequestMessageType >>>
   enc_partition_id (-1) >>>
   EncodeString name >>>
   EncodeString simpleName) clientMessage.

Definition DecodeCacheGetConfigResponse (n : nat) (clientMessage : ClientMessage) : res CacheConfigHolder :=
  run_dec n (FrameIterator clientMessage) (
  dec_next ;;;
  DecodeNullableForCacheConfigHolder).

(** ** cp_group_create_cp_group_codec.go *)

Definition CPGroupCreateCPGroupCodecRequestMessageType : Z := 0x1E0100.
Definition CPGroupCreateCPGroupCodecResponseMessageType : Z := 0x1E0101.
Definition CPGroupCreateCPGroupCodecRequestInitialFrameSize : Z := PartitionIDOffset + IntSizeInBytes.

Definition EncodeCPGroupCreateCPGroupRequest (proxyName : string) : res ClientMessage :=
  let clientMessage := SetRetryable NewClientMessageForEncode true in
  (let initialFrame := NewFrameWith (make_bytes CPGroupCreateCPGroupCodecRequestInitialFrameSize) UnfragmentedMessage in
   enc_frame initialFrame >>>
   enc_message_type CPGroupCreateCPGroupCodecRequestMessageType >>>
   enc_partition_id (-1) >>>
   EncodeString proxyName) clientMessage.

Definition DecodeCPGroupCreateCPGroupResponse (n : nat) (clientMessage : ClientMessage) : res RaftGroupId :=
  run_dec n (FrameIterator clientMessage) (
  dec_next ;;;
  DecodeRaftGroupId).

(** ** cp_group_destroy_cp_object_codec.go *)

Definition CPGroupDestroyCPObjectCodecRequestMessageType : Z := 0x1E0200.
Definition CPGroupDestroyCPObjectCodecResponseMessageType : Z := 0x1E0201.
Definition CPGroupDestroyCPObjectCodecRequestInitialFrameSize : Z := PartitionIDOffset + IntSizeInBytes.

Definition EncodeCPGroupDestroyCPObjectRequest (groupId : RaftGroupId) (serviceName : string) (objectName : string) : res ClientMessage :=
  let clientMessage := SetRetryable NewClientMessageForEncode true in
  (let initialFrame := NewFrameWith (make_bytes CPGroupDestroyCPObjectCodecRequestInitialFrameSize) UnfragmentedMessage in
   enc_frame initialFrame >>>
   enc_message_type CPGroupDestroyCPObjectCodecRequestMessageType >>>
   enc_partition_id (-1) >>>
   EncodeRaftGroupId groupId >>>
   EncodeString serviceName >>>
   EncodeString objectName) clientMessage.

(** ** cp_map_get_codec.go *)

Definition CPMapGetCodecRequestMessageType : Z := 0x230100.
Definition CPMapGetCodecResponseMessageType : Z := 0x230101.
Definition CPMapGetCodecRequestInitialFrameSize : Z := PartitionIDOffset + IntSizeInBytes.

Definition EncodeCPMapGetRequest (groupId : RaftGroupId) (name : string) (key : Data) : res ClientMessage :=
  let clientMessage := SetRetryable NewClientMessageForEncode false in
  (let initialFrame := NewFrameWith (make_bytes CPMapGetCodecRequestInitialFrameSize) UnfragmentedMessage in
   enc_frame initialFrame >>>
   enc_message_type CPMapGetCodecRequestMessageType >>>
   enc_partition_id (-1) >>>
   EncodeRaftGroupId groupId >>>
   EncodeString name >>>
   EncodeData key) clientMessage.

Definition DecodeCPMapGetResponse (n : nat) (clientMessage : ClientMessage) : res Data :=
  run_dec n (FrameIterator clientMessage) (
  dec_next ;;;
  DecodeNullableForData).

(** ** cp_map_put_codec.go *)

Definition CPMapPutCodecRequestMessageType : Z := 0x230200.
Definition CPMapPutCodecResponseMessageType : Z := 0x230201.
Definition CPMapPutCodecRequestInitialFrameSize : Z := PartitionIDOffset + IntSizeInBytes.

Definition EncodeCPMapPutRequest (groupId : RaftGroupId) (name : string) (key : Data) (value : Data) : res ClientMessage :=
  let clientMessage := SetRetryable NewClientMessageForEncode false in
  (let initialFrame := NewFrameWith (make_bytes CPMapPutCodecRequestInitialFrameSize) UnfragmentedMessage in
   enc_frame initialFrame >>>
   enc_message_type CPMapPutCodecRequestMessageType >>>
   enc_partition_id (-1) >>>
   EncodeRaftGroupId groupId >>>
   EncodeString name >>>
   EncodeData key >>>
   EncodeData value) clientMessage.

Definition DecodeCPMapPutResponse (n : nat) (clientMessage : ClientMessage) : res Data :=
  run_dec n (FrameIterator clientMessage) (
  dec_next ;;;
  DecodeNullableForData).

(** ** cp_map_set_codec.go *)

Definition CPMapSetCodecRequestMessageType : Z := 0x230300.
Definition CPMapSetCodecResponseMessageType : Z := 0x230301.
Definition CPMapSetCodecRequestInitialFrameSize : Z := PartitionIDOffset + IntSizeInBytes.

Definition EncodeCPMapSetRequest (groupId : RaftGroupId) (name : string) (key : Data) (value : Data) : res ClientMessage :=
  let clientMessage := SetRetryable NewClientMessageForEncode false in
  (let initialFrame := NewFrameWith (make_bytes CPMapSetCodecRequestInitialFrameSize) UnfragmentedMessage in
   enc_frame initialFrame >>>
   enc_message_type CPMapSetCodecRequestMessageType >>>
   enc_partition_id (-1) >>>
   EncodeRaftGroupId groupId >>>
   EncodeString name >>>
   EncodeData key >>>
   EncodeData value) clientMessage.

Definition DecodeCPMapSetResponse (n : nat) (clientMessage : ClientMessage) : res Data :=
  run_dec n (FrameIterator clientMessage) (
  dec_next ;;;
  DecodeNullableForData).

(** ** cp_map_delete_codec.go *)

Definition CPMapDeleteCodecRequestMessageType : Z := 0x230500.
Definition CPMapDeleteCodecResponseMessageType : Z := 0x230501.
Definition CPMapDeleteCodecRequestInitialFrameSize : Z := PartitionIDOffset + IntSizeInBytes.

Definition EncodeCPMapDeleteRequest (groupId : RaftGroupId) (name : string) (key : Data) : res ClientMessage :=
  let clientMessage := SetRetryable NewClientMessageForEncode false in
  (let initialFrame := NewFrameWith (make_bytes CPMapDeleteCodecRequestInitialFrameSize) UnfragmentedMessage in
   enc_frame initialFrame >>>
   enc_message_type CPMapDeleteCodecRequestMessageType >>>
   enc_partition_id (-1) >>>
   EncodeRaftGroupId groupId >>>
   EncodeString name >>>
   EncodeData key) clientMessage.

Definition DecodeCPMapDeleteResponse (n : nat) (clientMessage : ClientMessage) : res Data :=
  run_dec n (FrameIterator clientMessage) (
  dec_next ;;;
  DecodeNullableForData).

(** ** cp_map_remove_codec.go *)

Definition CPMapRemoveCodecRequestMessageType : Z := 0x230400.
Definition CPMapRemoveCodecResponseMessageType : Z := 0x230401.
Definition CPMapRemoveCodecRequestInitialFrameSize : Z := PartitionIDOffset + IntSizeInBytes.

Definition EncodeCPMapRemoveRequest (groupId : RaftGroupId) (name : string) (key : Data) : res ClientMessage :=
  let clientMessage := SetRetryable NewClientMessageForEncode false in
  (let initialFrame := NewFrameWith (make_bytes CPMapRemoveCodecRequestInitialFrameSize) UnfragmentedMessage in
   enc_frame initialFrame >>>
   enc_message_type CPMapRemoveCodecRequestMessageType >>>
   enc_partition_id (-1) >>>
   EncodeRaftGroupId groupId >>>
   EncodeString name >>>
   EncodeData key) clientMessage.

Definition DecodeCPMapRemoveResponse (n : nat) (clientMessage : ClientMessage) : res Data :=
  run_dec n (FrameIterator clientMessage) (
  dec_next ;;;
  DecodeNullableForData).

(** ** cp_map_compare_and_set_codec.go *)

Definition CPMapCompareAndSetCodecRequestMessageType : Z := 0x230600.
Definition CPMapCompareAndSetCodecResponseMessageType : Z := 0x230601.
Definition CPMapCompareAndSetCodecRequestInitialFrameSize : Z := PartitionIDOffset + IntSizeInBytes.
Definition CPMapCompareAndSetResponseResponseOffset : Z := ResponseBackupAcksOffset + ByteSizeInBytes.

Definition EncodeCPMapCompareAndSetRequest (groupId : RaftGroupId) (name : string) (key : Data) (expectedValue : Data) (newValue : Data) : res ClientMessage :=
  let clientMessage := SetRetryable NewClientMessageForEncode false in
  (let initialFrame := NewFrameWith (make_bytes CPMapCompareAndSetCodecRequestInitialFrameSize) UnfragmentedMessage in
   enc_frame initialFrame >>>
   enc_message_type CPMapCompareAndSetCodecRequestMessageType >>>
   enc_partition_id (-1) >>>
   EncodeRaftGroupId groupId >>>
   EncodeString name >>>
   EncodeData key >>>
   EncodeData expectedValue >>>
   EncodeData newValue) clientMessage.

Definition DecodeCPMapCompareAndSetResponse (n : nat) (clientMessage : ClientMessage) : res bool :=
  run_dec n (FrameIterator clientMessage) (
  initialFrame <~ dec_frame ;;
  dec_lift (DecodeBoolean (Content initialFrame) CPMapCompareAndSetResponseResponseOffset)).

(** ** client_authentication_codec.go *)

Definition ClientAuthenticationCodecRequestMessageType : Z := 256.
Definition ClientAuthenticationCodecResponseMessageType : Z := 257.
Definition ClientAuthenticationCodecRequestUuidOffset : Z := PartitionIDOffset + IntSizeInBytes.
Definition ClientAuthenticationCodecRequestSerializationVersionOffset : Z := ClientAuthenticationCodecRequestUuidOffset + UuidSizeInBytes.
Definition ClientAuthenticationCodecRequestInitialFrameSize : Z := ClientAuthenticationCodecRequestSerializationVersionOffset + ByteSizeInBytes.
Definition ClientAuthenticationResponseStatusOffset : Z := ResponseBackupAcksOffset + ByteSizeInBytes.
Definition ClientAuthenticationResponseMemberUuidOffset : Z := ClientAuthenticationResponseStatusOffset + ByteSizeInBytes.
Definition ClientAuthenticationResponseSerializationVersionOffset : Z := ClientAuthenticationResponseMemberUuidOffset + UuidSizeInBytes.
Definition ClientAuthenticationResponsePartitionCountOffset : Z := ClientAuthenticationResponseSerializationVersionOffset + ByteSizeInBytes.
Definition ClientAuthenticationResponseClusterIdOffset : Z := ClientAuthenticationResponsePartitionCountOffset + IntSizeInBytes.
Definition ClientAuthenticationResponseFailoverSupportedOffset : Z := ClientAuthenticationResponseClusterIdOffset + UuidSizeInBytes.

Definition EncodeClientAuthenticationRequest (clusterName : string) (username : string) (password : string) (uuid : UUID) (clientType : string) (serializationVersion : byte) (clientHazelcastVersion : string) (clientName : string) (labels : list string) : res ClientMessage :=
  let clientMessage := SetRetryable NewClientMessageForEncode true in
  (let initialFrame := NewFrameWith (make_bytes ClientAuthenticationCodecRequestInitialFrameSize) UnfragmentedMessage in
   & initialFrame <<= (fun buf => FixSizedTypesCodec_EncodeUUID buf ClientAuthenticationCodecRequestUuidOffset uuid) ;;
   & initialFrame <<= (fun buf => FixSizedTypesCodec_EncodeByte buf ClientAuthenticationCodecRequestSerializationVersionOffset serializationVersion) ;;
   enc_frame initialFrame >>>
   enc_message_type ClientAuthenticationCodecRequestMessageType >>>
   enc_partition_id (-1) >>>
   EncodeString clusterName >>>
   CodecUtil_EncodeNullableForString username >>>
   CodecUtil_EncodeNullableForString password >>>
   EncodeString clientType >>>
   EncodeString clientHazelcastVersion >>>
   EncodeString clientName >>>
   EncodeListMultiFrameForString labels) clientMessage.

Record AuthenticationResponse := mkAuthenticationResponse {
  auth_status : byte;
  auth_address : option Address;
  auth_memberUuid : UUID;
  auth_serializationVersion : byte;
  auth_serverHazelcastVersion : string;
  auth_partitionCount : Z;
  auth_clusterId : UUID;
  auth_failoverSupported : bool;
}.

Definition DecodeClientAuthenticationResponse (n : nat) (clientMessage : ClientMessage) : res AuthenticationResponse :=
  run_dec n (FrameIterator clientMessage) (
  initialFrame <~ dec_frame ;;
  status <~ dec_lift (FixSizedTypesCodec_DecodeByte (Content initialFrame) ClientAuthenticationResponseStatusOffset) ;;
  memberUuid <~ dec_lift (FixSizedTypesCodec_DecodeUUID (Content initialFrame) ClientAuthenticationResponseMemberUuidOffset) ;;
  serializationVersion <~ dec_lift (FixSizedTypesCodec_DecodeByte (Content initialFrame) ClientAuthenticationResponseSerializationVersionOffset) ;;
  partitionCount <~ dec_lift (FixSizedTypesCodec_DecodeInt (Content initialFrame) ClientAuthenticationResponsePartitionCountOffset) ;;
  clusterId <~ dec_lift (FixSizedTypesCodec_DecodeUUID (Content initialFrame) ClientAuthenticationResponseClusterIdOffset) ;;
  failoverSupported <~ dec_lift (FixSizedTypesCodec_DecodeBoolean (Content initialFrame) ClientAuthenticationResponseFailoverSupportedOffset) ;;
  address <~ CodecUtil_DecodeNullableForAddress ;;
  serverHazelcastVersion <~ DecodeString ;;
  dec_ret (mkAuthenticationResponse status address memberUuid serializationVersion
             serverHazelcastVersion partitionCount clusterId failoverSupported)).

End Requests.
