(* ===== verification/CodecTransmit.v ===== *)
(** * Whole messages: what the receiver of a request reads

    [Transmits r d v]: the request built by [r] exists (no panic), and a
    receiver running [d] on it reads [v] and consumes every frame.  The rules
    take an encoder of a request apart: writes into the initial frame, the
    header setters, then field after field. *)

From S2P Require Import Prelude Proto CodecBuiltin CodecWire CodecFacts CodecRequests.

#[local] Open Scope go_scope.

Section Transmit.
Context `{P : Proto} `{!ProtoLaws P}.

Definition Transmits {A} (r : res ClientMessage) (d : Dec A) (v : A) : Prop :=
  exists m, r = Ret m /\ forall n, (length (frames m) < n)%nat ->
    exists it', d n (FrameIterator m) = Ret (v, it') /\ pending it' = [].

(** The fields behind the initial frame. *)
Definition Tail {A} (e : Enc) (d : Dec A) (v : A) : Prop :=
  exists fs, Emits e fs /\ Parses d fs v.

Lemma tail_field {A B} e1 (d1 : Dec A) a e2 (k : A -> Dec B) v :
  Wire e1 d1 a -> Tail e2 (k a) v -> Tail (e1 >>> e2) (dec_bind d1 k) v.
Proof.
  intros (f & gs & _ & _ & He1 & Hp1) (fs & He & Hp). exists ((f :: gs) ++ fs).
  split; [by apply emits_seq|by eapply parses_bind].
Qed.

Lemma tail_last {A B} e (d : Dec A) a (k : A -> Dec B) v :
  Wire e d a -> Tail enc_nop (k a) v -> Tail e (dec_bind d k) v.
Proof.
  intros (f & gs & _ & _ & He1 & Hp1) (fs & He & Hp). exists ((f :: gs) ++ fs).
  split; [|by eapply parses_bind].
  intros m. destruct (He1 m) as (m1 & E1 & F1), (He m1) as (m2 & E2 & F2).
  injection E2 as <-. exists m1. split; [done|]. rewrite F2 in F1. rewrite F2, F1.
  apply (f_equal length) in F2. rewrite length_app in F2.
  assert (fs = []) as -> by (destruct fs; [done|simpl in *; lia]). by rewrite !app_nil_r.
Qed.

Lemma tail_lift {A B} e (r : res A) a (k : A -> Dec B) v :
  r = Ret a -> Tail e (k a) v -> Tail e (dec_bind (dec_lift r) k) v.
Proof.
  intros Hr (fs & He & Hp). exists fs. split; [done|].
  by apply (parses_bind _ _ [] _ a); [apply parses_lift|].
Qed.

Lemma tail_ret {A} (v : A) : Tail enc_nop (dec_ret v) v.
Proof. exists []. split; [apply emits_nop|apply parses_ret]. Qed.

Section Initial.
Context {A : Type} (b : bool) (f : Frame) (size cur : Z) (fields : list (Z * list byte)).
Context (t p : Z) (k : Frame -> Dec A) (v : A).
Hypothesis Hf : filled (Content f) header_size size cur fields.

Lemma header_frames m : frames m = [] ->
  exists f', filled (Content f') header_size size cur fields /\
    frames (SetPartitionId (SetMessageType (AddFrame m f) t) p) = [f'].
Proof.
  intros Hm. destruct (frames_SetMessageType (AddFrame m f) t f []) as (f1 & E1 & L1 & S1).
  { by rewrite frames_AddFrame, Hm. }
  destruct (frames_SetPartitionId (SetMessageType (AddFrame m f) t) p f1 [])
    as (f2 & E2 & L2 & S2); [done|].
  exists f2. split; [|done]. eapply filled_same; [eapply filled_same; [exact Hf|..]|..]; done.
Qed.

Lemma transmits_initial e :
  (forall f', filled (Content f') header_size size cur fields -> Tail e (k f') v) ->
  Transmits ((enc_frame f >>> enc_message_type t >>> enc_partition_id p >>> e)
               (SetRetryable NewClientMessageForEncode b)) (dec_bind dec_frame k) v.
Proof.
  intros Hk. destruct (header_frames (SetRetryable NewClientMessageForEncode b))
    as (f' & Hf' & E); [by rewrite frames_SetRetryable, frames_New|].
  destruct (Hk f' Hf') as (fs & He & Hp).
  destruct (He (SetPartitionId (SetMessageType
    (AddFrame (SetRetryable NewClientMessageForEncode b) f) t) p)) as (m & Em & Fm).
  exists m. split; [done|]. intros n Hn. rewrite E in Fm. simpl in Fm.
  apply (parses_bind dec_frame k [f'] fs f' v (parses_frame f') Hp n _ []).
  - by rewrite pending_FrameIterator, app_nil_r.
  - by rewrite Fm in Hn.
Qed.

Lemma transmits_initial_only :
  (forall f', filled (Content f') header_size size cur fields -> Tail enc_nop (k f') v) ->
  Transmits ((enc_frame f >>> enc_message_type t >>> enc_partition_id p)
               (SetRetryable NewClientMessageForEncode b)) (dec_bind dec_frame k) v.
Proof. apply (transmits_initial enc_nop). Qed.

End Initial.

(** ** Receivers of fields the repository only sends *)

Definition read_nullable {A} (zero : A) (d : Dec A) : Dec A :=
  isNull <~ NextFrameIsNullFrame ;; if isNull : bool then dec_ret zero else d.

Definition read_nullable_list {A} (d : Dec A) : Dec (option (list A)) :=
  isNull <~ NextFrameIsNullFrame ;;
  if isNull : bool then dec_ret None else (l <~ DecodeListMultiFrame d ;; dec_ret (Some l)).

Definition read_bytes : Dec (list byte) := f <~ dec_frame ;; dec_ret (Content f).

(** What a nullable structure is read back as: zero values travel as null. *)
Definition norm_nullable {A} `{!EqDecision A} (zero : A) (norm : A -> A) (v : A) : A :=
  if decide (v = zero) then zero else norm v.

Lemma wire_read_nullable {A} `{!EqDecision A} (zero : A) (enc : A -> Enc) (d : Dec A) norm v :
  StructWire (enc v) d (norm v) ->
  Wire (if decide (v = zero) then enc_frame (Copy NullFrame) else enc v)
    (read_nullable zero d) (norm_nullable zero norm v).
Proof.
  intros H. unfold norm_nullable. case_decide; [apply wire_null|].
  by apply wire_not_null, StructWire_NN.
Qed.

Lemma wire_read_nullable_id {A} `{!EqDecision A} (zero : A) (enc : A -> Enc) (d : Dec A) v :
  StructWire (enc v) d v ->
  Wire (if decide (v = zero) then enc_frame (Copy NullFrame) else enc v) (read_nullable zero d) v.
Proof. apply wire_nullable_struct. Qed.

Lemma wire_read_nullable_list {A} (enc : A -> Enc) (d : Dec A) (ok : A -> Prop) (norm : A -> A) vs :
  (forall a, ok a -> StructWire (enc a) d (norm a)) -> Forall ok (default [] vs) ->
  Wire (match vs with None => enc_frame (Copy NullFrame) | Some l => EncodeListMultiFrame enc l end)
    (read_nullable_list d) (map norm <$> vs).
Proof.
  intros H Hok. apply wire_nullable_list. intros l ->. apply wire_list.
  eapply Forall_impl; [exact Hok|]. intros a Ha. by apply WireNN_Wire, StructWire_NN, H.
Qed.

Lemma wire_read_bytes c : WireNN (EncodeByteArray c) read_bytes c.
Proof.
  apply wireNN_one. eapply (parses_bind _ _ [_] []); [apply parses_frame|].
  rewrite Content_NewFrame. apply parses_ret.
Qed.

Lemma wire_read_nullable_bytes c : Wire (EncodeNullableForByteArray c) (read_nullable [] read_bytes) c.
Proof.
  unfold EncodeNullableForByteArray. case_decide as E.
  - destruct c; [apply wire_null|]. done.
  - apply wire_not_null, wire_read_bytes.
Qed.

(** Data read by the receiver: nil travels as null, empty data does not. *)
Definition read_nullable_data : Dec Data :=
  isNull <~ NextFrameIsNullFrame ;;
  if isNull : bool then dec_ret None else (c <~ read_bytes ;; dec_ret (Some c)).

Lemma wire_read_nullable_data d : Wire (EncodeNullableData d) read_nullable_data d.
Proof.
  destruct d as [c|]; [|apply wire_null].
  apply wire_not_null, (wireNN_map _ _ _ Some). simpl. rewrite ToByteArray_law. apply wire_read_bytes.
Qed.

Lemma wire_null_frame : Wire (enc_frame (Copy NullFrame)) dec_next (Some (Copy NullFrame)).
Proof. apply wire_one; [apply Null_begin|apply Null_end|apply parses_next]. Qed.

End Transmit.

#[export] Hint Resolve wire_read_bytes wire_read_nullable_bytes wire_read_nullable_data
  wire_null_frame : wire.

Ltac transmit_step :=
  lazymatch goal with
  | |- Transmits ((enc_with ?r ?k) ?m) ?d ?v =>
      put_step (fun e : Enc => Transmits (e m) d v) (enc_with r k)
  | |- Transmits ((enc_frame _ >>> _) _)%go (dec_bind dec_frame _) _ =>
      first [eapply transmits_initial_only | eapply transmits_initial];
      [first [eassumption | apply filled_NewFrameWith; proto_lia]|intros ?f ?Hf]
  | |- Tail _ (dec_bind (dec_lift _) _) _ => eapply tail_lift; [read_field|]
  | |- Tail (_ >>> _)%go (dec_bind _ _) _ => eapply tail_field; [wire_field|]
  | |- Tail enc_nop (dec_ret _) _ => apply tail_ret
  | |- Tail _ (dec_bind _ _) _ => eapply tail_last; [wire_field|]
  end.

Ltac transmits := cbv zeta; repeat transmit_step.
