(* ===== verification/CodecRequestFacts.v ===== *)
(** * What the members receive

    For every request the operator sends with a payload, [ReadXRequest] is the
    member's side of the protocol definition: it reads the same fields in the
    order and at the offsets the protocol gives them, consuming the whole
    message.  [XRequest_norm] says what the member ends up with: every field of
    the input, blank nullable strings as empty strings, zero structures as
    null. *)

From S2P Require Import Prelude Proto CodecBuiltin CodecWire CodecFacts CodecTypes CodecConfig CodecConfigFacts CodecExtra CodecRequests CodecTransmit.

#[local] Open Scope go_scope.
#[local] Open Scope string_scope.
#[local] Open Scope list_scope.
#[local] Open Scope Z_scope.

#[export] Hint Unfold ResourceDefinitionTypeFieldOffset
  DynamicConfigAddMapConfigCodecRequestBackupCountOffset
  DynamicConfigAddMapConfigCodecRequestAsyncBackupCountOffset
  DynamicConfigAddMapConfigCodecRequestTimeToLiveSecondsOffset
  DynamicConfigAddMapConfigCodecRequestMaxIdleSecondsOffset
  DynamicConfigAddMapConfigCodecRequestReadBackupDataOffset
  DynamicConfigAddMapConfigCodecRequestMergeBatchSizeOffset
  DynamicConfigAddMapConfigCodecRequestStatisticsEnabledOffset
  DynamicConfigAddMapConfigCodecRequestMetadataPolicyOffset
  DynamicConfigAddMapConfigCodecRequestPerEntryStatsEnabledOffset
  DynamicConfigAddMapConfigCodecRequestInitialFrameSize
  DynamicConfigAddCacheConfigCodecRequestStatisticsEnabledOffset
  DynamicConfigAddCacheConfigCodecRequestManagementEnabledOffset
  DynamicConfigAddCacheConfigCodecRequestReadThroughOffset
  DynamicConfigAddCacheConfigCodecRequestWriteThroughOffset
  DynamicConfigAddCacheConfigCodecRequestBackupCountOffset
  DynamicConfigAddCacheConfigCodecRequestAsyncBackupCountOffset
  DynamicConfigAddCacheConfigCodecRequestMergeBatchSizeOffset
  DynamicConfigAddCacheConfigCodecRequestDisablePerEntryInvalidationEventsOffset
  DynamicConfigAddCacheConfigCodecRequestInitialFrameSize
  DynamicConfigAddMultiMapConfigCodecRequestBinaryOffset
  DynamicConfigAddMultiMapConfigCodecRequestBackupCountOffset
  DynamicConfigAddMultiMapConfigCodecRequestAsyncBackupCountOffset
  DynamicConfigAddMultiMapConfigCodecRequestStatisticsEnabledOffset
  DynamicConfigAddMultiMapConfigCodecRequestMergeBatchSizeOffset
  DynamicConfigAddMultiMapConfigCodecRequestInitialFrameSize
  DynamicConfigAddTopicConfigCodecRequestGlobalOrderingEnabledOffset
  DynamicConfigAddTopicConfigCodecRequestStatisticsEnabledOffset
  DynamicConfigAddTopicConfigCodecRequestMultiThreadingEnabledOffset
  DynamicConfigAddTopicConfigCodecRequestInitialFrameSize
  DynamicConfigAddReplicatedMapConfigCodecRequestAsyncFillupOffset
  DynamicConfigAddReplicatedMapConfigCodecRequestStatisticsEnabledOffset
  DynamicConfigAddReplicatedMapConfigCodecRequestMergeBatchSizeOffset
  DynamicConfigAddReplicatedMapConfigCodecRequestInitialFrameSize
  DynamicConfigAddQueueConfigCodecRequestBackupCountOffset
  DynamicConfigAddQueueConfigCodecRequestAsyncBackupCountOffset
  DynamicConfigAddQueueConfigCodecRequestMaxSizeOffset
  DynamicConfigAddQueueConfigCodecRequestEmptyQueueTtlOffset
  DynamicConfigAddQueueConfigCodecRequestStatisticsEnabledOffset
  DynamicConfigAddQueueConfigCodecRequestMergeBatchSizeOffset
  DynamicConfigAddQueueConfigCodecRequestInitialFrameSize
  DynamicConfigAddExecutorConfigCodecRequestPoolSizeOffset
  DynamicConfigAddExecutorConfigCodecRequestQueueCapacityOffset
  DynamicConfigAddExecutorConfigCodecRequestStatisticsEnabledOffset
  DynamicConfigAddExecutorConfigCodecRequestInitialFrameSize
  DynamicConfigAddDurableExecutorConfigCodecRequestPoolSizeOffset
  DynamicConfigAddDurableExecutorConfigCodecRequestDurabilityOffset
  DynamicConfigAddDurableExecutorConfigCodecRequestCapacityOffset
  DynamicConfigAddDurableExecutorConfigCodecRequestStatisticsEnabledOffset
  DynamicConfigAddDurableExecutorConfigCodecRequestInitialFrameSize
  DynamicConfigAddScheduledExecutorConfigCodecRequestPoolSizeOffset
  DynamicConfigAddScheduledExecutorConfigCodecRequestDurabilityOffset
  DynamicConfigAddScheduledExecutorConfigCodecRequestCapacityOffset
  DynamicConfigAddScheduledExecutorConfigCodecRequestMergeBatchSizeOffset
  DynamicConfigAddScheduledExecutorConfigCodecRequestStatisticsEnabledOffset
  DynamicConfigAddScheduledExecutorConfigCodecRequestInitialFrameSize
  DynamicConfigAddUserCodeNamespaceConfigCodecRequestInitialFrameSize
  MCUpdateMapConfigCodecRequestTimeToLiveSecondsOffset
  MCUpdateMapConfigCodecRequestMaxIdleSecondsOffset
  MCUpdateMapConfigCodecRequestEvictionPolicyOffset
  MCUpdateMapConfigCodecRequestReadBackupDataOffset
  MCUpdateMapConfigCodecRequestMaxSizeOffset
  MCUpdateMapConfigCodecRequestMaxSizePolicyOffset
  MCUpdateMapConfigCodecRequestInitialFrameSize
  MCGetMapConfigCodecRequestInitialFrameSize
  MCGetMapConfigResponseInMemoryFormatOffset
  MCGetMapConfigResponseBackupCountOffset
  MCGetMapConfigResponseAsyncBackupCountOffset
  MCGetMapConfigResponseTimeToLiveSecondsOffset
  MCGetMapConfigResponseMaxIdleSecondsOffset
  MCGetMapConfigResponseMaxSizeOffset
  MCGetMapConfigResponseMaxSizePolicyOffset
  MCGetMapConfigResponseReadBackupDataOffset
  MCGetMapConfigResponseEvictionPolicyOffset
  MCChangeClusterStateCodecRequestNewStateOffset
  MCChangeClusterStateCodecRequestInitialFrameSize
  MCGetClusterMetadataCodecRequestInitialFrameSize
  MCGetClusterMetadataResponseCurrentStateOffset
  MCGetClusterMetadataResponseClusterTimeOffset
  MCGetMemberConfigCodecRequestInitialFrameSize
  MCGetTimedMemberStateCodecRequestInitialFrameSize
  MCTriggerHotRestartBackupCodecRequestInitialFrameSize
  MCInterruptHotRestartBackupCodecRequestInitialFrameSize
  MCAddWanBatchPublisherConfigCodecRequestQueueCapacityOffset
  MCAddWanBatchPublisherConfigCodecRequestBatchSizeOffset
  MCAddWanBatchPublisherConfigCodecRequestBatchMaxDelayMillisOffset
  MCAddWanBatchPublisherConfigCodecRequestResponseTimeoutMillisOffset
  MCAddWanBatchPublisherConfigCodecRequestAckTypeOffset
  MCAddWanBatchPublisherConfigCodecRequestQueueFullBehaviorOffset
  MCAddWanBatchPublisherConfigCodecRequestConsistencyCheckStrategyOffset
  MCAddWanBatchPublisherConfigCodecRequestInitialFrameSize
  MCChangeWanReplicationStateCodecRequestNewStateOffset
  MCChangeWanReplicationStateCodecRequestInitialFrameSize
  MCClearWanQueuesCodecRequestInitialFrameSize
  MCWanSyncMapCodecRequestWanSyncTypeOffset
  MCWanSyncMapCodecRequestInitialFrameSize
  MCWanSyncMapResponseUuidOffset
  MCPollMCEventsCodecRequestInitialFrameSize
  JetUploadJobMetaDataCodecRequestSessionIdOffset
  JetUploadJobMetaDataCodecRequestJarOnMemberOffset
  JetUploadJobMetaDataCodecRequestInitialFrameSize
  JetUploadJobMultipartCodecRequestSessionIdOffset
  JetUploadJobMultipartCodecRequestCurrentPartNumberOffset
  JetUploadJobMultipartCodecRequestTotalPartNumberOffset
  JetUploadJobMultipartCodecRequestPartSizeOffset
  JetUploadJobMultipartCodecRequestInitialFrameSize
  JetUploadJobMultipartResponseResponseOffset
  JetTerminateJobCodecRequestJobIdOffset
  JetTerminateJobCodecRequestTerminateModeOffset
  JetTerminateJobCodecRequestLightJobCoordinatorOffset
  JetTerminateJobCodecRequestInitialFrameSize
  JetResumeJobCodecRequestJobIdOffset
  JetResumeJobCodecRequestInitialFrameSize
  JetExportSnapshotCodecRequestJobIdOffset
  JetExportSnapshotCodecRequestCancelJobOffset
  JetExportSnapshotCodecRequestInitialFrameSize
  JetGetJobAndSqlSummaryListCodecRequestInitialFrameSize
  CacheGetCodecRequestInitialFrameSize
  CacheGetAllCodecRequestInitialFrameSize
  CachePutCodecRequestGetOffset
  CachePutCodecRequestCompletionIdOffset
  CachePutCodecRequestInitialFrameSize
  CachePutAllCodecRequestCompletionIdOffset
  CachePutAllCodecRequestInitialFrameSize
  CacheCreateConfigCodecRequestCreateAlsoOnOthersOffset
  CacheCreateConfigCodecRequestInitialFrameSize
  CacheGetConfigCodecRequestInitialFrameSize
  CPGroupCreateCPGroupCodecRequestInitialFrameSize
  CPGroupDestroyCPObjectCodecRequestInitialFrameSize
  CPMapGetCodecRequestInitialFrameSize
  CPMapPutCodecRequestInitialFrameSize
  CPMapSetCodecRequestInitialFrameSize
  CPMapDeleteCodecRequestInitialFrameSize
  CPMapRemoveCodecRequestInitialFrameSize
  CPMapCompareAndSetCodecRequestInitialFrameSize
  CPMapCompareAndSetResponseResponseOffset
  ClientAuthenticationCodecRequestUuidOffset
  ClientAuthenticationCodecRequestSerializationVersionOffset
  ClientAuthenticationCodecRequestInitialFrameSize
  ClientAuthenticationResponseStatusOffset
  ClientAuthenticationResponseMemberUuidOffset
  ClientAuthenticationResponseSerializationVersionOffset
  ClientAuthenticationResponsePartitionCountOffset
  ClientAuthenticationResponseClusterIdOffset
  ClientAuthenticationResponseFailoverSupportedOffset : offsets.

Section RequestFacts.
Context `{P : Proto} `{!ProtoLaws P} `{R : MapRange} `{E : EventJson}.

(** ** Fields *)

Definition ReadResourceDefinition : Dec ResourceDefinition :=
  dec_next ;;;
  initialFrame <~ dec_frame ;;
  resourceType <~ dec_lift (DecodeInt (Content initialFrame) ResourceDefinitionTypeFieldOffset) ;;
  id <~ DecodeString ;;
  payload <~ read_nullable [] read_bytes ;;
  url <~ DecodeNullableForString ;;
  FastForwardToEndFrame ;;;
  dec_ret (mkResourceDefinition id resourceType payload url).

Definition ResourceDefinition_norm (v : ResourceDefinition) : ResourceDefinition := {|
  ResourceDefinition_ID := ResourceDefinition_ID v;
  ResourceDefinition_ResourceType := ResourceDefinition_ResourceType v;
  ResourceDefinition_Payload := ResourceDefinition_Payload v;
  ResourceDefinition_ResourceURL := norm_string (ResourceDefinition_ResourceURL v) |}.

Lemma ResourceDefinition_wire v : ResourceDefinition_ok v ->
  StructWire (EncodeResourceDefinition v) ReadResourceDefinition (ResourceDefinition_norm v).
Proof. intros Hok; destruct v; unfold ResourceDefinition_ok in Hok; simpl in Hok. struct_wire. Qed.

Lemma ResourceDefinitions_wire vs : Forall ResourceDefinition_ok vs ->
  WireNN (EncodeListMultiFrameResourceDefinition vs) (DecodeListMultiFrame ReadResourceDefinition)
    (map ResourceDefinition_norm vs).
Proof.
  intros H. apply wire_list. eapply Forall_impl; [exact H|].
  intros v Hv. by apply WireNN_Wire, StructWire_NN, ResourceDefinition_wire.
Qed.
#[local] Hint Resolve ResourceDefinitions_wire : wire.

Lemma QueueStoreConfigHolder_read_wire v :
  Wire (EncodeNullableForQueueStoreConfigHolder v)
    (read_nullable QueueStoreConfigHolder_zero (dec_ret QueueStoreConfigHolder_zero))
    QueueStoreConfigHolder_zero.
Proof. apply wire_null. Qed.
#[local] Hint Resolve QueueStoreConfigHolder_read_wire : wire.

Lemma EvictionConfigHolder_read_wire v : EvictionConfigHolder_ok v -> Wire (EncodeNullableForEvictionConfigHolder v) (read_nullable EvictionConfigHolder_zero DecodeEvictionConfigHolder) (norm_nullable EvictionConfigHolder_zero EvictionConfigHolder_norm v).
Proof. intros. apply wire_read_nullable. auto with wire. Qed.
#[local] Hint Resolve EvictionConfigHolder_read_wire : wire.

Lemma ListenerConfigHolder_read_list_wire vs : Forall ListenerConfigHolder_ok (default [] vs) -> 
  Wire (EncodeNullableListMultiFrameForListenerConfigHolder vs) (read_nullable_list DecodeListenerConfigHolder) (map ListenerConfigHolder_norm <$> vs).
Proof. intros. apply (wire_read_nullable_list _ _ ListenerConfigHolder_ok); [|done]. intros. auto with wire. Qed.
#[local] Hint Resolve ListenerConfigHolder_read_list_wire : wire.

Lemma MapStoreConfigHolder_read_wire v : MapStoreConfigHolder_ok v -> Wire (EncodeNullableForMapStoreConfigHolder v) (read_nullable MapStoreConfigHolder_zero DecodeMapStoreConfigHolder) (norm_nullable MapStoreConfigHolder_zero MapStoreConfigHolder_norm v).
Proof. intros. apply wire_read_nullable. auto with wire. Qed.
#[local] Hint Resolve MapStoreConfigHolder_read_wire : wire.

Lemma NearCacheConfigHolder_read_wire v : NearCacheConfigHolder_ok v -> Wire (EncodeNullableForNearCacheConfigHolder v) (read_nullable NearCacheConfigHolder_zero DecodeNearCacheConfigHolder) (norm_nullable NearCacheConfigHolder_zero NearCacheConfigHolder_norm v).
Proof. intros. apply wire_read_nullable. auto with wire. Qed.
#[local] Hint Resolve NearCacheConfigHolder_read_wire : wire.

Lemma WanReplicationRef_read_wire v : Wire (EncodeNullableForWanReplicationRef v) (read_nullable WanReplicationRef_zero DecodeWanReplicationRef) v.
Proof. intros. apply wire_read_nullable_id. auto with wire. Qed.
#[local] Hint Resolve WanReplicationRef_read_wire : wire.

Lemma IndexConfig_read_list_wire vs : Forall IndexConfig_ok (default [] vs) -> 
  Wire (EncodeNullableListMultiFrameForIndexConfig vs) (read_nullable_list DecodeIndexConfig) (map IndexConfig_norm <$> vs).
Proof. intros. apply (wire_read_nullable_list _ _ IndexConfig_ok); [|done]. intros. auto with wire. Qed.
#[local] Hint Resolve IndexConfig_read_list_wire : wire.

Lemma AttributeConfig_read_list_wire vs : 
  Wire (EncodeNullableListMultiFrameForAttributeConfig vs) (read_nullable_list DecodeAttributeConfig) (map (fun v => v) <$> vs).
Proof. intros. apply (wire_read_nullable_list _ _ (fun _ => True)); [|by apply Forall_true]. intros. auto with wire. Qed.
#[local] Hint Resolve AttributeConfig_read_list_wire : wire.

Lemma QueryCacheConfigHolder_read_list_wire vs : Forall QueryCacheConfigHolder_ok (default [] vs) -> 
  Wire (EncodeNullableListMultiFrameForQueryCacheConfigHolder vs) (read_nullable_list DecodeQueryCacheConfigHolder) (map QueryCacheConfigHolder_norm <$> vs).
Proof. intros. apply (wire_read_nullable_list _ _ QueryCacheConfigHolder_ok); [|done]. intros. auto with wire. Qed.
#[local] Hint Resolve QueryCacheConfigHolder_read_list_wire : wire.

Lemma HotRestartConfig_read_wire v : Wire (EncodeNullableForHotRestartConfig v) (read_nullable HotRestartConfig_zero DecodeHotRestartConfig) v.
Proof. intros. apply wire_read_nullable_id. auto with wire. Qed.
#[local] Hint Resolve HotRestartConfig_read_wire : wire.

Lemma EventJournalConfig_read_wire v : EventJournalConfig_ok v -> Wire (EncodeNullableForEventJournalConfig v) (read_nullable EventJournalConfig_zero DecodeEventJournalConfig) v.
Proof. intros. apply wire_read_nullable_id. auto with wire. Qed.
#[local] Hint Resolve EventJournalConfig_read_wire : wire.

Lemma MerkleTreeConfig_read_wire v : MerkleTreeConfig_ok v -> Wire (EncodeNullableForMerkleTreeConfig v) (read_nullable MerkleTreeConfig_zero DecodeMerkleTreeConfig) v.
Proof. intros. apply wire_read_nullable_id. auto with wire. Qed.
#[local] Hint Resolve MerkleTreeConfig_read_wire : wire.

Lemma TimedExpiryPolicyFactoryConfig_read_wire v : TimedExpiryPolicyFactoryConfig_ok v -> Wire (EncodeNullableForEncodeTimedExpiryPolicyFactoryConfig v) (read_nullable TimedExpiryPolicyFactoryConfig_zero DecodeTimedExpiryPolicyFactoryConfig) v.
Proof. intros. apply wire_read_nullable_id. auto with wire. Qed.
#[local] Hint Resolve TimedExpiryPolicyFactoryConfig_read_wire : wire.

(** ** DynamicConfigAddMapConfig *)

Definition ReadDynamicConfigAddMapConfigRequest : Dec AddMapConfigInput :=
  initialFrame <~ dec_frame ;;
  r_BackupCount <~ dec_lift (DecodeInt (Content initialFrame) DynamicConfigAddMapConfigCodecRequestBackupCountOffset) ;;
  r_AsyncBackupCount <~ dec_lift (DecodeInt (Content initialFrame) DynamicConfigAddMapConfigCodecRequestAsyncBackupCountOffset) ;;
  r_TimeToLiveSeconds <~ dec_lift (DecodeInt (Content initialFrame) DynamicConfigAddMapConfigCodecRequestTimeToLiveSecondsOffset) ;;
  r_MaxIdleSeconds <~ dec_lift (DecodeInt (Content initialFrame) DynamicConfigAddMapConfigCodecRequestMaxIdleSecondsOffset) ;;
  r_ReadBackupData <~ dec_lift (DecodeBoolean (Content initialFrame) DynamicConfigAddMapConfigCodecRequestReadBackupDataOffset) ;;
  r_MergeBatchSize <~ dec_lift (DecodeInt (Content initialFrame) DynamicConfigAddMapConfigCodecRequestMergeBatchSizeOffset) ;;
  r_StatisticsEnabled <~ dec_lift (DecodeBoolean (Content initialFrame) DynamicConfigAddMapConfigCodecRequestStatisticsEnabledOffset) ;;
  r_MetadataPolicy <~ dec_lift (DecodeInt (Content initialFrame) DynamicConfigAddMapConfigCodecRequestMetadataPolicyOffset) ;;
  r_PerEntryStatsEnabled <~ dec_lift (DecodeBoolean (Content initialFrame) DynamicConfigAddMapConfigCodecRequestPerEntryStatsEnabledOffset) ;;
  r_Name <~ DecodeString ;;
  r_EvictionConfig <~ read_nullable EvictionConfigHolder_zero DecodeEvictionConfigHolder ;;
  r_CacheDeserializedValues <~ DecodeString ;;
  r_MergePolicy <~ DecodeString ;;
  r_InMemoryFormat <~ DecodeString ;;
  r_ListenerConfigs <~ read_nullable_list DecodeListenerConfigHolder ;;
  r_PartitionLostListenerConfigs <~ read_nullable_list DecodeListenerConfigHolder ;;
  r_SplitBrainProtectionName <~ DecodeNullableForString ;;
  r_MapStoreConfig <~ read_nullable MapStoreConfigHolder_zero DecodeMapStoreConfigHolder ;;
  r_NearCacheConfig <~ read_nullable NearCacheConfigHolder_zero DecodeNearCacheConfigHolder ;;
  r_WanReplicationRef <~ read_nullable WanReplicationRef_zero DecodeWanReplicationRef ;;
  r_IndexConfigs <~ read_nullable_list DecodeIndexConfig ;;
  r_AttributeConfigs <~ read_nullable_list DecodeAttributeConfig ;;
  r_QueryCacheConfigs <~ read_nullable_list DecodeQueryCacheConfigHolder ;;
  r_PartitioningStrategyClassName <~ DecodeNullableForString ;;
  r_PartitioningStrategyImplementation <~ read_nullable_data ;;
  r_HotRestartConfig <~ read_nullable HotRestartConfig_zero DecodeHotRestartConfig ;;
  r_EventJournalConfig <~ read_nullable EventJournalConfig_zero DecodeEventJournalConfig ;;
  r_MerkleTreeConfig <~ read_nullable MerkleTreeConfig_zero DecodeMerkleTreeConfig ;;
  r_DataPersistenceConfig <~ DecodeDataPersistenceConfig ;;
  r_TieredStoreConfig <~ DecodeTieredStoreConfig ;;
  dec_next ;;;
  r_UserCodeNamespace <~ DecodeNullableForString ;;
  dec_ret {|
    AddMapConfigInput_Name := r_Name;
    AddMapConfigInput_BackupCount := r_BackupCount;
    AddMapConfigInput_AsyncBackupCount := r_AsyncBackupCount;
    AddMapConfigInput_TimeToLiveSeconds := r_TimeToLiveSeconds;
    AddMapConfigInput_MaxIdleSeconds := r_MaxIdleSeconds;
    AddMapConfigInput_EvictionConfig := r_EvictionConfig;
    AddMapConfigInput_ReadBackupData := r_ReadBackupData;
    AddMapConfigInput_CacheDeserializedValues := r_CacheDeserializedValues;
    AddMapConfigInput_MergePolicy := r_MergePolicy;
    AddMapConfigInput_MergeBatchSize := r_MergeBatchSize;
    AddMapConfigInput_InMemoryFormat := r_InMemoryFormat;
    AddMapConfigInput_ListenerConfigs := r_ListenerConfigs;
    AddMapConfigInput_PartitionLostListenerConfigs := r_PartitionLostListenerConfigs;
    AddMapConfigInput_StatisticsEnabled := r_StatisticsEnabled;
    AddMapConfigInput_SplitBrainProtectionName := r_SplitBrainProtectionName;
    AddMapConfigInput_MapStoreConfig := r_MapStoreConfig;
    AddMapConfigInput_NearCacheConfig := r_NearCacheConfig;
    AddMapConfigInput_WanReplicationRef := r_WanReplicationRef;
    AddMapConfigInput_IndexConfigs := r_IndexConfigs;
    AddMapConfigInput_AttributeConfigs := r_AttributeConfigs;
    AddMapConfigInput_QueryCacheConfigs := r_QueryCacheConfigs;
    AddMapConfigInput_PartitioningStrategyClassName := r_PartitioningStrategyClassName;
    AddMapConfigInput_PartitioningStrategyImplementation := r_PartitioningStrategyImplementation;
    AddMapConfigInput_HotRestartConfig := r_HotRestartConfig;
    AddMapConfigInput_EventJournalConfig := r_EventJournalConfig;
    AddMapConfigInput_MerkleTreeConfig := r_MerkleTreeConfig;
    AddMapConfigInput_MetadataPolicy := r_MetadataPolicy;
    AddMapConfigInput_PerEntryStatsEnabled := r_PerEntryStatsEnabled;
    AddMapConfigInput_TieredStoreConfig := r_TieredStoreConfig;
    AddMapConfigInput_DataPersistenceConfig := r_DataPersistenceConfig;
    AddMapConfigInput_UserCodeNamespace := r_UserCodeNamespace |}.

Definition DynamicConfigAddMapConfigRequest_norm (c : AddMapConfigInput) : AddMapConfigInput := {|
  AddMapConfigInput_Name := AddMapConfigInput_Name c;
  AddMapConfigInput_BackupCount := AddMapConfigInput_BackupCount c;
  AddMapConfigInput_AsyncBackupCount := AddMapConfigInput_AsyncBackupCount c;
  AddMapConfigInput_TimeToLiveSeconds := AddMapConfigInput_TimeToLiveSeconds c;
  AddMapConfigInput_MaxIdleSeconds := AddMapConfigInput_MaxIdleSeconds c;
  AddMapConfigInput_EvictionConfig := norm_nullable EvictionConfigHolder_zero EvictionConfigHolder_norm (AddMapConfigInput_EvictionConfig c);
  AddMapConfigInput_ReadBackupData := AddMapConfigInput_ReadBackupData c;
  AddMapConfigInput_CacheDeserializedValues := AddMapConfigInput_CacheDeserializedValues c;
  AddMapConfigInput_MergePolicy := AddMapConfigInput_MergePolicy c;
  AddMapConfigInput_MergeBatchSize := AddMapConfigInput_MergeBatchSize c;
  AddMapConfigInput_InMemoryFormat := AddMapConfigInput_InMemoryFormat c;
  AddMapConfigInput_ListenerConfigs := map ListenerConfigHolder_norm <$> (AddMapConfigInput_ListenerConfigs c);
  AddMapConfigInput_PartitionLostListenerConfigs := map ListenerConfigHolder_norm <$> (AddMapConfigInput_PartitionLostListenerConfigs c);
  AddMapConfigInput_StatisticsEnabled := AddMapConfigInput_StatisticsEnabled c;
  AddMapConfigInput_SplitBrainProtectionName := norm_string (AddMapConfigInput_SplitBrainProtectionName c);
  AddMapConfigInput_MapStoreConfig := norm_nullable MapStoreConfigHolder_zero MapStoreConfigHolder_norm (AddMapConfigInput_MapStoreConfig c);
  AddMapConfigInput_NearCacheConfig := norm_nullable NearCacheConfigHolder_zero NearCacheConfigHolder_norm (AddMapConfigInput_NearCacheConfig c);
  AddMapConfigInput_WanReplicationRef := AddMapConfigInput_WanReplicationRef c;
  AddMapConfigInput_IndexConfigs := map IndexConfig_norm <$> (AddMapConfigInput_IndexConfigs c);
  AddMapConfigInput_AttributeConfigs := map (fun v => v) <$> (AddMapConfigInput_AttributeConfigs c);
  AddMapConfigInput_QueryCacheConfigs := map QueryCacheConfigHolder_norm <$> (AddMapConfigInput_QueryCacheConfigs c);
  AddMapConfigInput_PartitioningStrategyClassName := norm_string (AddMapConfigInput_PartitioningStrategyClassName c);
  AddMapConfigInput_PartitioningStrategyImplementation := AddMapConfigInput_PartitioningStrategyImplementation c;
  AddMapConfigInput_HotRestartConfig := AddMapConfigInput_HotRestartConfig c;
  AddMapConfigInput_EventJournalConfig := AddMapConfigInput_EventJournalConfig c;
  AddMapConfigInput_MerkleTreeConfig := AddMapConfigInput_MerkleTreeConfig c;
  AddMapConfigInput_MetadataPolicy := AddMapConfigInput_MetadataPolicy c;
  AddMapConfigInput_PerEntryStatsEnabled := AddMapConfigInput_PerEntryStatsEnabled c;
  AddMapConfigInput_TieredStoreConfig := TieredStoreConfig_norm (AddMapConfigInput_TieredStoreConfig c);
  AddMapConfigInput_DataPersistenceConfig := AddMapConfigInput_DataPersistenceConfig c;
  AddMapConfigInput_UserCodeNamespace := norm_string (AddMapConfigInput_UserCodeNamespace c) |}.

Lemma DynamicConfigAddMapConfigRequest_transmits (c : AddMapConfigInput) : AddMapConfigInput_ok c ->
  Transmits (EncodeDynamicConfigAddMapConfigRequest c) ReadDynamicConfigAddMapConfigRequest (DynamicConfigAddMapConfigRequest_norm c).
Proof.
  intros Hok; destruct c; unfold AddMapConfigInput_ok in Hok; simpl in Hok; destruct_and?.
  unfold EncodeDynamicConfigAddMapConfigRequest, ReadDynamicConfigAddMapConfigRequest; transmits.
Qed.

(** ** DynamicConfigAddCacheConfig *)

Definition ReadDynamicConfigAddCacheConfigRequest : Dec CacheConfigInput :=
  initialFrame <~ dec_frame ;;
  r_StatisticsEnabled <~ dec_lift (DecodeBoolean (Content initialFrame) DynamicConfigAddCacheConfigCodecRequestStatisticsEnabledOffset) ;;
  r_ManagementEnabled <~ dec_lift (DecodeBoolean (Content initialFrame) DynamicConfigAddCacheConfigCodecRequestManagementEnabledOffset) ;;
  r_ReadThrough <~ dec_lift (DecodeBoolean (Content initialFrame) DynamicConfigAddCacheConfigCodecRequestReadThroughOffset) ;;
  r_WriteThrough <~ dec_lift (DecodeBoolean (Content initialFrame) DynamicConfigAddCacheConfigCodecRequestWriteThroughOffset) ;;
  r_BackupCount <~ dec_lift (DecodeInt (Content initialFrame) DynamicConfigAddCacheConfigCodecRequestBackupCountOffset) ;;
  r_AsyncBackupCount <~ dec_lift (DecodeInt (Content initialFrame) DynamicConfigAddCacheConfigCodecRequestAsyncBackupCountOffset) ;;
  r_MergeBatchSize <~ dec_lift (DecodeInt (Content initialFrame) DynamicConfigAddCacheConfigCodecRequestMergeBatchSizeOffset) ;;
  r_DisablePerEntryInvalidationEvents <~ dec_lift (DecodeBoolean (Content initialFrame) DynamicConfigAddCacheConfigCodecRequestDisablePerEntryInvalidationEventsOffset) ;;
  r_Name <~ DecodeString ;;
  r_KeyType <~ DecodeNullableForString ;;
  r_ValueType <~ DecodeNullableForString ;;
  r_CacheLoaderFactory <~ DecodeNullableForString ;;
  r_CacheWriterFactory <~ DecodeNullableForString ;;
  r_CacheLoader <~ DecodeNullableForString ;;
  r_CacheWriter <~ DecodeNullableForString ;;
  r_InMemoryFormat <~ DecodeString ;;
  r_SplitBrainProtectionName <~ DecodeNullableForString ;;
  r_MergePolicy <~ DecodeNullableForString ;;
  r_PartitionLostListenerConfigs <~ read_nullable_list DecodeListenerConfigHolder ;;
  r_ExpiryPolicyFactoryClassName <~ DecodeNullableForString ;;
  r_TimedExpiryPolicyFactoryConfig <~ read_nullable TimedExpiryPolicyFactoryConfig_zero DecodeTimedExpiryPolicyFactoryConfig ;;
  r_CacheEntryListeners <~ read_nullable_list DecodeListenerConfigHolder ;;
  r_EvictionConfig <~ read_nullable EvictionConfigHolder_zero DecodeEvictionConfigHolder ;;
  r_WanReplicationRef <~ read_nullable WanReplicationRef_zero DecodeWanReplicationRef ;;
  r_EventJournalConfig <~ read_nullable EventJournalConfig_zero DecodeEventJournalConfig ;;
  r_HotRestartConfig <~ read_nullable HotRestartConfig_zero DecodeHotRestartConfig ;;
  r_MerkleTreeConfig <~ read_nullable MerkleTreeConfig_zero DecodeMerkleTreeConfig ;;
  r_DataPersistenceConfig <~ DecodeDataPersistenceConfig ;;
  r_UserCodeNamespace <~ DecodeNullableForString ;;
  dec_ret {|
    CacheConfigInput_Name := r_Name;
    CacheConfigInput_BackupCount := r_BackupCount;
    CacheConfigInput_AsyncBackupCount := r_AsyncBackupCount;
    CacheConfigInput_StatisticsEnabled := r_StatisticsEnabled;
    CacheConfigInput_ManagementEnabled := r_ManagementEnabled;
    CacheConfigInput_ReadThrough := r_ReadThrough;
    CacheConfigInput_WriteThrough := r_WriteThrough;
    CacheConfigInput_MergePolicy := r_MergePolicy;
    CacheConfigInput_MergeBatchSize := r_MergeBatchSize;
    CacheConfigInput_DisablePerEntryInvalidationEvents := r_DisablePerEntryInvalidationEvents;
    CacheConfigInput_KeyType := r_KeyType;
    CacheConfigInput_ValueType := r_ValueType;
    CacheConfigInput_CacheLoaderFactory := r_CacheLoaderFactory;
    CacheConfigInput_CacheWriterFactory := r_CacheWriterFactory;
    CacheConfigInput_CacheLoader := r_CacheLoader;
    CacheConfigInput_CacheWriter := r_CacheWriter;
    CacheConfigInput_InMemoryFormat := r_InMemoryFormat;
    CacheConfigInput_SplitBrainProtectionName := r_SplitBrainProtectionName;
    CacheConfigInput_PartitionLostListenerConfigs := r_PartitionLostListenerConfigs;
    CacheConfigInput_ExpiryPolicyFactoryClassName := r_ExpiryPolicyFactoryClassName;
    CacheConfigInput_TimedExpiryPolicyFactoryConfig := r_TimedExpiryPolicyFactoryConfig;
    CacheConfigInput_CacheEntryListeners := r_CacheEntryListeners;
    CacheConfigInput_EvictionConfig := r_EvictionConfig;
    CacheConfigInput_WanReplicationRef := r_WanReplicationRef;
    CacheConfigInput_EventJournalConfig := r_EventJournalConfig;
    CacheConfigInput_HotRestartConfig := r_HotRestartConfig;
    CacheConfigInput_MerkleTreeConfig := r_MerkleTreeConfig;
    CacheConfigInput_DataPersistenceConfig := r_DataPersistenceConfig;
    CacheConfigInput_UserCodeNamespace := r_UserCodeNamespace |}.

Definition DynamicConfigAddCacheConfigRequest_norm (c : CacheConfigInput) : CacheConfigInput := {|
  CacheConfigInput_Name := CacheConfigInput_Name c;
  CacheConfigInput_BackupCount := CacheConfigInput_BackupCount c;
  CacheConfigInput_AsyncBackupCount := CacheConfigInput_AsyncBackupCount c;
  CacheConfigInput_StatisticsEnabled := CacheConfigInput_StatisticsEnabled c;
  CacheConfigInput_ManagementEnabled := CacheConfigInput_ManagementEnabled c;
  CacheConfigInput_ReadThrough := CacheConfigInput_ReadThrough c;
  CacheConfigInput_WriteThrough := CacheConfigInput_WriteThrough c;
  CacheConfigInput_MergePolicy := norm_string (CacheConfigInput_MergePolicy c);
  CacheConfigInput_MergeBatchSize := CacheConfigInput_MergeBatchSize c;
  CacheConfigInput_DisablePerEntryInvalidationEvents := CacheConfigInput_DisablePerEntryInvalidationEvents c;
  CacheConfigInput_KeyType := norm_string (CacheConfigInput_KeyType c);
  CacheConfigInput_ValueType := norm_string (CacheConfigInput_ValueType c);
  CacheConfigInput_CacheLoaderFactory := norm_string (CacheConfigInput_CacheLoaderFactory c);
  CacheConfigInput_CacheWriterFactory := norm_string (CacheConfigInput_CacheWriterFactory c);
  CacheConfigInput_CacheLoader := norm_string (CacheConfigInput_CacheLoader c);
  CacheConfigInput_CacheWriter := norm_string (CacheConfigInput_CacheWriter c);
  CacheConfigInput_InMemoryFormat := CacheConfigInput_InMemoryFormat c;
  CacheConfigInput_SplitBrainProtectionName := norm_string (CacheConfigInput_SplitBrainProtectionName c);
  CacheConfigInput_PartitionLostListenerConfigs := map ListenerConfigHolder_norm <$> (CacheConfigInput_PartitionLostListenerConfigs c);
  CacheConfigInput_ExpiryPolicyFactoryClassName := norm_string (CacheConfigInput_ExpiryPolicyFactoryClassName c);
  CacheConfigInput_TimedExpiryPolicyFactoryConfig := CacheConfigInput_TimedExpiryPolicyFactoryConfig c;
  CacheConfigInput_CacheEntryListeners := map ListenerConfigHolder_norm <$> (CacheConfigInput_CacheEntryListeners c);
  CacheConfigInput_EvictionConfig := norm_nullable EvictionConfigHolder_zero EvictionConfigHolder_norm (CacheConfigInput_EvictionConfig c);
  CacheConfigInput_WanReplicationRef := CacheConfigInput_WanReplicationRef c;
  CacheConfigInput_EventJournalConfig := CacheConfigInput_EventJournalConfig c;
  CacheConfigInput_HotRestartConfig := CacheConfigInput_HotRestartConfig c;
  CacheConfigInput_MerkleTreeConfig := CacheConfigInput_MerkleTreeConfig c;
  CacheConfigInput_DataPersistenceConfig := CacheConfigInput_DataPersistenceConfig c;
  CacheConfigInput_UserCodeNamespace := norm_string (CacheConfigInput_UserCodeNamespace c) |}.

Lemma DynamicConfigAddCacheConfigRequest_transmits (c : CacheConfigInput) : CacheConfigInput_ok c ->
  Transmits (EncodeDynamicConfigAddCacheConfigRequest c) ReadDynamicConfigAddCacheConfigRequest (DynamicConfigAddCacheConfigRequest_norm c).
Proof.
  intros Hok; destruct c; unfold CacheConfigInput_ok in Hok; simpl in Hok; destruct_and?.
  unfold EncodeDynamicConfigAddCacheConfigRequest, ReadDynamicConfigAddCacheConfigRequest; transmits.
Qed.

(** ** DynamicConfigAddMultiMapConfig *)

Definition ReadDynamicConfigAddMultiMapConfigRequest : Dec MultiMapConfig :=
  initialFrame <~ dec_frame ;;
  r_Binary <~ dec_lift (DecodeBoolean (Content initialFrame) DynamicConfigAddMultiMapConfigCodecRequestBinaryOffset) ;;
  r_BackupCount <~ dec_lift (DecodeInt (Content initialFrame) DynamicConfigAddMultiMapConfigCodecRequestBackupCountOffset) ;;
  r_AsyncBackupCount <~ dec_lift (DecodeInt (Content initialFrame) DynamicConfigAddMultiMapConfigCodecRequestAsyncBackupCountOffset) ;;
  r_StatisticsEnabled <~ dec_lift (DecodeBoolean (Content initialFrame) DynamicConfigAddMultiMapConfigCodecRequestStatisticsEnabledOffset) ;;
  r_MergeBatchSize <~ dec_lift (DecodeInt (Content initialFrame) DynamicConfigAddMultiMapConfigCodecRequestMergeBatchSizeOffset) ;;
  r_Name <~ DecodeString ;;
  r_CollectionType <~ DecodeString ;;
  r_ListenerConfigs <~ read_nullable_list DecodeListenerConfigHolder ;;
  r_SplitBrainProtectionName <~ DecodeNullableForString ;;
  r_MergePolicy <~ DecodeString ;;
  r_UserCodeNamespace <~ DecodeNullableForString ;;
  dec_ret {|
    MultiMapConfig_Name := r_Name;
    MultiMapConfig_CollectionType := r_CollectionType;
    MultiMapConfig_BackupCount := r_BackupCount;
    MultiMapConfig_AsyncBackupCount := r_AsyncBackupCount;
    MultiMapConfig_Binary := r_Binary;
    MultiMapConfig_MergePolicy := r_MergePolicy;
    MultiMapConfig_MergeBatchSize := r_MergeBatchSize;
    MultiMapConfig_StatisticsEnabled := r_StatisticsEnabled;
    MultiMapConfig_ListenerConfigs := r_ListenerConfigs;
    MultiMapConfig_SplitBrainProtectionName := r_SplitBrainProtectionName;
    MultiMapConfig_UserCodeNamespace := r_UserCodeNamespace |}.

Definition DynamicConfigAddMultiMapConfigRequest_norm (c : MultiMapConfig) : MultiMapConfig := {|
  MultiMapConfig_Name := MultiMapConfig_Name c;
  MultiMapConfig_CollectionType := MultiMapConfig_CollectionType c;
  MultiMapConfig_BackupCount := MultiMapConfig_BackupCount c;
  MultiMapConfig_AsyncBackupCount := MultiMapConfig_AsyncBackupCount c;
  MultiMapConfig_Binary := MultiMapConfig_Binary c;
  MultiMapConfig_MergePolicy := MultiMapConfig_MergePolicy c;
  MultiMapConfig_MergeBatchSize := MultiMapConfig_MergeBatchSize c;
  MultiMapConfig_StatisticsEnabled := MultiMapConfig_StatisticsEnabled c;
  MultiMapConfig_ListenerConfigs := map ListenerConfigHolder_norm <$> (MultiMapConfig_ListenerConfigs c);
  MultiMapConfig_SplitBrainProtectionName := norm_string (MultiMapConfig_SplitBrainProtectionName c);
  MultiMapConfig_UserCodeNamespace := norm_string (MultiMapConfig_UserCodeNamespace c) |}.

Lemma DynamicConfigAddMultiMapConfigRequest_transmits (c : MultiMapConfig) : MultiMapConfig_ok c ->
  Transmits (EncodeDynamicConfigAddMultiMapConfigRequest c) ReadDynamicConfigAddMultiMapConfigRequest (DynamicConfigAddMultiMapConfigRequest_norm c).
Proof.
  intros Hok; destruct c; unfold MultiMapConfig_ok in Hok; simpl in Hok; destruct_and?.
  unfold EncodeDynamicConfigAddMultiMapConfigRequest, ReadDynamicConfigAddMultiMapConfigRequest; transmits.
Qed.

(** ** DynamicConfigAddTopicConfig *)

Definition ReadDynamicConfigAddTopicConfigRequest : Dec TopicConfig :=
  initialFrame <~ dec_frame ;;
  r_GlobalOrderingEnabled <~ dec_lift (DecodeBoolean (Content initialFrame) DynamicConfigAddTopicConfigCodecRequestGlobalOrderingEnabledOffset) ;;
  r_StatisticsEnabled <~ dec_lift (DecodeBoolean (Content initialFrame) DynamicConfigAddTopicConfigCodecRequestStatisticsEnabledOffset) ;;
  r_MultiThreadingEnabled <~ dec_lift (DecodeBoolean (Content initialFrame) DynamicConfigAddTopicConfigCodecRequestMultiThreadingEnabledOffset) ;;
  r_Name <~ DecodeString ;;
  r_ListenerConfigs <~ read_nullable_list DecodeListenerConfigHolder ;;
  r_UserCodeNamespace <~ DecodeNullableForString ;;
  dec_ret {|
    TopicConfig_Name := r_Name;
    TopicConfig_GlobalOrderingEnabled := r_GlobalOrderingEnabled;
    TopicConfig_MultiThreadingEnabled := r_MultiThreadingEnabled;
    TopicConfig_StatisticsEnabled := r_StatisticsEnabled;
    TopicConfig_ListenerConfigs := r_ListenerConfigs;
    TopicConfig_UserCodeNamespace := r_UserCodeNamespace |}.

Definition DynamicConfigAddTopicConfigRequest_norm (t : TopicConfig) : TopicConfig := {|
  TopicConfig_Name := TopicConfig_Name t;
  TopicConfig_GlobalOrderingEnabled := TopicConfig_GlobalOrderingEnabled t;
  TopicConfig_MultiThreadingEnabled := TopicConfig_MultiThreadingEnabled t;
  TopicConfig_StatisticsEnabled := TopicConfig_StatisticsEnabled t;
  TopicConfig_ListenerConfigs := map ListenerConfigHolder_norm <$> (TopicConfig_ListenerConfigs t);
  TopicConfig_UserCodeNamespace := norm_string (TopicConfig_UserCodeNamespace t) |}.

Lemma DynamicConfigAddTopicConfigRequest_transmits (t : TopicConfig) : TopicConfig_ok t ->
  Transmits (EncodeDynamicConfigAddTopicConfigRequest t) ReadDynamicConfigAddTopicConfigRequest (DynamicConfigAddTopicConfigRequest_norm t).
Proof.
  intros Hok; destruct t; unfold TopicConfig_ok in Hok; simpl in Hok; destruct_and?.
  unfold EncodeDynamicConfigAddTopicConfigRequest, ReadDynamicConfigAddTopicConfigRequest; transmits.
Qed.

(** ** DynamicConfigAddReplicatedMapConfig *)

Definition ReadDynamicConfigAddReplicatedMapConfigRequest : Dec ReplicatedMapConfig :=
  initialFrame <~ dec_frame ;;
  r_AsyncFillup <~ dec_lift (DecodeBoolean (Content initialFrame) DynamicConfigAddReplicatedMapConfigCodecRequestAsyncFillupOffset) ;;
  r_StatisticsEnabled <~ dec_lift (DecodeBoolean (Content initialFrame) DynamicConfigAddReplicatedMapConfigCodecRequestStatisticsEnabledOffset) ;;
  r_MergeBatchSize <~ dec_lift (DecodeInt (Content initialFrame) DynamicConfigAddReplicatedMapConfigCodecRequestMergeBatchSizeOffset) ;;
  r_Name <~ DecodeString ;;
  r_InMemoryFormat <~ DecodeString ;;
  r_MergePolicy <~ DecodeString ;;
  r_ListenerConfigs <~ read_nullable_list DecodeListenerConfigHolder ;;
  r_SplitBrainProtectionName <~ DecodeNullableForString ;;
  r_UserCodeNamespace <~ DecodeNullableForString ;;
  dec_ret {|
    ReplicatedMapConfig_Name := r_Name;
    ReplicatedMapConfig_InMemoryFormat := r_InMemoryFormat;
    ReplicatedMapConfig_AsyncFillup := r_AsyncFillup;
    ReplicatedMapConfig_MergePolicy := r_MergePolicy;
    ReplicatedMapConfig_MergeBatchSize := r_MergeBatchSize;
    ReplicatedMapConfig_StatisticsEnabled := r_StatisticsEnabled;
    ReplicatedMapConfig_ListenerConfigs := r_ListenerConfigs;
    ReplicatedMapConfig_SplitBrainProtectionName := r_SplitBrainProtectionName;
    ReplicatedMapConfig_UserCodeNamespace := r_UserCodeNamespace |}.

Definition DynamicConfigAddReplicatedMapConfigRequest_norm (c : ReplicatedMapConfig) : ReplicatedMapConfig := {|
  ReplicatedMapConfig_Name := ReplicatedMapConfig_Name c;
  ReplicatedMapConfig_InMemoryFormat := ReplicatedMapConfig_InMemoryFormat c;
  ReplicatedMapConfig_AsyncFillup := ReplicatedMapConfig_AsyncFillup c;
  ReplicatedMapConfig_MergePolicy := ReplicatedMapConfig_MergePolicy c;
  ReplicatedMapConfig_MergeBatchSize := ReplicatedMapConfig_MergeBatchSize c;
  ReplicatedMapConfig_StatisticsEnabled := ReplicatedMapConfig_StatisticsEnabled c;
  ReplicatedMapConfig_ListenerConfigs := map ListenerConfigHolder_norm <$> (ReplicatedMapConfig_ListenerConfigs c);
  ReplicatedMapConfig_SplitBrainProtectionName := norm_string (ReplicatedMapConfig_SplitBrainProtectionName c);
  ReplicatedMapConfig_UserCodeNamespace := norm_string (ReplicatedMapConfig_UserCodeNamespace c) |}.

Lemma DynamicConfigAddReplicatedMapConfigRequest_transmits (c : ReplicatedMapConfig) : ReplicatedMapConfig_ok c ->
  Transmits (EncodeDynamicConfigAddReplicatedMapConfigRequest c) ReadDynamicConfigAddReplicatedMapConfigRequest (DynamicConfigAddReplicatedMapConfigRequest_norm c).
Proof.
  intros Hok; destruct c; unfold ReplicatedMapConfig_ok in Hok; simpl in Hok; destruct_and?.
  unfold EncodeDynamicConfigAddReplicatedMapConfigRequest, ReadDynamicConfigAddReplicatedMapConfigRequest; transmits.
Qed.

(** ** DynamicConfigAddQueueConfig *)

Definition ReadDynamicConfigAddQueueConfigRequest : Dec QueueConfigInput :=
  initialFrame <~ dec_frame ;;
  r_BackupCount <~ dec_lift (DecodeInt (Content initialFrame) DynamicConfigAddQueueConfigCodecRequestBackupCountOffset) ;;
  r_AsyncBackupCount <~ dec_lift (DecodeInt (Content initialFrame) DynamicConfigAddQueueConfigCodecRequestAsyncBackupCountOffset) ;;
  r_MaxSize <~ dec_lift (DecodeInt (Content initialFrame) DynamicConfigAddQueueConfigCodecRequestMaxSizeOffset) ;;
  r_EmptyQueueTtl <~ dec_lift (DecodeInt (Content initialFrame) DynamicConfigAddQueueConfigCodecRequestEmptyQueueTtlOffset) ;;
  r_StatisticsEnabled <~ dec_lift (DecodeBoolean (Content initialFrame) DynamicConfigAddQueueConfigCodecRequestStatisticsEnabledOffset) ;;
  r_MergeBatchSize <~ dec_lift (DecodeInt (Content initialFrame) DynamicConfigAddQueueConfigCodecRequestMergeBatchSizeOffset) ;;
  r_Name <~ DecodeString ;;
  r_ListenerConfigs <~ read_nullable_list DecodeListenerConfigHolder ;;
  r_SplitBrainProtectionName <~ DecodeNullableForString ;;
  r_QueueStoreConfig <~ read_nullable QueueStoreConfigHolder_zero (dec_ret QueueStoreConfigHolder_zero) ;;
  r_MergePolicy <~ DecodeString ;;
  r_PriorityComparatorClassName <~ DecodeNullableForString ;;
  r_UserCodeNamespace <~ DecodeNullableForString ;;
  dec_ret {|
    QueueConfigInput_Name := r_Name;
    QueueConfigInput_ListenerConfigs := r_ListenerConfigs;
    QueueConfigInput_BackupCount := r_BackupCount;
    QueueConfigInput_AsyncBackupCount := r_AsyncBackupCount;
    QueueConfigInput_MaxSize := r_MaxSize;
    QueueConfigInput_EmptyQueueTtl := r_EmptyQueueTtl;
    QueueConfigInput_StatisticsEnabled := r_StatisticsEnabled;
    QueueConfigInput_SplitBrainProtectionName := r_SplitBrainProtectionName;
    QueueConfigInput_QueueStoreConfig := r_QueueStoreConfig;
    QueueConfigInput_MergePolicy := r_MergePolicy;
    QueueConfigInput_MergeBatchSize := r_MergeBatchSize;
    QueueConfigInput_PriorityComparatorClassName := r_PriorityComparatorClassName;
    QueueConfigInput_UserCodeNamespace := r_UserCodeNamespace |}.

Definition DynamicConfigAddQueueConfigRequest_norm (input : QueueConfigInput) : QueueConfigInput := {|
  QueueConfigInput_Name := QueueConfigInput_Name input;
  QueueConfigInput_ListenerConfigs := map ListenerConfigHolder_norm <$> (QueueConfigInput_ListenerConfigs input);
  QueueConfigInput_BackupCount := QueueConfigInput_BackupCount input;
  QueueConfigInput_AsyncBackupCount := QueueConfigInput_AsyncBackupCount input;
  QueueConfigInput_MaxSize := QueueConfigInput_MaxSize input;
  QueueConfigInput_EmptyQueueTtl := QueueConfigInput_EmptyQueueTtl input;
  QueueConfigInput_StatisticsEnabled := QueueConfigInput_StatisticsEnabled input;
  QueueConfigInput_SplitBrainProtectionName := norm_string (QueueConfigInput_SplitBrainProtectionName input);
  QueueConfigInput_QueueStoreConfig := QueueStoreConfigHolder_zero;
  QueueConfigInput_MergePolicy := QueueConfigInput_MergePolicy input;
  QueueConfigInput_MergeBatchSize := QueueConfigInput_MergeBatchSize input;
  QueueConfigInput_PriorityComparatorClassName := norm_string (QueueConfigInput_PriorityComparatorClassName input);
  QueueConfigInput_UserCodeNamespace := norm_string (QueueConfigInput_UserCodeNamespace input) |}.

Lemma DynamicConfigAddQueueConfigRequest_transmits (input : QueueConfigInput) : QueueConfigInput_ok input ->
  Transmits (EncodeDynamicConfigAddQueueConfigRequest input) ReadDynamicConfigAddQueueConfigRequest (DynamicConfigAddQueueConfigRequest_norm input).
Proof.
  intros Hok; destruct input; unfold QueueConfigInput_ok in Hok; simpl in Hok; destruct_and?.
  unfold EncodeDynamicConfigAddQueueConfigRequest, ReadDynamicConfigAddQueueConfigRequest; transmits.
Qed.

(** ** DynamicConfigAddExecutorConfig *)

Definition ReadDynamicConfigAddExecutorConfigRequest : Dec ExecutorServiceConfig :=
  initialFrame <~ dec_frame ;;
  r_PoolSize <~ dec_lift (DecodeInt (Content initialFrame) DynamicConfigAddExecutorConfigCodecRequestPoolSizeOffset) ;;
  r_QueueCapacity <~ dec_lift (DecodeInt (Content initialFrame) DynamicConfigAddExecutorConfigCodecRequestQueueCapacityOffset) ;;
  r_StatisticsEnabled <~ dec_lift (DecodeBoolean (Content initialFrame) DynamicConfigAddExecutorConfigCodecRequestStatisticsEnabledOffset) ;;
  r_Name <~ DecodeString ;;
  r_SplitBrainProtectionName <~ DecodeNullableForString ;;
  r_UserCodeNamespace <~ DecodeNullableForString ;;
  dec_ret {|
    ExecutorServiceConfig_Name := r_Name;
    ExecutorServiceConfig_PoolSize := r_PoolSize;
    ExecutorServiceConfig_QueueCapacity := r_QueueCapacity;
    ExecutorServiceConfig_StatisticsEnabled := r_StatisticsEnabled;
    ExecutorServiceConfig_SplitBrainProtectionName := r_SplitBrainProtectionName;
    ExecutorServiceConfig_UserCodeNamespace := r_UserCodeNamespace |}.

Definition DynamicConfigAddExecutorConfigRequest_norm (es : ExecutorServiceConfig) : ExecutorServiceConfig := {|
  ExecutorServiceConfig_Name := ExecutorServiceConfig_Name es;
  ExecutorServiceConfig_PoolSize := ExecutorServiceConfig_PoolSize es;
  ExecutorServiceConfig_QueueCapacity := ExecutorServiceConfig_QueueCapacity es;
  ExecutorServiceConfig_StatisticsEnabled := ExecutorServiceConfig_StatisticsEnabled es;
  ExecutorServiceConfig_SplitBrainProtectionName := norm_string (ExecutorServiceConfig_SplitBrainProtectionName es);
  ExecutorServiceConfig_UserCodeNamespace := norm_string (ExecutorServiceConfig_UserCodeNamespace es) |}.

Lemma DynamicConfigAddExecutorConfigRequest_transmits (es : ExecutorServiceConfig) : ExecutorServiceConfig_ok es ->
  Transmits (EncodeDynamicConfigAddExecutorConfigRequest es) ReadDynamicConfigAddExecutorConfigRequest (DynamicConfigAddExecutorConfigRequest_norm es).
Proof.
  intros Hok; destruct es; unfold ExecutorServiceConfig_ok in Hok; simpl in Hok; destruct_and?.
  unfold EncodeDynamicConfigAddExecutorConfigRequest, ReadDynamicConfigAddExecutorConfigRequest; transmits.
Qed.

(** ** DynamicConfigAddDurableExecutorConfig *)

Definition ReadDynamicConfigAddDurableExecutorConfigRequest : Dec DurableExecutorServiceConfig :=
  initialFrame <~ dec_frame ;;
  r_PoolSize <~ dec_lift (DecodeInt (Content initialFrame) DynamicConfigAddDurableExecutorConfigCodecRequestPoolSizeOffset) ;;
  r_Durability <~ dec_lift (DecodeInt (Content initialFrame) DynamicConfigAddDurableExecutorConfigCodecRequestDurabilityOffset) ;;
  r_Capacity <~ dec_lift (DecodeInt (Content initialFrame) DynamicConfigAddDurableExecutorConfigCodecRequestCapacityOffset) ;;
  r_StatisticsEnabled <~ dec_lift (DecodeBoolean (Content initialFrame) DynamicConfigAddDurableExecutorConfigCodecRequestStatisticsEnabledOffset) ;;
  r_Name <~ DecodeString ;;
  r_SplitBrainProtectionName <~ DecodeNullableForString ;;
  r_UserCodeNamespace <~ DecodeNullableForString ;;
  dec_ret {|
    DurableExecutorServiceConfig_Name := r_Name;
    DurableExecutorServiceConfig_PoolSize := r_PoolSize;
    DurableExecutorServiceConfig_Durability := r_Durability;
    DurableExecutorServiceConfig_Capacity := r_Capacity;
    DurableExecutorServiceConfig_StatisticsEnabled := r_StatisticsEnabled;
    DurableExecutorServiceConfig_SplitBrainProtectionName := r_SplitBrainProtectionName;
    DurableExecutorServiceConfig_UserCodeNamespace := r_UserCodeNamespace |}.

Definition DynamicConfigAddDurableExecutorConfigRequest_norm (es : DurableExecutorServiceConfig) : DurableExecutorServiceConfig := {|
  DurableExecutorServiceConfig_Name := DurableExecutorServiceConfig_Name es;
  DurableExecutorServiceConfig_PoolSize := DurableExecutorServiceConfig_PoolSize es;
  DurableExecutorServiceConfig_Durability := DurableExecutorServiceConfig_Durability es;
  DurableExecutorServiceConfig_Capacity := DurableExecutorServiceConfig_Capacity es;
  DurableExecutorServiceConfig_StatisticsEnabled := DurableExecutorServiceConfig_StatisticsEnabled es;
  DurableExecutorServiceConfig_SplitBrainProtectionName := norm_string (DurableExecutorServiceConfig_SplitBrainProtectionName es);
  DurableExecutorServiceConfig_UserCodeNamespace := norm_string (DurableExecutorServiceConfig_UserCodeNamespace es) |}.

Lemma DynamicConfigAddDurableExecutorConfigRequest_transmits (es : DurableExecutorServiceConfig) : DurableExecutorServiceConfig_ok es ->
  Transmits (EncodeDynamicConfigAddDurableExecutorConfigRequest es) ReadDynamicConfigAddDurableExecutorConfigRequest (DynamicConfigAddDurableExecutorConfigRequest_norm es).
Proof.
  intros Hok; destruct es; unfold DurableExecutorServiceConfig_ok in Hok; simpl in Hok; destruct_and?.
  unfold EncodeDynamicConfigAddDurableExecutorConfigRequest, ReadDynamicConfigAddDurableExecutorConfigRequest; transmits.
Qed.

(** ** DynamicConfigAddScheduledExecutorConfig *)

Definition ReadDynamicConfigAddScheduledExecutorConfigRequest : Dec ScheduledExecutorServiceConfig :=
  initialFrame <~ dec_frame ;;
  r_PoolSize <~ dec_lift (DecodeInt (Content initialFrame) DynamicConfigAddScheduledExecutorConfigCodecRequestPoolSizeOffset) ;;
  r_Durability <~ dec_lift (DecodeInt (Content initialFrame) DynamicConfigAddScheduledExecutorConfigCodecRequestDurabilityOffset) ;;
  r_Capacity <~ dec_lift (DecodeInt (Content initialFrame) DynamicConfigAddScheduledExecutorConfigCodecRequestCapacityOffset) ;;
  r_MergeBatchSize <~ dec_lift (DecodeInt (Content initialFrame) DynamicConfigAddScheduledExecutorConfigCodecRequestMergeBatchSizeOffset) ;;
  r_StatisticsEnabled <~ dec_lift (DecodeBoolean (Content initialFrame) DynamicConfigAddScheduledExecutorConfigCodecRequestStatisticsEnabledOffset) ;;
  r_Name <~ DecodeString ;;
  r_SplitBrainProtectionName <~ DecodeNullableForString ;;
  r_MergePolicy <~ DecodeString ;;
  r_UserCodeNamespace <~ DecodeNullableForString ;;
  dec_ret {|
    ScheduledExecutorServiceConfig_Name := r_Name;
    ScheduledExecutorServiceConfig_PoolSize := r_PoolSize;
    ScheduledExecutorServiceConfig_Durability := r_Durability;
    ScheduledExecutorServiceConfig_Capacity := r_Capacity;
    ScheduledExecutorServiceConfig_CapacityPolicy := EmptyString;
    ScheduledExecutorServiceConfig_StatisticsEnabled := r_StatisticsEnabled;
    ScheduledExecutorServiceConfig_MergePolicy := r_MergePolicy;
    ScheduledExecutorServiceConfig_MergeBatchSize := r_MergeBatchSize;
    ScheduledExecutorServiceConfig_SplitBrainProtectionName := r_SplitBrainProtectionName;
    ScheduledExecutorServiceConfig_UserCodeNamespace := r_UserCodeNamespace |}.

Definition DynamicConfigAddScheduledExecutorConfigRequest_norm (es : ScheduledExecutorServiceConfig) : ScheduledExecutorServiceConfig := {|
  ScheduledExecutorServiceConfig_Name := ScheduledExecutorServiceConfig_Name es;
  ScheduledExecutorServiceConfig_PoolSize := ScheduledExecutorServiceConfig_PoolSize es;
  ScheduledExecutorServiceConfig_Durability := ScheduledExecutorServiceConfig_Durability es;
  ScheduledExecutorServiceConfig_Capacity := ScheduledExecutorServiceConfig_Capacity es;
  ScheduledExecutorServiceConfig_CapacityPolicy := EmptyString;
  ScheduledExecutorServiceConfig_StatisticsEnabled := ScheduledExecutorServiceConfig_StatisticsEnabled es;
  ScheduledExecutorServiceConfig_MergePolicy := ScheduledExecutorServiceConfig_MergePolicy es;
  ScheduledExecutorServiceConfig_MergeBatchSize := ScheduledExecutorServiceConfig_MergeBatchSize es;
  ScheduledExecutorServiceConfig_SplitBrainProtectionName := norm_string (ScheduledExecutorServiceConfig_SplitBrainProtectionName es);
  ScheduledExecutorServiceConfig_UserCodeNamespace := norm_string (ScheduledExecutorServiceConfig_UserCodeNamespace es) |}.

Lemma DynamicConfigAddScheduledExecutorConfigRequest_transmits (es : ScheduledExecutorServiceConfig) : ScheduledExecutorServiceConfig_ok es ->
  Transmits (EncodeDynamicConfigAddScheduledExecutorConfigRequest es) ReadDynamicConfigAddScheduledExecutorConfigRequest (DynamicConfigAddScheduledExecutorConfigRequest_norm es).
Proof.
  intros Hok; destruct es; unfold ScheduledExecutorServiceConfig_ok in Hok; simpl in Hok; destruct_and?.
  unfold EncodeDynamicConfigAddScheduledExecutorConfigRequest, ReadDynamicConfigAddScheduledExecutorConfigRequest; transmits.
Qed.

(** ** DynamicConfigAddUserCodeNamespaceConfig *)

Definition ReadDynamicConfigAddUserCodeNamespaceConfigRequest : Dec UserCodeNamespaceConfig :=
  initialFrame <~ dec_frame ;;
  r_Name <~ DecodeString ;;
  r_Resources <~ DecodeListMultiFrame ReadResourceDefinition ;;
  dec_ret {|
    UserCodeNamespaceConfig_Name := r_Name;
    UserCodeNamespaceConfig_Resources := r_Resources |}.

Definition DynamicConfigAddUserCodeNamespaceConfigRequest_norm (config : UserCodeNamespaceConfig) : UserCodeNamespaceConfig := {|
  UserCodeNamespaceConfig_Name := UserCodeNamespaceConfig_Name config;
  UserCodeNamespaceConfig_Resources := map ResourceDefinition_norm (UserCodeNamespaceConfig_Resources config) |}.

Lemma DynamicConfigAddUserCodeNamespaceConfigRequest_transmits (config : UserCodeNamespaceConfig) : UserCodeNamespaceConfig_ok config ->
  Transmits (EncodeDynamicConfigAddUserCodeNamespaceConfigRequest config) ReadDynamicConfigAddUserCodeNamespaceConfigRequest (DynamicConfigAddUserCodeNamespaceConfigRequest_norm config).
Proof.
  intros Hok; destruct config; unfold UserCodeNamespaceConfig_ok in Hok; simpl in Hok; destruct_and?.
  unfold EncodeDynamicConfigAddUserCodeNamespaceConfigRequest, ReadDynamicConfigAddUserCodeNamespaceConfigRequest; transmits.
Qed.

(** ** MCUpdateMapConfig *)

Definition ReadMCUpdateMapConfigRequest : Dec (string * Z * Z * Z * bool * Z * Z * WanReplicationRef) :=
  initialFrame <~ dec_frame ;;
  r_timeToLiveSeconds <~ dec_lift (DecodeInt (Content initialFrame) MCUpdateMapConfigCodecRequestTimeToLiveSecondsOffset) ;;
  r_maxIdleSeconds <~ dec_lift (DecodeInt (Content initialFrame) MCUpdateMapConfigCodecRequestMaxIdleSecondsOffset) ;;
  r_evictionPolicy <~ dec_lift (DecodeInt (Content initialFrame) MCUpdateMapConfigCodecRequestEvictionPolicyOffset) ;;
  r_readBackupData <~ dec_lift (DecodeBoolean (Content initialFrame) MCUpdateMapConfigCodecRequestReadBackupDataOffset) ;;
  r_maxSize <~ dec_lift (DecodeInt (Content initialFrame) MCUpdateMapConfigCodecRequestMaxSizeOffset) ;;
  r_maxSizePolicy <~ dec_lift (DecodeInt (Content initialFrame) MCUpdateMapConfigCodecRequestMaxSizePolicyOffset) ;;
  r_mapName <~ DecodeString ;;
  r_wrr <~ read_nullable WanReplicationRef_zero DecodeWanReplicationRef ;;
  dec_ret (r_mapName, r_timeToLiveSeconds, r_maxIdleSeconds, r_evictionPolicy, r_readBackupData, r_maxSize, r_maxSizePolicy, r_wrr).

Lemma MCUpdateMapConfigRequest_transmits (mapName : string) (timeToLiveSeconds : Z) (maxIdleSeconds : Z) (evictionPolicy : Z) (readBackupData : bool) (maxSize : Z) (maxSizePolicy : Z) (wrr : WanReplicationRef) : is_int32 timeToLiveSeconds -> is_int32 maxIdleSeconds -> is_int32 evictionPolicy -> is_int32 maxSize -> is_int32 maxSizePolicy ->
  Transmits (EncodeMCUpdateMapConfigRequest mapName timeToLiveSeconds maxIdleSeconds evictionPolicy readBackupData maxSize maxSizePolicy wrr) ReadMCUpdateMapConfigRequest (mapName, timeToLiveSeconds, maxIdleSeconds, evictionPolicy, readBackupData, maxSize, maxSizePolicy, wrr).
Proof.
  intros; unfold EncodeMCUpdateMapConfigRequest, ReadMCUpdateMapConfigRequest; transmits.
Qed.

(** ** MCGetMapConfig *)

Definition ReadMCGetMapConfigRequest : Dec (string) :=
  initialFrame <~ dec_frame ;;
  r_mapName <~ DecodeString ;;
  dec_ret (r_mapName).

Lemma MCGetMapConfigRequest_transmits (mapName : string) :
  Transmits (EncodeMCGetMapConfigRequest mapName) ReadMCGetMapConfigRequest (mapName).
Proof.
  intros; unfold EncodeMCGetMapConfigRequest, ReadMCGetMapConfigRequest; transmits.
Qed.

(** ** MCChangeClusterState *)

Definition ReadMCChangeClusterStateRequest : Dec (Z) :=
  initialFrame <~ dec_frame ;;
  r_newState <~ dec_lift (DecodeInt (Content initialFrame) MCChangeClusterStateCodecRequestNewStateOffset) ;;
  dec_ret (r_newState).

Lemma MCChangeClusterStateRequest_transmits (newState : Z) : is_int32 newState ->
  Transmits (EncodeMCChangeClusterStateRequest newState) ReadMCChangeClusterStateRequest (newState).
Proof.
  intros; unfold EncodeMCChangeClusterStateRequest, ReadMCChangeClusterStateRequest; transmits.
Qed.

(** ** MCAddWanBatchPublisherConfig *)

Definition ReadMCAddWanBatchPublisherConfigRequest : Dec (string * string * string * string * Z * Z * Z * Z * Z * Z * byte) :=
  initialFrame <~ dec_frame ;;
  r_queueCapacity <~ dec_lift (DecodeInt (Content initialFrame) MCAddWanBatchPublisherConfigCodecRequestQueueCapacityOffset) ;;
  r_batchSize <~ dec_lift (DecodeInt (Content initialFrame) MCAddWanBatchPublisherConfigCodecRequestBatchSizeOffset) ;;
  r_batchMaxDelayMillis <~ dec_lift (DecodeInt (Content initialFrame) MCAddWanBatchPublisherConfigCodecRequestBatchMaxDelayMillisOffset) ;;
  r_responseTimeoutMillis <~ dec_lift (DecodeInt (Content initialFrame) MCAddWanBatchPublisherConfigCodecRequestResponseTimeoutMillisOffset) ;;
  r_ackType <~ dec_lift (DecodeInt (Content initialFrame) MCAddWanBatchPublisherConfigCodecRequestAckTypeOffset) ;;
  r_queueFullBehavior <~ dec_lift (DecodeInt (Content initialFrame) MCAddWanBatchPublisherConfigCodecRequestQueueFullBehaviorOffset) ;;
  r_consistencyCheckStrategy <~ dec_lift (DecodeByte (Content initialFrame) MCAddWanBatchPublisherConfigCodecRequestConsistencyCheckStrategyOffset) ;;
  r_name <~ DecodeString ;;
  r_targetCluster <~ DecodeString ;;
  r_publisherId <~ DecodeNullableForString ;;
  r_endpoints <~ DecodeString ;;
  dec_ret (r_name, r_targetCluster, r_publisherId, r_endpoints, r_queueCapacity, r_batchSize, r_batchMaxDelayMillis, r_responseTimeoutMillis, r_ackType, r_queueFullBehavior, r_consistencyCheckStrategy).

Lemma MCAddWanBatchPublisherConfigRequest_transmits (name : string) (targetCluster : string) (publisherId : string) (endpoints : string) (queueCapacity : Z) (batchSize : Z) (batchMaxDelayMillis : Z) (responseTimeoutMillis : Z) (ackType : Z) (queueFullBehavior : Z) (consistencyCheckStrategy : byte) : is_int32 queueCapacity -> is_int32 batchSize -> is_int32 batchMaxDelayMillis -> is_int32 responseTimeoutMillis -> is_int32 ackType -> is_int32 queueFullBehavior ->
  Transmits (EncodeMCAddWanBatchPublisherConfigRequest name targetCluster publisherId endpoints queueCapacity batchSize batchMaxDelayMillis responseTimeoutMillis ackType queueFullBehavior consistencyCheckStrategy) ReadMCAddWanBatchPublisherConfigRequest (name, targetCluster, (norm_string publisherId), endpoints, queueCapacity, batchSize, batchMaxDelayMillis, responseTimeoutMillis, ackType, queueFullBehavior, consistencyCheckStrategy).
Proof.
  intros; unfold EncodeMCAddWanBatchPublisherConfigRequest, ReadMCAddWanBatchPublisherConfigRequest; transmits.
Qed.

(** ** MCChangeWanReplicationState *)

Definition ReadMCChangeWanReplicationStateRequest : Dec (string * string * byte) :=
  initialFrame <~ dec_frame ;;
  r_newState <~ dec_lift (DecodeByte (Content initialFrame) MCChangeWanReplicationStateCodecRequestNewStateOffset) ;;
  r_wanReplicationName <~ DecodeString ;;
  r_wanPublisherId <~ DecodeString ;;
  dec_ret (r_wanReplicationName, r_wanPublisherId, r_newState).

Lemma MCChangeWanReplicationStateRequest_transmits (wanReplicationName : string) (wanPublisherId : string) (newState : byte) :
  Transmits (EncodeMCChangeWanReplicationStateRequest wanReplicationName wanPublisherId newState) ReadMCChangeWanReplicationStateRequest (wanReplicationName, wanPublisherId, newState).
Proof.
  intros; unfold EncodeMCChangeWanReplicationStateRequest, ReadMCChangeWanReplicationStateRequest; transmits.
Qed.

(** ** MCClearWanQueues *)

Definition ReadMCClearWanQueuesRequest : Dec (string * string) :=
  initialFrame <~ dec_frame ;;
  r_wanReplicationName <~ DecodeString ;;
  r_wanPublisherId <~ DecodeString ;;
  dec_ret (r_wanReplicationName, r_wanPublisherId).

Lemma MCClearWanQueuesRequest_transmits (wanReplicationName : string) (wanPublisherId : string) :
  Transmits (EncodeMCClearWanQueuesRequest wanReplicationName wanPublisherId) ReadMCClearWanQueuesRequest (wanReplicationName, wanPublisherId).
Proof.
  intros; unfold EncodeMCClearWanQueuesRequest, ReadMCClearWanQueuesRequest; transmits.
Qed.

(** ** MCWanSyncMap *)

Definition ReadMCWanSyncMapRequest : Dec WanSyncRef :=
  initialFrame <~ dec_frame ;;
  r_Type <~ dec_lift (DecodeInt (Content initialFrame) MCWanSyncMapCodecRequestWanSyncTypeOffset) ;;
  r_WanReplicationName <~ DecodeString ;;
  r_WanPublisherId <~ DecodeString ;;
  r_MapName <~ DecodeNullableForString ;;
  dec_ret {|
    WanSyncRef_WanReplicationName := r_WanReplicationName;
    WanSyncRef_WanPublisherId := r_WanPublisherId;
    WanSyncRef_Type := r_Type;
    WanSyncRef_MapName := r_MapName |}.

Definition MCWanSyncMapRequest_norm (wanSync : WanSyncRef) : WanSyncRef := {|
  WanSyncRef_WanReplicationName := WanSyncRef_WanReplicationName wanSync;
  WanSyncRef_WanPublisherId := WanSyncRef_WanPublisherId wanSync;
  WanSyncRef_Type := WanSyncRef_Type wanSync;
  WanSyncRef_MapName := norm_string (WanSyncRef_MapName wanSync) |}.

Lemma MCWanSyncMapRequest_transmits (wanSync : WanSyncRef) : is_int32 (WanSyncRef_Type wanSync) ->
  Transmits (EncodeMCWanSyncMapRequest wanSync) ReadMCWanSyncMapRequest (MCWanSyncMapRequest_norm wanSync).
Proof.
  intros; destruct wanSync; unfold EncodeMCWanSyncMapRequest, ReadMCWanSyncMapRequest; transmits.
Qed.

(** ** JetUploadJobMetaData *)

Definition ReadJetUploadJobMetaDataRequest : Dec JobMetaData :=
  initialFrame <~ dec_frame ;;
  r_SessionId <~ dec_lift (DecodeUUID (Content initialFrame) JetUploadJobMetaDataCodecRequestSessionIdOffset) ;;
  r_JarOnMember <~ dec_lift (DecodeBoolean (Content initialFrame) JetUploadJobMetaDataCodecRequestJarOnMemberOffset) ;;
  r_FileName <~ DecodeString ;;
  r_Sha256Hex <~ DecodeString ;;
  r_SnapshotName <~ DecodeNullableForString ;;
  r_JobName <~ DecodeNullableForString ;;
  r_MainClass <~ DecodeNullableForString ;;
  r_JobParameters <~ DecodeListMultiFrameForString ;;
  dec_ret {|
    JobMetaData_SessionId := r_SessionId;
    JobMetaData_JarOnMember := r_JarOnMember;
    JobMetaData_FileName := r_FileName;
    JobMetaData_Sha256Hex := r_Sha256Hex;
    JobMetaData_SnapshotName := r_SnapshotName;
    JobMetaData_JobName := r_JobName;
    JobMetaData_MainClass := r_MainClass;
    JobMetaData_JobParameters := r_JobParameters |}.

Definition JetUploadJobMetaDataRequest_norm (jobMetaData : JobMetaData) : JobMetaData := {|
  JobMetaData_SessionId := JobMetaData_SessionId jobMetaData;
  JobMetaData_JarOnMember := JobMetaData_JarOnMember jobMetaData;
  JobMetaData_FileName := JobMetaData_FileName jobMetaData;
  JobMetaData_Sha256Hex := JobMetaData_Sha256Hex jobMetaData;
  JobMetaData_SnapshotName := norm_string (JobMetaData_SnapshotName jobMetaData);
  JobMetaData_JobName := norm_string (JobMetaData_JobName jobMetaData);
  JobMetaData_MainClass := norm_string (JobMetaData_MainClass jobMetaData);
  JobMetaData_JobParameters := JobMetaData_JobParameters jobMetaData |}.

Lemma JetUploadJobMetaDataRequest_transmits (jobMetaData : JobMetaData) :
  Transmits (EncodeJetUploadJobMetaDataRequest jobMetaData) ReadJetUploadJobMetaDataRequest (JetUploadJobMetaDataRequest_norm jobMetaData).
Proof.
  intros; destruct jobMetaData; unfold EncodeJetUploadJobMetaDataRequest, ReadJetUploadJobMetaDataRequest; transmits.
Qed.

(** ** JetUploadJobMultipart *)

Definition ReadJetUploadJobMultipartRequest : Dec (UUID * Z * Z * list byte * Z) :=
  initialFrame <~ dec_frame ;;
  r_sessionId <~ dec_lift (DecodeUUID (Content initialFrame) JetUploadJobMultipartCodecRequestSessionIdOffset) ;;
  r_currentPartNumber <~ dec_lift (DecodeInt (Content initialFrame) JetUploadJobMultipartCodecRequestCurrentPartNumberOffset) ;;
  r_totalPartNumber <~ dec_lift (DecodeInt (Content initialFrame) JetUploadJobMultipartCodecRequestTotalPartNumberOffset) ;;
  r_partSize <~ dec_lift (DecodeInt (Content initialFrame) JetUploadJobMultipartCodecRequestPartSizeOffset) ;;
  r_partData <~ read_bytes ;;
  dec_ret (r_sessionId, r_currentPartNumber, r_totalPartNumber, r_partData, r_partSize).

Lemma JetUploadJobMultipartRequest_transmits (sessionId : UUID) (currentPartNumber : Z) (totalPartNumber : Z) (partData : list byte) (partSize : Z) : is_int32 currentPartNumber -> is_int32 totalPartNumber -> is_int32 partSize ->
  Transmits (EncodeJetUploadJobMultipartRequest sessionId currentPartNumber totalPartNumber partData partSize) ReadJetUploadJobMultipartRequest (sessionId, currentPartNumber, totalPartNumber, partData, partSize).
Proof.
  intros; unfold EncodeJetUploadJobMultipartRequest, ReadJetUploadJobMultipartRequest; transmits.
Qed.

(** ** JetTerminateJob *)

Definition ReadJetTerminateJobRequest : Dec JetTerminateJob :=
  initialFrame <~ dec_frame ;;
  r_JobId <~ dec_lift (DecodeLong (Content initialFrame) JetTerminateJobCodecRequestJobIdOffset) ;;
  r_TerminateMode <~ dec_lift (DecodeInt (Content initialFrame) JetTerminateJobCodecRequestTerminateModeOffset) ;;
  r_LightJobCoordinator <~ dec_lift (DecodeUUID (Content initialFrame) JetTerminateJobCodecRequestLightJobCoordinatorOffset) ;;
  dec_ret {|
    JetTerminateJob_JobId := r_JobId;
    JetTerminateJob_TerminateMode := r_TerminateMode;
    JetTerminateJob_LightJobCoordinator := r_LightJobCoordinator |}.

Definition JetTerminateJobRequest_norm (job : JetTerminateJob) : JetTerminateJob := {|
  JetTerminateJob_JobId := JetTerminateJob_JobId job;
  JetTerminateJob_TerminateMode := JetTerminateJob_TerminateMode job;
  JetTerminateJob_LightJobCoordinator := JetTerminateJob_LightJobCoordinator job |}.

Lemma JetTerminateJobRequest_transmits (job : JetTerminateJob) : is_int64 (JetTerminateJob_JobId job) -> is_int32 (JetTerminateJob_TerminateMode job) ->
  Transmits (EncodeJetTerminateJobRequest job) ReadJetTerminateJobRequest (JetTerminateJobRequest_norm job).
Proof.
  intros; destruct job; unfold EncodeJetTerminateJobRequest, ReadJetTerminateJobRequest; transmits.
Qed.

(** ** JetResumeJob *)

Definition ReadJetResumeJobRequest : Dec (Z) :=
  initialFrame <~ dec_frame ;;
  r_jobId <~ dec_lift (DecodeLong (Content initialFrame) JetResumeJobCodecRequestJobIdOffset) ;;
  dec_ret (r_jobId).

Lemma JetResumeJobRequest_transmits (jobId : Z) : is_int64 jobId ->
  Transmits (EncodeJetResumeJobRequest jobId) ReadJetResumeJobRequest (jobId).
Proof.
  intros; unfold EncodeJetResumeJobRequest, ReadJetResumeJobRequest; transmits.
Qed.

(** ** JetExportSnapshot *)

Definition ReadJetExportSnapshotRequest : Dec (Z * string * bool) :=
  initialFrame <~ dec_frame ;;
  r_jobId <~ dec_lift (DecodeLong (Content initialFrame) JetExportSnapshotCodecRequestJobIdOffset) ;;
  r_cancelJob <~ dec_lift (DecodeBoolean (Content initialFrame) JetExportSnapshotCodecRequestCancelJobOffset) ;;
  r_name <~ DecodeString ;;
  dec_ret (r_jobId, r_name, r_cancelJob).

Lemma JetExportSnapshotRequest_transmits (jobId : Z) (name : string) (cancelJob : bool) : is_int64 jobId ->
  Transmits (EncodeJetExportSnapshotRequest jobId name cancelJob) ReadJetExportSnapshotRequest (jobId, name, cancelJob).
Proof.
  intros; unfold EncodeJetExportSnapshotRequest, ReadJetExportSnapshotRequest; transmits.
Qed.

(** ** CPGroupCreateCPGroup *)

Definition ReadCPGroupCreateCPGroupRequest : Dec (string) :=
  initialFrame <~ dec_frame ;;
  r_proxyName <~ DecodeString ;;
  dec_ret (r_proxyName).

Lemma CPGroupCreateCPGroupRequest_transmits (proxyName : string) :
  Transmits (EncodeCPGroupCreateCPGroupRequest proxyName) ReadCPGroupCreateCPGroupRequest (proxyName).
Proof.
  intros; unfold EncodeCPGroupCreateCPGroupRequest, ReadCPGroupCreateCPGroupRequest; transmits.
Qed.

(** ** CPGroupDestroyCPObject *)

Definition ReadCPGroupDestroyCPObjectRequest : Dec (RaftGroupId * string * string) :=
  initialFrame <~ dec_frame ;;
  r_groupId <~ DecodeRaftGroupId ;;
  r_serviceName <~ DecodeString ;;
  r_objectName <~ DecodeString ;;
  dec_ret (r_groupId, r_serviceName, r_objectName).

Lemma CPGroupDestroyCPObjectRequest_transmits (groupId : RaftGroupId) (serviceName : string) (objectName : string) : RaftGroupId_ok groupId ->
  Transmits (EncodeCPGroupDestroyCPObjectRequest groupId serviceName objectName) ReadCPGroupDestroyCPObjectRequest (groupId, serviceName, objectName).
Proof.
  intros; unfold EncodeCPGroupDestroyCPObjectRequest, ReadCPGroupDestroyCPObjectRequest; transmits.
Qed.

(** ** CPMapGet *)

Definition ReadCPMapGetRequest : Dec (RaftGroupId * string * Data) :=
  initialFrame <~ dec_frame ;;
  r_groupId <~ DecodeRaftGroupId ;;
  r_name <~ DecodeString ;;
  r_key <~ DecodeData ;;
  dec_ret (r_groupId, r_name, r_key).

Lemma CPMapGetRequest_transmits (groupId : RaftGroupId) (name : string) (key : Data) : RaftGroupId_ok groupId ->
  Transmits (EncodeCPMapGetRequest groupId name key) ReadCPMapGetRequest (groupId, name, (norm_data key)).
Proof.
  intros; unfold EncodeCPMapGetRequest, ReadCPMapGetRequest; transmits.
Qed.

(** ** CPMapPut *)

Definition ReadCPMapPutRequest : Dec (RaftGroupId * string * Data * Data) :=
  initialFrame <~ dec_frame ;;
  r_groupId <~ DecodeRaftGroupId ;;
  r_name <~ DecodeString ;;
  r_key <~ DecodeData ;;
  r_value <~ DecodeData ;;
  dec_ret (r_groupId, r_name, r_key, r_value).

Lemma CPMapPutRequest_transmits (groupId : RaftGroupId) (name : string) (key : Data) (value : Data) : RaftGroupId_ok groupId ->
  Transmits (EncodeCPMapPutRequest groupId name key value) ReadCPMapPutRequest (groupId, name, (norm_data key), (norm_data value)).
Proof.
  intros; unfold EncodeCPMapPutRequest, ReadCPMapPutRequest; transmits.
Qed.

(** ** CPMapSet *)

Definition ReadCPMapSetRequest : Dec (RaftGroupId * string * Data * Data) :=
  initialFrame <~ dec_frame ;;
  r_groupId <~ DecodeRaftGroupId ;;
  r_name <~ DecodeString ;;
  r_key <~ DecodeData ;;
  r_value <~ DecodeData ;;
  dec_ret (r_groupId, r_name, r_key, r_value).

Lemma CPMapSetRequest_transmits (groupId : RaftGroupId) (name : string) (key : Data) (value : Data) : RaftGroupId_ok groupId ->
  Transmits (EncodeCPMapSetRequest groupId name key value) ReadCPMapSetRequest (groupId, name, (norm_data key), (norm_data value)).
Proof.
  intros; unfold EncodeCPMapSetRequest, ReadCPMapSetRequest; transmits.
Qed.

(** ** CPMapDelete *)

Definition ReadCPMapDeleteRequest : Dec (RaftGroupId * string * Data) :=
  initialFrame <~ dec_frame ;;
  r_groupId <~ DecodeRaftGroupId ;;
  r_name <~ DecodeString ;;
  r_key <~ DecodeData ;;
  dec_ret (r_groupId, r_name, r_key).

Lemma CPMapDeleteRequest_transmits (groupId : RaftGroupId) (name : string) (key : Data) : RaftGroupId_ok groupId ->
  Transmits (EncodeCPMapDeleteRequest groupId name key) ReadCPMapDeleteRequest (groupId, name, (norm_data key)).
Proof.
  intros; unfold EncodeCPMapDeleteRequest, ReadCPMapDeleteRequest; transmits.
Qed.

(** ** CPMapRemove *)

Definition ReadCPMapRemoveRequest : Dec (RaftGroupId * string * Data) :=
  initialFrame <~ dec_frame ;;
  r_groupId <~ DecodeRaftGroupId ;;
  r_name <~ DecodeString ;;
  r_key <~ DecodeData ;;
  dec_ret (r_groupId, r_name, r_key).

Lemma CPMapRemoveRequest_transmits (groupId : RaftGroupId) (name : string) (key : Data) : RaftGroupId_ok groupId ->
  Transmits (EncodeCPMapRemoveRequest groupId name key) ReadCPMapRemoveRequest (groupId, name, (norm_data key)).
Proof.
  intros; unfold EncodeCPMapRemoveRequest, ReadCPMapRemoveRequest; transmits.
Qed.

(** ** CPMapCompareAndSet *)

Definition ReadCPMapCompareAndSetRequest : Dec (RaftGroupId * string * Data * Data * Data) :=
  initialFrame <~ dec_frame ;;
  r_groupId <~ DecodeRaftGroupId ;;
  r_name <~ DecodeString ;;
  r_key <~ DecodeData ;;
  r_expectedValue <~ DecodeData ;;
  r_newValue <~ DecodeData ;;
  dec_ret (r_groupId, r_name, r_key, r_expectedValue, r_newValue).

Lemma CPMapCompareAndSetRequest_transmits (groupId : RaftGroupId) (name : string) (key : Data) (expectedValue : Data) (newValue : Data) : RaftGroupId_ok groupId ->
  Transmits (EncodeCPMapCompareAndSetRequest groupId name key expectedValue newValue) ReadCPMapCompareAndSetRequest (groupId, name, (norm_data key), (norm_data expectedValue), (norm_data newValue)).
Proof.
  intros; unfold EncodeCPMapCompareAndSetRequest, ReadCPMapCompareAndSetRequest; transmits.
Qed.

End RequestFacts.
