(* ===== verification/CodecProps.v ===== *)
(** * What the codec layer guarantees

    The properties of the client protocol codecs: every structure and every
    request is received as it was sent, up to what the wire format cannot
    tell apart; fixed-width fields do not disturb each other; the places where
    an encoder and its decoder disagree. *)

From S2P Require Import Prelude Proto CodecBuiltin CodecWire CodecFacts CodecTypes CodecConfig CodecConfigFacts CodecExtra CodecRequests CodecTransmit CodecRequestFacts.

#[local] Open Scope go_scope.
#[local] Open Scope string_scope.
#[local] Open Scope list_scope.
#[local] Open Scope Z_scope.

(** ** Fixed-width fields *)

(** A value of [size] bytes: in range it is stored, read back, and nothing
    else of the buffer changes; out of range the write panics. *)
Definition FixedWidth {A} (size : Z) (ok : A -> Prop)
    (enc : list byte -> Z -> A -> res (list byte)) (dec : list byte -> Z -> res A) : Prop :=
  forall c off v, ok v ->
    (0 <= off /\ off + size <= len c ->
       exists c', enc c off v = Ret c' /\ dec c' off = Ret v /\ len c' = len c /\
         forall o n, o + Z.of_nat n <= off \/ off + size <= o ->
           get_bytes c' o n = get_bytes c o n) /\
    (~ (0 <= off /\ off + size <= len c) -> enc c off v = Panic).

Lemma FixedWidth_put {A} (ok : A -> Prop) enc dec (bytes : A -> list byte) n :
  (forall c off v, enc c off v = put_bytes c off (bytes v)) ->
  (forall v, length (bytes v) = n) ->
  (forall c off v, ok v -> get_bytes c off n = Ret (bytes v) -> dec c off = Ret v) ->
  FixedWidth (Z.of_nat n) ok enc dec.
Proof.
  intros He Hl Hd c off v Hv. rewrite He. unfold put_bytes.
  assert (len (bytes v) = Z.of_nat n) as Hlen by (unfold len; by rewrite Hl).
  split.
  - intros [H1 H2]. rewrite (proj2 (in_slice_true _ _ _)) by (rewrite Hl; lia).
    exists (splice c off (bytes v)). split; [done|]. split.
    { apply Hd; [done|]. apply get_bytes_splice_same; [done|lia|lia]. }
    split; [apply len_splice; lia|].
    intros o k Ho. apply get_bytes_splice_other; lia.
  - intros H. destruct (in_slice c off (length (bytes v))) eqn:E; [|done].
    apply in_slice_true in E. rewrite Hl in E. lia.
Qed.

Section Props.
Context `{P : Proto} `{!ProtoLaws P} `{R : MapRange} `{E : EventJson}.

(** C40. Fixed-width values round-trip at any offset inside the
    buffer, leave every other byte alone, and panic exactly when they do not
    fit: booleans, bytes, and 16, 32 and 64-bit integers over their full range. *)
Theorem fixed_width_fields :
  FixedWidth 1 (fun _ => True) EncodeBoolean DecodeBoolean /\
  FixedWidth 1 (fun _ => True) EncodeByte DecodeByte /\
  FixedWidth 2 is_int16 EncodeShort DecodeShort /\
  FixedWidth 4 is_int32 EncodeInt DecodeInt /\
  FixedWidth 8 is_int64 EncodeLong DecodeLong.
Proof.
  split_and!.
  - apply (FixedWidth_put _ _ _ bool_bytes 1); eauto using EncodeBoolean_put, length_bool_bytes, DecodeBoolean_get.
  - apply (FixedWidth_put _ _ _ (fun v => [v]) 1); eauto using DecodeByte_get.
  - apply (FixedWidth_put _ _ _ (fun v => le_bytes 2 (uint16 v)) 2); eauto using length_le_bytes, DecodeShort_get.
  - apply (FixedWidth_put _ _ _ (fun v => le_bytes 4 (uint32 v)) 4); eauto using length_le_bytes, DecodeInt_get.
  - apply (FixedWidth_put _ _ _ (fun v => le_bytes 8 (uint64 v)) 8); eauto using length_le_bytes, DecodeLong_get.
Qed.

(** Every configuration structure decodes to what was encoded (up to
    its [_norm]), and still does when a newer peer puts additional
    well-bracketed frames before the end frame: unknown fields are skipped and
    the iterator stops right behind the structure. *)
Theorem config_structures_forward_compatible :
  (forall v, Capacity_ok v -> ForwardCompatible (EncodeCapacity v) DecodeCapacity (Capacity_norm v)) /\
  (forall v, MemoryTierConfig_ok v -> ForwardCompatible (EncodeMemoryTierConfig v) DecodeMemoryTierConfig (MemoryTierConfig_norm v)) /\
  (forall v, ForwardCompatible (EncodeDiskTierConfig v) DecodeDiskTierConfig v) /\
  (forall v, TieredStoreConfig_ok v -> ForwardCompatible (EncodeTieredStoreConfig v) DecodeTieredStoreConfig (TieredStoreConfig_norm v)) /\
  (forall v, BitmapIndexOptions_ok v -> ForwardCompatible (EncodeBitmapIndexOptions v) DecodeBitmapIndexOptions v) /\
  (forall v, IndexConfig_ok v -> ForwardCompatible (EncodeIndexConfig v) DecodeIndexConfig (IndexConfig_norm v)) /\
  (forall v, ForwardCompatible (EncodeAttributeConfig v) DecodeAttributeConfig v) /\
  (forall v, EvictionConfigHolder_ok v -> ForwardCompatible (EncodeEvictionConfigHolder v) DecodeEvictionConfigHolder (EvictionConfigHolder_norm v)) /\
  (forall v, ForwardCompatible (EncodeHotRestartConfig v) DecodeHotRestartConfig v) /\
  (forall v, EventJournalConfig_ok v -> ForwardCompatible (EncodeEventJournalConfig v) DecodeEventJournalConfig v) /\
  (forall v, MerkleTreeConfig_ok v -> ForwardCompatible (EncodeMerkleTreeConfig v) DecodeMerkleTreeConfig v) /\
  (forall v, ForwardCompatible (EncodeDataPersistenceConfig v) DecodeDataPersistenceConfig v) /\
  (forall v, DurationConfig_ok v -> ForwardCompatible (EncodeDurationConfig v) DecodeDurationConfig v) /\
  (forall v, TimedExpiryPolicyFactoryConfig_ok v -> ForwardCompatible (EncodeTimedExpiryPolicyFactoryConfig v) DecodeTimedExpiryPolicyFactoryConfig v) /\
  (forall v, MergePolicyConfig_ok v -> ForwardCompatible (EncodeMergePolicyConfig v) DecodeMergePolicyConfig v) /\
  (forall v, NearCachePreloaderConfig_ok v -> ForwardCompatible (EncodeNearCachePreloaderConfig v) DecodeNearCachePreloaderConfig v) /\
  (forall v, NearCacheConfigHolder_ok v -> ForwardCompatible (EncodeNearCacheConfigHolder v) DecodeNearCacheConfigHolder (NearCacheConfigHolder_norm v)) /\
  (forall v, ForwardCompatible (EncodePredicateConfigHolder v) DecodePredicateConfigHolder (PredicateConfigHolder_norm v)) /\
  (forall v, ListenerConfigHolder_ok v -> ForwardCompatible (EncodeListenerConfigHolder v) DecodeListenerConfigHolder (ListenerConfigHolder_norm v)) /\
  (forall v, QueryCacheConfigHolder_ok v -> ForwardCompatible (EncodeQueryCacheConfigHolder v) DecodeQueryCacheConfigHolder (QueryCacheConfigHolder_norm v)) /\
  (forall v, MapStoreConfigHolder_ok v -> ForwardCompatible (EncodeMapStoreConfigHolder v) DecodeMapStoreConfigHolder (MapStoreConfigHolder_norm v)) /\
  (forall v, ForwardCompatible (EncodeWanReplicationRef v) DecodeWanReplicationRef v) /\
  (forall v, RaftGroupId_ok v -> ForwardCompatible (EncodeRaftGroupId v) DecodeRaftGroupId v).
Proof. split_and!; intros; apply StructWire_forward_compatible; auto with wire. Qed.

(** ** Requests *)

(** C1. The map configuration request is built without a panic and a
    member reading it gets every field of the input, consuming the whole
    message. *)
Theorem add_map_config_request_received (c : AddMapConfigInput) :
  AddMapConfigInput_ok c ->
  Transmits (EncodeDynamicConfigAddMapConfigRequest c)
    ReadDynamicConfigAddMapConfigRequest (DynamicConfigAddMapConfigRequest_norm c).
Proof. apply DynamicConfigAddMapConfigRequest_transmits. Qed.

(** The requests that create caches, multi-maps, topics, replicated
    maps, queues and user code namespaces are received field by field (a queue
    store is never sent). *)
Theorem data_structure_requests_received :
  (forall (c : CacheConfigInput), CacheConfigInput_ok c -> Transmits (EncodeDynamicConfigAddCacheConfigRequest c) ReadDynamicConfigAddCacheConfigRequest (DynamicConfigAddCacheConfigRequest_norm c)) /\
  (forall (c : MultiMapConfig), MultiMapConfig_ok c -> Transmits (EncodeDynamicConfigAddMultiMapConfigRequest c) ReadDynamicConfigAddMultiMapConfigRequest (DynamicConfigAddMultiMapConfigRequest_norm c)) /\
  (forall (t : TopicConfig), TopicConfig_ok t -> Transmits (EncodeDynamicConfigAddTopicConfigRequest t) ReadDynamicConfigAddTopicConfigRequest (DynamicConfigAddTopicConfigRequest_norm t)) /\
  (forall (c : ReplicatedMapConfig), ReplicatedMapConfig_ok c -> Transmits (EncodeDynamicConfigAddReplicatedMapConfigRequest c) ReadDynamicConfigAddReplicatedMapConfigRequest (DynamicConfigAddReplicatedMapConfigRequest_norm c)) /\
  (forall (input : QueueConfigInput), QueueConfigInput_ok input -> Transmits (EncodeDynamicConfigAddQueueConfigRequest input) ReadDynamicConfigAddQueueConfigRequest (DynamicConfigAddQueueConfigRequest_norm input)) /\
  (forall (config : UserCodeNamespaceConfig), UserCodeNamespaceConfig_ok config -> Transmits (EncodeDynamicConfigAddUserCodeNamespaceConfigRequest config) ReadDynamicConfigAddUserCodeNamespaceConfigRequest (DynamicConfigAddUserCodeNamespaceConfigRequest_norm config)).
Proof. split_and!; [apply DynamicConfigAddCacheConfigRequest_transmits|apply DynamicConfigAddMultiMapConfigRequest_transmits|apply DynamicConfigAddTopicConfigRequest_transmits|apply DynamicConfigAddReplicatedMapConfigRequest_transmits|apply DynamicConfigAddQueueConfigRequest_transmits|apply DynamicConfigAddUserCodeNamespaceConfigRequest_transmits]. Qed.

(** The requests that create executor services are received field by
    field, except that a scheduled executor's capacity policy never reaches
    the member. *)
Theorem executor_requests_received :
  (forall (es : ExecutorServiceConfig), ExecutorServiceConfig_ok es -> Transmits (EncodeDynamicConfigAddExecutorConfigRequest es) ReadDynamicConfigAddExecutorConfigRequest (DynamicConfigAddExecutorConfigRequest_norm es)) /\
  (forall (es : DurableExecutorServiceConfig), DurableExecutorServiceConfig_ok es -> Transmits (EncodeDynamicConfigAddDurableExecutorConfigRequest es) ReadDynamicConfigAddDurableExecutorConfigRequest (DynamicConfigAddDurableExecutorConfigRequest_norm es)) /\
  (forall (es : ScheduledExecutorServiceConfig), ScheduledExecutorServiceConfig_ok es -> Transmits (EncodeDynamicConfigAddScheduledExecutorConfigRequest es) ReadDynamicConfigAddScheduledExecutorConfigRequest (DynamicConfigAddScheduledExecutorConfigRequest_norm es)) /\
  (forall es, ScheduledExecutorServiceConfig_CapacityPolicy
                (DynamicConfigAddScheduledExecutorConfigRequest_norm es) = EmptyString).
Proof. split_and!; [apply DynamicConfigAddExecutorConfigRequest_transmits
  |apply DynamicConfigAddDurableExecutorConfigRequest_transmits
  |apply DynamicConfigAddScheduledExecutorConfigRequest_transmits|done]. Qed.

(** The Management Center requests of the operator (map update, cluster
    state, WAN publishers, WAN queues and WAN synchronization) are received
    with their arguments. *)
Theorem management_requests_received :
  (forall (mapName : string) (timeToLiveSeconds : Z) (maxIdleSeconds : Z) (evictionPolicy : Z) (readBackupData : bool) (maxSize : Z) (maxSizePolicy : Z) (wrr : WanReplicationRef), is_int32 timeToLiveSeconds -> is_int32 maxIdleSeconds -> is_int32 evictionPolicy -> is_int32 maxSize -> is_int32 maxSizePolicy -> Transmits (EncodeMCUpdateMapConfigRequest mapName timeToLiveSeconds maxIdleSeconds evictionPolicy readBackupData maxSize maxSizePolicy wrr) ReadMCUpdateMapConfigRequest (mapName, timeToLiveSeconds, maxIdleSeconds, evictionPolicy, readBackupData, maxSize, maxSizePolicy, wrr)) /\
  (forall (mapName : string), Transmits (EncodeMCGetMapConfigRequest mapName) ReadMCGetMapConfigRequest (mapName)) /\
  (forall (newState : Z), is_int32 newState -> Transmits (EncodeMCChangeClusterStateRequest newState) ReadMCChangeClusterStateRequest (newState)) /\
  (forall (name : string) (targetCluster : string) (publisherId : string) (endpoints : string) (queueCapacity : Z) (batchSize : Z) (batchMaxDelayMillis : Z) (responseTimeoutMillis : Z) (ackType : Z) (queueFullBehavior : Z) (consistencyCheckStrategy : byte), is_int32 queueCapacity -> is_int32 batchSize -> is_int32 batchMaxDelayMillis -> is_int32 responseTimeoutMillis -> is_int32 ackType -> is_int32 queueFullBehavior -> Transmits (EncodeMCAddWanBatchPublisherConfigRequest name targetCluster publisherId endpoints queueCapacity batchSize batchMaxDelayMillis responseTimeoutMillis ackType queueFullBehavior consistencyCheckStrategy) ReadMCAddWanBatchPublisherConfigRequest (name, targetCluster, (norm_string publisherId), endpoints, queueCapacity, batchSize, batchMaxDelayMillis, responseTimeoutMillis, ackType, queueFullBehavior, consistencyCheckStrategy)) /\
  (forall (wanReplicationName : string) (wanPublisherId : string) (newState : byte), Transmits (EncodeMCChangeWanReplicationStateRequest wanReplicationName wanPublisherId newState) ReadMCChangeWanReplicationStateRequest (wanReplicationName, wanPublisherId, newState)) /\
  (forall (wanReplicationName : string) (wanPublisherId : string), Transmits (EncodeMCClearWanQueuesRequest wanReplicationName wanPublisherId) ReadMCClearWanQueuesRequest (wanReplicationName, wanPublisherId)) /\
  (forall (wanSync : WanSyncRef), is_int32 (WanSyncRef_Type wanSync) -> Transmits (EncodeMCWanSyncMapRequest wanSync) ReadMCWanSyncMapRequest (MCWanSyncMapRequest_norm wanSync)).
Proof. split_and!; [apply MCUpdateMapConfigRequest_transmits|apply MCGetMapConfigRequest_transmits|apply MCChangeClusterStateRequest_transmits|apply MCAddWanBatchPublisherConfigRequest_transmits|apply MCChangeWanReplicationStateRequest_transmits|apply MCClearWanQueuesRequest_transmits|apply MCWanSyncMapRequest_transmits]. Qed.

(** The Jet job requests (upload, terminate, resume, snapshot export)
    are received with their arguments, session UUIDs included. *)
Theorem jet_requests_received :
  (forall (jobMetaData : JobMetaData), Transmits (EncodeJetUploadJobMetaDataRequest jobMetaData) ReadJetUploadJobMetaDataRequest (JetUploadJobMetaDataRequest_norm jobMetaData)) /\
  (forall (sessionId : UUID) (currentPartNumber : Z) (totalPartNumber : Z) (partData : list byte) (partSize : Z), is_int32 currentPartNumber -> is_int32 totalPartNumber -> is_int32 partSize -> Transmits (EncodeJetUploadJobMultipartRequest sessionId currentPartNumber totalPartNumber partData partSize) ReadJetUploadJobMultipartRequest (sessionId, currentPartNumber, totalPartNumber, partData, partSize)) /\
  (forall (job : JetTerminateJob), is_int64 (JetTerminateJob_JobId job) -> is_int32 (JetTerminateJob_TerminateMode job) -> Transmits (EncodeJetTerminateJobRequest job) ReadJetTerminateJobRequest (JetTerminateJobRequest_norm job)) /\
  (forall (jobId : Z), is_int64 jobId -> Transmits (EncodeJetResumeJobRequest jobId) ReadJetResumeJobRequest (jobId)) /\
  (forall (jobId : Z) (name : string) (cancelJob : bool), is_int64 jobId -> Transmits (EncodeJetExportSnapshotRequest jobId name cancelJob) ReadJetExportSnapshotRequest (jobId, name, cancelJob)).
Proof. split_and!; [apply JetUploadJobMetaDataRequest_transmits|apply JetUploadJobMultipartRequest_transmits|apply JetTerminateJobRequest_transmits|apply JetResumeJobRequest_transmits|apply JetExportSnapshotRequest_transmits]. Qed.

(** The CP subsystem requests are received with their group, names and
    serialized keys and values. *)
Theorem cp_requests_received :
  (forall (proxyName : string), Transmits (EncodeCPGroupCreateCPGroupRequest proxyName) ReadCPGroupCreateCPGroupRequest (proxyName)) /\
  (forall (groupId : RaftGroupId) (serviceName : string) (objectName : string), RaftGroupId_ok groupId -> Transmits (EncodeCPGroupDestroyCPObjectRequest groupId serviceName objectName) ReadCPGroupDestroyCPObjectRequest (groupId, serviceName, objectName)) /\
  (forall (groupId : RaftGroupId) (name : string) (key : Data), RaftGroupId_ok groupId -> Transmits (EncodeCPMapGetRequest groupId name key) ReadCPMapGetRequest (groupId, name, (norm_data key))) /\
  (forall (groupId : RaftGroupId) (name : string) (key : Data) (value : Data), RaftGroupId_ok groupId -> Transmits (EncodeCPMapPutRequest groupId name key value) ReadCPMapPutRequest (groupId, name, (norm_data key), (norm_data value))) /\
  (forall (groupId : RaftGroupId) (name : string) (key : Data) (value : Data), RaftGroupId_ok groupId -> Transmits (EncodeCPMapSetRequest groupId name key value) ReadCPMapSetRequest (groupId, name, (norm_data key), (norm_data value))) /\
  (forall (groupId : RaftGroupId) (name : string) (key : Data), RaftGroupId_ok groupId -> Transmits (EncodeCPMapDeleteRequest groupId name key) ReadCPMapDeleteRequest (groupId, name, (norm_data key))) /\
  (forall (groupId : RaftGroupId) (name : string) (key : Data), RaftGroupId_ok groupId -> Transmits (EncodeCPMapRemoveRequest groupId name key) ReadCPMapRemoveRequest (groupId, name, (norm_data key))) /\
  (forall (groupId : RaftGroupId) (name : string) (key : Data) (expectedValue : Data) (newValue : Data), RaftGroupId_ok groupId -> Transmits (EncodeCPMapCompareAndSetRequest groupId name key expectedValue newValue) ReadCPMapCompareAndSetRequest (groupId, name, (norm_data key), (norm_data expectedValue), (norm_data newValue))).
Proof. split_and!; [apply CPGroupCreateCPGroupRequest_transmits|apply CPGroupDestroyCPObjectRequest_transmits|apply CPMapGetRequest_transmits|apply CPMapPutRequest_transmits|apply CPMapSetRequest_transmits|apply CPMapDeleteRequest_transmits|apply CPMapRemoveRequest_transmits|apply CPMapCompareAndSetRequest_transmits]. Qed.

(** Request and response message types. *)
Definition message_types : list (Z * Z) := [
  (DynamicConfigAddMapConfigCodecRequestMessageType, DynamicConfigAddMapConfigCodecResponseMessageType);
  (DynamicConfigAddCacheConfigCodecRequestMessageType, DynamicConfigAddCacheConfigCodecResponseMessageType);
  (DynamicConfigAddMultiMapConfigCodecRequestMessageType, DynamicConfigAddMultiMapConfigCodecResponseMessageType);
  (DynamicConfigAddTopicConfigCodecRequestMessageType, DynamicConfigAddTopicConfigCodecResponseMessageType);
  (DynamicConfigAddReplicatedMapConfigCodecRequestMessageType, DynamicConfigAddReplicatedMapConfigCodecResponseMessageType);
  (DynamicConfigAddQueueConfigCodecRequestMessageType, DynamicConfigAddQueueConfigCodecResponseMessageType);
  (DynamicConfigAddExecutorConfigCodecRequestMessageType, DynamicConfigAddExecutorConfigCodecResponseMessageType);
  (DynamicConfigAddDurableExecutorConfigCodecRequestMessageType, DynamicConfigAddDurableExecutorConfigCodecResponseMessageType);
  (DynamicConfigAddScheduledExecutorConfigCodecRequestMessageType, DynamicConfigAddScheduledExecutorConfigCodecResponseMessageType);
  (DynamicConfigAddUserCodeNamespaceConfigCodecRequestMessageType, DynamicConfigAddUserCodeNamespaceConfigCodecResponseMessageType);
  (MCUpdateMapConfigCodecRequestMessageType, MCUpdateMapConfigCodecResponseMessageType);
  (MCGetMapConfigCodecRequestMessageType, MCGetMapConfigCodecResponseMessageType);
  (MCChangeClusterStateCodecRequestMessageType, MCChangeClusterStateCodecResponseMessageType);
  (MCGetClusterMetadataCodecRequestMessageType, MCGetClusterMetadataCodecResponseMessageType);
  (MCGetMemberConfigCodecRequestMessageType, MCGetMemberConfigCodecResponseMessageType);
  (MCGetTimedMemberStateCodecRequestMessageType, MCGetTimedMemberStateCodecResponseMessageType);
  (MCTriggerHotRestartBackupCodecRequestMessageType, MCTriggerHotRestartBackupCodecResponseMessageType);
  (MCInterruptHotRestartBackupCodecRequestMessageType, MCInterruptHotRestartBackupCodecResponseMessageType);
  (MCAddWanBatchPublisherConfigCodecRequestMessageType, MCAddWanBatchPublisherConfigCodecResponseMessageType);
  (MCChangeWanReplicationStateCodecRequestMessageType, MCChangeWanReplicationStateCodecResponseMessageType);
  (MCClearWanQueuesCodecRequestMessageType, MCClearWanQueuesCodecResponseMessageType);
  (MCWanSyncMapCodecRequestMessageType, MCWanSyncMapCodecResponseMessageType);
  (MCPollMCEventsCodecRequestMessageType, MCPollMCEventsCodecResponseMessageType);
  (JetUploadJobMetaDataCodecRequestMessageType, JetUploadJobMetaDataCodecResponseMessageType);
  (JetTerminateJobCodecRequestMessageType, JetTerminateJobCodecResponseMessageType);
  (JetResumeJobCodecRequestMessageType, JetResumeJobCodecResponseMessageType);
  (JetExportSnapshotCodecRequestMessageType, JetExportSnapshotCodecResponseMessageType);
  (JetGetJobAndSqlSummaryListCodecRequestMessageType, JetGetJobAndSqlSummaryListCodecResponseMessageType);
  (CacheGetCodecRequestMessageType, CacheGetCodecResponseMessageType);
  (CacheGetAllCodecRequestMessageType, CacheGetAllCodecResponseMessageType);
  (CachePutCodecRequestMessageType, CachePutCodecResponseMessageType);
  (CachePutAllCodecRequestMessageType, CachePutAllCodecResponseMessageType);
  (CacheCreateConfigCodecRequestMessageType, CacheCreateConfigCodecResponseMessageType);
  (CacheGetConfigCodecRequestMessageType, CacheGetConfigCodecResponseMessageType);
  (CPGroupCreateCPGroupCodecRequestMessageType, CPGroupCreateCPGroupCodecResponseMessageType);
  (CPGroupDestroyCPObjectCodecRequestMessageType, CPGroupDestroyCPObjectCodecResponseMessageType);
  (CPMapGetCodecRequestMessageType, CPMapGetCodecResponseMessageType);
  (CPMapPutCodecRequestMessageType, CPMapPutCodecResponseMessageType);
  (CPMapSetCodecRequestMessageType, CPMapSetCodecResponseMessageType);
  (CPMapDeleteCodecRequestMessageType, CPMapDeleteCodecResponseMessageType);
  (CPMapRemoveCodecRequestMessageType, CPMapRemoveCodecResponseMessageType);
  (CPMapCompareAndSetCodecRequestMessageType, CPMapCompareAndSetCodecResponseMessageType);
  (ClientAuthenticationCodecRequestMessageType, ClientAuthenticationCodecResponseMessageType)].

(** No two messages share a request or response type and a response type
    is its request type plus one; the multipart upload of Jet jobs is the
    exception: it reuses both types of the job metadata upload, so a member
    cannot tell the two requests apart. *)
Theorem message_types_distinct :
  NoDup (message_types.*1 ++ message_types.*2) /\
  Forall (fun p => p.2 = p.1 + 1) message_types /\
  JetUploadJobMultipartCodecRequestMessageType = JetUploadJobMetaDataCodecRequestMessageType /\
  JetUploadJobMultipartCodecResponseMessageType = JetUploadJobMetaDataCodecResponseMessageType.
Proof.
  split; [apply (bool_decide_unpack _); vm_compute; exact I|].
  split; [apply (bool_decide_unpack _); vm_compute; exact I|]. done.
Qed.

(** ** Responses *)

(** The member's side of the events and job lists. *)
Definition events_response (events : list MCEvent) : res ClientMessage :=
  (enc_frame (NewFrameWith (make_bytes header_size) UnfragmentedMessage) >>>
   EncodeListMultiFrame EncodeMCEvent events) NewClientMessageForEncode.

Definition MCEvent_ok (e : MCEvent) : Prop := is_int64 (MCEvent_Timestamp e) /\ is_int32 (MCEvent_Type e).

(** What an event decodes to: its data is parsed from its JSON text. *)
Definition MCEvent_read (e : MCEvent) : MCEvent :=
  NewMCEvent (MCEvent_Timestamp e) (MCEvent_Type e) (MCEvent_DataJson e).

#[local] Hint Unfold MCEventCodecTimestampFieldOffset MCEventCodecTypeFieldOffset
  MCEventCodecTypeInitialFrameSize : offsets.

Lemma MCEvent_wire e : MCEvent_ok e -> StructWire (EncodeMCEvent e) DecodeMCEvent (MCEvent_read e).
Proof.
  intros Hok; destruct e; unfold MCEvent_ok in Hok; simpl in Hok; destruct_and?. struct_wire.
Qed.

(** A response decoder on a message of one frame and a wire value. *)
Lemma run_response {A} e (d : Dec A) v f m0 : Wire e d v -> frames m0 = [] ->
  exists m, (enc_frame f >>> e) m0 = Ret m /\
    forall n, (length (frames m) < n)%nat -> run_dec n (FrameIterator m) (dec_next ;;; d) = Ret v.
Proof.
  intros (g & gs & _ & _ & He & Hp) H0. destruct (He (AddFrame m0 f)) as (m & Em & Fm).
  exists m. split; [done|]. intros n Hn. rewrite frames_AddFrame, H0 in Fm. simpl in Fm.
  destruct (parses_bind dec_next (fun _ => d) [f] (g :: gs) _ v (parses_next f) Hp n
              (FrameIterator m) []) as (it & Ed & _).
  - by rewrite pending_FrameIterator, app_nil_r.
  - by rewrite Fm in Hn.
  - unfold run_dec. by rewrite Ed.
Qed.

(** Polling Management Center events returns all events of the response
    in order, with their JSON payload parsed, for any number of events. *)
Theorem poll_events_response (events : list MCEvent) :
  Forall MCEvent_ok events ->
  exists m, events_response events = Ret m /\
    forall n, (length (frames m) < n)%nat ->
      DecodeMCPollMCEventsResponse n m = Ret (map MCEvent_read events).
Proof.
  intros H. apply run_response; [|apply frames_New]. apply WireNN_Wire, wire_list.
  eapply Forall_impl; [exact H|]. intros e He. by apply WireNN_Wire, StructWire_NN, MCEvent_wire.
Qed.

(** ** Disagreements *)

Lemma emits_each_total {A} (enc : A -> Enc) (l : list A) :
  (forall x, exists fs, Emits (enc x) fs) -> exists fs, Emits (enc_each enc l) fs.
Proof.
  intros H. induction l as [|x l (fs & IH)]; [exists []; apply emits_nop|].
  destruct (H x) as (gs & Hgs). exists (gs ++ fs). by apply emits_seq.
Qed.

(** A list whose loop has the inverted condition: the first frame behind the
    begin frame stops it. *)
Lemma inverted_loop_skips {A} (d : Dec A) f : IsEndFrame f = false ->
  Parses (dec_next ;;;
          result <~ (fun n it => collect_loop NextFrameIsNotEnd d n [] n it) ;;
          dec_next ;;; dec_ret result) [Copy BeginFrame; f] [].
Proof.
  intros Hf n it rest Hp Hn. destruct n as [|n]; [simpl in Hn; lia|].
  destruct (Next_law it _ _ Hp) as (it1 & E1 & Hp1).
  destruct (Next_law it1 _ _ Hp1) as (it2 & E2 & Hp2).
  exists it2. split; [|done]. unfold dec_bind at 1, dec_next at 1. rewrite E1. cbn [bind_res fst snd].
  unfold dec_bind at 1.
  rewrite (collect_loop_S NextFrameIsNotEnd d n [] (S n) it1 true it1).
  - cbn [bind_res fst snd]. unfold dec_bind, dec_next. by rewrite E2.
  - unfold NextFrameIsNotEnd, dec_bind. rewrite (stop_ok _ _ _ _ Hp1). simpl. by rewrite Hf.
Qed.

(** The loop condition of [DecodeEntryListForDataAndData] is inverted: a
    non-empty entry list decodes to no entries at all, and the iterator is
    left in the middle of the list. *)
Theorem entry_list_decoded_empty (e : Data * Data) (es : list (Data * Data)) :
  exists key_frame rest,
    Emits (EncodeEntryListForDataAndData (e :: es)) (Copy BeginFrame :: key_frame :: rest) /\
    rest <> [] /\
    Parses DecodeEntryListForDataAndData (Copy BeginFrame :: [key_frame]) [].
Proof.
  destruct (emits_each_total (fun e : Data * Data => EncodeData e.1 >>> EncodeData e.2) es) as (gs & Hgs).
  { intros x. eexists. apply emits_frame_seq, emits_frame. }
  exists (NewFrame (ToByteArray (data_bytes e.1))),
         (NewFrame (ToByteArray (data_bytes e.2)) :: gs ++ [Copy EndFrame]).
  split; [|split; [done|]].
  - apply emits_frame_seq. apply (emits_seq _ _ (_ :: _ :: gs)); [|apply emits_frame].
    apply (emits_seq _ _ [_; _]); [apply emits_frame_seq, emits_frame|done].
  - apply inverted_loop_skips, NewFrame_end.
Qed.

(** Null data does not survive a round trip: nil is sent as a null frame and read
    back as empty, non-nil data, which is sent as a data frame. *)
Theorem nullable_data_not_idempotent :
  Emits (EncodeNullableForData None) [Copy NullFrame] /\
  Parses DecodeNullableForData [Copy NullFrame] (Some []) /\
  Emits (EncodeNullableForData (Some [])) [NewFrame []].
Proof.
  split; [apply emits_frame|]. split.
  - apply parses_null; [apply Null_null|apply parses_ret].
  - intros m. exists (AddFrame m (NewFrame [])). split; [|apply frames_AddFrame].
    unfold EncodeNullableForData, EncodeData, enc_frame. simpl. by rewrite ToByteArray_law.
Qed.

End Props.

(** ** Witnesses *)

Module Witnesses.
Import RefProto.

Definition sample_map : AddMapConfigInput :=
  {| AddMapConfigInput_Name := "orders"; AddMapConfigInput_BackupCount := 1;
     AddMapConfigInput_AsyncBackupCount := 0; AddMapConfigInput_TimeToLiveSeconds := 300;
     AddMapConfigInput_MaxIdleSeconds := 0;
     AddMapConfigInput_EvictionConfig := EvictionConfigHolder_zero;
     AddMapConfigInput_ReadBackupData := false;
     AddMapConfigInput_CacheDeserializedValues := "INDEX_ONLY";
     AddMapConfigInput_MergePolicy := "PutIfAbsentMergePolicy";
     AddMapConfigInput_MergeBatchSize := 100;
     AddMapConfigInput_InMemoryFormat := "BINARY";
     AddMapConfigInput_ListenerConfigs := None;
     AddMapConfigInput_PartitionLostListenerConfigs := None;
     AddMapConfigInput_StatisticsEnabled := true;
     AddMapConfigInput_SplitBrainProtectionName := " ";
     AddMapConfigInput_MapStoreConfig := MapStoreConfigHolder_zero;
     AddMapConfigInput_NearCacheConfig := NearCacheConfigHolder_zero;
     AddMapConfigInput_WanReplicationRef := WanReplicationRef_zero;
     AddMapConfigInput_IndexConfigs :=
       Some [mkIndexConfig "idx" 0 ["name"; "age"] BitmapIndexOptions_zero];
     AddMapConfigInput_AttributeConfigs := None;
     AddMapConfigInput_QueryCacheConfigs := None;
     AddMapConfigInput_PartitioningStrategyClassName := "";
     AddMapConfigInput_PartitioningStrategyImplementation := None;
     AddMapConfigInput_HotRestartConfig := HotRestartConfig_zero;
     AddMapConfigInput_EventJournalConfig := EventJournalConfig_zero;
     AddMapConfigInput_MerkleTreeConfig := MerkleTreeConfig_zero;
     AddMapConfigInput_MetadataPolicy := 0;
     AddMapConfigInput_PerEntryStatsEnabled := false;
     AddMapConfigInput_TieredStoreConfig := TieredStoreConfig_zero;
     AddMapConfigInput_DataPersistenceConfig := DataPersistenceConfig_zero;
     AddMapConfigInput_UserCodeNamespace := "ns" |}.

Lemma sample_map_ok : AddMapConfigInput_ok sample_map.
Proof.
  unfold AddMapConfigInput_ok, sample_map, is_sint; simpl.
  repeat split; repeat constructor; simpl; try lia; try done.
Qed.

Lemma add_map_config_witness :
  AddMapConfigInput_ok sample_map /\
  Transmits (EncodeDynamicConfigAddMapConfigRequest sample_map)
    ReadDynamicConfigAddMapConfigRequest (DynamicConfigAddMapConfigRequest_norm sample_map) /\
  AddMapConfigInput_SplitBrainProtectionName (DynamicConfigAddMapConfigRequest_norm sample_map) = "".
Proof.
  split; [exact sample_map_ok|]. split; [|reflexivity].
  apply (add_map_config_request_received sample_map), sample_map_ok.
Defined.

#[local] Instance no_json : EventJson := {| unmarshal_event := fun _ => None |}.

Definition sample_events : list MCEvent :=
  [mkMCEvent 17 WanSyncStarted "{}" None; mkMCEvent 18 WanSyncFinishedFull "{}" None].

Lemma poll_events_witness : exists m, events_response sample_events = Ret m /\
  forall n, (length (frames m) < n)%nat ->
    DecodeMCPollMCEventsResponse n m = Ret (map MCEvent_read sample_events).
Proof.
  apply (poll_events_response sample_events).
  repeat (apply Forall_cons; split); [..|apply Forall_nil; done]; split; done.
Defined.

(** A cache configuration without WAN replication: the encoder sends a null
    frame where the decoder expects a structure. *)
Definition sample_cache : CacheConfigHolder :=
  mkCacheConfigHolder "c" "" "" 1 0 "BINARY"
    (mkEvictionConfigHolder 10 "ENTRY_COUNT" "LRU" "" None)
    WanReplicationRef_zero "k" "v" None None None false false false false false
    HotRestartConfig_zero EventJournalConfig_zero "" []
    (mkMergePolicyConfig "PutIfAbsent" 100) false None
    MerkleTreeConfig_zero DataPersistenceConfig_zero "ns".

(** A cache configuration holder does not survive the repository's own codec: the
    encoder sends an absent WAN replication reference (and hot restart, event
    journal and Merkle tree configuration) as a null frame, the decoder reads a
    structure there, and decoding what was encoded panics (with more fuel than
    the message has frames). *)
Theorem cache_config_holder_not_read_back :
  exists m, EncodeCacheConfigHolder sample_cache NewClientMessageForEncode = Ret m /\
    (length (frames m) < 100)%nat /\
    DecodeCacheConfigHolder 100%nat (FrameIterator m) = Panic.
Proof. eexists. split; [vm_compute; reflexivity|]. split; [vm_compute; lia|vm_compute; reflexivity]. Qed.

End Witnesses.
