(* ===== verification/Eff.v ===== *)
(** * Controllers as programs that call the outside world

    A controller of the operator talks to the Kubernetes API, to Hazelcast
    members and to sidecar agents.  Such code is a [prog]: a tree of calls
    ([op]) whose continuations take the answer of the environment.  Nothing is
    assumed about the answers: [exec p t o] holds for every sequence [t] of
    calls and answers the program can go through and the outcome [o] it ends
    with.  [Par] is an errgroup: the goroutines' calls interleave freely.

    [retry.OnError] of client-go is the parameter [RetryLib].

    The second part is a program logic for such programs. *)

From S2P Require Import Prelude.

(** ** Go errors: a message and what the API-machinery predicates tell apart *)

Inductive err_kind := ENotFound | EConflict | EAlreadyExists | EInvalid | ECanceled | EOther.

#[export] Instance err_kind_eq_dec : EqDecision err_kind.
Proof. solve_decision. Defined.

Record error := mkError { err_of : err_kind; err_msg : string }.

#[export] Instance error_eq_dec : EqDecision error.
Proof. solve_decision. Defined.

Definition errors_New (s : string) : error := mkError EOther s.
(** [fmt.Errorf("...: %w", err)] *)
Definition wrap (prefix : string) (e : error) : error := mkError (err_of e) (prefix ++ err_msg e).
Definition IsNotFound (e : error) : bool := bool_decide (err_of e = ENotFound).
Definition IsConflict (e : error) : bool := bool_decide (err_of e = EConflict).
Definition IsAlreadyExists (e : error) : bool := bool_decide (err_of e = EAlreadyExists).
Definition IsInvalid (e : error) : bool := bool_decide (err_of e = EInvalid).
Definition IsCanceled (e : error) : bool := bool_decide (err_of e = ECanceled).

(** The result of an API read. *)
Inductive fetched (A : Type) :=
| Found (a : A)
| Failed (e : error).
Arguments Found {A} a.
Arguments Failed {A} e.

(** ** Programs *)

Class Effects := { op : Type; ans : op -> Type }.

Inductive outcome (A : Type) :=
| Returned (a : A)
| Panicked
| Exhausted.
Arguments Returned {A} a.
Arguments Panicked {A}.
Arguments Exhausted {A}.

Section Prog.
Context `{F : Effects}.

Inductive prog (A : Type) : Type :=
| Done (a : A)
| Crash
| Spin
| Vis (o : op) (k : ans o -> prog A)
| Par {R : Type} (n : nat) (ps : nat -> prog R) (k : list R -> nat -> prog A).

Record event := Ev { ev_op : op; ev_ans : ans ev_op }.

(** [interleave ts t]: [t] merges the traces [ts]. *)
Inductive interleave : list (list event) -> list event -> Prop :=
| il_nil ts : Forall (fun t => t = []) ts -> interleave ts []
| il_cons i e ti ts t : ts !! i = Some (e :: ti) -> interleave (<[i := ti]> ts) t ->
    interleave ts (e :: t).

Fixpoint exec {A} (p : prog A) (t : list event) (o : outcome A) : Prop :=
  match p with
  | Done _ a => t = [] /\ o = Returned a
  | Crash _ => t = [] /\ o = Panicked
  | Spin _ => t = [] /\ o = Exhausted
  | Vis _ c k => exists x t', t = Ev c x :: t' /\ exec (k x) t' o
  | Par _ n ps k =>
      exists ts rs t1 t2 first,
        length ts = n /\ length rs = n /\ t = t1 ++ t2 /\ interleave ts t1 /\
        (forall i ti r, ts !! i = Some ti -> rs !! i = Some r -> exec (ps i) ti (Returned r)) /\
        exec (k rs first) t2 o
  end.

Fixpoint pbind {A B} (p : prog A) (f : A -> prog B) : prog B :=
  match p with
  | Done _ a => f a
  | Crash _ => Crash _
  | Spin _ => Spin _
  | Vis _ c k => Vis _ c (fun x => pbind (k x) f)
  | Par _ n ps k => Par _ n ps (fun rs first => pbind (k rs first) f)
  end.

Definition call (o : op) : prog (ans o) := Vis _ o (fun x => Done _ x).

(** ** How executions decompose *)

Lemma exec_bind {A B} (p : prog A) (f : A -> prog B) t o :
  exec (pbind p f) t o <->
  (exists a t1 t2, t = t1 ++ t2 /\ exec p t1 (Returned a) /\ exec (f a) t2 o) \/
  (exec p t Panicked /\ o = Panicked) \/ (exec p t Exhausted /\ o = Exhausted).
Proof.
  revert t. induction p as [A a|A|A|A c k IH|A R n ps _ k IH]; intros t; simpl.
  - split; [intros H; left; exists a, [], t; done|].
    intros [(b & t1 & t2 & -> & [-> E] & Hf)|[[[_ E] _]|[[_ E] _]]]; [|done..].
    by injection E as ->.
  - split; [intros [-> ->]; auto|].
    intros [(b & t1 & t2 & -> & [_ E] & Hf)|[[[-> _] ->]|[[_ E] _]]]; done.
  - split; [intros [-> ->]; auto|].
    intros [(b & t1 & t2 & -> & [_ E] & Hf)|[[[_ E] _]|[[-> _] ->]]]; done.
  - split.
    + intros (x & t' & -> & [(b & t1 & t2 & -> & H1 & H2)|[[H ->]|[H ->]]]%IH).
      * left. exists b, (Ev c x :: t1), t2. split; [done|]. split; [|done]. by exists x, t1.
      * right; left. split; [|done]. by exists x, t'.
      * right; right. split; [|done]. by exists x, t'.
    + intros [(b & t1 & t2 & -> & (x & t' & -> & H1) & H2)|[[(x & t' & -> & H) ->]|[(x & t' & -> & H) ->]]].
      * exists x, (t' ++ t2). split; [done|]. apply IH. left. by exists b, t', t2.
      * exists x, t'. split; [done|]. apply IH. auto.
      * exists x, t'. split; [done|]. apply IH. auto.
  - split.
    + intros (ts & rs & t1 & t2 & first & Hn & Hr & -> & Hi & Hps
        & [(b & u1 & u2 & -> & H1 & H2)|[[H ->]|[H ->]]]%IH).
      * left. exists b, (t1 ++ u1), u2. split; [by rewrite app_assoc|]. split; [|done].
        by exists ts, rs, t1, u1, first.
      * right; left. split; [|done]. by exists ts, rs, t1, t2, first.
      * right; right. split; [|done]. by exists ts, rs, t1, t2, first.
    + intros [(b & u1 & u2 & -> & (ts & rs & t1 & t2 & first & Hn & Hr & -> & Hi & Hps & H1) & H2)
        |[[(ts & rs & t1 & t2 & first & Hn & Hr & -> & Hi & Hps & H1) ->]
         |[(ts & rs & t1 & t2 & first & Hn & Hr & -> & Hi & Hps & H1) ->]]].
      * exists ts, rs, t1, (t2 ++ u2), first. rewrite app_assoc. do 5 (split; [done|]).
        apply IH. left. by exists b, t2, u2.
      * exists ts, rs, t1, t2, first. do 5 (split; [done|]). apply IH. auto.
      * exists ts, rs, t1, t2, first. do 5 (split; [done|]). apply IH. auto.
Qed.

Lemma interleave_perm ts t : interleave ts t -> t ≡ₚ concat ts.
Proof.
  induction 1 as [ts H|i e ti ts t Hi _ IH].
  - induction H as [|t ts -> _ IH]; simpl; [done|]. by rewrite <-IH.
  - rewrite IH. clear IH. revert i Hi. induction ts as [|u ts IH]; intros [|i] Hi; try done; simpl in *.
    + by injection Hi as ->.
    + rewrite <-(IH _ Hi). by rewrite Permutation_middle.
Qed.

(** ** Properties of every call of a program

    [never Q p]: whatever the environment answers, no call of [p] satisfies
    [Q]. *)

Fixpoint never (Q : op -> bool) {A} (p : prog A) : Prop :=
  match p with
  | Done _ _ | Crash _ | Spin _ => True
  | Vis _ c k => Q c = false /\ forall x, never Q (k x)
  | Par _ n ps k => (forall i, never Q (ps i)) /\ forall rs first, never Q (k rs first)
  end.

Definition count (Q : op -> bool) (t : list event) : nat := length (filter (fun e => Q (ev_op e) = true) t).

Lemma count_app Q t1 t2 : count Q (t1 ++ t2) = (count Q t1 + count Q t2)%nat.
Proof. unfold count. by rewrite filter_app, length_app. Qed.

Lemma count_cons Q e t : count Q (e :: t) = ((if Q (ev_op e) then 1 else 0) + count Q t)%nat.
Proof.
  unfold count. rewrite filter_cons. destruct (Q (ev_op e)) eqn:E.
  - rewrite decide_True by done. done.
  - rewrite decide_False by done. done.
Qed.

Lemma count_perm Q t u : t ≡ₚ u -> count Q t = count Q u.
Proof. intros H. unfold count. by rewrite H. Qed.

Lemma count_concat_zero Q ts : (forall t, t ∈ ts -> count Q t = 0%nat) -> count Q (concat ts) = 0%nat.
Proof.
  induction ts as [|t ts IH]; intros H; simpl; [done|].
  rewrite count_app, (H t), IH; [done|intros; apply H; by right|by left].
Qed.

Lemma never_count Q {A} (p : prog A) t o : never Q p -> exec p t o -> count Q t = 0%nat.
Proof.
  revert t o. induction p as [A a|A|A|A c k IH|A R n ps IHp k IH]; intros t o Hn He; simpl in *.
  - by destruct He as [-> _].
  - by destruct He as [-> _].
  - by destruct He as [-> _].
  - destruct He as (x & t' & -> & He), Hn as [Hc Hk]. rewrite count_cons. simpl.
    rewrite Hc, (IH x t' o); done.
  - destruct He as (ts & rs & t1 & t2 & first & Hlt & Hlr & -> & Hi & Hps & He), Hn as [Hp Hk].
    rewrite count_app, (IH rs first t2 o), (count_perm _ _ _ (interleave_perm _ _ Hi)) by done.
    rewrite count_concat_zero; [done|]. intros t [i Ht]%list_elem_of_lookup.
    destruct (lookup_lt_is_Some_2 rs i) as [r Hr].
    { rewrite Hlr, <-Hlt. eauto using lookup_lt_Some. }
    eapply IHp; [apply Hp|]. by eapply Hps.
Qed.

Lemma never_bind Q {A B} (p : prog A) (f : A -> prog B) :
  never Q p -> (forall a, never Q (f a)) -> never Q (pbind p f).
Proof.
  intros Hp Hf. induction p as [A a|A|A|A c k IH|A R n ps _ k IH]; simpl in *; [done..| |].
  - destruct Hp as [Hc Hk]. split; [done|]. intros x. by apply IH.
  - destruct Hp as [Hps Hk]. split; [done|]. intros rs first. by apply IH.
Qed.

(** ** Running against a concrete environment, for witnesses *)

Fixpoint run {A} (h : forall o : op, list event -> ans o) (p : prog A) (hist : list event)
  : list event * option (outcome A) :=
  match p with
  | Done _ a => ([], Some (Returned a))
  | Crash _ => ([], Some Panicked)
  | Spin _ => ([], Some Exhausted)
  | Vis _ c k =>
      let e := Ev c (h c hist) in
      let '(t, o) := run h (k (h c hist)) (hist ++ [e]) in (e :: t, o)
  | Par _ n ps k =>
      let fix go m hist : list event * option (list _) :=
        match m with
        | O => ([], Some [])
        | S m =>
            let '(t, rs) := go m hist in
            let '(t', o) := run h (ps m) (hist ++ t) in
            match rs, o with
            | Some rs, Some (Returned r) => (t ++ t', Some (rs ++ [r]))
            | _, _ => (t ++ t', None)
            end
        end in
      let '(t, rs) := go n hist in
      match rs with
      | Some rs => let '(t', o) := run h (k rs 0%nat) (hist ++ t) in (t ++ t', o)
      | None => (t, None)
      end
  end.

(** Running one goroutine after the other is one of the interleavings. *)
Lemma interleave_skip ts t : interleave ts t -> interleave ([] :: ts) t.
Proof.
  induction 1 as [ts Hn|i e ti ts t Hi _ IH].
  - constructor. by constructor.
  - by apply (il_cons (S i) e ti).
Qed.

Lemma interleave_concat ts : interleave ts (concat ts).
Proof.
  induction ts as [|t ts IH]; simpl; [by constructor|].
  induction t as [|e t IHt]; simpl; [by apply interleave_skip|].
  by apply (il_cons 0 e t).
Qed.

(** A run, when no goroutine failed, is an execution. *)
Lemma run_exec {A} h (p : prog A) hist t o : run h p hist = (t, Some o) -> exec p t o.
Proof.
  revert hist t o. induction p as [A a|A|A|A c k IH|A R n ps IHp k IH]; intros hist t o; simpl.
  - by intros [= <- <-].
  - by intros [= <- <-].
  - by intros [= <- <-].
  - destruct (run h (k (h c hist)) (hist ++ [Ev c (h c hist)])) as [t' o'] eqn:E.
    intros [= <- ->]. exists (h c hist), t'. split; [done|]. by eapply IH.
  - match goal with |- (let '(_, _) := ?g n hist in _) = _ -> _ => set (go := g) end.
    assert (forall m t1 rs, go m hist = (t1, Some rs) ->
      exists ts, length ts = m /\ length rs = m /\ t1 = concat ts /\
        forall i ti r, ts !! i = Some ti -> rs !! i = Some r -> exec (ps i) ti (Returned r)) as Hgo.
    { induction m as [|m IHm]; intros t1 rs; simpl.
      - intros [= <- <-]. by exists [].
      - destruct (go m hist) as [u [rs'|]] eqn:Eg.
        2: { by destruct (run h (ps m) (hist ++ u)) as [? [[]|]]. }
        destruct (run h (ps m) (hist ++ u)) as [u' [[r| |]|]] eqn:Er; try done.
        intros [= <- <-]. destruct (IHm _ _ eq_refl) as (ts & Hlt & Hlr & -> & Hps).
        exists (ts ++ [u']). rewrite !length_app, concat_app, Hlt, Hlr. simpl. rewrite app_nil_r.
        split_and!; [lia|lia|done|]. intros i ti r0 Hi Hr.
        destruct (decide (i < m)%nat) as [Hlti|Hge].
        + rewrite lookup_app_l in Hi by lia. rewrite lookup_app_l in Hr by lia. eauto.
        + assert (i = m) as ->.
          { apply lookup_lt_Some in Hi. rewrite length_app, Hlt in Hi. simpl in Hi. lia. }
          rewrite lookup_app_r, Hlt, Nat.sub_diag in Hi by lia.
          rewrite lookup_app_r, Hlr, Nat.sub_diag in Hr by lia.
          injection Hi as ->. injection Hr as ->. by eapply IHp. }
    destruct (go n hist) as [t1 [rs|]] eqn:Eg; [|done].
    destruct (run h (k rs 0%nat) (hist ++ t1)) as [t2 o2] eqn:Ek. intros [= <- ->].
    destruct (Hgo _ _ _ Eg) as (ts & Hlt & Hlr & -> & Hps).
    exists ts, rs, (concat ts), t2, 0%nat. split_and!; try done.
    + apply interleave_concat.
    + by eapply IH.
Qed.

(** The trace of a run and its outcome. *)
Lemma run_exec_2 {A} h (p : prog A) o : (run h p []).2 = Some o -> exec p (run h p []).1 o.
Proof. intros H. apply (run_exec h p []). rewrite <-H. apply surjective_pairing. Qed.

End Prog.

Arguments Done {F A} a.
Arguments Crash {F A}.
Arguments Spin {F A}.
Arguments Vis {F A} o k.
Arguments Par {F A R} n ps k.

Declare Scope prog_scope.
Delimit Scope prog_scope with prog.
Notation "x <- p ;; k" := (pbind p (fun x => k))
  (at level 100, p at next level, right associativity) : prog_scope.
Notation "p ;; k" := (pbind p (fun _ => k))
  (at level 100, right associativity) : prog_scope.
Notation "'ask' x <- o ;; k" := (Vis o (fun x => k))
  (at level 100, x name, o at next level, right associativity) : prog_scope.
Notation "'do_' o ;; k" := (Vis o (fun _ => k))
  (at level 100, o at next level, right associativity) : prog_scope.

(** ** Results *)

(** [ctrl.Result] *)
Record ctrl_Result := mkResult { Requeue : bool; RequeueAfterSeconds : Z }.
Definition ctrl_Result_zero : ctrl_Result := mkResult false 0.

(** [g.Wait()]: the first error to occur, if any goroutine failed. *)
Definition group_Wait (errs : list (option error)) (first : nat) : option error :=
  match errs !! first with
  | Some (Some e) => Some e
  | _ => head (omap id errs)
  end.

(** ** client-go's retry package *)

Section Retry.
Context `{F : Effects}.

(** The retried closure may write to captured variables: [fn] maps their
    values [S] to their values afterwards and an error.
    [attempts fn retriable n s t o]: from [s], [fn] was run [n] times; every
    run but the last returned an error worth retrying, the last one gives [o]. *)
Inductive attempts {S : Type} (fn : S -> prog (S * option error)) (retriable : error -> bool)
  : nat -> S -> list event -> outcome (S * option error) -> Prop :=
| att_last s t o : exec (fn s) t o -> attempts fn retriable 1 s t o
| att_again s t s' e t' o n : exec (fn s) t (Returned (s', Some e)) -> retriable e = true ->
    attempts fn retriable n s' t' o -> attempts fn retriable (Datatypes.S n) s (t ++ t') o.

(** A program that retries [fn] from [s], at most [n] runs: it is [fn], and
    goes on, when the error is worth retrying, with the state the run left. *)
Inductive retry_tree {S : Type} (fn : S -> prog (S * option error)) (retriable : error -> bool)
  : nat -> S -> prog (S * option error) -> Prop :=
| rt_run n s k :
    (forall s', k (s', None) = Done (s', None)) ->
    (forall s' e, k (s', Some e) = Done (s', Some e)
       \/ (retriable e = true /\ retry_tree fn retriable n s' (k (s', Some e)))) ->
    retry_tree fn retriable (Datatypes.S n) s (pbind (fn s) k).

(** Documented behaviour of [retry.OnError(backoff, retriable, fn)]: [fn] is
    run at least once and at most [backoff.Steps] times, until it succeeds or
    fails with an error that is not retriable; its last result is returned. *)
Class RetryLib := {
  OnError {S : Type} : nat -> (error -> bool) -> (S -> prog (S * option error)) -> S ->
    prog (S * option error);
  DefaultRetrySteps : nat;
  OnError_tree {S : Type} steps retriable (fn : S -> prog (S * option error)) s :
    retry_tree fn retriable (Nat.max 1 steps) s (OnError steps retriable fn s);
}.

Lemma retry_tree_law {S : Type} (fn : S -> prog (S * option error)) retriable n s p t o :
  retry_tree fn retriable n s p -> exec p t o -> exists m, (m <= n)%nat /\ attempts fn retriable m s t o.
Proof.
  revert s p t. induction n as [|n IH]; intros s p t Hp; inversion Hp as [n' s0 k Hok Herr]; subst.
  intros [(r & t1 & t2 & -> & H1 & H2)|[[H1 ->]|[H1 ->]]]%exec_bind;
    [|exists 1%nat; split; [lia|by constructor]..].
  assert (Hlast : k r = Done r -> exists m, (m <= Datatypes.S n)%nat /\ attempts fn retriable m s (t1 ++ t2) o).
  { intros Hk. rewrite Hk in H2. destruct H2 as [-> ->]. rewrite app_nil_r. exists 1%nat. split; [lia|by constructor]. }
  destruct r as [s' [e|]]; [|by apply Hlast, Hok]. destruct (Herr s' e) as [Hk|[Hr Ht]]; [by apply Hlast|].
  destruct (IH _ _ _ Ht H2) as (m & Hm & Ha). exists (Datatypes.S m). split; [lia|]. by eapply att_again.
Qed.

Lemma OnError_law `{RetryLib} {S : Type} steps retriable (fn : S -> prog (S * option error)) s t o :
  exec (OnError steps retriable fn s) t o ->
  exists n, (n <= Nat.max 1 steps)%nat /\ attempts fn retriable n s t o.
Proof. apply retry_tree_law, OnError_tree. Qed.

Lemma OnError_never `{RetryLib} {S : Type} Q steps retriable (fn : S -> prog (S * option error)) s :
  (forall s, never Q (fn s)) -> never Q (OnError steps retriable fn s).
Proof.
  intros Hfn. pose proof (OnError_tree steps retriable fn s) as Ht. revert Ht.
  generalize (Nat.max 1 steps) (OnError steps retriable fn s).
  intros n. revert s. induction n as [|n IH]; intros s p Hp;
    inversion Hp as [n' s1 k Hok Herr]; subst. apply never_bind; [done|].
  intros [s' [e|]]; [|by rewrite Hok]. destruct (Herr s' e) as [->|[_ Ht]]; [done|]. by apply IH in Ht.
Qed.

Definition RetryOnConflict `{RetryLib} {S : Type} (fn : S -> prog (S * option error)) (s : S)
  : prog (S * option error) := OnError DefaultRetrySteps IsConflict fn s.

(** The loop that retries at once. *)
Fixpoint retry_now {S : Type} (steps : nat) (retriable : error -> bool)
    (fn : S -> prog (S * option error)) (s : S) : prog (S * option error) :=
  pbind (fn s) (fun r =>
    match steps, r with
    | Datatypes.S k, (s', Some e) =>
        match k with
        | O => Done r
        | Datatypes.S _ => if retriable e then retry_now k retriable fn s' else Done r
        end
    | _, _ => Done r
    end).

Lemma retry_now_tree {S : Type} steps retriable (fn : S -> prog (S * option error)) s :
  retry_tree fn retriable (Nat.max 1 steps) s (retry_now steps retriable fn s).
Proof.
  revert s. induction steps as [|k IH]; intros s; cbn [retry_now].
  - constructor; [done|]. intros; by left.
  - replace (Nat.max 1 (Datatypes.S k)) with (Datatypes.S k) by lia. constructor; [done|].
    intros s' e. destruct k as [|k]; [by left|]. destruct (retriable e) eqn:E; [right|by left].
    split; [done|]. exact (IH s').
Qed.

#[global] Instance retry_loop : RetryLib | 100 :=
  {| OnError S := retry_now; DefaultRetrySteps := 5; OnError_tree S := retry_now_tree |}.

(** The last run is the one that gives the result. *)
Lemma attempts_final {S : Type} (fn : S -> prog (S * option error)) retriable n s t o :
  attempts fn retriable n s t o ->
  exists s0 t0 t1, t = t0 ++ t1 /\ exec (fn s0) t1 o.
Proof.
  induction 1 as [s t o Hl|s t s' e t' o n _ _ _ (s0 & t0 & t1 & -> & Hl)].
  - by exists s, [], t.
  - exists s0, (t ++ t0), t1. by rewrite app_assoc.
Qed.

Lemma attempts_inv {S : Type} (I : S -> Prop) (fn : S -> prog (S * option error)) retriable n s t s' e :
  (forall s t s' e, I s -> exec (fn s) t (Returned (s', e)) -> I s') ->
  attempts fn retriable n s t (Returned (s', e)) -> I s -> I s'.
Proof.
  intros Hfn Ha. remember (Returned (s', e)) as o eqn:Eo.
  induction Ha as [s t o Hl|s t s1 e1 t' o n Hl _ _ IH]; intros Hs; subst; eauto.
Qed.

(** A closure that captures nothing. *)
Definition stateless (fn : prog (option error)) : unit -> prog (unit * option error) :=
  fun _ => pbind fn (fun e => Done (tt, e)).

End Retry.

(** ** Programs that neither panic nor run out of fuel *)

Section Returns.
Context `{F : Effects}.

Definition returns {A} (p : prog A) : Prop := forall t o, exec p t o -> exists a, o = Returned a.

Lemma returns_done {A} (a : A) : returns (Done a).
Proof. intros t o [_ ->]. eauto. Qed.

Lemma returns_vis {A} c (k : ans c -> prog A) : (forall x, returns (k x)) -> returns (Vis c k).
Proof. intros Hk t o (x & t' & _ & He). by eapply Hk. Qed.

Lemma returns_par {A R} n (ps : nat -> prog R) (k : list R -> nat -> prog A) :
  (forall rs first, returns (k rs first)) -> returns (Par n ps k).
Proof. intros Hk t o (ts & rs & t1 & t2 & first & _ & _ & _ & _ & _ & He). by eapply Hk. Qed.

Lemma returns_bind {A B} (p : prog A) (f : A -> prog B) :
  returns p -> (forall a, returns (f a)) -> returns (pbind p f).
Proof.
  intros Hp Hf t o [(a & t1 & t2 & _ & _ & H2)|[[H _]|[H _]]]%exec_bind.
  - by eapply Hf.
  - by apply Hp in H as [? [=]].
  - by apply Hp in H as [? [=]].
Qed.

Lemma returns_OnError `{RL : @RetryLib F} {S : Type} steps retriable (fn : S -> prog (S * option error)) s :
  (forall s, returns (fn s)) -> returns (OnError steps retriable fn s).
Proof.
  intros Hfn t o (n & _ & Ha)%OnError_law. induction Ha as [s t o Hl|]; [|done]. by eapply Hfn.
Qed.

End Returns.

Create HintDb returns.
#[export] Hint Resolve returns_done returns_vis returns_par returns_bind returns_OnError : returns.

Create HintDb never.
#[export] Hint Resolve never_bind OnError_never : never.

(** Take one step of an execution apart. *)
Ltac exec_step H :=
  lazymatch type of H with
  | exec (pbind _ _) _ _ =>
      let a := fresh "a" in let t1 := fresh "t" in let t2 := fresh "t" in
      let H1 := fresh "He" in let E := fresh "E" in
      apply exec_bind in H as [(a & t1 & t2 & -> & H1 & H)|[[H E]|[H E]]];
      [|first [discriminate E | subst] ..]
  | exec (Vis _ _) _ _ =>
      let x := fresh "x" in let t := fresh "t" in
      destruct H as (x & t & -> & H)
  | exec (Done _) _ _ => destruct H as [-> H]; try (injection H as H; subst); try discriminate H
  | exec Crash _ _ => destruct H as [-> H]; try discriminate H
  | exec Spin _ _ => destruct H as [-> H]; try discriminate H
  end.

(** * A program logic for controllers

    [wp G p h Q]: after the calls and answers [h], whatever the environment
    answers, every call the program [p] makes is allowed by the guard [G] in
    the history it is made in, and when [p] returns [a] after the history
    [h'], [Q h' a] holds.  Panicking is allowed.  [wp_sound] says so of the
    executions of [p].

    Assertions are about the history: "this call was answered so" is
    membership, which later calls do not invalidate.  Goroutines that are
    waited for are verified by [rwp], against a history that the calls of
    others may have extended at every step. *)

Section Logic.
Context `{F : Effects} (G : list event -> op -> Prop).

(** A goroutine among others: the history may grow before every call and
    before its end. *)
Fixpoint rwp {A} (p : prog A) (h : list event) (Q : list event -> A -> Prop) : Prop :=
  match p with
  | Done a => forall h', h ⊆ h' -> Q h' a
  | Crash | Spin => True
  | Vis c k => forall h', h ⊆ h' -> G h' c /\ forall x, rwp (k x) (h' ++ [Ev c x]) Q
  | Par n ps k => False    (* goroutines start no others they wait for *)
  end.

Fixpoint wp {A} (p : prog A) (h : list event) (Q : list event -> A -> Prop) : Prop :=
  match p with
  | Done a => Q h a
  | Crash | Spin => True
  | Vis c k => G h c /\ forall x, wp (k x) (h ++ [Ev c x]) Q
  | Par n ps k => exists Qs : nat -> list event -> _ -> Prop,
      (forall i, rwp (ps i) h (Qs i))
      /\ forall rs first h', length rs = n -> h ⊆ h' -> (forall i r, rs !! i = Some r -> Qs i h' r) -> wp (k rs first) h' Q
  end.

Lemma wp_mono {A} (p : prog A) h (Q Q' : list event -> A -> Prop) :
  wp p h Q -> (forall h' a, Q h' a -> Q' h' a) -> wp p h Q'.
Proof.
  revert h. induction p as [A a|A|A|A c k IH|A R n ps IHp k IH]; intros h; simpl; auto.
  - intros [HG Hk] HQ. split; [done|]. intros x. by eapply IH.
  - intros (Qs & Hps & Hk) HQ. exists Qs. split; [done|]. intros rs first h' Hn Hs Hr. by eapply IH, HQ; apply Hk.
Qed.

Lemma wp_bind {A B} (p : prog A) (f : A -> prog B) h Q :
  wp p h (fun h' a => wp (f a) h' Q) -> wp (pbind p f) h Q.
Proof.
  revert h. induction p as [A a|A|A|A c k IH|A R n ps IHp k IH]; intros h; simpl; auto.
  - intros [HG Hk]. split; [done|]. intros x. by apply IH.
  - intros (Qs & Hps & Hk). exists Qs. split; [done|]. intros rs first h' Hn Hs Hr. by apply IH, Hk.
Qed.

Lemma rwp_weaken {A} (p : prog A) h h' Q : h ⊆ h' -> rwp p h Q -> rwp p h' Q.
Proof.
  intros Hs. destruct p as [a| | |c k|R n ps k]; simpl; auto.
  - intros HQ h2 Hs2. apply HQ. by etrans.
  - intros Hk h2 Hs2. apply Hk. by etrans.
Qed.

(** Every call of the trace [t], made after [h], was allowed. *)
Fixpoint guarded (h t : list event) : Prop :=
  match t with
  | [] => True
  | e :: t => G h (ev_op e) /\ guarded (h ++ [e]) t
  end.

Lemma guarded_app h t1 t2 : guarded h t1 -> guarded (h ++ t1) t2 -> guarded h (t1 ++ t2).
Proof.
  revert h. induction t1 as [|e t1 IH]; intros h; simpl; [by rewrite app_nil_r|].
  intros [HG H1] H2. split; [done|]. apply IH; [done|]. by rewrite <-app_assoc.
Qed.

(** Goroutines whose calls interleave. *)
Lemma rwp_interleaved {R} (ts : list (list event)) t (ps : nat -> prog R) rs h (Qs : nat -> list event -> R -> Prop) :
  interleave ts t -> length ts = length rs ->
  (forall i ti r, ts !! i = Some ti -> rs !! i = Some r -> exec (ps i) ti (Returned r)) ->
  (forall i, rwp (ps i) h (Qs i)) ->
  guarded h t /\ forall i r, rs !! i = Some r -> Qs i (h ++ t) r.
Proof.
  intros Hi. revert ps h. induction Hi as [ts Hn|i e ti ts t Hti Hi IH]; intros ps h Hl Hps Hw.
  - split; [done|]. intros i r Hr. rewrite app_nil_r.
    destruct (lookup_lt_is_Some_2 ts i) as [ti Hti]; [rewrite Hl; by eapply lookup_lt_Some|].
    assert (ti = []) as -> by (by eapply Forall_lookup in Hn). specialize (Hps i [] r Hti Hr). specialize (Hw i).
    destruct (ps i) as [a| | |c k|R' n ps' k]; simpl in *; try (by destruct Hps as [_ [=]]).
    + destruct Hps as [_ [= ->]]. by apply Hw.
    + by destruct Hps as (x & t' & [=] & _).
    + done.
  - destruct (lookup_lt_is_Some_2 rs i) as [r Hr]; [rewrite <-Hl; by eapply lookup_lt_Some|].
    pose proof (Hps i _ r Hti Hr) as He. pose proof (Hw i) as Hwi.
    destruct (ps i) as [a| | |c k|R' n ps' k] eqn:Ep; simpl in He, Hwi; try (by destruct He as [[=] _]).
    + destruct He as (x & t' & [= -> ->] & He). destruct (Hwi h) as [HG Hx]; [done|].
      destruct (IH (fun j => if decide (j = i) then k x else ps j) (h ++ [Ev c x])) as [Hg HQ].
      * by rewrite length_insert.
      * intros j tj rj Hj Hrj. destruct (decide (j = i)) as [->|Hne].
        -- rewrite Hr in Hrj. injection Hrj as <-. rewrite list_lookup_insert_eq in Hj by (by eapply lookup_lt_Some).
           by injection Hj as <-.
        -- rewrite list_lookup_insert_ne in Hj by done. by eapply Hps.
      * intros j. destruct (decide (j = i)) as [->|Hne]; [done|]. eapply rwp_weaken; [|apply Hw].
        intros x'. rewrite elem_of_app. auto.
      * split; [done|]. intros j rj Hj. specialize (HQ j rj Hj). by rewrite <-app_assoc in HQ.
    + done.
Qed.

Theorem wp_sound {A} (p : prog A) h Q t o :
  wp p h Q -> exec p t o -> guarded h t /\ (forall a, o = Returned a -> Q (h ++ t) a).
Proof.
  revert h t. induction p as [A a|A|A|A c k IH|A R n ps IHp k IH]; intros h t; simpl.
  - intros HQ [-> ->]. split; [done|]. rewrite app_nil_r. by intros b [= <-].
  - intros _ [-> ->]. by split.
  - intros _ [-> ->]. by split.
  - intros [HG Hk] (x & t' & -> & He). destruct (IH x _ _ _ _ (Hk x) He) as [Hg HQ]. split; [by split|].
    intros a Ha. specialize (HQ a Ha). by rewrite <-app_assoc in HQ.
  - intros (Qs & Hps & Hk) (ts & rs & t1 & t2 & first & Hlt & Hlr & -> & Hi & Hexec & He).
    destruct (rwp_interleaved ts t1 ps rs h Qs) as [Hg1 HQ1]; [done|congruence|done|done|].
    destruct (IH rs first Q o (h ++ t1) t2) as [Hg2 HQ2]; [|done|].
    + apply Hk; [done| |done]. intros e Hin. rewrite elem_of_app. auto.
    + split; [by apply guarded_app|]. intros a Ha. rewrite app_assoc. by apply HQ2.
Qed.

Lemma guarded_lookup h t1 e t2 : guarded h (t1 ++ e :: t2) -> G (h ++ t1) (ev_op e).
Proof.
  revert h. induction t1 as [|e' t1 IH]; intros h; simpl.
  - intros [HG _]. by rewrite app_nil_r.
  - intros [_ Hg]. specialize (IH _ Hg). by rewrite <-app_assoc in IH.
Qed.

(** The guard at a call of a complete execution. *)
Lemma wp_call {A} (p : prog A) t1 e t2 o :
  wp p [] (fun _ _ => True) -> exec p (t1 ++ e :: t2) o -> G t1 (ev_op e).
Proof. intros Hw He. destruct (wp_sound _ _ _ _ _ Hw He) as [Hg _]. by apply (guarded_lookup []) in Hg. Qed.
End Logic.

(** A guard nothing violates. *)
Definition any_call `{F : Effects} (h : list event) (c : op) : Prop := True.

(** The result of a program, by [wp] without a guard. *)
Lemma wp_result `{F : Effects} {A} (p : prog A) (Q : list event -> A -> Prop) t a :
  wp any_call p [] Q -> exec p t (Returned a) -> Q t a.
Proof. intros Hw He. destruct (wp_sound _ _ _ _ _ _ Hw He) as [_ HQ]. by apply (HQ a). Qed.

(** ** Rules that keep the history abstract

    A step leads to some history [h'] that contains the former one and the
    call with its answer. *)

Section Rules.
Context `{F : Effects} {G : list event -> op -> Prop}.

Lemma wp_ret {A} (a : A) h Q : Q h a -> wp G (Done a) h Q.
Proof. done. Qed.

Lemma wp_vis {A} c (k : ans c -> prog A) h Q :
  G h c -> (forall x h', h ⊆ h' -> Ev c x ∈ h' -> wp G (k x) h' Q) -> wp G (Vis c k) h Q.
Proof.
  intros HG Hk. split; [done|]. intros x. apply Hk.
  - intros e. rewrite elem_of_app. auto.
  - rewrite elem_of_app. right. by left.
Qed.

Lemma wp_later {A} (p : prog A) h Q : wp G p h Q -> wp G p h (fun h' a => h ⊆ h' /\ Q h' a).
Proof.
  revert h. induction p as [A a|A|A|A c k IH|A R n ps IHp k IH]; intros h; simpl; auto.
  - intros [HG Hk]. split; [done|]. intros x. eapply wp_mono; [by apply IH|].
    intros h' a [Hs HQ]. split; [|done]. intros e He. apply Hs. rewrite elem_of_app. auto.
  - intros (Qs & Hps & Hk). exists Qs. split; [done|]. intros rs first h1 Hn Hs Hr.
    eapply wp_mono; [by apply IH, Hk|]. intros h' a [Hs' HQ]. split; [by etrans|done].
Qed.

Lemma wp_seq {A B} (p : prog A) (f : A -> prog B) h R Q :
  wp G p h R -> (forall h' a, h ⊆ h' -> R h' a -> wp G (f a) h' Q) -> wp G (pbind p f) h Q.
Proof.
  intros Hp Hf. apply wp_bind. eapply wp_mono; [by apply wp_later|]. intros h' a [Hs HR]. by apply Hf.
Qed.

(** Goroutines that are waited for, each with what it leaves behind. *)
Lemma wp_par {A R} n (ps : nat -> prog R) (k : list R -> nat -> prog A) (Qs : nat -> list event -> R -> Prop) h Q :
  (forall i, rwp G (ps i) h (Qs i)) ->
  (forall rs first h', length rs = n -> h ⊆ h' -> (forall i r, rs !! i = Some r -> Qs i h' r) -> wp G (k rs first) h' Q) ->
  wp G (Par n ps k) h Q.
Proof. intros Hps Hk. by exists Qs. Qed.

Lemma rwp_ret {A} (a : A) h Q : (forall h', h ⊆ h' -> Q h' a) -> rwp G (Done a) h Q.
Proof. done. Qed.

Lemma rwp_vis {A} c (k : ans c -> prog A) h Q :
  (forall h', h ⊆ h' -> G h' c) -> (forall x h', h ⊆ h' -> Ev c x ∈ h' -> rwp G (k x) h' Q) -> rwp G (Vis c k) h Q.
Proof.
  intros HG Hk h1 Hs. split; [by apply HG|]. intros x. apply Hk.
  - intros e He. rewrite elem_of_app. auto.
  - rewrite elem_of_app. right. by left.
Qed.

Lemma rwp_mono {A} (p : prog A) h (Q Q' : list event -> A -> Prop) :
  rwp G p h Q -> (forall h' a, Q h' a -> Q' h' a) -> rwp G p h Q'.
Proof.
  revert h. induction p as [A a|A|A|A c k IH|A R n ps IHp k IH]; intros h; simpl; auto.
  intros Hk HQ h' Hs. destruct (Hk h' Hs) as [HG Hx]. split; [done|]. intros x. by eapply IH.
Qed.

Lemma rwp_bind {A B} (p : prog A) (f : A -> prog B) h Q :
  rwp G p h (fun h' a => rwp G (f a) h' Q) -> rwp G (pbind p f) h Q.
Proof.
  revert h. induction p as [A a|A|A|A c k IH|A R n ps IHp k IH]; intros h; simpl; auto.
  intros Hk h' Hs. destruct (Hk h' Hs) as [HG Hx]. split; [done|]. intros x. by apply IH.
Qed.

(** [retry.OnError]: every run keeps an invariant of the history and of what
    the closure captured, and its last one gives the result. *)
Lemma wp_OnError `{RL : !RetryLib} {S : Type} (I : list event -> S -> Prop) steps retriable
    (fn : S -> prog (S * option error)) s h Q :
  (forall h' s', h ⊆ h' -> I h' s' -> wp G (fn s') h' (fun h'' r => I h'' r.1 /\ Q h'' r)) ->
  I h s -> wp G (OnError steps retriable fn s) h Q.
Proof.
  intros Hfn HI. pose proof (OnError_tree steps retriable fn s) as Ht.
  assert (Hgen : forall n p s h0, retry_tree fn retriable n s p -> h ⊆ h0 -> I h0 s -> wp G p h0 Q).
  2: { by eapply Hgen. }
  clear s HI Ht. induction n as [|n IH]; intros p s h0 Hp; inversion Hp as [n' s0 k Hok Herr]; subst. intros Hs HI.
  eapply wp_seq; [by apply Hfn|]. intros h1 [s' [e|]] Hs1 [HI1 HQ]; [|by rewrite Hok].
  destruct (Herr s' e) as [->|[_ Ht]]; [done|]. eapply IH; [exact Ht|by etrans|done].
Qed.

(** A closure that captures nothing. *)
Lemma wp_RetryOnConflict `{RL : !RetryLib} (fn : prog (option error)) h (Q : list event -> unit * option error -> Prop) :
  (forall h', h ⊆ h' -> wp G fn h' (fun h'' e => Q h'' (tt, e))) -> wp G (RetryOnConflict (stateless fn) tt) h Q.
Proof.
  intros Hfn. unfold RetryOnConflict. apply (wp_OnError (fun _ _ => True)); [|done]. intros h' [] Hs _.
  eapply wp_seq; [by apply Hfn|]. intros h'' e _ HQ. by apply wp_ret.
Qed.
End Rules.

Arguments wp : simpl never.
Arguments rwp : simpl never.

(** An event of an earlier history. *)
Ltac hist :=
  first [ assumption
        | multimatch goal with H : _ ⊆ ?h |- _ ∈ ?h => apply H; hist end ].

(** An inclusion of histories. *)
Ltac hist_sub := let e := fresh in intros e ?; hist.

(** A trace with an event that satisfies [f]. *)
Lemma find_event `{F : Effects} (f : event -> bool) (t : list event) :
  existsb f t = true -> exists t1 e t2, t = t1 ++ e :: t2 /\ f e = true.
Proof.
  intros (e & Hin & Hf)%existsb_exists. apply in_split in Hin as (t1 & t2 & ->). eauto.
Qed.
