(* ===== verification/FieldValidation.v ===== *)
(** * Field validators (src/api/v1alpha1/field_validation.go)

    A validator collects field errors; [Err] turns a non-empty list into one
    invalid-object error.  A validating function is modelled by the errors it
    appends: running two of them appends their errors in order.

    [field.Path] is a list of elements; [kerrors.NewInvalid] of
    k8s.io/apimachinery is the parameter [KErrors]. *)

From S2P Require Import Prelude Eff.

(** Elements of a [field.Path]: [Child], [Index] and [Key]. *)
Inductive path_elem := PChild (s : string) | PIndex (i : nat) | PKey (s : string).

Definition field_Path : Type := list path_elem.
Definition Path (n : string) (m : list string) : field_Path := PChild n :: map PChild m.
Definition Child (p : field_Path) (s : string) : field_Path := p ++ [PChild s].
Definition Index (p : field_Path) (i : nat) : field_Path := p ++ [PIndex i].

Inductive error_type := ErrForbidden | ErrInvalid | ErrNotFound | ErrRequired | ErrDuplicate | ErrInternal.

#[export] Instance error_type_eq_dec : EqDecision error_type.
Proof. solve_decision. Defined.

(** [value interface{}] *)
Inductive go_value := VNone | VStr (s : string) | VInt (z : Z) | VBool (b : bool).

Record field_error := mkFieldError {
  fe_type : error_type;
  fe_path : field_Path;
  fe_value : go_value;
  fe_detail : string;
}.

Definition errs : Type := list field_error.

Definition Forbidden (p : field_Path) (detail : string) : errs := [mkFieldError ErrForbidden p VNone detail].
Definition Invalid (p : field_Path) (value : go_value) (detail : string) : errs :=
  [mkFieldError ErrInvalid p value detail].
Definition NotFound (p : field_Path) (value : go_value) : errs := [mkFieldError ErrNotFound p value ""].
Definition Required (p : field_Path) (detail : string) : errs := [mkFieldError ErrRequired p VNone detail].
Definition Duplicate (p : field_Path) (value : go_value) : errs := [mkFieldError ErrDuplicate p value ""].
Definition InternalError (p : field_Path) (err : error) : errs :=
  [mkFieldError ErrInternal p VNone (err_msg err)].

(** [kerrors.NewInvalid(kind, name, errs)]: a status error with reason
    Invalid, hence not a NotFound or Conflict error. *)
Class KErrors := {
  NewInvalid : string -> string -> errs -> error;
  NewInvalid_law kind name es : err_of (NewInvalid kind name es) = EInvalid;
}.

Definition Err `{KErrors} (kind name : string) (es : errs) : option error :=
  match es with
  | [] => None
  | _ => Some (NewInvalid kind name es)
  end.

Lemma Err_None `{KErrors} kind name es : Err kind name es = None <-> es = [].
Proof. destruct es; done. Qed.

Definition join_details (es : errs) : string := foldr String.append "" (fe_detail <$> es).

#[global] Instance kerrors_default : KErrors | 100 :=
  {| NewInvalid kind name es := mkError EInvalid (kind ++ name ++ join_details es);
     NewInvalid_law _ _ _ := eq_refl |}.
