(* ===== verification/Json.v ===== *)
(** * JSON documents of the resources' specs

    The operator keeps the spec a resource was last applied with as JSON in an
    annotation.  The fields of a struct, their names and [omitempty] are
    translated from the struct tags; the text of a document is
    encoding/json's, the class [JsonText].

    [json.Unmarshal] decodes into a value that exists: a field the document
    does not have keeps its value, and [null] leaves everything but a pointer
    alone.  A decoder therefore takes the old value. *)

From S2P Require Import Prelude Eff.
#[local] Set Warnings "-register-all".

Inductive json :=
| JNull
| JBool (b : bool)
| JNum (z : Z)
| JStr (s : string)
| JObj (fields : list (string * json)).

(** A document printed and parsed again is the same document. *)
Class JsonText := {
  json_print : json -> string;
  json_parse : string -> option json;
  json_parse_print j : json_parse (json_print j) = Some j;
}.

(** ** Encoding *)

Definition jfields : Type := list (string * json).
Definition jfield (k : string) (v : json) : jfields := [(k, v)].
Definition omit_str (k s : string) : jfields := if decide (s = ""%string) then [] else [(k, JStr s)].
Definition omit_num (k : string) (z : Z) : jfields := if decide (z = 0) then [] else [(k, JNum z)].
Definition omit_ptr {A} (k : string) (enc : A -> json) (o : option A) : jfields :=
  match o with None => [] | Some a => [(k, enc a)] end.

(** ** Decoding *)

Definition decoder (A : Type) : Type := json -> A -> sum A error.
Definition errUnmarshalType : error := errors_New "json: cannot unmarshal value".

Definition dec_str : decoder string := fun j old =>
  match j with JStr s => inl s | JNull => inl old | _ => inr errUnmarshalType end.
Definition dec_bool : decoder bool := fun j old =>
  match j with JBool b => inl b | JNull => inl old | _ => inr errUnmarshalType end.
Definition dec_int32 : decoder Z := fun j old =>
  match j with
  | JNum z => if decide (is_int32 z) then inl z else inr errUnmarshalType
  | JNull => inl old
  | _ => inr errUnmarshalType
  end.
(** A pointer: [null] makes it nil, otherwise it is allocated if it was nil. *)
Definition dec_ptr {A} (zero : A) (d : decoder A) : decoder (option A) := fun j old =>
  match j with
  | JNull => inl None
  | _ => match d j (default zero old) with inl a => inl (Some a) | inr e => inr e end
  end.

Fixpoint jget (fs : jfields) (k : string) : option json :=
  match fs with
  | [] => None
  | (k', j) :: fs => match jget fs k with Some j' => Some j' | None => if decide (k = k') then Some j else None end
  end.

Definition dec_field {A} (fs : jfields) (k : string) (d : decoder A) (old : A) : sum A error :=
  match jget fs k with None => inl old | Some j => d j old end.

Definition sum_bind {A B} (r : sum A error) (f : A -> sum B error) : sum B error :=
  match r with inl a => f a | inr e => inr e end.

Declare Scope json_scope.
Delimit Scope json_scope with json.
Notation "x <-? r ;; k" := (sum_bind r (fun x => k))
  (at level 100, r at next level, right associativity) : json_scope.

(** [json.Unmarshal([]byte(text), &v)] *)
Definition json_Unmarshal `{JsonText} {A} (d : decoder A) (text : string) (old : A) : sum A error :=
  match json_parse text with
  | None => inr (errors_New "invalid character")
  | Some j => d j old
  end.

(** ** Reading back what was written *)

Lemma jget_app fs gs k : jget (fs ++ gs) k = match jget gs k with Some j => Some j | None => jget fs k end.
Proof.
  induction fs as [|[k' j] fs IH]; simpl; [by destruct (jget gs k)|].
  rewrite IH. by destruct (jget gs k).
Qed.

Lemma jget_field_same k j : jget (jfield k j) k = Some j.
Proof. unfold jfield. simpl. by rewrite decide_True. Qed.

Lemma jget_field_other k k' j : k <> k' -> jget (jfield k' j) k = None.
Proof. intros H. unfold jfield. simpl. by rewrite decide_False. Qed.

Lemma jget_omit_str_other k k' s : k <> k' -> jget (omit_str k' s) k = None.
Proof. intros H. unfold omit_str. case_decide; simpl; [done|]. by rewrite decide_False. Qed.

Lemma jget_omit_num_other k k' s : k <> k' -> jget (omit_num k' s) k = None.
Proof. intros H. unfold omit_num. case_decide; simpl; [done|]. by rewrite decide_False. Qed.

Lemma jget_omit_ptr_other {A} k k' (enc : A -> json) o : k <> k' -> jget (omit_ptr k' enc o) k = None.
Proof. intros H. destruct o; simpl; [by rewrite decide_False|done]. Qed.

(** What a field that may have been omitted is read back as. *)
Definition merge_str (s old : string) : string := if decide (s = ""%string) then old else s.
Definition merge_num (z old : Z) : Z := if decide (z = 0) then old else z.

Lemma dec_omit_str k s old :
  match jget (omit_str k s) k with None => inl old | Some j => dec_str j old end = inl (merge_str s old).
Proof. unfold omit_str, merge_str. case_decide; simpl; [done|]. by rewrite decide_True. Qed.

Lemma dec_int32_num z old : is_int32 z -> dec_int32 (JNum z) old = inl z.
Proof. intros H. simpl. by rewrite decide_True. Qed.

Lemma dec_omit_num k z old : is_int32 z ->
  match jget (omit_num k z) k with None => inl old | Some j => dec_int32 j old end = inl (merge_num z old).
Proof.
  intros H. unfold omit_num, merge_num. case_decide; simpl; [done|].
  rewrite (decide_True (P := k = k)) by done. by apply dec_int32_num.
Qed.

Lemma dec_omit_int32_ptr k (o old : option Z) : (forall z, o = Some z -> is_int32 z) ->
  match jget (omit_ptr k JNum o) k with None => inl old | Some j => dec_ptr 0 dec_int32 j old end
  = inl (match o with Some z => Some z | None => old end).
Proof.
  intros H. destruct o as [z|]; simpl; [|done]. rewrite decide_True by done. simpl.
  by rewrite decide_True by auto.
Qed.

Lemma opt_match_id {A} (x : option A) : match x with Some j => Some j | None => None end = x.
Proof. by destruct x. Qed.

(** Look up a field among the fields of a struct. *)
Ltac jget_simpl :=
  rewrite ?jget_app;
  repeat match goal with
    | |- context [jget (jfield ?k ?j) ?k] => rewrite (jget_field_same k j)
    | |- context [jget (jfield ?k' ?j) ?k] => rewrite (jget_field_other k k' j) by discriminate
    | |- context [jget (omit_str ?k' ?s) ?k] => rewrite (jget_omit_str_other k k' s) by discriminate
    | |- context [jget (omit_num ?k' ?z) ?k] => rewrite (jget_omit_num_other k k' z) by discriminate
    | |- context [jget (omit_ptr ?k' ?e ?o) ?k] => rewrite (jget_omit_ptr_other k k' e o) by discriminate
    end;
  cbv iota; rewrite ?opt_match_id.

(** Read the next field: what it is decoded to is found by the lemmas
    above. *)
Ltac read_field :=
  match goal with
  | |- sum_bind ?r _ = _ =>
      let E := fresh "E" in
      eassert (E : r = inl _);
        [ unfold dec_field; jget_simpl;
          first [ apply dec_omit_str | apply dec_omit_int32_ptr; assumption | apply dec_omit_num; assumption
                | apply dec_int32_num; assumption | reflexivity ]
        | rewrite E; clear E; cbn [sum_bind] ]
  end.

(** ** A text for every document: an instance for concrete runs *)

Fixpoint json_tree (j : json) : gen_tree (bool + Z + string) :=
  match j with
  | JNull => GenNode 0 []
  | JBool b => GenLeaf (inl (inl b))
  | JNum z => GenLeaf (inl (inr z))
  | JStr s => GenLeaf (inr s)
  | JObj fs => GenNode 1 (map (fun f => GenNode 2 [GenLeaf (inr f.1); json_tree f.2]) fs)
  end.

Fixpoint tree_json (t : gen_tree (bool + Z + string)) : json :=
  match t with
  | GenLeaf (inl (inl b)) => JBool b
  | GenLeaf (inl (inr z)) => JNum z
  | GenLeaf (inr s) => JStr s
  | GenNode 1 ts =>
      JObj (map (fun t => match t with
                          | GenNode _ [GenLeaf (inr k); t'] => (k, tree_json t')
                          | _ => (""%string, JNull)
                          end) ts)
  | GenNode _ _ => JNull
  end.

Lemma tree_json_tree : forall j, tree_json (json_tree j) = j.
Proof.
  fix IH 1. intros [|b|z|s|fs]; simpl; try done. f_equal. rewrite map_map.
  induction fs as [|[k j] fs IHfs]; simpl; [done|]. rewrite (IH j), IHfs. done.
Qed.

Fixpoint pos_string (p : positive) : string :=
  match p with
  | xH => EmptyString
  | xO p => String "0" (pos_string p)
  | xI p => String "1" (pos_string p)
  end.

Fixpoint string_pos (s : string) : positive :=
  match s with
  | EmptyString => xH
  | String a s => if Ascii.eqb a "1" then xI (string_pos s) else xO (string_pos s)
  end.

Lemma string_pos_string p : string_pos (pos_string p) = p.
Proof. induction p; simpl; congruence. Qed.

#[global] Instance json_text_default : JsonText | 100.
Proof.
  refine {| json_print j := pos_string (encode (json_tree j));
            json_parse s := tree_json <$> decode (string_pos s) |}.
  intros j. by rewrite string_pos_string, decode_encode; simpl; rewrite tree_json_tree.
Defined.
