(* ===== verification/GoPath.v ===== *)
(** * Paths and separators

    [path.Clean] and [path.Join] of Go's standard library, which the operator
    uses for the directories of a member, and [strings.Split] on a double
    underscore, which separates the parts of the keys of a WAN replication's
    status (src/internal/controller/hazelcast/wanreplication_controller.go). *)

From S2P Require Import Prelude Eff.
#[local] Open Scope string_scope.
#[local] Open Scope list_scope.

(** ** Components *)

Definition cons_head (c : ascii) (l : list string) : list string :=
  match l with [] => [String c ""] | s :: l => String c s :: l end.

(** [strings.Split(s, "/")] *)
Fixpoint split_slash (s : string) : list string :=
  match s with
  | "" => [""]
  | String c s => if decide (c = "/"%char) then "" :: split_slash s else cons_head c (split_slash s)
  end.

(** One component of [path.Clean]; the components kept are in reverse. *)
Definition clean_step (rooted : bool) (kept : list string) (elem : string) : list string :=
  if decide (elem = "") then kept
  else if decide (elem = ".") then kept
  else if decide (elem = "..") then
    match kept with
    | [] => if rooted then [] else [".."]
    | top :: rest => if decide (top = "..") then ".." :: kept else rest
    end
  else elem :: kept.

Definition path_Clean (p : string) : string :=
  match p with
  | "" => "."
  | String c _ =>
      let rooted := bool_decide (c = "/"%char) in
      let out := String.concat "/" (rev (foldl (clean_step rooted) [] (split_slash p))) in
      if rooted then "/" ++ out else if decide (out = "") then "." else out
  end.

(** The elements joined by slashes, empty ones in front left out. *)
Fixpoint join_elems (buf : string) (elems : list string) : string :=
  match elems with
  | [] => buf
  | e :: elems =>
      join_elems (if decide (buf = "") then e else buf ++ "/" ++ e) elems
  end.

Definition path_Join (elems : list string) : string :=
  let buf := join_elems "" elems in
  if decide (buf = "") then "" else path_Clean buf.

Example path_Join_plain : path_Join ["/data/tiered-storage"; "dev"] = "/data/tiered-storage/dev".
Proof. reflexivity. Qed.
Example path_Join_dotdot : path_Join ["/data/tiered-storage"; "../dev//x/."] = "/data/dev/x".
Proof. reflexivity. Qed.

(** ** strings.Split(s, "__") *)

Fixpoint split_dunder (s : string) : list string :=
  match s with
  | "" => [""]
  | String c s' =>
      match s' with
      | "" => [String c ""]
      | String c' s'' =>
          if decide (c = "_"%char /\ c' = "_"%char) then "" :: split_dunder s'' else cons_head c (split_dunder s')
      end
  end.

(** No underscore, as in the name of a Kubernetes resource. *)
Fixpoint no_underscore (s : string) : bool :=
  match s with "" => true | String c s => bool_decide (c <> "_"%char) && no_underscore s end.
(** No two underscores in a row. *)
Fixpoint no_dunder (s : string) : bool :=
  match s with
  | "" => true
  | String c s' =>
      no_dunder s' && match s' with "" => true | String c' _ => negb (bool_decide (c = "_"%char /\ c' = "_"%char)) end
  end.

(** No slash. *)
Fixpoint no_slash (s : string) : bool :=
  match s with "" => true | String c s => bool_decide (c <> "/"%char) && no_slash s end.

Lemma split_slash_cons s : split_slash s <> [].
Proof.
  destruct s as [|c s]; simpl; [done|]. case_decide; [done|]. by destruct (split_slash s).
Qed.

Lemma split_slash_app a b : split_slash (a ++ String "/" b)%string = split_slash a ++ split_slash b.
Proof.
  induction a as [|c a IH]; [done|]. change ((String c a ++ String "/" b)%string) with (String c (a ++ String "/" b)%string).
  simpl. rewrite IH. case_decide; [done|]. pose proof (split_slash_cons a). by destruct (split_slash a).
Qed.

Lemma split_slash_plain s : no_slash s = true -> split_slash s = [s].
Proof.
  induction s as [|c s IH]; simpl; [done|]. intros [Hc%bool_decide_eq_true Hs]%andb_true_iff.
  rewrite decide_False, IH by done. done.
Qed.

(** A component that [path.Clean] keeps. *)
Definition plain_name (s : string) : Prop := no_slash s = true /\ s <> "" /\ s <> "." /\ s <> "..".

Lemma clean_step_plain rooted kept s : plain_name s -> clean_step rooted kept s = s :: kept.
Proof. intros (_ & H1 & H2 & H3). unfold clean_step. by rewrite !decide_False. Qed.

Lemma str_app_assoc (a b c : string) : (a ++ (b ++ c) = (a ++ b) ++ c)%string.
Proof. induction a as [|x a IH]; [done|]. exact (f_equal (String x) IH). Qed.

Lemma str_length_app (a b : string) : String.length (a ++ b)%string = (String.length a + String.length b)%nat.
Proof. induction a as [|x a IH]; [done|]. exact (f_equal S IH). Qed.

Lemma concat_snoc sep (l : list string) s : l <> [] -> String.concat sep (l ++ [s]) = (String.concat sep l ++ sep ++ s)%string.
Proof.
  induction l as [|x l IH]; [done|]. intros _. destruct l as [|y l]; [done|].
  change ((x :: y :: l) ++ [s]) with (x :: ((y :: l) ++ [s])). simpl in IH |- *. rewrite IH by done.
  by rewrite !str_app_assoc.
Qed.

(** A file in a directory below the root. *)
Lemma path_Join_child base name top kept : base = String "/" (String.concat "/" (rev (top :: kept))) ->
  foldl (clean_step true) [] (split_slash base) = top :: kept -> plain_name name ->
  path_Join [base; name] = (base ++ "/" ++ name)%string.
Proof.
  intros Hb Hc Hn. set (r := foldl (clean_step true) []) in *.
  assert (Hj : path_Join [base; name] = path_Clean (base ++ "/" ++ name)%string).
  { unfold path_Join. cbn [join_elems]. by rewrite Hb. }
  assert (Hp : path_Clean (base ++ "/" ++ name)%string
               = ("/" ++ String.concat "/" (rev (r (split_slash (base ++ "/" ++ name)))))%string) by by rewrite Hb.
  change ("/" ++ name)%string with (String "/" name) in *. rewrite Hj, Hp, split_slash_app. unfold r in *.
  rewrite foldl_app, Hc, split_slash_plain by apply Hn. cbn [foldl].
  rewrite clean_step_plain by done. change (rev (name :: top :: kept)) with (rev (top :: kept) ++ [name]).
  rewrite concat_snoc; [by rewrite Hb|]. simpl. by destruct (rev kept).
Qed.

(** Keys of two parts. *)
Lemma split_dunder_cons s : split_dunder s <> [].
Proof.
  destruct s as [|c [|c' s]]; simpl; [done..|]. case_decide; [done|]. by destruct (match s with "" => _ | _ => _ end).
Qed.

Lemma split_dunder_step c s : split_dunder (String c s)
  = match s with
    | String c' s'' => if decide (c = "_"%char /\ c' = "_"%char) then "" :: split_dunder s'' else cons_head c (split_dunder s)
    | _ => [String c ""]
    end.
Proof. by destruct s. Qed.

Lemma concat_cons_head sep c l : l <> [] -> String.concat sep (cons_head c l) = String c (String.concat sep l).
Proof. destruct l as [|s [|s' l]]; done. Qed.

(** The parts joined again. *)
Lemma split_dunder_concat : forall s, String.concat "__" (split_dunder s) = s.
Proof.
  assert (H : forall s, String.concat "__" (split_dunder s) = s
                        /\ forall c, String.concat "__" (split_dunder (String c s)) = String c s); [|intros; apply H].
  induction s as [|c s [IH1 IH2]]; [by split|]. split; [apply IH2|]. intros d.
  rewrite split_dunder_step. case_decide as Hd.
  - destruct Hd as [-> ->]. pose proof (split_dunder_cons s). destruct (split_dunder s) as [|x l] eqn:E; [done|].
    change (String.concat "__" ("" :: x :: l)) with ("__" ++ String.concat "__" (x :: l))%string. by rewrite IH1.
  - rewrite concat_cons_head by apply split_dunder_cons. by rewrite IH2.
Qed.

Lemma split_no_dunder : forall s, no_dunder s = true -> split_dunder s = [s].
Proof.
  induction s as [|c s IH]; [done|]. rewrite split_dunder_step. simpl no_dunder.
  intros [Hs Hc]%andb_true_iff. destruct s as [|c' s]; [done|].
  rewrite decide_False; [by rewrite IH|]. by intros Hd%(bool_decide_eq_true_2 _); rewrite Hd in Hc.
Qed.

Lemma split_has_dunder : forall s, no_dunder s = false -> (1 < length (split_dunder s))%nat.
Proof.
  assert (Hl : forall c l, length (cons_head c l) = Nat.max 1 (length l)) by (by intros c [|s [|s' l]]).
  induction s as [|c s IH]; [done|]. rewrite split_dunder_step. simpl no_dunder.
  destruct s as [|c' s]; [done|]. case_decide as Hd.
  - intros _. pose proof (split_dunder_cons s). destruct (split_dunder s); simpl; [done|lia].
  - intros [Hs|Hc]%andb_false_iff.
    + apply IH in Hs. rewrite Hl. lia.
    + by rewrite bool_decide_eq_false_2 in Hc.
Qed.

Lemma split_dunder_head_iff s x l : split_dunder s = x :: l -> (x = s <-> no_dunder s = true).
Proof.
  intros E. destruct (no_dunder s) eqn:Hs; split; try done.
  - intros _. rewrite split_no_dunder in E by done. by injection E.
  - intros ->. apply split_has_dunder in Hs as Hl. pose proof (split_dunder_concat s) as Hc. rewrite E in *.
    destruct l as [|y l]; [simpl in Hl; lia|]. change (s ++ "__" ++ String.concat "__" (y :: l) = s)%string in Hc.
    apply (f_equal String.length) in Hc. rewrite !str_length_app in Hc. simpl in Hc. lia.
Qed.

Lemma split_dunder_key hz m : no_underscore hz = true -> split_dunder (hz ++ "__" ++ m)%string = hz :: split_dunder m.
Proof.
  induction hz as [|c hz IH]; [done|]. simpl no_underscore. intros [Hc%bool_decide_eq_true Hh]%andb_true_iff.
  change (String c hz ++ "__" ++ m)%string with (String c (hz ++ "__" ++ m))%string. rewrite split_dunder_step.
  destruct (hz ++ "__" ++ m)%string as [|c' s] eqn:E; [by destruct hz|].
  rewrite decide_False by (by intros [-> _]). rewrite IH by done. done.
Qed.
