(* ===== verification/GoNet.v ===== *)
(** * Endpoints

    [strings.TrimSpace], [net.SplitHostPort] and [net.JoinHostPort] of Go's
    standard library, as the WAN replication controller and the dialer
    (src/internal/dialer/dialer.go) use them, with their lemmas; and
    [strconv.Quote], which the Management Center controller uses. *)

From S2P Require Import Prelude Eff GoPath.
#[local] Open Scope string_scope.
#[local] Open Scope list_scope.

Abbreviation chars := list_ascii_of_string.
Abbreviation of_chars := string_of_list_ascii.

(** ** strings *)

(** White space at the end, on the reversed string. *)
Fixpoint trim_right_rev (l : list ascii) : list ascii :=
  match l with
  | [] => []
  | a :: r =>
      if space1 a then trim_right_rev r else
      match r with
      | [] => l
      | b :: r2 =>
          if space2 b a then trim_right_rev r2 else
          match r2 with
          | [] => l
          | c :: r3 => if space3 c b a then trim_right_rev r3 else l
          end
      end
  end.

Definition TrimSpace (s : string) : string := of_chars (rev (trim_right_rev (rev (chars (trim_left_space s))))).

(** [strings.Split(s, ",")] *)
Fixpoint split_comma (s : string) : list string :=
  match s with
  | "" => [""]
  | String c s => if decide (c = ","%char) then "" :: split_comma s else cons_head c (split_comma s)
  end.

(** ** net *)

Fixpoint index_byte (c : ascii) (l : list ascii) : option nat :=
  match l with
  | [] => None
  | a :: l => if decide (a = c) then Some 0%nat else S <$> index_byte c l
  end.
Fixpoint last_index_byte (c : ascii) (l : list ascii) : option nat :=
  match l with
  | [] => None
  | a :: l =>
      match last_index_byte c l with
      | Some i => Some (S i)
      | None => if decide (a = c) then Some 0%nat else None
      end
  end.

(** The host and the port, or why the address is none. *)
Definition split_host_port (hostport : list ascii) : sum (list ascii * list ascii) string :=
  match last_index_byte ":" hostport with
  | None => inr "missing port in address"
  | Some i =>
      let rest (host : list ascii) (j k : nat) :=
        if decide ("["%char ∈ drop j hostport) then inr "unexpected '[' in address"
        else if decide ("]"%char ∈ drop k hostport) then inr "unexpected ']' in address"
        else inl (host, drop (S i) hostport) in
      if decide (head hostport = Some "["%char) then
        match index_byte "]" hostport with
        | None => inr "missing ']' in address"
        | Some e =>
            if decide (S e = length hostport) then inr "missing port in address"
            else if decide (S e = i) then rest (drop 1 (take e hostport)) 1%nat (S e)
            else if decide (hostport !! S e = Some ":"%char) then inr "too many colons in address"
            else inr "missing port in address"
        end
      else
        let host := take i hostport in
        if decide (":"%char ∈ host) then inr "too many colons in address" else rest host 0%nat 0%nat
  end.

Definition SplitHostPort (hostport : string) : sum (string * string) error :=
  match split_host_port (chars hostport) with
  | inl (host, port) => inl (of_chars host, of_chars port)
  | inr why => inr (errors_New ("address " ++ hostport ++ ": " ++ why))
  end.

Definition JoinHostPort (host port : string) : string :=
  if decide (":"%char ∈ chars host) then "[" ++ host ++ "]:" ++ port else host ++ ":" ++ port.

Definition has_port (e : string) : bool := match SplitHostPort e with inl _ => true | inr _ => false end.

Example split_plain : SplitHostPort "hz.example.com:5710" = inl ("hz.example.com", "5710").
Proof. reflexivity. Qed.
Example split_ipv6 : SplitHostPort "[::1]:5710" = inl ("::1", "5710").
Proof. reflexivity. Qed.
Example split_no_port : has_port "[::1]" = false.
Proof. reflexivity. Qed.
Example join_ipv6 : JoinHostPort "[::1]" "5710" = "[[::1]]:5710".
Proof. reflexivity. Qed.
Example trim_both : TrimSpace "  a b " = "a b".
Proof. reflexivity. Qed.

(** ** Lemmas *)

Lemma chars_app (a b : string) : chars (a ++ b)%string = chars a ++ chars b.
Proof. induction a as [|c a IH]; [done|]. exact (f_equal (cons c) IH). Qed.

Lemma chars_inj (a b : string) : chars a = chars b -> a = b.
Proof. intros E. by rewrite <-(string_of_list_ascii_of_string a), E, string_of_list_ascii_of_string. Qed.

Lemma chars_of l : chars (of_chars l) = l.
Proof. apply list_ascii_of_string_of_list_ascii. Qed.

Lemma last_index_none c l : last_index_byte c l = None <-> c ∉ l.
Proof.
  induction l as [|a l IH]; cbn [last_index_byte]; [split; [intros _; apply not_elem_of_nil|done]|].
  rewrite not_elem_of_cons. destruct (last_index_byte c l).
  - split; [done|]. intros [_ Hn]. by apply IH in Hn.
  - case_decide; split; try done; [by intros []|]. intros _. split; [congruence|by apply IH].
Qed.

Lemma last_index_app c l l' : c ∉ l' -> last_index_byte c (l ++ c :: l') = Some (length l).
Proof.
  intros Hn. induction l as [|a l IH]; cbn [last_index_byte app length]; [|by rewrite IH].
  rewrite (proj2 (last_index_none c l') Hn). by rewrite decide_True.
Qed.

Lemma index_none c l : index_byte c l = None <-> c ∉ l.
Proof.
  induction l as [|a l IH]; cbn [index_byte]; [split; [intros _; apply not_elem_of_nil|done]|].
  rewrite not_elem_of_cons. case_decide; [split; [done|by intros []]|].
  rewrite fmap_None, IH. naive_solver.
Qed.

Lemma index_app c l l' : c ∉ l -> index_byte c (l ++ c :: l') = Some (length l).
Proof.
  induction l as [|a l IH]; cbn [index_byte app length]; [by rewrite decide_True|].
  rewrite not_elem_of_cons. intros [Ha Hn]. rewrite decide_False by congruence. by rewrite IH.
Qed.

(** The first occurrence is before any other. *)
Lemma index_first c l l' : c ∈ l -> exists i, index_byte c (l ++ l') = Some i /\ (i < length l)%nat.
Proof.
  induction l as [|a l IH]; [by intros ?%not_elem_of_nil|]. cbn [index_byte app length]. intros Hc.
  case_decide; [exists 0%nat; split; [done|lia]|]. apply elem_of_cons in Hc as [->|Hc]; [done|].
  destruct (IH Hc) as (i & -> & Hi). exists (S i). split; [done|lia].
Qed.

(** No bracket, no colon. *)
Definition no_brackets (l : list ascii) : Prop := "["%char ∉ l /\ "]"%char ∉ l.
Definition plain_port (p : list ascii) : Prop := ":"%char ∉ p /\ no_brackets p.
#[export] Instance no_brackets_dec l : Decision (no_brackets l).
Proof. unfold no_brackets. apply _. Defined.

Lemma no_brackets_app l l' : no_brackets (l ++ l') <-> no_brackets l /\ no_brackets l'.
Proof. unfold no_brackets. rewrite !not_elem_of_app. naive_solver. Qed.

Definition splits (l : list ascii) : Prop := exists hp, split_host_port l = inl hp.

Ltac not_a_split := let H := fresh in split; [by intros [? H] | tauto].

Lemma drop_S_app {A} (l : list A) a l' : drop (S (length l)) (l ++ a :: l') = l'.
Proof. induction l; [done|]. done. Qed.

(** A host in brackets. *)
Lemma split_bracketed x p : plain_port p ->
  splits ("["%char :: x ++ "]"%char :: ":"%char :: p) <-> no_brackets x.
Proof.
  intros (Hc & Hl & Hr). unfold splits, split_host_port.
  set (s := "["%char :: x ++ "]"%char :: ":"%char :: p).
  assert (Hlast : last_index_byte ":" s = Some (S (S (length x)))).
  { assert (Hs : s = ("["%char :: x ++ ["]"%char]) ++ ":"%char :: p) by (unfold s; simpl; by rewrite <-app_assoc).
    rewrite Hs, last_index_app by done. simpl. rewrite length_app. simpl. f_equal. lia. }
  rewrite Hlast. rewrite decide_True by done.
  assert (Hdrop : "["%char ∈ drop 1 s <-> "["%char ∈ x).
  { unfold s. cbn [drop]. rewrite drop_0, elem_of_app, !elem_of_cons. naive_solver. }
  destruct (decide ("]"%char ∈ x)) as [Hx|Hx].
  - (* the first bracket is inside the host *)
    assert (Hi : exists i, index_byte "]" s = Some (S i) /\ (i < length x)%nat).
    { unfold s. cbn [index_byte]. rewrite decide_False by done.
      destruct (index_first "]" x ("]"%char :: ":"%char :: p) Hx) as (i & -> & Hi). by exists i. }
    destruct Hi as (i & -> & Hi). rewrite decide_False by (unfold s; simpl; rewrite length_app; simpl; lia).
    rewrite decide_False by lia. unfold no_brackets. case_decide; not_a_split.
  - assert (Hi : index_byte "]" s = Some (S (length x))).
    { unfold s. cbn [index_byte]. rewrite decide_False by done. rewrite index_app by done. done. }
    rewrite Hi. rewrite decide_False by (unfold s; simpl; rewrite length_app; simpl; lia). rewrite decide_True by done.
    unfold no_brackets. case_decide as H1; [naive_solver|]. rewrite Hdrop in H1.
    assert (Hd : drop (S (S (length x))) s = ":"%char :: p).
    { unfold s. cbn [drop]. by rewrite drop_S_app. }
    rewrite Hd, decide_False by (rewrite elem_of_cons; naive_solver). naive_solver.
Qed.

(** A host without colons. *)
Lemma split_plain_host x p : plain_port p -> ":"%char ∉ x ->
  splits (x ++ ":"%char :: p) <-> no_brackets x \/ exists y, x = "["%char :: y ++ ["]"%char] /\ no_brackets y.
Proof.
  intros Hp Hx. pose proof Hp as (Hc & Hl & Hr). destruct x as [|a x].
  { split; [intros _; left; split; apply not_elem_of_nil|]. intros _. unfold splits, split_host_port.
    rewrite (last_index_app ":" []) by done. cbn [length]. rewrite decide_False by done. cbn [take].
    rewrite decide_False by apply not_elem_of_nil. cbn [drop app].
    rewrite !decide_False by (rewrite elem_of_cons; naive_solver). by eexists. }
  unfold splits, split_host_port. rewrite (last_index_app ":" (a :: x)) by done.
  set (s := (a :: x) ++ ":"%char :: p). destruct (decide (a = "["%char)) as [->|Ha].
  - rewrite decide_True by done. unfold no_brackets at 1.
    assert (Hno : ~ ("["%char ∉ "["%char :: x /\ "]"%char ∉ "["%char :: x)) by (rewrite elem_of_cons; naive_solver).
    destruct (decide ("]"%char ∈ x)) as [Hin|Hin].
    + apply list_elem_of_split_l in Hin as (y & z & -> & Hy).
      assert (Hi : index_byte "]" s = Some (S (length y))).
      { unfold s. cbn [index_byte app]. rewrite decide_False by done. rewrite <-app_assoc. cbn [app]. by rewrite (index_app "]" y). }
      rewrite Hi. rewrite decide_False by (unfold s; simpl; rewrite !length_app; simpl; lia).
      destruct z as [|c z].
      * rewrite decide_True by (simpl; rewrite length_app; simpl; lia).
        assert (Hd1 : "["%char ∈ drop 1 s <-> "["%char ∈ y).
        { unfold s. cbn [drop app]. rewrite drop_0, !elem_of_app, !elem_of_cons, elem_of_nil. intuition discriminate. }
        assert (Hd2 : "]"%char ∉ drop (S (S (length y))) s).
        { unfold s. cbn [drop app]. rewrite <-app_assoc. cbn [app]. rewrite drop_S_app. rewrite elem_of_cons. naive_solver. }
        case_decide as H1; rewrite Hd1 in H1.
        -- split; [by intros [? ?]|]. intros [?|(y' & E & [Hn _])]; [done|]. injection E as E.
           apply app_inj_tail in E as [-> _]. done.
        -- rewrite decide_False by done. split; [|by eexists]. intros _. right. by exists y.
      * rewrite decide_False by (simpl; rewrite length_app; simpl; lia). split; [by case_decide; intros [? ?]|].
        intros [?|(y' & E & [_ Hn])]; [done|]. injection E as E. exfalso.
        destruct (exists_last (l := c :: z)) as (z' & w & Ez); [done|]. rewrite Ez in E.
        change (y ++ "]"%char :: z' ++ [w]) with (y ++ ("]"%char :: z') ++ [w]) in E. rewrite app_assoc in E.
        apply app_inj_tail in E as [<- _]. apply Hn. rewrite elem_of_app, elem_of_cons. naive_solver.
    + assert (Hi : index_byte "]" s = None) by (apply index_none; unfold s; rewrite elem_of_app, !elem_of_cons; naive_solver).
      rewrite Hi. split; [by intros [? ?]|]. intros [?|(y' & E & _)]; [done|]. injection E as ->. destruct Hin.
      rewrite elem_of_app, list_elem_of_singleton. by right.
  - assert (Ht : take (length (a :: x)) s = a :: x) by apply take_app_length.
    rewrite decide_False by (simpl; congruence). rewrite Ht, decide_False by done.
    assert (Hin : forall c, c <> ":"%char -> c ∉ p -> c ∈ drop 0 s <-> c ∈ a :: x).
    { intros c Hcc Hcp. unfold s. rewrite drop_0, elem_of_app, (elem_of_cons p). tauto. }
    destruct (decide (no_brackets (a :: x))) as [[H1 H2]|H].
    + rewrite !decide_False by (by rewrite Hin). split; [by left|by eexists].
    + split; [|intros [?|(y & E & _)]; [done|by injection E]]. case_decide as H1; [by intros [? ?]|].
      case_decide as H2; [by intros [? ?]|]. rewrite Hin in H1, H2 by done. by destruct H.
Qed.

Lemma has_port_splits e : has_port e = true <-> splits (chars e).
Proof.
  unfold has_port, SplitHostPort, splits. destruct (split_host_port (chars e)) as [[h p]|w].
  - split; [by eexists|done].
  - split; [done|by intros [? ?]].
Qed.

Lemma chars_bracketed (e p : string) :
  chars ("[" ++ e ++ "]:" ++ p)%string = "["%char :: chars e ++ "]"%char :: ":"%char :: chars p.
Proof. by rewrite !chars_app. Qed.

Lemma chars_colon (e p : string) : chars (e ++ ":" ++ p)%string = chars e ++ ":"%char :: chars p.
Proof. by rewrite !chars_app. Qed.

(** Which hosts a port can be joined to. *)
Definition joinable (e : list ascii) : Prop :=
  no_brackets e \/ ":"%char ∉ e /\ exists y, e = "["%char :: y ++ ["]"%char] /\ no_brackets y.

Lemma join_has_port e p : plain_port (chars p) -> has_port (JoinHostPort e p) = true <-> joinable (chars e).
Proof.
  intros Hp. rewrite has_port_splits. unfold JoinHostPort, joinable. case_decide as Hc.
  - rewrite chars_bracketed, split_bracketed by done. naive_solver.
  - rewrite chars_colon, split_plain_host by done. naive_solver.
Qed.

(** An address that is none after joining is none after joining again. *)
Lemma join_again e p : plain_port (chars p) -> has_port (JoinHostPort e p) = false ->
  has_port (JoinHostPort (JoinHostPort e p) p) = false.
Proof.
  intros Hp He. apply not_true_iff_false. intros Hj%(join_has_port _ _ Hp). apply not_true_iff_false in He.
  rewrite join_has_port in He by done. destruct Hp as (Hc & Hl & Hr). unfold JoinHostPort in Hj. case_decide as Hd.
  - rewrite chars_bracketed in Hj. destruct Hj as [[Hj _]|[Hj _]]; (destruct Hj; rewrite ?elem_of_cons, ?elem_of_app, ?elem_of_cons; auto 10).
  - rewrite chars_colon in Hj. destruct Hj as [Hj|[Hj _]].
    + apply no_brackets_app in Hj as [Hj _]. apply He. by left.
    + destruct Hj. rewrite elem_of_app, elem_of_cons. auto.
Qed.

Lemma string_length_chars e : String.length e = length (chars e).
Proof. induction e as [|c e IH]; [done|]. exact (f_equal S IH). Qed.

Lemma join_longer e p : (String.length e < String.length (JoinHostPort e p))%nat.
Proof.
  unfold JoinHostPort. rewrite !string_length_chars. case_decide.
  - rewrite chars_bracketed. simpl. rewrite length_app. simpl. lia.
  - rewrite chars_colon, length_app. simpl. lia.
Qed.

(** ** Trimmed strings *)

(** Whether a string starts, or a reversed one ends, with white space. *)
Definition starts_space (l : list ascii) : bool :=
  match l with
  | [] => false
  | [a] => space1 a
  | [a; b] => space1 a || space2 a b
  | a :: b :: c :: _ => space1 a || space2 a b || space3 a b c
  end.
Definition ends_space (l : list ascii) : bool :=
  match l with
  | [] => false
  | [a] => space1 a
  | [a; b] => space1 a || space2 b a
  | a :: b :: c :: _ => space1 a || space2 b a || space3 c b a
  end.

(** Induction on what one step of trimming can remove. *)
Lemma list_ind3 {A} (Q : list A -> Prop) : Q [] -> (forall a, Q [a]) ->
  (forall a b, Q [b] -> Q [] -> Q [a; b]) ->
  (forall a b c l, Q (b :: c :: l) -> Q (c :: l) -> Q l -> Q (a :: b :: c :: l)) -> forall l, Q l.
Proof.
  intros H0 H1 H2 H3 l. cut (Q l /\ Q (drop 1 l) /\ Q (drop 2 l)); [tauto|].
  induction l as [|a l (IH1 & IH2 & IH3)]; [done|]. split; [|by rewrite <-(drop_drop _ 1 1) in *].
  destruct l as [|b [|c l]]; [done|by apply H2|by apply H3].
Qed.

Lemma trim_right_rev_ends l : ends_space (trim_right_rev l) = false /\ trim_right_rev l `suffix_of` l.
Proof.
  revert l. apply list_ind3; [done| | |].
  - intros a. simpl. destruct (space1 a) eqn:E; [split; [done|apply suffix_nil]|]. simpl; by rewrite E.
  - intros a b [H1 S1] [H2 S2]. simpl in *. destruct (space1 a) eqn:E; [split; [done|by apply suffix_cons_r]|].
    destruct (space2 b a) eqn:E2; [split; [done|apply suffix_nil]|]. split; [simpl; by rewrite E, E2|done].
  - intros a b c l [H1 S1] [H2 S2] [H3 S3]. cbn [trim_right_rev] in *.
    destruct (space1 a) eqn:E; [split; [done|by apply suffix_cons_r]|].
    destruct (space2 b a) eqn:E2; [split; [done|by do 2 apply suffix_cons_r]|].
    destruct (space3 c b a) eqn:E3; [split; [done|by do 3 apply suffix_cons_r]|].
    split; [simpl; by rewrite E, E2, E3|done].
Qed.

Lemma trim_right_rev_fixed l : ends_space l = false -> trim_right_rev l = l.
Proof.
  destruct l as [|a [|b [|c l]]]; simpl; [done|by intros ->| |].
  - intros [-> ->]%orb_false_iff. done.
  - intros [[-> ->]%orb_false_iff ->]%orb_false_iff. done.
Qed.

Lemma trim_left_chars s : starts_space (chars (trim_left_space s)) = false /\ chars (trim_left_space s) `suffix_of` chars s.
Proof.
  rewrite <-(string_of_list_ascii_of_string s). generalize (chars s). clear s. apply list_ind3; [done| | |].
  - intros a. simpl. destruct (space1 a) eqn:E; [split; [done|apply suffix_nil]|]. simpl; by rewrite E.
  - intros a b [H1 S1] [H2 S2]. simpl in *. destruct (space1 a) eqn:E; [split; [done|by apply suffix_cons_r]|].
    destruct (space2 a b) eqn:E2; [split; [done|apply suffix_nil]|]. split; [simpl; by rewrite E, E2|done].
  - intros a b c l [H1 S1] [H2 S2] [H3 S3]. cbn [trim_left_space string_of_list_ascii list_ascii_of_string] in *.
    destruct (space1 a) eqn:E; [split; [done|by apply suffix_cons_r]|].
    destruct (space2 a b) eqn:E2; [split; [done|by do 2 apply suffix_cons_r]|].
    destruct (space3 a b c) eqn:E3; [split; [done|by do 3 apply suffix_cons_r]|].
    split; [simpl; by rewrite E, E2, E3|done].
Qed.

Lemma trim_left_fixed s : starts_space (chars s) = false -> trim_left_space s = s.
Proof.
  destruct s as [|a [|b [|c s]]]; simpl; [done|by intros ->| |].
  - intros [-> ->]%orb_false_iff. done.
  - intros [[-> ->]%orb_false_iff ->]%orb_false_iff. done.
Qed.

(** Nothing to trim. *)
Definition trimmed (l : list ascii) : Prop := starts_space l = false /\ ends_space (rev l) = false.

Lemma starts_prefix l l' : l `prefix_of` l' -> starts_space l' = false -> starts_space l = false.
Proof.
  intros [k ->]. destruct l as [|a [|b [|c l]]]; simpl; [done| | |by rewrite !orb_false_iff].
  - destruct k as [|b [|c k]]; simpl; [done| |]; rewrite ?orb_false_iff; tauto.
  - destruct k as [|c k]; simpl; [done|]; rewrite ?orb_false_iff; tauto.
Qed.

Lemma TrimSpace_fixed s : trimmed (chars s) -> TrimSpace s = s.
Proof.
  intros [Hs He]. unfold TrimSpace. rewrite trim_left_fixed by done. rewrite trim_right_rev_fixed by done.
  rewrite rev_involutive. apply string_of_list_ascii_of_string.
Qed.

Lemma elem_of_rev {A} (a : A) l : a ∈ rev l <-> a ∈ l.
Proof. by rewrite !list_elem_of_In, <-in_rev. Qed.

Lemma TrimSpace_trimmed s : trimmed (chars (TrimSpace s)) /\ chars (TrimSpace s) ⊆ chars s.
Proof.
  unfold TrimSpace, trimmed. rewrite chars_of, rev_involutive. destruct (trim_left_chars s) as [Hs Hl].
  destruct (trim_right_rev_ends (rev (chars (trim_left_space s)))) as [He [k Hk]]. set (t := trim_right_rev _) in *. clearbody t. split; [split; [|done]|].
  - apply (starts_prefix _ (chars (trim_left_space s))); [|done]. exists (rev k).
    apply (f_equal (@rev ascii)) in Hk. by rewrite rev_involutive, rev_app_distr in Hk.
  - intros c Hc. rewrite elem_of_rev in Hc. destruct Hl as [k' Hl]. rewrite Hl, elem_of_app. right. apply elem_of_rev.
    rewrite Hk, elem_of_app. by right.
Qed.

(** * Quoted strings

    [strconv.Quote], which [%q] of the fmt package uses: the init command of
    a Management Center quotes the settings of its LDAP provider with it.
    Strings are UTF-8 by bytes.  Parameter: which runes are printable. *)

#[local] Open Scope string_scope.
#[local] Open Scope Z_scope.

(** [strconv.IsPrint]: of ASCII, the graphic characters and the space. *)
Class PrintLib := {
  IsPrint : Z -> bool;
  IsPrint_ascii r : 0 <= r < 128 -> IsPrint r = (32 <=? r) && (r <=? 126);
}.
(** ** [utf8.DecodeRuneInString] *)

Definition RuneError : Z := 65533.
(** How many bytes follow the first one of a rune, and the range of the
    second. *)
Definition first_byte (c : Z) : option (nat * Z * Z) :=
  if (194 <=? c) && (c <=? 223) then Some (1%nat, 128, 191)
  else if c =? 224 then Some (2%nat, 160, 191)
  else if c =? 237 then Some (2%nat, 128, 159)
  else if (225 <=? c) && (c <=? 239) then Some (2%nat, 128, 191)
  else if c =? 240 then Some (3%nat, 144, 191)
  else if (241 <=? c) && (c <=? 243) then Some (3%nat, 128, 191)
  else if c =? 244 then Some (3%nat, 128, 143)
  else None.
Definition six_bits (c : Z) : Z := Z.land c 63.
Definition in_range (lo hi c : Z) : bool := (lo <=? c) && (c <=? hi).

(** The rune and its width; a wrong encoding is [RuneError] of width 1. *)
Definition DecodeRune (a : ascii) (rest : string) : Z * nat :=
  let c := code a in
  if c <? 128 then (c, 1%nat) else
  match first_byte c, rest with
  | Some (1%nat, lo, hi), String b1 _ =>
      let c1 := code b1 in
      if in_range lo hi c1 then (Z.lor (Z.shiftl (Z.land c 31) 6) (six_bits c1), 2%nat) else (RuneError, 1%nat)
  | Some (2%nat, lo, hi), String b1 (String b2 _) =>
      let (c1, c2) := (code b1, code b2) in
      if in_range lo hi c1 && in_range 128 191 c2
      then (Z.lor (Z.lor (Z.shiftl (Z.land c 15) 12) (Z.shiftl (six_bits c1) 6)) (six_bits c2), 3%nat) else (RuneError, 1%nat)
  | Some (3%nat, lo, hi), String b1 (String b2 (String b3 _)) =>
      let '(c1, c2, c3) := (code b1, code b2, code b3) in
      if in_range lo hi c1 && in_range 128 191 c2 && in_range 128 191 c3
      then (Z.lor (Z.lor (Z.shiftl (Z.land c 7) 18) (Z.shiftl (six_bits c1) 12)) (Z.lor (Z.shiftl (six_bits c2) 6) (six_bits c3)), 4%nat)
      else (RuneError, 1%nat)
  | _, _ => (RuneError, 1%nat)
  end.

(** ** [strconv.Quote] *)

Definition hex_digit (d : Z) : string :=
  match String.get (Z.to_nat d) "0123456789abcdef" with Some a => String a "" | None => "" end.
Fixpoint hex (n : nat) (z : Z) : string :=
  match n with O => "" | S n => hex n (Z.shiftr z 4) ++ hex_digit (Z.land z 15) end.

Section Quote.
Context `{PL : PrintLib}.

(** [appendEscapedRune] for a rune with its encoding; a decoded rune is a
    valid one. *)
Definition escape_rune (r : Z) (encoded : string) : string :=
  if r =? 34 then "\" ++ String "034" ""
  else if r =? 92 then "\\"
  else if IsPrint r then encoded
  else if r =? 7 then "\a" else if r =? 8 then "\b" else if r =? 12 then "\f"
  else if r =? 10 then "\n" else if r =? 13 then "\r" else if r =? 9 then "\t" else if r =? 11 then "\v"
  else if (r <? 32) || (r =? 127) then "\x" ++ hex 2 r
  else if r <? 65536 then "\u" ++ hex 4 r
  else "\U" ++ hex 8 r.
Fixpoint escape (skip : nat) (s : string) : string :=
  match s with
  | "" => ""
  | String a rest =>
      match skip with
      | S skip => escape skip rest
      | O =>
          let (r, width) := DecodeRune a rest in
          (if Nat.eqb width 1 && (r =? RuneError) then "\x" ++ hex 2 (code a)
           else escape_rune r (String.substring 0 width s)) ++ escape (width - 1) rest
      end
  end.
Definition Quote (s : string) : string := String "034" (escape 0 s ++ String "034" "").
End Quote.

Module QuoteRuns.
Lemma print_all_ascii r : 0 <= r < 128 -> (32 <=? r) && negb (r =? 127) = (32 <=? r) && (r <=? 126).
Proof. intros Hr. destruct (Z.leb_spec 32 r), (Z.eqb_spec r 127), (Z.leb_spec r 126); cbn; try reflexivity; lia. Qed.
#[local] Instance print_all : PrintLib := {| IsPrint r := (32 <=? r) && negb (r =? 127); IsPrint_ascii := print_all_ascii |}.

Example Quote_plain : Quote "(uid={0})" = String "034" ("(uid={0})" ++ String "034" "").
Proof. vm_compute. reflexivity. Qed.
Example Quote_special : Quote ("a\" ++ String "034" ("$(id)" ++ String "010" "")) =
  String "034" ("a\\\" ++ String "034" ("$(id)\n" ++ String "034" "")).
Proof. vm_compute. reflexivity. Qed.
Example Quote_utf8 : Quote (String "195" (String "169" (String "255" ""))) =
  String "034" (String "195" (String "169" ("\xff" ++ String "034" ""))).
Proof. vm_compute. reflexivity. Qed.
End QuoteRuns.
