(* ===== verification/WanEndpoints.v ===== *)
(** * The endpoints of a WAN replication

    [splitEndpoints], [joinEndpoints] and the rewriting of the endpoints in
    [checkWanEndpoint] of
    src/internal/controller/hazelcast/wanreplication_controller.go: endpoints
    without a port get the default one, and the text of the resource is
    replaced. *)

From S2P Require Import Prelude Eff GoPath GoNet.
#[local] Open Scope string_scope.
#[local] Open Scope list_scope.

Definition splitEndpoints (endpointsStr : string) : list string :=
  filter (fun e => e <> "") (map TrimSpace (split_comma endpointsStr)).
Definition joinEndpoints (endpoints : list string) : string := String.concat "," endpoints.

(** [strconv.Itoa(n.WanDefaultPort)] *)
Definition default_port : string := "5710".

Definition with_port (e : string) : string := if has_port e then e else JoinHostPort e default_port.
Definition normalize (endpointsStr : string) : string := joinEndpoints (map with_port (splitEndpoints endpointsStr)).

Example normalize_list : normalize " hz1.example.com , [::1]:5701,, ::1" = "hz1.example.com:5710,[::1]:5701,[::1]:5710".
Proof. reflexivity. Qed.
Example normalize_grows : normalize (normalize "[::1]") = "[[[::1]]:5710]:5710".
Proof. reflexivity. Qed.

(** ** Splitting what was joined *)

(** What [splitEndpoints] returns: trimmed, not empty, without commas. *)
Definition endpoint (e : string) : Prop := e <> "" /\ TrimSpace e = e /\ ","%char ∉ chars e.

Lemma split_comma_app a b : ","%char ∉ chars a -> split_comma (a ++ String "," b)%string = a :: split_comma b.
Proof.
  induction a as [|c a IH]; [done|]. cbn [list_ascii_of_string]. rewrite not_elem_of_cons. intros [Hc Ha].
  change (split_comma (String c (a ++ String "," b)%string) = String c a :: split_comma b). simpl.
  rewrite decide_False by congruence. by rewrite IH.
Qed.

Lemma split_comma_none a : ","%char ∉ chars a -> split_comma a = [a].
Proof.
  induction a as [|c a IH]; [done|]. cbn [list_ascii_of_string]. rewrite not_elem_of_cons. intros [Hc Ha]. simpl.
  rewrite decide_False by congruence. by rewrite IH.
Qed.

Lemma split_comma_elems s : Forall (fun e => ","%char ∉ chars e) (split_comma s).
Proof.
  induction s as [|c s IH]; simpl; [repeat constructor; apply not_elem_of_nil|].
  case_decide as Hc; [constructor; [apply not_elem_of_nil|done]|].
  destruct (split_comma s) as [|e l]; simpl.
  - repeat constructor. apply not_elem_of_cons. split; [congruence|apply not_elem_of_nil].
  - apply Forall_cons in IH as [He Hl]. constructor; [|done]. apply not_elem_of_cons. split; [congruence|done].
Qed.

Lemma split_join l : Forall endpoint l -> splitEndpoints (joinEndpoints l) = l.
Proof.
  unfold splitEndpoints, joinEndpoints. induction 1 as [|e l (Hn & Ht & Hc) Hl IH]; [done|]. destruct l as [|e' l].
  - simpl. rewrite split_comma_none by done. simpl. rewrite Ht. by rewrite filter_cons_True.
  - change (String.concat "," (e :: e' :: l)) with (e ++ String "," (String.concat "," (e' :: l)))%string.
    rewrite split_comma_app by done. cbn [map]. rewrite Ht, filter_cons_True by done. by rewrite IH.
Qed.

Lemma splitEndpoints_endpoints s : Forall endpoint (splitEndpoints s).
Proof.
  unfold splitEndpoints. apply Forall_forall. intros e [Hn He]%list_elem_of_filter.
  apply list_elem_of_In, in_map_iff in He as (x & <- & Hx%list_elem_of_In).
  pose proof (split_comma_elems s) as Hc. rewrite Forall_forall in Hc. destruct (TrimSpace_trimmed x) as [Ht Hs].
  split; [done|]. split; [by apply TrimSpace_fixed|]. intros Hin. by apply (Hc x Hx), Hs.
Qed.

Lemma endpoint_trimmed e : endpoint e -> trimmed (chars e).
Proof. intros (_ & He & _). rewrite <-He. apply TrimSpace_trimmed. Qed.

(** Characters that take no part in white space. *)
Definition visible (c : ascii) : bool :=
  negb (space1 c) && (code c <? 128)%Z.

Lemma visible_space1 c : visible c = true -> space1 c = false.
Proof. unfold visible. by destruct (space1 c). Qed.
Lemma visible_space2 a c : visible c = true -> space2 a c = false.
Proof.
  unfold visible, space2. intros [_ Hc%Z.ltb_lt]%andb_true_iff.
  rewrite (proj2 (Z.eqb_neq (code c) 133)), (proj2 (Z.eqb_neq (code c) 160)) by lia. apply andb_false_r.
Qed.
Lemma visible_space3 a b c : visible c = true -> space3 a b c = false.
Proof.
  unfold visible, space3. intros [_ Hc%Z.ltb_lt]%andb_true_iff.
  rewrite (proj2 (Z.leb_gt 128 (code c))) by lia.
  rewrite (proj2 (Z.eqb_neq (code c) 128)), (proj2 (Z.eqb_neq (code c) 168)), (proj2 (Z.eqb_neq (code c) 169)),
    (proj2 (Z.eqb_neq (code c) 175)), (proj2 (Z.eqb_neq (code c) 159)) by lia.
  by rewrite !andb_false_r.
Qed.
Lemma visible_middle a b c : visible b = true -> space3 a b c = false.
Proof.
  unfold visible, space3. intros [_ Hb%Z.ltb_lt]%andb_true_iff.
  rewrite (proj2 (Z.eqb_neq (code b) 154)), (proj2 (Z.eqb_neq (code b) 128)), (proj2 (Z.eqb_neq (code b) 129)) by lia.
  by rewrite !andb_false_r.
Qed.
Lemma visible_first a b c : visible a = true -> space2 a b = false /\ space3 a b c = false.
Proof.
  unfold visible, space2, space3. intros [_ Ha%Z.ltb_lt]%andb_true_iff.
  rewrite (proj2 (Z.eqb_neq (code a) 194)), (proj2 (Z.eqb_neq (code a) 225)), (proj2 (Z.eqb_neq (code a) 226)),
    (proj2 (Z.eqb_neq (code a) 227)) by lia. done.
Qed.

Lemma starts_visible c l : visible c = true -> starts_space (c :: l) = false.
Proof.
  intros Hc. pose proof (visible_space1 c Hc) as H1. pose proof (fun b d => visible_first c b d Hc) as H2.
  destruct l as [|b [|d l]]; simpl; rewrite H1; [done| |]; destruct (H2 b b) as [-> _]; [done|].
  by destruct (H2 b d) as [_ ->].
Qed.

Lemma starts_app l c l' : l <> [] -> starts_space l = false -> visible c = true -> starts_space (l ++ c :: l') = false.
Proof.
  intros Hn Hl Hc. pose proof (visible_space1 c Hc) as H1. pose proof (fun a => visible_space2 a c Hc) as H2.
  pose proof (fun a b => visible_space3 a b c Hc) as H3. pose proof (fun a b => visible_middle a c b Hc) as H4.
  destruct l as [|a [|b [|d l]]]; [done| | |done]; simpl in *.
  - rewrite Hl. destruct l' as [|b l']; by rewrite ?H2, ?H4.
  - apply orb_false_iff in Hl as [-> ->]. by rewrite H3.
Qed.

Lemma ends_visible c l : visible c = true -> ends_space (c :: l) = false.
Proof.
  intros Hc. destruct l as [|b [|d l]]; simpl; by rewrite ?visible_space1, ?visible_space2, ?visible_space3.
Qed.

Lemma ends_snoc l c : visible c = true -> ends_space (rev (l ++ [c])) = false.
Proof. intros Hc. rewrite rev_app_distr. by apply ends_visible. Qed.

Lemma joined_trimmed e : trimmed (chars e) -> e <> "" -> trimmed (chars (JoinHostPort e default_port)).
Proof.
  intros [Hs He] Hn. unfold JoinHostPort. case_decide.
  - rewrite chars_bracketed. split; [by apply starts_visible|].
    pose proof (ends_snoc ("["%char :: chars e ++ chars "]:571") "0"%char eq_refl) as Hl.
    rewrite app_comm_cons, <-app_assoc in Hl. exact Hl.
  - rewrite chars_colon. split; [apply starts_app; [by destruct e|done|done]|].
    pose proof (ends_snoc (chars e ++ chars ":571") "0"%char eq_refl) as Hl. rewrite <-app_assoc in Hl. exact Hl.
Qed.

Lemma with_port_endpoint e : endpoint e -> endpoint (with_port e).
Proof.
  intros He. unfold with_port. destruct (has_port e); [done|]. pose proof (endpoint_trimmed e He) as Ht.
  destruct He as (Hn & _ & Hc). split; [|split].
  - unfold JoinHostPort. case_decide; [done|]. by destruct e.
  - by apply TrimSpace_fixed, joined_trimmed.
  - unfold JoinHostPort. case_decide; rewrite ?chars_bracketed, ?chars_colon; simpl;
      rewrite ?elem_of_cons, ?elem_of_app, ?elem_of_cons, ?elem_of_nil; intuition discriminate.
Qed.

Lemma splitEndpoints_normalize s : splitEndpoints (normalize s) = map with_port (splitEndpoints s).
Proof.
  apply split_join. rewrite Forall_fmap. eapply Forall_impl; [apply splitEndpoints_endpoints|]. intros e. apply with_port_endpoint.
Qed.

Lemma joined_length l : String.length (joinEndpoints l) = (sum_list (map String.length l) + (length l - 1))%nat.
Proof.
  unfold joinEndpoints. induction l as [|e l IH]; [done|]. destruct l as [|e' l]; [simpl; lia|].
  change (String.concat "," (e :: e' :: l)) with (e ++ ("," ++ String.concat "," (e' :: l)))%string.
  rewrite !str_length_app, IH. simpl. lia.
Qed.

(** ** Rewriting the endpoints again and again *)

(** An endpoint that has a port, or that a port can be joined to: one without
    brackets, or a name in brackets. *)
Definition acceptable (e : string) : Prop := has_port e = true \/ joinable (chars e).

Lemma default_port_plain : plain_port (chars default_port).
Proof. apply (bool_decide_unpack (plain_port (chars default_port))). reflexivity. Qed.

Lemma acceptable_with_port e : acceptable e <-> has_port (with_port e) = true.
Proof.
  unfold acceptable, with_port. destruct (has_port e) eqn:E; [rewrite E; tauto|].
  rewrite (join_has_port _ _ default_port_plain). naive_solver.
Qed.

Lemma with_port_fixed e : has_port e = true -> with_port e = e.
Proof. unfold with_port. by intros ->. Qed.

Lemma with_port_longer e : (String.length e <= String.length (with_port e))%nat
  /\ (~ acceptable e -> ~ acceptable (with_port e) /\ (String.length e < String.length (with_port e))%nat).
Proof.
  pose proof (join_longer e default_port) as Hl. unfold with_port, acceptable. destruct (has_port e) eqn:E.
  - split; [done|]. intros Ha. destruct Ha. by left.
  - split; [lia|]. intros Ha. split; [|done]. rewrite <-(join_has_port e _ default_port_plain) in Ha.
    rewrite <-(join_has_port (JoinHostPort e default_port) _ default_port_plain).
    assert (Hf : has_port (JoinHostPort e default_port) = false) by (apply not_true_iff_false; tauto).
    rewrite (join_again _ _ default_port_plain Hf), Hf. by intros [?|?].
Qed.

Lemma sum_longer (l : list string) :
  (sum_list (map String.length l) <= sum_list (map String.length (map with_port l)))%nat
  /\ (Exists (fun e => ~ acceptable e) l ->
      (sum_list (map String.length l) < sum_list (map String.length (map with_port l)))%nat).
Proof.
  induction l as [|e l [IH1 IH2]]; [split; [done|by intros ?%Exists_nil]|]. simpl.
  destruct (with_port_longer e) as [H1 H2]. split; [lia|]. intros [He|Hl]%Exists_cons; [destruct (H2 He); lia|].
  specialize (IH2 Hl). lia.
Qed.

Lemma normalize_longer s : Exists (fun e => ~ acceptable e) (splitEndpoints s) ->
  Exists (fun e => ~ acceptable e) (splitEndpoints (normalize s))
  /\ (String.length (normalize s) < String.length (normalize (normalize s)))%nat.
Proof.
  intros He.
  assert (He' : Exists (fun e => ~ acceptable e) (splitEndpoints (normalize s))).
  { rewrite splitEndpoints_normalize, Exists_fmap. eapply Exists_impl; [exact He|]. intros e Ha.
    by apply (with_port_longer e). }
  split; [done|]. unfold normalize at 1 2. rewrite !joined_length, splitEndpoints_normalize, !length_map.
  rewrite splitEndpoints_normalize in He'. destruct (sum_longer (map with_port (splitEndpoints s))) as [_ Hl].
  specialize (Hl He'). lia.
Qed.

(** The endpoints the controller writes back to the resource.  When every
    endpoint has a port, or has no brackets, or is a name in brackets, they
    are final after the first reconciliation.  Otherwise - an IPv6 address in
    brackets without a port - every later reconciliation rewrites them into a
    longer text, without end. *)
Theorem endpoints_stable_or_grow s n :
  (Forall acceptable (splitEndpoints s) -> Nat.iter (S n) normalize s = normalize s)
  /\ (~ Forall acceptable (splitEndpoints s) ->
      (String.length (Nat.iter (S n) normalize s) < String.length (Nat.iter (S (S n)) normalize s))%nat).
Proof.
  split.
  - intros Ha. induction n as [|n IH]; [done|]. change (normalize (Nat.iter (S n) normalize s) = normalize s).
    rewrite IH. unfold normalize at 1. rewrite splitEndpoints_normalize. unfold normalize. f_equal.
    rewrite map_map. apply map_ext_in. intros e He%list_elem_of_In. apply with_port_fixed, acceptable_with_port.
    by rewrite Forall_forall in Ha; apply Ha.
  - intros Ha. assert (He : Exists (fun e => ~ acceptable e) (splitEndpoints s)).
    { apply not_Forall_Exists in Ha; [done|]. intros e.
      destruct (has_port (with_port e)) eqn:E; [left; by apply acceptable_with_port|right].
      rewrite acceptable_with_port, E. done. }
    assert (Hn : Exists (fun e => ~ acceptable e) (splitEndpoints (Nat.iter n normalize s))).
    { induction n as [|n IH]; [done|]. by apply (normalize_longer (Nat.iter n normalize s)). }
    by apply (normalize_longer (Nat.iter n normalize s)).
Qed.

Lemma endpoints_witness : (String.length (normalize "hz:5701,[::1]") < String.length (normalize (normalize "hz:5701,[::1]")))%nat.
Proof.
  apply (endpoints_stable_or_grow "hz:5701,[::1]" 0). intros Ha. apply Forall_cons in Ha as [_ Ha].
  apply Forall_cons in Ha as [Ha _]. apply acceptable_with_port in Ha. discriminate Ha.
Defined.
