(* ===== verification/HotBackup.v ===== *)
(** * Hot backups

    The HotBackup controller (src/internal/controller/hazelcast/
    hot_backup_controller.go and hot_backup_status.go), the cluster backup it
    drives (src/internal/backup), the upload and local backup clients
    (src/internal/upload, src/internal/local_backup) and the validation it
    calls (src/api/v1alpha1/hotbackup_validation.go), as programs over the
    calls to the Kubernetes API, the members and the agents.

    JSON encoding of a spec and decoding of an annotation are parameters
    ([HotBackupJson]); the order in which Go ranges over the members' map is
    the parameter [MemberRange].  Loops that poll until an answer arrives take
    [fuel]: [Spin] is reached only after that many polls. *)

From S2P Require Import Prelude Eff FieldValidation.

#[local] Open Scope prog_scope.
#[local] Open Scope string_scope.
#[local] Open Scope list_scope.
#[local] Open Scope Z_scope.

(** ** Resources *)

Definition NamespacedName : Type := string * string.
Definition nn_Namespace (n : NamespacedName) : string := n.1.
Definition nn_Name (n : NamespacedName) : string := n.2.

Definition n_Finalizer : string := "hazelcast.com/finalizer".
Definition n_LastSuccessfulSpecAnnotation : string := "hazelcast.com/last-successful-spec".

Definition HotBackupState : Type := string.
Definition HotBackupUnknown : HotBackupState := "Unknown".
Definition HotBackupPending : HotBackupState := "Pending".
Definition HotBackupNotStarted : HotBackupState := "NotStarted".
Definition HotBackupInProgress : HotBackupState := "InProgress".
Definition HotBackupFailure : HotBackupState := "Failure".
Definition HotBackupSuccess : HotBackupState := "Success".

Definition HotBackupState_IsFinished (s : HotBackupState) : bool :=
  bool_decide (s = HotBackupFailure) || bool_decide (s = HotBackupSuccess).
Definition HotBackupState_IsRunning (s : HotBackupState) : bool :=
  bool_decide (s = HotBackupInProgress) || bool_decide (s = HotBackupNotStarted).

Record HotBackupStatus := mkHotBackupStatus {
  hbs_State : HotBackupState;
  hbs_Message : string;
  hbs_BackupUUIDs : list string;
}.

Record HotBackupSpec := mkHotBackupSpec {
  hb_HazelcastResourceName : string;
  hb_BucketURI : string;
  hb_DeprecatedSecret : string;
  hb_SecretName : string;
}.

Definition HotBackupSpec_GetSecretName (s : HotBackupSpec) : string :=
  if decide (hb_SecretName s = "") then hb_DeprecatedSecret s else hb_SecretName s.
Definition HotBackupSpec_IsExternal (s : HotBackupSpec) : bool := negb (bool_decide (hb_BucketURI s = "")).

Record HotBackup := mkHotBackup {
  hb_Name : NamespacedName;
  hb_Finalizers : list string;
  hb_Deleting : bool;  (* a deletion timestamp is set *)
  hb_Annotations : gmap string string;
  hb_Spec : HotBackupSpec;
  hb_Status : HotBackupStatus;
}.

Definition HotBackup_zero : HotBackup :=
  mkHotBackup ("", "") [] false ∅ (mkHotBackupSpec "" "" "" "") (mkHotBackupStatus "" "" []).

(** What the controller reads of a Hazelcast resource; [Restore] is [None]
    for the zero restore configuration. *)
Record HzPersistence := mkHzPersistence { hzp_RestoreHotBackup : option string }.

Record Hazelcast := mkHazelcast {
  hz_Name : NamespacedName;
  hz_Deleting : bool;
  hz_Phase : string;
  hz_Annotations : gmap string string;
  hz_Persistence : option HzPersistence;
}.

Definition Running : string := "Running".

Definition IsRestoreEnabled (p : option HzPersistence) : bool :=
  match p with Some (mkHzPersistence (Some _)) => true | _ => false end.

(** ** Calls *)

Definition member : Type := string * string.  (* UUID, address *)

Record UploadReq := mkUploadReq {
  ur_BucketURL : string; ur_BackupBaseDir : string; ur_HazelcastCRName : string;
  ur_SecretName : string; ur_MemberID : nat;
}.

Record UploadStatus := mkUploadStatus { us_Status : string; us_Message : string; us_BackupKey : string }.

Definition ClusterStateActive : Z := 0.
Definition ClusterStatePassive : Z := 3.

Inductive hb_op :=
(* Kubernetes API *)
| GetHotBackup (name : NamespacedName)
| UpdateHotBackup (hb : HotBackup)
| UpdateHotBackupStatus (hb : HotBackup)
| GetHazelcast (name : NamespacedName)
| ListHazelcasts (namespace : string)
| GetHazelcastConfig (name : NamespacedName)
(* registries *)
| GetOrCreateClient (name : NamespacedName)
| GetStatusService (name : NamespacedName)
| GetOrCreateMTLSClient (namespace : string)
(* members *)
| UpdateMembers
| GetStatus
| GetTimedMemberState (uuid : string)
| ChangeClusterState (newState : Z)
| TriggerHotRestartBackup
| InterruptHotRestartBackup
(* agents *)
| NewAgentService (address : string)
| AgentUpload (address : string) (req : UploadReq)
| AgentUploadStatus (address : string) (id : string)
| AgentUploadCancel (address : string) (id : string)
| AgentUploadDelete (address : string) (id : string)
| AgentUploadCleanup (address : string) (id : string)
| AgentLocalBackups (address : string) (baseDir : string) (memberID : nat)
(* runtime: [select] on the timer and the context, [sync.Once], [go], cancel *)
| AfterOrDone
| OnceFirst
| GoStartBackup (name : NamespacedName) (isExternal : bool) (hazelcastName : NamespacedName)
| CancelBackup (name : NamespacedName).

Definition hb_ans (o : hb_op) : Type :=
  match o with
  | GetHotBackup _ => fetched HotBackup
  | GetHazelcast _ => fetched Hazelcast
  | ListHazelcasts _ => fetched (list Hazelcast)
  | GetHazelcastConfig _ => fetched string
  | GetStatusService _ | OnceFirst => bool
  | UpdateMembers | GoStartBackup _ _ _ | CancelBackup _ => unit
  | GetStatus => option (option (list member))
  | GetTimedMemberState _ => fetched string
  | AgentUpload _ _ => fetched string
  | AgentUploadStatus _ _ => fetched UploadStatus
  | AgentLocalBackups _ _ _ => fetched (list string)
  | _ => option error
  end.

#[global] Instance hb_effects : Effects := {| op := hb_op; ans := hb_ans |}.

(** Any order of a map's entries, possibly another one at every [range]. *)
Class MemberRange := {
  range_members : nat -> list member -> list member;
  range_members_perm i ms : range_members i ms ≡ₚ ms;
}.

#[global] Instance member_range_default : MemberRange | 100 :=
  {| range_members _ ms := ms; range_members_perm _ ms := reflexivity ms |}.

(** [json.Marshal(hb.Spec)], and whether a [HazelcastSpec] read from an
    annotation has a persistence section. *)
Class HotBackupJson := {
  marshal_spec : HotBackupSpec -> fetched string;
  unmarshal_persistence : string -> fetched bool;
}.

Section HotBackup.
Context `{RL : @RetryLib hb_effects} `{MR : MemberRange} `{KE : KErrors} `{HJ : HotBackupJson}.
Context (fuel : nat).

(** ** src/internal/backup *)

Definition retryOnError (fn : prog (option error)) : prog (option error) :=
  r <- OnError 8 (fun _ => true) (stateless fn) tt ;; Done r.2.

Definition errBackupClientNoMembers : error := errors_New "client could not connect to members".

Definition NewClusterBackup : prog (fetched (list member)) :=
  do_ UpdateMembers ;;
  ask status <- GetStatus ;;
  match (status : option (option (list member))) with
  | None | Some None => Done (Failed errBackupClientNoMembers)
  | Some (Some members) => Done (Found members)
  end.

Definition ClusterBackup_Start : prog (option error) :=
  err <- retryOnError (call (ChangeClusterState ClusterStatePassive)) ;;
  match err with
  | Some e => Done (Some e)
  | None =>
      err <- retryOnError (call TriggerHotRestartBackup) ;;
      (* deferred *)
      retryOnError (call (ChangeClusterState ClusterStateActive)) ;;
      Done err
  end.

Definition ClusterBackup_Cancel : prog (option error) :=
  ask first <- OnceFirst ;;
  if first : bool then call InterruptHotRestartBackup else Done None.

Definition errMemberBackupFailed : error := errors_New "member backup failed".
Definition errMemberBackupStateFailed : error := errors_New "member backup state update failed".
Definition errMemberBackupNoTask : error := errors_New "member backup state indicates no task started".

Fixpoint MemberBackup_wait (k : nat) (uuid : string) (n : Z) : prog (option error) :=
  match k with
  | O => Spin
  | S k =>
      ask state <- GetTimedMemberState uuid ;;
      match (state : fetched string) with
      | Failed _ => Done (Some errMemberBackupStateFailed)
      | Found s =>
          let next n :=
            ask done <- AfterOrDone ;;
            match (done : option error) with
            | None => MemberBackup_wait k uuid n
            | Some e => Done (Some e)
            end in
          if decide (s = "FAILURE") then Done (Some errMemberBackupFailed)
          else if decide (s = "SUCCESS") then Done None
          else if decide (s = "NO_TASK") then
            if 10 <? n then Done (Some errMemberBackupNoTask) else next (n + 1)
          else if decide (s = "IN_PROGRESS") then next n
          else Done (Some (errors_New ("backup unknown status: " ++ s)))
      end
  end.

Definition MemberBackup_Wait (uuid : string) : prog (option error) := MemberBackup_wait fuel uuid 0.

(** ** src/internal/upload *)

Record Upload := mkUpload {
  up_Address : string;
  up_ID : option string;
  up_Req : UploadReq;
}.

Definition errUploadNotStarted : error := errors_New "upload not started".
Definition errUploadAlreadyStarted : error := errors_New "upload already started".

Definition NewUpload (address : string) (req : UploadReq) : prog (fetched Upload) :=
  ask err <- NewAgentService address ;;
  match (err : option error) with
  | Some e => Done (Failed e)
  | None => Done (Found (mkUpload address None req))
  end.

Definition Upload_Start (u : Upload) : prog (Upload * option error) :=
  match up_ID u with
  | Some _ => Done (u, Some errUploadAlreadyStarted)
  | None =>
      ask r <- AgentUpload (up_Address u) (up_Req u) ;;
      match (r : fetched string) with
      | Failed e => Done (u, Some e)
      | Found id => Done (mkUpload (up_Address u) (Some id) (up_Req u), None)
      end
  end.

Fixpoint Upload_wait (k : nat) (address id : string) : prog (fetched string) :=
  match k with
  | O => Spin
  | S k =>
      ask r <- AgentUploadStatus address id ;;
      match (r : fetched UploadStatus) with
      | Failed e => Done (Failed e)
      | Found status =>
          if decide (us_Status status = "CANCELED") then
            Done (Failed (errors_New ("Upload canceled: " ++ us_Message status)))
          else if decide (us_Status status = "FAILURE") then
            Done (Failed (errors_New ("Upload failed: " ++ us_Message status)))
          else if decide (us_Status status = "SUCCESS") then Done (Found (us_BackupKey status))
          else if decide (us_Status status = "IN_PROGRESS") then
            ask done <- AfterOrDone ;;
            match (done : option error) with
            | None => Upload_wait k address id
            | Some e => Done (Failed e)
            end
          else Done (Failed (errors_New ("Upload unknown status: " ++ us_Status status)))
      end
  end.

Definition Upload_Wait (u : Upload) : prog (fetched string) :=
  match up_ID u with
  | None => Done (Failed errUploadNotStarted)
  | Some id => Upload_wait fuel (up_Address u) id
  end.

Definition with_upload (u : Upload) (f : string -> string -> hb_op)
    (run : forall a i, ans (f a i) -> option error) : prog (option error) :=
  match up_ID u with
  | None => Done (Some errUploadNotStarted)
  | Some id => Vis (f (up_Address u) id) (fun x => Done (run _ _ x))
  end.

Definition Upload_Cancel (u : Upload) : prog (option error) := with_upload u AgentUploadCancel (fun _ _ e => e).
Definition Upload_Remove (u : Upload) : prog (option error) := with_upload u AgentUploadDelete (fun _ _ e => e).
Definition Upload_Cleanup (u : Upload) : prog (option error) := with_upload u AgentUploadCleanup (fun _ _ e => e).

(** ** src/internal/local_backup *)

Definition GetLatestLocalBackup (address baseDir : string) (memberID : nat) : prog (fetched string) :=
  ask r <- AgentLocalBackups address baseDir memberID ;;
  match (r : fetched (list string)) with
  | Failed e => Done (Failed e)
  | Found backups =>
      match last backups with
      | None => Done (Failed (errors_New "there are no local backups"))
      | Some b => Done (Found b)
      end
  end.

(** ** hot_backup_status.go *)

Inductive HotBackupStatusApplier :=
| withHotBackupState (s : HotBackupState)
| withHotBackupFailedState (msg : string)
| withHotBackupMessage (msg : string)
| withHotBackupBackupUUIDs (uuids : list string).

Definition HotBackupStatusApply (ms : HotBackupStatus) (w : HotBackupStatusApplier) : HotBackupStatus :=
  match w with
  | withHotBackupState s =>
      mkHotBackupStatus s (if decide (s = HotBackupSuccess) then "" else hbs_Message ms) (hbs_BackupUUIDs ms)
  | withHotBackupFailedState msg => mkHotBackupStatus HotBackupFailure msg (hbs_BackupUUIDs ms)
  | withHotBackupMessage msg => mkHotBackupStatus (hbs_State ms) msg (hbs_BackupUUIDs ms)
  | withHotBackupBackupUUIDs uuids => mkHotBackupStatus (hbs_State ms) (hbs_Message ms) uuids
  end.

Definition set_Status (hb : HotBackup) (s : HotBackupStatus) : HotBackup :=
  mkHotBackup (hb_Name hb) (hb_Finalizers hb) (hb_Deleting hb) (hb_Annotations hb) (hb_Spec hb) s.

(** [recoptions.Error(err)] and [recoptions.Empty()]; [RetryAfter] is not used
    by this controller. *)
Record ReconcilerOption := mkRecOption { ro_Err : option error }.
Definition recoptions_Error (e : option error) : ReconcilerOption := mkRecOption e.
Definition recoptions_Empty : ReconcilerOption := mkRecOption None.

(** The closure retried by [updateStatus]; the captured variable is [hb]. *)
Definition updateStatus_once (name : NamespacedName) (options : list HotBackupStatusApplier)
    (hb : HotBackup) : prog (HotBackup * option error) :=
  ask r <- GetHotBackup name ;;
  match (r : fetched HotBackup) with
  | Failed e => Done (hb, Some e)
  | Found hb =>
      let hb := set_Status hb (foldl HotBackupStatusApply (hb_Status hb) options) in
      ask err <- UpdateHotBackupStatus hb ;;
      Done (hb, err : option error)
  end.

Definition updateStatus (name : NamespacedName) (recOption : ReconcilerOption)
    (options : list HotBackupStatusApplier) : prog (ctrl_Result * option error) :=
  r <- RetryOnConflict (updateStatus_once name options) HotBackup_zero ;;
  let '(hb, err) := r in
  match ro_Err recOption with
  | Some e => Done (ctrl_Result_zero, Some e)
  | None =>
      if decide (hbs_State (hb_Status hb) = HotBackupPending) then Done (mkResult true 1, None)
      else Done (ctrl_Result_zero, err)
  end.

(** ** hotbackup_validation.go *)

Definition validateHotBackupPersistence (h : Hazelcast) : errs :=
  match hz_Annotations h !! n_LastSuccessfulSpecAnnotation with
  | None => InternalError (Path "spec" [])
      (errors_New ("hazelcast resource " ++ nn_Name (hz_Name h) ++ " is not successfully started yet"))
  | Some s =>
      match unmarshal_persistence s with
      | Failed err => InternalError (Path "spec" []) (wrap "error parsing last Hazelcast spec for update errors: " err)
      | Found enabled =>
          if negb enabled then
            Invalid (Path "spec" ["persistenceEnabled"]) (VBool enabled)
              ("Hazelcast '" ++ nn_Name (hz_Name h) ++ "' must enable persistence")
          else []
      end
  end.

Definition ValidateHotBackupPersistence (hb : HotBackup) (h : Hazelcast) : option error :=
  Err "HotBackup" (nn_Name (hb_Name hb)) (validateHotBackupPersistence h).

Definition validateHotBackupRestoreReference (h : Hazelcast) (hb : HotBackup) : errs :=
  if IsRestoreEnabled (hz_Persistence h) then
    match hz_Persistence h with
    | Some (mkHzPersistence (Some name)) =>
        if bool_decide (name = nn_Name (hb_Name hb)) && negb (hz_Deleting h) then
          Forbidden (Path "spec" ["persistence"; "restore"; "hotBackupResourceName"])
            ("Hazelcast '" ++ nn_Name (hz_Name h) ++ "' has a restore reference to the Hotbackup")
        else []
    | _ => []
    end
  else [].

Definition ValidateHotBackupIsNotReferencedByHazelcast (hb : HotBackup) : prog (option error) :=
  ask r <- ListHazelcasts (nn_Namespace (hb_Name hb)) ;;
  match (r : fetched (list Hazelcast)) with
  | Failed _ => Done None
  | Found items =>
      Done (Err "HotBackup" (nn_Name (hb_Name hb))
              (mjoin ((fun hz => validateHotBackupRestoreReference hz hb) <$> items)))
  end.

(** ** hot_backup_controller.go *)

(** The reconciler's own state: the running backups' cancel functions and the
    lock. *)
Record HotBackupReconciler := mkReconciler {
  hbr_cancelMap : gset NamespacedName;
  hbr_backup : gset NamespacedName;
}.

Definition NewHotBackupReconciler : HotBackupReconciler := mkReconciler ∅ ∅.

Definition ContainsFinalizer (hb : HotBackup) (f : string) : bool := bool_decide (f ∈ hb_Finalizers hb).
Definition set_Finalizers (hb : HotBackup) (fs : list string) : HotBackup :=
  mkHotBackup (hb_Name hb) fs (hb_Deleting hb) (hb_Annotations hb) (hb_Spec hb) (hb_Status hb).

(** [util.AddFinalizer] on a HotBackup; [None] when nothing is to be done. *)
Definition AddFinalizer (hb : HotBackup) : prog (HotBackup * option error) :=
  if negb (ContainsFinalizer hb n_Finalizer) && negb (hb_Deleting hb) then
    let hb := set_Finalizers hb (hb_Finalizers hb ++ [n_Finalizer]) in
    ask err <- UpdateHotBackup hb ;;
    Done (hb, err : option error)
  else Done (hb, None).

Definition checkBackup (r : HotBackupReconciler) (name : NamespacedName) : bool :=
  bool_decide (name ∈ hbr_backup r).
Definition lockBackup (r : HotBackupReconciler) (name : NamespacedName) : HotBackupReconciler :=
  mkReconciler (hbr_cancelMap r) ({[name]} ∪ hbr_backup r).
Definition unlockBackup (r : HotBackupReconciler) (name : NamespacedName) : HotBackupReconciler :=
  mkReconciler (hbr_cancelMap r) (hbr_backup r ∖ {[name]}).

(** [recoptions.InsertLastSuccessfullyAppliedSpec(hb.Spec, hb)] *)
Definition InsertLastSuccessfullyAppliedSpec (hb : HotBackup) : HotBackup :=
  let b := match marshal_spec (hb_Spec hb) with Found s => s | Failed _ => "" end in
  mkHotBackup (hb_Name hb) (hb_Finalizers hb) (hb_Deleting hb)
    (<[n_LastSuccessfulSpecAnnotation := b]> (hb_Annotations hb)) (hb_Spec hb) (hb_Status hb).

Definition updateLastSuccessfulConfiguration (name : NamespacedName) : prog (option error) :=
  r <- RetryOnConflict (stateless (
    ask r <- GetHotBackup name ;;
    match (r : fetched HotBackup) with
    | Failed e => Done (Some e)
    | Found hb => call (UpdateHotBackup (InsertLastSuccessfullyAppliedSpec hb))
    end)) tt ;;
  Done r.2.

Definition executeFinalizer (r : HotBackupReconciler) (hb : HotBackup)
  : prog (HotBackupReconciler * option error) :=
  if negb (ContainsFinalizer hb n_Finalizer) then Done (r, None) else
  err <- ValidateHotBackupIsNotReferencedByHazelcast hb ;;
  match err with
  | Some e => Done (r, Some e)
  | None =>
      let key := hb_Name hb in
      r <- (if decide (key ∈ hbr_cancelMap r) then
              do_ CancelBackup key ;;
              Done (mkReconciler (hbr_cancelMap r ∖ {[key]}) (hbr_backup r))
            else Done r) ;;
      let r := unlockBackup r key in
      let hb := set_Finalizers hb (filter (.≠ n_Finalizer) (hb_Finalizers hb)) in
      ask err <- UpdateHotBackup hb ;;
      match (err : option error) with
      | Some e => Done (r, Some (wrap "failed to remove finalizer from custom resource: " e))
      | None => Done (r, None)
      end
  end.

(** [return r.updateStatus(...)] in [Reconcile]. *)
Definition ret_status (r : HotBackupReconciler) (p : prog (ctrl_Result * option error))
  : prog (HotBackupReconciler * (ctrl_Result * option error)) :=
  res <- p ;; Done (r, res).

Definition Reconcile (r : HotBackupReconciler) (req : NamespacedName)
  : prog (HotBackupReconciler * (ctrl_Result * option error)) :=
  let failed e := ret_status r
    (updateStatus req (recoptions_Error (Some e)) [withHotBackupFailedState (err_msg e)]) in
  let pending := ret_status r
    (updateStatus req recoptions_Empty [withHotBackupState HotBackupPending]) in
  ask got <- GetHotBackup req ;;
  match (got : fetched HotBackup) with
  | Failed e => if IsNotFound e then Done (r, (ctrl_Result_zero, None)) else failed e
  | Found hb =>
  fin <- AddFinalizer hb ;;
  let '(hb, err) := fin in
  match err with Some e => failed e | None =>
  if hb_Deleting hb then
    del <- executeFinalizer r hb ;;
    let '(r', err) := del in
    match err with
    | Some e => ret_status r'
        (updateStatus req (recoptions_Error (Some e)) [withHotBackupFailedState (err_msg e)])
    | None => Done (r', (ctrl_Result_zero, None))
    end
  else
  if HotBackupState_IsRunning (hbs_State (hb_Status hb)) || checkBackup r req then
    Done (r, (ctrl_Result_zero, None)) else
  if HotBackupState_IsFinished (hbs_State (hb_Status hb)) then Done (r, (ctrl_Result_zero, None)) else
  match marshal_spec (hb_Spec hb) with
  | Failed e => ret_status r
      (updateStatus req (recoptions_Error (Some (wrap "error marshaling Hot Backup as JSON: " e)))
         [withHotBackupFailedState (err_msg e)])
  | Found hs =>
  if decide (hb_Annotations hb !! n_LastSuccessfulSpecAnnotation = Some hs) then
    Done (r, (ctrl_Result_zero, None)) else
  let hazelcastName := (nn_Namespace req, hb_HazelcastResourceName (hb_Spec hb)) in
  ask hz <- GetHazelcast hazelcastName ;;
  match (hz : fetched Hazelcast) with
  | Failed _ => pending
  | Found h =>
  if negb (bool_decide (hz_Phase h = Running)) then pending else
  match ValidateHotBackupPersistence hb h with Some e => failed e | None =>
  err <- updateLastSuccessfulConfiguration req ;;
  match err with Some e => Done (r, (ctrl_Result_zero, Some e)) | None =>
  let r := mkReconciler ({[req]} ∪ hbr_cancelMap r) (hbr_backup r) in
  res <- updateStatus req recoptions_Empty [withHotBackupState HotBackupNotStarted] ;;
  let '(result, err) := res in
  match err with Some e => Done (r, (result, Some e)) | None =>
  let r := lockBackup r req in
  do_ GoStartBackup req (HotBackupSpec_IsExternal (hb_Spec hb)) hazelcastName ;;
  Done (r, (result, None))
  end end end end end end end.

(** What one member's goroutine leaves behind: its error, its backup, its
    upload (appended to [uploads]) and whether that was appended to
    [finishedUploads]. *)
Record member_result := mkMemberResult {
  mr_err : option error;
  mr_backup : string;
  mr_upload : option Upload;
  mr_finished : bool;
}.

(** The goroutine that waits for one member. *)
Definition wait_member (m : member) : prog (option error) :=
  err <- MemberBackup_Wait m.1 ;;
  match err with
  | None => Done None
  | Some e =>
      cancelErr <- ClusterBackup_Cancel ;;
      match cancelErr with
      | Some ce => Done (Some ce)
      | None => Done (Some (wrap ("Backup error for member " ++ m.1 ++ ": ") e))
      end
  end.

(** The goroutine that collects or uploads the backup of member [m], the
    [i]-th of the loop. *)
Definition upload_member (backupName hazelcastName : NamespacedName) (isExternal : bool)
    (i : nat) (m : member) : prog member_result :=
  let fail e := Done (mkMemberResult (Some e) "" None false) in
  ask cfg <- GetHazelcastConfig hazelcastName ;;
  match (cfg : fetched string) with
  | Failed e => fail e
  | Found baseDir =>
  if negb isExternal then
    ask err <- NewAgentService m.2 ;;
    match (err : option error) with
    | Some e => fail e
    | None =>
        bf <- GetLatestLocalBackup m.2 baseDir i ;;
        match bf with
        | Failed e => fail e
        | Found bf => Done (mkMemberResult None bf None false)
        end
    end
  else
  ask got <- GetHotBackup backupName ;;
  match (got : fetched HotBackup) with
  | Failed e => fail e
  | Found hb =>
  nu <- NewUpload m.2 (mkUploadReq (hb_BucketURI (hb_Spec hb)) baseDir
          (hb_HazelcastResourceName (hb_Spec hb)) (HotBackupSpec_GetSecretName (hb_Spec hb)) i) ;;
  match nu with
  | Failed e => fail e
  | Found u =>
  st <- Upload_Start u ;;
  let '(u, err) := st in
  match err with
  | Some e => Done (mkMemberResult (Some e) "" (Some u) false)
  | None =>
  bk <- Upload_Wait u ;;
  match bk with
  | Failed e =>
      if IsCanceled e then
        cancelErr <- Upload_Cancel u ;;
        match cancelErr with
        | Some ce => Done (mkMemberResult (Some ce) "" (Some u) false)
        | None => Done (mkMemberResult (Some (wrap ("upload error for member " ++ m.1 ++ ": ") e)) "" (Some u) false)
        end
      else Done (mkMemberResult (Some e) "" (Some u) false)
  | Found bk => Done (mkMemberResult None bk (Some u) true)
  end end end end end.

(** The deferred removal of the upload tasks; errors are only logged. *)
Fixpoint remove_uploads (us : list Upload) : prog unit :=
  match us with
  | [] => Done tt
  | u :: us => Upload_Remove u ;; remove_uploads us
  end.

Definition startBackup (backupName : NamespacedName) (isExternal : bool) (hazelcastName : NamespacedName)
  : prog (ctrl_Result * option error) :=
  let failed e := updateStatus backupName (recoptions_Error (Some e)) [withHotBackupFailedState (err_msg e)] in
  st <- updateStatus backupName recoptions_Empty [withHotBackupState HotBackupInProgress] ;;
  match st.2 with Some e => failed e | None =>
  ask hz <- GetHazelcast hazelcastName ;;
  match (hz : fetched Hazelcast) with Failed e => failed e | Found hz =>
  ask err <- GetOrCreateClient hazelcastName ;;
  match (err : option error) with
  | Some e => updateStatus backupName (recoptions_Error (Some e))
                [withHotBackupState HotBackupFailure; withHotBackupMessage (err_msg e)]
  | None =>
  ask ok <- GetStatusService hazelcastName ;;
  (* [err.Error()] with a nil [err] *)
  if negb (ok : bool) then Crash else
  b <- NewClusterBackup ;;
  match b with Failed e => failed e | Found members =>
  err <- ClusterBackup_Start ;;
  match err with Some e => failed e | None =>
  let ms := range_members 0 members in
  Par (length ms) (fun i => match ms !! i with Some m => wait_member m | None => Done None end)
    (fun errs first =>
  match group_Wait errs first with Some e => failed e | None =>
  ask err <- GetOrCreateMTLSClient (nn_Namespace hazelcastName) ;;
  match (err : option error) with Some e => failed e | None =>
  let ms := range_members 1 members in
  Par (length ms) (fun i => match ms !! i with
                            | Some m => upload_member backupName (hz_Name hz) isExternal i m
                            | None => Done (mkMemberResult None "" None false)
                            end)
    (fun results first =>
  let uploads := omap mr_upload results in
  let finishedUploads := omap (fun r => if mr_finished r then mr_upload r else None) results in
  res <- match group_Wait (mr_err <$> results) first with
         | Some e =>
             Par (length finishedUploads)
               (fun i => match finishedUploads !! i with Some u => Upload_Cleanup u | None => Done None end)
               (fun _ _ => failed e)
         | None =>
             updateStatus backupName recoptions_Empty
               [withHotBackupState HotBackupSuccess; withHotBackupMessage "";
                withHotBackupBackupUUIDs (mr_backup <$> results)]
         end ;;
  remove_uploads uploads ;;
  Done res)
  end end)
  end end end end end.

End HotBackup.
