(* ===== verification/HotBackupFacts.v ===== *)
(** * What hot backups guarantee

    The cluster is put back into the active state whatever the trigger does;
    a backup is started at most once until it is cancelled; success is
    reported only when every member reported success; failures end in the
    failure state.  The last part shows the two situations the controller does
    not handle. *)

From S2P Require Import Prelude Eff FieldValidation HotBackup.

#[local] Open Scope prog_scope.
#[local] Open Scope string_scope.
#[local] Open Scope list_scope.
#[local] Open Scope Z_scope.
#[local] Set Warnings "-clear-no-such-hyp".

Section Facts.
Context `{RL : @RetryLib hb_effects} `{MR : MemberRange} `{KE : KErrors} `{HJ : HotBackupJson}.
Context (fuel : nat).

(** ** Retried commands

    [tried mk n t r]: [t] is [n] attempts of the command whose event with
    answer [x] is [mk x]; all but the last failed and the last answered [r]. *)
Definition tried (mk : option error -> event) (n : nat) (t : list event) (r : option error) : Prop :=
  exists es : list error, t = map (fun e => mk (Some e)) es ++ [mk r] /\ n = S (length es).

Lemma attempts_tried (p : prog (option error)) mk n t o :
  (forall t o, exec p t o -> exists r, t = [mk r] /\ o = Returned r) ->
  attempts (stateless p) (fun _ => true) n tt t o ->
  exists r, o = Returned (tt, r) /\ tried mk n t r.
Proof.
  intros Hp Ha. remember tt as u eqn:Eu. clear Eu.
  induction Ha as [s t o Hl|s t s' e t' o n Hl _ _ (r & -> & es & -> & ->)].
  - unfold stateless in Hl. exec_step Hl.
    + exec_step Hl. destruct (Hp _ _ He) as (r & -> & [= ->]).
      exists r. split; [by destruct s|]. by exists [].
    + destruct (Hp _ _ Hl) as (r & _ & [=]).
    + destruct (Hp _ _ Hl) as (r & _ & [=]).
  - exists r. split; [by destruct s, s'|]. unfold stateless in Hl. exec_step Hl.
    destruct Hl as [-> [= _ <-]]. destruct (Hp _ _ He) as (r0 & -> & [= <-]).
    exists (e :: es). split; [done|]. simpl. lia.
Qed.

Lemma retryOnError_tried p mk t o :
  (forall t o, exec p t o -> exists r, t = [mk r] /\ o = Returned r) ->
  exec (retryOnError p) t o ->
  exists n r, (n <= 8)%nat /\ o = Returned r /\ tried mk n t r.
Proof.
  unfold retryOnError. intros Hp He. exec_step He.
  - apply OnError_law in He0 as (n & Hn & Ha).
    destruct (attempts_tried p mk n t0 _ Hp Ha) as (r & [= ->] & Ht).
    destruct He as [-> ->]. rewrite app_nil_r. exists n, r. split; [lia|done].
  - apply OnError_law in He as (n & Hn & Ha).
    destruct (attempts_tried p mk n t _ Hp Ha) as (r & [=] & Ht).
  - apply OnError_law in He as (n & Hn & Ha).
    destruct (attempts_tried p mk n t _ Hp Ha) as (r & [=] & Ht).
Qed.

Definition ev_state (s : Z) (x : option error) : event := Ev (ChangeClusterState s : op) x.
Definition ev_trigger (x : option error) : event := Ev (TriggerHotRestartBackup : op) x.

Lemma change_state_tried s t o : exec (retryOnError (call (ChangeClusterState s))) t o ->
  exists n r, (n <= 8)%nat /\ o = Returned r /\ tried (ev_state s) n t r.
Proof. apply retryOnError_tried. intros ? ? (x & ? & -> & -> & ->). by exists x. Qed.

Lemma trigger_tried t o : exec (retryOnError (call TriggerHotRestartBackup)) t o ->
  exists n r, (n <= 8)%nat /\ o = Returned r /\ tried ev_trigger n t r.
Proof. apply retryOnError_tried. intros ? ? (x & ? & -> & -> & ->). by exists x. Qed.

(** Starting a cluster backup switches the cluster to passive (at most 8
    attempts) and gives up if that fails; otherwise it triggers the backup (at
    most 8 attempts) and then, whether or not the trigger worked, asks the
    cluster to become active again; the result is the result of the trigger. *)
Theorem backup_start_reactivates t o :
  exec ClusterBackup_Start t o ->
  (exists n e, (n <= 8)%nat /\ tried (ev_state ClusterStatePassive) n t (Some e) /\
     o = Returned (Some e)) \/
  (exists n1 n2 n3 t1 t2 t3 r a, (n1 <= 8)%nat /\ (n2 <= 8)%nat /\ (n3 <= 8)%nat /\
     t = t1 ++ t2 ++ t3 /\
     tried (ev_state ClusterStatePassive) n1 t1 None /\
     tried ev_trigger n2 t2 r /\
     tried (ev_state ClusterStateActive) n3 t3 a /\
     o = Returned r).
Proof.
  unfold ClusterBackup_Start. intros H. exec_step H.
  - destruct (change_state_tried _ _ _ He) as (n1 & r1 & Hn1 & [= ->] & Ht1).
    destruct r1 as [e|].
    { destruct H as [-> ->]. left. exists n1, e. by rewrite app_nil_r. }
    right. exec_step H.
    + destruct (trigger_tried _ _ He0) as (n2 & r2 & Hn2 & [= ->] & Ht2). exec_step H.
      * destruct (change_state_tried _ _ _ He1) as (n3 & r3 & Hn3 & [= ->] & Ht3).
        destruct H as [-> ->]. rewrite app_nil_r.
        eexists n1, n2, n3, _, _, _, r2, r3. do 3 (split; [done|]). split; [reflexivity|]. done.
      * by destruct (change_state_tried _ _ _ H) as (? & ? & _ & [=] & _).
      * by destruct (change_state_tried _ _ _ H) as (? & ? & _ & [=] & _).
    + by destruct (trigger_tried _ _ H) as (? & ? & _ & [=] & _).
    + by destruct (trigger_tried _ _ H) as (? & ? & _ & [=] & _).
  - by destruct (change_state_tried _ _ _ H) as (? & ? & _ & [=] & _).
  - by destruct (change_state_tried _ _ _ H) as (? & ? & _ & [=] & _).
Qed.

(** ** Waiting for a member *)

Definition is_poll (o : op) : bool :=
  match o with GetTimedMemberState _ => true | _ => false end.

(** The event is a poll answered with backup task state [s]. *)
Definition saw (s : string) (e : event) : bool :=
  match e with
  | Ev o x =>
      match o as o return hb_ans o -> bool with
      | GetTimedMemberState _ => fun r =>
          match r with Found s' => bool_decide (s' = s) | Failed _ => false end
      | _ => fun _ => false
      end x
  end.

Definition count_saw (s : string) (t : list event) : Z := Z.of_nat (length (filter (fun e => saw s e = true) t)).

Lemma count_saw_cons s e t : count_saw s (e :: t) = (if saw s e then 1 else 0) + count_saw s t.
Proof.
  unfold count_saw. rewrite filter_cons. destruct (saw s e).
  - rewrite decide_True by done. simpl length. lia.
  - rewrite decide_False by done. lia.
Qed.

Definition ev_success (u : string) : event := Ev (GetTimedMemberState u : op) (Found "SUCCESS").

Lemma wait_invariant k u n t o : 0 <= n <= 11 ->
  exec (MemberBackup_wait k u n) t o ->
  (o = Exhausted -> count is_poll t = k) /\
  n + count_saw "NO_TASK" t <= 12 /\
  (o = Returned None -> exists t', t = t' ++ [ev_success u]) /\
  o <> Panicked.
Proof.
  revert n t. induction k as [|k IH]; intros n t Hn H; cbn [MemberBackup_wait] in H.
  { exec_step H. subst. split_and!; [done|unfold count_saw; simpl; lia|done..]. }
  destruct H as (st & t1 & -> & H). rewrite count_saw_cons, count_cons. cbn [ev_op is_poll saw].
  assert (forall n', n <= n' <= 11 -> n' <= n + 1 ->
    exec (Vis (AfterOrDone : op) (fun done : option error =>
            match done with None => MemberBackup_wait k u n' | Some e => Done (Some e) end)) t1 o ->
    (o = Exhausted -> count is_poll t1 = k) /\ n' + count_saw "NO_TASK" t1 <= 12 /\
    (o = Returned None -> exists t', t1 = t' ++ [ev_success u]) /\ o <> Panicked) as Hnext.
  { intros n' Hn1 Hn2 ([e|] & t2 & -> & H2).
    - destruct H2 as [-> ->]. rewrite count_saw_cons. unfold count_saw. simpl. split_and!; [done|lia|done..].
    - destruct (IH n' t2 ltac:(lia) H2) as (I1 & I2 & I3 & I4).
      rewrite count_saw_cons, count_cons. cbn [ev_op is_poll saw]. split_and!; [done|lia| |done].
      intros Ho. destruct (I3 Ho) as (t' & ->). by eexists (_ :: t'). }
  assert (forall e, exec (Done (Some e)) t1 o ->
    (o = Exhausted -> (1 + count is_poll t1)%nat = S k) /\
    n + (1 + count_saw "NO_TASK" t1) <= 12 /\
    (o = Returned None -> exists t', Ev (GetTimedMemberState u : op) st :: t1 =
        t' ++ [ev_success u]) /\ o <> Panicked) as Hfail.
  { intros e [-> ->]. unfold count_saw; simpl. split_and!; [done|lia|done..]. }
  assert (forall b : bool, n + ((if b then 1 else 0) + count_saw "NO_TASK" t1) <=
    n + (1 + count_saw "NO_TASK" t1)) as Hb by (intros []; lia).
  destruct st as [s|e]; [|by destruct (Hfail _ H) as (?&?&?&?); split_and!; [|lia|..]].
  specialize (Hb (bool_decide (s = "NO_TASK"))).
  destruct (decide (s = "FAILURE")) as [->|_];
    [by destruct (Hfail _ H) as (?&?&?&?); split_and!; [|lia|..]|].
  destruct (decide (s = "SUCCESS")) as [->|_].
  { destruct H as [-> ->]. unfold count_saw; simpl. split_and!; [done|lia| |done].
    intros _. by exists []. }
  destruct (decide (s = "NO_TASK")) as [Es|Es].
  { destruct (10 <? n) eqn:En;
      [by destruct (Hfail _ H) as (?&?&?&?); split_and!; [|lia|..]|].
    apply Z.ltb_ge in En. destruct (Hnext (n + 1) ltac:(lia) ltac:(lia) H) as (I1 & I2 & I3 & I4).
    split_and!; [intros Ho; by rewrite (I1 Ho)|lia| |done].
    intros Ho. destruct (I3 Ho) as (t' & ->). by eexists (_ :: t'). }
  rewrite bool_decide_false by done.
  destruct (decide (s = "IN_PROGRESS")) as [_|_];
    [|by destruct (Hfail _ H) as (?&?&?&?); split_and!; [|lia|..]].
  destruct (Hnext n ltac:(lia) ltac:(lia) H) as (I1 & I2 & I3 & I4).
  split_and!; [intros Ho; by rewrite (I1 Ho)|lia| |done].
  intros Ho. destruct (I3 Ho) as (t' & ->). by eexists (_ :: t').
Qed.

(** Waiting for a member's backup: it reports success only right after the
    member answered SUCCESS, tolerates at most 12 NO_TASK answers, never
    panics, and does not return only if every one of its [fuel] polls was
    answered by a state that means to go on. *)
Theorem member_wait_correct u t o :
  exec (MemberBackup_Wait fuel u) t o ->
  (o = Exhausted -> count is_poll t = fuel) /\
  count_saw "NO_TASK" t <= 12 /\
  (o = Returned None -> exists t', t = t' ++ [ev_success u]) /\
  o <> Panicked.
Proof. apply (wait_invariant fuel u 0). lia. Qed.

(** ** Starting backups *)

(** Calls that start or cancel a backup. *)
Definition sched (o : op) : bool :=
  match o with GoStartBackup _ _ _ | CancelBackup _ => true | _ => false end.
Definition quiet (t : list event) : Prop := count sched t = 0%nat.

Lemma quiet_app t1 t2 : quiet t1 -> quiet t2 -> quiet (t1 ++ t2).
Proof. unfold quiet. rewrite count_app. lia. Qed.

Lemma quiet_cons e t : sched (ev_op e) = false -> quiet t -> quiet (e :: t).
Proof. unfold quiet. rewrite count_cons. intros ->. done. Qed.

Lemma never_updateStatus Q name recOption options :
  (forall n, Q (GetHotBackup n) = false) -> (forall hb, Q (UpdateHotBackupStatus hb) = false) ->
  never Q (updateStatus name recOption options).
Proof.
  intros H1 H2. apply never_bind.
  - apply OnError_never. intros hb. split; [done|]. intros [hb'|e]; [|done].
    split; [apply H2|]. done.
  - intros [hb err]. destruct (ro_Err recOption); [done|]. by case_decide.
Qed.

Lemma quiet_updateStatus name recOption options t o :
  exec (updateStatus name recOption options) t o -> quiet t.
Proof. apply never_count, never_updateStatus; done. Qed.

Lemma quiet_updateLast name t o : exec (updateLastSuccessfulConfiguration name) t o -> quiet t.
Proof.
  apply never_count, never_bind; [|done]. apply OnError_never. intros s.
  apply never_bind; [|done]. split; [done|]. by intros [hb|e].
Qed.

Definition ev_got (name : NamespacedName) (hb : HotBackup) : event := Ev (GetHotBackup name : op) (Found hb).
Definition ev_cluster (name : NamespacedName) (h : Hazelcast) : event := Ev (GetHazelcast name : op) (Found h).
Definition ev_written (hb : HotBackup) : event := Ev (UpdateHotBackupStatus hb : op) None.
Definition ev_start (name : NamespacedName) (ext : bool) (hz : NamespacedName) : event :=
  Ev (GoStartBackup name ext hz : op) tt.
Definition ev_cancel (name : NamespacedName) : event := Ev (CancelBackup name : op) tt.

(** A status update that reports no error has stored the status. *)
Lemma updateStatus_stored name options t res :
  (forall st, hbs_State (foldl HotBackupStatusApply st options) <> HotBackupPending) ->
  exec (updateStatus name recoptions_Empty options) t (Returned (res, None)) ->
  exists hb hb', ev_written hb ∈ t /\ hb = set_Status hb' (foldl HotBackupStatusApply (hb_Status hb') options).
Proof.
  unfold updateStatus. intros Hs H. exec_step H. destruct a as [hb err].
  apply OnError_law in He as (n & _ & Ha). cbn [ro_Err recoptions_Empty] in H. case_decide as Ep.
  { exfalso. apply (attempts_inv (fun hb => hbs_State (hb_Status hb) <> HotBackupPending)) in Ha;
      [done| |done].
    intros s1 u1 s1' e1 Hs1 (r & u2 & -> & Hr). destruct r as [hb'|e']; [|by destruct Hr as [_ [= -> _]]].
    destruct Hr as (x & u3 & -> & _ & [= -> _]). apply Hs. }
  destruct H as [-> [= -> <-]].
  apply attempts_final in Ha as (s0 & u1 & u2 & -> & Hl).
  destruct Hl as (r & u3 & -> & Hl). destruct r as [hb'|e]; [|by destruct Hl as [_ Hl]].
  destruct Hl as (x & u4 & -> & -> & [= -> <-]).
  exists (set_Status hb' (foldl HotBackupStatusApply (hb_Status hb') options)), hb'.
  split; [|done]. rewrite app_nil_r. set_solver.
Qed.

Lemma updateStatus_written name s t res : s <> HotBackupPending ->
  exec (updateStatus name recoptions_Empty [withHotBackupState s]) t (Returned (res, None)) ->
  exists hb, ev_written hb ∈ t /\ hbs_State (hb_Status hb) = s.
Proof.
  intros Hs H. apply updateStatus_stored in H as (hb & hb' & Hin & Hhb); [|done].
  exists hb. split; [done|]. by rewrite Hhb.
Qed.

(** What one reconciliation can do to the locks and the running backups. *)
Inductive reconcile_case (r : HotBackupReconciler) (req : NamespacedName)
    (r' : HotBackupReconciler) (t : list event) : Prop :=
| rc_quiet : quiet t -> hbr_backup r' = hbr_backup r -> hbr_cancelMap r ⊆ hbr_cancelMap r' ->
    reconcile_case r req r' t
| rc_finalize key t1 t2 : quiet t1 -> quiet t2 ->
    t = t1 ++ (if decide (key ∈ hbr_cancelMap r) then [ev_cancel key] else []) ++ t2 ->
    hbr_backup r' = hbr_backup r ∖ {[key]} -> hbr_cancelMap r' = hbr_cancelMap r ∖ {[key]} ->
    reconcile_case r req r' t
| rc_start hb h hs t1 : quiet t1 ->
    let hazelcastName := (nn_Namespace req, hb_HazelcastResourceName (hb_Spec hb)) in
    t = ev_got req hb :: t1 ++
        [ev_start req (HotBackupSpec_IsExternal (hb_Spec hb)) hazelcastName] ->
    hb_Deleting hb = false ->
    HotBackupState_IsRunning (hbs_State (hb_Status hb)) = false ->
    HotBackupState_IsFinished (hbs_State (hb_Status hb)) = false ->
    marshal_spec (hb_Spec hb) = Found hs ->
    hb_Annotations hb !! n_LastSuccessfulSpecAnnotation <> Some hs ->
    ev_cluster hazelcastName h ∈ t1 ->
    hz_Phase h = Running ->
    validateHotBackupPersistence h = [] ->
    (exists hb', ev_written hb' ∈ t1 /\
       hbs_State (hb_Status hb') = HotBackupNotStarted) ->
    req ∉ hbr_backup r ->
    hbr_backup r' = {[req]} ∪ hbr_backup r -> hbr_cancelMap r' = {[req]} ∪ hbr_cancelMap r ->
    reconcile_case r req r' t.

Lemma quiet_finalizer_check hb t o :
  exec (ValidateHotBackupIsNotReferencedByHazelcast hb) t o -> quiet t.
Proof. apply never_count. split; [done|]. by intros [l|e]. Qed.

Lemma executeFinalizer_cases r hb t r' err :
  exec (executeFinalizer r hb) t (Returned (r', err)) ->
  (quiet t /\ r' = r) \/
  exists t1 t2, quiet t1 /\ quiet t2 /\
    t = t1 ++ (if decide (hb_Name hb ∈ hbr_cancelMap r) then [ev_cancel (hb_Name hb)] else []) ++ t2 /\
    hbr_backup r' = hbr_backup r ∖ {[hb_Name hb]} /\ hbr_cancelMap r' = hbr_cancelMap r ∖ {[hb_Name hb]}.
Proof.
  unfold executeFinalizer. intros H. destruct (negb _).
  { destruct H as [-> [= -> ->]]. by left. }
  apply exec_bind in H as [(a & u1 & u2 & -> & He & H)|[[_ [=]]|[_ [=]]]].
  apply quiet_finalizer_check in He as Hq. destruct a as [e|].
  { destruct H as [-> [= -> ->]]. left. by rewrite app_nil_r. }
  right. cbv zeta in H. apply exec_bind in H as [(a & v1 & v2 & -> & He1 & H)|[[_ [=]]|[_ [=]]]].
  assert (v1 = (if decide (hb_Name hb ∈ hbr_cancelMap r) then [ev_cancel (hb_Name hb)] else []) /\
    hbr_backup a = hbr_backup r /\ hbr_cancelMap a = hbr_cancelMap r ∖ {[hb_Name hb]}) as (-> & Hb & Hc).
  { case_decide as Hk.
    - destruct He1 as ([] & v3 & -> & -> & [= ->]). done.
    - destruct He1 as [-> [= ->]]. split_and!; try done. by rewrite difference_disjoint_L by set_solver. }
  destruct H as (x & v3 & -> & H).
  assert (v3 = [] /\ r' = unlockBackup a (hb_Name hb)) as [-> ->].
  { destruct x as [e|]; destruct H as [-> [= -> _]]; done. }
  eexists u1, [_]. split; [done|]. split; [|split; [reflexivity|]]; [done|].
  simpl. by rewrite Hb.
Qed.

Lemma AddFinalizer_cases hb t hb' err :
  exec (AddFinalizer hb) t (Returned (hb', err)) ->
  quiet t /\ hb_Deleting hb' = hb_Deleting hb /\ hb_Annotations hb' = hb_Annotations hb /\
  hb_Spec hb' = hb_Spec hb /\ hb_Status hb' = hb_Status hb.
Proof.
  unfold AddFinalizer. destruct (_ && _).
  - by intros (x & t' & -> & -> & [= -> _]).
  - by intros [-> [= -> _]].
Qed.

(** The last steps of [Reconcile], after the checks. *)
Lemma reconcile_ret r p t r' res :
  (forall t o, exec p t o -> quiet t) ->
  exec (ret_status r p) t (Returned (r', res)) -> quiet t /\ r' = r.
Proof.
  intros Hp H. unfold ret_status in H.
  apply exec_bind in H as [(a & u1 & u2 & -> & He & H)|[[_ [=]]|[_ [=]]]].
  destruct H as [-> [= -> _]]. rewrite app_nil_r. eauto.
Qed.

(** One goal per way [Reconcile] can end without touching the locks. *)
Ltac rc_done H :=
  first [ destruct H as [-> [= -> _]]; apply rc_quiet; [|done|done]
        | apply reconcile_ret in H as [Hq ->]; [|by apply quiet_updateStatus]; apply rc_quiet; [|done|done] ];
  repeat first [apply quiet_cons; [done|] | apply quiet_app]; done.

Lemma Reconcile_cases r req t r' res :
  exec (Reconcile r req) t (Returned (r', res)) -> reconcile_case r req r' t.
Proof.
  unfold Reconcile. cbv zeta. intros (got & t1 & -> & H).
  destruct got as [hb0|e]; [|destruct (IsNotFound e); rc_done H].
  apply exec_bind in H as [([hb err] & u1 & u2 & -> & Hfin & H)|[[_ [=]]|[_ [=]]]].
  apply AddFinalizer_cases in Hfin as (Hq1 & Hdel & Han & Hsp & Hst).
  symmetry in Hdel, Han, Hsp, Hst.
  destruct err as [e|]; [rc_done H|].
  destruct (hb_Deleting hb) eqn:Edel.
  { apply exec_bind in H as [([r1 err] & v1 & v2 & -> & Hf & H)|[[_ [=]]|[_ [=]]]].
    assert (quiet v2 /\ r' = r1) as [Hq2 ->].
    { destruct err; [by apply reconcile_ret in H; [|apply quiet_updateStatus]|].
      by destruct H as [-> [= -> _]]. }
    apply executeFinalizer_cases in Hf as [[Hq3 ->]|(w1 & w2 & Hw1 & Hw2 & -> & Hb & Hc)].
    - apply rc_quiet; [|done|done]. repeat first [apply quiet_cons; [done|] | apply quiet_app]; done.
    - apply (rc_finalize _ _ _ _ (hb_Name hb) (ev_got req hb0 :: u1 ++ w1) (w2 ++ v2));
        [| |by list_simplifier|done|done];
        repeat first [apply quiet_cons; [done|] | apply quiet_app]; done. }
  destruct (HotBackupState_IsRunning _) eqn:Erun; [rc_done H|]. simpl orb in H.
  destruct (checkBackup r req) eqn:Elock; [rc_done H|].
  destruct (HotBackupState_IsFinished _) eqn:Efin; [rc_done H|].
  destruct (marshal_spec (hb_Spec hb)) as [hs|e] eqn:Ems; [|rc_done H].
  case_decide as Eann; [rc_done H|].
  destruct H as (hz & v1 & -> & H). destruct hz as [h|e]; [|rc_done H].
  destruct (bool_decide (hz_Phase h = Running)) eqn:Eph; [|rc_done H]. simpl negb in H.
  destruct (ValidateHotBackupPersistence hb h) as [e|] eqn:Ev0; [rc_done H|].
  apply exec_bind in H as [(err & w1 & w2 & -> & Hu & H)|[[_ [=]]|[_ [=]]]].
  apply quiet_updateLast in Hu as Hq2. destruct err as [e|]; [rc_done H|].
  apply exec_bind in H as [([result err] & x1 & x2 & -> & Hs & H)|[[_ [=]]|[_ [=]]]].
  apply quiet_updateStatus in Hs as Hq3. destruct err as [e|].
  { destruct H as [-> [= -> _]]. apply rc_quiet; [|done|set_solver].
    repeat first [apply quiet_cons; [done|] | apply quiet_app]; done. }
  destruct H as ([] & x3 & -> & -> & [= -> _]). apply updateStatus_written in Hs; [|done].
  apply (rc_start _ _ _ _ hb0 h hs (u1 ++ ev_cluster (nn_Namespace req, hb_HazelcastResourceName (hb_Spec hb)) h :: w1 ++ x1)); rewrite ?Hsp, ?Hst, ?Han, ?Hdel; try done.
  - repeat first [apply quiet_cons; [done|] | apply quiet_app]; done.
  - by list_simplifier.
  - set_solver.
  - by apply bool_decide_eq_true in Eph.
  - by apply Err_None in Ev0.
  - destruct Hs as (hb' & Hin & Hs). exists hb'. split; [set_solver|done].
  - by apply bool_decide_eq_false in Elock.
Qed.

(** The abstract machine of running backups: starting a backup that already
    runs is an error ([None]); cancelling ends it. *)
Fixpoint running_backups (A : gset NamespacedName) (t : list event) : option (gset NamespacedName) :=
  match t with
  | [] => Some A
  | e :: t =>
      match ev_op e with
      | GoStartBackup n _ _ => if decide (n ∈ A) then None else running_backups ({[n]} ∪ A) t
      | CancelBackup n => running_backups (A ∖ {[n]}) t
      | _ => running_backups A t
      end
  end.

Lemma running_backups_app A t1 t2 :
  running_backups A (t1 ++ t2) = running_backups A t1 ≫= (fun A' => running_backups A' t2).
Proof.
  revert A. induction t1 as [|[o x] t1 IH]; intros A; [done|]. simpl.
  destruct o; simpl; try apply IH. case_decide; [done|]. apply IH.
Qed.

Lemma running_backups_quiet A t : quiet t -> running_backups A t = Some A.
Proof.
  unfold quiet. induction t as [|[o x] t IH]; [done|]. rewrite count_cons. simpl.
  destruct o; simpl; intros H; try (by apply IH); lia.
Qed.

(** A sequence of reconciliations of any resources, one after the other as
    the work queue runs them. *)
Inductive reconciles : HotBackupReconciler -> list event -> HotBackupReconciler -> Prop :=
| rs_nil r : reconciles r [] r
| rs_snoc r t r' req t' r'' res : reconciles r t r' ->
    exec (Reconcile r' req) t' (Returned (r'', res)) -> reconciles r (t ++ t') r''.

(** The locks cover the running backups, and every locked backup can be
    cancelled. *)
Definition locks_ok (A : gset NamespacedName) (r : HotBackupReconciler) : Prop :=
  A ⊆ hbr_backup r /\ hbr_backup r ⊆ hbr_cancelMap r.

Lemma reconcile_locks A r req r' t : locks_ok A r -> reconcile_case r req r' t ->
  exists A', running_backups A t = Some A' /\ locks_ok A' r'.
Proof.
  intros [HA Hc] [Hq Hb Hm|key t1 t2 Hq1 Hq2 -> Hb Hm|hb h hs t1 Hq hzn -> _ _ _ _ _ _ _ _ _ Hn Hb Hm].
  - exists A. rewrite running_backups_quiet by done. split; [done|]. unfold locks_ok. rewrite Hb. set_solver.
  - rewrite !running_backups_app, running_backups_quiet by done. simpl. case_decide as Hk; simpl.
    + exists (A ∖ {[key]}). rewrite running_backups_quiet by done. split; [done|].
      unfold locks_ok. rewrite Hb, Hm. set_solver.
    + exists A. rewrite running_backups_quiet by done. split; [done|].
      unfold locks_ok. rewrite Hb, Hm. set_solver.
  - simpl. rewrite running_backups_app, running_backups_quiet by done. simpl.
    rewrite decide_False by set_solver. exists ({[req]} ∪ A). split; [done|].
    unfold locks_ok. rewrite Hb, Hm. set_solver.
Qed.

Lemma reconciles_locks r t r' : reconciles r t r' -> r = NewHotBackupReconciler ->
  exists A, running_backups ∅ t = Some A /\ locks_ok A r'.
Proof.
  induction 1 as [r|r t r1 req t' r2 res _ IH He]; intros ->.
  - exists ∅. split; [done|]. unfold locks_ok. simpl. set_solver.
  - destruct (IH eq_refl) as (A & HA & Hl).
    destruct (reconcile_locks A r1 req r2 t' Hl (Reconcile_cases _ _ _ _ _ He)) as (A' & HA' & Hl').
    exists A'. rewrite running_backups_app, HA. done.
Qed.

(** C4. Over any sequence of reconciliations of any resources, whatever the API
    answers, a backup is never started while a backup of the same resource
    still runs: between two starts there is a cancellation; and the
    reconciler's lock covers every running backup. *)
Theorem backup_started_once t r :
  reconciles NewHotBackupReconciler t r ->
  exists A, running_backups ∅ t = Some A /\ A ⊆ hbr_backup r.
Proof. intros H. destruct (reconciles_locks _ _ _ H eq_refl) as (A & HA & Hl & _). by exists A. Qed.

Definition is_start (o : op) : bool := match o with GoStartBackup _ _ _ => true | _ => false end.

Lemma quiet_no_start t : quiet t -> count is_start t = 0%nat.
Proof.
  unfold quiet. induction t as [|[o x] t IH]; [done|]. rewrite !count_cons. simpl.
  destruct o; simpl; intros H; try (by apply IH); lia.
Qed.

(** When a reconciliation starts a backup, the resource it read was not being
    deleted, not running and not finished, its spec differs from the last one
    applied, the cluster was running with persistence enabled, and the status
    NotStarted was stored before the start; it starts exactly one backup, of
    that resource and against that cluster, and takes the lock. *)
Theorem backup_start_guarded r req t r' res :
  exec (Reconcile r req) t (Returned (r', res)) -> (0 < count is_start t)%nat ->
  exists hb h hs t1,
    let hazelcastName := (nn_Namespace req, hb_HazelcastResourceName (hb_Spec hb)) in
    t = ev_got req hb :: t1 ++ [ev_start req (HotBackupSpec_IsExternal (hb_Spec hb)) hazelcastName] /\
    count is_start t1 = 0%nat /\
    hb_Deleting hb = false /\
    HotBackupState_IsRunning (hbs_State (hb_Status hb)) = false /\
    HotBackupState_IsFinished (hbs_State (hb_Status hb)) = false /\
    marshal_spec (hb_Spec hb) = Found hs /\
    hb_Annotations hb !! n_LastSuccessfulSpecAnnotation <> Some hs /\
    ev_cluster hazelcastName h ∈ t1 /\ hz_Phase h = Running /\ validateHotBackupPersistence h = [] /\
    (exists hb', ev_written hb' ∈ t1 /\ hbs_State (hb_Status hb') = HotBackupNotStarted) /\
    req ∉ hbr_backup r /\ req ∈ hbr_backup r'.
Proof.
  intros He Hs. destruct (Reconcile_cases _ _ _ _ _ He)
    as [Hq _ _|key t1 t2 Hq1 Hq2 -> _ _|hb h hs t1 Hq hzn -> H1 H2 H3 H4 H5 H6 H7 H8 H9 Hn Hb _].
  - rewrite (quiet_no_start _ Hq) in Hs. lia.
  - rewrite !count_app in Hs. pose proof (quiet_no_start _ Hq1). pose proof (quiet_no_start _ Hq2).
    case_decide; rewrite ?count_cons in Hs; simpl in Hs; lia.
  - exists hb, h, hs, t1. rewrite Hb. split; [done|]. split; [by apply quiet_no_start|].
    do 10 (split; [done|]). set_solver.
Qed.

(** ** Taking a backup *)

(** Attempts to store the status Success. *)
Definition success_write (o : op) : bool :=
  match o with
  | UpdateHotBackupStatus hb => bool_decide (hbs_State (hb_Status hb) = HotBackupSuccess)
  | _ => false
  end.

Lemma never_success_updateStatus name recOption options :
  (forall st, hbs_State (foldl HotBackupStatusApply st options) <> HotBackupSuccess) ->
  never success_write (updateStatus name recOption options).
Proof.
  intros Hs. apply never_bind.
  - apply OnError_never. intros hb. split; [done|]. intros [hb'|e]; [|done].
    split; [|done]. apply bool_decide_eq_false. apply Hs.
  - intros [hb err]. destruct (ro_Err recOption); [done|]. by case_decide.
Qed.

Lemma updateStatus_error name e options t res err :
  exec (updateStatus name (recoptions_Error (Some e)) options) t (Returned (res, err)) -> err = Some e.
Proof.
  unfold updateStatus. intros H.
  apply exec_bind in H as [([hb err'] & u1 & u2 & -> & _ & H)|[[_ [=]]|[_ [=]]]].
  by destruct H as [-> [= _ ->]].
Qed.

Lemma never_retryOnError Q p : never Q p -> never Q (retryOnError p).
Proof.
  intros Hp. apply never_bind; [|done]. apply OnError_never. intros []. by apply never_bind.
Qed.

(** Everything but status updates and the lookup of the status service. *)
Definition harmless (o : op) : bool :=
  match o with UpdateHotBackupStatus _ | GetStatusService _ => false | _ => true end.

Section Harmless.
Context (Q : op -> bool) (HQ : forall o, harmless o = true -> Q o = false).

Lemma never_start : never Q ClusterBackup_Start.
Proof.
  apply never_bind; [apply never_retryOnError; split; [by apply HQ|done]|]. intros [e|]; [done|].
  apply never_bind; [apply never_retryOnError; split; [by apply HQ|done]|]. intros r.
  apply never_bind; [apply never_retryOnError; split; [by apply HQ|done]|done].
Qed.

Lemma never_wait k u n : never Q (MemberBackup_wait k u n).
Proof.
  revert n. induction k as [|k IH]; intros n; [done|]. cbn [MemberBackup_wait]. split; [by apply HQ|].
  intros [s|e]; [|done]. cbv zeta.
  assert (forall n', never Q (Vis (AfterOrDone : op) (fun done : option error =>
            match done with None => MemberBackup_wait k u n' | Some e => Done (Some e) end))) as Hn.
  { intros n'. split; [by apply HQ|]. by intros [e|]. }
  repeat case_decide; try done; try apply Hn. by destruct (10 <? n).
Qed.

Lemma never_wait_member m : never Q (wait_member fuel m).
Proof.
  apply never_bind; [apply never_wait|]. intros [e|]; [|done].
  apply never_bind; [|by intros [ce|]]. split; [by apply HQ|].
  intros []; [split; [by apply HQ|done]|done].
Qed.

Lemma never_upload_wait k a i : never Q (Upload_wait k a i).
Proof.
  induction k as [|k IH]; [done|]. cbn [Upload_wait]. split; [by apply HQ|]. intros [s|e]; [|done].
  repeat case_decide; try done. split; [by apply HQ|]. by intros [e|].
Qed.

Lemma never_with_upload u f run : (forall a i, Q (f a i) = false) -> never Q (with_upload u f run).
Proof. intros Hf. unfold with_upload. destruct (up_ID u); [|done]. split; [apply Hf|done]. Qed.

Lemma never_upload_member bn hzn ext i m : never Q (upload_member fuel bn hzn ext i m).
Proof.
  unfold upload_member. split; [by apply HQ|]. intros [baseDir|e]; [|done]. destruct ext; simpl negb; cbv iota.
  - split; [by apply HQ|]. intros [hb|e]; [|done].
    apply never_bind; [split; [by apply HQ|]; by intros [e|]|]. intros [u|e]; [|done].
    apply never_bind.
    { unfold Upload_Start. destruct (up_ID u); [done|]. split; [by apply HQ|]. by intros [id|e]. }
    intros [u' [e|]]; [done|]. apply never_bind.
    { unfold Upload_Wait. destruct (up_ID u'); [apply never_upload_wait|done]. }
    intros [bk|e]; [done|]. destruct (IsCanceled e); [|done].
    apply never_bind; [apply never_with_upload; intros; by apply HQ|]. by intros [ce|].
  - split; [by apply HQ|]. intros [e|]; [done|]. apply never_bind; [|by intros [b|e]].
    split; [by apply HQ|]. intros [l|e]; [|done]. by destruct (last l).
Qed.

Lemma never_remove us : never Q (remove_uploads us).
Proof.
  induction us as [|u us IH]; [done|]. apply never_bind; [apply never_with_upload; intros; by apply HQ|done].
Qed.

End Harmless.

Lemma success_harmless o : harmless o = true -> success_write o = false.
Proof. by destruct o. Qed.

Lemma group_Wait_None errs first : group_Wait errs first = None -> Forall (fun e => e = None) errs.
Proof.
  unfold group_Wait. intros H.
  assert (head (omap id errs) = None) as Hh by (by destruct (errs !! first) as [[e|]|]).
  clear H. induction errs as [|[e|] errs IH]; simpl in *; [constructor|done|]. constructor; auto.
Qed.

(** A member's goroutine that reports no error has seen SUCCESS. *)
Lemma wait_member_success m t : exec (wait_member fuel m) t (Returned None) -> ev_success m.1 ∈ t.
Proof.
  unfold wait_member. intros H.
  apply exec_bind in H as [([e|] & u1 & u2 & -> & He & H)|[[_ [=]]|[_ [=]]]].
  - apply exec_bind in H as [([ce|] & v1 & v2 & -> & _ & H)|[[_ [=]]|[_ [=]]]]; by destruct H.
  - destruct H as [-> _]. apply (wait_invariant fuel m.1 0) in He as (_ & _ & Hs & _); [|lia].
    destruct (Hs eq_refl) as (t' & ->). set_solver.
Qed.

Definition ev_mtls (ns : string) : event := Ev (GetOrCreateMTLSClient ns : op) None.
Definition ev_members (ms : list member) : event := Ev (GetStatus : op) (Some (Some ms)).

Definition success_options (results : list member_result) : list HotBackupStatusApplier :=
  [withHotBackupState HotBackupSuccess; withHotBackupMessage "";
   withHotBackupBackupUUIDs (mr_backup <$> results)].

(** Either the backup never gets as far as reporting success, or all members
    succeeded and the status update is the last thing but the cleanup. *)
Inductive backup_case (bn : NamespacedName) (t : list event) (o : outcome (ctrl_Result * option error)) : Prop :=
| bc_failed : count success_write t = 0%nat -> (forall res, o <> Returned (res, None)) -> backup_case bn t o
| bc_done members results t0 t1 t2 res err :
    ev_members members ∈ t0 -> (forall m : member, m ∈ members -> ev_success m.1 ∈ t0) ->
    length results = length members -> Forall (fun r => mr_err r = None) results ->
    t = t0 ++ t1 ++ t2 ->
    exec (updateStatus bn recoptions_Empty (success_options results)) t1 (Returned (res, err)) ->
    (forall res', o = Returned (res', None) -> err = None) ->
    backup_case bn t o.

Lemma backup_case_prefix bn t t' o : count success_write t' = 0%nat ->
  backup_case bn t o -> backup_case bn (t' ++ t) o.
Proof.
  intros Ht' [H1 H2|members results t0 t1 t2 res err H1 H2 H3 H4 -> H5 H6].
  - apply bc_failed; [|done]. by rewrite count_app, Ht', H1.
  - apply (bc_done _ _ _ members results (t' ++ t0) t1 t2 res err); try done; [set_solver| |by rewrite app_assoc].
    intros m Hm. apply elem_of_app. right. by apply H2.
Qed.

Lemma backup_case_failed bn e t o :
  exec (updateStatus bn (recoptions_Error (Some e)) [withHotBackupFailedState (err_msg e)]) t o ->
  backup_case bn t o.
Proof.
  intros H. apply bc_failed.
  - eapply never_count; [|exact H]. by apply never_success_updateStatus.
  - intros res ->. by apply updateStatus_error in H.
Qed.

(** The traces of goroutines are in the trace of their group. *)
Lemma interleave_elem ts t i ti (e : event) : interleave ts t -> ts !! i = Some ti -> e ∈ ti -> e ∈ t.
Proof.
  intros Hi Ht He. rewrite (interleave_perm _ _ Hi), list_elem_of_In. apply in_concat. exists ti.
  split; apply list_elem_of_In; [by eapply list_elem_of_lookup_2|done].
Qed.

Lemma group_no_success {R} ts rs (ps : nat -> prog R) t : interleave ts t -> length rs = length ts ->
  (forall i, never success_write (ps i)) ->
  (forall i ti r, ts !! i = Some ti -> rs !! i = Some r -> exec (ps i) ti (Returned r)) ->
  count success_write t = 0%nat.
Proof.
  intros Hi Hl Hn Hp. rewrite (count_perm _ _ _ (interleave_perm _ _ Hi)). apply count_concat_zero.
  intros u [i Hu]%list_elem_of_lookup. destruct (lookup_lt_is_Some_2 rs i) as [r Hr].
  { rewrite Hl. eauto using lookup_lt_Some. }
  eapply never_count; [apply Hn|]. by eapply Hp.
Qed.

(** A status update always returns. *)
Lemma updateStatus_returns name recOption options t o :
  exec (updateStatus name recOption options) t o -> exists res err, o = Returned (res, err).
Proof.
  assert (forall hb u o, exec (updateStatus_once name options hb) u o -> exists r, o = Returned r) as Honce.
  { intros hb u o' (r & u1 & -> & Hr). destruct r as [hb'|e]; [|destruct Hr as [_ ->]; eauto].
    destruct Hr as (x & u2 & -> & _ & ->). eauto. }
  unfold updateStatus. intros H.
  apply exec_bind in H as [([hb err] & u1 & u2 & -> & _ & H)|[[H ->]|[H ->]]].
  - destruct (ro_Err recOption); [by destruct H as [_ ->]; eauto|]. case_decide; destruct H as [_ ->]; eauto.
  - apply OnError_law in H as (n & _ & Ha). apply attempts_final in Ha as (s0 & u0 & u1 & _ & Hl).
    by destruct (Honce _ _ _ Hl).
  - apply OnError_law in H as (n & _ & Ha). apply attempts_final in Ha as (s0 & u0 & u1 & _ & Hl).
    by destruct (Honce _ _ _ Hl).
Qed.

(** What follows the uploads: the status, then the removal of the tasks. *)
Lemma backup_finish bn results first t o :
  exec (res <- match group_Wait (mr_err <$> results) first with
              | Some e =>
                  let fin := omap (fun r => if mr_finished r then mr_upload r else None) results in
                  Par (length fin)
                    (fun i => match fin !! i with Some u => Upload_Cleanup u | None => Done None end)
                    (fun _ _ => updateStatus bn (recoptions_Error (Some e)) [withHotBackupFailedState (err_msg e)])
              | None => updateStatus bn recoptions_Empty (success_options results)
              end ;;
       remove_uploads (omap mr_upload results) ;; Done res) t o ->
  (count success_write t = 0%nat /\ forall res, o <> Returned (res, None)) \/
  (Forall (fun r => mr_err r = None) results /\
   exists t1 t2 res err, t = t1 ++ t2 /\
    exec (updateStatus bn recoptions_Empty (success_options results)) t1 (Returned (res, err)) /\
    (forall res', o = Returned (res', None) -> err = None)).
Proof.
  intros H. destruct (group_Wait (mr_err <$> results) first) as [e|] eqn:Eg.
  - left. split.
    + eapply never_count; [|exact H]. apply never_bind.
      * split; [|intros; by apply never_success_updateStatus].
        intros i. destruct (_ !! i); [by apply never_with_upload|done].
      * intros a. apply never_bind; [apply never_remove, success_harmless|done].
    + intros res ->. apply exec_bind in H as [([res1 err] & u1 & u2 & -> & He & H)|[[_ [=]]|[_ [=]]]].
      apply exec_bind in H as [([] & v1 & v2 & -> & _ & [_ [= <- <-]])|[[_ [=]]|[_ [=]]]].
      destruct He as (ts & rs & w1 & w2 & f & _ & _ & _ & _ & _ & He). by apply updateStatus_error in He.
  - right. split.
    { apply group_Wait_None in Eg. rewrite Forall_fmap in Eg. exact Eg. }
    apply exec_bind in H as [([res1 err] & u1 & u2 & -> & He & H)|[[H ->]|[H ->]]].
    + exists u1, u2, res1, err. split; [done|]. split; [done|]. intros res' ->.
      by apply exec_bind in H as [([] & v1 & v2 & -> & _ & [_ [= _ <-]])|[[_ [=]]|[_ [=]]]].
    + by apply updateStatus_returns in H as (? & ? & [=]).
    + by apply updateStatus_returns in H as (? & ? & [=]).
Qed.

Lemma count_one Q e : Q (ev_op e) = false -> count Q [e] = 0%nat.
Proof. intros H. by rewrite count_cons, H. Qed.

(** One call in front of the rest. *)
Lemma backup_case_cons bn e t o : success_write (ev_op e) = false ->
  backup_case bn t o -> backup_case bn (e :: t) o.
Proof. intros He. apply (backup_case_prefix bn t [e]). by apply count_one. Qed.

(** From the uploads on, when every member has reported success. *)
Lemma backup_uploads bn hzn ext members t0 t o :
  ev_members members ∈ t0 -> (forall m : member, m ∈ members -> ev_success m.1 ∈ t0) ->
  count success_write t0 = 0%nat ->
  exec (Par (length (range_members 1 members))
    (fun i => match range_members 1 members !! i with
              | Some m => upload_member fuel bn hzn ext i m
              | None => Done (mkMemberResult None "" None false)
              end)
    (fun results first =>
       res <- match group_Wait (mr_err <$> results) first with
              | Some e =>
                  let fin := omap (fun r => if mr_finished r then mr_upload r else None) results in
                  Par (length fin)
                    (fun i => match fin !! i with Some u => Upload_Cleanup u | None => Done None end)
                    (fun _ _ => updateStatus bn (recoptions_Error (Some e)) [withHotBackupFailedState (err_msg e)])
              | None => updateStatus bn recoptions_Empty (success_options results)
              end ;;
       remove_uploads (omap mr_upload results) ;; Done res)) t o ->
  backup_case bn (t0 ++ t) o.
Proof.
  intros Hm Hs H0 (ts & rs & u1 & u2 & first & Hlt & Hlr & -> & Hi & Hps & H).
  assert (count success_write u1 = 0%nat) as Hu1.
  { eapply group_no_success; [exact Hi|by rewrite Hlr|..|exact Hps]. intros i. cbv beta.
    destruct (range_members 1 members !! i) as [m|]; [apply never_upload_member, success_harmless|exact I]. }
  apply backup_finish in H as [[Hc Ho]|(Hok & v1 & v2 & res & err & -> & He & Hr)].
  - apply bc_failed; [|done]. by rewrite !count_app, H0, Hu1, Hc.
  - apply (bc_done _ _ _ members rs (t0 ++ u1) v1 v2 res err); try done.
    + set_solver.
    + intros m Hin. apply elem_of_app. left. by apply Hs.
    + rewrite Hlr. by rewrite range_members_perm.
    + by rewrite app_assoc.
Qed.

Lemma wait_group_success members ts rs t first :
  length ts = length (range_members 0 members) -> length rs = length (range_members 0 members) ->
  interleave ts t ->
  (forall i ti r, ts !! i = Some ti -> rs !! i = Some r ->
     exec (match range_members 0 members !! i with Some m => wait_member fuel m | None => Done None end)
       ti (Returned r)) ->
  group_Wait rs first = None ->
  forall m : member, m ∈ members -> ev_success m.1 ∈ t.
Proof.
  intros Hlt Hlr Hi Hps Hw m Hm. rewrite <-(range_members_perm 0 members) in Hm.
  apply list_elem_of_lookup in Hm as [i Hm].
  destruct (lookup_lt_is_Some_2 ts i) as [ti Hti]; [rewrite Hlt; eauto using lookup_lt_Some|].
  destruct (lookup_lt_is_Some_2 rs i) as [r Hr]; [rewrite Hlr; eauto using lookup_lt_Some|].
  specialize (Hps i ti r Hti Hr). rewrite Hm in Hps.
  apply group_Wait_None in Hw. rewrite Forall_lookup in Hw. rewrite (Hw i r Hr) in Hps.
  eapply interleave_elem; [exact Hi|exact Hti|]. by apply wait_member_success.
Qed.

Lemma startBackup_cases bn ext hzn t o : exec (startBackup fuel bn ext hzn) t o -> backup_case bn t o.
Proof.
  unfold startBackup. cbv zeta. intros H.
  apply exec_bind in H as [([res0 err0] & u1 & u2 & -> & He & H)|[[H ->]|[H ->]]];
    [|by apply updateStatus_returns in H as (? & ? & [=]) ..].
  apply backup_case_prefix; [eapply never_count; [|exact He]; by apply never_success_updateStatus|].
  cbn [snd] in H. destruct err0 as [e|]; [by apply backup_case_failed in H|]. clear He.
  destruct H as (hz & t1 & -> & H). apply backup_case_cons; [done|].
  destruct hz as [hz|e]; [|by apply backup_case_failed in H].
  destruct H as (err & t2 & -> & H). apply backup_case_cons; [done|].
  destruct err as [e|].
  { apply bc_failed; [eapply never_count; [|exact H]; by apply never_success_updateStatus|].
    intros res ->. by apply updateStatus_error in H. }
  destruct H as (ok & t3 & -> & H). apply backup_case_cons; [done|].
  destruct ok; simpl negb in H; [|destruct H as [-> ->]; by apply bc_failed].
  destruct H as ([] & t4 & -> & H). apply backup_case_cons; [done|].
  cbn [pbind] in H. destruct H as (st & t5 & -> & H).
  destruct st as [[members|]|]; cbn [pbind] in H;
    [|apply backup_case_failed in H; by apply backup_case_cons..].
  apply exec_bind in H as [(err & v1 & v2 & -> & He & H)|[[H ->]|[H ->]]].
  2: { apply bc_failed; [|done]. rewrite count_cons. simpl. eapply never_count; [apply never_start, success_harmless|exact H]. }
  2: { apply bc_failed; [|done]. rewrite count_cons. simpl. eapply never_count; [apply never_start, success_harmless|exact H]. }
  assert (count success_write v1 = 0%nat) as Hv1 by (eapply never_count; [apply never_start, success_harmless|exact He]).
  destruct err as [e|].
  { apply backup_case_failed in H. apply backup_case_cons; [done|]. by apply backup_case_prefix. }
  destruct H as (ts & rs & w1 & w2 & first & Hlt & Hlr & -> & Hi & Hps & H).
  assert (count success_write w1 = 0%nat) as Hw1.
  { eapply group_no_success; [exact Hi|by rewrite Hlr|..|exact Hps]. intros i. cbv beta.
    destruct (range_members 0 members !! i) as [m|]; [apply never_wait_member, success_harmless|exact I]. }
  destruct (group_Wait rs first) as [e|] eqn:Eg.
  { apply backup_case_failed in H. apply backup_case_cons; [done|].
    apply backup_case_prefix; [done|]. by apply backup_case_prefix. }
  pose proof (wait_group_success _ _ _ _ _ Hlt Hlr Hi Hps Eg) as Hall.
  destruct H as (err & x1 & -> & H). destruct err as [e|].
  { apply backup_case_failed in H. apply backup_case_cons; [done|].
    apply backup_case_prefix; [done|]. apply backup_case_prefix; [done|]. by apply backup_case_cons. }
  apply (backup_uploads bn (hz_Name hz) ext members
    (ev_members members :: v1 ++ w1 ++ [ev_mtls (nn_Namespace hzn)])) in H.
  - list_simplifier. exact H.
  - set_solver.
  - intros m Hin. specialize (Hall m Hin). set_solver.
  - rewrite count_cons, !count_app, Hv1, Hw1. by rewrite count_one.
Qed.

(** C9. Success is stored only when every member the operator knew of reported
    SUCCESS for its local backup: if a backup run ever tries to store the
    status Success, each member of the list it obtained has answered SUCCESS
    before; and a run that returns no error has stored Success with one backup
    entry per member and an empty message. *)
Theorem backup_success_complete bn ext hzn t o :
  exec (startBackup fuel bn ext hzn) t o ->
  ((0 < count success_write t)%nat ->
   exists members, ev_members members ∈ t /\ forall m : member, m ∈ members -> ev_success m.1 ∈ t) /\
  (forall res, o = Returned (res, None) ->
   exists members hb, ev_members members ∈ t /\ (forall m : member, m ∈ members -> ev_success m.1 ∈ t) /\
     ev_written hb ∈ t /\ hbs_State (hb_Status hb) = HotBackupSuccess /\
     hbs_Message (hb_Status hb) = "" /\
     length (hbs_BackupUUIDs (hb_Status hb)) = length members).
Proof.
  intros H. destruct (startBackup_cases _ _ _ _ _ H)
    as [Hc Ho|members results t0 t1 t2 res err Hm Hs Hl Hok -> He Hr].
  { split; [lia|]. intros res ->. by destruct (Ho res). }
  assert (forall m : member, m ∈ members -> ev_success m.1 ∈ t0 ++ t1 ++ t2) as Hs'.
  { intros m Hin. apply elem_of_app. left. by apply Hs. }
  split; [intros _; exists members; split; [set_solver|done]|].
  intros res' ->. rewrite (Hr res' eq_refl) in He.
  apply updateStatus_stored in He as (hb & hb' & Hin & ->); [|done].
  exists members, (set_Status hb' (foldl HotBackupStatusApply (hb_Status hb') (success_options results))).
  simpl. rewrite length_fmap. split_and!; try done; set_solver.
Qed.

(** The registry was asked for a status service and had none. *)
Definition no_status_service (e : event) : Prop :=
  match e with
  | Ev o x =>
      match o as o return hb_ans o -> Prop with
      | GetStatusService _ => fun ok => ok = false
      | _ => fun _ => False
      end x
  end.

Definition service_lookup (o : op) : bool := match o with GetStatusService _ => true | _ => false end.

Lemma service_harmless o : harmless o = true -> service_lookup o = false.
Proof. by destruct o. Qed.

Lemma no_lookup t : count service_lookup t = 0%nat -> ~ Exists no_status_service t.
Proof.
  intros Hc He. induction He as [[o x] t Hx|[o x] t _ IH]; rewrite count_cons in Hc; simpl in Hc.
  - destruct o; simpl in *; lia || done.
  - apply IH. lia.
Qed.

Lemma never_lookup_status name recOption options : never service_lookup (updateStatus name recOption options).
Proof. by apply never_updateStatus. Qed.

(** Nothing after the lookup looks the status service up again. *)
Lemma never_lookup_finish bn results first :
  never service_lookup
    (res <- match group_Wait (mr_err <$> results) first with
            | Some e =>
                let fin := omap (fun r => if mr_finished r then mr_upload r else None) results in
                Par (length fin)
                  (fun i => match fin !! i with Some u => Upload_Cleanup u | None => Done None end)
                  (fun _ _ => updateStatus bn (recoptions_Error (Some e)) [withHotBackupFailedState (err_msg e)])
            | None => updateStatus bn recoptions_Empty (success_options results)
            end ;;
     remove_uploads (omap mr_upload results) ;; Done res).
Proof.
  apply never_bind.
  - destruct (group_Wait _ _); [|apply never_lookup_status].
    split; [|intros; apply never_lookup_status].
    intros i. destruct (_ !! i); [by apply never_with_upload|done].
  - intros a. apply never_bind; [apply never_remove, service_harmless|done].
Qed.

(** When the registry has no status service for the cluster, taking a backup
    panics: the error whose text it stores is nil. *)
Theorem missing_status_service_panics bn ext hzn t o :
  exec (startBackup fuel bn ext hzn) t o -> Exists no_status_service t -> o = Panicked.
Proof.
  unfold startBackup. cbv zeta. intros H Hx.
  apply exec_bind in H as [([res0 err0] & u1 & u2 & -> & He & H)|[[H ->]|[H ->]]];
    [|by apply updateStatus_returns in H as (? & ? & [=]) ..].
  apply Exists_app in Hx as [Hx|Hx];
    [by destruct (no_lookup u1); [eapply never_count; [apply never_lookup_status|exact He]|]|].
  cbn [snd] in H. destruct err0 as [e|];
    [by destruct (no_lookup u2); [eapply never_count; [apply never_lookup_status|exact H]|]|].
  destruct H as (hz & t1 & -> & H). apply Exists_cons in Hx as [[]|Hx].
  destruct hz as [hz|e];
    [|by destruct (no_lookup t1); [eapply never_count; [apply never_lookup_status|exact H]|]].
  destruct H as (err & t2 & -> & H). apply Exists_cons in Hx as [[]|Hx].
  destruct err as [e|];
    [by destruct (no_lookup t2); [eapply never_count; [apply never_lookup_status|exact H]|]|].
  destruct H as (ok & t3 & -> & H). destruct ok; simpl negb in H; [|by destruct H as [_ ->]].
  apply Exists_cons in Hx as [Hx|Hx]; [done|]. destruct (no_lookup t3); [|done].
  eapply never_count; [|exact H]. split; [done|]. intros []. cbn [pbind]. split; [done|].
  intros [[members|]|]; cbn [pbind]; [|apply never_lookup_status..].
  apply never_bind; [apply never_start, service_harmless|]. intros [e|]; [apply never_lookup_status|].
  split.
  { intros i. destruct (range_members 0 members !! i) as [m|]; [apply never_wait_member, service_harmless|exact I]. }
  intros errs first. destruct (group_Wait errs first); [apply never_lookup_status|].
  split; [done|]. intros [e|]; [apply never_lookup_status|]. split.
  { intros i. destruct (range_members 1 members !! i) as [m|]; [apply never_upload_member, service_harmless|exact I]. }
  intros results first'. apply never_lookup_finish.
Qed.

End Facts.

(** ** Witnesses: the program against concrete environments *)

Module HotBackupWitnesses.

#[local] Instance sample_json : HotBackupJson :=
  {| marshal_spec s := Found ("{" ++ hb_HazelcastResourceName s ++ "," ++ hb_BucketURI s ++ "}")%string;
     unmarshal_persistence s := if decide (s = "") then Failed (errors_New "eof") else Found true |}.

Definition key : NamespacedName := ("ns", "backup").

Definition sample_hb : HotBackup :=
  mkHotBackup key [n_Finalizer] false ∅ (mkHotBackupSpec "hz" "" "" "") (mkHotBackupStatus "" "" []).

Definition sample_hz : Hazelcast :=
  mkHazelcast ("ns", "hz") false Running {[ n_LastSuccessfulSpecAnnotation := "spec" ]} None.

(** An environment in which everything works; [ms] are the members, [svc]
    whether the status service is registered, [st] the backup task state. *)
Definition answer (ms : list member) (svc : bool) (st : string) (o : op) (_ : list event) : ans o :=
  match o as o return hb_ans o with
  | GetHotBackup _ => Found sample_hb
  | GetHazelcast _ => Found sample_hz
  | ListHazelcasts _ => Found []
  | GetHazelcastConfig _ => Found "/data"
  | GetStatusService _ => svc
  | OnceFirst => true
  | UpdateMembers | GoStartBackup _ _ _ | CancelBackup _ => tt
  | GetStatus => Some (Some ms)
  | GetTimedMemberState _ => Found st
  | AgentUpload _ _ => Found "id"
  | AgentUploadStatus _ _ => Found (mkUploadStatus "SUCCESS" "" "key")
  | AgentLocalBackups _ _ _ => Found ["backup-1"; "backup-2"]
  | _ => None
  end.

(** A backup of two members, run to its end. *)
Definition two_members : list member := [("u1", "10.0.0.1:5701"); ("u2", "10.0.0.2:5701")].
Definition works : forall o : op, list event -> ans o := answer two_members true "SUCCESS".
Definition full_trace : list event := (run works (startBackup 3 key false ("ns", "hz")) []).1.

Lemma full_exec : exec (startBackup 3 key false ("ns", "hz")) full_trace (Returned (ctrl_Result_zero, None)).
Proof. apply run_exec_2. vm_compute. reflexivity. Qed.

Lemma backup_success_witness :
  exists members hb, ev_members members ∈ full_trace /\
    ev_written hb ∈ full_trace /\ hbs_State (hb_Status hb) = HotBackupSuccess /\
    length (hbs_BackupUUIDs (hb_Status hb)) = length members.
Proof.
  destruct (backup_success_complete 3 key false ("ns", "hz") full_trace _ full_exec) as [_ H].
  destruct (H ctrl_Result_zero eq_refl) as (ms & hb & H1 & _ & H2 & H3 & _ & H4).
  exists ms, hb. auto.
Defined.

Definition wait_trace : list event := (run works (MemberBackup_Wait 1 "u1") []).1.

Lemma wait_exec : exec (MemberBackup_Wait 1 "u1") wait_trace (Returned None).
Proof. apply run_exec_2. vm_compute. reflexivity. Qed.

Lemma member_wait_witness : count_saw "NO_TASK" wait_trace <= 12 /\
  exists t', wait_trace = t' ++ [ev_success "u1"].
Proof.
  destruct (member_wait_correct 1 "u1" wait_trace _ wait_exec) as (_ & H1 & H2 & _).
  split; [exact H1|exact (H2 eq_refl)].
Defined.

Definition start_trace : list event := (run works ClusterBackup_Start []).1.

Lemma start_exec : exec ClusterBackup_Start start_trace (Returned None).
Proof. apply run_exec_2. vm_compute. reflexivity. Qed.

Lemma backup_start_witness :
  start_trace = [ev_state ClusterStatePassive None; ev_trigger None; ev_state ClusterStateActive None] /\
  exists n1 n2 n3 t1 t2 t3 r a, start_trace = t1 ++ t2 ++ t3 /\
     tried (ev_state ClusterStatePassive) n1 t1 None /\ tried ev_trigger n2 t2 r /\
     tried (ev_state ClusterStateActive) n3 t3 a.
Proof.
  split; [reflexivity|].
  destruct (backup_start_reactivates start_trace _ start_exec)
    as [(n & e & _ & _ & E)|(n1 & n2 & n3 & t1 & t2 & t3 & r & a & _ & _ & _ & H1 & H2 & H3 & H4 & _)];
    [discriminate E|].
  exists n1, n2, n3, t1, t2, t3, r, a. auto.
Defined.

Definition rec_trace : list event := (run works (Reconcile NewHotBackupReconciler key) []).1.
Definition rec_state : HotBackupReconciler := mkReconciler {[key]} {[key]}.

Lemma rec_exec : exec (Reconcile NewHotBackupReconciler key) rec_trace (Returned (rec_state, (ctrl_Result_zero, None))).
Proof. apply run_exec_2. vm_compute. reflexivity. Qed.

Lemma backup_started_once_witness :
  exists A, running_backups ∅ ([] ++ rec_trace) = Some A /\ A ⊆ hbr_backup rec_state.
Proof.
  apply (backup_started_once ([] ++ rec_trace) rec_state).
  eapply rs_snoc; [apply rs_nil|apply rec_exec].
Defined.

Lemma backup_start_guarded_witness :
  exists hb h, ev_got key hb ∈ rec_trace /\ hz_Phase h = Running /\ key ∈ hbr_backup rec_state.
Proof.
  destruct (backup_start_guarded NewHotBackupReconciler key rec_trace rec_state _ rec_exec)
    as (hb & h & hs & t1 & Ht & _ & _ & _ & _ & _ & _ & _ & Hp & _ & _ & _ & Hin).
  { vm_compute. lia. }
  exists hb, h. split; [rewrite Ht; apply list_elem_of_here|]. done.
Defined.

(** The status service is not registered. *)
Definition no_service : forall o : op, list event -> ans o := answer two_members false "SUCCESS".
Definition panic_trace : list event := (run no_service (startBackup 3 key false ("ns", "hz")) []).1.

Lemma panic_exec : exec (startBackup 3 key false ("ns", "hz")) panic_trace Panicked.
Proof. apply run_exec_2. vm_compute. reflexivity. Qed.

Lemma panic_no_service : Exists no_status_service panic_trace.
Proof. do 4 apply Exists_cons_tl. apply Exists_cons_hd. reflexivity. Qed.

Lemma missing_status_service_witness : @Panicked (ctrl_Result * option error) = Panicked.
Proof.
  exact (missing_status_service_panics 3 key false ("ns", "hz") panic_trace _ panic_exec panic_no_service).
Defined.

(** A cluster whose members' state could not be fetched is backed up "successfully":
    the member map is empty but not nil, the check for missing members passes,
    and the status Success is stored without a single backup. *)
Theorem empty_cluster_backup_succeeds fuel :
  exists t hb, exec (startBackup fuel key false ("ns", "hz")) t (Returned (ctrl_Result_zero, None)) /\
    ev_members [] ∈ t /\ ev_written hb ∈ t /\
    hbs_State (hb_Status hb) = HotBackupSuccess /\ hbs_BackupUUIDs (hb_Status hb) = [].
Proof.
  exists (run (answer [] true "FAILURE") (startBackup fuel key false ("ns", "hz")) []).1.
  assert (exec (startBackup fuel key false ("ns", "hz"))
    (run (answer [] true "FAILURE") (startBackup fuel key false ("ns", "hz")) []).1
    (Returned (ctrl_Result_zero, None))) as He by (apply run_exec_2; vm_compute; reflexivity).
  exists (set_Status sample_hb (mkHotBackupStatus HotBackupSuccess "" [])). split; [exact He|].
  split_and!; [..|done|done]; apply list_elem_of_In; vm_compute; tauto.
Qed.

End HotBackupWitnesses.
