(* ===== verification/Regexp.v ===== *)
(** * Regular expressions of the validators

    The patterns the code hands to [regexp.MatchString] are anchored and use
    character classes of ASCII characters, concatenation, [?], [*] and
    groups.  [rmatch] decides them by Brzozowski derivatives; [matches] is
    the language of an expression and [rmatch_matches] their agreement. *)

From S2P Require Import Prelude.

Inductive regex :=
| REmpty
| REps
| RCls (c : Ascii.ascii -> bool)
| RCat (r s : regex)
| RAlt (r s : regex)
| RStar (r : regex).

Definition ROpt (r : regex) : regex := RAlt REps r.

Declare Scope regex_scope.
Delimit Scope regex_scope with re.
Bind Scope regex_scope with regex.
Infix "·" := RCat (at level 40, left associativity) : regex_scope.

Inductive matches : regex -> list Ascii.ascii -> Prop :=
| m_eps : matches REps []
| m_cls c a : c a = true -> matches (RCls c) [a]
| m_cat r s u v : matches r u -> matches s v -> matches (RCat r s) (u ++ v)
| m_alt_l r s u : matches r u -> matches (RAlt r s) u
| m_alt_r r s u : matches s u -> matches (RAlt r s) u
| m_star_nil r : matches (RStar r) []
| m_star_cons r u v : matches r u -> matches (RStar r) v -> matches (RStar r) (u ++ v).

Fixpoint nullable (r : regex) : bool :=
  match r with
  | REmpty | RCls _ => false
  | REps | RStar _ => true
  | RCat r s => nullable r && nullable s
  | RAlt r s => nullable r || nullable s
  end.

Fixpoint deriv (a : Ascii.ascii) (r : regex) : regex :=
  match r with
  | REmpty | REps => REmpty
  | RCls c => if c a then REps else REmpty
  | RCat r s =>
      if nullable r then RAlt (RCat (deriv a r) s) (deriv a s) else RCat (deriv a r) s
  | RAlt r s => RAlt (deriv a r) (deriv a s)
  | RStar r => RCat (deriv a r) (RStar r)
  end.

Fixpoint rmatch (r : regex) (s : list Ascii.ascii) : bool :=
  match s with
  | [] => nullable r
  | a :: s => rmatch (deriv a r) s
  end.

(** [regexp.MatchString("^...$", s)] *)
Definition MatchString (r : regex) (s : string) : bool := rmatch r (String.list_ascii_of_string s).

Lemma nullable_matches r : nullable r = true <-> matches r [].
Proof.
  split.
  - induction r; simpl; intros H; try discriminate; try (by constructor).
    + apply andb_true_iff in H as [H1 H2]. apply (m_cat _ _ [] []); auto.
    + apply orb_true_iff in H as [H|H]; [apply m_alt_l|apply m_alt_r]; auto.
  - intros H. remember [] as s eqn:E. revert E.
    induction H; simpl; intros E; try done.
    + apply app_eq_nil in E as [-> ->]. rewrite IHmatches1, IHmatches2; done.
    + rewrite IHmatches; done.
    + rewrite IHmatches by done. apply orb_true_r.
Qed.

Lemma matches_star_cons r a s :
  matches (RStar r) (a :: s) <->
  exists u v, s = u ++ v /\ matches r (a :: u) /\ matches (RStar r) v.
Proof.
  split.
  - remember (RStar r) as R eqn:ER. remember (a :: s) as S eqn:ES. intros H. revert ER ES.
    induction H; intros ER ES; try done. injection ER as ->.
    destruct u as [|b u]; simpl in ES; [by apply IHmatches2|].
    injection ES as -> <-. by exists u, v.
  - intros (u & v & -> & H1 & H2). apply (m_star_cons _ (a :: u) v); done.
Qed.

Lemma matches_cat r s w :
  matches (RCat r s) w <-> exists u v, w = u ++ v /\ matches r u /\ matches s v.
Proof.
  split; [inversion 1; subst; eauto|]. intros (u & v & -> & ? & ?). by constructor.
Qed.

Lemma matches_alt r s w : matches (RAlt r s) w <-> matches r w \/ matches s w.
Proof. split; [inversion 1; auto|]. intros [H|H]; [by apply m_alt_l|by apply m_alt_r]. Qed.

Lemma matches_opt r w : matches (ROpt r) w <-> w = [] \/ matches r w.
Proof.
  unfold ROpt. rewrite matches_alt. split; (intros [H|H]; [left|by right]).
  - by inversion H.
  - subst. constructor.
Qed.

Lemma matches_cls c w : matches (RCls c) w <-> exists a, w = [a] /\ c a = true.
Proof. split; [inversion 1; eauto|]. intros (a & -> & ?). by constructor. Qed.

Lemma deriv_matches a r s : matches (deriv a r) s <-> matches r (a :: s).
Proof.
  revert s. induction r as [| |c|r1 IH1 r2 IH2|r1 IH1 r2 IH2|r IH]; intros s; simpl.
  - split; inversion 1.
  - split; inversion 1.
  - rewrite matches_cls. destruct (c a) eqn:E; split.
    + inversion 1; eauto.
    + intros (b & [= <- ->] & _). constructor.
    + inversion 1.
    + intros (b & [= <- ->] & ?). congruence.
  - assert (matches (RCat (deriv a r1) r2) s <->
      exists u v, s = u ++ v /\ matches r1 (a :: u) /\ matches r2 v) as Hcat.
    { rewrite matches_cat. by setoid_rewrite IH1. }
    destruct (nullable r1) eqn:En.
    + rewrite matches_alt, Hcat, IH2, matches_cat. split.
      * intros [(u & v & -> & H1 & H2)|H].
        { by exists (a :: u), v. }
        exists [], (a :: s). split; [done|]. split; [by apply nullable_matches|done].
      * intros (u & v & E & H1 & H2). destruct u as [|b u]; simplify_eq/=; [by right|].
        left. eauto.
    + rewrite Hcat, matches_cat. split.
      * intros (u & v & -> & H1 & H2). by exists (a :: u), v.
      * intros (u & v & E & H1 & H2). destruct u as [|b u]; simplify_eq/=; [|eauto].
        apply nullable_matches in H1. congruence.
  - by rewrite !matches_alt, IH1, IH2.
  - rewrite matches_cat, matches_star_cons. by setoid_rewrite IH.
Qed.

(** The matcher decides the language of the expression. *)
Lemma rmatch_matches r s : rmatch r s = true <-> matches r s.
Proof.
  revert r. induction s as [|a s IH]; intros r; simpl.
  - apply nullable_matches.
  - by rewrite IH, deriv_matches.
Qed.

Lemma MatchString_matches r s :
  MatchString r s = true <-> matches r (String.list_ascii_of_string s).
Proof. apply rmatch_matches. Qed.

(** A star of a class is any word over it. *)
Lemma matches_star_cls c w : matches (RStar (RCls c)) w <-> Forall (fun a => c a = true) w.
Proof.
  induction w as [|a w IH].
  - split; constructor.
  - rewrite matches_star_cons, Forall_cons. split.
    + intros (u & v & -> & H1 & H2). apply matches_cls in H1 as (b & [= -> ->] & ?).
      split; [done|]. by apply IH.
    + intros [H1 H2]. exists [], w. split; [done|]. split; [by constructor|by apply IH].
Qed.

(** ** Character classes *)

Definition in_range (lo hi : Z) (a : Ascii.ascii) : bool := (lo <=? code a) && (code a <=? hi).
Definition c_lower (a : Ascii.ascii) : bool := in_range 97 122 a.
Definition c_upper (a : Ascii.ascii) : bool := in_range 65 90 a.
Definition c_digit (a : Ascii.ascii) : bool := in_range 48 57 a.
Definition c_letter (a : Ascii.ascii) : bool := c_lower a || c_upper a.   (* [a-zA-Z] *)
Definition c_alnum (a : Ascii.ascii) : bool := c_letter a || c_digit a.   (* [a-zA-Z0-9] *)
Definition c_dash (a : Ascii.ascii) : bool := code a =? 45.
Definition c_dot (a : Ascii.ascii) : bool := code a =? 46.
Definition c_alnum_dash (a : Ascii.ascii) : bool := c_alnum a || c_dash a. (* [a-zA-Z0-9-] *)
