(* ===== verification/HazelcastTypes.v ===== *)
(** * The Hazelcast resource (src/api/v1alpha1/hazelcast_types.go)

    The structs of the resource with the fields the validators, the accessors
    and the generation of the member configuration read.  A pointer is an [option]; a slice whose nilness the code
    observes ([AccessModes]) is an [option] of a list.  String types of the
    API ([ServiceType], [MemberAccess], ...) are [string], as in Go, so that a
    value outside the enumeration of the schema is a value of the model.

    [resource.Quantity] of k8s.io/apimachinery is the parameter
    [QuantityLib]: its zero value, the comparison [==] of two structs,
    [reflect.DeepEqual], [Value] and [ScaledValue]. *)

From S2P Require Import Prelude Eff.

Class QuantityLib := {
  Quantity : Type;
  Quantity_zero : Quantity;
  Quantity_eqb : Quantity -> Quantity -> bool;
  Quantity_DeepEqual : Quantity -> Quantity -> bool;
  Quantity_Value : Quantity -> Z;
  Quantity_Megas : Quantity -> Z;   (* ScaledValue(resource.Mega) *)
  Quantity_eqb_refl : Quantity_eqb Quantity_zero Quantity_zero = true;
  Quantity_DeepEqual_refl q : Quantity_DeepEqual q q = true;
  Quantity_DeepEqual_trans p q r :
    Quantity_DeepEqual p q = true -> Quantity_DeepEqual q r = true -> Quantity_DeepEqual p r = true;
  Quantity_Value_int64 q : is_int64 (Quantity_Value q);
}.

Section Types.
Context `{QuantityLib}.

Definition strb (a b : string) : bool := bool_decide (a = b).
Definition is_nil {A} (o : option A) : bool := match o with None => true | Some _ => false end.

(** [reflect.DeepEqual] of two pointers. *)
Definition DeepEqual_ptr {A} (eq : A -> A -> bool) (a b : option A) : bool :=
  match a, b with
  | None, None => true
  | Some a, Some b => eq a b
  | _, _ => false
  end.

Record PvcConfiguration := mkPvcConfiguration {
  pvc_AccessModes : option (list string);
  pvc_RequestStorage : option Quantity;
  pvc_StorageClassName : option string;
}.

Definition PvcConfiguration_DeepEqual (a b : PvcConfiguration) : bool :=
  bool_decide (pvc_AccessModes a = pvc_AccessModes b)
  && DeepEqual_ptr Quantity_DeepEqual (pvc_RequestStorage a) (pvc_RequestStorage b)
  && bool_decide (pvc_StorageClassName a = pvc_StorageClassName b).

Record BucketConfiguration := mkBucketConfiguration {
  bc_DeprecatedSecret : string;
  bc_SecretName : string;
  bc_BucketURI : string;
}.

Definition BucketConfiguration_GetSecretName (b : BucketConfiguration) : string :=
  if strb (bc_SecretName b) "" then bc_DeprecatedSecret b else bc_SecretName b.

Record RestoreFromLocalConfiguration := mkRestoreFromLocalConfiguration {
  rl_PVCNamePrefix : string;
  rl_BaseDir : string;
  rl_BackupDir : string;
  rl_BackupFolder : string;
}.

Record RestoreConfiguration := mkRestoreConfiguration {
  rc_BucketConfiguration : option BucketConfiguration;
  rc_HotBackupResourceName : string;
  rc_LocalConfiguration : option RestoreFromLocalConfiguration;
}.

#[export] Instance BucketConfiguration_eq_dec : EqDecision BucketConfiguration.
Proof. solve_decision. Defined.
#[export] Instance RestoreFromLocalConfiguration_eq_dec : EqDecision RestoreFromLocalConfiguration.
Proof. solve_decision. Defined.
#[export] Instance RestoreConfiguration_eq_dec : EqDecision RestoreConfiguration.
Proof. solve_decision. Defined.

(** [rc == (RestoreConfiguration{})]: the pointers are nil. *)
Definition RestoreConfiguration_is_zero (rc : RestoreConfiguration) : bool :=
  is_nil (rc_BucketConfiguration rc) && strb (rc_HotBackupResourceName rc) ""
  && is_nil (rc_LocalConfiguration rc).

Record HazelcastPersistenceConfiguration := mkHazelcastPersistenceConfiguration {
  p_DeprecatedBaseDir : string;
  p_ClusterDataRecoveryPolicy : string;
  p_StartupAction : string;
  p_DataRecoveryTimeout : Z;
  p_PVC : option PvcConfiguration;
  p_Restore : RestoreConfiguration;
}.

Definition FullRecovery : string := "FullRecoveryOnly".
Definition MostRecent : string := "PartialRecoveryMostRecent".
Definition MostComplete : string := "PartialRecoveryMostComplete".
Definition PartialStart : string := "PartialStart".

Definition Persistence_IsEnabled (p : option HazelcastPersistenceConfiguration) : bool := negb (is_nil p).
Definition AutoRemoveStaleData (p : HazelcastPersistenceConfiguration) : bool :=
  negb (strb (p_ClusterDataRecoveryPolicy p) FullRecovery).
Definition Persistence_IsRestoreEnabled (p : HazelcastPersistenceConfiguration) : bool :=
  Persistence_IsEnabled (Some p) && negb (RestoreConfiguration_is_zero (p_Restore p)).

Record JetInstance := mkJetInstance {
  ji_CooperativeThreadCount : option Z;
  ji_FlowControlPeriodMillis : Z;
  ji_BackupCount : Z;
  ji_ScaleUpDelayMillis : Z;
  ji_LosslessRestartEnabled : bool;
  ji_MaxProcessorAccumulatedRecords : option Z;
}.

#[export] Instance JetInstance_eq_dec : EqDecision JetInstance.
Proof. solve_decision. Defined.

Definition JetInstance_zero : JetInstance := mkJetInstance None 0 0 0 false None.
(** Against the zero value, comparing the pointers is comparing with nil. *)
Definition JetInstance_IsConfigured (j : option JetInstance) : bool :=
  match j with
  | None => false
  | Some j => negb (bool_decide (j = JetInstance_zero))
  end.

Record JetEdgeDefaults := mkJetEdgeDefaults {
  je_QueueSize : option Z;
  je_PacketSizeLimit : option Z;
  je_ReceiveWindowMultiplier : option Z;   (* *int8 *)
}.

Definition JetEdgeDefaults_IsConfigured (j : option JetEdgeDefaults) : bool :=
  match j with
  | None => false
  | Some j => negb (is_nil (je_QueueSize j) && is_nil (je_PacketSizeLimit j) && is_nil (je_ReceiveWindowMultiplier j))
  end.

Record JetEngineConfiguration := mkJetEngineConfiguration {
  j_Enabled : option bool;
  j_ResourceUploadEnabled : bool;
  j_BucketConfiguration : option BucketConfiguration;
  j_ConfigMaps : list string;
  j_RemoteURLs : list string;
  j_Instance : option JetInstance;
  j_EdgeDefaults : option JetEdgeDefaults;
}.

Definition Jet_IsEnabled (j : option JetEngineConfiguration) : bool :=
  match j with
  | Some j => match j_Enabled j with Some b => b | None => false end
  | None => false
  end.
Definition Jet_IsBucketEnabled (j : option JetEngineConfiguration) : bool :=
  match j with Some j => negb (is_nil (j_BucketConfiguration j)) | None => false end.

Definition Jet_IsConfigured (j : option JetEngineConfiguration) : bool := negb (is_nil j).
Definition Jet_IsRemoteURLsEnabled (j : option JetEngineConfiguration) : bool :=
  match j with Some j => negb (Nat.eqb (length (j_RemoteURLs j)) 0) | None => false end.

(** The fields of the embedded [RemoteFileConfiguration] are in both structs. *)
Record UserCodeDeploymentConfig := mkUserCodeDeploymentConfig {
  ud_ClientEnabled : option bool;
  ud_BucketConfiguration : option BucketConfiguration;
  ud_ConfigMaps : list string;
  ud_RemoteURLs : list string;
}.

Definition UserCodeDeployment_IsBucketEnabled (c : option UserCodeDeploymentConfig) : bool :=
  match c with Some c => negb (is_nil (ud_BucketConfiguration c)) | None => false end.
Definition UserCodeDeployment_IsRemoteURLsEnabled (c : option UserCodeDeploymentConfig) : bool :=
  match c with Some c => negb (Nat.eqb (length (ud_RemoteURLs c)) 0) | None => false end.

Record ExecutorServiceConfiguration := mkExecutorServiceConfiguration {
  es_Name : string;
  es_PoolSize : Z;
  es_QueueCapacity : Z;
  es_UserCodeNamespace : string;
}.

Record DurableExecutorServiceConfiguration := mkDurableExecutorServiceConfiguration {
  des_Name : string;
  des_PoolSize : Z;
  des_Durability : Z;
  des_Capacity : Z;
  des_UserCodeNamespace : string;
}.

Record ScheduledExecutorServiceConfiguration := mkScheduledExecutorServiceConfiguration {
  ses_Name : string;
  ses_PoolSize : Z;
  ses_Durability : Z;
  ses_Capacity : Z;
  ses_CapacityPolicy : string;
  ses_UserCodeNamespace : string;
}.

Record SerializationFilterList := mkSerializationFilterList {
  fl_Classes : option (list string);
  fl_Packages : option (list string);
  fl_Prefixes : option (list string);
}.
Record JavaFilterConfig := mkJavaFilterConfig {
  jf_Blacklist : option SerializationFilterList;
  jf_Whitelist : option SerializationFilterList;
}.
Record CompactSerializationConfig := mkCompactSerializationConfig {
  cs_Serializers : list string;
  cs_Classes : list string;
}.
Record Serializer := mkSerializer { sz_TypeClass : string; sz_ClassName : string }.
Record GlobalSerializer := mkGlobalSerializer {
  gs_OverrideJavaSerialization : option bool;
  gs_ClassName : string;
}.

Definition NativeByteOrder : string := "Native".
Definition LittleEndian : string := "LittleEndian".

Record SerializationConfig := mkSerializationConfig {
  ser_ByteOrder : string;
  ser_OverrideDefaultSerializers : bool;
  ser_EnableCompression : bool;
  ser_EnableSharedObject : bool;
  ser_AllowUnsafe : bool;
  ser_DataSerializableFactories : list string;
  ser_PortableFactories : list string;
  ser_GlobalSerializer : option GlobalSerializer;
  ser_Serializers : list Serializer;
  ser_CompactSerialization : option CompactSerializationConfig;
  ser_JavaSerializationFilter : option JavaFilterConfig;
}.

Record ManagementCenterConfig := mkManagementCenterConfig {
  mc_ScriptingEnabled : bool;
  mc_ConsoleEnabled : bool;
  mc_DataAccessEnabled : bool;
}.

Record UserCodeNamespacesConfig := mkUserCodeNamespacesConfig { uc_ClassFilter : option JavaFilterConfig }.
Definition UserCodeNamespaces_IsEnabled (c : option UserCodeNamespacesConfig) : bool := negb (is_nil c).

Record ExposeExternallyConfiguration := mkExposeExternallyConfiguration {
  ee_Type : string;
  ee_DiscoveryServiceType : string;
  ee_MemberAccess : string;
}.

Definition ExposeExternallyTypeSmart : string := "Smart".
Definition ExposeExternallyTypeUnisocket : string := "Unisocket".
Definition MemberAccessNodePortExternalIP : string := "NodePortExternalIP".
Definition MemberAccessNodePortNodeName : string := "NodePortNodeName".
Definition UsesNodeName (c : option ExposeExternallyConfiguration) : bool :=
  match c with Some c => strb (ee_MemberAccess c) MemberAccessNodePortNodeName | None => false end.
Definition ServiceTypeNodePort : string := "NodePort".
Definition ServiceTypeLoadBalancer : string := "LoadBalancer".
Definition ServiceTypeExternalName : string := "ExternalName".

Record JVMMemoryConfiguration := mkJVMMemoryConfiguration {
  jm_InitialRAMPercentage : option string;
  jm_MinRAMPercentage : option string;
  jm_MaxRAMPercentage : option string;
}.

Record JVMGCConfiguration := mkJVMGCConfiguration {
  gc_Logging : option bool;
  gc_Collector : option string;
}.

Definition GCTypeSerial : string := "Serial".
Definition GCTypeParallel : string := "Parallel".
Definition GCTypeG1 : string := "G1".

Record JVMConfiguration := mkJVMConfiguration {
  jvm_Memory : option JVMMemoryConfiguration;
  jvm_GC : option JVMGCConfiguration;
  jvm_Args : list string;
}.

Record NativeMemoryConfiguration := mkNativeMemoryConfiguration {
  nm_AllocatorType : string;
  nm_Size : Quantity;
  nm_MinBlockSize : Z;
  nm_PageSize : Z;
  nm_MetadataSpacePercentage : Z;
}.

Definition NativeMemoryPooled : string := "POOLED".

Definition NativeMemory_IsEnabled (c : option NativeMemoryConfiguration) : bool :=
  match c with
  | None => false
  | Some c => negb (strb (nm_AllocatorType c) "" && Quantity_eqb (nm_Size c) Quantity_zero
                    && (nm_MinBlockSize c =? 0) && (nm_PageSize c =? 0) && (nm_MetadataSpacePercentage c =? 0))
  end.

Record WANConfig := mkWANConfig {
  w_Port : Z;        (* uint *)
  w_PortCount : Z;   (* uint *)
  w_ServiceType : string;
  w_Name : string;
}.

Record AdvancedNetwork := mkAdvancedNetwork {
  an_MemberInterfaces : list string;
  an_ClientInterfaces : list string;
  an_WAN : list WANConfig;
}.

Definition MutualAuthenticationRequired : string := "Required".
Definition MutualAuthenticationOptional : string := "Optional".

Record TLS := mkTLS { tls_SecretName : string; tls_MutualAuthentication : string }.

Record SQL := mkSQL { sql_StatementTimeout : Z; sql_CatalogPersistenceEnabled : bool }.

Record LocalDeviceConfig := mkLocalDeviceConfig {
  ld_Name : string;
  ld_BlockSize : option Z;
  ld_ReadIOThreadCount : option Z;
  ld_WriteIOThreadCount : option Z;
  ld_PVC : option PvcConfiguration;
}.

Record CPSubsystem := mkCPSubsystem {
  cp_SessionTTLSeconds : option Z;
  cp_SessionHeartbeatIntervalSeconds : option Z;
  cp_MissingCpMemberAutoRemovalSeconds : option Z;
  cp_FailOnIndeterminateOperationState : option bool;
  cp_DataLoadTimeoutSeconds : option Z;
  cp_PVC : option PvcConfiguration;
}.

Definition CPSubsystem_IsEnabled (p : option CPSubsystem) : bool := negb (is_nil p).

Definition CPSubsystem_IsPVC (p : option CPSubsystem) : bool :=
  match p with Some p => negb (is_nil (cp_PVC p)) | None => false end.

Definition HighAvailabilityNodeMode : string := "NODE".
Definition HighAvailabilityZoneMode : string := "ZONE".

Record HazelcastSpec := mkHazelcastSpec {
  s_ClusterSize : option Z;     (* *int32 *)
  s_DeprecatedLicenseKeySecret : string;
  s_LicenseKeySecretName : string;
  s_ExposeExternally : option ExposeExternallyConfiguration;
  s_Persistence : option HazelcastPersistenceConfiguration;
  s_JetEngineConfiguration : option JetEngineConfiguration;
  s_HighAvailabilityMode : string;
  s_JVM : option JVMConfiguration;
  s_NativeMemory : option NativeMemoryConfiguration;
  s_AdvancedNetwork : option AdvancedNetwork;
  s_TLS : option TLS;
  s_CustomConfigCmName : string;
  s_SQL : option SQL;
  s_LocalDevices : list LocalDeviceConfig;
  s_CPSubsystem : option CPSubsystem;
  s_ClusterName : string;
  s_DeprecatedUserCodeDeployment : option UserCodeDeploymentConfig;
  s_ExecutorServices : list ExecutorServiceConfiguration;
  s_DurableExecutorServices : list DurableExecutorServiceConfiguration;
  s_ScheduledExecutorServices : list ScheduledExecutorServiceConfiguration;
  s_Properties : option (gmap string string);
  s_ManagementCenterConfig : option ManagementCenterConfig;
  s_Serialization : option SerializationConfig;
  s_UserCodeNamespaces : option UserCodeNamespacesConfig;
}.

Definition HazelcastSpec_GetLicenseKeySecretName (s : HazelcastSpec) : string :=
  if strb (s_LicenseKeySecretName s) "" then s_DeprecatedLicenseKeySecret s else s_LicenseKeySecretName s.
Definition HazelcastSpec_IsTieredStorageEnabled (s : HazelcastSpec) : bool :=
  negb (Nat.eqb (length (s_LocalDevices s)) 0).

Record HazelcastStatus := mkHazelcastStatus { st_ClusterSize : Z; st_Phase : string }.

Record Hazelcast := mkHazelcast {
  h_Name : string;
  h_Namespace : string;
  h_Annotations : gmap string string;
  h_Deleting : bool;   (* a deletion timestamp is set *)
  h_Spec : HazelcastSpec;
  h_Status : HazelcastStatus;
}.
End Types.

(** Byte counts as quantities: an instance for concrete runs. *)
#[global] Instance quantity_bytes : QuantityLib | 100.
Proof.
  refine {|
    Quantity := Z;
    Quantity_zero := 0;
    Quantity_eqb := Z.eqb;
    Quantity_DeepEqual := Z.eqb;
    Quantity_Value := int64;
    Quantity_Megas q := Z.div (q + 999999) 1000000;
  |}.
  - apply Z.eqb_refl.
  - apply Z.eqb_refl.
  - intros p q r. rewrite !Z.eqb_eq. congruence.
  - intros q. apply (swrap_range 64 q). lia.
Defined.
