(* ===== verification/DataStructureTypes.v ===== *)
(** * Data structures: the resources

    src/api/v1alpha1/data_structure.go and the structs of map_types.go,
    multimap_types.go, queue_types.go, topic_types.go, cache_types.go and
    replicatedmap_types.go, with the JSON of the specs.  A slice whose nilness
    the code can observe is an [option] of a list. *)

From S2P Require Import Prelude Eff Json HazelcastTypes.
#[local] Open Scope json_scope.
#[local] Open Scope string_scope.
#[local] Open Scope list_scope.
#[local] Open Scope Z_scope.

Record OwnerReference := mkOwnerReference { or_Kind : string; or_Name : string; or_UID : string }.
#[export] Instance OwnerReference_eq_dec : EqDecision OwnerReference.
Proof. solve_decision. Defined.

(** A custom resource: its metadata, spec and status. *)
Record resource (S St : Type) := mkResource {
  r_Namespace : string;
  r_Name : string;
  r_UID : string;
  r_Owners : list OwnerReference;
  r_Finalizers : list string;
  r_Deleting : bool;               (* a deletion timestamp is set *)
  r_Annotations : gmap string string;
  r_Spec : S;
  r_Status : St;
}.
Arguments mkResource {S St}.
Arguments r_Namespace {S St}.
Arguments r_Name {S St}.
Arguments r_UID {S St}.
Arguments r_Owners {S St}.
Arguments r_Finalizers {S St}.
Arguments r_Deleting {S St}.
Arguments r_Annotations {S St}.
Arguments r_Spec {S St}.
Arguments r_Status {S St}.

Section Resource.
Context {S St : Type}.
Implicit Types r : resource S St.

Definition r_nn r : string * string := (r_Namespace r, r_Name r).
Definition set_Status r (st : St) : resource S St :=
  mkResource (r_Namespace r) (r_Name r) (r_UID r) (r_Owners r) (r_Finalizers r) (r_Deleting r) (r_Annotations r) (r_Spec r) st.
Definition set_Spec r (s : S) : resource S St :=
  mkResource (r_Namespace r) (r_Name r) (r_UID r) (r_Owners r) (r_Finalizers r) (r_Deleting r) (r_Annotations r) s (r_Status r).
Definition set_Finalizers r (fs : list string) : resource S St :=
  mkResource (r_Namespace r) (r_Name r) (r_UID r) (r_Owners r) fs (r_Deleting r) (r_Annotations r) (r_Spec r) (r_Status r).
Definition set_Owners r (os : list OwnerReference) : resource S St :=
  mkResource (r_Namespace r) (r_Name r) (r_UID r) os (r_Finalizers r) (r_Deleting r) (r_Annotations r)
    (r_Spec r) (r_Status r).
Definition set_Annotation r (k v : string) : resource S St :=
  mkResource (r_Namespace r) (r_Name r) (r_UID r) (r_Owners r) (r_Finalizers r) (r_Deleting r) (<[k := v]> (r_Annotations r))
    (r_Spec r) (r_Status r).
End Resource.

(** ** data_structure.go *)

Record DataStructureSpec := mkDataStructureSpec {
  ds_Name : string;
  ds_HazelcastResourceName : string;
  ds_BackupCount : option Z;      (* *int32 *)
  ds_AsyncBackupCount : Z;        (* int32 *)
  ds_UserCodeNamespace : string;
}.

Definition DataStructureFailed : string := "Failed".
Definition DataStructureSuccess : string := "Success".
Definition DataStructurePending : string := "Pending".
Definition DataStructurePersisting : string := "Persisting".
Definition DataStructureTerminating : string := "Terminating".

(** The status of a data structure; [MapStatus] has the same fields. *)
Record DataStructureStatus := mkDataStructureStatus {
  st_State : string;
  st_Message : string;
  st_MemberStatuses : gmap string string;
}.

(** ** Specs *)

Record MultiMapSpec := mkMultiMapSpec {
  mm_DataStructureSpec : DataStructureSpec;
  mm_Binary : bool;
  mm_CollectionType : string;
}.

Record QueueSpec := mkQueueSpec {
  q_DataStructureSpec : DataStructureSpec;
  q_MaxSize : Z;
  q_EmptyQueueTtlSeconds : option Z;
  q_PriorityComparatorClassName : string;
}.

Record TopicSpec := mkTopicSpec {
  t_Name : string;
  t_GlobalOrderingEnabled : bool;
  t_MultiThreadingEnabled : bool;
  t_HazelcastResourceName : string;
  t_UserCodeNamespace : string;
}.

Record EventJournal := mkEventJournal { ej_Capacity : Z; ej_TimeToLiveSeconds : Z }.

Record CacheSpec := mkCacheSpec {
  c_DataStructureSpec : DataStructureSpec;
  c_KeyType : string;
  c_ValueType : string;
  c_PersistenceEnabled : bool;
  c_InMemoryFormat : string;
  c_EventJournal : option EventJournal;
}.

Record ReplicatedMapSpec := mkReplicatedMapSpec {
  rm_Name : string;
  rm_AsyncFillup : option bool;
  rm_InMemoryFormat : string;
  rm_HazelcastResourceName : string;
  rm_UserCodeNamespace : string;
}.

#[export] Instance EventJournal_eq_dec : EqDecision EventJournal.
Proof. solve_decision. Defined.

Definition MultiMap : Type := resource MultiMapSpec DataStructureStatus.
Definition Queue : Type := resource QueueSpec DataStructureStatus.
Definition Topic : Type := resource TopicSpec DataStructureStatus.
Definition Cache : Type := resource CacheSpec DataStructureStatus.
Definition ReplicatedMap : Type := resource ReplicatedMapSpec DataStructureStatus.

(** ** map_types.go *)

Record EvictionConfig := mkEvictionConfig {
  ev_EvictionPolicy : string;
  ev_MaxSize : Z;
  ev_MaxSizePolicy : string;
}.
Definition EvictionPolicyNone : string := "NONE".
Definition InMemoryFormatNative : string := "NATIVE".

Record BitmapIndexOptionsConfig := mkBitmapIndexOptionsConfig {
  bi_UniqueKey : string;
  bi_UniqueKeyTransition : string;
}.

Record IndexConfig := mkIndexConfig {
  ix_Name : string;
  ix_Type : string;
  ix_Attributes : option (list string);
  ix_BitmapIndexOptions : option BitmapIndexOptionsConfig;
}.

Record AttributeConfig := mkAttributeConfig { at_Name : string; at_ExtractorClassName : string }.

Record NearCacheEviction := mkNearCacheEviction {
  ne_EvictionPolicy : string;
  ne_MaxSizePolicy : string;
  ne_Size : Z;                     (* uint32 *)
}.

Record NearCache := mkNearCache {
  nc_Name : string;
  nc_InMemoryFormat : string;
  nc_InvalidateOnChange : option bool;
  nc_TimeToLiveSeconds : Z;        (* uint *)
  nc_MaxIdleSeconds : Z;           (* uint *)
  nc_NearCacheEviction : NearCacheEviction;
  nc_CacheLocalEntries : option bool;
}.

Record MapStoreConfig := mkMapStoreConfig {
  ms_InitialMode : string;
  ms_ClassName : string;
  ms_WriteDelaySeconds : Z;
  ms_WriteBatchSize : Z;
  ms_WriteCoealescing : option bool;
  ms_PropertiesSecretName : string;
}.

Record EntryListenerConfiguration := mkEntryListenerConfiguration {
  el_ClassName : string;
  el_IncludeValues : option bool;
  el_Local : bool;
}.

Definition GetIncludedValue (e : EntryListenerConfiguration) : bool := default true (el_IncludeValues e).

#[export] Instance BitmapIndexOptionsConfig_eq_dec : EqDecision BitmapIndexOptionsConfig.
Proof. solve_decision. Defined.
#[export] Instance NearCacheEviction_eq_dec : EqDecision NearCacheEviction.
Proof. solve_decision. Defined.
#[export] Instance NearCache_eq_dec : EqDecision NearCache.
Proof. solve_decision. Defined.

Section MapTypes.
Context `{QuantityLib}.

Record TieredStore := mkTieredStore {
  ts_MemoryCapacity : option Quantity;
  ts_DiskDeviceName : string;
}.

Record MapSpec := mkMapSpec {
  m_DataStructureSpec : DataStructureSpec;
  m_TimeToLiveSeconds : Z;
  m_MaxIdleSeconds : Z;
  m_Eviction : EvictionConfig;
  m_Indexes : option (list IndexConfig);
  m_Attributes : list AttributeConfig;
  m_PersistenceEnabled : bool;
  m_MapStore : option MapStoreConfig;
  m_InMemoryFormat : string;
  m_EntryListeners : list EntryListenerConfiguration;
  m_NearCache : option NearCache;
  m_EventJournal : option EventJournal;
  m_TieredStore : option TieredStore;
  m_MerkleTree : option Z;         (* its depth *)
}.

Definition MapStatus : Type := DataStructureStatus.
Definition Map : Type := resource MapSpec MapStatus.

Definition MapName (m : Map) : string :=
  let name := ds_Name (m_DataStructureSpec (r_Spec m)) in
  if strb name "" then r_Name m else name.
End MapTypes.

(** Lookup of a Go map from strings to [int32]: 0 where the key is missing. *)
Definition go_lookup (l : list (string * Z)) (k : string) : Z :=
  match list_find (fun p => p.1 = k) l with Some (_, (_, z)) => z | None => 0 end.

Definition EncodeMaxSizePolicy : string -> Z := go_lookup
  [("PER_NODE", 0); ("PER_PARTITION", 1); ("USED_HEAP_PERCENTAGE", 2); ("USED_HEAP_SIZE", 3);
   ("FREE_HEAP_PERCENTAGE", 4); ("FREE_HEAP_SIZE", 5); ("USED_NATIVE_MEMORY_SIZE", 6);
   ("USED_NATIVE_MEMORY_PERCENTAGE", 7); ("FREE_NATIVE_MEMORY_SIZE", 8);
   ("FREE_NATIVE_MEMORY_PERCENTAGE", 9); ("ENTRY_COUNT", 10)].
Definition EncodeEvictionPolicyType : string -> Z := go_lookup [("LRU", 0); ("LFU", 1); ("NONE", 2); ("RANDOM", 3)].
Definition EncodeIndexType : string -> Z := go_lookup [("SORTED", 0); ("HASH", 1); ("BITMAP", 2)].
Definition EncodeUniqueKeyTransition : string -> Z := go_lookup [("OBJECT", 0); ("LONG", 1); ("RAW", 2)].

(** ** JSON of the specs *)

Definition DataStructureSpec_fields (s : DataStructureSpec) : jfields :=
  omit_str "name" (ds_Name s) ++
  jfield "hazelcastResourceName" (JStr (ds_HazelcastResourceName s)) ++
  omit_ptr "backupCount" JNum (ds_BackupCount s) ++
  jfield "asyncBackupCount" (JNum (ds_AsyncBackupCount s)) ++
  omit_str "userCodeNamespace" (ds_UserCodeNamespace s).

Definition DataStructureSpec_decode (fs : jfields) (old : DataStructureSpec) : sum DataStructureSpec error :=
  name <-? dec_field fs "name" dec_str (ds_Name old) ;;
  hz <-? dec_field fs "hazelcastResourceName" dec_str (ds_HazelcastResourceName old) ;;
  bc <-? dec_field fs "backupCount" (dec_ptr 0 dec_int32) (ds_BackupCount old) ;;
  ab <-? dec_field fs "asyncBackupCount" dec_int32 (ds_AsyncBackupCount old) ;;
  ucn <-? dec_field fs "userCodeNamespace" dec_str (ds_UserCodeNamespace old) ;;
  inl (mkDataStructureSpec name hz bc ab ucn).

(** A decoder of the struct with the fields of an object. *)
Definition dec_obj {A} (d : jfields -> A -> sum A error) : decoder A := fun j old =>
  match j with JObj fs => d fs old | JNull => inl old | _ => inr errUnmarshalType end.

Definition MultiMapSpec_encode (s : MultiMapSpec) : json := JObj (
  DataStructureSpec_fields (mm_DataStructureSpec s) ++
  jfield "binary" (JBool (mm_Binary s)) ++
  omit_str "collectionType" (mm_CollectionType s)).

Definition MultiMapSpec_decode : decoder MultiMapSpec := dec_obj (fun fs old =>
  ds <-? DataStructureSpec_decode fs (mm_DataStructureSpec old) ;;
  b <-? dec_field fs "binary" dec_bool (mm_Binary old) ;;
  ct <-? dec_field fs "collectionType" dec_str (mm_CollectionType old) ;;
  inl (mkMultiMapSpec ds b ct)).

Definition QueueSpec_encode (s : QueueSpec) : json := JObj (
  DataStructureSpec_fields (q_DataStructureSpec s) ++
  jfield "maxSize" (JNum (q_MaxSize s)) ++
  omit_ptr "emptyQueueTTLSeconds" JNum (q_EmptyQueueTtlSeconds s) ++
  omit_str "priorityComparatorClassName" (q_PriorityComparatorClassName s)).

Definition QueueSpec_decode : decoder QueueSpec := dec_obj (fun fs old =>
  ds <-? DataStructureSpec_decode fs (q_DataStructureSpec old) ;;
  n <-? dec_field fs "maxSize" dec_int32 (q_MaxSize old) ;;
  ttl <-? dec_field fs "emptyQueueTTLSeconds" (dec_ptr 0 dec_int32) (q_EmptyQueueTtlSeconds old) ;;
  c <-? dec_field fs "priorityComparatorClassName" dec_str (q_PriorityComparatorClassName old) ;;
  inl (mkQueueSpec ds n ttl c)).

Definition TopicSpec_encode (s : TopicSpec) : json := JObj (
  omit_str "name" (t_Name s) ++
  jfield "globalOrderingEnabled" (JBool (t_GlobalOrderingEnabled s)) ++
  jfield "multiThreadingEnabled" (JBool (t_MultiThreadingEnabled s)) ++
  jfield "hazelcastResourceName" (JStr (t_HazelcastResourceName s)) ++
  omit_str "userCodeNamespace" (t_UserCodeNamespace s)).

Definition TopicSpec_decode : decoder TopicSpec := dec_obj (fun fs old =>
  name <-? dec_field fs "name" dec_str (t_Name old) ;;
  g <-? dec_field fs "globalOrderingEnabled" dec_bool (t_GlobalOrderingEnabled old) ;;
  m <-? dec_field fs "multiThreadingEnabled" dec_bool (t_MultiThreadingEnabled old) ;;
  hz <-? dec_field fs "hazelcastResourceName" dec_str (t_HazelcastResourceName old) ;;
  ucn <-? dec_field fs "userCodeNamespace" dec_str (t_UserCodeNamespace old) ;;
  inl (mkTopicSpec name g m hz ucn)).

Definition EventJournal_encode (e : EventJournal) : json := JObj (
  omit_num "capacity" (ej_Capacity e) ++
  omit_num "timeToLiveSeconds" (ej_TimeToLiveSeconds e)).

Definition EventJournal_decode : decoder EventJournal := dec_obj (fun fs old =>
  c <-? dec_field fs "capacity" dec_int32 (ej_Capacity old) ;;
  t <-? dec_field fs "timeToLiveSeconds" dec_int32 (ej_TimeToLiveSeconds old) ;;
  inl (mkEventJournal c t)).

Definition CacheSpec_encode (s : CacheSpec) : json := JObj (
  DataStructureSpec_fields (c_DataStructureSpec s) ++
  omit_str "keyType" (c_KeyType s) ++
  omit_str "valueType" (c_ValueType s) ++
  jfield "persistenceEnabled" (JBool (c_PersistenceEnabled s)) ++
  omit_str "inMemoryFormat" (c_InMemoryFormat s) ++
  omit_ptr "eventJournal" EventJournal_encode (c_EventJournal s)).

Definition CacheSpec_decode : decoder CacheSpec := dec_obj (fun fs old =>
  ds <-? DataStructureSpec_decode fs (c_DataStructureSpec old) ;;
  k <-? dec_field fs "keyType" dec_str (c_KeyType old) ;;
  v <-? dec_field fs "valueType" dec_str (c_ValueType old) ;;
  p <-? dec_field fs "persistenceEnabled" dec_bool (c_PersistenceEnabled old) ;;
  f <-? dec_field fs "inMemoryFormat" dec_str (c_InMemoryFormat old) ;;
  e <-? dec_field fs "eventJournal" (dec_ptr (mkEventJournal 0 0) EventJournal_decode) (c_EventJournal old) ;;
  inl (mkCacheSpec ds k v p f e)).

Definition ReplicatedMapSpec_encode (s : ReplicatedMapSpec) : json := JObj (
  omit_str "name" (rm_Name s) ++
  omit_ptr "asyncFillup" JBool (rm_AsyncFillup s) ++
  omit_str "inMemoryFormat" (rm_InMemoryFormat s) ++
  jfield "hazelcastResourceName" (JStr (rm_HazelcastResourceName s)) ++
  omit_str "userCodeNamespace" (rm_UserCodeNamespace s)).

Definition ReplicatedMapSpec_decode : decoder ReplicatedMapSpec := dec_obj (fun fs old =>
  name <-? dec_field fs "name" dec_str (rm_Name old) ;;
  a <-? dec_field fs "asyncFillup" (dec_ptr false dec_bool) (rm_AsyncFillup old) ;;
  f <-? dec_field fs "inMemoryFormat" dec_str (rm_InMemoryFormat old) ;;
  hz <-? dec_field fs "hazelcastResourceName" dec_str (rm_HazelcastResourceName old) ;;
  ucn <-? dec_field fs "userCodeNamespace" dec_str (rm_UserCodeNamespace old) ;;
  inl (mkReplicatedMapSpec name a f hz ucn)).
