(* ===== verification/ConfigTypes.v ===== *)
(** * The configuration of a member (src/internal/config/hazelcast.go)

    The structs the operator marshals to hazelcast.yaml.  A slice, map or
    pointer is an [option], [None] for nil: [reflect.DeepEqual] tells nil from
    empty.  For every struct that contains a slice or a map, [cfg_T_read] is
    what remains of a value after it was marshalled and unmarshalled, which
    follows from the tags: an empty slice or map tagged [omitempty] is left
    out and read as nil, an untagged nil slice is written [[]] and read as an
    empty one. *)

From S2P Require Import Prelude Eff.
#[local] Open Scope string_scope.
#[local] Open Scope Z_scope.

Definition read_list {A} (f : A -> A) (o : option (list A)) : option (list A) := Some (f <$> default [] o).
Definition read_omit_list {A} (f : A -> A) (o : option (list A)) : option (list A) :=
  match o with None | Some [] => None | Some l => Some (f <$> l) end.
Definition map_is_empty {A} (m : gmap string A) : bool := Nat.eqb (size m) 0.
Definition read_omit_map {A} (f : A -> A) (o : option (gmap string A)) : option (gmap string A) :=
  match o with
  | None => None
  | Some m => if map_is_empty m then None else Some (f <$> m)
  end.

Record cfg_JetInstance := mk_cfg_JetInstance {
  cfg_JetInstance_CooperativeThreadCount : option Z;
  cfg_JetInstance_FlowControlPeriodMillis : option Z;
  cfg_JetInstance_BackupCount : option Z;
  cfg_JetInstance_ScaleUpDelayMillis : option Z;
  cfg_JetInstance_LosslessRestartEnabled : option bool;
  cfg_JetInstance_MaxProcessorAccumulatedRecords : option Z;
}.
#[export] Instance cfg_JetInstance_eq_dec : EqDecision cfg_JetInstance.
Proof. solve_decision. Defined.
Definition cfg_JetInstance_zero : cfg_JetInstance := mk_cfg_JetInstance None None None None None None.

Record cfg_EdgeDefaults := mk_cfg_EdgeDefaults {
  cfg_EdgeDefaults_QueueSize : option Z;
  cfg_EdgeDefaults_PacketSizeLimit : option Z;
  cfg_EdgeDefaults_ReceiveWindowMultiplier : option Z;
}.
#[export] Instance cfg_EdgeDefaults_eq_dec : EqDecision cfg_EdgeDefaults.
Proof. solve_decision. Defined.
Definition cfg_EdgeDefaults_zero : cfg_EdgeDefaults := mk_cfg_EdgeDefaults None None None.

Record cfg_Jet := mk_cfg_Jet {
  cfg_Jet_Enabled : option bool;
  cfg_Jet_ResourceUploadEnabled : option bool;
  cfg_Jet_Instance : cfg_JetInstance;
  cfg_Jet_EdgeDefaults : cfg_EdgeDefaults;
}.
#[export] Instance cfg_Jet_eq_dec : EqDecision cfg_Jet.
Proof. solve_decision. Defined.
Definition cfg_Jet_zero : cfg_Jet := mk_cfg_Jet None None cfg_JetInstance_zero cfg_EdgeDefaults_zero.

Record cfg_Persistence := mk_cfg_Persistence {
  cfg_Persistence_Enabled : option bool;
  cfg_Persistence_BaseDir : string;
  cfg_Persistence_BackupDir : string;
  cfg_Persistence_Parallelism : Z;
  cfg_Persistence_ValidationTimeoutSec : Z;
  cfg_Persistence_ClusterDataRecoveryPolicy : string;
  cfg_Persistence_AutoRemoveStaleData : option bool;
}.
#[export] Instance cfg_Persistence_eq_dec : EqDecision cfg_Persistence.
Proof. solve_decision. Defined.
Definition cfg_Persistence_zero : cfg_Persistence := mk_cfg_Persistence None "" "" 0 0 "" None.

Record cfg_MapEviction := mk_cfg_MapEviction {
  cfg_MapEviction_Size : Z;
  cfg_MapEviction_MaxSizePolicy : string;
  cfg_MapEviction_EvictionPolicy : string;
}.
#[export] Instance cfg_MapEviction_eq_dec : EqDecision cfg_MapEviction.
Proof. solve_decision. Defined.
Definition cfg_MapEviction_zero : cfg_MapEviction := mk_cfg_MapEviction 0 "" "".

Record cfg_BitmapIndexOptions := mk_cfg_BitmapIndexOptions {
  cfg_BitmapIndexOptions_UniqueKey : string;
  cfg_BitmapIndexOptions_UniqueKeyTransformation : string;
}.
#[export] Instance cfg_BitmapIndexOptions_eq_dec : EqDecision cfg_BitmapIndexOptions.
Proof. solve_decision. Defined.
Definition cfg_BitmapIndexOptions_zero : cfg_BitmapIndexOptions := mk_cfg_BitmapIndexOptions "" "".

Record cfg_MapIndex := mk_cfg_MapIndex {
  cfg_MapIndex_Name : string;
  cfg_MapIndex_Type : string;
  cfg_MapIndex_Attributes : option (list string);
  cfg_MapIndex_BitmapIndexOptions : cfg_BitmapIndexOptions;
}.
#[export] Instance cfg_MapIndex_eq_dec : EqDecision cfg_MapIndex.
Proof. solve_decision. Defined.
Definition cfg_MapIndex_zero : cfg_MapIndex := mk_cfg_MapIndex "" "" None cfg_BitmapIndexOptions_zero.
Definition cfg_MapIndex_read (c : cfg_MapIndex) : cfg_MapIndex :=
  mk_cfg_MapIndex
    (cfg_MapIndex_Name c)
    (cfg_MapIndex_Type c)
    (read_list id (cfg_MapIndex_Attributes c))
    (cfg_MapIndex_BitmapIndexOptions c).

Record cfg_Attribute := mk_cfg_Attribute {
  cfg_Attribute_Name : string;
  cfg_Attribute_ExtractorClassName : string;
}.
#[export] Instance cfg_Attribute_eq_dec : EqDecision cfg_Attribute.
Proof. solve_decision. Defined.
Definition cfg_Attribute_zero : cfg_Attribute := mk_cfg_Attribute "" "".

Record cfg_DataPersistence := mk_cfg_DataPersistence {
  cfg_DataPersistence_Enabled : bool;
  cfg_DataPersistence_Fsync : bool;
}.
#[export] Instance cfg_DataPersistence_eq_dec : EqDecision cfg_DataPersistence.
Proof. solve_decision. Defined.
Definition cfg_DataPersistence_zero : cfg_DataPersistence := mk_cfg_DataPersistence false false.

Record cfg_WanReplicationReference := mk_cfg_WanReplicationReference {
  cfg_WanReplicationReference_MergePolicyClassName : string;
  cfg_WanReplicationReference_RepublishingEnabled : bool;
  cfg_WanReplicationReference_Filters : option (list string);
}.
#[export] Instance cfg_WanReplicationReference_eq_dec : EqDecision cfg_WanReplicationReference.
Proof. solve_decision. Defined.
Definition cfg_WanReplicationReference_zero : cfg_WanReplicationReference := mk_cfg_WanReplicationReference "" false None.
Definition cfg_WanReplicationReference_read (c : cfg_WanReplicationReference) : cfg_WanReplicationReference :=
  mk_cfg_WanReplicationReference
    (cfg_WanReplicationReference_MergePolicyClassName c)
    (cfg_WanReplicationReference_RepublishingEnabled c)
    (read_list id (cfg_WanReplicationReference_Filters c)).

Record cfg_MapStoreConfig := mk_cfg_MapStoreConfig {
  cfg_MapStoreConfig_Enabled : bool;
  cfg_MapStoreConfig_WriteCoalescing : option bool;
  cfg_MapStoreConfig_WriteDelaySeconds : Z;
  cfg_MapStoreConfig_WriteBatchSize : Z;
  cfg_MapStoreConfig_ClassName : string;
  cfg_MapStoreConfig_Properties : option (gmap string string);
  cfg_MapStoreConfig_InitialLoadMode : string;
}.
#[export] Instance cfg_MapStoreConfig_eq_dec : EqDecision cfg_MapStoreConfig.
Proof. solve_decision. Defined.
Definition cfg_MapStoreConfig_zero : cfg_MapStoreConfig := mk_cfg_MapStoreConfig false None 0 0 "" None "".
Definition cfg_MapStoreConfig_read (c : cfg_MapStoreConfig) : cfg_MapStoreConfig :=
  mk_cfg_MapStoreConfig
    (cfg_MapStoreConfig_Enabled c)
    (cfg_MapStoreConfig_WriteCoalescing c)
    (cfg_MapStoreConfig_WriteDelaySeconds c)
    (cfg_MapStoreConfig_WriteBatchSize c)
    (cfg_MapStoreConfig_ClassName c)
    (read_omit_map id (cfg_MapStoreConfig_Properties c))
    (cfg_MapStoreConfig_InitialLoadMode c).

Record cfg_EntryListener := mk_cfg_EntryListener {
  cfg_EntryListener_ClassName : string;
  cfg_EntryListener_IncludeValue : bool;
  cfg_EntryListener_Local : bool;
}.
#[export] Instance cfg_EntryListener_eq_dec : EqDecision cfg_EntryListener.
Proof. solve_decision. Defined.
Definition cfg_EntryListener_zero : cfg_EntryListener := mk_cfg_EntryListener "" false false.

Record cfg_NearCacheEviction := mk_cfg_NearCacheEviction {
  cfg_NearCacheEviction_Size : Z;
  cfg_NearCacheEviction_MaxSizePolicy : string;
  cfg_NearCacheEviction_EvictionPolicy : string;
}.
#[export] Instance cfg_NearCacheEviction_eq_dec : EqDecision cfg_NearCacheEviction.
Proof. solve_decision. Defined.
Definition cfg_NearCacheEviction_zero : cfg_NearCacheEviction := mk_cfg_NearCacheEviction 0 "" "".

Record cfg_NearCacheConfig := mk_cfg_NearCacheConfig {
  cfg_NearCacheConfig_InMemoryFormat : string;
  cfg_NearCacheConfig_InvalidateOnChange : bool;
  cfg_NearCacheConfig_TimeToLiveSeconds : Z;
  cfg_NearCacheConfig_MaxIdleSeconds : Z;
  cfg_NearCacheConfig_CacheLocalEntries : bool;
  cfg_NearCacheConfig_Eviction : cfg_NearCacheEviction;
}.
#[export] Instance cfg_NearCacheConfig_eq_dec : EqDecision cfg_NearCacheConfig.
Proof. solve_decision. Defined.
Definition cfg_NearCacheConfig_zero : cfg_NearCacheConfig := mk_cfg_NearCacheConfig "" false 0 0 false cfg_NearCacheEviction_zero.

Record cfg_EventJournal := mk_cfg_EventJournal {
  cfg_EventJournal_Enabled : bool;
  cfg_EventJournal_Capacity : Z;
  cfg_EventJournal_TimeToLiveSeconds : Z;
}.
#[export] Instance cfg_EventJournal_eq_dec : EqDecision cfg_EventJournal.
Proof. solve_decision. Defined.
Definition cfg_EventJournal_zero : cfg_EventJournal := mk_cfg_EventJournal false 0 0.

Record cfg_Size := mk_cfg_Size {
  cfg_Size_Value : Z;
  cfg_Size_Unit : string;
}.
#[export] Instance cfg_Size_eq_dec : EqDecision cfg_Size.
Proof. solve_decision. Defined.
Definition cfg_Size_zero : cfg_Size := mk_cfg_Size 0 "".

Record cfg_MemoryTier := mk_cfg_MemoryTier {
  cfg_MemoryTier_Capacity : cfg_Size;
}.
#[export] Instance cfg_MemoryTier_eq_dec : EqDecision cfg_MemoryTier.
Proof. solve_decision. Defined.
Definition cfg_MemoryTier_zero : cfg_MemoryTier := mk_cfg_MemoryTier cfg_Size_zero.

Record cfg_DiskTier := mk_cfg_DiskTier {
  cfg_DiskTier_Enabled : bool;
  cfg_DiskTier_DeviceName : string;
}.
#[export] Instance cfg_DiskTier_eq_dec : EqDecision cfg_DiskTier.
Proof. solve_decision. Defined.
Definition cfg_DiskTier_zero : cfg_DiskTier := mk_cfg_DiskTier false "".

Record cfg_TieredStore := mk_cfg_TieredStore {
  cfg_TieredStore_Enabled : bool;
  cfg_TieredStore_MemoryTier : cfg_MemoryTier;
  cfg_TieredStore_DiskTier : cfg_DiskTier;
}.
#[export] Instance cfg_TieredStore_eq_dec : EqDecision cfg_TieredStore.
Proof. solve_decision. Defined.
Definition cfg_TieredStore_zero : cfg_TieredStore := mk_cfg_TieredStore false cfg_MemoryTier_zero cfg_DiskTier_zero.

Record cfg_MerkleTree := mk_cfg_MerkleTree {
  cfg_MerkleTree_Enabled : bool;
  cfg_MerkleTree_Depth : Z;
}.
#[export] Instance cfg_MerkleTree_eq_dec : EqDecision cfg_MerkleTree.
Proof. solve_decision. Defined.
Definition cfg_MerkleTree_zero : cfg_MerkleTree := mk_cfg_MerkleTree false 0.

Record cfg_Map := mk_cfg_Map {
  cfg_Map_BackupCount : Z;
  cfg_Map_AsyncBackupCount : Z;
  cfg_Map_TimeToLiveSeconds : Z;
  cfg_Map_MaxIdleSeconds : Z;
  cfg_Map_Eviction : cfg_MapEviction;
  cfg_Map_ReadBackupData : bool;
  cfg_Map_InMemoryFormat : string;
  cfg_Map_StatisticsEnabled : bool;
  cfg_Map_Indexes : option (list cfg_MapIndex);
  cfg_Map_Attributes : option (list cfg_Attribute);
  cfg_Map_DataPersistence : cfg_DataPersistence;
  cfg_Map_WanReplicationReference : option (gmap string cfg_WanReplicationReference);
  cfg_Map_MapStoreConfig : cfg_MapStoreConfig;
  cfg_Map_EntryListeners : option (list cfg_EntryListener);
  cfg_Map_NearCache : cfg_NearCacheConfig;
  cfg_Map_EventJournal : cfg_EventJournal;
  cfg_Map_TieredStore : cfg_TieredStore;
  cfg_Map_MerkleTree : cfg_MerkleTree;
  cfg_Map_UserCodeNamespace : string;
}.
#[export] Instance cfg_Map_eq_dec : EqDecision cfg_Map.
Proof. solve_decision. Defined.
Definition cfg_Map_zero : cfg_Map := mk_cfg_Map 0 0 0 0 cfg_MapEviction_zero false "" false None None cfg_DataPersistence_zero None cfg_MapStoreConfig_zero None cfg_NearCacheConfig_zero cfg_EventJournal_zero cfg_TieredStore_zero cfg_MerkleTree_zero "".
Definition cfg_Map_read (c : cfg_Map) : cfg_Map :=
  mk_cfg_Map
    (cfg_Map_BackupCount c)
    (cfg_Map_AsyncBackupCount c)
    (cfg_Map_TimeToLiveSeconds c)
    (cfg_Map_MaxIdleSeconds c)
    (cfg_Map_Eviction c)
    (cfg_Map_ReadBackupData c)
    (cfg_Map_InMemoryFormat c)
    (cfg_Map_StatisticsEnabled c)
    (read_omit_list cfg_MapIndex_read (cfg_Map_Indexes c))
    (read_omit_list id (cfg_Map_Attributes c))
    (cfg_Map_DataPersistence c)
    (read_omit_map cfg_WanReplicationReference_read (cfg_Map_WanReplicationReference c))
    (cfg_MapStoreConfig_read (cfg_Map_MapStoreConfig c))
    (read_omit_list id (cfg_Map_EntryListeners c))
    (cfg_Map_NearCache c)
    (cfg_Map_EventJournal c)
    (cfg_Map_TieredStore c)
    (cfg_Map_MerkleTree c)
    (cfg_Map_UserCodeNamespace c).

Record cfg_ExecutorService := mk_cfg_ExecutorService {
  cfg_ExecutorService_PoolSize : Z;
  cfg_ExecutorService_QueueCapacity : Z;
  cfg_ExecutorService_UserCodeNamespace : string;
}.
#[export] Instance cfg_ExecutorService_eq_dec : EqDecision cfg_ExecutorService.
Proof. solve_decision. Defined.
Definition cfg_ExecutorService_zero : cfg_ExecutorService := mk_cfg_ExecutorService 0 0 "".

Record cfg_DurableExecutorService := mk_cfg_DurableExecutorService {
  cfg_DurableExecutorService_PoolSize : Z;
  cfg_DurableExecutorService_Durability : Z;
  cfg_DurableExecutorService_Capacity : Z;
  cfg_DurableExecutorService_UserCodeNamespace : string;
}.
#[export] Instance cfg_DurableExecutorService_eq_dec : EqDecision cfg_DurableExecutorService.
Proof. solve_decision. Defined.
Definition cfg_DurableExecutorService_zero : cfg_DurableExecutorService := mk_cfg_DurableExecutorService 0 0 0 "".

Record cfg_ScheduledExecutorService := mk_cfg_ScheduledExecutorService {
  cfg_ScheduledExecutorService_PoolSize : Z;
  cfg_ScheduledExecutorService_Durability : Z;
  cfg_ScheduledExecutorService_Capacity : Z;
  cfg_ScheduledExecutorService_CapacityPolicy : string;
  cfg_ScheduledExecutorService_UserCodeNamespace : string;
}.
#[export] Instance cfg_ScheduledExecutorService_eq_dec : EqDecision cfg_ScheduledExecutorService.
Proof. solve_decision. Defined.
Definition cfg_ScheduledExecutorService_zero : cfg_ScheduledExecutorService := mk_cfg_ScheduledExecutorService 0 0 0 "" "".

Record cfg_UserCodeDeployment := mk_cfg_UserCodeDeployment {
  cfg_UserCodeDeployment_Enabled : option bool;
  cfg_UserCodeDeployment_ClassCacheMode : string;
  cfg_UserCodeDeployment_ProviderMode : string;
  cfg_UserCodeDeployment_BlacklistPrefixes : string;
  cfg_UserCodeDeployment_WhitelistPrefixes : string;
  cfg_UserCodeDeployment_ProviderFilter : string;
}.
#[export] Instance cfg_UserCodeDeployment_eq_dec : EqDecision cfg_UserCodeDeployment.
Proof. solve_decision. Defined.
Definition cfg_UserCodeDeployment_zero : cfg_UserCodeDeployment := mk_cfg_UserCodeDeployment None "" "" "" "" "".

Record cfg_Sync := mk_cfg_Sync {
  cfg_Sync_ConsistencyCheckStrategy : string;
}.
#[export] Instance cfg_Sync_eq_dec : EqDecision cfg_Sync.
Proof. solve_decision. Defined.
Definition cfg_Sync_zero : cfg_Sync := mk_cfg_Sync "".

Record cfg_BatchPublisherConfig := mk_cfg_BatchPublisherConfig {
  cfg_BatchPublisherConfig_ClusterName : string;
  cfg_BatchPublisherConfig_BatchSize : Z;
  cfg_BatchPublisherConfig_BatchMaxDelayMillis : Z;
  cfg_BatchPublisherConfig_ResponseTimeoutMillis : Z;
  cfg_BatchPublisherConfig_AcknowledgementType : string;
  cfg_BatchPublisherConfig_InitialPublisherState : string;
  cfg_BatchPublisherConfig_QueueFullBehavior : string;
  cfg_BatchPublisherConfig_QueueCapacity : Z;
  cfg_BatchPublisherConfig_TargetEndpoints : string;
  cfg_BatchPublisherConfig_Sync : option cfg_Sync;
}.
#[export] Instance cfg_BatchPublisherConfig_eq_dec : EqDecision cfg_BatchPublisherConfig.
Proof. solve_decision. Defined.
Definition cfg_BatchPublisherConfig_zero : cfg_BatchPublisherConfig := mk_cfg_BatchPublisherConfig "" 0 0 0 "" "" "" 0 "" None.

Record cfg_WanReplicationConfig := mk_cfg_WanReplicationConfig {
  cfg_WanReplicationConfig_BatchPublisher : option (gmap string cfg_BatchPublisherConfig);
}.
#[export] Instance cfg_WanReplicationConfig_eq_dec : EqDecision cfg_WanReplicationConfig.
Proof. solve_decision. Defined.
Definition cfg_WanReplicationConfig_zero : cfg_WanReplicationConfig := mk_cfg_WanReplicationConfig None.
Definition cfg_WanReplicationConfig_read (c : cfg_WanReplicationConfig) : cfg_WanReplicationConfig :=
  mk_cfg_WanReplicationConfig
    (read_omit_map id (cfg_WanReplicationConfig_BatchPublisher c)).

Record cfg_MergePolicy := mk_cfg_MergePolicy {
  cfg_MergePolicy_ClassName : string;
  cfg_MergePolicy_BatchSize : Z;
}.
#[export] Instance cfg_MergePolicy_eq_dec : EqDecision cfg_MergePolicy.
Proof. solve_decision. Defined.
Definition cfg_MergePolicy_zero : cfg_MergePolicy := mk_cfg_MergePolicy "" 0.

Record cfg_MultiMap := mk_cfg_MultiMap {
  cfg_MultiMap_BackupCount : Z;
  cfg_MultiMap_AsyncBackupCount : Z;
  cfg_MultiMap_Binary : bool;
  cfg_MultiMap_CollectionType : string;
  cfg_MultiMap_StatisticsEnabled : bool;
  cfg_MultiMap_MergePolicy : cfg_MergePolicy;
  cfg_MultiMap_UserCodeNamespace : string;
}.
#[export] Instance cfg_MultiMap_eq_dec : EqDecision cfg_MultiMap.
Proof. solve_decision. Defined.
Definition cfg_MultiMap_zero : cfg_MultiMap := mk_cfg_MultiMap 0 0 false "" false cfg_MergePolicy_zero "".

Record cfg_Topic := mk_cfg_Topic {
  cfg_Topic_GlobalOrderingEnabled : bool;
  cfg_Topic_MultiThreadingEnabled : bool;
  cfg_Topic_StatisticsEnabled : bool;
  cfg_Topic_MessageListeners : option (list string);
  cfg_Topic_UserCodeNamespace : string;
}.
#[export] Instance cfg_Topic_eq_dec : EqDecision cfg_Topic.
Proof. solve_decision. Defined.
Definition cfg_Topic_zero : cfg_Topic := mk_cfg_Topic false false false None "".
Definition cfg_Topic_read (c : cfg_Topic) : cfg_Topic :=
  mk_cfg_Topic
    (cfg_Topic_GlobalOrderingEnabled c)
    (cfg_Topic_MultiThreadingEnabled c)
    (cfg_Topic_StatisticsEnabled c)
    (read_omit_list id (cfg_Topic_MessageListeners c))
    (cfg_Topic_UserCodeNamespace c).

Record cfg_ReplicatedMap := mk_cfg_ReplicatedMap {
  cfg_ReplicatedMap_InMemoryFormat : string;
  cfg_ReplicatedMap_AsyncFillup : bool;
  cfg_ReplicatedMap_StatisticsEnabled : bool;
  cfg_ReplicatedMap_MergePolicy : cfg_MergePolicy;
  cfg_ReplicatedMap_UserCodeNamespace : string;
}.
#[export] Instance cfg_ReplicatedMap_eq_dec : EqDecision cfg_ReplicatedMap.
Proof. solve_decision. Defined.
Definition cfg_ReplicatedMap_zero : cfg_ReplicatedMap := mk_cfg_ReplicatedMap "" false false cfg_MergePolicy_zero "".

Record cfg_Queue := mk_cfg_Queue {
  cfg_Queue_BackupCount : Z;
  cfg_Queue_AsyncBackupCount : Z;
  cfg_Queue_EmptyQueueTtl : Z;
  cfg_Queue_MaxSize : Z;
  cfg_Queue_StatisticsEnabled : bool;
  cfg_Queue_MergePolicy : cfg_MergePolicy;
  cfg_Queue_PriorityComparatorClass : string;
  cfg_Queue_UserCodeNamespace : string;
}.
#[export] Instance cfg_Queue_eq_dec : EqDecision cfg_Queue.
Proof. solve_decision. Defined.
Definition cfg_Queue_zero : cfg_Queue := mk_cfg_Queue 0 0 0 0 false cfg_MergePolicy_zero "" "".

Record cfg_ClassType := mk_cfg_ClassType {
  cfg_ClassType_ClassName : string;
}.
#[export] Instance cfg_ClassType_eq_dec : EqDecision cfg_ClassType.
Proof. solve_decision. Defined.
Definition cfg_ClassType_zero : cfg_ClassType := mk_cfg_ClassType "".

Record cfg_Cache := mk_cfg_Cache {
  cfg_Cache_BackupCount : Z;
  cfg_Cache_AsyncBackupCount : Z;
  cfg_Cache_StatisticsEnabled : bool;
  cfg_Cache_ManagementEnabled : bool;
  cfg_Cache_ReadThrough : bool;
  cfg_Cache_WriteThrough : bool;
  cfg_Cache_MergePolicy : cfg_MergePolicy;
  cfg_Cache_KeyType : cfg_ClassType;
  cfg_Cache_ValueType : cfg_ClassType;
  cfg_Cache_InMemoryFormat : string;
  cfg_Cache_DataPersistence : cfg_DataPersistence;
  cfg_Cache_EventJournal : cfg_EventJournal;
  cfg_Cache_UserCodeNamespace : string;
}.
#[export] Instance cfg_Cache_eq_dec : EqDecision cfg_Cache.
Proof. solve_decision. Defined.
Definition cfg_Cache_zero : cfg_Cache := mk_cfg_Cache 0 0 false false false false cfg_MergePolicy_zero cfg_ClassType_zero cfg_ClassType_zero "" cfg_DataPersistence_zero cfg_EventJournal_zero "".

Record cfg_PartitionGroup := mk_cfg_PartitionGroup {
  cfg_PartitionGroup_Enabled : option bool;
  cfg_PartitionGroup_GroupType : string;
}.
#[export] Instance cfg_PartitionGroup_eq_dec : EqDecision cfg_PartitionGroup.
Proof. solve_decision. Defined.
Definition cfg_PartitionGroup_zero : cfg_PartitionGroup := mk_cfg_PartitionGroup None "".

Record cfg_NativeMemory := mk_cfg_NativeMemory {
  cfg_NativeMemory_Enabled : bool;
  cfg_NativeMemory_AllocatorType : string;
  cfg_NativeMemory_Size : cfg_Size;
  cfg_NativeMemory_MinBlockSize : Z;
  cfg_NativeMemory_PageSize : Z;
  cfg_NativeMemory_MetadataSpacePercentage : Z;
}.
#[export] Instance cfg_NativeMemory_eq_dec : EqDecision cfg_NativeMemory.
Proof. solve_decision. Defined.
Definition cfg_NativeMemory_zero : cfg_NativeMemory := mk_cfg_NativeMemory false "" cfg_Size_zero 0 0 0.

Record cfg_Kubernetes := mk_cfg_Kubernetes {
  cfg_Kubernetes_Enabled : option bool;
  cfg_Kubernetes_Namespace : string;
  cfg_Kubernetes_ServiceName : string;
  cfg_Kubernetes_UseNodeNameAsExternalAddress : option bool;
  cfg_Kubernetes_ServicePerPodLabelName : string;
  cfg_Kubernetes_ServicePerPodLabelValue : string;
  cfg_Kubernetes_ServicePort : Z;
}.
#[export] Instance cfg_Kubernetes_eq_dec : EqDecision cfg_Kubernetes.
Proof. solve_decision. Defined.
Definition cfg_Kubernetes_zero : cfg_Kubernetes := mk_cfg_Kubernetes None "" "" None "" "" 0.

Record cfg_Join := mk_cfg_Join {
  cfg_Join_Kubernetes : cfg_Kubernetes;
}.
#[export] Instance cfg_Join_eq_dec : EqDecision cfg_Join.
Proof. solve_decision. Defined.
Definition cfg_Join_zero : cfg_Join := mk_cfg_Join cfg_Kubernetes_zero.

Record cfg_PortAndPortCount := mk_cfg_PortAndPortCount {
  cfg_PortAndPortCount_Port : Z;
  cfg_PortAndPortCount_PortCount : Z;
}.
#[export] Instance cfg_PortAndPortCount_eq_dec : EqDecision cfg_PortAndPortCount.
Proof. solve_decision. Defined.
Definition cfg_PortAndPortCount_zero : cfg_PortAndPortCount := mk_cfg_PortAndPortCount 0 0.

Record cfg_Interfaces := mk_cfg_Interfaces {
  cfg_Interfaces_Enabled : bool;
  cfg_Interfaces_Interfaces : option (list string);
}.
#[export] Instance cfg_Interfaces_eq_dec : EqDecision cfg_Interfaces.
Proof. solve_decision. Defined.
Definition cfg_Interfaces_zero : cfg_Interfaces := mk_cfg_Interfaces false None.
Definition cfg_Interfaces_read (c : cfg_Interfaces) : cfg_Interfaces :=
  mk_cfg_Interfaces
    (cfg_Interfaces_Enabled c)
    (read_omit_list id (cfg_Interfaces_Interfaces c)).

Record cfg_SSLProperties := mk_cfg_SSLProperties {
  cfg_SSLProperties_Protocol : string;
  cfg_SSLProperties_MutualAuthentication : string;
  cfg_SSLProperties_KeyStore : string;
  cfg_SSLProperties_KeyStorePassword : string;
  cfg_SSLProperties_KeyStoreType : string;
  cfg_SSLProperties_TrustStore : string;
  cfg_SSLProperties_TrustStorePassword : string;
  cfg_SSLProperties_TrustStoreType : string;
}.
#[export] Instance cfg_SSLProperties_eq_dec : EqDecision cfg_SSLProperties.
Proof. solve_decision. Defined.
Definition cfg_SSLProperties_zero : cfg_SSLProperties := mk_cfg_SSLProperties "" "" "" "" "" "" "" "".

Record cfg_SSL := mk_cfg_SSL {
  cfg_SSL_Enabled : option bool;
  cfg_SSL_FactoryClassName : string;
  cfg_SSL_Properties : cfg_SSLProperties;
}.
#[export] Instance cfg_SSL_eq_dec : EqDecision cfg_SSL.
Proof. solve_decision. Defined.
Definition cfg_SSL_zero : cfg_SSL := mk_cfg_SSL None "" cfg_SSLProperties_zero.

Record cfg_MemberServerSocketEndpointConfig := mk_cfg_MemberServerSocketEndpointConfig {
  cfg_MemberServerSocketEndpointConfig_Port : cfg_PortAndPortCount;
  cfg_MemberServerSocketEndpointConfig_Interfaces : cfg_Interfaces;
  cfg_MemberServerSocketEndpointConfig_SSL : cfg_SSL;
}.
#[export] Instance cfg_MemberServerSocketEndpointConfig_eq_dec : EqDecision cfg_MemberServerSocketEndpointConfig.
Proof. solve_decision. Defined.
Definition cfg_MemberServerSocketEndpointConfig_zero : cfg_MemberServerSocketEndpointConfig := mk_cfg_MemberServerSocketEndpointConfig cfg_PortAndPortCount_zero cfg_Interfaces_zero cfg_SSL_zero.
Definition cfg_MemberServerSocketEndpointConfig_read (c : cfg_MemberServerSocketEndpointConfig) : cfg_MemberServerSocketEndpointConfig :=
  mk_cfg_MemberServerSocketEndpointConfig
    (cfg_MemberServerSocketEndpointConfig_Port c)
    (cfg_Interfaces_read (cfg_MemberServerSocketEndpointConfig_Interfaces c))
    (cfg_MemberServerSocketEndpointConfig_SSL c).

Record cfg_ClientServerSocketEndpointConfig := mk_cfg_ClientServerSocketEndpointConfig {
  cfg_ClientServerSocketEndpointConfig_Port : cfg_PortAndPortCount;
  cfg_ClientServerSocketEndpointConfig_Interfaces : cfg_Interfaces;
  cfg_ClientServerSocketEndpointConfig_SSL : cfg_SSL;
}.
#[export] Instance cfg_ClientServerSocketEndpointConfig_eq_dec : EqDecision cfg_ClientServerSocketEndpointConfig.
Proof. solve_decision. Defined.
Definition cfg_ClientServerSocketEndpointConfig_zero : cfg_ClientServerSocketEndpointConfig := mk_cfg_ClientServerSocketEndpointConfig cfg_PortAndPortCount_zero cfg_Interfaces_zero cfg_SSL_zero.
Definition cfg_ClientServerSocketEndpointConfig_read (c : cfg_ClientServerSocketEndpointConfig) : cfg_ClientServerSocketEndpointConfig :=
  mk_cfg_ClientServerSocketEndpointConfig
    (cfg_ClientServerSocketEndpointConfig_Port c)
    (cfg_Interfaces_read (cfg_ClientServerSocketEndpointConfig_Interfaces c))
    (cfg_ClientServerSocketEndpointConfig_SSL c).

Record cfg_EndpointGroup := mk_cfg_EndpointGroup {
  cfg_EndpointGroup_Enabled : option bool;
}.
#[export] Instance cfg_EndpointGroup_eq_dec : EqDecision cfg_EndpointGroup.
Proof. solve_decision. Defined.
Definition cfg_EndpointGroup_zero : cfg_EndpointGroup := mk_cfg_EndpointGroup None.

Record cfg_EndpointGroups := mk_cfg_EndpointGroups {
  cfg_EndpointGroups_HealthCheck : cfg_EndpointGroup;
  cfg_EndpointGroups_ClusterWrite : cfg_EndpointGroup;
  cfg_EndpointGroups_Persistence : cfg_EndpointGroup;
}.
#[export] Instance cfg_EndpointGroups_eq_dec : EqDecision cfg_EndpointGroups.
Proof. solve_decision. Defined.
Definition cfg_EndpointGroups_zero : cfg_EndpointGroups := mk_cfg_EndpointGroups cfg_EndpointGroup_zero cfg_EndpointGroup_zero cfg_EndpointGroup_zero.

Record cfg_RestServerSocketEndpointConfig := mk_cfg_RestServerSocketEndpointConfig {
  cfg_RestServerSocketEndpointConfig_Port : cfg_PortAndPortCount;
  cfg_RestServerSocketEndpointConfig_EndpointGroups : cfg_EndpointGroups;
  cfg_RestServerSocketEndpointConfig_SSL : cfg_SSL;
}.
#[export] Instance cfg_RestServerSocketEndpointConfig_eq_dec : EqDecision cfg_RestServerSocketEndpointConfig.
Proof. solve_decision. Defined.
Definition cfg_RestServerSocketEndpointConfig_zero : cfg_RestServerSocketEndpointConfig := mk_cfg_RestServerSocketEndpointConfig cfg_PortAndPortCount_zero cfg_EndpointGroups_zero cfg_SSL_zero.

Record cfg_WanPort := mk_cfg_WanPort {
  cfg_WanPort_PortAndPortCount : cfg_PortAndPortCount;
}.
#[export] Instance cfg_WanPort_eq_dec : EqDecision cfg_WanPort.
Proof. solve_decision. Defined.
Definition cfg_WanPort_zero : cfg_WanPort := mk_cfg_WanPort cfg_PortAndPortCount_zero.

Record cfg_AdvancedNetwork := mk_cfg_AdvancedNetwork {
  cfg_AdvancedNetwork_Enabled : bool;
  cfg_AdvancedNetwork_Join : cfg_Join;
  cfg_AdvancedNetwork_MemberServerSocketEndpointConfig : cfg_MemberServerSocketEndpointConfig;
  cfg_AdvancedNetwork_ClientServerSocketEndpointConfig : cfg_ClientServerSocketEndpointConfig;
  cfg_AdvancedNetwork_RestServerSocketEndpointConfig : cfg_RestServerSocketEndpointConfig;
  cfg_AdvancedNetwork_WanServerSocketEndpointConfig : option (gmap string cfg_WanPort);
}.
#[export] Instance cfg_AdvancedNetwork_eq_dec : EqDecision cfg_AdvancedNetwork.
Proof. solve_decision. Defined.
Definition cfg_AdvancedNetwork_zero : cfg_AdvancedNetwork := mk_cfg_AdvancedNetwork false cfg_Join_zero cfg_MemberServerSocketEndpointConfig_zero cfg_ClientServerSocketEndpointConfig_zero cfg_RestServerSocketEndpointConfig_zero None.
Definition cfg_AdvancedNetwork_read (c : cfg_AdvancedNetwork) : cfg_AdvancedNetwork :=
  mk_cfg_AdvancedNetwork
    (cfg_AdvancedNetwork_Enabled c)
    (cfg_AdvancedNetwork_Join c)
    (cfg_MemberServerSocketEndpointConfig_read (cfg_AdvancedNetwork_MemberServerSocketEndpointConfig c))
    (cfg_ClientServerSocketEndpointConfig_read (cfg_AdvancedNetwork_ClientServerSocketEndpointConfig c))
    (cfg_AdvancedNetwork_RestServerSocketEndpointConfig c)
    (read_omit_map id (cfg_AdvancedNetwork_WanServerSocketEndpointConfig c)).

Record cfg_ManagementCenterConfig := mk_cfg_ManagementCenterConfig {
  cfg_ManagementCenterConfig_ScriptingEnabled : bool;
  cfg_ManagementCenterConfig_ConsoleEnabled : bool;
  cfg_ManagementCenterConfig_DataAccessEnabled : bool;
}.
#[export] Instance cfg_ManagementCenterConfig_eq_dec : EqDecision cfg_ManagementCenterConfig.
Proof. solve_decision. Defined.
Definition cfg_ManagementCenterConfig_zero : cfg_ManagementCenterConfig := mk_cfg_ManagementCenterConfig false false false.

Record cfg_ClassFactories := mk_cfg_ClassFactories {
  cfg_ClassFactories_FactoryId : Z;
  cfg_ClassFactories_ClassName : string;
}.
#[export] Instance cfg_ClassFactories_eq_dec : EqDecision cfg_ClassFactories.
Proof. solve_decision. Defined.
Definition cfg_ClassFactories_zero : cfg_ClassFactories := mk_cfg_ClassFactories 0 "".

Record cfg_GlobalSerializer := mk_cfg_GlobalSerializer {
  cfg_GlobalSerializer_OverrideJavaSerialization : option bool;
  cfg_GlobalSerializer_ClassName : string;
}.
#[export] Instance cfg_GlobalSerializer_eq_dec : EqDecision cfg_GlobalSerializer.
Proof. solve_decision. Defined.
Definition cfg_GlobalSerializer_zero : cfg_GlobalSerializer := mk_cfg_GlobalSerializer None "".

Record cfg_Serializer := mk_cfg_Serializer {
  cfg_Serializer_TypeClass : string;
  cfg_Serializer_ClassName : string;
}.
#[export] Instance cfg_Serializer_eq_dec : EqDecision cfg_Serializer.
Proof. solve_decision. Defined.
Definition cfg_Serializer_zero : cfg_Serializer := mk_cfg_Serializer "" "".

Record cfg_FilterList := mk_cfg_FilterList {
  cfg_FilterList_Classes : option (list string);
  cfg_FilterList_Packages : option (list string);
  cfg_FilterList_Prefixes : option (list string);
}.
#[export] Instance cfg_FilterList_eq_dec : EqDecision cfg_FilterList.
Proof. solve_decision. Defined.
Definition cfg_FilterList_zero : cfg_FilterList := mk_cfg_FilterList None None None.
Definition cfg_FilterList_read (c : cfg_FilterList) : cfg_FilterList :=
  mk_cfg_FilterList
    (read_omit_list id (cfg_FilterList_Classes c))
    (read_omit_list id (cfg_FilterList_Packages c))
    (read_omit_list id (cfg_FilterList_Prefixes c)).

Record cfg_JavaFilterConfig := mk_cfg_JavaFilterConfig {
  cfg_JavaFilterConfig_DefaultsDisable : bool;
  cfg_JavaFilterConfig_Blacklist : option cfg_FilterList;
  cfg_JavaFilterConfig_Whitelist : option cfg_FilterList;
}.
#[export] Instance cfg_JavaFilterConfig_eq_dec : EqDecision cfg_JavaFilterConfig.
Proof. solve_decision. Defined.
Definition cfg_JavaFilterConfig_zero : cfg_JavaFilterConfig := mk_cfg_JavaFilterConfig false None None.
Definition cfg_JavaFilterConfig_read (c : cfg_JavaFilterConfig) : cfg_JavaFilterConfig :=
  mk_cfg_JavaFilterConfig
    (cfg_JavaFilterConfig_DefaultsDisable c)
    (cfg_FilterList_read <$> (cfg_JavaFilterConfig_Blacklist c))
    (cfg_FilterList_read <$> (cfg_JavaFilterConfig_Whitelist c)).

Record cfg_CompactSerialization := mk_cfg_CompactSerialization {
  cfg_CompactSerialization_Serializers : option (list string);
  cfg_CompactSerialization_Classes : option (list string);
}.
#[export] Instance cfg_CompactSerialization_eq_dec : EqDecision cfg_CompactSerialization.
Proof. solve_decision. Defined.
Definition cfg_CompactSerialization_zero : cfg_CompactSerialization := mk_cfg_CompactSerialization None None.
Definition cfg_CompactSerialization_read (c : cfg_CompactSerialization) : cfg_CompactSerialization :=
  mk_cfg_CompactSerialization
    (read_omit_list id (cfg_CompactSerialization_Serializers c))
    (read_omit_list id (cfg_CompactSerialization_Classes c)).

Record cfg_Serialization := mk_cfg_Serialization {
  cfg_Serialization_PortableVersion : Z;
  cfg_Serialization_UseNativeByteOrder : bool;
  cfg_Serialization_EnableCompression : bool;
  cfg_Serialization_EnableSharedObject : bool;
  cfg_Serialization_OverrideDefaultSerializers : bool;
  cfg_Serialization_AllowUnsafe : bool;
  cfg_Serialization_ByteOrder : string;
  cfg_Serialization_DataSerializableFactories : option (list cfg_ClassFactories);
  cfg_Serialization_PortableFactories : option (list cfg_ClassFactories);
  cfg_Serialization_GlobalSerializer : option cfg_GlobalSerializer;
  cfg_Serialization_Serializers : option (list cfg_Serializer);
  cfg_Serialization_JavaSerializationFilter : option cfg_JavaFilterConfig;
  cfg_Serialization_CompactSerialization : option cfg_CompactSerialization;
}.
#[export] Instance cfg_Serialization_eq_dec : EqDecision cfg_Serialization.
Proof. solve_decision. Defined.
Definition cfg_Serialization_zero : cfg_Serialization := mk_cfg_Serialization 0 false false false false false "" None None None None None None.
Definition cfg_Serialization_read (c : cfg_Serialization) : cfg_Serialization :=
  mk_cfg_Serialization
    (cfg_Serialization_PortableVersion c)
    (cfg_Serialization_UseNativeByteOrder c)
    (cfg_Serialization_EnableCompression c)
    (cfg_Serialization_EnableSharedObject c)
    (cfg_Serialization_OverrideDefaultSerializers c)
    (cfg_Serialization_AllowUnsafe c)
    (cfg_Serialization_ByteOrder c)
    (read_omit_list id (cfg_Serialization_DataSerializableFactories c))
    (read_omit_list id (cfg_Serialization_PortableFactories c))
    (cfg_Serialization_GlobalSerializer c)
    (read_omit_list id (cfg_Serialization_Serializers c))
    (cfg_JavaFilterConfig_read <$> (cfg_Serialization_JavaSerializationFilter c))
    (cfg_CompactSerialization_read <$> (cfg_Serialization_CompactSerialization c)).

Record cfg_SQL := mk_cfg_SQL {
  cfg_SQL_StatementTimeout : Z;
  cfg_SQL_CatalogPersistence : bool;
}.
#[export] Instance cfg_SQL_eq_dec : EqDecision cfg_SQL.
Proof. solve_decision. Defined.
Definition cfg_SQL_zero : cfg_SQL := mk_cfg_SQL 0 false.

Record cfg_LocalDevice := mk_cfg_LocalDevice {
  cfg_LocalDevice_BaseDir : string;
  cfg_LocalDevice_Capacity : cfg_Size;
  cfg_LocalDevice_BlockSize : option Z;
  cfg_LocalDevice_ReadIOThreadCount : option Z;
  cfg_LocalDevice_WriteIOThreadCount : option Z;
}.
#[export] Instance cfg_LocalDevice_eq_dec : EqDecision cfg_LocalDevice.
Proof. solve_decision. Defined.
Definition cfg_LocalDevice_zero : cfg_LocalDevice := mk_cfg_LocalDevice "" cfg_Size_zero None None None.

Record cfg_CPSubsystem := mk_cfg_CPSubsystem {
  cfg_CPSubsystem_CPMemberCount : Z;
  cfg_CPSubsystem_PersistenceEnabled : bool;
  cfg_CPSubsystem_BaseDir : string;
  cfg_CPSubsystem_GroupSize : option Z;
  cfg_CPSubsystem_SessionTimeToLiveSeconds : option Z;
  cfg_CPSubsystem_SessionHeartbeatIntervalSeconds : option Z;
  cfg_CPSubsystem_MissingCpMemberAutoRemovalSeconds : option Z;
  cfg_CPSubsystem_FailOnIndeterminateOperationState : option bool;
  cfg_CPSubsystem_DataLoadTimeoutSeconds : option Z;
}.
#[export] Instance cfg_CPSubsystem_eq_dec : EqDecision cfg_CPSubsystem.
Proof. solve_decision. Defined.
Definition cfg_CPSubsystem_zero : cfg_CPSubsystem := mk_cfg_CPSubsystem 0 false "" None None None None None None.

Record cfg_UserCodeNamespaceResource := mk_cfg_UserCodeNamespaceResource {
  cfg_UserCodeNamespaceResource_ID : string;
  cfg_UserCodeNamespaceResource_ResourceType : string;
  cfg_UserCodeNamespaceResource_URL : string;
}.
#[export] Instance cfg_UserCodeNamespaceResource_eq_dec : EqDecision cfg_UserCodeNamespaceResource.
Proof. solve_decision. Defined.
Definition cfg_UserCodeNamespaceResource_zero : cfg_UserCodeNamespaceResource := mk_cfg_UserCodeNamespaceResource "" "" "".

Record cfg_UserCodeNamespaces := mk_cfg_UserCodeNamespaces {
  cfg_UserCodeNamespaces_Enabled : option bool;
  cfg_UserCodeNamespaces_ClassFilter : option cfg_JavaFilterConfig;
  cfg_UserCodeNamespaces_Namespaces : option (gmap string (option (list cfg_UserCodeNamespaceResource)));
}.
#[export] Instance cfg_UserCodeNamespaces_eq_dec : EqDecision cfg_UserCodeNamespaces.
Proof. solve_decision. Defined.
Definition cfg_UserCodeNamespaces_zero : cfg_UserCodeNamespaces := mk_cfg_UserCodeNamespaces None None None.
Definition cfg_UserCodeNamespaces_read (c : cfg_UserCodeNamespaces) : cfg_UserCodeNamespaces :=
  mk_cfg_UserCodeNamespaces
    (cfg_UserCodeNamespaces_Enabled c)
    (cfg_JavaFilterConfig_read <$> (cfg_UserCodeNamespaces_ClassFilter c))
    (read_omit_map (read_list id) (cfg_UserCodeNamespaces_Namespaces c)).

Record cfg_Hazelcast := mk_cfg_Hazelcast {
  cfg_Hazelcast_Jet : cfg_Jet;
  cfg_Hazelcast_ClusterName : string;
  cfg_Hazelcast_Persistence : cfg_Persistence;
  cfg_Hazelcast_Map : option (gmap string cfg_Map);
  cfg_Hazelcast_ExecutorService : option (gmap string cfg_ExecutorService);
  cfg_Hazelcast_DurableExecutorService : option (gmap string cfg_DurableExecutorService);
  cfg_Hazelcast_ScheduledExecutorService : option (gmap string cfg_ScheduledExecutorService);
  cfg_Hazelcast_UserCodeDeployment : cfg_UserCodeDeployment;
  cfg_Hazelcast_WanReplication : option (gmap string cfg_WanReplicationConfig);
  cfg_Hazelcast_Properties : option (gmap string string);
  cfg_Hazelcast_MultiMap : option (gmap string cfg_MultiMap);
  cfg_Hazelcast_Topic : option (gmap string cfg_Topic);
  cfg_Hazelcast_ReplicatedMap : option (gmap string cfg_ReplicatedMap);
  cfg_Hazelcast_Queue : option (gmap string cfg_Queue);
  cfg_Hazelcast_Cache : option (gmap string cfg_Cache);
  cfg_Hazelcast_PartitionGroup : cfg_PartitionGroup;
  cfg_Hazelcast_NativeMemory : cfg_NativeMemory;
  cfg_Hazelcast_AdvancedNetwork : cfg_AdvancedNetwork;
  cfg_Hazelcast_ManagementCenter : cfg_ManagementCenterConfig;
  cfg_Hazelcast_Serialization : cfg_Serialization;
  cfg_Hazelcast_SQL : cfg_SQL;
  cfg_Hazelcast_LocalDevice : option (gmap string cfg_LocalDevice);
  cfg_Hazelcast_CPSubsystem : cfg_CPSubsystem;
  cfg_Hazelcast_UserCodeNamespaces : cfg_UserCodeNamespaces;
}.
#[export] Instance cfg_Hazelcast_eq_dec : EqDecision cfg_Hazelcast.
Proof. solve_decision. Defined.
Definition cfg_Hazelcast_zero : cfg_Hazelcast := mk_cfg_Hazelcast cfg_Jet_zero "" cfg_Persistence_zero None None None None cfg_UserCodeDeployment_zero None None None None None None None cfg_PartitionGroup_zero cfg_NativeMemory_zero cfg_AdvancedNetwork_zero cfg_ManagementCenterConfig_zero cfg_Serialization_zero cfg_SQL_zero None cfg_CPSubsystem_zero cfg_UserCodeNamespaces_zero.
Definition cfg_Hazelcast_read (c : cfg_Hazelcast) : cfg_Hazelcast :=
  mk_cfg_Hazelcast
    (cfg_Hazelcast_Jet c)
    (cfg_Hazelcast_ClusterName c)
    (cfg_Hazelcast_Persistence c)
    (read_omit_map cfg_Map_read (cfg_Hazelcast_Map c))
    (read_omit_map id (cfg_Hazelcast_ExecutorService c))
    (read_omit_map id (cfg_Hazelcast_DurableExecutorService c))
    (read_omit_map id (cfg_Hazelcast_ScheduledExecutorService c))
    (cfg_Hazelcast_UserCodeDeployment c)
    (read_omit_map cfg_WanReplicationConfig_read (cfg_Hazelcast_WanReplication c))
    (read_omit_map id (cfg_Hazelcast_Properties c))
    (read_omit_map id (cfg_Hazelcast_MultiMap c))
    (read_omit_map cfg_Topic_read (cfg_Hazelcast_Topic c))
    (read_omit_map id (cfg_Hazelcast_ReplicatedMap c))
    (read_omit_map id (cfg_Hazelcast_Queue c))
    (read_omit_map id (cfg_Hazelcast_Cache c))
    (cfg_Hazelcast_PartitionGroup c)
    (cfg_Hazelcast_NativeMemory c)
    (cfg_AdvancedNetwork_read (cfg_Hazelcast_AdvancedNetwork c))
    (cfg_Hazelcast_ManagementCenter c)
    (cfg_Serialization_read (cfg_Hazelcast_Serialization c))
    (cfg_Hazelcast_SQL c)
    (read_omit_map id (cfg_Hazelcast_LocalDevice c))
    (cfg_Hazelcast_CPSubsystem c)
    (cfg_UserCodeNamespaces_read (cfg_Hazelcast_UserCodeNamespaces c)).

(** The namespaces are an inlined map: its keys share the mapping with the
    fields of the struct, and [yaml.Marshal] panics on a key that is the name
    of a field. *)
Definition inline_conflict (c : cfg_Hazelcast) : bool :=
  let ns := default ∅ (cfg_UserCodeNamespaces_Namespaces (cfg_Hazelcast_UserCodeNamespaces c)) in
  bool_decide (is_Some (ns !! "enabled")) || bool_decide (is_Some (ns !! "class-filter")).

(** [yaml.Marshal] and [yaml.Unmarshal] of a configuration, [None] for a
    panic: a document that was marshalled is read back as the tags say. *)
Class YamlLib := {
  Document : Type;
  yaml_Marshal : cfg_Hazelcast -> option Document;
  yaml_Unmarshal : Document -> option cfg_Hazelcast;
  yaml_panics c : yaml_Marshal c = None <-> inline_conflict c = true;
  yaml_law c d : yaml_Marshal c = Some d -> yaml_Unmarshal d = Some (cfg_Hazelcast_read c);
}.

#[global] Instance yaml_default : YamlLib | 100.
Proof.
  refine {| Document := cfg_Hazelcast;
            yaml_Marshal c := if inline_conflict c then None else Some (cfg_Hazelcast_read c);
            yaml_Unmarshal := Some |}.
  - intros c. by destruct (inline_conflict c).
  - intros c d. destruct (inline_conflict c); [done|]. by intros [= <-].
Defined.

(** ** One section replaced *)

Definition with_Persistence (c : cfg_Hazelcast) (x : cfg_Persistence) : cfg_Hazelcast :=
  mk_cfg_Hazelcast (cfg_Hazelcast_Jet c) (cfg_Hazelcast_ClusterName c) x (cfg_Hazelcast_Map c)
    (cfg_Hazelcast_ExecutorService c) (cfg_Hazelcast_DurableExecutorService c)
    (cfg_Hazelcast_ScheduledExecutorService c) (cfg_Hazelcast_UserCodeDeployment c) (cfg_Hazelcast_WanReplication c)
    (cfg_Hazelcast_Properties c) (cfg_Hazelcast_MultiMap c) (cfg_Hazelcast_Topic c) (cfg_Hazelcast_ReplicatedMap c)
    (cfg_Hazelcast_Queue c) (cfg_Hazelcast_Cache c) (cfg_Hazelcast_PartitionGroup c) (cfg_Hazelcast_NativeMemory c)
    (cfg_Hazelcast_AdvancedNetwork c) (cfg_Hazelcast_ManagementCenter c) (cfg_Hazelcast_Serialization c)
    (cfg_Hazelcast_SQL c) (cfg_Hazelcast_LocalDevice c) (cfg_Hazelcast_CPSubsystem c)
    (cfg_Hazelcast_UserCodeNamespaces c).
Definition with_Map (c : cfg_Hazelcast) (x : option (gmap string cfg_Map)) : cfg_Hazelcast :=
  mk_cfg_Hazelcast (cfg_Hazelcast_Jet c) (cfg_Hazelcast_ClusterName c) (cfg_Hazelcast_Persistence c) x
    (cfg_Hazelcast_ExecutorService c) (cfg_Hazelcast_DurableExecutorService c)
    (cfg_Hazelcast_ScheduledExecutorService c) (cfg_Hazelcast_UserCodeDeployment c) (cfg_Hazelcast_WanReplication c)
    (cfg_Hazelcast_Properties c) (cfg_Hazelcast_MultiMap c) (cfg_Hazelcast_Topic c) (cfg_Hazelcast_ReplicatedMap c)
    (cfg_Hazelcast_Queue c) (cfg_Hazelcast_Cache c) (cfg_Hazelcast_PartitionGroup c) (cfg_Hazelcast_NativeMemory c)
    (cfg_Hazelcast_AdvancedNetwork c) (cfg_Hazelcast_ManagementCenter c) (cfg_Hazelcast_Serialization c)
    (cfg_Hazelcast_SQL c) (cfg_Hazelcast_LocalDevice c) (cfg_Hazelcast_CPSubsystem c)
    (cfg_Hazelcast_UserCodeNamespaces c).
Definition with_ExecutorService (c : cfg_Hazelcast) (x : option (gmap string cfg_ExecutorService)) : cfg_Hazelcast :=
  mk_cfg_Hazelcast (cfg_Hazelcast_Jet c) (cfg_Hazelcast_ClusterName c) (cfg_Hazelcast_Persistence c)
    (cfg_Hazelcast_Map c) x (cfg_Hazelcast_DurableExecutorService c) (cfg_Hazelcast_ScheduledExecutorService c)
    (cfg_Hazelcast_UserCodeDeployment c) (cfg_Hazelcast_WanReplication c) (cfg_Hazelcast_Properties c)
    (cfg_Hazelcast_MultiMap c) (cfg_Hazelcast_Topic c) (cfg_Hazelcast_ReplicatedMap c) (cfg_Hazelcast_Queue c)
    (cfg_Hazelcast_Cache c) (cfg_Hazelcast_PartitionGroup c) (cfg_Hazelcast_NativeMemory c)
    (cfg_Hazelcast_AdvancedNetwork c) (cfg_Hazelcast_ManagementCenter c) (cfg_Hazelcast_Serialization c)
    (cfg_Hazelcast_SQL c) (cfg_Hazelcast_LocalDevice c) (cfg_Hazelcast_CPSubsystem c)
    (cfg_Hazelcast_UserCodeNamespaces c).
Definition with_DurableExecutorService (c : cfg_Hazelcast) (x : option (gmap string cfg_DurableExecutorService)) : cfg_Hazelcast :=
  mk_cfg_Hazelcast (cfg_Hazelcast_Jet c) (cfg_Hazelcast_ClusterName c) (cfg_Hazelcast_Persistence c)
    (cfg_Hazelcast_Map c) (cfg_Hazelcast_ExecutorService c) x (cfg_Hazelcast_ScheduledExecutorService c)
    (cfg_Hazelcast_UserCodeDeployment c) (cfg_Hazelcast_WanReplication c) (cfg_Hazelcast_Properties c)
    (cfg_Hazelcast_MultiMap c) (cfg_Hazelcast_Topic c) (cfg_Hazelcast_ReplicatedMap c) (cfg_Hazelcast_Queue c)
    (cfg_Hazelcast_Cache c) (cfg_Hazelcast_PartitionGroup c) (cfg_Hazelcast_NativeMemory c)
    (cfg_Hazelcast_AdvancedNetwork c) (cfg_Hazelcast_ManagementCenter c) (cfg_Hazelcast_Serialization c)
    (cfg_Hazelcast_SQL c) (cfg_Hazelcast_LocalDevice c) (cfg_Hazelcast_CPSubsystem c)
    (cfg_Hazelcast_UserCodeNamespaces c).
Definition with_ScheduledExecutorService (c : cfg_Hazelcast) (x : option (gmap string cfg_ScheduledExecutorService)) : cfg_Hazelcast :=
  mk_cfg_Hazelcast (cfg_Hazelcast_Jet c) (cfg_Hazelcast_ClusterName c) (cfg_Hazelcast_Persistence c)
    (cfg_Hazelcast_Map c) (cfg_Hazelcast_ExecutorService c) (cfg_Hazelcast_DurableExecutorService c) x
    (cfg_Hazelcast_UserCodeDeployment c) (cfg_Hazelcast_WanReplication c) (cfg_Hazelcast_Properties c)
    (cfg_Hazelcast_MultiMap c) (cfg_Hazelcast_Topic c) (cfg_Hazelcast_ReplicatedMap c) (cfg_Hazelcast_Queue c)
    (cfg_Hazelcast_Cache c) (cfg_Hazelcast_PartitionGroup c) (cfg_Hazelcast_NativeMemory c)
    (cfg_Hazelcast_AdvancedNetwork c) (cfg_Hazelcast_ManagementCenter c) (cfg_Hazelcast_Serialization c)
    (cfg_Hazelcast_SQL c) (cfg_Hazelcast_LocalDevice c) (cfg_Hazelcast_CPSubsystem c)
    (cfg_Hazelcast_UserCodeNamespaces c).
Definition with_WanReplication (c : cfg_Hazelcast) (x : option (gmap string cfg_WanReplicationConfig)) : cfg_Hazelcast :=
  mk_cfg_Hazelcast (cfg_Hazelcast_Jet c) (cfg_Hazelcast_ClusterName c) (cfg_Hazelcast_Persistence c)
    (cfg_Hazelcast_Map c) (cfg_Hazelcast_ExecutorService c) (cfg_Hazelcast_DurableExecutorService c)
    (cfg_Hazelcast_ScheduledExecutorService c) (cfg_Hazelcast_UserCodeDeployment c) x (cfg_Hazelcast_Properties c)
    (cfg_Hazelcast_MultiMap c) (cfg_Hazelcast_Topic c) (cfg_Hazelcast_ReplicatedMap c) (cfg_Hazelcast_Queue c)
    (cfg_Hazelcast_Cache c) (cfg_Hazelcast_PartitionGroup c) (cfg_Hazelcast_NativeMemory c)
    (cfg_Hazelcast_AdvancedNetwork c) (cfg_Hazelcast_ManagementCenter c) (cfg_Hazelcast_Serialization c)
    (cfg_Hazelcast_SQL c) (cfg_Hazelcast_LocalDevice c) (cfg_Hazelcast_CPSubsystem c)
    (cfg_Hazelcast_UserCodeNamespaces c).
Definition with_Properties (c : cfg_Hazelcast) (x : option (gmap string string)) : cfg_Hazelcast :=
  mk_cfg_Hazelcast (cfg_Hazelcast_Jet c) (cfg_Hazelcast_ClusterName c) (cfg_Hazelcast_Persistence c)
    (cfg_Hazelcast_Map c) (cfg_Hazelcast_ExecutorService c) (cfg_Hazelcast_DurableExecutorService c)
    (cfg_Hazelcast_ScheduledExecutorService c) (cfg_Hazelcast_UserCodeDeployment c) (cfg_Hazelcast_WanReplication c)
    x (cfg_Hazelcast_MultiMap c) (cfg_Hazelcast_Topic c) (cfg_Hazelcast_ReplicatedMap c) (cfg_Hazelcast_Queue c)
    (cfg_Hazelcast_Cache c) (cfg_Hazelcast_PartitionGroup c) (cfg_Hazelcast_NativeMemory c)
    (cfg_Hazelcast_AdvancedNetwork c) (cfg_Hazelcast_ManagementCenter c) (cfg_Hazelcast_Serialization c)
    (cfg_Hazelcast_SQL c) (cfg_Hazelcast_LocalDevice c) (cfg_Hazelcast_CPSubsystem c)
    (cfg_Hazelcast_UserCodeNamespaces c).
Definition with_MultiMap (c : cfg_Hazelcast) (x : option (gmap string cfg_MultiMap)) : cfg_Hazelcast :=
  mk_cfg_Hazelcast (cfg_Hazelcast_Jet c) (cfg_Hazelcast_ClusterName c) (cfg_Hazelcast_Persistence c)
    (cfg_Hazelcast_Map c) (cfg_Hazelcast_ExecutorService c) (cfg_Hazelcast_DurableExecutorService c)
    (cfg_Hazelcast_ScheduledExecutorService c) (cfg_Hazelcast_UserCodeDeployment c) (cfg_Hazelcast_WanReplication c)
    (cfg_Hazelcast_Properties c) x (cfg_Hazelcast_Topic c) (cfg_Hazelcast_ReplicatedMap c) (cfg_Hazelcast_Queue c)
    (cfg_Hazelcast_Cache c) (cfg_Hazelcast_PartitionGroup c) (cfg_Hazelcast_NativeMemory c)
    (cfg_Hazelcast_AdvancedNetwork c) (cfg_Hazelcast_ManagementCenter c) (cfg_Hazelcast_Serialization c)
    (cfg_Hazelcast_SQL c) (cfg_Hazelcast_LocalDevice c) (cfg_Hazelcast_CPSubsystem c)
    (cfg_Hazelcast_UserCodeNamespaces c).
Definition with_Topic (c : cfg_Hazelcast) (x : option (gmap string cfg_Topic)) : cfg_Hazelcast :=
  mk_cfg_Hazelcast (cfg_Hazelcast_Jet c) (cfg_Hazelcast_ClusterName c) (cfg_Hazelcast_Persistence c)
    (cfg_Hazelcast_Map c) (cfg_Hazelcast_ExecutorService c) (cfg_Hazelcast_DurableExecutorService c)
    (cfg_Hazelcast_ScheduledExecutorService c) (cfg_Hazelcast_UserCodeDeployment c) (cfg_Hazelcast_WanReplication c)
    (cfg_Hazelcast_Properties c) (cfg_Hazelcast_MultiMap c) x (cfg_Hazelcast_ReplicatedMap c)
    (cfg_Hazelcast_Queue c) (cfg_Hazelcast_Cache c) (cfg_Hazelcast_PartitionGroup c) (cfg_Hazelcast_NativeMemory c)
    (cfg_Hazelcast_AdvancedNetwork c) (cfg_Hazelcast_ManagementCenter c) (cfg_Hazelcast_Serialization c)
    (cfg_Hazelcast_SQL c) (cfg_Hazelcast_LocalDevice c) (cfg_Hazelcast_CPSubsystem c)
    (cfg_Hazelcast_UserCodeNamespaces c).
Definition with_ReplicatedMap (c : cfg_Hazelcast) (x : option (gmap string cfg_ReplicatedMap)) : cfg_Hazelcast :=
  mk_cfg_Hazelcast (cfg_Hazelcast_Jet c) (cfg_Hazelcast_ClusterName c) (cfg_Hazelcast_Persistence c)
    (cfg_Hazelcast_Map c) (cfg_Hazelcast_ExecutorService c) (cfg_Hazelcast_DurableExecutorService c)
    (cfg_Hazelcast_ScheduledExecutorService c) (cfg_Hazelcast_UserCodeDeployment c) (cfg_Hazelcast_WanReplication c)
    (cfg_Hazelcast_Properties c) (cfg_Hazelcast_MultiMap c) (cfg_Hazelcast_Topic c) x (cfg_Hazelcast_Queue c)
    (cfg_Hazelcast_Cache c) (cfg_Hazelcast_PartitionGroup c) (cfg_Hazelcast_NativeMemory c)
    (cfg_Hazelcast_AdvancedNetwork c) (cfg_Hazelcast_ManagementCenter c) (cfg_Hazelcast_Serialization c)
    (cfg_Hazelcast_SQL c) (cfg_Hazelcast_LocalDevice c) (cfg_Hazelcast_CPSubsystem c)
    (cfg_Hazelcast_UserCodeNamespaces c).
Definition with_Queue (c : cfg_Hazelcast) (x : option (gmap string cfg_Queue)) : cfg_Hazelcast :=
  mk_cfg_Hazelcast (cfg_Hazelcast_Jet c) (cfg_Hazelcast_ClusterName c) (cfg_Hazelcast_Persistence c)
    (cfg_Hazelcast_Map c) (cfg_Hazelcast_ExecutorService c) (cfg_Hazelcast_DurableExecutorService c)
    (cfg_Hazelcast_ScheduledExecutorService c) (cfg_Hazelcast_UserCodeDeployment c) (cfg_Hazelcast_WanReplication c)
    (cfg_Hazelcast_Properties c) (cfg_Hazelcast_MultiMap c) (cfg_Hazelcast_Topic c) (cfg_Hazelcast_ReplicatedMap c)
    x (cfg_Hazelcast_Cache c) (cfg_Hazelcast_PartitionGroup c) (cfg_Hazelcast_NativeMemory c)
    (cfg_Hazelcast_AdvancedNetwork c) (cfg_Hazelcast_ManagementCenter c) (cfg_Hazelcast_Serialization c)
    (cfg_Hazelcast_SQL c) (cfg_Hazelcast_LocalDevice c) (cfg_Hazelcast_CPSubsystem c)
    (cfg_Hazelcast_UserCodeNamespaces c).
Definition with_Cache (c : cfg_Hazelcast) (x : option (gmap string cfg_Cache)) : cfg_Hazelcast :=
  mk_cfg_Hazelcast (cfg_Hazelcast_Jet c) (cfg_Hazelcast_ClusterName c) (cfg_Hazelcast_Persistence c)
    (cfg_Hazelcast_Map c) (cfg_Hazelcast_ExecutorService c) (cfg_Hazelcast_DurableExecutorService c)
    (cfg_Hazelcast_ScheduledExecutorService c) (cfg_Hazelcast_UserCodeDeployment c) (cfg_Hazelcast_WanReplication c)
    (cfg_Hazelcast_Properties c) (cfg_Hazelcast_MultiMap c) (cfg_Hazelcast_Topic c) (cfg_Hazelcast_ReplicatedMap c)
    (cfg_Hazelcast_Queue c) x (cfg_Hazelcast_PartitionGroup c) (cfg_Hazelcast_NativeMemory c)
    (cfg_Hazelcast_AdvancedNetwork c) (cfg_Hazelcast_ManagementCenter c) (cfg_Hazelcast_Serialization c)
    (cfg_Hazelcast_SQL c) (cfg_Hazelcast_LocalDevice c) (cfg_Hazelcast_CPSubsystem c)
    (cfg_Hazelcast_UserCodeNamespaces c).
Definition with_Serialization (c : cfg_Hazelcast) (x : cfg_Serialization) : cfg_Hazelcast :=
  mk_cfg_Hazelcast (cfg_Hazelcast_Jet c) (cfg_Hazelcast_ClusterName c) (cfg_Hazelcast_Persistence c)
    (cfg_Hazelcast_Map c) (cfg_Hazelcast_ExecutorService c) (cfg_Hazelcast_DurableExecutorService c)
    (cfg_Hazelcast_ScheduledExecutorService c) (cfg_Hazelcast_UserCodeDeployment c) (cfg_Hazelcast_WanReplication c)
    (cfg_Hazelcast_Properties c) (cfg_Hazelcast_MultiMap c) (cfg_Hazelcast_Topic c) (cfg_Hazelcast_ReplicatedMap c)
    (cfg_Hazelcast_Queue c) (cfg_Hazelcast_Cache c) (cfg_Hazelcast_PartitionGroup c) (cfg_Hazelcast_NativeMemory c)
    (cfg_Hazelcast_AdvancedNetwork c) (cfg_Hazelcast_ManagementCenter c) x (cfg_Hazelcast_SQL c)
    (cfg_Hazelcast_LocalDevice c) (cfg_Hazelcast_CPSubsystem c) (cfg_Hazelcast_UserCodeNamespaces c).
Definition with_UserCodeNamespaces (c : cfg_Hazelcast) (x : cfg_UserCodeNamespaces) : cfg_Hazelcast :=
  mk_cfg_Hazelcast (cfg_Hazelcast_Jet c) (cfg_Hazelcast_ClusterName c) (cfg_Hazelcast_Persistence c)
    (cfg_Hazelcast_Map c) (cfg_Hazelcast_ExecutorService c) (cfg_Hazelcast_DurableExecutorService c)
    (cfg_Hazelcast_ScheduledExecutorService c) (cfg_Hazelcast_UserCodeDeployment c) (cfg_Hazelcast_WanReplication c)
    (cfg_Hazelcast_Properties c) (cfg_Hazelcast_MultiMap c) (cfg_Hazelcast_Topic c) (cfg_Hazelcast_ReplicatedMap c)
    (cfg_Hazelcast_Queue c) (cfg_Hazelcast_Cache c) (cfg_Hazelcast_PartitionGroup c) (cfg_Hazelcast_NativeMemory c)
    (cfg_Hazelcast_AdvancedNetwork c) (cfg_Hazelcast_ManagementCenter c) (cfg_Hazelcast_Serialization c)
    (cfg_Hazelcast_SQL c) (cfg_Hazelcast_LocalDevice c) (cfg_Hazelcast_CPSubsystem c) x.

(** * Values read back from hazelcast.yaml

    What the [read_] functions of ConfigTypes.v keep: the content always, the
    value itself when no list or map is empty without being nil. *)

(** A value that went through hazelcast.yaml: empty lists and maps may have
    become nil. *)
Lemma default_read_list {A} (r : A -> A) o : default [] (read_list r o) = r <$> default [] o.
Proof. by destruct o. Qed.
Lemma default_read_omit_list {A} (r : A -> A) o : default [] (read_omit_list r o) = r <$> default [] o.
Proof. by destruct o as [[|x l]|]. Qed.
Lemma default_read_omit_map {A} (r : A -> A) (o : option (gmap string A)) :
  default ∅ (read_omit_map r o) = r <$> default ∅ o.
Proof.
  destruct o as [m|]; simpl; [|by rewrite fmap_empty]. unfold map_is_empty.
  destruct (Nat.eqb_spec (size m) 0) as [Hs|]; [|done]. apply map_size_empty_inv in Hs. subst. by rewrite fmap_empty.
Qed.

Lemma read_list_stable {A} (o : option (list A)) : read_list id o = o <-> o <> None.
Proof. unfold read_list. destruct o; simpl; [|done]. by rewrite list_fmap_id. Qed.

Lemma read_omit_list_id {A} (o : option (list A)) : read_omit_list id o = o <-> o <> Some [].
Proof. destruct o as [[|x l]|]; simpl; [done| |done]. by rewrite list_fmap_id. Qed.

Lemma read_omit_map_id {A} (o : option (gmap string A)) : read_omit_map id o = o <-> o <> Some ∅.
Proof.
  destruct o as [m|]; simpl; [|done]. unfold map_is_empty. rewrite map_fmap_id.
  destruct (Nat.eqb_spec (size m) 0) as [Hs|Hs].
  - apply map_size_empty_inv in Hs. subst. split; [by intros [=]|intros Hc; by destruct Hc].
  - split; [intros _ [= ->]|done]. by rewrite map_size_empty in Hs.
Qed.

(** A list whose elements are left alone. *)
Lemma fmap_fixed {A} (f : A -> A) (l : list A) : f <$> l = l <-> Forall (fun x => f x = x) l.
Proof.
  induction l as [|x l IH]; [done|]. rewrite fmap_cons, Forall_cons. rewrite <-IH.
  split; [intros [=]; by split|intros [-> ->]; done].
Qed.

#[local] Arguments read_list : simpl never.
#[local] Arguments read_omit_list : simpl never.
#[local] Arguments read_omit_map : simpl never.

(** ** Reading back twice *)

Lemma read_omit_list_idem {A} (f : A -> A) o : (forall x, f (f x) = f x) ->
  read_omit_list f (read_omit_list f o) = read_omit_list f o.
Proof.
  intros Hf. destruct o as [[|x l]|]; [done| |done]. unfold read_omit_list. rewrite !fmap_cons, Hf, <- list_fmap_compose.
  do 2 f_equal. apply list_fmap_ext. intros i y _. apply Hf.
Qed.

Lemma read_omit_map_idem {A} (f : A -> A) o : (forall x, f (f x) = f x) ->
  read_omit_map f (read_omit_map f o) = read_omit_map f o.
Proof.
  intros Hf. destruct o as [m|]; [|done]. unfold read_omit_map, map_is_empty.
  destruct (Nat.eqb_spec (size m) 0) as [|Hs]; [done|]. rewrite map_size_fmap.
  destruct (Nat.eqb_spec (size m) 0); [done|]. f_equal. rewrite <- map_fmap_compose.
  apply map_fmap_ext. intros i y _. apply Hf.
Qed.

Lemma read_list_idem {A} (o : option (list A)) : read_list id (read_list id o) = read_list id o.
Proof. by apply read_list_stable. Qed.

Lemma index_read_idem i : cfg_MapIndex_read (cfg_MapIndex_read i) = cfg_MapIndex_read i.
Proof.
  destruct i as [a b l o]. change (mk_cfg_MapIndex a b (read_list id (read_list id l)) o
    = mk_cfg_MapIndex a b (read_list id l) o). by rewrite read_list_idem.
Qed.

Lemma wan_reference_read_idem w :
  cfg_WanReplicationReference_read (cfg_WanReplicationReference_read w) = cfg_WanReplicationReference_read w.
Proof.
  destruct w as [a b l]. change (mk_cfg_WanReplicationReference a b (read_list id (read_list id l))
    = mk_cfg_WanReplicationReference a b (read_list id l)). by rewrite read_list_idem.
Qed.

Lemma cfg_Map_read_idem c : cfg_Map_read (cfg_Map_read c) = cfg_Map_read c.
Proof.
  unfold cfg_Map_read. simpl. unfold cfg_MapStoreConfig_read. simpl.
  by rewrite !read_omit_list_idem, !read_omit_map_idem
    by first [ done | apply index_read_idem | apply wan_reference_read_idem ].
Qed.
