(* ===== verification/CustomConfig.v ===== *)
(** * The custom configuration of a cluster

    [mergeConfig] and [deepMerge] of
    src/internal/controller/hazelcast/hazelcast_resources.go: the sections of
    hazelcast.yaml the operator generates are merged with those of a
    ConfigMap, either section by section, the operator's first, or value by
    value, the user's first.

    A decoded YAML mapping (a [map\[string\]interface{}]) is a list of keys and
    values without duplicates, which assignment updates in place.  A mapping
    below the top with a key that is no text is decoded into another type
    ([map\[interface{}\]interface{}]), which is never merged. *)

From S2P Require Import Prelude Eff ConfigTypes.
#[local] Open Scope string_scope.
#[local] Open Scope list_scope.
#[local] Set Warnings "-register-all".

(** ** Generic YAML values *)

Inductive yaml :=
| YScalar (text : string)
| YSeq (items : list yaml)
| YMap (entries : list (string * yaml))
| YAnyMap (entries : list (yaml * yaml)).

Definition ymap : Type := list (string * yaml).

Fixpoint yget (m : ymap) (k : string) : option yaml :=
  match m with
  | [] => None
  | (k', v) :: m => if decide (k = k') then Some v else yget m k
  end.
Fixpoint yset (m : ymap) (k : string) (v : yaml) : ymap :=
  match m with
  | [] => [(k, v)]
  | (k', v') :: m => if decide (k = k') then (k', v) :: m else (k', v') :: yset m k v
  end.

(** The values of the documents the operator marshals and of the texts it is
    given: [yaml.Marshal] followed by [yaml.Unmarshal] into a map, for a
    configuration that can be marshalled; [yaml.Unmarshal] of a text; and the
    document of a map. *)
Class YamlTree `{YamlLib} := {
  yaml_sections : cfg_Hazelcast -> sum ymap error;
  yaml_parse : string -> sum ymap error;
  yaml_Marshal_sections : ymap -> Document;
}.

(** ** Merging *)

(** What [deepMerge] leaves under a key that holds [d] in [dst] (if any) and
    [v] in [src]. *)
Fixpoint merge_value (d : option yaml) (v : yaml) {struct v} : yaml :=
  match v, d with
  | YMap src, Some (YMap dst) =>
      YMap ((fix go (dst src : ymap) : ymap :=
               match src with
               | [] => dst
               | (k, v) :: src => go (yset dst k (merge_value (yget dst k) v)) src
               end) dst src)
  | _, _ => v
  end.

Fixpoint deepMerge (dst src : ymap) : ymap :=
  match src with
  | [] => dst
  | (k, v) :: src => deepMerge (yset dst k (merge_value (yget dst k) v)) src
  end.

Lemma merge_value_maps dst src : merge_value (Some (YMap dst)) (YMap src) = YMap (deepMerge dst src).
Proof. reflexivity. Qed.

(** [cstCfg\[k\] = v] for every section of [crCfg]. *)
Fixpoint assign_sections (cstCfg crCfg : ymap) : ymap :=
  match crCfg with
  | [] => cstCfg
  | (k, v) :: crCfg => assign_sections (yset cstCfg k v) crCfg
  end.

(** [Panic] is the panic of [yaml.Marshal]. *)
Definition mergeConfig `{YamlTree} (cstCfg : ymap) (cfg : cfg_Hazelcast) (overwrite : bool) : res (sum ymap error) :=
  if inline_conflict cfg then Panic else
  match yaml_sections cfg with
  | inr e => Ret (inr e)
  | inl crCfg =>
      if overwrite then Ret (inl (deepMerge crCfg cstCfg))
      else Ret (inl (assign_sections cstCfg crCfg))
  end.

(** ** Lookup *)

(** The value at a path of keys. *)
Fixpoint ypath (m : ymap) (p : list string) : option yaml :=
  match p with
  | [] => Some (YMap m)
  | k :: p =>
      match yget m k with
      | Some (YMap m') => ypath m' p
      | Some v => match p with [] => Some v | _ => None end
      | None => None
      end
  end.

Definition is_map (v : yaml) : bool := match v with YMap _ => true | _ => false end.

(** No key twice, at any depth. *)
Fixpoint yaml_wf (v : yaml) : Prop :=
  match v with
  | YMap m => NoDup m.*1 /\ (fix all (m : ymap) : Prop := match m with [] => True | (_, v) :: m => yaml_wf v /\ all m end) m
  | _ => True
  end.
Definition ymap_wf (m : ymap) : Prop := yaml_wf (YMap m).

Lemma yget_yset m k v k' : yget (yset m k v) k' = if decide (k' = k) then Some v else yget m k'.
Proof.
  induction m as [|[k0 v0] m IH]; simpl; [done|]. destruct (decide (k = k0)) as [->|Hk]; simpl.
  - by case_decide.
  - rewrite IH. repeat case_decide; congruence.
Qed.

Lemma ymap_wf_cons k v m : ymap_wf ((k, v) :: m) <-> k ∉ m.*1 /\ yaml_wf v /\ ymap_wf m.
Proof. unfold ymap_wf. simpl. rewrite NoDup_cons. tauto. Qed.

Lemma yget_none m k : k ∉ m.*1 -> yget m k = None.
Proof.
  induction m as [|[k0 v0] m IH]; [done|]. rewrite fmap_cons, not_elem_of_cons. simpl.
  intros [Hk Hm]. by rewrite decide_False, IH by done.
Qed.

Lemma yget_wf m k v : ymap_wf m -> yget m k = Some v -> yaml_wf v.
Proof.
  induction m as [|[k0 v0] m IH]; [done|]. rewrite ymap_wf_cons. simpl. intros (_ & Hv & Hm).
  case_decide; [by intros [= <-]|auto].
Qed.

Lemma yget_deepMerge src dst k : ymap_wf src ->
  yget (deepMerge dst src) k = match yget src k with Some v => Some (merge_value (yget dst k) v) | None => yget dst k end.
Proof.
  revert dst. induction src as [|[k0 v0] src IH]; intros dst; [done|]. rewrite ymap_wf_cons. intros (Hk & _ & Hs).
  simpl. rewrite IH, yget_yset by done. case_decide as E; [subst|done]. by rewrite yget_none.
Qed.

Lemma yget_assign cst cr k : ymap_wf cr ->
  yget (assign_sections cst cr) k = match yget cr k with Some v => Some v | None => yget cst k end.
Proof.
  revert cst. induction cr as [|[k0 v0] cr IH]; intros cst; [done|]. rewrite ymap_wf_cons. intros (Hk & _ & Hs).
  simpl. rewrite IH, yget_yset by done. case_decide as E; [subst|done]. by rewrite yget_none.
Qed.

(** A value of the user that is not a mapping is the value of the result. *)
Lemma deepMerge_user p src dst v : ymap_wf src -> ypath src p = Some v -> is_map v = false ->
  ypath (deepMerge dst src) p = Some v.
Proof.
  revert src dst. induction p as [|k p IH]; intros src dst Hw Hp Hv; [by injection Hp as <-|].
  simpl in Hp |- *. rewrite yget_deepMerge by done. destruct (yget src k) as [u|] eqn:E; [|done].
  pose proof (yget_wf _ _ _ Hw E) as Hu.
  destruct u as [t|l|m|l]; [by destruct p; [injection Hp as <-|]..| |by destruct p; [injection Hp as <-|]].
  destruct (yget dst k) as [[t|l|d|l]|]; rewrite ?merge_value_maps; first [by apply IH|exact Hp].
Qed.

(** The user says nothing about the path: neither gives it a value nor
    replaces a mapping on the way to it. *)
Fixpoint untouched (m : ymap) (p : list string) : bool :=
  match p with
  | [] => false
  | k :: p =>
      match yget m k with
      | None => true
      | Some (YMap m') => untouched m' p
      | Some _ => false
      end
  end.

Lemma deepMerge_operator p src dst : ymap_wf src -> untouched src p = true ->
  ypath (deepMerge dst src) p = ypath dst p.
Proof.
  revert src dst. induction p as [|k p IH]; intros src dst Hw Hp; [done|].
  simpl in Hp |- *. rewrite yget_deepMerge by done. destruct (yget src k) as [u|] eqn:E; [|done].
  pose proof (yget_wf _ _ _ Hw E) as Hu. destruct u as [t|l|m|l]; [done..| |done].
  assert (Hn : forall q m', untouched m' q = true -> ypath m' q = None).
  { clear. induction q as [|k q IH]; intros m' H; [done|]. simpl in H |- *.
    destruct (yget m' k) as [[t|l|m''|l]|]; try done. by apply IH. }
  destruct (yget dst k) as [[t|l|d|l]|]; rewrite ?merge_value_maps; [| |by apply IH|..]; cbn [merge_value].
  - rewrite Hn by done. destruct p; done.
  - rewrite Hn by done. destruct p; done.
  - rewrite Hn by done. destruct p; done.
  - by rewrite Hn.
Qed.
