(* ===== verification/HazelcastValidation.v ===== *)
(** * Validation of the Hazelcast resource (src/api/v1alpha1/hazelcast_validation.go)

    One definition per method of [hazelcastValidator], by the field errors it
    appends; a method that dereferences a nil pointer panics, so the methods
    that can are in [res].  What the webhook reads outside the object is the
    record [Cluster]: the answers of the API server ([kubeclient.Get]) and the
    environment of the operator; one validation sees one such state.

    Parameters: [encoding/json] and [gopkg.in/yaml.v3] ([HazelcastJson],
    [YamlValid]), [sort.Slice], which is not stable ([SortByMin]), and
    [resource.Quantity]. *)

From S2P Require Import Prelude Eff FieldValidation Regexp HazelcastTypes.
From stdpp Require Import pretty sorting.
#[local] Open Scope Z_scope.

Definition n_LastSuccessfulSpecAnnotation : string := "hazelcast.com/last-successful-spec".
Definition n_HazelcastCustomConfigKey : string := "hazelcast".
Definition ClusterSizeLimit : Z := 300.
Definition MemberServerSocketPort : Z := 5702.
Definition ClientServerSocketPort : Z := 5701.
Definition RestServerSocketPort : Z := 8081.

Definition InitialRamPerArg : string := "-XX:InitialRAMPercentage".
Definition MaxRamPerArg : string := "-XX:MaxRAMPercentage".
Definition MinRamPerArg : string := "-XX:MinRAMPercentage".
Definition GCLoggingArg : string := "-verbose:gc".
Definition SerialGCArg : string := "-XX:+UseSerialGC".
Definition ParallelGCArg : string := "-XX:+UseParallelGC".
Definition G1GCArg : string := "-XX:+UseG1GC".

(** [pointer.Int32Deref] *)
Definition Int32Deref (p : option Z) (d : Z) : Z := default d p.
Definition ptr_value (p : option Z) : go_value := match p with Some z => VInt z | None => VNone end.

(** [strings.Contains] *)
Fixpoint Contains (s sub : string) : bool :=
  String.prefix sub s || match s with
                         | EmptyString => false
                         | String _ s => Contains s sub
                         end.

Definition quoted (s : string) : string := String "034" (s ++ String "034" "").

Definition NamespacedName : Type := string * string.  (* namespace, name *)

(** What one validation observes of the world. *)
Record Cluster := mkCluster {
  get_Secret : NamespacedName -> option error;
  get_ConfigMap : NamespacedName -> fetched (gmap string string);
  get_HotBackup : NamespacedName -> option error;
  env : string -> option string;
}.

Definition n_HazelcastNodeDiscoveryEnabledEnv : string := "HAZELCAST_NODE_DISCOVERY_ENABLED".

Definition NodeDiscoveryEnabled (c : Cluster) : bool :=
  match env c n_HazelcastNodeDiscoveryEnabledEnv with
  | None => true
  | Some watching => strb watching "true"
  end.

Definition err_NotFound (e : option error) : bool :=
  match e with Some e => IsNotFound e | None => false end.

Record portRange := mkPortRange { pr_min : Z; pr_max : Z }.

Definition pr_less (a b : portRange) : bool := pr_min a <? pr_min b.

(** [sort.Slice] with [pr_less]: a permutation in which no element is less
    than its predecessor; elements with equal [min] come in any order. *)
Class SortByMin := {
  sort_Slice : list portRange -> list portRange;
  sort_Slice_perm l : sort_Slice l ≡ₚ l;
  sort_Slice_sorted l : Sorted (fun a b => pr_less b a = false) (sort_Slice l);
}.

Class HazelcastJson `{QuantityLib} := {
  HazelcastSpec_Unmarshal : string -> sum HazelcastSpec error;
}.

Class YamlValid := { yaml_Unmarshal : string -> option error }.

(** A validator that can panic, followed by another. *)
Definition and_then (a b : res errs) : res errs :=
  bind_res a (fun x => bind_res b (fun y => Ret (x ++ y))).
Declare Scope valid_scope.
Delimit Scope valid_scope with valid.
Infix ">>" := and_then (at level 60, right associativity) : valid_scope.

Section Validation.
Context `{QuantityLib} `{!HazelcastJson} `{YamlValid} `{SortByMin} `{KErrors}.
Variable c : Cluster.

(** [^[a-zA-Z]([a-zA-Z0-9-]*[a-zA-Z0-9])?(\.[a-zA-Z]([a-zA-Z0-9-]*[a-zA-Z0-9])?)*$] *)
Definition label_regex : regex :=
  (RCls c_letter · ROpt (RStar (RCls c_alnum_dash) · RCls c_alnum))%re.
Definition name_regex : regex := (label_regex · RStar (RCls c_dot · label_regex))%re.

Definition validateMetadata (h : Hazelcast) : errs :=
  if negb (MatchString name_regex (h_Name h)) then
    Invalid (Path "metadata" ["name"]) (VStr (h_Name h))
      ("Hazelcast name has the same constraints as DNS-1035 label." ++
       " It must consist of lower case alphanumeric characters or '-'," ++
       " start with an alphabetic character, and end with an alphanumeric character" ++
       " (e.g. 'my-name',  or 'abc-123', regex used for validation is 'a-z?'")
  else [].

Definition validateExposeExternally (h : Hazelcast) : errs :=
  match s_ExposeExternally (h_Spec h) with
  | None => []
  | Some ee =>
      (if strb (ee_Type ee) ExposeExternallyTypeUnisocket && negb (strb (ee_MemberAccess ee) "")
       then Forbidden (Path "spec" ["exposeExternally"; "memberAccess"])
              ("can't be set when exposeExternally.type is set to " ++ quoted "Unisocket")
       else []) ++
      (if strb (ee_Type ee) ExposeExternallyTypeSmart && strb (ee_MemberAccess ee) MemberAccessNodePortExternalIP
       then if negb (NodeDiscoveryEnabled c)
            then Invalid (Path "spec" ["exposeExternally"; "memberAccess"]) (VStr (ee_MemberAccess ee))
                   "value not supported when Hazelcast node discovery is not enabled"
            else []
       else []) ++
      (if negb (strb (ee_DiscoveryServiceType ee) ServiceTypeNodePort
                || strb (ee_DiscoveryServiceType ee) ServiceTypeLoadBalancer)
       then Invalid (Path "spec" ["exposeExternally"; "discoveryServiceType"])
              (VStr (ee_DiscoveryServiceType ee)) "service type not supported"
       else [])
  end.

Definition validateCustomConfig (h : Hazelcast) : errs :=
  let name := s_CustomConfigCmName (h_Spec h) in
  let p := Path "spec" ["customConfigCmName"] in
  if negb (strb name "") then
    match get_ConfigMap c (h_Namespace h, name) with
    | Failed err =>
        if IsNotFound err then NotFound p (VStr "ConfigMap for Hazelcast custom configs not found") else []
    | Found data =>
        match data !! n_HazelcastCustomConfigKey with
        | None => NotFound p (VStr ("ConfigMap for Hazelcast custom configs must contain '"
                                    ++ n_HazelcastCustomConfigKey ++ "' key"))
        | Some config =>
            match yaml_Unmarshal config with
            | Some _ => NotFound p (VStr "ConfigMap for Hazelcast custom configs is not a valid yaml")
            | None => []
            end
        end
    end
  else [].

Definition validateLicense (h : Hazelcast) : errs :=
  let name := HazelcastSpec_GetLicenseKeySecretName (h_Spec h) in
  if negb (strb name "") && err_NotFound (get_Secret c (h_Namespace h, name))
  then NotFound (Path "spec" ["licenseKeySecretName"]) (VStr "Hazelcast Enterprise licenseKeySecret is not found")
  else [].

Definition validateTLS (h : Hazelcast) : errs :=
  match s_TLS (h_Spec h) with
  | None => []
  | Some tls =>
      if strb (tls_SecretName tls) "" && strb (tls_MutualAuthentication tls) "" then [] else
      let p := Path "spec" ["tls"; "secretName"] in
      if strb (tls_SecretName tls) ""
      then Required p "Hazelcast Enterprise TLS Secret name must be set"
      else if err_NotFound (get_Secret c (h_Namespace h, tls_SecretName tls))
      then NotFound p (VStr "Hazelcast Enterprise TLS Secret not found")
      else []
  end.

Definition validatePersistence (h : Hazelcast) : errs :=
  match s_Persistence (h_Spec h) with
  | None => []
  | Some p =>
      match p_PVC p with
      | None => Required (Path "spec" ["persistence"; "pvc"]) "must be set when persistence is enabled"
      | Some pvc =>
          if is_nil (pvc_AccessModes pvc)
          then Required (Path "spec" ["persistence"; "pvc"; "accessModes"]) "must be set when persistence is enabled"
          else []
      end ++
      (if strb (p_StartupAction p) PartialStart && strb (p_ClusterDataRecoveryPolicy p) FullRecovery
       then Forbidden (Path "spec" ["persistence"; "startupAction"])
              "PartialStart can be used only with Partial clusterDataRecoveryPolicy"
       else []) ++
      (let hb := rc_HotBackupResourceName (p_Restore p) in
       if Persistence_IsRestoreEnabled p && negb (strb hb "")
          && err_NotFound (get_HotBackup c (h_Namespace h, hb))
       then NotFound (Path "spec" ["persistence"; "restore"; "hotBackupResourceName"])
              (VStr ("There is not hot backup found with name " ++ hb))
       else [])
  end.

(** [*h.Spec.ClusterSize] panics on a nil pointer. *)
Definition validateClusterSize (h : Hazelcast) : res errs :=
  match s_ClusterSize (h_Spec h) with
  | None => Panic
  | Some size =>
      Ret (if size >? ClusterSizeLimit
           then Invalid (Path "spec" ["clusterSize"]) (VInt size)
                  ("may not be greater than " ++ pretty ClusterSizeLimit)
           else [])
  end.

Definition wan_elem (i : nat) : string := "wan[" ++ pretty i ++ "]".

Definition validateWANServiceTypes (wan : list WANConfig) : errs :=
  mjoin (imap (fun i w =>
    if strb (w_ServiceType w) ServiceTypeNodePort || strb (w_ServiceType w) ServiceTypeExternalName
    then Forbidden (Path "spec" ["advancedNetwork"; wan_elem i])
           "invalid serviceType value, possible values are ClusterIP and LoadBalancer"
    else []) wan).

(** [fmt.Sprintf("%d-%d", min, max-1)] *)
Definition show_range (r : portRange) : string :=
  pretty (pr_min r) ++ "-" ++ pretty (uint64 (pr_max r - 1)).

Definition wan_range (w : WANConfig) : portRange :=
  mkPortRange (w_Port w) (uint64 (w_Port w + w_PortCount w)).

(** The loop [for i := 1; i < len(portRanges); i++]. *)
Fixpoint check_adjacent (l : list portRange) : errs :=
  match l with
  | p0 :: ((p1 :: _) as rest) =>
      (if pr_max p0 >? pr_min p1
       then Invalid (Path "spec" ["advancedNetwork"; "wan"]) (VStr (show_range p0))
              ("wan ports overlapping with " ++ show_range p1)
       else []) ++ check_adjacent rest
  | _ => []
  end.

Definition isOverlapWithEachOther (wan : list WANConfig) : errs :=
  check_adjacent (sort_Slice (map wan_range wan)).

Definition isOverlapWithOtherSockets (wan : list WANConfig) : errs :=
  mjoin (imap (fun i w =>
    let r := wan_range w in
    let hits p := (pr_min r <=? p) && (p <? pr_max r) in
    if hits MemberServerSocketPort || hits ClientServerSocketPort || hits RestServerSocketPort
    then Invalid (Path "spec" ["advancedNetwork"; wan_elem i]) (VStr (show_range r))
           ("wan ports conflicting with one of " ++ pretty ClientServerSocketPort ++ ","
            ++ pretty MemberServerSocketPort ++ "," ++ pretty RestServerSocketPort)
    else []) wan).

Definition validateWANPorts (wan : list WANConfig) : errs :=
  isOverlapWithEachOther wan ++ isOverlapWithOtherSockets wan.

Definition validateAdvancedNetwork (h : Hazelcast) : errs :=
  match s_AdvancedNetwork (h_Spec h) with
  | None => []
  | Some an => validateWANServiceTypes (an_WAN an) ++ validateWANPorts (an_WAN an)
  end.

Fixpoint validateArg (args : list string) (arg : string) : errs :=
  match args with
  | [] => []
  | s :: args =>
      if Contains s arg
      then Duplicate (Path "spec" ["jvm"; "args"]) (VStr (arg ++ " is already set up in JVM config"))
      else validateArg args arg
  end.

Definition validateJVMMemoryArgs (m : option JVMMemoryConfiguration) (args : list string) : errs :=
  match m with
  | None => []
  | Some m =>
      (if is_nil (jm_InitialRAMPercentage m) then [] else validateArg args InitialRamPerArg) ++
      (if is_nil (jm_MaxRAMPercentage m) then [] else validateArg args MaxRamPerArg) ++
      (if is_nil (jm_MinRAMPercentage m) then [] else validateArg args MinRamPerArg)
  end.

Definition validateJVMGCArgs (gc : option JVMGCConfiguration) (args : list string) : errs :=
  match gc with
  | None => []
  | Some gc =>
      (if is_nil (gc_Logging gc) then [] else validateArg args GCLoggingArg) ++
      match gc_Collector gc with
      | None => []
      | Some c =>
          (if strb c GCTypeSerial then validateArg args SerialGCArg else []) ++
          (if strb c GCTypeParallel then validateArg args ParallelGCArg else []) ++
          (if strb c GCTypeG1 then validateArg args G1GCArg else [])
      end
  end.

Definition validateJVMConfig (h : Hazelcast) : errs :=
  match s_JVM (h_Spec h) with
  | None => []
  | Some jvm => validateJVMMemoryArgs (jvm_Memory jvm) (jvm_Args jvm) ++ validateJVMGCArgs (jvm_GC jvm) (jvm_Args jvm)
  end.

Definition validateJetConfig (h : Hazelcast) : errs :=
  let j := s_JetEngineConfiguration (h_Spec h) in
  match j with
  | None => []
  | Some jet =>
      if negb (Jet_IsEnabled j) then [] else
      match j_BucketConfiguration jet with
      | None => []
      | Some bucket =>
          if negb (strb (BucketConfiguration_GetSecretName bucket) "")
             && err_NotFound (get_Secret c (h_Namespace h, bc_SecretName bucket))
          then Required (Path "spec" ["jet"; "bucketConfig"; "secretName"]) "Bucket credentials Secret not found"
          else []
      end ++
      match j_Instance jet with
      | Some i =>
          if JetInstance_IsConfigured (Some i) && ji_LosslessRestartEnabled i
             && negb (Persistence_IsEnabled (s_Persistence (h_Spec h)))
          then Forbidden (Path "spec" ["jet"; "instance"; "losslessRestartEnabled"])
                 "can be enabled only if persistence enabled"
          else []
      | None => []
      end
  end.

Definition validateNativeMemory (h : Hazelcast) : errs :=
  match s_NativeMemory (h_Spec h) with
  | None => []
  | Some nm =>
      if Persistence_IsEnabled (s_Persistence (h_Spec h)) && negb (strb (nm_AllocatorType nm) NativeMemoryPooled)
      then Required (Path "spec" ["nativeMemory"; "allocatorType"])
             "MemoryAllocatorType.STANDARD cannot be used when Persistence is enabled, Please use MemoryAllocatorType.POOLED!"
      else []
  end.

Definition validateSQL (h : Hazelcast) : errs :=
  match s_SQL (h_Spec h) with
  | None => []
  | Some sql =>
      if sql_CatalogPersistenceEnabled sql && negb (Persistence_IsEnabled (s_Persistence (h_Spec h)))
      then Forbidden (Path "spec" ["sql"; "catalogPersistence"])
             "catalogPersistence requires Hazelcast persistence enabled"
      else []
  end.

Definition validateLocalDevice (ld : LocalDeviceConfig) : errs :=
  match ld_PVC ld with
  | None => Required (Path "spec" ["localDevices"; "pvc"]) "must be set when LocalDevice is defined"
  | Some pvc =>
      if is_nil (pvc_AccessModes pvc)
      then Required (Path "spec" ["localDevices"; "pvc"; "accessModes"]) "must be set when LocalDevice is defined"
      else []
  end.

Definition validateTieredStorage (h : Hazelcast) : errs :=
  if negb (HazelcastSpec_IsTieredStorageEnabled (h_Spec h)) then [] else
  (if negb (NativeMemory_IsEnabled (s_NativeMemory (h_Spec h)))
   then Required (Path "spec" ["nativeMemory"])
          "Native Memory must be enabled at Hazelcast when Tiered Storage is enabled"
   else []) ++
  mjoin (map validateLocalDevice (s_LocalDevices (h_Spec h))).

Definition validateSessionTTLSeconds (cp : CPSubsystem) : errs :=
  let ttl := Int32Deref (cp_SessionTTLSeconds cp) 300 in
  let heartbeat := Int32Deref (cp_SessionHeartbeatIntervalSeconds cp) 5 in
  let autoremoval := Int32Deref (cp_MissingCpMemberAutoRemovalSeconds cp) 14400 in
  (if ttl <=? heartbeat
   then Invalid (Path "spec" ["cpSubsystem"; "sessionTTLSeconds"]) (VInt ttl)
          "must be greater than sessionHeartbeatIntervalSeconds"
   else []) ++
  (if negb (autoremoval =? 0) && (ttl >? autoremoval)
   then Invalid (Path "spec" ["cpSubsystem"; "sessionTTLSeconds"]) (VInt ttl)
          "must be smaller than or equal to missingCpMemberAutoRemovalSeconds"
   else []).

Definition validateCPSubsystem (h : Hazelcast) : errs :=
  match s_CPSubsystem (h_Spec h) with
  | None => []
  | Some cp =>
      let memberSize := Int32Deref (s_ClusterSize (h_Spec h)) 3 in
      (if negb (memberSize =? 0) && negb (memberSize =? 3) && negb (memberSize =? 5) && negb (memberSize =? 7)
       then Invalid (Path "spec" ["clusterSize"]) (ptr_value (s_ClusterSize (h_Spec h)))
              "cluster with CP Subsystem enabled can have 3, 5, or 7 members"
       else []) ++
      (if is_nil (cp_PVC cp) && match s_Persistence (h_Spec h) with
                                | None => true
                                | Some p => is_nil (p_PVC p)
                                end
       then Required (Path "spec" ["cpSubsystem"; "pvc"]) "PVC should be configured"
       else []) ++
      validateSessionTTLSeconds cp
  end.

Definition validateSpecCurrent (h : Hazelcast) : res errs :=
  (Ret (validateMetadata h) >> Ret (validateExposeExternally h) >> Ret (validateLicense h)
   >> Ret (validateTLS h) >> Ret (validatePersistence h) >> validateClusterSize h
   >> Ret (validateAdvancedNetwork h) >> Ret (validateJetConfig h) >> Ret (validateJVMConfig h)
   >> Ret (validateCustomConfig h) >> Ret (validateNativeMemory h) >> Ret (validateSQL h)
   >> Ret (validateTieredStorage h) >> Ret (validateCPSubsystem h))%valid.

(** ** Updates *)

Definition validateNotUpdatableHzPersistenceFields
    (current last : option HazelcastPersistenceConfiguration) : errs :=
  match current, last with
  | None, None => []
  | None, Some _ => Forbidden (Path "spec" ["persistence"]) "field cannot be enabled after creation"
  | Some _, None => Forbidden (Path "spec" ["persistence"]) "field cannot be disabled after creation"
  | Some current, Some last =>
      (if negb (DeepEqual_ptr PvcConfiguration_DeepEqual (p_PVC current) (p_PVC last))
       then Forbidden (Path "spec" ["persistence"; "pvc"]) "field cannot be updated" else []) ++
      (if negb (bool_decide (p_Restore current = p_Restore last))
       then Forbidden (Path "spec" ["persistence"; "restore"]) "field cannot be updated" else [])
  end.

Definition validateNotUpdatableCPFields (current last : option CPSubsystem) : errs :=
  match current, last with
  | None, None => []
  | None, Some _ => Forbidden (Path "spec" ["cpSubsystem"]) "field cannot be enabled after creation"
  | Some _, None => Forbidden (Path "spec" ["cpSubsystem"]) "field cannot be disabled after creation"
  | Some current, Some last =>
      if negb (DeepEqual_ptr PvcConfiguration_DeepEqual (cp_PVC current) (cp_PVC last))
      then Forbidden (Path "spec" ["cpSubsystem"; "pvc"]) "field cannot be updated" else []
  end.

Definition validateNotUpdatableSQLFields (current last : option SQL) : errs :=
  match last with
  | Some l =>
      if sql_CatalogPersistenceEnabled l
         && match current with None => true | Some s => negb (sql_CatalogPersistenceEnabled s) end
      then Forbidden (Path "spec" ["sql"; "catalogPersistenceEnabled"])
             "field cannot be disabled after it has been enabled"
      else []
  | None => []
  end.

Definition validateNotUpdatableHazelcastFields (current last : HazelcastSpec) : errs :=
  (if negb (strb (s_HighAvailabilityMode current) (s_HighAvailabilityMode last))
   then Forbidden (Path "spec" ["highAvailabilityMode"]) "field cannot be updated" else []) ++
  validateNotUpdatableHzPersistenceFields (s_Persistence current) (s_Persistence last) ++
  validateNotUpdatableSQLFields (s_SQL current) (s_SQL last) ++
  validateNotUpdatableCPFields (s_CPSubsystem current) (s_CPSubsystem last).

Definition isScaledNotPaused (current last : HazelcastSpec) : bool :=
  let newSize := Int32Deref (s_ClusterSize current) 3 in
  let oldSize := Int32Deref (s_ClusterSize last) 3 in
  negb (newSize =? 0) && negb (oldSize =? 0) && negb (newSize =? oldSize).

Definition isRevertedToOldSize (h : Hazelcast) : bool :=
  Int32Deref (s_ClusterSize (h_Spec h)) 3 =? st_ClusterSize (h_Status h).

Definition validateSpecUpdate (h : Hazelcast) : errs :=
  match h_Annotations h !! n_LastSuccessfulSpecAnnotation with
  | None => []
  | Some last =>
      match HazelcastSpec_Unmarshal last with
      | inr err =>
          InternalError (Path "spec" []) (wrap "error parsing last Hazelcast spec for update errors: " err)
      | inl parsed =>
          validateNotUpdatableHazelcastFields (h_Spec h) parsed ++
          (if CPSubsystem_IsEnabled (s_CPSubsystem (h_Spec h)) && isScaledNotPaused (h_Spec h) parsed
              && negb (isRevertedToOldSize h)
           then Forbidden (Path "spec" ["clusterSize"]) "dynamic scaling not permitted when CP is enabled"
           else [])
      end
  end.

Definition ValidateHazelcastSpec (h : Hazelcast) : res (option error) :=
  bind_res (validateSpecCurrent h >> Ret (validateSpecUpdate h))%valid
    (fun es => Ret (Err "Hazelcast" (h_Name h) es)).
End Validation.
