(* ===== verification/HazelcastValidationFacts.v ===== *)
(** * What the validation of the Hazelcast resource accepts

    Declarative readings of the validators of [HazelcastValidation]: WAN
    ports are claimed once, resource names are dot-separated labels, an
    accepted object satisfies [hazelcast_ok], and fields that may not be
    updated keep their value along any chain of accepted updates. *)

From S2P Require Import Prelude Eff FieldValidation Regexp HazelcastTypes HazelcastValidation.
From stdpp Require Import pretty sorting list_numbers.
#[local] Open Scope Z_scope.
#[local] Set Warnings "-clear-no-such-hyp".

(** ** Emptiness of error lists *)

Lemma if_errs_nil (b : bool) (e : field_error) : (if b then [e] else []) = [] <-> b = false.
Proof. by destruct b. Qed.

Lemma strb_true a b : strb a b = true <-> a = b.
Proof. apply bool_decide_eq_true. Qed.
Lemma strb_false a b : strb a b = false <-> a <> b.
Proof. apply bool_decide_eq_false. Qed.
Lemma is_nil_true {A} (o : option A) : is_nil o = true <-> o = None.
Proof. by destruct o. Qed.
Lemma is_nil_false {A} (o : option A) : is_nil o = false <-> is_Some o.
Proof. destruct o; simpl; split; done. Qed.

Ltac errs_nil :=
  unfold errs, Forbidden, Invalid, NotFound, Required, Duplicate, InternalError;
  rewrite ?app_nil, ?if_errs_nil;
  do 2 rewrite ?andb_false_iff, ?andb_true_iff, ?orb_false_iff, ?orb_true_iff, ?negb_false_iff, ?negb_true_iff;
  rewrite ?strb_true, ?strb_false, ?is_nil_true, ?is_nil_false, ?Z.gtb_ltb;
  rewrite ?Z.leb_le, ?Z.leb_gt, ?Z.ltb_lt, ?Z.ltb_ge, ?Z.eqb_eq, ?Z.eqb_neq.

Lemma and_iff (A A' B B' : Prop) : (A <-> A') -> (B <-> B') -> A /\ B <-> A' /\ B'.
Proof. tauto. Qed.

Lemma forall_Some {A} (a : A) (P : A -> Prop) : (forall b, Some a = Some b -> P b) <-> P a.
Proof. naive_solver. Qed.

Lemma mjoin_nil {A} (l : list (list A)) : mjoin l = [] <-> Forall (fun x => x = []) l.
Proof.
  induction l as [|x l IH]; simpl; [done|].
  rewrite app_nil, IH, Forall_cons_iff. done.
Qed.

Lemma Forall_imap {A B} (f : nat -> A -> B) (P : B -> Prop) (Q : A -> Prop) l :
  (forall i x, P (f i x) <-> Q x) -> Forall P (imap f l) <-> Forall Q l.
Proof.
  intros Hf. revert f Hf. induction l as [|x l IH]; intros f Hf; [by split; constructor|].
  rewrite imap_cons, !Forall_cons_iff, (Hf 0%nat x), IH; [done|].
  intros i y. apply Hf.
Qed.

(** ** WAN ports *)

Definition wan_ports (w : WANConfig) : list Z := seqZ (w_Port w) (w_PortCount w).
Definition range_ports (r : portRange) : list Z := seqZ (pr_min r) (pr_max r - pr_min r).
Definition reserved_ports : list Z := [ClientServerSocketPort; MemberServerSocketPort; RestServerSocketPort].

(** A port range that claims at least one port and does not wrap around. *)
Definition wan_proper (w : WANConfig) : Prop :=
  0 <= w_Port w /\ 0 < w_PortCount w /\ w_Port w + w_PortCount w < 2 ^ 64.

(** No port is claimed twice, by WAN endpoints or by the fixed sockets. *)
Definition wan_ports_ok (wan : list WANConfig) : Prop :=
  NoDup (reserved_ports ++ (wan ≫= wan_ports)).

Definition range_proper (r : portRange) : Prop := pr_min r < pr_max r.

Lemma elem_range_ports r p : p ∈ range_ports r <-> pr_min r <= p < pr_max r.
Proof. unfold range_ports. rewrite elem_of_seqZ. lia. Qed.

Lemma wan_range_ports w : wan_proper w -> range_ports (wan_range w) = wan_ports w.
Proof.
  intros (H1 & H2 & H3). unfold range_ports, wan_range, wan_ports, uint64, uwrap; simpl.
  rewrite Z.mod_small by lia. f_equal. lia.
Qed.

Lemma wan_range_proper w : wan_proper w -> range_proper (wan_range w).
Proof.
  intros (H1 & H2 & H3). unfold range_proper, wan_range, uint64, uwrap; simpl.
  rewrite Z.mod_small by lia. lia.
Qed.

Definition min_le (a b : portRange) : Prop := pr_min a <= pr_min b.
#[export] Instance min_le_trans : Transitive min_le.
Proof. intros a b c. unfold min_le. lia. Qed.

Lemma check_adjacent_cons p0 p1 l :
  check_adjacent (p0 :: p1 :: l) = [] <-> pr_max p0 <= pr_min p1 /\ check_adjacent (p1 :: l) = [].
Proof.
  change (check_adjacent (p0 :: p1 :: l)) with
    ((if pr_max p0 >? pr_min p1
      then Invalid (Path "spec" ["advancedNetwork"; "wan"]) (VStr (show_range p0))
             ("wan ports overlapping with " ++ show_range p1)
      else []) ++ check_adjacent (p1 :: l)).
  errs_nil. done.
Qed.

Lemma NoDup_range_ports r : NoDup (range_ports r).
Proof. apply NoDup_seqZ. Qed.

(** On ranges sorted by their first port, comparing neighbours is enough. *)
Lemma check_adjacent_NoDup l :
  StronglySorted min_le l -> Forall range_proper l ->
  check_adjacent l = [] <-> NoDup (l ≫= range_ports).
Proof.
  induction l as [|p0 l IH]; intros Hs Hp; [by split; [constructor|]|].
  apply StronglySorted_inv in Hs as [Hs H0]. apply Forall_cons_iff in Hp as [Hp0 Hp].
  destruct l as [|p1 l].
  - simpl. rewrite app_nil_r. split; [intros; apply NoDup_range_ports|done].
  - rewrite check_adjacent_cons, (IH Hs Hp). clear IH.
    rewrite (bind_cons range_ports p0), NoDup_app.
    apply StronglySorted_inv in Hs as [_ H1].
    apply Forall_cons_iff in H0 as [H01 _], Hp as [Hp1 _].
    unfold range_proper, min_le in *. split.
    + intros [Hmax Hnd]. split; [apply NoDup_range_ports|]. split; [|done].
      intros x Hx%elem_range_ports Hb. apply list_elem_of_bind in Hb as (r & Hxr & Hr).
      apply elem_range_ports in Hxr. apply elem_of_cons in Hr as [->|Hr]; [lia|].
      rewrite Forall_forall in H1. specialize (H1 _ Hr). simpl in H1. lia.
    + intros (_ & Hd & Hnd). split; [|done].
      destruct (Z.le_gt_cases (pr_max p0) (pr_min p1)) as [|Hgt]; [done|exfalso].
      apply (Hd (pr_min p1)); [apply elem_range_ports; lia|].
      apply list_elem_of_bind. exists p1. split; [apply elem_range_ports; lia|left].
Qed.

(** ** Names *)

(** A label starts with a letter, ends with a letter or digit, and consists
    of letters, digits and dashes. *)
Definition dns_label (w : list Ascii.ascii) : Prop :=
  (exists a, head w = Some a /\ c_letter a = true)
  /\ Forall (fun a => c_alnum_dash a = true) w
  /\ (exists z, last w = Some z /\ c_alnum z = true).

Definition dot : Ascii.ascii := "046".

(** Labels separated by dots. *)
Definition join_dots (l : list Ascii.ascii) (ls : list (list Ascii.ascii)) : list Ascii.ascii :=
  l ++ mjoin (map (cons dot) ls).

Definition dns_name (s : string) : Prop :=
  exists l ls, Forall dns_label (l :: ls) /\ String.list_ascii_of_string s = join_dots l ls.

Lemma letter_alnum a : c_letter a = true -> c_alnum a = true.
Proof. unfold c_alnum. by intros ->. Qed.
Lemma alnum_alnum_dash a : c_alnum a = true -> c_alnum_dash a = true.
Proof. unfold c_alnum_dash. by intros ->. Qed.

Lemma c_dot_dot a : c_dot a = true <-> a = dot.
Proof.
  unfold c_dot, code. rewrite Z.eqb_eq. split; [|by intros ->].
  intros Ha. rewrite <-(Ascii.ascii_N_embedding a).
  replace (Ascii.N_of_ascii a) with 46%N by lia. done.
Qed.

Lemma matches_label w : matches label_regex w <-> dns_label w.
Proof.
  unfold label_regex, dns_label. rewrite matches_cat. split.
  - intros (u & v & -> & Hu & Hv). apply matches_cls in Hu as (a & -> & Ha).
    split; [by exists a|]. pose proof (letter_alnum _ Ha).
    apply matches_opt in Hv as [->|Hv].
    + split; [constructor; [by apply alnum_alnum_dash|done]|]. by exists a.
    + apply matches_cat in Hv as (r & v' & -> & Hu & Hv).
      apply matches_star_cls in Hu. apply matches_cls in Hv as (z & -> & Hz).
      split; [|exists z; by rewrite app_assoc, last_snoc].
      repeat (apply Forall_app; split); repeat constructor; auto using alnum_alnum_dash.
  - intros ((a & Ha & Hl) & Hall & (z & Hz & Hzn)).
    destruct w as [|b r]; simplify_eq/=. exists [a], r. split; [done|].
    split; [by constructor|]. apply matches_opt. destruct r as [|b r _] using rev_ind; [by left|right].
    rewrite app_comm_cons, last_snoc in Hz. simplify_eq.
    apply matches_cat. exists r, [z]. split; [done|].
    apply Forall_cons_iff in Hall as [_ Hall]. apply Forall_app in Hall as [Hall _].
    split; [by apply matches_star_cls|by constructor].
Qed.

Lemma matches_dot_labels w :
  matches (RStar (RCls c_dot · label_regex)%re) w <->
  exists ls, Forall dns_label ls /\ w = mjoin (map (cons dot) ls).
Proof.
  split.
  - remember (RStar _) as R eqn:ER. intros Hm. revert ER.
    induction Hm as [| | | | | |r u v Hu _ Hv IH]; intros ER; simplify_eq.
    + by exists [].
    + destruct (IH eq_refl) as (ls & Hls & ->).
      apply matches_cat in Hu as (d & l & -> & Hd & Hl).
      apply matches_cls in Hd as (b & -> & Hb). apply c_dot_dot in Hb as ->.
      exists (l :: ls). split; [|done]. constructor; [by apply matches_label|done].
  - intros (ls & Hls & ->). induction Hls as [|l ls Hl _ IH]; [constructor|].
    simpl. apply (m_star_cons _ (dot :: l)); [|done].
    apply (m_cat _ _ [dot] l); [by constructor|by apply matches_label].
Qed.

Lemma validateMetadata_ok `{QuantityLib} (h : Hazelcast) : validateMetadata h = [] <-> dns_name (h_Name h).
Proof.
  unfold validateMetadata. errs_nil. rewrite MatchString_matches.
  unfold name_regex, dns_name. rewrite matches_cat. split.
  - intros (l & v & E & Hl%matches_label & (ls & Hls & ->)%matches_dot_labels).
    exists l, ls. split; [by constructor|done].
  - intros (l & ls & Hall & E). apply Forall_cons_iff in Hall as [Hl Hls].
    exists l, (mjoin (map (cons dot) ls)). split; [done|].
    split; [by apply matches_label|]. apply matches_dot_labels. eauto.
Qed.

(** ** JVM arguments *)

Lemma append_cons a s t : (String a s ++ t)%string = String a (s ++ t).
Proof. done. Qed.

Lemma prefix_spec p s : String.prefix p s = true <-> exists t, s = (p ++ t)%string.
Proof.
  revert s. induction p as [|a p IH]; intros s; [split; [by exists s|by destruct s]|].
  destruct s as [|b s]; simpl; [split; [done|by intros [t [=]]]|].
  destruct (Ascii.ascii_dec a b) as [->|Hab].
  - rewrite IH. split; intros [t Ht]; exists t; rewrite append_cons in *; congruence.
  - split; [done|]. intros [t Ht]. rewrite append_cons in Ht. congruence.
Qed.

Lemma Contains_spec s sub : Contains s sub = true <-> exists a b, s = (a ++ sub ++ b)%string.
Proof.
  induction s as [|x s IH]; unfold Contains; fold Contains; rewrite orb_true_iff, prefix_spec.
  - split.
    + intros [[t Ht]|[=]]. exists "", t. done.
    + intros ([|y a] & b & E); [|done]. left. by exists b.
  - rewrite IH. split.
    + intros [[t Ht]|(a & b & ->)]; [by exists "", t|by exists (String x a), b].
    + intros ([|y a] & b & E); [left; by exists b|right].
      rewrite append_cons in E. injection E as -> ->. by exists a, b.
Qed.

Lemma validateArg_ok args arg : validateArg args arg = [] <-> forall s, s ∈ args -> Contains s arg = false.
Proof.
  induction args as [|s args IH]; simpl.
  - split; [|done]. intros _ s Hs. by apply elem_of_nil in Hs.
  - destruct (Contains s arg) eqn:E.
    + split; [done|]. intros Hs. specialize (Hs s). rewrite E in Hs. discriminate Hs. left.
    + rewrite IH. setoid_rewrite elem_of_cons. naive_solver.
Qed.

(** The JVM arguments the operator sets itself for a JVM configuration. *)
Definition owned_args (jvm : JVMConfiguration) : list string :=
  match jvm_Memory jvm with
  | None => []
  | Some m => (if is_nil (jm_InitialRAMPercentage m) then [] else [InitialRamPerArg])
              ++ (if is_nil (jm_MaxRAMPercentage m) then [] else [MaxRamPerArg])
              ++ (if is_nil (jm_MinRAMPercentage m) then [] else [MinRamPerArg])
  end ++
  match jvm_GC jvm with
  | None => []
  | Some gc => (if is_nil (gc_Logging gc) then [] else [GCLoggingArg])
               ++ match gc_Collector gc with
                  | None => []
                  | Some c => if strb c GCTypeSerial then [SerialGCArg]
                              else if strb c GCTypeParallel then [ParallelGCArg]
                              else if strb c GCTypeG1 then [G1GCArg] else []
                  end
  end.

Section Facts.
Context `{QuantityLib} `{!HazelcastJson} `{YamlValid} `{SortByMin} `{KErrors}.

Lemma sort_Slice_strongly l : StronglySorted min_le (sort_Slice l).
Proof.
  apply Sorted_StronglySorted; [apply _|].
  induction (sort_Slice_sorted l) as [|a r _ IH Hd]; constructor; [done|].
  destruct Hd as [|b r Hab]; constructor.
  unfold pr_less in Hab. by apply Z.ltb_ge in Hab.
Qed.

Lemma bind_wan_range wan :
  Forall wan_proper wan -> map wan_range wan ≫= range_ports = wan ≫= wan_ports.
Proof.
  induction 1 as [|w wan Hw _ IH]; [done|].
  simpl map. rewrite !bind_cons, IH, wan_range_ports by done. done.
Qed.

Lemma isOverlapWithEachOther_ok wan :
  Forall wan_proper wan ->
  isOverlapWithEachOther wan = [] <-> NoDup (wan ≫= wan_ports).
Proof.
  intros Hp. unfold isOverlapWithEachOther.
  rewrite check_adjacent_NoDup; [|apply sort_Slice_strongly|].
  - rewrite sort_Slice_perm, (bind_wan_range wan Hp). done.
  - rewrite sort_Slice_perm, Forall_map. eapply Forall_impl; [done|]. apply wan_range_proper.
Qed.

Lemma isOverlapWithOtherSockets_ok wan :
  Forall wan_proper wan ->
  isOverlapWithOtherSockets wan = [] <-> Forall (fun w => forall p, p ∈ reserved_ports -> p ∉ wan_ports w) wan.
Proof.
  intros Hp. unfold isOverlapWithOtherSockets. unfold errs. rewrite mjoin_nil.
  transitivity (Forall (fun w => forall p, p ∈ reserved_ports -> p ∉ range_ports (wan_range w)) wan).
  - apply Forall_imap. intros i w. errs_nil.
    unfold reserved_ports. repeat setoid_rewrite elem_of_cons. setoid_rewrite elem_of_nil.
    setoid_rewrite elem_range_ports. split.
    + intros Hm p [->|[->|[->|[]]]]; lia.
    + intros Hr. pose proof (Hr ClientServerSocketPort). pose proof (Hr MemberServerSocketPort).
      pose proof (Hr RestServerSocketPort). lia.
  - rewrite !Forall_forall in *.
    split; intros Hw w Hin; specialize (Hw w Hin); revert Hw; rewrite wan_range_ports by auto; done.
Qed.

(** The WAN validators accept exactly the configurations in which no port is
    claimed twice. *)
Lemma validateWANPorts_ok wan :
  Forall wan_proper wan -> validateWANPorts wan = [] <-> wan_ports_ok wan.
Proof.
  intros Hp. unfold validateWANPorts, wan_ports_ok. unfold errs. rewrite app_nil.
  rewrite (isOverlapWithEachOther_ok wan Hp), (isOverlapWithOtherSockets_ok wan Hp).
  rewrite NoDup_app, Forall_forall. split.
  - intros [Hn Hr]. split; [apply (bool_decide_unpack _); reflexivity|]. split; [|done].
    intros p Hres Hb. apply list_elem_of_bind in Hb as (w & Hpw & Hw). by apply (Hr w Hw p).
  - intros (_ & Hr & Hn). split; [done|]. intros w Hw p Hres Hpw. apply (Hr p Hres).
    apply list_elem_of_bind. eauto.
Qed.

Definition no_arg_contains (args : list string) (arg : string) : Prop :=
  forall s, s ∈ args -> Contains s arg = false.

Lemma owned_opt {A} (o : option A) args a :
  (if is_nil o then [] else validateArg args a) = [] <->
  Forall (no_arg_contains args) (if is_nil o then [] else [a]).
Proof.
  destruct o; simpl; [rewrite validateArg_ok, Forall_singleton; done|].
  split; [constructor|done].
Qed.

Lemma validateJVMGC_collector args k :
  (if strb k GCTypeSerial then validateArg args SerialGCArg else []) ++
  (if strb k GCTypeParallel then validateArg args ParallelGCArg else []) ++
  (if strb k GCTypeG1 then validateArg args G1GCArg else []) = [] <->
  Forall (no_arg_contains args)
    (if strb k GCTypeSerial then [SerialGCArg] else if strb k GCTypeParallel then [ParallelGCArg]
     else if strb k GCTypeG1 then [G1GCArg] else []).
Proof.
  unfold strb. repeat case_bool_decide; subst; try discriminate;
    unfold errs; rewrite ?app_nil, ?validateArg_ok, ?Forall_singleton, ?Forall_nil; naive_solver.
Qed.

Lemma validateJVMConfig_ok h :
  validateJVMConfig h = [] <->
  (forall jvm, s_JVM (h_Spec h) = Some jvm -> Forall (no_arg_contains (jvm_Args jvm)) (owned_args jvm)).
Proof.
  unfold validateJVMConfig. destruct (s_JVM (h_Spec h)) as [jvm|]; [|naive_solver].
  transitivity (Forall (no_arg_contains (jvm_Args jvm)) (owned_args jvm)); [|naive_solver].
  unfold owned_args, validateJVMMemoryArgs, validateJVMGCArgs. unfold errs.
  rewrite app_nil, Forall_app. apply and_iff.
  - destruct (jvm_Memory jvm) as [m|]; [|by split].
    by rewrite !app_nil, !Forall_app, !owned_opt.
  - destruct (jvm_GC jvm) as [gc|]; [|by split].
    rewrite app_nil, Forall_app. apply and_iff; [apply owned_opt|].
    destruct (gc_Collector gc) as [k|]; [apply validateJVMGC_collector|by split].
Qed.

(** ** Accepted objects *)

Definition missing (e : option error) : Prop := exists e', e = Some e' /\ IsNotFound e' = true.

Lemma err_NotFound_false e : err_NotFound e = false <-> ~ missing e.
Proof.
  unfold missing. destruct e as [e|]; simpl; [|naive_solver].
  destruct (IsNotFound e) eqn:E; naive_solver congruence.
Qed.

(** The PVC has its access modes set. *)
Definition pvc_ok (pvc : option PvcConfiguration) : Prop :=
  exists p modes, pvc = Some p /\ pvc_AccessModes p = Some modes.

Variable c : Cluster.

(** What an accepted object satisfies, in terms of its fields and of the
    objects it refers to. *)
Definition expose_ok (h : Hazelcast) : Prop := forall ee,
  s_ExposeExternally (h_Spec h) = Some ee ->
  (ee_Type ee = ExposeExternallyTypeUnisocket -> ee_MemberAccess ee = "")
  /\ (ee_Type ee = ExposeExternallyTypeSmart -> ee_MemberAccess ee = MemberAccessNodePortExternalIP ->
      NodeDiscoveryEnabled c = true)
  /\ (ee_DiscoveryServiceType ee = ServiceTypeNodePort \/ ee_DiscoveryServiceType ee = ServiceTypeLoadBalancer).

Definition license_ok (h : Hazelcast) : Prop :=
  HazelcastSpec_GetLicenseKeySecretName (h_Spec h) <> "" ->
  ~ missing (get_Secret c (h_Namespace h, HazelcastSpec_GetLicenseKeySecretName (h_Spec h))).

Definition tls_ok (h : Hazelcast) : Prop := forall tls,
  s_TLS (h_Spec h) = Some tls -> tls <> mkTLS "" "" ->
  tls_SecretName tls <> "" /\ ~ missing (get_Secret c (h_Namespace h, tls_SecretName tls)).

Definition persistence_ok (h : Hazelcast) : Prop := forall p,
  s_Persistence (h_Spec h) = Some p ->
  pvc_ok (p_PVC p)
  /\ (p_StartupAction p = PartialStart -> p_ClusterDataRecoveryPolicy p <> FullRecovery)
  /\ (rc_HotBackupResourceName (p_Restore p) <> "" ->
      ~ missing (get_HotBackup c (h_Namespace h, rc_HotBackupResourceName (p_Restore p)))).

Definition size_ok (h : Hazelcast) : Prop :=
  exists n, s_ClusterSize (h_Spec h) = Some n /\ n <= ClusterSizeLimit.

Definition wan_ok (h : Hazelcast) : Prop := forall an,
  s_AdvancedNetwork (h_Spec h) = Some an ->
  Forall (fun w => w_ServiceType w <> ServiceTypeNodePort /\ w_ServiceType w <> ServiceTypeExternalName) (an_WAN an)
  /\ wan_ports_ok (an_WAN an).

Definition jet_ok (h : Hazelcast) : Prop := forall jet,
  s_JetEngineConfiguration (h_Spec h) = Some jet -> j_Enabled jet = Some true ->
  (forall b, j_BucketConfiguration jet = Some b -> BucketConfiguration_GetSecretName b <> "" ->
     ~ missing (get_Secret c (h_Namespace h, bc_SecretName b)))
  /\ (forall i, j_Instance jet = Some i -> ji_LosslessRestartEnabled i = true ->
      is_Some (s_Persistence (h_Spec h))).

Definition jvm_ok (h : Hazelcast) : Prop := forall jvm,
  s_JVM (h_Spec h) = Some jvm -> Forall (no_arg_contains (jvm_Args jvm)) (owned_args jvm).

Definition custom_config_ok (h : Hazelcast) : Prop :=
  s_CustomConfigCmName (h_Spec h) <> "" ->
  match get_ConfigMap c (h_Namespace h, s_CustomConfigCmName (h_Spec h)) with
  | Failed e => IsNotFound e = false
  | Found data => exists yaml, data !! n_HazelcastCustomConfigKey = Some yaml /\ yaml_Unmarshal yaml = None
  end.

Definition native_memory_ok (h : Hazelcast) : Prop := forall nm,
  s_NativeMemory (h_Spec h) = Some nm -> is_Some (s_Persistence (h_Spec h)) ->
  nm_AllocatorType nm = NativeMemoryPooled.

Definition sql_ok (h : Hazelcast) : Prop := forall sql,
  s_SQL (h_Spec h) = Some sql -> sql_CatalogPersistenceEnabled sql = true ->
  is_Some (s_Persistence (h_Spec h)).

Definition tiered_ok (h : Hazelcast) : Prop :=
  s_LocalDevices (h_Spec h) <> [] ->
  NativeMemory_IsEnabled (s_NativeMemory (h_Spec h)) = true
  /\ Forall (fun ld => pvc_ok (ld_PVC ld)) (s_LocalDevices (h_Spec h)).

Definition cp_ok (h : Hazelcast) : Prop := forall cp,
  s_CPSubsystem (h_Spec h) = Some cp ->
  Int32Deref (s_ClusterSize (h_Spec h)) 3 ∈ [0; 3; 5; 7]
  /\ (is_Some (cp_PVC cp) \/ exists p, s_Persistence (h_Spec h) = Some p /\ is_Some (p_PVC p))
  /\ Int32Deref (cp_SessionHeartbeatIntervalSeconds cp) 5 < Int32Deref (cp_SessionTTLSeconds cp) 300
  /\ (Int32Deref (cp_MissingCpMemberAutoRemovalSeconds cp) 14400 = 0
      \/ Int32Deref (cp_SessionTTLSeconds cp) 300 <= Int32Deref (cp_MissingCpMemberAutoRemovalSeconds cp) 14400).

Record hazelcast_ok (h : Hazelcast) : Prop := {
  ok_name : dns_name (h_Name h);
  ok_expose : expose_ok h;
  ok_license : license_ok h;
  ok_tls : tls_ok h;
  ok_persistence : persistence_ok h;
  ok_size : size_ok h;
  ok_wan : wan_ok h;
  ok_jet : jet_ok h;
  ok_jvm : jvm_ok h;
  ok_custom_config : custom_config_ok h;
  ok_native_memory : native_memory_ok h;
  ok_sql : sql_ok h;
  ok_tiered : tiered_ok h;
  ok_cp : cp_ok h;
}.

Ltac by_cases := unfold strb; repeat case_bool_decide; simpl; naive_solver.

Lemma validateExposeExternally_ok h : validateExposeExternally c h = [] <-> expose_ok h.
Proof.
  unfold validateExposeExternally, expose_ok.
  destruct (s_ExposeExternally (h_Spec h)) as [ee|]; [|naive_solver].
  destruct (NodeDiscoveryEnabled c); by_cases.
Qed.

Lemma validateLicense_ok h : validateLicense c h = [] <-> license_ok h.
Proof.
  unfold validateLicense, license_ok. errs_nil. rewrite err_NotFound_false.
  destruct (decide (HazelcastSpec_GetLicenseKeySecretName (h_Spec h) = "")); naive_solver.
Qed.

Lemma validateTLS_ok h : validateTLS c h = [] <-> tls_ok h.
Proof.
  unfold validateTLS, tls_ok. destruct (s_TLS (h_Spec h)) as [[name mode]|]; [|naive_solver]. simpl.
  pose proof (err_NotFound_false (get_Secret c (h_Namespace h, name))) as Hm.
  destruct (err_NotFound _); by_cases.
Qed.

Lemma pvc_check_ok (pvc : option PvcConfiguration) (e1 e2 : field_error) :
  match pvc with
  | None => [e1]
  | Some p => if is_nil (pvc_AccessModes p) then [e2] else []
  end = [] <-> pvc_ok pvc.
Proof.
  unfold pvc_ok. destruct pvc as [p|]; [|naive_solver].
  rewrite if_errs_nil. destruct (pvc_AccessModes p) eqn:E; simpl; naive_solver.
Qed.

Lemma restore_hot_backup p :
  rc_HotBackupResourceName (p_Restore p) <> "" -> Persistence_IsRestoreEnabled p = true.
Proof.
  intros Hn. unfold Persistence_IsRestoreEnabled, RestoreConfiguration_is_zero.
  rewrite (proj2 (strb_false _ _) Hn), andb_false_r. done.
Qed.

Lemma validatePersistence_ok h : validatePersistence c h = [] <-> persistence_ok h.
Proof.
  unfold validatePersistence, persistence_ok. destruct (s_Persistence (h_Spec h)) as [p|]; [|naive_solver].
  rewrite forall_Some. unfold errs, Required. rewrite !app_nil, pvc_check_ok. repeat apply and_iff; [done|by_cases|].
  destruct (decide (rc_HotBackupResourceName (p_Restore p) = "")) as [E|E].
  - rewrite E, andb_false_r. naive_solver.
  - rewrite (restore_hot_backup p E), (proj2 (strb_false _ _) E). simpl.
    unfold NotFound. rewrite if_errs_nil, err_NotFound_false. naive_solver.
Qed.

Lemma validateClusterSize_ok h : validateClusterSize h = Ret [] <-> size_ok h.
Proof.
  unfold validateClusterSize, size_ok. destruct (s_ClusterSize (h_Spec h)) as [n|]; [|naive_solver].
  transitivity (n <= ClusterSizeLimit); [|naive_solver].
  destruct (n >? ClusterSizeLimit) eqn:E; rewrite Z.gtb_ltb in E.
  - apply Z.ltb_lt in E. split; [done|lia].
  - apply Z.ltb_ge in E. done.
Qed.

Definition spec_wan (h : Hazelcast) : list WANConfig :=
  match s_AdvancedNetwork (h_Spec h) with None => [] | Some an => an_WAN an end.

Lemma validateAdvancedNetwork_ok h :
  Forall wan_proper (spec_wan h) -> validateAdvancedNetwork h = [] <-> wan_ok h.
Proof.
  unfold validateAdvancedNetwork, wan_ok, spec_wan.
  destruct (s_AdvancedNetwork (h_Spec h)) as [an|]; [|naive_solver]. intros Hp.
  unfold errs. rewrite app_nil, validateWANPorts_ok by done.
  assert (validateWANServiceTypes (an_WAN an) = [] <->
    Forall (fun w => w_ServiceType w <> ServiceTypeNodePort /\ w_ServiceType w <> ServiceTypeExternalName)
      (an_WAN an)) as ->; [|naive_solver].
  unfold validateWANServiceTypes. unfold errs. rewrite mjoin_nil. apply Forall_imap.
  intros i w. errs_nil. done.
Qed.

Lemma lossless_configured i : ji_LosslessRestartEnabled i = true -> JetInstance_IsConfigured (Some i) = true.
Proof. intros Hl. simpl. case_bool_decide; [|done]. by subst. Qed.

Lemma validateJetConfig_ok h : validateJetConfig c h = [] <-> jet_ok h.
Proof.
  unfold validateJetConfig, jet_ok. destruct (s_JetEngineConfiguration (h_Spec h)) as [jet|]; [|naive_solver].
  rewrite forall_Some. simpl Jet_IsEnabled.
  destruct (j_Enabled jet) as [[]|]; simpl negb; [|naive_solver..].
  unfold errs. rewrite app_nil.
  transitivity ((forall b, j_BucketConfiguration jet = Some b -> BucketConfiguration_GetSecretName b <> "" ->
     ~ missing (get_Secret c (h_Namespace h, bc_SecretName b)))
    /\ (forall i, j_Instance jet = Some i -> ji_LosslessRestartEnabled i = true ->
      is_Some (s_Persistence (h_Spec h)))); [|naive_solver].
  apply and_iff.
  - destruct (j_BucketConfiguration jet) as [b|]; [|naive_solver].
    errs_nil. rewrite err_NotFound_false.
    destruct (decide (BucketConfiguration_GetSecretName b = "")); naive_solver.
  - destruct (j_Instance jet) as [i|]; [|naive_solver].
    rewrite forall_Some. unfold Required, Forbidden. rewrite if_errs_nil.
    destruct (ji_LosslessRestartEnabled i) eqn:El.
    + rewrite (lossless_configured i El), andb_true_l. unfold Persistence_IsEnabled.
      rewrite negb_involutive, is_nil_false. naive_solver.
    + rewrite andb_false_r. naive_solver.
Qed.

Lemma validateCustomConfig_ok h : validateCustomConfig c h = [] <-> custom_config_ok h.
Proof.
  unfold validateCustomConfig, custom_config_ok.
  destruct (decide (s_CustomConfigCmName (h_Spec h) = "")) as [->|Hn]; [naive_solver|].
  rewrite (proj2 (strb_false _ _) Hn). simpl.
  destruct (get_ConfigMap _ _) as [data|e]; [|destruct (IsNotFound e); naive_solver].
  destruct (data !! n_HazelcastCustomConfigKey) as [y|]; [|naive_solver].
  destruct (yaml_Unmarshal y) eqn:E; naive_solver.
Qed.

Lemma validateNativeMemory_ok h : validateNativeMemory h = [] <-> native_memory_ok h.
Proof.
  unfold validateNativeMemory, native_memory_ok. destruct (s_NativeMemory (h_Spec h)) as [nm|]; [|naive_solver].
  errs_nil. unfold Persistence_IsEnabled. rewrite negb_false_iff, is_nil_true.
  destruct (s_Persistence (h_Spec h)); naive_solver.
Qed.

Lemma validateSQL_ok h : validateSQL h = [] <-> sql_ok h.
Proof.
  unfold validateSQL, sql_ok. destruct (s_SQL (h_Spec h)) as [sql|]; [|naive_solver].
  rewrite forall_Some. errs_nil. unfold Persistence_IsEnabled. rewrite negb_true_iff, is_nil_false.
  destruct (sql_CatalogPersistenceEnabled sql) eqn:E; naive_solver.
Qed.

Lemma validateTieredStorage_ok h : validateTieredStorage h = [] <-> tiered_ok h.
Proof.
  unfold validateTieredStorage, tiered_ok, HazelcastSpec_IsTieredStorageEnabled.
  destruct (s_LocalDevices (h_Spec h)) as [|ld lds] eqn:E; [naive_solver|].
  simpl negb. rewrite <-E. errs_nil. rewrite mjoin_nil, Forall_map.
  assert (Forall ((fun x => x = []) ∘ validateLocalDevice) (s_LocalDevices (h_Spec h)) <->
    Forall (fun ld => pvc_ok (ld_PVC ld)) (s_LocalDevices (h_Spec h))) as ->; [|rewrite E; split; [intros [Hn Hl] _|intros Ht; apply Ht]; done].
  rewrite !Forall_forall. split; intros Hld d Hd; specialize (Hld d Hd); revert Hld; apply pvc_check_ok.
Qed.

Lemma validateCPSubsystem_ok h : validateCPSubsystem h = [] <-> cp_ok h.
Proof.
  unfold validateCPSubsystem, cp_ok. destruct (s_CPSubsystem (h_Spec h)) as [cp|]; [|naive_solver].
  rewrite forall_Some. unfold validateSessionTTLSeconds. errs_nil. rewrite !elem_of_cons, elem_of_nil.
  repeat apply and_iff; [lia| |lia|lia].
  destruct (cp_PVC cp) as [q|], (s_Persistence (h_Spec h)) as [p|]; simpl; errs_nil; naive_solver.
Qed.

Lemma and_then_nil (a b : res errs) : (a >> b)%valid = Ret [] <-> a = Ret [] /\ b = Ret [].
Proof.
  destruct a as [x| |], b as [y| |]; simpl; try (split; [done|by intros [? ?]]).
  split.
  - intros [= Hxy]. unfold errs in *. apply app_nil in Hxy as [-> ->]. done.
  - by intros [[= ->] [= ->]].
Qed.

Lemma Ret_nil (x : errs) : Ret x = Ret [] <-> x = [].
Proof. naive_solver. Qed.

Lemma validateSpecCurrent_ok h :
  Forall wan_proper (spec_wan h) -> validateSpecCurrent c h = Ret [] <-> hazelcast_ok h.
Proof.
  intros Hw. unfold validateSpecCurrent.
  rewrite !and_then_nil, !Ret_nil, validateMetadata_ok, validateExposeExternally_ok, validateLicense_ok,
    validateTLS_ok, validatePersistence_ok, validateClusterSize_ok, (validateAdvancedNetwork_ok h Hw),
    validateJetConfig_ok, validateJVMConfig_ok, validateCustomConfig_ok, validateNativeMemory_ok,
    validateSQL_ok, validateTieredStorage_ok, validateCPSubsystem_ok.
  split; [intros; destruct_and!; by constructor|]. intros []. repeat (split; [done|]). done.
Qed.

(** ** Updates *)

(** [reflect.DeepEqual] of two PVC pointers. *)
Definition pvc_same (a b : option PvcConfiguration) : Prop :=
  DeepEqual_ptr PvcConfiguration_DeepEqual a b = true.

Definition catalog_persistence (s : HazelcastSpec) : Prop :=
  exists sql, s_SQL s = Some sql /\ sql_CatalogPersistenceEnabled sql = true.

(** What an accepted update may not change, from [last] to [current]. *)
Record unchanged (last current : HazelcastSpec) : Prop := {
  un_ha : s_HighAvailabilityMode current = s_HighAvailabilityMode last;
  un_persistence :
    match s_Persistence last, s_Persistence current with
    | None, None => True
    | Some l, Some u => pvc_same (p_PVC u) (p_PVC l) /\ p_Restore u = p_Restore l
    | _, _ => False
    end;
  un_cp :
    match s_CPSubsystem last, s_CPSubsystem current with
    | None, None => True
    | Some l, Some u => pvc_same (cp_PVC u) (cp_PVC l)
    | _, _ => False
    end;
  un_sql : catalog_persistence last -> catalog_persistence current;
}.

Lemma validateNotUpdatableHazelcastFields_ok current last :
  validateNotUpdatableHazelcastFields current last = [] <-> unchanged last current.
Proof.
  unfold validateNotUpdatableHazelcastFields. errs_nil.
  transitivity (s_HighAvailabilityMode current = s_HighAvailabilityMode last
    /\ match s_Persistence last, s_Persistence current with
       | None, None => True
       | Some l, Some u => pvc_same (p_PVC u) (p_PVC l) /\ p_Restore u = p_Restore l
       | _, _ => False
       end
    /\ (catalog_persistence last -> catalog_persistence current)
    /\ match s_CPSubsystem last, s_CPSubsystem current with
       | None, None => True
       | Some l, Some u => pvc_same (cp_PVC u) (cp_PVC l)
       | _, _ => False
       end); [|split; [intros (?&?&?&?); by constructor|by intros []]].
  repeat apply and_iff; [done| | |].
  - unfold validateNotUpdatableHzPersistenceFields.
    destruct (s_Persistence current), (s_Persistence last); try (by split).
    errs_nil. by rewrite bool_decide_eq_true.
  - unfold validateNotUpdatableSQLFields, catalog_persistence.
    destruct (s_SQL last) as [l|], (s_SQL current) as [u|];
      repeat match goal with |- context [sql_CatalogPersistenceEnabled ?x] =>
        destruct (sql_CatalogPersistenceEnabled x) eqn:? end; simpl; naive_solver congruence.
  - unfold validateNotUpdatableCPFields.
    destruct (s_CPSubsystem current), (s_CPSubsystem last); try (by split).
    by errs_nil.
Qed.

Lemma DeepEqual_ptr_refl {A} (eq : A -> A -> bool) o : (forall a, eq a a = true) -> DeepEqual_ptr eq o o = true.
Proof. intros Hr. destruct o; simpl; auto. Qed.

Lemma DeepEqual_ptr_trans {A} (eq : A -> A -> bool) x y z :
  (forall a b d, eq a b = true -> eq b d = true -> eq a d = true) ->
  DeepEqual_ptr eq x y = true -> DeepEqual_ptr eq y z = true -> DeepEqual_ptr eq x z = true.
Proof. intros Ht. destruct x, y, z; simpl; try done. apply Ht. Qed.

#[export] Instance pvc_same_refl : Reflexive pvc_same.
Proof.
  intros o. apply DeepEqual_ptr_refl. intros a. unfold PvcConfiguration_DeepEqual.
  rewrite !bool_decide_true by done. rewrite DeepEqual_ptr_refl; [done|apply Quantity_DeepEqual_refl].
Qed.

#[export] Instance pvc_same_trans : Transitive pvc_same.
Proof.
  intros x y z. apply DeepEqual_ptr_trans. intros a b d. unfold PvcConfiguration_DeepEqual.
  rewrite !andb_true_iff, !bool_decide_eq_true. intros [[? Hab] ?] [[? Hbd] ?].
  repeat split; [congruence| |congruence].
  eapply DeepEqual_ptr_trans; [apply Quantity_DeepEqual_trans|done|done].
Qed.

#[export] Instance unchanged_refl : Reflexive unchanged.
Proof.
  intros s. constructor; [done| | |done].
  - destruct (s_Persistence s); [|done]. by split.
  - by destruct (s_CPSubsystem s).
Qed.

#[export] Instance unchanged_trans : Transitive unchanged.
Proof.
  intros x y z [h1 p1 c1 q1] [h2 p2 c2 q2]. constructor; [congruence| | |auto].
  - destruct (s_Persistence x), (s_Persistence y), (s_Persistence z); try done.
    destruct p1, p2. split; [by etrans|congruence].
  - destruct (s_CPSubsystem x), (s_CPSubsystem y), (s_CPSubsystem z); try done. by etrans.
Qed.

(** With the CP subsystem a running cluster keeps its number of members: an
    accepted object either pauses or resumes, keeps the size, or goes back to
    the size the cluster has. *)
Definition scaling_ok (h : Hazelcast) (last : HazelcastSpec) : Prop :=
  is_Some (s_CPSubsystem (h_Spec h)) ->
  let new := Int32Deref (s_ClusterSize (h_Spec h)) 3 in
  let old := Int32Deref (s_ClusterSize last) 3 in
  new = 0 \/ old = 0 \/ new = old \/ new = st_ClusterSize (h_Status h).

Definition update_ok (h : Hazelcast) : Prop := forall a,
  h_Annotations h !! n_LastSuccessfulSpecAnnotation = Some a ->
  exists last, HazelcastSpec_Unmarshal a = inl last /\ unchanged last (h_Spec h) /\ scaling_ok h last.

Lemma validateSpecUpdate_ok h : validateSpecUpdate h = [] <-> update_ok h.
Proof.
  unfold validateSpecUpdate, update_ok.
  destruct (h_Annotations h !! _) as [a|]; [|naive_solver]. rewrite forall_Some.
  destruct (HazelcastSpec_Unmarshal a) as [last|e]; [|naive_solver].
  unfold errs. rewrite app_nil, validateNotUpdatableHazelcastFields_ok. unfold Forbidden. rewrite if_errs_nil.
  transitivity (unchanged last (h_Spec h) /\ scaling_ok h last); [|naive_solver].
  apply and_iff; [done|]. unfold scaling_ok, CPSubsystem_IsEnabled, isScaledNotPaused, isRevertedToOldSize.
  destruct (s_CPSubsystem (h_Spec h)) as [cp|]; simpl; [|naive_solver].
  errs_nil. split; [intros; lia|]. intros Hs. specialize (Hs ltac:(by eexists)). lia.
Qed.

Lemma validateSpecCurrent_cases h :
  (s_ClusterSize (h_Spec h) = None /\ validateSpecCurrent c h = Panic)
  \/ (exists n es, s_ClusterSize (h_Spec h) = Some n /\ validateSpecCurrent c h = Ret es).
Proof.
  unfold validateSpecCurrent, validateClusterSize.
  destruct (s_ClusterSize (h_Spec h)) as [n|]; [right|left]; [|done].
  unfold and_then. simpl. by do 2 eexists.
Qed.

Lemma ValidateHazelcastSpec_None h :
  ValidateHazelcastSpec c h = Ret None <-> validateSpecCurrent c h = Ret [] /\ validateSpecUpdate h = [].
Proof.
  unfold ValidateHazelcastSpec. rewrite <-(Ret_nil (validateSpecUpdate h)), <-and_then_nil.
  destruct (and_then _ _) as [es| |]; simpl; [|done..].
  rewrite Ret_nil, <-(Err_None "Hazelcast" (h_Name h)). split; [by intros [=]|by intros ->].
Qed.

(** C10. A Hazelcast object whose WAN port ranges are not empty and do not wrap
    around is accepted by the validating webhook and the reconciler exactly
    when it satisfies [hazelcast_ok] (size limit, PVCs and access modes,
    referenced secrets, config maps and backups, WAN service types and ports,
    Jet, JVM, native memory, SQL, tiered storage and CP requirements) and,
    when a last applied spec is recorded, keeps the fields that may not be
    updated; validation panics exactly when the cluster size is nil. *)
Theorem hazelcast_accepted_iff h (Hw : Forall wan_proper (spec_wan h)) :
  (ValidateHazelcastSpec c h = Ret None <-> hazelcast_ok h /\ update_ok h)
  /\ (ValidateHazelcastSpec c h = Panic <-> s_ClusterSize (h_Spec h) = None).
Proof.
  split.
  - rewrite ValidateHazelcastSpec_None, validateSpecCurrent_ok by done.
    by rewrite validateSpecUpdate_ok.
  - unfold ValidateHazelcastSpec.
    destruct (validateSpecCurrent_cases h) as [[-> ->]|(n & es & -> & ->)]; simpl; naive_solver.
Qed.

(** The WAN port checks (ranges sorted by [sort.Slice] and compared with
    their neighbours only, and against the member, client and REST ports)
    accept exactly the configurations in which no port is claimed twice. *)
Theorem wan_ports_accepted_iff wan (Hw : Forall wan_proper wan) :
  validateWANPorts wan = [] <-> NoDup (reserved_ports ++ (wan ≫= wan_ports)).
Proof. by apply validateWANPorts_ok. Qed.

(** A resource name is accepted exactly when it is a dot-separated
    sequence of labels that start with a letter, end with a letter or digit
    and contain letters, digits and dashes only; upper case letters are
    accepted, although the error message asks for lower case. *)
Theorem hazelcast_name_accepted_iff h :
  (validateMetadata h = [] <-> dns_name (h_Name h))
  /\ validateMetadata (mkHazelcast "My-Cluster" (h_Namespace h) (h_Annotations h) (h_Deleting h) (h_Spec h) (h_Status h)) = [].
Proof. split; [apply validateMetadata_ok|done]. Qed.
End Facts.

Section Updates.
Context `{QuantityLib} `{!HazelcastJson} `{YamlValid} `{SortByMin} `{KErrors}.

(** Chains of accepted updates: each object carries the spec applied before
    it in its annotation and is accepted, in whatever state of the cluster. *)
Inductive accepted_updates : HazelcastSpec -> HazelcastSpec -> Prop :=
| au_refl s : accepted_updates s s
| au_step s last c h a :
    accepted_updates s last ->
    h_Annotations h !! n_LastSuccessfulSpecAnnotation = Some a ->
    HazelcastSpec_Unmarshal a = inl last ->
    ValidateHazelcastSpec c h = Ret None ->
    accepted_updates s (h_Spec h).

(** Along any chain of accepted updates the high-availability mode, the
    presence, PVC and restore source of persistence and the presence and PVC
    of the CP subsystem stay what they were, and SQL catalog persistence is
    never switched off. *)
Theorem accepted_updates_unchanged s s' (Hu : accepted_updates s s') : unchanged s s'.
Proof.
  induction Hu as [|s last c h a _ IH Ha Hj Hv]; [done|]. etrans; [exact IH|].
  apply ValidateHazelcastSpec_None in Hv as [_ Hv]. apply validateSpecUpdate_ok in Hv.
  destruct (Hv a Ha) as (l & Hl & Hun & _). congruence.
Qed.
End Updates.

(** ** Concrete runs *)

#[export] Instance pr_le_dec a b : Decision (min_le a b).
Proof. unfold min_le. apply _. Defined.
#[export] Instance min_le_total : Total min_le.
Proof. intros a b. unfold min_le. lia. Qed.

#[global] Instance sort_merge : SortByMin | 100.
Proof.
  refine {| sort_Slice := merge_sort min_le |}.
  - apply merge_sort_Permutation.
  - intros l. induction (Sorted_merge_sort min_le l) as [|a r _ IH Hd]; constructor; [done|].
    destruct Hd as [|b r Hab]; constructor. unfold pr_less. by apply Z.ltb_ge.
Defined.

Module HazelcastWitnesses.

Definition pvc1 : PvcConfiguration := mkPvcConfiguration (Some ["ReadWriteOnce"]) (Some 8589934592) None.
Definition persistence1 : HazelcastPersistenceConfiguration :=
  mkHazelcastPersistenceConfiguration "" FullRecovery "" 0 (Some pvc1) (mkRestoreConfiguration None "hb" None).
Definition wan1 : list WANConfig :=
  [mkWANConfig 5710 5 "LoadBalancer" "b"; mkWANConfig 5703 7 "ClusterIP" "a"].

Definition spec1 (size : Z) : HazelcastSpec :=
  mkHazelcastSpec (Some size) "" "license" (Some (mkExposeExternallyConfiguration "Smart" "LoadBalancer" "LoadBalancer"))
    (Some persistence1)
    (Some (mkJetEngineConfiguration (Some true) false (Some (mkBucketConfiguration "" "s3" "s3://b/p")) [] []
             (Some (mkJetInstance None 100 1 10000 true None)) None))
    "NODE"
    (Some (mkJVMConfiguration (Some (mkJVMMemoryConfiguration (Some "10") None None))
             (Some (mkJVMGCConfiguration None (Some "G1"))) ["-Dx=y"]))
    (Some (mkNativeMemoryConfiguration "POOLED" 536870912 0 4194304 12))
    (Some (mkAdvancedNetwork [] [] wan1)) (Some (mkTLS "tls" "None")) "custom" (Some (mkSQL 0 true))
    [mkLocalDeviceConfig "dev" None None None (Some pvc1)]
    (Some (mkCPSubsystem None None None None None None))
    "dev" None [] [] [] None None None None.

#[local] Instance json1 : HazelcastJson :=
  {| HazelcastSpec_Unmarshal s := if strb s "3" then inl (spec1 3) else inr (errors_New "bad json") |}.
#[local] Instance yaml1 : YamlValid := {| yaml_Unmarshal _ := None |}.

Definition cluster1 : Cluster :=
  mkCluster (fun _ => None) (fun _ => Found {["hazelcast" := "a: b"]}) (fun _ => None) (fun _ => None).
Definition hz1 (size : Z) : Hazelcast :=
  mkHazelcast "my-cluster.example" "default" {[n_LastSuccessfulSpecAnnotation := "3"]} false (spec1 size)
    (mkHazelcastStatus 3 "Running").

Lemma wan1_proper : Forall wan_proper wan1.
Proof. repeat constructor; simpl; lia. Qed.

Lemma hazelcast_accepted_witness :
  Forall wan_proper (spec_wan (hz1 3)) /\ hazelcast_ok cluster1 (hz1 3) /\ update_ok (hz1 3)
  /\ ValidateHazelcastSpec cluster1 (hz1 5) <> Ret None.
Proof.
  split; [apply wan1_proper|]. split; [|split].
  - apply (proj1 (proj1 (hazelcast_accepted_iff cluster1 (hz1 3) wan1_proper))). vm_compute. reflexivity.
  - apply (proj1 (proj1 (hazelcast_accepted_iff cluster1 (hz1 3) wan1_proper))). vm_compute. reflexivity.
  - vm_compute. discriminate.
Defined.

Lemma wan_ports_accepted_witness :
  Forall wan_proper wan1 /\ NoDup (reserved_ports ++ (wan1 ≫= wan_ports))
  /\ validateWANPorts (mkWANConfig 5708 1 "ClusterIP" "c" :: wan1) <> [].
Proof.
  split; [apply wan1_proper|]. split.
  - apply (proj1 (wan_ports_accepted_iff wan1 wan1_proper)). vm_compute. reflexivity.
  - vm_compute. discriminate.
Defined.

Lemma accepted_updates_witness :
  accepted_updates (spec1 3) (spec1 0) /\ unchanged (spec1 3) (spec1 0).
Proof.
  assert (accepted_updates (spec1 3) (spec1 0)) as Hc.
  { apply (au_step (spec1 3) (spec1 3) cluster1 (hz1 0) "3"); [constructor|reflexivity|reflexivity|].
    vm_compute. reflexivity. }
  split; [exact Hc|]. apply (accepted_updates_unchanged (spec1 3) (spec1 0) Hc).
Defined.

(** Port numbers are unsigned 64-bit integers and the end of a range is
    computed with wrap-around: a range that covers the client, member and
    REST ports, and a second range inside it, are accepted. *)
Theorem wan_port_overflow_accepted :
  let wide := mkWANConfig 5000 (2 ^ 64 - 1) "ClusterIP" "wide" in
  let inner := mkWANConfig 6000 10 "ClusterIP" "in" in
  validateWANPorts [wide; inner] = []
  /\ (forall p, p ∈ reserved_ports ++ wan_ports inner -> p ∈ wan_ports wide).
Proof.
  split; [vm_compute; reflexivity|]. intros p Hp. apply elem_of_seqZ; simpl.
  apply elem_of_app in Hp as [Hp|Hp]; [|apply elem_of_seqZ in Hp; simpl in Hp; lia].
  unfold reserved_ports in Hp. rewrite !elem_of_cons, elem_of_nil in Hp.
  unfold ClientServerSocketPort, MemberServerSocketPort, RestServerSocketPort in Hp. lia.
Qed.

End HazelcastWitnesses.
