(* ===== verification/MapValidation.v ===== *)
(** * Validation of data structures, maps and caches

    src/api/v1alpha1/data_structure_validation.go, map_validation.go and
    cache_validation.go.

    A map is validated against the spec the Hazelcast resource was last
    applied with (an annotation) and, for the memory of a tiered store,
    against its current spec.  The JSON of a map spec is a parameter. *)

From S2P Require Import Prelude Eff FieldValidation Json HazelcastTypes DataStructureTypes HazelcastValidation HazelcastValidationFacts.
From stdpp Require Import pretty.
#[local] Open Scope Z_scope.
#[local] Set Warnings "-clear-no-such-hyp".

Definition validateDataStructureSpec (ds : DataStructureSpec) : errs :=
  if int32 (Int32Deref (ds_BackupCount ds) 0 + ds_AsyncBackupCount ds) >? 6 then
    let detail := "the sum of backupCount and asyncBackupCount can't be larger than than 6" in
    Invalid (Path "spec" ["backupCount"]) (ptr_value (ds_BackupCount ds)) detail ++
    Invalid (Path "spec" ["asyncBackupCount"]) (VInt (ds_AsyncBackupCount ds)) detail
  else [].

(** The part of [client.Object] and [DataStructure] the update check uses:
    the annotations and [GetSpec], the JSON of the spec. *)
Record ds_object := mkDsObject {
  o_Annotations : gmap string string;
  o_GetSpec : sum string error;
}.

Definition isDSSpecUnchanged (obj : ds_object) : bool * option error :=
  match o_Annotations obj !! n_LastSuccessfulSpecAnnotation with
  | None => (true, None)
  | Some lastSpec =>
      match o_GetSpec obj with
      | inr _ => (false, Some (errors_New "Could not get spec of the data structure"))
      | inl newSpec => (strb newSpec lastSpec, None)
      end
  end.

Definition validateDSSpecUnchanged (obj : ds_object) : errs :=
  match isDSSpecUnchanged obj with
  | (_, Some err) => InternalError (Path "spec" []) err
  | (true, None) => []
  | (false, None) => Forbidden (Path "spec" []) "cannot be updated"
  end.

(** ** Maps *)

Definition stringSliceEquals (a b : list string) : bool :=
  if negb (Nat.eqb (length a) (length b)) then false
  else forallb (fun p => strb p.1 p.2) (combine a b).

Definition indexConfigEquals (a b : IndexConfig) : bool :=
  if negb (strb (ix_Name a) (ix_Name b)) then false else
  if negb (strb (ix_Type a) (ix_Type b)) then false else
  if negb (stringSliceEquals (default [] (ix_Attributes a)) (default [] (ix_Attributes b))) then false else
  match ix_BitmapIndexOptions a, ix_BitmapIndexOptions b with
  | Some x, Some y => bool_decide (x = y)
  | None, None => true
  | _, _ => false
  end.

Definition indexConfigSliceEquals (a b : list IndexConfig) : bool :=
  if negb (Nat.eqb (length a) (length b)) then false
  else forallb (fun p => indexConfigEquals p.1 p.2) (combine a b).

(** [json.Marshal] of a map spec, and [json.Unmarshal] into a zero one. *)
Class MapJson `{QuantityLib} := {
  MapSpec_Marshal : MapSpec -> sum string error;
  MapSpec_Unmarshal : string -> sum MapSpec error;
}.

Definition TieredStore_DeepEqual `{QuantityLib} (a b : TieredStore) : bool :=
  DeepEqual_ptr Quantity_DeepEqual (ts_MemoryCapacity a) (ts_MemoryCapacity b)
  && strb (ts_DiskDeviceName a) (ts_DiskDeviceName b).

Section MapValidation.
Context `{QuantityLib} `{!HazelcastJson} `{!MapJson} `{KErrors}.

(** [getHzSpec]: the errors it appends and the spec, nil after an error. *)
Definition getHzSpec (h : Hazelcast) : errs * option HazelcastSpec :=
  match h_Annotations h !! n_LastSuccessfulSpecAnnotation with
  | None => (InternalError (Path "spec" [])
               (errors_New ("hazelcast resource " ++ h_Name h ++ " is not successfully started yet")), None)
  | Some s =>
      match HazelcastSpec_Unmarshal s with
      | inr err => (InternalError (Path "spec" []) (wrap "error parsing last Hazelcast spec: " err), None)
      | inl lastSpec => ([], Some lastSpec)
      end
  end.

Definition validateMapPersistence (m : Map) (h : Hazelcast) : errs :=
  if negb (m_PersistenceEnabled (r_Spec m)) then [] else
  match getHzSpec h with
  | (es, None) => es
  | (es, Some lastSpec) =>
      es ++ (if negb (Persistence_IsEnabled (s_Persistence lastSpec))
             then Invalid (Path "spec" ["persistenceEnabled"])
                    (VBool (Persistence_IsEnabled (s_Persistence lastSpec))) "Persistence must be enabled at Hazelcast"
             else [])
  end.

Definition validateNearCacheMemory (m : Map) (h : Hazelcast) : errs :=
  match m_NearCache (r_Spec m) with
  | None => []
  | Some nc =>
      if negb (strb (nc_InMemoryFormat nc) InMemoryFormatNative) then [] else
      match getHzSpec h with
      | (es, None) => es
      | (es, Some lastSpec) =>
          es ++ (if negb (NativeMemory_IsEnabled (s_NativeMemory lastSpec))
                 then Invalid (Path "spec" ["inMemoryFormat"])
                        (VBool (NativeMemory_IsEnabled (s_NativeMemory lastSpec))) "Native Memory must be enabled at Hazelcast"
                 else [])
      end
  end.

Definition validateMapNativeMemory (m : Map) (h : Hazelcast) : errs :=
  if negb (strb (m_InMemoryFormat (r_Spec m)) InMemoryFormatNative) then [] else
  match getHzSpec h with
  | (es, None) => es
  | (es, Some lastSpec) =>
      es ++ (if negb (NativeMemory_IsEnabled (s_NativeMemory lastSpec))
             then Invalid (Path "spec" ["inMemoryFormat"])
                    (VBool (NativeMemory_IsEnabled (s_NativeMemory lastSpec))) "Native Memory must be enabled at Hazelcast"
             else [])
  end.

(** [q.Value()] through a pointer. *)
Definition ptr_Value (q : option Quantity) : res Z :=
  match q with Some q => Ret (Quantity_Value q) | None => Panic end.

Fixpoint deviceSize (localDevices : list LocalDeviceConfig) (deviceName : string) : res Z :=
  match localDevices with
  | [] => Ret 0
  | d :: rest =>
      if strb (ld_Name d) deviceName then
        match ld_PVC d with
        | None => Panic
        | Some pvc => ptr_Value (pvc_RequestStorage pvc)
        end
      else deviceSize rest deviceName
  end.

Definition validateTSMemory (ts : TieredStore) (h : Hazelcast) : res errs :=
  bind_res (ptr_Value (ts_MemoryCapacity ts)) (fun mapMemoryCapacity =>
  match s_NativeMemory (h_Spec h) with
  | None => Panic
  | Some nm =>
      let nativeMemorySize := Quantity_Value (nm_Size nm) in
      Ret (if nativeMemorySize <? mapMemoryCapacity
           then Invalid (Path "spec" ["tieredStore"; "memoryCapacity"]) (VInt mapMemoryCapacity)
                  ("Memory capacity must be less than Native Memory size. Map memoryCapacity is "
                   ++ pretty mapMemoryCapacity ++ " and Native Memory size is " ++ pretty nativeMemorySize)
           else [])
  end).

(** The checks of the map itself, before the Hazelcast spec is read. *)
Definition tiered_map_errs (m : Map) : errs :=
  let s := r_Spec m in
  (if m_PersistenceEnabled s
   then Invalid (Path "spec" ["persistenceEnabled"]) (VBool (m_PersistenceEnabled s))
          "Tiered store and data persistence are mutually exclusive features. Persistence must be disabled to enable the Tiered Storage"
   else []) ++
  (if negb (strb (m_InMemoryFormat s) InMemoryFormatNative)
   then Invalid (Path "spec" ["inMemoryFormat"]) (VStr (m_InMemoryFormat s))
          "In-memory format of the map must be NATIVE to enable the Tiered Storage"
   else []) ++
  (if negb (strb (ev_EvictionPolicy (m_Eviction s)) "" || strb (ev_EvictionPolicy (m_Eviction s)) EvictionPolicyNone)
   then Invalid (Path "spec" ["eviction"; "evictionPolicy"]) (VStr (ev_EvictionPolicy (m_Eviction s)))
          "Eviction is not supported for Tiered-Store map"
   else []) ++
  (if negb (m_TimeToLiveSeconds s =? 0)
   then Invalid (Path "spec" ["timeToLiveSeconds"]) (VInt (m_TimeToLiveSeconds s))
          "TTL expiry is not supported for Tiered-Store map"
   else []) ++
  (if negb (m_MaxIdleSeconds s =? 0)
   then Invalid (Path "spec" ["maxIdleSeconds"]) (VInt (m_MaxIdleSeconds s))
          "MaxIdle expiry is not supported for Tiered-Store map"
   else []).

Definition validateMapTieredStore (m : Map) (h : Hazelcast) : res errs :=
  match m_TieredStore (r_Spec m) with
  | None => Ret []
  | Some ts =>
      match getHzSpec h with
      | (es, None) => Ret (tiered_map_errs m ++ es)
      | (es, Some lastSpec) =>
          bind_res (deviceSize (s_LocalDevices lastSpec) (ts_DiskDeviceName ts)) (fun size =>
          bind_res (ptr_Value (ts_MemoryCapacity ts)) (fun capacity =>
          (Ret (tiered_map_errs m ++ es
                ++ (if size =? 0
                    then Invalid (Path "spec" ["tieredStore"; "diskDeviceName"]) (VStr (ts_DiskDeviceName ts))
                           ("device with the name " ++ ts_DiskDeviceName ts ++ " does not exist")
                    else [])
                ++ (if size <? capacity
                    then Invalid (Path "spec" ["tieredStore"; "memoryCapacity"]) (VInt capacity)
                           ("Tiered Storage in-memory tier must be smaller than the disk tier. Map memoryCapacity is "
                            ++ pretty capacity ++ " and local device size is " ++ pretty size)
                    else []))
           >> validateTSMemory ts h)%valid))
      end
  end.

Definition validateMapSpecCurrent (m : Map) (h : Hazelcast) : res errs :=
  (Ret (validateMapPersistence m h) >> Ret (validateMapNativeMemory m h)
   >> Ret (validateNearCacheMemory m h) >> validateMapTieredStore m h)%valid.

Definition validateNotUpdatableMapFields (current last : MapSpec) : res errs :=
  let cd := m_DataStructureSpec current in
  let ld := m_DataStructureSpec last in
  let forbid (b : bool) (f : string) : errs := if b then Forbidden (Path "spec" [f]) "field cannot be updated" else [] in
  match ds_BackupCount cd, ds_BackupCount ld with
  | Some cb, Some lb => Ret (
      forbid (negb (strb (ds_Name cd) (ds_Name ld))) "name" ++
      forbid (negb (cb =? lb)) "backupCount" ++
      forbid (negb (ds_AsyncBackupCount cd =? ds_AsyncBackupCount ld)) "asyncBackupCount" ++
      forbid (negb (indexConfigSliceEquals (default [] (m_Indexes current)) (default [] (m_Indexes last)))) "indexes" ++
      forbid (negb (Bool.eqb (m_PersistenceEnabled current) (m_PersistenceEnabled last))) "persistenceEnabled" ++
      forbid (negb (strb (ds_HazelcastResourceName cd) (ds_HazelcastResourceName ld))) "hazelcastResourceName" ++
      forbid (negb (strb (m_InMemoryFormat current) (m_InMemoryFormat last))) "inMemoryFormat" ++
      forbid (negb (bool_decide (m_EventJournal current = m_EventJournal last))) "eventJournal" ++
      forbid (negb (bool_decide (m_NearCache current = m_NearCache last))) "nearCache" ++
      forbid (negb (DeepEqual_ptr TieredStore_DeepEqual (m_TieredStore current) (m_TieredStore last))) "tieredStore")
  | _, _ => Panic
  end.

Definition validateMapSpecUpdate (m : Map) : res errs :=
  match r_Annotations m !! n_LastSuccessfulSpecAnnotation with
  | None => Ret []
  | Some last =>
      match MapSpec_Unmarshal last with
      | inr err =>
          Ret (InternalError (Path "spec" []) (wrap "error parsing last Map spec for update errors: " err))
      | inl parsed => validateNotUpdatableMapFields (r_Spec m) parsed
      end
  end.

Definition map_Err (m : Map) (r : res errs) : res (option error) :=
  bind_res r (fun es => Ret (Err "Map" (r_Name m) es)).

Definition ValidateMapSpecCreate (m : Map) : res (option error) :=
  map_Err m (Ret (validateDataStructureSpec (m_DataStructureSpec (r_Spec m)))).

Definition ValidateMapSpecUpdate (m : Map) : res (option error) :=
  map_Err m (validateMapSpecUpdate m
             >> Ret (validateDataStructureSpec (m_DataStructureSpec (r_Spec m))))%valid.

Definition ValidateMapSpec (m : Map) (h : Hazelcast) : res (option error) :=
  map_Err m (validateMapSpecCurrent m h >> validateMapSpecUpdate m
             >> Ret (validateDataStructureSpec (m_DataStructureSpec (r_Spec m))))%valid.

(** ** Caches *)

Definition cache_last_spec (h : Hazelcast) : errs * option HazelcastSpec :=
  match h_Annotations h !! n_LastSuccessfulSpecAnnotation with
  | None => (InternalError (Path "spec" [])
               (errors_New ("hazelcast resource " ++ h_Name h ++ " is not successfully started yet")), None)
  | Some s =>
      match HazelcastSpec_Unmarshal s with
      | inr err =>
          (InternalError (Path "spec" []) (wrap "error parsing last Hazelcast spec for update errors: " err), None)
      | inl lastSpec => ([], Some lastSpec)
      end
  end.

Definition validateCachePersistence (s : CacheSpec) (h : Hazelcast) : errs :=
  if negb (c_PersistenceEnabled s) then [] else
  match cache_last_spec h with
  | (es, None) => es
  | (es, Some lastSpec) =>
      es ++ (if negb (Persistence_IsEnabled (s_Persistence lastSpec))
             then Invalid (Path "spec" ["persistenceEnabled"])
                    (VBool (Persistence_IsEnabled (s_Persistence lastSpec))) "Persistence must be enabled at Hazelcast"
             else [])
  end.

Definition validateCacheNativeMemory (s : CacheSpec) (h : Hazelcast) : errs :=
  if negb (strb (c_InMemoryFormat s) InMemoryFormatNative) then [] else
  match cache_last_spec h with
  | (es, None) => es
  | (es, Some lastSpec) =>
      es ++ (if negb (NativeMemory_IsEnabled (s_NativeMemory lastSpec))
             then Invalid (Path "spec" ["inMemoryFormat"])
                    (VBool (NativeMemory_IsEnabled (s_NativeMemory lastSpec))) "Native Memory must be enabled at Hazelcast"
             else [])
  end.

Definition ValidateCacheSpecCurrent (name : string) (s : CacheSpec) (h : Hazelcast) : option error :=
  Err "Cache" name (validateCachePersistence s h ++ validateCacheNativeMemory s h).

Definition validateCacheSpecCreate (name : string) (s : CacheSpec) : option error :=
  Err "Cache" name (validateDataStructureSpec (c_DataStructureSpec s)).

Definition validateCacheSpecUpdate (name : string) (obj : ds_object) (s : CacheSpec) : option error :=
  Err "Cache" name (validateDSSpecUnchanged obj ++ validateDataStructureSpec (c_DataStructureSpec s)).
End MapValidation.

(** ** What the validators accept *)

Lemma slice_equals_view {A B} (view : A -> B) (eq : A -> A -> bool)
    (Heq : forall x y, eq x y = true <-> view x = view y) a b :
  (if negb (Nat.eqb (length a) (length b)) then false else forallb (fun p => eq p.1 p.2) (combine a b)) = true
  <-> view <$> a = view <$> b.
Proof.
  revert b. induction a as [|x a IH]; intros [|y b]; csimpl; [naive_solver..|].
  specialize (IH b). destruct (Nat.eqb (length a) (length b)); csimpl in *.
  - rewrite andb_true_iff, Heq, IH. split; [intros [-> ->]; done|intros [= -> ->]; done].
  - split; [done|]. intros [= Hv Hl]. by apply IH in Hl.
Qed.

Lemma stringSliceEquals_ok a b : stringSliceEquals a b = true <-> a = b.
Proof.
  pose proof (slice_equals_view id strb (fun x y => strb_true x y) a b) as H.
  by rewrite !list_fmap_id in H.
Qed.

(** What the update check compares of an index: not the nilness of slices. *)
Definition index_view (a : IndexConfig) : string * string * list string * option BitmapIndexOptionsConfig :=
  (ix_Name a, ix_Type a, default [] (ix_Attributes a), ix_BitmapIndexOptions a).
Definition indexes_view (l : option (list IndexConfig)) := index_view <$> default [] l.

Lemma indexConfigEquals_ok a b : indexConfigEquals a b = true <-> index_view a = index_view b.
Proof.
  unfold indexConfigEquals, index_view. destruct a as [n t at1 o], b as [n' t' at2 o']; simpl.
  destruct (stringSliceEquals (default [] at1) (default [] at2)) eqn:Ea.
  - apply stringSliceEquals_ok in Ea as ->. unfold strb.
    destruct o, o'; repeat case_bool_decide; simpl; naive_solver.
  - assert (default [] at1 <> default [] at2) by (intros E; rewrite (proj2 (stringSliceEquals_ok _ _)) in Ea; done).
    unfold strb. repeat case_bool_decide; simpl; naive_solver.
Qed.

Lemma indexConfigSliceEquals_ok a b :
  indexConfigSliceEquals (default [] a) (default [] b) = true <-> indexes_view a = indexes_view b.
Proof. apply slice_equals_view, indexConfigEquals_ok. Qed.

Section MapFacts.
Context `{QuantityLib} `{!HazelcastJson} `{!MapJson} `{KErrors}.

(** [last] is the spec the Hazelcast resource was last applied with. *)
Definition applied (h : Hazelcast) (last : HazelcastSpec) : Prop :=
  exists a, h_Annotations h !! n_LastSuccessfulSpecAnnotation = Some a /\ HazelcastSpec_Unmarshal a = inl last.

Lemma getHzSpec_cases h :
  (exists last, applied h last /\ getHzSpec h = ([], Some last))
  \/ (exists e, (forall last, ~ applied h last) /\ getHzSpec h = ([e], None)).
Proof.
  unfold getHzSpec, applied.
  destruct (h_Annotations h !! _) as [a|]; [|right; eexists; split; [naive_solver|done]].
  destruct (HazelcastSpec_Unmarshal a) as [last|e] eqn:E; [left; eauto|].
  right. eexists. split; [|done]. intros last (a' & [= <-] & Hl). congruence.
Qed.

Lemma applied_inj h l1 l2 : applied h l1 -> applied h l2 -> l1 = l2.
Proof. intros (a & Ha & Hl) (b & Hb & Hm). congruence. Qed.

(** A check that needs the last applied spec to satisfy [P]. *)
Lemma hz_check_ok h (b : HazelcastSpec -> bool) (e : HazelcastSpec -> field_error) :
  match getHzSpec h with
  | (es, None) => es
  | (es, Some last) => es ++ (if b last then [e last] else [])
  end = [] <-> exists last, applied h last /\ b last = false.
Proof.
  destruct (getHzSpec_cases h) as [(last & Ha & ->)|(e' & Hn & ->)].
  - simpl. rewrite if_errs_nil. split; [eauto|]. intros (l & Hl & Hb). by rewrite (applied_inj h last l).
  - split; [done|]. intros (l & Hl & _). by destruct (Hn l).
Qed.

Definition needs_persistence (h : Hazelcast) : Prop :=
  exists last, applied h last /\ is_Some (s_Persistence last).
Definition needs_native_memory (h : Hazelcast) : Prop :=
  exists last, applied h last /\ NativeMemory_IsEnabled (s_NativeMemory last) = true.

Lemma validateMapPersistence_ok m h :
  validateMapPersistence m h = [] <-> (m_PersistenceEnabled (r_Spec m) = true -> needs_persistence h).
Proof.
  unfold validateMapPersistence. destruct (m_PersistenceEnabled (r_Spec m)); simpl negb; [|naive_solver].
  unfold Invalid. rewrite (hz_check_ok h _ (fun last => mkFieldError _ _ _ _)).
  unfold needs_persistence, Persistence_IsEnabled.
  setoid_rewrite negb_involutive. setoid_rewrite is_nil_false. naive_solver.
Qed.

Lemma native_check_ok h (e : HazelcastSpec -> field_error) :
  match getHzSpec h with
  | (es, None) => es
  | (es, Some last) => es ++ (if negb (NativeMemory_IsEnabled (s_NativeMemory last)) then [e last] else [])
  end = [] <-> needs_native_memory h.
Proof. rewrite hz_check_ok. unfold needs_native_memory. by setoid_rewrite negb_false_iff. Qed.

Lemma validateMapNativeMemory_ok m h :
  validateMapNativeMemory m h = [] <-> (m_InMemoryFormat (r_Spec m) = InMemoryFormatNative -> needs_native_memory h).
Proof.
  unfold validateMapNativeMemory, strb. case_bool_decide; simpl negb; [|naive_solver].
  unfold Invalid. rewrite (native_check_ok h (fun last => mkFieldError _ _ _ _)). naive_solver.
Qed.

Lemma validateNearCacheMemory_ok m h :
  validateNearCacheMemory m h = [] <->
  (forall nc, m_NearCache (r_Spec m) = Some nc -> nc_InMemoryFormat nc = InMemoryFormatNative -> needs_native_memory h).
Proof.
  unfold validateNearCacheMemory. destruct (m_NearCache (r_Spec m)) as [nc|]; [|naive_solver].
  rewrite forall_Some. unfold strb. case_bool_decide; simpl negb; [|naive_solver].
  unfold Invalid. rewrite (native_check_ok h (fun last => mkFieldError _ _ _ _)). naive_solver.
Qed.

(** [q] is the storage of the first device with the name. *)
Definition first_device (ds : list LocalDeviceConfig) (name : string) (q : Quantity) : Prop :=
  exists pre d post pvc, ds = pre ++ d :: post /\ Forall (fun d => ld_Name d <> name) pre
    /\ ld_Name d = name /\ ld_PVC d = Some pvc /\ pvc_RequestStorage pvc = Some q.

Lemma deviceSize_find ds name size :
  deviceSize ds name = Ret size <->
  (Forall (fun d => ld_Name d <> name) ds /\ size = 0)
  \/ (exists q, first_device ds name q /\ size = Quantity_Value q).
Proof.
  induction ds as [|d ds IH]; simpl.
  - split; [intros [= <-]; by left|]. intros [[_ ->]|(q & (pre & d & post & pvc & E & _) & _)]; [done|].
    by destruct pre.
  - unfold strb. case_bool_decide as Hd.
    + split.
      * destruct (ld_PVC d) as [pvc|] eqn:Ep; [|done]. destruct (pvc_RequestStorage pvc) as [q|] eqn:Eq; [|done].
        intros [= <-]. right. exists q. split; [|done]. exists [], d, ds, pvc. repeat split; done.
      * intros [[Hf _]|(q & (pre & d' & post & pvc & E & Hp & Hn & Hpvc & Hq) & ->)].
        { apply Forall_cons_iff in Hf as [? _]. done. }
        destruct pre as [|x pre]; simplify_eq/=.
        { by rewrite Hpvc, Hq. }
        apply Forall_cons_iff in Hp as [? _]. done.
    + rewrite IH. split.
      * intros [[Hf ->]|(q & (pre & d' & post & pvc & -> & Hp & Hr) & ->)].
        { left. split; [by constructor|done]. }
        right. exists q. split; [|done]. exists (d :: pre), d', post, pvc. split; [done|]. split; [by constructor|done].
      * intros [[Hf ->]|(q & (pre & d' & post & pvc & E & Hp & Hn & Hr) & ->)].
        { left. split; [|done]. by apply Forall_cons_iff in Hf as [_ ?]. }
        destruct pre as [|x pre]; simplify_eq/=. apply Forall_cons_iff in Hp as [_ Hp].
        right. exists q. split; [|done]. by exists pre, d', post, pvc.
Qed.

(** A tiered store is accepted when the map has no persistence, eviction or
    expiry, is stored natively, and its memory tier fits the disk device of
    the last applied spec and the native memory of the current one. *)
Record tiered_map_ok (m : Map) (h : Hazelcast) (ts : TieredStore) : Prop := {
  tm_persistence : m_PersistenceEnabled (r_Spec m) = false;
  tm_format : m_InMemoryFormat (r_Spec m) = InMemoryFormatNative;
  tm_eviction : ev_EvictionPolicy (m_Eviction (r_Spec m)) = ""
                \/ ev_EvictionPolicy (m_Eviction (r_Spec m)) = EvictionPolicyNone;
  tm_ttl : m_TimeToLiveSeconds (r_Spec m) = 0;
  tm_idle : m_MaxIdleSeconds (r_Spec m) = 0;
  tm_memory : exists last disk memory nm,
    applied h last /\ first_device (s_LocalDevices last) (ts_DiskDeviceName ts) disk
    /\ ts_MemoryCapacity ts = Some memory /\ s_NativeMemory (h_Spec h) = Some nm
    /\ Quantity_Value disk <> 0
    /\ Quantity_Value memory <= Quantity_Value disk
    /\ Quantity_Value memory <= Quantity_Value (nm_Size nm);
}.

Lemma tiered_map_errs_ok m :
  tiered_map_errs m = [] <->
  m_PersistenceEnabled (r_Spec m) = false
  /\ m_InMemoryFormat (r_Spec m) = InMemoryFormatNative
  /\ (ev_EvictionPolicy (m_Eviction (r_Spec m)) = ""
      \/ ev_EvictionPolicy (m_Eviction (r_Spec m)) = EvictionPolicyNone)
  /\ m_TimeToLiveSeconds (r_Spec m) = 0 /\ m_MaxIdleSeconds (r_Spec m) = 0.
Proof. unfold tiered_map_errs. errs_nil. done. Qed.

Lemma bind_Ret_inv {A B} (r : res A) (k : A -> res B) b :
  bind_res r k = Ret b <-> exists a, r = Ret a /\ k a = Ret b.
Proof. destruct r; simpl; naive_solver. Qed.

Lemma ptr_Value_ok q z : ptr_Value q = Ret z <-> exists x, q = Some x /\ z = Quantity_Value x.
Proof. destruct q; simpl; naive_solver. Qed.

Lemma validateTSMemory_ok ts h :
  validateTSMemory ts h = Ret [] <->
  exists memory nm, ts_MemoryCapacity ts = Some memory /\ s_NativeMemory (h_Spec h) = Some nm
    /\ Quantity_Value memory <= Quantity_Value (nm_Size nm).
Proof.
  unfold validateTSMemory. rewrite bind_Ret_inv. setoid_rewrite ptr_Value_ok.
  destruct (s_NativeMemory (h_Spec h)) as [nm|]; [|naive_solver].
  destruct (ts_MemoryCapacity ts) as [q|]; [|naive_solver].
  split.
  - intros (z & (x & [= <-] & ->) & Hr). apply Ret_nil in Hr. revert Hr. errs_nil. naive_solver.
  - intros (x & n & [= <-] & [= <-] & Hle). eexists. split; [by eexists|].
    apply Ret_nil. errs_nil. done.
Qed.

Lemma validateMapTieredStore_ok m h :
  validateMapTieredStore m h = Ret [] <->
  (forall ts, m_TieredStore (r_Spec m) = Some ts -> tiered_map_ok m h ts).
Proof.
  unfold validateMapTieredStore. destruct (m_TieredStore (r_Spec m)) as [ts|]; [|naive_solver].
  rewrite forall_Some. destruct (getHzSpec_cases h) as [(last & Ha & ->)|(e & Hn & ->)].
  - rewrite bind_Ret_inv. setoid_rewrite bind_Ret_inv. setoid_rewrite and_then_nil.
    setoid_rewrite Ret_nil. setoid_rewrite validateTSMemory_ok. setoid_rewrite ptr_Value_ok.
    setoid_rewrite deviceSize_find. split.
    + intros (size & Hd & cap & (q & Hq & ->) & Herr & (q' & nm & Hq' & Hnm & Hle)).
      revert Herr. errs_nil. rewrite tiered_map_errs_ok. intros ((?&?&?&?&?) & _ & Hz & Hs).
      rewrite Hq in Hq'. injection Hq' as <-. destruct Hd as [[_ ->]|(disk & Hf & ->)]; [done|].
      constructor; try done. by exists last, disk, q, nm.
    + intros [? ? ? ? ? (l & disk & q & nm & Hl & Hf & Hq & Hnm & Hz & Hs & Hle)].
      rewrite (applied_inj h l last Hl Ha) in *.
      exists (Quantity_Value disk). split; [right; by exists disk|].
      exists (Quantity_Value q). split; [by exists q|]. split; [|by exists q, nm].
      errs_nil. rewrite tiered_map_errs_ok. done.
  - rewrite Ret_nil. unfold errs. rewrite app_nil. split; [by intros [_ [=]]|].
    intros [? ? ? ? ? (l & disk & q & nm & Hl & _)]. by destruct (Hn l).
Qed.

(** ** Updates *)

Definition tiered_same (a b : option TieredStore) : Prop := DeepEqual_ptr TieredStore_DeepEqual a b = true.

(** What an accepted update of a map may not change. *)
Record map_unchanged (last current : MapSpec) : Prop := {
  mu_name : ds_Name (m_DataStructureSpec current) = ds_Name (m_DataStructureSpec last);
  mu_hazelcast : ds_HazelcastResourceName (m_DataStructureSpec current)
                 = ds_HazelcastResourceName (m_DataStructureSpec last);
  mu_backup : exists n, ds_BackupCount (m_DataStructureSpec current) = Some n
                        /\ ds_BackupCount (m_DataStructureSpec last) = Some n;
  mu_async : ds_AsyncBackupCount (m_DataStructureSpec current) = ds_AsyncBackupCount (m_DataStructureSpec last);
  mu_indexes : indexes_view (m_Indexes current) = indexes_view (m_Indexes last);
  mu_persistence : m_PersistenceEnabled current = m_PersistenceEnabled last;
  mu_format : m_InMemoryFormat current = m_InMemoryFormat last;
  mu_journal : m_EventJournal current = m_EventJournal last;
  mu_near_cache : m_NearCache current = m_NearCache last;
  mu_tiered : tiered_same (m_TieredStore current) (m_TieredStore last);
}.

Lemma forbid_nil (b : bool) f :
  (if b then Forbidden (Path "spec" [f]) "field cannot be updated" else []) = [] <-> b = false.
Proof. apply if_errs_nil. Qed.

Lemma validateNotUpdatableMapFields_ok current last :
  validateNotUpdatableMapFields current last = Ret [] <-> map_unchanged last current.
Proof.
  unfold validateNotUpdatableMapFields.
  destruct (ds_BackupCount (m_DataStructureSpec current)) as [cb|] eqn:Ec;
    [|split; [done|intros []; naive_solver]].
  destruct (ds_BackupCount (m_DataStructureSpec last)) as [lb|] eqn:El;
    [|split; [done|intros []; naive_solver]].
  rewrite Ret_nil. unfold errs. rewrite !app_nil, !forbid_nil, !negb_false_iff, !strb_true, !Z.eqb_eq,
    !bool_decide_eq_true, indexConfigSliceEquals_ok, Bool.eqb_true_iff.
  split.
  - intros; destruct_and!. subst. constructor; try done. naive_solver.
  - intros []. destruct_and?. naive_solver.
Qed.

Definition map_update_ok (m : Map) : Prop := forall a,
  r_Annotations m !! n_LastSuccessfulSpecAnnotation = Some a ->
  exists last, MapSpec_Unmarshal a = inl last /\ map_unchanged last (r_Spec m).

Lemma validateMapSpecUpdate_ok m : validateMapSpecUpdate m = Ret [] <-> map_update_ok m.
Proof.
  unfold validateMapSpecUpdate, map_update_ok.
  destruct (r_Annotations m !! _) as [a|]; [|naive_solver]. rewrite forall_Some.
  destruct (MapSpec_Unmarshal a) as [last|e]; [|naive_solver].
  rewrite validateNotUpdatableMapFields_ok. naive_solver.
Qed.

(** Backup counts in the range the schema of the resource enforces. *)
Definition backup_counts (ds : DataStructureSpec) : Prop :=
  0 <= Int32Deref (ds_BackupCount ds) 0 <= 6 /\ 0 <= ds_AsyncBackupCount ds <= 6.

Lemma validateDataStructureSpec_ok ds :
  backup_counts ds ->
  validateDataStructureSpec ds = [] <-> Int32Deref (ds_BackupCount ds) 0 + ds_AsyncBackupCount ds <= 6.
Proof.
  intros [H1' H2']. unfold validateDataStructureSpec, int32.
  rewrite swrap_id by (unfold is_sint; lia).
  destruct (_ >? 6) eqn:E; rewrite Z.gtb_ltb in E.
  - apply Z.ltb_lt in E. split; [done|lia].
  - apply Z.ltb_ge in E. done.
Qed.

Record map_ok (m : Map) (h : Hazelcast) : Prop := {
  mo_persistence : m_PersistenceEnabled (r_Spec m) = true -> needs_persistence h;
  mo_native : m_InMemoryFormat (r_Spec m) = InMemoryFormatNative -> needs_native_memory h;
  mo_near_cache nc : m_NearCache (r_Spec m) = Some nc -> nc_InMemoryFormat nc = InMemoryFormatNative ->
                     needs_native_memory h;
  mo_tiered ts : m_TieredStore (r_Spec m) = Some ts -> tiered_map_ok m h ts;
}.

Lemma map_Err_None m r : map_Err m r = Ret None <-> r = Ret [].
Proof.
  unfold map_Err. rewrite bind_Ret_inv. split.
  - intros (es & -> & [= He]). by rewrite (proj1 (Err_None _ _ _) He).
  - intros ->. by exists [].
Qed.

(** A map whose backup counts are in the range of the schema is accepted
    by the reconciler exactly when the last applied Hazelcast spec supports
    its persistence and its native formats, its tiered store is consistent
    and fits the disk device and the native memory, the recorded spec shows
    no change of a field that may not be updated, and its backups are at most
    six. *)
Theorem map_accepted_iff m h (Hb : backup_counts (m_DataStructureSpec (r_Spec m))) :
  ValidateMapSpec m h = Ret None <->
  map_ok m h /\ map_update_ok m
  /\ Int32Deref (ds_BackupCount (m_DataStructureSpec (r_Spec m))) 0
      + ds_AsyncBackupCount (m_DataStructureSpec (r_Spec m)) <= 6.
Proof.
  unfold ValidateMapSpec, validateMapSpecCurrent.
  rewrite map_Err_None, !and_then_nil, !Ret_nil, validateMapPersistence_ok, validateMapNativeMemory_ok,
    validateNearCacheMemory_ok, validateMapTieredStore_ok, validateMapSpecUpdate_ok,
    (validateDataStructureSpec_ok _ Hb).
  split; [intros ((?&?&?&?)&?&?); split; [by constructor|done]|]. intros ([]&?&?). tauto.
Qed.

Inductive accepted_map_updates : MapSpec -> MapSpec -> Prop :=
| amu_refl s n : ds_BackupCount (m_DataStructureSpec s) = Some n -> accepted_map_updates s s
| amu_step s last m a :
    accepted_map_updates s last ->
    r_Annotations m !! n_LastSuccessfulSpecAnnotation = Some a ->
    MapSpec_Unmarshal a = inl last ->
    ValidateMapSpecUpdate m = Ret None ->
    accepted_map_updates s (r_Spec m).

#[export] Instance tiered_same_refl : Reflexive tiered_same.
Proof.
  intros o. apply DeepEqual_ptr_refl. intros a. unfold TieredStore_DeepEqual.
  rewrite DeepEqual_ptr_refl by apply Quantity_DeepEqual_refl. by apply strb_true.
Qed.

#[export] Instance tiered_same_trans : Transitive tiered_same.
Proof.
  intros x y z. apply DeepEqual_ptr_trans. intros a b d. unfold TieredStore_DeepEqual.
  rewrite !andb_true_iff, !strb_true. intros [Hab ?] [Hbd ?]. split; [|congruence].
  eapply DeepEqual_ptr_trans; [apply Quantity_DeepEqual_trans|done|done].
Qed.

Lemma map_unchanged_trans x y z : map_unchanged x y -> map_unchanged y z -> map_unchanged x z.
Proof.
  intros [? ? (n & ? & ?) ? ? ? ? ? ? ?] [? ? (k & ? & ?) ? ? ? ? ? ? ?].
  constructor; try congruence; [exists n; split; congruence|by etrans].
Qed.

(** Along any chain of updates the validating webhook accepts, a map
    keeps its name, Hazelcast resource, backup counts, indexes, persistence,
    in-memory format, event journal, near cache and tiered store. *)
Theorem accepted_map_updates_unchanged s s' (Hu : accepted_map_updates s s') : map_unchanged s s'.
Proof.
  induction Hu as [s n Hn|s last m a _ IH Ha Hj Hv].
  - constructor; try done. eauto.
  - eapply map_unchanged_trans; [exact IH|].
    apply map_Err_None, and_then_nil in Hv as [Hv _]. apply validateMapSpecUpdate_ok in Hv.
    destruct (Hv a Ha) as (l & Hl & Hun). congruence.
Qed.

(** Validating a map with a tiered store against a started Hazelcast
    resource whose spec has no native memory dereferences a nil pointer: the
    reconciler panics instead of reporting that native memory is required. *)
Theorem tiered_store_without_native_memory_panics m h ts last size
    (Hts : m_TieredStore (r_Spec m) = Some ts) (Hl : applied h last)
    (Hd : deviceSize (s_LocalDevices last) (ts_DiskDeviceName ts) = Ret size)
    (Hn : s_NativeMemory (h_Spec h) = None) :
  ValidateMapSpec m h = Panic.
Proof.
  unfold ValidateMapSpec, validateMapSpecCurrent, validateMapTieredStore. rewrite Hts.
  destruct (getHzSpec_cases h) as [(l & Ha & ->)|(e & Hno & _)]; [|by destruct (Hno last)].
  rewrite (applied_inj h l last Ha Hl), Hd. simpl.
  unfold validateTSMemory. rewrite Hn. by destruct (ts_MemoryCapacity ts).
Qed.
End MapFacts.

Module MapWitnesses.
Import HazelcastWitnesses.

Definition ds1 : DataStructureSpec := mkDataStructureSpec "" "hz" (Some 1) 2 "".
Definition ts1 : TieredStore := mkTieredStore (Some 268435456) "dev".
Definition mspec1 : MapSpec :=
  mkMapSpec ds1 0 0 (mkEvictionConfig "NONE" 0 "PER_NODE") (Some [mkIndexConfig "i" "HASH" (Some ["name"]) None]) []
    false None "NATIVE" [] None None (Some ts1) None.
Definition map1 : Map :=
  mkResource "default" "m" "" [] [] false {[n_LastSuccessfulSpecAnnotation := "map"]} mspec1
    (mkDataStructureStatus "" "" ∅).
#[local] Existing Instance json1.
#[local] Instance mapjson1 : MapJson :=
  {| MapSpec_Marshal _ := inl "map"; MapSpec_Unmarshal s := if strb s "map" then inl mspec1 else inr (errors_New "bad json") |}.

Lemma map_accepted_witness :
  backup_counts (m_DataStructureSpec (r_Spec map1)) /\ map_ok map1 (hz1 3) /\ map_update_ok map1.
Proof.
  assert (backup_counts (m_DataStructureSpec (r_Spec map1))) as Hb by (unfold backup_counts; simpl; lia).
  split; [exact Hb|].
  destruct (proj1 (map_accepted_iff map1 (hz1 3) Hb)) as (Hok & Hu & _); [vm_compute; reflexivity|].
  split; [exact Hok|exact Hu].
Defined.

Lemma accepted_map_updates_witness :
  accepted_map_updates mspec1 (r_Spec map1) /\ map_unchanged mspec1 (r_Spec map1).
Proof.
  assert (accepted_map_updates mspec1 (r_Spec map1)) as Hc.
  { apply (amu_step mspec1 mspec1 map1 "map"); [by apply (amu_refl _ 1)|reflexivity|reflexivity|].
    vm_compute. reflexivity. }
  split; [exact Hc|]. apply (accepted_map_updates_unchanged mspec1 (r_Spec map1) Hc).
Defined.

Definition spec_no_native : HazelcastSpec :=
  mkHazelcastSpec (Some 3) "" "license" None None None "" None None None None "" None [] None "dev" None [] [] [] None None None None.
#[local] Instance json2 : HazelcastJson | 0 := {| HazelcastSpec_Unmarshal _ := inl spec_no_native |}.
Definition hz2 : Hazelcast :=
  mkHazelcast "hz" "default" {[n_LastSuccessfulSpecAnnotation := "x"]} false spec_no_native (mkHazelcastStatus 3 "Running").

Lemma tiered_store_panics_witness : ValidateMapSpec map1 hz2 = Panic.
Proof.
  apply (tiered_store_without_native_memory_panics map1 hz2 ts1 spec_no_native 0).
  - reflexivity.
  - exists "x". split; reflexivity.
  - reflexivity.
  - reflexivity.
Defined.
End MapWitnesses.
