(* ===== verification/DataStructureConfig.v ===== *)
(** * Data structures: the configuration sent and the configuration persisted

    The same resource is turned into two things: the structure encoded in the
    request that adds the data structure to a running member (the [fill...]
    functions of the controllers in src/internal/controller/hazelcast and the
    defaults of src/internal/protocol/types), and the section of
    hazelcast.yaml a restarted member reads (the [create...] functions of
    hazelcast_resources.go).  Dereferencing a nil pointer is [Panic]. *)

From S2P Require Import Prelude Eff HazelcastTypes DataStructureTypes ConfigTypes Proto CodecTypes.
#[local] Open Scope go_scope.
#[local] Open Scope string_scope.
#[local] Open Scope list_scope.
#[local] Open Scope Z_scope.

(** [*p] *)
Definition deref {A} (o : option A) : res A := match o with Some a => Ret a | None => Panic end.

(** ** Default values (src/internal/naming/constants.go) *)

Definition DefaultMergePolicy : string := "com.hazelcast.spi.merge.PutIfAbsentMergePolicy".
Definition DefaultMergePolicyClassName : string := "com.hazelcast.spi.merge.PassThroughMergePolicy".
Definition DefaultMergeBatchSize : Z := 100.
Definition cfg_DefaultMergePolicy : cfg_MergePolicy := mk_cfg_MergePolicy DefaultMergePolicy DefaultMergeBatchSize.

(** ** Multimaps *)

Definition MultiMap_GetDSName (mm : MultiMap) : string :=
  let n := ds_Name (mm_DataStructureSpec (r_Spec mm)) in if negb (strb n "") then n else r_Name mm.

Definition DefaultMultiMapConfigInput : MultiMapConfig :=
  mkMultiMapConfig "" "dev" 1 0 false DefaultMergePolicy DefaultMergeBatchSize true None "" "".

Definition fillMultiMapConfigInput (i : MultiMapConfig) (mm : MultiMap) : res MultiMapConfig :=
  let mms := r_Spec mm in
  let ds := mm_DataStructureSpec mms in
  bc <-! deref (ds_BackupCount ds) ;;
  Ret (mkMultiMapConfig (MultiMap_GetDSName mm) (mm_CollectionType mms) bc (ds_AsyncBackupCount ds) (mm_Binary mms)
    (MultiMapConfig_MergePolicy i) (MultiMapConfig_MergeBatchSize i) (MultiMapConfig_StatisticsEnabled i)
    (MultiMapConfig_ListenerConfigs i) (MultiMapConfig_SplitBrainProtectionName i) (ds_UserCodeNamespace ds)).

Definition createMultiMapConfig (mm : MultiMap) : res cfg_MultiMap :=
  let mms := r_Spec mm in
  let ds := mm_DataStructureSpec mms in
  bc <-! deref (ds_BackupCount ds) ;;
  Ret (mk_cfg_MultiMap bc (ds_AsyncBackupCount ds) (mm_Binary mms) (mm_CollectionType mms) true
    cfg_DefaultMergePolicy (ds_UserCodeNamespace ds)).

(** ** Queues *)

Definition Queue_GetDSName (q : Queue) : string :=
  let n := ds_Name (q_DataStructureSpec (r_Spec q)) in if negb (strb n "") then n else r_Name q.

Definition DefaultQueueConfigInput : QueueConfigInput :=
  mkQueueConfigInput "" None 1 0 0 (-1) true "" QueueStoreConfigHolder_zero DefaultMergePolicy DefaultMergeBatchSize "" "".

Definition fillQueueConfigInput (i : QueueConfigInput) (q : Queue) : res QueueConfigInput :=
  let qs := r_Spec q in
  let ds := q_DataStructureSpec qs in
  bc <-! deref (ds_BackupCount ds) ;;
  ttl <-! deref (q_EmptyQueueTtlSeconds qs) ;;
  Ret (mkQueueConfigInput (Queue_GetDSName q) (QueueConfigInput_ListenerConfigs i) bc (ds_AsyncBackupCount ds)
    (q_MaxSize qs) ttl (QueueConfigInput_StatisticsEnabled i) (QueueConfigInput_SplitBrainProtectionName i)
    (QueueConfigInput_QueueStoreConfig i) (QueueConfigInput_MergePolicy i) (QueueConfigInput_MergeBatchSize i)
    (q_PriorityComparatorClassName qs) (ds_UserCodeNamespace ds)).

Definition createQueueConfig (q : Queue) : res cfg_Queue :=
  let qs := r_Spec q in
  let ds := q_DataStructureSpec qs in
  bc <-! deref (ds_BackupCount ds) ;;
  ttl <-! deref (q_EmptyQueueTtlSeconds qs) ;;
  Ret (mk_cfg_Queue bc (ds_AsyncBackupCount ds) ttl (q_MaxSize qs) true cfg_DefaultMergePolicy
    (q_PriorityComparatorClassName qs) (ds_UserCodeNamespace ds)).

(** ** Topics *)

Definition Topic_GetDSName (t : Topic) : string :=
  let n := t_Name (r_Spec t) in if negb (strb n "") then n else r_Name t.

Definition DefaultTopicConfigInput : TopicConfig := mkTopicConfig "" false false true None "".

Definition fillTopicConfigInput (i : TopicConfig) (t : Topic) : res TopicConfig :=
  let ts := r_Spec t in
  Ret (mkTopicConfig (Topic_GetDSName t) (t_GlobalOrderingEnabled ts) (t_MultiThreadingEnabled ts)
    (TopicConfig_StatisticsEnabled i) (TopicConfig_ListenerConfigs i) (t_UserCodeNamespace ts)).

Definition createTopicConfig (t : Topic) : res cfg_Topic :=
  let ts := r_Spec t in
  Ret (mk_cfg_Topic (t_GlobalOrderingEnabled ts) (t_MultiThreadingEnabled ts) true None (t_UserCodeNamespace ts)).

(** ** Replicated maps *)

Definition ReplicatedMap_GetDSName (rm : ReplicatedMap) : string :=
  let n := rm_Name (r_Spec rm) in if negb (strb n "") then n else r_Name rm.

Definition DefaultReplicatedMapConfigInput : ReplicatedMapConfig :=
  mkReplicatedMapConfig "" "OBJECT" true DefaultMergePolicy DefaultMergeBatchSize true None "" "".

Definition fillReplicatedConfigInput (i : ReplicatedMapConfig) (rm : ReplicatedMap) : res ReplicatedMapConfig :=
  let rms := r_Spec rm in
  a <-! deref (rm_AsyncFillup rms) ;;
  Ret (mkReplicatedMapConfig (ReplicatedMap_GetDSName rm) (rm_InMemoryFormat rms) a
    (ReplicatedMapConfig_MergePolicy i) (ReplicatedMapConfig_MergeBatchSize i)
    (ReplicatedMapConfig_StatisticsEnabled i) (ReplicatedMapConfig_ListenerConfigs i)
    (ReplicatedMapConfig_SplitBrainProtectionName i) (rm_UserCodeNamespace rms)).

Definition createReplicatedMapConfig (rm : ReplicatedMap) : res cfg_ReplicatedMap :=
  let rms := r_Spec rm in
  a <-! deref (rm_AsyncFillup rms) ;;
  Ret (mk_cfg_ReplicatedMap (rm_InMemoryFormat rms) a true cfg_DefaultMergePolicy (rm_UserCodeNamespace rms)).

(** ** Caches *)

Definition Cache_GetDSName (c : Cache) : string :=
  let n := ds_Name (c_DataStructureSpec (r_Spec c)) in if negb (strb n "") then n else r_Name c.

Definition DefaultCacheConfigInput : CacheConfigInput :=
  mkCacheConfigInput "" 1 0 false false false false DefaultMergePolicy DefaultMergeBatchSize false "" "" "" "" "" ""
    "BINARY" "" None "" TimedExpiryPolicyFactoryConfig_zero None
    (mkEvictionConfigHolder 10000 "ENTRY_COUNT" "LRU" "" None)
    WanReplicationRef_zero EventJournalConfig_zero HotRestartConfig_zero MerkleTreeConfig_zero
    DataPersistenceConfig_zero "".

Definition fillCacheConfigInput (i : CacheConfigInput) (c : Cache) : res CacheConfigInput :=
  let cs := r_Spec c in
  let ds := c_DataStructureSpec cs in
  bc <-! deref (ds_BackupCount ds) ;;
  Ret (mkCacheConfigInput (Cache_GetDSName c) bc (ds_AsyncBackupCount ds)
    (CacheConfigInput_StatisticsEnabled i) (CacheConfigInput_ManagementEnabled i)
    (CacheConfigInput_ReadThrough i) (CacheConfigInput_WriteThrough i)
    (CacheConfigInput_MergePolicy i) (CacheConfigInput_MergeBatchSize i)
    (CacheConfigInput_DisablePerEntryInvalidationEvents i)
    (c_KeyType cs) (c_ValueType cs)
    (CacheConfigInput_CacheLoaderFactory i) (CacheConfigInput_CacheWriterFactory i)
    (CacheConfigInput_CacheLoader i) (CacheConfigInput_CacheWriter i)
    (c_InMemoryFormat cs) (CacheConfigInput_SplitBrainProtectionName i)
    (CacheConfigInput_PartitionLostListenerConfigs i) (CacheConfigInput_ExpiryPolicyFactoryClassName i)
    (CacheConfigInput_TimedExpiryPolicyFactoryConfig i) (CacheConfigInput_CacheEntryListeners i)
    (CacheConfigInput_EvictionConfig i) (CacheConfigInput_WanReplicationRef i)
    (match c_EventJournal cs with
     | Some e => mkEventJournalConfig true (ej_Capacity e) (ej_TimeToLiveSeconds e)
     | None => CacheConfigInput_EventJournalConfig i
     end)
    (mkHotRestartConfig (c_PersistenceEnabled cs) (HotRestartConfig_Fsync (CacheConfigInput_HotRestartConfig i)))
    (CacheConfigInput_MerkleTreeConfig i) (CacheConfigInput_DataPersistenceConfig i) (ds_UserCodeNamespace ds)).

Definition createCacheConfig (c : Cache) : res cfg_Cache :=
  let cs := r_Spec c in
  let ds := c_DataStructureSpec cs in
  bc <-! deref (ds_BackupCount ds) ;;
  Ret (mk_cfg_Cache bc (ds_AsyncBackupCount ds) false false false false cfg_DefaultMergePolicy
    (if negb (strb (c_KeyType cs) "") then mk_cfg_ClassType (c_KeyType cs) else cfg_ClassType_zero)
    (if negb (strb (c_ValueType cs) "") then mk_cfg_ClassType (c_ValueType cs) else cfg_ClassType_zero)
    (c_InMemoryFormat cs)
    (mk_cfg_DataPersistence (c_PersistenceEnabled cs) false)
    (match c_EventJournal cs with
     | Some e => mk_cfg_EventJournal true (ej_Capacity e) (ej_TimeToLiveSeconds e)
     | None => cfg_EventJournal_zero
     end)
    (ds_UserCodeNamespace ds)).

(** ** Maps *)

Definition DefaultAddMapConfigInput : AddMapConfigInput :=
  mkAddMapConfigInput "" 1 0 0 0 (mkEvictionConfigHolder 0 "PER_NODE" "NONE" "" None) false "INDEX_ONLY"
    DefaultMergePolicy DefaultMergeBatchSize "BINARY" None None true "" MapStoreConfigHolder_zero
    NearCacheConfigHolder_zero WanReplicationRef_zero None None None "" None (mkHotRestartConfig false false)
    EventJournalConfig_zero MerkleTreeConfig_zero 0 false
    (mkTieredStoreConfig false (mkMemoryTierConfig (mkCapacity 256 "MEGABYTES"))
       (mkDiskTierConfig false "default-tiered-store-device"))
    DataPersistenceConfig_zero "".

Definition copyIndexes (idx : option (list DataStructureTypes.IndexConfig)) : list IndexConfig :=
  (fun index => mkIndexConfig (ix_Name index)
    (if negb (strb (ix_Type index) "") then EncodeIndexType (ix_Type index) else 0)
    (default [] (ix_Attributes index))
    match ix_BitmapIndexOptions index with
    | Some b => mkBitmapIndexOptions (bi_UniqueKey b)
        (if negb (strb (bi_UniqueKeyTransition b) "") then EncodeUniqueKeyTransition (bi_UniqueKeyTransition b) else 0)
    | None => BitmapIndexOptions_zero
    end) <$> default [] idx.

Definition copyMapIndexes (idx : option (list DataStructureTypes.IndexConfig)) : option (list cfg_MapIndex) :=
  fmap (M := option) (fmap (M := list) (fun index => mk_cfg_MapIndex (ix_Name index) (ix_Type index) (ix_Attributes index)
    match ix_BitmapIndexOptions index with
    | Some b => mk_cfg_BitmapIndexOptions (bi_UniqueKey b) (bi_UniqueKeyTransition b)
    | None => cfg_BitmapIndexOptions_zero
    end)) idx.

(** A slice that is nil until something is appended to it. *)
Definition appended {A} (l : list A) : option (list A) := match l with [] => None | _ => Some l end.

Definition copyAttributes (attributes : list DataStructureTypes.AttributeConfig) : option (list AttributeConfig) :=
  appended ((fun a => mkAttributeConfig (at_Name a) (at_ExtractorClassName a)) <$> attributes).

Definition attributes (attributes : list DataStructureTypes.AttributeConfig) : option (list cfg_Attribute) :=
  appended ((fun a => mk_cfg_Attribute (at_Name a) (at_ExtractorClassName a)) <$> attributes).

Section MapConfig.
Context `{QuantityLib}.

Definition defaultWanReplicationRefName (m : Map) : string := (MapName m ++ "-default")%string.

Definition defaultWanReplicationRefCodec (m : Map) : WanReplicationRef :=
  mkWanReplicationRef (defaultWanReplicationRefName m) DefaultMergePolicyClassName (Some []) true.

Definition wanReplicationRef (ref : WanReplicationRef) : gmap string cfg_WanReplicationReference :=
  {[ WanReplicationRef_Name ref := mk_cfg_WanReplicationReference (WanReplicationRef_MergePolicyClassName ref)
       (WanReplicationRef_RepublishingEnabled ref) (WanReplicationRef_Filters ref) ]}.

(** The parts of [fillAddMapConfigInput]: near cache, tiered store, map store
    and entry listeners, each left as it is in the default input where the spec has none. *)
Definition fill_near_cache (i : NearCacheConfigHolder) (nc : option NearCache) : res NearCacheConfigHolder :=
  match nc with
  | None => Ret i
  | Some nc =>
      inv <-! deref (nc_InvalidateOnChange nc) ;;
      loc <-! deref (nc_CacheLocalEntries nc) ;;
      Ret (mkNearCacheConfigHolder (nc_Name nc) (nc_InMemoryFormat nc) (NearCacheConfigHolder_SerializeKeys i) inv
        (int32 (nc_TimeToLiveSeconds nc)) (int32 (nc_MaxIdleSeconds nc))
        (mkEvictionConfigHolder (int32 (ne_Size (nc_NearCacheEviction nc)))
           (ne_MaxSizePolicy (nc_NearCacheEviction nc)) (ne_EvictionPolicy (nc_NearCacheEviction nc)) "" None)
        loc "INVALIDATE" (mkNearCachePreloaderConfig false "" 600 600))
  end.

Definition fill_tiered_store (i : TieredStoreConfig) (ts : option TieredStore) : res TieredStoreConfig :=
  match ts with
  | None => Ret i
  | Some ts =>
      q <-! deref (ts_MemoryCapacity ts) ;;
      Ret (mkTieredStoreConfig true (mkMemoryTierConfig (mkCapacity (Quantity_Value q) "BYTES"))
        (mkDiskTierConfig true (ts_DiskDeviceName ts)))
  end.

Definition fill_map_store (i : MapStoreConfigHolder) (props : option (gmap string string)) (s : option MapStoreConfig)
  : MapStoreConfigHolder :=
  match s with
  | None => i
  | Some s => mkMapStoreConfigHolder true (default true (ms_WriteCoealescing s)) (ms_WriteDelaySeconds s)
      (ms_WriteBatchSize s) (ms_ClassName s) (MapStoreConfigHolder_Implementation i)
      (MapStoreConfigHolder_FactoryClassName i) (MapStoreConfigHolder_FactoryImplementation i)
      (if Nat.eqb (size (default ∅ props)) 0 then Some {["no_empty_props_allowed" := ""]} else props)
      (ms_InitialMode s)
  end.

Definition fill_listeners (i : option (list ListenerConfigHolder)) (els : list EntryListenerConfiguration)
  : option (list ListenerConfigHolder) :=
  match els with
  | [] => i
  | els => Some ((fun el => mkListenerConfigHolder 2 None (el_ClassName el) (GetIncludedValue el) (el_Local el)) <$> els)
  end.

(** [fillAddMapConfigInput] once the properties of the map store are known. *)
Definition fill_map_input (i : AddMapConfigInput) (props : option (gmap string string)) (m : Map)
  : res AddMapConfigInput :=
  let ms := r_Spec m in
  let ds := m_DataStructureSpec ms in
  bc <-! deref (ds_BackupCount ds) ;;
  near <-! fill_near_cache (AddMapConfigInput_NearCacheConfig i) (m_NearCache ms) ;;
  tiered <-! fill_tiered_store (AddMapConfigInput_TieredStoreConfig i) (m_TieredStore ms) ;;
  let ev := AddMapConfigInput_EvictionConfig i in
  Ret (mkAddMapConfigInput (MapName m) bc (ds_AsyncBackupCount ds) (m_TimeToLiveSeconds ms) (m_MaxIdleSeconds ms)
    (mkEvictionConfigHolder (ev_MaxSize (m_Eviction ms)) (ev_MaxSizePolicy (m_Eviction ms))
       (ev_EvictionPolicy (m_Eviction ms)) (EvictionConfigHolder_ComparatorClassName ev)
       (EvictionConfigHolder_Comparator ev))
    (AddMapConfigInput_ReadBackupData i) (AddMapConfigInput_CacheDeserializedValues i)
    (AddMapConfigInput_MergePolicy i) (AddMapConfigInput_MergeBatchSize i)
    (m_InMemoryFormat ms)
    (fill_listeners (AddMapConfigInput_ListenerConfigs i) (m_EntryListeners ms))
    (AddMapConfigInput_PartitionLostListenerConfigs i) (AddMapConfigInput_StatisticsEnabled i)
    (AddMapConfigInput_SplitBrainProtectionName i)
    (fill_map_store (AddMapConfigInput_MapStoreConfig i) props (m_MapStore ms))
    near
    (defaultWanReplicationRefCodec m) (Some (copyIndexes (m_Indexes ms))) (copyAttributes (m_Attributes ms))
    (AddMapConfigInput_QueryCacheConfigs i) (AddMapConfigInput_PartitioningStrategyClassName i)
    (AddMapConfigInput_PartitioningStrategyImplementation i)
    (mkHotRestartConfig (m_PersistenceEnabled ms) (HotRestartConfig_Fsync (AddMapConfigInput_HotRestartConfig i)))
    (match m_EventJournal ms with
     | Some e => mkEventJournalConfig true (ej_Capacity e) (ej_TimeToLiveSeconds e)
     | None => AddMapConfigInput_EventJournalConfig i
     end)
    (match m_MerkleTree ms with
     | Some depth => mkMerkleTreeConfig true depth true
     | None => AddMapConfigInput_MerkleTreeConfig i
     end)
    (AddMapConfigInput_MetadataPolicy i) (AddMapConfigInput_PerEntryStatsEnabled i) tiered
    (AddMapConfigInput_DataPersistenceConfig i) (ds_UserCodeNamespace ds)).

(** The same parts in [createMapConfig]. *)
Definition create_near_cache (nc : option NearCache) : res cfg_NearCacheConfig :=
  match nc with
  | None => Ret cfg_NearCacheConfig_zero
  | Some nc =>
      inv <-! deref (nc_InvalidateOnChange nc) ;;
      loc <-! deref (nc_CacheLocalEntries nc) ;;
      Ret (mk_cfg_NearCacheConfig (nc_InMemoryFormat nc) inv (nc_TimeToLiveSeconds nc) (nc_MaxIdleSeconds nc) loc
        (mk_cfg_NearCacheEviction (ne_Size (nc_NearCacheEviction nc))
           (ne_MaxSizePolicy (nc_NearCacheEviction nc)) (ne_EvictionPolicy (nc_NearCacheEviction nc))))
  end.

Definition create_tiered_store (ts : option TieredStore) : res cfg_TieredStore :=
  match ts with
  | None => Ret cfg_TieredStore_zero
  | Some ts =>
      q <-! deref (ts_MemoryCapacity ts) ;;
      Ret (mk_cfg_TieredStore true (mk_cfg_MemoryTier (mk_cfg_Size (Quantity_Value q) "BYTES"))
        (mk_cfg_DiskTier true (ts_DiskDeviceName ts)))
  end.

Definition create_map_store (props : option (gmap string string)) (s : option MapStoreConfig) : cfg_MapStoreConfig :=
  match s with
  | None => cfg_MapStoreConfig_zero
  | Some s => mk_cfg_MapStoreConfig true (ms_WriteCoealescing s) (ms_WriteDelaySeconds s) (ms_WriteBatchSize s)
      (ms_ClassName s) props (ms_InitialMode s)
  end.

(** [createMapConfig] once the properties of the map store are known. *)
Definition create_map_config (props : option (gmap string string)) (m : Map) : res cfg_Map :=
  let ms := r_Spec m in
  let ds := m_DataStructureSpec ms in
  bc <-! deref (ds_BackupCount ds) ;;
  near <-! create_near_cache (m_NearCache ms) ;;
  tiered <-! create_tiered_store (m_TieredStore ms) ;;
  Ret (mk_cfg_Map bc (ds_AsyncBackupCount ds) (m_TimeToLiveSeconds ms) 0
    (mk_cfg_MapEviction (ev_MaxSize (m_Eviction ms)) (ev_MaxSizePolicy (m_Eviction ms))
       (ev_EvictionPolicy (m_Eviction ms)))
    false (m_InMemoryFormat ms) true (copyMapIndexes (m_Indexes ms)) (attributes (m_Attributes ms))
    (mk_cfg_DataPersistence (m_PersistenceEnabled ms) false)
    (Some (wanReplicationRef (defaultWanReplicationRefCodec m)))
    (create_map_store props (m_MapStore ms))
    (appended ((fun el => mk_cfg_EntryListener (el_ClassName el) (GetIncludedValue el) (el_Local el)) <$> m_EntryListeners ms))
    near
    (match m_EventJournal ms with
     | Some e => mk_cfg_EventJournal true (ej_Capacity e) (ej_TimeToLiveSeconds e)
     | None => cfg_EventJournal_zero
     end)
    tiered
    (match m_MerkleTree ms with Some depth => mk_cfg_MerkleTree true depth | None => cfg_MerkleTree_zero end)
    (ds_UserCodeNamespace ds)).
End MapConfig.
