(* ===== verification/DataStructureValidation.v ===== *)
(** * The interface of a data structure, and its implementations

    The Go interface [DataStructure] (src/api/v1alpha1/data_structure.go) as a
    class of what the controllers call, implemented by multimaps, queues,
    topics, caches and replicated maps with their validators
    (multimap_validation.go, queue_validation.go, topic_validation.go,
    replicatedmap_validation.go, cache_validation.go). *)

From S2P Require Import Prelude Eff FieldValidation Json HazelcastTypes DataStructureTypes HazelcastValidation HazelcastValidationFacts MapValidation ConfigTypes Proto CodecTypes DataStructureConfig.
#[local] Open Scope string_scope.
#[local] Open Scope list_scope.
#[local] Open Scope Z_scope.

Section Validators.
Context `{KErrors} `{JsonText}.

Definition ds_GetSpec {S} (encode : S -> json) (o : resource S DataStructureStatus) : sum string error :=
  inl (json_print (encode (r_Spec o))).
Definition ds_SetSpec {S} (decode : decoder S) (o : resource S DataStructureStatus) (spec : string)
  : sum (resource S DataStructureStatus) error :=
  match json_Unmarshal decode spec (r_Spec o) with inl s => inl (set_Spec o s) | inr e => inr e end.

Definition ds_view {S} (encode : S -> json) (o : resource S DataStructureStatus) : ds_object :=
  mkDsObject (r_Annotations o) (ds_GetSpec encode o).

Definition validateMultiMapSpecCreate (mm : MultiMap) : option error :=
  Err "MultiMap" (r_Name mm) (validateDataStructureSpec (mm_DataStructureSpec (r_Spec mm))).
Definition validateMultiMapSpecUpdate (mm : MultiMap) : option error :=
  Err "MultiMap" (r_Name mm) (validateDSSpecUnchanged (ds_view MultiMapSpec_encode mm)
    ++ validateDataStructureSpec (mm_DataStructureSpec (r_Spec mm))).

Definition validateQueueSpecCreate (q : Queue) : option error :=
  Err "Queue" (r_Name q) (validateDataStructureSpec (q_DataStructureSpec (r_Spec q))).
Definition validateQueueSpecUpdate (q : Queue) : option error :=
  Err "Queue" (r_Name q) (validateDSSpecUnchanged (ds_view QueueSpec_encode q)
    ++ validateDataStructureSpec (q_DataStructureSpec (r_Spec q))).

Definition validateTopicSpecCurrent (t : Topic) : option error :=
  Err "Topic" (r_Name t)
    (if t_GlobalOrderingEnabled (r_Spec t) && t_MultiThreadingEnabled (r_Spec t)
     then Invalid (Path "spec" ["multiThreadingEnabled"]) (VBool (t_MultiThreadingEnabled (r_Spec t)))
            "multi threading can not be enabled when global ordering is used."
     else []).
Definition validateTopicSpecUpdate (t : Topic) : option error :=
  Err "Topic" (r_Name t) (validateDSSpecUnchanged (ds_view TopicSpec_encode t)).

Definition validateReplicatedMapSpecUpdate (rm : ReplicatedMap) : option error :=
  Err "ReplicatedMap" (r_Name rm) (validateDSSpecUnchanged (ds_view ReplicatedMapSpec_encode rm)).
End Validators.

(** ** The interface *)

Class DataStructure `{QuantityLib} (S : Type) := {
  ds_Kind : string;
  GetDSName : resource S DataStructureStatus -> string;
  GetHZResourceName : resource S DataStructureStatus -> string;
  GetSpec : resource S DataStructureStatus -> sum string error;
  SetSpec : resource S DataStructureStatus -> string -> sum (resource S DataStructureStatus) error;
  ValidateSpecCurrent : resource S DataStructureStatus -> Hazelcast -> option error;
  ValidateSpecUpdate : resource S DataStructureStatus -> option error;
}.

Section Instances.
Context `{QuantityLib} `{!HazelcastJson} `{KErrors} `{JsonText}.

#[export] Instance MultiMap_DataStructure : DataStructure MultiMapSpec := {|
  ds_Kind := "MultiMap";
  GetDSName := MultiMap_GetDSName;
  GetHZResourceName mm := ds_HazelcastResourceName (mm_DataStructureSpec (r_Spec mm));
  GetSpec := ds_GetSpec MultiMapSpec_encode;
  SetSpec := ds_SetSpec MultiMapSpec_decode;
  ValidateSpecCurrent _ _ := None;
  ValidateSpecUpdate := validateMultiMapSpecUpdate;
|}.

#[export] Instance Queue_DataStructure : DataStructure QueueSpec := {|
  ds_Kind := "Queue";
  GetDSName := Queue_GetDSName;
  GetHZResourceName q := ds_HazelcastResourceName (q_DataStructureSpec (r_Spec q));
  GetSpec := ds_GetSpec QueueSpec_encode;
  SetSpec := ds_SetSpec QueueSpec_decode;
  ValidateSpecCurrent _ _ := None;
  ValidateSpecUpdate := validateQueueSpecUpdate;
|}.

#[export] Instance Topic_DataStructure : DataStructure TopicSpec := {|
  ds_Kind := "Topic";
  GetDSName := Topic_GetDSName;
  GetHZResourceName t := t_HazelcastResourceName (r_Spec t);
  GetSpec := ds_GetSpec TopicSpec_encode;
  SetSpec := ds_SetSpec TopicSpec_decode;
  ValidateSpecCurrent t _ := validateTopicSpecCurrent t;
  ValidateSpecUpdate := validateTopicSpecUpdate;
|}.

#[export] Instance Cache_DataStructure : DataStructure CacheSpec := {|
  ds_Kind := "Cache";
  GetDSName := Cache_GetDSName;
  GetHZResourceName c := ds_HazelcastResourceName (c_DataStructureSpec (r_Spec c));
  GetSpec := ds_GetSpec CacheSpec_encode;
  SetSpec := ds_SetSpec CacheSpec_decode;
  ValidateSpecCurrent c h := ValidateCacheSpecCurrent (r_Name c) (r_Spec c) h;
  ValidateSpecUpdate c := validateCacheSpecUpdate (r_Name c) (ds_view CacheSpec_encode c) (r_Spec c);
|}.

#[export] Instance ReplicatedMap_DataStructure : DataStructure ReplicatedMapSpec := {|
  ds_Kind := "ReplicatedMap";
  GetDSName := ReplicatedMap_GetDSName;
  GetHZResourceName rm := rm_HazelcastResourceName (r_Spec rm);
  GetSpec := ds_GetSpec ReplicatedMapSpec_encode;
  SetSpec := ds_SetSpec ReplicatedMapSpec_decode;
  ValidateSpecCurrent _ _ := None;
  ValidateSpecUpdate := validateReplicatedMapSpecUpdate;
|}.
End Instances.

(** The kinds of data structures that share a controller. *)
Inductive ds_kind := MultiMapKind | TopicKind | ReplicatedMapKind | QueueKind | CacheKind.
#[export] Instance ds_kind_eq_dec : EqDecision ds_kind.
Proof. solve_decision. Defined.

Definition ds_spec (d : ds_kind) : Type :=
  match d with
  | MultiMapKind => MultiMapSpec
  | TopicKind => TopicSpec
  | ReplicatedMapKind => ReplicatedMapSpec
  | QueueKind => QueueSpec
  | CacheKind => CacheSpec
  end.
Definition ds_obj (d : ds_kind) : Type := resource (ds_spec d) DataStructureStatus.

#[export] Instance ds_instance `{QuantityLib} `{!HazelcastJson} `{KErrors} `{JsonText} (d : ds_kind)
  : DataStructure (ds_spec d) :=
  match d with
  | MultiMapKind => MultiMap_DataStructure
  | TopicKind => Topic_DataStructure
  | ReplicatedMapKind => ReplicatedMap_DataStructure
  | QueueKind => Queue_DataStructure
  | CacheKind => Cache_DataStructure
  end.
