(* ===== verification/WanTypes.v ===== *)
(** * WAN replications and user code namespaces: the resources

    src/api/v1alpha1/wanreplication_types.go with its validation
    (wanreplication_validation.go), and usercodenamespace_types.go. *)

From S2P Require Import Prelude Eff FieldValidation HazelcastTypes DataStructureTypes HazelcastValidation HazelcastValidationFacts.
#[local] Open Scope string_scope.
#[local] Open Scope list_scope.
#[local] Open Scope Z_scope.

Record ResourceSpec := mkResourceSpec { rs_Name : string; rs_Kind : string }.
Definition ResourceKindMap : string := "Map".
Definition ResourceKindHZ : string := "Hazelcast".
Definition ConsistencyCheckStrategyMerkleTrees : string := "MERKLE_TREES".

Record QueueSetting := mkQueueSetting { qs_Capacity : Z; qs_FullBehavior : string }.
Record BatchSetting := mkBatchSetting { bs_Size : Z; bs_MaximumDelay : Z }.
Record AcknowledgementSetting := mkAcknowledgementSetting { as_Type : string; as_Timeout : Z }.

#[export] Instance QueueSetting_eq_dec : EqDecision QueueSetting.
Proof. solve_decision. Defined.
#[export] Instance BatchSetting_eq_dec : EqDecision BatchSetting.
Proof. solve_decision. Defined.
#[export] Instance AcknowledgementSetting_eq_dec : EqDecision AcknowledgementSetting.
Proof. solve_decision. Defined.

Record WanReplicationSpec := mkWanReplicationSpec {
  wr_Resources : list ResourceSpec;
  wr_TargetClusterName : string;
  wr_Endpoints : string;
  wr_Queue : QueueSetting;
  wr_Batch : BatchSetting;
  wr_Acknowledgement : AcknowledgementSetting;
  wr_SyncConsistencyCheckStrategy : string;
}.

Definition WanStatusFailed : string := "Failed".
Definition WanStatusPending : string := "Pending".
Definition WanStatusSuccess : string := "Success".
Definition WanStatusPersisting : string := "Persisting".
Definition WanStatusTerminating : string := "Terminating".

Record WanReplicationMapStatus := mkWanReplicationMapStatus {
  wm_ResourceName : string;
  wm_PublisherId : string;
  wm_Status : string;
  wm_Message : string;
}.
Definition WanReplicationMapStatus_zero : WanReplicationMapStatus := mkWanReplicationMapStatus "" "" "" "".

Record WanReplicationStatus := mkWanReplicationStatus {
  ws_Status : string;
  ws_Message : string;
  ws_Maps : gmap string WanReplicationMapStatus;   (* WanReplicationMapsStatus *)
}.

Definition WanReplication : Type := resource WanReplicationSpec WanReplicationStatus.

(** What the libraries make of a WAN replication: [json.Marshal] of its spec
    and [json.Unmarshal] into a zero one, and the [Kind] of the object in
    hand, which the clients leave blank in some answers of the API server. *)
Class WanJson := {
  WanSpec_Marshal : WanReplicationSpec -> sum string error;
  WanSpec_Unmarshal : string -> sum WanReplicationSpec error;
  WanReplication_Kind : WanReplication -> string;
}.

Section Validation.
Context `{!WanJson} `{KErrors}.

Definition validateNonUpdatableWanFields (w : WanReplication) : errs :=
  match r_Annotations w !! n_LastSuccessfulSpecAnnotation with
  | None => []
  | Some last =>
      match WanSpec_Unmarshal last with
      | inr err =>
          InternalError (Path "spec" []) (wrap "error parsing last WanReplication spec for update errors: " err)
      | inl lastSpec =>
          let s := r_Spec w in
          let forbid (b : bool) (f : string) : errs := if b then Forbidden (Path "spec" [f]) "field cannot be updated" else [] in
          forbid (negb (strb (wr_TargetClusterName s) (wr_TargetClusterName lastSpec))) "targetClusterName" ++
          forbid (negb (strb (wr_Endpoints s) (wr_Endpoints lastSpec))) "endpoints" ++
          forbid (negb (bool_decide (wr_Queue s = wr_Queue lastSpec))) "queue" ++
          forbid (negb (bool_decide (wr_Batch s = wr_Batch lastSpec))) "batch" ++
          forbid (negb (bool_decide (wr_Acknowledgement s = wr_Acknowledgement lastSpec))) "acknowledgement"
      end
  end.

Definition ValidateWanReplicationSpec (w : WanReplication) : option error :=
  Err "WanReplication" (r_Name w) (validateNonUpdatableWanFields w).
End Validation.

(** ** User code namespaces *)

Record UserCodeNamespaceSpec := mkUserCodeNamespaceSpec {
  ucn_HazelcastResourceName : string;
  ucn_BucketConfiguration : option BucketConfiguration;
}.
Record UserCodeNamespaceStatus := mkUserCodeNamespaceStatus { ucn_State : string; ucn_Message : string }.

Definition UserCodeNamespacePending : string := "Pending".
Definition UserCodeNamespaceFailure : string := "Failure".
Definition UserCodeNamespaceSuccess : string := "Success".

Definition UserCodeNamespace : Type := resource UserCodeNamespaceSpec UserCodeNamespaceStatus.
