(* ===== verification/HazelcastConfig.v ===== *)
(** * The configuration of a member, from the Hazelcast resource

    The functions of src/internal/controller/hazelcast/hazelcast_resources.go
    that turn the resource into the sections of hazelcast.yaml (the structs of
    ConfigTypes.v).  Dereferencing a nil pointer is [Panic]; a range over a Go
    map is a permutation of its entries. *)

From S2P Require Import Prelude Eff GoPath FieldValidation HazelcastTypes HazelcastValidation DataStructureTypes ConfigTypes Proto CodecBuiltin CodecTypes DataStructureConfig DataStructureValidation WanTypes.
#[local] Open Scope go_scope.
#[local] Open Scope string_scope.
#[local] Open Scope list_scope.
#[local] Open Scope Z_scope.

(** Ranging over a Go map. *)
Section Range.
Context `{R : MapRange}.

Definition range_keys {A} (m : gmap string A) : list string := (range ((fun _ => "") <$> m)).*1.
Definition go_range {A} (m : gmap string A) : list (string * A) :=
  omap (fun k => (fun a => (k, a)) <$> m !! k) (range_keys m).
End Range.

(** ** Constants (src/internal/naming/constants.go) *)

Definition n_ServicePerPodLabelName : string := "hazelcast.com/service-per-pod".
Definition n_LabelValueTrue : string := "true".
Definition n_HazelcastMountPath : string := "/data/hazelcast".
Definition n_PersistenceMountPath : string := "/data/persistence".
Definition n_BaseDir : string := "/data/persistence/base-dir".
Definition n_TieredStorageBaseDir : string := "/data/tiered-storage".
Definition n_CPDirSuffix : string := "/cp-data".
Definition n_CPBaseDir : string := "/data/cp-data".
Definition n_UCNBucketPath : string := "/opt/hazelcast/ucn/bucket".
Definition n_WanDefaultPort : Z := 5710.

(** ** Properties *)

Definition DefaultProperties : gmap string string :=
  {["hazelcast.cluster.version.auto.upgrade.enabled" := "true"; "hazelcast.persistence.auto.cluster.state" := "true"]}.

(** The user's value of a default property is ignored. *)
Definition mergeProperties (inputProps : gmap string string) : gmap string string :=
  map_fold (fun k v m => match m !! k with Some _ => m | None => <[k := v]> m end) DefaultProperties inputProps.

(** ** Serialization *)

Definition filterList (jsf : option SerializationFilterList) : option cfg_FilterList :=
  match jsf with
  | None => None
  | Some j => Some (mk_cfg_FilterList (fl_Classes j) (fl_Packages j) (fl_Prefixes j))
  end.

Definition serializers (srs : list Serializer) : option (list cfg_Serializer) :=
  appended ((fun sr => mk_cfg_Serializer (sz_TypeClass sr) (sz_ClassName sr)) <$> srs).

Definition factories (fs : list string) : option (list cfg_ClassFactories) :=
  appended (imap (fun i f => mk_cfg_ClassFactories (int32 (Z.of_nat i)) f) fs).

Definition serialization_config (s : SerializationConfig) : cfg_Serialization :=
  let byteOrder := if strb (ser_ByteOrder s) LittleEndian then "LITTLE_ENDIAN" else "BIG_ENDIAN" in
  mk_cfg_Serialization 0 (strb (ser_ByteOrder s) NativeByteOrder) (ser_EnableCompression s) (ser_EnableSharedObject s)
    (ser_OverrideDefaultSerializers s) (ser_AllowUnsafe s) byteOrder
    (factories (ser_DataSerializableFactories s)) (factories (ser_PortableFactories s))
    ((fun g => mk_cfg_GlobalSerializer (gs_OverrideJavaSerialization g) (gs_ClassName g)) <$> ser_GlobalSerializer s)
    (serializers (ser_Serializers s))
    ((fun f => mk_cfg_JavaFilterConfig false (filterList (jf_Blacklist f)) (filterList (jf_Whitelist f)))
       <$> ser_JavaSerializationFilter s)
    ((fun c => mk_cfg_CompactSerialization
        (Some ((fun x => ("serializer: " ++ x)%string) <$> cs_Serializers c))
        (Some ((fun x => ("class: " ++ x)%string) <$> cs_Classes c))) <$> ser_CompactSerialization s).

(** ** Executor services *)

Definition createExecutorServiceConfig (es : ExecutorServiceConfiguration) : cfg_ExecutorService :=
  mk_cfg_ExecutorService (es_PoolSize es) (es_QueueCapacity es) (es_UserCodeNamespace es).
Definition createDurableExecutorServiceConfig (des : DurableExecutorServiceConfiguration) : cfg_DurableExecutorService :=
  mk_cfg_DurableExecutorService (des_PoolSize des) (des_Durability des) (des_Capacity des) (des_UserCodeNamespace des).
Definition createScheduledExecutorServiceConfig (ses : ScheduledExecutorServiceConfiguration)
  : cfg_ScheduledExecutorService :=
  mk_cfg_ScheduledExecutorService (ses_PoolSize ses) (ses_Durability ses) (ses_Capacity ses) (ses_CapacityPolicy ses)
    (ses_UserCodeNamespace ses).

(** A map filled from a slice: a later element replaces an earlier one of the
    same name. *)
Definition fill_map {A C} (name : A -> string) (create : A -> C) (l : list A) : gmap string C :=
  foldl (fun m a => <[name a := create a]> m) ∅ l.

(** The same with a constructor that can panic. *)
Fixpoint fill_map_res {A C} (name : A -> string) (create : A -> res C) (m : gmap string C) (l : list A)
  : res (gmap string C) :=
  match l with
  | [] => Ret m
  | a :: l => c <-! create a ;; fill_map_res name create (<[name a := c]> m) l
  end.

(** ** WAN replications *)

Definition wanName (mapName : string) : string := (mapName ++ "-default")%string.
Definition wanMapKey (hzName mapName : string) : string := (hzName ++ "__" ++ mapName)%string.

(** [list\[1\]] of a key without the separator panics. *)
Definition splitWanMapKey (key : string) : res (string * string) :=
  match split_dunder key with
  | hzName :: mapName :: _ => Ret (hzName, mapName)
  | _ => Panic
  end.

Definition createBatchPublisherConfig (wr : WanReplication) : cfg_BatchPublisherConfig :=
  let s := r_Spec wr in
  mk_cfg_BatchPublisherConfig (wr_TargetClusterName s) (bs_Size (wr_Batch s)) (bs_MaximumDelay (wr_Batch s))
    (as_Timeout (wr_Acknowledgement s)) (as_Type (wr_Acknowledgement s)) "" (qs_FullBehavior (wr_Queue s))
    (qs_Capacity (wr_Queue s)) (wr_Endpoints s)
    (if strb (wr_SyncConsistencyCheckStrategy s) "" then None
     else Some (mk_cfg_Sync (wr_SyncConsistencyCheckStrategy s))).

Definition publisher_id (wanKey : string) (wr : WanReplication) : string :=
  wm_PublisherId (default WanReplicationMapStatus_zero (ws_Maps (r_Status wr) !! wanKey)).

Definition createWanReplicationConfig (wanKey : string) (wrs : list WanReplication) : cfg_WanReplicationConfig :=
  mk_cfg_WanReplicationConfig (Some (fill_map (publisher_id wanKey) createBatchPublisherConfig wrs)).

(** ** TLS *)

Definition NewSSLProperties (path password protocol auth : string) : cfg_SSLProperties :=
  let typ := "JKS" in
  if strb auth MutualAuthenticationRequired then
    mk_cfg_SSLProperties protocol "REQUIRED" path password typ path password typ
  else if strb auth MutualAuthenticationOptional then
    mk_cfg_SSLProperties protocol "OPTIONAL" path password typ path password typ
  else mk_cfg_SSLProperties protocol "" path password typ "" "" "".

Definition clusterDataRecoveryPolicy (policyType : string) : string :=
  if strb policyType FullRecovery then "FULL_RECOVERY_ONLY"
  else if strb policyType MostRecent then "PARTIAL_RECOVERY_MOST_RECENT"
  else if strb policyType MostComplete then "PARTIAL_RECOVERY_MOST_COMPLETE"
  else "FULL_RECOVERY_ONLY".

Section Config.
Context `{QL : QuantityLib}.

Definition createLocalDeviceConfig (ld : LocalDeviceConfig) : res cfg_LocalDevice :=
  pvc <-! deref (ld_PVC ld) ;;
  q <-! deref (pvc_RequestStorage pvc) ;;
  Ret (mk_cfg_LocalDevice (path_Join [n_TieredStorageBaseDir; ld_Name ld]) (mk_cfg_Size (Quantity_Value q) "BYTES")
    (ld_BlockSize ld) (ld_ReadIOThreadCount ld) (ld_WriteIOThreadCount ld)).

(** ** [hazelcastBasicConfig], a definition per section *)

Definition basic_Jet (h : Hazelcast) : cfg_Jet :=
  match s_JetEngineConfiguration (h_Spec h) with
  | None => cfg_Jet_zero
  | Some j =>
      mk_cfg_Jet (j_Enabled j) (Some (j_ResourceUploadEnabled j))
        (match j_Instance j with
         | Some i =>
             if JetInstance_IsConfigured (Some i) then
               mk_cfg_JetInstance (ji_CooperativeThreadCount i) (Some (ji_FlowControlPeriodMillis i))
                 (Some (ji_BackupCount i)) (Some (ji_ScaleUpDelayMillis i)) (Some (ji_LosslessRestartEnabled i))
                 (ji_MaxProcessorAccumulatedRecords i)
             else cfg_JetInstance_zero
         | None => cfg_JetInstance_zero
         end)
        (match j_EdgeDefaults j with
         | Some e =>
             if JetEdgeDefaults_IsConfigured (Some e) then
               mk_cfg_EdgeDefaults (je_QueueSize e) (je_PacketSizeLimit e) (je_ReceiveWindowMultiplier e)
             else cfg_EdgeDefaults_zero
         | None => cfg_EdgeDefaults_zero
         end)
  end.

Definition basic_UserCodeDeployment (h : Hazelcast) : cfg_UserCodeDeployment :=
  match s_DeprecatedUserCodeDeployment (h_Spec h) with
  | None => cfg_UserCodeDeployment_zero
  | Some u => mk_cfg_UserCodeDeployment (ud_ClientEnabled u) "" "" "" "" ""
  end.

Definition basic_Persistence (h : Hazelcast) : cfg_Persistence :=
  match s_Persistence (h_Spec h) with
  | None => cfg_Persistence_zero
  | Some p =>
      mk_cfg_Persistence (Some true) n_BaseDir (path_Join [n_BaseDir; "hot-backup"]) 1
        (if p_DataRecoveryTimeout p =? 0 then 120 else p_DataRecoveryTimeout p)
        (clusterDataRecoveryPolicy (p_ClusterDataRecoveryPolicy p)) (Some (AutoRemoveStaleData p))
  end.

Definition basic_PartitionGroup (h : Hazelcast) : cfg_PartitionGroup :=
  let mode := s_HighAvailabilityMode (h_Spec h) in
  if strb mode HighAvailabilityNodeMode then mk_cfg_PartitionGroup (Some true) "NODE_AWARE"
  else if strb mode HighAvailabilityZoneMode then mk_cfg_PartitionGroup (Some true) "ZONE_AWARE"
  else cfg_PartitionGroup_zero.

Definition basic_NativeMemory (h : Hazelcast) : cfg_NativeMemory :=
  match s_NativeMemory (h_Spec h) with
  | Some n =>
      if NativeMemory_IsEnabled (Some n) then
        mk_cfg_NativeMemory true (nm_AllocatorType n) (mk_cfg_Size (Quantity_Megas (nm_Size n)) "MEGABYTES")
          (nm_MinBlockSize n) (nm_PageSize n) (nm_MetadataSpacePercentage n)
      else cfg_NativeMemory_zero
  | None => cfg_NativeMemory_zero
  end.

Definition endpoint_interfaces (l : list string) : cfg_Interfaces :=
  match l with [] => cfg_Interfaces_zero | _ => mk_cfg_Interfaces true (Some l) end.

Definition endpoint_ssl (h : Hazelcast) (auth : TLS -> string) : cfg_SSL :=
  match s_TLS (h_Spec h) with
  | Some t =>
      if strb (tls_SecretName t) "" then cfg_SSL_zero
      else mk_cfg_SSL (Some true) "com.hazelcast.nio.ssl.BasicSSLContextFactory"
             (NewSSLProperties (path_Join [n_HazelcastMountPath; "hazelcast.jks"]) "hazelcast" "TLS" (auth t))
  | None => cfg_SSL_zero
  end.

Definition basic_WanPorts (h : Hazelcast) : gmap string cfg_WanPort :=
  match s_AdvancedNetwork (h_Spec h) with
  | Some {| an_WAN := (_ :: _) as l |} =>
      fill_map w_Name (fun w => mk_cfg_WanPort (mk_cfg_PortAndPortCount (w_Port w) (w_PortCount w))) l
  | _ => {["default" := mk_cfg_WanPort (mk_cfg_PortAndPortCount n_WanDefaultPort 1)]}
  end.

Definition basic_AdvancedNetwork (h : Hazelcast) : cfg_AdvancedNetwork :=
  let interfaces f := match s_AdvancedNetwork (h_Spec h) with
                      | Some n => endpoint_interfaces (f n)
                      | None => cfg_Interfaces_zero
                      end in
  let group := mk_cfg_EndpointGroup (Some true) in
  mk_cfg_AdvancedNetwork true
    (mk_cfg_Join (mk_cfg_Kubernetes (Some true) "" (h_Name h)
       (if UsesNodeName (s_ExposeExternally (h_Spec h)) then Some true else None)
       n_ServicePerPodLabelName n_LabelValueTrue MemberServerSocketPort))
    (mk_cfg_MemberServerSocketEndpointConfig (mk_cfg_PortAndPortCount MemberServerSocketPort 1)
       (interfaces an_MemberInterfaces) (endpoint_ssl h (fun _ => MutualAuthenticationRequired)))
    (mk_cfg_ClientServerSocketEndpointConfig (mk_cfg_PortAndPortCount ClientServerSocketPort 1)
       (interfaces an_ClientInterfaces) (endpoint_ssl h tls_MutualAuthentication))
    (mk_cfg_RestServerSocketEndpointConfig (mk_cfg_PortAndPortCount RestServerSocketPort 1)
       (mk_cfg_EndpointGroups group group group) cfg_SSL_zero)
    (Some (basic_WanPorts h)).

Definition basic_ManagementCenter (h : Hazelcast) : cfg_ManagementCenterConfig :=
  match s_ManagementCenterConfig (h_Spec h) with
  | None => cfg_ManagementCenterConfig_zero
  | Some m => mk_cfg_ManagementCenterConfig (mc_ScriptingEnabled m) (mc_ConsoleEnabled m) (mc_DataAccessEnabled m)
  end.

Definition basic_SQL (h : Hazelcast) : cfg_SQL :=
  match s_SQL (h_Spec h) with
  | None => cfg_SQL_zero
  | Some s => mk_cfg_SQL (sql_StatementTimeout s) (sql_CatalogPersistenceEnabled s)
  end.

Definition basic_LocalDevice (h : Hazelcast) : res (option (gmap string cfg_LocalDevice)) :=
  if HazelcastSpec_IsTieredStorageEnabled (h_Spec h) then
    m <-! fill_map_res ld_Name createLocalDeviceConfig ∅ (s_LocalDevices (h_Spec h)) ;;
    Ret (Some m)
  else Ret None.

Definition basic_CPSubsystem (h : Hazelcast) : res cfg_CPSubsystem :=
  let s := h_Spec h in
  match s_CPSubsystem s with
  | None => Ret cfg_CPSubsystem_zero
  | Some c =>
      n <-! deref (s_ClusterSize s) ;;
      Ret (mk_cfg_CPSubsystem n true
        (if Persistence_IsEnabled (s_Persistence s) && negb (CPSubsystem_IsPVC (s_CPSubsystem s))
         then (n_PersistenceMountPath ++ n_CPDirSuffix)%string else n_CPBaseDir)
        (s_ClusterSize s) (cp_SessionTTLSeconds c) (cp_SessionHeartbeatIntervalSeconds c)
        (cp_MissingCpMemberAutoRemovalSeconds c) (cp_FailOnIndeterminateOperationState c) (cp_DataLoadTimeoutSeconds c))
  end.

Definition hazelcastBasicConfig (h : Hazelcast) : res cfg_Hazelcast :=
  devices <-! basic_LocalDevice h ;;
  cp <-! basic_CPSubsystem h ;;
  Ret (mk_cfg_Hazelcast (basic_Jet h) (s_ClusterName (h_Spec h)) (basic_Persistence h) None None None None
    (basic_UserCodeDeployment h) None None None None None None None (basic_PartitionGroup h) (basic_NativeMemory h)
    (basic_AdvancedNetwork h) (basic_ManagementCenter h) cfg_Serialization_zero (basic_SQL h) devices cp
    cfg_UserCodeNamespaces_zero).

(** ** The sections that are filled in afterwards *)

Definition fillHazelcastConfigWithProperties (cfg : cfg_Hazelcast) (h : Hazelcast) : cfg_Hazelcast :=
  with_Properties cfg (s_Properties (h_Spec h)).

Definition fillHazelcastConfigWithExecutorServices (cfg : cfg_Hazelcast) (h : Hazelcast) : cfg_Hazelcast :=
  let s := h_Spec h in
  let cfg := match s_ExecutorServices s with
             | [] => cfg
             | l => with_ExecutorService cfg (Some (fill_map es_Name createExecutorServiceConfig l))
             end in
  let cfg := match s_DurableExecutorServices s with
             | [] => cfg
             | l => with_DurableExecutorService cfg (Some (fill_map des_Name createDurableExecutorServiceConfig l))
             end in
  match s_ScheduledExecutorServices s with
  | [] => cfg
  | l => with_ScheduledExecutorService cfg (Some (fill_map ses_Name createScheduledExecutorServiceConfig l))
  end.

Definition fillHazelcastConfigWithSerialization (cfg : cfg_Hazelcast) (h : Hazelcast) : cfg_Hazelcast :=
  match s_Serialization (h_Spec h) with
  | None => cfg
  | Some s => with_Serialization cfg (serialization_config s)
  end.

(** One resource named [jarsInZip] per namespace. *)
Definition ucn_resources (u : UserCodeNamespace) : option (list cfg_UserCodeNamespaceResource) :=
  Some [mk_cfg_UserCodeNamespaceResource "bundle" "JARS_IN_ZIP"
          ("file://" ++ path_Join [n_UCNBucketPath; r_Name u ++ ".zip"])%string].

Definition fillHazelcastConfigWithUserCodeNamespaces (cfg : cfg_Hazelcast) (h : Hazelcast)
    (ucn : list UserCodeNamespace) : cfg_Hazelcast :=
  match s_UserCodeNamespaces (h_Spec h) with
  | None => cfg
  | Some u =>
      with_UserCodeNamespaces cfg (mk_cfg_UserCodeNamespaces (Some true)
        ((fun f => mk_cfg_JavaFilterConfig false (filterList (jf_Blacklist f)) (filterList (jf_Whitelist f)))
           <$> uc_ClassFilter u)
        (Some (fill_map r_Name ucn_resources ucn)))
  end.

(** Two keys of the same map name: the last one visited stays. *)
Fixpoint wan_sections `{R : MapRange} (m : gmap string cfg_WanReplicationConfig)
    (wrl : list (string * list WanReplication)) : res (gmap string cfg_WanReplicationConfig) :=
  match wrl with
  | [] => Ret m
  | (wanKey, wan) :: wrl =>
      key <-! splitWanMapKey wanKey ;;
      wan_sections (<[wanName key.2 := createWanReplicationConfig wanKey wan]> m) wrl
  end.

Definition fillHazelcastConfigWithWanReplications `{R : MapRange} (cfg : cfg_Hazelcast)
    (wrl : gmap string (list WanReplication)) : res cfg_Hazelcast :=
  if Nat.eqb (size wrl) 0 then Ret cfg else
  m <-! wan_sections ∅ (go_range wrl) ;;
  Ret (with_WanReplication cfg (Some m)).

Definition fillHazelcastConfigWithMultiMaps (cfg : cfg_Hazelcast) (mml : list MultiMap) : res cfg_Hazelcast :=
  match mml with
  | [] => Ret cfg
  | _ => m <-! fill_map_res MultiMap_GetDSName createMultiMapConfig ∅ mml ;; Ret (with_MultiMap cfg (Some m))
  end.
Definition fillHazelcastConfigWithTopics (cfg : cfg_Hazelcast) (tl : list Topic) : res cfg_Hazelcast :=
  match tl with
  | [] => Ret cfg
  | _ => m <-! fill_map_res Topic_GetDSName createTopicConfig ∅ tl ;; Ret (with_Topic cfg (Some m))
  end.
Definition fillHazelcastConfigWithQueues (cfg : cfg_Hazelcast) (ql : list Queue) : res cfg_Hazelcast :=
  match ql with
  | [] => Ret cfg
  | _ => m <-! fill_map_res Queue_GetDSName createQueueConfig ∅ ql ;; Ret (with_Queue cfg (Some m))
  end.
Definition fillHazelcastConfigWithCaches (cfg : cfg_Hazelcast) (cl : list Cache) : res cfg_Hazelcast :=
  match cl with
  | [] => Ret cfg
  | _ => m <-! fill_map_res Cache_GetDSName createCacheConfig ∅ cl ;; Ret (with_Cache cfg (Some m))
  end.
Definition fillHazelcastConfigWithReplicatedMaps (cfg : cfg_Hazelcast) (rml : list ReplicatedMap) : res cfg_Hazelcast :=
  match rml with
  | [] => Ret cfg
  | _ => m <-! fill_map_res ReplicatedMap_GetDSName createReplicatedMapConfig ∅ rml ;; Ret (with_ReplicatedMap cfg (Some m))
  end.

Definition fill_ds_section (d : ds_kind) (cfg : cfg_Hazelcast) : list (ds_obj d) -> res cfg_Hazelcast :=
  match d with
  | MultiMapKind => fillHazelcastConfigWithMultiMaps cfg
  | TopicKind => fillHazelcastConfigWithTopics cfg
  | ReplicatedMapKind => fillHazelcastConfigWithReplicatedMaps cfg
  | QueueKind => fillHazelcastConfigWithQueues cfg
  | CacheKind => fillHazelcastConfigWithCaches cfg
  end.
End Config.
