(* ===== verification/JetJobValidation.v ===== *)
(** * Jet jobs: the resource and its validation

    src/api/v1alpha1/jetjob_types.go and jetjob_validation.go.  What a
    validation reads of the API server is the record [Cluster] of
    [HazelcastValidation]; [json.Unmarshal] of a job spec is a parameter.
    The second part has WAN synchronisations and Jet job snapshots. *)

From S2P Require Import Prelude Eff FieldValidation HazelcastTypes HazelcastValidation HazelcastValidationFacts Json DataStructureTypes.
From stdpp Require Import pretty.
#[local] Open Scope Z_scope.
#[local] Set Warnings "-clear-no-such-hyp".

(** ** The resource *)

Definition JetJobFailed : string := "Failed".
Definition JetJobNotRunning : string := "NotRunning".
Definition JetJobStarting : string := "Starting".
Definition JetJobRunning : string := "Running".
Definition JetJobSuspended : string := "Suspended".
Definition JetJobSuspendedExportingSnapshot : string := "SuspendedExportingSnapshot".
Definition JetJobCompleting : string := "Completing".
Definition JetJobExecutionFailed : string := "ExecutionFailed".
Definition JetJobCompleted : string := "Completed".

Definition RunningJobState : string := "Running".
Definition SuspendedJobState : string := "Suspended".
Definition CanceledJobState : string := "Canceled".
Definition RestartedJobState : string := "Restarted".

Definition Phase_IsRunning (p : string) : bool := strb p JetJobRunning || strb p JetJobStarting.
Definition Phase_IsFinished (p : string) : bool := strb p JetJobExecutionFailed || strb p JetJobCompleted.
Definition Phase_IsSuspended (p : string) : bool :=
  strb p JetJobSuspended || strb p JetJobSuspendedExportingSnapshot.

Record JetJobSpec := mkJetJobSpec {
  jj_Name : string;
  jj_HazelcastResourceName : string;
  jj_State : string;
  jj_JarName : string;
  jj_MainClass : string;
  jj_InitialSnapshotResourceName : string;
  jj_BucketConfiguration : option BucketConfiguration;
  jj_RemoteURL : string;
}.

Definition JetJobSpec_IsBucketEnabled (j : JetJobSpec) : bool := negb (is_nil (jj_BucketConfiguration j)).
Definition JetJobSpec_IsRemoteURLsEnabled (j : JetJobSpec) : bool := negb (strb (jj_RemoteURL j) "").
Definition JetJobSpec_IsDownloadEnabled (j : JetJobSpec) : bool :=
  JetJobSpec_IsBucketEnabled j || JetJobSpec_IsRemoteURLsEnabled j.

Record JetJobStatus := mkJetJobStatus {
  jjs_Id : Z;
  jjs_Phase : string;
  jjs_SubmissionTime : option Z;   (* milliseconds *)
  jjs_CompletionTime : option Z;
  jjs_FailureText : string;
  jjs_SuspensionCause : string;
}.

Record JetJob := mkJetJob {
  job_Namespace : string;
  job_Name : string;
  job_Finalizers : list string;
  job_Deleting : bool;
  job_Annotations : gmap string string;
  job_Spec : JetJobSpec;
  job_Status : JetJobStatus;
}.

Definition JetJob_JobName (j : JetJob) : string :=
  if negb (strb (jj_Name (job_Spec j)) "") then jj_Name (job_Spec j) else job_Name j.

Class JetJobJson := {
  JetJobSpec_Unmarshal : string -> sum JetJobSpec error;
  JetJobSpec_Marshal : JetJobSpec -> sum string error;
}.

(** [kerrors.NewConflict] with a field error. *)
Definition NewConflict (name : string) (es : errs) : error := mkError EConflict (name ++ join_details es).

Section Validation.
Context `{JetJobJson} `{KErrors}.

Definition validateBucketFields (jjbc old : BucketConfiguration) : errs :=
  (if negb (strb (bc_BucketURI jjbc) (bc_BucketURI old))
   then Forbidden (Path "spec" ["bucketConfiguration"; "bucketURI"]) "field cannot be updated" else []) ++
  (if negb (strb (BucketConfiguration_GetSecretName jjbc) (BucketConfiguration_GetSecretName old))
   then Forbidden (Path "spec" ["bucketConfiguration"; "secret"]) "field cannot be updated" else []).

Definition ValidateJetJobNonUpdatableFields (jj oldJj : JetJobSpec) : errs :=
  let forbid (b : bool) (f detail : string) : errs := if b then Forbidden (Path "spec" [f]) detail else [] in
  forbid (negb (strb (jj_Name jj) (jj_Name oldJj))) "name" "field cannot be updated" ++
  forbid (negb (strb (jj_HazelcastResourceName jj) (jj_HazelcastResourceName oldJj)))
    "hazelcastResourceName" "field cannot be updated" ++
  forbid (negb (strb (jj_JarName jj) (jj_JarName oldJj))) "jarName" "field cannot be updated" ++
  forbid (negb (strb (jj_MainClass jj) (jj_MainClass oldJj))) "mainClass" "field cannot be updated" ++
  forbid (negb (strb (jj_InitialSnapshotResourceName jj) (jj_InitialSnapshotResourceName oldJj)))
    "initialSnapshotResourceName" "field cannot be updated" ++
  forbid (negb (Bool.eqb (JetJobSpec_IsBucketEnabled jj) (JetJobSpec_IsBucketEnabled oldJj)))
    "bucketConfiguration" "field cannot be added or removed" ++
  match jj_BucketConfiguration jj, jj_BucketConfiguration oldJj with
  | Some b, Some old => validateBucketFields b old
  | _, _ => []
  end ++
  forbid (negb (Bool.eqb (JetJobSpec_IsRemoteURLsEnabled jj) (JetJobSpec_IsRemoteURLsEnabled oldJj)))
    "remoteURL" "field cannot be updated".

Definition validateJetJobUpdateSpec (jj : JetJob) : errs :=
  match job_Annotations jj !! n_LastSuccessfulSpecAnnotation with
  | None => []
  | Some last =>
      match JetJobSpec_Unmarshal last with
      | inr err =>
          InternalError (Path "spec" []) (wrap "error parsing last JetJob spec for update errors: " err)
      | inl parsed => ValidateJetJobNonUpdatableFields (job_Spec jj) parsed
      end
  end.

Definition validateJetStateChange (newState oldState oldStatus : string) : errs :=
  if strb newState oldState || strb oldStatus "" then [] else
  if Phase_IsFinished oldStatus || strb oldStatus JetJobCompleting
  then Forbidden (Path "spec" ["state"])
         "job execution is finished or being finished, state change is not allowed"
  else if negb (strb oldStatus JetJobRunning) && negb (strb newState RunningJobState)
  then Invalid (Path "spec" ["state"]) (VStr newState)
         ("can be set only for JetJob with " ++ JetJobRunning ++ " status")
  else [].

Definition ValidateJetJobUpdateStateSpec (jj oldJj : JetJob) : option error :=
  Err "JetJob" (job_Name jj)
    (validateJetJobUpdateSpec jj ++
     validateJetStateChange (jj_State (job_Spec jj)) (jj_State (job_Spec oldJj)) (jjs_Phase (job_Status oldJj))).

Definition ValidateJetJobUpdateSpec (jj : JetJob) : option error :=
  Err "JetJob" (job_Name jj) (validateJetJobUpdateSpec jj).

Definition ValidateJetJobCreateSpec (c : Cluster) (jj : JetJob) : option error :=
  Err "JetJob" (job_Name jj)
    ((if negb (strb (jj_State (job_Spec jj)) RunningJobState)
      then Invalid (Path "spec" ["state"]) (VStr (jj_State (job_Spec jj)))
             ("should be set to " ++ RunningJobState ++ " on creation")
      else []) ++
     match jj_BucketConfiguration (job_Spec jj) with
     | None => []
     | Some b =>
         if negb (strb (BucketConfiguration_GetSecretName b) "")
            && err_NotFound (get_Secret c (job_Namespace jj, bc_SecretName b))
         then Required (Path "spec" ["bucketConfig"; "secretName"]) "Bucket credentials Secret not found"
         else []
     end).

Fixpoint ValidateExistingJobName (jj : JetJob) (items : list JetJob) : option error :=
  match items with
  | [] => None
  | job :: items =>
      if strb (job_Name job) (job_Name jj) then ValidateExistingJobName jj items else
      if strb (JetJob_JobName job) (JetJob_JobName jj)
         && strb (jj_HazelcastResourceName (job_Spec job)) (jj_HazelcastResourceName (job_Spec jj))
      then Some (NewConflict (job_Name jj)
                   (Invalid (Path "spec" ["name"]) (VStr (JetJob_JobName job))
                      ("JetJob " ++ job_Name job ++ " already uses the same name")))
      else ValidateExistingJobName jj items
  end.
End Validation.

(** [h.Spec.JetEngineConfiguration.ResourceUploadEnabled] is read through the
    pointer, whether or not Jet is enabled. *)
Definition ValidateJetConfiguration `{QuantityLib} `{KErrors} (h : Hazelcast) : res (option error) :=
  let j := s_JetEngineConfiguration (h_Spec h) in
  let e1 := if negb (Jet_IsEnabled j)
            then Required (Path "spec" ["jet"; "enabled"]) "jet engine must be enabled" else [] in
  match j with
  | None => Panic
  | Some jet =>
      Ret (Err "Hazelcast" (h_Name h)
        (e1 ++ (if negb (j_ResourceUploadEnabled jet)
                then Invalid (Path "spec" ["jet"; "resourceUploadEnabled"]) (VBool (j_ResourceUploadEnabled jet))
                       "jet engine resource upload must be enabled"
                else [])))
  end.

(** ** What the validators accept *)

(** The fields of a job that may not change. *)
Record jet_unchanged (last current : JetJobSpec) : Prop := {
  ju_name : jj_Name current = jj_Name last;
  ju_hazelcast : jj_HazelcastResourceName current = jj_HazelcastResourceName last;
  ju_jar : jj_JarName current = jj_JarName last;
  ju_main : jj_MainClass current = jj_MainClass last;
  ju_snapshot : jj_InitialSnapshotResourceName current = jj_InitialSnapshotResourceName last;
  ju_bucket :
    match jj_BucketConfiguration last, jj_BucketConfiguration current with
    | None, None => True
    | Some l, Some u => bc_BucketURI u = bc_BucketURI l
                        /\ BucketConfiguration_GetSecretName u = BucketConfiguration_GetSecretName l
    | _, _ => False
    end;
  ju_url : jj_RemoteURL current = "" <-> jj_RemoteURL last = "";
}.

(** The state of a job may be changed while it is not over: to Running from
    any phase, to another state only from the phase Running. *)
Definition state_change_ok (newState oldState phase : string) : Prop :=
  newState = oldState \/ phase = "" \/
  (phase <> JetJobExecutionFailed /\ phase <> JetJobCompleted /\ phase <> JetJobCompleting
   /\ (phase = JetJobRunning \/ newState = RunningJobState)).

Lemma validateJetStateChange_ok n o p : validateJetStateChange n o p = [] <-> state_change_ok n o p.
Proof.
  unfold validateJetStateChange, state_change_ok, Phase_IsFinished.
  unfold strb. repeat case_bool_decide; simpl; naive_solver.
Qed.

Lemma eqb_negb_strb a b :
  Bool.eqb (negb (strb a "")) (negb (strb b "")) = true <-> (a = "" <-> b = "").
Proof. unfold strb. do 2 case_bool_decide; simpl; naive_solver. Qed.

Lemma forbid_at_nil (b : bool) p d : (if b then Forbidden p d else []) = [] <-> b = false.
Proof. apply if_errs_nil. Qed.

Lemma ValidateJetJobNonUpdatableFields_ok current last :
  ValidateJetJobNonUpdatableFields current last = [] <-> jet_unchanged last current.
Proof.
  unfold ValidateJetJobNonUpdatableFields. unfold errs.
  rewrite !app_nil, !forbid_at_nil, !negb_false_iff, !strb_true.
  unfold JetJobSpec_IsRemoteURLsEnabled. rewrite eqb_negb_strb. unfold JetJobSpec_IsBucketEnabled.
  assert (Bool.eqb (negb (is_nil (jj_BucketConfiguration current))) (negb (is_nil (jj_BucketConfiguration last))) = true
    /\ match jj_BucketConfiguration current, jj_BucketConfiguration last with
       | Some b, Some old => validateBucketFields b old
       | _, _ => []
       end = [] <->
    match jj_BucketConfiguration last, jj_BucketConfiguration current with
    | None, None => True
    | Some l, Some u => bc_BucketURI u = bc_BucketURI l
                        /\ BucketConfiguration_GetSecretName u = BucketConfiguration_GetSecretName l
    | _, _ => False
    end) as Hb.
  { destruct (jj_BucketConfiguration current), (jj_BucketConfiguration last); simpl; try naive_solver.
    unfold validateBucketFields. errs_nil. naive_solver. }
  split.
  - intros (?&?&?&?&?&Hb1&Hb2&?). constructor; try done. apply Hb. done.
  - intros [? ? ? ? ? Hb' ?]. apply Hb in Hb' as [??]. done.
Qed.

Section JetFacts.
Context `{JetJobJson} `{KErrors}.

Definition jet_update_ok (jj : JetJob) : Prop := forall a,
  job_Annotations jj !! n_LastSuccessfulSpecAnnotation = Some a ->
  exists last, JetJobSpec_Unmarshal a = inl last /\ jet_unchanged last (job_Spec jj).

Lemma validateJetJobUpdateSpec_ok jj : validateJetJobUpdateSpec jj = [] <-> jet_update_ok jj.
Proof.
  unfold validateJetJobUpdateSpec, jet_update_ok.
  destruct (job_Annotations jj !! _) as [a|]; [|naive_solver]. rewrite forall_Some.
  destruct (JetJobSpec_Unmarshal a) as [last|e]; [|naive_solver].
  rewrite ValidateJetJobNonUpdatableFields_ok. naive_solver.
Qed.

(** An update of a Jet job is accepted exactly when the recorded spec
    shows no change of the job name, cluster, jar, main class, initial
    snapshot or bucket, a remote URL was neither added nor removed, and the
    requested state may follow the phase the job is in. *)
Theorem jetjob_update_accepted_iff jj old :
  ValidateJetJobUpdateStateSpec jj old = None <->
  jet_update_ok jj
  /\ state_change_ok (jj_State (job_Spec jj)) (jj_State (job_Spec old)) (jjs_Phase (job_Status old)).
Proof.
  unfold ValidateJetJobUpdateStateSpec. rewrite Err_None. unfold errs. rewrite app_nil.
  by rewrite validateJetJobUpdateSpec_ok, validateJetStateChange_ok.
Qed.

(** A new job is rejected exactly when another JetJob resource of the
    namespace already runs under the same job name on the same cluster, and
    the rejection is a conflict. *)
Theorem jetjob_name_unique jj items :
  (ValidateExistingJobName jj items = None <->
   forall job, job ∈ items -> job_Name job <> job_Name jj -> JetJob_JobName job = JetJob_JobName jj ->
     jj_HazelcastResourceName (job_Spec job) <> jj_HazelcastResourceName (job_Spec jj))
  /\ (forall e, ValidateExistingJobName jj items = Some e -> IsConflict e = true).
Proof.
  split.
  - induction items as [|job items IH]; simpl; [set_solver|].
    unfold strb in *. repeat case_bool_decide; simpl; rewrite ?IH; setoid_rewrite elem_of_cons; naive_solver.
  - intros e. induction items as [|job items IH]; simpl; [done|].
    unfold strb in *. repeat case_bool_decide; simpl; try done. by intros [= <-].
Qed.

(** The remote URL of the jar, which the error message says cannot be
    updated, can: any update that only replaces a non-empty URL by another
    one is accepted. *)
Theorem remote_url_replaced_accepted jj old url (Hold : jj_RemoteURL old <> "") (Hnew : url <> "")
    (Hjj : jj = mkJetJobSpec (jj_Name old) (jj_HazelcastResourceName old) (jj_State old) (jj_JarName old)
                  (jj_MainClass old) (jj_InitialSnapshotResourceName old) (jj_BucketConfiguration old) url) :
  ValidateJetJobNonUpdatableFields jj old = [].
Proof.
  apply ValidateJetJobNonUpdatableFields_ok. subst jj. constructor; try done.
  by destruct (jj_BucketConfiguration old).
Qed.

(** The check that Jet accepts jobs panics exactly when the Hazelcast
    resource has no Jet section, instead of reporting that Jet must be
    enabled; otherwise it passes exactly when Jet and resource upload are
    enabled. *)
Theorem jet_configuration_checked `{QuantityLib} h :
  (ValidateJetConfiguration h = Panic <-> s_JetEngineConfiguration (h_Spec h) = None)
  /\ (ValidateJetConfiguration h = Ret None <->
      exists jet, s_JetEngineConfiguration (h_Spec h) = Some jet /\ j_Enabled jet = Some true
        /\ j_ResourceUploadEnabled jet = true).
Proof.
  unfold ValidateJetConfiguration. destruct (s_JetEngineConfiguration (h_Spec h)) as [jet|]; [|naive_solver].
  split; [naive_solver|]. simpl Jet_IsEnabled.
  destruct (j_Enabled jet) as [[]|] eqn:Ee, (j_ResourceUploadEnabled jet) eqn:Eu; simpl; unfold Err;
    (split; [try discriminate; eauto|intros (j & [= <-] & ? & ?); congruence || done]).
Qed.
End JetFacts.

Module JetJobWitnesses.
Definition old_spec : JetJobSpec := mkJetJobSpec "j" "hz" "Running" "" "" "" None "https://host/a.jar".
Lemma remote_url_witness :
  ValidateJetJobNonUpdatableFields (mkJetJobSpec "j" "hz" "Running" "" "" "" None "https://host/b.jar") old_spec = [].
Proof. apply (remote_url_replaced_accepted _ old_spec "https://host/b.jar"); [discriminate|discriminate|reflexivity]. Defined.
End JetJobWitnesses.

(** * WAN synchronisations and Jet job snapshots: the resources

    src/api/v1alpha1/wansync_types.go and jetjobsnapshot_types.go with their
    validation (wansync_validation.go, jetjobsnapshot_validation.go), and the
    helpers of src/internal/controller/annotation.go that record a spec in an
    annotation.  The JSON documents of the specs follow the struct tags. *)

#[local] Open Scope string_scope.
#[local] Open Scope list_scope.
#[local] Open Scope Z_scope.

(** ** WanSync *)

Record WanSyncSpec := mkWanSyncSpec { wy_WanReplicationResourceName : string }.

Definition WanSyncNotStarted : string := "NotStarted".
Definition WanSyncFailed : string := "Failed".
Definition WanSyncPending : string := "Pending".
Definition WanSyncCompleted : string := "Completed".

Record WanSyncMapStatus := mkWanSyncMapStatus {
  sy_ResourceName : string;
  sy_PublisherId : string;
  sy_Phase : string;
  sy_Message : string;
}.
Record WanSyncStatus := mkWanSyncStatus {
  ys_Status : string;
  ys_Message : string;
  ys_Maps : gmap string WanSyncMapStatus;   (* WanSyncMapsStatus *)
}.
Definition WanSync : Type := resource WanSyncSpec WanSyncStatus.

Definition WanSyncSpec_encode (s : WanSyncSpec) : json :=
  JObj (jfield "wanReplicationResourceName" (JStr (wy_WanReplicationResourceName s))).
Definition WanSyncSpec_decode : decoder WanSyncSpec := dec_obj (fun fs old =>
  (n <-? dec_field fs "wanReplicationResourceName" dec_str (wy_WanReplicationResourceName old) ;;
   inl (mkWanSyncSpec n))%json).

(** ** JetJobSnapshot *)

Definition JetJobSnapshotWaiting : string := "Waiting".
Definition JetJobSnapshotExporting : string := "Exporting".
Definition JetJobSnapshotExported : string := "Exported".
Definition JetJobSnapshotFailed : string := "Failed".

Record JetJobSnapshotSpec := mkJetJobSnapshotSpec {
  js_Name : string;
  js_CancelJob : bool;
  js_JetJobResourceName : string;
}.
#[export] Instance JetJobSnapshotSpec_eq_dec : EqDecision JetJobSnapshotSpec.
Proof. solve_decision. Defined.

Record JetJobSnapshotStatus := mkJetJobSnapshotStatus {
  jt_State : string;
  jt_Message : string;
  jt_CreationTime : option Z;   (* nanoseconds since 1970; [None] is nil *)
}.
Definition JetJobSnapshot : Type := resource JetJobSnapshotSpec JetJobSnapshotStatus.

Definition SnapshotName (jjs : JetJobSnapshot) : string :=
  if negb (strb (js_Name (r_Spec jjs)) "") then js_Name (r_Spec jjs) else r_Name jjs.

Definition JetJobSnapshotSpec_encode (s : JetJobSnapshotSpec) : json := JObj (
  omit_str "name" (js_Name s) ++
  jfield "cancelJob" (JBool (js_CancelJob s)) ++
  jfield "jetJobResourceName" (JStr (js_JetJobResourceName s))).
Definition JetJobSnapshotSpec_decode : decoder JetJobSnapshotSpec := dec_obj (fun fs old =>
  (n <-? dec_field fs "name" dec_str (js_Name old) ;;
   c <-? dec_field fs "cancelJob" dec_bool (js_CancelJob old) ;;
   j <-? dec_field fs "jetJobResourceName" dec_str (js_JetJobResourceName old) ;;
   inl (mkJetJobSnapshotSpec n c j))%json).

(** ** annotation.go *)

Definition n_LastAppliedSpecAnnotation : string := "hazelcast.com/last-applied-spec".

Section Annotations.
Context `{JT : JsonText}.

(** [insertSpec], by the annotation. *)
Definition insertSpec {S St} (encode : S -> json) (annotation : string) (o : resource S St) : resource S St :=
  set_Annotation o annotation (json_print (encode (r_Spec o))).
Definition InsertLastSuccessfullyAppliedSpec {S St} (encode : S -> json) (o : resource S St) : resource S St :=
  insertSpec encode n_LastSuccessfulSpecAnnotation o.
Definition InsertLastAppliedSpec {S St} (encode : S -> json) (o : resource S St) : resource S St :=
  insertSpec encode n_LastAppliedSpecAnnotation o.
Definition IsApplied {S St} (o : resource S St) : bool :=
  match r_Annotations o !! n_LastAppliedSpecAnnotation with Some _ => true | None => false end.

(** ** Validation *)

Context `{KE : KErrors}.

Definition validateNonUpdatableWanSyncFields (w : WanSync) : errs :=
  match r_Annotations w !! n_LastSuccessfulSpecAnnotation with
  | None => []
  | Some last =>
      match json_Unmarshal WanSyncSpec_decode last (mkWanSyncSpec "") with
      | inr err => InternalError (Path "spec" []) (wrap "error parsing last WanSync spec for update errors: " err)
      | inl lastSpec =>
          if negb (strb (wy_WanReplicationResourceName (r_Spec w)) (wy_WanReplicationResourceName lastSpec))
          then Forbidden (Path "spec" ["wanReplicationResourceName"]) "field cannot be updated" else []
      end
  end.
Definition ValidateWanSyncSpec (w : WanSync) : option error :=
  Err "WanSync" (r_Name w) (validateNonUpdatableWanSyncFields w).

Definition JetJobSnapshotSpec_zero : JetJobSnapshotSpec := mkJetJobSnapshotSpec "" false "".
Definition validateJetJobSnapshotNonUpdatableFields (jjs oldJjs : JetJobSnapshotSpec) : errs :=
  if negb (bool_decide (jjs = oldJjs)) then Forbidden (Path "spec" []) "field cannot be updated" else [].
Definition validateJetJobSnapshotUpdateSpec (jjs : JetJobSnapshot) : errs :=
  match r_Annotations jjs !! n_LastSuccessfulSpecAnnotation with
  | None => []
  | Some last =>
      match json_Unmarshal JetJobSnapshotSpec_decode last JetJobSnapshotSpec_zero with
      | inr err => InternalError (Path "spec" []) (wrap "error parsing last JetJobSnapshot spec for update errors: " err)
      | inl parsed => validateJetJobSnapshotNonUpdatableFields (r_Spec jjs) parsed
      end
  end.
Definition ValidateJetJobSnapshotSpecUpdate (jjs : JetJobSnapshot) : option error :=
  Err "JetJobSnapshot" (r_Name jjs) (validateJetJobSnapshotUpdateSpec jjs).

Definition ValidateHazelcastLicenseKey `{QL : QuantityLib} (h : Hazelcast) : option error :=
  Err "Hazelcast" (h_Name h)
    (if strb (HazelcastSpec_GetLicenseKeySecretName (h_Spec h)) ""
     then Required (Path "spec" ["licenseKeySecretName"]) "license key must be set" else []).
End Annotations.

(** ** Reading a recorded spec back *)

Lemma WanSyncSpec_round_trip s old : WanSyncSpec_decode (WanSyncSpec_encode s) old = inl s.
Proof. by destruct s. Qed.
Lemma JetJobSnapshotSpec_round_trip s : JetJobSnapshotSpec_decode (JetJobSnapshotSpec_encode s) JetJobSnapshotSpec_zero = inl s.
Proof. destruct s as [n c j]. unfold JetJobSnapshotSpec_encode, omit_str. simpl. by case_decide as Hn; subst. Qed.
