(* ===== verification/Kube.v ===== *)
(** * The world of the data structure and WAN controllers

    The calls these controllers make: to the Kubernetes API, for the kinds of
    resources they read and write, and to members, through the client
    registry (src/internal/hazelcast-client/client.go and client_registry.go).
    A client is named by its cluster.  A member is named by its UUID.

    [c.Update] and [c.Status().Update] leave the object as the reconciler set
    it: the new resource version the server returns is not modelled.  The
    second part has the rules for these calls that the theorems share. *)

From S2P Require Import Prelude Eff FieldValidation Json HazelcastTypes DataStructureTypes HazelcastValidation HazelcastValidationFacts MapValidation ConfigTypes Proto CodecTypes DataStructureConfig DataStructureValidation WanTypes JetJobValidation.
#[local] Open Scope prog_scope.
#[local] Open Scope string_scope.
#[local] Open Scope list_scope.
#[local] Open Scope Z_scope.

Definition n_Finalizer : string := "hazelcast.com/finalizer".
Definition n_WanRepMapFinalizer : string := "hazelcast.com/wan-replicated-map".

Definition NamespacedName : Type := string * string.  (* namespace, name *)

(** [ReconcilerOption] *)
Record ReconcilerOption := mkReconcilerOption { ro_RetryAfter : Z; ro_Err : option error }.  (* seconds *)
Definition recoptions_RetryAfter (seconds : Z) : ReconcilerOption := mkReconcilerOption seconds None.
Definition recoptions_Error (e : error) : ReconcilerOption := mkReconcilerOption 0 (Some e).
Definition recoptions_Empty : ReconcilerOption := mkReconcilerOption 0 None.

(** The kinds of resources. *)
Inductive kind := KDS (d : ds_kind) | KMap | KWan | KUcn | KSync | KSnap.

(** The request of the agent's bundle endpoint (src/internal/rest/bundle_service.go). *)
Record BundleReq := mkBundleReq { br_URL : string; br_SecretName : string; br_DestDir : string }.

(** The request of wan_sync_service.go for one map. *)
Record WanSyncMapRequest := mkWanSyncMapRequest {
  sr_hzResource : NamespacedName;
  sr_wanSync : string;
  sr_mapName : string;
  sr_wanName : string;
  sr_publisherId : string;
}.

Section Kube.
Context `{P : Proto} `{QL : QuantityLib} `{Y : YamlLib}.

Definition kind_spec (k : kind) : Type :=
  match k with
  | KDS d => ds_spec d
  | KMap => MapSpec
  | KWan => WanReplicationSpec
  | KUcn => UserCodeNamespaceSpec
  | KSync => WanSyncSpec
  | KSnap => JetJobSnapshotSpec
  end.
Definition kind_status (k : kind) : Type :=
  match k with
  | KDS _ | KMap => DataStructureStatus
  | KWan => WanReplicationStatus
  | KUcn => UserCodeNamespaceStatus
  | KSync => WanSyncStatus
  | KSnap => JetJobSnapshotStatus
  end.
Definition obj (k : kind) : Type := resource (kind_spec k) (kind_status k).

Inductive kube_op :=
(* Kubernetes API; a list is by namespace and hazelcastResourceName *)
| Get (k : kind) (nn : NamespacedName)
| Update (k : kind) (o : obj k)
| StatusUpdate (k : kind) (o : obj k)
| ListByHz (k : kind) (namespace hzName : string)
| Delete (k : kind) (o : obj k)
| GetHazelcast (nn : NamespacedName)
| GetConfigSecret (nn : NamespacedName)   (* the document under hazelcast.yaml *)
| GetSecretData (nn : NamespacedName)
(* the registries, and a client *)
| GetOrCreate (nn : NamespacedName)
| Running (nn : NamespacedName)
| OrderedMembers (nn : NamespacedName)
| InvokeOnMember (nn : NamespacedName) (uuid : string) (req : ClientMessage)
| InvokeOnRandomTarget (nn : NamespacedName) (req : ClientMessage)
(* the status service of a cluster: the addresses of its members; the HTTP
   client for agents of a namespace; whether the agent at a URL can connect to
   endpoints *)
| GetStatusService (nn : NamespacedName)
| TryDial (url : string) (endpoints : list string)
| GetMTLSClient (namespace : string)
| ListIn (k : kind) (namespace : string)
(* annotations and data *)
| GetConfigMap (nn : NamespacedName)
(* a job; the addresses of the members, in their order; the agent's bundle
   endpoint *)
| GetJetJob (nn : NamespacedName)
| MemberAddresses (nn : NamespacedName)
| NewBundleService (address : string)
| DownloadBundle (address : string) (req : BundleReq)
(* the wall clock in milliseconds; goroutines that are started and not waited
   for: their bodies are programs of their own *)
| Now
| GoSync (ws : NamespacedName) (wsrs : list WanSyncMapRequest)
| GoExport (nn : NamespacedName) (jetJobId : Z) (jjs : obj KSnap) (hz : NamespacedName) (client : bool).

Definition kube_ans (o : kube_op) : Type :=
  match o with
  | Get k _ => fetched (obj k)
  | ListByHz k _ _ | ListIn k _ => fetched (list (obj k))
  | GetHazelcast _ => fetched Hazelcast
  | GetConfigSecret _ => fetched Document
  | GetSecretData _ => fetched (gmap string string)
  | GetOrCreate _ => fetched bool    (* [false]: a nil client without an error *)
  | Running _ => bool
  | OrderedMembers _ => list string
  | InvokeOnMember _ _ _ | InvokeOnRandomTarget _ _ => fetched ClientMessage
  | GetStatusService _ => option (list string)
  | GetConfigMap _ => fetched (gmap string string * gmap string string)
  | GetJetJob _ => fetched JetJob
  | MemberAddresses _ => list string
  | Now => Z
  | GoSync _ _ | GoExport _ _ _ _ _ => unit
  | _ => option error
  end.

#[global] Instance kube_effects : Effects := {| op := kube_op; ans := kube_ans |}.

(** A pure step that can panic. *)
Definition lift_res {A} (r : res A) : prog A :=
  match r with Ret a => Done a | Panic => Crash | OutOfFuel => Spin end.

(** ** src/internal/util/util.go *)

Definition ContainsFinalizer {S St} (o : resource S St) (f : string) : bool := bool_decide (f ∈ r_Finalizers o).
Definition RemoveFinalizer {S St} (o : resource S St) (f : string) : resource S St :=
  set_Finalizers o (filter (fun x => x <> f) (r_Finalizers o)).

Definition AddFinalizer (k : kind) (o : obj k) : prog (obj k * option error) :=
  if negb (ContainsFinalizer o n_Finalizer) && negb (r_Deleting o) then
    let o := set_Finalizers o (r_Finalizers o ++ [n_Finalizer]) in
    ask err <- Update k o ;;
    Done (o, err : option error)
  else Done (o, None).

(** [executeFinalizer] of the data structure and map controllers. *)
Definition executeFinalizer (k : kind) (o : obj k) : prog (obj k * option error) :=
  if negb (ContainsFinalizer o n_Finalizer) then Done (o, None) else
  let o := RemoveFinalizer o n_Finalizer in
  ask err <- Update k o ;;
  match (err : option error) with
  | Some e => Done (o, Some (wrap "failed to remove finalizer from custom resource: " e))
  | None => Done (o, None)
  end.

(** [util.Update] with a function that sets the annotation: nothing is
    written when the annotation has the value already. *)
Definition UpdateAnnotation (k : kind) (o : obj k) (key value : string) : prog (obj k * option error) :=
  let o' := set_Annotation o key value in
  if decide (r_Annotations o !! key = Some value) then Done (o', None)
  else ask err <- Update k o' ;; Done (o', err : option error).

(** [getHazelcastClient] of map_controller.go: a nil client panics. *)
Definition getHazelcastClient (nn : NamespacedName) : prog (option error) :=
  ask got <- GetOrCreate nn ;;
  match (got : fetched bool) with
  | Failed _ => Done (Some (errors_New ("Internal error occurred: cannot connect to the cluster for " ++ nn.2)))
  | Found false => Crash
  | Found true =>
      ask running <- Running nn ;;
      if (running : bool) then Done None
      else Done (Some (errors_New ("trying to connect to the cluster " ++ nn.2)))
  end.

(** ** hazelcast_resources.go: the properties of a map store *)

Definition getMapStoreProperties (sn ns : string) : prog (fetched (option (gmap string string))) :=
  if strb sn "" then Done (Found None) else
  ask got <- GetSecretData (ns, sn) ;;
  match (got : fetched (gmap string string)) with
  | Failed e => Done (Failed e)
  | Found data => Done (Found (Some data))
  end.

Definition map_store_props (m : Map) (ns : string) : prog (fetched (option (gmap string string))) :=
  match m_MapStore (r_Spec m) with
  | None => Done (Found None)
  | Some s => getMapStoreProperties (ms_PropertiesSecretName s) ns
  end.

Definition createMapConfig (hz_ns : string) (m : Map) : prog (fetched cfg_Map) :=
  lift_res (deref (ds_BackupCount (m_DataStructureSpec (r_Spec m)))) ;;
  props <- map_store_props m hz_ns ;;
  match props with
  | Failed e => Done (Failed e)
  | Found props => c <- lift_res (create_map_config props m) ;; Done (Found c)
  end.

(** ** data_structure_controller.go: the persisted configuration *)

Definition getHazelcastConfig (nn : NamespacedName) : prog (fetched cfg_Hazelcast) :=
  ask got <- GetConfigSecret nn ;;
  match (got : fetched Document) with
  | Failed _ => Done (Failed (errors_New ("could not find Secret for config persistence for " ++ nn.1 ++ "/" ++ nn.2)))
  | Found d =>
      match yaml_Unmarshal d with
      | None => Done (Failed (errors_New "persisted Secret is not formatted correctly"))
      | Some c => Done (Found c)
      end
  end.

(** ** Requests to all members

    The loop of [sendCodecRequest] (data_structure_controller.go) and of
    [ReconcileMapConfig] (map_controller.go): members recorded as done are
    skipped.  The statuses and the names of the members that failed. *)
Fixpoint send_to_members (hz : NamespacedName) (recorded : gmap string string) (req : ClientMessage)
    (members : list string) (memberStatuses : gmap string string) (failedMembers : list string)
  : prog (gmap string string * list string) :=
  match members with
  | [] => Done (memberStatuses, failedMembers)
  | uuid :: members =>
      if decide (recorded !! uuid = Some DataStructureSuccess) then
        send_to_members hz recorded req members (<[uuid := DataStructureSuccess]> memberStatuses) failedMembers
      else
        ask r <- InvokeOnMember hz uuid req ;;
        match (r : fetched ClientMessage) with
        | Failed _ => send_to_members hz recorded req members (<[uuid := DataStructureFailed]> memberStatuses)
                        (failedMembers ++ [uuid])
        | Found _ => send_to_members hz recorded req members (<[uuid := DataStructureSuccess]> memberStatuses)
                       failedMembers
        end
  end.

(** The names joined by commas: [errString[:len(errString)-2]]. *)
Definition join_names (l : list string) : string := String.concat ", " l.
End Kube.

(** * Rules about the calls the controllers share

    Program-logic rules for the helpers of Kube.v, for any guard that only
    restricts status updates, requests to members and started goroutines. *)

(** ** The resource a reconciliation works on *)

(** Everything a controller goes by is as it was read: only finalizers and
    the status differ. *)
Record same {S St} (o0 o : resource S St) : Prop := {
  same_ns : r_Namespace o = r_Namespace o0;
  same_name : r_Name o = r_Name o0;
  same_ann : r_Annotations o = r_Annotations o0;
  same_spec : r_Spec o = r_Spec o0;
}.

#[export] Instance same_refl {S St} : Reflexive (@same S St).
Proof. intros o. by constructor. Qed.

Lemma same_finalizers {S St} (o0 o : resource S St) fs : same o0 o -> same o0 (set_Finalizers o fs).
Proof. intros []. by constructor. Qed.

Lemma same_status {S St} (o0 o : resource S St) st : same o0 o -> same o0 (set_Status o st).
Proof. intros []. by constructor. Qed.

Section Facts.
Context `{P : Proto} `{QL : QuantityLib} `{Y : YamlLib}.

(** ** Events *)

Definition ev_read (k : kind) (nn : NamespacedName) (o : obj k) : event := Ev (Get k nn) (Found o).
Definition ev_hazelcast (hz : NamespacedName) (h : Hazelcast) : event := Ev (GetHazelcast hz) (Found h).
Definition ev_members (hz : NamespacedName) (members : list string) : event := Ev (OrderedMembers hz) members.
Definition ev_acked (hz : NamespacedName) (uuid : string) (req resp : ClientMessage) : event :=
  Ev (InvokeOnMember hz uuid req) (Found resp).
Definition ev_config (hz : NamespacedName) (doc : Document) : event := Ev (GetConfigSecret hz) (Found doc).

(** ** Guards *)

Definition controlled (c : kube_op) : bool :=
  match c with
  | StatusUpdate _ _ | InvokeOnMember _ _ _ | InvokeOnRandomTarget _ _ | GoSync _ _ | GoExport _ _ _ _ _ => true
  | _ => false
  end.
Class Permissive (G : list event -> op -> Prop) : Prop :=
  permissive : forall h c, controlled c = false -> G h c.

Context (G : list event -> op -> Prop) `{!Permissive G}.

Lemma wp_quiet {A} c (p : ans c -> prog A) h Q :
  controlled c = false -> (forall x h', h ⊆ h' -> Ev c x ∈ h' -> wp G (p x) h' Q) -> wp G (Vis c p) h Q.
Proof. intros Hc. apply wp_vis. by apply permissive. Qed.

(** An object that differs in its finalizers only. *)
Lemma wp_AddFinalizer k (o : obj k) h Q :
  (forall h' fs err, h ⊆ h' -> Q h' (set_Finalizers o fs, err)) -> wp G (AddFinalizer k o) h Q.
Proof.
  intros HQ. unfold AddFinalizer. destruct (_ && _).
  - apply wp_quiet; [done|]. intros err h' Hs _. by apply HQ.
  - destruct o as []. by apply (HQ h r_Finalizers None).
Qed.

Lemma wp_executeFinalizer k (o : obj k) h Q : (forall h' r, h ⊆ h' -> Q h' r) -> wp G (executeFinalizer k o) h Q.
Proof.
  intros HQ. unfold executeFinalizer. destruct (negb _); [by apply HQ|].
  apply wp_quiet; [done|]. intros [e|] h2 Hs2 _; by apply HQ.
Qed.

Lemma wp_UpdateAnnotation k (o : obj k) key v h Q :
  (forall h' err, h ⊆ h' -> Q h' (set_Annotation o key v, err)) -> wp G (UpdateAnnotation k o key v) h Q.
Proof.
  intros HQ. unfold UpdateAnnotation. case_decide; [by apply HQ|].
  apply wp_quiet; [done|]. intros err h' Hs _. by apply HQ.
Qed.

Lemma wp_getHazelcastClient nn h Q : (forall h' r, h ⊆ h' -> Q h' r) -> wp G (getHazelcastClient nn) h Q.
Proof.
  intros HQ. unfold getHazelcastClient. apply wp_quiet; [done|]. intros [[]|e] h1 Hs1 _; cbv iota;
    [|done|by apply wp_ret, HQ].
  apply wp_quiet; [done|]. intros [] h2 Hs2 _; apply wp_ret, HQ; by etrans.
Qed.

Lemma wp_lift_res {A} (r : res A) h (Q : list event -> A -> Prop) :
  (forall a, r = Ret a -> Q h a) -> wp G (lift_res r) h Q.
Proof. intros HQ. destruct r; [by apply HQ|done|done]. Qed.

Lemma wp_getHazelcastConfig nn h Q :
  (forall h' r, h ⊆ h' -> (forall c, r = Found c -> exists doc, ev_config nn doc ∈ h' /\ yaml_Unmarshal doc = Some c) ->
     Q h' r) ->
  wp G (getHazelcastConfig nn) h Q.
Proof.
  intros HQ. apply wp_quiet; [done|]. intros [doc|e] h1 Hs1 E1; [|apply wp_ret, HQ; [done|by intros c [=]]].
  destruct (yaml_Unmarshal doc) as [c|] eqn:Ec; apply wp_ret, HQ; [done| |done|by intros c [=]].
  intros c' [= <-]. by exists doc.
Qed.

(** Where the properties of a map store come from. *)
Definition props_read (h : list event) (hz_ns : string) (m : Map) (props : option (gmap string string)) : Prop :=
  match m_MapStore (r_Spec m) with
  | None => props = None
  | Some s =>
      if strb (ms_PropertiesSecretName s) "" then props = None
      else exists data, props = Some data /\ Ev (GetSecretData (hz_ns, ms_PropertiesSecretName s)) (Found data) ∈ h
  end.

Lemma props_read_mono t t' ns m props : t ⊆ t' -> props_read t ns m props -> props_read t' ns m props.
Proof.
  intros Hs. unfold props_read. destruct (m_MapStore (r_Spec m)) as [s|]; [|done]. destruct (strb _ _); [done|].
  intros (data & ? & ?). exists data. split; [done|by apply Hs].
Qed.

Lemma wp_map_store_props m hz_ns h Q :
  (forall h' r, h ⊆ h' -> (forall props, r = Found props -> props_read h' hz_ns m props) -> Q h' r) ->
  wp G (map_store_props m hz_ns) h Q.
Proof.
  intros HQ. unfold map_store_props. destruct (m_MapStore (r_Spec m)) as [s|] eqn:Es.
  2: { apply wp_ret, HQ; [done|]. intros props [= <-]. unfold props_read. by rewrite Es. }
  unfold getMapStoreProperties. destruct (strb _ "") eqn:En.
  { apply wp_ret, HQ; [done|]. intros props [= <-]. unfold props_read. by rewrite Es, En. }
  apply wp_quiet; [done|]. intros [data|e] h1 Hs1 E1; apply wp_ret, HQ; [done| |done|by intros c [=]].
  intros props [= <-]. unfold props_read. rewrite Es, En. by exists data.
Qed.

(** Every member that has no acknowledgement is among the failed ones. *)
Lemma wp_send_to_members hz recorded req members ms failed h Q :
  (forall h' ms' failed', h ⊆ h' -> failed ⊆ failed' ->
     (forall uuid, uuid ∈ members -> recorded !! uuid = Some DataStructureSuccess
        \/ (exists resp, ev_acked hz uuid req resp ∈ h') \/ uuid ∈ failed') ->
     Q h' (ms', failed')) ->
  (forall h' uuid, h ⊆ h' -> uuid ∈ members -> recorded !! uuid <> Some DataStructureSuccess ->
     G h' (InvokeOnMember hz uuid req)) ->
  wp G (send_to_members hz recorded req members ms failed) h Q.
Proof.
  revert ms failed h. induction members as [|uuid members IH]; intros ms failed h HQ HS; simpl.
  { apply wp_ret, HQ; [done|done|]. intros u Hu. by apply not_elem_of_nil in Hu. }
  case_decide as Hm.
  { apply IH; [|intros; apply HS; [done|by right|done]]. intros h' ms' f' Hs Hf Hu. apply HQ; [done|done|].
    intros u [->|?]%elem_of_cons; [by left|by apply Hu]. }
  apply wp_vis; [by apply HS; [|left|]|]. intros [resp|e] h1 Hs1 E1; (apply IH;
    [intros h' ms' f' Hs Hf Hu; apply HQ|intros h' u Hs Hu; apply HS; [by etrans|by right]]).
  - set_solver.
  - done.
  - intros u [->|?]%elem_of_cons; [|by apply Hu]. right; left. exists resp. unfold ev_acked. hist.
  - set_solver.
  - set_solver.
  - intros u [->|?]%elem_of_cons; [|by apply Hu]. right; right. by apply Hf, elem_of_app; right; apply list_elem_of_singleton.
Qed.
End Facts.
