(* ===== verification/WanController.v ===== *)
(** * The WAN replication controller

    src/internal/controller/hazelcast/wanreplication_controller.go,
    wanreplication_status.go and wan_resources.go: for every map of the
    resource a publisher is added to its cluster, the map gets a finalizer,
    and the controller waits until hazelcast.yaml has the publisher.
    Publishers of maps that left are stopped.  Logging, the phone home trigger
    and the watch set-up are left out.

    The statuses of the maps are a Go map that is changed while it is ranged
    over: the order is the parameter [MapRange], an entry that was deleted is
    not visited, one that was changed is visited with its new value.  A nil
    map of statuses is not told from an empty one: the code that looks at the
    difference is only reached with an entry in the map. *)

From stdpp Require Import pretty.
From S2P Require Import Prelude Eff FieldValidation Json GoPath GoNet WanEndpoints HazelcastTypes DataStructureTypes HazelcastValidation HazelcastValidationFacts MapValidation ConfigTypes Proto CodecBuiltin CodecTypes CodecRequests DataStructureConfig DataStructureValidation WanTypes HazelcastConfig Kube.
#[local] Open Scope prog_scope.
#[local] Open Scope string_scope.
#[local] Open Scope list_scope.
#[local] Open Scope Z_scope.

(** * Requests to members about a WAN replication

    src/internal/hazelcast-client/wan_service.go: [NewWanService] is the pair
    of a name and a publisher; a client is named by its cluster.  The state of
    a publisher (src/internal/protocol/types/wan_replication_state.go) is a
    byte. *)

Definition AckOnReceipt : string := "ACK_ON_RECEIPT".
Definition AckOnOperationComplete : string := "ACK_ON_OPERATION_COMPLETE".
Definition DiscardAfterMutation : string := "DISCARD_AFTER_MUTATION".
Definition ThrowException : string := "THROW_EXCEPTION".
Definition ThrowExceptionOnlyIfReplicationActive : string := "THROW_EXCEPTION_ONLY_IF_REPLICATION_ACTIVE".

Definition WanReplicationStateStopped : byte := Byte.x02.
Definition ConsistencyCheck_None : byte := Byte.x00.
Definition ConsistencyCheck_MerkleTrees : byte := Byte.x01.

Record AddBatchPublisherRequest := mkAddBatchPublisherRequest {
  bp_TargetCluster : string;
  bp_Endpoints : string;
  bp_QueueCapacity : Z;
  bp_BatchSize : Z;
  bp_BatchMaxDelayMillis : Z;
  bp_ResponseTimeoutMillis : Z;
  bp_AckType : string;
  bp_QueueFullBehavior : string;
  bp_ConsistencyCheckStrategy : byte;
}.

Definition convertAckType (ackType : string) : Z :=
  if strb ackType AckOnReceipt then 0 else if strb ackType AckOnOperationComplete then 1 else -1.
Definition convertQueueBehavior (behavior : string) : Z :=
  if strb behavior DiscardAfterMutation then 0
  else if strb behavior ThrowException then 1
  else if strb behavior ThrowExceptionOnlyIfReplicationActive then 2 else -1.

(** [HzWanService] *)
Record WanService := mkWanService { wsv_client : NamespacedName; wsv_name : string; wsv_publisherId : string }.

Section WanService.
Context `{P : Proto} `{QL : QuantityLib} `{Y : YamlLib}.

Definition add_publisher_request (ws : WanService) (request : AddBatchPublisherRequest) : res ClientMessage :=
  EncodeMCAddWanBatchPublisherConfigRequest (wsv_name ws) (bp_TargetCluster request) (wsv_publisherId ws)
    (bp_Endpoints request) (bp_QueueCapacity request) (bp_BatchSize request) (bp_BatchMaxDelayMillis request)
    (bp_ResponseTimeoutMillis request) (convertAckType (bp_AckType request))
    (convertQueueBehavior (bp_QueueFullBehavior request)) (bp_ConsistencyCheckStrategy request).

Definition AddBatchPublisherConfig (ws : WanService) (request : AddBatchPublisherRequest) : prog (option error) :=
  req <- lift_res (add_publisher_request ws request) ;;
  ask r <- InvokeOnRandomTarget (wsv_client ws) req ;;
  match (r : fetched ClientMessage) with Failed e => Done (Some e) | Found _ => Done None end.

(** The members in order, up to the first that fails. *)
Fixpoint invoke_until_error (hz : NamespacedName) (req : ClientMessage) (members : list string) : prog (option error) :=
  match members with
  | [] => Done None
  | uuid :: members =>
      ask r <- InvokeOnMember hz uuid req ;;
      match (r : fetched ClientMessage) with
      | Failed e => Done (Some e)
      | Found _ => invoke_until_error hz req members
      end
  end.

Definition ChangeWanState (ws : WanService) (state : byte) : prog (option error) :=
  req <- lift_res (EncodeMCChangeWanReplicationStateRequest (wsv_name ws) (wsv_publisherId ws) state) ;;
  ask members <- OrderedMembers (wsv_client ws) ;;
  invoke_until_error (wsv_client ws) req members.

Definition ClearWanQueue (ws : WanService) : prog (option error) :=
  req <- lift_res (EncodeMCClearWanQueuesRequest (wsv_name ws) (wsv_publisherId ws)) ;;
  ask members <- OrderedMembers (wsv_client ws) ;;
  invoke_until_error (wsv_client ws) req members.

(** ** Requests to members in order *)

Context (G : list event -> op -> Prop).

(** Without an error, every member has acknowledged the request. *)
Lemma wp_invoke_until_error hz req members h Q :
  (forall h' uuid, h ⊆ h' -> uuid ∈ members -> G h' (InvokeOnMember hz uuid req)) ->
  (forall h' err, h ⊆ h' ->
     (err = None -> forall uuid, uuid ∈ members -> exists resp, ev_acked hz uuid req resp ∈ h') -> Q h' err) ->
  wp G (invoke_until_error hz req members) h Q.
Proof.
  revert h. induction members as [|u members IH]; intros h HG HQ; simpl.
  { apply wp_ret, HQ; [done|]. intros _ u Hu. by apply not_elem_of_nil in Hu. }
  apply wp_vis; [apply HG; [done|by left]|]. intros [resp|e] h1 Hs1 E1; [|by apply wp_ret, HQ].
  apply IH; [intros; apply HG; [by etrans|by right]|]. intros h2 err Hs2 Ha. apply HQ; [by etrans|].
  intros He u' [->|Hu]%elem_of_cons; [|by apply Ha]. exists resp. by apply Hs2.
Qed.
End WanService.

(** * The controller *)

Abbreviation MapSuccess := DataStructureSuccess.
Abbreviation MapTerminating := DataStructureTerminating.
Abbreviation reconcile_result := (ctrl_Result * option error)%type.

(** ** wanreplication_status.go *)

Inductive WanRepStatusApplier :=
| withWanRepState (s : string)
| withWanRepFailedState (msg : string)
| withWanRepMessage (msg : string).

Definition WanRepStatusApply (ms : WanReplicationStatus) (w : WanRepStatusApplier) : WanReplicationStatus :=
  match w with
  | withWanRepState s => mkWanReplicationStatus s (ws_Message ms) (ws_Maps ms)
  | withWanRepFailedState msg => mkWanReplicationStatus WanStatusFailed msg (ws_Maps ms)
  | withWanRepMessage msg => mkWanReplicationStatus (ws_Status ms) msg (ws_Maps ms)
  end.

Inductive WanMapStatusApplier :=
| wanMapFailedStatus (msg : string)
| wanMapPersistingStatus (publisherId resourceName : string)
| wanMapSuccessStatus
| wanMapTerminatingStatus.

Definition WanMapStatusApply (w : WanMapStatusApplier) (ms : WanReplicationMapStatus) : WanReplicationMapStatus :=
  match w with
  | wanMapFailedStatus msg => mkWanReplicationMapStatus (wm_ResourceName ms) (wm_PublisherId ms) WanStatusFailed msg
  | wanMapPersistingStatus publisherId resourceName => mkWanReplicationMapStatus resourceName publisherId WanStatusPersisting ""
  | wanMapSuccessStatus =>
      mkWanReplicationMapStatus (wm_ResourceName ms) (wm_PublisherId ms) WanStatusSuccess (wm_Message ms)
  | wanMapTerminatingStatus =>
      mkWanReplicationMapStatus (wm_ResourceName ms) (wm_PublisherId ms) WanStatusTerminating (wm_Message ms)
  end.

Definition wanStatusSet (statusMap : gmap string WanReplicationMapStatus) : gset string :=
  list_to_set (wm_Status <$> (map_to_list statusMap).*2).

Definition wanStatusFromMapStatuses (statuses : gmap string WanReplicationMapStatus) : string :=
  let set := wanStatusSet statuses in
  if bool_decide (WanStatusSuccess ∈ set) && Nat.eqb (size set) 1 then WanStatusSuccess
  else if bool_decide (WanStatusPersisting ∈ set) then WanStatusPersisting
  else if bool_decide (WanStatusFailed ∈ set) then WanStatusFailed
  else WanStatusPending.

(** The statuses after the appliers; each works on its own key. *)
Definition apply_statuses (statuses : gmap string WanReplicationMapStatus) (options : gmap string WanMapStatusApplier)
  : gmap string WanReplicationMapStatus :=
  map_fold (fun mapWanKey applier m =>
    <[mapWanKey := WanMapStatusApply applier (default WanReplicationMapStatus_zero (m !! mapWanKey))]> m) statuses options.

Definition set_maps (wan : WanReplication) (maps : gmap string WanReplicationMapStatus) : WanReplication :=
  set_Status wan (mkWanReplicationStatus (ws_Status (r_Status wan)) (ws_Message (r_Status wan)) maps).

(** The status behind [patchWanMapStatuses]. *)
Definition patched_status (st : WanReplicationStatus) (options : gmap string WanMapStatusApplier) : WanReplicationStatus :=
  let maps := apply_statuses (ws_Maps st) options in
  let s := wanStatusFromMapStatuses maps in
  mkWanReplicationStatus s (if strb s WanStatusSuccess then "" else ws_Message st) maps.

Section WanController.
Context `{P : Proto} `{R : MapRange} `{QL : QuantityLib} `{Y : YamlLib} `{WJ : WanJson} `{KE : KErrors}.

(** [controllerutil.SetOwnerReference]: the owners of the map with the WAN
    replication among them. *)
Context (SetOwnerReference : WanReplication -> Map -> sum (list OwnerReference) error).

Definition updateWanStatus (wan : WanReplication) (recOption : ReconcilerOption) (options : list WanRepStatusApplier)
  : prog (WanReplication * reconcile_result) :=
  let wan : WanReplication := set_Status wan (foldl WanRepStatusApply (r_Status wan) options) in
  ask err <- StatusUpdate KWan wan ;;
  match (err : option error) with
  | Some e => if IsConflict e then Done (wan, (ctrl_Result_zero, None)) else Done (wan, (ctrl_Result_zero, Some e))
  | None =>
      match ro_Err recOption with
      | Some e => Done (wan, (ctrl_Result_zero, Some e))
      | None =>
          let s := ws_Status (r_Status wan) in
          if strb s WanStatusPending || strb s WanStatusPersisting
          then Done (wan, (mkResult true (ro_RetryAfter recOption), None))
          else Done (wan, (ctrl_Result_zero, None))
      end
  end.

Definition patchWanMapStatuses (wan : WanReplication) (options : gmap string WanMapStatusApplier)
  : prog (WanReplication * option error) :=
  let wan : WanReplication := set_Status wan (patched_status (r_Status wan) options) in
  ask err <- StatusUpdate KWan wan ;;
  match (err : option error) with
  | Some e => if IsConflict e then Done (wan, None) else Done (wan, Some e)
  | None => Done (wan, None)
  end.

Definition deleteWanMapStatus (wan : WanReplication) (mapWanKey : string) : prog (WanReplication * option error) :=
  let wan := set_maps wan (delete mapWanKey (ws_Maps (r_Status wan))) in
  ask err <- StatusUpdate KWan wan ;;
  Done (wan, err : option error).

Definition updateWanMapStatus (wan : WanReplication) (mapWanKey : string) (applier : WanMapStatusApplier)
  : prog (WanReplication * option error) :=
  let maps := ws_Maps (r_Status wan) in
  let wan := set_maps wan (<[mapWanKey := WanMapStatusApply applier (default WanReplicationMapStatus_zero (maps !! mapWanKey))]> maps) in
  ask err <- StatusUpdate KWan wan ;;
  Done (wan, err : option error).

(** ** wan_resources.go *)

Definition getWanMap (lk : NamespacedName) : prog (fetched Map) :=
  ask got <- Get KMap lk ;;
  match (got : fetched Map) with
  | Failed e => Done (Failed (wrap "failed to get Map CR from WanReplication: " e))
  | Found m => Done (Found m)
  end.

Definition getAllMapsInHazelcast (hazelcastResourceName wanNamespace : string) : prog (fetched (list Map)) :=
  ask got <- ListByHz KMap wanNamespace hazelcastResourceName ;;
  match (got : fetched (list Map)) with
  | Failed e => Done (Failed (wrap "could not get Map resources dependent under given Hazelcast " e))
  | Found l => Done (Found l)
  end.

Definition removeDuplicate (mapList : list Map) : list Map :=
  (fix go (keySet : gset NamespacedName) (l : list Map) : list Map :=
     match l with
     | [] => []
     | item :: l =>
         if decide (r_nn (item : Map) ∈ keySet) then go keySet l else item :: go ({[r_nn (item : Map)]} ∪ keySet) l
     end) ∅ mapList.

(** The maps of the resources, by cluster, before duplicates are removed. *)
Fixpoint maps_of_resources (ns : string) (resources : list ResourceSpec) (hzClientMap : gmap string (list Map))
  : prog (fetched (gmap string (list Map))) :=
  match resources with
  | [] => Done (Found hzClientMap)
  | rs :: resources =>
      if strb (rs_Kind rs) ResourceKindMap then
        m <- getWanMap (ns, rs_Name rs) ;;
        match m with
        | Failed e => Done (Failed e)
        | Found m =>
            let hz := ds_HazelcastResourceName (m_DataStructureSpec (r_Spec (m : Map))) in
            maps_of_resources ns resources (<[hz := default [] (hzClientMap !! hz) ++ [m]]> hzClientMap)
        end
      else if strb (rs_Kind rs) ResourceKindHZ then
        maps <- getAllMapsInHazelcast (rs_Name rs) ns ;;
        match maps with
        | Failed e => Done (Failed e)
        | Found [] => maps_of_resources ns resources hzClientMap
        | Found maps =>
            maps_of_resources ns resources (<[rs_Name rs := default [] (hzClientMap !! rs_Name rs) ++ maps]> hzClientMap)
        end
      else maps_of_resources ns resources hzClientMap
  end.

Definition getMapsGroupByHazelcastName (wan : WanReplication) : prog (fetched (gmap string (list Map))) :=
  got <- maps_of_resources (r_Namespace wan) (wr_Resources (r_Spec wan)) ∅ ;;
  match got with
  | Failed e => Done (Failed e)
  | Found hzClientMap => Done (Found (removeDuplicate <$> hzClientMap))
  end.

(** ** Ranging over the statuses *)

Inductive turn := Continue | Return (err : option error).

(** The body gets the key and the current value of every entry that is still
    there, and the resource; it hands on the resource as it left it. *)
Fixpoint range_statuses (body : WanReplication -> string -> WanReplicationMapStatus -> prog (WanReplication * turn))
    (keys : list string) (wan : WanReplication) : prog (WanReplication * turn) :=
  match keys with
  | [] => Done (wan, Continue)
  | mapWanKey :: keys =>
      match ws_Maps (r_Status wan) !! mapWanKey with
      | None => range_statuses body keys wan
      | Some status =>
          r <- body wan mapWanKey status ;;
          match r.2 with
          | Continue => range_statuses body keys r.1
          | Return err => Done (r.1, Return err)
          end
      end
  end.

(** A step whose error ends the loop. *)
Definition or_return (p : prog (WanReplication * option error)) : prog (WanReplication * turn) :=
  r <- p ;;
  Done (r.1, match r.2 with Some e => Return (Some e) | None => Continue end).

(** What the loop returns. *)
Definition loop_error (t : turn) : option error := match t with Continue => None | Return err => err end.

Definition status_keys (wan : WanReplication) : list string := range_keys (ws_Maps (r_Status wan)).

Definition deleteLeftoverMapsFromStatus (wan : WanReplication) : prog (WanReplication * option error) :=
  r <- range_statuses (fun wan mapWanKey mapStatus =>
    if strb (wm_PublisherId mapStatus) "" then Done (wan, Continue) else
    if negb (strb (wm_Status mapStatus) WanStatusTerminating) then Done (wan, Continue) else
    m <- getWanMap (r_Namespace wan, wm_ResourceName mapStatus) ;;
    match m with
    | Failed e =>
        if negb (IsNotFound e) then Done (wan, Return (Some e)) else
        r <- deleteWanMapStatus wan mapWanKey ;;
        Done (r.1, match r.2 with Some e' => Return (Some e') | None => Return (Some e) end)
    | Found m =>
        if ContainsFinalizer m n_WanRepMapFinalizer then Done (wan, Return None)
        else or_return (deleteWanMapStatus wan mapWanKey)
    end) (status_keys wan) wan ;;
  Done (r.1, loop_error r.2).

(** ** Stopping publishers *)

Definition owned_by (wan : WanReplication) (owner : OwnerReference) : bool :=
  strb (or_Kind owner) (WanReplication_Kind wan) && strb (or_Name owner) (r_Name wan) && strb (or_UID owner) (r_UID wan).

Definition removeOwnerReference (wan : WanReplication) (m : Map) : prog (Map * option error) :=
  let newOwnerRef := filter (fun owner => negb (owned_by wan owner)) (r_Owners m) in
  if Nat.eqb (length newOwnerRef) (length (r_Owners m)) then Done (m, None) else
  let m : Map := set_Owners m newOwnerRef in
  ask err <- Update KMap m ;;
  Done (m, err : option error).

Definition removeWanRepFinalizerFromMap (m : Map) : prog (option error) :=
  if negb (ContainsFinalizer m n_WanRepMapFinalizer) then Done None else
  ask err <- Update KMap (RemoveFinalizer m n_WanRepMapFinalizer) ;;
  Done (err : option error).

(** The client is the one of the map's cluster. *)
Definition stopWanReplicationMap (wan : WanReplication) (m : Map) (cli : NamespacedName)
  : prog (WanReplication * option error) :=
  let mapWanKey := wanMapKey (ds_HazelcastResourceName (m_DataStructureSpec (r_Spec m))) (DataStructureTypes.MapName m) in
  match ws_Maps (r_Status wan) !! mapWanKey with
  | None => Done (wan, None)
  | Some mapStatus =>
      let publisherId := wm_PublisherId mapStatus in
      if strb publisherId "" then deleteWanMapStatus wan mapWanKey else
      let ws := mkWanService cli (wanName (DataStructureTypes.MapName m)) publisherId in
      err <- ChangeWanState ws WanReplicationStateStopped ;;
      match err with Some e => Done (wan, Some e) | None =>
      err <- ClearWanQueue ws ;;
      match err with Some e => Done (wan, Some e) | None =>
      r <- removeOwnerReference wan m ;;
      match r.2 with Some e => Done (wan, Some e) | None =>
      let m := r.1 in
      r <- updateWanMapStatus wan mapWanKey wanMapTerminatingStatus ;;
      match r.2 with Some e => Done (r.1, Some e) | None =>
      let wan := r.1 in
      err <- removeWanRepFinalizerFromMap m ;;
      match err with Some e => Done (wan, Some e) | None =>
      deleteWanMapStatus wan mapWanKey
      end end end end end
  end.

Fixpoint published_maps (ns : string) (statuses : list (string * WanReplicationMapStatus)) (hzMaps : gmap string Map)
  : prog (fetched (gmap string Map)) :=
  match statuses with
  | [] => Done (Found hzMaps)
  | (mapWanKey, status) :: statuses =>
      if strb (wm_PublisherId status) "" then published_maps ns statuses hzMaps else
      m <- getWanMap (ns, wm_ResourceName status) ;;
      match m with
      | Failed e => Done (Failed e)
      | Found m => published_maps ns statuses (<[mapWanKey := m]> hzMaps)
      end
  end.
Definition getPublishedMapsFromStatus (wan : WanReplication) : prog (fetched (gmap string Map)) :=
  published_maps (r_Namespace wan) (go_range (ws_Maps (r_Status wan))) ∅.

(** The map's client, then the map. *)
Definition stop_with_client (wan : WanReplication) (m : Map) : prog (WanReplication * turn) :=
  let cli := (r_Namespace m, ds_HazelcastResourceName (m_DataStructureSpec (r_Spec m))) in
  err <- getHazelcastClient cli ;;
  match err with
  | Some e => Done (wan, Return (Some e))
  | None => or_return (stopWanReplicationMap wan m cli)
  end.

Definition stopWanReplicationAllMaps (wan : WanReplication) : prog (WanReplication * option error) :=
  published <- getPublishedMapsFromStatus wan ;;
  match published with
  | Failed e => Done (wan, Some e)
  | Found publishedMaps =>
      r <- range_statuses (fun wan mapWanKey _ =>
        match publishedMaps !! mapWanKey with
        | None => or_return (deleteWanMapStatus wan mapWanKey)
        | Some m => stop_with_client wan m
        end) (status_keys wan) wan ;;
      match r.2 with
      | Return err => Done (r.1, err)
      | Continue =>
          let len := size (ws_Maps (r_Status r.1)) in
          if Nat.eqb len 0 then Done (r.1, None)
          else Done (r.1, Some (errors_New ("Not all maps are finalized, number of left maps is " ++ pretty len)))
      end
  end.

(** The keys of the maps in the spec. *)
Definition spec_keys (hzClientMap : gmap string (list Map)) : gset string :=
  list_to_set (mjoin (map (fun '(hzName, maps) => map (fun m => wanMapKey hzName (DataStructureTypes.MapName m)) maps)
    (go_range hzClientMap))).

Definition stopWanRepForRemovedResources (wan : WanReplication) (hzClientMap : gmap string (list Map))
  : prog (WanReplication * option error) :=
  r <- range_statuses (fun wan mapWanKey status =>
    if decide (mapWanKey ∈ spec_keys hzClientMap) then Done (wan, Continue) else
    m <- getWanMap (r_Namespace wan, wm_ResourceName status) ;;
    match m with
    | Failed e => Done (wan, Return (Some e))
    | Found m => stop_with_client wan m
    end) (status_keys wan) wan ;;
  Done (r.1, loop_error r.2).

Fixpoint stop_terminating (wan : WanReplication) (cli : NamespacedName) (maps : list Map)
  : prog (WanReplication * option error) :=
  match maps with
  | [] => Done (wan, None)
  | m :: maps =>
      if negb (strb (st_State (r_Status (m : Map))) MapTerminating) then stop_terminating wan cli maps else
      r <- stopWanReplicationMap wan m cli ;;
      match r.2 with
      | Some e => Done (r.1, Some e)
      | None => stop_terminating r.1 cli maps
      end
  end.
Fixpoint cleanup_clusters (wan : WanReplication) (clusters : list (string * list Map)) : prog (WanReplication * option error) :=
  match clusters with
  | [] => Done (wan, None)
  | (hzResourceName, maps) :: clusters =>
      err <- getHazelcastClient (r_Namespace wan, hzResourceName) ;;
      match err with
      | Some e => Done (wan, Some e)
      | None =>
          r <- stop_terminating wan (r_Namespace wan, hzResourceName) maps ;;
          match r.2 with
          | Some e => Done (r.1, Some e)
          | None => cleanup_clusters r.1 clusters
          end
      end
  end.
Definition cleanupTerminatingMapCRs (wan : WanReplication) (hzClientMap : gmap string (list Map))
  : prog (WanReplication * option error) :=
  cleanup_clusters wan (go_range hzClientMap).

(** ** Endpoints *)

Definition checkWanEndpoint (wan : WanReplication) : prog (WanReplication * option error) :=
  let s := r_Spec wan in
  let endpointsStr := normalize (wr_Endpoints s) in
  if strb (wr_Endpoints s) endpointsStr then Done (wan, None) else
  let wan : WanReplication := set_Spec wan (mkWanReplicationSpec (wr_Resources s) (wr_TargetClusterName s) endpointsStr (wr_Queue s)
    (wr_Batch s) (wr_Acknowledgement s) (wr_SyncConsistencyCheckStrategy s)) in
  ask err <- Update KWan wan ;;
  Done (wan, err : option error).

(** The agent of a member: src/internal/dialer/dialer.go. *)
Definition dial_member (memberAddress : string) (endpoints : list string) : prog (option error) :=
  match SplitHostPort memberAddress with
  | inr e => Done (Some e)
  | inl (host, _) => ask err <- TryDial ("https://" ++ host ++ ":8443") endpoints ;; Done (err : option error)
  end.
Fixpoint dial_members (members : list string) (endpoints : list string) : prog (option error) :=
  match members with
  | [] => Done None
  | memberAddress :: members =>
      err <- dial_member memberAddress endpoints ;;
      match err with
      | Some e => Done (Some e)
      | None => dial_members members endpoints
      end
  end.

(** The cluster of a resource of the spec. *)
Definition resource_cluster (ns : string) (rr : ResourceSpec) : prog (fetched string) :=
  if strb (rs_Kind rr) ResourceKindMap then
    ask got <- Get KMap (ns, rs_Name rr) ;;
    match (got : fetched Map) with
    | Failed e => Done (Failed e)
    | Found m => Done (Found (ds_HazelcastResourceName (m_DataStructureSpec (r_Spec m))))
    end
  else Done (Found (rs_Name rr)).

Fixpoint check_resources (ns : string) (endpoints : string) (resources : list ResourceSpec) : prog (option error) :=
  match resources with
  | [] => Done None
  | rr :: resources =>
      hz <- resource_cluster ns rr ;;
      match hz with
      | Failed e => Done (Some e)
      | Found hzResourceName =>
          ask service <- GetStatusService (ns, hzResourceName) ;;
          match (service : option (list string)) with
          | None => Done (Some (errors_New ("get Hazelcast Status Service failed for Hazelcast CR " ++ hzResourceName)))
          | Some memberAddresses =>
              ask err <- GetMTLSClient ns ;;
              match (err : option error) with
              | Some e => Done (Some e)
              | None =>
                  err <- dial_members memberAddresses (splitEndpoints endpoints) ;;
                  match err with
                  | Some e => Done (Some e)
                  | None => check_resources ns endpoints resources
                  end
              end
          end
      end
  end.
Definition checkConnectivity (ns : string) (wan : WanReplication) : prog (option error) :=
  check_resources ns (wr_Endpoints (r_Spec wan)) (wr_Resources (r_Spec wan)).

(** ** Starting publishers *)

Definition batch_publisher_request (wan : WanReplication) : AddBatchPublisherRequest :=
  let s := r_Spec wan in
  mkAddBatchPublisherRequest (wr_TargetClusterName s) (wr_Endpoints s) (qs_Capacity (wr_Queue s)) (bs_Size (wr_Batch s))
    (bs_MaximumDelay (wr_Batch s)) (as_Timeout (wr_Acknowledgement s)) (as_Type (wr_Acknowledgement s))
    (qs_FullBehavior (wr_Queue s))
    (if strb (wr_SyncConsistencyCheckStrategy s) ConsistencyCheckStrategyMerkleTrees then ConsistencyCheck_MerkleTrees
     else ConsistencyCheck_None).

Definition applyWanReplication (cli : NamespacedName) (wan : WanReplication) (mapName mapWanKey : string)
  : prog (sum string error) :=
  let publisherId := (r_Name wan ++ "-" ++ mapWanKey)%string in
  err <- AddBatchPublisherConfig (mkWanService cli (wanName mapName) publisherId) (batch_publisher_request wan) ;;
  match err with
  | Some e => Done (inr (wrap "failed to apply WAN configuration: " e))
  | None => Done (inl publisherId)
  end.

(** The maps of one cluster: the statuses they get. *)
Fixpoint start_maps (wan : WanReplication) (hzResourceName : string) (maps : list Map)
    (mapWanStatus : gmap string WanMapStatusApplier) : prog (gmap string WanMapStatusApplier) :=
  match maps with
  | [] => Done mapWanStatus
  | m :: maps =>
      let mapWanKey := wanMapKey hzResourceName (DataStructureTypes.MapName m) in
      if negb (strb (publisher_id mapWanKey wan) "") then start_maps wan hzResourceName maps mapWanStatus else
      if strb (st_State (r_Status (m : Map))) MapTerminating then start_maps wan hzResourceName maps mapWanStatus else
      if negb (strb (st_State (r_Status (m : Map))) MapSuccess) then start_maps wan hzResourceName maps mapWanStatus else
      applied <- applyWanReplication (r_Namespace wan, hzResourceName) wan (DataStructureTypes.MapName m) mapWanKey ;;
      start_maps wan hzResourceName maps (<[mapWanKey :=
        match applied with
        | inr e => wanMapFailedStatus (err_msg e)
        | inl publisherId => wanMapPersistingStatus publisherId (r_Name (m : Map))
        end]> mapWanStatus)
  end.

Fixpoint start_clusters (wan : WanReplication) (clusters : list (string * list Map))
    (mapWanStatus : gmap string WanMapStatusApplier) : prog (sum (gmap string WanMapStatusApplier) error) :=
  match clusters with
  | [] => Done (inl mapWanStatus)
  | (hzResourceName, maps) :: clusters =>
      err <- getHazelcastClient (r_Namespace wan, hzResourceName) ;;
      match err with
      | Some e => Done (inr e)
      | None =>
          mapWanStatus <- start_maps wan hzResourceName maps mapWanStatus ;;
          start_clusters wan clusters mapWanStatus
      end
  end.

Definition startWanReplication (wan : WanReplication) (hzClientMap : gmap string (list Map))
  : prog (WanReplication * option error) :=
  started <- start_clusters wan (go_range hzClientMap) ∅ ;;
  match started with
  | inr e => Done (wan, Some e)
  | inl mapWanStatus => patchWanMapStatuses wan mapWanStatus
  end.

(** ** Finalizers of the maps *)

Fixpoint findMapInSlice (slice : list Map) (mapName : string) : option (nat * Map) :=
  match slice with
  | [] => None
  | m :: slice =>
      if strb (DataStructureTypes.MapName m) mapName then Some (0%nat, m)
      else (fun '(i, m) => (S i, m)) <$> findMapInSlice slice mapName
  end.

Definition addWanRepFinalizerToMap (m : Map) : prog (Map * option error) :=
  if ContainsFinalizer m n_WanRepMapFinalizer then Done (m, None) else
  let m : Map := set_Finalizers m (r_Finalizers m ++ [n_WanRepMapFinalizer]) in
  ask err <- Update KMap m ;;
  Done (m, err : option error).

(** The maps are changed in place. *)
Fixpoint add_finalizers (wan : WanReplication) (statuses : list (string * WanReplicationMapStatus))
    (hzClientMap : gmap string (list Map)) : prog (option error) :=
  match statuses with
  | [] => Done None
  | (mapWanKey, status) :: statuses =>
      if strb (wm_PublisherId status) "" then add_finalizers wan statuses hzClientMap else
      key <- lift_res (splitWanMapKey mapWanKey) ;;
      let maps := default [] (hzClientMap !! key.1) in
      match findMapInSlice maps key.2 with
      | None => Done (Some (errors_New ("Map " ++ key.2 ++ " is not present in the Hazelcast Client Map")))
      | Some (i, m) =>
          match SetOwnerReference wan m with
          | inr e => Done (Some e)
          | inl owners =>
              r <- addWanRepFinalizerToMap (set_Owners m owners) ;;
              match r.2 with
              | Some e => Done (Some e)
              | None => add_finalizers wan statuses (<[key.1 := <[i := r.1]> maps]> hzClientMap)
              end
          end
      end
  end.
Definition addWanRepFinalizerToReplicatedMaps (wan : WanReplication) (hzClientMap : gmap string (list Map))
  : prog (option error) :=
  add_finalizers wan (go_range (ws_Maps (r_Status wan))) hzClientMap.

(** ** The persisted configuration *)

(** [strings.TrimSuffix(name, suffix)] *)
Definition TrimSuffix (name suffix : string) : string :=
  let k := (String.length name - String.length suffix)%nat in
  if strb (substring k (String.length suffix) name) suffix && Nat.leb (String.length suffix) (String.length name)
  then substring 0 k name else name.
Definition splitWanName (name : string) : string := TrimSuffix name "-default".

Fixpoint persisted_wan_configs (ns : string) (clusters : list string) (cmMap : gmap string cfg_WanReplicationConfig)
  : prog (fetched (gmap string cfg_WanReplicationConfig)) :=
  match clusters with
  | [] => Done (Found cmMap)
  | hz :: clusters =>
      ask got <- GetConfigSecret (ns, hz) ;;
      match (got : fetched Document) with
      | Failed _ => Done (Failed (errors_New "could not find Secret for wan config persistence"))
      | Found doc =>
          match yaml_Unmarshal doc with
          | None => Done (Failed (errors_New "persisted Secret is not formatted correctly"))
          | Some hzConfig =>
              persisted_wan_configs ns clusters
                (foldl (fun cm '(wanName, wanConfig) => <[wanMapKey hz (splitWanName wanName) := wanConfig]> cm) cmMap
                   (go_range (default ∅ (cfg_Hazelcast_WanReplication hzConfig))))
          end
      end
  end.

(** The status of a map whose publisher was found in the configuration. *)
Definition persisted_status (wan : WanReplication) (cmMap : gmap string cfg_WanReplicationConfig)
    (mapWanKey : string) (v : WanReplicationMapStatus) : option WanMapStatusApplier :=
  if negb (strb (wm_Status v) WanStatusPersisting) then None else
  match cmMap !! mapWanKey with
  | None => None
  | Some wanRep =>
      match default ∅ (cfg_WanReplicationConfig_BatchPublisher wanRep) !! wm_PublisherId v with
      | None => None
      | Some wanPub =>
          if bool_decide (createBatchPublisherConfig wan = wanPub) then Some wanMapSuccessStatus else None
      end
  end.

Definition validateWanConfigPersistence (wan : WanReplication) (hzClientMap : gmap string (list Map))
  : prog (WanReplication * fetched bool) :=
  got <- persisted_wan_configs (r_Namespace wan) (range_keys hzClientMap) ∅ ;;
  match got with
  | Failed e => Done (wan, Failed e)
  | Found cmMap =>
      let mapWanStatus := map_imap (persisted_status wan cmMap) (ws_Maps (r_Status wan)) in
      r <- patchWanMapStatuses wan mapWanStatus ;;
      match r.2 with
      | Some e => Done (r.1, Failed e)
      | None =>
          let s := ws_Status (r_Status r.1) in
          if strb s WanStatusFailed then Done (r.1, Failed (errors_New "WAN replication for some maps failed"))
          else Done (r.1, Found (strb s WanStatusSuccess))
      end
  end.

Definition updateLastSuccessfulConfiguration (wan : WanReplication) : prog (WanReplication * option error) :=
  match WanSpec_Marshal (r_Spec wan) with
  | inr e => Done (wan, Some e)
  | inl ms => UpdateAnnotation KWan wan n_LastSuccessfulSpecAnnotation ms
  end.

(** ** Reconcile *)

Definition wan_fail (wan : WanReplication) (e : error) : prog reconcile_result :=
  r <- updateWanStatus wan (recoptions_Error e) [withWanRepFailedState (err_msg e)] ;; Done r.2.

(** Go's early return of a failed status. *)
Definition wan_step (p : prog (WanReplication * option error)) (k : WanReplication -> prog reconcile_result)
  : prog reconcile_result :=
  r <- p ;;
  match r.2 with Some e => wan_fail r.1 e | None => k r.1 end.

Definition terminating_error (wan : WanReplication) (e : error) : prog reconcile_result :=
  r <- updateWanStatus wan (recoptions_Error e) [withWanRepState WanStatusTerminating; withWanRepMessage (err_msg e)] ;;
  Done r.2.

Definition wan_deleted (wan : WanReplication) : prog reconcile_result :=
  r <- updateWanStatus wan recoptions_Empty [withWanRepState WanStatusTerminating] ;;
  let wan := r.1 in
  if negb (ContainsFinalizer wan n_Finalizer) then Done (ctrl_Result_zero, None) else
  r <- deleteLeftoverMapsFromStatus wan ;;
  match r.2 with
  | Some e => terminating_error r.1 e
  | None =>
      r <- stopWanReplicationAllMaps r.1 ;;
      match r.2 with
      | Some e => terminating_error r.1 e
      | None =>
          ask err <- Update KWan (RemoveFinalizer r.1 n_Finalizer) ;;
          Done (ctrl_Result_zero, err : option error)
      end
  end.

(** The part of [Reconcile] from the start of publishers on. *)
Definition wan_apply (wan : WanReplication) (hzClientMap : gmap string (list Map)) : prog reconcile_result :=
  r <- startWanReplication wan hzClientMap ;;
  match r.2 with Some e => Done (ctrl_Result_zero, Some e) | None =>
  let wan := r.1 in
  err <- addWanRepFinalizerToReplicatedMaps wan hzClientMap ;;
  match err with Some e => Done (ctrl_Result_zero, Some e) | None =>
  r <- validateWanConfigPersistence wan hzClientMap ;;
  match r.2 with
  | Failed e => wan_fail r.1 e
  | Found false => Done (mkResult false 5, None)
  | Found true => wan_step (updateLastSuccessfulConfiguration r.1) (fun _ => Done (ctrl_Result_zero, None))
  end end end.

(** The part for a resource that is not being deleted. *)
Definition wan_live (req : NamespacedName) (wan : WanReplication) : prog reconcile_result :=
  wan_step (deleteLeftoverMapsFromStatus wan) (fun wan =>
  maps <- getMapsGroupByHazelcastName wan ;;
  match maps with
  | Failed e => wan_fail wan e
  | Found hzClientMap =>
      match ValidateWanReplicationSpec wan with
      | Some e => wan_fail wan e
      | None =>
          wan_step (checkWanEndpoint wan) (fun wan =>
          wan_step (stopWanRepForRemovedResources wan hzClientMap) (fun wan =>
          wan_step (cleanupTerminatingMapCRs wan hzClientMap) (fun wan =>
          err <- checkConnectivity req.1 wan ;;
          match err with
          | Some e => wan_fail wan e
          | None => wan_apply wan hzClientMap
          end)))
      end
  end).

Definition Wan_Reconcile (req : NamespacedName) : prog reconcile_result :=
  ask got <- Get KWan req ;;
  match (got : fetched WanReplication) with
  | Failed e => Done (ctrl_Result_zero, if IsNotFound e then None else Some e)
  | Found wan =>
      if negb (ContainsFinalizer wan n_Finalizer) && negb (r_Deleting wan) then
        ask err <- Update KWan (set_Finalizers wan (r_Finalizers wan ++ [n_Finalizer])) ;;
        Done (ctrl_Result_zero, err : option error)
      else if r_Deleting wan then wan_deleted wan
      else wan_live req wan
  end.

(** ** What the watches enqueue *)

Definition wan_covers (wan : WanReplication) (hzMap : Map) : bool :=
  existsb (fun rr =>
    strb (rs_Kind rr) ResourceKindMap && strb (rs_Name rr) (r_Name hzMap)
    || strb (rs_Kind rr) ResourceKindHZ
       && strb (rs_Name rr) (ds_HazelcastResourceName (m_DataStructureSpec (r_Spec hzMap))))
    (wr_Resources (r_Spec wan)).

Definition wanRequestsForSuccessfulMap (hzMap : Map) : prog (list NamespacedName) :=
  if negb (strb (st_State (r_Status hzMap)) MapSuccess) then Done [] else
  ask got <- ListIn KWan (r_Namespace hzMap) ;;
  match (got : fetched (list WanReplication)) with
  | Failed _ => Done []
  | Found items =>
      let requestedWans := list_to_map (M := gmap string WanReplication)
        (map (fun wan => (r_Name (wan : WanReplication), wan)) (rev (filter (fun wan => wan_covers wan hzMap = true) items))) in
      Done (map (fun '(_, wan) => r_nn (wan : WanReplication)) (go_range requestedWans))
  end.

Definition wanRequestsForTerminationCandidateMap (mp : Map) : list NamespacedName :=
  if negb (strb (st_State (r_Status mp)) MapTerminating) then []
  else if ContainsFinalizer mp n_Finalizer then []
  else map (fun owner => (r_Namespace mp, or_Name owner)) (filter (fun owner => or_Kind owner = "WanReplication") (r_Owners mp)).

Definition wanRequestsForHazelcast (hz : Hazelcast) : prog (list NamespacedName) :=
  ask got <- ListIn KWan (h_Namespace hz) ;;
  match (got : fetched (list WanReplication)) with
  | Failed _ => Done []
  | Found items =>
      Done (map (fun wan => r_nn (wan : WanReplication))
        (filter (fun wan : WanReplication =>
           existsb (fun rr => strb (rs_Kind rr) ResourceKindHZ && strb (rs_Name rr) (h_Name hz)) (wr_Resources (r_Spec wan)) = true) items))
  end.
End WanController.

(** * The maps a WAN replication stands for

    Ranging over Go maps, and what [getMapsGroupByHazelcastName] of
    src/internal/controller/hazelcast/wan_resources.go returns, for any
    controller whose guard allows to read resources. *)

(** ** Ranging over Go maps *)

Lemma elem_of_range_keys `{R : MapRange} {A} (m : gmap string A) k : k ∈ range_keys m <-> is_Some (m !! k).
Proof.
  unfold range_keys. rewrite range_perm, list_elem_of_fmap. split.
  - intros ([k' v] & -> & Hk%elem_of_map_to_list). rewrite lookup_fmap in Hk. simpl. by destruct (m !! k').
  - intros [a Ha]. exists (k, ""). split; [done|]. apply elem_of_map_to_list. by rewrite lookup_fmap, Ha.
Qed.
Lemma elem_of_go_range `{R : MapRange} {A} (m : gmap string A) k a : (k, a) ∈ go_range m <-> m !! k = Some a.
Proof.
  unfold go_range. rewrite list_elem_of_omap. split.
  - intros (k' & _ & Hk). destruct (m !! k') eqn:E; simpl in Hk; [|done]. by injection Hk as -> ->.
  - intros Ha. exists k. rewrite elem_of_range_keys, Ha. by split.
Qed.

Section Maps.
Context `{P : Proto} `{R : MapRange} `{QL : QuantityLib} `{Y : YamlLib} `{KE : KErrors}.

Definition ev_got_map (k : NamespacedName) (x : fetched Map) : event := Ev (Get KMap k) x.
Definition ev_maps (ns hz : string) (l : list Map) : event := Ev (ListByHz KMap ns hz) (Found l).

Definition hz_of (m : Map) : string := ds_HazelcastResourceName (m_DataStructureSpec (r_Spec m)).

(** A map of the resource was read, alone or in a list. *)
Definition map_read (t : list event) (m : Map) : Prop :=
  (exists k, ev_got_map k (Found m) ∈ t) \/ exists ns hz l, ev_maps ns hz l ∈ t /\ m ∈ l.

(** The map names the cluster, or was listed as one of its maps. *)
Definition in_cluster (t : list event) (m : Map) (hz : string) : Prop :=
  hz = hz_of m \/ exists ns l, ev_maps ns hz l ∈ t /\ m ∈ l.

Lemma map_read_mono t t' m : t ⊆ t' -> map_read t m -> map_read t' m.
Proof. intros Ht [[k Hk]|(ns & hz & l & Hl & Hm)]; [left; exists k|right; exists ns, hz, l]; auto. Qed.
Lemma in_cluster_mono t t' m hz : t ⊆ t' -> in_cluster t m hz -> in_cluster t' m hz.
Proof. intros Ht [?|(ns & l & Hl & Hm)]; [by left|right; exists ns, l; auto]. Qed.

(** A guard that allows to read resources. *)
Definition reads (c : kube_op) : bool := match c with Get _ _ | ListByHz _ _ _ => true | _ => false end.
Class Reading (G : list event -> op -> Prop) : Prop := reading : forall h c, reads c = true -> G h c.
#[export] Instance permissive_reading G : Permissive G -> Reading G.
Proof. intros HG h c Hc. apply HG. by destruct c. Qed.

Context (G : list event -> op -> Prop) `{!Reading G}.

Lemma wp_read {A} c (p : ans c -> prog A) h Q :
  reads c = true -> (forall x h', h ⊆ h' -> Ev c x ∈ h' -> wp G (p x) h' Q) -> wp G (Vis c p) h Q.
Proof. intros Hc. apply wp_vis. by apply reading. Qed.

Lemma wp_getWanMap k h Q :
  (forall h' x, h ⊆ h' -> (forall m, x = Found m -> ev_got_map k (Found m) ∈ h') ->
     (forall e, x = Failed e -> exists e0, IsNotFound e = IsNotFound e0 /\ ev_got_map k (Failed e0) ∈ h') -> Q h' x) ->
  wp G (getWanMap k) h Q.
Proof.
  intros HQ. apply wp_read; [done|]. intros [m|e] h1 Hs1 E1; apply wp_ret, HQ; try done.
  - by intros m' [= <-].
  - intros e' [= <-]. by exists e.
Qed.

(** ** The maps of the resource *)

(** The maps of every cluster were read, and are maps of the cluster. *)
Definition clustered (t : list event) (groups : gmap string (list Map)) : Prop :=
  forall hz l m, groups !! hz = Some l -> m ∈ l -> map_read t m /\ in_cluster t m hz.

Lemma clustered_mono t t' groups : t ⊆ t' -> clustered t groups -> clustered t' groups.
Proof.
  intros Ht Hc hz l m Hl Hm. destruct (Hc hz l m Hl Hm) as [? ?]. split; [by eapply map_read_mono|by eapply in_cluster_mono].
Qed.

Lemma clustered_add t groups hz ms : clustered t groups -> (forall m, m ∈ ms -> map_read t m /\ in_cluster t m hz) ->
  clustered t (<[hz := default [] (groups !! hz) ++ ms]> groups).
Proof.
  intros Hc Hms hz' l m [[<- <-]|[_ Hl]]%lookup_insert_Some; [|by eapply Hc].
  rewrite elem_of_app. intros [Hm|?]; [|by apply Hms]. destruct (groups !! hz) as [l|] eqn:El; [by eapply Hc|].
  by apply not_elem_of_nil in Hm.
Qed.

Lemma removeDuplicate_incl l m : m ∈ removeDuplicate l -> m ∈ l.
Proof.
  unfold removeDuplicate. generalize (∅ : gset NamespacedName). induction l as [|x l IH]; intros X; [done|].
  destruct (decide _) as [?|?]; rewrite ?elem_of_cons; [intros ?%IH; by right|].
  intros [?|?%IH]; [by left|by right].
Qed.

Lemma wp_maps_of_resources ns resources groups h Q : clustered h groups ->
  (forall h' x, h ⊆ h' -> (forall g, x = Found g -> clustered h' g) -> Q h' x) ->
  wp G (maps_of_resources ns resources groups) h Q.
Proof.
  revert groups h. induction resources as [|rs resources IH]; intros groups h Hc HQ; cbn [maps_of_resources].
  { apply wp_ret, HQ; [done|]. by intros g [= <-]. }
  destruct (strb (rs_Kind rs) ResourceKindMap).
  { apply wp_bind, wp_getWanMap. intros h1 [m|e] Hs1 Hfound _; [|by apply wp_ret, HQ].
    apply IH; [|intros; apply HQ; [by etrans|done]]. apply clustered_add; [by eapply clustered_mono|].
    intros m' ->%list_elem_of_singleton. split; [left; eexists; by apply Hfound|by left]. }
  destruct (strb (rs_Kind rs) ResourceKindHZ); [|by apply IH].
  unfold getAllMapsInHazelcast. apply wp_bind, wp_read; [done|].
  intros [l|e] h1 Hs1 E1; apply wp_ret; [|by apply wp_ret, HQ].
  assert (Hc1 : clustered h1 groups) by by eapply clustered_mono.
  assert (Hgo : forall g, clustered h1 g -> wp G (maps_of_resources ns resources g) h1 Q).
  { intros g Hg. apply IH; [done|]. intros; apply HQ; [by etrans|done]. }
  destruct l as [|m l]; [by apply Hgo|]. apply Hgo, clustered_add; [done|].
  intros m' Hm. split; [right; by exists ns, (rs_Name rs), (m :: l)|right; by exists ns, (m :: l)].
Qed.

Lemma wp_getMapsGroupByHazelcastName w h Q :
  (forall h' x, h ⊆ h' -> (forall g, x = Found g -> clustered h' g) -> Q h' x) ->
  wp G (getMapsGroupByHazelcastName w) h Q.
Proof.
  intros HQ. apply wp_bind, wp_maps_of_resources; [by intros ? ? ? ?%lookup_empty_Some|].
  intros h1 [g|e] Hs1 Hg; apply wp_ret, HQ; [done| |done|done].
  intros g' [= <-] hz l m Hl Hm. rewrite lookup_fmap in Hl. destruct (g !! hz) as [l0|] eqn:El; [|done].
  injection Hl as <-. by eapply (Hg g), removeDuplicate_incl.
Qed.

End Maps.
