(* ===== verification/WanFacts.v ===== *)
(** * Facts about the WAN replication controller

    What each function of WanController.v may call, and what is known when it
    returns: the lemmas WanProps.v composes. *)

From S2P Require Import Prelude Eff FieldValidation Json GoPath GoNet WanEndpoints HazelcastTypes DataStructureTypes HazelcastValidation HazelcastValidationFacts MapValidation ConfigTypes Proto CodecBuiltin CodecTypes CodecRequests DataStructureConfig DataStructureValidation WanTypes HazelcastConfig Kube WanController.
#[local] Open Scope prog_scope.
#[local] Open Scope string_scope.
#[local] Open Scope list_scope.
#[local] Open Scope Z_scope.

(** ** The status of the whole from those of the maps *)

Lemma wanStatusSet_elem statuses s :
  s ∈ wanStatusSet statuses <-> exists k st, statuses !! k = Some st /\ wm_Status st = s.
Proof.
  unfold wanStatusSet. rewrite elem_of_list_to_set, list_elem_of_fmap. split.
  - intros (st & -> & Hst). apply list_elem_of_fmap in Hst as ([k st'] & -> & Hk%elem_of_map_to_list). by exists k, st'.
  - intros (k & st & Hk & <-). exists st. split; [done|]. apply list_elem_of_fmap. exists (k, st).
    split; [done|]. by apply elem_of_map_to_list.
Qed.

(** Whether some map has the status. *)
Definition has_status (statuses : gmap string WanReplicationMapStatus) (s : string) : Prop :=
  exists k st, statuses !! k = Some st /\ wm_Status st = s.

Lemma one_status_iff (X : gset string) s : bool_decide (s ∈ X) && Nat.eqb (size X) 1 = true <-> s ∈ X /\ forall x, x ∈ X -> x = s.
Proof.
  rewrite andb_true_iff, bool_decide_eq_true, Nat.eqb_eq. split.
  - intros [Hs [x Hx]%size_1_elem_of]. split; [done|]. set_solver.
  - intros [Hs Hx]. split; [done|]. assert (E : X ≡ {[s]}) by set_solver. by rewrite E, size_singleton.
Qed.

(** The status of a WAN replication is Success exactly when it has a map and
    all its maps are successful; Persisting when one of them is being
    persisted; otherwise Failed when one failed, and Pending. *)
Lemma wan_status_summary statuses :
  let s := wanStatusFromMapStatuses statuses in
  (s = WanStatusSuccess <-> statuses <> ∅ /\ forall k st, statuses !! k = Some st -> wm_Status st = WanStatusSuccess)
  /\ (s = WanStatusPersisting <-> has_status statuses WanStatusPersisting)
  /\ (s = WanStatusFailed <-> ~ has_status statuses WanStatusPersisting /\ has_status statuses WanStatusFailed)
  /\ (s = WanStatusPending <-> ~ has_status statuses WanStatusPersisting /\ ~ has_status statuses WanStatusFailed
        /\ (statuses = ∅ \/ exists k st, statuses !! k = Some st /\ wm_Status st <> WanStatusSuccess)).
Proof.
  assert (He : forall s, s ∈ wanStatusSet statuses <-> has_status statuses s) by exact (wanStatusSet_elem statuses).
  assert (Hone : bool_decide (WanStatusSuccess ∈ wanStatusSet statuses) && Nat.eqb (size (wanStatusSet statuses)) 1 = true
    <-> statuses <> ∅ /\ forall k st, statuses !! k = Some st -> wm_Status st = WanStatusSuccess).
  { rewrite one_status_iff. split.
    - intros [(k & st & Hk & _)%He Hall]. split; [by intros ->|]. intros k' st' Hk'. apply Hall, He. by exists k', st'.
    - intros [Hn Hall]. apply map_choose in Hn as (k & st & Hk). split; [apply He; exists k, st; eauto|].
      intros x (k' & st' & Hk' & <-)%He. by eapply Hall. }
  unfold wanStatusFromMapStatuses. set (b := bool_decide (WanStatusSuccess ∈ _) && _) in *.
  destruct b eqn:Eb.
  - destruct (proj1 Hone eq_refl) as [Hn Hall]. split; [by split|].
    assert (Hno : forall s, has_status statuses s -> s = WanStatusSuccess) by (intros s (k & st & Hk & <-); by eapply Hall).
    split; [split; [done|by intros ?%Hno]|]. split; [split; [done|by intros [_ ?%Hno]]|].
    split; [done|]. intros (_ & _ & [?|(k & st & Hk & Hs)]); [done|]. by apply Hall in Hk.
  - assert (Hnot : ~ (statuses <> ∅ /\ forall k st, statuses !! k = Some st -> wm_Status st = WanStatusSuccess)).
    { by intros Hall%Hone. }
    assert (Hother : statuses = ∅ \/ exists k st, statuses !! k = Some st /\ wm_Status st <> WanStatusSuccess).
    { destruct (decide (statuses = ∅)) as [->|Hn]; [by left|right].
      destruct (decide (map_Forall (fun _ st => wm_Status st = WanStatusSuccess) statuses)) as [Ha|Ha]; [by destruct Hnot|].
      apply map_not_Forall in Ha as (k & st & Hk & Hs); [by exists k, st|apply _]. }
    rewrite <- !He. split; [|split; [|split]].
    + split; [|by intros ?%Hnot]. by repeat case_bool_decide.
    + case_bool_decide; [done|]. split; [|done]. by case_bool_decide.
    + case_bool_decide; [split; [done|by intros [? _]]|]. case_bool_decide; [done|]. by split; [|intros [_ ?]].
    + case_bool_decide; [split; [done|by intros [? _]]|]. case_bool_decide; [split; [done|by intros (_ & ? & _)]|]. done.
Qed.

Section Facts.
Context `{P : Proto} `{R : MapRange} `{QL : QuantityLib} `{Y : YamlLib} `{WJ : WanJson} `{KE : KErrors}.
Context (SetOwnerReference : WanReplication -> Map -> sum (list OwnerReference) error).
Context (nn : NamespacedName).

(** ** What a history says *)

Definition ev_wan (w : WanReplication) : event := ev_read KWan nn w.
Definition ev_service (hz : NamespacedName) (members : list string) : event := Ev (GetStatusService hz) (Some members).
Definition ev_dialed (url : string) (endpoints : list string) : event := Ev (TryDial url endpoints) None.

(** Every member of the cluster acknowledged the request. *)
Definition all_acked (t : list event) (hz : NamespacedName) (req : ClientMessage) : Prop :=
  exists members, ev_members hz members ∈ t /\ forall uuid, uuid ∈ members -> exists resp, ev_acked hz uuid req resp ∈ t.

(** The publisher of the map with the key was stopped, and its queues were
    cleared, on every member of the cluster of the map. *)
Definition stopped (t : list event) (mapWanKey publisherId : string) : Prop :=
  exists m hz stop clear,
    mapWanKey = wanMapKey (hz_of m) (DataStructureTypes.MapName m)
    /\ map_read t m /\ in_cluster t m hz.2
    /\ EncodeMCChangeWanReplicationStateRequest (wanName (DataStructureTypes.MapName m)) publisherId WanReplicationStateStopped = Ret stop
    /\ EncodeMCClearWanQueuesRequest (wanName (DataStructureTypes.MapName m)) publisherId = Ret clear
    /\ all_acked t hz stop /\ all_acked t hz clear.

(** The map of the status is gone, or no longer has the finalizer. *)
Definition leftover (t : list event) (ns : string) (st : WanReplicationMapStatus) : Prop :=
  wm_Status st = WanStatusTerminating
  /\ exists x : fetched Map, ev_got_map (ns, wm_ResourceName st) x ∈ t
     /\ match x with
        | Failed e => IsNotFound e = true
        | Found m => ContainsFinalizer m n_WanRepMapFinalizer = false
        end.

(** A map that may leave the status. *)
Definition released (t : list event) (ns : string) (k : string) (st : WanReplicationMapStatus) : Prop :=
  wm_PublisherId st = "" \/ stopped t k (wm_PublisherId st) \/ leftover t ns st.

Lemma all_acked_mono t t' hz req : t ⊆ t' -> all_acked t hz req -> all_acked t' hz req.
Proof.
  intros Ht (members & Hm & Ha). exists members. split; [by apply Ht|]. intros u Hu.
  destruct (Ha u Hu) as [resp Hr]. exists resp. by apply Ht.
Qed.
Lemma stopped_mono t t' k p : t ⊆ t' -> stopped t k p -> stopped t' k p.
Proof.
  intros Ht (m & hz & stop & clear & ? & ? & ? & ? & ? & ? & ?). exists m, hz, stop, clear.
  split_and!; try done; by eauto using map_read_mono, in_cluster_mono, all_acked_mono.
Qed.
Lemma released_mono t t' ns k st : t ⊆ t' -> released t ns k st -> released t' ns k st.
Proof.
  intros Ht [?|[?|(Hs & x & Hx & Hm)]]; [by left|right; left; by eapply stopped_mono|].
  right; right. split; [done|]. exists x. split; [by apply Ht|done].
Qed.

(** ** How the resource changes while publishers are stopped

    [from t w0 s w]: the object [w] is [w0] as it was read, but for its spec,
    which is [s], and for statuses of maps that left, or that are terminating,
    for a reason the history has. *)
Record from (t : list event) (w0 : WanReplication) (s : WanReplicationSpec) (w : WanReplication) : Prop := {
  f_ns : r_Namespace w = r_Namespace w0;
  f_name : r_Name w = r_Name w0;
  f_annotations : r_Annotations w = r_Annotations w0;
  f_finalizers : r_Finalizers w = r_Finalizers w0;
  f_spec : r_Spec w = s;
  f_overall : ws_Status (r_Status w) = ws_Status (r_Status w0) \/ ws_Status (r_Status w) <> WanStatusSuccess;
  f_old k st0 : ws_Maps (r_Status w0) !! k = Some st0 ->
    (exists st, ws_Maps (r_Status w) !! k = Some st /\ wm_PublisherId st = wm_PublisherId st0
       /\ (st = st0 \/ stopped t k (wm_PublisherId st0)))
    \/ released t (r_Namespace w0) k st0;
  f_new k st : ws_Maps (r_Status w) !! k = Some st ->
    exists st0, ws_Maps (r_Status w0) !! k = Some st0 /\ wm_PublisherId st = wm_PublisherId st0
      /\ (st = st0 \/ wm_Status st = WanStatusTerminating);
}.

Lemma from_refl t w : from t w (r_Spec w) w.
Proof. constructor; try done; [by left| |]; intros k st Hk; [left|]; exists st; auto. Qed.

Lemma from_mono t t' w0 s w : t ⊆ t' -> from t w0 s w -> from t' w0 s w.
Proof.
  intros Ht []. constructor; try done. intros k st0 Hk. destruct (f_old0 k st0 Hk) as [(st & ? & ? & Hs)|?].
  - left. exists st. split; [done|]. split; [done|]. destruct Hs; [by left|right]. by eapply stopped_mono.
  - right. by eapply released_mono.
Qed.

(** A map leaves. *)
Lemma from_delete t w0 s w key st : from t w0 s w -> ws_Maps (r_Status w) !! key = Some st ->
  released t (r_Namespace w0) key st -> from t w0 s (set_maps w (delete key (ws_Maps (r_Status w)))).
Proof.
  intros [] Hk Hr. constructor; try done; cbn [r_Status set_maps set_Status ws_Maps ws_Status].
  - intros k st0 H0. destruct (f_old0 k st0 H0) as [(st' & Hk' & Hp & Hs)|?]; [|by right].
    destruct (decide (k = key)) as [->|Hne].
    + right. rewrite Hk in Hk'. injection Hk' as <-. destruct Hs as [->|Hs]; [done|]. right. by left.
    + left. exists st'. by rewrite lookup_delete_ne.
  - intros k st' [_ Hk']%lookup_delete_Some. by apply f_new0.
Qed.

(** A publisher was stopped. *)
Lemma from_terminating t w0 s w key st : from t w0 s w -> ws_Maps (r_Status w) !! key = Some st ->
  stopped t key (wm_PublisherId st) ->
  from t w0 s (set_maps w (<[key := WanMapStatusApply wanMapTerminatingStatus st]> (ws_Maps (r_Status w)))).
Proof.
  intros [] Hk Hr. constructor; try done; cbn [r_Status set_maps set_Status ws_Maps ws_Status].
  - intros k st0 H0. destruct (f_old0 k st0 H0) as [(st' & Hk' & Hp & Hs)|?]; [|by right].
    left. destruct (decide (k = key)) as [->|Hne].
    + rewrite Hk in Hk'. injection Hk' as <-. exists (WanMapStatusApply wanMapTerminatingStatus st).
      rewrite lookup_insert_eq. split; [done|]. split; [done|]. right. by rewrite <- Hp.
    + exists st'. by rewrite lookup_insert_ne.
  - intros k st' Hk'. destruct (decide (k = key)) as [->|Hne].
    + rewrite lookup_insert_eq in Hk'. injection Hk' as <-. destruct (f_new0 key st Hk) as (st0 & ? & ? & _).
      exists st0. split; [done|]. split; [done|]. by right.
    + rewrite lookup_insert_ne in Hk' by done. by apply f_new0.
Qed.

(** The status of the whole is replaced. *)
Lemma from_status t w0 s w st msg : from t w0 s w -> st <> WanStatusSuccess ->
  from t w0 s (set_Status w (mkWanReplicationStatus st msg (ws_Maps (r_Status w)))).
Proof. intros [] Hs. constructor; try done. by right. Qed.

(** The endpoints are rewritten. *)
Lemma from_spec t w0 s s' w : from t w0 s w -> from t w0 s' (set_Spec w s').
Proof. intros []. by constructor. Qed.

(** ** Where statuses of maps come from *)

(** The document of a cluster has the publisher of the map with the key,
    configured as the resource says. *)
Definition configured (t : list event) (w : WanReplication) (k publisherId : string) : Prop :=
  exists hz doc c wanName wc,
    ev_config (r_Namespace w, hz) doc ∈ t /\ yaml_Unmarshal doc = Some c
    /\ default ∅ (cfg_Hazelcast_WanReplication c) !! wanName = Some wc /\ k = wanMapKey hz (splitWanName wanName)
    /\ default ∅ (cfg_WanReplicationConfig_BatchPublisher wc) !! publisherId = Some (createBatchPublisherConfig w).

(** [justified t w0 w]: what the statuses of [w] say was so when the resource
    was read as [w0], or is so in the history. *)
Record justified (t : list event) (w0 w : WanReplication) : Prop := {
  j_ns : r_Namespace w = r_Namespace w0;
  j_finalizers : r_Finalizers w = r_Finalizers w0;
  j_maps k st : ws_Maps (r_Status w) !! k = Some st -> wm_Status st = WanStatusSuccess ->
    (exists st0, ws_Maps (r_Status w0) !! k = Some st0 /\ wm_Status st0 = WanStatusSuccess
       /\ wm_PublisherId st0 = wm_PublisherId st)
    \/ configured t w k (wm_PublisherId st);
  j_overall : ws_Status (r_Status w) = WanStatusSuccess ->
    ws_Status (r_Status w0) = WanStatusSuccess
    \/ (ws_Maps (r_Status w) <> ∅ /\ forall k st, ws_Maps (r_Status w) !! k = Some st -> wm_Status st = WanStatusSuccess);
}.

Lemma from_justified t w0 s w : from t w0 s w -> justified t w0 w.
Proof.
  intros []. constructor; try done.
  - intros k st Hk Hs. left. destruct (f_new0 k st Hk) as (st0 & H0 & Hp & [->|Ht]); [by exists st0|].
    by rewrite Ht in Hs.
  - intros Hs. left. by destruct f_overall0 as [<-|?].
Qed.

Lemma configured_mono t t' w k p : t ⊆ t' -> configured t w k p -> configured t' w k p.
Proof. intros Ht (hz & doc & c & n & wc & He & ?). exists hz, doc, c, n, wc. split; [by apply Ht|done]. Qed.
Lemma justified_mono t t' w0 w : t ⊆ t' -> justified t w0 w -> justified t' w0 w.
Proof.
  intros Ht []. constructor; try done. intros k st Hk Hs. destruct (j_maps0 k st Hk Hs) as [?|?]; [by left|right].
  by eapply configured_mono.
Qed.

(** The status of the map after the appliers. *)
Lemma apply_statuses_lookup statuses options k :
  apply_statuses statuses options !! k
  = match options !! k with
    | Some a => Some (WanMapStatusApply a (default WanReplicationMapStatus_zero (statuses !! k)))
    | None => statuses !! k
    end.
Proof.
  unfold apply_statuses. revert k.
  apply (map_fold_weak_ind (fun m o => forall k, m !! k = match o !! k with
    | Some a => Some (WanMapStatusApply a (default WanReplicationMapStatus_zero (statuses !! k)))
    | None => statuses !! k end)).
  - done.
  - intros i a o m Hi IH k. destruct (decide (k = i)) as [->|Hne].
    + by rewrite !lookup_insert_eq, IH, Hi.
    + by rewrite !lookup_insert_ne, IH by done.
Qed.

(** Statuses are patched: the new successes are in the documents. *)
Lemma justified_patched t w0 w options : justified t w0 w ->
  (forall k a, options !! k = Some a ->
     let st := WanMapStatusApply a (default WanReplicationMapStatus_zero (ws_Maps (r_Status w) !! k)) in
     wm_Status st = WanStatusSuccess -> configured t w k (wm_PublisherId st)) ->
  justified t w0 (set_Status w (patched_status (r_Status w) options)).
Proof.
  intros [] Ho. constructor; try done; cbn [r_Status set_Status patched_status ws_Maps ws_Status].
  - intros k st. rewrite apply_statuses_lookup. destruct (options !! k) as [a|] eqn:Ea; [|by apply j_maps0].
    intros [= <-] Hs. right. by apply (Ho k a).
  - intros Hs. right. by apply wan_status_summary.
Qed.

(** ** What the controller may do *)

(** The agent of the member reaches the endpoints. *)
Definition dialed (t : list event) (endpoints : list string) (memberAddress : string) : Prop :=
  exists host port, SplitHostPort memberAddress = inl (host, port)
    /\ ev_dialed ("https://" ++ host ++ ":8443") endpoints ∈ t.
Definition cluster_of (t : list event) (ns : string) (rr : ResourceSpec) (hz : string) : Prop :=
  if strb (rs_Kind rr) ResourceKindMap then exists m, ev_got_map (ns, rs_Name rr) (Found m) ∈ t /\ hz = hz_of m
  else hz = rs_Name rr.

(** Agents of all members of the cluster of a resource do. *)
Definition reached (t : list event) (ns endpoints : string) (rr : ResourceSpec) : Prop :=
  exists hz members, cluster_of t ns rr hz /\ ev_service (ns, hz) members ∈ t
    /\ forall addr, addr ∈ members -> dialed t (splitEndpoints endpoints) addr.
Definition connected (t : list event) (ns : string) (s : WanReplicationSpec) : Prop :=
  forall rr, rr ∈ wr_Resources s -> reached t ns (wr_Endpoints s) rr.

(** The spec is the one that was read, or has its endpoints normalized. *)
Definition respec (s s' : WanReplicationSpec) : Prop := s' = s \/ wr_Endpoints s' = normalize (wr_Endpoints s).

(** A valid resource whose endpoints were reached. *)
Record publishable (t : list event) (w0 w : WanReplication) : Prop := {
  pb_read : ev_wan w0 ∈ t;
  pb_from : from t w0 (r_Spec w) w;
  pb_respec : respec (r_Spec w0) (r_Spec w);
  pb_valid : ValidateWanReplicationSpec w0 = None;
  pb_connected : connected t nn.1 (r_Spec w);
}.

(** A publisher of a successful map without one. *)
Definition to_publish (t : list event) (hz : NamespacedName) (req : ClientMessage) : Prop :=
  exists w0 w m, let key := wanMapKey hz.2 (DataStructureTypes.MapName m) in
    publishable t w0 w /\ hz.1 = r_Namespace w0 /\ map_read t m /\ in_cluster t m hz.2
    /\ st_State (r_Status m) = MapSuccess /\ publisher_id key w = ""
    /\ add_publisher_request
         (mkWanService hz (wanName (DataStructureTypes.MapName m)) (r_Name w0 ++ "-" ++ key)) (batch_publisher_request w) = Ret req.

Definition wan_released (t : list event) (w' : WanReplication) : Prop :=
  n_Finalizer ∈ r_Finalizers w'
  \/ exists w0, ev_wan w0 ∈ t /\ r_Deleting w0 = true
       /\ forall k st, ws_Maps (r_Status w0) !! k = Some st -> released t (r_Namespace w0) k st.

Definition map_kept (t : list event) (m' : Map) : Prop :=
  n_WanRepMapFinalizer ∈ r_Finalizers m'
  \/ exists m, map_read t m /\ r_nn m' = r_nn m
       /\ (n_WanRepMapFinalizer ∉ r_Finalizers m
           \/ exists w0 st, let key := wanMapKey (hz_of m) (DataStructureTypes.MapName m) in
                ev_wan w0 ∈ t /\ ws_Maps (r_Status w0) !! key = Some st /\ stopped t key (wm_PublisherId st)).

Definition wan_guard (t : list event) (c : kube_op) : Prop :=
  match c with
  | StatusUpdate KWan w => exists w0, ev_wan w0 ∈ t /\ justified t w0 w
  | Update KWan w => wan_released t w
  | Update KMap m => map_kept t m
  | InvokeOnRandomTarget hz req => to_publish t hz req
  | _ => True
  end.
#[local] Hint Extern 0 (wan_guard _ _) => exact I : core.

Abbreviation wpw := (wp wan_guard).
#[local] Instance wan_reading : Reading wan_guard.
Proof. by intros h []. Qed.

(** ** Calls without a guard *)

Lemma wpw_getHazelcastClient k h Q : (forall h' r, h ⊆ h' -> Q h' r) -> wpw (getHazelcastClient k) h Q.
Proof.
  intros HQ. unfold getHazelcastClient. apply wp_vis; [done|]. intros [[]|e] h1 Hs1 _; cbv iota;
    [|done|by apply wp_ret, HQ].
  apply wp_vis; [done|]. intros [] h2 Hs2 _; apply wp_ret, HQ; by etrans.
Qed.

Lemma wpw_invoke_until_error hz req members h Q :
  (forall h' err, h ⊆ h' ->
     (err = None -> forall uuid, uuid ∈ members -> exists resp, ev_acked hz uuid req resp ∈ h') -> Q h' err) ->
  wpw (invoke_until_error hz req members) h Q.
Proof. by apply wp_invoke_until_error. Qed.

(** A request sent to the members in order. *)
Lemma wpw_to_all_members hz (r : res ClientMessage) h Q :
  (forall h' err, h ⊆ h' -> (err = None -> exists req, r = Ret req /\ all_acked h' hz req) -> Q h' err) ->
  wpw (req <- lift_res r ;; ask members <- OrderedMembers hz ;; invoke_until_error hz req members) h Q.
Proof.
  intros HQ. apply wp_bind, (wp_lift_res wan_guard). intros req Hr. apply wp_vis; [done|].
  intros members h1 Hs1 E1. apply wpw_invoke_until_error. intros h2 err Hs2 Ha. apply HQ; [by etrans|].
  intros He. exists req. split; [done|]. exists members. split; [by apply Hs2|by apply Ha].
Qed.

(** ** Updates of statuses *)

Lemma wpw_status w0 w h Q : ev_wan w0 ∈ h -> justified h w0 w ->
  (forall h' err, h ⊆ h' -> Q h' err) -> wpw (ask err <- StatusUpdate KWan w ;; Done (err : option error)) h Q.
Proof. intros E0 Hj HQ. apply wp_vis; [by exists w0|]. intros err h' Hs _. by apply wp_ret, HQ. Qed.

(** The invariant most loops keep. *)
Definition kept (w0 wb : WanReplication) (s : WanReplicationSpec) (t : list event) (w : WanReplication) : Prop :=
  ev_wan w0 ∈ t /\ from t w0 s w /\ from t wb s w.
Lemma kept_mono w0 wb s t t' w : t ⊆ t' -> kept w0 wb s t w -> kept w0 wb s t' w.
Proof. intros Ht (? & ? & ?). split; [by apply Ht|]. split; by eapply from_mono. Qed.

Lemma kept_status w0 wb s h w h' : kept w0 wb s h w -> h ⊆ h' -> exists w0, ev_wan w0 ∈ h' /\ justified h' w0 w.
Proof. intros Hk Hs. eapply kept_mono in Hk as (E0 & Hf & _); [|exact Hs]. exists w0. split; [done|]. by eapply from_justified. Qed.

Lemma wpw_deleteWanMapStatus w0 wb s w key st h Q :
  kept w0 wb s h w -> ws_Maps (r_Status w) !! key = Some st -> released h (r_Namespace w0) key st ->
  (forall h' w' err, h ⊆ h' -> kept w0 wb s h' w' -> Q h' (w', err)) -> wpw (deleteWanMapStatus w key) h Q.
Proof.
  intros (E0 & Hf & Hb) Hk Hr HQ.
  assert (Hk' : kept w0 wb s h (set_maps w (delete key (ws_Maps (r_Status w))))).
  { split; [done|]. split; [by eapply from_delete|]. eapply from_delete; [done|done|].
    by rewrite <- (f_ns _ _ _ _ Hb), (f_ns _ _ _ _ Hf). }
  apply wp_vis; [by eapply kept_status|]. intros err h' Hs _.
  apply wp_ret, HQ; [done|]. by apply (kept_mono _ _ _ h).
Qed.

Lemma wpw_updateWanMapStatus w0 wb s w key st h Q :
  kept w0 wb s h w -> ws_Maps (r_Status w) !! key = Some st -> stopped h key (wm_PublisherId st) ->
  (forall h' w' err, h ⊆ h' -> kept w0 wb s h' w' -> w' = set_maps w (<[key := WanMapStatusApply wanMapTerminatingStatus st]> (ws_Maps (r_Status w))) ->
     Q h' (w', err)) ->
  wpw (updateWanMapStatus w key wanMapTerminatingStatus) h Q.
Proof.
  intros (E0 & Hf & Hb) Hk Hr HQ.
  assert (Hk' : kept w0 wb s h (set_maps w (<[key := WanMapStatusApply wanMapTerminatingStatus st]> (ws_Maps (r_Status w))))).
  { split; [done|]. split; by eapply from_terminating. }
  unfold updateWanMapStatus. rewrite Hk. cbn [default].
  apply wp_vis; [by eapply kept_status|]. intros err h' Hs _.
  apply wp_ret, HQ; [done| |done]. by apply (kept_mono _ _ _ h).
Qed.

(** The step of a loop: an invariant of the resource is kept, and the loop is
    left only in some way [X]. *)
Lemma wpw_range_statuses body (I : list event -> WanReplication -> Prop) (X : turn -> Prop) keys w h Q :
  (forall h' w' key st, h ⊆ h' -> I h' w' -> ws_Maps (r_Status w') !! key = Some st ->
     wpw (body w' key st) h' (fun h'' r => I h'' r.1 /\ X r.2)) -> X Continue ->
  I h w -> (forall h' r, h ⊆ h' -> I h' r.1 -> X r.2 -> Q h' r) -> wpw (range_statuses body keys w) h Q.
Proof.
  intros Hb HR. assert (Hgen : forall h0, h ⊆ h0 -> forall w, I h0 w ->
    wpw (range_statuses body keys w) h0 (fun h' r => I h' r.1 /\ X r.2)).
  { induction keys as [|key keys IH]; intros h0 Hs0 w1 HI; cbn [range_statuses]; [by apply wp_ret|].
    destruct (ws_Maps (r_Status w1) !! key) as [st|] eqn:Ek; [|by apply IH].
    eapply wp_seq; [by apply Hb|]. intros h1 [w2 []] Hs1 [HI1 HR1]; cbn [fst snd] in *; [apply IH; [by etrans|done]|by apply wp_ret]. }
  intros HI HQ. eapply wp_mono; [apply wp_later, Hgen; [done|exact HI]|]. intros h' r (Hs & HI' & HR'). by apply HQ.
Qed.

(** A loop body that fails or goes on. *)
Definition no_break (t : turn) : Prop := t <> Return None.

Lemma wpw_or_return p h (I : list event -> WanReplication -> Prop) :
  wpw p h (fun h' r => I h' r.1) -> wpw (or_return p) h (fun h' r => I h' r.1 /\ no_break r.2).
Proof. intros Hp. eapply wp_seq; [exact Hp|]. intros h' [w [e|]] _ HI; by apply wp_ret. Qed.

Lemma wpw_deleteLeftoverMapsFromStatus w0 wb s w h Q : kept w0 wb s h w ->
  (forall h' w' err, h ⊆ h' -> kept w0 wb s h' w' -> Q h' (w', err)) -> wpw (deleteLeftoverMapsFromStatus w) h Q.
Proof.
  intros Hk HQ. apply wp_bind, (wpw_range_statuses _ (kept w0 wb s) (fun _ => True)); [|done|done|].
  2: { intros h' [w' t] Hs Hk' _. apply wp_ret. by apply HQ. }
  intros h1 w1 key st Hs1 Hk1 Hst. pose proof Hk1 as (E1 & Hf & _). destruct (strb (wm_PublisherId st) ""); [by apply wp_ret|].
  destruct (strb (wm_Status st) WanStatusTerminating) eqn:Et; cbn [negb]; [apply strb_true in Et|by apply wp_ret].
  apply wp_bind, (wp_getWanMap wan_guard). intros h2 [m|e] Hs2 Hfound Hfailed; pose proof (kept_mono _ _ _ _ _ _ Hs2 Hk1) as Hk2.
  - destruct (ContainsFinalizer m _) eqn:Ec; [by apply wp_ret|].
    eapply wp_mono; [apply (wpw_or_return _ _ (kept w0 wb s))|by intros h3 r []]. eapply wpw_deleteWanMapStatus; [done|done| |done].
    right; right. split; [done|]. exists (Found m). rewrite <- (f_ns _ _ _ _ Hf). split; [by apply Hfound|done].
  - destruct (IsNotFound e) eqn:En; cbn [negb]; [|by apply wp_ret].
    destruct (Hfailed e eq_refl) as (e0 & He & Hev). apply wp_bind.
    eapply wpw_deleteWanMapStatus; [done|done| |].
    + right; right. split; [done|]. exists (Failed e0). rewrite <- (f_ns _ _ _ _ Hf), <- He. by split.
    + intros h3 w3 err Hs3 Hk3. by destruct err; apply wp_ret.
Qed.

(** ** Stopping publishers *)

Lemma wpw_ChangeWanState k name p h Q :
  (forall h' err, h ⊆ h' -> (err = None -> exists req,
     EncodeMCChangeWanReplicationStateRequest name p WanReplicationStateStopped = Ret req /\ all_acked h' k req) -> Q h' err) ->
  wpw (ChangeWanState (mkWanService k name p) WanReplicationStateStopped) h Q.
Proof. apply wpw_to_all_members. Qed.

Lemma wpw_ClearWanQueue k name p h Q :
  (forall h' err, h ⊆ h' -> (err = None -> exists req,
     EncodeMCClearWanQueuesRequest name p = Ret req /\ all_acked h' k req) -> Q h' err) ->
  wpw (ClearWanQueue (mkWanService k name p)) h Q.
Proof. apply wpw_to_all_members. Qed.

Lemma ContainsFinalizer_iff {S St} (o : resource S St) f : ContainsFinalizer o f = true <-> f ∈ r_Finalizers o.
Proof. apply bool_decide_eq_true. Qed.
Lemma ContainsFinalizer_not {S St} (o : resource S St) f : ContainsFinalizer o f = false <-> f ∉ r_Finalizers o.
Proof. apply bool_decide_eq_false. Qed.

(** A map the controller has in its hands: as read, but for its owners. *)
Definition held (t : list event) (m0 m : Map) : Prop :=
  map_read t m0 /\ r_nn m = r_nn m0 /\ r_Finalizers m = r_Finalizers m0.

Lemma wpw_removeOwnerReference w m0 m h Q : held h m0 m ->
  (forall h' m' err, h ⊆ h' -> held h' m0 m' -> Q h' (m', err)) -> wpw (removeOwnerReference w m) h Q.
Proof.
  intros (Hr & Hn & Hf) HQ. unfold removeOwnerReference. destruct (Nat.eqb _ _); [by apply wp_ret, HQ|].
  apply wp_vis.
  - destruct (decide (n_WanRepMapFinalizer ∈ r_Finalizers m)) as [?|Hno]; [by left|right].
    exists m0. split; [done|]. split; [done|]. left. by rewrite <- Hf.
  - intros err h' Hs _. apply wp_ret, HQ; [done|]. split; [by eapply map_read_mono|done].
Qed.

Lemma wpw_removeWanRepFinalizerFromMap w0 st m0 m h Q : held h m0 m -> ev_wan w0 ∈ h ->
  (let key := wanMapKey (hz_of m0) (DataStructureTypes.MapName m0) in
   ws_Maps (r_Status w0) !! key = Some st /\ stopped h key (wm_PublisherId st)) ->
  (forall h' err, h ⊆ h' -> Q h' err) -> wpw (removeWanRepFinalizerFromMap m) h Q.
Proof.
  intros (Hr & Hn & Hf) E0 [Hk Hst] HQ. unfold removeWanRepFinalizerFromMap.
  destruct (ContainsFinalizer m _); cbn [negb]; [|by apply wp_ret, HQ].
  apply wp_vis; [|by intros err h' Hs _; apply wp_ret, HQ].
  right. exists m0. split; [done|]. split; [done|]. right. exists w0, st. done.
Qed.

Lemma wpw_stopWanReplicationMap w0 wb s w m hz h Q :
  kept w0 wb s h w -> map_read h m -> in_cluster h m hz.2 ->
  (forall h' w' err, h ⊆ h' -> kept w0 wb s h' w' -> Q h' (w', err)) -> wpw (stopWanReplicationMap w m hz) h Q.
Proof.
  intros Hk Hr Hc HQ. unfold stopWanReplicationMap.
  set (key := wanMapKey (ds_HazelcastResourceName _) _).
  destruct (ws_Maps (r_Status w) !! key) as [st|] eqn:Est; [|by apply wp_ret, HQ].
  destruct (strb (wm_PublisherId st) "") eqn:Ep.
  { apply strb_true in Ep. eapply wpw_deleteWanMapStatus; [done|done|by left|done]. }
  apply wp_bind, wpw_ChangeWanState. intros h1 [e|] Hs1 H1; [by apply wp_ret, HQ; [|eapply kept_mono]|].
  destruct (H1 eq_refl) as (stop & Estop & Astop).
  apply wp_bind, wpw_ClearWanQueue. intros h2 [e|] Hs2 H2; [apply wp_ret, HQ; [by etrans|]; eapply kept_mono, Hk; by etrans|].
  destruct (H2 eq_refl) as (clear & Eclear & Aclear).
  assert (Hst : forall h', h2 ⊆ h' -> stopped h' key (wm_PublisherId st)).
  { intros h' Hs. exists m, hz, stop, clear. assert (h ⊆ h') by (etrans; [|exact Hs]; by etrans).
    assert (h1 ⊆ h') by by etrans. split_and!; try done; eauto using map_read_mono, in_cluster_mono, all_acked_mono. }
  assert (Hk2 : kept w0 wb s h2 w) by (eapply kept_mono, Hk; by etrans).
  apply wp_bind, (wpw_removeOwnerReference _ m).
  { split; [|done]. eapply map_read_mono, Hr. by etrans. }
  intros h3 m3 [e|] Hs3 Hm3; cbn [fst snd]; [apply wp_ret, HQ; [set_solver|by eapply kept_mono]|].
  apply wp_bind. eapply wpw_updateWanMapStatus; [by eapply kept_mono|exact Est|by apply Hst|].
  intros h4 w4 [e|] Hs4 Hk4 ->; cbn [fst snd]; [apply wp_ret, HQ; [set_solver|done]|].
  destruct Hk as (_ & Hf & _). destruct (f_new _ _ _ _ Hf key st Est) as (st0 & Hst0 & Hp & _).
  apply wp_bind, (wpw_removeWanRepFinalizerFromMap w0 st0 m); [|by destruct Hk4| |].
  { destruct Hm3 as [? ?]. split; [by eapply map_read_mono|done]. }
  { split; [exact Hst0|]. rewrite <- Hp. apply Hst. set_solver. }
  intros h5 [e|] Hs5; [apply wp_ret, HQ; [set_solver|by eapply kept_mono]|].
  eapply wpw_deleteWanMapStatus; [by eapply kept_mono|apply lookup_insert_eq| |].
  - right; left. apply Hst. set_solver.
  - intros h6 w6 err Hs6 Hk6. apply HQ; [set_solver|done].
Qed.

Lemma wpw_stop_with_client w0 wb s w m h : kept w0 wb s h w -> map_read h m ->
  wpw (stop_with_client w m) h (fun h' r => kept w0 wb s h' r.1 /\ no_break r.2).
Proof.
  intros Hk Hr. apply wp_bind, wpw_getHazelcastClient. intros h1 [e|] Hs1; [by apply wp_ret; split; [eapply kept_mono|]|].
  apply (wpw_or_return _ _ (kept w0 wb s)), (wpw_stopWanReplicationMap w0 wb s); [by eapply kept_mono|by eapply map_read_mono|by left|done].
Qed.

Lemma wpw_stopWanRepForRemovedResources w0 wb s w groups h Q : kept w0 wb s h w ->
  (forall h' w' err, h ⊆ h' -> kept w0 wb s h' w' -> Q h' (w', err)) ->
  wpw (stopWanRepForRemovedResources w groups) h Q.
Proof.
  intros Hk HQ. apply wp_bind, (wpw_range_statuses _ (kept w0 wb s) (fun _ => True)); [|done|done|].
  2: { intros h' [w' t] Hs Hk' _. apply wp_ret. by apply HQ. }
  intros h1 w1 key st Hs1 Hk1 Hst. case_decide; [by apply wp_ret|].
  apply wp_bind, (wp_getWanMap wan_guard). intros h2 [m|e] Hs2 Hfound _; [|by apply wp_ret; split; [eapply kept_mono|]].
  eapply wp_mono; [apply wpw_stop_with_client; [by eapply kept_mono|]|by intros h3 r []]. left. eexists. by apply Hfound.
Qed.

(** The maps with a publisher were read, the others have none. *)
Lemma wpw_published_maps ns statuses acc h Q :
  (forall h' x, h ⊆ h' ->
     (forall ms, x = Found ms -> (forall key m, acc !! key = Some m -> map_read h m) ->
        (forall key m, ms !! key = Some m -> map_read h' m)
        /\ (forall key st, (key, st) ∈ statuses -> ms !! key = None -> wm_PublisherId st = "")
        /\ (forall key, ms !! key = None -> acc !! key = None)) -> Q h' x) ->
  wpw (published_maps ns statuses acc) h Q.
Proof.
  revert acc h. induction statuses as [|[key st] statuses IH]; intros acc h HQ; cbn [published_maps].
  { apply wp_ret, HQ; [done|]. intros ms [= <-] Ha. split; [done|]. split; [|done]. by intros ? ? ?%not_elem_of_nil. }
  destruct (strb (wm_PublisherId st) "") eqn:Ep.
  { apply strb_true in Ep. apply IH. intros h' x Hs Hx. apply HQ; [done|]. intros ms Hms Ha.
    destruct (Hx ms Hms Ha) as (H1 & H2 & H3). split; [done|]. split; [|done].
    intros key' st' [[= -> ->]|?]%elem_of_cons; [done|by apply H2]. }
  apply wp_bind, (wp_getWanMap wan_guard). intros h1 [m|e] Hs1 Hfound _; [|by apply wp_ret, HQ].
  apply IH. intros h' x Hs Hx. apply HQ; [by etrans|]. intros ms Hms Ha.
  destruct (Hx ms Hms) as (H1 & H2 & H3).
  { intros k' m' [[<- <-]|[_ Hk']]%lookup_insert_Some; [left; eexists; by apply Hfound|].
    eapply map_read_mono; [done|by eapply Ha]. }
  split; [done|]. split.
  - intros key' st' [[= -> ->]|?]%elem_of_cons Hn; [|by eapply H2]. apply H3 in Hn. by rewrite lookup_insert_eq in Hn.
  - intros k' Hn%H3. by apply lookup_insert_None in Hn as [? _].
Qed.

(** Without an error, nothing is left in the status. *)
Lemma wpw_stopWanReplicationAllMaps w0 s w h Q : ev_wan w0 ∈ h -> from h w0 s w ->
  (forall h' w' err, h ⊆ h' -> kept w0 w s h' w' ->
     (err = None -> forall k st, ws_Maps (r_Status w0) !! k = Some st -> released h' (r_Namespace w0) k st) -> Q h' (w', err)) ->
  wpw (stopWanReplicationAllMaps w) h Q.
Proof.
  intros E0 Hf HQ.
  assert (Hk : kept w0 w s h w).
  { split; [done|]. split; [done|]. rewrite <- (f_spec _ _ _ _ Hf). apply from_refl. }
  apply wp_bind, wpw_published_maps. intros h1 [ms|e] Hs1 Hms; [|apply wp_ret, HQ; [done|by eapply kept_mono|done]].
  destruct (Hms ms eq_refl) as (Hread & Hnone & _); [by intros key m Hm; rewrite lookup_empty in Hm|].
  apply wp_bind, (wpw_range_statuses _ (kept w0 w s) no_break); [|done|by eapply kept_mono|].
  - intros h2 w2 key st Hs2 Hk2 Hst. destruct (ms !! key) as [m|] eqn:Em.
    { apply wpw_stop_with_client; [done|]. eapply map_read_mono; [done|]. by eapply Hread. }
    apply (wpw_or_return _ _ (kept w0 w s)). eapply wpw_deleteWanMapStatus; [done|exact Hst| |done].
    left. destruct Hk2 as (_ & _ & Hb). destruct (f_new _ _ _ _ Hb key st Hst) as (stb & Hstb & -> & _).
    eapply Hnone; [by apply elem_of_go_range|done].
  - intros h2 [w2 [|err]] Hs2 Hk2 Hb; cbn [fst snd] in *.
    2: { apply wp_ret, HQ; [by etrans|done|]. by intros ->. }
    destruct (Nat.eqb _ 0) eqn:El; apply wp_ret, HQ; [by etrans|done| |by etrans|done|done].
    intros _ k st Hst. apply Nat.eqb_eq, map_size_empty_inv in El. destruct Hk2 as (_ & Hf2 & _).
    destruct (f_old _ _ _ _ Hf2 k st Hst) as [(st' & Hst' & _)|?]; [|done]. by rewrite El, lookup_empty in Hst'.
Qed.

Lemma wpw_stop_terminating w0 wb s w hz maps h Q : kept w0 wb s h w ->
  (forall m, m ∈ maps -> map_read h m /\ in_cluster h m hz.2) ->
  (forall h' w' err, h ⊆ h' -> kept w0 wb s h' w' -> Q h' (w', err)) -> wpw (stop_terminating w hz maps) h Q.
Proof.
  revert w h. induction maps as [|m maps IH]; intros w h Hk Hm HQ; cbn [stop_terminating]; [by apply wp_ret, HQ|].
  destruct (Hm m) as [Hr Hc]; [by left|].
  destruct (negb _); [apply IH; [done| |done]; intros; apply Hm; by right|].
  apply wp_bind, (wpw_stopWanReplicationMap w0 wb s); [done..|]. intros h1 w1 [e|] Hs1 Hk1; [by apply wp_ret, HQ|].
  apply IH; [done| |intros; apply HQ; [by etrans|done]].
  intros m' Hm'. destruct (Hm m') as [? ?]; [by right|]. split; [by eapply map_read_mono|by eapply in_cluster_mono].
Qed.

Lemma wpw_cleanup_clusters w0 wb s w clusters h Q : kept w0 wb s h w ->
  (forall hz l m, (hz, l) ∈ clusters -> m ∈ l -> map_read h m /\ in_cluster h m hz) ->
  (forall h' w' err, h ⊆ h' -> kept w0 wb s h' w' -> Q h' (w', err)) -> wpw (cleanup_clusters w clusters) h Q.
Proof.
  revert w h. induction clusters as [|[hz maps] clusters IH]; intros w h Hk Hm HQ; cbn [cleanup_clusters]; [by apply wp_ret, HQ|].
  assert (Hm' : forall h' hz' l m, h ⊆ h' -> (hz', l) ∈ (hz, maps) :: clusters -> m ∈ l -> map_read h' m /\ in_cluster h' m hz').
  { intros h' hz' l m Hs Hl Hml. destruct (Hm hz' l m Hl Hml). split; [by eapply map_read_mono|by eapply in_cluster_mono]. }
  apply wp_bind, wpw_getHazelcastClient. intros h1 [e|] Hs1; [by apply wp_ret, HQ; [|eapply kept_mono]|].
  apply wp_bind, (wpw_stop_terminating w0 wb s); [by eapply kept_mono| |].
  { intros m Hml. apply (Hm' _ _ maps); [done|by left|done]. }
  intros h2 w2 [e|] Hs2 Hk2; [apply wp_ret, HQ; [by etrans|done]|].
  apply IH; [done| |intros; apply HQ; [set_solver|done]].
  intros hz' l m Hl Hml. apply (Hm' _ _ l); [by etrans|by right|done].
Qed.

Lemma wpw_cleanupTerminatingMapCRs w0 wb s w groups h Q : kept w0 wb s h w -> clustered h groups ->
  (forall h' w' err, h ⊆ h' -> kept w0 wb s h' w' -> Q h' (w', err)) -> wpw (cleanupTerminatingMapCRs w groups) h Q.
Proof.
  intros Hk Hc HQ. apply (wpw_cleanup_clusters w0 wb s); [done| |done]. intros hz l m Hl%elem_of_go_range Hm. by eapply Hc.
Qed.

(** ** Endpoints *)

(** The finalizer is on the resource that was read. *)
Lemma wpw_update_wan w (k : option error -> prog (WanReplication * option error)) h Q : n_Finalizer ∈ r_Finalizers w ->
  (forall h' err, h ⊆ h' -> wpw (k err) h' Q) -> wpw (Vis (Update KWan w) k) h Q.
Proof. intros Hf HQ. apply wp_vis; [by left|]. intros err h' Hs _. by apply HQ. Qed.

Lemma wpw_checkWanEndpoint w0 wb s w h Q : kept w0 wb s h w -> n_Finalizer ∈ r_Finalizers w0 ->
  (forall h' w' err, h ⊆ h' -> kept w0 wb (r_Spec w') h' w' -> respec s (r_Spec w') -> Q h' (w', err)) ->
  wpw (checkWanEndpoint w) h Q.
Proof.
  intros Hk Hfin HQ. pose proof Hk as (E0 & Hf & Hb). unfold checkWanEndpoint. destruct (strb _ _).
  { apply wp_ret, HQ; [done| |left; by rewrite (f_spec _ _ _ _ Hf)]. by rewrite (f_spec _ _ _ _ Hf). }
  apply wpw_update_wan; [cbn; by rewrite (f_finalizers _ _ _ _ Hf)|]. intros h' err Hs. apply wp_ret, HQ; [done| |].
  - apply (kept_mono _ _ _ h); [done|]. split; [done|]. split; by eapply from_spec.
  - right. cbn. by rewrite (f_spec _ _ _ _ Hf).
Qed.

Lemma wpw_dial_members members endpoints h Q :
  (forall h' err, h ⊆ h' -> (err = None -> forall addr, addr ∈ members -> dialed h' endpoints addr) -> Q h' err) ->
  wpw (dial_members members endpoints) h Q.
Proof.
  revert h. induction members as [|addr members IH]; intros h HQ; cbn [dial_members].
  { apply wp_ret, HQ; [done|]. intros _ a Ha. by apply not_elem_of_nil in Ha. }
  unfold dial_member. destruct (SplitHostPort addr) as [[host port]|e] eqn:Es; cbn [pbind]; [|by apply wp_ret, HQ].
  apply wp_vis; [done|]. intros [e|] h1 Hs1 E1; cbn [pbind]; [by apply wp_ret, HQ|].
  apply IH. intros h2 err Hs2 Ha. apply HQ; [by etrans|]. intros He a [->|?]%elem_of_cons; [|by apply Ha].
  exists host, port. split; [done|]. unfold ev_dialed. hist.
Qed.

Lemma wpw_resource_cluster ns rr h Q :
  (forall h' x, h ⊆ h' -> (forall hz, x = Found hz -> cluster_of h' ns rr hz) -> Q h' x) ->
  wpw (resource_cluster ns rr) h Q.
Proof.
  intros HQ. unfold resource_cluster, cluster_of in *. destruct (strb _ _).
  - apply wp_vis; [done|]. intros [m|e] h1 Hs1 E1; apply wp_ret, HQ; try done. intros hz [= <-]. by exists m.
  - apply wp_ret, HQ; [done|]. by intros hz [= <-].
Qed.

Lemma reached_mono t t' ns es rr : t ⊆ t' -> reached t ns es rr -> reached t' ns es rr.
Proof.
  intros Ht (hz & members & Hcl & Hsv & Hd). exists hz, members. split_and!.
  - revert Hcl. unfold cluster_of. destruct (strb _ _); [|done]. intros (m & Hm & ?). exists m. auto.
  - by apply Ht.
  - intros a Ha. destruct (Hd a Ha) as (host & port & ? & ?). exists host, port. auto.
Qed.

Lemma wpw_check_resources ns es resources h Q :
  (forall h' err, h ⊆ h' -> (err = None -> forall rr, rr ∈ resources -> reached h' ns es rr) -> Q h' err) ->
  wpw (check_resources ns es resources) h Q.
Proof.
  revert h. induction resources as [|rr resources IH]; intros h HQ; cbn [check_resources].
  { apply wp_ret, HQ; [done|]. by intros _ rr ?%not_elem_of_nil. }
  apply wp_bind, wpw_resource_cluster. intros h1 [hz|e] Hs1 Hcl; [|by apply wp_ret, HQ].
  specialize (Hcl hz eq_refl). apply wp_vis; [done|]. intros [members|] h2 Hs2 E2; [|apply wp_ret, HQ; [set_solver|done]].
  apply wp_vis; [done|]. intros [e|] h3 Hs3 E3; [apply wp_ret, HQ; [set_solver|done]|].
  apply wp_bind, wpw_dial_members. intros h4 [e|] Hs4 Hd; [apply wp_ret, HQ; [set_solver|done]|].
  apply IH. intros h5 err Hs5 Hr. apply HQ; [set_solver|].
  intros He rr' [->|Hr']%elem_of_cons; [|by apply Hr]. apply (reached_mono h4); [done|].
  exists hz, members. split_and!; [|unfold ev_service; hist|by apply Hd].
  revert Hcl. unfold cluster_of. destruct (strb _ _); [|done]. intros (m & Hm & ?). exists m. split; [hist|done].
Qed.

Lemma wpw_checkConnectivity ns w h Q :
  (forall h' err, h ⊆ h' -> (err = None -> connected h' ns (r_Spec w)) -> Q h' err) -> wpw (checkConnectivity ns w) h Q.
Proof. apply wpw_check_resources. Qed.

(** ** Starting publishers *)

Lemma publishable_mono t t' w0 w : t ⊆ t' -> publishable t w0 w -> publishable t' w0 w.
Proof.
  intros Ht []. constructor; try done; [by apply Ht|by eapply from_mono|]. intros rr Hrr.
  by eapply reached_mono, pb_connected0.
Qed.

(** Statuses for publishers that were requested. *)
Definition fresh (options : gmap string WanMapStatusApplier) : Prop :=
  forall k a st, options !! k = Some a -> wm_Status (WanMapStatusApply a st) <> WanStatusSuccess.

Lemma wpw_applyWanReplication w0 w hz m h Q : publishable h w0 w -> map_read h m -> in_cluster h m hz ->
  st_State (r_Status m) = MapSuccess ->
  publisher_id (wanMapKey hz (DataStructureTypes.MapName m)) w = "" ->
  (forall h' r, h ⊆ h' -> Q h' r) ->
  wpw (applyWanReplication (r_Namespace w, hz) w (DataStructureTypes.MapName m) (wanMapKey hz (DataStructureTypes.MapName m))) h Q.
Proof.
  intros Hp Hr Hc Hs Hid HQ. unfold applyWanReplication, AddBatchPublisherConfig.
  apply wp_bind, wp_bind, (wp_lift_res wan_guard). intros req Hreq. apply wp_vis.
  - pose proof (pb_from _ _ _ Hp) as Hf. exists w0, w, m. split_and!; try done; [by rewrite <- (f_ns _ _ _ _ Hf)|].
    by rewrite <- (f_name _ _ _ _ Hf).
  - intros [resp|e] h1 Hs1 _; by apply (wp_ret (G := wan_guard)), wp_ret, HQ.
Qed.

Lemma wpw_start_maps w0 w hz maps options h Q : publishable h w0 w ->
  (forall m, m ∈ maps -> map_read h m /\ in_cluster h m hz) -> fresh options ->
  (forall h' o, h ⊆ h' -> fresh o -> Q h' o) -> wpw (start_maps w hz maps options) h Q.
Proof.
  revert options h. induction maps as [|m maps IH]; intros options h Hp Hm Hfr HQ; cbn [start_maps]; [by apply wp_ret, HQ|].
  assert (Hskip : wpw (start_maps w hz maps options) h Q) by (apply IH; try done; intros; apply Hm; by right).
  destruct (strb (publisher_id _ w) "") eqn:Eid; [apply strb_true in Eid|done]. cbn [negb].
  destruct (strb _ MapTerminating); [done|].
  destruct (strb (st_State (r_Status m)) MapSuccess) eqn:Es; cbn [negb]; [apply strb_true in Es|done].
  destruct (Hm m) as [Hr Hc]; [by left|].
  apply wp_bind, (wpw_applyWanReplication w0); [done..|]. intros h1 r Hs1. apply IH.
  - by eapply publishable_mono.
  - intros m' Hm'. destruct (Hm m') as [? ?]; [by right|]. split; [by eapply map_read_mono|by eapply in_cluster_mono].
  - intros k a st [[_ <-]|[_ Hk]]%lookup_insert_Some; [by destruct r|by eapply Hfr].
  - intros; apply HQ; [by etrans|done].
Qed.

Lemma wpw_start_clusters w0 w clusters options h Q : publishable h w0 w ->
  (forall hz l m, (hz, l) ∈ clusters -> m ∈ l -> map_read h m /\ in_cluster h m hz) -> fresh options ->
  (forall h' x, h ⊆ h' -> (forall o, x = inl o -> fresh o) -> Q h' x) -> wpw (start_clusters w clusters options) h Q.
Proof.
  revert options h. induction clusters as [|[hz maps] clusters IH]; intros options h Hp Hm Hfr HQ; cbn [start_clusters].
  { apply wp_ret, HQ; [done|]. by intros o [= <-]. }
  assert (Hm' : forall h' hz' l m, h ⊆ h' -> (hz', l) ∈ (hz, maps) :: clusters -> m ∈ l -> map_read h' m /\ in_cluster h' m hz').
  { intros h' hz' l m Hs Hl Hml. destruct (Hm hz' l m Hl Hml). split; [by eapply map_read_mono|by eapply in_cluster_mono]. }
  apply wp_bind, wpw_getHazelcastClient. intros h1 [e|] Hs1; [by apply wp_ret, HQ|].
  apply wp_bind, (wpw_start_maps w0); [by eapply publishable_mono| |done|].
  { intros m Hml. apply (Hm' _ _ maps); [done|by left|done]. }
  intros h2 o Hs2 Ho. apply IH; [| |done|intros; apply HQ; [set_solver|done]].
  - eapply publishable_mono, Hp. by etrans.
  - intros hz' l m Hl Hml. apply (Hm' _ _ l); [by etrans|by right|done].
Qed.

Lemma wpw_patchWanMapStatuses w0 w options h Q : ev_wan w0 ∈ h -> justified h w0 w ->
  (forall k a, options !! k = Some a ->
     let st := WanMapStatusApply a (default WanReplicationMapStatus_zero (ws_Maps (r_Status w) !! k)) in
     wm_Status st = WanStatusSuccess -> configured h w k (wm_PublisherId st)) ->
  (forall h' w' err, h ⊆ h' -> justified h' w0 w' -> Q h' (w', err)) -> wpw (patchWanMapStatuses w options) h Q.
Proof.
  intros E0 Hj Ho HQ. pose proof (justified_patched _ _ _ _ Hj Ho) as Hj'. apply wp_vis; [by exists w0|].
  intros [e|] h' Hs _; [destruct (IsConflict e)|]; apply wp_ret, HQ; try done; by eapply justified_mono.
Qed.

Lemma wpw_startWanReplication w0 w groups h Q : publishable h w0 w -> clustered h groups ->
  (forall h' w' err, h ⊆ h' -> justified h' w0 w' -> Q h' (w', err)) -> wpw (startWanReplication w groups) h Q.
Proof.
  intros Hp Hc HQ. apply wp_bind, (wpw_start_clusters w0); [done| |by intros ? ? ? ?%lookup_empty_Some|].
  { intros hz l m Hl%elem_of_go_range Hm. by eapply Hc. }
  intros h1 [o|e] Hs1 Ho; pose proof (publishable_mono _ _ _ _ Hs1 Hp) as []; apply from_justified in pb_from0.
  2: { by apply wp_ret, HQ. }
  apply (wpw_patchWanMapStatuses w0); [done|done| |intros; apply HQ; [by etrans|done]].
  intros k a Hk st Hst. by apply (Ho o eq_refl k a) in Hst.
Qed.

(** ** Finalizers of the maps *)

Lemma wpw_addWanRepFinalizerToMap m h Q : (forall h' r, h ⊆ h' -> Q h' r) -> wpw (addWanRepFinalizerToMap m) h Q.
Proof.
  intros HQ. unfold addWanRepFinalizerToMap. destruct (ContainsFinalizer m _); [by apply wp_ret, HQ|].
  apply wp_vis; [left; cbn; set_solver|]. intros err h1 Hs1 _. by apply wp_ret, HQ.
Qed.

Lemma wpw_add_finalizers w statuses groups h Q : (forall h' r, h ⊆ h' -> Q h' r) ->
  wpw (add_finalizers SetOwnerReference w statuses groups) h Q.
Proof.
  revert groups h. induction statuses as [|[key st] statuses IH]; intros groups h HQ; cbn [add_finalizers]; [by apply wp_ret, HQ|].
  destruct (strb _ _); [by apply IH|]. apply wp_bind, (wp_lift_res wan_guard). intros [hz name] _.
  destruct (findMapInSlice _ _) as [[i m]|]; [|by apply wp_ret, HQ].
  destruct (SetOwnerReference w m) as [owners|e]; [|by apply wp_ret, HQ].
  apply wp_bind, wpw_addWanRepFinalizerToMap. intros h1 [m' [e|]] Hs1; [by apply wp_ret, HQ|].
  apply IH. intros; apply HQ. by etrans.
Qed.

(** ** The persisted configuration *)

Definition configs (t : list event) (ns : string) (cm : gmap string cfg_WanReplicationConfig) : Prop :=
  forall k wc, cm !! k = Some wc -> exists hz doc c wanName,
    ev_config (ns, hz) doc ∈ t /\ yaml_Unmarshal doc = Some c
    /\ default ∅ (cfg_Hazelcast_WanReplication c) !! wanName = Some wc /\ k = wanMapKey hz (splitWanName wanName).

Lemma configs_mono t t' ns cm : t ⊆ t' -> configs t ns cm -> configs t' ns cm.
Proof. intros Ht Hc k wc Hk. destruct (Hc k wc Hk) as (hz & doc & c & n & ? & ?). exists hz, doc, c, n. auto. Qed.

Lemma configs_add t ns hz doc c cm l : ev_config (ns, hz) doc ∈ t -> yaml_Unmarshal doc = Some c ->
  (forall n wc, (n, wc) ∈ l -> default ∅ (cfg_Hazelcast_WanReplication c) !! n = Some wc) -> configs t ns cm ->
  configs t ns (foldl (fun cm '(wanName, wanConfig) => <[wanMapKey hz (splitWanName wanName) := wanConfig]> cm) cm l).
Proof.
  intros He Hd. revert cm. induction l as [|[n wc] l IH]; intros cm Hl Hc; cbn [foldl]; [done|].
  apply IH; [intros; apply Hl; by right|]. intros k wc' [[<- <-]|[_ Hk]]%lookup_insert_Some; [|by apply Hc].
  exists hz, doc, c, n. split_and!; try done. apply Hl. by left.
Qed.

Lemma wpw_persisted_wan_configs ns clusters cm h Q : configs h ns cm ->
  (forall h' x, h ⊆ h' -> (forall cm, x = Found cm -> configs h' ns cm) -> Q h' x) ->
  wpw (persisted_wan_configs ns clusters cm) h Q.
Proof.
  revert cm h. induction clusters as [|hz clusters IH]; intros cm h Hc HQ; cbn [persisted_wan_configs].
  { apply wp_ret, HQ; [done|]. by intros cm' [= <-]. }
  apply wp_vis; [done|]. intros [doc|e] h1 Hs1 E1; [|by apply wp_ret, HQ].
  destruct (yaml_Unmarshal doc) as [c|] eqn:Ec; [|by apply wp_ret, HQ].
  apply IH; [|intros; apply HQ; [by etrans|done]]. eapply configs_add; [exact E1|done| |by eapply configs_mono].
  intros n wc. by rewrite elem_of_go_range.
Qed.

Lemma persisted_status_configured h w cm k v a : configs h (r_Namespace w) cm -> persisted_status w cm k v = Some a ->
  configured h w k (wm_PublisherId (WanMapStatusApply a v)).
Proof.
  intros Hc. unfold persisted_status. destruct (negb _); [done|]. destruct (cm !! k) as [wc|] eqn:Ek; [|done].
  destruct (_ !! wm_PublisherId v) as [p|] eqn:Ep; [|done]. case_bool_decide as Hp; [|done]. intros [= <-].
  destruct (Hc k wc Ek) as (hz & doc & c & n & ? & ? & ? & ?). exists hz, doc, c, n, wc. subst p. done.
Qed.

Lemma wpw_validateWanConfigPersistence w0 w groups h Q : ev_wan w0 ∈ h -> justified h w0 w ->
  (forall h' w' x, h ⊆ h' -> justified h' w0 w' -> Q h' (w', x)) -> wpw (validateWanConfigPersistence w groups) h Q.
Proof.
  intros E0 Hj HQ. apply wp_bind, wpw_persisted_wan_configs; [by intros ? ? ?%lookup_empty_Some|].
  intros h1 [cm|e] Hs1 Hcm; [|by apply wp_ret, HQ; [|eapply justified_mono]].
  specialize (Hcm cm eq_refl). apply wp_bind, (wpw_patchWanMapStatuses w0); [by apply Hs1|by eapply justified_mono| |].
  { intros k a Hk st Hst. rewrite map_lookup_imap in Hk. subst st.
    destruct (ws_Maps (r_Status w) !! k) as [v|]; [|done]. by eapply persisted_status_configured. }
  intros h2 w2 [e|] Hs2 Hj2; [apply wp_ret, HQ; [by etrans|done]|].
  cbn [fst snd]. destruct (strb (ws_Status (r_Status w2)) WanStatusFailed); apply wp_ret, HQ; try done; by etrans.
Qed.

(** ** Reconcile *)

Definition not_wan_success (ws : list WanRepStatusApplier) : Prop :=
  forall st, ws_Status (foldl WanRepStatusApply st ws) <> WanStatusSuccess.

Lemma apply_keeps_maps ws st : ws_Maps (foldl WanRepStatusApply st ws) = ws_Maps st.
Proof. revert st. induction ws as [|a ws IH]; intros st; simpl; [done|]. rewrite IH. by destruct a. Qed.

Lemma applied_status (w : WanReplication) ws : let st := foldl WanRepStatusApply (r_Status w) ws in
  set_Status w st = set_Status w (mkWanReplicationStatus (ws_Status st) (ws_Message st) (ws_Maps (r_Status w))).
Proof. intros st. f_equal. unfold st. rewrite <- (apply_keeps_maps ws). by destruct (foldl _ _ ws). Qed.

Lemma justified_status t w0 w st msg : justified t w0 w -> st <> WanStatusSuccess ->
  justified t w0 (set_Status w (mkWanReplicationStatus st msg (ws_Maps (r_Status w)))).
Proof. by intros [] Hs; constructor. Qed.

Lemma wpw_updateWanStatus w0 w ro ws h Q : ev_wan w0 ∈ h -> justified h w0 w -> not_wan_success ws ->
  (forall h' r, h ⊆ h' -> Q h' (set_Status w (foldl WanRepStatusApply (r_Status w) ws), r)) ->
  wpw (updateWanStatus w ro ws) h Q.
Proof.
  intros E0 Hj Hn HQ. unfold updateWanStatus. apply wp_vis.
  - exists w0. split; [done|]. rewrite applied_status. by apply justified_status.
  - intros [e|] h1 Hs1 _; [destruct (IsConflict e); by apply wp_ret, HQ|].
    destruct (ro_Err ro); [by apply wp_ret, HQ|]. destruct (_ || _); by apply wp_ret, HQ.
Qed.

Lemma wpw_wan_fail w0 w e h (Q : list event -> reconcile_result -> Prop) : ev_wan w0 ∈ h -> justified h w0 w ->
  (forall h' r, h ⊆ h' -> Q h' r) -> wpw (wan_fail w e) h Q.
Proof.
  intros E0 Hj HQ. apply wp_bind, (wpw_updateWanStatus w0); [done|done|by intros st [=]|].
  intros h1 r Hs1. by apply wp_ret, HQ.
Qed.

Lemma wpw_terminating_error w0 w e h (Q : list event -> reconcile_result -> Prop) : ev_wan w0 ∈ h -> justified h w0 w ->
  (forall h' r, h ⊆ h' -> Q h' r) -> wpw (terminating_error w e) h Q.
Proof.
  intros E0 Hj HQ. apply wp_bind, (wpw_updateWanStatus w0); [done|done|by intros st [=]|].
  intros h1 r Hs1. by apply wp_ret, HQ.
Qed.

Abbreviation anything := (fun (_ : list event) (_ : reconcile_result) => True).

Lemma kept_justified w0 wb s h w : kept w0 wb s h w -> justified h w0 w.
Proof. intros (_ & Hf & _). by eapply from_justified. Qed.

Lemma wpw_kept_fail w0 wb s w e h : kept w0 wb s h w -> wpw (wan_fail w e) h anything.
Proof. intros Hk. pose proof Hk as (E & _). eapply wpw_wan_fail; [exact E|by eapply kept_justified|done]. Qed.

Lemma wpw_wan_deleted w0 h : ev_wan w0 ∈ h -> r_Deleting w0 = true -> wpw (wan_deleted w0) h anything.
Proof.
  intros E0 Hd. pose proof (from_refl h w0) as Hf. apply wp_bind, (wpw_updateWanStatus w0); [done|by eapply from_justified|by intros st [=]|].
  intros h1 r Hs1. cbn [fst snd]. set (w1 := set_Status w0 _).
  assert (Hf1 : from h1 w0 (r_Spec w0) w1).
  { subst w1. rewrite applied_status. apply from_status; [by eapply from_mono|done]. }
  destruct (ContainsFinalizer w1 n_Finalizer); cbn [negb]; [|by apply wp_ret].
  assert (E1 : ev_wan w0 ∈ h1) by by apply Hs1.
  apply wp_bind, (wpw_deleteLeftoverMapsFromStatus w0 w0 (r_Spec w0)); [done|].
  intros h2 w2 [e|] Hs2 Hk2; pose proof Hk2 as (E2 & Hf2 & _); cbn [fst snd].
  { eapply wpw_terminating_error; [exact E2|by eapply kept_justified|done]. }
  apply wp_bind, (wpw_stopWanReplicationAllMaps w0 (r_Spec w0)); [done|done|].
  intros h3 w3 [e|] Hs3 Hk3 Hr; pose proof Hk3 as (E3 & _ & _); cbn [fst snd].
  { eapply wpw_terminating_error; [exact E3|by eapply kept_justified|done]. }
  apply wp_vis; [|by intros err h4 _ _; apply wp_ret]. right. exists w0. split_and!; [done|done|]. by apply Hr.
Qed.

Lemma wpw_wan_apply w0 w groups h : publishable h w0 w -> clustered h groups -> n_Finalizer ∈ r_Finalizers w0 ->
  wpw (wan_apply SetOwnerReference w groups) h anything.
Proof.
  intros Hp Hc Hfin. apply wp_bind, (wpw_startWanReplication w0); [done|done|].
  intros h1 w1 [e|] Hs1 Hj1; cbn [fst snd]; [by apply wp_ret|].
  apply wp_bind, wpw_add_finalizers. intros h2 [e|] Hs2; [by apply wp_ret|].
  assert (E2 : ev_wan w0 ∈ h2) by (apply Hs2, Hs1, (pb_read _ _ _ Hp)).
  apply wp_bind, (wpw_validateWanConfigPersistence w0); [done|by eapply justified_mono|].
  intros h3 w3 [[]|e] Hs3 Hj3; cbn [fst snd]; [|by apply wp_ret|].
  2: { eapply wpw_wan_fail; [by apply Hs3|done|done]. }
  eapply wp_seq with (R := fun h' r => h3 ⊆ h' /\ justified h' w0 r.1).
  - unfold updateLastSuccessfulConfiguration. destruct (WanSpec_Marshal _) as [ms|e]; [|by apply wp_ret].
    unfold UpdateAnnotation. assert (Hj : justified h3 w0 (set_Annotation w3 n_LastSuccessfulSpecAnnotation ms)) by (by destruct Hj3; constructor).
    case_decide; [by apply wp_ret|]. apply wpw_update_wan; [cbn; by rewrite (j_finalizers _ _ _ Hj3)|].
    intros h4 err Hs4. apply wp_ret. split; [done|by eapply justified_mono].
  - intros h4 [w4 [e|]] Hs4 [_ Hj4]; cbn [fst snd] in *; [|by apply wp_ret].
    eapply wpw_wan_fail; [apply Hs4, Hs3, E2|done|done].
Qed.

Lemma wpw_wan_live w0 h : ev_wan w0 ∈ h -> n_Finalizer ∈ r_Finalizers w0 ->
  wpw (wan_live SetOwnerReference nn w0) h anything.
Proof.
  intros E1 Hfin.
  apply wp_bind, (wpw_deleteLeftoverMapsFromStatus w0 w0 (r_Spec w0)).
  { split; [done|]. split; apply from_refl. }
  intros h2 w2 [e|] Hs2 Hk2; cbn [fst snd]; [by eapply wpw_kept_fail|].
  apply wp_bind, (wp_getMapsGroupByHazelcastName wan_guard). intros h3 [groups|e] Hs3 Hg; [|eapply wpw_kept_fail; by eapply kept_mono].
  specialize (Hg groups eq_refl).
  destruct (ValidateWanReplicationSpec w2) as [e|] eqn:Ev; [eapply wpw_kept_fail; by eapply kept_mono|].
  assert (Hv : ValidateWanReplicationSpec w0 = None).
  { destruct Hk2 as (_ & [_ Hn Ha _ Hsp _ _ _] & _). unfold ValidateWanReplicationSpec, validateNonUpdatableWanFields in *.
    by rewrite <- Hn, <- Ha, <- Hsp. }
  apply wp_bind, (wpw_checkWanEndpoint w0 w0 (r_Spec w0)); [by eapply kept_mono|done|].
  intros h4 w4 [e|] Hs4 Hk4 Hsp4; cbn [fst snd]; [by eapply wpw_kept_fail|].
  apply wp_bind, (wpw_stopWanRepForRemovedResources w0 w0 (r_Spec w4)); [done|].
  intros h5 w5 [e|] Hs5 Hk5; cbn [fst snd]; [by eapply wpw_kept_fail|].
  assert (Hg5 : clustered h5 groups) by (eapply clustered_mono, Hg; by etrans).
  apply wp_bind, (wpw_cleanupTerminatingMapCRs w0 w0 (r_Spec w4)); [done|done|].
  intros h6 w6 [e|] Hs6 Hk6; cbn [fst snd]; [by eapply wpw_kept_fail|].
  apply wp_bind, wpw_checkConnectivity. intros h7 [e|] Hs7 Hc; [eapply wpw_kept_fail; by eapply kept_mono|].
  eapply kept_mono in Hk6 as (E7 & Hf7 & _); [|exact Hs7]. pose proof (f_spec _ _ _ _ Hf7) as Hsp.
  apply (wpw_wan_apply w0); [|eapply clustered_mono, Hg5; by etrans|done].
  constructor; [done|by rewrite Hsp|by rewrite Hsp|done|by apply Hc].
Qed.

Lemma wpw_Wan_Reconcile : wpw (Wan_Reconcile SetOwnerReference nn) [] anything.
Proof.
  unfold Wan_Reconcile. apply wp_vis; [done|]. intros [w0|e] h1 _ E1; [|by apply wp_ret]. cbv iota.
  change (ev_wan w0 ∈ h1) in E1. destruct (_ && _) eqn:Efin.
  { apply wp_vis; [left; cbn; set_solver|]. intros err h2 _ _. by apply wp_ret. }
  lazymatch goal with |- context [if ?b then wan_deleted _ else _] => destruct b eqn:Ed end;
    [by apply wpw_wan_deleted|]. apply wpw_wan_live; [done|].
  apply ContainsFinalizer_iff. apply andb_false_iff in Efin as [?%negb_false_iff|Hd%negb_false_iff]; [done|].
  exfalso. unfold obj, kind_spec, kind_status in *. congruence.
Qed.
End Facts.
