(* ===== verification/WanProps.v ===== *)
(** * Theorems about the WAN replication controller

    What a reconciliation may do, whatever the API server, the members and the
    agents answer; concrete runs for which the hypotheses hold. *)

From S2P Require Import Prelude Eff FieldValidation Json GoPath GoNet WanEndpoints HazelcastTypes DataStructureTypes HazelcastValidation HazelcastValidationFacts MapValidation ConfigTypes Proto CodecBuiltin CodecTypes CodecRequests DataStructureConfig DataStructureValidation WanTypes HazelcastConfig Kube WanController WanFacts.
#[local] Open Scope prog_scope.
#[local] Open Scope string_scope.
#[local] Open Scope list_scope.
#[local] Open Scope Z_scope.

Section Props.
Context `{P : Proto} `{R : MapRange} `{QL : QuantityLib} `{Y : YamlLib} `{WJ : WanJson} `{KE : KErrors}.
Context (SetOwnerReference : WanReplication -> Map -> sum (list OwnerReference) error).
Context (nn : NamespacedName).

Abbreviation reconcile := (Wan_Reconcile SetOwnerReference nn).

(** Every call is allowed by the guard of WanFacts.v. *)
Lemma reconcile_call t1 e t2 o : exec reconcile (t1 ++ e :: t2) o -> wan_guard nn t1 (ev_op e).
Proof. intros He. by eapply wp_call, He; apply wpw_Wan_Reconcile. Qed.

(** ** What a status says *)

(** C12. When the controller stores that the replication of a map is
    successful, it was stored so before, or the document of the map's cluster
    that was just read has the publisher of the map, configured as the
    resource says.  The status of the whole becomes Success only when there is
    a map and all maps are successful. *)
Theorem wan_success_justified t1 (w : WanReplication) (err : option error) t2 o :
  exec reconcile (t1 ++ Ev (StatusUpdate KWan w) err :: t2) o ->
  exists w0, ev_wan nn w0 ∈ t1
    /\ (forall k st, ws_Maps (r_Status w) !! k = Some st -> wm_Status st = WanStatusSuccess ->
          (exists st0, ws_Maps (r_Status w0) !! k = Some st0 /\ wm_Status st0 = WanStatusSuccess
             /\ wm_PublisherId st0 = wm_PublisherId st)
          \/ configured t1 w k (wm_PublisherId st))
    /\ (ws_Status (r_Status w) = WanStatusSuccess ->
          ws_Status (r_Status w0) = WanStatusSuccess
          \/ (ws_Maps (r_Status w) <> ∅
              /\ forall k st, ws_Maps (r_Status w) !! k = Some st -> wm_Status st = WanStatusSuccess)).
Proof. intros He. destruct (reconcile_call _ _ _ _ He) as (w0 & E0 & []). by exists w0. Qed.

(** ** When finalizers leave *)

(** C16. The controller takes its finalizer off a resource only when the
    resource is being deleted and every map in its status has no publisher, or
    a publisher that was stopped and whose queues were cleared on all members
    of its cluster, or is gone or released by an earlier reconciliation. *)
Theorem wan_finalizer_released t1 (w : WanReplication) (err : option error) t2 o :
  exec reconcile (t1 ++ Ev (Update KWan w) err :: t2) o -> n_Finalizer ∉ r_Finalizers w ->
  exists w0, ev_wan nn w0 ∈ t1 /\ r_Deleting w0 = true
    /\ forall k st, ws_Maps (r_Status w0) !! k = Some st -> released t1 (r_Namespace w0) k st.
Proof. intros He Hn. by destruct (reconcile_call _ _ _ _ He) as [?|?]. Qed.

(** The finalizer that keeps a replicated map is taken off only when the
    publisher of the map was stopped, and its queues were cleared, on all
    members of its cluster. *)
Theorem wan_map_finalizer_released t1 (m' : Map) (err : option error) t2 o :
  exec reconcile (t1 ++ Ev (Update KMap m') err :: t2) o -> n_WanRepMapFinalizer ∉ r_Finalizers m' ->
  exists m, map_read t1 m /\ r_nn m' = r_nn m
    /\ (n_WanRepMapFinalizer ∈ r_Finalizers m ->
        exists w0 st, let key := wanMapKey (hz_of m) (DataStructureTypes.MapName m) in
          ev_wan nn w0 ∈ t1 /\ ws_Maps (r_Status w0) !! key = Some st /\ stopped t1 key (wm_PublisherId st)).
Proof.
  intros He Hn. destruct (reconcile_call _ _ _ _ He) as [?|(m & Hm & Hnn & Hr)]; [done|].
  exists m. split; [done|]. split; [done|]. intros Hin. by destruct Hr.
Qed.

(** ** When publishers are added *)

(** A publisher is added for a map only when the map is successful and has
    no publisher in the status, the resource is valid, and the agents of all
    members of all clusters of the resource could connect to the endpoints.
    The request has the settings of the resource. *)
Theorem wan_publisher_justified t1 hz req (r : fetched ClientMessage) t2 o :
  exec reconcile (t1 ++ Ev (InvokeOnRandomTarget hz req) r :: t2) o ->
  exists w0 w m, let key := wanMapKey hz.2 (DataStructureTypes.MapName m) in
    ev_wan nn w0 ∈ t1 /\ respec (r_Spec w0) (r_Spec w) /\ ValidateWanReplicationSpec w0 = None
    /\ connected t1 nn.1 (r_Spec w)
    /\ hz.1 = r_Namespace w0 /\ map_read t1 m /\ in_cluster t1 m hz.2
    /\ st_State (r_Status m) = MapSuccess
    /\ (forall st0, ws_Maps (r_Status w0) !! key = Some st0 -> released t1 (r_Namespace w0) key st0)
    /\ add_publisher_request
         (mkWanService hz (wanName (DataStructureTypes.MapName m)) (r_Name w0 ++ "-" ++ key)) (batch_publisher_request w) = Ret req.
Proof.
  intros He. destruct (reconcile_call _ _ _ _ He) as (w0 & w & m & [] & ? & ? & ? & ? & Hid & ?).
  exists w0, w, m. split_and!; try done. intros st0 Hst0.
  destruct (f_old _ _ _ _ pb_from _ _ Hst0) as [(st & Hst & Hp & _)|?]; [|done].
  left. revert Hid. unfold publisher_id. by rewrite Hst, <- Hp.
Qed.

(** ** The status of the whole *)

(** A patch of the statuses of maps: every applier works on the status of
    its own map, and the status of the whole is Success exactly when there is
    a map and all are successful; Persisting when one is being persisted;
    otherwise Failed when one failed, and else Pending.  Success clears the
    message. *)
Theorem wan_patch_status st options :
  let p := patched_status st options in let maps := ws_Maps p in
  (forall k, maps !! k = match options !! k with
     | Some a => Some (WanMapStatusApply a (default WanReplicationMapStatus_zero (ws_Maps st !! k)))
     | None => ws_Maps st !! k end)
  /\ (ws_Status p = WanStatusSuccess <-> maps <> ∅ /\ forall k s, maps !! k = Some s -> wm_Status s = WanStatusSuccess)
  /\ (ws_Status p = WanStatusPersisting <-> has_status maps WanStatusPersisting)
  /\ (ws_Status p = WanStatusFailed <-> ~ has_status maps WanStatusPersisting /\ has_status maps WanStatusFailed)
  /\ (ws_Status p = WanStatusPending <-> ~ has_status maps WanStatusPersisting /\ ~ has_status maps WanStatusFailed
        /\ (maps = ∅ \/ exists k s, maps !! k = Some s /\ wm_Status s <> WanStatusSuccess))
  /\ ws_Message p = (if decide (ws_Status p = WanStatusSuccess) then "" else ws_Message st).
Proof.
  intros p maps. destruct (wan_status_summary maps) as (H1 & H2 & H3 & H4).
  split; [intros k; apply apply_statuses_lookup|]. do 4 (split; [done|]).
  unfold p, patched_status, strb. cbn [ws_Message ws_Status]. by case_bool_decide; case_decide.
Qed.

(** ** Keys that are split wrongly *)

Definition ev_wan_update (w : WanReplication) (err : option error) : event := Ev (Update KWan w) err.

(** No update of the resource itself. *)
Definition no_wan_update (t : list event) (c : kube_op) : Prop := match c with Update KWan _ => False | _ => True end.
#[local] Hint Extern 0 (no_wan_update _ _) => exact I : core.
Abbreviation wpn := (wp no_wan_update).

(** Statuses of maps that had no publisher. *)
Definition for_new (w : WanReplication) (options : gmap string WanMapStatusApplier) : Prop :=
  forall k a, options !! k = Some a -> publisher_id k w = "".

Lemma wpn_start_maps w hz maps options h Q : for_new w options -> (forall h' o, for_new w o -> Q h' o) ->
  wpn (start_maps w hz maps options) h Q.
Proof.
  revert options h. induction maps as [|m maps IH]; intros options h Ho HQ; cbn [start_maps]; [by apply wp_ret, HQ|].
  destruct (strb (publisher_id _ w) "") eqn:Eid; cbn [negb]; [apply strb_true in Eid|by apply IH].
  destruct (strb _ MapTerminating); [by apply IH|]. destruct (strb _ MapSuccess); cbn [negb]; [|by apply IH].
  unfold applyWanReplication, AddBatchPublisherConfig. apply wp_bind, wp_bind, wp_bind, (wp_lift_res no_wan_update).
  intros req _. apply wp_vis; [done|]. intros r h1 _ _.
  assert (Hgo : forall a, wpn (start_maps w hz maps (<[wanMapKey hz (DataStructureTypes.MapName m) := a]> options)) h1 Q).
  { intros a. apply IH; [|done]. intros k a' [[<- _]|[_ Hk]]%lookup_insert_Some; [done|by eapply Ho]. }
  destruct r as [resp|e]; by do 2 apply (wp_ret (G := no_wan_update)).
Qed.

Lemma wpn_getHazelcastClient k h Q : (forall h' r, Q h' r) -> wpn (getHazelcastClient k) h Q.
Proof.
  intros HQ. unfold getHazelcastClient. apply wp_vis; [done|]. intros [[]|e] h1 _ _; cbv iota; [|done|by apply wp_ret].
  apply wp_vis; [done|]. by intros [] h2 _ _; apply wp_ret.
Qed.

Lemma wpn_start_clusters w clusters options h Q : for_new w options ->
  (forall h' x, (forall o, x = inl o -> for_new w o) -> Q h' x) -> wpn (start_clusters w clusters options) h Q.
Proof.
  revert options h. induction clusters as [|[hz maps] clusters IH]; intros options h Ho HQ; cbn [start_clusters].
  { apply wp_ret, HQ. by intros o [= <-]. }
  apply wp_bind, wpn_getHazelcastClient. intros h1 [e|]; [by apply wp_ret, HQ|].
  apply wp_bind, wpn_start_maps; [done|]. intros h2 o Hn. by apply IH.
Qed.

(** Publishers stay. *)
Lemma wpn_startWanReplication w groups h Q :
  (forall h' w' err, (forall k st, ws_Maps (r_Status w) !! k = Some st -> wm_PublisherId st <> "" ->
      ws_Maps (r_Status w') !! k = Some st) -> Q h' (w', err)) ->
  wpn (startWanReplication w groups) h Q.
Proof.
  intros HQ. apply wp_bind, wpn_start_clusters; [by intros ? ? ?%lookup_empty_Some|].
  intros h1 [o|e] Ho; [|by apply wp_ret, HQ]. apply wp_vis; [done|].
  assert (Hk : forall k st, ws_Maps (r_Status w) !! k = Some st -> wm_PublisherId st <> "" ->
    apply_statuses (ws_Maps (r_Status w)) o !! k = Some st).
  { intros k st Hk Hp. rewrite apply_statuses_lookup. destruct (o !! k) as [a|] eqn:Ek; [|done].
    apply (Ho o eq_refl) in Ek. unfold publisher_id in Ek. by rewrite Hk in Ek. }
  intros [e|] h2 _ _; [destruct (IsConflict e)|]; by apply wp_ret, HQ.
Qed.

Lemma findMapInSlice_name slice name i m : findMapInSlice slice name = Some (i, m) ->
  m ∈ slice /\ DataStructureTypes.MapName m = name.
Proof.
  revert i. induction slice as [|x slice IH]; intros i; simpl; [done|]. destruct (strb _ name) eqn:E.
  - intros [= _ <-]. split; [by left|by apply strb_true].
  - destruct (findMapInSlice slice name) as [[j y]|]; [|done]. intros [= _ <-].
    destruct (IH j eq_refl). split; [by right|done].
Qed.

(** No map of the cluster has the name. *)
Definition unnamed (groups : gmap string (list Map)) (hz name : string) : Prop :=
  forall m, m ∈ default [] (groups !! hz) -> DataStructureTypes.MapName m <> name.

Lemma wpn_add_finalizers w statuses groups key st hz name h Q :
  (key, st) ∈ statuses -> wm_PublisherId st <> "" -> splitWanMapKey key = Ret (hz, name) -> unnamed groups hz name ->
  (forall h' e, Q h' (Some e)) -> wpn (add_finalizers SetOwnerReference w statuses groups) h Q.
Proof.
  intros Hin Hp Hk. revert groups h. induction statuses as [|[key' st'] statuses IH]; intros groups h Hn HQ;
    [by apply not_elem_of_nil in Hin|]. cbn [add_finalizers].
  assert (Hin' : key' = key /\ st' = st \/ (key, st) ∈ statuses) by (apply elem_of_cons in Hin as [[= -> ->]|?]; auto).
  clear Hin. destruct (strb (wm_PublisherId st') "") eqn:Ep.
  { apply strb_true in Ep. destruct Hin' as [[_ ->]|Hin']; [done|by apply IH]. }
  apply wp_bind, (wp_lift_res no_wan_update). intros [hz' name'] Hk'. cbn [fst snd].
  destruct (findMapInSlice _ name') as [[i m]|] eqn:Ef; [|by apply wp_ret].
  apply findMapInSlice_name in Ef as [Hm <-].
  destruct Hin' as [[-> ->]|Hin'].
  { rewrite Hk in Hk'. injection Hk' as -> Hnm. by destruct (Hn m Hm). }
  destruct (SetOwnerReference w m) as [owners|e]; [|by apply wp_ret].
  assert (Hgo : forall m' : Map, DataStructureTypes.MapName m' = DataStructureTypes.MapName m ->
    unnamed (<[hz' := <[i := m']> (default [] (groups !! hz'))]> groups) hz name).
  { intros m' Hm' x Hx. destruct (decide (hz' = hz)) as [->|Hne].
    - rewrite lookup_insert_eq in Hx. cbn in Hx. apply list_elem_of_lookup in Hx as [j Hj].
      apply list_lookup_insert_Some in Hj as [(_ & -> & _)|(_ & Hj)]; [rewrite Hm'; by apply Hn|].
      apply Hn. by eapply list_elem_of_lookup_2.
    - rewrite lookup_insert_ne in Hx by done. by apply Hn. }
  apply wp_bind. unfold addWanRepFinalizerToMap. destruct (ContainsFinalizer _ _); [apply wp_ret; cbn [fst snd]; by apply IH, HQ; try apply Hgo|].
  apply wp_vis; [done|]. intros [e|] h1 _ _; apply wp_ret; cbn [fst snd]; [by apply wp_ret|]. by apply IH, HQ; try apply Hgo.
Qed.

(** A map with a publisher in the status whose key is split into a name
    that no map of its cluster has - the name of the map has a double
    underscore - blocks the replication of all maps: reconciliation never
    gets to checking or recording success, it fails on every run. *)
Theorem wrongly_split_key_blocks_wan w groups key st hz name t o :
  ws_Maps (r_Status w) !! key = Some st -> wm_PublisherId st <> "" ->
  splitWanMapKey key = Ret (hz, name) -> unnamed groups hz name ->
  exec (wan_apply SetOwnerReference w groups) t o ->
  (forall r, o = Returned r -> exists e, r = (ctrl_Result_zero, Some e))
  /\ forall w' err, ev_wan_update w' err ∉ t.
Proof.
  intros Hst Hp Hk Hn He.
  assert (Hw : wpn (wan_apply SetOwnerReference w groups) [] (fun _ r => exists e, r = (ctrl_Result_zero, Some e))).
  { apply wp_bind, wpn_startWanReplication. intros h1 w1 [e|] Hkeep; cbn [fst snd]; [apply wp_ret; by exists e|].
    apply wp_bind. eapply wpn_add_finalizers; [|exact Hp|exact Hk|exact Hn|].
    - apply elem_of_go_range. by apply Hkeep.
    - intros h2 e. apply wp_ret. by exists e. }
  destruct (wp_sound _ _ _ _ _ _ Hw He) as [Hg HQ]. split; [done|].
  intros w' err (t1 & t2 & ->)%list_elem_of_split. by apply guarded_lookup in Hg.
Qed.
End Props.

(** * Concrete runs of the WAN replication controller *)

Module WanRuns.
Import RefProto.
#[local] Existing Instance RefProto.ref.
#[local] Instance wan_json : WanJson := {| WanSpec_Marshal _ := inl "{}"; WanSpec_Unmarshal _ := inr (errors_New "bad json");
  WanReplication_Kind _ := "WanReplication" |}.

(** [SetOwnerReference] for a map without owners. *)
Definition set_owner (w : WanReplication) (m : Map) : sum (list OwnerReference) error :=
  inl [mkOwnerReference "WanReplication" (r_Name w) (r_UID w)].

Definition map1 (name : string) (finalizers : list string) : Map :=
  mkResource "ns" name "uid" [] finalizers false ∅
    (mkMapSpec (mkDataStructureSpec "" "hz" (Some 1) 0 "") 10 0 (mkEvictionConfig "NONE" 0 "PER_NODE") None [] false None
      "BINARY" [] None None None None)
    (mkDataStructureStatus DataStructureSuccess "" ∅).

Definition spec1 (name : string) : WanReplicationSpec :=
  mkWanReplicationSpec [mkResourceSpec name "Map"] "dev" "10.0.0.1:5701" (mkQueueSetting 100 "DISCARD_AFTER_MUTATION")
    (mkBatchSetting 10 500) (mkAcknowledgementSetting "ACK_ON_RECEIPT" 60) "".
Definition publisher (name : string) : string := ("w-" ++ wanMapKey "hz" name)%string.
Definition status1 (name s : string) : WanReplicationStatus :=
  mkWanReplicationStatus s "" {[wanMapKey "hz" name := mkWanReplicationMapStatus name (publisher name) s ""]}.
Definition wan1 (name : string) (deleting : bool) (st : WanReplicationStatus) : WanReplication :=
  mkResource "ns" "w" "uid" [] [n_Finalizer] deleting ∅ (spec1 name) st.

(** hazelcast.yaml with the publisher of the map. *)
Definition conf1 (name : string) : cfg_Hazelcast :=
  mk_cfg_Hazelcast cfg_Jet_zero "" cfg_Persistence_zero None None None None cfg_UserCodeDeployment_zero
    (Some {[wanName name := mk_cfg_WanReplicationConfig
       (Some {[publisher name := createBatchPublisherConfig (wan1 name false (status1 name WanStatusPending))]})]})
    None None None None None None cfg_PartitionGroup_zero cfg_NativeMemory_zero cfg_AdvancedNetwork_zero
    cfg_ManagementCenterConfig_zero cfg_Serialization_zero cfg_SQL_zero None cfg_CPSubsystem_zero
    cfg_UserCodeNamespaces_zero.

(** An environment in which everything works. *)
Definition answer (wan : WanReplication) (m : Map) (o : op) (_ : list event) : ans o :=
  match o as o return kube_ans o with
  | Get KWan _ => Found wan
  | Get KMap _ => Found m
  | Get _ _ => Failed (mkError ENotFound "not found")
  | ListByHz KMap _ _ => Found [m]
  | ListByHz _ _ _ | ListIn _ _ => Found []
  | GetHazelcast _ => Failed (mkError ENotFound "not found")
  | GetConfigSecret _ => Found (conf1 (DataStructureTypes.MapName m))
  | GetSecretData _ => Found ∅
  | GetOrCreate _ => Found true
  | Running _ => true
  | OrderedMembers _ => ["m1"; "m2"]
  | InvokeOnMember _ _ _ | InvokeOnRandomTarget _ _ => Found NewClientMessageForEncode
  | GetStatusService _ => Some ["10.1.0.1:5701"; "10.1.0.2:5701"]
  | GetConfigMap _ => Failed (errors_New "not found")
  | GetJetJob _ => Failed (errors_New "not found")
  | MemberAddresses _ => []
  | Now => 0
  | GoSync _ _ | GoExport _ _ _ _ _ => tt
  | _ => None
  end.

Definition key : NamespacedName := ("ns", "w").
Definition result : Type := list event * option (outcome reconcile_result).
Definition wan_run (wan : WanReplication) (m : Map) : result := run (answer wan m) (Wan_Reconcile set_owner key) [].

Lemma wan_exec wan m o : (wan_run wan m).2 = Some o -> exec (Wan_Reconcile set_owner key) (wan_run wan m).1 o.
Proof. apply run_exec_2. Qed.

(** A map whose publisher is in the configuration. *)
Definition persisting_run : result := wan_run (wan1 "m" false (status1 "m" WanStatusPersisting)) (map1 "m" [n_WanRepMapFinalizer]).

Definition stores_success (e : event) : bool :=
  match ev_op e with StatusUpdate KWan w => strb (ws_Status (r_Status w)) WanStatusSuccess | _ => false end.

Lemma wan_success_witness : exists (t1 : list event) (w0 w : WanReplication), ws_Status (r_Status w) = WanStatusSuccess /\ ev_wan key w0 ∈ t1
  /\ (ws_Status (r_Status w0) = WanStatusSuccess \/ ws_Maps (r_Status w) <> ∅).
Proof.
  destruct (find_event (F := kube_effects) stores_success persisting_run.1) as (t1 & [c x] & t2 & Ht & He); [vm_compute; reflexivity|].
  unfold stores_success in He. cbn [ev_op] in He. destruct c as [| |k w| | | | | | | | | | | | | | | | | | | | | |]; try discriminate He.
  destruct k; try discriminate He. apply strb_true in He.
  destruct (wan_success_justified set_owner key t1 w x t2 (Returned (ctrl_Result_zero, None))) as (w0 & E0 & _ & Hs).
  { rewrite <- Ht. apply wan_exec. vm_compute. reflexivity. }
  exists t1, w0, w. split; [exact He|]. split; [exact E0|]. destruct (Hs He) as [Hw|[Hw _]]; [left|right]; exact Hw.
Defined.

(** A resource that is deleted. *)
Definition deleting_run : result := wan_run (wan1 "m" true (status1 "m" WanStatusSuccess)) (map1 "m" [n_WanRepMapFinalizer]).
Lemma deleting_exec : exec (Wan_Reconcile set_owner key) deleting_run.1 (Returned (ctrl_Result_zero, None)).
Proof. apply wan_exec. vm_compute. reflexivity. Qed.

Definition drops_finalizer (e : event) : bool :=
  match ev_op e with Update KWan w => negb (bool_decide (n_Finalizer ∈ r_Finalizers w)) | _ => false end.
Definition drops_map_finalizer (e : event) : bool :=
  match ev_op e with Update KMap m => negb (bool_decide (n_WanRepMapFinalizer ∈ r_Finalizers m)) | _ => false end.

Lemma wan_finalizer_witness : exists (t1 : list event) (w0 : WanReplication), ev_wan key w0 ∈ t1 /\ r_Deleting w0 = true.
Proof.
  destruct (find_event (F := kube_effects) drops_finalizer deleting_run.1) as (t1 & [c x] & t2 & Ht & He); [vm_compute; reflexivity|].
  unfold drops_finalizer in He. cbn [ev_op] in He. destruct c as [|k w| | | | | | | | | | | | | | | | | | | | | | |]; try discriminate He.
  destruct k; try discriminate He. apply negb_true_iff, bool_decide_eq_false in He.
  destruct (wan_finalizer_released set_owner key t1 w x t2 (Returned (ctrl_Result_zero, None))) as (w0 & E0 & Hd & _).
  - rewrite <- Ht. exact deleting_exec.
  - exact He.
  - exists t1, w0. split; [exact E0|exact Hd].
Defined.

Lemma wan_map_finalizer_witness : exists (t1 : list event) (m : Map), map_read t1 m.
Proof.
  destruct (find_event (F := kube_effects) drops_map_finalizer deleting_run.1) as (t1 & [c x] & t2 & Ht & He); [vm_compute; reflexivity|].
  unfold drops_map_finalizer in He. cbn [ev_op] in He. destruct c as [|k m| | | | | | | | | | | | | | | | | | | | | | |]; try discriminate He.
  destruct k; try discriminate He. apply negb_true_iff, bool_decide_eq_false in He.
  destruct (wan_map_finalizer_released set_owner key t1 m x t2 (Returned (ctrl_Result_zero, None))) as (m0 & Hm & _).
  - rewrite <- Ht. exact deleting_exec.
  - exact He.
  - exists t1, m0. exact Hm.
Defined.

(** A resource whose map has no publisher yet. *)
Definition starting_run : result := wan_run (wan1 "m" false (mkWanReplicationStatus "" "" ∅)) (map1 "m" []).
Definition adds_publisher (e : event) : bool := match ev_op e with InvokeOnRandomTarget _ _ => true | _ => false end.

Lemma wan_publisher_witness : exists (t1 : list event) (w0 : WanReplication), ev_wan key w0 ∈ t1 /\ ValidateWanReplicationSpec w0 = None.
Proof.
  destruct (find_event (F := kube_effects) adds_publisher starting_run.1) as (t1 & [c x] & t2 & Ht & He); [vm_compute; reflexivity|].
  unfold adds_publisher in He. cbn [ev_op] in He. destruct c as [| | | | | | | | | | | |hz req| | | | | | | | | | | |]; try discriminate He.
  destruct (wan_publisher_justified set_owner key t1 hz req x t2 (Returned (ctrl_Result_zero, None))) as (w0 & w & m & E0 & _ & Hv & _).
  - rewrite <- Ht. apply wan_exec. vm_compute. reflexivity.
  - exists t1, w0. split; [exact E0|exact Hv].
Defined.

(** A map with a double underscore in its name. *)
Definition dunder_wan : WanReplication := wan1 "my__map" false (status1 "my__map" WanStatusPersisting).
Definition dunder_groups : gmap string (list Map) := {["hz" := [map1 "my__map" []]]}.
Definition dunder_run : result := run (answer dunder_wan (map1 "my__map" [])) (wan_apply set_owner dunder_wan dunder_groups) [].
Definition dunder_outcome : outcome reconcile_result :=
  match dunder_run.2 with Some o => o | None => Exhausted end.

Lemma dunder_witness : exists e, dunder_outcome = Returned (ctrl_Result_zero, Some e).
Proof.
  assert (He : exec (wan_apply set_owner dunder_wan dunder_groups) dunder_run.1 dunder_outcome)
    by (apply run_exec_2; vm_compute; reflexivity).
  destruct (wrongly_split_key_blocks_wan set_owner dunder_wan dunder_groups "hz__my__map"
    (mkWanReplicationMapStatus "my__map" "w-hz__my__map" WanStatusPersisting "") "hz" "my" dunder_run.1 dunder_outcome)
    as [Hr _]; [vm_compute; reflexivity|discriminate|vm_compute; reflexivity| |exact He|].
  - assert (Hd : default [] (dunder_groups !! "hz") = [map1 "my__map" []])
      by (unfold dunder_groups; by rewrite lookup_singleton_eq).
    intros m Hm. rewrite Hd in Hm. apply list_elem_of_singleton in Hm as ->. discriminate.
  - assert (Ho : exists r, dunder_outcome = Returned r) by (vm_compute; by eexists).
    destruct Ho as [r Ho]. destruct (Hr r Ho) as [e ->]. by exists e.
Defined.
End WanRuns.
