(* ===== verification/DataStructures.v ===== *)
(** * The data structure controllers

    src/internal/controller/hazelcast/data_structure_controller.go and
    data_structure_status.go, and the five controllers built on them:
    multimap_controller.go, topic_controller.go, replicatedmap_controller.go,
    queue_controller.go and cache_controller.go.

    A reconciliation validates the resource, sends its configuration to every
    member that has not acknowledged it yet, waits until hazelcast.yaml holds
    it, and records the spec.  The phone home trigger and logging are left
    out. *)

From S2P Require Import Prelude Eff FieldValidation Json HazelcastTypes DataStructureTypes HazelcastValidation HazelcastValidationFacts MapValidation ConfigTypes Proto CodecBuiltin CodecTypes CodecConfig CodecExtra CodecRequests DataStructureConfig DataStructureValidation WanTypes Kube.
#[local] Open Scope prog_scope.
#[local] Open Scope string_scope.
#[local] Open Scope list_scope.
#[local] Open Scope Z_scope.

Definition retryAfterForDataStructures : Z := 5.
Definition hz_Running : string := "Running".

(** ** data_structure_status.go *)

Inductive DSStatusApplier :=
| withDSState (s : string)
| withDSFailedState (msg : string)
| withDSMessage (msg : string)
| withDSMemberStatuses (ms : gmap string string).

Definition DSStatusApply (ds : DataStructureStatus) (w : DSStatusApplier) : DataStructureStatus :=
  match w with
  | withDSState s =>
      mkDataStructureStatus s (if strb s DataStructureSuccess then "" else st_Message ds) (st_MemberStatuses ds)
  | withDSFailedState msg => mkDataStructureStatus DataStructureFailed msg (st_MemberStatuses ds)
  | withDSMessage msg => mkDataStructureStatus (st_State ds) msg (st_MemberStatuses ds)
  | withDSMemberStatuses ms => mkDataStructureStatus (st_State ds) (st_Message ds) ms
  end.

Section DataStructures.
Context `{P : Proto} `{R : MapRange} `{EJ : EventJson} `{QL : QuantityLib} `{Y : YamlLib}.
Context `{!HazelcastJson} `{KE : KErrors} `{JT : JsonText}.

Section Kind.
Context (d : ds_kind).
Abbreviation k := (KDS d).
Abbreviation reconcile_result := (ctrl_Result * option error)%type.

(** What [updateDSStatus] returns, from the answer of the API server. *)
Definition status_result (state : string) (recOption : ReconcilerOption) (err : option error) : reconcile_result :=
  match err with
  | Some e => if IsConflict e then (ctrl_Result_zero, None) else (ctrl_Result_zero, Some e)
  | None =>
      match ro_Err recOption with
      | Some e => (ctrl_Result_zero, Some e)
      | None =>
          if strb state DataStructurePending || strb state DataStructurePersisting
          then (mkResult true (ro_RetryAfter recOption), None)
          else (ctrl_Result_zero, None)
      end
  end.

Definition updateDSStatus (o : ds_obj d) (recOption : ReconcilerOption) (options : list DSStatusApplier)
  : prog (ds_obj d * reconcile_result) :=
  let o : ds_obj d := set_Status o (foldl DSStatusApply (r_Status o) options) in
  ask err <- StatusUpdate k o ;;
  Done (o, status_result (st_State (r_Status o)) recOption err).

(** ** data_structure_controller.go *)

(** [isDSPersisted]: whether the resource goes into hazelcast.yaml, and with
    which spec.  The recorded spec is decoded into the current one. *)
Definition isDSPersisted (o : ds_obj d) : option (ds_obj d) :=
  let s := st_State (r_Status o) in
  if strb s DataStructurePersisting || strb s DataStructureSuccess then Some o
  else if strb s DataStructureFailed || strb s DataStructurePending then
    match r_Annotations o !! n_LastSuccessfulSpecAnnotation with
    | Some spec => match SetSpec o spec with inl o' => Some o' | inr _ => None end
    | None => None
    end
  else None.

Definition getCR (nn : NamespacedName) : prog (fetched (ds_obj d)) :=
  ask got <- Get k nn ;;
  match (got : fetched (ds_obj d)) with
  | Found o => Done (Found o)
  | Failed e => Done (Failed (if IsNotFound e then e else wrap "failed to get resource: " e))
  end.

Definition startDelete (o : ds_obj d) : prog (ds_obj d * option error) :=
  r <- updateDSStatus o recoptions_Empty [withDSState DataStructureTerminating] ;;
  executeFinalizer k r.1.

(** The result that stops a reconciliation, if any. *)
Definition handleCreatedBefore (o : ds_obj d) : prog (option reconcile_result) :=
  match r_Annotations o !! n_LastSuccessfulSpecAnnotation with
  | None => Done None
  | Some s =>
      match GetSpec o with
      | inr err => r <- updateDSStatus o (recoptions_Error err) [withDSFailedState (err_msg err)] ;; Done (Some r.2)
      | inl mms =>
          if strb s mms then
            r <- updateDSStatus o recoptions_Empty [withDSState DataStructureSuccess] ;; Done (Some r.2)
          else Done None
      end
  end.

Definition ds_fail (o : ds_obj d) (e : error) (msg : string) : prog reconcile_result :=
  r <- updateDSStatus o (recoptions_Error e) [withDSFailedState msg] ;; Done r.2.

(** The name of a usable client, or the result that stops the
    reconciliation. *)
Definition getHZClient (o : ds_obj d) (h : Hazelcast) : prog (sum NamespacedName reconcile_result) :=
  let stop p := r <- p ;; Done (inr (r : reconcile_result)) in
  if negb (strb (st_Phase (h_Status h)) hz_Running) then
    stop (ds_fail o (errors_New "Hazelcast CR is not ready") "Hazelcast CR is not ready")
  else
    let hz := (h_Namespace h, h_Name h) in
    ask got <- GetOrCreate hz ;;
    match (got : fetched bool) with
    | Failed _ =>
        let err := errors_New ("Internal error occurred: cannot connect to the cluster for " ++ h_Name h) in
        stop (ds_fail o err (err_msg err))
    | Found false => Crash
    | Found true =>
        ask running <- Running hz ;;
        if (running : bool) then Done (inl hz) else
        r <- updateDSStatus o (recoptions_RetryAfter retryAfterForDataStructures)
               [withDSState DataStructurePending;
                withDSMessage ("trying to connect to the cluster " ++ h_Name h)] ;;
        Done (inr r.2)
    end.

Definition initialSetupDS (nn : NamespacedName)
  : prog (sum (ds_obj d * NamespacedName) reconcile_result) :=
  let stop {A} (p : prog A) (f : A -> reconcile_result) : prog (sum (ds_obj d * NamespacedName) reconcile_result) :=
    r <- p ;; Done (inr (f r)) in
  got <- getCR nn ;;
  match got with
  | Failed e => Done (inr (ctrl_Result_zero, Some e))
  | Found o =>
  af <- AddFinalizer k o ;;
  let o : ds_obj d := af.1 in
  match af.2 with
  | Some e => stop (ds_fail o e (err_msg e)) id
  | None =>
  if r_Deleting o then
    del <- startDelete o ;;
    match del.2 with
    | Some e => stop (updateDSStatus del.1 (recoptions_Error e)
                        [withDSState DataStructureTerminating; withDSMessage (err_msg e)]) snd
    | None => Done (inr (ctrl_Result_zero, None))
    end
  else
  ask hz <- GetHazelcast (nn.1, GetHZResourceName o) ;;
  match (hz : fetched Hazelcast) with
  | Failed e =>
      let e := wrap ("could not create/update " ++ ds_Kind (S := ds_spec d) ++ " config: Hazelcast resource not found: ") e in
      stop (ds_fail o e (err_msg e)) id
  | Found h =>
  before <- handleCreatedBefore o ;;
  match before with
  | Some r => Done (inr r)
  | None =>
  match ValidateSpecCurrent o h with
  | Some e => stop (ds_fail o e ("could not validate current spec: " ++ err_msg e)) id
  | None =>
  match ValidateSpecUpdate o with
  | Some e => stop (ds_fail o e ("could not validate update in spec: " ++ err_msg e)) id
  | None =>
  cl <- getHZClient o h ;;
  match cl with
  | inr r => Done (inr r)
  | inl hz =>
  if negb (strb (st_State (r_Status o)) DataStructurePersisting) then
    r <- updateDSStatus o recoptions_Empty
           [withDSState DataStructurePending;
            withDSMessage ("Applying new " ++ ds_Kind (S := ds_spec d) ++ " configuration.")] ;;
    match r.2.2 with
    | Some e => Done (inr r.2)
    | None => Done (inl (r.1, hz))
    end
  else Done (inl (o, hz))
  end end end end end end end.

Definition updateLastSuccessfulConfigurationDS (o : ds_obj d) : prog (ds_obj d * option error) :=
  match GetSpec o with
  | inr e => Done (o, Some e)
  | inl spec => UpdateAnnotation k o n_LastSuccessfulSpecAnnotation spec
  end.

Definition finalSetupDS (o : ds_obj d) : prog reconcile_result :=
  u <- updateLastSuccessfulConfigurationDS o ;;
  r <- updateDSStatus u.1 recoptions_Empty
         [withDSState DataStructureSuccess; withDSMessage ""; withDSMemberStatuses ∅] ;;
  Done r.2.

Definition sendCodecRequest (hz : NamespacedName) (o : ds_obj d) (req : ClientMessage)
  : prog (gmap string string * option error) :=
  ask members <- OrderedMembers hz ;;
  r <- send_to_members hz (st_MemberStatuses (r_Status o)) req members ∅ [] ;;
  match r.2 with
  | [] => Done (r.1, None)
  | failed => Done (r.1, Some (errors_New ("error creating/updating the MultiMap config " ++ GetDSName o
                ++ " for members " ++ join_names failed)))
  end.

Definition getHzNamespacedName (o : ds_obj d) : NamespacedName := (r_Namespace o, GetHZResourceName o).
End Kind.

(** ** The five controllers *)

Definition MultiMap_request (mm : MultiMap) : res ClientMessage :=
  bind_res (fillMultiMapConfigInput DefaultMultiMapConfigInput mm) EncodeDynamicConfigAddMultiMapConfigRequest.
Definition Topic_request (t : Topic) : res ClientMessage :=
  bind_res (fillTopicConfigInput DefaultTopicConfigInput t) EncodeDynamicConfigAddTopicConfigRequest.
Definition ReplicatedMap_request (rm : ReplicatedMap) : res ClientMessage :=
  bind_res (fillReplicatedConfigInput DefaultReplicatedMapConfigInput rm) EncodeDynamicConfigAddReplicatedMapConfigRequest.
Definition Queue_request (q : Queue) : res ClientMessage :=
  bind_res (fillQueueConfigInput DefaultQueueConfigInput q) EncodeDynamicConfigAddQueueConfigRequest.
Definition Cache_request (c : Cache) : res ClientMessage :=
  bind_res (fillCacheConfigInput DefaultCacheConfigInput c) EncodeDynamicConfigAddCacheConfigRequest.

Definition ds_request (d : ds_kind) : ds_obj d -> res ClientMessage :=
  match d with
  | MultiMapKind => MultiMap_request
  | TopicKind => Topic_request
  | ReplicatedMapKind => ReplicatedMap_request
  | QueueKind => Queue_request
  | CacheKind => Cache_request
  end.

(** An entry of a section of the persisted configuration is the one the
    resource asks for. *)
Definition entry_is `{EqDecision C} (section : option (gmap string C)) (name : string) (current : res C) : res bool :=
  match default ∅ section !! name with
  | None => Ret false
  | Some cfg => bind_res current (fun c => Ret (bool_decide (cfg = c)))
  end.

Definition MultiMap_persisted (c : cfg_Hazelcast) (mm : MultiMap) : res bool :=
  entry_is (cfg_Hazelcast_MultiMap c) (MultiMap_GetDSName mm) (createMultiMapConfig mm).
Definition Topic_persisted (c : cfg_Hazelcast) (t : Topic) : res bool :=
  entry_is (cfg_Hazelcast_Topic c) (Topic_GetDSName t) (createTopicConfig t).
Definition ReplicatedMap_persisted (c : cfg_Hazelcast) (rm : ReplicatedMap) : res bool :=
  entry_is (cfg_Hazelcast_ReplicatedMap c) (ReplicatedMap_GetDSName rm) (createReplicatedMapConfig rm).
Definition Queue_persisted (c : cfg_Hazelcast) (q : Queue) : res bool :=
  entry_is (cfg_Hazelcast_Queue c) (Queue_GetDSName q) (createQueueConfig q).
Definition Cache_persisted (cfg : cfg_Hazelcast) (c : Cache) : res bool :=
  entry_is (cfg_Hazelcast_Cache cfg) (Cache_GetDSName c) (createCacheConfig c).

Definition ds_persisted (d : ds_kind) (c : cfg_Hazelcast) : ds_obj d -> res bool :=
  match d with
  | MultiMapKind => MultiMap_persisted c
  | TopicKind => Topic_persisted c
  | ReplicatedMapKind => ReplicatedMap_persisted c
  | QueueKind => Queue_persisted c
  | CacheKind => Cache_persisted c
  end.

Definition validateConfigPersistence (d : ds_kind) (o : ds_obj d) : prog (fetched bool) :=
  got <- getHazelcastConfig (getHzNamespacedName d o) ;;
  match got with
  | Failed e => Done (Failed e)
  | Found c => b <- lift_res (ds_persisted d c o) ;; Done (Found b)
  end.

Definition ReconcileConfig (d : ds_kind) (hz : NamespacedName) (o : ds_obj d)
  : prog (gmap string string * option error) :=
  req <- lift_res (ds_request d o) ;;
  sendCodecRequest d hz o req.

(** [Reconcile] of the five controllers, which differ in two messages. *)
Definition reconcileDS (d : ds_kind) (persisting waiting : string) (nn : NamespacedName)
  : prog (ctrl_Result * option error) :=
  setup <- initialSetupDS d nn ;;
  match setup with
  | inr (res, err) =>
      match err with
      | Some e => if IsNotFound e then Done (ctrl_Result_zero, None) else Done (res, None)
      | None => Done (res, None)
      end
  | inl (o, hz) =>
  ms <- ReconcileConfig d hz o ;;
  match ms.2 with
  | Some e =>
      r <- updateDSStatus d o (recoptions_RetryAfter retryAfterForDataStructures)
             [withDSState DataStructurePending; withDSMessage (err_msg e); withDSMemberStatuses ms.1] ;;
      Done r.2
  | None =>
  r <- updateDSStatus d o (recoptions_RetryAfter 1)
         [withDSState DataStructurePersisting; withDSMessage persisting; withDSMemberStatuses ms.1] ;;
  match r.2.2 with
  | Some _ => Done r.2
  | None =>
  let o := r.1 in
  persisted <- validateConfigPersistence d o ;;
  match persisted with
  | Failed e => r <- updateDSStatus d o (recoptions_Error e) [withDSFailedState (err_msg e)] ;; Done r.2
  | Found false =>
      r <- updateDSStatus d o (recoptions_RetryAfter 1)
             [withDSState DataStructurePersisting; withDSMessage waiting; withDSMemberStatuses ms.1] ;;
      Done r.2
  | Found true => finalSetupDS d o
  end end end end.

Definition MultiMap_Reconcile : NamespacedName -> prog (ctrl_Result * option error) :=
  reconcileDS MultiMapKind "Persisting the applied MultiMap config." "Waiting for MultiMap Config to be persisted.".
Definition Topic_Reconcile : NamespacedName -> prog (ctrl_Result * option error) :=
  reconcileDS TopicKind "Persisting the applied multiMap config." "Waiting for Cache Config to be persisted.".
Definition ReplicatedMap_Reconcile : NamespacedName -> prog (ctrl_Result * option error) :=
  reconcileDS ReplicatedMapKind "Persisting the applied multiMap config."
    "Waiting for ReplicatedMap Config to be persisted.".
Definition Queue_Reconcile : NamespacedName -> prog (ctrl_Result * option error) :=
  reconcileDS QueueKind "Persisting the applied multiMap config." "Waiting for Queue Config to be persisted.".
Definition Cache_Reconcile : NamespacedName -> prog (ctrl_Result * option error) :=
  reconcileDS CacheKind "Persisting the applied cache config." "Waiting for Cache Config to be persisted.".

Definition DS_Reconcile (d : ds_kind) : NamespacedName -> prog (ctrl_Result * option error) :=
  match d with
  | MultiMapKind => MultiMap_Reconcile
  | TopicKind => Topic_Reconcile
  | ReplicatedMapKind => ReplicatedMap_Reconcile
  | QueueKind => Queue_Reconcile
  | CacheKind => Cache_Reconcile
  end.
End DataStructures.
