(* ===== verification/ConfigSecret.v ===== *)
(** * hazelcast.yaml and the executor services of a running cluster

    The part of src/internal/controller/hazelcast/hazelcast_resources.go that
    collects the resources of a cluster and produces the document stored in
    its secret ([hazelcastConfig] and the [filter...] functions), what the
    init container of a member downloads ([initContainerConfig]), and the
    requests that add new executor services ([addExecutorServices]). *)

From S2P Require Import Prelude Eff FieldValidation Json GoPath HazelcastTypes DataStructureTypes HazelcastValidation HazelcastValidationFacts MapValidation ConfigTypes CustomConfig Proto CodecBuiltin CodecTypes CodecConfig CodecExtra CodecRequests DataStructureConfig DataStructureValidation WanTypes HazelcastConfig Kube DataStructures.
#[local] Open Scope prog_scope.
#[local] Open Scope string_scope.
#[local] Open Scope list_scope.
#[local] Open Scope Z_scope.

Definition n_HazelcastCustomConfigOverwriteAnnotation : string := "hazelcast.com/custom-config-overwrite".
Definition n_UserCodeBucketPath : string := "/opt/hazelcast/userCode/bucket".
Definition n_JetJobJarsPath : string := "/opt/hazelcast/jetJobJars".

(** ** The JSON of a user code namespace *)

Definition BucketConfiguration_encode (b : BucketConfiguration) : json := JObj (
  jfield "secret" (JStr (bc_DeprecatedSecret b)) ++
  jfield "secretName" (JStr (bc_SecretName b)) ++
  jfield "bucketURI" (JStr (bc_BucketURI b))).
Definition BucketConfiguration_decode : decoder BucketConfiguration := dec_obj (fun fs old =>
  (s <-? dec_field fs "secret" dec_str (bc_DeprecatedSecret old) ;;
   n <-? dec_field fs "secretName" dec_str (bc_SecretName old) ;;
   u <-? dec_field fs "bucketURI" dec_str (bc_BucketURI old) ;;
   inl (mkBucketConfiguration s n u))%json).

Definition UserCodeNamespaceSpec_encode (s : UserCodeNamespaceSpec) : json := JObj (
  omit_ptr "bucketConfig" BucketConfiguration_encode (ucn_BucketConfiguration s) ++
  jfield "hazelcastResourceName" (JStr (ucn_HazelcastResourceName s))).
Definition UserCodeNamespaceSpec_decode : decoder UserCodeNamespaceSpec := dec_obj (fun fs old =>
  (b <-? dec_field fs "bucketConfig" (dec_ptr (mkBucketConfiguration "" "" "") BucketConfiguration_decode)
           (ucn_BucketConfiguration old) ;;
   hz <-? dec_field fs "hazelcastResourceName" dec_str (ucn_HazelcastResourceName old) ;;
   inl (mkUserCodeNamespaceSpec hz b))%json).
Definition UserCodeNamespaceSpec_zero : UserCodeNamespaceSpec := mkUserCodeNamespaceSpec "" None.

Section ConfigSecret.
Context `{P : Proto} `{R : MapRange} `{EJ : EventJson} `{QL : QuantityLib} `{Y : YamlLib} `{YT : !YamlTree}.
Context `{!HazelcastJson} `{!MapJson} `{KE : KErrors} `{JT : JsonText}.

(** Go's early return of an error. *)
Definition fbind {A B} (p : prog (fetched A)) (f : A -> prog (fetched B)) : prog (fetched B) :=
  r <- p ;;
  match r with Found a => f a | Failed e => Done (Failed e) end.

(** ** The resources that belong into the configuration *)

Definition persisted_map (mp : Map) : option Map :=
  let s := st_State (r_Status mp) in
  if strb s DataStructurePersisting || strb s DataStructureSuccess then Some mp
  else if strb s DataStructureFailed || strb s DataStructurePending then
    match r_Annotations mp !! n_LastSuccessfulSpecAnnotation with
    | Some spec => match MapSpec_Unmarshal spec with inl ms => Some (set_Spec mp ms) | inr _ => None end
    | None => None
    end
  else None.

Definition filterPersistedMaps (h : Hazelcast) : prog (fetched (list Map)) :=
  ask got <- ListByHz KMap (h_Namespace h) (h_Name h) ;;
  match (got : fetched (list Map)) with
  | Failed e => Done (Failed e)
  | Found l => Done (Found (omap persisted_map l))
  end.

Definition filterPersistedDS (d : ds_kind) (h : Hazelcast) : prog (fetched (list (ds_obj d))) :=
  ask got <- ListByHz (KDS d) (h_Namespace h) (h_Name h) ;;
  match (got : fetched (list (ds_obj d))) with
  | Failed e => Done (Failed e)
  | Found l => Done (Found (omap (isDSPersisted d) l))
  end.

Definition persisted_ucn (u : UserCodeNamespace) : option UserCodeNamespace :=
  let s := ucn_State (r_Status u) in
  if strb s UserCodeNamespaceSuccess then Some u
  else if strb s UserCodeNamespaceFailure || strb s UserCodeNamespacePending then
    match r_Annotations u !! n_LastSuccessfulSpecAnnotation with
    | Some spec =>
        match json_Unmarshal UserCodeNamespaceSpec_decode spec UserCodeNamespaceSpec_zero with
        | inl us => Some (set_Spec u us)
        | inr _ => None
        end
    | None => None
    end
  else None.

Definition filterUserCodeNamespaces (h : Hazelcast) : prog (fetched (list UserCodeNamespace)) :=
  ask got <- ListByHz KUcn (h_Namespace h) (h_Name h) ;;
  match (got : fetched (list UserCodeNamespace)) with
  | Failed e => Done (Failed e)
  | Found l => Done (Found (omap persisted_ucn l))
  end.

(** The maps of one WAN replication, added to the lists by key. *)
Fixpoint persisted_wan_maps (hzName : string) (wr : WanReplication) (l : gmap string (list WanReplication))
    (maps : list (string * WanReplicationMapStatus)) : res (gmap string (list WanReplication)) :=
  match maps with
  | [] => Ret l
  | (wanKey, mapStatus) :: maps =>
      bind_res (splitWanMapKey wanKey) (fun key =>
      if negb (strb key.1 hzName) then persisted_wan_maps hzName wr l maps
      else if strb (wm_Status mapStatus) WanStatusPersisting || strb (wm_Status mapStatus) WanStatusSuccess then
        persisted_wan_maps hzName wr (<[wanKey := default [] (l !! wanKey) ++ [wr]]> l) maps
      else persisted_wan_maps hzName wr l maps)
  end.
Fixpoint persisted_wans (hzName : string) (l : gmap string (list WanReplication)) (wrs : list WanReplication)
  : res (gmap string (list WanReplication)) :=
  match wrs with
  | [] => Ret l
  | wr :: wrs =>
      bind_res (persisted_wan_maps hzName wr l (go_range (ws_Maps (r_Status wr)))) (fun l => persisted_wans hzName l wrs)
  end.

Definition filterPersistedWanReplications (h : Hazelcast) : prog (fetched (gmap string (list WanReplication))) :=
  ask got <- ListByHz KWan (h_Namespace h) (h_Name h) ;;
  match (got : fetched (list WanReplication)) with
  | Failed e => Done (Failed e)
  | Found l => m <- lift_res (persisted_wans (h_Name h) ∅ l) ;; Done (Found m)
  end.

(** ** Filling the configuration *)

Fixpoint map_sections (h : Hazelcast) (m : gmap string cfg_Map) (ml : list Map) : prog (fetched (gmap string cfg_Map)) :=
  match ml with
  | [] => Done (Found m)
  | mcfg :: ml =>
      fbind (createMapConfig (h_Namespace h) mcfg) (fun c =>
      map_sections h (<[DataStructureTypes.MapName mcfg := c]> m) ml)
  end.

Definition fillHazelcastConfigWithMaps (cfg : cfg_Hazelcast) (h : Hazelcast) (ml : list Map) : prog (fetched cfg_Hazelcast) :=
  match ml with
  | [] => Done (Found cfg)
  | _ => fbind (map_sections h ∅ ml) (fun m => Done (Found (with_Map cfg (Some m))))
  end.

Fixpoint fill_ds_sections (h : Hazelcast) (cfg : cfg_Hazelcast) (ds : list ds_kind) : prog (fetched cfg_Hazelcast) :=
  match ds with
  | [] => Done (Found cfg)
  | d :: ds =>
      fbind (filterPersistedDS d h) (fun l =>
      cfg <- lift_res (fill_ds_section d cfg l) ;;
      fill_ds_sections h cfg ds)
  end.

Definition dataStructures : list ds_kind := [MultiMapKind; TopicKind; ReplicatedMapKind; QueueKind; CacheKind].

(** The directory of a cluster whose configuration has another one than the
    default is kept. *)
Definition keep_base_dir (h : Hazelcast) (cfg : cfg_Hazelcast) : prog cfg_Hazelcast :=
  if Persistence_IsEnabled (s_Persistence (h_Spec h)) then
    existing <- getHazelcastConfig (h_Namespace h, h_Name h) ;;
    match existing with
    | Failed _ => Done cfg
    | Found existingConfig =>
        if strb (cfg_Persistence_BaseDir (cfg_Hazelcast_Persistence existingConfig)) n_BaseDir then Done cfg
        else
          let p := cfg_Hazelcast_Persistence cfg in
          Done (with_Persistence cfg (mk_cfg_Persistence (cfg_Persistence_Enabled p) n_PersistenceMountPath
            (path_Join [n_PersistenceMountPath; "hot-backup"]) (cfg_Persistence_Parallelism p)
            (cfg_Persistence_ValidationTimeoutSec p) (cfg_Persistence_ClusterDataRecoveryPolicy p)
            (cfg_Persistence_AutoRemoveStaleData p)))
    end
  else Done cfg.

(** The properties of the members, which replace those of the resource. *)
Definition config_properties (s : HazelcastSpec) : gmap string string :=
  let props := match s_Properties s with Some p => mergeProperties p | None => DefaultProperties end in
  if HazelcastSpec_IsTieredStorageEnabled s then <["hazelcast.tiered.store.force.enabled" := "true"]> props else props.

Definition set_Properties (h : Hazelcast) (props : gmap string string) : Hazelcast :=
  let s := h_Spec h in
  mkHazelcast (h_Name h) (h_Namespace h) (h_Annotations h) (h_Deleting h)
    (mkHazelcastSpec (s_ClusterSize s) (s_DeprecatedLicenseKeySecret s) (s_LicenseKeySecretName s) (s_ExposeExternally s)
       (s_Persistence s) (s_JetEngineConfiguration s) (s_HighAvailabilityMode s) (s_JVM s) (s_NativeMemory s)
       (s_AdvancedNetwork s) (s_TLS s) (s_CustomConfigCmName s) (s_SQL s) (s_LocalDevices s) (s_CPSubsystem s)
       (s_ClusterName s) (s_DeprecatedUserCodeDeployment s) (s_ExecutorServices s) (s_DurableExecutorServices s)
       (s_ScheduledExecutorServices s) (Some props) (s_ManagementCenterConfig s) (s_Serialization s) (s_UserCodeNamespaces s))
    (h_Status h).

(** The document, with the sections of the custom configuration if there is
    one. *)
Definition config_document (h : Hazelcast) (cfg : cfg_Hazelcast) : prog (fetched Document) :=
  if strb (s_CustomConfigCmName (h_Spec h)) "" then
    match yaml_Marshal cfg with Some doc => Done (Found doc) | None => Crash end
  else
    ask got <- GetConfigMap (h_Namespace h, s_CustomConfigCmName (h_Spec h)) ;;
    match (got : fetched (gmap string string * gmap string string)) with
    | Failed e => Done (Failed e)
    | Found (annotations, data) =>
        let overwrite := strb (default "" (annotations !! n_HazelcastCustomConfigOverwriteAnnotation)) "true" in
        match yaml_parse (default "" (data !! n_HazelcastCustomConfigKey)) with
        | inr e => Done (Failed e)
        | inl cfgMap =>
            merged <- lift_res (mergeConfig cfgMap cfg overwrite) ;;
            match merged with
            | inr e => Done (Failed e)
            | inl cfgMap => Done (Found (yaml_Marshal_sections cfgMap))
            end
        end
    end.

(** [hazelcastConfig] behind the mutation of the resource. *)
Definition member_config (h : Hazelcast) (cfg : cfg_Hazelcast) : prog (fetched Document) :=
  let cfg := fillHazelcastConfigWithProperties cfg h in
  let cfg := fillHazelcastConfigWithExecutorServices cfg h in
  let cfg := fillHazelcastConfigWithSerialization cfg h in
  fbind (filterPersistedMaps h) (fun ml =>
  fbind (fillHazelcastConfigWithMaps cfg h ml) (fun cfg =>
  fbind (filterPersistedWanReplications h) (fun wrl =>
  cfg <- lift_res (fillHazelcastConfigWithWanReplications cfg wrl) ;;
  fbind (filterUserCodeNamespaces h) (fun ucn =>
  let cfg := fillHazelcastConfigWithUserCodeNamespaces cfg h ucn in
  fbind (fill_ds_sections h cfg dataStructures) (fun cfg =>
  config_document h cfg))))).

(** The resource is returned too: the caller's object has its properties
    replaced. *)
Definition hazelcastConfig (h : Hazelcast) : prog (Hazelcast * fetched Document) :=
  cfg <- lift_res (hazelcastBasicConfig h) ;;
  cfg <- keep_base_dir h cfg ;;
  let h := set_Properties h (config_properties (h_Spec h)) in
  doc <- member_config h cfg ;;
  Done (h, doc).

(** ** The init container

    [compound.Download] of the agent: what is downloaded before a member
    starts. *)
Record bucket_download := mkBucketDownload { bd_BucketURI : string; bd_SecretName : string; bd_Destination : string }.
Record url_download := mkUrlDownload { ud_URLs : string; ud_Destination : string }.
Record Download := mkDownload {
  dl_Bundle : list bucket_download;
  dl_Buckets : list bucket_download;
  dl_URLs : list url_download;
}.

Fixpoint ucn_buckets (ns : list UserCodeNamespace) : res (list bucket_download) :=
  match ns with
  | [] => Ret []
  | ucn :: ns =>
      bind_res (deref (ucn_BucketConfiguration (r_Spec ucn))) (fun b =>
      bind_res (ucn_buckets ns) (fun l =>
      Ret (mkBucketDownload (bc_BucketURI b) (bc_SecretName b) (path_Join [n_UCNBucketPath; (r_Name ucn ++ ".zip")%string]) :: l)))
  end.

(** Each part that applies replaces what the parts before it have set. *)
Definition overwrite_download (b : bool) (d : option Download) (new : res Download) : res (option Download) :=
  if b then bind_res new (fun new => Ret (Some new)) else Ret d.

Definition init_download (h : Hazelcast) (bundle : option Download) : res (option Download) :=
  let ucn := s_DeprecatedUserCodeDeployment (h_Spec h) in
  let jet := s_JetEngineConfiguration (h_Spec h) in
  let bucket b dest := mkDownload [] [mkBucketDownload (bc_BucketURI b) (BucketConfiguration_GetSecretName b) dest] [] in
  let urls l dest := mkDownload [] [] [mkUrlDownload (String.concat "," l) dest] in
  bind_res (overwrite_download (UserCodeDeployment_IsBucketEnabled ucn) bundle
    (bind_res (deref ucn) (fun u => bind_res (deref (ud_BucketConfiguration u)) (fun b => Ret (bucket b n_UserCodeBucketPath)))))
  (fun d =>
  bind_res (overwrite_download (UserCodeDeployment_IsRemoteURLsEnabled ucn) d
    (bind_res (deref ucn) (fun u => Ret (urls (ud_RemoteURLs u) n_UserCodeBucketPath))))
  (fun d =>
  bind_res (overwrite_download (Jet_IsBucketEnabled jet) d
    (bind_res (deref jet) (fun j => bind_res (deref (j_BucketConfiguration j)) (fun b => Ret (bucket b n_JetJobJarsPath)))))
  (fun d =>
  overwrite_download (Jet_IsRemoteURLsEnabled jet) d
    (bind_res (deref jet) (fun j => Ret (urls (j_RemoteURLs j) n_JetJobJarsPath)))))).

(** [initContainerConfig] up to the restoration of a backup. *)
Definition initContainerConfig (h : Hazelcast) : prog (fetched (option Download)) :=
  if UserCodeNamespaces_IsEnabled (s_UserCodeNamespaces (h_Spec h)) then
    fbind (filterUserCodeNamespaces h) (fun ns =>
    buckets <- lift_res (ucn_buckets ns) ;;
    d <- lift_res (init_download h (match ns with [] => None | _ => Some (mkDownload buckets [] []) end)) ;;
    Done (Found d))
  else
    d <- lift_res (init_download h None) ;;
    Done (Found d).

(** ** Executor services of a running cluster *)

Record ExecutorServices := mkExecutorServices {
  new_es : list ExecutorServiceConfiguration;
  new_des : list DurableExecutorServiceConfiguration;
  new_ses : list ScheduledExecutorServiceConfiguration;
}.

Definition new_services {A} (name : A -> string) (last current : list A) : list A :=
  let exist : gset string := list_to_set (name <$> last) in
  filter (fun es => name es ∉ exist) current.

Definition detectNewExecutorServices (h : Hazelcast) (lastSpec : HazelcastSpec) : ExecutorServices :=
  let currentSpec := h_Spec h in
  mkExecutorServices
    (new_services es_Name (s_ExecutorServices lastSpec) (s_ExecutorServices currentSpec))
    (new_services des_Name (s_DurableExecutorServices lastSpec) (s_DurableExecutorServices currentSpec))
    (new_services ses_Name (s_ScheduledExecutorServices lastSpec) (s_ScheduledExecutorServices currentSpec)).

Definition DefaultAddExecutorServiceInput : ExecutorServiceConfig := mkExecutorServiceConfig "" 0 0 true "" "".
Definition DefaultAddDurableExecutorServiceInput : DurableExecutorServiceConfig :=
  mkDurableExecutorServiceConfig "" 0 0 0 true "" "".
Definition DefaultAddScheduledExecutorServiceInput : ScheduledExecutorServiceConfig :=
  mkScheduledExecutorServiceConfig "" 0 0 0 "" true "PutIfAbsentMergePolicy" 100 "" "".

Definition fillAddExecutorServiceInput (i : ExecutorServiceConfig) (es : ExecutorServiceConfiguration)
  : ExecutorServiceConfig :=
  mkExecutorServiceConfig (es_Name es) (es_PoolSize es) (es_QueueCapacity es)
    (ExecutorServiceConfig_StatisticsEnabled i) (ExecutorServiceConfig_SplitBrainProtectionName i) (es_UserCodeNamespace es).
Definition fillAddDurableExecutorServiceInput (i : DurableExecutorServiceConfig) (es : DurableExecutorServiceConfiguration)
  : DurableExecutorServiceConfig :=
  mkDurableExecutorServiceConfig (des_Name es) (des_PoolSize es) (des_Durability es) (des_Capacity es)
    (DurableExecutorServiceConfig_StatisticsEnabled i) (DurableExecutorServiceConfig_SplitBrainProtectionName i)
    (des_UserCodeNamespace es).
Definition fillAddScheduledExecutorServiceInput (i : ScheduledExecutorServiceConfig)
    (es : ScheduledExecutorServiceConfiguration) : ScheduledExecutorServiceConfig :=
  mkScheduledExecutorServiceConfig (ses_Name es) (ses_PoolSize es) (ses_Durability es) (ses_Capacity es)
    (ses_CapacityPolicy es) (ScheduledExecutorServiceConfig_StatisticsEnabled i)
    (ScheduledExecutorServiceConfig_MergePolicy i) (ScheduledExecutorServiceConfig_MergeBatchSize i)
    (ScheduledExecutorServiceConfig_SplitBrainProtectionName i) (ses_UserCodeNamespace es).

(** The answer of a member is dropped. *)
Fixpoint invoke_all (hz : NamespacedName) (req : ClientMessage) (members : list string) : prog unit :=
  match members with
  | [] => Done tt
  | uuid :: members => do_ InvokeOnMember hz uuid req ;; invoke_all hz req members
  end.

Fixpoint add_services {A} (hz : NamespacedName) (request : A -> res ClientMessage) (l : list A) : prog unit :=
  match l with
  | [] => Done tt
  | es :: l =>
      req <- lift_res (request es) ;;
      ask members <- OrderedMembers hz ;;
      invoke_all hz req members ;;
      add_services hz request l
  end.

Definition es_request (es : ExecutorServiceConfiguration) : res ClientMessage :=
  EncodeDynamicConfigAddExecutorConfigRequest (fillAddExecutorServiceInput DefaultAddExecutorServiceInput es).
Definition des_request (es : DurableExecutorServiceConfiguration) : res ClientMessage :=
  EncodeDynamicConfigAddDurableExecutorConfigRequest
    (fillAddDurableExecutorServiceInput DefaultAddDurableExecutorServiceInput es).
Definition ses_request (es : ScheduledExecutorServiceConfiguration) : res ClientMessage :=
  EncodeDynamicConfigAddScheduledExecutorConfigRequest
    (fillAddScheduledExecutorServiceInput DefaultAddScheduledExecutorServiceInput es).

Definition addExecutorServices (hz : NamespacedName) (newExecutorServices : ExecutorServices) : prog unit :=
  add_services hz es_request (new_es newExecutorServices) ;;
  add_services hz des_request (new_des newExecutorServices) ;;
  add_services hz ses_request (new_ses newExecutorServices).
End ConfigSecret.
