(* ===== verification/UcnController.v ===== *)
(** * The user code namespace controller

    src/internal/controller/hazelcast/usercodenamespace_controller.go and
    usercodenamespace_status.go, with the service that sends the dynamic
    configuration (src/internal/hazelcast-client/usercodenamespace_service.go)
    and the validation (src/api/v1alpha1/usercodenamespace_validation.go).
    The agents of the members download the bundle in one goroutine each.
    Logging, the phone home trigger and the watch set-up are left out.  The
    theorems and concrete runs follow the controller. *)

From S2P Require Import Prelude Eff FieldValidation Json GoPath GoNet HazelcastTypes DataStructureTypes HazelcastValidation HazelcastValidationFacts MapValidation ConfigTypes Proto CodecBuiltin CodecTypes CodecRequests DataStructureConfig DataStructureValidation WanTypes HazelcastConfig JetJobValidation Kube WanController DataStructures CustomConfig ConfigSecret.
#[local] Open Scope prog_scope.
#[local] Open Scope string_scope.
#[local] Open Scope list_scope.
#[local] Open Scope Z_scope.

(** ** Validation *)

Definition validateUCNEnabled `{QuantityLib} (h : Hazelcast) : errs :=
  if negb (UserCodeNamespaces_IsEnabled (s_UserCodeNamespaces (h_Spec h)))
  then Required (Path "spec" ["userCodeNamespace"]) "should be enabled in Hazelcast" else [].
Definition ValidateUCNSpec `{QuantityLib} `{KErrors} (u : UserCodeNamespace) (h : Hazelcast) : option error :=
  Err "UserCodeNamespace" (r_Name u) (validateUCNEnabled h).

(** ** The dynamic configuration *)

Definition jarsInZip : Z := 5.
Definition ucn_config (name : string) : UserCodeNamespaceConfig :=
  let filename := (name ++ ".zip")%string in
  mkUserCodeNamespaceConfig name
    [mkResourceDefinition filename jarsInZip [] ("file://" ++ path_Join [n_UCNBucketPath; filename])%string].

Definition AgentUrl (host : string) : string := ("https://" ++ host ++ ":8443")%string.

(** What the agent of a member is asked to download. *)
Definition bundle_req (ucn : UserCodeNamespace) (b : BucketConfiguration) : BundleReq :=
  mkBundleReq (bc_BucketURI b) (bc_SecretName b) (path_Join [n_UCNBucketPath; (r_Name ucn ++ ".zip")%string]).

Definition UserCodeNamespace_zero : UserCodeNamespace :=
  mkResource "" "" "" [] [] false ∅ UserCodeNamespaceSpec_zero (mkUserCodeNamespaceStatus "" "").

Section UcnController.
Context `{P : Proto} `{QL : QuantityLib} `{Y : YamlLib} `{KE : KErrors} `{JT : JsonText}.

Definition UsercodeNamespaceService_Apply (hz : NamespacedName) (name : string) : prog (option error) :=
  request <- lift_res (EncodeDynamicConfigAddUserCodeNamespaceConfigRequest (ucn_config name)) ;;
  ask members <- OrderedMembers hz ;;
  invoke_until_error hz request members.

(** ** usercodenamespace_status.go *)

Definition updateUserCodeNamespaceStatus (ucn : UserCodeNamespace) (state message : string)
  : prog (ctrl_Result * option error) :=
  let ucn : UserCodeNamespace := set_Status ucn (mkUserCodeNamespaceStatus state message) in
  ask err <- StatusUpdate KUcn ucn ;;
  if strb state UserCodeNamespacePending then Done (mkResult true 0, None)
  else if strb state UserCodeNamespaceFailure then Done (ctrl_Result_zero, Some (errors_New message))
  else Done (ctrl_Result_zero, err : option error).

Definition ucn_failed (ucn : UserCodeNamespace) (e : error) : prog (ctrl_Result * option error) :=
  updateUserCodeNamespaceStatus ucn UserCodeNamespaceFailure (err_msg e).

(** ** Downloading the bundle *)

(** The goroutine of one member; a nil bucket panics, which ends the
    operator. *)
Definition download_bundle_member (ucn : UserCodeNamespace) (address : string) : prog (res (option error)) :=
  match SplitHostPort address with
  | inr e => Done (Ret (Some e))
  | inl (host, _) =>
      ask err <- NewBundleService (AgentUrl host) ;;
      match (err : option error) with
      | Some e => Done (Ret (Some e))
      | None =>
          match ucn_BucketConfiguration (r_Spec ucn) with
          | None => Done Panic
          | Some b => ask err <- DownloadBundle (AgentUrl host) (bundle_req ucn b) ;; Done (Ret (err : option error))
          end
      end
  end.

Definition returned_error (r : res (option error)) : option error := match r with Ret e => e | _ => None end.
Definition panicked (r : res (option error)) : bool := match r with Panic => true | _ => false end.

(** One goroutine per member. *)
Definition download_bundles (ucn : UserCodeNamespace) (addresses : list string) : prog (option error) :=
  Par (length addresses)
    (fun i => match addresses !! i with Some a => download_bundle_member ucn a | None => Done (Ret None) end)
    (fun rs first => if existsb panicked rs then Crash else Done (group_Wait (map returned_error rs) first)).

(** [client]: whether it is not nil. *)
Definition downloadBundle (ucn : UserCodeNamespace) (hz : NamespacedName) (client : bool) : prog (option error) :=
  ask err <- GetMTLSClient (r_Namespace ucn) ;;
  match (err : option error) with
  | Some e => Done (Some e)
  | None =>
      if negb client then Crash else
      ask addresses <- MemberAddresses hz ;;
      download_bundles ucn addresses
  end.

(** ** Reconcile *)

(** The part from the download on. *)
Definition ucn_apply (ucn : UserCodeNamespace) (hz : NamespacedName) (client : bool) : prog (ctrl_Result * option error) :=
  err <- downloadBundle ucn hz client ;;
  match err with Some e => ucn_failed ucn e | None =>
  err <- UsercodeNamespaceService_Apply hz (r_Name ucn) ;;
  match err with Some e => ucn_failed ucn e | None =>
  let ucn : UserCodeNamespace := InsertLastSuccessfullyAppliedSpec UserCodeNamespaceSpec_encode ucn in
  ask err <- Update KUcn ucn ;;
  match (err : option error) with
  | Some e => ucn_failed ucn e
  | None => updateUserCodeNamespaceStatus ucn UserCodeNamespaceSuccess ""
  end end end.

Definition Ucn_Reconcile (req : NamespacedName) : prog (ctrl_Result * option error) :=
  ask got <- Get KUcn req ;;
  match (got : fetched UserCodeNamespace) with
  | Failed e =>
      if IsNotFound e then Done (ctrl_Result_zero, None)
      else ucn_failed UserCodeNamespace_zero (wrap "could not get UserCodeNamespace: " e)
  | Found ucn =>
      if negb (ContainsFinalizer ucn n_Finalizer) && negb (r_Deleting ucn) then
        ask err <- Update KUcn (set_Finalizers ucn (r_Finalizers ucn ++ [n_Finalizer])) ;;
        Done (ctrl_Result_zero, err : option error)
      else if r_Deleting ucn then
        r <- executeFinalizer KUcn ucn ;;
        match r.2 with Some e => ucn_failed r.1 e | None => Done (ctrl_Result_zero, None) end
      else if negb (IsApplied ucn) then
        let ucn : UserCodeNamespace := InsertLastAppliedSpec UserCodeNamespaceSpec_encode ucn in
        ask err <- Update KUcn ucn ;;
        match (err : option error) with
        | Some e => ucn_failed ucn e
        | None => updateUserCodeNamespaceStatus ucn UserCodeNamespacePending ""
        end
      else
        ask got <- GetHazelcast (req.1, ucn_HazelcastResourceName (r_Spec ucn)) ;;
        match (got : fetched Hazelcast) with
        | Failed e =>
            ucn_failed ucn (wrap "could not create/update User Code Deployemnt config: Hazelcast resource not found: " e)
        | Found h =>
            if negb (strb (st_Phase (h_Status h)) hz_Running) then ucn_failed ucn (errors_New "Hazelcast CR is not ready") else
            match ValidateUCNSpec ucn h with
            | Some e => ucn_failed ucn e
            | None =>
                ask c <- GetOrCreate (h_Namespace h, h_Name h) ;;
                match (c : fetched bool) with
                | Failed e => ucn_failed ucn e
                | Found client => ucn_apply ucn (h_Namespace h, h_Name h) client
                end
            end
        end
  end.

(** ** What the watch of the clusters enqueues *)

Definition hzUpdates (h : Hazelcast) : prog (list NamespacedName) :=
  if negb (strb (st_Phase (h_Status h)) hz_Running) then Done [] else
  ask got <- ListByHz KUcn (h_Namespace h) (h_Name h) ;;
  match (got : fetched (list UserCodeNamespace)) with
  | Failed _ => Done []
  | Found items =>
      Done (map (fun ucn => r_nn (ucn : UserCodeNamespace))
        (filter (fun ucn : UserCodeNamespace => ucn_State (r_Status ucn) <> UserCodeNamespaceSuccess) items))
  end.
End UcnController.

(** * Theorems about the user code namespace controller *)

Section Facts.
Context `{P : Proto} `{QL : QuantityLib} `{Y : YamlLib} `{KE : KErrors} `{JT : JsonText}.
Context (nn : NamespacedName).

Definition ev_ucn (u : UserCodeNamespace) : event := ev_read KUcn nn u.
Definition ev_addresses (hz : NamespacedName) (l : list string) : event := Ev (MemberAddresses hz) l.
Definition ev_downloaded (url : string) (req : BundleReq) : event := Ev (DownloadBundle url req) None.

(** The agent of the member has downloaded the bundle of the namespace. *)
Definition has_bundle (t : list event) (u : UserCodeNamespace) (address : string) : Prop :=
  exists host port b, SplitHostPort address = inl (host, port) /\ ucn_BucketConfiguration (r_Spec u) = Some b
    /\ ev_downloaded (AgentUrl host) (bundle_req u b) ∈ t.

Definition all_bundles (t : list event) (u : UserCodeNamespace) (hz : NamespacedName) : Prop :=
  exists addresses, ev_addresses hz addresses ∈ t /\ forall a, a ∈ addresses -> has_bundle t u a.

(** Every member has the dynamic configuration of the namespace. *)
Definition all_configured (t : list event) (u : UserCodeNamespace) (hz : NamespacedName) : Prop :=
  exists req members, EncodeDynamicConfigAddUserCodeNamespaceConfigRequest (ucn_config (r_Name u)) = Ret req
    /\ ev_members hz members ∈ t /\ forall uuid, uuid ∈ members -> exists resp, ev_acked hz uuid req resp ∈ t.

(** The namespace is applied to a running cluster that allows namespaces. *)
Record ready (t : list event) (u : UserCodeNamespace) (hz : NamespacedName) : Prop := {
  rd_read : ev_ucn u ∈ t;
  rd_live : r_Deleting u = false;
  rd_hazelcast : exists h, ev_hazelcast (nn.1, ucn_HazelcastResourceName (r_Spec u)) h ∈ t
    /\ hz = (h_Namespace h, h_Name h) /\ st_Phase (h_Status h) = hz_Running
    /\ UserCodeNamespaces_IsEnabled (s_UserCodeNamespaces (h_Spec h)) = true;
}.

(** What the controller may do: requests only for a namespace that is ready,
    the configuration only after the bundles, and success after both. *)
Definition ucn_guard (t : list event) (c : kube_op) : Prop :=
  match c with
  | StatusUpdate KUcn o => ucn_State (r_Status o) = UserCodeNamespaceSuccess ->
      exists u hz, ready t u hz /\ r_nn o = r_nn u /\ r_Spec o = r_Spec u /\ all_bundles t u hz /\ all_configured t u hz
  | DownloadBundle _ req => exists u hz b, ready t u hz /\ ucn_BucketConfiguration (r_Spec u) = Some b /\ req = bundle_req u b
  | InvokeOnMember hz _ req => exists u, ready t u hz /\ all_bundles t u hz
      /\ EncodeDynamicConfigAddUserCodeNamespaceConfigRequest (ucn_config (r_Name u)) = Ret req
  | _ => True
  end.
#[local] Hint Extern 0 (ucn_guard _ _) => exact I : core.
Abbreviation wpu := (wp ucn_guard).

Lemma has_bundle_mono t t' u a : t ⊆ t' -> has_bundle t u a -> has_bundle t' u a.
Proof. intros Ht (host & port & b & ? & ? & ?). exists host, port, b. auto. Qed.
Lemma all_bundles_mono t t' u hz : t ⊆ t' -> all_bundles t u hz -> all_bundles t' u hz.
Proof. intros Ht (l & ? & Hl). exists l. split; [by apply Ht|]. intros a Ha. by eapply has_bundle_mono, Hl. Qed.
Lemma all_configured_mono t t' u hz : t ⊆ t' -> all_configured t u hz -> all_configured t' u hz.
Proof.
  intros Ht (req & ms & ? & ? & Hl). exists req, ms. split; [done|]. split; [by apply Ht|].
  intros x Hx. destruct (Hl x Hx) as [r ?]. exists r. by apply Ht.
Qed.
Lemma ucn_ready_mono t t' u hz : t ⊆ t' -> ready t u hz -> ready t' u hz.
Proof. intros Ht [? ? (h & ? & ?)]. constructor; [by apply Ht|done|]. exists h. split; [by apply Ht|done]. Qed.

Lemma wpu_status u state msg h Q : state <> UserCodeNamespaceSuccess -> (forall h' r, Q h' r) ->
  wpu (updateUserCodeNamespaceStatus u state msg) h Q.
Proof.
  intros Hs HQ. apply wp_vis; [by intros ?|]. intros err h1 _ _. destruct (strb _ _); [by apply wp_ret|].
  by destruct (strb _ _); apply wp_ret.
Qed.
Lemma wpu_failed u e h Q : (forall h' r, Q h' r) -> wpu (ucn_failed u e) h Q.
Proof. by apply wpu_status. Qed.

(** What a goroutine leaves behind. *)
Definition bundle_result (u : UserCodeNamespace) (a : string) (t : list event) (r : res (option error)) : Prop :=
  match r with Ret None => has_bundle t u a | Ret (Some _) | Panic => True | OutOfFuel => False end.

(** The goroutine of a member. *)
Lemma rwp_download_bundle_member u hz a h : ready h u hz ->
  rwp ucn_guard (download_bundle_member u a) h (bundle_result u a).
Proof.
  intros Hr. unfold download_bundle_member. destruct (SplitHostPort a) as [[host port]|e] eqn:Es; [|by apply rwp_ret].
  apply rwp_vis; [done|]. intros [e|] h1 Hs1 _; [by apply rwp_ret|].
  destruct (ucn_BucketConfiguration (r_Spec u)) as [b|] eqn:Eb; [|by apply rwp_ret].
  apply rwp_vis.
  - intros h2 Hs2. exists u, hz, b. split; [|done]. eapply ucn_ready_mono, Hr. by etrans.
  - intros err h2 Hs2 E2. apply rwp_ret. intros h3 Hs3. destruct err as [e|]; [done|].
    exists host, port, b. split; [done|]. split; [done|]. by apply Hs3.
Qed.

Lemma group_Wait_all errs first : group_Wait errs first = None -> forall i, errs !! i <> None -> errs !! i = Some None.
Proof.
  unfold group_Wait. intros Hg i Hi. destruct (errs !! i) as [[e|]|] eqn:Ei; [|done|done].
  assert (He : e ∈ omap id errs) by (apply list_elem_of_omap; exists (Some e); split; [by eapply list_elem_of_lookup_2|done]).
  destruct (errs !! first) as [[e'|]|]; try done; destruct (omap id errs); try done; by apply not_elem_of_nil in He.
Qed.

Lemma wpu_download_bundles u hz addresses h Q : ready h u hz ->
  (forall h' err, h ⊆ h' -> (err = None -> forall a, a ∈ addresses -> has_bundle h' u a) -> Q h' err) ->
  wpu (download_bundles u addresses) h Q.
Proof.
  intros Hr HQ.
  apply (wp_par (G := ucn_guard)) with (Qs := fun i h' r => forall a, addresses !! i = Some a -> bundle_result u a h' r).
  - intros i. destruct (addresses !! i) as [a|]; [|by apply rwp_ret].
    eapply rwp_mono; [by apply (rwp_download_bundle_member u hz)|by intros h' r Ha a' [= <-]].
  - intros rs first h3 Hl Hs3 Hq. destruct (existsb panicked rs) eqn:Ep; [done|]. apply wp_ret, HQ; [done|].
    intros Hg a [i Hi]%list_elem_of_lookup.
    destruct (lookup_lt_is_Some_2 rs i) as [r Hri]; [rewrite Hl; by eapply lookup_lt_Some|].
    specialize (Hq i r Hri a Hi). pose proof (group_Wait_all _ _ Hg i) as Hgi.
    rewrite list_lookup_fmap, Hri in Hgi. destruct r as [[e|]| |]; [by specialize (Hgi ltac:(done))|done| |done].
    exfalso. rewrite <- not_true_iff_false in Ep. apply Ep, existsb_exists. exists Panic.
    split; [by eapply list_elem_of_In, list_elem_of_lookup_2|done].
Qed.

Lemma wpu_downloadBundle u hz client h Q : ready h u hz ->
  (forall h' err, h ⊆ h' -> (err = None -> all_bundles h' u hz) -> Q h' err) -> wpu (downloadBundle u hz client) h Q.
Proof.
  intros Hr HQ. apply wp_vis; [done|]. intros [e|] h1 Hs1 _; [by apply wp_ret, HQ|].
  destruct client; [|done]. cbn [negb]. apply wp_vis; [done|]. intros addresses h2 Hs2 E2.
  apply (wpu_download_bundles u hz); [eapply ucn_ready_mono, Hr; by etrans|]. intros h3 err Hs3 Ha.
  apply HQ; [set_solver|]. intros He. exists addresses. split; [by apply Hs3|by apply Ha].
Qed.

Lemma wpu_Apply u hz h Q : ready h u hz -> all_bundles h u hz ->
  (forall h' err, h ⊆ h' -> (err = None -> all_configured h' u hz) -> Q h' err) ->
  wpu (UsercodeNamespaceService_Apply hz (r_Name u)) h Q.
Proof.
  intros Hr Hb HQ. apply wp_bind, (wp_lift_res ucn_guard). intros req Hreq. apply wp_vis; [done|].
  intros members h1 Hs1 E1. apply wp_invoke_until_error.
  - intros h2 uuid Hs2 _. assert (h ⊆ h2) by by etrans. exists u. split; [by eapply ucn_ready_mono|].
    split; [by eapply all_bundles_mono|done].
  - intros h2 err Hs2 Ha. apply HQ; [by etrans|]. intros He. exists req, members. split; [done|].
    split; [by apply Hs2|by apply Ha].
Qed.

Lemma wpu_apply u hz client h : ready h u hz -> wpu (ucn_apply u hz client) h (fun _ _ => True).
Proof.
  intros Hr. apply wp_bind, wpu_downloadBundle; [done|]. intros h1 [e|] Hs1 Hb; [by apply wpu_failed|].
  apply wp_bind, wpu_Apply; [by eapply ucn_ready_mono|by apply Hb|]. intros h2 [e|] Hs2 Hc; [by apply wpu_failed|].
  apply wp_vis; [done|]. intros [e|] h3 Hs3 _; [by apply wpu_failed|].
  apply wp_vis; [|by intros err h4 _ _; apply wp_ret]. intros _. exists u, hz. split_and!; try done.
  - eapply ucn_ready_mono, Hr. set_solver.
  - eapply all_bundles_mono, Hb; [set_solver|done].
  - by eapply all_configured_mono, Hc.
Qed.

Lemma wpu_Reconcile : wpu (Ucn_Reconcile nn) [] (fun _ _ => True).
Proof.
  unfold Ucn_Reconcile. apply wp_vis; [done|]. intros [u|e] h1 _ E1; cbv iota.
  2: { destruct (IsNotFound e); [by apply wp_ret|by apply wpu_failed]. }
  change (ev_ucn u ∈ h1) in E1. destruct (_ && _); [apply wp_vis; [done|]; intros; by apply wp_ret|].
  lazymatch goal with |- context [if ?b then pbind (executeFinalizer _ _) _ else _] => destruct b eqn:Ed end.
  { unfold executeFinalizer. destruct (negb _); [by apply wp_ret|].
    apply wp_vis; [done|]. intros [e|] h2 _ _; [by apply wpu_failed|by apply wp_ret]. }
  destruct (negb _).
  { apply wp_vis; [done|]. intros [e|] h2 _ _; [by apply wpu_failed|by apply wpu_status]. }
  apply wp_vis; [done|]. intros [hzr|e] h2 Hs2 E2; [|by apply wpu_failed].
  destruct (strb _ hz_Running) eqn:Ep; cbn [negb]; [apply strb_true in Ep|by apply wpu_failed].
  destruct (ValidateUCNSpec u hzr) as [e|] eqn:Ev; [by apply wpu_failed|].
  apply wp_vis; [done|]. intros [client|e] h3 Hs3 _; [|by apply wpu_failed].
  apply wpu_apply. apply (ucn_ready_mono h2); [done|]. constructor; [by apply Hs2|done|].
  exists hzr. split_and!; [done|done|done|]. apply Err_None in Ev. unfold validateUCNEnabled in Ev.
  by destruct (UserCodeNamespaces_IsEnabled _).
Qed.

(** ** Properties *)

(** C20. A user code namespace becomes Success only when it was read alive, its
    cluster runs and allows namespaces, the agents of all members have
    downloaded its bundle from its bucket - so it has a bucket unless the
    cluster has no members - and all members have acknowledged its dynamic
    configuration. *)
Theorem ucn_success_justified t1 (o : UserCodeNamespace) (err : option error) t2 out :
  exec (Ucn_Reconcile nn) (t1 ++ Ev (StatusUpdate KUcn o) err :: t2) out ->
  ucn_State (r_Status o) = UserCodeNamespaceSuccess ->
  exists u hz, ready t1 u hz /\ r_nn o = r_nn u /\ r_Spec o = r_Spec u /\ all_bundles t1 u hz /\ all_configured t1 u hz.
Proof. intros He. exact (wp_call _ _ _ _ _ _ wpu_Reconcile He). Qed.

(** No member is sent the configuration of a namespace before the agents
    of all members have its bundle, and what is sent is the configuration of
    a namespace that was read and is ready. *)
Theorem ucn_bundle_before_config t1 hz uuid req (r : fetched ClientMessage) t2 out :
  exec (Ucn_Reconcile nn) (t1 ++ Ev (InvokeOnMember hz uuid req) r :: t2) out ->
  exists u, ready t1 u hz /\ all_bundles t1 u hz
    /\ EncodeDynamicConfigAddUserCodeNamespaceConfigRequest (ucn_config (r_Name u)) = Ret req.
Proof. intros He. exact (wp_call _ _ _ _ _ _ wpu_Reconcile He). Qed.
End Facts.

(** ** A concrete run *)

Module UcnRuns.
Import RefProto.
#[local] Existing Instance RefProto.ref.

Definition ucn1 : UserCodeNamespace :=
  mkResource "ns" "code" "uid" [] [n_Finalizer] false {[n_LastAppliedSpecAnnotation := "{}"]}
    (mkUserCodeNamespaceSpec "hz" (Some (mkBucketConfiguration "" "secret" "gs://bucket")))
    (mkUserCodeNamespaceStatus UserCodeNamespacePending "").
Definition hz1 : Hazelcast :=
  mkHazelcast "hz" "ns" ∅ false
    (mkHazelcastSpec (Some 3) "" "license" None None None "" None None None None "" None [] None "dev" None [] [] [] None None None
      (Some (mkUserCodeNamespacesConfig None)))
    (mkHazelcastStatus 3 "Running").

Definition answer (o : op) (_ : list event) : ans o :=
  match o as o return kube_ans o with
  | Get KUcn _ => Found ucn1
  | Get _ _ => Failed (mkError ENotFound "not found")
  | ListByHz _ _ _ | ListIn _ _ => Found []
  | GetHazelcast _ => Found hz1
  | GetConfigSecret _ => Failed (errors_New "not found")
  | GetSecretData _ => Found ∅
  | GetOrCreate _ => Found true
  | Running _ => true
  | OrderedMembers _ => ["m1"; "m2"]
  | InvokeOnMember _ _ _ | InvokeOnRandomTarget _ _ => Found NewClientMessageForEncode
  | GetStatusService _ => None
  | GetConfigMap _ => Failed (errors_New "not found")
  | GetJetJob _ => Failed (errors_New "not found")
  | MemberAddresses _ => ["10.0.0.1:5701"; "10.0.0.2:5701"]
  | Now => 0
  | GoSync _ _ | GoExport _ _ _ _ _ => tt
  | _ => None
  end.

Definition key : NamespacedName := ("ns", "code").
Definition success_run : list event * option (outcome (ctrl_Result * option error)) := run answer (Ucn_Reconcile key) [].
Lemma ucn_success_exec : exec (Ucn_Reconcile key) success_run.1 (Returned (ctrl_Result_zero, None)).
Proof. apply run_exec_2. vm_compute. reflexivity. Qed.

Definition stores_success (e : event) : bool :=
  match ev_op e with StatusUpdate KUcn o => strb (ucn_State (r_Status o)) UserCodeNamespaceSuccess | _ => false end.
Lemma ucn_success_witness : exists (t1 : list event) (u : UserCodeNamespace) hz, ready key t1 u hz /\ all_configured t1 u hz.
Proof.
  destruct (find_event (F := kube_effects) stores_success success_run.1) as (t1 & [c x] & t2 & Ht & He); [vm_compute; reflexivity|].
  unfold stores_success in He. cbn [ev_op] in He.
  destruct c as [| |k o| | | | | | | | | | | | | | | | | | | | | |]; try discriminate He.
  destruct k; try discriminate He. apply strb_true in He.
  destruct (ucn_success_justified key t1 o x t2 (Returned (ctrl_Result_zero, None))) as (u & hz & Hr & _ & _ & _ & Hc).
  - rewrite <- Ht. exact ucn_success_exec.
  - exact He.
  - exists t1, u, hz. split; [exact Hr|exact Hc].
Defined.

Definition configures (e : event) : bool := match ev_op e with InvokeOnMember _ _ _ => true | _ => false end.
Lemma ucn_order_witness : exists (t1 : list event) (u : UserCodeNamespace) hz, all_bundles t1 u hz.
Proof.
  destruct (find_event (F := kube_effects) configures success_run.1) as (t1 & [c x] & t2 & Ht & He); [vm_compute; reflexivity|].
  unfold configures in He. cbn [ev_op] in He.
  destruct c as [| | | | | | | | | | |hz uuid req| | | | | | | | | | | | |]; try discriminate He.
  destruct (ucn_bundle_before_config key t1 hz uuid req x t2 (Returned (ctrl_Result_zero, None))) as (u & _ & Hb & _).
  - rewrite <- Ht. exact ucn_success_exec.
  - exists t1, u, hz. exact Hb.
Defined.
End UcnRuns.
