(* ===== verification/SnapController.v ===== *)
(** * The JetJobSnapshot controller

    src/internal/controller/hazelcast/jetjobsnapshot_controller.go and
    jetjobsnapshot_status.go, with [ExportSnapshot] of
    src/internal/hazelcast-client/jet_service.go.  The state of the reconciler
    is the set of keys of [exportingSnapshotMap], passed explicitly; the
    goroutine started by [GoExport] is the program [export_snapshot].
    Logging, the phone home trigger and [SetupWithManager] are left out. *)

From S2P Require Import Prelude Eff FieldValidation Json HazelcastTypes DataStructureTypes HazelcastValidation HazelcastValidationFacts MapValidation ConfigTypes Proto CodecBuiltin CodecTypes CodecRequests DataStructureConfig DataStructureValidation WanTypes JetJobValidation Kube.
#[local] Open Scope prog_scope.
#[local] Open Scope string_scope.
#[local] Open Scope list_scope.
#[local] Open Scope Z_scope.

(** The instant of Go's zero [time.Time], in nanoseconds since 1970. *)
Definition zero_time : Z := -62135596800 * 1000000000.
Definition time_IsZero (t : option Z) : bool := match t with None => true | Some ns => ns =? zero_time end.

Definition set_jt_State (state : string) (s : JetJobSnapshotStatus) : JetJobSnapshotStatus :=
  mkJetJobSnapshotStatus state (jt_Message s) (jt_CreationTime s).
Definition set_jt_CreationTime (t : option Z) (s : JetJobSnapshotStatus) : JetJobSnapshotStatus :=
  mkJetJobSnapshotStatus (jt_State s) (jt_Message s) t.

(** [withJetJobSnapshotState], [withJetJobSnapshotFailedState] *)
Definition withJetJobSnapshotState (state : string) : JetJobSnapshotStatus -> JetJobSnapshotStatus := set_jt_State state.
Definition withJetJobSnapshotFailedState (message : string) (s : JetJobSnapshotStatus) : JetJobSnapshotStatus :=
  mkJetJobSnapshotStatus JetJobSnapshotFailed message (jt_CreationTime s).

(** The keys of [exportingSnapshotMap]. *)
Definition snap_state : Type := gset NamespacedName.

Section SnapController.
Context `{P : Proto} `{QL : QuantityLib} `{Y : YamlLib} `{KE : KErrors} `{JT : JsonText} `{RL : @RetryLib kube_effects}.

(** The type meta and the UID of a Hazelcast object, which its record leaves
    out, and [controllerutil.SetOwnerReference]: the owners it leaves. *)
Context (h_Kind h_UID : Hazelcast -> string).
Context (SetOwnerReference : Hazelcast -> JetJobSnapshot -> sum (list OwnerReference) error).

(** ** jetjobsnapshot_status.go *)

Definition updateJetJobSnapshotStatus (jjs : JetJobSnapshot) (recOption : ReconcilerOption)
    (option_ : JetJobSnapshotStatus -> JetJobSnapshotStatus) : prog (ctrl_Result * option error) :=
  let jjs : JetJobSnapshot := set_Status jjs (option_ (r_Status jjs)) in
  ask err <- StatusUpdate KSnap jjs ;;
  match (err : option error) with
  | Some e => if IsConflict e then Done (ctrl_Result_zero, None) else Done (ctrl_Result_zero, Some e)
  | None => Done (ctrl_Result_zero, ro_Err recOption)
  end.

Definition snap_failed (jjs : JetJobSnapshot) (e : error) : prog (ctrl_Result * option error) :=
  updateJetJobSnapshotStatus jjs (recoptions_Error e) (withJetJobSnapshotFailedState (err_msg e)).

(** The closures of the two retried updates. *)
Definition update_snap_status (nn : NamespacedName) (f : JetJobSnapshotStatus -> JetJobSnapshotStatus)
  : prog (option error) :=
  ask got <- Get KSnap nn ;;
  match (got : fetched JetJobSnapshot) with
  | Failed e => Done (Some e)
  | Found jjs => call (StatusUpdate KSnap (set_Status jjs (f (r_Status jjs)) : JetJobSnapshot))
  end.

Definition updateJetJobSnapshotStatusRetry (nn : NamespacedName) (f : JetJobSnapshotStatus -> JetJobSnapshotStatus)
  : prog (option error) :=
  r <- RetryOnConflict (stateless (update_snap_status nn f)) tt ;; Done r.2.

(** [time.Unix(0, timeMillis*int64(time.Millisecond))] *)
Definition creation_time (timeMillis : Z) : Z := int64 (timeMillis * 1000000).

Definition setCreationTime (nn : NamespacedName) (timeMillis : Z) : prog (option error) :=
  r <- RetryOnConflict (stateless (update_snap_status nn (set_jt_CreationTime (Some (creation_time timeMillis))))) tt ;;
  Done r.2.

(** ** Exporting *)

Definition JetService_ExportSnapshot (hz : NamespacedName) (jobId : Z) (name : string) (cancelJob : bool)
  : prog (fetched Z) :=
  req <- lift_res (EncodeJetExportSnapshotRequest jobId name cancelJob) ;;
  ask r <- InvokeOnRandomTarget hz req ;;
  match (r : fetched ClientMessage) with
  | Failed e => Done (Failed e)
  | Found _ => ask t <- Now ;; Done (Found (t : Z))
  end.

(** The goroutine of [exportSnapshot]; [client]: whether it is not nil. *)
Definition export_snapshot (n : NamespacedName) (jetJobId : Z) (jjs : JetJobSnapshot) (hz : NamespacedName)
    (client : bool) : prog unit :=
  updateJetJobSnapshotStatusRetry n (withJetJobSnapshotState JetJobSnapshotExporting) ;;
  if negb client then Crash else
  t <- JetService_ExportSnapshot hz jetJobId (SnapshotName jjs) (js_CancelJob (r_Spec jjs)) ;;
  match t with
  | Failed _ => updateJetJobSnapshotStatusRetry n (withJetJobSnapshotState JetJobSnapshotFailed) ;; Done tt
  | Found t =>
      setCreationTime n t ;;
      updateJetJobSnapshotStatusRetry n (withJetJobSnapshotState JetJobSnapshotExported) ;;
      Done tt
  end.

Definition exportSnapshot (exporting : snap_state) (jjs : JetJobSnapshot) (jetJobId : Z)
    (hz : NamespacedName) (client : bool) : prog (snap_state) :=
  if negb (time_IsZero (jt_CreationTime (r_Status jjs))) then Done exporting else
  let k := r_nn jjs in
  if decide (k ∈ exporting) then Done exporting else
  do_ GoExport k jetJobId (jjs : obj KSnap) hz client ;;
  Done ({[k]} ∪ exporting).

(** ** The rest of the reconciler *)

Definition snap_reconcileOwnerReferences (jjs : JetJobSnapshot) (h : Hazelcast) : prog (JetJobSnapshot * option error) :=
  if existsb (fun o => strb (or_Kind o) (h_Kind h) && strb (or_Name o) (h_Name h) && strb (or_UID o) (h_UID h)) (r_Owners jjs)
  then Done (jjs, None) else
  match SetOwnerReference h jjs with
  | inr e => Done (jjs, Some e)
  | inl owners =>
      let jjs : JetJobSnapshot := set_Owners jjs owners in
      ask err <- Update KSnap jjs ;; Done (jjs, err : option error)
  end.

Definition store_snap_spec (name : NamespacedName) : prog (option error) :=
  ask got <- Get KSnap name ;;
  match (got : fetched JetJobSnapshot) with
  | Failed e => Done (Some e)
  | Found jjs =>
      call (Update KSnap (InsertLastSuccessfullyAppliedSpec JetJobSnapshotSpec_encode jjs : JetJobSnapshot))
  end.
Definition snap_updateLastSuccessfulConfiguration (name : NamespacedName) : prog (option error) :=
  r <- RetryOnConflict (stateless (store_snap_spec name)) tt ;; Done r.2.

Definition snap_executeFinalizer (exporting : snap_state) (jjs : JetJobSnapshot)
  : prog (snap_state * (JetJobSnapshot * option error)) :=
  if negb (ContainsFinalizer jjs n_Finalizer) then Done (exporting, (jjs, None)) else
  r <- executeFinalizer KSnap jjs ;;
  Done (exporting ∖ {[r_nn jjs]}, r).

(** The reconciler goes on with the state [exporting]. *)
Definition with_state {T : Type} (exporting : snap_state) (p : prog T) : prog (snap_state * T) :=
  r <- p ;; Done (exporting, r).

(** What is refused of a snapshot whose export was started before. *)
Definition snap_created_before (jjs : JetJobSnapshot) (s : string) : option error :=
  match json_Unmarshal JetJobSnapshotSpec_decode s JetJobSnapshotSpec_zero with
  | inr e => Some (wrap "error unmarshaling Last JetJobSnapshot Spec: " e)
  | inl _ => ValidateJetJobSnapshotSpecUpdate jjs
  end.

(** The part from the license on. *)
Definition snap_export (exporting : snap_state) (req : NamespacedName) (jjs : JetJobSnapshot) (jetJob : JetJob)
    (hz : Hazelcast) (hzNn : NamespacedName) : prog (snap_state * (ctrl_Result * option error)) :=
  match ValidateHazelcastLicenseKey hz with
  | Some e => with_state exporting (snap_failed jjs e)
  | None =>
      ask c <- GetOrCreate hzNn ;;
      match (c : fetched bool) with
      | Failed e => with_state exporting (snap_failed jjs e)
      | Found client =>
          exporting <- exportSnapshot exporting jjs (jjs_Id (job_Status jetJob)) hzNn client ;;
          snap_updateLastSuccessfulConfiguration req ;;
          Done (exporting, (ctrl_Result_zero, None))
      end
  end.

(** The part for a snapshot that was not started before. *)
Definition snap_start (exporting : snap_state) (req : NamespacedName) (jjs : JetJobSnapshot)
  : prog (snap_state * (ctrl_Result * option error)) :=
  ask got <- GetJetJob (r_Namespace jjs, js_JetJobResourceName (r_Spec jjs)) ;;
  match (got : fetched JetJob) with
  | Failed e => with_state exporting (snap_failed jjs e)
  | Found jetJob =>
      let hzNn := (job_Namespace jetJob, jj_HazelcastResourceName (job_Spec jetJob)) in
      ask got <- GetHazelcast hzNn ;;
      match (got : fetched Hazelcast) with
      | Failed e => with_state exporting (snap_failed jjs e)
      | Found hz =>
          r <- snap_reconcileOwnerReferences jjs hz ;;
          let jjs := r.1 in
          match r.2 with
          | Some e => with_state exporting (snap_failed jjs e)
          | None =>
              if jjs_Id (job_Status jetJob) =? 0 then Done (exporting, (mkResult false 1, None))
              else if negb (strb (jjs_Phase (job_Status jetJob)) JetJobRunning) then
                with_state exporting (snap_failed jjs (errors_New
                  ("JetJob status must be equal to '" ++ JetJobRunning ++ "' to be able to export snapshot")))
              else snap_export exporting req jjs jetJob hz hzNn
          end
      end
  end.

(** The part for a snapshot that has its finalizer. *)
Definition snap_reconcile (exporting : snap_state) (req : NamespacedName) (jjs : JetJobSnapshot)
  : prog (snap_state * (ctrl_Result * option error)) :=
  if r_Deleting jjs then
    r <- snap_executeFinalizer exporting jjs ;;
    match r.2.2 with
    | Some e => with_state r.1 (snap_failed r.2.1 e)
    | None => Done (r.1, (ctrl_Result_zero, None))
    end
  else
    match r_Annotations jjs !! n_LastSuccessfulSpecAnnotation with
    | Some s =>
        match snap_created_before jjs s with
        | Some e => with_state exporting (snap_failed jjs e)
        | None => Done (exporting, (ctrl_Result_zero, None))
        end
    | None => snap_start exporting req jjs
    end.

Definition Snap_Reconcile (exporting : snap_state) (req : NamespacedName)
  : prog (snap_state * (ctrl_Result * option error)) :=
  ask got <- Get KSnap req ;;
  match (got : fetched JetJobSnapshot) with
  | Failed e =>
      if IsNotFound e then Done (exporting, (ctrl_Result_zero, None))
      else Done (exporting, (ctrl_Result_zero, Some (wrap "failed to get JetJobSnapshot: " e)))
  | Found jjs =>
      r <- AddFinalizer KSnap jjs ;;
      match r.2 with
      | Some e => with_state exporting (snap_failed r.1 e)
      | None => snap_reconcile exporting req r.1
      end
  end.
End SnapController.
