(* ===== verification/SnapFacts.v ===== *)
(** * Theorems about the JetJobSnapshot controller

    One export at a time, and what its result is reported as. *)

From S2P Require Import Prelude Eff FieldValidation Json HazelcastTypes DataStructureTypes HazelcastValidation HazelcastValidationFacts MapValidation ConfigTypes Proto CodecBuiltin CodecTypes CodecRequests DataStructureConfig DataStructureValidation WanTypes JetJobValidation Kube SnapController.
#[local] Open Scope prog_scope.
#[local] Open Scope string_scope.
#[local] Open Scope list_scope.
#[local] Open Scope Z_scope.

Section Facts.
Context `{P : Proto} `{QL : QuantityLib} `{Y : YamlLib} `{KE : KErrors} `{JT : JsonText} `{RL : @RetryLib kube_effects}.
Context (h_Kind h_UID : Hazelcast -> string).
Context (SetOwnerReference : Hazelcast -> JetJobSnapshot -> sum (list OwnerReference) error).
Abbreviation Reconcile := (Snap_Reconcile h_Kind h_UID SetOwnerReference).

(** ** Exports that were started *)

Definition ev_export k id (jjs : JetJobSnapshot) hz client : event := Ev (GoExport k id jjs hz client) tt.

(** The write that gives up the finalizer of a deleted snapshot. *)
Definition gives_up (o : JetJobSnapshot) : option NamespacedName :=
  if r_Deleting o && negb (ContainsFinalizer o n_Finalizer) then Some (r_nn o) else None.
Definition releases (c : kube_op) : option NamespacedName := match c with Update KSnap o => gives_up o | _ => None end.

(** The snapshots whose export was started and that were not given up since. *)
Definition started1 (A : gset NamespacedName) (e : event) : gset NamespacedName :=
  match ev_op e with
  | GoExport k _ _ _ _ => {[k]} ∪ A
  | c => match releases c with Some k => A ∖ {[k]} | None => A end
  end.
Definition started (A : gset NamespacedName) (t : list event) : gset NamespacedName := foldl started1 A t.

(** No export is started of a snapshot that is among the started ones. *)
Definition once (A : gset NamespacedName) (t : list event) : Prop :=
  forall t1 k id jjs hz c t2, t = t1 ++ ev_export k id jjs hz c :: t2 -> k ∉ started A t1.

Definition is_export (c : kube_op) : bool := match c with GoExport _ _ _ _ _ => true | _ => false end.

Lemma started1_quiet A e : is_export (ev_op e) = false -> started1 A e ⊆ A.
Proof. unfold started1. destruct (ev_op e); simpl; try done; intros _; repeat case_match; set_solver. Qed.

Lemma once_nil A : once A [].
Proof. by intros [] ? ? ? ? ? ? [=]. Qed.
Lemma once_quiet A e t : is_export (ev_op e) = false -> once (started1 A e) t -> once A (e :: t).
Proof.
  intros He Ho t1 k id jjs hz c t2 Ht. destruct t1 as [|e' t1]; [by injection Ht as -> _|].
  injection Ht as -> ->. by eapply (Ho t1).
Qed.
Lemma once_app A t1 t2 : once A t1 -> once (started A t1) t2 -> once A (t1 ++ t2).
Proof.
  intros H1 H2 u1 k id jjs hz c u2 Hu.
  symmetry in Hu. apply app_eq_app in Hu as (l & [[Hu1 Hu2]|[Hu1 Hu2]]).
  - subst u1. unfold started. rewrite foldl_app. by eapply (H2 l).
  - destruct l as [|e l].
    + rewrite app_nil_r in Hu1. subst t1. by eapply (H2 []).
    + injection Hu2 as <- ->. by eapply H1.
Qed.

(** A continuation of the reconciler whose state covers what was started. *)
Definition keeps {T : Type} (m : snap_state) (p : prog (snap_state * T)) : Prop :=
  forall A t o, A ⊆ m -> exec p t o -> once A t /\ forall m' r, o = Returned (m', r) -> started A t ⊆ m'.

Lemma keeps_ret {T : Type} (m : snap_state) (r : T) : keeps m (Done (m, r)).
Proof. intros A t o HA [-> ->]. split; [apply once_nil|]. by intros m' r' [= <- _]. Qed.

Lemma keeps_vis {T : Type} m c (k : ans c -> prog (snap_state * T)) : is_export c = false -> (forall x, keeps m (k x)) -> keeps m (Vis c k).
Proof.
  intros Hc Hk A t o HA (x & t' & -> & He). pose proof (started1_quiet A (Ev c x) Hc).
  destruct (Hk x (started1 A (Ev c x)) t' o) as [Ho Hs]; [set_solver|done|]. split; [by apply once_quiet|done].
Qed.

Lemma quiet_trace A t : count is_export t = 0%nat -> once A t /\ started A t ⊆ A.
Proof.
  revert A. induction t as [|e t IH]; intros A; [split; [apply once_nil|done]|]. rewrite count_cons. intros Hc.
  assert (He : is_export (ev_op e) = false) by (by destruct (is_export (ev_op e)); [lia|]).
  destruct (IH (started1 A e)) as [Ho Hs]; [lia|]. pose proof (started1_quiet A e He).
  split; [by apply once_quiet|]. simpl. etrans; [exact Hs|done].
Qed.

Lemma keeps_bind {S T : Type} m (p : prog S) (f : S -> prog (snap_state * T)) :
  never is_export p -> (forall a, keeps m (f a)) -> keeps m (pbind p f).
Proof.
  intros Hp Hf A t o HA He.
  assert (Hend : forall u, exec p t u -> once A t /\ started A t ⊆ A) by
    (intros u Hu; by eapply quiet_trace, never_count).
  apply exec_bind in He as [(a & t1 & t2 & -> & H1 & H2)|[[H1 ->]|[H1 ->]]];
    [|by split; [eapply Hend|]..].
  destruct (quiet_trace A t1) as [Ho1 Hs1]; [by eapply never_count|].
  destruct (Hf a (started A t1) t2 o) as [Ho2 Hs2]; [set_solver|done|]. split; [by apply once_app|].
  intros m' r Hr. unfold started. rewrite foldl_app. by eapply Hs2.
Qed.

Lemma keeps_with_state {T : Type} m (p : prog T) : never is_export p -> keeps m (with_state m p).
Proof. intros Hp. apply keeps_bind; [done|]. intros a. apply keeps_ret. Qed.

Lemma keeps_failed m (jjs : JetJobSnapshot) e : keeps m (with_state m (snap_failed jjs e)).
Proof.
  apply keeps_with_state. unfold snap_failed, updateJetJobSnapshotStatus. split; [done|].
  intros [e'|]; [by destruct (IsConflict e')|done].
Qed.

Lemma never_retried {T : Type} fn (g : unit * option error -> T) : never is_export fn ->
  never is_export (pbind (RetryOnConflict (stateless fn) tt) (fun r => Done (g r))).
Proof. intros Hf. apply never_bind; [|done]. apply OnError_never. intros []. by apply never_bind. Qed.

Lemma never_store_spec req : never is_export (snap_updateLastSuccessfulConfiguration req).
Proof. apply never_retried. unfold store_snap_spec. split; [done|]. by intros [jjs|e]. Qed.

Lemma gives_up_removed (jjs : JetJobSnapshot) :
  r_Deleting jjs = true -> gives_up (RemoveFinalizer jjs n_Finalizer) = Some (r_nn jjs).
Proof.
  intros Hd. unfold gives_up. assert (ContainsFinalizer (RemoveFinalizer jjs n_Finalizer) n_Finalizer = false) as ->.
  - apply bool_decide_eq_false. cbn. rewrite list_elem_of_filter. naive_solver.
  - cbn. by rewrite Hd.
Qed.

Lemma keeps_executeFinalizer m (jjs : JetJobSnapshot) {T : Type} (f : snap_state * (JetJobSnapshot * option error) -> prog (snap_state * T)) :
  r_Deleting jjs = true -> (forall (m' : snap_state) r, keeps m' (f (m', r))) -> keeps m (pbind (snap_executeFinalizer m jjs) f).
Proof.
  intros Hd Hf. unfold snap_executeFinalizer, executeFinalizer. destruct (ContainsFinalizer jjs n_Finalizer) eqn:Ec; [|apply Hf].
  assert (Ec' : ContainsFinalizer (jjs : obj KSnap) n_Finalizer = true) by done.
  rewrite Ec'. intros A t o HA (err & t' & -> & He).
  assert (started1 A (Ev (Update KSnap (RemoveFinalizer jjs n_Finalizer)) err) ⊆ m ∖ {[r_nn jjs]}) as Hs.
  { unfold started1. cbn [ev_op]. change (releases _) with (gives_up (RemoveFinalizer jjs n_Finalizer)).
    rewrite gives_up_removed by done. set_solver. }
  assert (Hk : exec (f (m ∖ {[r_nn jjs]}, match (err : option error) with
     | Some e => (RemoveFinalizer jjs n_Finalizer, Some (wrap "failed to remove finalizer from custom resource: " e))
     | None => (RemoveFinalizer jjs n_Finalizer, None) end)) t' o) by (by destruct err).
  destruct (Hf _ _ _ _ _ Hs Hk) as [Ho Hr]. split; [by apply once_quiet|done].
Qed.

Lemma keeps_exportSnapshot m (jjs : JetJobSnapshot) id hz client {T : Type} (f : snap_state -> prog (snap_state * T)) :
  (forall m' : snap_state, keeps m' (f m')) -> keeps m (pbind (exportSnapshot m jjs id hz client) f).
Proof.
  intros Hf. unfold exportSnapshot. destruct (negb _); [apply Hf|]. case_decide as Hk; [apply Hf|].
  intros A t o HA ([] & t' & -> & He).
  destruct (Hf ({[r_nn jjs]} ∪ m) ({[r_nn jjs]} ∪ A) t' o) as [Ho Hr]; [set_solver|done|]. split; [|done].
  intros [|e' t1] k id' jjs' hz' c t2 Ht; injection Ht.
  - intros _ _ _ _ _ <-. set_solver.
  - intros -> <-. by eapply (Ho t1).
Qed.

Lemma keeps_owners (jjs : JetJobSnapshot) h :
  never is_export (snap_reconcileOwnerReferences h_Kind h_UID SetOwnerReference jjs h).
Proof. unfold snap_reconcileOwnerReferences. destruct (existsb _ _); [done|]. by destruct (SetOwnerReference h jjs). Qed.

Lemma keeps_start m req (jjs : JetJobSnapshot) : keeps m (snap_start h_Kind h_UID SetOwnerReference m req jjs).
Proof.
  apply keeps_vis; [done|]. intros [j|e]; cbv iota zeta; [|apply keeps_failed].
  apply keeps_vis; [done|]. intros [h|e]; cbv iota; [|apply keeps_failed].
  apply keeps_bind; [apply keeps_owners|]. intros [jjs2 [e|]]; cbn [fst snd]; [apply keeps_failed|].
  destruct (_ =? 0); [apply keeps_ret|]. destruct (negb _); [apply keeps_failed|]. unfold snap_export.
  destruct (ValidateHazelcastLicenseKey h); [apply keeps_failed|].
  apply keeps_vis; [done|]. intros [client|e]; cbv iota; [|apply keeps_failed].
  apply keeps_exportSnapshot. intros m'. apply keeps_bind; [apply never_store_spec|]. intros ?. apply keeps_ret.
Qed.

Lemma keeps_Reconcile m req : keeps m (Reconcile m req).
Proof.
  unfold Snap_Reconcile. apply keeps_vis; [done|]. intros [jjs|e]; cbv iota; [|destruct (IsNotFound e); apply keeps_ret].
  apply keeps_bind; [unfold AddFinalizer; by destruct (_ && _)|]. intros [jjs1 [e|]]; cbn [fst snd]; [apply keeps_failed|].
  revert jjs1. intros jjs1. change JetJobSnapshot in jjs1. unfold snap_reconcile.
  destruct (r_Deleting jjs1) eqn:Ed.
  { apply keeps_executeFinalizer; [done|]. intros m' [jjs2 [e|]]; cbn [fst snd]; [apply keeps_failed|apply keeps_ret]. }
  destruct (r_Annotations jjs1 !! _) as [s|]; [|apply keeps_start].
  destruct (snap_created_before jjs1 s) as [e|]; [apply keeps_failed|apply keeps_ret].
Qed.

(** Reconciliations of any snapshots, one after the other, by an operator
    that has just started. *)
Inductive snap_reconciles : list event -> snap_state -> Prop :=
| sr_start : snap_reconciles [] ∅
| sr_next t m req t' m' r : snap_reconciles t m -> exec (Reconcile m req) t' (Returned (m', r)) ->
    snap_reconciles (t ++ t') m'.

Lemma snap_reconciles_once t m : snap_reconciles t m -> once ∅ t /\ started ∅ t ⊆ m.
Proof.
  induction 1 as [|t m req t' m' r _ [Ho Hs] He]; [split; [apply once_nil|done]|].
  destruct (keeps_Reconcile m req _ _ _ Hs He) as [Ho' Hs']. split; [by apply once_app|].
  unfold started. rewrite foldl_app. by eapply Hs'.
Qed.
(** ** When an export is started *)

Section Start.
Context (req : NamespacedName).

(** The snapshot is not deleted, was never exported, and its job runs in a
    cluster with a license. *)
Record exportable (t : list event) (jjs : JetJobSnapshot) (id : Z) (hz : NamespacedName) : Prop := {
  ex_read : exists jjs0 : JetJobSnapshot, ev_read KSnap req jjs0 ∈ t /\ same jjs0 jjs /\ r_Status jjs = r_Status jjs0;
  ex_live : r_Deleting jjs = false;
  ex_new : r_Annotations jjs !! n_LastSuccessfulSpecAnnotation = None;
  ex_uncreated : time_IsZero (jt_CreationTime (r_Status jjs)) = true;
  ex_job : exists job, Ev (GetJetJob (r_Namespace jjs, js_JetJobResourceName (r_Spec jjs))) (Found job) ∈ t
    /\ jjs_Phase (job_Status job) = JetJobRunning /\ id = jjs_Id (job_Status job) /\ id <> 0
    /\ hz = (job_Namespace job, jj_HazelcastResourceName (job_Spec job));
  ex_license : exists h, ev_hazelcast hz h ∈ t /\ HazelcastSpec_GetLicenseKeySecretName (h_Spec h) <> "";
}.

Definition snap_guard (t : list event) (c : kube_op) : Prop :=
  match c with
  | GoExport k id jjs hz client => k = r_nn (jjs : JetJobSnapshot) /\ exportable t jjs id hz /\ Ev (GetOrCreate hz) (Found client) ∈ t
  | _ => True
  end.
#[local] Instance snap_permissive : Permissive snap_guard.
Proof. by intros h []. Qed.

Lemma wps_failed (jjs : JetJobSnapshot) e m h : wp snap_guard (with_state m (snap_failed jjs e)) h (fun _ _ => True).
Proof.
  apply wp_bind, wp_vis; [done|]. intros [e'|] h' _ _; cbv iota; [destruct (IsConflict e')|]; by repeat apply wp_ret.
Qed.

Lemma wps_store h : wp snap_guard (snap_updateLastSuccessfulConfiguration req) h (fun _ _ => True).
Proof.
  apply wp_bind, wp_RetryOnConflict. intros h' _. apply wp_vis; [done|]. intros [jjs|e] h1 _ _; [|done].
  apply wp_vis; [done|]. by intros.
Qed.

Lemma wps_owners (jjs : JetJobSnapshot) hz h Q :
  (forall h' os err, h ⊆ h' -> Q h' (set_Owners jjs os, err)) ->
  wp snap_guard (snap_reconcileOwnerReferences h_Kind h_UID SetOwnerReference jjs hz) h Q.
Proof.
  intros HQ. assert (Hsame : forall err, Q h (jjs, err)) by (intros err; destruct jjs as []; by apply (HQ h r_Owners err)).
  unfold snap_reconcileOwnerReferences. destruct (existsb _ _); [by apply wp_ret|].
  destruct (SetOwnerReference hz jjs) as [os|e]; [|by apply wp_ret].
  apply wp_vis; [done|]. intros err h1 Hs _. by apply wp_ret, HQ.
Qed.

Lemma wps_start (jjs0 jjs : JetJobSnapshot) m h : ev_read KSnap req jjs0 ∈ h -> same jjs0 jjs -> r_Status jjs = r_Status jjs0 ->
  r_Deleting jjs = false -> r_Annotations jjs !! n_LastSuccessfulSpecAnnotation = None ->
  wp snap_guard (snap_start h_Kind h_UID SetOwnerReference m req jjs) h (fun _ _ => True).
Proof.
  intros E0 Hsame Hst Hd Ha. apply wp_vis; [done|]. intros [job|e] h1 Hs1 E1; cbv iota zeta; [|apply wps_failed].
  apply wp_vis; [done|]. intros [hzr|e] h2 Hs2 E2; cbv iota; [|apply wps_failed].
  apply wp_bind, wps_owners. intros h3 os [e|] Hs3; cbn [fst snd]; [apply wps_failed|].
  destruct (_ =? 0) eqn:Eid; [done|]. destruct (strb _ JetJobRunning) eqn:Ep; cbn [negb]; [|apply wps_failed].
  unfold snap_export. destruct (ValidateHazelcastLicenseKey hzr) as [e|] eqn:Ev; [apply wps_failed|].
  apply wp_vis; [done|]. intros [client|e] h4 Hs4 E4; cbv iota; [|apply wps_failed].
  apply wp_bind. eapply (wp_mono _ _ _ (fun _ _ => True)); [|by intros h5 m' _; apply wp_bind; eapply wp_mono; [apply wps_store|]].
  unfold exportSnapshot. destruct (time_IsZero _) eqn:Et; cbn [negb]; [|done]. case_decide; [done|].
  apply wp_vis; [|done]. split; [done|]. split; [|done]. constructor; try done.
  - exists jjs0. split; [hist|]. split; [by destruct Hsame; constructor|done].
  - exists job. split; [hist|]. apply strb_true in Ep. apply Z.eqb_neq in Eid. done.
  - exists hzr. split; [hist|]. apply Err_None in Ev. by destruct (strb _ "") eqn:El; [|apply strb_false in El].
Qed.

Lemma wps_Reconcile m : wp snap_guard (Reconcile m req) [] (fun _ _ => True).
Proof.
  unfold Snap_Reconcile. apply wp_vis; [done|]. intros [jjs0|e] h1 _ E1; cbv iota; [|by destruct (IsNotFound e)].
  apply wp_bind, (wp_AddFinalizer _ KSnap). intros h2 fs [e|] Hs2; cbn [fst snd]; [apply wps_failed|].
  assert (E2 : ev_read KSnap req jjs0 ∈ h2) by hist. change JetJobSnapshot in jjs0. unfold snap_reconcile.
  destruct (r_Deleting _) eqn:Ed.
  { apply wp_bind. eapply (wp_mono _ _ _ (fun _ _ => True)).
    2: { intros h3 [m' [jjs [e|]]] _; cbn [fst snd]; [apply wps_failed|done]. }
    unfold snap_executeFinalizer. destruct (negb _); [done|]. by apply wp_bind, (wp_executeFinalizer _ KSnap). }
  destruct (r_Annotations _ !! _) as [s|] eqn:Ea.
  { destruct (snap_created_before _ s) as [e|]; [apply wps_failed|done]. }
  by apply (wps_start jjs0); [|constructor|..].
Qed.
End Start.

(** ** What the goroutine reports *)

Section Body.
Context (n : NamespacedName) (jetJobId : Z) (jjs : JetJobSnapshot) (hz : NamespacedName).

Definition export_request (req : ClientMessage) : Prop :=
  EncodeJetExportSnapshotRequest jetJobId (SnapshotName jjs) (js_CancelJob (r_Spec jjs)) = Ret req.
Definition export_acked (t : list event) : Prop :=
  exists req resp, export_request req /\ Ev (InvokeOnRandomTarget hz req) (Found resp) ∈ t.
Definition export_refused (t : list event) : Prop :=
  exists req e, export_request req /\ Ev (InvokeOnRandomTarget hz req) (Failed e : fetched ClientMessage) ∈ t.

(** The status [st] may be written over [st0]. *)
Definition truthful (t : list event) (st0 st : JetJobSnapshotStatus) : Prop :=
  (jt_State st = JetJobSnapshotExporting /\ jt_CreationTime st = jt_CreationTime st0)
  \/ (jt_State st = JetJobSnapshotFailed /\ export_refused t)
  \/ (jt_State st = JetJobSnapshotExported /\ export_acked t)
  \/ (jt_State st = jt_State st0 /\ export_acked t).

Definition export_guard (t : list event) (c : kube_op) : Prop :=
  match c with
  | InvokeOnRandomTarget hz' req => hz' = hz /\ export_request req
  | StatusUpdate KSnap o => exists o0 : JetJobSnapshot,
      ev_read KSnap n o0 ∈ t /\ same o0 (o : JetJobSnapshot) /\ truthful t (r_Status o0) (r_Status o)
  | Update _ _ => False
  | _ => True
  end.

Lemma wpe_status f h Q : (forall h' st0, h ⊆ h' -> truthful h' st0 (f st0)) -> (forall h' e, h ⊆ h' -> Q h' e) ->
  wp export_guard (r <- RetryOnConflict (stateless (update_snap_status n f)) tt ;; Done r.2) h Q.
Proof.
  intros Hf HQ. eapply (wp_seq _ _ _ (fun _ _ => True)); [|by intros h1 r Hs1 _; apply wp_ret, HQ].
  apply wp_RetryOnConflict. intros h1 Hs1.
  apply wp_vis; [done|]. intros [o|e] h2 Hs2 E2; cbv iota; [|by apply wp_ret].
  apply wp_vis; [|by intros]. exists o. split; [done|]. split; [by constructor|]. apply Hf. by etrans.
Qed.

Lemma wpe_body client : wp export_guard (export_snapshot n jetJobId jjs hz client) [] (fun _ _ => True).
Proof.
  apply wp_bind, wpe_status; [by intros; left|]. intros h1 _ _. destruct client; [|done]. cbn [negb].
  apply wp_bind, wp_bind, (wp_lift_res export_guard). intros req Hreq. apply wp_vis; [done|].
  intros [resp|e] h2 Hs2 E2; cbv iota.
  - assert (Hack : forall h', h2 ⊆ h' -> export_acked h') by (intros h' Hs'; exists req, resp; split; [done|hist]).
    apply wp_vis; [done|]. intros t h3 Hs3 _. apply wp_bind, wpe_status.
    { intros h' st0 Hs'. right; right; right. split; [done|]. apply Hack. by etrans. }
    intros h4 _ Hs4. apply wp_bind, wpe_status; [|done].
    intros h' st0 Hs'. right; right; left. split; [done|]. apply Hack. by do 2 (etrans; [eassumption|]).
  - apply wp_bind, wpe_status; [|done]. intros h' st0 Hs'. right; left. split; [done|]. exists req, e.
    split; [done|hist].
Qed.
End Body.

(** ** Properties *)

(** C18. Over any sequence of reconciliations of any snapshots by an operator
    that has just started, ending with one that may have been cut short,
    the export of a snapshot is started at most once until the snapshot is
    deleted and its finalizer given up. *)
Theorem snapshot_exported_once t m req t' o t1 k id (jjs : JetJobSnapshot) hz client t2 :
  snap_reconciles t m -> exec (Reconcile m req) t' o ->
  t ++ t' = t1 ++ ev_export k id jjs hz client :: t2 -> k ∉ started ∅ t1.
Proof.
  intros Hr He Ht. destruct (snap_reconciles_once _ _ Hr) as [Ho Hs].
  destruct (keeps_Reconcile m req _ _ _ Hs He) as [Ho' _]. by eapply once_app.
Qed.

(** An export is started only of a snapshot that was read alive, that has
    no recorded configuration and no creation time, and whose job was read
    running with an id, in a cluster that has a license key; the goroutine gets
    that id and the client of that cluster. *)
Theorem snapshot_export_justified m req t1 k id (jjs : JetJobSnapshot) hz client t2 o :
  exec (Reconcile m req) (t1 ++ ev_export k id jjs hz client :: t2) o ->
  k = r_nn jjs /\ exportable req t1 jjs id hz /\ Ev (GetOrCreate hz) (Found client) ∈ t1.
Proof. intros He. exact (wp_call _ _ _ _ _ _ (wps_Reconcile req m) He). Qed.

(** The goroutine of an export writes over the status it has just read,
    and reports the truth: Exported and a creation time only after the cluster
    acknowledged the request for this snapshot of this job, Failed only after
    the request was refused. *)
Theorem snapshot_status_truthful n id jjs hz client t1 (o : JetJobSnapshot) (err : option error) t2 out :
  exec (export_snapshot n id jjs hz client) (t1 ++ Ev (StatusUpdate KSnap o) err :: t2) out ->
  exists o0, ev_read KSnap n o0 ∈ t1 /\ same o0 o /\ truthful id jjs hz t1 (r_Status o0) (r_Status o).
Proof. intros He. exact (wp_call _ _ _ _ _ _ (wpe_body n id jjs hz client) He). Qed.
End Facts.

(** ** A concrete run *)

Module SnapRuns.
Import RefProto.
#[local] Existing Instance RefProto.ref.

Definition snap1 : JetJobSnapshot :=
  mkResource "ns" "snap" "uid" [] [n_Finalizer] false ∅ (mkJetJobSnapshotSpec "" false "job") (mkJetJobSnapshotStatus "" "" None).
Definition job1 : JetJob :=
  mkJetJob "ns" "job" [] false ∅ (mkJetJobSpec "" "hz" "Running" "job.jar" "" "" None "") (mkJetJobStatus 7 JetJobRunning None None "" "").
Definition hz1 : Hazelcast :=
  mkHazelcast "hz" "ns" ∅ false
    (mkHazelcastSpec (Some 3) "" "license" None None None "" None None None None "" None [] None "dev" None [] [] [] None None None None)
    (mkHazelcastStatus 3 "Running").

Definition answer (o : op) (_ : list event) : ans o :=
  match o as o return kube_ans o with
  | Get KSnap _ => Found snap1
  | Get _ _ => Failed (mkError ENotFound "not found")
  | ListByHz _ _ _ | ListIn _ _ => Found []
  | GetHazelcast _ => Found hz1
  | GetConfigSecret _ => Failed (errors_New "not found")
  | GetSecretData _ => Found ∅
  | GetOrCreate _ => Found true
  | Running _ => true
  | OrderedMembers _ | MemberAddresses _ => []
  | InvokeOnMember _ _ _ | InvokeOnRandomTarget _ _ => Found NewClientMessageForEncode
  | GetStatusService _ => None
  | GetConfigMap _ => Failed (errors_New "not found")
  | GetJetJob _ => Found job1
  | Now => 1700000000000
  | GoSync _ _ | GoExport _ _ _ _ _ => tt
  | _ => None
  end.

Definition key : NamespacedName := ("ns", "snap").
Definition hz_key : NamespacedName := ("ns", "hz").
Definition owners (h : Hazelcast) (s : JetJobSnapshot) : sum (list OwnerReference) error := inl [mkOwnerReference "Hazelcast" "hz" "hz-uid"].
Abbreviation reconcile1 := (Snap_Reconcile (fun _ => "Hazelcast") (fun _ => "hz-uid") owners ∅ key).
Definition start_run := run answer reconcile1 [].
Lemma snap_start_exec : exec reconcile1 start_run.1 (Returned ({[key]}, (ctrl_Result_zero, None))).
Proof. apply run_exec_2. vm_compute. reflexivity. Qed.

Definition exports (e : event) : bool := match ev_op e with GoExport k _ _ _ _ => bool_decide (k = key) | _ => false end.

Lemma snapshot_once_witness : exists t1 : list event, key ∉ started ∅ t1.
Proof.
  destruct (find_event (F := kube_effects) exports start_run.1) as (t1 & [c x] & t2 & Ht & He); [vm_compute; reflexivity|].
  unfold exports in He. cbn [ev_op] in He.
  destruct c as [| | | | | | | | | | | | | | | | | | | | | | | |k id jjs hz client]; try discriminate He.
  destruct x. exists t1.
  apply bool_decide_eq_true in He as Hk.
  rewrite <- Hk.
  eapply (snapshot_exported_once (fun _ => "Hazelcast") (fun _ => "hz-uid") owners [] ∅ key start_run.1).
  - apply sr_start.
  - exact snap_start_exec.
  - exact Ht.
Defined.

Lemma snapshot_export_witness : exists t1 id (jjs : JetJobSnapshot) hz, exportable key t1 jjs id hz.
Proof.
  destruct (find_event (F := kube_effects) exports start_run.1) as (t1 & [c x] & t2 & Ht & He); [vm_compute; reflexivity|].
  unfold exports in He. cbn [ev_op] in He.
  destruct c as [| | | | | | | | | | | | | | | | | | | | | | | |k id jjs hz client]; try discriminate He.
  destruct x. exists t1, id, jjs, hz.
  destruct (snapshot_export_justified (fun _ => "Hazelcast") (fun _ => "hz-uid") owners ∅ key t1 k id jjs hz client t2
    (Returned ({[key]}, (ctrl_Result_zero, None)))) as (_ & H & _).
  - pose proof snap_start_exec as Hx. rewrite Ht in Hx. exact Hx.
  - exact H.
Defined.

Definition body_run := run answer (export_snapshot key 7 snap1 hz_key true) [].
Lemma body_exec : exec (export_snapshot key 7 snap1 hz_key true) body_run.1 (Returned tt).
Proof. apply run_exec_2. vm_compute. reflexivity. Qed.

Definition stores_exported (e : event) : bool :=
  match ev_op e with StatusUpdate KSnap o => strb (jt_State (r_Status o)) JetJobSnapshotExported | _ => false end.
Lemma snapshot_status_witness : exists (t1 : list event) (o0 o : JetJobSnapshot), truthful 7 snap1 hz_key t1 (r_Status o0) (r_Status o).
Proof.
  destruct (find_event (F := kube_effects) stores_exported body_run.1) as (t1 & [c x] & t2 & Ht & He); [vm_compute; reflexivity|].
  unfold stores_exported in He. cbn [ev_op] in He.
  destruct c as [| |k o| | | | | | | | | | | | | | | | | | | | | |]; try discriminate He.
  destruct k; try discriminate He.
  destruct (snapshot_status_truthful key 7 snap1 hz_key true t1 o x t2 (Returned tt)) as (o0 & _ & _ & H).
  - rewrite <- Ht. exact body_exec.
  - exists t1, o0, o. exact H.
Defined.
End SnapRuns.
