(* ===== verification/WanSyncController.v ===== *)
(** * The WAN synchronisation controller

    src/internal/controller/hazelcast/wansync_controller.go and
    wansync_status.go, and the requests to members of
    src/internal/hazelcast-client/wan_sync_service.go.  A worker started by
    [GoSync] is the program [doStartSyncJob] with the callback
    [stateEventUpdate]; which worker gets which requests is WanSyncQueue.v.
    The channel the goroutines of the members send to is the list of their
    results in some order.  Logging, the wait between polls, the phone home
    trigger and [SetupWithManager] are left out. *)

From S2P Require Import Prelude Eff FieldValidation Json HazelcastTypes DataStructureTypes HazelcastValidation HazelcastValidationFacts MapValidation ConfigTypes Proto CodecBuiltin CodecTypes CodecExtra CodecRequests DataStructureConfig DataStructureValidation WanTypes HazelcastConfig JetJobValidation Kube WanController.
#[local] Open Scope prog_scope.
#[local] Open Scope string_scope.
#[local] Open Scope list_scope.
#[local] Open Scope Z_scope.

(** ** The order in which goroutines finish

    The [code]-th order of a list: the head is chosen by [code] modulo the
    length, the rest by the quotient. *)
Fixpoint shuffle {A} (n : nat) (code : nat) (l : list A) : list A :=
  match n with
  | O => l
  | S n =>
      match l !! (code mod length l)%nat with
      | None => l
      | Some a => a :: shuffle n (code / length l)%nat (delete (code mod length l)%nat l)
      end
  end.

Lemma shuffle_perm {A} n code (l : list A) : shuffle n code l ≡ₚ l.
Proof.
  revert code l. induction n as [|n IH]; intros code l; [done|]. cbn [shuffle].
  destruct (l !! _) as [a|] eqn:E; [|done]. rewrite IH. symmetry. by apply delete_Permutation.
Qed.

Section WanSync.
Context `{P : Proto} `{R : MapRange} `{QL : QuantityLib} `{Y : YamlLib} `{KE : KErrors} `{JT : JsonText} `{EJ : EventJson}
  `{RL : @RetryLib kube_effects}.

(** ** wansync_status.go *)

Record wanSyncMapStatus := mkMapSyncStatus {
  so_phase : string;
  so_message : string;
  so_publisherId : string;
  so_resourceName : string;
}.
Record wanSyncOptionsBuilder := mkSyncOptions {
  sb_phase : string;
  sb_message : string;
  sb_mapsStatuses : gmap string wanSyncMapStatus;
}.

Definition wanSyncStatus (hzMaps : gmap string (list Map)) : wanSyncOptionsBuilder :=
  mkSyncOptions WanSyncNotStarted "" (foldl (fun statuses '(hz, maps) =>
    foldl (fun statuses (m : Map) => <[wanMapKey hz (DataStructureTypes.MapName m) := mkMapSyncStatus WanSyncNotStarted "" "" ""]> statuses)
      statuses maps) ∅ (go_range hzMaps)).
Definition wanSyncFailedStatus (e : error) : wanSyncOptionsBuilder := mkSyncOptions WanSyncFailed (err_msg e) ∅.
Definition wanSyncPendingStatus : wanSyncOptionsBuilder := mkSyncOptions WanSyncPending "" ∅.

Definition stored_map_status (s : wanSyncMapStatus) : WanSyncMapStatus :=
  mkWanSyncMapStatus (so_resourceName s) (so_publisherId s) (so_phase s) (so_message s).

(** The phase and the message over all maps: of the maps that are not
    completed, the last one the range gets to. *)
Definition maps_phase (maps : gmap string WanSyncMapStatus) : string * string :=
  foldl (fun r '(_, ms) => if negb (strb (sy_Phase ms) WanSyncCompleted) then (sy_Phase ms, sy_Message ms) else r)
    (WanSyncCompleted, "") (go_range maps).

Definition with_map_status (wanMapKey : string) (ms : wanSyncMapStatus) (st : WanSyncStatus) : WanSyncStatus :=
  let maps := <[wanMapKey := stored_map_status ms]> (ys_Maps st) in
  if negb (strb (so_phase ms) WanSyncCompleted) then mkWanSyncStatus (so_phase ms) (so_message ms) maps
  else mkWanSyncStatus (maps_phase maps).1 (maps_phase maps).2 maps.

Definition update_map_status (name : NamespacedName) (wanMapKey : string) (ms : wanSyncMapStatus) : prog (option error) :=
  ask got <- Get KSync name ;;
  match (got : fetched WanSync) with
  | Failed e => Done (Some e)
  | Found wan => call (StatusUpdate KSync (set_Status wan (with_map_status wanMapKey ms (r_Status wan)) : WanSync))
  end.
Definition updateWanSyncMapStatus (name : NamespacedName) (wanMapKey : string) (ms : wanSyncMapStatus) : prog (option error) :=
  r <- RetryOnConflict (stateless (update_map_status name wanMapKey ms)) tt ;; Done r.2.

Definition with_options (options : wanSyncOptionsBuilder) (st : WanSyncStatus) : WanSyncStatus :=
  mkWanSyncStatus (sb_phase options) (sb_message options) ((stored_map_status <$> sb_mapsStatuses options) ∪ ys_Maps st).

Definition updateWanSyncStatus (wan : WanSync) (options : wanSyncOptionsBuilder) : prog (ctrl_Result * option error) :=
  let wan : WanSync := set_Status wan (with_options options (r_Status wan)) in
  ask err <- StatusUpdate KSync wan ;;
  if strb (sb_phase options) WanSyncPending then Done (mkResult true 0, None)
  else Done (ctrl_Result_zero, err : option error).
Definition sync_failed (wan : WanSync) (e : error) : prog (ctrl_Result * option error) :=
  updateWanSyncStatus wan (wanSyncFailedStatus e).

(** ** The callback of a worker *)

Definition event_status (e : MCEvent) : wanSyncMapStatus :=
  if IsDone (MCEvent_Type e) then mkMapSyncStatus WanSyncCompleted "" (CodecExtra.PublisherId e) ""
  else if IsError (MCEvent_Type e) then mkMapSyncStatus WanSyncFailed (Reason e) (CodecExtra.PublisherId e) ""
  else mkMapSyncStatus WanSyncPending "" "" "".

Definition stateEventUpdate (ws hz : NamespacedName) (e : MCEvent) : prog unit :=
  if negb (IsWanSync (MCEvent_Type e)) then Done tt else
  updateWanSyncMapStatus ws (wanMapKey hz.2 (CodecExtra.MapName e)) (event_status e) ;;
  Done tt.

(** ** wan_sync_service.go: one request *)

(** [String] of a UUID and the steps of [retry.DefaultBackoff], of the Go
    client and of client-go; [frames]: fuel to decode a response. *)
Context (UUID_String : UUID -> string) (DefaultBackoffSteps : nat) (frames : nat).

Definition filterWanSyncEvents (events : list MCEvent) (uuid : UUID) : list MCEvent :=
  List.filter (fun e => IsWanSync (MCEvent_Type e) && strb (EventUUID e) (UUID_String uuid)) events.

Definition sync_ref (wsr : WanSyncMapRequest) : WanSyncRef :=
  {| WanSyncRef_WanReplicationName := sr_wanName wsr; WanSyncRef_WanPublisherId := sr_publisherId wsr;
     WanSyncRef_Type := SingleMap; WanSyncRef_MapName := sr_mapName wsr |}.

Definition send_sync (hz : NamespacedName) (request : ClientMessage) (uuid : UUID) : prog (UUID * option error) :=
  ask r <- InvokeOnRandomTarget hz request ;;
  match (r : fetched ClientMessage) with
  | Failed e => Done (uuid, Some e)
  | Found resp => uuid <- lift_res (DecodeMCWanSyncMapResponse frames resp) ;; Done (uuid, None)
  end.
Definition wanSyncMap (wsr : WanSyncMapRequest) : prog (UUID * option error) :=
  request <- lift_res (EncodeMCWanSyncMapRequest (sync_ref wsr)) ;;
  OnError DefaultBackoffSteps (fun _ => true) (send_sync (sr_hzResource wsr) request) UUID_zero.

(** A panic of the goroutine is its result. *)
Fixpoint waitMemberFinishEvent (fuel : nat) (hz : NamespacedName) (member : string) (uuid : UUID) (errorCount noEventsCount : Z)
  : prog (res (sum MCEvent error)) :=
  match fuel with
  | O => Done OutOfFuel
  | S fuel =>
      match EncodeMCPollMCEventsRequest with
      | Ret request =>
          ask r <- InvokeOnMember hz member request ;;
          match (r : fetched ClientMessage) with
          | Failed e =>
              if errorCount + 1 >? 3 then Done (Ret (inr e)) else waitMemberFinishEvent fuel hz member uuid (errorCount + 1) noEventsCount
          | Found resp =>
              match DecodeMCPollMCEventsResponse frames resp with
              | Ret all =>
                  match filterWanSyncEvents all uuid with
                  | [] =>
                      if noEventsCount + 1 >? 24
                      then Done (Ret (inr (errors_New ("could not find MC events for UUID " ++ UUID_String uuid)%string)))
                      else waitMemberFinishEvent fuel hz member uuid 0 (noEventsCount + 1)
                  | events =>
                      match List.find (fun e => negb (IsInProgress (MCEvent_Type e))) events with
                      | Some e => Done (Ret (inl e))
                      | None => waitMemberFinishEvent fuel hz member uuid 0 0
                      end
                  end
              | Panic => Done Panic
              | OutOfFuel => Done OutOfFuel
              end
          end
      | Panic => Done Panic
      | OutOfFuel => Done OutOfFuel
      end
  end.

(** What the goroutine of a member sends. *)
Definition ignored_event (reason mapName : string) : MCEvent :=
  WithMapName (WithReason (mkMCEvent 0 WanSyncIgnored "" None) reason) mapName.
Definition member_event (wsr : WanSyncMapRequest) (r : res (sum MCEvent error)) : res MCEvent :=
  match r with
  | Ret (inl e) => Ret e
  | Ret (inr e) => Ret (ignored_event (err_msg e) (sr_mapName wsr))
  | Panic => Panic
  | OutOfFuel => OutOfFuel
  end.

Fixpoint res_all {A} (l : list (res A)) : res (list A) :=
  match l with
  | [] => Ret []
  | r :: l => match r, res_all l with
              | Panic, _ | _, Panic => Panic
              | OutOfFuel, _ | _, OutOfFuel => OutOfFuel
              | Ret a, Ret l => Ret (a :: l)
              end
  end.

(** The first error, or the last event; the zero event without members. *)
Definition MCEvent_zero : MCEvent := mkMCEvent 0 0 "" None.
Fixpoint finish_event (events : list MCEvent) (finishEvent : MCEvent) : MCEvent :=
  match events with
  | [] => finishEvent
  | e :: events => if IsError (MCEvent_Type e) then e else finish_event events e
  end.

Definition waitWanSyncToFinish (fuel : nat) (hz : NamespacedName) (uuid : UUID) (wsr : WanSyncMapRequest) : prog MCEvent :=
  ask members <- OrderedMembers hz ;;
  Par (length (members : list string))
    (fun i => match (members : list string) !! i with
              | Some member => r <- waitMemberFinishEvent fuel hz member uuid 0 0 ;; Done (member_event wsr r)
              | None => Done (Ret MCEvent_zero)
              end)
    (fun rs code => events <- lift_res (res_all rs) ;;
       Done (finish_event (shuffle (length events) code events) MCEvent_zero)).

Definition started_event (mapName : string) : MCEvent := WithMapName (mkMCEvent 0 WanSyncStarted "" None) mapName.

(** The body of the loop of [doStartSyncJob]; a nil client panics. *)
Definition sync_map (fuel : nat) (f : NamespacedName -> MCEvent -> prog unit) (wsr : WanSyncMapRequest) : prog unit :=
  let hz := sr_hzResource wsr in
  f hz (started_event (sr_mapName wsr)) ;;
  ask c <- GetOrCreate hz ;;
  match (c : fetched bool) with
  | Failed e => f hz (ignored_event (err_msg e) (sr_mapName wsr))
  | Found client =>
      if negb client then Crash else
      r <- wanSyncMap wsr ;;
      match r.2 with
      | Some e => f hz (ignored_event (err_msg e) (sr_mapName wsr))
      | None => finishEvent <- waitWanSyncToFinish fuel hz r.1 wsr ;; f hz finishEvent
      end
  end.

Fixpoint doStartSyncJob (fuel : nat) (f : NamespacedName -> MCEvent -> prog unit) (wsrs : list WanSyncMapRequest) : prog unit :=
  match wsrs with
  | [] => Done tt
  | wsr :: wsrs => sync_map fuel f wsr ;; doStartSyncJob fuel f wsrs
  end.

(** ** Reconcile *)

(** [WanReplication.PublisherId] *)
Definition wr_publisher_id (wr : WanReplication) (mapName : string) : string :=
  match List.find (fun '(_, ms) => strb (wm_ResourceName ms) mapName) (go_range (ws_Maps (r_Status wr))) with
  | Some (_, ms) => wm_PublisherId ms
  | None => ""
  end.

(** The map is to be synchronised. *)
Definition to_sync (wan : WanSync) (hzResourceName : string) (m : Map) : bool :=
  strb (st_State (r_Status (m : Map))) MapSuccess
  && match ys_Maps (r_Status wan) !! wanMapKey hzResourceName (DataStructureTypes.MapName m) with
     | Some ms => strb (sy_Phase ms) WanSyncNotStarted
     | None => true
     end.
Definition sync_request (wan : WanSync) (wr : WanReplication) (hzResourceName : string) (m : Map) : WanSyncMapRequest :=
  let name := DataStructureTypes.MapName m in
  mkWanSyncMapRequest (r_Namespace wan, hzResourceName) (r_Name wan) name (wanName name) (wr_publisher_id wr (r_Name (m : Map))).

Fixpoint sync_requests (wan : WanSync) (wr : WanReplication) (clusters : list (string * list Map))
  : prog (sum (list WanSyncMapRequest) error) :=
  match clusters with
  | [] => Done (inl [])
  | (hzResourceName, mps) :: clusters =>
      ask got <- GetHazelcast (r_Namespace wan, hzResourceName) ;;
      match (got : fetched Hazelcast) with
      | Failed e => Done (inr (wrap "failed to get Hazelcast CR for WAN Sync: " e))
      | Found _ =>
          rest <- sync_requests wan wr clusters ;;
          Done (match rest with
                | inr e => inr e
                | inl rest => inl (map (sync_request wan wr hzResourceName) (List.filter (to_sync wan hzResourceName) mps) ++ rest)
                end)
      end
  end.

Definition runWanSyncJobs (maps : gmap string (list Map)) (wan : WanSync) (wr : WanReplication) : prog (option error) :=
  wsrs <- sync_requests wan wr (go_range maps) ;;
  match wsrs with
  | inr e => Done (Some e)
  | inl [] => Done None
  | inl wsrs => do_ GoSync (r_Namespace wan, r_Name wan) wsrs ;; Done None
  end.

Definition getWanReplication (ws : WanSync) : prog (fetched WanReplication) :=
  let name := wy_WanReplicationResourceName (r_Spec ws) in
  call (Get KWan (r_Namespace ws, if negb (strb name "") then name else r_Name ws)).

Definition WanSync_zero : WanSync := mkResource "" "" "" [] [] false ∅ (mkWanSyncSpec "") (mkWanSyncStatus "" "" ∅).

(** The part from the validation on. *)
Definition sync_apply (wan : WanSync) : prog (ctrl_Result * option error) :=
  match ValidateWanSyncSpec wan with
  | Some e => sync_failed wan e
  | None =>
      wr <- getWanReplication wan ;;
      match wr with
      | Failed e => sync_failed wan e
      | Found wr =>
          if negb (strb (ws_Status (r_Status (wr : WanReplication))) WanStatusSuccess) then updateWanSyncStatus wan wanSyncPendingStatus else
          maps <- getMapsGroupByHazelcastName wr ;;
          match maps with
          | Failed e => sync_failed wan (wrap "could not get WanSync maps: " e)
          | Found maps =>
              if negb (IsApplied wan) then
                let wan : WanSync := InsertLastAppliedSpec WanSyncSpec_encode wan in
                ask err <- Update KSync wan ;;
                match (err : option error) with
                | Some e => sync_failed wan e
                | None => updateWanSyncStatus wan (wanSyncStatus maps)
                end
              else
                err <- runWanSyncJobs maps wan wr ;;
                match err with
                | Some e => sync_failed wan e
                | None =>
                    let wan : WanSync := InsertLastSuccessfullyAppliedSpec WanSyncSpec_encode wan in
                    ask err <- Update KSync wan ;;
                    match (err : option error) with
                    | Some e => sync_failed wan e
                    | None => Done (ctrl_Result_zero, None)
                    end
                end
          end
      end
  end.

Definition WanSync_Reconcile (req : NamespacedName) : prog (ctrl_Result * option error) :=
  ask got <- Get KSync req ;;
  match (got : fetched WanSync) with
  | Failed e =>
      if IsNotFound e then Done (ctrl_Result_zero, None)
      else sync_failed WanSync_zero (wrap "could not get WanSync: " e)
  | Found wan =>
      if negb (ContainsFinalizer wan n_Finalizer) && negb (r_Deleting wan) then
        ask err <- Update KSync (set_Finalizers wan (r_Finalizers wan ++ [n_Finalizer])) ;;
        Done (ctrl_Result_zero, err : option error)
      else if r_Deleting wan then
        r <- executeFinalizer KSync wan ;;
        match r.2 with Some e => sync_failed r.1 e | None => Done (ctrl_Result_zero, None) end
      else sync_apply wan
  end.
End WanSync.
