(* ===== verification/WanSyncFacts.v ===== *)
(** * Theorems about the WAN synchronisation controller

    When a map is completed, how long a member is polled, and whose results a
    resource gets. *)

From S2P Require Import Prelude Eff FieldValidation Json HazelcastTypes DataStructureTypes HazelcastValidation HazelcastValidationFacts MapValidation ConfigTypes Proto CodecBuiltin CodecTypes CodecExtra CodecRequests DataStructureConfig DataStructureValidation WanTypes HazelcastConfig JetJobValidation Kube WanController WanSyncController.
#[local] Open Scope prog_scope.
#[local] Open Scope string_scope.
#[local] Open Scope list_scope.
#[local] Open Scope Z_scope.

Section Facts.
Context `{P : Proto} `{R : MapRange} `{QL : QuantityLib} `{Y : YamlLib} `{KE : KErrors} `{JT : JsonText} `{EJ : EventJson}
  `{RL : @RetryLib kube_effects}.
Context (UUID_String : UUID -> string) (DefaultBackoffSteps : nat) (frames : nat).

(** ** The phase over all maps *)

Definition all_completed (maps : gmap string WanSyncMapStatus) : Prop :=
  forall k ms, maps !! k = Some ms -> sy_Phase ms = WanSyncCompleted.

Definition last_incomplete (r : string * string) (kv : string * WanSyncMapStatus) : string * string :=
  let '(_, ms) := kv in if negb (strb (sy_Phase ms) WanSyncCompleted) then (sy_Phase ms, sy_Message ms) else r.

Lemma last_incomplete_completed l r : (foldl last_incomplete r l).1 = WanSyncCompleted <->
  r.1 = WanSyncCompleted /\ Forall (fun kv => sy_Phase kv.2 = WanSyncCompleted) l.
Proof.
  revert r. induction l as [|[k ms] l IH]; intros r; cbn [foldl]; [by split; [intros; split|intros []]|].
  rewrite IH, Forall_cons. unfold last_incomplete. destruct (strb (sy_Phase ms) WanSyncCompleted) eqn:E; cbn [negb fst snd];
    [apply strb_true in E|apply strb_false in E]; naive_solver.
Qed.

Lemma maps_phase_completed maps : (maps_phase maps).1 = WanSyncCompleted <-> all_completed maps.
Proof.
  unfold maps_phase. change (fun r '(_, ms) => _) with last_incomplete. rewrite last_incomplete_completed, Forall_forall.
  unfold all_completed. split.
  - intros [_ Hl] k ms Hk. by apply (Hl (k, ms)), elem_of_go_range.
  - intros Hm. split; [done|]. intros [k ms] Hk%elem_of_go_range. by eapply Hm.
Qed.

Lemma with_map_status_completed key ms st :
  ys_Status (with_map_status key ms st) = WanSyncCompleted <-> all_completed (ys_Maps (with_map_status key ms st)).
Proof.
  unfold with_map_status. destruct (strb (so_phase ms) WanSyncCompleted) eqn:E; cbn [negb ys_Status ys_Maps].
  - apply maps_phase_completed.
  - apply strb_false in E. split; [done|]. intros Ha. exfalso. apply E.
    apply (Ha key (stored_map_status ms)). by rewrite lookup_insert_eq.
Qed.

(** ** Polling a member *)

(** The event of this synchronisation in a response. *)
Definition reported (t : list event) (hz : NamespacedName) (uuid : UUID) (member : string) (e : MCEvent) : Prop :=
  exists preq resp all, EncodeMCPollMCEventsRequest = Ret preq /\ ev_acked hz member preq resp ∈ t
    /\ DecodeMCPollMCEventsResponse frames resp = Ret all /\ e ∈ all
    /\ IsWanSync (MCEvent_Type e) = true /\ EventUUID e = UUID_String uuid /\ IsInProgress (MCEvent_Type e) = false.

Lemma reported_mono t t' hz uuid m e : t ⊆ t' -> reported t hz uuid m e -> reported t' hz uuid m e.
Proof. intros Ht (preq & resp & all & ? & ? & ?). exists preq, resp, all. auto. Qed.

Lemma filter_reported (events : list MCEvent) uuid e :
  List.find (fun e => negb (IsInProgress (MCEvent_Type e))) (filterWanSyncEvents UUID_String events uuid) = Some e ->
  e ∈ events /\ IsWanSync (MCEvent_Type e) = true /\ EventUUID e = UUID_String uuid /\ IsInProgress (MCEvent_Type e) = false.
Proof.
  intros [Hin Hp]%find_some. apply filter_In in Hin as [Hin [Hw Hu]%andb_true_iff].
  apply strb_true in Hu. apply negb_true_iff in Hp. by rewrite list_elem_of_In.
Qed.

Lemma rwp_wait_member G fuel hz member uuid errs none h (Q : list event -> res (sum MCEvent error) -> Prop) :
  (forall h' req, h ⊆ h' -> EncodeMCPollMCEventsRequest = Ret req -> G h' (InvokeOnMember hz member req)) ->
  (forall h' r, h ⊆ h' -> (forall e, r = Ret (inl e) -> reported h' hz uuid member e) -> Q h' r) ->
  rwp G (waitMemberFinishEvent UUID_String frames fuel hz member uuid errs none) h Q.
Proof.
  revert errs none h. induction fuel as [|fuel IH]; intros errs none h HG HQ; cbn [waitMemberFinishEvent].
  { by apply rwp_ret; intros; apply HQ. }
  destruct EncodeMCPollMCEventsRequest as [preq| |] eqn:Ereq; [|by apply rwp_ret; intros; apply HQ..].
  apply rwp_vis; [intros h1 Hs1; by apply HG|]. intros [resp|e] h1 Hs1 E1.
  - destruct (DecodeMCPollMCEventsResponse frames resp) as [all| |] eqn:Ed; [|by apply rwp_ret; intros; apply HQ; [by etrans|]..].
    destruct (filterWanSyncEvents UUID_String all uuid) as [|e0 l] eqn:Ef.
    + destruct (_ >? 24); [by apply rwp_ret; intros; apply HQ; [by etrans|]|].
      apply IH; [intros; apply HG; [by etrans|done]|]. intros; apply HQ; [by etrans|done].
    + destruct (List.find _ (e0 :: l)) as [e|] eqn:Efind.
      * apply rwp_ret. intros h2 Hs2. apply HQ; [by etrans|]. intros e' [= <-]. rewrite <- Ef in Efind.
        apply filter_reported in Efind as (? & ? & ? & ?). exists preq, resp, all. split_and!; try done. by apply Hs2.
      * apply IH; [intros; apply HG; [by etrans|done]|]. intros; apply HQ; [by etrans|done].
  - destruct (_ >? 3); [by apply rwp_ret; intros; apply HQ; [by etrans|]|].
    apply IH; [intros; apply HG; [by etrans|done]|]. intros; apply HQ; [by etrans|done].
Qed.

(** A poll whose response says that the synchronisation is in progress. *)
Definition progress (uuid : UUID) (e : event) : bool :=
  match e with
  | Ev o x =>
      match o as o return kube_ans o -> bool with
      | InvokeOnMember _ _ _ => fun r =>
          match r with
          | Found resp =>
              match DecodeMCPollMCEventsResponse frames resp with
              | Ret all => match filterWanSyncEvents UUID_String all uuid with
                           | [] => false
                           | l => forallb (fun e => IsInProgress (MCEvent_Type e)) l
                           end
              | _ => false
              end
          | Failed _ => false
          end
      | _ => fun _ => false
      end x
  end.
Definition progresses (uuid : UUID) (t : list event) : Z := Z.of_nat (length (List.filter (progress uuid) t)).

Lemma progresses_cons uuid e t : progresses uuid (e :: t) = (if progress uuid e then 1 else 0) + progresses uuid t.
Proof. unfold progresses. cbn [List.filter]. destruct (progress uuid e); cbn [length]; lia. Qed.

Lemma progresses_nonneg uuid t : 0 <= progresses uuid t.
Proof. unfold progresses. lia. Qed.

(** The response cannot be decoded with the fuel. *)
Definition undecoded (t : list event) (hz : NamespacedName) (member : string) : Prop :=
  EncodeMCPollMCEventsRequest = OutOfFuel
  \/ exists preq resp, ev_acked hz member preq resp ∈ t /\ DecodeMCPollMCEventsResponse frames resp = OutOfFuel.

Lemma undecoded_cons e t hz member : undecoded t hz member -> undecoded (e :: t) hz member.
Proof. intros [?|(preq & resp & ? & ?)]; [by left|right]. exists preq, resp. split; [by right|done]. Qed.

Lemma wait_member_bounded fuel hz member uuid errs none t o :
  0 <= errs <= 3 -> 0 <= none <= 24 -> exec (waitMemberFinishEvent UUID_String frames fuel hz member uuid errs none) t o ->
  Z.of_nat (length t) <= 4 * (25 - none) - errs + 100 * progresses uuid t
  /\ exists r, o = Returned r /\ (r = OutOfFuel -> length t = fuel \/ undecoded t hz member).
Proof.
  revert errs none t. induction fuel as [|fuel IH]; intros errs none t Herrs Hnone He; cbn [waitMemberFinishEvent] in He.
  { destruct He as [-> ->]. pose proof (progresses_nonneg uuid []). cbn [length]. split; [lia|]. eexists. split; [done|]. by left. }
  assert (Hstop : forall (x : fetched ClientMessage) r preq, t = [Ev (InvokeOnMember hz member preq) x] -> o = Returned r ->
    (r = OutOfFuel -> undecoded t hz member) ->
    Z.of_nat (length t) <= 4 * (25 - none) - errs + 100 * progresses uuid t
    /\ exists r, o = Returned r /\ (r = OutOfFuel -> length t = S fuel \/ undecoded t hz member)).
  { intros x r preq Ht Ho Hr. split; [|exists r; split; [done|]; by right; apply Hr].
    pose proof (progresses_nonneg uuid t). subst t. cbn [length]. lia. }
  assert (Hgo : forall e t' errs' none', t = e :: t' -> 0 <= errs' <= 3 -> 0 <= none' <= 24 ->
    exec (waitMemberFinishEvent UUID_String frames fuel hz member uuid errs' none') t' o ->
    4 * (25 - none') - errs' + 1 <= 4 * (25 - none) - errs + (if progress uuid e then 100 else 0) ->
    Z.of_nat (length t) <= 4 * (25 - none) - errs + 100 * progresses uuid t
    /\ exists r, o = Returned r /\ (r = OutOfFuel -> length t = S fuel \/ undecoded t hz member)).
  { intros e t' errs' none' -> He' Hn' Hex Hle. destruct (IH errs' none' t' He' Hn' Hex) as (Hl & r & Ho & Hr).
    rewrite progresses_cons. split; [cbn [length]; destruct (progress uuid e); lia|]. exists r. split; [done|].
    intros Hf. destruct (Hr Hf) as [Hlen|?]; [left; cbn [length]; lia|right; by apply undecoded_cons]. }
  destruct EncodeMCPollMCEventsRequest as [preq| |] eqn:Ereq.
  2-3: destruct He as [-> ->]; pose proof (progresses_nonneg uuid []); cbn [length]; (split; [lia|]); eexists; (split; [done|]); intros ?; first [done|right; by left].
  destruct He as ([resp|e] & t' & -> & He).
  - destruct (DecodeMCPollMCEventsResponse frames resp) as [all| |] eqn:Ed.
    2-3: destruct He as [-> ->]; (eapply Hstop; [reflexivity|reflexivity|]); intros ?; first [done|right; exists preq, resp; split; [by left|done]].
    destruct (filterWanSyncEvents UUID_String all uuid) as [|e0 l] eqn:Ef.
    + destruct (none + 1 >? 24) eqn:E24; [destruct He as [-> ->]; by eapply Hstop|].
      eapply Hgo; [done| | |exact He|]; [lia..|]. cbn [progress]. rewrite Ed, Ef. lia.
    + destruct (List.find _ (e0 :: l)) as [e|] eqn:Efind; [destruct He as [-> ->]; by eapply Hstop|].
      eapply Hgo; [done| | |exact He|]; [lia..|]. cbn [progress]. rewrite Ed, Ef.
      assert (Hall : forallb (fun e => IsInProgress (MCEvent_Type e)) (e0 :: l) = true).
      { apply forallb_forall. intros x Hx. pose proof (find_none _ _ Efind x Hx) as Hp. by apply negb_false_iff in Hp. }
      rewrite Hall. lia.
  - destruct (errs + 1 >? 3) eqn:E3; [destruct He as [-> ->]; by eapply Hstop|].
    eapply Hgo; [done| | |exact He|]; [lia..|]. cbn [progress]. lia.
Qed.

(** ** The event all members finish with *)

Lemma res_all_Ret {A} (rs : list (res A)) l : res_all rs = Ret l -> rs = Ret <$> l.
Proof.
  revert l. induction rs as [|r rs IH]; intros l; simpl; [by intros [= <-]|].
  destruct r, (res_all rs) as [l'| |]; try done. intros [= <-]. simpl. by rewrite (IH l').
Qed.

Lemma finish_event_ok l z e : finish_event l z = e -> IsError (MCEvent_Type e) = false ->
  (forall e', e' ∈ l -> IsError (MCEvent_Type e') = false) /\ (e ∈ l \/ l = [] /\ e = z).
Proof.
  revert z. induction l as [|e1 l IH]; intros z; cbn [finish_event].
  { intros -> _. split; [by intros ? ?%not_elem_of_nil|]. by right. }
  destruct (IsError (MCEvent_Type e1)) eqn:E1; [intros ->; congruence|]. intros Hf He.
  destruct (IH e1 Hf He) as [Hl Hin]. split; [by intros e' [->|?]%elem_of_cons; [|apply Hl]|].
  left. apply elem_of_cons. destruct Hin as [?|[_ ->]]; [by right|by left].
Qed.

(** A WAN synchronisation event that is neither in progress nor an error
    reports that it is done, and an event that is done is no error. *)
Lemma finished_is_done t : IsWanSync t = true -> IsInProgress t = false -> IsError t = false -> IsDone t = true.
Proof. unfold IsWanSync, IsInProgress, IsError, IsDone. lia. Qed.
Lemma done_no_error t : IsDone t = true -> IsError t = false.
Proof.
  unfold IsError, IsDone, WanConsistencyCheckFinished, WanSyncFinishedFull, WanSyncFinishedMerkle, WanConfigurationAdded,
    WanConfigurationExtended, WanSyncIgnored, AddWanConfigurationIgnored, WanConsistencyCheckIgnored. lia.
Qed.

(** Every member of the cluster reported that the synchronisation is done;
    [e] is one of the reports. *)
Definition all_done (t : list event) (hz : NamespacedName) (uuid : UUID) (e : MCEvent) : Prop :=
  exists members, ev_members hz members ∈ t /\ (exists m, m ∈ members /\ reported t hz uuid m e)
    /\ forall m, m ∈ members -> exists e', reported t hz uuid m e' /\ IsDone (MCEvent_Type e') = true.

(** What the goroutine of the [i]-th member leaves behind. *)
Definition member_result (hz : NamespacedName) (uuid : UUID) (members : list string) (i : nat) (t : list event) (r : res MCEvent) : Prop :=
  forall m e, members !! i = Some m -> r = Ret e -> IsError (MCEvent_Type e) = false -> reported t hz uuid m e.

Lemma all_done_intro h hz uuid members (rs : list (res MCEvent)) events code :
  ev_members hz members ∈ h -> length rs = length members -> res_all rs = Ret events ->
  (forall i r, rs !! i = Some r -> member_result hz uuid members i h r) ->
  let e := finish_event (shuffle (length events) code events) MCEvent_zero in
  IsDone (MCEvent_Type e) = true -> all_done h hz uuid e.
Proof.
  intros Em Hl Hrs Hq e He. apply res_all_Ret in Hrs. subst rs. rewrite length_fmap in Hl.
  destruct (finish_event_ok _ _ e eq_refl) as [Hok Hin]; [by apply done_no_error|].
  assert (Hperm : forall x, x ∈ shuffle (length events) code events <-> x ∈ events) by (intros x; by rewrite shuffle_perm).
  assert (Hrep : forall i x m, events !! i = Some x -> members !! i = Some m -> reported h hz uuid m x).
  { intros i x m Hx Hm. apply (Hq i (Ret x)) with (m := m); [by rewrite list_lookup_fmap, Hx|done|done|].
    apply Hok, Hperm. by eapply list_elem_of_lookup_2. }
  exists members. split; [done|]. split.
  - destruct Hin as [[i Hi]%Hperm%list_elem_of_lookup|[_ ->]]; [|done].
    destruct (lookup_lt_is_Some_2 members i) as [m Hm]; [rewrite <- Hl; by eapply lookup_lt_Some|].
    exists m. split; [by eapply list_elem_of_lookup_2|by eapply Hrep].
  - intros m [i Hi]%list_elem_of_lookup.
    destruct (lookup_lt_is_Some_2 events i) as [x Hx]; [rewrite Hl; by eapply lookup_lt_Some|].
    exists x. pose proof (Hrep i x m Hx Hi) as Hr. split; [done|]. destruct Hr as (? & ? & ? & _ & _ & _ & _ & ? & _ & ?).
    apply finished_is_done; [done..|]. apply Hok, Hperm. by eapply list_elem_of_lookup_2.
Qed.

Lemma wp_waitWanSyncToFinish G fuel hz uuid wsr h (Q : list event -> MCEvent -> Prop) :
  (forall h', h ⊆ h' -> G h' (OrderedMembers hz)) ->
  (forall h' m req, h ⊆ h' -> EncodeMCPollMCEventsRequest = Ret req -> G h' (InvokeOnMember hz m req)) ->
  (forall h' e, h ⊆ h' -> (IsDone (MCEvent_Type e) = true -> all_done h' hz uuid e) -> Q h' e) ->
  wp G (waitWanSyncToFinish UUID_String frames fuel hz uuid wsr) h Q.
Proof.
  intros HG1 HG2 HQ. apply wp_vis; [by apply HG1|]. intros members h1 Hs1 E1.
  apply (wp_par (G := G)) with (Qs := member_result hz uuid members).
  - intros i. destruct ((members : list string) !! i) as [m|] eqn:Em.
    + apply rwp_bind, rwp_wait_member; [intros h2 req Hs2; apply HG2; by etrans|]. intros h2 r Hs2 Hr.
      apply rwp_ret. intros h3 Hs3 m' e Hm' He Hok. rewrite Em in Hm'. injection Hm' as <-.
      destruct r as [[e0|err]| |]; try done; injection He as <-; [|done]. eapply reported_mono; [done|by apply Hr].
    + apply rwp_ret. intros h2 _ m' e Hm'. by rewrite Em in Hm'.
  - intros rs code h2 Hl Hs2 Hq. apply wp_bind, (wp_lift_res G). intros events Hrs. apply wp_ret, HQ; [by etrans|].
    by apply all_done_intro with (rs := rs) (members := members); [apply Hs2| | |].
Qed.

(** ** A worker *)

Section Worker.
Context (ws : NamespacedName) (wsrs : list WanSyncMapRequest).

Definition ev_accepted (hz : NamespacedName) (request resp : ClientMessage) : event := Ev (InvokeOnRandomTarget hz request) (Found resp).

(** The cluster accepted the request with the identifier, and every member
    reported that the synchronisation with it is done. *)
Definition synchronised (t : list event) (wsr : WanSyncMapRequest) (e : MCEvent) : Prop :=
  exists request resp uuid, EncodeMCWanSyncMapRequest (sync_ref wsr) = Ret request
    /\ ev_accepted (sr_hzResource wsr) request resp ∈ t
    /\ DecodeMCWanSyncMapResponse frames resp = Ret uuid /\ all_done t (sr_hzResource wsr) uuid e.

(** A status is written over the one that was read, for one map of the
    requests; the map is completed only when it is synchronised. *)
Definition worker_guard (t : list event) (c : kube_op) : Prop :=
  match c with
  | StatusUpdate KSync o => exists (o0 : WanSync) wsr e,
      ev_read KSync ws o0 ∈ t /\ same o0 (o : WanSync) /\ wsr ∈ wsrs
      /\ r_Status o = with_map_status (wanMapKey (sr_hzResource wsr).2 (CodecExtra.MapName e)) (event_status e) (r_Status o0)
      /\ (so_phase (event_status e) = WanSyncCompleted -> synchronised t wsr e)
  | InvokeOnRandomTarget hz request => exists wsr, wsr ∈ wsrs /\ hz = sr_hzResource wsr
      /\ EncodeMCWanSyncMapRequest (sync_ref wsr) = Ret request
  | Update _ _ => False
  | _ => True
  end.

Lemma event_status_completed e : so_phase (event_status e) = WanSyncCompleted <-> IsDone (MCEvent_Type e) = true.
Proof. unfold event_status. destruct (IsDone _); [done|]. by destruct (IsError _). Qed.

Lemma wpk_callback wsr e h Q : wsr ∈ wsrs -> (IsDone (MCEvent_Type e) = true -> forall h', h ⊆ h' -> synchronised h' wsr e) ->
  (forall h', h ⊆ h' -> Q h' tt) -> wp worker_guard (stateEventUpdate ws (sr_hzResource wsr) e) h Q.
Proof.
  intros Hw He HQ. unfold stateEventUpdate. destruct (negb _); [by apply wp_ret, HQ|].
  apply wp_bind. unfold updateWanSyncMapStatus.
  eapply (wp_seq _ _ _ (fun _ _ => True)); [|by intros h1 r Hs1 _; apply wp_ret, wp_ret, HQ].
  apply wp_RetryOnConflict. intros h1 Hs1. apply wp_vis; [done|]. intros [o|err] h2 Hs2 E2; cbv iota; [|by apply wp_ret].
  apply wp_vis; [|by intros]. exists o, wsr, e. split; [done|]. split; [by constructor|]. split; [done|]. split; [done|].
  intros Hc%event_status_completed. apply He; [done|]. by etrans.
Qed.

Lemma all_done_mono t t' hz uuid e : t ⊆ t' -> all_done t hz uuid e -> all_done t' hz uuid e.
Proof.
  intros Ht (members & Hm & (m & Hin & Hr) & Hall). exists members. split; [by apply Ht|].
  split; [exists m; split; [done|by eapply reported_mono]|].
  intros m' Hin'. destruct (Hall m' Hin') as (e' & ? & ?). exists e'. split; [by eapply reported_mono|done].
Qed.

(** Sending the request, retried: without an error the cluster accepted it
    with the identifier. *)
Lemma wpk_wanSyncMap wsr h (Q : list event -> UUID * option error -> Prop) : wsr ∈ wsrs ->
  (forall h' uuid err, h ⊆ h' -> (err = None -> exists request resp, EncodeMCWanSyncMapRequest (sync_ref wsr) = Ret request
     /\ ev_accepted (sr_hzResource wsr) request resp ∈ h' /\ DecodeMCWanSyncMapResponse frames resp = Ret uuid) ->
     Q h' (uuid, err)) ->
  wp worker_guard (wanSyncMap DefaultBackoffSteps frames wsr) h Q.
Proof.
  intros Hw HQ. apply wp_bind, (wp_lift_res worker_guard). intros request Hreq.
  apply (wp_OnError (fun _ _ => True)); [|done]. intros h1 u Hs1 _.
  apply wp_vis; [by exists wsr|]. intros [resp|e] h2 Hs2 E2; cbv iota.
  - apply wp_bind, (wp_lift_res worker_guard). intros uuid Hu. apply wp_ret. split; [done|]. apply HQ; [by etrans|].
    intros _. by exists request, resp.
  - apply wp_ret. split; [done|]. apply HQ; [by etrans|done].
Qed.

Lemma wpk_sync_map fuel wsr h Q : wsr ∈ wsrs -> (forall h', h ⊆ h' -> Q h' tt) ->
  wp worker_guard (sync_map UUID_String DefaultBackoffSteps frames fuel (stateEventUpdate ws) wsr) h Q.
Proof.
  intros Hw HQ. apply wp_bind, wpk_callback; [done|done|]. intros h1 Hs1.
  apply wp_vis; [done|]. intros [client|e] h2 Hs2 _; cbv iota; [|apply wpk_callback; [done..|]; intros; apply HQ; set_solver].
  destruct client; [|done]. cbn [negb].
  apply wp_bind, wpk_wanSyncMap; [done|]. intros h3 uuid [e|] Hs3 Hu; cbn [fst snd];
    [apply wpk_callback; [done..|]; intros; apply HQ; set_solver|].
  destruct (Hu eq_refl) as (request & resp & Hreq & Hresp & Hdec).
  apply wp_bind, wp_waitWanSyncToFinish; [done..|]. intros h4 e Hs4 He.
  apply wpk_callback; [done| |intros; apply HQ; set_solver].
  intros Hd h5 Hs5. exists request, resp, uuid. split_and!; [done|set_solver|done|]. eapply all_done_mono; [done|by apply He].
Qed.

Lemma wpk_doStartSyncJob fuel l h : l ⊆ wsrs ->
  wp worker_guard (doStartSyncJob UUID_String DefaultBackoffSteps frames fuel (stateEventUpdate ws) l) h (fun _ _ => True).
Proof.
  revert h. induction l as [|wsr l IH]; intros h Hl; [done|].
  apply wp_bind, wpk_sync_map; [apply Hl; by left|]. intros h' _. apply IH. intros x Hx. apply Hl. by right.
Qed.
End Worker.

(** ** Reconcile *)

Section Sync.
Context (nn : NamespacedName).

(** The synchronisation was read alive and applied, and its WAN replication
    was read successful. *)
Record syncing (t : list event) (wan : WanSync) (wr : WanReplication) : Prop := {
  sg_read : ev_read KSync nn wan ∈ t;
  sg_live : r_Deleting wan = false;
  sg_applied : IsApplied wan = true;
  sg_wan : let name := wy_WanReplicationResourceName (r_Spec wan) in
    ev_read KWan (r_Namespace wan, if negb (strb name "") then name else r_Name wan) wr ∈ t;
  sg_success : ws_Status (r_Status wr) = WanStatusSuccess;
}.

(** The request is for a map of the cluster that was read successful and
    whose synchronisation has not started. *)
Definition requested (t : list event) (wan : WanSync) (wr : WanReplication) (wsr : WanSyncMapRequest) : Prop :=
  exists hz m, wsr = sync_request wan wr hz m /\ map_read t m /\ in_cluster t m hz
    /\ st_State (r_Status m) = MapSuccess
    /\ forall ms, ys_Maps (r_Status wan) !! wanMapKey hz (DataStructureTypes.MapName m) = Some ms -> sy_Phase ms = WanSyncNotStarted.

Definition sync_guard (t : list event) (c : kube_op) : Prop :=
  match c with
  | GoSync ws wsrs => exists wan wr, syncing t wan wr /\ ws = r_nn wan /\ wsrs <> []
      /\ forall wsr, wsr ∈ wsrs -> requested t wan wr wsr
  | StatusUpdate KSync o => ys_Status (r_Status o) <> WanSyncCompleted
  | InvokeOnMember _ _ _ | InvokeOnRandomTarget _ _ => False
  | _ => True
  end.
#[local] Instance sync_reading : Reading sync_guard.
Proof. by intros h []. Qed.

Lemma wpy_status (wan : WanSync) options h Q : sb_phase options <> WanSyncCompleted -> (forall h' r, Q h' r) ->
  wp sync_guard (updateWanSyncStatus wan options) h Q.
Proof. intros Hp HQ. apply wp_vis; [done|]. intros err h' _ _. by destruct (strb _ _); apply wp_ret. Qed.
Lemma wpy_failed (wan : WanSync) e h Q : (forall h' r, Q h' r) -> wp sync_guard (sync_failed wan e) h Q.
Proof. by apply wpy_status. Qed.

Lemma requested_mono t t' wan wr wsr : t ⊆ t' -> requested t wan wr wsr -> requested t' wan wr wsr.
Proof.
  intros Ht (hz & m & ? & ? & ? & ?). exists hz, m. split; [done|]. split; [by eapply map_read_mono|].
  split; [by eapply in_cluster_mono|done].
Qed.

Lemma wpy_sync_requests wan wr clusters h Q :
  (forall hz l m, (hz, l) ∈ clusters -> m ∈ l -> map_read h m /\ in_cluster h m hz) ->
  (forall h' x, h ⊆ h' -> (forall l, x = inl l -> forall wsr, wsr ∈ l -> requested h' wan wr wsr) -> Q h' x) ->
  wp sync_guard (sync_requests wan wr clusters) h Q.
Proof.
  revert h Q. induction clusters as [|[hz mps] clusters IH]; intros h Q Hc HQ; cbn [sync_requests].
  { apply wp_ret, HQ; [done|]. by intros l [= <-] wsr ?%not_elem_of_nil. }
  apply wp_vis; [done|]. intros [hzr|e] h1 Hs1 _; cbv iota; [|by apply wp_ret, HQ].
  apply wp_bind, IH.
  { intros hz' l m Hin Hm. destruct (Hc hz' l m) as [? ?]; [by right|done|].
    split; [by eapply map_read_mono|by eapply in_cluster_mono]. }
  intros h2 [rest|e] Hs2 Hrest; apply wp_ret, HQ; [by etrans| |by etrans|done].
  intros l [= <-] wsr [Hin|Hin]%elem_of_app; [|by eapply Hrest].
  apply list_elem_of_fmap in Hin as (m & -> & Hm). apply list_elem_of_In, filter_In in Hm as [Hm Ht].
  apply list_elem_of_In in Hm. apply andb_true_iff in Ht as [Hst Hns]. apply strb_true in Hst.
  apply (requested_mono h); [by etrans|]. destruct (Hc hz mps m) as [? ?]; [by left|done|].
  exists hz, m. split_and!; try done. intros ms Hms. rewrite Hms in Hns. by apply strb_true.
Qed.

Lemma wpy_runWanSyncJobs maps wan wr h Q : syncing h wan wr -> clustered h maps -> (forall h' r, h ⊆ h' -> Q h' r) ->
  wp sync_guard (runWanSyncJobs maps wan wr) h Q.
Proof.
  intros Hs Hc HQ. apply wp_bind, wpy_sync_requests.
  { intros hz l m Hin%elem_of_go_range Hm. by eapply Hc. }
  intros h1 [[|wsr l]|e] Hs1 Hr; [by apply wp_ret, HQ| |by apply wp_ret, HQ].
  apply wp_vis; [|by intros; apply wp_ret, HQ; etrans]. exists wan, wr. split; [|split_and!; [done..|by apply Hr]].
  destruct Hs. constructor; try done; by apply Hs1.
Qed.

Lemma wpy_apply (wan : WanSync) h : ev_read KSync nn wan ∈ h -> r_Deleting wan = false ->
  wp sync_guard (sync_apply wan) h (fun _ _ => True).
Proof.
  intros E0 Hd. unfold sync_apply. destruct (ValidateWanSyncSpec wan) as [e|]; [by apply wpy_failed|].
  apply wp_bind, wp_vis; [done|]. intros [wr|e] h1 Hs1 E1; apply wp_ret; cbv iota; [|by apply wpy_failed].
  lazymatch goal with |- context [negb (strb ?a ?b)] => destruct (strb a b) eqn:Es end; cbn [negb]; [|by apply wpy_status].
  apply strb_true in Es. apply wp_bind, (wp_getMapsGroupByHazelcastName sync_guard).
  intros h2 [maps|e] Hs2 Hmaps; cbv iota; [|by apply wpy_failed].
  destruct (IsApplied wan) eqn:Ea; cbn [negb].
  - apply wp_bind, wpy_runWanSyncJobs; [constructor; try done; cbv zeta; hist|by apply Hmaps|].
    intros h3 [e|] Hs3; [by apply wpy_failed|]. apply wp_vis; [done|].
    intros [e|] h4 _ _; cbv iota; [by apply wpy_failed|by apply wp_ret].
  - apply wp_vis; [done|]. intros [e|] h3 _ _; cbv iota; [by apply wpy_failed|by apply wpy_status].
Qed.

Lemma wpy_Reconcile : wp sync_guard (WanSync_Reconcile nn) [] (fun _ _ => True).
Proof.
  unfold WanSync_Reconcile. apply wp_vis; [done|]. intros [wan|e] h1 _ E1; cbv iota.
  2: { destruct (IsNotFound e); [by apply wp_ret|by apply wpy_failed]. }
  destruct (_ && _); [apply wp_vis; [done|]; intros; by apply wp_ret|].
  lazymatch goal with |- context [if ?b then pbind (executeFinalizer _ _) _ else _] => destruct b eqn:Ed end.
  - unfold executeFinalizer. destruct (negb _); [by apply wp_ret|].
    apply wp_vis; [done|]. intros [e|] h2 _ _; [by apply wpy_failed|by apply wp_ret].
  - by apply wpy_apply.
Qed.
End Sync.

(** ** Properties *)

(** C17. A worker writes the status of its synchronisation, over the one it has
    just read, for one of the maps it was given; a map becomes Completed
    only after its cluster accepted the request and every member - of at least
    one - reported that the synchronisation with that identifier is done; and
    the whole is Completed exactly when all its maps are. *)
Theorem wan_sync_completed_justified ws wsrs fuel t1 (o : WanSync) (err : option error) t2 out :
  exec (doStartSyncJob UUID_String DefaultBackoffSteps frames fuel (stateEventUpdate ws) wsrs)
    (t1 ++ Ev (StatusUpdate KSync o) err :: t2) out ->
  exists (o0 : WanSync) wsr e, ev_read KSync ws o0 ∈ t1 /\ same o0 o /\ wsr ∈ wsrs
    /\ r_Status o = with_map_status (wanMapKey (sr_hzResource wsr).2 (CodecExtra.MapName e)) (event_status e) (r_Status o0)
    /\ (so_phase (event_status e) = WanSyncCompleted -> synchronised t1 wsr e)
    /\ (ys_Status (r_Status o) = WanSyncCompleted <-> all_completed (ys_Maps (r_Status o))).
Proof.
  intros He. destruct (wp_call _ _ _ _ _ _ (wpk_doStartSyncJob ws wsrs fuel wsrs [] ltac:(done)) He) as (o0 & wsr & e & ? & ? & ? & Hst & ?).
  exists o0, wsr, e. split_and!; try done.
  change (r_Status (o : obj KSync)) with (r_Status (o : WanSync)) in Hst. rewrite Hst. apply with_map_status_completed.
Qed.

(** C38. The goroutine of a member polls it at most 100 times, and 100 times
    more for every response that says that the synchronisation is in progress,
    whatever the mix of errors, empty responses and progress; it always
    returns, and gives up for fuel only after as many polls as the fuel (or
    when a response has more frames than their bound). *)
Theorem wan_sync_poll_bounded fuel hz member uuid t o :
  exec (waitMemberFinishEvent UUID_String frames fuel hz member uuid 0 0) t o ->
  Z.of_nat (length t) <= 100 * (1 + progresses uuid t)
  /\ exists r, o = Returned r /\ (r = OutOfFuel -> length t = fuel \/ undecoded t hz member).
Proof. intros He. destruct (wait_member_bounded fuel hz member uuid 0 0 t o) as [Hl Hr]; [lia..|done|]. split; [lia|done]. Qed.

(** Requests are queued for a synchronisation only when it was read alive
    and its specification recorded, and its WAN replication was read
    successful: at least one, each for a map of one of its clusters that was
    read successful and that the status has not started yet. *)
Theorem wan_sync_requests_justified nn t1 ws wsrs t2 out :
  exec (WanSync_Reconcile nn) (t1 ++ Ev (GoSync ws wsrs) tt :: t2) out ->
  exists wan wr, syncing nn t1 wan wr /\ ws = r_nn wan /\ wsrs <> [] /\ forall wsr, wsr ∈ wsrs -> requested t1 wan wr wsr.
Proof. intros He. exact (wp_call _ _ _ _ _ _ (wpy_Reconcile nn) He). Qed.

End Facts.
