(* ===== verification/WanSyncQueue.v ===== *)
(** * The queue of WAN synchronisations

    [WanSyncService] of src/internal/hazelcast-client/wan_sync_service.go: the
    map [wanSyncs] of queued requests, the mutex, and the workers.
    [AddWanSyncRequests] and [StartSyncJob] are called one after the other by
    the reconciler; a worker waits for the mutex and ranges over the map,
    handing the requests of every key to [doStartSyncJob] with the callback
    of the synchronisation that started the worker.

    As documented for [sync.Map.Range], no key is visited more than once, all
    keys that are in the map all the time are visited, and keys stored
    meanwhile may or may not be.

    Concrete runs of the queue and of the controller are at the end. *)

From S2P Require Import Prelude Eff FieldValidation Json HazelcastTypes DataStructureTypes HazelcastValidation HazelcastValidationFacts MapValidation ConfigTypes Proto CodecBuiltin CodecTypes CodecExtra CodecRequests DataStructureConfig DataStructureValidation WanTypes HazelcastConfig JetJobValidation Kube WanController WanSyncController WanSyncFacts GoPath GoNet CodecProps.
#[local] Open Scope prog_scope.
#[local] Open Scope string_scope.
#[local] Open Scope list_scope.
#[local] Open Scope nat_scope.

(** The worker that holds the mutex: whose callback it has, the keys it has
    to visit, those it has visited, and the one it is at. *)
Record worker := mkWorker {
  wk_target : NamespacedName;
  wk_start : gset NamespacedName;
  wk_visited : gset NamespacedName;
  wk_current : option NamespacedName;
}.
Record WanSyncService := mkWanSyncService {
  q_wanSyncs : gmap NamespacedName (list WanSyncMapRequest);
  q_adding : list NamespacedName;       (* reconcilers between the two calls *)
  q_waiting : list NamespacedName;      (* workers waiting for the mutex *)
  q_running : option worker;
}.
Definition NewWanSyncService : WanSyncService := mkWanSyncService ∅ [] [] None.

(** [LoadOrStore] *)
Definition AddWanSyncRequests (q : WanSyncService) (ws : NamespacedName) (wsrs : list WanSyncMapRequest) : WanSyncService :=
  mkWanSyncService (match q_wanSyncs q !! ws with Some _ => q_wanSyncs q | None => <[ws := wsrs]> (q_wanSyncs q) end)
    (ws :: q_adding q) (q_waiting q) (q_running q).

Inductive label :=
| Add (ws : NamespacedName) (wsrs : list WanSyncMapRequest)
| Start (ws : NamespacedName)
| Lock (ws : NamespacedName)
| Sync (target key : NamespacedName) (wsrs : list WanSyncMapRequest)   (* the call of [doStartSyncJob] *)
| Delete_ (key : NamespacedName)
| Unlock (ws : NamespacedName).

Inductive queue_step : WanSyncService -> label -> WanSyncService -> Prop :=
| st_add q ws wsrs : queue_step q (Add ws wsrs) (AddWanSyncRequests q ws wsrs)
| st_start m a1 ws a2 w r :
    queue_step (mkWanSyncService m (a1 ++ ws :: a2) w r) (Start ws) (mkWanSyncService m (a1 ++ a2) (ws :: w) r)
| st_lock m a w1 ws w2 :
    queue_step (mkWanSyncService m a (w1 ++ ws :: w2) None) (Lock ws)
      (mkWanSyncService m a (w1 ++ w2) (Some (mkWorker ws (dom m) ∅ None)))
| st_visit m a w ws s v key wsrs : m !! key = Some wsrs -> key ∉ v ->
    queue_step (mkWanSyncService m a w (Some (mkWorker ws s v None))) (Sync ws key wsrs)
      (mkWanSyncService m a w (Some (mkWorker ws s v (Some key))))
| st_delete m a w ws s v key :
    queue_step (mkWanSyncService m a w (Some (mkWorker ws s v (Some key)))) (Delete_ key)
      (mkWanSyncService (delete key m) a w (Some (mkWorker ws s ({[key]} ∪ v) None)))
| st_unlock m a w ws s v : s ⊆ v ->
    queue_step (mkWanSyncService m a w (Some (mkWorker ws s v None))) (Unlock ws) (mkWanSyncService m a w None).

Inductive steps : WanSyncService -> list label -> WanSyncService -> Prop :=
| ss_nil q : steps q [] q
| ss_snoc q t q1 l q2 : steps q t q1 -> queue_step q1 l q2 -> steps q (t ++ [l]) q2.

(** ** What becomes of requests *)

(** The requests that workers were handed, by whose they are. *)
Definition handed (t : list label) : list (NamespacedName * list WanSyncMapRequest) :=
  omap (fun l => match l with Sync _ key wsrs => Some (key, wsrs) | _ => None end) t.

(** The requests that were stored: those of a key that has some already are
    dropped.  [K]: the keys that have some. *)
Definition present1 (K : gset NamespacedName) (l : label) : gset NamespacedName :=
  match l with Add ws _ => {[ws]} ∪ K | Delete_ key => K ∖ {[key]} | _ => K end.
Fixpoint accepted (K : gset NamespacedName) (t : list label) : list (NamespacedName * list WanSyncMapRequest) :=
  match t with
  | [] => []
  | l :: t =>
      match l with Add ws wsrs => if decide (ws ∈ K) then [] else [(ws, wsrs)] | _ => [] end ++ accepted (present1 K l) t
  end.

Lemma accepted_app K t1 t2 : accepted K (t1 ++ t2) = accepted K t1 ++ accepted (foldl present1 K t1) t2.
Proof. revert K. induction t1 as [|l t1 IH]; intros K; [done|]. cbn [app accepted foldl]. by rewrite IH, app_assoc. Qed.

(** The requests no worker has been handed yet. *)
Definition unhanded (q : WanSyncService) : gmap NamespacedName (list WanSyncMapRequest) :=
  match q_running q ≫= wk_current with Some key => delete key (q_wanSyncs q) | None => q_wanSyncs q end.

(** Every key of the map will be visited by a worker, the one a worker is at is
    in the map, and what it started with stays there until it is visited. *)
Definition covers (w : worker) (key : NamespacedName) : Prop := key ∈ wk_start w /\ key ∉ wk_visited w.
Record consistent (q : WanSyncService) : Prop := {
  co_covered : forall key, key ∈ dom (q_wanSyncs q) -> q_adding q <> [] \/ q_waiting q <> []
    \/ exists w, q_running q = Some w /\ covers w key;
  co_current : forall w key, q_running q = Some w -> wk_current w = Some key -> key ∈ dom (q_wanSyncs q) /\ key ∉ wk_visited w;
  co_start : forall w, q_running q = Some w -> wk_start w ⊆ wk_visited w ∪ dom (q_wanSyncs q);
}.

Lemma dom_add q ws wsrs : dom (q_wanSyncs (AddWanSyncRequests q ws wsrs)) = {[ws]} ∪ dom (q_wanSyncs q).
Proof.
  unfold AddWanSyncRequests. cbn [q_wanSyncs]. destruct (q_wanSyncs q !! ws) eqn:E; [|apply dom_insert_L].
  apply elem_of_dom_2 in E. set_solver.
Qed.

Lemma step_present q l q' : queue_step q l q' -> dom (q_wanSyncs q') = present1 (dom (q_wanSyncs q)) l.
Proof. destruct 1; cbn [q_wanSyncs present1]; try done; [apply dom_add|apply dom_delete_L]. Qed.

Lemma step_consistent q l q' : queue_step q l q' -> consistent q -> consistent q'.
Proof.
  intros Hst [Hc Hk Hs]. destruct Hst as [q ws wsrs| | | |m a w ws s v key|m a w ws s v Hsv]; cbn in *.
  - split; [by left| |].
    + intros wk key' Hr Hcur. rewrite dom_add. destruct (Hk wk key' Hr Hcur). set_solver.
    + intros wk Hr. rewrite dom_add. specialize (Hs wk Hr). set_solver.
  - split; [by right; left|done|done].
  - split; [|by intros ? ? [= <-]|intros ? [= <-]; cbn; set_solver].
    intros key Hkey. right; right. eexists. split; [done|]. by split; [|apply not_elem_of_empty].
  - split; [|intros ? ? [= <-] [= <-]; split; [by eapply elem_of_dom_2|done]|intros ? [= <-]; exact (Hs _ eq_refl)].
    intros key' Hin. destruct (Hc key' Hin) as [?|[?|(wk & [= <-] & Hcov)]]; [by left|by right; left|].
    right; right. by eexists.
  - specialize (Hs _ eq_refl). cbn in Hs.
    split; [|by intros ? ? [= <-]|intros ? [= <-]; cbn; intros x Hx%Hs; destruct (decide (x = key)); set_solver].
    cbn. rewrite dom_delete_L. intros key' Hin. destruct (Hc key') as [?|[?|(wk & [= <-] & Hs' & Hv)]];
      [set_solver|by left|by right; left|]. right; right. eexists. split; [done|]. split; [done|]. cbn in *. set_solver.
  - split; [|done|done]. intros key Hin. destruct (Hc key Hin) as [?|[?|(wk & [= <-] & Hs' & Hv)]]; [by left|by right; left|].
    exfalso. apply Hv. by apply Hsv.
Qed.

Lemma step_requests q l q' : queue_step q l q' -> consistent q ->
  handed [l] ++ (map_to_list (unhanded q')) ≡ₚ accepted (dom (q_wanSyncs q)) [l] ++ map_to_list (unhanded q).
Proof.
  intros Hst [Hc Hk _]. destruct Hst as [q ws wsrs| | |m a w ws s v key wsrs Hm Hv|m a w ws s v key|]; cbn; try done.
  - rewrite app_nil_r. unfold unhanded, AddWanSyncRequests. cbn [q_wanSyncs q_running].
    destruct (q_wanSyncs q !! ws) as [old|] eqn:E.
    { rewrite decide_True by by eapply elem_of_dom_2. done. }
    rewrite decide_False by by apply not_elem_of_dom. destruct (q_running q) as [wk|] eqn:Er; simpl.
    + destruct (wk_current wk) as [key|] eqn:Ek; [|by rewrite map_to_list_insert].
      destruct (Hk wk key eq_refl Ek) as [[x Hx]%elem_of_dom _]. rewrite delete_insert_ne by congruence.
      rewrite map_to_list_insert; [done|]. by apply lookup_delete_None; right.
    + by rewrite map_to_list_insert.
  - unfold unhanded. cbn. by rewrite (map_to_list_delete m key wsrs).
Qed.

Lemma steps_consistent t q : steps NewWanSyncService t q ->
  consistent q /\ dom (q_wanSyncs q) = foldl present1 ∅ t /\ accepted ∅ t ≡ₚ handed t ++ map_to_list (unhanded q).
Proof.
  remember NewWanSyncService as q0 eqn:E0. induction 1 as [q|q t q1 l q2 _ IH Hst]; subst.
  - split; [|done]. by split; [intros ? ?%elem_of_empty|done|done].
  - destruct (IH eq_refl) as (Hc & Hd & Ha). split; [by eapply step_consistent|]. split.
    + rewrite foldl_app, <- Hd. by apply step_present.
    + rewrite accepted_app, Ha, <- Hd. unfold handed at 2. rewrite omap_app. fold (handed t) (handed [l]).
      pose proof (step_requests _ _ _ Hst Hc) as Hr. rewrite <- !app_assoc, Hr.
      by rewrite (Permutation_app_comm (map_to_list _)).
Qed.

(** ** Progress of the workers *)

Definition is_worker_step (l : label) : bool := match l with Add _ _ => false | _ => true end.
(** A bound on the steps that are left when nothing is added. *)
Definition work_left (q : WanSyncService) : nat :=
  2 * size (q_wanSyncs q) + 3 * length (q_adding q) + 2 * length (q_waiting q)
  + match q_running q with None => 0 | Some w => match wk_current w with None => 1 | Some _ => 0 end end.

Lemma step_work_left q l q' : queue_step q l q' -> consistent q -> is_worker_step l = true -> S (work_left q') <= work_left q.
Proof.
  intros Hst [_ Hk _]. destruct Hst as [| | | |m a w ws s v key|]; intros Hl; try done; unfold work_left; cbn;
    rewrite ?length_app; cbn; try lia.
  destruct (Hk _ key eq_refl eq_refl) as [Hin _]. apply elem_of_dom in Hin as [x Hx]. cbn in Hx. rewrite map_size_delete, Hx.
  assert (size m <> 0) by (intros E; apply map_size_empty_inv in E; by rewrite E in Hx). lia.
Qed.

(** The workers have nothing left to do. *)
Definition idle (q : WanSyncService) : Prop := q_wanSyncs q = ∅ /\ q_adding q = [] /\ q_waiting q = [] /\ q_running q = None.

Lemma worker_progress q : consistent q -> idle q \/ exists l q', is_worker_step l = true /\ queue_step q l q'.
Proof.
  intros [Hc _ Hs]. destruct q as [m a w r]; cbn in *.
  destruct a as [|ws a]; [|right; eexists _, _; split; [|exact (st_start m [] ws a w r)]; done].
  destruct r as [[ws s v [key|]]|].
  - right. eexists _, _. split; [|apply st_delete]. done.
  - destruct (decide (s ⊆ v)) as [Hsv|Hsv]; [right; eexists _, _; split; [|by apply st_unlock]; done|].
    destruct (decide (s ∖ v = ∅)) as [He|[key Hin]%set_choose_L]; [exfalso; apply Hsv; intros x Hx; destruct (decide (x ∈ v)); set_solver|].
    apply elem_of_difference in Hin as [Hin Hv]. specialize (Hs _ eq_refl key Hin). apply elem_of_union in Hs as [?|Hm]; [done|].
    apply elem_of_dom in Hm as [wsrs Hm]. right. eexists _, _. split; [|by apply st_visit]. done.
  - destruct w as [|ws w]; [|right; eexists _, _; split; [|exact (st_lock m [] [] ws w)]; done].
    left. split_and!; try done. apply map_empty. intros key. apply not_elem_of_dom. intros Hin.
    by destruct (Hc key Hin) as [?|[?|(wk & ? & _)]].
Qed.

(** Steps of the workers alone. *)
Lemma steps_app q t1 q1 t2 q2 : steps q t1 q1 -> steps q1 t2 q2 -> steps q (t1 ++ t2) q2.
Proof.
  intros H1 H2. induction H2 as [q1|q1 t q' l q'' H IH Hst]; [by rewrite app_nil_r|].
  rewrite app_assoc. by eapply ss_snoc; [apply IH|].
Qed.

Lemma workers_bounded q t q' : steps q t q' -> consistent q -> forallb is_worker_step t = true ->
  consistent q' /\ length t + work_left q' <= work_left q.
Proof.
  intros Hs Hc. induction Hs as [q|q t q1 l q2 Hs IH Hst]; intros Hw; [by split|].
  rewrite forallb_app in Hw. apply andb_true_iff in Hw as [Hw Hl]. cbn in Hl. rewrite andb_true_r in Hl.
  destruct (IH Hc Hw) as [Hc1 Hle]. split; [by eapply step_consistent|]. rewrite length_app. change (length [l]) with 1.
  pose proof (step_work_left _ _ _ Hst Hc1 Hl). lia.
Qed.

Lemma workers_finish q : consistent q -> exists t q', steps q t q' /\ forallb is_worker_step t = true /\ idle q'.
Proof.
  remember (work_left q) as n eqn:En. revert q En. induction (lt_wf n) as [n _ IH]. intros q -> Hc.
  destruct (worker_progress q Hc) as [Hi|(l & q1 & Hl & Hst)]; [exists [], q; by split; [constructor|]|].
  destruct (IH (work_left q1)) with (q := q1) as (t & q' & Hs & Hw & Hi);
    [by pose proof (step_work_left _ _ _ Hst Hc Hl); lia|done|by eapply step_consistent|].
  exists ([l] ++ t), q'. split_and!; [|by cbn; rewrite Hl|done].
  eapply steps_app; [|done]. apply (ss_snoc q [] q); [constructor|done].
Qed.

(** ** Properties *)

(** C21. Over any interleaving of reconcilers and workers, the requests that
    were stored are exactly those that workers were handed, each once,
    together with those still in the map; when the workers are idle, nothing
    that was stored is lost or was handed out twice. *)
Theorem wan_sync_no_request_lost t q : steps NewWanSyncService t q ->
  accepted ∅ t ≡ₚ handed t ++ map_to_list (unhanded q) /\ (idle q -> accepted ∅ t ≡ₚ handed t).
Proof.
  intros Hs. destruct (steps_consistent _ _ Hs) as (_ & _ & Ha). split; [done|]. intros (Hm & _ & _ & Hr).
  rewrite Ha. unfold unhanded. by rewrite Hr, Hm, app_nil_r.
Qed.

(** The queue is well formed in every reachable state: every queued key
    is still ahead of the worker that runs or of one that waits or is about to
    be started, the key a worker is at is queued and was not visited before,
    and what a worker started with stays queued until it visits it. *)
Theorem wan_sync_queue_well_formed t q : steps NewWanSyncService t q -> consistent q.
Proof. intros Hs. by destruct (steps_consistent _ _ Hs). Qed.

(** The workers always come to an end: from any reachable state, when
    nothing more is added, they can take at most [work_left] steps, they are
    never stuck before they are idle, and some such run makes them idle. *)
Theorem wan_sync_workers_finish t q : steps NewWanSyncService t q ->
  (forall t' q', steps q t' q' -> forallb is_worker_step t' = true ->
     length t' <= work_left q /\ (idle q' \/ exists l q'', is_worker_step l = true /\ queue_step q' l q''))
  /\ exists t' q', steps q t' q' /\ forallb is_worker_step t' = true /\ idle q'.
Proof.
  intros Hs. destruct (steps_consistent _ _ Hs) as (Hc & _ & _). split; [|by apply workers_finish].
  intros t' q' Hs' Hw. destruct (workers_bounded _ _ _ Hs' Hc Hw) as [Hc' Hle]. split; [lia|by apply worker_progress].
Qed.

(** ** Results that reach another synchronisation *)

(** The calls of [doStartSyncJob]: whose callback, whose requests. *)
Definition synced (t : list label) : list (NamespacedName * NamespacedName) :=
  omap (fun l => match l with Sync target key _ => Some (target, key) | _ => None end) t.

(** [A] and [B] are queued before the worker of [A] gets the mutex. *)
Definition both_queued (A B : NamespacedName) (la lb : list WanSyncMapRequest) : list label :=
  [Add A la; Start A; Add B lb; Start B; Lock A; Sync A A la; Delete_ A; Sync A B lb; Delete_ B; Unlock A; Lock B; Unlock B].

Lemma steps_cons q1 l q2 t q3 : queue_step q1 l q2 -> steps q2 t q3 -> steps q1 (l :: t) q3.
Proof. intros H1 H2. apply (steps_app q1 [l] q2); [|done]. apply (ss_snoc q1 [] q1); [constructor|done]. Qed.

Lemma both_queued_steps A B la lb : A <> B -> exists q, steps NewWanSyncService (both_queued A B la lb) q /\ idle q.
Proof.
  intros Hne. eexists (mkWanSyncService ∅ [] [] None). split; [|done].
  eapply steps_cons; [apply st_add|]. eapply steps_cons; [apply (st_start _ [] A [])|]. cbn [app].
  eapply steps_cons; [apply st_add|]. eapply steps_cons; [apply (st_start _ [] B [])|]. cbn [app q_wanSyncs q_waiting q_running].
  unfold NewWanSyncService. cbn [q_wanSyncs q_waiting q_running]. rewrite !lookup_empty, lookup_insert_ne, lookup_empty by done.
  eapply steps_cons; [apply (st_lock _ _ [B] A [])|]. cbn [app].
  eapply steps_cons; [apply st_visit; [by rewrite lookup_insert_ne, lookup_insert_eq|set_solver]|].
  eapply steps_cons; [apply st_delete|].
  eapply steps_cons; [apply st_visit; [by rewrite lookup_delete_ne, lookup_insert_eq|set_solver]|].
  eapply steps_cons; [apply st_delete|].
  eapply steps_cons; [apply st_unlock; rewrite !dom_insert_L; set_solver|].
  eapply steps_cons; [apply (st_lock _ _ [] B [])|]. cbn [app].
  replace (delete B (delete A (<[B:=lb]> (<[A:=la]> (∅ : gmap NamespacedName (list WanSyncMapRequest)))))) with
    (∅ : gmap NamespacedName (list WanSyncMapRequest)).
  2: { symmetry. apply map_empty. intros k. destruct (decide (k = B)) as [->|]; [apply lookup_delete_eq|]. rewrite lookup_delete_ne by done.
       destruct (decide (k = A)) as [->|]; [apply lookup_delete_eq|]. by rewrite lookup_delete_ne, !lookup_insert_ne. }
  eapply steps_cons; [apply st_unlock; set_solver|]. constructor.
Qed.

Section Misdirected.
Context `{P : Proto} `{R : MapRange} `{QL : QuantityLib} `{Y : YamlLib} `{KE : KErrors} `{JT : JsonText} `{EJ : EventJson}
  `{RL : @RetryLib kube_effects}.
Context (UUID_String : UUID -> string) (DefaultBackoffSteps frames : nat).

(** When the requests of a second synchronisation are queued before the
    worker of the first gets the mutex, that worker takes both: the two are
    accepted, the workers come to rest, every call has the callback of the
    first, and what is reported for the maps of the second is written to the
    first - the second is never updated. *)
Theorem wan_sync_results_misdirected (A B : NamespacedName) la lb fuel : A <> B ->
  exists t q, steps NewWanSyncService t q /\ idle q /\ accepted ∅ t = [(A, la); (B, lb)]
    /\ synced t = [(A, A); (A, B)]
    /\ forall t1 (o : WanSync) (err : option error) t2 out,
         exec (doStartSyncJob UUID_String DefaultBackoffSteps frames fuel (stateEventUpdate A) lb)
           (t1 ++ Ev (StatusUpdate KSync o) err :: t2) out ->
         exists o0, ev_read KSync A o0 ∈ t1 /\ same o0 o.
Proof.
  intros Hne. destruct (both_queued_steps A B la lb Hne) as (q & Hs & Hi). exists (both_queued A B la lb), q.
  split; [done|]. split; [done|]. split.
  { cbn. rewrite decide_False, decide_False by set_solver. done. }
  split; [done|]. intros t1 o err t2 out He.
  destruct (wp_call _ _ _ _ _ _ (wpk_doStartSyncJob UUID_String DefaultBackoffSteps frames A lb fuel lb [] ltac:(done)) He)
    as (o0 & wsr & e & ? & ? & _). by exists o0.
Qed.
End Misdirected.

(** * Concrete runs of the WAN synchronisation controller *)

#[local] Open Scope string_scope.
#[local] Open Scope list_scope.
#[local] Open Scope Z_scope.

Module WanSyncRuns.
Import RefProto.
#[local] Existing Instance RefProto.ref.

(** Every payload names the map and the identifier. *)
#[local] Instance event_json : EventJson :=
  {| unmarshal_event _ := Some (<["uuid" := JString "id"]> {["mapName" := JString "m"]}) |}.

Definition map1 : Map :=
  mkResource "ns" "m" "uid" [] [] false ∅
    (mkMapSpec (mkDataStructureSpec "" "hz" (Some 1) 0 "") 10 0 (mkEvictionConfig "NONE" 0 "PER_NODE") None [] false None
      "BINARY" [] None None None None)
    (mkDataStructureStatus DataStructureSuccess "" ∅).
Definition wan1 : WanReplication :=
  mkResource "ns" "w" "uid" [] [n_Finalizer] false ∅
    (mkWanReplicationSpec [mkResourceSpec "m" "Map"] "dev" "10.0.0.1:5701" (mkQueueSetting 100 "DISCARD_AFTER_MUTATION")
      (mkBatchSetting 10 500) (mkAcknowledgementSetting "ACK_ON_RECEIPT" 60) "")
    (mkWanReplicationStatus WanStatusSuccess "" {[wanMapKey "hz" "m" := mkWanReplicationMapStatus "m" "w-hz__m" WanStatusSuccess ""]}).
Definition sync1 : WanSync :=
  mkResource "ns" "s" "uid" [] [n_Finalizer] false {[n_LastAppliedSpecAnnotation := "{}"]} (mkWanSyncSpec "w")
    (mkWanSyncStatus WanSyncNotStarted "" {[wanMapKey "hz" "m" := mkWanSyncMapStatus "" "" WanSyncNotStarted ""]}).
Definition hz1 : Hazelcast :=
  mkHazelcast "hz" "ns" ∅ false
    (mkHazelcastSpec (Some 3) "" "license" None None None "" None None None None "" None [] None "dev" None [] [] [] None None None None)
    (mkHazelcastStatus 3 "Running").

Definition accepted_response : ClientMessage := AddFrame NewClientMessageForEncode (NewFrame (repeat Byte.x00 64)).
Definition poll_response : ClientMessage :=
  match events_response [mkMCEvent 17 WanSyncFinishedFull "{}" None] with Ret m => m | _ => NewClientMessageForEncode end.

Definition answer (o : op) (_ : list event) : ans o :=
  match o as o return kube_ans o with
  | Get KSync _ => Found sync1
  | Get KWan _ => Found wan1
  | Get KMap _ => Found map1
  | Get _ _ => Failed (mkError ENotFound "not found")
  | ListByHz _ _ _ | ListIn _ _ => Found []
  | GetHazelcast _ => Found hz1
  | GetConfigSecret _ => Failed (errors_New "not found")
  | GetSecretData _ => Found ∅
  | GetOrCreate _ => Found true
  | Running _ => true
  | OrderedMembers _ => ["m1"; "m2"]
  | InvokeOnMember _ _ _ => Found poll_response
  | InvokeOnRandomTarget _ _ => Found accepted_response
  | GetStatusService _ => None
  | GetConfigMap _ => Failed (errors_New "not found")
  | GetJetJob _ => Failed (errors_New "not found")
  | MemberAddresses _ => []
  | Now => 0
  | GoSync _ _ | GoExport _ _ _ _ _ => tt
  | _ => None
  end.

Definition key : NamespacedName := ("ns", "s").
Definition uuid_string (_ : UUID) : string := "id".
Definition wsr1 : WanSyncMapRequest := sync_request sync1 wan1 "hz" map1.
Definition worker1 : prog unit := doStartSyncJob uuid_string 4 100 200 (stateEventUpdate key) [wsr1].
Definition worker_run : list event * option (outcome unit) := run answer worker1 [].
Lemma worker_exec : exec worker1 worker_run.1 (Returned tt).
Proof. apply run_exec_2. vm_compute. reflexivity. Qed.

Definition stores_completed (e : event) : bool :=
  match ev_op e with StatusUpdate KSync o => strb (ys_Status (r_Status o)) WanSyncCompleted | _ => false end.
Lemma wan_sync_completed_witness : exists (t1 : list event) (e : MCEvent) (wsr : WanSyncMapRequest),
  so_phase (event_status e) = WanSyncCompleted /\ synchronised uuid_string 100 t1 wsr e.
Proof.
  destruct (find_event (F := kube_effects) stores_completed worker_run.1) as (t1 & [c x] & t2 & Ht & He); [vm_compute; reflexivity|].
  unfold stores_completed in He. cbn [ev_op] in He.
  destruct c as [| |k o| | | | | | | | | | | | | | | | | | | | | |]; try discriminate He.
  destruct k; try discriminate He. apply strb_true in He.
  destruct (wan_sync_completed_justified uuid_string 4 100 key [wsr1] 200 t1 o x t2 (Returned tt))
    as (o0 & wsr & e & _ & _ & _ & Hst & Hc & Hall).
  { pose proof worker_exec as Hx. rewrite Ht in Hx. exact Hx. }
  assert (Hp : so_phase (event_status e) = WanSyncCompleted).
  { pose proof (proj1 Hall He) as Ha. change (r_Status (o : obj KSync)) with (r_Status (o : WanSync)) in Hst. rewrite Hst in Ha.
    apply (Ha (wanMapKey (sr_hzResource wsr).2 (CodecExtra.MapName e)) (stored_map_status (event_status e))).
    unfold with_map_status. destruct (negb _); apply lookup_insert_eq. }
  exists t1, e, wsr. split; [exact Hp|exact (Hc Hp)].
Defined.

Definition sync_run := run answer (WanSync_Reconcile key) [].
Lemma sync_exec : exec (WanSync_Reconcile key) sync_run.1 (Returned (ctrl_Result_zero, None)).
Proof. apply run_exec_2. vm_compute. reflexivity. Qed.
Definition queues (e : event) : bool := match ev_op e with GoSync _ _ => true | _ => false end.
Lemma wan_sync_requests_witness : exists (t1 : list event) (wan : WanSync) (wr : WanReplication) wsr,
  syncing key t1 wan wr /\ requested t1 wan wr wsr.
Proof.
  destruct (find_event (F := kube_effects) queues sync_run.1) as (t1 & [c x] & t2 & Ht & He); [vm_compute; reflexivity|].
  unfold queues in He. cbn [ev_op] in He.
  destruct c as [| | | | | | | | | | | | | | | | | | | | | | |ws wsrs|]; try discriminate He. destruct x.
  destruct (wan_sync_requests_justified key t1 ws wsrs t2 (Returned (ctrl_Result_zero, None))) as (wan & wr & Hs & _ & Hne & Hr).
  { pose proof sync_exec as Hx. rewrite Ht in Hx. exact Hx. }
  destruct wsrs as [|wsr wsrs]; [destruct (Hne eq_refl)|].
  exists t1, wan, wr, wsr. split; [exact Hs|]. apply Hr. left.
Defined.

Definition poll_run := run answer (waitMemberFinishEvent uuid_string 100 200 ("ns", "hz") "m1" UUID_zero 0 0) [].
Lemma wan_sync_poll_witness : Z.of_nat (length poll_run.1) <= 100 * (1 + progresses uuid_string 100 UUID_zero poll_run.1).
Proof.
  apply (wan_sync_poll_bounded uuid_string 100 200 ("ns", "hz") "m1" UUID_zero poll_run.1 (default Panicked poll_run.2)).
  apply run_exec_2. vm_compute. reflexivity.
Defined.

Definition A : NamespacedName := ("ns", "a").
Definition B : NamespacedName := ("ns", "b").
Lemma wan_sync_no_request_lost_witness : exists q, accepted ∅ (both_queued A B [wsr1] []) ≡ₚ handed (both_queued A B [wsr1] []) ++ map_to_list (unhanded q).
Proof.
  destruct (both_queued_steps A B [wsr1] []) as (q & Hs & _); [discriminate|]. exists q.
  exact (proj1 (wan_sync_no_request_lost _ q Hs)).
Defined.
Lemma wan_sync_queue_well_formed_witness : exists q, steps NewWanSyncService (both_queued A B [wsr1] []) q /\ consistent q.
Proof.
  destruct (both_queued_steps A B [wsr1] []) as (q & Hs & _); [discriminate|]. exists q.
  split; [exact Hs|exact (wan_sync_queue_well_formed _ q Hs)].
Defined.
Lemma wan_sync_workers_finish_witness : exists t' q', steps NewWanSyncService t' q' /\ idle q'.
Proof.
  destruct (wan_sync_workers_finish [] NewWanSyncService) as [_ (t' & q' & Hs & _ & Hi)]; [apply ss_nil|].
  exists t', q'. split; [exact Hs|exact Hi].
Defined.
Lemma wan_sync_misdirected_witness : exists t q, steps NewWanSyncService t q /\ idle q /\ synced t = [(A, A); (A, B)].
Proof.
  destruct (wan_sync_results_misdirected uuid_string 4 100 A B [wsr1] [wsr1] 200) as (t & q & Hs & Hi & _ & Hy & _); [discriminate|].
  exists t, q. split; [exact Hs|]. split; [exact Hi|exact Hy].
Defined.
End WanSyncRuns.
