(* ===== verification/CronHotBackup.v ===== *)
(** * Scheduled hot backups

    src/internal/controller/hazelcast/cronhotbackup_controller.go: the whole
    reconciler, as programs over the calls to the Kubernetes API and to the
    scheduler [github.com/robfig/cron].  The map [scheduled] is the state of
    the reconciler.  The function an entry of the scheduler runs is the
    program [createHotBackup] with the resource the entry was added with.
    Logging, the phone home trigger and [SetupWithManager] are left out. *)

From Stdlib Require Import Sorted.
From stdpp Require Import pretty.
From S2P Require Import Prelude Eff HotBackup.
#[local] Open Scope prog_scope.
#[local] Open Scope string_scope.
#[local] Open Scope list_scope.
#[local] Open Scope Z_scope.

(** ** src/api/v1alpha1/cronhotbackup_types.go *)

Record HotBackupTemplateSpec := mkHotBackupTemplate {
  ht_Annotations : gmap string string;
  ht_Labels : gmap string string;
  ht_Spec : HotBackupSpec;
}.
Record CronHotBackupSpec := mkCronHotBackupSpec {
  ch_Schedule : string;
  ch_HotBackupTemplate : HotBackupTemplateSpec;
  ch_SuccessfulHotBackupsHistoryLimit : option Z;   (* at least 0 by the CRD *)
  ch_FailedHotBackupsHistoryLimit : option Z;
  ch_Suspend : bool;
}.
Record CronHotBackup := mkCronHotBackup {
  chb_Namespace : string;
  chb_Name : string;
  chb_UID : string;
  chb_Finalizers : list string;
  chb_Deleting : bool;
  chb_Annotations : gmap string string;
  chb_Spec : CronHotBackupSpec;
}.
Definition set_chb_Finalizers (c : CronHotBackup) (fs : list string) : CronHotBackup :=
  mkCronHotBackup (chb_Namespace c) (chb_Name c) (chb_UID c) fs (chb_Deleting c) (chb_Annotations c) (chb_Spec c).
Definition set_chb_Annotations (c : CronHotBackup) (a : gmap string string) : CronHotBackup :=
  mkCronHotBackup (chb_Namespace c) (chb_Name c) (chb_UID c) (chb_Finalizers c) (chb_Deleting c) a (chb_Spec c).
Definition chb_key (c : CronHotBackup) : NamespacedName := (chb_Namespace c, chb_Name c).

(** A hot backup of a list, with its creation timestamp in seconds, and a hot
    backup to be created, with its controller. *)
Record listed_backup := mkListed { lb_backup : HotBackup; lb_CreationTimestamp : Z }.
Record new_backup := mkNewBackup {
  nb_Name : NamespacedName;
  nb_Annotations : gmap string string;
  nb_Labels : gmap string string;
  nb_Spec : HotBackupSpec;
  nb_Controller : NamespacedName * string;
}.

(** ** Calls *)

Definition EntryID : Type := Z.

Inductive cron_op :=
| GetCron (nn : NamespacedName)
| UpdateCron (chb : CronHotBackup)
| ListControlled (namespace controller : string)   (* the hot backups of a controller *)
| ListHazelcastsIn (namespace : string)
| DeleteBackup (hb : HotBackup)
| CreateBackup (hb : new_backup)
(* the scheduler *)
| AddFunc (schedule : string) (chb : CronHotBackup)
| RemoveEntry (id : EntryID)
| StartCron
(* [schedule.Next(time.Now()).Unix()] of a schedule the parser accepts *)
| NextTime (schedule : string).

Definition cron_ans (o : cron_op) : Type :=
  match o with
  | GetCron _ => fetched CronHotBackup
  | ListControlled _ _ => fetched (list listed_backup)
  | ListHazelcastsIn _ => fetched (list Hazelcast)
  | AddFunc _ _ => fetched EntryID
  | RemoveEntry _ | StartCron => unit
  | NextTime _ => fetched Z
  | _ => option error
  end.
#[global] Instance cron_effects : Effects := {| op := cron_op; ans := cron_ans |}.

(** [json.Marshal] of a spec; [sort.Slice]: some order in which no element
    comes after one it is less than. *)
Class CronLib := {
  CronSpec_Marshal : CronHotBackupSpec -> string;
  sort_Slice {A} (less : A -> A -> bool) (l : list A) : list A;
  sort_Slice_perm {A} (less : A -> A -> bool) (l : list A) : sort_Slice less l ≡ₚ l;
  sort_Slice_sorted {A} (f : A -> Z) (l : list A) :
    StronglySorted (fun a b => f a <= f b) (sort_Slice (fun a b => f a <? f b) l);
}.

(** [fmt.Sprintf] of "%d" *)
Definition format_d (z : Z) : string := pretty z.

(** The entries of [scheduled]. *)
Abbreviation schedules := (@gmap NamespacedName prod_eq_dec prod_countable EntryID).

Section Cron.
Context `{CL : CronLib} `{RL : @RetryLib cron_effects}.

(** [controllerutil.SetControllerReference]: its error. *)
Context (SetControllerReference : CronHotBackup -> option error).

Definition DeleteObject (hb : HotBackup) : prog (option error) :=
  ask err <- DeleteBackup hb ;;
  Done (match (err : option error) with Some e => if IsNotFound e then None else Some e | None => None end).

(** ** Creating backups *)

Definition generateBackupName (chb : CronHotBackup) : prog (fetched string) :=
  ask next <- NextTime (ch_Schedule (chb_Spec chb)) ;;
  match (next : fetched Z) with
  | Failed e => Done (Failed e)
  | Found t => Done (Found (chb_Name chb ++ "-" ++ format_d t)%string)
  end.

Definition backup_of (chb : CronHotBackup) (hbName : string) : new_backup :=
  let t := ch_HotBackupTemplate (chb_Spec chb) in
  mkNewBackup (chb_Namespace chb, hbName) (ht_Annotations t) (ht_Labels t) (ht_Spec t) (chb_key chb, chb_UID chb).

Definition createHotBackup (chb : CronHotBackup) : prog (option error) :=
  name <- generateBackupName chb ;;
  match name with
  | Failed e => Done (Some e)
  | Found hbName =>
      match SetControllerReference chb with
      | Some e => Done (Some (wrap "failed to set owner reference on HotBackup: " e))
      | None => call (CreateBackup (backup_of chb hbName))
      end
  end.

(** ** The schedule *)

Definition removeSchedule (scheduled : schedules) (key : NamespacedName) : prog schedules :=
  match scheduled !! key with
  | Some jobId => do_ RemoveEntry jobId ;; Done (delete key scheduled)
  | None => Done scheduled
  end.

Definition updateSchedule (scheduled : schedules) (chb : CronHotBackup) : prog (schedules * option error) :=
  if ch_Suspend (chb_Spec chb) then
    scheduled <- removeSchedule scheduled (chb_key chb) ;; Done (scheduled, None)
  else
    ask got <- AddFunc (ch_Schedule (chb_Spec chb)) chb ;;
    match (got : fetched EntryID) with
    | Failed e => Done (scheduled, Some e)
    | Found entry =>
        match scheduled !! chb_key chb with
        | Some old => do_ RemoveEntry old ;; do_ StartCron ;; Done (<[chb_key chb := entry]> scheduled, None)
        | None => do_ StartCron ;; Done (<[chb_key chb := entry]> scheduled, None)
        end
    end.

Definition store_cron_spec (name : NamespacedName) : prog (option error) :=
  ask got <- GetCron name ;;
  match (got : fetched CronHotBackup) with
  | Failed e => Done (Some e)
  | Found chb =>
      call (UpdateCron (set_chb_Annotations chb
        (<[n_LastSuccessfulSpecAnnotation := CronSpec_Marshal (chb_Spec chb)]> (chb_Annotations chb))))
  end.
Definition cron_updateLastSuccessfulConfiguration (name : NamespacedName) : prog (option error) :=
  r <- RetryOnConflict (stateless (store_cron_spec name)) tt ;; Done r.2.

Definition isAlreadyApplied (chb : CronHotBackup) : bool :=
  bool_decide (chb_Annotations chb !! n_LastSuccessfulSpecAnnotation = Some (CronSpec_Marshal (chb_Spec chb))).
Definition IsSuccessfullyApplied (chb : CronHotBackup) : bool :=
  match chb_Annotations chb !! n_LastSuccessfulSpecAnnotation with Some _ => true | None => false end.

(** ** The history *)

Definition findRestoreResourceName (l : list Hazelcast) (name : string) : bool :=
  existsb (fun h => match hz_Persistence h with
                    | Some (mkHzPersistence (Some n)) => bool_decide (n = name)
                    | _ => false
                    end) l.

Fixpoint delete_all (backups : list listed_backup) : prog unit :=
  match backups with
  | [] => Done tt
  | hb :: backups => DeleteObject (lb_backup hb) ;; delete_all backups
  end.

Definition older (a b : listed_backup) : bool := lb_CreationTimestamp a <? lb_CreationTimestamp b.
Definition deleteHotBackupHistory (limit : Z) (backups : list listed_backup) : prog unit :=
  let diff := Z.of_nat (length backups) - limit in
  if diff <=? 0 then Done tt else delete_all (take (Z.to_nat diff) (sort_Slice older backups)).

Definition with_state (s : HotBackupState) (backups : list listed_backup) : list listed_backup :=
  List.filter (fun hb => bool_decide (hbs_State (hb_Status (lb_backup hb)) = s)) backups.
Definition unreferenced (hzs : list Hazelcast) (backups : list listed_backup) : list listed_backup :=
  List.filter (fun hb => negb (findRestoreResourceName hzs (nn_Name (hb_Name (lb_backup hb))))) backups.

(** A missing limit panics. *)
Definition deref_limit (limit : option Z) : prog Z := match limit with Some z => Done z | None => Crash end.

Definition cleanupResources (chb : CronHotBackup) : prog (option error) :=
  ask got <- ListControlled (chb_Namespace chb) (chb_Name chb) ;;
  match (got : fetched (list listed_backup)) with
  | Failed e => Done (Some (wrap "Could not get CronHotBackup dependent HotBackup resources " e))
  | Found [] => Done None
  | Found items =>
      limit <- deref_limit (ch_FailedHotBackupsHistoryLimit (chb_Spec chb)) ;;
      deleteHotBackupHistory limit (with_state HotBackupFailure items) ;;
      ask hzs <- ListHazelcastsIn (chb_Namespace chb) ;;
      match (hzs : fetched (list Hazelcast)) with
      | Failed e => Done (Some e)
      | Found hzs =>
          limit <- deref_limit (ch_SuccessfulHotBackupsHistoryLimit (chb_Spec chb)) ;;
          deleteHotBackupHistory limit (unreferenced hzs (with_state HotBackupSuccess items)) ;;
          Done None
      end
  end.

(** ** Deletion *)

(** The goroutine of one backup. *)
Definition delete_dependent (hb : listed_backup) : prog (option error) :=
  if hb_Deleting (lb_backup hb) then Done None else DeleteObject (lb_backup hb).

Definition deleteDependentHotBackups (chb : CronHotBackup) : prog (option error) :=
  ask got <- ListControlled (chb_Namespace chb) (chb_Name chb) ;;
  match (got : fetched (list listed_backup)) with
  | Failed e => Done (Some (wrap "Could not get CronHotBackup dependent HotBackup resources " e))
  | Found [] => Done None
  | Found items =>
      Par (length items) (fun i => match items !! i with Some hb => delete_dependent hb | None => Done None end)
        (fun errs first =>
          match group_Wait errs first with
          | Some e => Done (Some (wrap "Error deleting HotBackup resources " e))
          | None =>
              ask again <- ListControlled (chb_Namespace chb) (chb_Name chb) ;;
              match (again : fetched (list listed_backup)) with
              | Failed e => Done (Some (wrap "CronHotBackup dependent HotBackup resources are not deleted yet " e))
              | Found [] => Done None
              | Found _ => Done (Some (errors_New "CronHotBackup dependent HotBackup resources are not deleted yet."))
              end
          end)
  end.

Definition cron_executeFinalizer (scheduled : schedules) (chb : CronHotBackup) : prog (schedules * option error) :=
  if negb (bool_decide (n_Finalizer ∈ chb_Finalizers chb)) then Done (scheduled, None) else
  scheduled <- removeSchedule scheduled (chb_key chb) ;;
  err <- deleteDependentHotBackups chb ;;
  match err with
  | Some e => Done (scheduled, Some (wrap "failed to delete dependent HotBackups: " e))
  | None =>
      ask err <- UpdateCron (set_chb_Finalizers chb (filter (fun f => f <> n_Finalizer) (chb_Finalizers chb))) ;;
      match (err : option error) with
      | Some e => Done (scheduled, Some (wrap "failed to remove finalizer from custom resource: " e))
      | None => Done (scheduled, None)
      end
  end.

(** ** Reconcile *)

Definition cron_AddFinalizer (chb : CronHotBackup) : prog (CronHotBackup * option error) :=
  if negb (bool_decide (n_Finalizer ∈ chb_Finalizers chb)) && negb (chb_Deleting chb) then
    let chb := set_chb_Finalizers chb (chb_Finalizers chb ++ [n_Finalizer]) in
    ask err <- UpdateCron chb ;;
    Done (chb, err : option error)
  else Done (chb, None).

(** [updateSchedule] and the record of the specification. *)
Definition apply_schedule (scheduled : schedules) (req : NamespacedName) (chb : CronHotBackup) : prog (schedules * option error) :=
  r <- updateSchedule scheduled chb ;;
  match r.2 with
  | Some e => Done (r.1, Some e)
  | None => err <- cron_updateLastSuccessfulConfiguration req ;; Done (r.1, err)
  end.

Definition cron_reconcile (scheduled : schedules) (req : NamespacedName) (chb : CronHotBackup) : prog (schedules * option error) :=
  if chb_Deleting chb then cron_executeFinalizer scheduled chb else
  cleanupResources chb ;;
  if negb (IsSuccessfullyApplied chb) then apply_schedule scheduled req chb else
  match scheduled !! req with
  | None => apply_schedule scheduled req chb
  | Some _ => if negb (isAlreadyApplied chb) then apply_schedule scheduled req chb else Done (scheduled, None)
  end.

Definition Cron_Reconcile (scheduled : schedules) (req : NamespacedName) : prog (schedules * (ctrl_Result * option error)) :=
  ask got <- GetCron req ;;
  match (got : fetched CronHotBackup) with
  | Failed e => Done (scheduled, (ctrl_Result_zero, Some e))   (* also when the resource is gone: [err] is a named result *)
  | Found chb =>
      r <- cron_AddFinalizer chb ;;
      match r.2 with
      | Some e => Done (scheduled, (ctrl_Result_zero, Some e))
      | None => s <- cron_reconcile scheduled req r.1 ;; Done (s.1, (ctrl_Result_zero, s.2))
      end
  end.
End Cron.
