(* ===== verification/CronFacts.v ===== *)
(** * Theorems about scheduled hot backups

    One entry of the scheduler for each resource, the limits of the history,
    owner references; concrete runs at the end. *)

From Stdlib Require Import Sorted.
From stdpp Require Import sorting.
From S2P Require Import Prelude Eff HotBackup CronHotBackup.
#[local] Open Scope prog_scope.
#[local] Open Scope string_scope.
#[local] Open Scope list_scope.
#[local] Open Scope Z_scope.

Section Facts.
Context `{CL : CronLib} `{RL : @RetryLib cron_effects}.

(** ** The entries of the scheduler *)

Definition ev_added (schedule : string) (chb : CronHotBackup) (id : EntryID) : event := Ev (AddFunc schedule chb) (Found id).

(** The identifier the scheduler gave to an entry. *)
Definition added (e : event) : option (EntryID * CronHotBackup) :=
  match e with
  | Ev o x =>
      match o as o return cron_ans o -> _ with
      | AddFunc _ chb => fun x => match x with Found id => Some (id, chb) | Failed _ => None end
      | _ => fun _ => None
      end x
  end.

(** The entries that run: added and not removed since, with the resource they
    were added with. *)
Definition entries1 (E : gmap EntryID CronHotBackup) (e : event) : gmap EntryID CronHotBackup :=
  match added e with
  | Some (id, chb) => <[id := chb]> E
  | None => match ev_op e with RemoveEntry id => delete id E | _ => E end
  end.
Definition entries (E : gmap EntryID CronHotBackup) (t : list event) : gmap EntryID CronHotBackup := foldl entries1 E t.

(** The scheduler does not give an identifier twice: none of [U] and none
    twice in [t]. *)
Fixpoint fresh_ids (U : gset EntryID) (t : list event) : Prop :=
  match t with
  | [] => True
  | e :: t => match added e with Some (id, _) => id ∉ U /\ fresh_ids ({[id]} ∪ U) t | None => fresh_ids U t end
  end.
#[export] Instance fresh_ids_dec U t : Decision (fresh_ids U t).
Proof. revert U. induction t as [|e t IH]; intros U; cbn [fresh_ids]; [apply _|]. destruct (added e) as [[id chb]|]; apply _. Defined.
Definition used1 (U : gset EntryID) (e : event) : gset EntryID := match added e with Some (id, _) => {[id]} ∪ U | None => U end.

Lemma fresh_ids_app U t1 t2 : fresh_ids U (t1 ++ t2) <-> fresh_ids U t1 /\ fresh_ids (foldl used1 U t1) t2.
Proof.
  revert U. induction t1 as [|e t1 IH]; intros U; cbn [app foldl fresh_ids]; [naive_solver|].
  assert (Hu : used1 U e = match added e with Some (id, _) => {[id]} ∪ U | None => U end) by done. rewrite Hu.
  destruct (added e) as [[id chb]|]; rewrite IH; naive_solver.
Qed.

(** The map [scheduled] names exactly the entries that run, one for each
    resource. *)
Record in_step (E : gmap EntryID CronHotBackup) (U : gset EntryID) (s : schedules) : Prop := {
  is_entry : forall key id, s !! key = Some id -> exists chb, E !! id = Some chb /\ chb_key chb = key;
  is_scheduled : forall id chb, E !! id = Some chb -> s !! chb_key chb = Some id;
  is_used : forall id, is_Some (E !! id) -> id ∈ U;
}.

Definition sched_op (c : cron_op) : bool := match c with AddFunc _ _ | RemoveEntry _ => true | _ => false end.

Lemma quiet_event e : sched_op (ev_op e) = false -> added e = None /\ (forall E, entries1 E e = E).
Proof. destruct e as [c x]. unfold entries1. by destruct c. Qed.

(** A continuation of the reconciler whose state stays in step. *)
Definition keeps {T : Type} (s : schedules) (p : prog (schedules * T)) : Prop :=
  forall E U t o, in_step E U s -> fresh_ids U t -> exec p t o ->
  forall s' r, o = Returned (s', r) -> in_step (entries E t) (foldl used1 U t) s'.

Lemma in_step_ret {T : Type} (s : schedules) (r : T) : keeps s (Done (s, r)).
Proof. intros E U t o Hi _ [-> ->] s' r' [= <- _]. done. Qed.

Lemma cron_quiet_trace t : count sched_op t = 0%nat -> (forall E, entries E t = E) /\ (forall U, foldl used1 U t = U).
Proof.
  induction t as [|e t IH]; [done|]. rewrite count_cons. intros Hc.
  assert (He : sched_op (ev_op e) = false) by (by destruct (sched_op (ev_op e)); [lia|]).
  destruct IH as [IHE IHU]; [lia|]. destruct (quiet_event e He) as [Ha He1]. split; intros X; cbn.
  - by rewrite He1.
  - assert (used1 X e = X) as -> by (unfold used1; by rewrite Ha). done.
Qed.

Lemma in_step_bind {S T : Type} (s : schedules) (p : prog S) (f : S -> prog (schedules * T)) :
  never sched_op p -> (forall a, keeps s (f a)) -> keeps s (pbind p f).
Proof.
  intros Hp Hf E U t o Hi Hu He s' r Hr. apply exec_bind in He as [(a & t1 & t2 & -> & H1 & H2)|[[H1 ->]|[H1 ->]]]; try done.
  destruct (cron_quiet_trace t1) as [HE HU]; [by eapply never_count|]. unfold entries. rewrite !foldl_app.
  fold (entries E t1). rewrite HE, HU. apply fresh_ids_app in Hu as [_ Hu]. rewrite HU in Hu. by eapply (Hf a).
Qed.

Lemma in_step_vis {T : Type} (s : schedules) c (k : ans c -> prog (schedules * T)) :
  sched_op c = false -> (forall x, keeps s (k x)) -> keeps s (Vis c k).
Proof. intros Hc. apply (in_step_bind s (call c)). by split. Qed.

(** Removing the entry of a resource. *)
Lemma in_step_remove E U s key id : in_step E U s -> s !! key = Some id -> in_step (delete id E) U (delete key s).
Proof.
  intros [H1 H2 H3] Hk. split.
  - intros key' id' [Hne Hk']%lookup_delete_Some. destruct (H1 key' id' Hk') as (chb & HE & Hkey). exists chb.
    split; [|done]. rewrite lookup_delete_ne; [done|]. intros ->.
    destruct (H1 key id' Hk) as (chb' & HE' & Hkey'). congruence.
  - intros id' chb [Hne HE]%lookup_delete_Some. rewrite lookup_delete_ne; [by apply H2|].
    intros ->. apply Hne. apply H2 in HE. congruence.
  - intros id' [chb [_ HE]%lookup_delete_Some]. by apply H3.
Qed.

Lemma in_step_add E U s chb id : in_step E U s -> id ∉ U -> s !! chb_key chb = None ->
  in_step (<[id := chb]> E) ({[id]} ∪ U) (<[chb_key chb := id]> s).
Proof.
  intros [H1 H2 H3] Hid Hk. assert (Hn : E !! id = None).
  { destruct (E !! id) eqn:EE; [|done]. exfalso. apply Hid, H3. by rewrite EE. }
  split.
  - intros key id' [[<- <-]|[Hne Hs]]%lookup_insert_Some; [exists chb; by rewrite lookup_insert_eq|].
    destruct (H1 key id' Hs) as (c & HE & Hkey). exists c. rewrite lookup_insert_ne; [done|congruence].
  - intros id' c [[<- <-]|[Hne HE]]%lookup_insert_Some; [by rewrite lookup_insert_eq|].
    rewrite lookup_insert_ne; [by apply H2|]. intros Heq. apply H2 in HE. rewrite <- Heq in HE. congruence.
  - intros id' [c [[<- _]|[_ HE]]%lookup_insert_Some]; [set_solver|]. apply elem_of_union_r, H3. by exists c.
Qed.

Lemma keeps_removeSchedule {T : Type} (s : schedules) (key : NamespacedName) (f : schedules -> prog (schedules * T)) :
  (forall s' : schedules, keeps s' (f s')) -> keeps s (pbind (removeSchedule s key) f).
Proof.
  intros Hf. unfold removeSchedule. destruct (s !! key) as [id|] eqn:Es; [|apply Hf].
  intros E U t o Hi Hu ([] & t' & -> & He) s' r Hr. cbn in Hu.
  exact (Hf (delete key s) (delete id E) U t' o (in_step_remove E U s key id Hi Es) Hu He s' r Hr).
Qed.

Lemma keeps_updateSchedule {T : Type} (s : schedules) (chb : CronHotBackup) (f : schedules * option error -> prog (schedules * T)) :
  (forall (s' : schedules) err, keeps s' (f (s', err))) -> keeps s (pbind (updateSchedule s chb) f).
Proof.
  intros Hf. unfold updateSchedule. destruct (ch_Suspend _).
  { unfold removeSchedule. destruct (s !! chb_key chb) as [id|] eqn:Es; [|apply Hf].
    intros E U t o Hi Hu ([] & t' & -> & He) s' r Hr. cbn in Hu.
    exact (Hf _ None (delete id E) U t' o (in_step_remove E U s _ id Hi Es) Hu He s' r Hr). }
  intros E U t o Hi Hu ([id|e] & t' & -> & He) s' r Hr; cbn in Hu.
  2: { exact (Hf s (Some e) E U t' o Hi Hu He s' r Hr). }
  destruct Hu as [Hid Hu]. destruct (s !! chb_key chb) as [old|] eqn:Es.
  - destruct He as ([] & t1 & -> & ([] & t2 & -> & He)). cbn in Hu.
    assert (Hne : old <> id).
    { intros ->. apply Hid, (is_used _ _ _ Hi). destruct (is_entry _ _ _ Hi _ _ Es) as (c & -> & _). done. }
    assert (Hi' : in_step (delete old (<[id := chb]> E)) ({[id]} ∪ U) (<[chb_key chb := id]> s)).
    { rewrite delete_insert_ne by done. rewrite <- (insert_delete_eq s). apply in_step_add; [|done|apply lookup_delete_eq].
      by apply in_step_remove. }
    exact (Hf _ None _ _ t2 o Hi' Hu He s' r Hr).
  - destruct He as ([] & t1 & -> & He). cbn in Hu.
    exact (Hf _ None _ _ t1 o (in_step_add E U s chb id Hi Hid Es) Hu He s' r Hr).
Qed.

Lemma never_store req : never sched_op (cron_updateLastSuccessfulConfiguration req).
Proof.
  apply never_bind; [|done]. apply OnError_never. intros []. apply never_bind; [|done]. unfold store_cron_spec. split; [done|].
  by intros [chb|e].
Qed.
Lemma never_delete hb : never sched_op (DeleteObject hb).
Proof. by split. Qed.
Lemma never_history limit l : never sched_op (deleteHotBackupHistory limit l).
Proof.
  unfold deleteHotBackupHistory. destruct (_ <=? 0); [done|]. generalize (take (Z.to_nat (Z.of_nat (length l) - limit)) (sort_Slice older l)).
  intros l'. induction l' as [|hb l' IH]; [done|]. by apply never_bind; [apply never_delete|].
Qed.
Lemma never_cleanup chb : never sched_op (cleanupResources chb).
Proof.
  split; [done|]. intros [[|hb items]|e]; [done| |done]. apply never_bind; [unfold deref_limit; by case_match|]. intros limit.
  apply never_bind; [apply never_history|]. intros _. split; [done|]. intros [hzs|e]; [|done].
  apply never_bind; [unfold deref_limit; by case_match|]. intros limit'. apply never_bind; [apply never_history|done].
Qed.
Lemma never_dependents chb : never sched_op (deleteDependentHotBackups chb).
Proof.
  split; [done|]. intros [[|hb items]|e]; [done| |done]. split.
  - intros i. destruct (_ !! i); [|done]. unfold delete_dependent. destruct (hb_Deleting _); [done|]. apply never_delete.
  - intros errs first. destruct (group_Wait errs first); [done|]. split; [done|]. by intros [[|? ?]|?].
Qed.

Lemma keeps_apply s req chb : keeps s (apply_schedule s req chb).
Proof.
  apply keeps_updateSchedule. intros s' [e|]; cbn [fst snd]; [apply in_step_ret|].
  apply in_step_bind; [apply never_store|]. intros err. apply in_step_ret.
Qed.

Lemma keeps_finalizer s chb : keeps s (cron_executeFinalizer s chb).
Proof.
  unfold cron_executeFinalizer. destruct (negb _); [apply in_step_ret|]. apply keeps_removeSchedule. intros s'.
  apply in_step_bind; [apply never_dependents|]. intros [e|]; [apply in_step_ret|].
  apply in_step_vis; [done|]. intros [e|]; apply in_step_ret.
Qed.

Lemma keeps_reconcile s req chb : keeps s (cron_reconcile s req chb).
Proof.
  unfold cron_reconcile. destruct (chb_Deleting chb); [apply keeps_finalizer|].
  apply in_step_bind; [apply never_cleanup|]. intros _. destruct (negb _); [apply keeps_apply|].
  destruct (s !! req); [|apply keeps_apply]. destruct (negb _); [apply keeps_apply|apply in_step_ret].
Qed.

(** A continuation that only reorders the results. *)
Lemma keeps_map {S T : Type} (s : schedules) (p : prog (schedules * S)) (g : S -> T) :
  keeps s p -> keeps s (pbind p (fun r => Done (r.1, g r.2))).
Proof.
  intros Hp E U t o Hi Hu He s' r Hr. apply exec_bind in He as [([s1 r1] & t1 & t2 & -> & H1 & [-> ->])|[[H1 ->]|[H1 ->]]]; try done.
  rewrite app_nil_r in *. injection Hr as <- _. by eapply Hp.
Qed.

Lemma in_step_Reconcile s req : keeps s (Cron_Reconcile s req).
Proof.
  unfold Cron_Reconcile. apply in_step_vis; [done|]. intros [chb|e]; cbv iota; [|apply in_step_ret].
  apply in_step_bind; [unfold cron_AddFinalizer; by destruct (_ && _)|]. intros [chb1 [e|]]; cbn [fst snd]; [apply in_step_ret|].
  apply (keeps_map s (cron_reconcile s req chb1) (fun e => (ctrl_Result_zero, e))), keeps_reconcile.
Qed.

(** Reconciliations of any resources, one after the other, by an operator
    that has just started. *)
Inductive cron_reconciles : list event -> schedules -> Prop :=
| cr_start : cron_reconciles [] ∅
| cr_next t s req t' s' r : cron_reconciles t s -> exec (Cron_Reconcile s req) t' (Returned (s', r)) -> cron_reconciles (t ++ t') s'.

Lemma cron_reconciles_in_step t s : cron_reconciles t s -> fresh_ids ∅ t -> in_step (entries ∅ t) (foldl used1 ∅ t) s.
Proof.
  induction 1 as [|t s req t' s' r Hr IH He]; intros Hu.
  - cbn. split; [by intros ? ? ?%lookup_empty_Some|by intros ? ? ?%lookup_empty_Some|by intros ? [? ?%lookup_empty_Some]].
  - apply fresh_ids_app in Hu as [Hu1 Hu2]. unfold entries. rewrite !foldl_app. exact (in_step_Reconcile s req (entries ∅ t) (foldl used1 ∅ t) t' _ (IH Hu1) Hu2 He s' r eq_refl).
Qed.

(** ** What is deleted and scheduled *)

Section Guard.
Context (req : NamespacedName).

Definition ev_cron (nn : NamespacedName) (chb : CronHotBackup) : event := Ev (GetCron nn) (Found chb).
Definition ev_listed (chb : CronHotBackup) (l : list listed_backup) : event :=
  Ev (ListControlled (chb_Namespace chb) (chb_Name chb)) (Found l).
Definition ev_clusters (ns : string) (l : list Hazelcast) : event := Ev (ListHazelcastsIn ns) (Found l).

(** As many other backups of the list as the limit keeps are at least as new
    as [b]. *)
Definition surplus (l : list listed_backup) (limit : Z) (b : listed_backup) : Prop :=
  exists newer, b :: newer ⊆+ l /\ Z.of_nat (length newer) = Z.max 0 limit
    /\ forall x, x ∈ newer -> lb_CreationTimestamp b <= lb_CreationTimestamp x.

(** The resource that is reconciled: only finalizers differ from what was
    read. *)
Definition reconciling (t : list event) (chb : CronHotBackup) : Prop :=
  exists fs, ev_cron req (set_chb_Finalizers chb fs) ∈ t.

(** The backup is over the limit for failed backups, or for successful ones
    that no cluster restores from. *)
Definition outdated (t : list event) (chb : CronHotBackup) (items : list listed_backup) (b : listed_backup) : Prop :=
  (exists limit, ch_FailedHotBackupsHistoryLimit (chb_Spec chb) = Some limit /\ surplus (with_state HotBackupFailure items) limit b)
  \/ exists limit hzs, ch_SuccessfulHotBackupsHistoryLimit (chb_Spec chb) = Some limit
       /\ ev_clusters (chb_Namespace chb) hzs ∈ t
       /\ surplus (unreferenced hzs (with_state HotBackupSuccess items)) limit b.

Definition cron_guard (t : list event) (c : cron_op) : Prop :=
  match c with
  | DeleteBackup hb => exists chb items b, reconciling t chb /\ ev_listed chb items ∈ t /\ b ∈ items /\ lb_backup b = hb
      /\ (chb_Deleting chb = true \/ chb_Deleting chb = false /\ outdated t chb items b)
  | AddFunc schedule chb => reconciling t chb /\ chb_Deleting chb = false /\ ch_Suspend (chb_Spec chb) = false
      /\ schedule = ch_Schedule (chb_Spec chb)
  | UpdateCron o => n_Finalizer ∈ chb_Finalizers o
      \/ (exists chb, ev_cron req chb ∈ t /\ chb_Finalizers o = chb_Finalizers chb)
      \/ exists chb, reconciling t chb /\ chb_Deleting chb = true /\ chb_key o = chb_key chb /\ ev_listed chb [] ∈ t
  | CreateBackup _ => False
  | _ => True
  end.
Abbreviation wpc := (wp cron_guard).

Lemma reconciling_mono t t' chb : t ⊆ t' -> reconciling t chb -> reconciling t' chb.
Proof. intros Ht [fs Hf]. exists fs. by apply Ht. Qed.

Lemma StronglySorted_split {A} (f : A -> Z) l1 l2 : StronglySorted (fun a b => f a <= f b) (l1 ++ l2) ->
  forall a b, a ∈ l1 -> b ∈ l2 -> f a <= f b.
Proof.
  induction l1 as [|x l1 IH]; intros Hs a b Ha Hb; [by apply not_elem_of_nil in Ha|].
  inversion Hs as [|? ? Hs' Hx]; subst. apply elem_of_cons in Ha as [->|Ha]; [|by eapply IH].
  rewrite Forall_forall in Hx. apply Hx, elem_of_app. by right.
Qed.

Lemma oldest_surplus l limit b : 0 < Z.of_nat (length l) - limit ->
  b ∈ take (Z.to_nat (Z.of_nat (length l) - limit)) (sort_Slice older l) -> surplus l limit b.
Proof.
  intros Hpos Hb. set (k := Z.to_nat _) in *. set (L := sort_Slice older l) in *.
  assert (Hp : L ≡ₚ l) by apply sort_Slice_perm. exists (drop k L). split_and!.
  - rewrite <- Hp. rewrite <- (take_drop k L) at 2. change (b :: drop k L) with ([b] ++ drop k L).
    apply submseteq_app; [|done]. by apply singleton_submseteq_l.
  - rewrite length_drop, Hp. lia.
  - intros x Hx. eapply (StronglySorted_split lb_CreationTimestamp); [|exact Hb|exact Hx].
    rewrite take_drop. apply (sort_Slice_sorted lb_CreationTimestamp).
Qed.

Lemma wpc_delete hb h (Q : list event -> option error -> Prop) :
  cron_guard h (DeleteBackup hb) -> (forall h' err, h ⊆ h' -> Q h' err) -> wpc (DeleteObject hb) h Q.
Proof. intros HG HQ. apply wp_vis; [done|]. intros err h' Hs _. by apply wp_ret, HQ. Qed.

Lemma wpc_history l limit h (Q : list event -> unit -> Prop) :
  (forall h' b, h ⊆ h' -> surplus l limit b -> cron_guard h' (DeleteBackup (lb_backup b))) ->
  (forall h', h ⊆ h' -> Q h' tt) -> wpc (deleteHotBackupHistory limit l) h Q.
Proof.
  intros HG HQ. unfold deleteHotBackupHistory. destruct (_ <=? 0) eqn:El; [by apply wp_ret, HQ|]. apply Z.leb_gt in El.
  pose proof (fun b => oldest_surplus l limit b El) as Hsur. revert Hsur. generalize (take (Z.to_nat (Z.of_nat (length l) - limit)) (sort_Slice older l)).
  intros l' Hsur. revert h HG HQ. induction l' as [|b l' IH]; intros h HG HQ; cbn [delete_all]; [by apply wp_ret, HQ|].
  apply wp_bind, wpc_delete; [apply HG; [done|apply Hsur; by left]|]. intros h1 err Hs1.
  apply IH; [intros b' Hb'; apply Hsur; by right|intros h2 b' Hs2; apply HG; by etrans|intros h2 Hs2; apply HQ; by etrans].
Qed.

Lemma with_state_incl s items b : b ∈ with_state s items -> b ∈ items.
Proof. unfold with_state. rewrite !list_elem_of_In, filter_In. by intros []. Qed.
Lemma surplus_elem l limit b : surplus l limit b -> b ∈ l.
Proof. intros (newer & Hs & _). eapply elem_of_submseteq; [|exact Hs]. by left. Qed.

Lemma wpc_cleanup chb h (Q : list event -> option error -> Prop) : reconciling h chb -> chb_Deleting chb = false ->
  (forall h' err, h ⊆ h' -> Q h' err) -> wpc (cleanupResources chb) h Q.
Proof.
  intros Hr Hd HQ. apply wp_vis; [done|]. intros [items|e] h1 Hs1 E1; cbv iota; [|by apply wp_ret, HQ].
  destruct items as [|hb items]; [by apply wp_ret, HQ|]. change (ev_listed chb (hb :: items) ∈ h1) in E1.
  revert E1. generalize (hb :: items). clear hb items. intros items E1.
  destruct (ch_FailedHotBackupsHistoryLimit _) as [failed|] eqn:Ef; [|done]. cbn [deref_limit pbind].
  apply wp_bind, wpc_history.
  { intros h2 b Hs2 Hb. exists chb, items, b. split; [eapply reconciling_mono, Hr; by etrans|]. split; [hist|].
    split; [by eapply with_state_incl, surplus_elem|]. split; [done|]. right. split; [done|]. left. by exists failed. }
  intros h2 Hs2. apply wp_vis; [done|]. intros [hzs|e] h3 Hs3 E3; cbv iota; [|apply wp_ret, HQ; by do 2 (etrans; [eassumption|])].
  destruct (ch_SuccessfulHotBackupsHistoryLimit _) as [limit|] eqn:El; [|done]. cbn [deref_limit pbind].
  apply wp_bind, wpc_history; [|intros h4 Hs4; apply wp_ret, HQ; by do 3 (etrans; [eassumption|])].
  intros h4 b Hs4 Hb. exists chb, items, b. split; [eapply reconciling_mono, Hr; by do 3 (etrans; [eassumption|])|]. split; [hist|].
  split. { apply surplus_elem in Hb. unfold unreferenced in Hb. apply list_elem_of_In, filter_In in Hb as [Hb _].
           by eapply with_state_incl, list_elem_of_In. }
  split; [done|]. right. split; [done|]. right. exists limit, hzs. split; [done|]. split; [hist|done].
Qed.

Lemma wpc_store h (Q : list event -> option error -> Prop) : (forall h' err, h ⊆ h' -> Q h' err) ->
  wpc (cron_updateLastSuccessfulConfiguration req) h Q.
Proof.
  intros HQ. eapply (wp_seq _ _ _ (fun _ _ => True)); [|by intros h1 r Hs1 _; apply wp_ret, HQ].
  apply wp_RetryOnConflict. intros h1 Hs1. apply wp_vis; [done|]. intros [chb|e] h2 Hs2 E2; [|by apply wp_ret].
  apply wp_vis; [|by intros; apply wp_ret]. right; left. by exists chb.
Qed.

Lemma wpc_removeSchedule s key h (Q : list event -> schedules -> Prop) :
  (forall h' s', h ⊆ h' -> Q h' s') -> wpc (removeSchedule s key) h Q.
Proof.
  intros HQ. unfold removeSchedule. destruct (s !! key) as [id|]; [|by apply wp_ret, HQ].
  apply wp_vis; [done|]. intros [] h1 Hs1 _. by apply wp_ret, HQ.
Qed.

Lemma wpc_apply s chb h : reconciling h chb -> chb_Deleting chb = false ->
  wpc (apply_schedule s req chb) h (fun _ _ => True).
Proof.
  intros Hr Hd. apply wp_bind. eapply (wp_mono _ _ _ (fun _ _ => True)).
  2: { intros h1 [s1 [e|]] _; cbn [fst snd]; [done|]. by apply wp_bind, wpc_store. }
  unfold updateSchedule. destruct (ch_Suspend (chb_Spec chb)) eqn:Es; [by apply wp_bind, wpc_removeSchedule|].
  apply wp_vis; [done|]. intros [id|e] h1 _ _; cbv iota; [|done].
  destruct (s !! chb_key chb); repeat (apply wp_vis; [done|]; intros ? ? _ _); done.
Qed.

(** Without an error, no dependent backup is left. *)
Lemma wpc_dependents chb h (Q : list event -> option error -> Prop) : reconciling h chb -> chb_Deleting chb = true ->
  (forall h' err, h ⊆ h' -> (err = None -> ev_listed chb [] ∈ h') -> Q h' err) -> wpc (deleteDependentHotBackups chb) h Q.
Proof.
  intros Hr Hd HQ. apply wp_vis; [done|]. intros [items|e] h1 Hs1 E1; cbv iota; [|by apply wp_ret, HQ].
  destruct items as [|hb items]; [by apply wp_ret, HQ|]. change (ev_listed chb (hb :: items) ∈ h1) in E1.
  revert E1. generalize (hb :: items). clear hb items. intros items E1.
  apply (wp_par (G := cron_guard)) with (Qs := fun _ _ _ => True).
  - intros i. destruct (items !! i) as [b|] eqn:Eb; [|by apply rwp_ret]. unfold delete_dependent.
    destruct (hb_Deleting _); [by apply rwp_ret|]. apply rwp_vis; [|by intros; apply rwp_ret].
    intros h2 Hs2. exists chb, items, b. split; [eapply reconciling_mono, Hr; by etrans|]. split; [by apply Hs2|].
    split; [by eapply list_elem_of_lookup_2|]. split; [done|by left].
  - intros errs first h2 _ Hs2 _. destruct (group_Wait errs first) as [e|]; [apply wp_ret, HQ; [by etrans|done]|].
    apply wp_vis; [done|]. intros [l|e] h3 Hs3 E3; cbv iota; [|apply wp_ret, HQ; [by do 2 (etrans; [eassumption|])|done]].
    destruct l as [|b l]; apply wp_ret, HQ; [by do 2 (etrans; [eassumption|])|done|by do 2 (etrans; [eassumption|])|done].
Qed.

Lemma wpc_finalizer s chb h : reconciling h chb -> chb_Deleting chb = true ->
  wpc (cron_executeFinalizer s chb) h (fun _ _ => True).
Proof.
  intros Hr Hd. unfold cron_executeFinalizer. destruct (negb _); [done|].
  apply wp_bind, wpc_removeSchedule. intros h1 s1 Hs1.
  apply wp_bind, wpc_dependents; [by eapply reconciling_mono|done|]. intros h2 [e|] Hs2 Hl; [done|].
  apply wp_vis; [|by intros [e|] h3 _ _]. right; right. exists chb. split; [eapply reconciling_mono, Hr; by etrans|].
  split; [done|]. split; [done|by apply Hl].
Qed.

Lemma wpc_Reconcile s : wpc (Cron_Reconcile s req) [] (fun _ _ => True).
Proof.
  unfold Cron_Reconcile. apply wp_vis; [done|]. intros [chb0|e] h1 _ E1; cbv iota; [|done].
  assert (Hfin : forall fs, reconciling h1 (set_chb_Finalizers chb0 fs)).
  { intros fs. exists (chb_Finalizers chb0). by destruct chb0. }
  apply wp_bind. eapply (wp_mono _ _ _ (fun h' r => h1 ⊆ h' /\ exists fs, r.1 = set_chb_Finalizers chb0 fs)).
  { unfold cron_AddFinalizer. destruct (_ && _).
    - apply wp_vis; [left; cbn; set_solver|]. intros err h2 Hs2 _. split; [done|]. by eexists.
    - split; [done|]. exists (chb_Finalizers chb0). by destruct chb0. }
  intros h2 [chb [e|]] [Hs2 [fs Hfs]]; cbn [fst snd] in *; [done|]. subst chb.
  apply wp_bind. eapply (wp_mono _ _ _ (fun _ _ => True)); [|done].
  assert (Hr : reconciling h2 (set_chb_Finalizers chb0 fs)) by by eapply reconciling_mono.
  revert Hr. generalize (set_chb_Finalizers chb0 fs). intros chb Hr. unfold cron_reconcile.
  destruct (chb_Deleting chb) eqn:Ed; [by apply wpc_finalizer|].
  apply wp_bind, wpc_cleanup; [done..|]. intros h3 err Hs3.
  assert (Hr3 : reconciling h3 chb) by by eapply reconciling_mono.
  destruct (negb (IsSuccessfullyApplied chb)); [by apply wpc_apply|].
  destruct (s !! req); [|by apply wpc_apply]. destruct (negb _); [by apply wpc_apply|done].
Qed.
End Guard.

(** ** Properties *)

(** C19. Over any sequence of reconciliations of any resources by an operator
    that has just started, with a scheduler that does not reuse identifiers,
    [scheduled] names exactly the entries that run: every resource has at most
    one entry, and no entry is left behind when a schedule is replaced,
    suspended or deleted. *)
Theorem cron_one_entry_each t s : cron_reconciles t s -> fresh_ids ∅ t ->
  (forall key id, s !! key = Some id <-> exists chb, entries ∅ t !! id = Some chb /\ chb_key chb = key)
  /\ forall id1 id2 c1 c2, entries ∅ t !! id1 = Some c1 -> entries ∅ t !! id2 = Some c2 -> chb_key c1 = chb_key c2 -> id1 = id2.
Proof.
  intros Hr Hu. destruct (cron_reconciles_in_step _ _ Hr Hu) as [H1 H2 _]. split.
  - intros key id. split; [apply H1|]. intros (chb & HE & <-). by apply H2.
  - intros id1 id2 c1 c2 E1%H2 E2%H2 Hk. rewrite Hk in E1. congruence.
Qed.

(** C34. A hot backup is deleted only when it was listed among those of the
    resource that is reconciled, and the resource is being deleted, or the
    backup failed and at least as many other failed ones as the limit says
    are as new, or it succeeded, no cluster of the namespace restores from
    it, and at least as many others of that kind as the limit says are as new. *)
Theorem cron_history_kept s req t1 hb (err : option error) t2 out :
  exec (Cron_Reconcile s req) (t1 ++ Ev (DeleteBackup hb) err :: t2) out ->
  exists chb items b, reconciling req t1 chb /\ ev_listed chb items ∈ t1 /\ b ∈ items /\ lb_backup b = hb
    /\ (chb_Deleting chb = true \/ chb_Deleting chb = false /\ outdated t1 chb items b).
Proof. intros He. exact (wp_call _ _ _ _ _ _ (wpc_Reconcile req s) He). Qed.

(** The finalizer of a schedule is given up only when it is being deleted
    and the backups it controls were listed and none is left: a write
    without the finalizer either follows such a list or only repeats the
    finalizers of a resource that was read. *)
Theorem cron_finalizer_released s req t1 o (err : option error) t2 out :
  exec (Cron_Reconcile s req) (t1 ++ Ev (UpdateCron o) err :: t2) out ->
  n_Finalizer ∈ chb_Finalizers o
  \/ (exists chb, ev_cron req chb ∈ t1 /\ chb_Finalizers o = chb_Finalizers chb)
  \/ exists chb, reconciling req t1 chb /\ chb_Deleting chb = true /\ chb_key o = chb_key chb /\ ev_listed chb [] ∈ t1.
Proof. intros He. exact (wp_call _ _ _ _ _ _ (wpc_Reconcile req s) He). Qed.
End Facts.

(** * Concrete runs of scheduled hot backups *)

Module CronRuns.

(** Sorting by merging, and a marshaller that keeps what the runs look at. *)
Definition merged {A} (less : A -> A -> bool) (l : list A) : list A := @merge_sort A (fun a b => less b a = false) (fun a b => bool_eq_dec _ _) l.
Lemma merged_sorted {A} (f : A -> Z) (l : list A) : StronglySorted (fun a b => f a <= f b) (merged (fun a b => f a <? f b) l).
Proof.
  unfold merged. set (R a b := (f b <? f a) = false).
  assert (Hs : StronglySorted R (@merge_sort A R (fun a b => bool_eq_dec _ _) l)).
  { apply StronglySorted_merge_sort; [intros a b c|intros a b]; unfold R; lia. }
  change (StronglySorted (fun a b => f a <= f b) (@merge_sort A R (fun a b => bool_eq_dec _ _) l)).
  induction Hs as [|a l' Hs IH Hf]; constructor; [done|]. eapply Forall_impl; [exact Hf|]. unfold R. intros b. lia.
Qed.
#[local] Instance cron_lib : CronLib :=
  {| CronSpec_Marshal s := ch_Schedule s; sort_Slice A := merged; sort_Slice_perm A less l := merge_sort_Permutation _ l;
     sort_Slice_sorted A := merged_sorted |}.

Definition spec (schedule : string) : CronHotBackupSpec :=
  mkCronHotBackupSpec schedule (mkHotBackupTemplate ∅ ∅ (mkHotBackupSpec "hz" "" "" "")) (Some 1) (Some 0) false.
Definition cron (schedule : string) (deleting : bool) (annotations : gmap string string) : CronHotBackup :=
  mkCronHotBackup "ns" "c" "uid" [n_Finalizer] deleting annotations (spec schedule).
Definition backup (name s : string) (created : Z) : listed_backup :=
  mkListed (mkHotBackup ("ns", name) [] false ∅ (mkHotBackupSpec "hz" "" "" "") (mkHotBackupStatus s "" [])) created.
Definition key : NamespacedName := ("ns", "c").

(** The resource is [first] until an entry was added or removed, then
    [second]; the list is answered by [items] once, then empty. *)
Definition is_list (c : cron_op) : bool := match c with ListControlled _ _ => true | _ => false end.
Definition answer (first second : CronHotBackup) (items : list listed_backup) (o : op) (t : list event) : ans o :=
  match o as o return cron_ans o with
  | GetCron _ => if existsb (fun e => sched_op (ev_op e)) t then Found second else Found first
  | ListControlled _ _ => if existsb (fun e => is_list (ev_op e)) t then Found [] else Found items
  | ListHazelcastsIn _ => Found []
  | AddFunc _ _ => Found 1
  | RemoveEntry _ | StartCron => tt
  | NextTime _ => Found 1700000000
  | _ => None
  end.

(** ** A change that is recorded but not scheduled *)

Definition c1 : CronHotBackup := cron "@daily" false ∅.
Definition c2 : CronHotBackup := cron "@hourly" false ∅.
Definition lost_run := run (answer c1 c2 []) (Cron_Reconcile ∅ key) [].
Definition recorded : CronHotBackup := set_chb_Annotations c2 {[n_LastSuccessfulSpecAnnotation := CronSpec_Marshal (chb_Spec c2)]}.
Definition stores (chb : CronHotBackup) (e : event) : bool :=
  match ev_op e with UpdateCron o => bool_decide (ch_Schedule (chb_Spec o) = ch_Schedule (chb_Spec chb)) && isAlreadyApplied o | _ => false end.

Lemma lost_exec : exec (Cron_Reconcile ∅ key) lost_run.1 (Returned ({[key := 1]}, (ctrl_Result_zero, None))).
Proof. apply run_exec_2. vm_compute. reflexivity. Qed.

(** A change of the schedule that reaches the API server while the
    reconciler sets up the former one is lost: the reconciler records the
    specification it reads afterwards as the one it has applied, so that the
    scheduler runs the former schedule, the resource says that the new one is
    in force, and reconciling the recorded resource does not schedule anything. *)
Theorem cron_change_lost : exists t s, cron_reconciles t s /\ fresh_ids ∅ t
  /\ entries ∅ t = {[1 := c1]} /\ existsb (stores c2) t = true
  /\ ch_Schedule (chb_Spec c1) <> ch_Schedule (chb_Spec c2)
  /\ forall t' o, exec (cron_reconcile s key recorded) t' o -> count sched_op t' = 0%nat.
Proof.
  exists lost_run.1, {[key := 1]}. split; [|split; [|split; [|split; [|split]]]].
  - apply (cr_next [] ∅ key lost_run.1 _ (ctrl_Result_zero, None)); [constructor|exact lost_exec].
  - assert (Hd : bool_decide (fresh_ids ∅ lost_run.1) = true) by (vm_compute; reflexivity). exact (proj1 (bool_decide_eq_true _) Hd).
  - vm_compute. reflexivity.
  - vm_compute. reflexivity.
  - discriminate.
  - intros t' o He. eapply never_count; [|exact He]. unfold cron_reconcile. cbn [chb_Deleting recorded c2 cron set_chb_Annotations].
    apply never_bind; [apply never_cleanup|]. intros _. change (IsSuccessfullyApplied recorded) with true. cbn [negb].
    rewrite lookup_singleton_eq. change (isAlreadyApplied recorded) with true. done.
Qed.

(** A resource that is gone is reconciled with an error: the error of the
    read is returned, although the reconciler means to ignore it. *)
Lemma cron_not_found_returned s e : IsNotFound e = true ->
  exec (Cron_Reconcile s key) [Ev (GetCron key) (Failed e : fetched CronHotBackup)] (Returned (s, (ctrl_Result_zero, Some e))).
Proof. intros _. exists (Failed e), []. done. Qed.

(** ** Witnesses *)

Definition applied : gmap string string := {[n_LastSuccessfulSpecAnnotation := "@daily"]}.

Lemma cron_one_entry_witness : exists t s, cron_reconciles t s /\ s !! key = Some 1 /\ exists chb, entries ∅ t !! 1 = Some chb /\ chb_key chb = key.
Proof.
  assert (Hr : cron_reconciles ([] ++ lost_run.1) {[key := 1]}).
  { apply (cr_next [] ∅ key lost_run.1 _ (ctrl_Result_zero, None)); [constructor|exact lost_exec]. }
  exists ([] ++ lost_run.1), {[key := 1]}. split; [exact Hr|]. split; [vm_compute; reflexivity|].
  apply (cron_one_entry_each ([] ++ lost_run.1) {[key := 1]} Hr).
  - assert (Hd : bool_decide (fresh_ids ∅ lost_run.1) = true) by (vm_compute; reflexivity). exact (proj1 (bool_decide_eq_true _) Hd).
  - vm_compute. reflexivity.
Defined.

Definition history : list listed_backup := [backup "new" HotBackupSuccess 20; backup "old" HotBackupSuccess 10].
Definition history_run := run (answer (cron "@daily" false applied) c1 history) (Cron_Reconcile {[key := 1]} key) [].
Lemma history_exec : exec (Cron_Reconcile {[key := 1]} key) history_run.1 (Returned ({[key := 1]}, (ctrl_Result_zero, None))).
Proof. apply run_exec_2. vm_compute. reflexivity. Qed.
Definition deletes (e : event) : bool := match ev_op e with DeleteBackup _ => true | _ => false end.
Lemma cron_history_witness : exists (t1 : list event) chb items b, b ∈ items /\ ev_listed chb items ∈ t1.
Proof.
  destruct (find_event (F := cron_effects) deletes history_run.1) as (t1 & [c x] & t2 & Ht & He); [vm_compute; reflexivity|].
  unfold deletes in He. cbn [ev_op] in He. destruct c as [| | | |hb| | | | |]; try discriminate He.
  destruct (cron_history_kept {[key := 1]} key t1 hb x t2 (Returned ({[key := 1]}, (ctrl_Result_zero, None)))) as (chb & items & b & _ & E & Hb & _).
  { pose proof history_exec as Hx. rewrite Ht in Hx. exact Hx. }
  exists t1, chb, items, b. split; [exact Hb|exact E].
Defined.

Definition deleting_run := run (answer (cron "@daily" true applied) c1 history) (Cron_Reconcile {[key := 1]} key) [].
Lemma cron_deleting_exec : exec (Cron_Reconcile {[key := 1]} key) deleting_run.1 (Returned (∅, (ctrl_Result_zero, None))).
Proof. apply run_exec_2. vm_compute. reflexivity. Qed.
Definition releases (e : event) : bool := match ev_op e with UpdateCron o => negb (bool_decide (n_Finalizer ∈ chb_Finalizers o)) | _ => false end.
Lemma cron_finalizer_witness : exists (t1 : list event) o, n_Finalizer ∉ chb_Finalizers o
  /\ ((exists chb, ev_cron key chb ∈ t1 /\ chb_Finalizers o = chb_Finalizers chb)
      \/ exists chb, reconciling key t1 chb /\ chb_Deleting chb = true /\ chb_key o = chb_key chb /\ ev_listed chb [] ∈ t1).
Proof.
  destruct (find_event (F := cron_effects) releases deleting_run.1) as (t1 & [c x] & t2 & Ht & He); [vm_compute; reflexivity|].
  unfold releases in He. cbn [ev_op] in He. destruct c as [|o| | | | | | | |]; try discriminate He.
  apply negb_true_iff, bool_decide_eq_false in He. exists t1, o. split; [exact He|].
  destruct (cron_finalizer_released {[key := 1]} key t1 o x t2 (Returned (∅, (ctrl_Result_zero, None)))) as [H|H].
  { pose proof cron_deleting_exec as Hx. rewrite Ht in Hx. exact Hx. }
  - destruct (He H).
  - exact H.
Defined.
End CronRuns.
