(* ===== verification/HazelcastConfigFacts.v ===== *)
(** * What the configuration of a member contains

    Facts about the sections (HazelcastConfig.v), the merge with a custom
    configuration (CustomConfig.v) and the document as a whole
    (ConfigSecret.v). *)

From S2P Require Import Prelude Eff FieldValidation Json GoPath HazelcastTypes DataStructureTypes HazelcastValidation HazelcastValidationFacts MapValidation ConfigTypes CustomConfig Proto CodecBuiltin CodecTypes CodecConfig CodecExtra CodecRequests CodecTransmit CodecRequestFacts DataStructureConfig DataStructureValidation WanTypes HazelcastConfig Kube DataStructures ConfigSecret.
#[local] Open Scope go_scope.
#[local] Open Scope string_scope.
#[local] Open Scope list_scope.
#[local] Open Scope Z_scope.

(** ** Maps filled from lists *)

Lemma fill_map_lookup {A C} (name : A -> string) (create : A -> C) (l : list A) a :
  a ∈ l -> (forall b, b ∈ l -> name b = name a -> b = a) -> fill_map name create l !! name a = Some (create a).
Proof.
  intros Ha Hu. unfold fill_map. induction l as [|b l IH] using rev_ind; [by apply not_elem_of_nil in Ha|].
  rewrite foldl_app. cbn [foldl]. destruct (decide (name b = name a)) as [E|E].
  - rewrite E, lookup_insert_eq. f_equal. f_equal. apply Hu; [|done]. rewrite elem_of_app. right. by left.
  - rewrite lookup_insert_ne by done. apply elem_of_app in Ha as [Ha|Ha%list_elem_of_singleton]; [|by subst].
    apply IH; [done|]. intros b' Hb'. apply Hu. rewrite elem_of_app. by left.
Qed.

Lemma fill_map_res_spec {A C} (name : A -> string) (create : A -> res C) m0 (l : list A) m :
  fill_map_res name create m0 l = Ret m ->
  (forall k, k ∉ name <$> l -> m !! k = m0 !! k)
  /\ (forall a, a ∈ l -> (forall b, b ∈ l -> name b = name a -> b = a) ->
        exists c, create a = Ret c /\ m !! name a = Some c).
Proof.
  revert m0. induction l as [|b l IH]; intros m0; cbn [fill_map_res].
  { intros [= ->]. split; [done|]. intros a Ha. by apply not_elem_of_nil in Ha. }
  destruct (create b) as [c| |] eqn:Ec; [|done..]. intros [Hk Hl]%IH. split.
  - intros k. rewrite fmap_cons, not_elem_of_cons. intros [Hn Hin]. rewrite Hk by done. by rewrite lookup_insert_ne by done.
  - intros a Ha Hu. destruct (decide (name a ∈ name <$> l)) as [Hin|Hin].
    + apply Hl; [|intros b' Hb'; apply Hu; by right]. apply list_elem_of_fmap in Hin as (a' & E & Ha').
      by rewrite <-(Hu a') by (done || by right).
    + apply elem_of_cons in Ha as [->|Ha]; [|by destruct Hin; apply list_elem_of_fmap_2].
      exists c. split; [done|]. by rewrite Hk, lookup_insert_eq.
Qed.

(** ** Properties *)

Lemma mergeProperties_lookup input k :
  mergeProperties input !! k = match DefaultProperties !! k with Some v => Some v | None => input !! k end.
Proof.
  unfold mergeProperties. revert k. apply (map_fold_weak_ind (fun m input => forall k,
    m !! k = match DefaultProperties !! k with Some v => Some v | None => input !! k end)).
  { intros k. rewrite lookup_empty. by destruct (_ !! k). }
  intros k0 v0 input' m Hn IH k. pose proof (IH k0) as H0. rewrite Hn in H0.
  destruct (m !! k0) eqn:E0; destruct (DefaultProperties !! k0) as [d|] eqn:Ed; try done; destruct (decide (k = k0)) as [->|Hk].
  - by rewrite E0, Ed.
  - rewrite IH. by rewrite lookup_insert_ne by done.
  - by rewrite Ed, !lookup_insert_eq.
  - rewrite !lookup_insert_ne by done. apply IH.
Qed.

(** ** Keys of a WAN replication *)

Lemma splitWanMapKey_key hz m : no_underscore hz = true ->
  exists m', splitWanMapKey (wanMapKey hz m) = Ret (hz, m') /\ (m' = m <-> no_dunder m = true).
Proof.
  intros Hh. unfold splitWanMapKey, wanMapKey. rewrite split_dunder_key by done.
  destruct (split_dunder m) as [|x l] eqn:E; [by destruct (split_dunder_cons m)|].
  exists x. split; [done|]. by eapply split_dunder_head_iff.
Qed.

(** The key of a map in the status of a WAN replication is split into the
    cluster and the map it was made of exactly when the name of the map has
    no double underscore; otherwise the map is taken for another one. *)
Theorem wan_key_round_trip hz m : no_underscore hz = true ->
  (splitWanMapKey (wanMapKey hz m) = Ret (hz, m) <-> no_dunder m = true).
Proof.
  intros Hh. destruct (splitWanMapKey_key hz m Hh) as (m' & -> & <-). split; [by intros [= ->]|by intros ->].
Qed.

Lemma wan_key_witness : no_underscore "hz-1" = true
  /\ (splitWanMapKey (wanMapKey "hz-1" "my__map") = Ret ("hz-1", "my__map") <-> no_dunder "my__map" = true).
Proof. split; [reflexivity|]. apply (wan_key_round_trip "hz-1" "my__map"). reflexivity. Defined.

(** ** Custom configuration *)

Section Custom.
Context `{Y : YamlLib} `{YT : !YamlTree}.

(** C36. Merging a custom configuration.  Without the overwrite annotation
    every section the operator generates is in the result as it is, and the
    user's sections are added.  With it every value of the user that is not a
    mapping is in the result under its path, and so is everything the
    operator generated under a path the user's configuration leaves alone.
    A configuration that cannot be marshalled panics. *)
Theorem custom_config_merged cstCfg cfg overwrite crCfg :
  yaml_sections cfg = inl crCfg -> ymap_wf cstCfg -> ymap_wf crCfg ->
  if inline_conflict cfg then mergeConfig cstCfg cfg overwrite = Panic else
  exists out, mergeConfig cstCfg cfg overwrite = Ret (inl out)
  /\ if overwrite then
       (forall p v, ypath cstCfg p = Some v -> is_map v = false -> ypath out p = Some v)
       /\ (forall p, untouched cstCfg p = true -> ypath out p = ypath crCfg p)
     else
       forall k, yget out k = match yget crCfg k with Some v => Some v | None => yget cstCfg k end.
Proof.
  intros Hs Hc Hr. unfold mergeConfig. destruct (inline_conflict cfg); [done|]. rewrite Hs. destruct overwrite.
  - eexists. split; [done|]. split.
    + intros p v. by apply deepMerge_user.
    + intros p. by apply deepMerge_operator.
  - eexists. split; [done|]. intros k. by apply yget_assign.
Qed.
End Custom.

Module CustomRuns.
Definition sections1 : ymap :=
  [("map", YMap [("default", YScalar "1"); ("other", YScalar "2")]); ("cluster-name", YScalar "dev")].
#[local] Instance tree1 : YamlTree := {|
  yaml_sections _ := inl sections1;
  yaml_parse _ := inr (errors_New "not parsed");
  yaml_Marshal_sections _ := cfg_Hazelcast_zero;
|}.
Definition custom1 : ymap := [("map", YMap [("default", YScalar "3")]); ("license-key", YScalar "k")].

Lemma custom_config_witness : exists out, mergeConfig custom1 cfg_Hazelcast_zero true = Ret (inl out)
  /\ ypath out ["map"; "default"] = Some (YScalar "3") /\ ypath out ["map"; "other"] = Some (YScalar "2")
  /\ ypath out ["cluster-name"] = Some (YScalar "dev").
Proof.
  assert (Hc : ymap_wf custom1) by (repeat (split || constructor); set_solver).
  assert (Hr : ymap_wf sections1) by (repeat (split || constructor); set_solver).
  destruct (custom_config_merged (YT := tree1) custom1 cfg_Hazelcast_zero true sections1 eq_refl Hc Hr) as (out & Ho & Hu & Hk).
  exists out. split; [exact Ho|]. split; [by apply Hu|]. split; by apply Hk.
Defined.
End CustomRuns.

(** ** Sections of data structures *)

Section Sections.
Context `{P : Proto} `{R : MapRange} `{EJ : EventJson} `{QL : QuantityLib} `{Y : YamlLib} `{YT : !YamlTree}.
Context `{!HazelcastJson} `{!MapJson} `{KE : KErrors} `{JT : JsonText}.

(** No other element of the list has the name of [o]. *)
Definition sole {A} (name : A -> string) (l : list A) (o : A) : Prop := forall b, b ∈ l -> name b = name o -> b = o.

(** The section of the kind has what the controller of every resource of the
    list waits for. *)
Definition ds_written_for (d : ds_kind) (cfg : cfg_Hazelcast) (l : list (ds_obj d)) : Prop :=
  forall o, o ∈ l -> sole GetDSName l o -> ds_persisted d (cfg_Hazelcast_read cfg) o = Ret true.

(** [cfg'] has the sections of [cfg] except those of the kinds in [ds]. *)
Record other_sections (ds : list ds_kind) (cfg cfg' : cfg_Hazelcast) : Prop := {
  os_map : cfg_Hazelcast_Map cfg' = cfg_Hazelcast_Map cfg;
  os_properties : cfg_Hazelcast_Properties cfg' = cfg_Hazelcast_Properties cfg;
  os_persistence : cfg_Hazelcast_Persistence cfg' = cfg_Hazelcast_Persistence cfg;
  os_namespaces : cfg_Hazelcast_UserCodeNamespaces cfg' = cfg_Hazelcast_UserCodeNamespaces cfg;
  os_ds d o : d ∉ ds -> ds_persisted d (cfg_Hazelcast_read cfg') o = ds_persisted d (cfg_Hazelcast_read cfg) o;
}.

Lemma other_sections_refl ds cfg : other_sections ds cfg cfg.
Proof. by constructor. Qed.

Lemma other_sections_trans ds ds' cfg1 cfg2 cfg3 :
  other_sections ds cfg1 cfg2 -> other_sections ds' cfg2 cfg3 -> other_sections (ds ++ ds') cfg1 cfg3.
Proof.
  intros [] []. constructor; [congruence..|]. intros d o. rewrite not_elem_of_app. intros [? ?].
  by rewrite os_ds1, os_ds0.
Qed.

Lemma entry_is_written {C} `{EqDecision C} (r : C -> C) (m : gmap string C) name (current : res C) c :
  m !! name = Some c -> current = Ret c -> r c = c ->
  entry_is (read_omit_map r (Some m)) name current = Ret true.
Proof.
  intros Hm -> Hr. unfold entry_is. rewrite default_read_omit_map, lookup_fmap. simpl. rewrite Hm. simpl.
  by rewrite Hr, bool_decide_eq_true_2.
Qed.

(** Filling in the section of a kind. *)
Lemma fill_ds_section_spec d cfg l cfg' : fill_ds_section d cfg l = Ret cfg' ->
  ds_written_for d cfg' l /\ other_sections [d] cfg cfg'.
Proof.
  assert (Hnil : l = [] -> Ret cfg = Ret cfg' -> ds_written_for d cfg' l /\ other_sections [d] cfg cfg').
  { intros -> [= <-]. split; [by intros o Ho%not_elem_of_nil|apply other_sections_refl]. }
  intros Hf. destruct l as [|o0 l]; [by apply Hnil; destruct d|]. clear Hnil.
  destruct d; cbn [fill_ds_section] in Hf;
    unfold fillHazelcastConfigWithMultiMaps, fillHazelcastConfigWithTopics, fillHazelcastConfigWithReplicatedMaps,
      fillHazelcastConfigWithQueues, fillHazelcastConfigWithCaches in Hf;
    (destruct (fill_map_res _ _ _ _) as [m| |] eqn:Em; [|done..]; injection Hf as <-;
     apply fill_map_res_spec in Em as [_ Em]; split;
     [intros o Ho Hs; destruct (Em o Ho Hs) as (c & Hc & Hm);
      refine (entry_is_written _ _ _ _ _ Hm Hc _); try done; by injection Hc as <-
     |constructor; [done..|]; intros [] o Hd; try done; destruct Hd; by left]).
Qed.

(** ** The document *)

Definition ev_list (k : kind) (h : Hazelcast) (l : list (obj k)) : event :=
  Ev (ListByHz k (h_Namespace h) (h_Name h)) (Found l).

Context (G : list event -> op -> Prop) `{!Permissive G}.

Lemma wp_fbind {A B} (p : prog (fetched A)) (f : A -> prog (fetched B)) h (Rp : list event -> A -> Prop)
    (Q : list event -> fetched B -> Prop) :
  wp G p h (fun h' r => forall a, r = Found a -> Rp h' a) ->
  (forall h' a, h ⊆ h' -> Rp h' a -> wp G (f a) h' Q) -> (forall h' e, Q h' (Failed e)) ->
  wp G (fbind p f) h Q.
Proof.
  intros Hp Hf HQ. unfold fbind. apply wp_seq with (1 := Hp). intros h' [a|e] Hs Hr; [|apply HQ].
  by apply Hf, Hr.
Qed.

(** The programs that list resources. *)
Lemma wp_list {A} (k : kind) (hz : Hazelcast) (f : list (obj k) -> A) h (Q : list event -> fetched A -> Prop) :
  (forall h' r, h ⊆ h' -> (forall a, r = Found a -> exists l, ev_list k hz l ∈ h' /\ a = f l) -> Q h' r) ->
  wp G (Vis (ListByHz k (h_Namespace hz) (h_Name hz)) (fun got =>
    match (got : fetched (list (obj k))) with
    | Failed e => Done (Failed e)
    | Found l => Done (Found (f l))
    end)) h Q.
Proof.
  intros HQ. apply (wp_quiet G); [done|]. intros [l|e] h1 Hs1 E1; apply wp_ret, HQ; try done.
  intros a [= <-]. by exists l.
Qed.

(** Maps: the section of each is the one created from it and its
    properties. *)
Definition map_written_for (t : list event) (hz : Hazelcast) (cfg : cfg_Hazelcast) (l : list Map) : Prop :=
  forall m, m ∈ l -> sole DataStructureTypes.MapName l m ->
  exists props c, props_read t (h_Namespace hz) m props /\ create_map_config props m = Ret c
    /\ default ∅ (cfg_Hazelcast_Map cfg) !! DataStructureTypes.MapName m = Some c.

Lemma wp_map_sections (hz : Hazelcast) (ml : list Map) m0 h :
  wp G (map_sections hz m0 ml) h (fun h' r => forall sections, r = Found sections ->
    (forall k, k ∉ DataStructureTypes.MapName <$> ml -> sections !! k = m0 !! k)
    /\ (forall m, m ∈ ml -> sole DataStructureTypes.MapName ml m ->
          exists props c, props_read h' (h_Namespace hz) m props /\ create_map_config props m = Ret c
            /\ sections !! DataStructureTypes.MapName m = Some c)).
Proof.
  revert m0 h. induction ml as [|m ml IH]; intros m0 h; cbn [map_sections].
  { apply wp_ret. intros s [= <-]. split; [done|]. by intros m Hm%not_elem_of_nil. }
  eapply wp_fbind with (Rp := fun h' c => exists props, props_read h' (h_Namespace hz) m props /\ create_map_config props m = Ret c);
    [| |done].
  - unfold createMapConfig. apply wp_bind, (wp_lift_res G). intros bc _. apply wp_bind, (wp_map_store_props G). intros h2 [props|e] Hs2 Hp; [|by apply wp_ret].
    apply wp_bind, (wp_lift_res G). intros c Hc. apply wp_ret. intros c' [= <-]. exists props. split; [by apply Hp|done].
  - intros h1 c Hs1 (props & Hp & Hc). eapply wp_mono; [apply wp_later, IH|]. intros h2 r [Hs2 Hr] s Hs.
    destruct (Hr s Hs) as [Hk Hm]. split.
    + intros k. rewrite fmap_cons, not_elem_of_cons. intros [Hn Hin]. rewrite Hk by done. by rewrite lookup_insert_ne.
    + intros b Hb Hu. destruct (decide (DataStructureTypes.MapName b ∈ DataStructureTypes.MapName <$> ml)) as [Hin|Hin].
      * apply Hm; [|intros b' Hb'; apply Hu; by right]. apply list_elem_of_fmap in Hin as (b' & E & Hb').
        by rewrite <-(Hu b') by (done || by right).
      * apply elem_of_cons in Hb as [->|Hb]; [|by destruct Hin; apply list_elem_of_fmap_2].
        exists props, c. split; [by eapply props_read_mono|]. split; [done|]. by rewrite Hk, lookup_insert_eq.
Qed.

Lemma wp_fillMaps (hz : Hazelcast) (ml : list Map) cfg h :
  wp G (fillHazelcastConfigWithMaps cfg hz ml) h (fun h' r => forall cfg', r = Found cfg' ->
    map_written_for h' hz cfg' ml /\ cfg' = with_Map cfg (cfg_Hazelcast_Map cfg')).
Proof.
  destruct ml as [|m ml].
  { apply wp_ret. intros c [= <-]. split; [by intros m Hm%not_elem_of_nil|by destruct cfg]. }
  unfold fillHazelcastConfigWithMaps. eapply wp_fbind; [apply wp_map_sections| |done].
  intros h1 s Hs1 [_ Hm]. apply wp_ret. intros c [= <-]. split; [|done]. exact Hm.
Qed.

Lemma wp_fill_ds (hz : Hazelcast) ds cfg h : NoDup ds ->
  wp G (fill_ds_sections hz cfg ds) h (fun h' r => forall cfg', r = Found cfg' ->
    other_sections ds cfg cfg'
    /\ forall d, d ∈ ds -> exists l, ev_list (KDS d) hz l ∈ h' /\ ds_written_for d cfg' (omap (isDSPersisted d) l)).
Proof.
  revert cfg h. induction ds as [|d ds IH]; intros cfg h Hd; cbn [fill_ds_sections].
  { apply wp_ret. intros c [= <-]. split; [apply other_sections_refl|]. by intros d Hd'%not_elem_of_nil. }
  apply NoDup_cons in Hd as [Hn Hd].
  eapply wp_fbind with (Rp := fun h' l' => exists l, ev_list (KDS d) hz l ∈ h' /\ l' = omap (isDSPersisted d) l); [| |done].
  { unfold filterPersistedDS. by apply (wp_list (KDS d) hz (omap (isDSPersisted d))). }
  intros h1 l' Hs1 (l & Hl & ->). apply wp_bind, (wp_lift_res G). intros cfg1 [Hw Ho]%fill_ds_section_spec.
  eapply wp_mono; [apply wp_later, IH, Hd|]. intros h2 r [Hs2 Hr] c Hc. destruct (Hr c Hc) as [Ho2 Hw2].
  split; [by apply (other_sections_trans [d] ds cfg cfg1)|].
  intros d' [->|Hd']%elem_of_cons; [|by apply Hw2]. exists l. split; [by apply Hs2|].
  intros o Hin Hu. rewrite (os_ds _ _ _ Ho2) by done. by apply Hw.
Qed.

Lemma early_sections cfg (hz : Hazelcast) :
  let cfg' := fillHazelcastConfigWithSerialization
                (fillHazelcastConfigWithExecutorServices (fillHazelcastConfigWithProperties cfg hz) hz) hz in
  cfg_Hazelcast_Properties cfg' = s_Properties (h_Spec hz)
  /\ cfg_Hazelcast_Persistence cfg' = cfg_Hazelcast_Persistence cfg.
Proof.
  unfold fillHazelcastConfigWithSerialization, fillHazelcastConfigWithExecutorServices, fillHazelcastConfigWithProperties.
  destruct (s_Serialization _), (s_ExecutorServices _), (s_DurableExecutorServices _), (s_ScheduledExecutorServices _); done.
Qed.

(** What went into a document. *)
Record written_config (t : list event) (hz : Hazelcast) (persistence : cfg_Persistence) (cfg : cfg_Hazelcast) : Prop := {
  wc_properties : cfg_Hazelcast_Properties cfg = s_Properties (h_Spec hz);
  wc_persistence : cfg_Hazelcast_Persistence cfg = persistence;
  wc_maps : exists l, ev_list KMap hz l ∈ t /\ map_written_for t hz cfg (omap persisted_map l);
  wc_ds d : exists l, ev_list (KDS d) hz l ∈ t /\ ds_written_for d cfg (omap (isDSPersisted d) l);
  wc_namespaces : UserCodeNamespaces_IsEnabled (s_UserCodeNamespaces (h_Spec hz)) = true ->
    exists l, ev_list KUcn hz l ∈ t
      /\ cfg_UserCodeNamespaces_Namespaces (cfg_Hazelcast_UserCodeNamespaces cfg)
         = Some (fill_map r_Name ucn_resources (omap persisted_ucn l));
}.

Lemma inline_conflict_false cfg : inline_conflict cfg = false <-> is_Some (yaml_Marshal cfg).
Proof.
  destruct (yaml_Marshal cfg) as [d|] eqn:E.
  - split; [by eexists|]. intros _. apply not_true_is_false. intros Hc%yaml_panics. by rewrite E in Hc.
  - apply yaml_panics in E. rewrite E. split; [done|by intros []].
Qed.

(** A document that was made from [cfg]. *)
Definition document_of (hz : Hazelcast) (cfg : cfg_Hazelcast) (doc : Document) : Prop :=
  inline_conflict cfg = false /\ (s_CustomConfigCmName (h_Spec hz) = "" -> yaml_Marshal cfg = Some doc).

Lemma wp_config_document (hz : Hazelcast) cfg h :
  wp G (config_document hz cfg) h (fun _ r => forall doc, r = Found doc -> document_of hz cfg doc).
Proof.
  unfold config_document, document_of. destruct (strb _ "") eqn:Hn.
  - destruct (yaml_Marshal cfg) as [doc|] eqn:E; [|done]. apply wp_ret. intros d [= <-]. split; [|done].
    apply inline_conflict_false. rewrite E. by eexists.
  - apply bool_decide_eq_false in Hn. apply (wp_quiet G); [done|].
    intros [[annotations data]|e] h1 Hs1 _; cbv iota; [|by apply wp_ret].
    destruct (yaml_parse _) as [m|e]; [|by apply wp_ret]. apply wp_bind, (wp_lift_res G). intros merged Hm.
    assert (Hi : inline_conflict cfg = false) by (unfold mergeConfig in Hm; by destruct (inline_conflict cfg)).
    by destruct merged; apply wp_ret.
Qed.

Lemma all_ds_kinds d : d ∈ dataStructures.
Proof. apply list_elem_of_In. destruct d; simpl; auto 10. Qed.

Lemma map_written_for_mono t t' (hz : Hazelcast) cfg cfg' l : t ⊆ t' -> cfg_Hazelcast_Map cfg' = cfg_Hazelcast_Map cfg ->
  map_written_for t hz cfg l -> map_written_for t' hz cfg' l.
Proof.
  intros Ht Hm Hw m Hin Hu. destruct (Hw m Hin Hu) as (props & c & Hp & Hc & Hl). exists props, c.
  rewrite Hm. split; [by eapply props_read_mono|done].
Qed.

Lemma wp_filterWan (hz : Hazelcast) h : wp G (filterPersistedWanReplications hz) h (fun _ _ => True).
Proof.
  unfold filterPersistedWanReplications. apply (wp_quiet G); [done|]. intros [l|e] h1 _ _; [|by apply wp_ret].
  by apply wp_bind, (wp_lift_res G).
Qed.

Lemma fill_wan_spec cfg wrl cfg' : fillHazelcastConfigWithWanReplications cfg wrl = Ret cfg' ->
  exists w, cfg' = with_WanReplication cfg w.
Proof.
  unfold fillHazelcastConfigWithWanReplications. destruct (Nat.eqb _ _).
  { intros [= <-]. exists (cfg_Hazelcast_WanReplication cfg). by destruct cfg. }
  destruct (wan_sections _ _) as [m| |]; [|done..]. intros [= <-]. by eexists.
Qed.

Lemma fill_ucn_spec cfg (hz : Hazelcast) ucn : exists u,
  fillHazelcastConfigWithUserCodeNamespaces cfg hz ucn = with_UserCodeNamespaces cfg u
  /\ (UserCodeNamespaces_IsEnabled (s_UserCodeNamespaces (h_Spec hz)) = true ->
      cfg_UserCodeNamespaces_Namespaces u = Some (fill_map r_Name ucn_resources ucn)).
Proof.
  unfold fillHazelcastConfigWithUserCodeNamespaces, UserCodeNamespaces_IsEnabled.
  destruct (s_UserCodeNamespaces _) as [u|]; [eexists; split; [reflexivity|done]|].
  exists (cfg_Hazelcast_UserCodeNamespaces cfg). split; [by destruct cfg|done].
Qed.

Lemma wp_member_config (hz : Hazelcast) cfg h :
  wp G (member_config hz cfg) h (fun h' r => forall doc, r = Found doc ->
    exists cfg', document_of hz cfg' doc /\ written_config h' hz (cfg_Hazelcast_Persistence cfg) cfg').
Proof.
  unfold member_config. destruct (early_sections cfg hz) as [Hprops Hpers].
  set (cfg1 := fillHazelcastConfigWithSerialization _ _) in *. clearbody cfg1.
  eapply wp_fbind with (Rp := fun h' ml => exists l, ev_list KMap hz l ∈ h' /\ ml = omap persisted_map l); [| |done].
  { unfold filterPersistedMaps. by apply (wp_list KMap hz (omap persisted_map)). }
  intros h1 ml Hs1 (lm & Hlm & ->).
  eapply wp_fbind; [apply wp_fillMaps| |done]. intros h2 cfg2 Hs2 [Hmaps E2].
  eapply wp_fbind with (Rp := fun _ _ => True); [by eapply wp_mono; [apply wp_filterWan|]| |done].
  intros h3 wrl Hs3 _. apply wp_bind, (wp_lift_res G). intros cfg3 (w & ->)%fill_wan_spec.
  eapply wp_fbind with (Rp := fun h' ucn => exists l, ev_list KUcn hz l ∈ h' /\ ucn = omap persisted_ucn l); [| |done].
  { unfold filterUserCodeNamespaces. by apply (wp_list KUcn hz (omap persisted_ucn)). }
  intros h4 ucn Hs4 (lu & Hlu & ->).
  destruct (fill_ucn_spec (with_WanReplication cfg2 w) hz (omap persisted_ucn lu)) as (u & -> & Hu).
  eapply wp_fbind; [by apply wp_fill_ds, (bool_decide_unpack (NoDup dataStructures))| |done].
  intros h5 cfg5 Hs5 [Ho Hds]. eapply wp_mono; [eapply wp_later, wp_config_document|].
  intros h6 r [Hs6 Hr] doc Hd. exists cfg5. split; [by apply Hr|]. destruct Ho as [Om Op Opers Oucn _]. constructor.
  - rewrite Op, E2. exact Hprops.
  - rewrite Opers, E2. exact Hpers.
  - exists lm. split; [hist|]. eapply map_written_for_mono; [| |exact Hmaps]; [intros e He; hist|].
    rewrite Om. done.
  - intros d. destruct (Hds d (all_ds_kinds d)) as (l & Hl & Hw). exists l. split; [hist|done].
  - intros He. exists lu. split; [hist|]. rewrite Oucn. by apply Hu.
Qed.

(** The persistence section, from what the secret was read as. *)
Definition base_dir_of (x : fetched Document) : string :=
  match x with
  | Found doc =>
      match yaml_Unmarshal doc with
      | Some c => if strb (cfg_Persistence_BaseDir (cfg_Hazelcast_Persistence c)) n_BaseDir then n_BaseDir
                  else n_PersistenceMountPath
      | None => n_BaseDir
      end
  | Failed _ => n_BaseDir
  end.

Definition ev_secret (hz : Hazelcast) (x : fetched Document) : event := Ev (GetConfigSecret (h_Namespace hz, h_Name hz)) x.

Definition directories (p : cfg_Persistence) : string * string := (cfg_Persistence_BaseDir p, cfg_Persistence_BackupDir p).

Lemma wp_keep_base_dir (hz : Hazelcast) cfg h :
  directories (cfg_Hazelcast_Persistence cfg) = (n_BaseDir, path_Join [n_BaseDir; "hot-backup"]) ->
  Persistence_IsEnabled (s_Persistence (h_Spec hz)) = true ->
  wp G (keep_base_dir hz cfg) h (fun h' cfg' => exists x, ev_secret hz x ∈ h'
    /\ directories (cfg_Hazelcast_Persistence cfg') = (base_dir_of x, path_Join [base_dir_of x; "hot-backup"])).
Proof.
  intros Hd He. unfold keep_base_dir. rewrite He. unfold getHazelcastConfig. apply wp_bind, (wp_quiet G); [done|].
  intros [doc|e] h1 Hs1 E1; cbv iota; [|apply wp_ret, wp_ret; exists (Failed e); by split].
  unfold base_dir_of. destruct (yaml_Unmarshal doc) as [c|] eqn:Ec; apply wp_ret; cbv iota.
  - destruct (strb _ n_BaseDir) eqn:Eb; apply wp_ret; exists (Found doc); (split; [done|]); cbv iota; by rewrite Ec, Eb.
  - apply wp_ret. exists (Found doc). split; [done|]. cbv iota. by rewrite Ec.
Qed.

Lemma basic_directories h cfg : hazelcastBasicConfig h = Ret cfg ->
  Persistence_IsEnabled (s_Persistence (h_Spec h)) = true ->
  directories (cfg_Hazelcast_Persistence cfg) = (n_BaseDir, path_Join [n_BaseDir; "hot-backup"]).
Proof.
  unfold hazelcastBasicConfig. intros Hb He.
  destruct (basic_LocalDevice h) as [dv| |], (basic_CPSubsystem h) as [cp| |]; try done. injection Hb as <-.
  cbn [cfg_Hazelcast_Persistence]. unfold basic_Persistence. by destruct (s_Persistence (h_Spec h)).
Qed.

Lemma wp_hazelcastConfig (hz : Hazelcast) :
  wp G (hazelcastConfig hz) [] (fun t r =>
    r.1 = set_Properties hz (config_properties (h_Spec hz))
    /\ forall doc, r.2 = Found doc -> exists cfg p, document_of hz cfg doc
       /\ written_config t r.1 p cfg
       /\ (Persistence_IsEnabled (s_Persistence (h_Spec hz)) = true ->
           exists x, ev_secret hz x ∈ t
             /\ directories p = (base_dir_of x, path_Join [base_dir_of x; "hot-backup"]))).
Proof.
  unfold hazelcastConfig. apply wp_bind, (wp_lift_res G). intros cfg Hb.
  eapply wp_seq with (R := fun h' cfg' => Persistence_IsEnabled (s_Persistence (h_Spec hz)) = true ->
    exists x, ev_secret hz x ∈ h'
      /\ directories (cfg_Hazelcast_Persistence cfg') = (base_dir_of x, path_Join [base_dir_of x; "hot-backup"])).
  { destruct (Persistence_IsEnabled _) eqn:He; [|unfold keep_base_dir; rewrite He; by apply wp_ret].
    eapply wp_mono; [apply wp_keep_base_dir; [by eapply basic_directories|done]|]. by intros h' c Hx _. }
  intros h1 cfg1 Hs1 Hp. apply wp_bind. eapply wp_mono; [eapply wp_later, wp_member_config|].
  intros h2 r [Hs2 Hr]. apply wp_ret. split; [done|]. intros doc Hd. destruct (Hr doc Hd) as (cfg' & Hy & Hw).
  exists cfg', (cfg_Hazelcast_Persistence cfg1). split; [done|]. split; [done|]. intros He.
  destruct (Hp He) as (x & Hx & E). exists x. split; [by apply Hs2|done].
Qed.
End Sections.

(** ** The result of [hazelcastConfig] *)

Section Results.
Context `{P : Proto} `{R : MapRange} `{EJ : EventJson} `{QL : QuantityLib} `{Y : YamlLib} `{YT : !YamlTree}.
Context `{!HazelcastJson} `{!MapJson} `{KE : KErrors} `{JT : JsonText}.
Implicit Types h : Hazelcast.

#[local] Instance any_call_permissive : Permissive any_call.
Proof. done. Qed.

Lemma config_result h t h' x : exec (hazelcastConfig h) t (Returned (h', x)) ->
  h' = set_Properties h (config_properties (h_Spec h))
  /\ forall doc, x = Found doc -> exists cfg p, document_of h cfg doc /\ written_config t h' p cfg
       /\ (Persistence_IsEnabled (s_Persistence (h_Spec h)) = true ->
           exists x, ev_secret h x ∈ t /\ directories p = (base_dir_of x, path_Join [base_dir_of x; "hot-backup"])).
Proof. intros He. exact (wp_result _ _ _ _ (wp_hazelcastConfig any_call h) He). Qed.

(** The same for a cluster without a custom configuration, whose document is
    read back. *)
Lemma config_read h t h' doc : s_CustomConfigCmName (h_Spec h) = "" ->
  exec (hazelcastConfig h) t (Returned (h', Found doc)) ->
  exists cfg p, yaml_Unmarshal doc = Some (cfg_Hazelcast_read cfg) /\ written_config t h' p cfg
    /\ (Persistence_IsEnabled (s_Persistence (h_Spec h)) = true ->
        exists x, ev_secret h x ∈ t /\ directories p = (base_dir_of x, path_Join [base_dir_of x; "hot-backup"])).
Proof.
  intros Hn He. apply config_result in He as [_ He]. destruct (He doc eq_refl) as (cfg & p & [_ Hd] & Hw & Hp).
  exists cfg, p. split; [by apply yaml_law, Hd|done].
Qed.

(** C35. Without a custom configuration, what the operator writes to
    hazelcast.yaml is what the controllers of the data structures wait for,
    but for what YAML changes in the section of a map.  Of every kind of resource the API server
    listed for the cluster, each one that is persisting, successful or was
    successful before, and whose name no other one has, has its entry: the
    check of its controller succeeds on the document, and the section of a
    map is the one its controller computes, as YAML reads it back. *)
Theorem persisted_resources_written h t h' doc : s_CustomConfigCmName (h_Spec h) = "" ->
  exec (hazelcastConfig h) t (Returned (h', Found doc)) ->
  exists c, yaml_Unmarshal doc = Some c
  /\ (forall d, exists l, ev_list (KDS d) h l ∈ t /\ forall o, o ∈ omap (isDSPersisted d) l ->
       sole GetDSName (omap (isDSPersisted d) l) o -> ds_persisted d c o = Ret true)
  /\ (exists l, ev_list KMap h l ∈ t /\ forall m, m ∈ omap persisted_map l ->
       sole DataStructureTypes.MapName (omap persisted_map l) m ->
       exists props cfg, props_read t (h_Namespace h) m props /\ create_map_config props m = Ret cfg
         /\ default ∅ (cfg_Hazelcast_Map c) !! DataStructureTypes.MapName m = Some (cfg_Map_read cfg)).
Proof.
  intros Hn He. pose proof (config_result _ _ _ _ He) as [Hh _].
  destruct (config_read _ _ _ _ Hn He) as (cfg & p & Hc & [_ _ (lm & Hlm & Hm) Hds _] & _). subst h'.
  exists (cfg_Hazelcast_read cfg). split; [done|]. split.
  - intros d. destruct (Hds d) as (l & Hl & Hw). by exists l.
  - exists lm. split; [done|]. intros m Hin Hu. destruct (Hm m Hin Hu) as (props & c & Hp & Hcr & Hlk).
    exists props, c. split; [done|]. split; [done|]. cbn [cfg_Hazelcast_read cfg_Hazelcast_Map].
    by rewrite default_read_omit_map, lookup_fmap, Hlk.
Qed.

(** The default properties cannot be overridden: the document has their
    values whatever the resource says, and the user's values of all other
    properties (with tiered storage, that of the property that forces it).
    The caller's resource, which is stored when its spec is recorded, is left
    with the merged properties in place of the user's. *)
Theorem default_properties_enforced h t h' doc : s_CustomConfigCmName (h_Spec h) = "" ->
  exec (hazelcastConfig h) t (Returned (h', Found doc)) ->
  exists c, yaml_Unmarshal doc = Some c
  /\ forall k, default ∅ (cfg_Hazelcast_Properties c) !! k
       = default ∅ (s_Properties (h_Spec h')) !! k
     /\ default ∅ (s_Properties (h_Spec h')) !! k
       = if HazelcastSpec_IsTieredStorageEnabled (h_Spec h) && strb k "hazelcast.tiered.store.force.enabled"
         then Some "true"
         else match DefaultProperties !! k with
              | Some v => Some v
              | None => default ∅ (s_Properties (h_Spec h)) !! k
              end.
Proof.
  intros Hn He. pose proof (config_result _ _ _ _ He) as [Hh _].
  destruct (config_read _ _ _ _ Hn He) as (cfg & p & Hc & [Hp _ _ _ _] & _). subst h'.
  exists (cfg_Hazelcast_read cfg). split; [done|]. intros k. split.
  - cbn [cfg_Hazelcast_read cfg_Hazelcast_Properties]. by rewrite default_read_omit_map, map_fmap_id, Hp.
  - cbn. unfold config_properties, strb.
    assert (Hm : match s_Properties (h_Spec h) with Some p => mergeProperties p | None => DefaultProperties end !! k
                 = match DefaultProperties !! k with Some v => Some v | None => default ∅ (s_Properties (h_Spec h)) !! k end).
    { destruct (s_Properties (h_Spec h)) as [m|]; [apply mergeProperties_lookup|]. simpl. rewrite lookup_empty.
      by destruct (DefaultProperties !! k). }
    destruct (HazelcastSpec_IsTieredStorageEnabled _); [|exact Hm]. case_bool_decide as Hk; simpl.
    + subst. by rewrite lookup_insert_eq.
    + by rewrite lookup_insert_ne.
Qed.

(** The directories of a persistent cluster never change: when a document
    the operator wrote is what the next reconciliation reads, the next
    document has the same base directory and backup directory. *)
Theorem base_dir_stable h1 h2 t1 t2 h1' h2' doc1 doc2 :
  s_CustomConfigCmName (h_Spec h1) = "" -> s_CustomConfigCmName (h_Spec h2) = "" ->
  Persistence_IsEnabled (s_Persistence (h_Spec h1)) = true -> Persistence_IsEnabled (s_Persistence (h_Spec h2)) = true ->
  exec (hazelcastConfig h1) t1 (Returned (h1', Found doc1)) ->
  exec (hazelcastConfig h2) t2 (Returned (h2', Found doc2)) ->
  (forall x, ev_secret h2 x ∈ t2 -> x = Found doc1) ->
  exists c1 c2, yaml_Unmarshal doc1 = Some c1 /\ yaml_Unmarshal doc2 = Some c2
    /\ directories (cfg_Hazelcast_Persistence c2) = directories (cfg_Hazelcast_Persistence c1).
Proof.
  intros Hn1 Hn2 Hp1 Hp2 He1 He2 Hx.
  destruct (config_read _ _ _ _ Hn1 He1) as (cfg1 & p1 & Hc1 & [_ E1 _ _ _] & Hd1).
  destruct (config_read _ _ _ _ Hn2 He2) as (cfg2 & p2 & Hc2 & [_ E2 _ _ _] & Hd2).
  destruct (Hd1 Hp1) as (x1 & _ & Ed1). destruct (Hd2 Hp2) as (x2 & Hx2 & Ed2). rewrite (Hx x2 Hx2) in Ed2.
  exists (cfg_Hazelcast_read cfg1), (cfg_Hazelcast_read cfg2). split; [done|]. split; [done|].
  cbn [cfg_Hazelcast_read cfg_Hazelcast_Persistence]. rewrite E1, E2, Ed1, Ed2. unfold base_dir_of at 1 2.
  rewrite Hc1. cbn [cfg_Hazelcast_read cfg_Hazelcast_Persistence]. rewrite E1. injection Ed1 as -> _.
  unfold base_dir_of. destruct x1 as [doc|e]; [|done]. destruct (yaml_Unmarshal doc) as [c|]; [|done].
  by destruct (strb (cfg_Persistence_BaseDir _) _).
Qed.

Lemma fill_map_some {A C} (name : A -> string) (create : A -> C) (l : list A) a :
  a ∈ l -> is_Some (fill_map name create l !! name a).
Proof.
  intros Ha. unfold fill_map. induction l as [|b l IH] using rev_ind; [by apply not_elem_of_nil in Ha|].
  rewrite foldl_app. cbn [foldl]. destruct (decide (name b = name a)) as [->|E]; [rewrite lookup_insert_eq; by eexists|].
  rewrite lookup_insert_ne by done. apply elem_of_app in Ha as [Ha|Ha%list_elem_of_singleton]; [by apply IH|by subst].
Qed.

(** A user code namespace called enabled or class-filter stops its
    cluster: as long as it is listed as successful no document is written, the
    reconciliation fails or panics. *)
Theorem reserved_namespace_blocks h t h' x :
  exec (hazelcastConfig h) t (Returned (h', x)) ->
  UserCodeNamespaces_IsEnabled (s_UserCodeNamespaces (h_Spec h)) = true ->
  (forall l, ev_list KUcn h l ∈ t -> exists u, u ∈ l /\ ucn_State (r_Status u) = UserCodeNamespaceSuccess
     /\ r_Name u ∈ ["enabled"; "class-filter"]) ->
  exists e, x = Failed e.
Proof.
  intros He Hu Hl. destruct x as [doc|e]; [|by eexists]. apply config_result in He as [-> He].
  destruct (He doc eq_refl) as (cfg & p & [Hi _] & [_ _ _ _ Hns] & _). destruct (Hns Hu) as (l & Hin & Hns').
  destruct (Hl l Hin) as (u & Hul & Hst & Hname). exfalso.
  change (r_Name (u : UserCodeNamespace) ∈ ["enabled"; "class-filter"]) in Hname.
  assert (Hp : u ∈ omap persisted_ucn l).
  { apply list_elem_of_omap. exists u. split; [done|]. unfold persisted_ucn.
    change (ucn_State (r_Status (u : UserCodeNamespace)) = UserCodeNamespaceSuccess) in Hst. by rewrite Hst. }
  pose proof (fill_map_some r_Name ucn_resources _ _ Hp) as Hs. unfold inline_conflict in Hi.
  rewrite Hns' in Hi. simpl in Hi. apply orb_false_iff in Hi as [H1%bool_decide_eq_false H2%bool_decide_eq_false].
  apply elem_of_cons in Hname as [E|Hname]; [by rewrite E in Hs|].
  apply list_elem_of_singleton in Hname. by rewrite Hname in Hs.
Qed.
End Results.

(** ** A validated resource can be configured *)

Lemma fill_map_res_total {A C} (name : A -> string) (create : A -> res C) m0 (l : list A) :
  (exists m, fill_map_res name create m0 l = Ret m) <-> Forall (fun a => exists c, create a = Ret c) l.
Proof.
  revert m0. induction l as [|a l IH]; intros m0; cbn [fill_map_res]; [split; [done|by eexists]|].
  rewrite Forall_cons. destruct (create a) as [c| |] eqn:E; cbn [bind_res]; [|by split; [intros [? [=]]|intros [[? [=]] _]]..].
  rewrite IH. split; [intros Hl; split; [by eexists|done]|by intros [_ Hl]].
Qed.

Section Accepted.
Context `{QL : QuantityLib} `{!HazelcastJson} `{YV : YamlValid} `{!SortByMin} `{KE : KErrors} (c : Cluster).

Lemma local_device_total ld : (exists d, createLocalDeviceConfig ld = Ret d)
  <-> exists pvc, ld_PVC ld = Some pvc /\ is_Some (pvc_RequestStorage pvc).
Proof.
  unfold createLocalDeviceConfig, is_Some. destruct (ld_PVC ld) as [pvc|]; simpl; [|by split; [intros [? [=]]|intros (? & [=] & _)]].
  destruct (pvc_RequestStorage pvc) as [q|] eqn:E; simpl.
  - split; [intros _; exists pvc; rewrite E; eauto|eauto].
  - split; [by intros [? [=]]|]. intros (pvc' & [= <-] & [q Hq]). congruence.
Qed.

Lemma basic_config_total h : is_Some (s_ClusterSize (h_Spec h)) ->
  ((exists cfg, hazelcastBasicConfig h = Ret cfg)
   <-> Forall (fun ld => exists pvc, ld_PVC ld = Some pvc /\ is_Some (pvc_RequestStorage pvc)) (s_LocalDevices (h_Spec h))).
Proof.
  intros [n Hn].
  assert (Hcp : exists cp, basic_CPSubsystem h = Ret cp).
  { unfold basic_CPSubsystem. rewrite Hn. destruct (s_CPSubsystem (h_Spec h)); by eexists. }
  destruct Hcp as [cp Hcp]. unfold hazelcastBasicConfig. rewrite Hcp.
  transitivity (exists m, fill_map_res ld_Name createLocalDeviceConfig ∅ (s_LocalDevices (h_Spec h)) = Ret m).
  - unfold basic_LocalDevice, HazelcastSpec_IsTieredStorageEnabled.
    destruct (s_LocalDevices (h_Spec h)) as [|ld l]; [split; intros _; by eexists|]. cbn [length Nat.eqb negb].
    destruct (fill_map_res _ _ _ _); simpl; (split; intros [? [=]]); by eexists.
  - rewrite fill_map_res_total. apply Forall_proper; [|done]. intros ld. apply local_device_total.
Qed.

(** The configuration of a resource that passed validation is computed
    without a panic exactly when every local device's claim requests an
    amount of storage, the one pointer that validation does not look at. *)
Theorem accepted_configuration_total h (Hw : Forall wan_proper (spec_wan h)) :
  ValidateHazelcastSpec c h = Ret None ->
  ((exists cfg, hazelcastBasicConfig h = Ret cfg)
   <-> Forall (fun ld => forall pvc, ld_PVC ld = Some pvc -> pvc_RequestStorage pvc <> None) (s_LocalDevices (h_Spec h))).
Proof.
  intros [Hc _]%ValidateHazelcastSpec_None. apply validateSpecCurrent_ok in Hc; [|done].
  destruct (ok_size _ _ Hc) as (n & Hn & _). rewrite basic_config_total by by eexists.
  pose proof (ok_tiered _ _ Hc) as Ht. unfold tiered_ok in Ht.
  destruct (s_LocalDevices (h_Spec h)) as [|ld0 l0] eqn:E; [split; constructor|].
  destruct Ht as [_ Hp]; [done|].
  rewrite !Forall_forall in *. split; intros Hf ld Hin.
  - intros pvc Hpvc. destruct (Hf ld Hin) as (pvc' & Hp' & [q Hq]). congruence.
  - specialize (Hp ld Hin). specialize (Hf ld Hin). destruct Hp as (pvc & modes & Hpvc & _).
    exists pvc. split; [done|]. by apply not_eq_None_Some, Hf.
Qed.
End Accepted.

(** ** Executor services of a running cluster *)

Section Executors.
Context `{P : Proto} `{!ProtoLaws P} `{QL : QuantityLib} `{Y : YamlLib}.

Definition ev_invoked (hz : NamespacedName) (uuid : string) (req : ClientMessage) (x : fetched ClientMessage) : event :=
  Ev (InvokeOnMember hz uuid req) x.

(** Every member the cluster was said to have was sent a request which a
    receiver reads as [v]. *)
Definition received_all {B} (t : list event) (hz : NamespacedName) (d : Dec B) (v : B) : Prop :=
  exists req members, Transmits (Ret req) d v /\ ev_members hz members ∈ t
    /\ forall uuid, uuid ∈ members -> exists x, ev_invoked hz uuid req x ∈ t.

Lemma received_mono {B} t t' hz (d : Dec B) v : t ⊆ t' -> received_all t hz d v -> received_all t' hz d v.
Proof.
  intros Ht (req & members & Hr & Hm & Hu). exists req, members. split; [done|]. split; [by apply Ht|].
  intros uuid [x Hx]%Hu. exists x. by apply Ht.
Qed.

Section Requests.
Context (G : list event -> op -> Prop) `{!Permissive G}.

Lemma wp_invoke_all hz req members h :
  (forall h' uuid, G h' (InvokeOnMember hz uuid req)) ->
  wp G (invoke_all hz req members) h (fun h' _ =>
    forall uuid, uuid ∈ members -> exists x, ev_invoked hz uuid req x ∈ h').
Proof.
  intros HG. revert h. induction members as [|u members IH]; intros h; cbn [invoke_all].
  { apply wp_ret. by intros uuid Hu%not_elem_of_nil. }
  apply wp_vis; [done|]. intros x h1 Hs1 E1. eapply wp_mono; [apply wp_later, IH|].
  intros h2 [] [Hs2 Hu] uuid [->|Hin]%elem_of_cons; [|by apply Hu]. exists x. by apply Hs2.
Qed.

Lemma wp_add_services {A B} hz (request : A -> res ClientMessage) (d : Dec B) v (l : list A) h :
  (forall es, es ∈ l -> Transmits (request es) d (v es)) ->
  (forall es h' uuid req, es ∈ l -> request es = Ret req -> G h' (InvokeOnMember hz uuid req)) ->
  wp G (add_services hz request l) h (fun h' _ => forall es, es ∈ l -> received_all h' hz d (v es)).
Proof.
  revert h. induction l as [|es l IH]; intros h Ht HG; cbn [add_services].
  { apply wp_ret. by intros es Hes%not_elem_of_nil. }
  destruct (Ht es) as (req & Hr & Hd); [by left|]. apply wp_bind, (wp_lift_res G). intros req' Hr'.
  rewrite Hr in Hr'. injection Hr' as <-.
  apply (wp_quiet G); [done|]. intros members h1 Hs1 E1. eapply wp_seq.
  { apply wp_invoke_all. intros h' uuid. by apply (HG es); [left|]. }
  intros h2 [] Hs2 Hu. eapply wp_mono.
  { apply wp_later, IH; [intros e He; apply Ht; by right|intros e h' uuid req' He; apply HG; by right]. }
  intros h3 [] [Hs3 Hl] e [->|He]%elem_of_cons; [|by apply Hl].
  apply (received_mono h2); [done|]. exists req, members. split; [by exists req|]. split; [by apply Hs2|done].
Qed.
End Requests.

Lemma returns_invoke_all hz req members : returns (invoke_all hz req members).
Proof. induction members; [apply returns_done|by apply returns_vis]. Qed.

Lemma returns_add_services {A B} hz (request : A -> res ClientMessage) (d : Dec B) v (l : list A) :
  (forall es, es ∈ l -> Transmits (request es) d (v es)) -> returns (add_services hz request l).
Proof.
  induction l as [|es l IH]; intros Ht; cbn [add_services]; [apply returns_done|].
  destruct (Ht es) as (req & -> & _); [by left|]. apply returns_vis. intros members.
  apply returns_bind; [apply returns_invoke_all|]. intros _. apply IH. intros e He. apply Ht. by right.
Qed.

Lemma new_services_elem {A} (name : A -> string) last current es :
  es ∈ new_services name last current <-> name es ∉ name <$> last /\ es ∈ current.
Proof. unfold new_services. by rewrite list_elem_of_filter, elem_of_list_to_set. Qed.

(** What a member is asked to add. *)
Definition es_config (es : ExecutorServiceConfiguration) : ExecutorServiceConfig :=
  DynamicConfigAddExecutorConfigRequest_norm (fillAddExecutorServiceInput DefaultAddExecutorServiceInput es).
Definition des_config (es : DurableExecutorServiceConfiguration) : DurableExecutorServiceConfig :=
  DynamicConfigAddDurableExecutorConfigRequest_norm
    (fillAddDurableExecutorServiceInput DefaultAddDurableExecutorServiceInput es).
Definition ses_config (es : ScheduledExecutorServiceConfiguration) : ScheduledExecutorServiceConfig :=
  DynamicConfigAddScheduledExecutorConfigRequest_norm
    (fillAddScheduledExecutorServiceInput DefaultAddScheduledExecutorServiceInput es).

(** The services of [current] that have no namesake in [last]: the requests
    for them. *)
Definition new_request (h : Hazelcast) (last : HazelcastSpec) (req : ClientMessage) : Prop :=
  (exists es, es ∈ s_ExecutorServices (h_Spec h) /\ es_Name es ∉ es_Name <$> s_ExecutorServices last
     /\ es_request es = Ret req)
  \/ (exists es, es ∈ s_DurableExecutorServices (h_Spec h) /\ des_Name es ∉ des_Name <$> s_DurableExecutorServices last
     /\ des_request es = Ret req)
  \/ (exists es, es ∈ s_ScheduledExecutorServices (h_Spec h) /\ ses_Name es ∉ ses_Name <$> s_ScheduledExecutorServices last
     /\ ses_request es = Ret req).

Definition only_new (hz : NamespacedName) (h : Hazelcast) (last : HazelcastSpec) (t : list event) (c : op) : Prop :=
  match c with
  | InvokeOnMember hz' _ req => hz' = hz /\ new_request h last req
  | InvokeOnRandomTarget _ _ | StatusUpdate _ _ => False
  | _ => True
  end.

#[local] Instance only_new_permissive hz h last : Permissive (only_new hz h last).
Proof. by intros t []. Qed.

(** The sizes are int32 in Go. *)
Record int32_services (s : HazelcastSpec) : Prop := {
  i32_es : Forall (fun es => is_int32 (es_PoolSize es) /\ is_int32 (es_QueueCapacity es)) (s_ExecutorServices s);
  i32_des : Forall (fun es => is_int32 (des_PoolSize es) /\ is_int32 (des_Durability es) /\ is_int32 (des_Capacity es))
              (s_DurableExecutorServices s);
  i32_ses : Forall (fun es => is_int32 (ses_PoolSize es) /\ is_int32 (ses_Durability es) /\ is_int32 (ses_Capacity es))
              (s_ScheduledExecutorServices s);
}.

Section Added.
Context (hz : NamespacedName) (h : Hazelcast) (last : HazelcastSpec) (Hi : int32_services (h_Spec h)).

Lemma es_transmits es : es ∈ new_services es_Name (s_ExecutorServices last) (s_ExecutorServices (h_Spec h)) ->
  Transmits (es_request es) ReadDynamicConfigAddExecutorConfigRequest (es_config es).
Proof.
  intros [_ He]%new_services_elem. destruct Hi as [H1 _ _]. rewrite Forall_forall in H1.
  by apply DynamicConfigAddExecutorConfigRequest_transmits, H1.
Qed.
Lemma des_transmits es : es ∈ new_services des_Name (s_DurableExecutorServices last) (s_DurableExecutorServices (h_Spec h)) ->
  Transmits (des_request es) ReadDynamicConfigAddDurableExecutorConfigRequest (des_config es).
Proof.
  intros [_ He]%new_services_elem. destruct Hi as [_ H1 _]. rewrite Forall_forall in H1.
  by apply DynamicConfigAddDurableExecutorConfigRequest_transmits, H1.
Qed.
Lemma ses_transmits es : es ∈ new_services ses_Name (s_ScheduledExecutorServices last) (s_ScheduledExecutorServices (h_Spec h)) ->
  Transmits (ses_request es) ReadDynamicConfigAddScheduledExecutorConfigRequest (ses_config es).
Proof.
  intros [_ He]%new_services_elem. destruct Hi as [_ _ H1]. rewrite Forall_forall in H1.
  destruct (H1 es He) as (? & ? & ?). by apply DynamicConfigAddScheduledExecutorConfigRequest_transmits.
Qed.

Definition all_added (t : list event) : Prop :=
  (forall es, es ∈ s_ExecutorServices (h_Spec h) -> es_Name es ∉ es_Name <$> s_ExecutorServices last ->
     received_all t hz ReadDynamicConfigAddExecutorConfigRequest (es_config es))
  /\ (forall es, es ∈ s_DurableExecutorServices (h_Spec h) -> des_Name es ∉ des_Name <$> s_DurableExecutorServices last ->
     received_all t hz ReadDynamicConfigAddDurableExecutorConfigRequest (des_config es))
  /\ (forall es, es ∈ s_ScheduledExecutorServices (h_Spec h) -> ses_Name es ∉ ses_Name <$> s_ScheduledExecutorServices last ->
     received_all t hz ReadDynamicConfigAddScheduledExecutorConfigRequest (ses_config es)).

Lemma wp_addExecutorServices :
  wp (only_new hz h last) (addExecutorServices hz (detectNewExecutorServices h last)) [] (fun t _ => all_added t).
Proof.
  unfold addExecutorServices, detectNewExecutorServices. cbn [new_es new_des new_ses].
  eapply wp_seq.
  { apply (wp_add_services _ hz es_request ReadDynamicConfigAddExecutorConfigRequest es_config); [exact es_transmits|].
    intros es t uuid req [Hn He]%new_services_elem Hr. split; [done|]. left. by exists es. }
  intros h1 [] Hs1 H1. eapply wp_seq.
  { apply (wp_add_services _ hz des_request ReadDynamicConfigAddDurableExecutorConfigRequest des_config); [exact des_transmits|].
    intros es t uuid req [Hn He]%new_services_elem Hr. split; [done|]. right; left. by exists es. }
  intros h2 [] Hs2 H2. eapply wp_mono.
  { apply wp_later, (wp_add_services _ hz ses_request ReadDynamicConfigAddScheduledExecutorConfigRequest ses_config); [exact ses_transmits|].
    intros es t uuid req [Hn He]%new_services_elem Hr. split; [done|]. right; right. by exists es. }
  intros h3 [] [Hs3 H3]. split_and!; intros es He Hn.
  - apply (received_mono h1); [by etrans|]. by apply H1, new_services_elem.
  - apply (received_mono h2); [done|]. by apply H2, new_services_elem.
  - by apply H3, new_services_elem.
Qed.

Lemma returns_addExecutorServices : returns (addExecutorServices hz (detectNewExecutorServices h last)).
Proof.
  unfold addExecutorServices. apply returns_bind; [by apply (returns_add_services hz es_request ReadDynamicConfigAddExecutorConfigRequest es_config), es_transmits|].
  intros _. apply returns_bind; [by apply (returns_add_services hz des_request ReadDynamicConfigAddDurableExecutorConfigRequest des_config), des_transmits|].
  intros _. by apply (returns_add_services hz ses_request ReadDynamicConfigAddScheduledExecutorConfigRequest ses_config), ses_transmits.
Qed.
End Added.

(** Executor services added to the resource of a running cluster.  However
    the members answer, the update ends; every service whose name the last
    applied specification did not have was requested from every member that
    the client had, in a request that a receiver reads as the configuration
    of that service; and nothing else was requested. *)
Theorem new_executor_services_added hz h last t o : int32_services (h_Spec h) ->
  exec (addExecutorServices hz (detectNewExecutorServices h last)) t o ->
  o = Returned tt /\ all_added hz h last t
  /\ forall hz' uuid req x, ev_invoked hz' uuid req x ∈ t -> hz' = hz /\ new_request h last req.
Proof.
  intros Hi He. destruct (returns_addExecutorServices hz h last Hi t o He) as [[] ->]. split; [done|].
  destruct (wp_sound _ _ _ _ _ _ (wp_addExecutorServices hz h last Hi) He) as [Hg HQ].
  split; [by apply (HQ tt)|]. intros hz' uuid req x (t1 & t2 & ->)%list_elem_of_split.
  by apply guarded_lookup in Hg.
Qed.
End Executors.

(** ** The init container *)

Section InitContainer.
Context `{P : Proto} `{QL : QuantityLib} `{Y : YamlLib} `{JT : JsonText}.

(** A source of code besides user code namespaces. *)
Definition other_code (h : Hazelcast) : bool :=
  UserCodeDeployment_IsBucketEnabled (s_DeprecatedUserCodeDeployment (h_Spec h))
  || UserCodeDeployment_IsRemoteURLsEnabled (s_DeprecatedUserCodeDeployment (h_Spec h))
  || Jet_IsBucketEnabled (s_JetEngineConfiguration (h_Spec h))
  || Jet_IsRemoteURLsEnabled (s_JetEngineConfiguration (h_Spec h)).

(** How many things are downloaded. *)
Definition downloads (d : Download) : nat := length (dl_Bundle d) + length (dl_Buckets d) + length (dl_URLs d).

Lemma init_download_other h d : other_code h = true ->
  exists d', init_download h d = Ret (Some d') /\ dl_Bundle d' = [] /\ downloads d' = 1%nat.
Proof.
  unfold other_code, init_download, UserCodeDeployment_IsBucketEnabled, UserCodeDeployment_IsRemoteURLsEnabled,
    Jet_IsBucketEnabled, Jet_IsRemoteURLsEnabled.
  destruct (s_DeprecatedUserCodeDeployment (h_Spec h)) as [u|], (s_JetEngineConfiguration (h_Spec h)) as [j|]; simpl;
    try destruct (ud_BucketConfiguration u), (ud_RemoteURLs u); try destruct (j_BucketConfiguration j), (j_RemoteURLs j);
    simpl; intros; simplify_eq; by eexists.
Qed.

Definition has_bucket (u : UserCodeNamespace) : Prop := is_Some (ucn_BucketConfiguration (r_Spec u)).

#[local] Instance has_bucket_dec u : Decision (has_bucket u).
Proof. unfold has_bucket. apply _. Defined.

Definition bundle_of (ns : list UserCodeNamespace) : option Download :=
  match ns with
  | [] => None
  | _ => Some (mkDownload (map (fun u =>
           let b := default (mkBucketConfiguration "" "" "") (ucn_BucketConfiguration (r_Spec u)) in
           mkBucketDownload (bc_BucketURI b) (bc_SecretName b) (path_Join [n_UCNBucketPath; (r_Name u ++ ".zip")%string])) ns) [] [])
  end.

Lemma ucn_buckets_cases (ns : list UserCodeNamespace) :
  if decide (Forall has_bucket ns)
  then ucn_buckets ns = Ret (match bundle_of ns with Some d => dl_Bundle d | None => [] end)
  else ucn_buckets ns = Panic.
Proof.
  induction ns as [|u ns IH]; [done|]. cbn [ucn_buckets].
  destruct (ucn_BucketConfiguration (r_Spec u)) as [b|] eqn:Eb; cbn [deref bind_res].
  - destruct (decide (Forall has_bucket ns)) as [H1|H1], (decide (Forall has_bucket (u :: ns))) as [H2|H2];
      rewrite IH; simpl; try done.
    + rewrite Eb. by destruct ns.
    + destruct H2. apply Forall_cons. split; [by exists b|done].
    + by apply Forall_cons in H2 as [_ ?].
  - destruct (decide (Forall has_bucket (u :: ns))) as [H1|H1]; [|done]. apply Forall_cons in H1 as [[? E] _]. congruence.
Qed.

Lemma init_download_none h d : other_code h = false -> init_download h d = Ret d.
Proof.
  unfold other_code. rewrite !orb_false_iff. intros [[[E1 E2] E3] E4]. unfold init_download. rewrite E1, E2, E3, E4. done.
Qed.

(** The listing of user code namespaces in an event. *)
Definition listed_ucn (e : event) : option (fetched (list UserCodeNamespace)) :=
  match e with Ev (ListByHz KUcn _ _) x => Some x | _ => None end.

Lemma listed_once h l e : ev_list KUcn h l ∈ [e] -> listed_ucn e = Some (Found l).
Proof. by intros <-%list_elem_of_singleton. Qed.

(** What the init container downloads.  A bucket or URLs of the deprecated
    user code deployment or of the Jet engine replace everything before them:
    exactly one download is left, and that of the user code namespaces is
    lost.  Otherwise the bundles of all listed namespaces that are in use are
    downloaded; one of them without a bucket makes the operator panic. *)
Theorem init_container_single_source h t o : exec (initContainerConfig h) t o ->
  (forall d, o = Returned (Found d) ->
     if other_code h then exists d', d = Some d' /\ dl_Bundle d' = [] /\ downloads d' = 1%nat
     else if UserCodeNamespaces_IsEnabled (s_UserCodeNamespaces (h_Spec h)) then
       exists l, ev_list KUcn h l ∈ t /\ Forall has_bucket (omap persisted_ucn l) /\ d = bundle_of (omap persisted_ucn l)
     else d = None)
  /\ (o = Panicked <-> UserCodeNamespaces_IsEnabled (s_UserCodeNamespaces (h_Spec h)) = true
        /\ exists l, ev_list KUcn h l ∈ t /\ ~ Forall has_bucket (omap persisted_ucn l))
  /\ o <> Exhausted.
Proof.
  assert (Hdl : forall d, exists d', init_download h d = Ret d' /\ (if other_code h then exists d1, d' = Some d1
             /\ dl_Bundle d1 = [] /\ downloads d1 = 1%nat else d' = d)).
  { intros d. destruct (other_code h) eqn:E; [destruct (init_download_other h d E) as (d' & ? & ?); eauto|].
    exists d. by split; [apply init_download_none|]. }
  unfold initContainerConfig, filterUserCodeNamespaces, fbind. destruct (UserCodeNamespaces_IsEnabled _).
  2: { destruct (Hdl None) as (d' & -> & Hd). intros [-> ->]. split; [|by split; [split; [|intros [? _]]|]].
       intros d [= <-]. by destruct (other_code h). }
  intros (x & t' & -> & He). destruct x as [l|e]; simpl in He.
  2: { destruct He as [-> ->]. split; [done|]. split; [|done]. split; [done|].
       by intros (_ & l & [=]%listed_once & _). }
  pose proof (ucn_buckets_cases (omap persisted_ucn l)) as Hb. case_decide as Hf; rewrite Hb in He; simpl in He.
  - destruct (Hdl (bundle_of (omap persisted_ucn l))) as (d' & E & Hd).
    assert (He' : t' = [] /\ o = Returned (Found d')).
    { destruct (omap persisted_ucn l) as [|u0 l0];
        match type of E with init_download h ?b = _ =>
          change (exec (pbind (lift_res (init_download h b)) (fun d => Done (Found d))) t' o) in He end;
        by rewrite E in He. }
    destruct He' as [-> ->]. split; [|split; [|done]].
    + intros d [= <-]. destruct (other_code h); [done|]. exists l. split; [by left|done].
    + split; [done|]. by intros (_ & l' & [= <-]%listed_once & Hn).
  - destruct He as [-> ->]. split; [done|]. split; [|done]. split; [|done]. intros _. split; [done|]. exists l. by split; [left|].
Qed.
End InitContainer.

(** * Concrete runs of the configuration

    Clusters, resources and answers of an API server for which the hypotheses
    of the theorems of HazelcastConfigFacts.v hold. *)

Module ConfigRuns.
Import RefProto.
#[local] Existing Instance RefProto.ref.
#[local] Existing Instance CustomRuns.tree1.
#[local] Instance bad_json : HazelcastJson := {| HazelcastSpec_Unmarshal _ := inr (errors_New "bad json") |}.
#[local] Instance bad_map_json : MapJson :=
  {| MapSpec_Marshal s := inl "{}"; MapSpec_Unmarshal _ := inr (errors_New "bad json") |}.
#[local] Instance no_event_json : EventJson := {| unmarshal_event := fun _ => None |}.

Definition map1 : Map :=
  mkResource "ns" "m" "uid" [] [n_Finalizer] false ∅
    (mkMapSpec (mkDataStructureSpec "" "hz" (Some 1) 0 "") 10 0 (mkEvictionConfig "NONE" 0 "PER_NODE") None [] false None
      "BINARY" [] None None None None)
    (mkDataStructureStatus DataStructureSuccess "" ∅).
Definition ucn1 (name : string) : UserCodeNamespace :=
  mkResource "ns" name "uid" [] [n_Finalizer] false ∅ (mkUserCodeNamespaceSpec "hz" (Some (mkBucketConfiguration "" "secret" "gs://b")))
    (mkUserCodeNamespaceStatus UserCodeNamespaceSuccess "").

Definition hz1 (persistence : bool) (properties : option (gmap string string)) : Hazelcast :=
  mkHazelcast "hz" "ns" ∅ false
    (mkHazelcastSpec (Some 3) "" "license" None
      (if persistence then Some (mkHazelcastPersistenceConfiguration "" FullRecovery "" 0 None (mkRestoreConfiguration None "" None)) else None)
      (Some (mkJetEngineConfiguration (Some true) false None [] ["https://example.com/a.jar"] None None))
      "" None None None None "" None [] None "dev" None [mkExecutorServiceConfiguration "es" 8 0 ""] [] [] properties None None
      (Some (mkUserCodeNamespacesConfig None)))
    (mkHazelcastStatus 3 "Running").

(** Resources as given; the secret as given; requests fail. *)
Definition answer (maps : list Map) (ns : list UserCodeNamespace) (secret : fetched Document) (o : op) (_ : list event) : ans o :=
  match o as o return kube_ans o with
  | Get _ _ => Failed (mkError ENotFound "not found")
  | ListByHz KMap _ _ => Found maps
  | ListByHz KUcn _ _ => Found ns
  | ListByHz _ _ _ | ListIn _ _ => Found []
  | GetHazelcast _ => Found (hz1 false None)
  | GetConfigSecret _ => secret
  | GetSecretData _ => Found ∅
  | GetOrCreate _ => Found true
  | Running _ => true
  | OrderedMembers _ => ["m1"; "m2"]
  | InvokeOnMember _ _ _ | InvokeOnRandomTarget _ _ => Failed (errors_New "member left")
  | GetStatusService _ => None
  | GetConfigMap _ => Failed (errors_New "not found")
  | GetJetJob _ => Failed (errors_New "not found")
  | MemberAddresses _ => []
  | Now => 0
  | GoSync _ _ | GoExport _ _ _ _ _ => tt
  | _ => None
  end.

(** Every event is of the first or of the second kind. *)
Ltac each_event := repeat (apply List.Forall_cons; [first [left; reflexivity | right; reflexivity]|]); apply List.Forall_nil.

Definition missing : fetched Document := Failed (mkError ENotFound "not found").
Definition config_run (h : Hazelcast) (ns : list UserCodeNamespace) (secret : fetched Document) :=
  run (answer [map1] ns secret) (hazelcastConfig h) [].
(** What a run ends with. *)
Definition result : Type := list event * option (outcome (Hazelcast * fetched Document)).
Definition fetched_of (r : result) : fetched Document :=
  match r.2 with Some (Returned (_, x)) => x | _ => missing end.
Definition left_of (h : Hazelcast) (r : result) : Hazelcast :=
  match r.2 with Some (Returned (h', _)) => h' | _ => h end.
Definition doc_of (r : result) : Document := match fetched_of r with Found d => d | Failed _ => cfg_Hazelcast_zero end.

Lemma config_exec env h x : let r := run env (hazelcastConfig h) [] in
  match r.2 with Some (Returned _) => True | _ => False end -> fetched_of r = x ->
  exec (hazelcastConfig h) r.1 (Returned (left_of h r, x)).
Proof.
  intros r Hr <-. apply run_exec_2. unfold left_of, fetched_of, r in *.
  by destruct (run _ _ []) as [t [[[h' y]| |]|]].
Qed.

Definition props1 : gmap string string := {["k" := "v"; "hazelcast.persistence.auto.cluster.state" := "false"]}.
Definition hz2 : Hazelcast := hz1 false (Some props1).
Definition run2 := config_run hz2 [ucn1 "ns1"] missing.

Lemma run2_exec : exec (hazelcastConfig hz2) run2.1 (Returned (left_of hz2 run2, Found (doc_of run2))).
Proof. apply config_exec; vm_compute; [exact I|reflexivity]. Qed.

Lemma persisted_resources_witness : exists c, yaml_Unmarshal (doc_of run2) = Some c
  /\ exists l, ev_list KMap hz2 l ∈ run2.1.
Proof.
  destruct (persisted_resources_written hz2 run2.1 _ _ eq_refl run2_exec) as (c & Hc & _ & l & Hl & _).
  exists c. split; [exact Hc|]. exists l. exact Hl.
Defined.

Lemma default_properties_witness : exists c, yaml_Unmarshal (doc_of run2) = Some c
  /\ default ∅ (s_Properties (h_Spec (left_of hz2 run2))) !! "hazelcast.persistence.auto.cluster.state" = Some "true"
  /\ default ∅ (cfg_Hazelcast_Properties c) !! "k" = Some "v".
Proof.
  destruct (default_properties_enforced hz2 run2.1 _ _ eq_refl run2_exec) as (c & Hc & Hk).
  exists c. split; [exact Hc|]. split.
  - destruct (Hk "hazelcast.persistence.auto.cluster.state") as [_ E]. rewrite E. vm_compute. reflexivity.
  - destruct (Hk "k") as [E1 E2]. rewrite E1, E2. vm_compute. reflexivity.
Defined.

(** A persistent cluster whose secret has the directory of an older version,
    and the reconciliation that follows. *)
Definition hz3 : Hazelcast := hz1 true None.
Definition old_document : Document :=
  with_Persistence cfg_Hazelcast_zero (mk_cfg_Persistence (Some true) "/data/persistence" "/data/persistence/backup" 1 0 "" (Some true)).
Definition run3 := config_run hz3 [] (Found old_document).
Definition run4 := config_run hz3 [] (Found (doc_of run3)).

(** What the secret was read as. *)
Definition secret_read (e : event) : option (fetched Document) :=
  match e with Ev (GetConfigSecret _) x => Some x | _ => None end.

Lemma base_dir_witness : exists c1 c2, yaml_Unmarshal (doc_of run3) = Some c1 /\ yaml_Unmarshal (doc_of run4) = Some c2
  /\ directories (cfg_Hazelcast_Persistence c2) = directories (cfg_Hazelcast_Persistence c1).
Proof.
  refine (base_dir_stable hz3 hz3 run3.1 run4.1 _ _ _ _ eq_refl eq_refl eq_refl eq_refl _ _ _).
  - apply config_exec; vm_compute; [exact I|reflexivity].
  - apply config_exec; vm_compute; [exact I|reflexivity].
  - intros x Hx. apply (list_elem_of_fmap_2 secret_read) in Hx. revert Hx.
    assert (E : Forall (fun s => s = None \/ s = Some (Found (doc_of run3))) (secret_read <$> run4.1)).
    { vm_compute. each_event. }
    rewrite Forall_forall in E. intros [E'|E']%E; [done|]. by injection E'.
Defined.

(** A namespace with a reserved name, and a listing that fails. *)
Definition failing (o : op) (t : list event) : ans o :=
  match o as o return kube_ans o with
  | ListByHz (KDS CacheKind) _ _ => Failed (errors_New "timeout")
  | o => answer [map1] [ucn1 "enabled"] missing o t
  end.
Definition run5 := run failing (hazelcastConfig hz3) [].

Definition ucn_read (e : event) : option (list UserCodeNamespace) :=
  match e with Ev (ListByHz KUcn _ _) (Found l) => Some l | _ => None end.

Lemma reserved_namespace_witness : exists e, @Failed Document (errors_New "timeout") = Failed e.
Proof.
  refine (reserved_namespace_blocks hz3 run5.1 (left_of hz3 run5) (Failed (errors_New "timeout")) _ _ _).
  { apply config_exec; vm_compute; [exact I|reflexivity]. }
  { reflexivity. }
  intros l Hl. apply (list_elem_of_fmap_2 ucn_read) in Hl. exists (ucn1 "enabled").
  assert (E : Forall (fun s => s = None \/ s = Some [ucn1 "enabled"]) (ucn_read <$> run5.1)).
  { vm_compute. each_event. }
  rewrite Forall_forall in E. destruct (E _ Hl) as [E'|E']; [done|]. injection E' as ->.
  split; [by left|]. split; [reflexivity|by left].
Defined.

(** A service is added, and no member answers. *)
Definition last1 : HazelcastSpec := h_Spec (mkHazelcast "" "" ∅ false (mkHazelcastSpec (Some 3) "" "license" None None None "" None
  None None None "" None [] None "dev" None [] [] [] None None None None) (mkHazelcastStatus 0 "")).
Definition key : NamespacedName := ("ns", "hz").
Definition run6 := run (answer [] [] missing) (addExecutorServices key (detectNewExecutorServices hz2 last1)) [].

Lemma new_executor_services_witness : length run6.1 = 3%nat /\ all_added key hz2 last1 run6.1.
Proof.
  split; [vm_compute; reflexivity|].
  refine (proj1 (proj2 (new_executor_services_added key hz2 last1 run6.1 (Returned tt) _ _))).
  - split; repeat constructor; vm_compute; intuition discriminate.
  - apply run_exec_2. vm_compute. reflexivity.
Defined.

(** The bundle of a namespace and the URLs of the Jet engine. *)
Definition run7 := run (answer [] [ucn1 "ns1"] missing) (initContainerConfig hz2) [].

Lemma init_container_witness : exists d, dl_Bundle d = [] /\ downloads d = 1%nat.
Proof.
  assert (He : exists d, exec (initContainerConfig hz2) run7.1 (Returned (Found d))).
  { eexists. apply run_exec_2. vm_compute. reflexivity. }
  destruct He as [d He]. destruct (init_container_single_source hz2 run7.1 _ He) as [H _].
  destruct (H d eq_refl) as (d' & _ & Hb & Hn). exists d'. split; [exact Hb|exact Hn].
Defined.
End ConfigRuns.

(** A resource that passes validation. *)
Module AcceptedRuns.
Import HazelcastWitnesses.
#[local] Existing Instance json1.
#[local] Existing Instance HazelcastWitnesses.yaml1.

Lemma accepted_configuration_witness : exists cfg, hazelcastBasicConfig (HazelcastWitnesses.hz1 3) = Ret cfg.
Proof.
  apply (accepted_configuration_total cluster1 (HazelcastWitnesses.hz1 3) wan1_proper).
  - vm_compute. reflexivity.
  - repeat constructor. intros pvc [= <-]. discriminate.
Defined.
End AcceptedRuns.
