(* ===== verification/HzTypes.v ===== *)
(** * The Hazelcast resource as its controller sees it, and Kubernetes objects

    The fields of src/api/v1alpha1/hazelcast_types.go that only the builders
    of Kubernetes objects and the status use, with the accessors; the objects
    the controller writes, with the fields it sets or reads; and
    src/api/v1alpha1/hazelcastendpoint_types.go.

    Resource requirements, affinities and tolerations are passed on as they
    are: they are parameters ([PodTypes]).  A map whose nilness the code
    observes, since writing to a nil map panics, is an [option]. *)

From S2P Require Import Prelude Eff FieldValidation HazelcastTypes DataStructureTypes HazelcastValidation HazelcastConfig Kube.
From stdpp Require Import pretty.
#[local] Open Scope string_scope.
#[local] Open Scope list_scope.
#[local] Open Scope Z_scope.

(** ** Constants (src/internal/naming/constants.go) *)

Definition n_LicenseDataKey : string := "license-key".
Definition n_ServicePerPodCountAnnotation : string := "hazelcast.com/service-per-pod-count".
Definition n_ExposeExternallyAnnotation : string := "hazelcast.com/expose-externally-member-access".
Definition n_ConfigChecksumAnnotation : string := "hazelcast.com/current-hazelcast-config-forcing-restart-checksum".
Definition n_ServiceEndpointTypeLabelName : string := "hazelcast.com/hazelcast-service-endpoint-type".
Definition n_ServiceEndpointTypeDiscoveryLabelValue : string := "discovery".
Definition n_ServiceEndpointTypeMemberLabelValue : string := "member".
Definition n_ServiceEndpointTypeWANLabelValue : string := "wan".
Definition n_PodNameLabel : string := "statefulset.kubernetes.io/pod-name".
Definition n_ApplicationNameLabel : string := "app.kubernetes.io/name".
Definition n_ApplicationInstanceNameLabel : string := "app.kubernetes.io/instance".
Definition n_ApplicationManagedByLabel : string := "app.kubernetes.io/managed-by".
Definition n_OperatorName : string := "hazelcast-platform-operator".
Definition n_Hazelcast : string := "hazelcast".
Definition n_HazelcastPortName : string := "hazelcast".
Definition n_HazelcastStorageName : string := "hazelcast-storage".
Definition n_TmpDirVolName : string := "tmp-vol".
Definition n_PVCName : string := "persistence".
Definition n_CPPersistenceVolumeName : string := "cp-subsystem-persistence".
Definition n_UserCodeBucketVolumeName : string := "user-code-bucket".
Definition n_UCNVolumeName : string := "user-code-namespace".
Definition n_JetJobJarsVolumeName : string := "jet-job-jars-bucket".
Definition n_JetConfigMapNamePrefix : string := "jet-cm-".
Definition n_UserCodeURLVolumeName : string := "user-code-url".
Definition n_UserCodeConfigMapNamePrefix : string := "user-code-cm-".
Definition n_BackupDir : string := "/hot-backup".
Definition n_SidecarAgent : string := "sidecar-agent".
Definition n_InitContainer : string := "init-container".
Definition n_InitSuffix : string := "-init".
Definition n_InitConfigMap : string := "agent-config-volume".
Definition n_InitConfigDir : string := "/opt/data/config/".
Definition n_InitConfigFile : string := "config.yaml".
Definition n_MTLSCertSecretName : string := "hazelcast-agent-cert".
Definition n_MTLSCertPath : string := "/var/run/secrets/hazelcast".
Definition n_UserCodeURLPath : string := "/opt/hazelcast/userCode/urls".
Definition n_UserCodeConfigMapPath : string := "/opt/hazelcast/userCode/cm".
Definition n_DefaultHzPort : Z := 5701.
Definition n_DefaultAgentPort : Z := 8080.
Definition n_HazelcastRepo : string := "docker.io/hazelcast/hazelcast".
Definition n_HazelcastEERepo : string := "docker.io/hazelcast/hazelcast-enterprise".
Definition n_MemberPortName : string := "member-port".
Definition n_RestPortName : string := "rest-port".
Definition n_WanDefaultPortName : string := "wan-port".
Definition n_WanPortNamePrefix : string := "wan-".
Definition n_PhoneHomeEnabledEnv : string := "PHONE_HOME_ENABLED".
Definition ServiceTypeClusterIP : string := "ClusterIP".

(** The operator process: its environment, and whether it found itself on
    OpenShift when it started ([platform.GetType]). *)
Record Operator := mkOperator { op_Env : string -> option string; op_OpenShift : bool }.

(** [util.NodeDiscoveryEnabled], [util.IsPhoneHomeEnabled] *)
Definition op_NodeDiscoveryEnabled (o : Operator) : bool :=
  match op_Env o n_HazelcastNodeDiscoveryEnabledEnv with None => true | Some v => strb v "true" end.
Definition IsPhoneHomeEnabled (o : Operator) : bool :=
  match op_Env o n_PhoneHomeEnabledEnv with None => true | Some v => strb v "true" end.

(** ** FNV-1a *)

Fixpoint fnv32a_write (h : Z) (bs : list byte) : Z :=
  match bs with
  | [] => h
  | b :: bs => fnv32a_write (uint32 (Z.lxor h (Z_of_byte b) * 16777619)) bs
  end.
Definition FNV32a (txt : string) : Z := fnv32a_write 2166136261 (bytes_of_string txt).

Example FNV32a_default : FNV32a "default" = 2470140894.
Proof. vm_compute. reflexivity. Qed.

(** ** What is passed on to Kubernetes *)

Class PodTypes := {
  ResourceRequirements : Type;
  Affinity : Type;
  Toleration : Type;
  ResourceRequirements_zero : ResourceRequirements;
  ResourceRequirements_is_zero : ResourceRequirements -> bool;   (* reflect.DeepEqual with the zero value *)
}.

Inductive EnvVarSource :=
| SecretKeyRef (name key : string)
| FieldRef (apiVersion fieldPath : string)
| OtherSource (s : string).
Record EnvVar := mkEnvVar { ev_Name : string; ev_Value : string; ev_ValueFrom : option EnvVarSource }.

Record TopologySpreadConstraint := mkTopologySpreadConstraint {
  tsc_MaxSkew : Z;
  tsc_TopologyKey : string;
  tsc_WhenUnsatisfiable : string;
  tsc_LabelSelector : option (gmap string string);
}.

Section HzTypes.
Context `{QL : QuantityLib} `{PT : PodTypes}.

(** ** The rest of the specification *)

Record SchedulingConfiguration := mkSchedulingConfiguration {
  sc_Affinity : option Affinity;
  sc_Tolerations : list Toleration;
  sc_NodeSelector : gmap string string;
  sc_TopologySpreadConstraints : list TopologySpreadConstraint;
}.
Definition SchedulingConfiguration_is_zero (s : SchedulingConfiguration) : bool :=
  is_nil (sc_Affinity s) && Nat.eqb (length (sc_Tolerations s)) 0 && bool_decide (sc_NodeSelector s = ∅)
  && Nat.eqb (length (sc_TopologySpreadConstraints s)) 0.

Record AgentConfiguration := mkAgentConfiguration {
  ag_Repository : string;
  ag_Version : string;
  ag_Resources : option ResourceRequirements;
}.

Record HazelcastMore := mkHazelcastMore {
  x_Repository : string;
  x_Version : string;
  x_ImagePullPolicy : string;
  x_ImagePullSecrets : list string;
  x_Scheduling : option SchedulingConfiguration;
  x_Resources : option ResourceRequirements;
  x_Agent : AgentConfiguration;
  x_LoggingLevel : string;
  x_Annotations : option (gmap string string);    (* the stateful set is built with this very map *)
  x_Labels : gmap string string;
  x_ServiceAccountName : string;
  x_Env : list EnvVar;
  x_TriggerSequence : string;        (* of the user code deployment *)
}.

(** ** The rest of the status *)

Record RestoreStatus := mkRestoreStatus {
  rs_State : string;
  rs_RemainingValidationTime : Z;
  rs_RemainingDataLoadTime : Z;
}.
#[global] Instance RestoreStatus_eq_dec : EqDecision RestoreStatus.
Proof. solve_decision. Defined.
Definition RestoreStatus_zero : RestoreStatus := mkRestoreStatus "" 0 0.
Definition RestoreUnknown : string := "Unknown".
Definition RestoreFailed : string := "Failed".
Definition RestoreInProgress : string := "InProgress".
Definition RestoreSucceeded : string := "Succeeded".

Record HazelcastMemberStatus := mkHazelcastMemberStatus {
  ms_PodName : string;
  ms_Uid : string;
  ms_Ip : string;
  ms_Version : string;
  ms_State : string;
  ms_Master : bool;
  ms_Lite : bool;
  ms_OwnedPartitions : Z;
  ms_Ready : bool;
  ms_Message : string;
  ms_Reason : string;
  ms_RestartCount : Z;
}.
#[global] Instance HazelcastMemberStatus_eq_dec : EqDecision HazelcastMemberStatus.
Proof. solve_decision. Defined.
Definition NodeStatePassive : string := "PASSIVE".

Record StatusMore := mkStatusMore {
  ss_Selector : string;
  ss_ReadyMembers : string;
  ss_Message : string;
  ss_Members : list HazelcastMemberStatus;
  ss_Restore : RestoreStatus;
}.

Definition Phase_Running : string := "Running".
Definition Phase_Failed : string := "Failed".
Definition Phase_Pending : string := "Pending".
Definition Phase_Terminating : string := "Terminating".

(** ** The resource *)

Record HazelcastCR := mkHazelcastCR {
  cr_hz : Hazelcast;
  cr_more : HazelcastMore;
  cr_UID : string;
  cr_Finalizers : list string;
  cr_status : StatusMore;
}.

Implicit Types h : HazelcastCR.
Definition cr_spec h : HazelcastSpec := h_Spec (cr_hz h).
Definition cr_name h : string := h_Name (cr_hz h).
Definition cr_ns h : string := h_Namespace (cr_hz h).
Definition cr_key h : NamespacedName := (cr_ns h, cr_name h).
Definition cr_phase h : string := st_Phase (h_Status (cr_hz h)).

Definition set_hz h (z : Hazelcast) : HazelcastCR :=
  mkHazelcastCR z (cr_more h) (cr_UID h) (cr_Finalizers h) (cr_status h).
Definition set_more h (x : HazelcastMore) : HazelcastCR :=
  mkHazelcastCR (cr_hz h) x (cr_UID h) (cr_Finalizers h) (cr_status h).
Definition set_x_Annotations (x : HazelcastMore) (a : option (gmap string string)) : HazelcastMore :=
  mkHazelcastMore (x_Repository x) (x_Version x) (x_ImagePullPolicy x) (x_ImagePullSecrets x) (x_Scheduling x)
    (x_Resources x) (x_Agent x) (x_LoggingLevel x) a (x_Labels x) (x_ServiceAccountName x) (x_Env x) (x_TriggerSequence x).
Definition spec_annotations h : gmap string string := default ∅ (x_Annotations (cr_more h)).
Definition set_cr_Finalizers h (fs : list string) : HazelcastCR :=
  mkHazelcastCR (cr_hz h) (cr_more h) (cr_UID h) fs (cr_status h).
Definition set_cr_status h (z : HazelcastStatus) (s : StatusMore) : HazelcastCR :=
  let c := cr_hz h in
  mkHazelcastCR (mkHazelcast (h_Name c) (h_Namespace c) (h_Annotations c) (h_Deleting c) (h_Spec c) z)
    (cr_more h) (cr_UID h) (cr_Finalizers h) s.
Definition set_cr_Annotation h (key value : string) : HazelcastCR :=
  let c := cr_hz h in
  set_hz h (mkHazelcast (h_Name c) (h_Namespace c) (<[key := value]> (h_Annotations c)) (h_Deleting c) (h_Spec c) (h_Status c)).

(** ** Accessors of hazelcast_types.go *)

Definition ExposeExternally_IsEnabled (c : option ExposeExternallyConfiguration) : bool :=
  match c with
  | Some c => negb (strb (ee_Type c) "" && strb (ee_DiscoveryServiceType c) "" && strb (ee_MemberAccess c) "")
  | None => false
  end.
Definition ExposeExternally_IsSmart (c : option ExposeExternallyConfiguration) : bool :=
  match c with Some c => strb (ee_Type c) ExposeExternallyTypeSmart | None => false end.
Definition DiscoveryK8ServiceType (c : option ExposeExternallyConfiguration) : string :=
  match c with
  | None => ServiceTypeLoadBalancer
  | Some c => if strb (ee_DiscoveryServiceType c) ServiceTypeNodePort then ServiceTypeNodePort else ServiceTypeLoadBalancer
  end.
Definition MemberAccessLoadBalancer : string := "LoadBalancer".
Definition MemberAccessType (c : option ExposeExternallyConfiguration) : string :=
  match c with
  | None => MemberAccessNodePortExternalIP
  | Some c => if strb (ee_MemberAccess c) "" then MemberAccessNodePortExternalIP else ee_MemberAccess c
  end.
Definition MemberAccessServiceType (c : option ExposeExternallyConfiguration) : string :=
  match c with
  | None => ServiceTypeNodePort
  | Some c => if strb (ee_MemberAccess c) MemberAccessLoadBalancer then ServiceTypeLoadBalancer else ServiceTypeNodePort
  end.

Definition GetMemory (c : option JVMConfiguration) : option JVMMemoryConfiguration :=
  match c with Some c => jvm_Memory c | None => None end.
Definition GCConfig (c : option JVMConfiguration) : option JVMGCConfiguration :=
  match c with Some c => jvm_GC c | None => None end.
Definition GetArgs (c : option JVMConfiguration) : list string := match c with Some c => jvm_Args c | None => [] end.
Definition GetInitialRAMPercentage (c : option JVMMemoryConfiguration) : string :=
  match c with Some c => default "" (jm_InitialRAMPercentage c) | None => "" end.
Definition GetMinRAMPercentage (c : option JVMMemoryConfiguration) : string :=
  match c with Some c => default "" (jm_MinRAMPercentage c) | None => "" end.
Definition GetMaxRAMPercentage (c : option JVMMemoryConfiguration) : string :=
  match c with Some c => default "" (jm_MaxRAMPercentage c) | None => "" end.
Definition IsLoggingEnabled (c : option JVMGCConfiguration) : bool :=
  match c with Some c => default false (gc_Logging c) | None => false end.
Definition GetCollector (c : option JVMGCConfiguration) : string :=
  match c with Some c => default "" (gc_Collector c) | None => "" end.

Definition Jet_IsConfigMapEnabled (j : option JetEngineConfiguration) : bool :=
  match j with Some j => negb (Nat.eqb (length (j_ConfigMaps j)) 0) | None => false end.
Definition UserCodeDeployment_IsConfigMapEnabled (c : option UserCodeDeploymentConfig) : bool :=
  match c with Some c => negb (Nat.eqb (length (ud_ConfigMaps c)) 0) | None => false end.
Definition RestoreFromHotBackupResourceName (p : option HazelcastPersistenceConfiguration) : bool :=
  match p with
  | Some p => Persistence_IsRestoreEnabled p && negb (strb (rc_HotBackupResourceName (p_Restore p)) "")
  | None => false
  end.
Definition RestoreFromLocalBackup (p : option HazelcastPersistenceConfiguration) : bool :=
  match p with
  | Some p => Persistence_IsRestoreEnabled p && negb (is_nil (rc_LocalConfiguration (p_Restore p)))
  | None => false
  end.

Definition DockerImage h : string := (x_Repository (cr_more h) ++ ":" ++ x_Version (cr_more h))%string.
Definition ClusterScopedName h : string := (cr_name h ++ "-" ++ pretty (FNV32a (cr_ns h)))%string.
Definition AgentDockerImage h : string :=
  (ag_Repository (x_Agent (cr_more h)) ++ ":" ++ ag_Version (x_Agent (cr_more h)))%string.
End HzTypes.

(** Instances for concrete runs: amounts of memory, and names. *)
#[global] Instance pod_types_plain : PodTypes | 100 := {|
  ResourceRequirements := Z;
  Affinity := string;
  Toleration := string;
  ResourceRequirements_zero := 0;
  ResourceRequirements_is_zero := Z.eqb 0;
|}.
