(* ===== verification/HzObjects.v ===== *)
(** * The Kubernetes objects of a cluster

    The builders of src/internal/controller/hazelcast/hazelcast_resources.go:
    metadata, services and their ports, roles, volume claims, containers,
    volumes and their mounts, environment, annotations; without calls.  A
    nil dereference or an index out of range is [Panic]. *)

From S2P Require Import Prelude Eff FieldValidation GoPath GoNet HazelcastTypes DataStructureTypes HazelcastValidation ConfigTypes DataStructureConfig HazelcastConfig Kube ConfigSecret HzTypes.
From stdpp Require Import pretty.
#[local] Open Scope string_scope.
#[local] Open Scope list_scope.
#[local] Open Scope Z_scope.

(** ** Objects of the Kubernetes API, with the fields in use *)

Record ObjectMeta := mkObjectMeta {
  om_Name : string;
  om_Namespace : string;
  om_Labels : option (gmap string string);       (* nil: writing panics *)
  om_Annotations : gmap string string;
  om_Owners : list OwnerReference;
}.
Definition set_om_Labels (m : ObjectMeta) (l : option (gmap string string)) : ObjectMeta :=
  mkObjectMeta (om_Name m) (om_Namespace m) l (om_Annotations m) (om_Owners m).
Definition set_om_Annotations (m : ObjectMeta) (a : gmap string string) : ObjectMeta :=
  mkObjectMeta (om_Name m) (om_Namespace m) (om_Labels m) a (om_Owners m).
Definition set_om_Owners (m : ObjectMeta) (os : list OwnerReference) : ObjectMeta :=
  mkObjectMeta (om_Name m) (om_Namespace m) (om_Labels m) (om_Annotations m) os.
Definition om_key (m : ObjectMeta) : NamespacedName := (om_Namespace m, om_Name m).

(** [m[k] = v] and [delete(m, k)] on a map that may be nil. *)
Definition map_set (m : option (gmap string string)) (k v : string) : res (option (gmap string string)) :=
  match m with Some m => Ret (Some (<[k := v]> m)) | None => Panic end.
Definition map_delete (m : option (gmap string string)) (k : string) : option (gmap string string) :=
  match m with Some m => Some (delete k m) | None => None end.

Record PolicyRule := mkPolicyRule { pr_APIGroups : list string; pr_Resources : list string; pr_Verbs : list string }.
Record Subject := mkSubject { su_Kind : string; su_Name : string; su_Namespace : string }.
Record RoleRef := mkRoleRef { rr_APIGroup : string; rr_Kind : string; rr_Name : string }.

Inductive IntOrString := FromInt (z : Z) | FromString (s : string).
#[export] Instance IntOrString_eq_dec : EqDecision IntOrString.
Proof. solve_decision. Defined.

Record ServicePort := mkServicePort {
  sp_Name : string;
  sp_Protocol : string;
  sp_Port : Z;                 (* int32 *)
  sp_TargetPort : IntOrString;
  sp_AppProtocol : option string;
  sp_NodePort : Z;
}.
Definition set_NodePort (p : ServicePort) (np : Z) : ServicePort :=
  mkServicePort (sp_Name p) (sp_Protocol p) (sp_Port p) (sp_TargetPort p) (sp_AppProtocol p) np.

Record Ingress := mkIngress { in_IP : string; in_Hostname : string }.

Record Service := mkService {
  svc_Meta : ObjectMeta;
  svc_Selector : gmap string string;
  svc_Type : string;
  svc_ClusterIP : string;
  svc_Ports : list ServicePort;
  svc_PublishNotReadyAddresses : bool;
  svc_Ingress : list Ingress;             (* status *)
}.

Record ContainerPort := mkContainerPort { cp_ContainerPort : Z; cp_Name : string; cp_Protocol : string }.
Record VolumeMount := mkVolumeMount { vm_Name : string; vm_MountPath : string }.
Inductive VolumeSource :=
| SecretVolume (secretName : string) (defaultMode : Z)
| ConfigMapVolume (name : string) (defaultMode : Z)
| ClaimVolume (claimName : string)
| EmptyDir.
Record Volume := mkVolume { v_Name : string; v_Source : VolumeSource }.

Inductive ProbeHandler := HTTPGet (path : string) (port : Z) (scheme : string) | TCPSocket (port : Z).
Record Probe := mkProbe {
  pb_Handler : ProbeHandler;
  pb_InitialDelaySeconds : Z;
  pb_TimeoutSeconds : Z;
  pb_PeriodSeconds : Z;
  pb_SuccessThreshold : Z;
  pb_FailureThreshold : Z;
}.
(** [probe.HTTPGet.Path = path] *)
Definition set_pb_Path (p : option Probe) (path : string) : res (option Probe) :=
  match p with
  | Some p =>
      match pb_Handler p with
      | HTTPGet _ port scheme =>
          Ret (Some (mkProbe (HTTPGet path port scheme) (pb_InitialDelaySeconds p) (pb_TimeoutSeconds p)
                       (pb_PeriodSeconds p) (pb_SuccessThreshold p) (pb_FailureThreshold p)))
      | TCPSocket _ => Panic
      end
  | None => Panic
  end.

Record SecurityContext := mkSecurityContext {
  scx_RunAsNonRoot : option bool;
  scx_Privileged : option bool;
  scx_ReadOnlyRootFilesystem : option bool;
  scx_AllowPrivilegeEscalation : option bool;
  scx_Drop : list string;
}.
Record PodSecurityContext := mkPodSecurityContext {
  psc_FSGroup : option Z;
  psc_RunAsNonRoot : option bool;
  psc_RunAsUser : option Z;
}.

Section HzObjects.
Context `{QL : QuantityLib} `{PT : PodTypes} `{Y : YamlLib}.

Record Container := mkContainer {
  ct_Name : string;
  ct_Image : string;
  ct_Args : list string;
  ct_Env : list EnvVar;
  ct_Ports : list ContainerPort;
  ct_Resources : ResourceRequirements;
  ct_LivenessProbe : option Probe;
  ct_ReadinessProbe : option Probe;
  ct_VolumeMounts : list VolumeMount;
  ct_ImagePullPolicy : string;
  ct_SecurityContext : option SecurityContext;
  ct_TerminationMessagePath : string;
  ct_TerminationMessagePolicy : string;
}.

Record PersistentVolumeClaim := mkPersistentVolumeClaim {
  pvc_Meta : ObjectMeta;
  pvc_Modes : option (list string);
  pvc_Storage : Quantity;
  pvc_Class : option string;
}.

Record PodTemplate := mkPodTemplate {
  pt_Labels : gmap string string;
  pt_Annotations : option (gmap string string);
  pt_SharesSpec : bool;      (* ... and this map is [spec.annotations] of the resource in memory *)
  pt_ServiceAccountName : string;
  pt_SecurityContext : option PodSecurityContext;
  pt_Containers : list Container;
  pt_InitContainers : list Container;
  pt_ImagePullSecrets : list string;
  pt_Volumes : list Volume;
  pt_Affinity : option Affinity;
  pt_Tolerations : list Toleration;
  pt_NodeSelector : gmap string string;
  pt_TopologySpreadConstraints : list TopologySpreadConstraint;
  pt_TerminationGracePeriodSeconds : option Z;
}.

Record StatefulSet := mkStatefulSet {
  sts_Meta : ObjectMeta;
  sts_Selector : option (gmap string string);
  sts_ServiceName : string;
  sts_PodManagementPolicy : string;
  sts_Replicas : option Z;
  sts_Template : PodTemplate;
  sts_VolumeClaimTemplates : list PersistentVolumeClaim;
  sts_Generation : Z;
  (* status *)
  sts_StatusReplicas : Z;
  sts_ReadyReplicas : Z;
  sts_UpdatedReplicas : Z;
  sts_ObservedGeneration : Z;
}.

Implicit Types h : HazelcastCR.

(** ** Metadata *)

(** The labels of the user, with those of the operator written over them. *)
Definition labels h : gmap string string :=
  <[n_ApplicationManagedByLabel := n_OperatorName]>
    (<[n_ApplicationInstanceNameLabel := cr_name h]>
      (<[n_ApplicationNameLabel := n_Hazelcast]> (x_Labels (cr_more h)))).
(** [util.Labels] *)
Definition util_Labels h : gmap string string :=
  <[n_ApplicationManagedByLabel := n_OperatorName]>
    (<[n_ApplicationInstanceNameLabel := cr_name h]> {[n_ApplicationNameLabel := n_Hazelcast]}).
Definition meta_named h (name : string) : ObjectMeta :=
  mkObjectMeta name (cr_ns h) (Some (labels h)) (spec_annotations h) [].
Definition metadata h : ObjectMeta := meta_named h (cr_name h).
Definition serviceAccountName h : string :=
  if strb (x_ServiceAccountName (cr_more h)) "" then cr_name h else x_ServiceAccountName (cr_more h).

(** ** Rules *)

Definition cluster_role_rules : list PolicyRule := [mkPolicyRule [""] ["nodes"] ["get"]].
Definition role_rules h : list PolicyRule :=
  [mkPolicyRule [""] ["secrets"] ["get"]; mkPolicyRule [""] ["endpoints"; "pods"; "services"] ["get"; "list"]] ++
  (if Persistence_IsEnabled (s_Persistence (cr_spec h))
   then [mkPolicyRule ["apps"] ["statefulsets"] ["watch"; "list"]] else []).
Definition binding_subjects h : list Subject := [mkSubject "ServiceAccount" (serviceAccountName h) (cr_ns h)].

(** ** Services *)

Definition clientPort : ServicePort :=
  mkServicePort n_HazelcastPortName "TCP" n_DefaultHzPort (FromString n_Hazelcast) (Some "tcp") 0.
Definition int_port (name : string) (port : Z) : ServicePort :=
  mkServicePort name "TCP" port (FromInt port) (Some "tcp") 0.
Definition defaultWANPort : ServicePort := int_port n_WanDefaultPortName n_WanDefaultPort.
Definition hazelcastPort (isAddWANPort : bool) : list ServicePort :=
  [clientPort; int_port n_MemberPortName MemberServerSocketPort; int_port n_RestPortName RestServerSocketPort] ++
  (if isAddWANPort then [defaultWANPort] else []).
(** Without a WAN configuration, the discovery service has a WAN port. *)
Definition isAddWANPort h : bool :=
  match s_AdvancedNetwork (cr_spec h) with
  | None => true
  | Some a => Nat.eqb (length (an_WAN a)) 0
  end.

Definition serviceType h : string :=
  let e := s_ExposeExternally (cr_spec h) in
  if ExposeExternally_IsEnabled e then DiscoveryK8ServiceType e else ServiceTypeClusterIP.

(** [fmt.Sprintf("%s%s-%d", n.WanPortNamePrefix, w.Name, i)] *)
Definition wan_port_name (w : WANConfig) (i : Z) : string := (n_WanPortNamePrefix ++ w_Name w ++ "-" ++ pretty i)%string.
(** [uint] counts: the loop runs [PortCount] times. *)
Definition wan_service_ports (w : WANConfig) : list ServicePort :=
  (fun i => mkServicePort (wan_port_name w i) "TCP" (int32 (uint64 (w_Port w + i)))
              (FromInt (int32 (uint64 (w_Port w + i)))) (Some "tcp") 0) <$> seqZ 0 (w_PortCount w).

Definition servicePerPodName (i : Z) h : string := (cr_name h ++ "-" ++ pretty i)%string.
Definition servicePerPodSelector (i : Z) h : gmap string string := <[n_PodNameLabel := servicePerPodName i h]> (util_Labels h).
Definition servicePerPodLabels h : gmap string string := <[n_ServicePerPodLabelName := n_LabelValueTrue]> (labels h).

(** [util.EnrichServiceNodePorts]: a new port takes the node port of the last
    existing port of its name. *)
Definition EnrichServiceNodePorts (newPorts existing : list ServicePort) : list ServicePort :=
  let existingMap : gmap string ServicePort := foldl (fun m p => <[sp_Name p := p]> m) ∅ existing in
  (fun p => match existingMap !! sp_Name p with Some val => set_NodePort p (sp_NodePort val) | None => p end) <$> newPorts.

(** ** Volume claims *)

Definition claim (m : ObjectMeta) (c : option PvcConfiguration) : res PersistentVolumeClaim :=
  bind_res (deref c) (fun c =>
  bind_res (deref (pvc_RequestStorage c)) (fun q =>
  Ret (mkPersistentVolumeClaim m (pvc_AccessModes c) q (pvc_StorageClassName c)))).

Definition persistentVolumeClaims h (pvcName : string) : res (list PersistentVolumeClaim) :=
  let s := cr_spec h in
  bind_res (match s_Persistence s with
            | Some p => bind_res (claim (meta_named h pvcName) (p_PVC p)) (fun c => Ret [c])
            | None => Ret []
            end) (fun a =>
  bind_res (match s_CPSubsystem s with
            | Some c => if CPSubsystem_IsPVC (Some c)
                        then bind_res (claim (meta_named h n_CPPersistenceVolumeName) (cp_PVC c)) (fun c => Ret [c])
                        else Ret []
            | None => Ret []
            end) (fun b =>
  Ret (a ++ b))).

Fixpoint local_claims h (l : list LocalDeviceConfig) : res (list PersistentVolumeClaim) :=
  match l with
  | [] => Ret []
  | d :: l =>
      bind_res (claim (set_om_Annotations (meta_named h (ld_Name d)) ∅) (ld_PVC d)) (fun c =>
      bind_res (local_claims h l) (fun cs => Ret (c :: cs)))
  end.
Definition localDevicePersistentVolumeClaim h : res (list PersistentVolumeClaim) :=
  local_claims h (s_LocalDevices (cr_spec h)).

(** ** Security contexts *)

Definition podSecurityContext (o : Operator) : PodSecurityContext :=
  if op_OpenShift o then mkPodSecurityContext None (Some true) None
  else mkPodSecurityContext (Some 65534) (Some true) (Some 65534).
Definition containerSecurityContext : SecurityContext :=
  mkSecurityContext (Some true) (Some false) (Some true) (Some false) ["ALL"].

(** ** Volumes and mounts *)

Definition persistenceVolumeMount (pvcName : string) : VolumeMount := mkVolumeMount pvcName n_PersistenceMountPath.
Definition ucnBucketVolumeMount : VolumeMount := mkVolumeMount n_UCNVolumeName n_UCNBucketPath.
Definition ucdBucketAgentVolumeMount : VolumeMount := mkVolumeMount n_UserCodeBucketVolumeName n_UserCodeBucketPath.
Definition jetJobJarsVolumeMount : VolumeMount := mkVolumeMount n_JetJobJarsVolumeName n_JetJobJarsPath.
Definition tmpDirVolumeMount : VolumeMount := mkVolumeMount n_TmpDirVolName "/tmp".
Definition ucdURLAgentVolumeMount : VolumeMount := mkVolumeMount n_UserCodeURLVolumeName n_UserCodeURLPath.

Definition emptyDirVolume (name : string) : Volume := mkVolume name EmptyDir.
Definition tlsVolume : Volume := mkVolume n_MTLSCertSecretName (SecretVolume n_MTLSCertSecretName 420).
Definition jetConfigMapName (cm : string) : string := (n_JetConfigMapNamePrefix ++ cm)%string.
Definition ucdConfigMapName h (cm : string) : string :=
  (n_UserCodeConfigMapNamePrefix ++ cm ++ x_TriggerSequence (cr_more h))%string.
Definition configMapVolumes (nameFn : string -> string) (cms : list string) : list Volume :=
  (fun cm => mkVolume (nameFn cm) (ConfigMapVolume cm 420)) <$> cms.
Definition configMapVolumeMounts (nameFn : string -> string) (cms : list string) (mountPath : string) : list VolumeMount :=
  (fun cm => mkVolumeMount (nameFn cm) (path_Join [mountPath; cm])) <$> cms.
Definition localDeviceVolumeMounts h : list VolumeMount :=
  (fun ld => mkVolumeMount (ld_Name ld) (path_Join [n_TieredStorageBaseDir; ld_Name ld])) <$> s_LocalDevices (cr_spec h).

Definition ucd_ConfigMaps h : list string :=
  match s_DeprecatedUserCodeDeployment (cr_spec h) with Some u => ud_ConfigMaps u | None => [] end.
Definition jet_ConfigMaps h : list string :=
  match s_JetEngineConfiguration (cr_spec h) with Some j => j_ConfigMaps j | None => [] end.

Definition volumes h : list Volume :=
  let s := cr_spec h in
  [mkVolume n_HazelcastStorageName (SecretVolume (cr_name h) 420);
   mkVolume n_InitConfigMap (ConfigMapVolume (cr_name h ++ n_InitSuffix)%string 420);
   emptyDirVolume n_UserCodeBucketVolumeName;
   emptyDirVolume n_UserCodeURLVolumeName;
   emptyDirVolume n_JetJobJarsVolumeName;
   emptyDirVolume n_TmpDirVolName;
   tlsVolume] ++
  (if UserCodeNamespaces_IsEnabled (s_UserCodeNamespaces s) then [emptyDirVolume n_UCNVolumeName] else []) ++
  (if UserCodeDeployment_IsConfigMapEnabled (s_DeprecatedUserCodeDeployment s)
   then configMapVolumes (ucdConfigMapName h) (ucd_ConfigMaps h) else []) ++
  (if Jet_IsConfigMapEnabled (s_JetEngineConfiguration s)
   then configMapVolumes jetConfigMapName (jet_ConfigMaps h) else []).

Definition sidecarVolumeMounts h (pvcName : string) : list VolumeMount :=
  let s := cr_spec h in
  [mkVolumeMount n_MTLSCertSecretName n_MTLSCertPath; jetJobJarsVolumeMount; ucdBucketAgentVolumeMount] ++
  (if UserCodeNamespaces_IsEnabled (s_UserCodeNamespaces s) then [ucnBucketVolumeMount] else []) ++
  (if Persistence_IsEnabled (s_Persistence s) then [persistenceVolumeMount pvcName] else []).

Definition hzContainerVolumeMounts h (pvcName : string) : list VolumeMount :=
  let s := cr_spec h in
  [mkVolumeMount n_HazelcastStorageName n_HazelcastMountPath; ucdBucketAgentVolumeMount; ucdURLAgentVolumeMount;
   jetJobJarsVolumeMount; tmpDirVolumeMount] ++
  (if Persistence_IsEnabled (s_Persistence s) then [mkVolumeMount pvcName n_PersistenceMountPath] else []) ++
  (if UserCodeNamespaces_IsEnabled (s_UserCodeNamespaces s) then [ucnBucketVolumeMount] else []) ++
  (if CPSubsystem_IsEnabled (s_CPSubsystem s) && CPSubsystem_IsPVC (s_CPSubsystem s)
   then [mkVolumeMount n_CPPersistenceVolumeName n_CPBaseDir] else []) ++
  (if HazelcastSpec_IsTieredStorageEnabled s then localDeviceVolumeMounts h else []) ++
  (if UserCodeDeployment_IsConfigMapEnabled (s_DeprecatedUserCodeDeployment s)
   then configMapVolumeMounts (ucdConfigMapName h) (ucd_ConfigMaps h) n_UserCodeConfigMapPath else []) ++
  (if Jet_IsConfigMapEnabled (s_JetEngineConfiguration s)
   then configMapVolumeMounts jetConfigMapName (jet_ConfigMaps h) n_JetJobJarsPath else []).
End HzObjects.
