(* ===== verification/HzStatefulSet.v ===== *)
(** * The stateful set of a cluster

    [reconcileStatefulset] of
    src/internal/controller/hazelcast/hazelcast_resources.go without its
    calls: the object that is created, and the function that brings an
    existing one up to date.  [semver.Compare] of golang.org/x/mod and the
    checksum of a YAML document are parameters. *)

From S2P Require Import Prelude Eff FieldValidation GoPath GoNet HazelcastTypes DataStructureTypes HazelcastValidation ConfigTypes DataStructureConfig HazelcastConfig Kube ConfigSecret HzTypes HzObjects.
From stdpp Require Import pretty.
#[local] Open Scope string_scope.
#[local] Open Scope list_scope.
#[local] Open Scope Z_scope.

Class HzLib `{YamlLib} := {
  semver_Compare : string -> string -> Z;
  config_checksum : Document -> string;    (* fmt.Sprint(crc32.ChecksumIEEE(document)) *)
}.

(** For concrete runs: versions compared by their texts, a constant checksum. *)
#[global] Instance hz_lib_plain `{YamlLib} : HzLib | 100 := {|
  semver_Compare a b := if decide (a = b) then 0 else if String.ltb b a then 1 else -1;
  config_checksum _ := "1234567890";
|}.

(** ** The options of the JVM *)

Definition DefaultJavaOptions : list (string * string) := [("-Dhazelcast.stale.join.prevention.duration.seconds", "5")].

(** [strings.Split(a, "=")[0]] *)
Fixpoint before_eq (s : string) : string :=
  match s with
  | "" => ""
  | String c s => if decide (c = "="%char) then "" else String c (before_eq s)
  end.
Definition arg_key (a : string) : string := TrimSpace (before_eq a).
Definition default_option (kv : string * string) : string := (kv.1 ++ "=" ++ kv.2)%string.
Definition mergeJVMArgs (args : list string) : list string :=
  let configuredArgs : gset string := list_to_set (arg_key <$> args) in
  args ++ (default_option <$> filter (fun kv => kv.1 ∉ configuredArgs) DefaultJavaOptions).

(** An option that is left out when its value is empty. *)
Definition ram_option (name v : string) : string := if strb v "" then "" else (" " ++ name ++ "=" ++ v)%string.

Section HzStatefulSet.
Context `{QL : QuantityLib} `{PT : PodTypes} `{Y : YamlLib} `{HL : !HzLib}.
Implicit Types h : HazelcastCR.

Definition jvm_args h : list string :=
  match GetArgs (s_JVM (cr_spec h)) with
  | [] => default_option <$> DefaultJavaOptions
  | args => mergeJVMArgs args
  end.
Definition collector_option (v : string) : string :=
  if strb v GCTypeSerial then " -XX:+UseSerialGC"
  else if strb v GCTypeParallel then " -XX:+UseParallelGC"
  else if strb v GCTypeG1 then " -XX:+UseG1GC"
  else "".
Definition javaOPTS h : string :=
  let jvm := s_JVM (cr_spec h) in
  let jvmMemory := GetMemory jvm in
  let jvmGC := GCConfig jvm in
  ("-Dhazelcast.config=" ++ path_Join [n_HazelcastMountPath; "hazelcast.yaml"] ++
   " -XX:+UseContainerSupport" ++
   ram_option "-XX:InitialRAMPercentage" (GetInitialRAMPercentage jvmMemory) ++
   ram_option "-XX:MinRAMPercentage" (GetMinRAMPercentage jvmMemory) ++
   ram_option "-XX:MaxRAMPercentage" (GetMaxRAMPercentage jvmMemory) ++
   String.concat "" ((fun a => " " ++ a)%string <$> jvm_args h) ++
   (if IsLoggingEnabled jvmGC then " -verbose:gc" else "") ++
   collector_option (GetCollector jvmGC))%string.

Definition javaClassPath h : string :=
  String.concat ":" ([path_Join [n_UserCodeBucketPath; "*"]; path_Join [n_UserCodeURLPath; "*"]] ++
    ((fun cm => path_Join [n_UserCodeConfigMapPath; cm; "*"]) <$> ucd_ConfigMaps h)).

(** ** The environment of the container *)

Definition plain_env (name value : string) : EnvVar := mkEnvVar name value None.
Definition FormatBool (b : bool) : string := if b then "true" else "false".
Definition logging_pattern : string :=
  ("{" ++ quoted "time" ++ ":" ++ quoted "%date{ISO8601}" ++ ", " ++ quoted "level" ++ ": " ++ quoted "%level" ++ ", " ++
   quoted "threadName" ++ ": " ++ quoted "%threadName" ++ ", " ++ quoted "logger" ++ ": " ++ quoted "%logger{36}" ++ ", " ++
   quoted "msg" ++ ": " ++ quoted "%enc{%m %xEx}{JSON}" ++ "}%n")%string.
Definition hzLicenseKey : string := "HZ_LICENSEKEY".
Definition JavaOpts : string := "JAVA_OPTS".

Definition container_env (o : Operator) h : list EnvVar :=
  let license := HazelcastSpec_GetLicenseKeySecretName (cr_spec h) in
  [plain_env JavaOpts (javaOPTS h);
   plain_env "HZ_PARDOT_ID" "operator";
   plain_env "HZ_PHONE_HOME_ENABLED" (FormatBool (IsPhoneHomeEnabled o));
   plain_env "LOGGING_PATTERN" logging_pattern;
   plain_env "LOGGING_LEVEL" (x_LoggingLevel (cr_more h));
   plain_env "CLASSPATH" (javaClassPath h)] ++
  (if strb license "" then [] else [mkEnvVar hzLicenseKey "" (Some (SecretKeyRef license n_LicenseDataKey))]) ++
  x_Env (cr_more h).

(** ** Ports of the containers *)

Definition container_port (port : Z) (name : string) : ContainerPort := mkContainerPort port name "TCP".
Definition wan_container_ports (w : WANConfig) : list ContainerPort :=
  (fun i => container_port (int32 (int64 (int64 (w_Port w) + i))) (wan_port_name w i)) <$> seqZ 0 (int64 (w_PortCount w)).
Definition hazelcastContainerWanRepPorts h : list ContainerPort :=
  match s_AdvancedNetwork (cr_spec h) with
  | Some {| an_WAN := (_ :: _) as l |} => mjoin (wan_container_ports <$> l)
  | _ => [container_port n_WanDefaultPort n_WanDefaultPortName]
  end.
Definition hazelcastContainerPorts h : list ContainerPort :=
  [container_port n_DefaultHzPort n_Hazelcast; container_port MemberServerSocketPort n_MemberPortName;
   container_port RestServerSocketPort n_RestPortName] ++ hazelcastContainerWanRepPorts h.

(** ** Containers *)

Definition http_probe (path : string) (port : Z) : Probe := mkProbe (HTTPGet path port "HTTP") 0 10 10 1 10.

Definition sidecarContainer h : Container :=
  mkContainer n_SidecarAgent (AgentDockerImage h) ["sidecar"]
    [plain_env "BACKUP_CA" (path_Join [n_MTLSCertPath; "ca.crt"]);
     plain_env "BACKUP_CERT" (path_Join [n_MTLSCertPath; "tls.crt"]);
     plain_env "BACKUP_KEY" (path_Join [n_MTLSCertPath; "tls.key"])]
    [container_port n_DefaultAgentPort n_SidecarAgent] ResourceRequirements_zero
    (Some (http_probe "/health" 8080)) (Some (http_probe "/health" 8080)) [] "" (Some containerSecurityContext) "" "".

Definition initContainer h (pvcName : string) : Container :=
  let s := cr_spec h in
  mkContainer n_InitContainer (AgentDockerImage h) ["execute-multiple-commands"]
    [plain_env "CONFIG_FILE" (n_InitConfigDir ++ n_InitConfigFile)%string;
     mkEnvVar "HOSTNAME" "" (Some (FieldRef "v1" "metadata.name"))]
    [] ResourceRequirements_zero None None
    ([mkVolumeMount n_InitConfigMap n_InitConfigDir] ++
     (if UserCodeDeployment_IsBucketEnabled (s_DeprecatedUserCodeDeployment s)
         || UserCodeDeployment_IsRemoteURLsEnabled (s_DeprecatedUserCodeDeployment s)
      then [ucdBucketAgentVolumeMount] else []) ++
     (if Jet_IsBucketEnabled (s_JetEngineConfiguration s) || Jet_IsRemoteURLsEnabled (s_JetEngineConfiguration s)
      then [jetJobJarsVolumeMount] else []) ++
     (if UserCodeNamespaces_IsEnabled (s_UserCodeNamespaces s) then [ucnBucketVolumeMount] else []) ++
     (if Persistence_IsEnabled (s_Persistence s) then [persistenceVolumeMount pvcName] else []))
    "IfNotPresent" (Some containerSecurityContext) "/dev/termination-log" "File".

(** ** Scheduling *)

Definition spread_over h (key : string) : TopologySpreadConstraint :=
  mkTopologySpreadConstraint 1 key "ScheduleAnyway" (Some (util_Labels h)).
Definition appendHAModeTopologySpreadConstraints h : list TopologySpreadConstraint :=
  (match x_Scheduling (cr_more h) with Some s => sc_TopologySpreadConstraints s | None => [] end) ++
  (let mode := s_HighAvailabilityMode (cr_spec h) in
   if strb mode HighAvailabilityNodeMode then [spread_over h "kubernetes.io/hostname"]
   else if strb mode HighAvailabilityZoneMode then [spread_over h "topology.kubernetes.io/zone"]
   else []).

(** ** Annotations *)

(** The annotations of the user win over the old ones; the number of services
    per pod is written over both. *)
Definition statefulSetAnnotations (old : gmap string string) h : res (gmap string string) :=
  let annotations := spec_annotations h ∪ old in
  if negb (ExposeExternally_IsSmart (s_ExposeExternally (cr_spec h))) then Ret annotations
  else bind_res (deref (s_ClusterSize (cr_spec h))) (fun size =>
       Ret (<[n_ServicePerPodCountAnnotation := pretty size]> annotations)).

(** Changes outside of these sections leave the running pods as they are. *)
Definition configForcingRestart (hz : cfg_Hazelcast) : cfg_Hazelcast :=
  let net := cfg_Hazelcast_AdvancedNetwork hz in
  mk_cfg_Hazelcast (cfg_Hazelcast_Jet hz) (cfg_Hazelcast_ClusterName hz) cfg_Persistence_zero None None None None
    (cfg_Hazelcast_UserCodeDeployment hz) None (cfg_Hazelcast_Properties hz) None None None None None
    cfg_PartitionGroup_zero cfg_NativeMemory_zero
    (mk_cfg_AdvancedNetwork false cfg_Join_zero
       (mk_cfg_MemberServerSocketEndpointConfig cfg_PortAndPortCount_zero cfg_Interfaces_zero
          (cfg_MemberServerSocketEndpointConfig_SSL (cfg_AdvancedNetwork_MemberServerSocketEndpointConfig net)))
       (mk_cfg_ClientServerSocketEndpointConfig cfg_PortAndPortCount_zero cfg_Interfaces_zero
          (cfg_ClientServerSocketEndpointConfig_SSL (cfg_AdvancedNetwork_ClientServerSocketEndpointConfig net)))
       cfg_RestServerSocketEndpointConfig_zero None)
    cfg_ManagementCenterConfig_zero cfg_Serialization_zero cfg_SQL_zero None (cfg_Hazelcast_CPSubsystem hz)
    cfg_UserCodeNamespaces_zero.

Definition podAnnotations (annotations : option (gmap string string)) h : res (gmap string string) :=
  let annotations := default ∅ annotations in
  let e := s_ExposeExternally (cr_spec h) in
  let annotations := if ExposeExternally_IsSmart e then <[n_ExposeExternallyAnnotation := MemberAccessType e]> annotations
                     else delete n_ExposeExternallyAnnotation annotations in
  bind_res (hazelcastBasicConfig (cr_hz h)) (fun cfg =>
  match yaml_Marshal (configForcingRestart cfg) with
  | None => Panic
  | Some doc => Ret (<[n_ConfigChecksumAnnotation := config_checksum doc]> annotations)
  end).

(** ** The object *)

Definition hazelcastContainer : Container :=
  mkContainer n_Hazelcast "" [] [] [] ResourceRequirements_zero
    (Some (http_probe "/hazelcast/health/node-state" RestServerSocketPort))
    (Some (http_probe "/hazelcast/health/node-state" RestServerSocketPort)) [] "" (Some containerSecurityContext) "" "".

Definition sts_pvcName h : res string :=
  match s_Persistence (cr_spec h) with
  | Some p =>
      if RestoreFromLocalBackup (Some p)
      then bind_res (deref (rc_LocalConfiguration (p_Restore p))) (fun c => Ret (rl_PVCNamePrefix c))
      else Ret n_PVCName
  | None => Ret n_PVCName
  end.

(** What [reconcileStatefulset] builds before it looks at the server. *)
Definition new_statefulset (o : Operator) h : res StatefulSet :=
  bind_res (sts_pvcName h) (fun pvcName =>
  bind_res (persistentVolumeClaims h pvcName) (fun claims =>
  bind_res (if HazelcastSpec_IsTieredStorageEnabled (cr_spec h) then localDevicePersistentVolumeClaim h else Ret [])
    (fun devices =>
  Ret (mkStatefulSet (metadata h) (Some (util_Labels h)) (cr_name h) "Parallel" None
    (mkPodTemplate (labels h) (x_Annotations (cr_more h)) (negb (is_nil (x_Annotations (cr_more h)))) (serviceAccountName h) (Some (podSecurityContext o))
       [hazelcastContainer; sidecarContainer h] [] [] [] None [] ∅ [] (Some 600))
    (claims ++ devices) 0 0 0 0 0)))).

Definition update_readiness h (p : option Probe) : res (option Probe) :=
  if semver_Compare ("v" ++ x_Version (cr_more h)) "v5.2.0" =? 1 then
    set_pb_Path p "/hazelcast/health/ready"
  else Ret p.

(** The container of the member, and that of the agent: what they have is
    kept where the resource does not say otherwise. *)
Definition update_hazelcast_container (o : Operator) h (pvcName : string) (c : Container) : res Container :=
  bind_res (update_readiness h (ct_ReadinessProbe c)) (fun readiness =>
  Ret (mkContainer (ct_Name c) (DockerImage h) (ct_Args c) (container_env o h) (hazelcastContainerPorts h)
    (match x_Resources (cr_more h) with Some r => r | None => ct_Resources c end)
    (ct_LivenessProbe c) readiness (hzContainerVolumeMounts h pvcName) (x_ImagePullPolicy (cr_more h))
    (ct_SecurityContext c) (ct_TerminationMessagePath c) (ct_TerminationMessagePolicy c))).
Definition update_sidecar_container h (pvcName : string) (c : Container) : Container :=
  mkContainer (ct_Name c) (ct_Image c) (ct_Args c) (ct_Env c) (ct_Ports c)
    (match ag_Resources (x_Agent (cr_more h)) with Some r => r | None => ct_Resources c end)
    (ct_LivenessProbe c) (ct_ReadinessProbe c) (sidecarVolumeMounts h pvcName) (ct_ImagePullPolicy c)
    (ct_SecurityContext c) (ct_TerminationMessagePath c) (ct_TerminationMessagePolicy c).

Definition update_containers (o : Operator) h (pvcName : string) (cs : list Container) : res (list Container) :=
  match cs with
  | c0 :: cs =>
      bind_res (update_hazelcast_container o h pvcName c0) (fun c0 =>
      match cs with
      | c1 :: cs => Ret (c0 :: update_sidecar_container h pvcName c1 :: cs)
      | [] => Panic
      end)
  | [] => Panic
  end.

(** The claims name the volume: they cannot be changed. *)
Definition claimed_pvcName (pvcName : string) (sts : StatefulSet) : string :=
  match sts_VolumeClaimTemplates sts with
  | c :: _ => om_Name (pvc_Meta c)
  | [] => pvcName
  end.

(** The function given to [util.CreateOrUpdateForce], and the resource after
    it: the annotations of a template that shares the map of the resource are
    written there too. *)
Definition mutate_statefulset (o : Operator) h (pvcName : string) (sts : StatefulSet) : res (HazelcastCR * StatefulSet) :=
  let pvcName := claimed_pvcName pvcName sts in
  let t := sts_Template sts in
  bind_res (statefulSetAnnotations (om_Annotations (sts_Meta sts)) h) (fun annotations =>
  bind_res (podAnnotations (pt_Annotations t) h) (fun pod_annotations =>
  bind_res (update_containers o h pvcName (pt_Containers t)) (fun containers =>
  let '(affinity, tolerations, selector) :=
    match x_Scheduling (cr_more h) with
    | Some s => (sc_Affinity s, sc_Tolerations s, sc_NodeSelector s)
    | None => (pt_Affinity t, pt_Tolerations t, pt_NodeSelector t)
    end in
  let h' := if pt_SharesSpec t then set_more h (set_x_Annotations (cr_more h) (Some pod_annotations)) else h in
  Ret (h', mkStatefulSet (set_om_Annotations (sts_Meta sts) annotations) (sts_Selector sts) (sts_ServiceName sts)
    (sts_PodManagementPolicy sts) (s_ClusterSize (cr_spec h))
    (mkPodTemplate (pt_Labels t) (Some pod_annotations) (pt_SharesSpec t) (serviceAccountName h) (pt_SecurityContext t)
       containers [initContainer h pvcName] (x_ImagePullSecrets (cr_more h)) (volumes h) affinity tolerations selector
       (appendHAModeTopologySpreadConstraints h) (pt_TerminationGracePeriodSeconds t))
    (sts_VolumeClaimTemplates sts) (sts_Generation sts) (sts_StatusReplicas sts) (sts_ReadyReplicas sts)
    (sts_UpdatedReplicas sts) (sts_ObservedGeneration sts))))).
End HzStatefulSet.
