(* ===== verification/HzStatefulSetFacts.v ===== *)
(** * Theorems about the objects of a cluster

    Every mount of a pod has its volume; every port of a service leads to a
    port of a container; what the user configures of the JVM is kept. *)

From S2P Require Import Prelude Eff FieldValidation GoPath GoNet HazelcastTypes DataStructureTypes HazelcastValidation HazelcastValidationFacts ConfigTypes DataStructureConfig HazelcastConfig Kube ConfigSecret HzTypes HzObjects HzStatefulSet.
From stdpp Require Import pretty.
#[local] Open Scope string_scope.
#[local] Open Scope list_scope.
#[local] Open Scope Z_scope.

Lemma bind_res_Ret {A B} (r : res A) (k : A -> res B) b :
  bind_res r k = Ret b -> exists a, r = Ret a /\ k a = Ret b.
Proof. destruct r as [a| |]; simpl; [eauto|done..]. Qed.

(** Take the steps of a computation that returned apart. *)
Ltac res_inv :=
  repeat match goal with
    | H : bind_res _ _ = Ret _ |- _ => apply bind_res_Ret in H as (? & ? & H)
    | H : Ret _ = Ret _ |- _ => injection H as H; subst
    end.

Section Facts.
Context `{QL : QuantityLib} `{PT : PodTypes} `{Y : YamlLib} `{HL : !HzLib}.
Implicit Types h : HazelcastCR.

(** ** Volumes *)

Definition pvc_Name (c : PersistentVolumeClaim) : string := om_Name (pvc_Meta c).
(** The names a mount of the pods may have. *)
Definition volume_names (s : StatefulSet) : list string :=
  (v_Name <$> pt_Volumes (sts_Template s)) ++ (pvc_Name <$> sts_VolumeClaimTemplates s).
Definition mounted (s : StatefulSet) (c : Container) : Prop :=
  forall m, m ∈ ct_VolumeMounts c -> vm_Name m ∈ volume_names s.

(** The claims a resource needs: the one the data is kept on is the first. *)
Definition claim_names (s : StatefulSet) : list string := pvc_Name <$> sts_VolumeClaimTemplates s.
Record claims_cover h (s : StatefulSet) : Prop := {
  cover_persistence : Persistence_IsEnabled (s_Persistence (cr_spec h)) = true -> sts_VolumeClaimTemplates s <> [];
  cover_cp : CPSubsystem_IsPVC (s_CPSubsystem (cr_spec h)) = true -> n_CPPersistenceVolumeName ∈ claim_names s;
  cover_devices : forall d, d ∈ s_LocalDevices (cr_spec h) -> ld_Name d ∈ claim_names s;
}.

Lemma claim_name m c x : claim m c = Ret x -> pvc_Meta x = m.
Proof. unfold claim. intros H. by res_inv. Qed.

Lemma local_claims_names h l cs : local_claims h l = Ret cs -> pvc_Name <$> cs = ld_Name <$> l.
Proof.
  revert cs. induction l as [|d l IH]; intros cs H; simpl in H; [by injection H as <-|].
  apply bind_res_Ret in H as (c & Hc & H). apply bind_res_Ret in H as (cs' & Hcs & [= <-]).
  rewrite !fmap_cons, (IH _ Hcs). unfold pvc_Name. by apply claim_name in Hc as ->.
Qed.

(** A new stateful set claims what its resource needs. *)
Lemma new_claims_cover o h s : new_statefulset o h = Ret s -> claims_cover h s.
Proof.
  unfold new_statefulset. intros H. apply bind_res_Ret in H as (pvcName & _ & H).
  apply bind_res_Ret in H as (claims & Hc & H). apply bind_res_Ret in H as (devices & Hd & [= <-]).
  unfold persistentVolumeClaims in Hc. apply bind_res_Ret in Hc as (a & Ha & Hc).
  apply bind_res_Ret in Hc as (b & Hb & [= <-]). constructor; unfold claim_names; simpl.
  - intros Hp. destruct (s_Persistence (cr_spec h)) as [p|]; [|done].
    by apply bind_res_Ret in Ha as (c & _ & [= <-]).
  - intros Hp. destruct (s_CPSubsystem (cr_spec h)) as [c|]; [|done]. rewrite Hp in Hb.
    apply bind_res_Ret in Hb as (x & Hx & [= <-]). apply claim_name in Hx.
    rewrite !fmap_app, fmap_cons. unfold pvc_Name at 2. rewrite Hx. simpl. set_solver.
  - intros d Hin. unfold HazelcastSpec_IsTieredStorageEnabled in Hd.
    destruct (s_LocalDevices (cr_spec h)) as [|d0 l] eqn:El; [set_solver|]. cbn [length Nat.eqb negb] in Hd.
    unfold localDevicePersistentVolumeClaim in Hd. rewrite El in Hd. apply local_claims_names in Hd.
    rewrite fmap_app, Hd. apply elem_of_app. right. by apply list_elem_of_fmap_2.
Qed.

(** An accepted update needs no other claims, unless it adds devices. *)
Lemma update_claims_cover h0 h s :
  claims_cover h0 s -> unchanged (cr_spec h0) (cr_spec h) ->
  (forall d, d ∈ s_LocalDevices (cr_spec h) -> exists d0, d0 ∈ s_LocalDevices (cr_spec h0) /\ ld_Name d0 = ld_Name d) ->
  claims_cover h s.
Proof.
  intros [Hp Hc Hd] [_ Up Uc _] Hdev. constructor.
  - intros He. apply Hp. by destruct (s_Persistence (cr_spec h)), (s_Persistence (cr_spec h0)).
  - intros He. apply Hc. unfold CPSubsystem_IsPVC in *.
    destruct (s_CPSubsystem (cr_spec h)) as [c|], (s_CPSubsystem (cr_spec h0)) as [c0|]; try done.
    unfold pvc_same in Uc. by destruct (cp_PVC c), (cp_PVC c0).
  - intros d Hin. destruct (Hdev d Hin) as (d0 & Hin0 & <-). by apply Hd.
Qed.

Lemma configMap_mounted (f : string -> string) cms path m :
  m ∈ configMapVolumeMounts f cms path -> vm_Name m ∈ (v_Name <$> configMapVolumes f cms).
Proof.
  unfold configMapVolumeMounts, configMapVolumes. rewrite <-list_fmap_compose, !list_elem_of_fmap.
  intros (cm & -> & Hin). by exists cm.
Qed.

(** ** Mounts of the three containers *)

Section Mounts.
Context (h : HazelcastCR) (pvcName : string) (names : list string).
Context (Hvols : forall x, x ∈ (v_Name <$> volumes h) -> x ∈ names).
Context (Hpvc : Persistence_IsEnabled (s_Persistence (cr_spec h)) = true -> pvcName ∈ names).
Context (Hcp : CPSubsystem_IsPVC (s_CPSubsystem (cr_spec h)) = true -> n_CPPersistenceVolumeName ∈ names).
Context (Hdev : forall d, d ∈ s_LocalDevices (cr_spec h) -> ld_Name d ∈ names).

Lemma base_volume x :
  x ∈ [n_HazelcastStorageName; n_InitConfigMap; n_UserCodeBucketVolumeName; n_UserCodeURLVolumeName; n_JetJobJarsVolumeName;
       n_TmpDirVolName; n_MTLSCertSecretName] -> x ∈ names.
Proof.
  intros Hin. apply Hvols. unfold volumes. rewrite fmap_app, elem_of_app. left.
  unfold fmap, list_fmap. simpl. by rewrite !elem_of_cons in *; intuition.
Qed.

Lemma ucn_volume : UserCodeNamespaces_IsEnabled (s_UserCodeNamespaces (cr_spec h)) = true -> n_UCNVolumeName ∈ names.
Proof. intros He. apply Hvols. unfold volumes. rewrite He, !fmap_app, !elem_of_app.
  right. left. by left. Qed.

Lemma ucd_volume m : UserCodeDeployment_IsConfigMapEnabled (s_DeprecatedUserCodeDeployment (cr_spec h)) = true ->
  m ∈ configMapVolumeMounts (ucdConfigMapName h) (ucd_ConfigMaps h) n_UserCodeConfigMapPath -> vm_Name m ∈ names.
Proof.
  intros He Hm%configMap_mounted. apply Hvols. unfold volumes. rewrite He, !fmap_app, !elem_of_app. auto.
Qed.
Lemma jet_volume m : Jet_IsConfigMapEnabled (s_JetEngineConfiguration (cr_spec h)) = true ->
  m ∈ configMapVolumeMounts jetConfigMapName (jet_ConfigMaps h) n_JetJobJarsPath -> vm_Name m ∈ names.
Proof.
  intros He Hm%configMap_mounted. apply Hvols. unfold volumes. rewrite He, !fmap_app, !elem_of_app. auto.
Qed.

(** A list of mounts that is built from parts. *)
Lemma part_mounted (b : bool) (ms rest : list VolumeMount) :
  (forall m, b = true -> m ∈ ms -> vm_Name m ∈ names) -> (forall m, m ∈ rest -> vm_Name m ∈ names) ->
  forall m, m ∈ (if b then ms else []) ++ rest -> vm_Name m ∈ names.
Proof. intros Hms Hrest m [Hin|Hin]%elem_of_app; [|by apply Hrest]. destruct b; [by apply Hms|set_solver]. Qed.
Lemma last_mounted (b : bool) (ms : list VolumeMount) :
  (forall m, b = true -> m ∈ ms -> vm_Name m ∈ names) -> forall m, m ∈ (if b then ms else []) -> vm_Name m ∈ names.
Proof. intros Hms m Hin. destruct b; [by apply Hms|set_solver]. Qed.
Lemma one_mounted (m0 m : VolumeMount) : vm_Name m0 ∈ names -> m ∈ [m0] -> vm_Name m ∈ names.
Proof. by intros ? ->%list_elem_of_singleton. Qed.
Lemma head_mounted (ms rest : list VolumeMount) :
  (forall m, m ∈ ms -> vm_Name m ∈ [n_HazelcastStorageName; n_InitConfigMap; n_UserCodeBucketVolumeName;
     n_UserCodeURLVolumeName; n_JetJobJarsVolumeName; n_TmpDirVolName; n_MTLSCertSecretName]) ->
  (forall m, m ∈ rest -> vm_Name m ∈ names) -> forall m, m ∈ ms ++ rest -> vm_Name m ∈ names.
Proof. intros Hms Hrest m [Hin|Hin]%elem_of_app; [|by apply Hrest]. by apply base_volume, Hms. Qed.

(** Mounts listed one by one. *)
#[local] Ltac all_base :=
  let m := fresh in let Hin := fresh in
  intros m Hin; rewrite ?elem_of_cons in Hin; rewrite ?elem_of_cons;
  repeat (destruct Hin as [->|Hin]; [cbn; intuition|]); by apply not_elem_of_nil in Hin.

Lemma hz_container_mounted m : m ∈ hzContainerVolumeMounts h pvcName -> vm_Name m ∈ names.
Proof.
  unfold hzContainerVolumeMounts. revert m. apply head_mounted; [by all_base|].
  apply part_mounted; [intros m He; apply one_mounted; by apply Hpvc|].
  apply part_mounted; [intros m He; apply one_mounted; by apply ucn_volume|].
  apply part_mounted; [intros m He; apply one_mounted, Hcp; by apply andb_prop in He as [_ ?]|].
  apply part_mounted; [intros m _ (d & -> & Hin)%list_elem_of_fmap; by apply Hdev|].
  apply part_mounted; [apply ucd_volume|]. apply last_mounted, jet_volume.
Qed.

Lemma sidecar_mounted m : m ∈ sidecarVolumeMounts h pvcName -> vm_Name m ∈ names.
Proof.
  unfold sidecarVolumeMounts. revert m. apply head_mounted; [by all_base|].
  apply part_mounted; [intros m He; apply one_mounted; by apply ucn_volume|].
  apply last_mounted. intros m He. apply one_mounted. by apply Hpvc.
Qed.

Lemma init_mounted m : m ∈ ct_VolumeMounts (initContainer h pvcName) -> vm_Name m ∈ names.
Proof.
  unfold initContainer. cbn [ct_VolumeMounts]. revert m. apply head_mounted; [by all_base|].
  apply part_mounted; [intros m _; apply one_mounted, base_volume; rewrite !elem_of_cons; cbn; intuition|].
  apply part_mounted; [intros m _; apply one_mounted, base_volume; rewrite !elem_of_cons; cbn; intuition|].
  apply part_mounted; [intros m He; apply one_mounted; by apply ucn_volume|].
  apply last_mounted. intros m He. apply one_mounted. by apply Hpvc.
Qed.
End Mounts.

(** C23. The pods of a cluster are well formed: when the stateful set is made
    of a resource, and brought up to date after any chain of updates each of
    which was accepted while the specification before it was recorded as the
    last successful one, and which add no local devices, every volume that a
    container or the init container mounts is a volume of the pod or one of
    the volume claims. *)
Theorem pod_mounts_have_volumes `{HZJ : !HazelcastJson} `{YV : YamlValid} `{SM : SortByMin} `{KE : KErrors}
    o0 h0 s0 o h pvcName sts h' s
    (Hnew : new_statefulset o0 h0 = Ret s0)
    (Hclaims : sts_VolumeClaimTemplates sts = sts_VolumeClaimTemplates s0)
    (Hupd : accepted_updates (cr_spec h0) (cr_spec h))
    (Hdev : forall d, d ∈ s_LocalDevices (cr_spec h) -> exists d0, d0 ∈ s_LocalDevices (cr_spec h0) /\ ld_Name d0 = ld_Name d)
    (Hmut : mutate_statefulset o h pvcName sts = Ret (h', s)) :
  exists c0 c1 cs, pt_Containers (sts_Template s) = c0 :: c1 :: cs /\ mounted s c0 /\ mounted s c1
    /\ Forall (mounted s) (pt_InitContainers (sts_Template s)).
Proof.
  assert (claims_cover h sts) as [Hp Hc Hd].
  { destruct (update_claims_cover h0 h s0) as [Hp Hc Hd]; [by eapply new_claims_cover|by apply accepted_updates_unchanged|done|].
    constructor; unfold claim_names; by rewrite Hclaims. }
  unfold mutate_statefulset in Hmut. apply bind_res_Ret in Hmut as (a & _ & Hmut).
  apply bind_res_Ret in Hmut as (pa & _ & Hmut). apply bind_res_Ret in Hmut as (cs & Hcs & Hmut).
  destruct (match x_Scheduling (cr_more h) with Some _ => _ | None => _ end) as [[aff tol] sel].
  injection Hmut as _ <-. unfold update_containers in Hcs.
  destruct (pt_Containers (sts_Template sts)) as [|c0 [|c1 rest]]; [done|by destruct (update_hazelcast_container _ _ _ _)|].
  apply bind_res_Ret in Hcs as (c0' & Hc0 & [= <-]). exists c0', (update_sidecar_container h (claimed_pvcName pvcName sts) c1), rest.
  set (s' := mkStatefulSet _ _ _ _ _ _ _ _ _ _ _ _).
  assert (Hvols : forall x, x ∈ (v_Name <$> volumes h) -> x ∈ volume_names s') by (intros x Hx; apply elem_of_app; by left).
  assert (Hcl : forall x, x ∈ claim_names sts -> x ∈ volume_names s') by (intros x Hx; apply elem_of_app; by right).
  assert (Hpvc : Persistence_IsEnabled (s_Persistence (cr_spec h)) = true -> claimed_pvcName pvcName sts ∈ volume_names s').
  { intros He. apply Hcl. specialize (Hp He). unfold claimed_pvcName, claim_names.
    destruct (sts_VolumeClaimTemplates sts) as [|c l]; [done|]. rewrite fmap_cons. by left. }
  split; [done|]. split; [|split; [|apply Forall_singleton; intros m; apply init_mounted; auto]].
  - apply bind_res_Ret in Hc0 as (r & _ & [= <-]). intros m. apply hz_container_mounted; auto.
  - intros m. apply sidecar_mounted; auto.
Qed.

(** ** Ports *)

(** The container port a service port leads to. *)
Definition reaches (p : ServicePort) (c : ContainerPort) : Prop :=
  sp_Protocol p = cp_Protocol c /\
  match sp_TargetPort p with FromInt z => cp_ContainerPort c = z | FromString name => cp_Name c = name end.

Definition cr_wan h : list WANConfig :=
  match s_AdvancedNetwork (cr_spec h) with Some a => an_WAN a | None => [] end.
(** The ports of the discovery service, of the services of members, and of
    those of the WAN endpoints. *)
Definition service_ports h : list ServicePort :=
  hazelcastPort (isAddWANPort h) ++ [clientPort] ++ mjoin (wan_service_ports <$> cr_wan h).

Definition wan_counts_fit (w : WANConfig) : Prop := is_uint 64 (w_Port w) /\ 0 <= w_PortCount w < 2 ^ 63.

Lemma swrap_mod w z : swrap w z = swrap w (z mod 2 ^ w).
Proof. symmetry. apply (swrap_uwrap w z). Qed.

Lemma int32_of_64 z : int32 (int64 z) = int32 z /\ int32 (uint64 z) = int32 z.
Proof.
  unfold int32. split; rewrite swrap_mod, (swrap_mod 32 z); f_equal; unfold int64, uint64, swrap, uwrap.
  - rewrite Zminus_mod. rewrite Z.mod_mod_divide by (by exists (2 ^ 32)).
    rewrite <-Zminus_mod. f_equal. lia.
  - by rewrite Z.mod_mod_divide by (by exists (2 ^ 32)).
Qed.

Lemma int32_int64_add a b : int32 (int64 (int64 a + b)) = int32 (a + b).
Proof.
  rewrite (proj1 (int32_of_64 _)). unfold int32, swrap. f_equal.
  rewrite <-(Zplus_mod_idemp_l (int64 a + b)), <-(Zplus_mod_idemp_l (a + b)). f_equal. f_equal.
  rewrite <-(Zplus_mod_idemp_l (int64 a)), <-(Zplus_mod_idemp_l a). f_equal. f_equal.
  unfold int64, swrap. rewrite Zminus_mod, Z.mod_mod_divide by (by exists (2 ^ 32)).
  rewrite <-Zminus_mod. f_equal. lia.
Qed.

(** The loops over the ports of a WAN endpoint agree, whatever wraps around. *)
Lemma wan_ports_agree w : wan_counts_fit w ->
  (fun p => (sp_Name p, sp_Protocol p, sp_Port p, sp_TargetPort p)) <$> wan_service_ports w =
  (fun c => (cp_Name c, cp_Protocol c, cp_ContainerPort c, FromInt (cp_ContainerPort c))) <$> wan_container_ports w.
Proof.
  intros [Hp Hc]. unfold wan_service_ports, wan_container_ports.
  assert (int64 (w_PortCount w) = w_PortCount w) as -> by (apply swrap_id; unfold is_sint; lia).
  rewrite <- !list_fmap_compose. apply list_fmap_ext. intros i x _. cbn.
  by rewrite (proj2 (int32_of_64 _)), int32_int64_add.
Qed.

Lemma isAddWANPort_true h : isAddWANPort h = true <-> cr_wan h = [].
Proof.
  unfold isAddWANPort, cr_wan. destruct (s_AdvancedNetwork (cr_spec h)) as [a|]; [|by split].
  by destruct (an_WAN a).
Qed.

Lemma container_wan_ports h : hazelcastContainerWanRepPorts h =
  match cr_wan h with [] => [container_port n_WanDefaultPort n_WanDefaultPortName] | l => mjoin (wan_container_ports <$> l) end.
Proof.
  unfold hazelcastContainerWanRepPorts, cr_wan. destruct (s_AdvancedNetwork (cr_spec h)) as [[? ? w]|]; [|done]. by destruct w.
Qed.

Lemma service_port_name_count h w p : w ∈ cr_wan h -> p ∈ wan_service_ports w -> p ∈ service_ports h.
Proof.
  intros Hw Hp. unfold service_ports. rewrite !elem_of_app. right. right. apply list_elem_of_join.
  exists (wan_service_ports w). split; [done|]. by apply list_elem_of_fmap_2.
Qed.

Lemma wan_pairs w : wan_counts_fit w ->
  (forall p, p ∈ wan_service_ports w -> exists c, c ∈ wan_container_ports w /\ reaches p c) /\
  (forall c, c ∈ wan_container_ports w -> exists p, p ∈ wan_service_ports w /\ reaches p c /\ sp_Port p = cp_ContainerPort c).
Proof.
  intros Hw%wan_ports_agree. split; intros x Hx.
  - apply (list_elem_of_fmap_2 (fun p => (sp_Name p, sp_Protocol p, sp_Port p, sp_TargetPort p))) in Hx. rewrite Hw in Hx.
    apply list_elem_of_fmap in Hx as (c & [= E1 E2 E3 E4] & Hin). exists c. split; [done|]. split; [done|]. by rewrite E4.
  - apply (list_elem_of_fmap_2 (fun c => (cp_Name c, cp_Protocol c, cp_ContainerPort c, FromInt (cp_ContainerPort c)))) in Hx.
    rewrite <-Hw in Hx. apply list_elem_of_fmap in Hx as (p & [= E1 E2 E3 E4] & Hin). exists p. split; [done|].
    split; [|done]. split; [done|]. by rewrite <-E4.
Qed.

Definition fixed_ports : list (ServicePort * ContainerPort) :=
  [(clientPort, container_port n_DefaultHzPort n_Hazelcast);
   (int_port n_MemberPortName MemberServerSocketPort, container_port MemberServerSocketPort n_MemberPortName);
   (int_port n_RestPortName RestServerSocketPort, container_port RestServerSocketPort n_RestPortName)].
Lemma fixed_ports_reached h p c : (p, c) ∈ fixed_ports ->
  p ∈ service_ports h /\ c ∈ hazelcastContainerPorts h /\ reaches p c /\ sp_Port p = cp_ContainerPort c.
Proof.
  intros Hin. unfold fixed_ports, service_ports, hazelcastPort, hazelcastContainerPorts in *. rewrite !elem_of_app, !elem_of_cons in *.
  destruct Hin as [[= -> ->]|[[= -> ->]|[[= -> ->]|[]%not_elem_of_nil]]]; (split_and!; [by auto 10|by auto 10|by split|done]).
Qed.

(** C24. Services and containers agree on their ports: every port of the
    discovery service, the services of members and the services of WAN
    endpoints leads to a port of the member's container, and every port of
    the container is offered under its own number by one of the services. *)
Theorem service_ports_match h (Hw : Forall wan_counts_fit (cr_wan h)) :
  (forall p, p ∈ service_ports h -> exists c, c ∈ hazelcastContainerPorts h /\ reaches p c) /\
  (forall c, c ∈ hazelcastContainerPorts h -> exists p, p ∈ service_ports h /\ reaches p c /\ sp_Port p = cp_ContainerPort c).
Proof.
  pose proof (fixed_ports_reached h) as Hfix. rewrite Forall_forall in Hw.
  pose proof (container_wan_ports h) as Hcw. split.
  - intros p. unfold service_ports, hazelcastPort. rewrite !elem_of_app, !elem_of_cons.
    assert (Hf : forall c, (p, c) ∈ fixed_ports -> exists c, c ∈ hazelcastContainerPorts h /\ reaches p c).
    { intros c Hin. destruct (Hfix p c Hin) as (_ & ? & ? & _). by exists c. }
    intros [[[->|[->|[->|[]%not_elem_of_nil]]]|Hin]|[[->|[]%not_elem_of_nil]|Hin]].
    1-3, 5: eapply Hf; unfold fixed_ports; rewrite !elem_of_cons; eauto.
    + destruct (isAddWANPort h) eqn:Ew; [|set_solver]. apply list_elem_of_singleton in Hin as ->.
      apply isAddWANPort_true in Ew. rewrite Ew in Hcw. exists (container_port n_WanDefaultPort n_WanDefaultPortName).
      split; [|done]. unfold hazelcastContainerPorts. rewrite Hcw. set_solver.
    + apply list_elem_of_join in Hin as (l & Hp & (w & -> & Hin)%list_elem_of_fmap).
      destruct (wan_pairs w) as [H1 _]; [by apply Hw|]. destruct (H1 p Hp) as (c & Hc & Hr). exists c. split; [|done].
      unfold hazelcastContainerPorts. rewrite elem_of_app, Hcw. right. destruct (cr_wan h) eqn:Ew; [set_solver|].
      apply list_elem_of_join. exists (wan_container_ports w). split; [done|]. by apply list_elem_of_fmap_2.
  - intros c. unfold hazelcastContainerPorts. rewrite elem_of_app, !elem_of_cons.
    assert (Hf : forall p, (p, c) ∈ fixed_ports -> exists p, p ∈ service_ports h /\ reaches p c /\ sp_Port p = cp_ContainerPort c).
    { intros p Hin. destruct (Hfix p c Hin) as (? & _ & ? & ?). by exists p. }
    intros [[->|[->|[->|[]%not_elem_of_nil]]]|Hin].
    1-3: eapply Hf; unfold fixed_ports; rewrite !elem_of_cons; eauto.
    rewrite Hcw in Hin. destruct (cr_wan h) as [|w0 l] eqn:Ew.
    + apply list_elem_of_singleton in Hin as ->. exists defaultWANPort. split; [|done].
      unfold service_ports, hazelcastPort. rewrite (proj2 (isAddWANPort_true h) Ew). set_solver.
    + apply list_elem_of_join in Hin as (l' & Hc & (w & -> & Hin)%list_elem_of_fmap).
      destruct (wan_pairs w) as [_ H2]; [by apply Hw|]. destruct (H2 c Hc) as (p & Hp & Hr). exists p. split; [|done].
      eapply service_port_name_count; [|done]. by rewrite Ew.
Qed.

(** ** The options of the JVM *)

(** Default options of the JVM are overridable: the arguments of the user
    are kept, in their order and in front; a default is appended exactly when
    no argument of the user has its key, which is what stands before the
    first equals sign with the spaces around it removed. *)
Theorem jvm_defaults_overridable args :
  exists extra, mergeJVMArgs args = args ++ extra
    /\ forall kv, kv ∈ DefaultJavaOptions ->
         (default_option kv ∈ extra <-> forall a, a ∈ args -> arg_key a <> kv.1)
         /\ forall e, e ∈ extra -> arg_key e = kv.1 -> e = default_option kv.
Proof.
  exists (default_option <$> filter (fun kv => kv.1 ∉ (list_to_set (arg_key <$> args) : gset string)) DefaultJavaOptions).
  split; [done|]. intros kv ->%list_elem_of_singleton. split.
  - rewrite list_elem_of_fmap. setoid_rewrite list_elem_of_filter. setoid_rewrite elem_of_list_to_set. split.
    + intros (kv & _ & [Hn ->%list_elem_of_singleton]) a Ha E. apply Hn. rewrite <-E. by apply list_elem_of_fmap_2.
    + intros Ha. eexists. split; [done|]. split; [|by left]. intros (a & E & Hin)%list_elem_of_fmap. by apply (Ha a Hin).
  - intros e (kv & -> & [_ ->%list_elem_of_singleton]%list_elem_of_filter)%list_elem_of_fmap. done.
Qed.

(** ** What an update leaves alone *)

Lemma mutate_containers o h pvcName sts h' s : mutate_statefulset o h pvcName sts = Ret (h', s) ->
  exists c0 c1 cs c0', pt_Containers (sts_Template sts) = c0 :: c1 :: cs
    /\ pt_Containers (sts_Template s) = c0' :: update_sidecar_container h (claimed_pvcName pvcName sts) c1 :: cs
    /\ pt_InitContainers (sts_Template s) = [initContainer h (claimed_pvcName pvcName sts)]
    /\ ct_Image c0' = DockerImage h.
Proof.
  intros Hmut. unfold mutate_statefulset in Hmut. apply bind_res_Ret in Hmut as (a & _ & Hmut).
  apply bind_res_Ret in Hmut as (pa & _ & Hmut). apply bind_res_Ret in Hmut as (cs & Hcs & Hmut).
  destruct (match x_Scheduling (cr_more h) with Some _ => _ | None => _ end) as [[aff tol] sel].
  injection Hmut as _ <-. unfold update_containers in Hcs.
  destruct (pt_Containers (sts_Template sts)) as [|c0 [|c1 rest]]; [done|by destruct (update_hazelcast_container _ _ _ _)|].
  apply bind_res_Ret in Hcs as (c0' & Hc0 & [= <-]). exists c0, c1, rest, c0'. split_and!; try done.
  apply bind_res_Ret in Hc0 as (r & _ & [= <-]). done.
Qed.

(** C33. The image of the agent: an update of an existing stateful set gives
    the new image of the agent to the init container and leaves that of the
    sidecar as it is, so that the two can differ; the image of the member is
    brought up to date. *)
Theorem sidecar_image_kept o h pvcName sts h' s (Hmut : mutate_statefulset o h pvcName sts = Ret (h', s)) :
  (ct_Image <$> pt_Containers (sts_Template s) !! 1%nat) = (ct_Image <$> pt_Containers (sts_Template sts) !! 1%nat)
  /\ ct_Image <$> pt_InitContainers (sts_Template s) = [AgentDockerImage h]
  /\ (ct_Image <$> pt_Containers (sts_Template s) !! 0%nat) = Some (DockerImage h).
Proof.
  apply mutate_containers in Hmut as (c0 & c1 & cs & c0' & -> & -> & -> & E). cbn. by rewrite E.
Qed.

(** The checksum that restarts the pods ignores the properties: pods keep
    their annotations whatever properties are set, although [Properties] is
    among the sections that are to force a restart. *)
Theorem properties_not_in_checksum annotations h props :
  podAnnotations annotations (set_hz h (set_Properties (cr_hz h) props)) = podAnnotations annotations h.
Proof. reflexivity. Qed.

(** The map of annotations is shared: when the stateful set is created,
    the checksum of its pods is written to [spec.annotations] of the resource
    in memory if that is set; when it exists, the resource is not touched. *)
Theorem spec_annotations_shared o h pvcName s0 sts h' s a
    (Hnew : new_statefulset o h = Ret s0) (Ha : x_Annotations (cr_more h) = Some a) (Hfetched : pt_SharesSpec (sts_Template sts) = false) :
  (mutate_statefulset o h pvcName s0 = Ret (h', s) -> is_Some (spec_annotations h' !! n_ConfigChecksumAnnotation)) /\
  (mutate_statefulset o h pvcName sts = Ret (h', s) -> h' = h).
Proof.
  assert (Hshare : pt_SharesSpec (sts_Template s0) = true).
  { unfold new_statefulset in Hnew. apply bind_res_Ret in Hnew as (? & _ & Hnew). apply bind_res_Ret in Hnew as (? & _ & Hnew).
    apply bind_res_Ret in Hnew as (? & _ & [= <-]). cbn. by rewrite Ha. }
  unfold mutate_statefulset. split; intros H; apply bind_res_Ret in H as (an & _ & H); apply bind_res_Ret in H as (pa & Hpa & H);
    apply bind_res_Ret in H as (cs & _ & H); destruct (match x_Scheduling (cr_more h) with Some _ => _ | None => _ end) as [[aff tol] sel].
  - rewrite Hshare in H. injection H as <- _. cbn. unfold podAnnotations in Hpa. apply bind_res_Ret in Hpa as (cfg & _ & Hpa).
    destruct (yaml_Marshal _); [|done]. injection Hpa as <-. rewrite lookup_insert. case_decide; [eauto|done].
  - rewrite Hfetched in H. by injection H as <- _.
Qed.
End Facts.
