(* ===== verification/McTypes.v ===== *)
(** * The Management Center resource

    src/api/v1alpha1/managementcenter_types.go with its accessors,
    managementcenter_validation.go, and [Default] of
    managementcenter_webhook.go.  A nil dereference is [Panic].

    A pointer that was decoded from a document differs from every other
    pointer: [StorageClass], which the validator compares as a pointer, is
    the same only if it is nil on both sides.  Parameter: how a
    specification is written as JSON and read ([McJson]). *)

From S2P Require Import Prelude Eff FieldValidation GoPath HazelcastTypes HazelcastValidation DataStructureConfig JetJobValidation HzTypes.
#[local] Open Scope string_scope.
#[local] Open Scope list_scope.
#[local] Open Scope Z_scope.

(** ** managementcenter_types.go *)

Record LDAPProvider := mkLDAPProvider {
  ldap_URL : string;
  ldap_CredentialsSecretName : string;
  ldap_UserDN : string;
  ldap_GroupDN : string;
  ldap_AdminGroups : list string;
  ldap_UserGroups : list string;
  ldap_ReadonlyUserGroups : list string;
  ldap_MetricsOnlyGroups : list string;
  ldap_UserSearchFilter : string;
  ldap_GroupSearchFilter : string;
  ldap_NestedGroupSearch : bool;
}.
#[export] Instance LDAPProvider_eq_dec : EqDecision LDAPProvider.
Proof. solve_decision. Defined.
Record SecurityProviders := mkSecurityProviders { sec_LDAP : option LDAPProvider }.
#[export] Instance SecurityProviders_eq_dec : EqDecision SecurityProviders.
Proof. solve_decision. Defined.
Definition SecurityProviders_IsEnabled (sp : option SecurityProviders) : bool :=
  match sp with Some sp => negb (is_nil (sec_LDAP sp)) | None => false end.

Record HazelcastClusterConfig := mkHazelcastClusterConfig {
  hcc_Name : string;
  hcc_Address : string;
  hcc_TLS : option TLS;
}.

Record ExternalConnectivityIngress := mkExternalConnectivityIngress {
  eci_Hostname : string;
  eci_IngressClassName : string;
  eci_Annotations : gmap string string;
  eci_Path : string;
}.
Record ExternalConnectivityRoute := mkExternalConnectivityRoute { ecr_Hostname : string }.
Record ExternalConnectivityConfiguration := mkExternalConnectivityConfiguration {
  ec_Type : string;
  ec_Ingress : option ExternalConnectivityIngress;
  ec_Route : option ExternalConnectivityRoute;
}.
Definition ExternalConnectivityTypeClusterIP : string := "ClusterIP".
Definition ExternalConnectivityTypeNodePort : string := "NodePort".
Definition ExternalConnectivityTypeLoadBalancer : string := "LoadBalancer".
Definition ManagementCenterServiceType (ec : option ExternalConnectivityConfiguration) : string :=
  match ec with
  | None => ServiceTypeClusterIP
  | Some ec =>
      if strb (ec_Type ec) ExternalConnectivityTypeClusterIP then ServiceTypeClusterIP
      else if strb (ec_Type ec) ExternalConnectivityTypeNodePort then ServiceTypeNodePort
      else ServiceTypeLoadBalancer
  end.
Definition ExternalConnectivity_is_zero (ec : ExternalConnectivityConfiguration) : bool :=
  strb (ec_Type ec) "" && is_nil (ec_Ingress ec) && is_nil (ec_Route ec).
Definition ExternalConnectivity_IsEnabled (ec : option ExternalConnectivityConfiguration) : bool :=
  match ec with Some ec => negb (ExternalConnectivity_is_zero ec) | None => false end.
(** [IsEnabled] of the ingress and of the route: they are set. *)
Definition is_set {A} (o : option A) : bool := negb (is_nil o).

Record MCJVMConfiguration := mkMCJVMConfiguration { mcj_Args : list string }.
Definition MCJVM_IsConfigured (c : option MCJVMConfiguration) : bool :=
  match c with Some c => negb (Nat.eqb (length (mcj_Args c)) 0) | None => false end.

Definition McRunning : string := "Running".
Definition McFailed : string := "Failed".
Definition McConfiguring : string := "Configuring".
Definition McPending : string := "Pending".

Record ManagementCenterStatus := mkManagementCenterStatus {
  mcs_Phase : string;
  mcs_Configured : bool;
  mcs_Message : string;
  mcs_ExternalAddresses : string;
}.

Section McTypes.
Context `{QL : QuantityLib} `{PT : PodTypes}.

Record MCPersistenceConfiguration := mkMCPersistenceConfiguration {
  mcp_Enabled : option bool;
  mcp_ExistingVolumeClaimName : string;
  mcp_StorageClass : option string;
  mcp_Size : option Quantity;
}.
Definition MCPersistence_IsEnabled (pc : option MCPersistenceConfiguration) : bool :=
  match pc with Some pc => default false (mcp_Enabled pc) | None => false end.
Definition MCPersistence_is_zero (pc : MCPersistenceConfiguration) : bool :=
  is_nil (mcp_Enabled pc) && strb (mcp_ExistingVolumeClaimName pc) "" && is_nil (mcp_StorageClass pc) && is_nil (mcp_Size pc).

Record ManagementCenterSpec := mkManagementCenterSpec {
  mc_Repository : string;
  mc_Version : string;
  mc_ImagePullPolicy : string;
  mc_ImagePullSecrets : list string;
  mc_DeprecatedLicenseKeySecret : string;
  mc_LicenseKeySecretName : string;
  mc_HazelcastClusters : list HazelcastClusterConfig;
  mc_ExternalConnectivity : option ExternalConnectivityConfiguration;
  mc_Persistence : option MCPersistenceConfiguration;
  mc_Scheduling : option SchedulingConfiguration;
  mc_Resources : option ResourceRequirements;
  mc_JVM : option MCJVMConfiguration;
  mc_SecurityProviders : option SecurityProviders;
  mc_spec_Annotations : gmap string string;
  mc_spec_Labels : gmap string string;
}.
Definition mc_GetLicenseKeySecretName (s : ManagementCenterSpec) : string :=
  if strb (mc_LicenseKeySecretName s) "" then mc_DeprecatedLicenseKeySecret s else mc_LicenseKeySecretName s.

Record ManagementCenter := mkManagementCenter {
  mc_Name : string;
  mc_Namespace : string;
  mc_UID : string;
  mc_Annotations : gmap string string;
  mc_Finalizers : list string;
  mc_Deleting : bool;
  mc_Spec : ManagementCenterSpec;
  mc_Status : ManagementCenterStatus;
}.
Implicit Types mc : ManagementCenter.
Definition mc_key mc : NamespacedName := (mc_Namespace mc, mc_Name mc).
Definition mc_phase mc : string := mcs_Phase (mc_Status mc).
Definition set_mc_Spec mc (s : ManagementCenterSpec) : ManagementCenter :=
  mkManagementCenter (mc_Name mc) (mc_Namespace mc) (mc_UID mc) (mc_Annotations mc) (mc_Finalizers mc) (mc_Deleting mc) s (mc_Status mc).
Definition set_mc_Status mc (s : ManagementCenterStatus) : ManagementCenter :=
  mkManagementCenter (mc_Name mc) (mc_Namespace mc) (mc_UID mc) (mc_Annotations mc) (mc_Finalizers mc) (mc_Deleting mc) (mc_Spec mc) s.
Definition set_mc_Finalizers mc (fs : list string) : ManagementCenter :=
  mkManagementCenter (mc_Name mc) (mc_Namespace mc) (mc_UID mc) (mc_Annotations mc) fs (mc_Deleting mc) (mc_Spec mc) (mc_Status mc).
Definition set_mc_Annotation mc (key value : string) : ManagementCenter :=
  mkManagementCenter (mc_Name mc) (mc_Namespace mc) (mc_UID mc) (<[key := value]> (mc_Annotations mc)) (mc_Finalizers mc)
    (mc_Deleting mc) (mc_Spec mc) (mc_Status mc).

Definition mc_DockerImage mc : string := (mc_Repository (mc_Spec mc) ++ ":" ++ mc_Version (mc_Spec mc))%string.
Definition ExternalAddressEnabled mc : bool :=
  match mc_ExternalConnectivity (mc_Spec mc) with
  | Some ec => ExternalConnectivity_IsEnabled (Some ec) && strb (ec_Type ec) ExternalConnectivityTypeLoadBalancer
  | None => false
  end.

(** ** [Default] *)

Definition unset {A} (is_zero : A -> bool) (o : option A) : option A :=
  match o with Some a => if is_zero a then None else Some a | None => None end.
Definition default_tls (c : HazelcastClusterConfig) : HazelcastClusterConfig :=
  mkHazelcastClusterConfig (hcc_Name c) (hcc_Address c)
    (unset (fun t => strb (tls_SecretName t) "" && strb (tls_MutualAuthentication t) "None") (hcc_TLS c)).
Definition mc_Default mc : ManagementCenter :=
  let s := mc_Spec mc in
  set_mc_Spec mc (mkManagementCenterSpec (mc_Repository s) (mc_Version s) (mc_ImagePullPolicy s) (mc_ImagePullSecrets s)
    (mc_DeprecatedLicenseKeySecret s) (mc_LicenseKeySecretName s) (default_tls <$> mc_HazelcastClusters s)
    (unset ExternalConnectivity_is_zero (mc_ExternalConnectivity s)) (unset MCPersistence_is_zero (mc_Persistence s))
    (unset SchedulingConfiguration_is_zero (mc_Scheduling s)) (unset ResourceRequirements_is_zero (mc_Resources s))
    (mc_JVM s) (mc_SecurityProviders s) (mc_spec_Annotations s) (mc_spec_Labels s)).

(** ** managementcenter_validation.go *)

Class McJson := {
  McSpec_Marshal : ManagementCenterSpec -> string;
  McSpec_Unmarshal : string -> sum ManagementCenterSpec error;
}.

Section Validation.
Context `{KE : KErrors} `{MJ : McJson} (c : Cluster) (openshift : bool).

Definition path_IsAbs (p : string) : bool :=
  match p with String a _ => bool_decide (a = "/"%char) | "" => false end.

Definition validateClusterConfigTLS (namespace : string) (config : HazelcastClusterConfig) : errs :=
  match hcc_TLS config with
  | None => []
  | Some tls =>
      let p := Path "spec" ["hazelcastClusters"; "tls"; "secretName"] in
      if strb (tls_SecretName tls) "" then NotFound p (VStr "Management Center Cluster config TLS Secret name is empty")
      else if err_NotFound (get_Secret c (namespace, tls_SecretName tls))
      then NotFound p (VStr "Management Center Cluster config TLS Secret not found") else []
  end.
Definition validateSecurityProviders (namespace : string) (config : SecurityProviders) : errs :=
  match sec_LDAP config with
  | None => []
  | Some ldap =>
      let p := Path "spec" ["securityProviders"; "ldap"; "credentialsSecretName"] in
      if strb (ldap_CredentialsSecretName ldap) "" then NotFound p (VStr "Management Center LDAP credentials Secret name is empty")
      else if err_NotFound (get_Secret c (namespace, ldap_CredentialsSecretName ldap))
      then NotFound p (VStr "Management Center LDAP credentials Secret not found") else []
  end.
Definition validateExternalConnectivity (config : ExternalConnectivityConfiguration) : errs :=
  match ec_Ingress config with
  | Some i =>
      if path_IsAbs (eci_Path i) then []
      else Invalid (Path "spec" ["externalConnectivity"; "ingress"; "path"]) (VStr (eci_Path i)) "must be an absolute path"
  | None => []
  end.

Definition mc_validateSpecCurrent mc : res errs :=
  let s := mc_Spec mc in
  bind_res (deref (mc_ExternalConnectivity s)) (fun ec =>
  Ret ((if is_set (ec_Route ec) && negb openshift
        then Forbidden (Path "spec" ["externalConnectivity"; "route"]) "Route can only be enabled in OpenShift environments." else []) ++
       concat (validateClusterConfigTLS (mc_Namespace mc) <$> mc_HazelcastClusters s) ++
       (match mc_SecurityProviders s with Some sp => validateSecurityProviders (mc_Namespace mc) sp | None => [] end) ++
       (if ExternalConnectivity_IsEnabled (Some ec) then validateExternalConnectivity ec else []))).

(** Of the last specification, which was decoded. *)
Definition pointers_differ {A} (a b : option A) : bool := negb (is_nil a && is_nil b).
Definition ValidateNotUpdatableMcPersistenceFields (current last : option MCPersistenceConfiguration) : errs :=
  let cannot field := Forbidden (Path "spec" ["persistence"; field]) "field cannot be updated" in
  (if Bool.eqb (MCPersistence_IsEnabled current) (MCPersistence_IsEnabled last) then [] else cannot "enabled") ++
  match current, last with
  | Some current, Some last =>
      (if strb (mcp_ExistingVolumeClaimName current) (mcp_ExistingVolumeClaimName last) then [] else cannot "existingVolumeClaimName") ++
      (if pointers_differ (mcp_StorageClass current) (mcp_StorageClass last) then cannot "storageClass" else []) ++
      (if DeepEqual_ptr Quantity_DeepEqual (mcp_Size current) (mcp_Size last) then [] else cannot "size")
  | _, _ => []
  end.
Definition mc_validateSpecUpdate mc : errs :=
  match mc_Annotations mc !! n_LastSuccessfulSpecAnnotation with
  | None => []
  | Some last =>
      match McSpec_Unmarshal last with
      | inr e => InternalError (Path "spec" []) (wrap "error parsing last ManagementCenter spec for update errors: " e)
      | inl parsed => ValidateNotUpdatableMcPersistenceFields (mc_Persistence (mc_Spec mc)) (mc_Persistence parsed)
      end
  end.
Definition ValidateManagementCenterSpec mc : res (option error) :=
  bind_res (mc_validateSpecCurrent mc) (fun current =>
  Ret (Err "ManagementCenter" (mc_Name mc) (current ++ mc_validateSpecUpdate mc))).
End Validation.
End McTypes.
