(* ===== verification/HzKube.v ===== *)
(** * The world of the controllers of clusters and Management Centers

    The calls they make to the API server, to members, to the registries of
    clients and status services; [util.CreateOrUpdate] and
    [util.CreateOrUpdateForce] of src/internal/util/util.go.

    Programs over the calls of Kube.v run in this world ([base]).  The
    closure given to [controllerutil.CreateOrUpdate] may write to captured
    variables; [CreateOrUpdate] is a parameter with its documented behaviour:
    the object is read, the closure brings it up to date, and it is created
    or, when the closure changed it, updated. *)

From S2P Require Import Prelude Eff HotBackup FieldValidation Json HazelcastTypes DataStructureTypes HazelcastValidation MapValidation ConfigTypes Proto CodecTypes DataStructureConfig DataStructureValidation WanTypes JetJobValidation HazelcastConfig Kube ConfigSecret HzTypes HzObjects HzStatefulSet McTypes.
#[local] Open Scope prog_scope.
#[local] Open Scope string_scope.
#[local] Open Scope list_scope.
#[local] Open Scope Z_scope.
#[export] Remove Hints hb_effects kube_effects : typeclass_instances.

(** ** A program in a larger world *)

Section Embed.
Context {F1 F2 : Effects} (f : @op F1 -> @op F2) (g : forall o, @ans F2 (f o) -> @ans F1 o).

Fixpoint embed {A} (p : @prog F1 A) : @prog F2 A :=
  match p with
  | Done a => Done a
  | Crash => Crash
  | Spin => Spin
  | Vis c k => Vis (f c) (fun x => embed (k (g c x)))
  | Par n ps k => Par n (fun i => embed (ps i)) (fun rs first => embed (k rs first))
  end.
End Embed.

(** ** Objects *)

Inductive okind :=
| KServiceAccount | KRole | KRoleBinding | KClusterRole | KClusterRoleBinding
| KService | KEndpoint | KSecret | KConfigMap | KStatefulSet | KIngress | KRoute.
#[export] Instance okind_eq_dec : EqDecision okind.
Proof. solve_decision. Defined.

Record Role := mkRole { ro_Meta : ObjectMeta; ro_Rules : list PolicyRule }.
Record RoleBinding := mkRoleBinding { rb_Meta : ObjectMeta; rb_Subjects : list Subject; rb_RoleRef : option RoleRef }.

(** [networkingv1.Ingress] and OpenShift's [routev1.Route], with what is set
    of them. *)
Record HTTPIngressPath := mkHTTPIngressPath {
  hp_Path : string;
  hp_PathType : string;
  hp_ServiceName : string;
  hp_ServicePortName : string;
}.
Record IngressRule := mkIngressRule { ir_Host : string; ir_Paths : list HTTPIngressPath }.
Record IngressObject := mkIngressObject {
  ing_Meta : ObjectMeta;
  ing_IngressClassName : option string;
  ing_Rules : list IngressRule;
}.
Record RouteSpec := mkRouteSpec {
  rt_Host : string;
  rt_ToKind : string;
  rt_ToName : string;
  rt_TargetPort : option IntOrString;
}.
Record Route := mkRoute { rt_Meta : ObjectMeta; rt_Spec : RouteSpec }.

(** src/api/v1alpha1/hazelcastendpoint_types.go *)
Record HazelcastEndpoint := mkHazelcastEndpoint {
  he_Meta : ObjectMeta;
  he_Type : string;
  he_Port : Z;
  he_HazelcastResourceName : string;
  he_Address : string;      (* status *)
}.
Definition HazelcastEndpointTypeDiscovery : string := "Discovery".
Definition HazelcastEndpointTypeMember : string := "Member".
Definition HazelcastEndpointTypeWAN : string := "WAN".
Definition set_he_Address (e : HazelcastEndpoint) (a : string) : HazelcastEndpoint :=
  mkHazelcastEndpoint (he_Meta e) (he_Type e) (he_Port e) (he_HazelcastResourceName e) a.

(** The resources that are deleted with a cluster. *)
Inductive dep_kind := DMap | DMultiMap | DTopic | DReplicatedMap | DQueue | DCache | DJetJob | DUserCodeNamespace.
#[export] Instance dep_kind_eq_dec : EqDecision dep_kind.
Proof. solve_decision. Defined.
Record dependent := mkDependent { d_Namespace : string; d_Name : string; d_Deleting : bool }.

Record NodeAddress := mkNodeAddress { na_Type : string; na_Address : string }.
Record Node := mkNode { no_Name : string; no_Addresses : list NodeAddress }.

(** Pods, with what the status of the cluster reports of them. *)
Record ContainerStatus := mkContainerStatus { cst_Waiting : option string; cst_RestartCount : Z }.  (* the reason of waiting *)
Record Pod := mkPod {
  pod_Name : string;
  pod_Namespace : string;
  pod_Labels : gmap string string;
  pod_NodeName : string;
  pod_Phase : string;
  pod_IP : string;
  pod_Message : string;
  pod_Reason : string;
  pod_Containers : list ContainerStatus;
}.

(** src/internal/hazelcast-client/status_service.go: what the service knows. *)
Record MemberData := mkMemberData {
  md_Address : string;
  md_UUID : string;
  md_Version : string;
  md_LiteMember : bool;
  md_MemberState : string;
  md_Master : bool;
  md_Partitions : Z;
  md_Name : string;
}.
Record ClusterHotRestartStatus := mkClusterHotRestartStatus {
  hr_HotRestartStatus : string;
  hr_RemainingValidationTimeMillis : Z;
  hr_RemainingDataLoadTimeMillis : Z;
}.
#[export] Instance ClusterHotRestartStatus_eq_dec : EqDecision ClusterHotRestartStatus.
Proof. solve_decision. Defined.
Definition ClusterHotRestartStatus_zero : ClusterHotRestartStatus := mkClusterHotRestartStatus "" 0 0.
Record Status := mkStatus {
  stt_MemberDataMap : gmap string MemberData;
  stt_ClusterHotRestartStatus : ClusterHotRestartStatus;
}.

Section HzKube.
Context `{P : Proto} `{QL : QuantityLib} `{Y : YamlLib} `{PT : PodTypes}.

(** The keys of the secret of a cluster. *)
Record SecretData := mkSecretData {
  sd_Config : option Document;      (* hazelcast.yaml *)
  sd_Keystore : option string;      (* hazelcast.jks *)
  sd_Other : gmap string string;
}.
Record Secret := mkSecret { sec_Meta : ObjectMeta; sec_Data : option SecretData }.   (* nil: writing panics *)

(** [compound.Restore] of the agent, and the configuration of the init
    container. *)
Inductive Restore :=
| RestoreBucket (bucket destination secretName restoreID : string)
| RestorePVC (folder sourceBaseDir destinationBaseDir backupDir restoreID : string).
Record InitConfig := mkInitConfig { ic_Download : option Download; ic_Restore : option Restore }.
Record ConfigMap := mkConfigMap { cm_Meta : ObjectMeta; cm_Data : option (option InitConfig) }.

Definition oobj (k : okind) : Type :=
  match k with
  | KServiceAccount => ObjectMeta
  | KRole | KClusterRole => Role
  | KRoleBinding | KClusterRoleBinding => RoleBinding
  | KService => Service
  | KEndpoint => HazelcastEndpoint
  | KSecret => Secret
  | KConfigMap => ConfigMap
  | KStatefulSet => StatefulSet
  | KIngress => IngressObject
  | KRoute => Route
  end.
Definition ometa (k : okind) : oobj k -> ObjectMeta :=
  match k with
  | KServiceAccount => id
  | KRole | KClusterRole => ro_Meta
  | KRoleBinding | KClusterRoleBinding => rb_Meta
  | KService => svc_Meta
  | KEndpoint => he_Meta
  | KSecret => sec_Meta
  | KConfigMap => cm_Meta
  | KStatefulSet => sts_Meta
  | KIngress => ing_Meta
  | KRoute => rt_Meta
  end.
Definition okey (k : okind) (o : oobj k) : NamespacedName := om_key (ometa k o).

Inductive hz_op :=
| Base (o : kube_op)
(* the resources *)
| GetCR (nn : NamespacedName)
| UpdateCR (h : HazelcastCR)
| StatusUpdateCR (h : HazelcastCR)
| GetMC (nn : NamespacedName)
| UpdateMC (mc : ManagementCenter)
| StatusUpdateMC (mc : ManagementCenter)
(* their objects; a list is by namespace and labels *)
| GetO (k : okind) (nn : NamespacedName)
| CreateO (k : okind) (o : oobj k)
| UpdateO (k : okind) (o : oobj k)
| DeleteO (k : okind) (o : oobj k)
| ListO (k : okind) (namespace : string) (labels : gmap string string)
| EndpointStatusUpdate (e : HazelcastEndpoint)
| ListNodes
| ListPods (namespace : option string) (labels : gmap string string)
| GetHotBackup (nn : NamespacedName)
| ListDependents (k : dep_kind) (namespace hzName : string)
| DeleteDependent (k : dep_kind) (d : dependent)
(* the world of the validator; names of hosts; a random UUID; HTTP *)
| Observe
| LookupHost (hostname : string)
| NewUUID
| HttpPost (url data : string)
(* the registries *)
| ClientGet (nn : NamespacedName)
| ClientDelete (nn : NamespacedName)
| IsClientConnected (nn : NamespacedName)
| AreAllMembersAccessible (nn : NamespacedName)
| StatusCreate (nn : NamespacedName)
| StatusGet (nn : NamespacedName)
| StatusDelete (nn : NamespacedName)
| MTLSCreate (namespace : string)
| MTLSDelete (namespace : string)
(* the goroutine that tells the phone home service *)
| TriggerPhoneHome.

Definition hz_ans (o : hz_op) : Type :=
  match o with
  | Base o => kube_ans o
  | GetCR _ => fetched HazelcastCR
  | GetMC _ => fetched ManagementCenter
  | GetO k _ => fetched (oobj k)
  | ListO k _ _ => fetched (list (oobj k))
  | ListNodes => fetched (list Node)
  | ListPods _ _ => fetched (list Pod)
  | GetHotBackup _ => fetched HotBackup.HotBackup
  | ListDependents _ _ _ => fetched (list dependent)
  | Observe => Cluster
  | NewUUID => UUID
  | HttpPost _ _ => fetched (Z * string * string)     (* status code, status, body *)
  | ClientGet _ | IsClientConnected _ | AreAllMembersAccessible _ => bool
  | StatusGet _ => option Status
  | StatusCreate _ | StatusDelete _ | MTLSDelete _ | TriggerPhoneHome => unit
  | _ => option error
  end.

#[global] Instance hz_effects : Effects := {| op := hz_op; ans := hz_ans |}.

(** A program over the calls of Kube.v. *)
Definition base {A} (p : @prog kube_effects A) : @prog hz_effects A :=
  @embed kube_effects hz_effects Base (fun o x => x) A p.

Definition lift {A} (r : res A) : @prog hz_effects A :=
  match r with Ret a => Done a | Panic => Crash | OutOfFuel => Spin end.

(** ** controllerutil *)

(** An object that was decoded from an answer shares no memory with the
    resource. *)
Definition decoded (k : okind) : oobj k -> oobj k :=
  match k with
  | KStatefulSet => fun s : StatefulSet =>
      let t := sts_Template s in
      mkStatefulSet (sts_Meta s) (sts_Selector s) (sts_ServiceName s) (sts_PodManagementPolicy s) (sts_Replicas s)
        (mkPodTemplate (pt_Labels t) (pt_Annotations t) false (pt_ServiceAccountName t) (pt_SecurityContext t)
           (pt_Containers t) (pt_InitContainers t) (pt_ImagePullSecrets t) (pt_Volumes t) (pt_Affinity t)
           (pt_Tolerations t) (pt_NodeSelector t) (pt_TopologySpreadConstraints t) (pt_TerminationGracePeriodSeconds t))
        (sts_VolumeClaimTemplates s) (sts_Generation s) (sts_StatusReplicas s) (sts_ReadyReplicas s)
        (sts_UpdatedReplicas s) (sts_ObservedGeneration s)
  | _ => id
  end.

Definition mutate_key_error : error :=
  errors_New "MutateFn cannot mutate object name and/or object namespace".

(** The closure, and the check that it kept the name of the object. *)
Definition run_mutate {S} (k : okind) (key : NamespacedName) (f : S -> oobj k -> prog (S * oobj k * option error))
    (s : S) (o : oobj k) : prog (S * oobj k * option error) :=
  r <- f s o ;;
  match r with
  | (s', o', Some e) => Done (s', o', Some e)
  | (s', o', None) => if decide (okey k o' = key) then Done (s', o', None) else Done (s', o', Some mutate_key_error)
  end.

(** Who can own an object. *)
Inductive OwnerObject := OwnerHazelcast (h : HazelcastCR) | OwnerManagementCenter (mc : ManagementCenter).

Class ControllerUtil := {
  Semantic_DeepEqual (k : okind) : oobj k -> oobj k -> bool;
  controllerutil_CreateOrUpdate {S} (k : okind) : (S -> oobj k -> prog (S * oobj k * option error)) -> S -> oobj k ->
    prog (S * oobj k * option error);
  CreateOrUpdate_behaviour {S} (k : okind) (f : S -> oobj k -> prog (S * oobj k * option error)) s (o : oobj k) :
    controllerutil_CreateOrUpdate k f s o =
    Vis (GetO k (okey k o)) (fun got =>
      match (got : fetched (oobj k)) with
      | Failed e =>
          if IsNotFound e then
            pbind (run_mutate k (okey k o) f s o) (fun r =>
            match r with
            | (s', o', Some e) => Done (s', o', Some e)
            | (s', o', None) => Vis (CreateO k o') (fun err => Done (s', o', err : option error))
            end)
          else Done (s, o, Some e)
      | Found o0 =>
          pbind (run_mutate k (okey k o) f s (decoded k o0)) (fun r =>
          match r with
          | (s', o', Some e) => Done (s', o', Some e)
          | (s', o', None) =>
              if Semantic_DeepEqual k (decoded k o0) o' then Done (s', o', None)
              else Vis (UpdateO k o') (fun err => Done (s', o', err : option error))
          end)
      end);
  (** [controllerutil.SetControllerReference(owner, obj, scheme)], by the
      owner references of the object: an error, or the references it leaves. *)
  SetControllerReference : OwnerObject -> list OwnerReference -> sum (list OwnerReference) error;
  SetControllerReference_none owner : exists os, SetControllerReference owner [] = inl os;
  (** [controllerutil.SetOwnerReference] of a service. *)
  SetOwnerReference : Service -> list OwnerReference -> sum (list OwnerReference) error;
}.

Context `{CU : !ControllerUtil}.

(** ** src/internal/util/util.go *)

Definition util_CreateOrUpdate {S} (k : okind) (f : S -> oobj k -> prog (S * oobj k * option error)) (s : S) (o : oobj k)
  : prog (S * oobj k * option error) :=
  r <- controllerutil_CreateOrUpdate k f s o ;;
  match r with
  | (s, o, Some e) => Done (s, o, if IsAlreadyExists e then None else Some e)
  | (s, o, None) => Done (s, o, None)
  end.

Definition util_CreateOrUpdateForce {S} (k : okind) (f : S -> oobj k -> prog (S * oobj k * option error)) (s : S) (o : oobj k)
  : prog (S * oobj k * option error) :=
  r <- controllerutil_CreateOrUpdate k f s o ;;
  match r with
  | (s, o, Some e) =>
      if IsAlreadyExists e then Done (s, o, None)
      else if IsInvalid e then
        ask err <- DeleteO k o ;;
        match (err : option error) with
        | Some e => Done (s, o, Some e)
        | None => controllerutil_CreateOrUpdate k f s o
        end
      else Done (s, o, Some e)
  | (s, o, None) => Done (s, o, None)
  end.

(** A closure that only changes the object. *)
Definition pure_mutate {k : okind} (f : oobj k -> res (oobj k)) : unit -> oobj k -> prog (unit * oobj k * option error) :=
  fun _ o => o <- lift (f o) ;; Done (tt, o, None).
Definition keep {k : okind} : oobj k -> res (oobj k) := Ret.
End HzKube.

(** The programs of this world. *)
Abbreviation hprog A := (@prog hz_effects A).
