(* ===== verification/HzServices.v ===== *)
(** * The objects around the stateful set

    src/internal/controller/hazelcast/hazelcast_resources.go: service
    account, roles, services, endpoints, and what is left over of services
    per pod. *)

From S2P Require Import Prelude Eff FieldValidation GoPath GoNet HazelcastTypes DataStructureTypes HazelcastValidation MapValidation ConfigTypes Proto CodecTypes DataStructureConfig HazelcastConfig Kube ConfigSecret HzTypes HzObjects HzStatefulSet HzKube.
From stdpp Require Import pretty.
#[local] Open Scope prog_scope.
#[local] Open Scope string_scope.
#[local] Open Scope list_scope.
#[local] Open Scope Z_scope.

(** ** [strconv.Atoi] *)

Definition digit (a : ascii) : option Z :=
  let c := code a in if (48 <=? c) && (c <=? 57) then Some (c - 48) else None.
Fixpoint digits (acc : Z) (s : string) : option Z :=
  match s with
  | "" => Some acc
  | String a s => match digit a with Some d => digits (10 * acc + d) s | None => None end
  end.
Definition in_int (z : Z) : option Z := if (- 2 ^ 63 <=? z) && (z <? 2 ^ 63) then Some z else None.
Definition Atoi (s : string) : option Z :=
  match s with
  | "" => None
  | String a r =>
      if decide (a = "-"%char) then if strb r "" then None else digits 0 r ≫= (fun z => in_int (- z))
      else if decide (a = "+"%char) then if strb r "" then None else digits 0 r ≫= in_int
      else digits 0 s ≫= in_int
  end.

Example Atoi_plain : Atoi "12" = Some 12 /\ Atoi "" = None /\ Atoi "-3" = Some (-3) /\ Atoi "x" = None.
Proof. done. Qed.

(** [for i := a; i < b; i++] with an early return. *)
Definition range (a b : Z) : list Z := seqZ a (b - a).

Section HzServices.
Context `{P : Proto} `{QL : QuantityLib} `{Y : YamlLib} `{PT : PodTypes} `{CU : !ControllerUtil}.
Context (op_env : Operator).
Implicit Types h : HazelcastCR.

Fixpoint each {A} (f : A -> hprog (option error)) (l : list A) : hprog (option error) :=
  match l with
  | [] => Done None
  | a :: l => err <- f a ;; match err with Some e => Done (Some e) | None => each f l end
  end.

(** The controller reference on a new object. *)
Definition with_owner (what : string) (owner : OwnerObject) (m : ObjectMeta) (k : ObjectMeta -> hprog (option error))
  : hprog (option error) :=
  match SetControllerReference owner (om_Owners m) with
  | inr e => Done (Some (wrap what e))
  | inl os => k (set_om_Owners m os)
  end.

Definition force {k : okind} (f : oobj k -> res (oobj k)) (o : oobj k) : hprog (option error) :=
  r <- util_CreateOrUpdateForce k (pure_mutate f) tt o ;; Done r.2.
Definition create_or_update {k : okind} (f : oobj k -> res (oobj k)) (o : oobj k) : hprog (option error) :=
  r <- util_CreateOrUpdate k (pure_mutate f) tt o ;; Done r.2.

(** ** Accounts and roles *)

Definition reconcileServiceAccount h : hprog (option error) :=
  if negb (strb (x_ServiceAccountName (cr_more h)) "") then Done None else
  with_owner "failed to set owner reference on ServiceAccount: " (OwnerHazelcast h) (meta_named h (serviceAccountName h)) (fun m =>
  force (k := KServiceAccount) keep m).

Definition set_rules (rules : list PolicyRule) (r : Role) : res Role := Ret (mkRole (ro_Meta r) rules).
Definition reconcileClusterRole h : hprog (option error) :=
  force (k := KClusterRole) (set_rules cluster_role_rules)
    (mkRole (mkObjectMeta (ClusterScopedName h) "" (Some (labels h)) (spec_annotations h) []) []).
Definition reconcileRole h : hprog (option error) :=
  with_owner "failed to set owner reference on Role: " (OwnerHazelcast h) (metadata h) (fun m =>
  force (k := KRole) (set_rules (role_rules h)) (mkRole m [])).

Definition set_binding (subjects : list Subject) (ref : RoleRef) (b : RoleBinding) : res RoleBinding :=
  Ret (mkRoleBinding (rb_Meta b) subjects (Some ref)).
Definition reconcileClusterRoleBinding h : hprog (option error) :=
  let csName := ClusterScopedName h in
  force (k := KClusterRoleBinding)
    (set_binding (binding_subjects h) (mkRoleRef "rbac.authorization.k8s.io" "ClusterRole" csName))
    (mkRoleBinding (mkObjectMeta csName "" (Some (labels h)) (spec_annotations h) []) [] None).
Definition reconcileRoleBinding h : hprog (option error) :=
  with_owner "failed to set owner reference on RoleBinding: " (OwnerHazelcast h) (metadata h) (fun m =>
  force (k := KRoleBinding)
    (set_binding (binding_subjects h) (mkRoleRef "rbac.authorization.k8s.io" "Role" (cr_name h)))
    (mkRoleBinding m [] None)).

(** ** Services *)

Definition with_label (s : Service) (v : string) : res Service :=
  bind_res (map_set (om_Labels (svc_Meta s)) n_ServiceEndpointTypeLabelName v) (fun l =>
  Ret (mkService (set_om_Labels (svc_Meta s) l) (svc_Selector s) (svc_Type s) (svc_ClusterIP s) (svc_Ports s)
    (svc_PublishNotReadyAddresses s) (svc_Ingress s))).
Definition without_label (s : Service) : Service :=
  mkService (set_om_Labels (svc_Meta s) (map_delete (om_Labels (svc_Meta s)) n_ServiceEndpointTypeLabelName))
    (svc_Selector s) (svc_Type s) (svc_ClusterIP s) (svc_Ports s) (svc_PublishNotReadyAddresses s) (svc_Ingress s).
Definition exposes (t : string) : bool := strb t ServiceTypeLoadBalancer || strb t ServiceTypeNodePort.
(** The type and the ports; node ports that were given out are kept. *)
Definition set_type_ports (s : Service) (t : string) (ports : list ServicePort) : Service :=
  mkService (svc_Meta s) (svc_Selector s) t (svc_ClusterIP s) (EnrichServiceNodePorts ports (svc_Ports s))
    (svc_PublishNotReadyAddresses s) (svc_Ingress s).

Definition mutate_service h (s : Service) : res Service :=
  let e := s_ExposeExternally (cr_spec h) in
  bind_res (if ExposeExternally_IsEnabled e && exposes (DiscoveryK8ServiceType e)
            then with_label s n_ServiceEndpointTypeDiscoveryLabelValue else Ret (without_label s)) (fun s =>
  Ret (set_type_ports s (serviceType h) (hazelcastPort (isAddWANPort h)))).
Definition reconcileService h : hprog (option error) :=
  with_owner "failed to set owner reference on Service: " (OwnerHazelcast h) (metadata h) (fun m =>
  force (k := KService) (mutate_service h)
    (mkService m (util_Labels h) "" (if strb (serviceType h) ServiceTypeClusterIP then "None" else "") [] false [])).

Definition mutate_wan_service (w : WANConfig) (s : Service) : res Service :=
  bind_res (if exposes (w_ServiceType w) then with_label s n_ServiceEndpointTypeWANLabelValue
            else if strb (w_ServiceType w) ServiceTypeClusterIP then Ret (without_label s) else Ret s) (fun s =>
  Ret (set_type_ports s (if strb (w_ServiceType w) "" then ServiceTypeLoadBalancer else w_ServiceType w)
         (wan_service_ports w))).
Definition reconcile_wan_service h (w : WANConfig) : hprog (option error) :=
  with_owner "" (OwnerHazelcast h) (meta_named h (cr_name h ++ "-" ++ w_Name w)%string) (fun m =>
  create_or_update (k := KService) (mutate_wan_service w) (mkService m (util_Labels h) "" "" [] false [])).
Definition reconcileWANServices h : hprog (option error) :=
  match s_AdvancedNetwork (cr_spec h) with
  | None => Done None
  | Some a => each (reconcile_wan_service h) (an_WAN a)
  end.

Definition mutate_pod_service h (s : Service) : res Service :=
  let t := MemberAccessServiceType (s_ExposeExternally (cr_spec h)) in
  bind_res (if exposes t then with_label s n_ServiceEndpointTypeMemberLabelValue else Ret (without_label s)) (fun s =>
  Ret (set_type_ports s t [clientPort])).
Definition reconcile_pod_service h (i : Z) : hprog (option error) :=
  with_owner "" (OwnerHazelcast h) (mkObjectMeta (servicePerPodName i h) (cr_ns h) (Some (servicePerPodLabels h)) (spec_annotations h) []) (fun m =>
  force (k := KService) (mutate_pod_service h) (mkService m (servicePerPodSelector i h) "" "" [] true [])).
Definition is_smart h : bool := ExposeExternally_IsSmart (s_ExposeExternally (cr_spec h)).
Definition reconcileServicePerPod h : hprog (option error) :=
  if negb (is_smart h) then Done None else
  size <- lift (deref (s_ClusterSize (cr_spec h))) ;;
  each (reconcile_pod_service h) (range 0 size).

Definition svc_key (i : Z) h : NamespacedName := (cr_ns h, servicePerPodName i h).

(** A service that is not there is none to remove. *)
Definition remove_pod_service h (i : Z) : hprog (option error) :=
  ask got <- GetO KService (svc_key i h) ;;
  match (got : fetched Service) with
  | Failed e => Done (if IsNotFound e then None else Some e)
  | Found s =>
      ask err <- DeleteO KService s ;;
      match (err : option error) with
      | Some e => Done (if IsNotFound e then None else Some e)
      | None => Done None
      end
  end.
(** The number of services is the one recorded at the stateful set. *)
Definition reconcileUnusedServicePerPod h : hprog (option error) :=
  s <- lift (if is_smart h then deref (s_ClusterSize (cr_spec h)) else Ret 0) ;;
  ask got <- GetO KStatefulSet (cr_key h) ;;
  match (got : fetched StatefulSet) with
  | Failed e => Done (if IsNotFound e then None else Some e)
  | Found sts =>
      match Atoi (default "" (om_Annotations (sts_Meta sts) !! n_ServicePerPodCountAnnotation)) with
      | None => Done None
      | Some p => each (remove_pod_service h) (range s p)
      end
  end.

(** Every host name of a load balancer resolves. *)
Fixpoint hostnames_resolve (l : list Ingress) : hprog bool :=
  match l with
  | [] => Done true
  | i :: l =>
      if strb (in_Hostname i) "" then hostnames_resolve l else
      ask err <- LookupHost (in_Hostname i) ;;
      match (err : option error) with Some _ => Done false | None => hostnames_resolve l end
  end.
Fixpoint services_ready h (ids : list Z) : hprog bool :=
  match ids with
  | [] => Done true
  | i :: ids =>
      ask got <- GetO KService (svc_key i h) ;;
      match (got : fetched Service) with
      | Failed _ => Done false
      | Found s =>
          if negb (strb (svc_Type s) ServiceTypeLoadBalancer) then services_ready h ids else
          match svc_Ingress s with
          | [] => Done false
          | l => ok <- hostnames_resolve l ;; if (ok : bool) then services_ready h ids else Done false
          end
      end
  end.
Definition isServicePerPodReady h : hprog bool :=
  if negb (is_smart h) then Done true else
  size <- lift (deref (s_ClusterSize (cr_spec h))) ;;
  services_ready h (range 0 size).

(** ** Endpoints *)

(** The last internal address, unless there is an external one. *)
Fixpoint public_address (fallback : string) (l : list NodeAddress) : string :=
  match l with
  | [] => fallback
  | a :: l =>
      if strb (na_Type a) "ExternalIP" then na_Address a
      else public_address (if strb (na_Type a) "InternalIP" then na_Address a else fallback) l
  end.
Definition nodePublicAddress (l : list NodeAddress) : string := public_address "" l.

Definition GetLoadBalancerAddress (i : Ingress) : string := if strb (in_IP i) "" then in_Hostname i else in_IP i.
Fixpoint external_address (l : list Ingress) : string :=
  match l with
  | [] => ""
  | i :: l => if strb (GetLoadBalancerAddress i) "" then external_address l else GetLoadBalancerAddress i
  end.
Definition GetExternalAddress (s : Service) : string := external_address (svc_Ingress s).

Definition host_port (host : string) (port : Z) : string := (host ++ ":" ++ pretty port)%string.
Definition SetAddress (e : HazelcastEndpoint) (address : string) : HazelcastEndpoint :=
  set_he_Address e (if strb address "" then "" else host_port address (he_Port e)).

Definition hazelcastEndpointFromService (nn : NamespacedName) h (endpointType : string) (port : Z) : HazelcastEndpoint :=
  mkHazelcastEndpoint (mkObjectMeta nn.2 nn.1 (Some (labels h)) (spec_annotations h) []) endpointType port (cr_name h) "".

(** The endpoints of a service, by its label; [None]: the label is unknown. *)
Definition endpoints_of h (s : Service) (endpointType : string) : option (list HazelcastEndpoint) :=
  let ns := om_Namespace (svc_Meta s) in
  let name := om_Name (svc_Meta s) in
  let ports := svc_Ports s in
  if strb endpointType n_ServiceEndpointTypeDiscoveryLabelValue then
    Some (omap (fun p =>
      if strb (sp_Name p) n_WanDefaultPortName
      then Some (hazelcastEndpointFromService (ns, name ++ "-wan")%string h HazelcastEndpointTypeWAN (sp_Port p))
      else if strb (sp_Name p) n_HazelcastPortName
      then Some (hazelcastEndpointFromService (ns, name) h HazelcastEndpointTypeDiscovery (sp_Port p))
      else None) ports)
  else if strb endpointType n_ServiceEndpointTypeMemberLabelValue then
    Some [hazelcastEndpointFromService (ns, name) h HazelcastEndpointTypeMember (sp_Port clientPort)]
  else if strb endpointType n_ServiceEndpointTypeWANLabelValue then
    Some (imap (fun i p =>
      hazelcastEndpointFromService
        (ns, if Nat.ltb 1 (length ports) then name ++ "-" ++ pretty (Z.of_nat i) else name)%string
        h HazelcastEndpointTypeWAN (sp_Port p)) ports)
  else None.

Definition unmatched_label (v : string) : error :=
  errors_New ("service endpoint type label values '" ++ v ++ "' is not matched")%string.

(** The node ports get the address of the node of the first pod; the list of
    pods has no namespace. *)
Definition node_port_address (nodeAddress : gmap string string) (s : Service) (e : HazelcastEndpoint) (pods : list Pod)
  : HazelcastEndpoint :=
  let address := match pods with [] => "*" | p :: _ => default "" (nodeAddress !! pod_NodeName p) end in
  let portName := if strb (he_Type e) HazelcastEndpointTypeWAN then n_WanDefaultPortName else n_HazelcastPortName in
  match List.find (fun p => strb (sp_Name p) portName) (svc_Ports s) with
  | Some p => set_he_Address e (host_port address (sp_NodePort p))
  | None => e
  end.

Definition reconcile_endpoint (nodeAddress : gmap string string) (s : Service) (e : HazelcastEndpoint) : hprog (option error) :=
  match SetOwnerReference s (om_Owners (he_Meta e)) with
  | inr err => Done (Some err)
  | inl os =>
      let e := mkHazelcastEndpoint (set_om_Owners (he_Meta e) os) (he_Type e) (he_Port e) (he_HazelcastResourceName e) (he_Address e) in
      r <- util_CreateOrUpdateForce KEndpoint (pure_mutate (k := KEndpoint) keep) tt e ;;
      match r with
      | (_, _, Some err) => Done (Some err)
      | (_, e, None) =>
          let update (e : HazelcastEndpoint) : hprog (option error) := ask err <- EndpointStatusUpdate e ;; Done (err : option error) in
          if strb (svc_Type s) ServiceTypeNodePort then
            ask got <- ListPods None (svc_Selector s) ;;
            match (got : fetched (list Pod)) with
            | Failed err => Done (Some err)
            | Found pods => update (node_port_address nodeAddress s e pods)
            end
          else if strb (svc_Type s) ServiceTypeLoadBalancer then update (SetAddress e (GetExternalAddress s))
          else update e
      end
  end.

(** The names of the endpoints, and the error that stopped the loop. *)
Fixpoint service_endpoints h (nodeAddress : gmap string string) (names : gset string) (l : list Service)
  : hprog (sum (gset string) error) :=
  match l with
  | [] => Done (inl names)
  | s :: l =>
      match default ∅ (om_Labels (svc_Meta s)) !! n_ServiceEndpointTypeLabelName with
      | None => service_endpoints h nodeAddress names l
      | Some endpointType =>
          match endpoints_of h s endpointType with
          | None => Done (inr (unmatched_label endpointType))
          | Some es =>
              err <- each (reconcile_endpoint nodeAddress s) es ;;
              match err with
              | Some err => Done (inr err)
              | None => service_endpoints h nodeAddress (names ∪ list_to_set ((fun e => om_Name (he_Meta e)) <$> es)) l
              end
          end
      end
  end.

Definition delete_leftover (names : gset string) (e : HazelcastEndpoint) : hprog (option error) :=
  if bool_decide (om_Name (he_Meta e) ∈ names) then Done None else
  ask err <- DeleteO KEndpoint e ;; Done (err : option error).

(** The public address of each node, when the operator may read nodes. *)
Definition node_addresses : hprog (sum (gmap string string) error) :=
  if op_NodeDiscoveryEnabled op_env then
    ask got <- ListNodes ;;
    match (got : fetched (list Node)) with
    | Failed err => Done (inr err)
    | Found nodes => Done (inl (foldl (fun m n => <[no_Name n := nodePublicAddress (no_Addresses n)]> m) ∅ nodes))
    end
  else Done (inl ∅).

Definition reconcileHazelcastEndpoints h : hprog (option error) :=
  na <- node_addresses ;;
  match na with
  | inr err => Done (Some err)
  | inl nodeAddress =>
      ask got <- ListO KService (cr_ns h) (util_Labels h) ;;
      match (got : fetched (list Service)) with
      | Failed err => Done (Some err)
      | Found svcs =>
          r <- service_endpoints h nodeAddress ∅ svcs ;;
          match r with
          | inr err => Done (Some err)
          | inl names =>
              ask got <- ListO KEndpoint (cr_ns h) (util_Labels h) ;;
              match (got : fetched (list HazelcastEndpoint)) with
              | Failed err => Done (Some err)
              | Found es => each (delete_leftover names) es
              end
          end
      end
  end.
End HzServices.
