(* ===== verification/HzSecrets.v ===== *)
(** * The secrets and the configuration of the init container

    [reconcileSecret], [reconcileInitContainerConfig] and
    [reconcileMTLSSecret] of
    src/internal/controller/hazelcast/hazelcast_resources.go, with the
    restoration of a backup.  Parameters ([HzSecretLib]): the key store of
    github.com/pavlo-v-chernykh/keystore-go, the blocks of encoding/pem, and
    net/url. *)

From S2P Require Import Prelude Eff HotBackup FieldValidation Json GoPath GoNet HazelcastTypes DataStructureTypes HazelcastValidation MapValidation ConfigTypes Proto CodecBuiltin CodecTypes CodecExtra DataStructureConfig DataStructureValidation WanTypes JetJobValidation HazelcastConfig CustomConfig Kube WanController ConfigSecret HzTypes HzObjects HzStatefulSet HzKube HzServices.
From stdpp Require Import pretty.
#[local] Open Scope prog_scope.
#[local] Open Scope string_scope.
#[local] Open Scope list_scope.
#[local] Open Scope Z_scope.

Class HzSecretLib := {
  Url : Type;
  ParseRequestURI : string -> option Url;
  query_prefix : Url -> string;                  (* u.Query().Get("prefix") *)
  with_query_prefix : Url -> string -> option string;  (* values.Set, the unescaped query, u.String() *)
  pem_Decode : string -> option (string * string);  (* type and bytes of the first block *)
  (** [keystore.New], [SetPrivateKeyEntry] for a time, a key and a
      certificate, [Store]. *)
  keystore_Store : option (Z * string * string) -> sum string error;
}.

(** [path.Dir]: what is before the last slash, cleaned. *)
Fixpoint upto_slash (l : list ascii) : list ascii :=
  match l with
  | [] => []
  | a :: l' => if decide (a = "/"%char) then l else upto_slash l'
  end.
Definition path_Dir (p : string) : string := path_Clean (of_chars (rev (upto_slash (rev (chars p))))).
Example path_Dir_backup : path_Dir "backup-1/5f" = "backup-1" /\ path_Dir "x" = "." /\ path_Dir "/a/b" = "/a".
Proof. done. Qed.

Section HzSecrets.
Context `{P : Proto} `{R : MapRange} `{EJ : EventJson} `{QL : QuantityLib} `{Y : YamlLib} `{YT : !YamlTree}.
Context `{HZJ : !HazelcastJson} `{MJ : !MapJson} `{KE : KErrors} `{JT : JsonText} `{PT : PodTypes} `{HS : HzSecretLib}.
Context `{CU : !ControllerUtil} `{RL : @RetryLib hz_effects}.
Implicit Types h : HazelcastCR.

(** ** The key store *)

Definition decodePEM (data : string) (typ : string) : sum string error :=
  match pem_Decode data with
  | None => inr (errors_New "expected at least one pem block")
  | Some (t, bytes) =>
      if strb t typ then inl bytes else inr (errors_New ("expected type " ++ typ ++ ", got " ++ t)%string)
  end.

Definition loadTLSKeyPair h (t : TLS) : hprog (sum (string * string) error) :=
  ask got <- Base (GetSecretData (cr_ns h, tls_SecretName t)) ;;
  match (got : fetched (gmap string string)) with
  | Failed e => Done (inr e)
  | Found data =>
      match decodePEM (default "" (data !! "tls.crt")) "CERTIFICATE" with
      | inr e => Done (inr e)
      | inl cert =>
          match decodePEM (default "" (data !! "tls.key")) "PRIVATE KEY" with
          | inr e => Done (inr e)
          | inl key => Done (inl (cert, key))
          end
      end
  end.

Definition has_tls_secret (t : option TLS) : option TLS :=
  match t with Some t => if strb (tls_SecretName t) "" then None else Some t | None => None end.

Definition hazelcastKeystore h : hprog (sum string error) :=
  match has_tls_secret (s_TLS (cr_spec h)) with
  | None => Done (keystore_Store None)
  | Some t =>
      pair <- loadTLSKeyPair h t ;;
      match pair with
      | inr e => Done (inr e)
      | inl (cert, key) => ask now <- Base Now ;; Done (keystore_Store (Some (now : Z, key, cert)))
      end
  end.

(** ** The secret with the configuration of the members *)

(** The closure works on the resource too: [hazelcastConfig] replaces its
    properties.  A key store that is there is kept. *)
Definition mutate_secret h (s : Secret) : hprog (HazelcastCR * Secret * option error) :=
  r <- base (hazelcastConfig (cr_hz h)) ;;
  let h := set_hz h r.1 in
  match (r.2 : fetched Document) with
  | Failed e => Done (h, s, Some e)
  | Found config =>
      match sec_Data s with
      | None => Crash
      | Some d =>
          let with_keystore k := mkSecret (sec_Meta s) (Some (mkSecretData (Some config) k (sd_Other d))) in
          match sd_Keystore d with
          | Some k => Done (h, with_keystore (Some k), None)
          | None =>
              ks <- hazelcastKeystore h ;;
              match ks with
              | inr e => Done (h, with_keystore None, Some e)
              | inl k => Done (h, with_keystore (Some k), None)
              end
          end
      end
  end.

(** A retried [controllerutil.CreateOrUpdate]: the object and the captured
    variables are those the run before has left. *)
Definition retried {S} (k : okind) (f : S -> oobj k -> hprog (S * oobj k * option error)) (s : S * oobj k)
  : hprog ((S * oobj k) * option error) :=
  r <- controllerutil_CreateOrUpdate k f s.1 s.2 ;;
  Done ((r.1.1, r.1.2), r.2).

Definition new_secret h (os : list OwnerReference) : Secret :=
  mkSecret (set_om_Owners (metadata h) os) (Some (mkSecretData None None ∅)).
Definition reconcileSecret h : hprog (HazelcastCR * option error) :=
  match SetControllerReference (OwnerHazelcast h) (om_Owners (metadata h)) with
  | inr e => Done (h, Some (wrap "failed to set owner reference on Secret: " e))
  | inl os =>
      r <- RetryOnConflict (retried KSecret mutate_secret) (h, new_secret h os) ;;
      Done (r.1.1, r.2)
  end.

(** ** The configuration of the init container *)

(** [RestoreConfiguration.Hash]: the FNV-1a hash of the JSON document. *)
Definition RestoreFromLocal_encode (c : RestoreFromLocalConfiguration) : json := JObj (
  omit_str "pvcNamePrefix" (rl_PVCNamePrefix c) ++ omit_str "baseDir" (rl_BaseDir c) ++
  omit_str "backupDir" (rl_BackupDir c) ++ omit_str "backupFolder" (rl_BackupFolder c)).
Definition RestoreConfiguration_encode (rc : RestoreConfiguration) : json := JObj (
  omit_ptr "bucketConfig" BucketConfiguration_encode (rc_BucketConfiguration rc) ++
  omit_str "hotBackupResourceName" (rc_HotBackupResourceName rc) ++
  omit_ptr "localConfig" RestoreFromLocal_encode (rc_LocalConfiguration rc)).
Definition Hash (rc : RestoreConfiguration) : string := pretty (FNV32a (json_print (RestoreConfiguration_encode rc))).

Definition restoreInitContainer (rc : RestoreConfiguration) (secretName bucket baseDir : string) : Restore :=
  RestoreBucket bucket baseDir secretName (Hash rc).
Definition or_default (v d : string) : string := if strb v "" then d else v.
Definition restoreLocalInitContainer (rc : RestoreConfiguration) (conf : RestoreFromLocalConfiguration) (destBaseDir : string)
  : Restore :=
  RestorePVC (rl_BackupFolder conf) (or_default (rl_BaseDir conf) destBaseDir) destBaseDir
    (or_default (rl_BackupDir conf) n_BackupDir) (Hash rc).

(** [HotBackupStatus.GetBucketURI], [GetBackupFolder]: of the first member. *)
Definition with_slash (prefix : string) : string :=
  match last (chars prefix) with
  | Some a => if decide (a = "/"%char) then prefix else (prefix ++ "/")%string
  | None => prefix
  end.
Definition GetBucketURI (s : HotBackupStatus) : string :=
  match hbs_BackupUUIDs s with
  | [] => ""
  | uuid :: _ =>
      match ParseRequestURI uuid with
      | None => ""
      | Some u => default "" (with_query_prefix u (with_slash (path_Dir (query_prefix u))))
      end
  end.
Definition GetBackupFolder (s : HotBackupStatus) : string :=
  match hbs_BackupUUIDs s with [] => "" | uuid :: _ => path_Dir uuid end.

Definition restoreCmdForHBResource (rc : RestoreConfiguration) (key : Kube.NamespacedName) (baseDir : string)
  : hprog (sum Restore error) :=
  ask got <- GetHotBackup key ;;
  match (got : fetched HotBackup.HotBackup) with
  | Failed e => Done (inr e)
  | Found hb =>
      if negb (strb (hbs_State (hb_Status hb)) HotBackupSuccess) then
        Done (inr (errors_New ("restore hotbackup '" ++ (hb_Name hb).2 ++ "' status is not " ++ HotBackupSuccess)%string))
      else if HotBackupSpec_IsExternal (hb_Spec hb) then
        Done (inl (restoreInitContainer rc (HotBackupSpec_GetSecretName (hb_Spec hb)) (GetBucketURI (hb_Status hb)) baseDir))
      else
        Done (inl (restoreLocalInitContainer rc
          (mkRestoreFromLocalConfiguration "" "" "" (GetBackupFolder (hb_Status hb))) baseDir))
  end.

(** What is restored, from the base directory of the persisted configuration. *)
Definition restore_command h (p : HazelcastPersistenceConfiguration) : hprog (sum Restore error) :=
  hzConf <- base (getHazelcastConfig (cr_key h)) ;;
  match (hzConf : fetched cfg_Hazelcast) with
  | Failed e => Done (inr (errors_New ("unable to fetch existing HZ config: " ++ err_msg e)%string))
  | Found cfg =>
      let baseDir := cfg_Persistence_BaseDir (cfg_Hazelcast_Persistence cfg) in
      let rc := p_Restore p in
      if RestoreFromHotBackupResourceName (Some p) then
        restoreCmdForHBResource rc (cr_ns h, rc_HotBackupResourceName rc) baseDir
      else if RestoreFromLocalBackup (Some p) then
        conf <- lift (deref (rc_LocalConfiguration rc)) ;;
        Done (inl (restoreLocalInitContainer rc conf baseDir))
      else
        b <- lift (deref (rc_BucketConfiguration rc)) ;;
        Done (inl (restoreInitContainer rc (BucketConfiguration_GetSecretName b) (bc_BucketURI b) baseDir))
  end.

Definition restore_enabled h : option HazelcastPersistenceConfiguration :=
  match s_Persistence (cr_spec h) with
  | Some p => if Persistence_IsRestoreEnabled p then Some p else None
  | None => None
  end.

Definition init_config h : hprog (sum InitConfig error) :=
  d <- base (initContainerConfig (cr_hz h)) ;;
  match (d : fetched (option Download)) with
  | Failed e => Done (inr e)
  | Found d =>
      match restore_enabled h with
      | None => Done (inl (mkInitConfig d None))
      | Some p =>
          r <- restore_command h p ;;
          match r with
          | inr e => Done (inr e)
          | inl r => Done (inl (mkInitConfig d (Some r)))
          end
      end
  end.

Definition mutate_init_config h (_ : unit) (cm : ConfigMap) : hprog (unit * ConfigMap * option error) :=
  cfg <- init_config h ;;
  match cfg with
  | inr e => Done (tt, cm, Some e)
  | inl cfg =>
      match cm_Data cm with
      | None => Crash
      | Some _ => Done (tt, mkConfigMap (cm_Meta cm) (Some (Some cfg)), None)
      end
  end.
Definition reconcileInitContainerConfig h : hprog (option error) :=
  with_owner "failed to set owner reference on ConfigMap: " (OwnerHazelcast h) (meta_named h (cr_name h ++ n_InitSuffix)%string) (fun m =>
  r <- RetryOnConflict (retried KConfigMap (mutate_init_config h)) (tt, mkConfigMap m (Some None)) ;;
  Done r.2).

(** ** The certificates of the agents

    The owner reference is set on what was read; [CreateOrUpdate] reads the
    secret again before it runs the closure, which changes nothing. *)
Definition reconcileMTLSSecret h : hprog (option error) :=
  ask err <- MTLSCreate (cr_ns h) ;;
  match (err : option error) with
  | Some e => Done (Some e)
  | None =>
      ask got <- GetO KSecret (cr_ns h, n_MTLSCertSecretName) ;;
      match (got : fetched Secret) with
      | Failed e => Done (Some e)
      | Found s =>
          match SetControllerReference (OwnerHazelcast h) (om_Owners (sec_Meta s)) with
          | inr e => Done (Some e)
          | inl os => force (k := KSecret) keep (mkSecret (set_om_Owners (sec_Meta s) os) (sec_Data s))
          end
      end
  end.
End HzSecrets.
