(* ===== verification/HzStatus.v ===== *)
(** * The status of a cluster

    src/internal/controller/hazelcast/hazelcast_status.go, the pods of
    src/internal/util/util.go and pod_error.go, and the restore state of
    src/internal/protocol/types/typed_member_state.go. *)

From S2P Require Import Prelude Eff FieldValidation GoPath GoNet HazelcastTypes DataStructureTypes HazelcastValidation MapValidation ConfigTypes Proto CodecBuiltin CodecTypes DataStructureConfig HazelcastConfig Kube ConfigSecret HzTypes HzObjects HzStatefulSet HzKube HzServices.
From stdpp Require Import pretty.
#[local] Open Scope prog_scope.
#[local] Open Scope string_scope.
#[local] Open Scope list_scope.
#[local] Open Scope Z_scope.

(** [metav1.LabelSelectorAsSelector], and [String] of the selector. *)
Class SelectorLib := { selector_String : option (gmap string string) -> option string }.
#[global] Instance selector_plain : SelectorLib | 100 := {| selector_String _ := Some "" |}.

(** ** Errors of pods *)

Record PodError := mkPodError {
  pe_Name : string;
  pe_Namespace : string;
  pe_Message : string;
  pe_Reason : string;
  pe_PodIp : string;
  pe_RestartCount : Z;
}.
Definition NewPodError (pod : Pod) : PodError :=
  mkPodError (pod_Name pod) (pod_Namespace pod) (pod_Message pod) "" (pod_IP pod) 0.
Definition NewPodErrorWithContainerStatus (pod : Pod) (reason : string) (restarts : Z) : PodError :=
  mkPodError (pod_Name pod) (pod_Namespace pod) (pod_Message pod) reason (pod_IP pod) restarts.
Definition PodError_Error (e : PodError) : string :=
  ("pod " ++ pe_Name e ++ " in namespace " ++ pe_Namespace e ++ " failed for " ++ pe_Message e ++ ": " ++ pe_Reason e)%string.

(** What [CheckIfRunning] fails with. *)
Inductive run_error :=
| ListError (e : error)
| PodErrors (es : list PodError).
Definition as_error (e : run_error) : error :=
  match e with
  | ListError e => e
  | PodErrors [] => errors_New ""
  | PodErrors ((e :: _) as es) =>
      errors_New ("multiple (" ++ pretty (length es) ++ ") errors: " ++ PodError_Error e)%string
  end.
Definition AsPodErrors (e : option run_error) : list PodError :=
  match e with Some (PodErrors es) => es | _ => [] end.

(** A container that waits for another reason than being started. *)
Definition waits_for (c : ContainerStatus) : option string :=
  match cst_Waiting c with
  | Some r => if bool_decide (r ∈ ["ContainerCreating"; "PodInitializing"; ""]) then None else Some r
  | None => None
  end.
Definition hasPodFailedWhileWaiting (pod : Pod) : bool := existsb (fun c => negb (is_nil (waits_for c))) (pod_Containers pod).
Definition errorsFromPendingPod (pod : Pod) : list PodError :=
  omap (fun c => (fun r => NewPodErrorWithContainerStatus pod r (cst_RestartCount c)) <$> waits_for c) (pod_Containers pod).
Definition pod_errors (pod : Pod) : list PodError :=
  if strb (pod_Phase pod) "Failed" || strb (pod_Phase pod) "Unknown" then [NewPodError pod]
  else if hasPodFailedWhileWaiting pod then errorsFromPendingPod pod
  else [].

(** ** The restore state *)

Definition RestoreState (s : ClusterHotRestartStatus) : string :=
  let st := hr_HotRestartStatus s in
  if strb st "SUCCEEDED" then RestoreSucceeded
  else if strb st "IN_PROGRESS" then RestoreInProgress
  else if strb st "FAILED" then RestoreFailed
  else RestoreUnknown.
(** Whole seconds of a duration in nanoseconds. *)
Definition to_seconds (millis : Z) : Z := Z.quot (int64 (millis * 1000000)) 1000000000.
Definition RemainingValidationTimeSec (s : ClusterHotRestartStatus) : Z := to_seconds (hr_RemainingValidationTimeMillis s).
Definition RemainingDataLoadTimeSec (s : ClusterHotRestartStatus) : Z := to_seconds (hr_RemainingDataLoadTimeMillis s).

(** ** Member statuses *)

Record memberStatuses := mkMemberStatuses {
  mst_readyMembers : string;
  mst_readyMembersMap : gmap string MemberData;
  mst_restoreState : ClusterHotRestartStatus;
  mst_memberPods : list Pod;
  mst_podErrors : list PodError;
}.
Definition memberStatuses_zero : memberStatuses := mkMemberStatuses "" ∅ ClusterHotRestartStatus_zero [] [].

(** [strings.Split(address, ":")[0]] *)
Fixpoint before_colon (s : string) : string :=
  match s with
  | "" => ""
  | String c s => if decide (c = ":"%char) then "" else String c (before_colon s)
  end.

(** The name of the last pod with this address. *)
Definition pod_names (pods : list Pod) : gmap string string :=
  foldl (fun m p => <[pod_IP p := pod_Name p]> m) ∅ pods.
Definition ready_status (names : gmap string string) (uid : string) (m : MemberData) : HazelcastMemberStatus :=
  let ip := before_colon (md_Address m) in
  mkHazelcastMemberStatus (default "" (names !! ip)) uid ip (md_Version m) (md_MemberState m) (md_Master m)
    (md_LiteMember m) (md_Partitions m) true "" "" 0.
Definition failed_status (e : PodError) : HazelcastMemberStatus :=
  mkHazelcastMemberStatus (pe_Name e) "" (pe_PodIp e) "" "" false false 0 false (pe_Message e) (pe_Reason e)
    (pe_RestartCount e).
Definition pending_status (p : Pod) : HazelcastMemberStatus :=
  mkHazelcastMemberStatus (pod_Name p) "" (pod_IP p) "" "" false false 0 false (pod_Message p) (pod_Reason p) 0.

Section HzStatus.
Context `{P : Proto} `{R : MapRange} `{QL : QuantityLib} `{Y : YamlLib} `{PT : PodTypes} `{SL : SelectorLib}.
Implicit Types h : HazelcastCR.

Definition readyMemberStatuses (m : gmap string MemberData) (pods : list Pod) : list HazelcastMemberStatus :=
  (fun '(uid, d) => ready_status (pod_names pods) uid d) <$> go_range m.
Definition failedMemberStatuses (es : list PodError) : list HazelcastMemberStatus := failed_status <$> es.
Definition pendingMemberPods (pods : list Pod) (current : list HazelcastMemberStatus) : list Pod :=
  filter (fun p => pod_IP p ∉ ms_Ip <$> current) pods.
Definition pendingMemberStatuses (pods : list Pod) : list HazelcastMemberStatus := pending_status <$> pods.
Definition allMemberStatuses (m : memberStatuses) : list HazelcastMemberStatus :=
  let readyFailed := readyMemberStatuses (mst_readyMembersMap m) (mst_memberPods m) ++ failedMemberStatuses (mst_podErrors m) in
  readyFailed ++ pendingMemberStatuses (pendingMemberPods (mst_memberPods m) readyFailed).

(** ** What is written into the status *)

Inductive HzStatusApplier :=
| withHzPhase (p : string)
| withHzFailedPhase (m : string)
| withHzMessage (m : string)
| withHzStatefulSet (s : option StatefulSet)     (* [None]: the zero value *)
| withMembers (m : memberStatuses).

Definition set_phase (p : string) (z : HazelcastStatus) : HazelcastStatus := mkHazelcastStatus (st_ClusterSize z) p.
Definition set_message (m : string) (s : StatusMore) : StatusMore :=
  mkStatusMore (ss_Selector s) (ss_ReadyMembers s) m (ss_Members s) (ss_Restore s).

Definition HzStatusApply (a : HzStatusApplier) (st : HazelcastStatus * StatusMore) : HazelcastStatus * StatusMore :=
  let '(z, s) := st in
  match a with
  | withHzPhase p => (set_phase p z, if strb p Phase_Running then set_message "" s else s)
  | withHzFailedPhase m => (set_phase Phase_Failed z, set_message m s)
  | withHzMessage m => (z, set_message m s)
  | withHzStatefulSet sts =>
      (mkHazelcastStatus (match sts with Some x => sts_StatusReplicas x | None => 0 end) (st_Phase z),
       match selector_String (match sts with Some x => sts_Selector x | None => None end) with
       | Some sel => mkStatusMore sel (ss_ReadyMembers s) (ss_Message s) (ss_Members s) (ss_Restore s)
       | None => s
       end)
  | withMembers m =>
      (z, mkStatusMore (ss_Selector s) (mst_readyMembers m) (ss_Message s) (allMemberStatuses m)
        (if bool_decide (mst_restoreState m = ClusterHotRestartStatus_zero) then ss_Restore s
         else mkRestoreStatus (RestoreState (mst_restoreState m)) (RemainingValidationTimeSec (mst_restoreState m))
                (RemainingDataLoadTimeSec (mst_restoreState m))))
  end.

Definition apply_all (as_ : list HzStatusApplier) h : HazelcastCR :=
  let st := foldl (fun st a => HzStatusApply a st) (h_Status (cr_hz h), cr_status h) as_ in
  set_cr_status h st.1 st.2.

(** Conflicts are left to the next round. *)
Definition update h (o : ReconcilerOption) (options : list HzStatusApplier) : hprog (ctrl_Result * option error) :=
  let h := apply_all options h in
  ask err <- StatusUpdateCR h ;;
  match (err : option error) with
  | Some e => Done (ctrl_Result_zero, if IsConflict e then None else Some e)
  | None =>
      match ro_Err o with
      | Some e => Done (ctrl_Result_zero, Some e)
      | None =>
          if strb (cr_phase h) Phase_Pending then Done (mkResult true (ro_RetryAfter o), None)
          else Done (ctrl_Result_zero, None)
      end
  end.
Definition failed h (e : error) : hprog (ctrl_Result * option error) :=
  update h (recoptions_Error e) [withHzFailedPhase (err_msg e)].

(** ** Pods *)

Definition hzMemberPods h : hprog (list Pod) :=
  ask got <- ListPods (Some (cr_ns h)) (util_Labels h) ;;
  match (got : fetched (list Pod)) with Failed _ => Done [] | Found pods => Done pods end.

Definition checkPodsForFailure (sts : StatefulSet) : hprog (option run_error) :=
  ask got <- ListPods (Some (om_Namespace (sts_Meta sts))) (pt_Labels (sts_Template sts)) ;;
  match (got : fetched (list Pod)) with
  | Failed e => Done (Some (ListError e))
  | Found pods => Done (match mjoin (pod_errors <$> pods) with [] => None | es => Some (PodErrors es) end)
  end.

Definition isStatefulSetReady (sts : StatefulSet) (expectedReplicas : Z) : bool :=
  (expectedReplicas =? sts_UpdatedReplicas sts) && (expectedReplicas =? sts_ReadyReplicas sts)
  && (sts_Generation sts =? sts_ObservedGeneration sts).
(** Every pod that is asked for is updated and ready, at the generation that
    the controller manager has observed. *)
Definition rolled_out (sts : StatefulSet) (n : Z) : Prop :=
  sts_UpdatedReplicas sts = n /\ sts_ReadyReplicas sts = n /\ sts_ObservedGeneration sts = sts_Generation sts.
Lemma isStatefulSetReady_iff sts n : isStatefulSetReady sts n = true <-> rolled_out sts n.
Proof. unfold isStatefulSetReady, rolled_out. rewrite !andb_true_iff, !Z.eqb_eq. naive_solver. Qed.
Definition CheckIfRunning (sts : StatefulSet) (expectedReplicas : Z) : hprog (bool * option run_error) :=
  if isStatefulSetReady sts expectedReplicas then Done (true, None) else
  err <- checkPodsForFailure sts ;; Done (false, err).

(** ** The statuses of the members *)

Definition withMemberStatuses h (err : option run_error) : hprog HzStatusApplier :=
  ask ss <- StatusGet (cr_key h) ;;
  match (ss : option Status) with
  | None => Done (withMembers memberStatuses_zero)
  | Some status =>
      ask have <- ClientGet (cr_key h) ;;
      connected <- (if (have : bool) then call (IsClientConnected (cr_key h)) else Done false) ;;
      readyMembers <- (if (connected : bool) then
          clusterSize <- lift (deref (s_ClusterSize (cr_spec h))) ;;
          Done (pretty (Z.of_nat (size (stt_MemberDataMap status))) ++ "/" ++ pretty clusterSize)%string
        else Done "N/A") ;;
      let hr := stt_ClusterHotRestartStatus status in
      let restoreStatus :=
        if Persistence_IsEnabled (s_Persistence (cr_spec h)) && negb (strb (RestoreState hr) RestoreUnknown)
        then hr else ClusterHotRestartStatus_zero in
      pods <- hzMemberPods h ;;
      Done (withMembers (mkMemberStatuses readyMembers (stt_MemberDataMap status) restoreStatus pods (AsPodErrors err)))
  end.
End HzStatus.
