(* ===== verification/HzController.v ===== *)
(** * The Hazelcast controller

    src/internal/controller/hazelcast/hazelcast_controller.go, the finalizer,
    the annotations with specifications, and the calls to members and to the
    REST API of hazelcast_resources.go, hazelcast_rest_client.go,
    mutate/mutate.go and src/internal/hazelcast-client/cluster_state_service.go.

    [Reconcile] is the composition of five stages, each the code between two
    points where nothing but the resource and the executor services to add is
    live.  Parameters: [json.Marshal] of a specification ([HzSpecJson]) and
    the [String] of errors of others. *)

From S2P Require Import Prelude Eff HotBackup FieldValidation Json GoPath GoNet HazelcastTypes DataStructureTypes HazelcastValidation MapValidation ConfigTypes Proto CodecBuiltin CodecTypes CodecExtra CodecRequests DataStructureConfig DataStructureValidation WanTypes JetJobValidation HazelcastConfig CustomConfig Kube WanController ConfigSecret HzTypes HzObjects HzStatefulSet HzKube HzServices HzSecrets HzStatus.
From stdpp Require Import pretty.
#[local] Open Scope prog_scope.
#[local] Open Scope string_scope.
#[local] Open Scope list_scope.
#[local] Open Scope Z_scope.

Definition retryAfter : Z := 10.
Definition MutualAuthenticationNone : string := "None".
Definition ForceStart : string := "ForceStart".
Definition rest_forceStart : string := "/hazelcast/rest/management/cluster/forceStart".
Definition rest_partialStart : string := "/hazelcast/rest/management/cluster/partialStart".
Definition illegalClusterType : error := errors_New "only enterprise clusters are supported".

Class HzSpecJson `{QuantityLib} `{PodTypes} := { HzSpec_Marshal : HazelcastSpec -> HazelcastMore -> string }.

Definition RestUrl (name namespace : string) : string :=
  ("http://" ++ name ++ "." ++ namespace ++ ".svc.cluster.local:" ++ pretty RestServerSocketPort)%string.

(** ** The dependent resources *)

Definition dependentCRs : gmap string dep_kind := list_to_map
  [("Map", DMap); ("MultiMap", DMultiMap); ("Topic", DTopic); ("ReplicatedMap", DReplicatedMap);
   ("Queue", DQueue); ("Cache", DCache); ("JetJob", DJetJob); ("UserCodeNamespace", DUserCodeNamespace)].

(** [GetItems] of these lists takes the address of the loop variable: every
    item is the last one. *)
Definition items_alias (k : dep_kind) : bool := bool_decide (k ∈ [DMap; DJetJob; DUserCodeNamespace]).
Definition GetItems (k : dep_kind) (l : list dependent) : list dependent :=
  match last l with
  | Some d => if items_alias k then replicate (length l) d else l
  | None => l
  end.

Section HzController.
Context `{P : Proto} `{R : MapRange} `{EJ : EventJson} `{QL : QuantityLib} `{Y : YamlLib} `{YT : !YamlTree}.
Context `{HZJ : !HazelcastJson} `{MJ : !MapJson} `{KE : KErrors} `{JT : JsonText} `{PT : PodTypes} `{HS : HzSecretLib}.
Context `{YV : YamlValid} `{SM : SortByMin} `{HL : !HzLib} `{SL : SelectorLib} `{HJ : !HzSpecJson}.
Context `{CU : !ControllerUtil} `{RL : @RetryLib hz_effects}.
Context (op_env : Operator) (frames : nat).
Implicit Types h : HazelcastCR.

Abbreviation rec := (hprog (ctrl_Result * option error)).

(** ** mutate/mutate.go and [Default] of hazelcast_webhook.go *)

Definition UserCodeDeployment_is_zero (c : UserCodeDeploymentConfig) (trigger : string) : bool :=
  is_nil (ud_ClientEnabled c) && is_nil (ud_BucketConfiguration c) && Nat.eqb (length (ud_ConfigMaps c)) 0
  && Nat.eqb (length (ud_RemoteURLs c)) 0 && strb trigger "".
Definition AdvancedNetwork_is_zero (a : AdvancedNetwork) : bool :=
  Nat.eqb (length (an_MemberInterfaces a)) 0 && Nat.eqb (length (an_ClientInterfaces a)) 0 && Nat.eqb (length (an_WAN a)) 0.
Definition ManagementCenterConfig_is_zero (c : ManagementCenterConfig) : bool :=
  negb (mc_ScriptingEnabled c || mc_ConsoleEnabled c || mc_DataAccessEnabled c).
Definition unless {A} (is_default : A -> bool) (o : option A) : option A :=
  match o with Some a => if is_default a then None else Some a | None => None end.

Definition Default_spec (s : HazelcastSpec) (trigger : string) : HazelcastSpec :=
  let moves := strb (s_LicenseKeySecretName s) "" && negb (strb (s_DeprecatedLicenseKeySecret s) "") in
  mkHazelcastSpec (s_ClusterSize s)
    (if moves then "" else s_DeprecatedLicenseKeySecret s)
    (if moves then s_DeprecatedLicenseKeySecret s else s_LicenseKeySecretName s)
    (s_ExposeExternally s) (s_Persistence s) (s_JetEngineConfiguration s) (s_HighAvailabilityMode s) (s_JVM s)
    (s_NativeMemory s) (unless AdvancedNetwork_is_zero (s_AdvancedNetwork s))
    (unless (fun t => strb (tls_SecretName t) "" && strb (tls_MutualAuthentication t) MutualAuthenticationNone) (s_TLS s))
    (s_CustomConfigCmName s) (s_SQL s) (s_LocalDevices s) (s_CPSubsystem s) (s_ClusterName s)
    (unless (fun c => UserCodeDeployment_is_zero c trigger) (s_DeprecatedUserCodeDeployment s))
    (s_ExecutorServices s) (s_DurableExecutorServices s) (s_ScheduledExecutorServices s) (s_Properties s)
    (unless ManagementCenterConfig_is_zero (s_ManagementCenterConfig s)) (s_Serialization s) (s_UserCodeNamespaces s).
Definition Default_more (x : HazelcastMore) (spec : HazelcastSpec) : HazelcastMore :=
  let ag := x_Agent x in
  mkHazelcastMore (x_Repository x) (x_Version x) (x_ImagePullPolicy x) (x_ImagePullSecrets x)
    (unless SchedulingConfiguration_is_zero (x_Scheduling x)) (unless ResourceRequirements_is_zero (x_Resources x))
    (mkAgentConfiguration (ag_Repository ag) (ag_Version ag) (unless ResourceRequirements_is_zero (ag_Resources ag)))
    (x_LoggingLevel x) (x_Annotations x) (x_Labels x) (x_ServiceAccountName x) (x_Env x)
    (match s_DeprecatedUserCodeDeployment spec with Some _ => x_TriggerSequence x | None => "" end).
Definition set_spec (z : Hazelcast) (s : HazelcastSpec) : Hazelcast :=
  mkHazelcast (h_Name z) (h_Namespace z) (h_Annotations z) (h_Deleting z) s (h_Status z).
Definition Default h : HazelcastCR :=
  let spec := Default_spec (cr_spec h) (x_TriggerSequence (cr_more h)) in
  set_more (set_hz h (set_spec (cr_hz h) spec)) (Default_more (cr_more h) spec).

Definition set_Repository (x : HazelcastMore) (repo : string) : HazelcastMore :=
  mkHazelcastMore repo (x_Version x) (x_ImagePullPolicy x) (x_ImagePullSecrets x) (x_Scheduling x) (x_Resources x)
    (x_Agent x) (x_LoggingLevel x) (x_Annotations x) (x_Labels x) (x_ServiceAccountName x) (x_Env x) (x_TriggerSequence x).

(** The defaults are compared with themselves: only the repository counts. *)
Definition mutate_HazelcastSpec h : HazelcastCR * bool :=
  let ee := negb (strb (HazelcastSpec_GetLicenseKeySecretName (cr_spec h)) "")
            && strb (x_Repository (cr_more h)) n_HazelcastRepo in
  (Default (if ee then set_more h (set_Repository (cr_more h) n_HazelcastEERepo) else h), ee).

(** ** Annotations with specifications *)

Definition spec_text h : string := HzSpec_Marshal (cr_spec h) (cr_more h).

(** [util.Update] around [insertSpec]: only the annotation can differ. *)
Definition insert_spec (annotation : string) h : hprog (HazelcastCR * option error) :=
  if decide (h_Annotations (cr_hz h) !! annotation = Some (spec_text h)) then Done (h, None) else
  let h := set_cr_Annotation h annotation (spec_text h) in
  ask err <- UpdateCR h ;; Done (h, err : option error).
Definition updateLastAppliedSpec h : hprog (HazelcastCR * option error) := insert_spec n_LastAppliedSpecAnnotation h.
Definition updateLastSuccessfulConfiguration h : hprog (HazelcastCR * option error) :=
  insert_spec n_LastSuccessfulSpecAnnotation h.
Definition IsSuccessfullyApplied h : bool := negb (is_nil (h_Annotations (cr_hz h) !! n_LastSuccessfulSpecAnnotation)).

Definition unmarshalHazelcastSpec h (rawLastSpec : string) : sum HazelcastSpec error :=
  if strb rawLastSpec (spec_text h) then inl (cr_spec h) else
  match HazelcastSpec_Unmarshal rawLastSpec with
  | inl s => inl s
  | inr e => inr (wrap "error unmarshaling Last HZ Spec: " e)
  end.

(** ** The finalizer *)

Definition hz_AddFinalizer h : hprog (HazelcastCR * option error) :=
  if negb (bool_decide (n_Finalizer ∈ cr_Finalizers h)) && negb (h_Deleting (cr_hz h)) then
    let h := set_cr_Finalizers h (cr_Finalizers h ++ [n_Finalizer]) in
    ask err <- UpdateCR h ;; Done (h, err : option error)
  else Done (h, None).

(** [util.DeleteObject] of what is not being deleted. *)
Definition delete_dependent (k : dep_kind) (d : dependent) : hprog (option error) :=
  if d_Deleting d then Done None else
  ask err <- DeleteDependent k d ;;
  Done (match (err : option error) with Some e => if IsNotFound e then None else Some e | None => None end).

Definition deleteDependentCR h (crKind : string) (k : dep_kind) : hprog (option error) :=
  ask got <- ListDependents k (cr_ns h) (cr_name h) ;;
  match (got : fetched (list dependent)) with
  | Failed e => Done (Some (wrap ("could not get Hazelcast dependent " ++ crKind ++ " resources ") e))
  | Found [] => Done None
  | Found l =>
      let items := GetItems k l in
      Par (length items) (fun i => match items !! i with Some d => delete_dependent k d | None => Done None end)
        (fun errs first =>
      match group_Wait errs first with
      | Some e => Done (Some (wrap ("error deleting " ++ crKind ++ " resources ") e))
      | None =>
          ask got <- ListDependents k (cr_ns h) (cr_name h) ;;
          match (got : fetched (list dependent)) with
          | Failed e => Done (Some (wrap ("hazelcast dependent " ++ crKind ++ " resources are not deleted yet ") e))
          | Found [] => Done None
          | Found _ => Done (Some (errors_New ("hazelcast dependent " ++ crKind ++ " resources are not deleted yet")%string))
          end
      end)
  end.
Definition deleteDependentCRs h : hprog (option error) :=
  each (fun '(crKind, k) => deleteDependentCR h crKind k) (go_range dependentCRs).

Definition meta_zero : ObjectMeta := mkObjectMeta "" "" None ∅ [].
(** After another error than "not found", the object deleted is the empty
    one. *)
Definition remove_cluster_object (k : okind) (zero : oobj k) (what : string) h : hprog (option error) :=
  ask got <- GetO k ("", ClusterScopedName h) ;;
  let delete_it (o : oobj k) : hprog (option error) :=
    ask err <- DeleteO k o ;;
    Done (match (err : option error) with Some e => Some (wrap ("failed to clean up " ++ what ++ ": ") e) | None => None end) in
  match (got : fetched (oobj k)) with
  | Failed e => if IsNotFound e then Done None else delete_it zero
  | Found o => delete_it o
  end.
Definition removeClusterRole : HazelcastCR -> hprog (option error) :=
  remove_cluster_object KClusterRole (mkRole meta_zero []) "ClusterRole".
Definition removeClusterRoleBinding : HazelcastCR -> hprog (option error) :=
  remove_cluster_object KClusterRoleBinding (mkRoleBinding meta_zero [] None) "ClusterRoleBinding".
(** A step whose error ends the function. *)
Definition then_ (what : string) (p k : hprog (option error)) : hprog (option error) :=
  err <- p ;; match err with Some e => Done (Some (wrap what e)) | None => k end.

Definition release h : hprog (HazelcastCR * option error) :=
  do_ StatusDelete (cr_key h) ;;
  do_ MTLSDelete (cr_ns h) ;;
  ask err <- ClientDelete (cr_key h) ;;
  match (err : option error) with
  | Some e => Done (h, Some (wrap "Hazelcast client could not be deleted:  " e))
  | None =>
      let h := set_cr_Finalizers h (filter (fun f => f <> n_Finalizer) (cr_Finalizers h)) in
      ask err <- UpdateCR h ;;
      Done (h, match (err : option error) with
               | Some e => Some (wrap "failed to remove finalizer from custom resource: " e)
               | None => None
               end)
  end.
Definition hz_executeFinalizer h : hprog (HazelcastCR * option error) :=
  if negb (bool_decide (n_Finalizer ∈ cr_Finalizers h)) then Done (h, None) else
  err <- then_ "Could not delete all dependent CRs: " (deleteDependentCRs h)
    (if op_NodeDiscoveryEnabled op_env then
       then_ "ClusterRole could not be removed: " (removeClusterRole h)
       (then_ "ClusterRoleBinding could not be removed: " (removeClusterRoleBinding h) (Done None))
     else Done None) ;;
  match err with
  | Some e => Done (h, Some e)
  | None => release h
  end.

(** ** The stateful set *)

Definition mutate_sts (s : HazelcastCR * string) (sts : StatefulSet)
  : hprog ((HazelcastCR * string) * StatefulSet * option error) :=
  r <- lift (mutate_statefulset op_env s.1 s.2 sts) ;;
  Done (r.1, claimed_pvcName s.2 sts, r.2, None).
Definition set_sts_Meta (s : StatefulSet) (m : ObjectMeta) : StatefulSet :=
  mkStatefulSet m (sts_Selector s) (sts_ServiceName s) (sts_PodManagementPolicy s) (sts_Replicas s) (sts_Template s)
    (sts_VolumeClaimTemplates s) (sts_Generation s) (sts_StatusReplicas s) (sts_ReadyReplicas s) (sts_UpdatedReplicas s)
    (sts_ObservedGeneration s).
Definition reconcileStatefulset h : hprog (HazelcastCR * option error) :=
  sts <- lift (new_statefulset op_env h) ;;
  pvcName <- lift (sts_pvcName h) ;;
  match SetControllerReference (OwnerHazelcast h) (om_Owners (sts_Meta sts)) with
  | inr e => Done (h, Some (wrap "failed to set owner reference on Statefulset: " e))
  | inl os =>
      r <- util_CreateOrUpdateForce KStatefulSet mutate_sts (h, pvcName) (set_sts_Meta sts (set_om_Owners (sts_Meta sts) os)) ;;
      Done (r.1.1.1, r.2)
  end.

(** ** Startup actions: hazelcast_rest_client.go *)

Definition executeRequest (url data : string) : hprog (option error) :=
  ask r <- HttpPost url data ;;
  match (r : fetched (Z * string * string)) with
  | Failed e => Done (Some e)
  | Found (code, status, body) =>
      if (code <? 200) || (400 <=? code)
      then Done (Some (errors_New ("unexpected HTTP error: " ++ status ++ ", " ++ body)%string)) else Done None
  end.
Definition startupAction h (endpoint : string) : hprog (option error) :=
  executeRequest (RestUrl (cr_name h) (cr_ns h) ++ endpoint)%string (s_ClusterName (cr_spec h) ++ "&")%string.

Definition persistenceStartupAction h : hprog (option error) :=
  match s_Persistence (cr_spec h) with
  | None => Done None
  | Some p =>
      if strb (p_StartupAction p) "" || strb (cr_phase h) Phase_Running then Done None
      else if strb (p_StartupAction p) ForceStart then startupAction h rest_forceStart
      else if strb (p_StartupAction p) PartialStart then startupAction h rest_partialStart
      else Done None
  end.

(** ** Requests to members *)

(** The decoded answer of any member. *)
Definition on_random_target {A} (nn : Kube.NamespacedName) (req : res ClientMessage) (decode : ClientMessage -> res A)
  : hprog (sum A error) :=
  req <- lift req ;;
  ask r <- Base (InvokeOnRandomTarget nn req) ;;
  match (r : fetched ClientMessage) with
  | Failed e => Done (inr e)
  | Found resp => a <- lift (decode resp) ;; Done (inl a)
  end.

Definition isEnterpriseCluster h (nn : Kube.NamespacedName) : hprog (sum bool error) :=
  ask uuid <- NewUUID ;;
  on_random_target nn
    (EncodeClientAuthenticationRequest (cr_name h) "" "" uuid "GOO" x01 "1.5.0" "operator" [])
    (fun resp => bind_res (DecodeClientAuthenticationResponse frames resp) (fun r => Ret (auth_failoverSupported r))).

Definition hz_ClusterState (nn : Kube.NamespacedName) : hprog (sum Z error) :=
  on_random_target nn EncodeMCGetClusterMetadataRequest
    (fun resp => bind_res (DecodeMCGetClusterMetadataResponse frames resp) (fun m => Ret (ClusterMetadata_CurrentState m))).
Definition hz_ChangeClusterState (nn : Kube.NamespacedName) (newState : Z) : hprog (option error) :=
  r <- on_random_target nn (EncodeMCChangeClusterStateRequest newState) (fun _ => Ret tt) ;;
  Done (match r with inl _ => None | inr e => Some e end).

(** A cluster whose restoration has succeeded and whose members are all
    passive. *)
Definition may_activate h : bool :=
  let s := cr_status h in
  negb (is_nil (restore_enabled h))
  && bool_decide (ss_Restore s <> RestoreStatus_zero)
  && strb (rs_State (ss_Restore s)) RestoreSucceeded
  && negb (strb (cr_phase h) Phase_Pending)
  && forallb (fun m => strb (ms_State m) NodeStatePassive) (ss_Members s).
Definition ensureClusterActive h (nn : Kube.NamespacedName) : hprog (option error) :=
  if negb (may_activate h) then Done None else
  r <- hz_ClusterState nn ;;
  match r with
  | inr e => Done (Some e)
  | inl state => if state =? ClusterStateActive then Done None else hz_ChangeClusterState nn ClusterStateActive
  end.

(** A nil client panics. *)
Definition clientConnectionMessage (nn : Kube.NamespacedName) : hprog string :=
  ask c <- Base (GetOrCreate nn) ;;
  match (c : fetched bool) with
  | Failed _ => Done "Operator failed to create connection to cluster, some features might be unavailable."
  | Found false => Crash
  | Found true =>
      ask connected <- IsClientConnected nn ;;
      if negb (connected : bool) then Done "Operator could not connect to the cluster. Some features might be unavailable." else
      ask all <- AreAllMembersAccessible nn ;;
      Done (if (all : bool) then "" else "Operator could not connect to all cluster members. Some features might be unavailable.")
  end.

(** ** Reconcile *)

Definition pending h (o : ReconcilerOption) (pre post : list HzStatusApplier) (sts : option StatefulSet) (err : option run_error) : rec :=
  members <- withMemberStatuses h err ;;
  update h o (pre ++ [members] ++ post ++ [withHzStatefulSet sts]).
Definition wait h (pre post : list HzStatusApplier) (sts : option StatefulSet) : rec :=
  pending h (recoptions_RetryAfter retryAfter) (withHzPhase Phase_Pending :: pre) post sts None.

Definition or_fail h (p : hprog (option error)) (k : rec) : rec :=
  err <- p ;; match err with Some e => failed h e | None => k end.
Definition or_fail_h (p : hprog (HazelcastCR * option error)) (k : HazelcastCR -> rec) : rec :=
  r <- p ;; match r with (h, Some e) => failed h e | (h, None) => k h end.

(** The cluster runs, with a client that is connected. *)
Definition reconcile_success (nn : Kube.NamespacedName) h (sts : StatefulSet) : rec :=
  (if IsPhoneHomeEnabled op_env && negb (IsSuccessfullyApplied h) then call TriggerPhoneHome else Done tt) ;;
  r <- updateLastSuccessfulConfiguration h ;;
  message <- clientConnectionMessage nn ;;
  pending r.1 recoptions_Empty [withHzPhase Phase_Running; withHzMessage message] [] (Some sts) None.
Definition reconcile_connected (nn : Kube.NamespacedName) h (newExecutorServices : option ExecutorServices) (sts : StatefulSet) : rec :=
  match newExecutorServices with
  | None => reconcile_success nn h sts
  | Some es =>
      ask all <- AreAllMembersAccessible nn ;;
      if negb (all : bool) then wait h [withHzMessage "Not all Hazelcast members are accessible!"] [] (Some sts) else
      base (addExecutorServices nn es) ;;
      reconcile_success nn h sts
  end.

(** The client is connected to an enterprise cluster. *)
Definition reconcile_client (nn : Kube.NamespacedName) h (newExecutorServices : option ExecutorServices) (sts : StatefulSet) : rec :=
  err <- ensureClusterActive h nn ;;
  match err with
  | Some _ => wait h [] [] (Some sts)
  | None =>
      ask connected <- IsClientConnected nn ;;
      if negb (connected : bool) then
        do_ StatusDelete nn ;;
        ask err <- ClientDelete nn ;;
        match (err : option error) with
        | Some e => wait h [withHzMessage (err_msg e)] [] (Some sts)
        | None => wait h [withHzMessage "Client is not connected to the cluster!"] [] (Some sts)
        end
      else reconcile_connected nn h newExecutorServices sts
  end.

(** The stateful set is ready.  A client that is nil is used. *)
Definition reconcile_cluster (nn : Kube.NamespacedName) h (newExecutorServices : option ExecutorServices) (sts : StatefulSet) : rec :=
  ask c <- Base (GetOrCreate nn) ;;
  match (c : fetched bool) with
  | Failed e => wait h [withHzMessage (err_msg e)] [] (Some sts)
  | Found have =>
      do_ StatusCreate nn ;;
      if negb have then Crash else
      enterprise <- isEnterpriseCluster h nn ;;
      match enterprise with
      | inr e => failed h e
      | inl false =>
          ask err <- DeleteO KStatefulSet sts ;;
          match (err : option error) with
          | Some e => Done (ctrl_Result_zero, Some e)
          | None => failed h illegalClusterType
          end
      | inl true => reconcile_client nn h newExecutorServices sts
      end
  end.

Definition reconcile_running (nn : Kube.NamespacedName) h (newExecutorServices : option ExecutorServices) : rec :=
  ask got <- GetO KStatefulSet nn ;;
  match (got : fetched StatefulSet) with
  | Failed e =>
      if IsNotFound e then wait h [] [withHzMessage ""] None
      else pending h (recoptions_Error e) [withHzFailedPhase (err_msg e)] [] None None
  | Found sts =>
      clusterSize <- lift (deref (s_ClusterSize (cr_spec h))) ;;
      run <- CheckIfRunning sts clusterSize ;;
      match run with
      | (true, _) => reconcile_cluster nn h newExecutorServices sts
      | (false, None) => wait h [] [withHzMessage ""] (Some sts)
      | (false, Some e) =>
          pending h (recoptions_Error (as_error e)) [withHzFailedPhase (err_msg (as_error e))] [] (Some sts) (Some e)
      end
  end.

(** The configuration, the stateful set, the startup action. *)
Definition reconcile_startup (nn : Kube.NamespacedName) h (newExecutorServices : option ExecutorServices) : rec :=
  err <- persistenceStartupAction h ;;
  match err with
  | Some _ => update h (recoptions_RetryAfter retryAfter) [withHzPhase Phase_Pending]
  | None => reconcile_running nn h newExecutorServices
  end.
Definition reconcile_workload (nn : Kube.NamespacedName) (newExecutorServices : option ExecutorServices) h : rec :=
  or_fail h (reconcileInitContainerConfig h) (
  or_fail h (reconcileMTLSSecret h) (
  r <- reconcileStatefulset h ;;
  match r with
  | (h, Some e) => if IsConflict e then Done (ctrl_Result_zero, None) else failed h e
  | (h, None) => reconcile_startup nn h newExecutorServices
  end)).
Definition new_executor_services h : sum (option ExecutorServices) error :=
  match h_Annotations (cr_hz h) !! n_LastSuccessfulSpecAnnotation with
  | None => inl None
  | Some s =>
      match unmarshalHazelcastSpec h s with
      | inr e => inr e
      | inl lastSpec => inl (Some (detectNewExecutorServices (cr_hz h) lastSpec))
      end
  end.
Definition reconcile_config (nn : Kube.NamespacedName) h : rec :=
  match new_executor_services h with
  | inr e => failed h e
  | inl es => or_fail_h (reconcileSecret h) (reconcile_workload nn es)
  end.

(** The objects around the stateful set, in this order. *)
Definition around h : list (hprog (option error)) :=
  [reconcileServiceAccount h; reconcileRole h; reconcileRoleBinding h] ++
  (if op_NodeDiscoveryEnabled op_env then [reconcileClusterRole h; reconcileClusterRoleBinding h] else []) ++
  [reconcileService h; reconcileWANServices h; reconcileServicePerPod h; reconcileHazelcastEndpoints op_env h;
   reconcileUnusedServicePerPod h].
Definition reconcile_objects (nn : Kube.NamespacedName) h : rec :=
  or_fail h (each id (around h)) (
  ready <- isServicePerPodReady h ;;
  if (ready : bool) then reconcile_config nn h
  else update h (recoptions_RetryAfter retryAfter) [withHzPhase Phase_Pending]).

(** The specification: its annotation, the defaults, the validation. *)
Definition fail_as (what : string) h (e : error) : rec :=
  update h (recoptions_Error e) [withHzFailedPhase (what ++ err_msg e)].
Definition store_mutated h (mutated : bool) (k : rec) : rec :=
  if mutated then
    ask err <- UpdateCR h ;;
    match (err : option error) with Some e => fail_as "error mutating new Spec: " h e | None => k end
  else k.
Definition reconcile_validated (nn : Kube.NamespacedName) h : rec :=
  ask c <- Observe ;;
  invalid <- lift (ValidateHazelcastSpec c (cr_hz h)) ;;
  match invalid with
  | Some e => fail_as "error validating Spec: " h e
  | None => reconcile_objects nn h
  end.
Definition reconcile_spec (nn : Kube.NamespacedName) h : rec :=
  let m := mutate_HazelcastSpec h in store_mutated m.1 m.2 (reconcile_validated nn m.1).
Definition isSpecChanged h : bool :=
  negb (bool_decide (h_Annotations (cr_hz h) !! n_LastAppliedSpecAnnotation = Some (spec_text h))).
Definition reconcile_live (nn : Kube.NamespacedName) h : rec :=
  if isSpecChanged h then or_fail_h (updateLastAppliedSpec h) (reconcile_spec nn)
  else if strb (ss_Message (cr_status h)) (err_msg illegalClusterType) then Done (ctrl_Result_zero, None)
  else reconcile_spec nn h.

Definition reconcile_deleted h : rec :=
  do_ StatusUpdateCR (apply_all [withHzPhase Phase_Terminating] h) ;;
  let h := apply_all [withHzPhase Phase_Terminating] h in
  r <- hz_executeFinalizer h ;;
  match r with
  | (h, Some e) => update h (recoptions_Error e) [withHzPhase Phase_Terminating; withHzMessage (err_msg e)]
  | (_, None) => Done (ctrl_Result_zero, None)
  end.

Definition HazelcastCR_zero : HazelcastCR :=
  mkHazelcastCR
    (mkHazelcast "" "" ∅ false
      (mkHazelcastSpec None "" "" None None None "" None None None None "" None [] None "" None [] [] [] None None None None)
      (mkHazelcastStatus 0 ""))
    (mkHazelcastMore "" "" "" [] None None (mkAgentConfiguration "" "" None) "" None ∅ "" [] "") "" []
    (mkStatusMore "" "" "" [] RestoreStatus_zero).

Definition Reconcile (nn : Kube.NamespacedName) : rec :=
  ask got <- GetCR nn ;;
  match (got : fetched HazelcastCR) with
  | Failed e => if IsNotFound e then Done (ctrl_Result_zero, None) else failed HazelcastCR_zero e
  | Found h =>
      or_fail_h (hz_AddFinalizer h) (fun h =>
      if h_Deleting (cr_hz h) then reconcile_deleted h else reconcile_live nn h)
  end.
End HzController.

(** ** What triggers a reconciliation *)

Definition getHazelcastCRName (pod : Pod) : option string :=
  if strb (default "" (pod_Labels pod !! n_ApplicationManagedByLabel)) n_OperatorName
     && strb (default "" (pod_Labels pod !! n_ApplicationNameLabel)) n_Hazelcast
  then Some (default "" (pod_Labels pod !! n_ApplicationInstanceNameLabel)) else None.
Definition podUpdates (pod : Pod) : list Kube.NamespacedName :=
  match getHazelcastCRName pod with Some name => [(pod_Namespace pod, name)] | None => [] end.

(** Resources that wait for the cluster do not change its configuration. *)
Definition mapUpdates (m : Map) : list Kube.NamespacedName :=
  if strb (st_State (r_Status m)) DataStructurePending then [] else [(r_Namespace m, ds_HazelcastResourceName (m_DataStructureSpec (r_Spec m)))].
Definition ucnUpdates (u : UserCodeNamespace) : list Kube.NamespacedName :=
  if strb (ucn_State (r_Status u)) UserCodeNamespacePending then [] else [(r_Namespace u, ucn_HazelcastResourceName (r_Spec u))].
