(* ===== verification/HzLogic.v ===== *)
(** * Reasoning about the programs of the Hazelcast controller

    [holds G p h Q] says of the executions of [p] after the history [h] what
    [wp] of Eff.v establishes; its rules do not look into a program of
    another world ([holds_base]), whose executions are those of the program
    in its own world ([exec_embed]). *)

From S2P Require Import Prelude Eff HotBackup FieldValidation HazelcastTypes HazelcastValidation Proto ConfigTypes Kube HzTypes HzObjects HzStatefulSet HzKube.
#[local] Open Scope prog_scope.

Section Holds.
Context `{F : Effects} (G : list event -> op -> Prop).

Definition holds {A} (p : prog A) (h : list event) (Q : list event -> A -> Prop) : Prop :=
  forall t o, exec p t o -> guarded G h t /\ forall a, o = Returned a -> Q (h ++ t) a.

Lemma holds_wp {A} (p : prog A) h Q : wp G p h Q -> holds p h Q.
Proof. intros Hw t o He. by apply (wp_sound G p h Q). Qed.

Lemma holds_ret {A} (a : A) h (Q : list event -> A -> Prop) : Q h a -> holds (Done a) h Q.
Proof. intros HQ. by apply holds_wp. Qed.

Lemma holds_crash {A} h (Q : list event -> A -> Prop) : holds Crash h Q.
Proof. by apply holds_wp. Qed.

Lemma holds_mono {A} (p : prog A) h (Q Q' : list event -> A -> Prop) :
  holds p h Q -> (forall h' a, h ⊆ h' -> Q h' a -> Q' h' a) -> holds p h Q'.
Proof.
  intros Hp HQ t o He. destruct (Hp t o He) as [Hg Hr]. split; [done|]. intros a Ha. apply HQ; [|by apply Hr].
  intros e. rewrite elem_of_app. auto.
Qed.

Lemma holds_vis {A} c (k : ans c -> prog A) h Q :
  G h c -> (forall x h', h ⊆ h' -> Ev c x ∈ h' -> holds (k x) h' Q) -> holds (Vis c k) h Q.
Proof.
  intros HG Hk t o (x & t' & -> & He).
  destruct (Hk x (h ++ [Ev c x])) with (t := t') (o := o) as [Hg HQ]; [..|done|].
  - intros e. rewrite elem_of_app. auto.
  - rewrite elem_of_app. right. by left.
  - split; [by split|]. intros a Ha. specialize (HQ a Ha). by rewrite <-app_assoc in HQ.
Qed.

Lemma holds_seq {A B} (p : prog A) (f : A -> prog B) h R Q :
  holds p h R -> (forall h' a, h ⊆ h' -> R h' a -> holds (f a) h' Q) -> holds (pbind p f) h Q.
Proof.
  intros Hp Hf t o [(a & t1 & t2 & -> & H1 & H2)|[[H1 ->]|[H1 ->]]]%exec_bind.
  - destruct (Hp _ _ H1) as [Hg1 Hr]. destruct (Hf (h ++ t1) a) with (t := t2) (o := o) as [Hg2 HQ]; [|by apply Hr|done|].
    { intros e. rewrite elem_of_app. auto. }
    split; [by apply guarded_app|]. intros b Hb. rewrite app_assoc. by apply HQ.
  - by split; [apply (Hp _ _ H1)|].
  - by split; [apply (Hp _ _ H1)|].
Qed.

Lemma holds_par {A R} n (ps : nat -> prog R) (k : list R -> nat -> prog A) (Qs : nat -> list event -> R -> Prop) h Q :
  (forall i, rwp G (ps i) h (Qs i)) ->
  (forall rs first h', length rs = n -> h ⊆ h' -> (forall i r, rs !! i = Some r -> Qs i h' r) -> holds (k rs first) h' Q) ->
  holds (Par n ps k) h Q.
Proof.
  intros Hps Hk t o (ts & rs & t1 & t2 & first & Hlt & Hlr & -> & Hi & Hexec & He).
  destruct (rwp_interleaved G ts t1 ps rs h Qs) as [Hg1 HQ1]; [done|congruence|done|done|].
  destruct (Hk rs first (h ++ t1)) with (t := t2) (o := o) as [Hg2 HQ2]; [done|..|done|done|].
  { intros e. rewrite elem_of_app. auto. }
  split; [by apply guarded_app|]. intros a Ha. rewrite app_assoc. by apply HQ2.
Qed.

Lemma holds_OnError `{RL : !RetryLib} {S : Type} (I : list event -> S -> Prop) steps retriable
    (fn : S -> prog (S * option error)) s h Q :
  (forall h' s', h ⊆ h' -> I h' s' -> holds (fn s') h' (fun h'' r => I h'' r.1 /\ Q h'' r)) ->
  I h s -> holds (OnError steps retriable fn s) h Q.
Proof.
  intros Hfn HI. pose proof (OnError_tree steps retriable fn s) as Ht.
  assert (Hgen : forall n p s h0, retry_tree fn retriable n s p -> h ⊆ h0 -> I h0 s -> holds p h0 Q).
  2: { by eapply Hgen. }
  clear s HI Ht. induction n as [|n IH]; intros p s h0 Hp; inversion Hp as [n' s0 k Hok Herr]; subst. intros Hs HI.
  eapply holds_seq; [by apply Hfn|]. intros h1 [s' [e|]] Hs1 [HI1 HQ]; [|rewrite Hok; by apply holds_ret].
  destruct (Herr s' e) as [->|[_ Ht]]; [by apply holds_ret|]. eapply IH; [exact Ht|by etrans|done].
Qed.

(** The guard at a call, and the outcome, of an execution. *)
Lemma holds_call {A} (p : prog A) t1 e t2 o Q : holds p [] Q -> exec p (t1 ++ e :: t2) o -> G t1 (ev_op e).
Proof. intros Hp He. destruct (Hp _ _ He) as [Hg _]. by apply (guarded_lookup G []) in Hg. Qed.
End Holds.

(** ** Executions of an embedded program *)

Section ExecEmbed.
Context {F1 F2 : Effects} (f : @op F1 -> @op F2) (g : forall o, @ans F2 (f o) -> @ans F1 o)
  (gi : forall o, @ans F1 o -> @ans F2 (f o)) (gig : forall o x, gi o (g o x) = x).

Definition lift_event (e : @event F1) : @event F2 := Ev (f (ev_op e)) (gi (ev_op e) (ev_ans e)).

Definition lift_trace (t : list (@event F1)) : list (@event F2) := @fmap list _ _ _ lift_event t.
Definition lift_events (ts : list (list (@event F1))) : list (list (@event F2)) := @fmap list _ _ _ lift_trace ts.

Lemma interleave_lift (ts0 : list (list (@event F1))) (ts : list (list (@event F2))) t :
  interleave ts t -> ts = lift_events ts0 ->
  exists t0, t = lift_trace t0 /\ interleave ts0 t0.
Proof.
  intros Hi. revert ts0. unfold lift_trace. induction Hi as [ts Hn|i e ti ts t Hti Hi IH]; intros ts0 ->.
  - exists []. split; [done|]. constructor. unfold lift_events in Hn. apply Forall_fmap in Hn. eapply Forall_impl; [exact Hn|].
    intros [|? ?]; [done|by intros [=]].
  - apply list_lookup_fmap_Some in Hti as (u & Eu & Hu). destruct u as [|e0 u]; [done|]. injection Eu as -> ->.
    destruct (IH (<[i := u]> ts0)) as (t0 & -> & Ht0); [unfold lift_events; by rewrite list_fmap_insert|].
    exists (e0 :: t0). split; [done|]. by eapply il_cons.
Qed.

Lemma exec_embed {A} (p : @prog F1 A) t o : exec (embed f g p) t o -> exists t0, t = lift_trace t0 /\ exec p t0 o.
Proof.
  revert t o. induction p as [A a|A|A|A c k IH|A R n ps IHp k IH]; intros t o; simpl.
  - intros [-> ->]. by exists [].
  - intros [-> ->]. by exists [].
  - intros [-> ->]. by exists [].
  - intros (x & t' & -> & (t0 & -> & He)%IH). exists (Ev c (g c x) :: t0). split; [|by exists (g c x), t0].
    unfold lift_trace. rewrite fmap_cons. f_equal. unfold lift_event. cbn. by rewrite gig.
  - intros (ts & rs & t1 & t2 & first & Hlt & Hlr & -> & Hi & Hps & (t20 & -> & He)%IH).
    assert (exists ts0, ts = lift_events ts0
              /\ forall i ti r, ts0 !! i = Some ti -> rs !! i = Some r -> exec (ps i) ti (Returned r)) as (ts0 & -> & Hps0).
    { assert (Hl : length ts = length rs) by congruence. clear Hi Hlt Hlr He.
      assert (Hps' : forall i ti r, ts !! i = Some ti -> rs !! i = Some r ->
                exists t0, ti = lift_trace t0 /\ exec (ps i) t0 (Returned r)).
      { intros i ti r Ht Hr. by apply IHp, (Hps i). }
      clear Hps IHp IH. revert rs ps Hl Hps'. induction ts as [|t ts IHts]; intros [|r rs] ps Hl Hps'; try done.
      - by exists [].
      - destruct (Hps' 0%nat t r eq_refl eq_refl) as (t0 & -> & H0).
        destruct (IHts rs (fun i => ps (S i))) as (ts0 & -> & Hts0); [by injection Hl|intros i; apply (Hps' (S i))|].
        exists (t0 :: ts0). split; [done|]. intros [|i] ti r' Ht Hr; [|by apply (Hts0 i)].
        injection Ht as ->. by injection Hr as ->. }
    apply (interleave_lift ts0) in Hi as (t10 & -> & Hi); [|done].
    exists (t10 ++ t20). split; [unfold lift_trace; by rewrite fmap_app|]. exists ts0, rs, t10, t20, first. unfold lift_events in Hlt; rewrite length_fmap in Hlt.
    by split_and!.
Qed.
End ExecEmbed.

Section Base.
Context `{P : Proto} `{QL : QuantityLib} `{Y : YamlLib} `{PT : PodTypes}.

Definition base_event (e : @event kube_effects) : @event hz_effects := Ev (Base (ev_op e)) (ev_ans e).

(** A program over the calls of Kube.v: the guard leaves these calls alone;
    what is known of its executions is known of its result. *)
Lemma holds_base (G : list event -> op -> Prop) {A} (p : @prog kube_effects A) h (Q : list event -> A -> Prop) :
  (forall h c, G h (Base c)) ->
  (forall t a, @exec kube_effects A p t (Returned a) -> Q (h ++ @fmap list _ _ _ base_event t) a) ->
  holds G (base p) h Q.
Proof.
  intros HG HQ t o He.
  apply (@exec_embed kube_effects hz_effects Base (fun o x => x) (fun o x => x)) in He as (t0 & -> & He); [|done].
  split.
  - clear He HQ. revert h. induction t0 as [|e t0 IH]; intros h; simpl; [done|]. split; [apply HG|apply IH].
  - intros a ->. by apply HQ.
Qed.

Lemma holds_lift (G : list event -> op -> Prop) {A} (r : res A) h (Q : list event -> A -> Prop) :
  (forall a, r = Ret a -> Q h a) -> holds G (lift r) h Q.
Proof. intros HQ. destruct r; [by apply holds_ret, HQ|by apply holds_wp..]. Qed.
End Base.

(** ** controllerutil *)

Section CreateOrUpdate.
Context `{P : Proto} `{QL : QuantityLib} `{Y : YamlLib} `{PT : PodTypes} `{CU : !ControllerUtil}.
Context (G : list (@event hz_effects) -> @op hz_effects -> Prop).

(** What the server has after a successful call: the object was written, or
    what was read is equal to it. *)
Definition stored (k : okind) (o : oobj k) (t : list (@event hz_effects)) : Prop :=
  Ev (CreateO k o : @op hz_effects) None ∈ t \/ Ev (UpdateO k o : @op hz_effects) None ∈ t
  \/ exists o0, Ev (GetO k (okey k o) : @op hz_effects) (Found o0) ∈ t /\ Semantic_DeepEqual k (decoded k o0) o = true.
(** The server rejected a request for an object of the kind as invalid. *)
Definition invalid_answer (k : okind) (t : list (@event hz_effects)) : Prop :=
  exists e, IsInvalid e = true
  /\ ((exists o, Ev (CreateO k o : @op hz_effects) (Some e) ∈ t) \/ (exists o, Ev (UpdateO k o : @op hz_effects) (Some e) ∈ t)
      \/ exists nn, Ev (GetO k nn : @op hz_effects) (Failed e) ∈ t).

Lemma stored_mono k o t t' : t ⊆ t' -> stored k o t -> stored k o t'.
Proof. intros Ht [H|[H|(o0 & H & E)]]; [left|right; left|right; right; exists o0; split; [|done]]; by apply Ht. Qed.
Lemma invalid_answer_mono k t t' : t ⊆ t' -> invalid_answer k t -> invalid_answer k t'.
Proof.
  intros Ht (e & He & H). exists e. split; [done|].
  destruct H as [[o H]|[[o H]|[o H]]]; [left|right; left|right; right]; exists o; by apply Ht.
Qed.

Definition writable (k : okind) (o : oobj k) (t : list (@event hz_effects)) : Prop :=
  G t (CreateO k o) /\ G t (UpdateO k o).

Context {S : Type} (k : okind) (I : list (@event hz_effects) -> S -> Prop)
  (R : S -> oobj k -> list (@event hz_effects) -> Prop) (B : error -> Prop).
Context (HImono : forall t t' s, t ⊆ t' -> I t s -> I t' s) (HRmono : forall t t' s o, t ⊆ t' -> R s o t -> R s o t').
Context (HGget : forall t nn, G t (GetO k nn)).

(** The closure keeps [I] of what it captures; it fails with an error in [B]
    or leaves an object that may be written and satisfies [R]. *)
Definition mutates (f : S -> oobj k -> hprog (S * oobj k * option error)) (h : list (@event hz_effects)) (s : S) (o : oobj k)
  : Prop :=
  holds G (f s o) h (fun h' r => I h' r.1.1
    /\ match r.2 with Some e => B e | None => writable k r.1.2 h' /\ R r.1.1 r.1.2 h' end).

(** From the object of the caller, or one that was read. *)
Definition given (o o1 : oobj k) (h : list (@event hz_effects)) : Prop :=
  o1 = o \/ exists o0, o1 = decoded k o0 /\ Ev (GetO k (okey k o) : @op hz_effects) (Found o0) ∈ h.

(** An error the closure did not make is one of the server. *)
Definition error_from (e : error) (t : list (@event hz_effects)) : Prop := B e \/ (IsInvalid e = true -> invalid_answer k t).

Lemma holds_run_mutate f h s o key : mutates f h s o ->
  holds G (run_mutate k key f s o) h (fun h' r => I h' r.1.1 /\
    match r.2 with Some e => B e \/ IsInvalid e = false | None => okey k r.1.2 = key /\ writable k r.1.2 h' /\ R r.1.1 r.1.2 h' end).
Proof.
  intros Hf. unfold run_mutate. eapply holds_seq; [exact Hf|]. intros h' [[s' o'] [e|]] Hs [HI Hr].
  - apply holds_ret. split; [done|by left].
  - destruct Hr as [Hw HR]. case_decide as Hk; apply holds_ret; (split; [done|]); [done|by right].
Qed.

Lemma holds_CreateOrUpdate f h s o Q :
  I h s -> (forall h' o1, h ⊆ h' -> given o o1 h' -> mutates f h' s o1) ->
  (forall h' s' o', h ⊆ h' -> I h' s' -> R s' o' h' -> stored k o' h' -> Q h' (s', o', None)) ->
  (forall h' s' o' e, h ⊆ h' -> I h' s' -> error_from e h' -> Q h' (s', o', Some e)) ->
  holds G (controllerutil_CreateOrUpdate k f s o) h Q.
Proof.
  intros HI Hf HQ HE. rewrite CreateOrUpdate_behaviour. apply holds_vis; [apply HGget|]. intros [o0|e] h1 Hs1 E1.
  - eapply holds_seq; [apply holds_run_mutate, Hf; [done|right; eauto]|].
    intros h2 [[s' o'] [e|]] Hs2 [HI2 Hr].
    { apply holds_ret, HE; [by etrans|done|]. destruct Hr as [Hr|Hr]; [by left|right; by rewrite Hr]. }
    destruct Hr as (Hk & [HC HU] & HR). destruct (Semantic_DeepEqual _ _ _) eqn:Eq.
    + apply holds_ret, HQ; [by etrans|done|done|]. right; right. exists o0. simpl in *. rewrite Hk. split; [|done]. by apply Hs2.
    + apply holds_vis; [done|]. intros [e|] h3 Hs3 E3; apply holds_ret; [apply HE|apply HQ]; try (by repeat (etrans; [eassumption|])).
      * by eapply HImono.
      * right. intros He. exists e. split; [done|]. right; left. by exists o'.
      * by eapply HImono.
      * by eapply HRmono.
      * right; left. done.
  - destruct (IsNotFound e) eqn:En.
    2: { apply holds_ret, HE; [done|by eapply HImono|]. right. intros He. exists e. split; [done|]. right; right. by exists (okey k o). }
    eapply holds_seq; [apply holds_run_mutate, Hf; [done|by left]|].
    intros h2 [[s' o'] [e'|]] Hs2 [HI2 Hr].
    { apply holds_ret, HE; [by etrans|done|]. destruct Hr as [Hr|Hr]; [by left|right; by rewrite Hr]. }
    destruct Hr as (Hk & [HC HU] & HR).
    apply holds_vis; [done|]. intros [e'|] h3 Hs3 E3; apply holds_ret; [apply HE|apply HQ]; try (by repeat (etrans; [eassumption|])).
    + by eapply HImono.
    + right. intros He. exists e'. split; [done|]. left. by exists o'.
    + by eapply HImono.
    + by eapply HRmono.
    + by left.
Qed.

(** [util.CreateOrUpdateForce]: an object is deleted after an error that says
    it is invalid. *)
Lemma holds_Force_with f h s o Q :
  (forall h' o' e, h ⊆ h' -> error_from e h' -> IsInvalid e = true -> G h' (DeleteO k o')) ->
  I h s -> (forall h' s' o1, h ⊆ h' -> I h' s' -> mutates f h' s' o1) ->
  (forall h' s' o' err, h ⊆ h' -> I h' s' -> Q h' (s', o', err)) ->
  holds G (util_CreateOrUpdateForce k f s o) h Q.
Proof.
  intros HD HI Hf HQ. unfold util_CreateOrUpdateForce.
  eapply (holds_seq _ _ _ _ (fun h' r => I h' r.1.1 /\ match r.2 with Some e => error_from e h' | None => True end)).
  { apply holds_CreateOrUpdate; [done|intros h' o1 Hs _; apply Hf; [done|by eapply HImono]|done..]. }
  intros h1 [[s1 o1] [e|]] Hs1 [HI1 He]; [|by apply holds_ret, HQ].
  destruct (IsAlreadyExists e); [by apply holds_ret, HQ|]. destruct (IsInvalid e) eqn:Ei; [|by apply holds_ret, HQ].
  apply holds_vis; [by apply (HD h1 o1 e)|]. intros [e'|] h2 Hs2 E2; [apply holds_ret, HQ; [by etrans|by eapply HImono]|].
  apply holds_CreateOrUpdate; [by eapply HImono|..].
  - intros h' o2 Hs _. apply Hf; [by repeat (etrans; [eassumption|])|]. eapply HImono; [|done]. by etrans.
  - intros h' s' o' Hs ? _ _. apply HQ; [by repeat (etrans; [eassumption|])|done].
  - intros h' s' o' e2 Hs ? _. apply HQ; [by repeat (etrans; [eassumption|])|done].
Qed.

(** When the closure does not fail so, the server rejected the object. *)
Lemma holds_Force f h s o Q :
  (forall e, B e -> IsInvalid e = false) ->
  (forall h' o', h ⊆ h' -> invalid_answer k h' -> G h' (DeleteO k o')) ->
  I h s -> (forall h' s' o1, h ⊆ h' -> I h' s' -> mutates f h' s' o1) ->
  (forall h' s' o' err, h ⊆ h' -> I h' s' -> Q h' (s', o', err)) ->
  holds G (util_CreateOrUpdateForce k f s o) h Q.
Proof.
  intros HB HD HI Hf HQ. apply holds_Force_with; [|done..]. intros h' o' e Hs He Ei. apply HD; [done|].
  destruct He as [He%HB|He]; [congruence|by apply He].
Qed.
End CreateOrUpdate.
