(* ===== verification/HzControllerFacts.v ===== *)
(** * What the Hazelcast controller does, and when

    Every call of a reconciliation that changes something is justified by the
    calls before it: [G] collects the justifications, [holds_Reconcile] shows
    that [Reconcile] keeps to them, and the theorems read them off. *)

From S2P Require Import Prelude Eff HotBackup FieldValidation Json GoPath GoNet HazelcastTypes DataStructureTypes HazelcastValidation MapValidation ConfigTypes Proto CodecBuiltin CodecTypes CodecExtra CodecRequests DataStructureConfig DataStructureValidation WanTypes JetJobValidation HazelcastConfig CustomConfig Kube WanController ConfigSecret HazelcastConfigFacts HzTypes HzObjects HzStatefulSet HzKube HzServices HzSecrets HzStatus HzController HzLogic.
#[local] Open Scope prog_scope.
#[local] Open Scope string_scope.
#[local] Open Scope list_scope.
#[local] Open Scope Z_scope.

Section Facts.
Context `{P : Proto} `{R : MapRange} `{EJ : EventJson} `{QL : QuantityLib} `{Y : YamlLib} `{YT : !YamlTree}.
Context `{HZJ : !HazelcastJson} `{MJ : !MapJson} `{KE : KErrors} `{JT : JsonText} `{PT : PodTypes} `{HS : HzSecretLib}.
Context `{YV : YamlValid} `{SM : SortByMin} `{HL : !HzLib} `{SL : SelectorLib} `{HJ : !HzSpecJson}.
Context `{CU : !ControllerUtil} `{RL : @RetryLib hz_effects}.
Context (op_env : Operator) (frames : nat) (nn : Kube.NamespacedName).
Implicit Types h : HazelcastCR.
Abbreviation trace := (list (@event hz_effects)).
Abbreviation Call := (@Ev hz_effects).
Implicit Types t : trace.

(** ** The resource a reconciliation works on *)

Definition read t h0 : Prop := Call (GetCR nn) (Found h0) ∈ t.
(** Its specification with the defaults, and with other properties. *)
Definition spec0 h0 : HazelcastSpec := cr_spec (mutate_HazelcastSpec h0).1.
Definition at_properties (s : HazelcastSpec) (p : gmap string string) : HazelcastSpec :=
  h_Spec (set_Properties (mkHazelcast "" "" ∅ false s (mkHazelcastStatus 0 "")) p).
Definition spec_like (s s' : HazelcastSpec) : Prop := s' = s \/ exists p, s' = at_properties s p.

Record derived h0 h : Prop := {
  d_key : cr_key h = cr_key h0;
  d_deleting : h_Deleting (cr_hz h) = h_Deleting (cr_hz h0);
  d_finalizer : n_Finalizer ∈ cr_Finalizers h;
  d_status : h_Status (cr_hz h) = h_Status (cr_hz h0);
  d_more_status : cr_status h = cr_status h0;
}.
Record live t h0 h : Prop := {
  l_read : read t h0;
  l_deleting : h_Deleting (cr_hz h0) = false;
  l_derived : derived h0 h;
  l_spec : spec_like (spec0 h0) (cr_spec h);
}.

(** The specification was found valid. *)
Definition valid t h0 : Prop :=
  exists c hv, Call Observe c ∈ t /\ ValidateHazelcastSpec c (cr_hz hv) = Ret None
  /\ cr_spec hv = spec0 h0 /\ cr_key hv = cr_key h0.
Definition validated t h0 : Prop := read t h0 /\ h_Deleting (cr_hz h0) = false /\ valid t h0.

(** The secret of the cluster holds the document [hazelcastConfig] made of
    the answers in this reconciliation. *)
Definition config_stored t h0 : Prop :=
  exists s d config z z' tr, stored KSecret s t /\ sec_Data s = Some d /\ sd_Config d = Some config
  /\ exec (hazelcastConfig z) tr (Returned (z', Found config))
  /\ @fmap list _ _ _ base_event tr ⊆ t /\ spec_like (spec0 h0) (h_Spec z) /\ (h_Namespace z, h_Name z) = cr_key h0.

(** A member said whether the cluster is an enterprise cluster. *)
Definition enterprise t h0 (b : bool) : Prop :=
  exists uuid req resp r, Call (Base (InvokeOnRandomTarget nn req)) (Found resp) ∈ t
  /\ EncodeClientAuthenticationRequest (cr_name h0) "" "" uuid "GOO" x01 "1.5.0" "operator" [] = Ret req
  /\ DecodeClientAuthenticationResponse frames resp = Ret r /\ auth_failoverSupported r = b.

Definition ready t h0 : Prop :=
  exists sts n, Call (GetO KStatefulSet nn) (Found sts) ∈ t /\ s_ClusterSize (cr_spec h0) = Some n
  /\ rolled_out sts n.
Definition running t : Prop :=
  exists h0, validated t h0 /\ config_stored t h0 /\ ready t h0 /\ enterprise t h0 true
  /\ Call (IsClientConnected nn) true ∈ t.

(** ** The end of a resource *)

(** The object of the cluster was not found, or the one that was read was
    deleted; when it could not be read, an object without a name was deleted,
    which an API server refuses. *)
Inductive gone (k : okind) t h0 : Prop :=
| gone_not_found e : Call (GetO k ("", ClusterScopedName h0)) (Failed e) ∈ t -> IsNotFound e = true -> gone k t h0
| gone_deleted o : Call (GetO k ("", ClusterScopedName h0)) (Found o) ∈ t -> Call (DeleteO k o) None ∈ t -> gone k t h0
| gone_unread e o : Call (GetO k ("", ClusterScopedName h0)) (Failed e) ∈ t -> om_Name (ometa k o) = "" ->
    Call (DeleteO k o) None ∈ t -> gone k t h0.
Definition no_dependents t h0 : Prop := forall k, Call (ListDependents k (cr_ns h0) (cr_name h0)) (Found []) ∈ t.
Definition released t h0 : Prop :=
  no_dependents t h0
  /\ (op_NodeDiscoveryEnabled op_env = true -> gone KClusterRole t h0 /\ gone KClusterRoleBinding t h0)
  /\ Call (StatusDelete (cr_key h0)) tt ∈ t /\ Call (ClientDelete (cr_key h0)) None ∈ t.

(** ** Deletions that are meant *)

(** A service per pod behind the last pod, up to the number recorded at the
    stateful set. *)
Definition unused_service t (s : Service) : Prop :=
  exists h0 h sts p i, validated t h0 /\ live t h0 h
  /\ Call (GetO KStatefulSet (cr_key h0)) (Found sts) ∈ t
  /\ Atoi (default "" (om_Annotations (sts_Meta sts) !! n_ServicePerPodCountAnnotation)) = Some p /\ i < p
  /\ (is_smart h = true -> exists n, s_ClusterSize (cr_spec h0) = Some n /\ n <= i)
  /\ Call (GetO KService (svc_key i h)) (Found s) ∈ t.
(** An endpoint of no service that is there. *)
Definition leftover_endpoint t (e : HazelcastEndpoint) : Prop :=
  exists h es svcs, Call (ListO KEndpoint (cr_ns h) (util_Labels h)) (Found es) ∈ t /\ e ∈ es
  /\ Call (ListO KService (cr_ns h) (util_Labels h)) (Found svcs) ∈ t
  /\ forall s v l e', s ∈ svcs -> default ∅ (om_Labels (svc_Meta s)) !! n_ServiceEndpointTypeLabelName = Some v ->
       endpoints_of h s v = Some l -> e' ∈ l -> om_Name (he_Meta e') <> om_Name (he_Meta e).
Definition being_deleted t : Prop := exists h0, read t h0 /\ h_Deleting (cr_hz h0) = true.
Definition meant (k : okind) : oobj k -> trace -> Prop :=
  match k with
  | KStatefulSet => fun _ t => exists h0, validated t h0 /\ enterprise t h0 false
  | KService => fun s t => unused_service t s
  | KEndpoint => fun e t => leftover_endpoint t e
  | KClusterRole | KClusterRoleBinding => fun _ t => being_deleted t
  | _ => fun _ _ => False
  end.

(** ** The guard *)

Definition written_as (k : okind) : oobj k -> trace -> HazelcastCR -> Prop :=
  match k with
  | KStatefulSet => fun sts t h0 => config_stored t h0 /\ sts_Replicas sts = s_ClusterSize (cr_spec h0)
  | _ => fun _ _ _ => True
  end.
Definition write_ok (k : okind) (o : oobj k) t : Prop := exists h0, validated t h0 /\ written_as k o t h0.
(** The REST API is asked for the startup action of a cluster that does not
    run. *)
Definition startup_ok t (url data : string) : Prop :=
  exists h0 p, validated t h0 /\ config_stored t h0 /\ cr_phase h0 <> Phase_Running
  /\ s_Persistence (cr_spec h0) = Some p
  /\ ((p_StartupAction p = ForceStart /\ url = (RestUrl (cr_name h0) (cr_ns h0) ++ rest_forceStart)%string)
      \/ (p_StartupAction p = PartialStart /\ url = (RestUrl (cr_name h0) (cr_ns h0) ++ rest_partialStart)%string))
  /\ data = (s_ClusterName (cr_spec h0) ++ "&")%string.

Definition G t (c : @op hz_effects) : Prop :=
  match c with
  | CreateO k o | UpdateO k o => write_ok k o t
  | DeleteO k o => invalid_answer k t \/ meant k o t
  | EndpointStatusUpdate _ => exists h0, validated t h0
  | UpdateCR h => n_Finalizer ∈ cr_Finalizers h \/ exists h0, read t h0 /\ cr_key h = cr_key h0 /\ released t h0
  | StatusUpdateCR h => cr_phase h = Phase_Running -> running t
  | DeleteDependent _ _ => being_deleted t
  | HttpPost url data => startup_ok t url data
  | _ => True
  end.

Definition quiet (c : hz_op) : bool :=
  match c with
  | CreateO _ _ | UpdateO _ _ | DeleteO _ _ | EndpointStatusUpdate _ | UpdateCR _ | StatusUpdateCR _
  | DeleteDependent _ _ | HttpPost _ _ => false
  | _ => true
  end.
Lemma G_quiet t (c : hz_op) : quiet c = true -> G t c.
Proof. by destruct c. Qed.

(** ** What holds of a history holds of a longer one *)

Section Mono.
Context (t t' : trace) (Ht : t ⊆ t').
Lemma valid_mono h0 : valid t h0 -> valid t' h0.
Proof. intros (c & hv & E & H). exists c, hv. split; [by apply Ht|done]. Qed.
Lemma validated_mono h0 : validated t h0 -> validated t' h0.
Proof. intros (Hr & Hd & Hv). split; [by apply Ht|]. split; [done|by apply valid_mono]. Qed.
Lemma live_mono h0 h : live t h0 h -> live t' h0 h.
Proof. intros []. constructor; [by apply Ht|done..]. Qed.
Lemma config_stored_mono h0 : config_stored t h0 -> config_stored t' h0.
Proof.
  intros (s & d & config & z & z' & tr & H1 & H2 & H3 & H4 & H5 & H6). exists s, d, config, z, z', tr.
  split; [by eapply stored_mono|]. do 3 (split; [done|]). split; [by etrans|done].
Qed.
Lemma hz_ready_mono h0 : ready t h0 -> ready t' h0.
Proof. intros (sts & n & E & H). exists sts, n. split; [by apply Ht|done]. Qed.
Lemma enterprise_mono h0 b : enterprise t h0 b -> enterprise t' h0 b.
Proof. intros (u & req & resp & r & E & H). exists u, req, resp, r. split; [by apply Ht|done]. Qed.
End Mono.

(** ** The resource in the hands of the controller *)

Lemma spec_like_trans s p s' : spec_like s s' -> spec_like s (at_properties s' p).
Proof. intros [->|[q ->]]; right; by exists p. Qed.

Lemma spec_like_props h0 h p : spec_like (spec0 h0) (cr_spec h) ->
  spec_like (spec0 h0) (cr_spec (set_hz h (set_Properties (cr_hz h) p))).
Proof. intros H. by apply (spec_like_trans _ p) in H. Qed.

(** What the defaults and other properties leave alone. *)
Lemma spec_like_fields s s' : spec_like s s' ->
  s_ClusterSize s' = s_ClusterSize s /\ s_Persistence s' = s_Persistence s /\ s_ClusterName s' = s_ClusterName s
  /\ s_ExposeExternally s' = s_ExposeExternally s.
Proof. by intros [->|[p ->]]. Qed.
Lemma spec0_fields h0 :
  s_ClusterSize (spec0 h0) = s_ClusterSize (cr_spec h0) /\ s_Persistence (spec0 h0) = s_Persistence (cr_spec h0)
  /\ s_ClusterName (spec0 h0) = s_ClusterName (cr_spec h0) /\ s_ExposeExternally (spec0 h0) = s_ExposeExternally (cr_spec h0).
Proof. unfold spec0, mutate_HazelcastSpec. by destruct (_ && _). Qed.
Lemma live_fields t h0 h : live t h0 h ->
  s_ClusterSize (cr_spec h) = s_ClusterSize (cr_spec h0) /\ s_Persistence (cr_spec h) = s_Persistence (cr_spec h0)
  /\ s_ClusterName (cr_spec h) = s_ClusterName (cr_spec h0) /\ s_ExposeExternally (cr_spec h) = s_ExposeExternally (cr_spec h0).
Proof.
  intros [_ _ _ Hs]. destruct (spec_like_fields _ _ Hs) as (-> & -> & -> & ->). apply spec0_fields.
Qed.
Lemma derived_name h0 h : derived h0 h -> cr_name h = cr_name h0 /\ cr_ns h = cr_ns h0.
Proof. intros [Hk _ _ _ _]. unfold cr_key in Hk. by injection Hk. Qed.

(** ** Calls that need no justification *)

Abbreviation runs p t := (holds G p t (fun _ _ => True)).

Lemma holds_quiet {A} (c : hz_op) (k : hz_ans c -> hprog A) t Q :
  quiet c = true -> (forall x t', t ⊆ t' -> Call c x ∈ t' -> holds G (k x) t' Q) -> holds G (Vis (c : @op hz_effects) k) t Q.
Proof. intros Hc Hk. apply holds_vis; [by apply G_quiet|exact Hk]. Qed.

Lemma runs_seq {A B} (p : hprog A) (f : A -> hprog B) t Rp :
  holds G p t Rp -> (forall t' a, t ⊆ t' -> Rp t' a -> runs (f a) t') -> runs (pbind p f) t.
Proof. apply holds_seq. Qed.

Lemma holds_true {A} (p : hprog A) t Q : holds G p t Q -> runs p t.
Proof. intros Hp. eapply holds_mono; [exact Hp|done]. Qed.

Lemma holds_any {A B} (p : hprog A) (f : A -> hprog B) t Q :
  runs p t -> (forall t' a, t ⊆ t' -> holds G (f a) t' Q) -> holds G (pbind p f) t Q.
Proof. intros Hp Hf. eapply holds_seq; [exact Hp|]. intros t' a Ht _. by apply Hf. Qed.
Lemma runs_ret {A} (a : A) t : runs (Done a) t.
Proof. by apply holds_ret. Qed.
Lemma runs_lift {A} (r : res A) t : runs (lift r) t.
Proof. by apply holds_lift. Qed.
Lemma runs_base {A} (p : @prog kube_effects A) t : runs (base p) t.
Proof. apply holds_base; [|done]. intros t' c. exact I. Qed.

(** ** The status *)

Lemma runs_update h o opts t :
  (cr_phase (apply_all opts h) = Phase_Running -> running t) -> runs (update h o opts) t.
Proof.
  intros Hr. unfold update. apply holds_vis; [exact Hr|]. intros [e|] t' _ _; [by apply holds_ret|].
  destruct (ro_Err o); [by apply holds_ret|]. destruct (strb _ _); by apply holds_ret.
Qed.

Definition neutral (a : HzStatusApplier) : bool :=
  match a with withHzPhase _ | withHzFailedPhase _ => false | _ => true end.
Lemma apply_neutral a st : neutral a = true -> st_Phase (HzStatusApply a st).1 = st_Phase st.1.
Proof. by destruct a, st as []. Qed.
Lemma apply_all_neutral l st : forallb neutral l = true -> st_Phase (foldl (fun st a => HzStatusApply a st) st l).1 = st_Phase st.1.
Proof.
  revert st. induction l as [|a l IH]; intros st; [done|]. cbn [forallb foldl]. intros [Ha Hl]%andb_true_iff.
  by rewrite IH, apply_neutral.
Qed.
Lemma apply_all_phase a l h : forallb neutral l = true ->
  cr_phase (apply_all (a :: l) h) = st_Phase (HzStatusApply a (h_Status (cr_hz h), cr_status h)).1.
Proof. intros Hl. unfold apply_all, cr_phase, set_cr_status. cbn. by apply apply_all_neutral. Qed.

Lemma runs_phase h o p l t : forallb neutral l = true -> (p = Phase_Running -> running t) ->
  runs (update h o (withHzPhase p :: l)) t.
Proof. intros Hl Hp. apply runs_update. by rewrite apply_all_phase. Qed.
Lemma runs_failed_phase h o m l t : forallb neutral l = true -> runs (update h o (withHzFailedPhase m :: l)) t.
Proof. intros Hl. apply runs_update. by rewrite apply_all_phase. Qed.
Lemma runs_failed h e t : runs (failed h e) t.
Proof. by apply runs_failed_phase. Qed.

Lemma holds_withMemberStatuses h err t :
  holds G (withMemberStatuses h err) t (fun _ a => neutral a = true).
Proof.
  unfold withMemberStatuses. apply holds_quiet; [done|]. intros [st|] t1 _ _; [|by apply holds_ret].
  apply holds_quiet; [done|]. intros have t2 _ _. apply holds_any.
  { destruct (have : bool); [|apply runs_ret].
    unfold call. apply holds_quiet; [done|]. intros c t3 _ _. apply runs_ret. }
  intros t3 c _. apply holds_any.
  { destruct (c : bool); [|apply runs_ret]. apply holds_any; [apply runs_lift|]. intros t4 n _. apply runs_ret. }
  intros t4 rm _. apply holds_any.
  { unfold hzMemberPods. apply holds_quiet; [done|]. intros [l|e] t5 _ _; apply runs_ret. }
  intros t5 pods _. by apply holds_ret.
Qed.

Lemma runs_pending h o p pre post sts err t :
  forallb neutral pre = true -> forallb neutral post = true -> (p = Phase_Running -> running t) ->
  runs (pending h o (withHzPhase p :: pre) post sts err) t.
Proof.
  intros Hpre Hpost Hp. unfold pending. eapply runs_seq; [apply holds_withMemberStatuses|].
  intros t' a Ht Ha. apply runs_phase.
  - rewrite !forallb_app. cbn. by rewrite Hpre, Hpost, Ha.
  - intros E. destruct (Hp E) as (h0 & H1 & H2 & H3 & H4 & H5). exists h0.
    split; [by eapply validated_mono|]. split; [by eapply config_stored_mono|]. split; [by eapply hz_ready_mono|].
    split; [by eapply enterprise_mono|by apply Ht].
Qed.
Lemma runs_pending_failed h o m sts err t : runs (pending h o [withHzFailedPhase m] [] sts err) t.
Proof.
  unfold pending. eapply runs_seq; [apply holds_withMemberStatuses|]. intros t' a Ht Ha.
  apply runs_failed_phase. cbn. by rewrite Ha.
Qed.
Lemma runs_wait h pre post sts t : forallb neutral pre = true -> forallb neutral post = true ->
  runs (wait h pre post sts) t.
Proof. intros. by apply runs_pending. Qed.

(** ** The objects around the stateful set *)

Section Around.
Context (h0 h : HazelcastCR).
(** [h] is what the controller makes of [h0], whose specification is valid. *)
Definition on t : Prop := live t h0 h /\ valid t h0.
Lemma on_mono t t' : t ⊆ t' -> on t -> on t'.
Proof. intros Ht [Hl Hv]. split; [by eapply live_mono|by eapply valid_mono]. Qed.
Lemma on_validated t : on t -> validated t h0.
Proof. intros [[Hr Hd _ _] Hv]. by split. Qed.

Lemma plain_writable k o t : k <> KStatefulSet -> on t -> writable G k o t.
Proof.
  intros Hk Hon. assert (write_ok k o t) as Hw by (exists h0; split; [by apply on_validated|by destruct k]).
  by split.
Qed.

Lemma pure_mutates k (f : oobj k -> res (oobj k)) t s o : k <> KStatefulSet -> on t ->
  mutates G k (fun _ _ => True) (fun _ _ _ => True) (fun _ => False) (pure_mutate f) t s o.
Proof.
  intros Hk Hon. unfold mutates, pure_mutate. apply holds_any; [apply runs_lift|]. intros t1 o1 Ht1.
  apply holds_ret. split; [done|]. split; [|done]. apply plain_writable; [done|by eapply on_mono].
Qed.

Lemma holds_util_Force k (f : oobj k -> res (oobj k)) o t Q : k <> KStatefulSet -> on t ->
  (forall t' r, t ⊆ t' -> Q t' r) -> holds G (util_CreateOrUpdateForce k (pure_mutate f) tt o) t Q.
Proof.
  intros Hk Hon HQ. apply (holds_Force G k (fun _ _ => True) (fun _ _ _ => True) (fun _ => False)); try done.
  - intros t' o' Ht Hi. by left.
  - intros t' s' o1 Ht _. apply pure_mutates; [done|by eapply on_mono].
  - intros t' s' o' err Ht _. by apply HQ.
Qed.

Lemma runs_force k (f : oobj k -> res (oobj k)) o t : k <> KStatefulSet -> on t -> runs (force f o) t.
Proof. intros Hk Hon. apply holds_any; [by apply holds_util_Force|]. intros t' r _. apply runs_ret. Qed.

Lemma runs_create_or_update k (f : oobj k -> res (oobj k)) o t : k <> KStatefulSet -> on t -> runs (create_or_update f o) t.
Proof.
  intros Hk Hon. apply holds_any; [|intros t' r _; apply runs_ret]. unfold util_CreateOrUpdate.
  apply holds_any; [|intros t' [[s' o'] [e|]] _; apply runs_ret].
  apply (holds_CreateOrUpdate G k (fun _ _ => True) (fun _ _ _ => True) (fun _ => False)); try done.
  intros t' o1 Ht _. apply pure_mutates; [done|by eapply on_mono].
Qed.

Lemma runs_with_owner what owner m kk t : (forall m', runs (kk m') t) -> runs (with_owner what owner m kk) t.
Proof. intros Hk. unfold with_owner. destruct (SetControllerReference _ _); [apply Hk|apply runs_ret]. Qed.

Lemma runs_each {A} (f : A -> hprog (option error)) l t :
  (forall a t', a ∈ l -> t ⊆ t' -> runs (f a) t') -> runs (each f l) t.
Proof.
  revert t. induction l as [|a l IH]; intros t Hf; cbn [each]; [apply runs_ret|].
  apply holds_any; [apply Hf; [by left|done]|]. intros t' [e|] Ht; [apply runs_ret|].
  apply IH. intros b t'' Hb Ht'. apply Hf; [by right|by etrans].
Qed.

(** Services per pod. *)
Lemma runs_remove_pod_service sts p i t : on t ->
  Call (GetO KStatefulSet (cr_key h0)) (Found sts) ∈ t ->
  Atoi (default "" (om_Annotations (sts_Meta sts) !! n_ServicePerPodCountAnnotation)) = Some p -> i < p ->
  (is_smart h = true -> exists n, s_ClusterSize (cr_spec h0) = Some n /\ n <= i) ->
  runs (remove_pod_service h i) t.
Proof.
  intros Hon Hsts Hp Hi Hsize. unfold remove_pod_service. apply holds_quiet; [done|].
  intros [s|e] t1 Ht1 E1; [|apply runs_ret]. apply holds_vis.
  - right. exists h0, h, sts, p, i. split; [by eapply validated_mono, on_validated|].
    split; [eapply live_mono, Hon; done|]. split; [by apply Ht1|done].
  - intros [e|] t2 _ _; apply runs_ret.
Qed.
Lemma runs_unused t : on t -> runs (reconcileUnusedServicePerPod h) t.
Proof.
  intros Hon. unfold reconcileUnusedServicePerPod. eapply (holds_seq _ _ _ _ (fun _ s =>
    is_smart h = true -> s_ClusterSize (cr_spec h0) = Some s)).
  { apply holds_lift. intros s Hs Hsm. rewrite Hsm in Hs. destruct (live_fields _ _ _ (proj1 Hon)) as (E & _).
    rewrite <-E. by destruct (s_ClusterSize (cr_spec h)) as [n|]; [injection Hs as ->|]. }
  intros t1 s Ht1 Hs. apply holds_quiet; [done|]. intros [sts|e] t2 Ht2 E2; [|apply runs_ret].
  destruct (Atoi _) as [p|] eqn:Ep; [|apply runs_ret]. apply runs_each. intros i t3 Hi Ht3.
  unfold range in Hi. apply elem_of_seqZ in Hi. eapply runs_remove_pod_service; [..|exact Ep|lia|].
  - eapply on_mono, Hon. by hist_sub.
  - apply Ht3. destruct Hon as [[_ _ [Hk _ _ _ _] _] _]. by rewrite <-Hk.
  - intros Hsm. exists s. split; [by apply Hs|lia].
Qed.

(** Endpoints. *)
Lemma runs_reconcile_endpoint na s e t : on t -> runs (reconcile_endpoint na s e) t.
Proof.
  intros Hon. unfold reconcile_endpoint. destruct (SetOwnerReference _ _) as [os|]; [|apply runs_ret].
  apply holds_any; [by apply holds_util_Force|]. intros t1 [[[] e'] [err|]] Ht1; [apply runs_ret|].
  assert (Hup : forall t' x, t1 ⊆ t' -> runs (Vis (EndpointStatusUpdate x : @op hz_effects) (fun err => Done (err : option error))) t').
  { intros t' x Ht'. apply holds_vis; [|intros y t'' _ _; apply runs_ret]. exists h0.
    eapply validated_mono; [|by apply on_validated]. by etrans. }
  cbv zeta. destruct (strb _ _); [|destruct (strb _ _); by apply Hup].
  apply holds_quiet; [done|]. intros [pods|err] t2 Ht2 _; [by apply Hup|apply runs_ret].
Qed.

Definition endpoint_names (s : Service) : gset string :=
  match default ∅ (om_Labels (svc_Meta s)) !! n_ServiceEndpointTypeLabelName with
  | Some v => match endpoints_of h s v with Some l => list_to_set ((fun e => om_Name (he_Meta e)) <$> l) | None => ∅ end
  | None => ∅
  end.
Lemma holds_service_endpoints na names l t : on t ->
  holds G (service_endpoints h na names l) t (fun _ r =>
    forall names', r = inl names' -> forall s, s ∈ l -> endpoint_names s ⊆ names').
Proof.
  assert (Hgen : on t -> holds G (service_endpoints h na names l) t (fun _ r =>
    forall names', r = inl names' -> names ⊆ names' /\ forall s, s ∈ l -> endpoint_names s ⊆ names')).
  { revert names t. induction l as [|s l IH]; intros names t Hon; cbn [service_endpoints].
    { apply holds_ret. intros names' [= <-]. split; [done|]. by intros s Hs%not_elem_of_nil. }
    destruct (_ !! n_ServiceEndpointTypeLabelName) as [v|] eqn:Ev.
    2: { eapply holds_mono; [by apply IH|]. intros t' r _ Hr names' E. destruct (Hr names' E) as [H1 H2]. split; [done|].
         intros x [->|Hx]%elem_of_cons; [|by apply H2]. unfold endpoint_names. rewrite Ev. set_solver. }
    destruct (endpoints_of h s v) as [es|] eqn:Ee; [|by apply holds_ret].
    apply holds_any; [apply runs_each; intros e t' _ Ht; apply runs_reconcile_endpoint; by eapply on_mono|].
    intros t1 [err|] Ht1; [by apply holds_ret|].
    eapply holds_mono; [apply IH; by eapply on_mono|]. intros t' r _ Hr names' E. destruct (Hr names' E) as [H1 H2].
    split; [set_solver|]. intros x [->|Hx]%elem_of_cons; [|by apply H2]. unfold endpoint_names. rewrite Ev, Ee. set_solver. }
  intros Hon. eapply holds_mono; [by apply Hgen|]. intros t' r _ Hr names' E. by apply Hr.
Qed.

Lemma runs_endpoints t : on t -> runs (reconcileHazelcastEndpoints op_env h) t.
Proof.
  intros Hon. unfold reconcileHazelcastEndpoints. apply holds_any.
  { unfold node_addresses. destruct (op_NodeDiscoveryEnabled op_env); [|apply runs_ret].
    apply holds_quiet; [done|]. intros [nodes|e] t1 _ _; apply runs_ret. }
  intros t1 [na|e] Ht1; [|apply runs_ret]. apply holds_quiet; [done|]. intros [svcs|e] t2 Ht2 E2; [|apply runs_ret].
  eapply holds_seq; [apply holds_service_endpoints; eapply on_mono, Hon; by etrans|].
  intros t3 [names|e] Ht3 Hn; [|apply runs_ret]. apply holds_quiet; [done|]. intros [es|e] t4 Ht4 E4; [|apply runs_ret].
  apply runs_each. intros e t5 He Ht5. unfold delete_leftover. case_bool_decide as Hin; [apply runs_ret|].
  apply holds_vis; [|intros x t6 _ _; apply runs_ret]. right. exists h, es, svcs.
  split; [by apply Ht5|]. split; [done|]. split; [by apply Ht5, Ht4, Ht3|].
  intros s v l e' Hs Hv Hl He' Heq. apply Hin. rewrite <-Heq. apply (Hn names eq_refl s Hs).
  unfold endpoint_names. rewrite Hv, Hl. apply elem_of_list_to_set, list_elem_of_fmap. eauto.
Qed.

Lemma runs_around t : on t -> runs (each id (around op_env h)) t.
Proof.
  intros Hon. apply runs_each. intros p t' Hp Ht. assert (on t') as Hon' by (by eapply on_mono). clear t Hon Ht.
  assert (Hf : forall k (f : oobj k -> res (oobj k)) o t, k <> KStatefulSet -> t' ⊆ t -> runs (force f o) t).
  { intros. apply runs_force; [done|by eapply on_mono]. }
  unfold around in Hp. rewrite !elem_of_app in Hp. destruct Hp as [Hp|[Hp|Hp]].
  - rewrite !elem_of_cons, elem_of_nil in Hp. destruct Hp as [->|[->|[->|[]]]].
    + unfold id, reconcileServiceAccount. destruct (negb _); [apply runs_ret|]. apply runs_with_owner. intros m. by apply Hf.
    + apply runs_with_owner. intros m. by apply Hf.
    + apply runs_with_owner. intros m. by apply Hf.
  - destruct (op_NodeDiscoveryEnabled op_env); [|by apply not_elem_of_nil in Hp].
    rewrite !elem_of_cons, elem_of_nil in Hp. destruct Hp as [->|[->|[]]]; by apply Hf.
  - rewrite !elem_of_cons, elem_of_nil in Hp. destruct Hp as [->|[->|[->|[->|[->|[]]]]]].
    + apply runs_with_owner. intros m. by apply Hf.
    + unfold id, reconcileWANServices. destruct (s_AdvancedNetwork _) as [a|]; [|apply runs_ret].
      apply runs_each. intros w t1 _ Ht1. apply runs_with_owner. intros m. apply runs_create_or_update; [done|by eapply on_mono].
    + unfold id, reconcileServicePerPod. destruct (negb _); [apply runs_ret|]. apply holds_any; [apply runs_lift|].
      intros t1 n Ht1. apply runs_each. intros i t2 _ Ht2. apply runs_with_owner. intros m. apply Hf; [done|by etrans].
    + by apply runs_endpoints.
    + by apply runs_unused.
Qed.

Lemma runs_isServicePerPodReady t : runs (isServicePerPodReady h) t.
Proof.
  unfold isServicePerPodReady. destruct (negb _); [apply runs_ret|]. apply holds_any; [apply runs_lift|]. intros t1 n _.
  assert (Hh : forall l t, runs (hostnames_resolve l) t).
  { induction l as [|i l IH]; intros t'; cbn [hostnames_resolve]; [apply runs_ret|]. destruct (strb _ _); [apply IH|].
    apply holds_quiet; [done|]. intros [e|] t2 _ _; [apply runs_ret|apply IH]. }
  revert t1. induction (range 0 n) as [|i ids IH]; intros t1; cbn [services_ready]; [apply runs_ret|].
  apply holds_quiet; [done|]. intros [s|e] t2 _ _; [|apply runs_ret]. destruct (negb _); [apply IH|].
  destruct (svc_Ingress s); [apply runs_ret|]. apply holds_any; [apply Hh|]. intros t3 [] _; [apply IH|apply runs_ret].
Qed.
End Around.

(** ** The configuration *)

Section Config.
Context (h0 : HazelcastCR).

Lemma derived_props h p : derived h0 h -> derived h0 (set_hz h (set_Properties (cr_hz h) p)).
Proof. by intros []. Qed.
Lemma on_props h p t : on h0 h t -> on h0 (set_hz h (set_Properties (cr_hz h) p)) t.
Proof.
  intros [[Hr Hd Hh Hs] Hv]. split; [|done]. constructor; [done|done|by apply derived_props|by apply spec_like_props].
Qed.
Lemma on_more h x t : on h0 h t -> on h0 (set_more h x) t.
Proof. intros [[Hr Hd [] Hs] Hv]. split; [|done]. by constructor. Qed.

Lemma runs_keystore h t : runs (hazelcastKeystore h) t.
Proof.
  unfold hazelcastKeystore, loadTLSKeyPair. destruct (has_tls_secret _) as [tl|]; [|apply runs_ret].
  apply holds_any.
  - apply holds_quiet; [done|]. intros [data|e] t1 _ _; [|apply runs_ret].
    destruct (decodePEM _ "CERTIFICATE"); [|apply runs_ret]. destruct (decodePEM _ "PRIVATE KEY"); apply runs_ret.
  - intros t1 [[cert key]|e] _; [|apply runs_ret]. apply holds_quiet; [done|]. intros now t2 _ _. apply runs_ret.
Qed.

(** The secret holds what [hazelcastConfig] gave. *)
Definition secret_config (s : Secret) t : Prop :=
  exists d config z z' tr, sec_Data s = Some d /\ sd_Config d = Some config
  /\ exec (hazelcastConfig z) tr (Returned (z', Found config))
  /\ @fmap list _ _ _ base_event tr ⊆ t /\ spec_like (spec0 h0) (h_Spec z) /\ (h_Namespace z, h_Name z) = cr_key h0.
Lemma secret_config_mono s t t' : t ⊆ t' -> secret_config s t -> secret_config s t'.
Proof.
  intros Ht (d & config & z & z' & tr & H1 & H2 & H3 & H4 & H5). exists d, config, z, z', tr.
  do 3 (split; [done|]). split; [by etrans|done].
Qed.
Lemma stored_secret_config s t : stored KSecret s t -> secret_config s t -> config_stored t h0.
Proof. intros Hs (d & config & z & z' & tr & H). by exists s, d, config, z, z', tr. Qed.

Lemma secret_mutates h s t : on h0 h t ->
  mutates G KSecret (fun t h => on h0 h t) (fun _ s t => secret_config s t) (fun _ => True) mutate_secret t h s.
Proof.
  intros Hon. unfold mutates, mutate_secret.
  eapply (holds_seq _ _ _ _ (fun t1 r => r.1 = set_Properties (cr_hz h) (config_properties (cr_spec h))
    /\ forall config, r.2 = Found config -> exists tr, exec (hazelcastConfig (cr_hz h)) tr (Returned r)
         /\ @fmap list _ _ _ base_event tr ⊆ t1)).
  { apply holds_base; [intros t1 c; exact I|]. intros tr [z x] He. split; [by apply config_result in He as [-> _]|].
    intros config _. exists tr. split; [done|]. intros e He'. apply elem_of_app. by right. }
  intros t1 [z x] Ht1 [Hz Hx]. simpl in Hz. subst z. cbn [fst snd].
  pose proof (on_props h (config_properties (cr_spec h)) t Hon) as Hon1. destruct x as [config|e].
  2: { apply holds_ret. split; [by eapply on_mono|done]. }
  destruct (Hx config eq_refl) as (tr & He & Hsub).
  assert (Hw : forall t2 k d, sec_Data s = Some d -> t1 ⊆ t2 -> let s' := mkSecret (sec_Meta s) (Some (mkSecretData (Some config) k (sd_Other d))) in
            writable G KSecret s' t2 /\ secret_config s' t2).
  { intros t2 k d _ Ht2 s'. split; [by eapply plain_writable, on_mono, Hon; [|etrans]|].
    eexists _, config, (cr_hz h), _, tr. split; [done|]. split; [done|]. split; [exact He|]. split; [by etrans|].
    destruct Hon as [[_ _ [Hk _ _ _ _] Hs] _]. split; [exact Hs|exact Hk]. }
  destruct (sec_Data s) as [d|] eqn:Ed; [|apply holds_crash]. destruct (sd_Keystore d) as [k|].
  - apply holds_ret. split; [exact (on_mono _ _ _ _ Ht1 Hon1)|]. by apply Hw.
  - apply holds_any; [apply runs_keystore|]. intros t2 [k|e] Ht2; apply holds_ret;
      (split; [eapply on_mono, Hon1; by etrans|]); [by apply Hw|done].
Qed.

Lemma holds_reconcileSecret h t : on h0 h t ->
  holds G (reconcileSecret h) t (fun t' r => on h0 r.1 t' /\ (r.2 = None -> config_stored t' h0)).
Proof.
  intros Hon. unfold reconcileSecret. destruct (SetControllerReference _ _) as [os|e]; [|by apply holds_ret].
  eapply (holds_seq _ _ _ _ (fun t' r => on h0 r.1.1 t' /\ (r.2 = None -> config_stored t' h0))).
  2: { intros t' [[h' s'] err] Ht [H1 H2]. by apply holds_ret. }
  unfold RetryOnConflict. apply (holds_OnError G (fun t (s : HazelcastCR * Secret) => on h0 s.1 t)); [|done].
  intros t1 [h1 s1] Ht1 Hon1. simpl in Hon1. unfold retried. cbn [fst snd].
  eapply (holds_seq _ _ _ _ (fun t' r => on h0 r.1.1 t' /\ (r.2 = None -> config_stored t' h0))).
  2: { intros t' [[h' s'] err] Ht [H1 H2]. by apply holds_ret. }
  apply (holds_CreateOrUpdate G KSecret (fun t h => on h0 h t) (fun _ s t => secret_config s t) (fun _ => True)); try done.
  - intros ta tb h' Hs. by apply on_mono.
  - intros ta tb h' s' Hs. by apply secret_config_mono.
  - intros t2 o1 Ht2 _. apply secret_mutates. by eapply on_mono.
  - intros t2 h2 s2 Ht2 Hon2 Hc Hst. split; [done|]. intros _. by eapply stored_secret_config.
Qed.

Lemma runs_init_config h t : runs (init_config h) t.
Proof.
  unfold init_config. apply holds_any; [apply runs_base|]. intros t1 [d|e] _; [|apply runs_ret].
  destruct (restore_enabled h) as [p|]; [|apply runs_ret]. apply holds_any; [|intros t2 [r|e] _; apply runs_ret].
  unfold restore_command. apply holds_any; [apply runs_base|]. intros t2 [cfg|e] _; [|apply runs_ret]. cbv zeta.
  destruct (RestoreFromHotBackupResourceName _).
  { unfold restoreCmdForHBResource. apply holds_quiet; [done|]. intros [hb|e] t3 _ _; [|apply runs_ret].
    destruct (negb _); [apply runs_ret|]. destruct (HotBackupSpec_IsExternal _); apply runs_ret. }
  destruct (RestoreFromLocalBackup _); (apply holds_any; [apply runs_lift|]; intros t3 x _; apply runs_ret).
Qed.

Lemma runs_reconcileInit h t : on h0 h t -> runs (reconcileInitContainerConfig h) t.
Proof.
  intros Hon. apply runs_with_owner. intros m. apply holds_any; [|intros t1 r _; apply runs_ret].
  unfold RetryOnConflict. apply (holds_OnError G (fun _ _ => True)); [|done]. intros t1 [[] cm] Ht1 _. unfold retried.
  eapply holds_mono; [|by split].
  apply holds_any; [|intros t2 r _; apply runs_ret]. cbn [fst snd].
  apply (holds_CreateOrUpdate G KConfigMap (fun _ _ => True) (fun _ _ _ => True) (fun _ => True)); try done.
  intros t2 cm' Ht2 _. unfold mutates, mutate_init_config. apply holds_any; [apply runs_init_config|].
  intros t3 [cfg|e] Ht3; [|by apply holds_ret]. destruct (cm_Data cm'); [|apply holds_crash]. apply holds_ret.
  split; [done|]. split; [|done]. eapply plain_writable, on_mono, Hon; [done|]. by hist_sub.
Qed.

Lemma runs_reconcileMTLS h t : on h0 h t -> runs (reconcileMTLSSecret h) t.
Proof.
  intros Hon. unfold reconcileMTLSSecret. apply holds_quiet; [done|]. intros [e|] t1 Ht1 _; [apply runs_ret|].
  apply holds_quiet; [done|]. intros [s|e] t2 Ht2 _; [|apply runs_ret].
  destruct (SetControllerReference _ _) as [os|e]; [|apply runs_ret]. eapply runs_force, on_mono, Hon; [done|by etrans].
Qed.

(** ** The stateful set *)

Lemma mutate_statefulset_spec h pvcName sts h' sts' : mutate_statefulset op_env h pvcName sts = Ret (h', sts') ->
  (h' = h \/ exists x, h' = set_more h x) /\ sts_Replicas sts' = s_ClusterSize (cr_spec h).
Proof.
  unfold mutate_statefulset. cbv zeta. destruct (statefulSetAnnotations _ h); [|done..]. cbn [bind_res].
  destruct (podAnnotations _ h); [|done..]. cbn [bind_res]. destruct (update_containers _ h _ _); [|done..]. cbn [bind_res].
  destruct (match x_Scheduling (cr_more h) with Some _ => _ | None => _ end) as [[af tol] sel].
  destruct (pt_SharesSpec _); intros [= <- <-]; (split; [|done]); [right; by eexists|by left].
Qed.

Lemma holds_reconcileStatefulset h t : on h0 h t -> config_stored t h0 ->
  holds G (reconcileStatefulset op_env h) t (fun t' r => on h0 r.1 t').
Proof.
  intros Hon Hc. unfold reconcileStatefulset. apply holds_any; [apply runs_lift|]. intros t1 sts Ht1.
  apply holds_any; [apply runs_lift|]. intros t2 pvcName Ht2.
  assert (on h0 h t2) as Hon2 by (eapply on_mono, Hon; by etrans).
  destruct (SetControllerReference _ _) as [os|e]; [|by apply holds_ret].
  eapply (holds_seq _ _ _ _ (fun t' r => on h0 r.1.1.1 t')); [|intros t3 [[[h' p] s] err] _ Ho; by apply holds_ret].
  apply (holds_Force G KStatefulSet (fun t s => on h0 s.1 t) (fun _ _ _ => True) (fun _ => False)); try done.
  - intros ta tb [h' p] Hs. by apply on_mono.
  - intros t3 o' _ Hi. by left.
  - intros t3 [h3 p3] o1 Ht3 Hon3. unfold mutates, mutate_sts. cbn [fst snd] in *.
    eapply (holds_seq _ _ _ _ (fun _ r => mutate_statefulset op_env h3 p3 o1 = Ret r)); [apply holds_lift; by intros|].
    intros t4 [h4 s4] Ht4 Hm. apply mutate_statefulset_spec in Hm as [Hh Hr]. apply holds_ret. cbn [fst snd].
    assert (on h0 h4 t4) as Hon4.
    { eapply on_mono in Hon3; [|exact Ht4]. destruct Hh as [->|[x ->]]; [done|by apply on_more]. }
    split; [done|]. split; [|done].
    assert (write_ok KStatefulSet s4 t4) as Hw.
    { exists h0. split; [by eapply on_validated|]. split.
      - eapply config_stored_mono, Hc. by hist_sub.
      - rewrite Hr. by apply (live_fields _ _ _ (proj1 Hon3)). }
    by split.
Qed.
End Config.

(** ** A cluster that runs *)

Section Running.
Context (h0 : HazelcastCR).

Lemma holds_on_random {A} (req : res ClientMessage) (decode : ClientMessage -> res A) t :
  holds G (on_random_target nn req decode) t (fun t' r => forall a, r = inl a -> exists m resp,
    req = Ret m /\ decode resp = Ret a /\ Call (Base (InvokeOnRandomTarget nn m)) (Found resp) ∈ t').
Proof.
  unfold on_random_target. eapply holds_seq; [by apply (holds_lift _ req t (fun _ m => req = Ret m))|]. intros t1 m _ Hm.
  apply holds_quiet; [done|]. intros [resp|e] t2 _ E2; [|by apply holds_ret].
  eapply holds_seq; [by apply (holds_lift _ (decode resp) t2 (fun _ a => decode resp = Ret a))|].
  intros t3 a Ht3 Ha. apply holds_ret. intros a' [= <-]. exists m, resp. split; [done|]. split; [done|]. by apply Ht3.
Qed.

Lemma runs_startup h t : on h0 h t -> config_stored t h0 -> runs (persistenceStartupAction h) t.
Proof.
  intros Hon Hc. unfold persistenceStartupAction. destruct (s_Persistence (cr_spec h)) as [p|] eqn:Ep; [|apply runs_ret].
  destruct (strb _ "" || _) eqn:E; [apply runs_ret|]. apply orb_false_iff in E as [_ Eph].
  destruct (live_fields _ _ _ (proj1 Hon)) as (_ & HP & HN & _).
  destruct (derived_name h0 h) as [Hn Hns]; [by destruct Hon as [[] _]|].
  assert (Hreq : forall ep, (p_StartupAction p = ForceStart /\ ep = rest_forceStart)
            \/ (p_StartupAction p = PartialStart /\ ep = rest_partialStart) -> runs (startupAction h ep) t).
  { intros ep Hep. unfold startupAction, executeRequest. apply holds_vis.
    - exists h0, p. split; [by eapply on_validated|]. split; [done|]. split.
      { destruct Hon as [[_ _ [_ _ _ Hst _] _] _]. unfold cr_phase in *. rewrite <-Hst.
        intros Hr. rewrite Hr in Eph. by apply bool_decide_eq_false in Eph. }
      split; [by rewrite <-HP, Ep|]. split; [|by rewrite HN]. rewrite <-Hn, <-Hns.
      destruct Hep as [[? ->]|[? ->]]; [left|right]; by split.
    - intros [[[code status] body]|e] t1 _ _; [|apply runs_ret]. destruct (_ || _); apply runs_ret. }
  destruct (strb _ ForceStart) eqn:Ef; [apply Hreq; left; by apply bool_decide_eq_true in Ef|].
  destruct (strb _ PartialStart) eqn:Ep2; [apply Hreq; right; by apply bool_decide_eq_true in Ep2|]. apply runs_ret.
Qed.

Lemma holds_insert_spec annotation h t : on h0 h t ->
  holds G (insert_spec annotation h) t (fun t' r => True).
Proof.
  intros Hon. unfold insert_spec. destruct (decide _); [apply runs_ret|]. apply holds_vis; [|intros e t1 _ _; apply runs_ret].
  left. by destruct Hon as [[_ _ [] _] _].
Qed.

Context (h : HazelcastCR) (sts : StatefulSet) (es : option ExecutorServices).

Lemma running_mono t t' : t ⊆ t' -> running t -> running t'.
Proof.
  intros Ht (h1 & H1 & H2 & H3 & H4 & H5). exists h1.
  split; [by eapply validated_mono|]. split; [by eapply config_stored_mono|]. split; [by eapply hz_ready_mono|].
  split; [by eapply enterprise_mono|by apply Ht].
Qed.

Lemma runs_success t : on h0 h t -> running t -> runs (reconcile_success op_env nn h sts) t.
Proof.
  intros Hon Hr. unfold reconcile_success. apply holds_any.
  { destruct (_ && _); [|apply runs_ret]. unfold call. apply holds_quiet; [done|]. intros x t1 _ _. apply runs_ret. }
  intros t1 x Ht1. apply holds_any; [by eapply holds_insert_spec, on_mono|]. intros t2 r Ht2. apply holds_any.
  { unfold clientConnectionMessage. apply holds_quiet; [done|]. intros [[]|e] t3 _ _; [|apply holds_crash|apply runs_ret].
    apply holds_quiet; [done|]. intros [] t4 _ _; [|apply runs_ret]. cbv iota. cbn [negb].
    apply holds_quiet; [done|]. intros a t5 _ _. apply runs_ret. }
  intros t3 m Ht3. apply runs_pending; [done|done|]. intros _. eapply running_mono, Hr. by hist_sub.
Qed.

Lemma runs_connected t : on h0 h t -> running t -> runs (reconcile_connected op_env nn h es sts) t.
Proof.
  intros Hon Hr. unfold reconcile_connected. destruct es as [l|]; [|by apply runs_success].
  apply holds_quiet; [done|]. intros [] t1 Ht1 _; [|by apply runs_wait]. cbn [negb]. apply holds_any; [apply runs_base|].
  intros t2 x Ht2. assert (t ⊆ t2) by (by etrans). apply runs_success; [by eapply on_mono|by eapply running_mono].
Qed.

Lemma runs_ensureClusterActive t : runs (ensureClusterActive frames h nn) t.
Proof.
  unfold ensureClusterActive. destruct (negb _); [apply runs_ret|]. apply holds_any; [eapply holds_true, holds_on_random|].
  intros t1 [st|e] _; [|apply runs_ret]. destruct (_ =? _); [apply runs_ret|]. unfold hz_ChangeClusterState.
  apply holds_any; [eapply holds_true, holds_on_random|]. intros t2 r _. apply runs_ret.
Qed.

Lemma holds_isEnterprise t : derived h0 h ->
  holds G (isEnterpriseCluster frames h nn) t (fun t' r => forall b, r = inl b -> enterprise t' h0 b).
Proof.
  intros Hd. unfold isEnterpriseCluster. apply holds_quiet; [done|]. intros uuid t1 _ _.
  eapply holds_mono; [apply holds_on_random|]. intros t2 r _ Hr b E. destruct (Hr b E) as (m & resp & Hm & Hdec & Hin).
  destruct (DecodeClientAuthenticationResponse frames resp) as [a| |] eqn:Ea; [|done..]. injection Hdec as <-.
  exists uuid, m, resp, a. split; [done|]. split; [|done]. by rewrite <-(proj1 (derived_name _ _ Hd)).
Qed.

Lemma runs_client t : on h0 h t -> config_stored t h0 -> ready t h0 -> enterprise t h0 true ->
  runs (reconcile_client op_env frames nn h es sts) t.
Proof.
  intros Hon Hc Hr He. unfold reconcile_client. apply holds_any; [apply runs_ensureClusterActive|].
  intros t1 [e|] Ht1; [by apply runs_wait|]. apply holds_quiet; [done|]. intros [] t2 Ht2 E2.
  - assert (t ⊆ t2) by (by etrans). cbn [negb]. apply runs_connected; [by eapply on_mono|]. exists h0.
    split; [by eapply validated_mono, on_validated|]. split; [by eapply config_stored_mono|]. split; [by eapply hz_ready_mono|].
    split; [by eapply enterprise_mono|done].
  - cbn [negb]. apply holds_quiet; [done|]. intros [] t3 _ _. apply holds_quiet; [done|].
    intros [e|] t4 _ _; by apply runs_wait.
Qed.

Lemma runs_cluster t : on h0 h t -> config_stored t h0 -> ready t h0 -> runs (reconcile_cluster op_env frames nn h es sts) t.
Proof.
  intros Hon Hc Hr. unfold reconcile_cluster. apply holds_quiet; [done|]. intros [have|e] t1 Ht1 _; [|by apply runs_wait].
  apply holds_quiet; [done|]. intros [] t2 Ht2 _. destruct have; [|apply holds_crash]. cbn [negb].
  eapply holds_seq; [apply holds_isEnterprise; by destruct Hon as [[] _]|]. intros t3 [[]|e] Ht3 He; [..|apply runs_failed];
    assert (t ⊆ t3) by hist_sub.
  - apply runs_client; [by eapply on_mono|by eapply config_stored_mono|by eapply hz_ready_mono|by apply He].
  - apply holds_vis; [|intros [e|] t4 _ _; [apply runs_ret|apply runs_failed]]. right. exists h0.
    split; [by eapply validated_mono, on_validated|by apply He].
Qed.
End Running.

Lemma runs_running h0 h es t : on h0 h t -> config_stored t h0 -> runs (reconcile_running op_env frames nn h es) t.
Proof.
  intros Hon Hc. unfold reconcile_running. apply holds_quiet; [done|]. intros [sts|e] t1 Ht1 E1.
  2: { destruct (IsNotFound e); [by apply runs_wait|apply runs_pending_failed]. }
  eapply holds_seq; [by apply (holds_lift _ _ _ (fun _ n => deref (s_ClusterSize (cr_spec h)) = Ret n))|]. intros t2 n Ht2 Hn.
  eapply (holds_seq _ _ _ _ (fun _ r => r.1 = true -> rolled_out sts n)).
  { unfold CheckIfRunning. destruct (isStatefulSetReady sts n) eqn:Er; [apply holds_ret; intros _; by apply isStatefulSetReady_iff|].
    apply holds_any; [|intros t3 x _; by apply holds_ret]. unfold checkPodsForFailure. apply holds_quiet; [done|].
    intros [pods|e] t3 _ _; apply runs_ret. }
  intros t3 [[] err] Ht3 Hrdy.
  - assert (t ⊆ t3) by hist_sub.
    apply (runs_cluster h0); [by eapply on_mono|by eapply config_stored_mono|]. exists sts, n.
    split; [by apply Ht3, Ht2|]. split; [|by apply Hrdy]. destruct (live_fields _ _ _ (proj1 Hon)) as (<- & _).
    by destruct (s_ClusterSize (cr_spec h)); [injection Hn as ->|].
  - destruct err as [e|]; [apply runs_pending_failed|by apply runs_wait].
Qed.

Lemma runs_or_fail h (p : hprog (option error)) k t :
  runs p t -> (forall t', t ⊆ t' -> runs k t') -> runs (or_fail h p k) t.
Proof. intros Hp Hk. apply holds_any; [exact Hp|]. intros t' [e|] Ht; [apply runs_failed|by apply Hk]. Qed.

Lemma runs_workload h0 h es t : on h0 h t -> config_stored t h0 -> runs (reconcile_workload op_env frames nn es h) t.
Proof.
  intros Hon Hc. unfold reconcile_workload. apply runs_or_fail; [by eapply runs_reconcileInit|]. intros t1 Ht1.
  apply runs_or_fail; [by eapply runs_reconcileMTLS, on_mono|]. intros t2 Ht2. assert (t ⊆ t2) by (by etrans).
  assert (config_stored t2 h0) by (by eapply config_stored_mono).
  eapply holds_seq; [apply holds_reconcileStatefulset; [by eapply on_mono|done]|].
  intros t3 [h' [e|]] Ht3 Hon'; [destruct (IsConflict e); [apply runs_ret|apply runs_failed]|]. cbn [fst] in Hon'.
  assert (config_stored t3 h0) by (by eapply config_stored_mono). unfold reconcile_startup.
  apply holds_any; [by eapply runs_startup|]. intros t4 [e|] Ht4; [by apply runs_phase|].
  eapply runs_running; [by eapply on_mono|by eapply config_stored_mono].
Qed.

Lemma runs_config h0 h t : on h0 h t -> runs (reconcile_config op_env frames nn h) t.
Proof.
  intros Hon. unfold reconcile_config. destruct (new_executor_services h) as [es|e]; [|apply runs_failed].
  unfold or_fail_h. eapply holds_seq; [by apply holds_reconcileSecret|]. intros t1 [h' [e|]] Ht1 [Hon' Hc]; [apply runs_failed|].
  eapply runs_workload; [exact Hon'|by apply Hc].
Qed.

Lemma runs_objects h0 h t : on h0 h t -> runs (reconcile_objects op_env frames nn h) t.
Proof.
  intros Hon. unfold reconcile_objects. apply runs_or_fail; [by eapply runs_around|]. intros t1 Ht1.
  apply holds_any; [apply runs_isServicePerPodReady|]. intros t2 [] Ht2; [|by apply runs_phase].
  eapply runs_config, on_mono, Hon. by etrans.
Qed.

(** ** A resource that is not being deleted *)

Record fresh t h0 h : Prop := {
  f_read : read t h0;
  f_deleting : h_Deleting (cr_hz h0) = false;
  f_derived : derived h0 h;
  f_spec : cr_spec h = cr_spec h0;
  f_more : cr_more h = cr_more h0;
}.
Lemma fresh_mono t t' h0 h : t ⊆ t' -> fresh t h0 h -> fresh t' h0 h.
Proof. intros Ht []. constructor; [by apply Ht|done..]. Qed.

Lemma mutated_like h0 h : cr_spec h = cr_spec h0 -> cr_more h = cr_more h0 ->
  cr_spec (mutate_HazelcastSpec h).1 = spec0 h0.
Proof.
  destruct h as [z x u f st], h0 as [z0 x0 u0 f0 st0]. unfold spec0, mutate_HazelcastSpec, Default, cr_spec. cbn. intros E ->. rewrite E.
  destruct (negb (strb (HazelcastSpec_GetLicenseKeySecretName (h_Spec z0)) "") && strb (x_Repository x0) n_HazelcastRepo);
    cbn; by rewrite E.
Qed.
Lemma mutated_derived h0 h : derived h0 h -> derived h0 (mutate_HazelcastSpec h).1.
Proof. intros []. unfold mutate_HazelcastSpec. by destruct (_ && _). Qed.

Lemma runs_spec h0 h t : fresh t h0 h -> runs (reconcile_spec op_env frames nn h) t.
Proof.
  intros [Hr Hd Hh Hs Hm]. unfold reconcile_spec. cbv zeta.
  assert (Hk : forall t', t ⊆ t' -> runs (reconcile_validated op_env frames nn (mutate_HazelcastSpec h).1) t').
  { intros t' Ht. unfold reconcile_validated. apply holds_quiet; [done|]. intros c t1 Ht1 E1.
    eapply holds_seq; [by apply (holds_lift _ _ _ (fun _ x => ValidateHazelcastSpec c (cr_hz (mutate_HazelcastSpec h).1) = Ret x))|].
    intros t2 [e|] Ht2 Hv; [by apply runs_failed_phase|]. apply (runs_objects h0).
    assert (t ⊆ t2) as Hsub by hist_sub. pose proof (mutated_derived _ _ Hh) as Hmd.
    split.
    - constructor; [by apply Hsub|done|done|]. left. by apply mutated_like.
    - exists c, (mutate_HazelcastSpec h).1. split; [by apply Ht2|]. split; [done|]. split; [by apply mutated_like|].
      by destruct Hmd. }
  unfold store_mutated. destruct (mutate_HazelcastSpec h).2; [|by apply Hk].
  apply holds_vis; [left; by destruct (mutated_derived _ _ Hh)|].
  intros [e|] t1 Ht1 _; [by apply runs_failed_phase|by apply Hk].
Qed.

Lemma runs_live h0 h t : fresh t h0 h -> runs (reconcile_live op_env frames nn h) t.
Proof.
  intros Hf. unfold reconcile_live. destruct (isSpecChanged h).
  - unfold or_fail_h, updateLastAppliedSpec, insert_spec. apply (runs_seq _ _ _ (fun t' r => fresh t' h0 r.1)).
    + destruct (decide _); [by apply holds_ret|]. apply holds_vis; [left; by destruct Hf as [_ _ [] _ _]|].
      intros e t1 Ht1 _. apply holds_ret. eapply fresh_mono; [exact Ht1|]. by destruct Hf as [? ? [] ? ?].
    + intros t1 [h' [e|]] Ht1 Hf'; [apply runs_failed|]. by eapply runs_spec.
  - destruct (strb _ _); [apply runs_ret|]. by eapply runs_spec.
Qed.
End Facts.
