(* ===== verification/HzReconcileFacts.v ===== *)
(** * The theorems about the Hazelcast controller

    The finalizer and [Reconcile] keep to the guard [G] of
    HzControllerFacts.v; the theorems are its cases. *)

From S2P Require Import Prelude Eff HotBackup FieldValidation Json GoPath GoNet HazelcastTypes DataStructureTypes HazelcastValidation MapValidation ConfigTypes Proto CodecBuiltin CodecTypes CodecExtra CodecRequests DataStructureConfig DataStructureValidation WanTypes JetJobValidation HazelcastConfig CustomConfig Kube WanController ConfigSecret HazelcastConfigFacts HzTypes HzObjects HzStatefulSet HzKube HzServices HzSecrets HzStatus HzController HzLogic HzControllerFacts HazelcastValidationFacts McTypes HzStatefulSetFacts.
#[local] Open Scope prog_scope.
#[local] Open Scope string_scope.
#[local] Open Scope list_scope.
#[local] Open Scope Z_scope.

Section Reconciled.
Context `{P : Proto} `{R : MapRange} `{EJ : EventJson} `{QL : QuantityLib} `{Y : YamlLib} `{YT : !YamlTree}.
Context `{HZJ : !HazelcastJson} `{MJ : !MapJson} `{KE : KErrors} `{JT : JsonText} `{PT : PodTypes} `{HS : HzSecretLib}.
Context `{YV : YamlValid} `{SM : SortByMin} `{HL : !HzLib} `{SL : SelectorLib} `{HJ : !HzSpecJson}.
Context `{CU : !ControllerUtil} `{RL : @RetryLib hz_effects}.
Context (op_env : Operator) (frames : nat) (nn : Kube.NamespacedName).
Implicit Types h : HazelcastCR.
Abbreviation trace := (list (@event hz_effects)).
Abbreviation Call := (@Ev hz_effects).
Implicit Types t : trace.
Abbreviation Gd := (G op_env frames nn).
Abbreviation runs p t := (holds Gd p t (fun _ _ => True)).
Abbreviation exec := (@exec hz_effects (ctrl_Result * option error)).

(** ** The finalizer *)

Section Finalizer.
Context (h0 h : HazelcastCR) (Hd0 : h_Deleting (cr_hz h0) = true) (Hkey : cr_key h = cr_key h0).

Lemma deleting_names : cr_name h = cr_name h0 /\ cr_ns h = cr_ns h0.
Proof. unfold cr_key in Hkey. by injection Hkey. Qed.
Lemma being_deleted_at t : read nn t h0 -> being_deleted nn t.
Proof. intros Hr. by exists h0. Qed.
Lemma read_mono t t' : t ⊆ t' -> read nn t h0 -> read nn t' h0.
Proof. intros Ht Hr. by apply Ht. Qed.

Lemma holds_deleteDependentCR crKind k t : read nn t h0 ->
  holds Gd (deleteDependentCR h crKind k) t (fun t' r =>
    r = None -> Call (ListDependents k (cr_ns h0) (cr_name h0)) (Found []) ∈ t').
Proof.
  intros Hr. destruct deleting_names as [En Ens]. unfold deleteDependentCR. rewrite En, Ens.
  apply holds_quiet; [done|]. intros [[|d l]|e] t1 Ht1 E1; [by apply holds_ret| |by apply holds_ret].
  apply (holds_par _ _ _ _ (fun _ _ _ => True)).
  - intros i. destruct (_ !! i) as [x|]; [|by apply rwp_ret]. unfold delete_dependent.
    destruct (d_Deleting x); [by apply rwp_ret|]. apply rwp_vis; [|intros y t2 _ _; by apply rwp_ret].
    intros t2 Ht2. apply being_deleted_at. eapply read_mono; [|exact Hr]. by etrans.
  - intros rs first t2 _ Ht2 _. destruct (group_Wait rs first); [by apply holds_ret|].
    apply holds_quiet; [done|]. intros [[|x l']|e] t3 Ht3 E3; by apply holds_ret.
Qed.

Lemma holds_each_done {A} (f : A -> hprog (option error)) (Pa : A -> trace -> Prop) l t :
  (forall a t t', t ⊆ t' -> Pa a t -> Pa a t') ->
  (forall a t', a ∈ l -> t ⊆ t' -> holds Gd (f a) t' (fun t' r => r = None -> Pa a t')) ->
  holds Gd (each f l) t (fun t' r => r = None -> forall a, a ∈ l -> Pa a t').
Proof.
  intros HP. revert t. induction l as [|a l IH]; intros t Hf; cbn [each].
  { apply holds_ret. by intros _ a Ha%not_elem_of_nil. }
  eapply holds_seq; [apply Hf; [by left|done]|]. intros t1 [e|] Ht1 H1; [by apply holds_ret|].
  eapply holds_mono; [apply IH|].
  - intros b t2 Hb Ht2. apply Hf; [by right|by etrans].
  - intros t2 r Ht2 Hr E b [->|Hb]%elem_of_cons; [eapply HP, H1; done|by apply Hr].
Qed.

Lemma holds_deleteDependentCRs t : read nn t h0 ->
  holds Gd (deleteDependentCRs h) t (fun t' r => r = None -> no_dependents t' h0).
Proof.
  intros Hr. unfold deleteDependentCRs. eapply holds_mono.
  - apply (holds_each_done _ (fun '(_, k) t => Call (ListDependents k (cr_ns h0) (cr_name h0)) (Found []) ∈ t)).
    + intros [n k] t1 t2 Ht Hin. by apply Ht.
    + intros [n k] t1 _ Ht. apply holds_deleteDependentCR. by eapply read_mono.
  - intros t' r _ Hall E k. specialize (Hall E).
    assert (exists n, (n, k) ∈ go_range dependentCRs) as [n Hn]; [|exact (Hall _ Hn)].
    destruct k; [exists "Map"|exists "MultiMap"|exists "Topic"|exists "ReplicatedMap"|exists "Queue"|exists "Cache"
      |exists "JetJob"|exists "UserCodeNamespace"]; by apply elem_of_go_range.
Qed.

Lemma cluster_scoped : ClusterScopedName h = ClusterScopedName h0.
Proof. unfold ClusterScopedName. by destruct deleting_names as [-> ->]. Qed.

Lemma holds_remove_cluster_object k zero what t : k = KClusterRole \/ k = KClusterRoleBinding ->
  om_Name (ometa k zero) = "" -> read nn t h0 ->
  holds Gd (remove_cluster_object k zero what h) t (fun t' r => r = None -> gone k t' h0).
Proof.
  intros Hk Hz Hr. unfold remove_cluster_object. rewrite cluster_scoped. apply holds_quiet; [done|]. intros x t1 Ht1 E1.
  assert (Hdel : forall o, (forall t2, t1 ⊆ t2 -> Call (DeleteO k o) None ∈ t2 -> gone k t2 h0) ->
          holds Gd (Vis (DeleteO k o : @op hz_effects) (fun err =>
            Done (match (err : option error) with Some e => Some (wrap ("failed to clean up " ++ what ++ ": ") e) | None => None end)))
            t1 (fun t' r => r = None -> gone k t' h0)).
  { intros o Ho. apply holds_vis.
    - right. destruct Hk as [-> | ->]; apply being_deleted_at; by eapply read_mono.
    - intros [e|] t2 Ht2 E2; apply holds_ret; [done|]. intros _. by apply Ho. }
  cbv zeta. destruct x as [o|e].
  { apply Hdel. intros t2 Ht2 E2. apply (gone_deleted _ _ _ o); [by apply Ht2|done]. }
  destruct (IsNotFound e) eqn:En.
  - apply holds_ret. intros _. by apply (gone_not_found _ _ _ e).
  - apply Hdel. intros t2 Ht2 E2. apply (gone_unread _ _ _ e zero); [by apply Ht2|done..].
Qed.

Lemma gone_mono k t t' : t ⊆ t' -> gone k t h0 -> gone k t' h0.
Proof.
  intros Ht [e H E|o H1 H2|e o H1 Hz H2]; [eapply gone_not_found|eapply gone_deleted|eapply gone_unread]; by try apply Ht.
Qed.

Lemma holds_then what p k t (Pp Q : trace -> Prop) :
  holds Gd p t (fun t' r => r = None -> Pp t') ->
  (forall t', t ⊆ t' -> Pp t' -> holds Gd k t' (fun t'' r => r = None -> Q t'')) ->
  holds Gd (then_ what p k) t (fun t' r => r = None -> Q t').
Proof.
  intros Hp Hk. unfold then_. eapply holds_seq; [exact Hp|]. intros t' [e|] Ht HP; [by apply holds_ret|]. apply Hk; [done|by apply HP].
Qed.

Lemma runs_executeFinalizer t : read nn t h0 -> runs (hz_executeFinalizer op_env h) t.
Proof.
  intros Hr. unfold hz_executeFinalizer. destruct (negb _); [apply runs_ret|].
  eapply (holds_seq _ _ _ _ (fun t' r => r = None -> no_dependents t' h0
     /\ (op_NodeDiscoveryEnabled op_env = true -> gone KClusterRole t' h0 /\ gone KClusterRoleBinding t' h0))).
  { apply (holds_then _ _ _ _ (fun t' => no_dependents t' h0)); [by apply holds_deleteDependentCRs|]. intros t1 Ht1 Hn1.
    destruct (op_NodeDiscoveryEnabled op_env); [|by apply holds_ret].
    apply (holds_then _ _ _ _ (fun t' => gone KClusterRole t' h0)).
    { apply holds_remove_cluster_object; [by left|done|by eapply read_mono]. }
    intros t2 Ht2 Hg2. apply (holds_then _ _ _ _ (fun t' => gone KClusterRoleBinding t' h0)).
    { apply holds_remove_cluster_object; [by right|done|]. eapply read_mono; [|exact Hr]. by etrans. }
    intros t3 Ht3 Hg3. apply holds_ret. intros _. split; [intros k; apply Ht3, Ht2, Hn1|]. intros _.
    split; [by eapply gone_mono|done]. }
  intros t1 [e|] Ht1 H1; [apply runs_ret|]. destruct (H1 eq_refl) as [Hno Hgone]. unfold release.
  apply holds_quiet; [done|]. intros [] t2 Ht2 E2. apply holds_quiet; [done|]. intros [] t3 Ht3 _.
  apply holds_quiet; [done|]. intros [e|] t4 Ht4 E4; [apply runs_ret|]. rewrite Hkey in E2, E4.
  apply holds_vis; [|intros [e|] t5 _ _; apply runs_ret]. right. exists h0.
  split; [eapply read_mono, Hr; hist_sub|]. split; [exact Hkey|]. split; [intros k; apply Ht4, Ht3, Ht2, Hno|].
  split; [|split; [by apply Ht4, Ht3|done]]. intros Hnd. destruct (Hgone Hnd).
  split; (eapply gone_mono; [|eassumption]); hist_sub.
Qed.
End Finalizer.

(** ** Reconcile *)

Lemma runs_deleted h0 h t : read nn t h0 -> h_Deleting (cr_hz h0) = true -> cr_key h = cr_key h0 ->
  runs (reconcile_deleted op_env h) t.
Proof.
  intros Hr Hd Hk. unfold reconcile_deleted. apply holds_vis; [intros [=]|]. intros x t1 Ht1 _. cbv zeta.
  apply holds_any; [apply (runs_executeFinalizer h0); [done|exact Hk|by apply Ht1]|].
  intros t2 [h' [e|]] _; [by apply runs_phase|apply runs_ret].
Qed.

Theorem holds_Reconcile : runs (Reconcile op_env frames nn) [].
Proof.
  unfold Reconcile. apply holds_quiet; [done|]. intros [h|e] t1 _ E1.
  2: { destruct (IsNotFound e); [apply runs_ret|apply runs_failed]. }
  unfold or_fail_h. apply (runs_seq _ _ _ _ _ _ (fun t' r => r.2 = None ->
    cr_key r.1 = cr_key h /\ h_Deleting (cr_hz r.1) = h_Deleting (cr_hz h)
    /\ (h_Deleting (cr_hz h) = false -> fresh nn t' h r.1))).
  { unfold hz_AddFinalizer. destruct (negb _ && _) eqn:E.
    - apply holds_vis; [left; cbn; set_solver|]. intros e t2 Ht2 _. apply holds_ret. intros _.
      split; [done|]. split; [done|]. intros Hd. constructor; [by apply Ht2|done| |done|done]. constructor; try done. cbn. set_solver.
    - apply holds_ret. intros _. split; [done|]. split; [done|]. intros Hd. cbn in Hd.
      rewrite Hd, andb_true_r in E. apply negb_false_iff, bool_decide_eq_true in E. by constructor. }
  intros t2 [h' [e|]] Ht2 Hh; [apply runs_failed|]. destruct (Hh eq_refl) as (Hk & Hd & Hf). cbn [fst] in *.
  destruct (h_Deleting (cr_hz h')) eqn:Ed; [eapply runs_deleted; [by apply Ht2|by rewrite <-Hd|done]|].
  eapply runs_live, Hf. by rewrite <-Hd.
Qed.

Lemma hz_reconcile_call t1 (e : @event hz_effects) t2 o : exec (Reconcile op_env frames nn) (t1 ++ e :: t2) o -> Gd t1 (ev_op e).
Proof. apply holds_call with (Q := fun _ _ => True). exact holds_Reconcile. Qed.

(** ** The theorems *)

(** C2. The status says that a cluster runs only after, in this very
    reconciliation, its specification was found valid with the defaults
    filled in, the configuration made of it was stored in the secret, the
    stateful set was read with as many updated and ready replicas as the
    specification asks for at the generation the controller manager has
    observed, a member answered that it is an enterprise cluster, and the
    client was connected. *)
Theorem running_justified t1 h x t2 o :
  exec (Reconcile op_env frames nn) (t1 ++ Call (StatusUpdateCR h) x :: t2) o -> cr_phase h = Phase_Running ->
  running frames nn t1.
Proof. intros He Hp. exact (hz_reconcile_call _ _ _ _ He Hp). Qed.

(** C6. The stateful set is written with the cluster size of the resource
    that was read, after its specification was found valid and after the
    secret with the configuration made of it was stored. *)
Theorem statefulset_after_configuration t1 (e : @event hz_effects) t2 o sts :
  exec (Reconcile op_env frames nn) (t1 ++ e :: t2) o ->
  ev_op e = CreateO KStatefulSet sts \/ ev_op e = UpdateO KStatefulSet sts ->
  exists h0, validated nn t1 h0 /\ config_stored t1 h0 /\ sts_Replicas sts = s_ClusterSize (cr_spec h0).
Proof.
  intros He Ho. apply hz_reconcile_call in He. destruct Ho as [E|E]; rewrite E in He; destruct He as (h0 & Hv & Hc & Hr);
    by exists h0.
Qed.

(** Nothing is created, updated or started for a resource that is being
    deleted or whose specification was not found valid. *)
Theorem writes_validated t1 (e : @event hz_effects) t2 o :
  exec (Reconcile op_env frames nn) (t1 ++ e :: t2) o ->
  match ev_op e : hz_op with CreateO _ _ | UpdateO _ _ | EndpointStatusUpdate _ | HttpPost _ _ => True | _ => False end ->
  exists h0, validated nn t1 h0.
Proof.
  intros He Ho. apply hz_reconcile_call in He. destruct (ev_op e); try done; destruct He as (h0 & He); exists h0; try done;
    [by destruct He|by destruct He|]. by destruct He as (p & Hv & _).
Qed.

(** C15. An object is deleted only when the server had rejected a request for
    an object of its kind as invalid, or for a reason of its own: the stateful
    set of a cluster that is no enterprise cluster; a service per pod whose
    index is below the number recorded at the stateful set and, when members
    are reached one by one, not below the cluster size (otherwise all of them
    are deleted); an endpoint of no service that was listed; a cluster role or
    a binding when the resource is being deleted. *)
Theorem deletions_justified t1 (e : @event hz_effects) t2 o k obj :
  exec (Reconcile op_env frames nn) (t1 ++ e :: t2) o -> ev_op e = DeleteO k obj ->
  invalid_answer k t1 \/ meant frames nn k obj t1.
Proof. intros He Ho. apply hz_reconcile_call in He. by rewrite Ho in He. Qed.

(** C8. The finalizer is removed only after the lists of all eight kinds of
    dependent resources were empty, the status service was stopped and the
    client was shut down without an error; and, where the operator discovers
    nodes, after the cluster role and its binding were not found or deleted as
    they were read, or, when one could not be read, after the deletion of an
    object without a name was answered with success. *)
Theorem finalizer_released t1 h x t2 o :
  exec (Reconcile op_env frames nn) (t1 ++ Call (UpdateCR h) x :: t2) o -> n_Finalizer ∉ cr_Finalizers h ->
  exists h0, read nn t1 h0 /\ cr_key h = cr_key h0 /\ released op_env t1 h0.
Proof. intros He Hf. by destruct (hz_reconcile_call _ _ _ _ He). Qed.

(** A force start or partial start is asked for only when the resource
    configures it and its recorded phase is not Running, with the
    configuration stored. *)
Theorem startup_action_justified t1 url data x t2 o :
  exec (Reconcile op_env frames nn) (t1 ++ Call (HttpPost url data) x :: t2) o -> startup_ok nn t1 url data.
Proof. intros He. exact (hz_reconcile_call _ _ _ _ He). Qed.
End Reconciled.

(** * Concrete runs of the Hazelcast controller

    Resources and answers for which the hypotheses of the theorems of
    HzReconcileFacts.v hold: a cluster that comes up, one that is no
    enterprise cluster, one that is force started, one that is deleted. *)

Module HzRuns.
Import RefProto.
#[local] Existing Instance RefProto.ref.
#[local] Existing Instance CustomRuns.tree1.
#[local] Instance json1 : HazelcastJson := {| HazelcastSpec_Unmarshal _ := inr (errors_New "bad json") |}.
#[local] Instance map_json1 : MapJson := {| MapSpec_Marshal s := inl "{}"; MapSpec_Unmarshal _ := inr (errors_New "bad json") |}.
#[local] Instance event_json1 : EventJson := {| unmarshal_event := fun _ => None |}.
#[local] Instance yaml_valid1 : YamlValid := {| HazelcastValidation.yaml_Unmarshal _ := None |}.
#[local] Instance secret_lib1 : HzSecretLib := {|
  Url := string; ParseRequestURI s := Some s; query_prefix s := s; with_query_prefix _ p := Some p;
  pem_Decode _ := None; keystore_Store _ := inl "jks";
|}.
#[local] Instance spec_json1 : HzSpecJson := {| HzSpec_Marshal s _ := s_ClusterName s |}.

(** Every object that is read is written back. *)
#[local] Instance controller_util1 : ControllerUtil.
Proof.
  refine {|
    Semantic_DeepEqual _ _ _ := false;
    controllerutil_CreateOrUpdate S k f s o :=
      Vis (GetO k (okey k o) : @op hz_effects) (fun got =>
        match (got : fetched (oobj k)) with
        | Failed e =>
            if IsNotFound e then
              pbind (run_mutate k (okey k o) f s o) (fun r =>
              match r with
              | (s', o', Some e) => Done (s', o', Some e)
              | (s', o', None) => Vis (CreateO k o' : @op hz_effects) (fun err => Done (s', o', err : option error))
              end)
            else Done (s, o, Some e)
        | Found o0 =>
            pbind (run_mutate k (okey k o) f s (decoded k o0)) (fun r =>
            match r with
            | (s', o', Some e) => Done (s', o', Some e)
            | (s', o', None) => Vis (UpdateO k o' : @op hz_effects) (fun err => Done (s', o', err : option error))
            end)
        end);
    SetControllerReference owner os := inl (match owner with
      | OwnerHazelcast h => mkOwnerReference "Hazelcast" (cr_name h) (cr_UID h)
      | OwnerManagementCenter mc => mkOwnerReference "ManagementCenter" (mc_Name mc) (mc_UID mc)
      end :: os);
    SetOwnerReference s os := inl (mkOwnerReference "Service" (om_Name (svc_Meta s)) "" :: os);
  |}.
  - reflexivity.
  - intros h. by eexists.
Defined.

(** ** The cluster *)

Definition nn1 : Kube.NamespacedName := ("ns", "hz").
Definition persistence1 (action : string) : HazelcastPersistenceConfiguration :=
  mkHazelcastPersistenceConfiguration "" MostRecent action 0 (Some (mkPvcConfiguration (Some ["ReadWriteOnce"]) (Some 8) None))
    (mkRestoreConfiguration None "" None).
Definition spec1 (p : option HazelcastPersistenceConfiguration) : HazelcastSpec :=
  mkHazelcastSpec (Some 2) "" "license" None p None "" None None None None "" None [] None "dev" None [] [] [] None None None None.
Definition more1 : HazelcastMore :=
  mkHazelcastMore "docker.io/hazelcast/hazelcast-enterprise" "5.5.2" "IfNotPresent" [] None None
    (mkAgentConfiguration "docker.io/hazelcast/platform-operator-agent" "0.1.30" None) "INFO" None ∅ "" [] "".
Definition cr1 (deleting : bool) (finalizers : list string) (p : option HazelcastPersistenceConfiguration) (phase : string) : HazelcastCR :=
  mkHazelcastCR (mkHazelcast "hz" "ns" ∅ deleting (spec1 p) (mkHazelcastStatus 0 phase)) more1 "uid" finalizers
    (mkStatusMore "" "" "" [] RestoreStatus_zero).

Definition not_found : error := mkError ENotFound "not found".

(** The answer to an authentication; the last byte that is read says whether
    the cluster is an enterprise cluster. *)
Definition auth_answer (enterprise : bool) : message :=
  mkMessage false [mkFrame KData 0 (replicate 80 (if enterprise then x01 else x00)); mkFrame KNull 1024 []; mkFrame KData 0 [x35]].

(** The stateful set that was created, with a status. *)
Definition created_sts (t : list (@event hz_effects)) : option StatefulSet :=
  head (omap (fun e : @event hz_effects => match ev_op e : hz_op with CreateO KStatefulSet s => Some s | _ => None end) t).
Definition with_status (s : StatefulSet) (n : Z) : StatefulSet :=
  mkStatefulSet (sts_Meta s) (sts_Selector s) (sts_ServiceName s) (sts_PodManagementPolicy s) (sts_Replicas s)
    (sts_Template s) (sts_VolumeClaimTemplates s) 1 n n n 1.
Definition service1 (name : string) : Service :=
  mkService (mkObjectMeta name "ns" (Some ∅) ∅ []) ∅ "ClusterIP" "" [] false [].

Definition kube_answer (enterprise : bool) (o : kube_op) : kube_ans o :=
  match o as o return kube_ans o with
  | ListByHz _ _ _ | ListIn _ _ => Found []
  | Kube.Get _ _ => Failed not_found
  | GetHazelcast _ => Failed not_found
  | GetConfigSecret _ => Failed not_found
  | GetSecretData _ => Found ∅
  | GetOrCreate _ => Found true
  | Running _ => true
  | OrderedMembers _ => ["m1"]
  | InvokeOnMember _ _ _ | InvokeOnRandomTarget _ _ => Found (auth_answer enterprise)
  | GetStatusService _ => None
  | GetConfigMap _ => Failed not_found
  | GetJetJob _ => Failed not_found
  | MemberAddresses _ => []
  | Now => 0
  | GoSync _ _ | GoExport _ _ _ _ _ => tt
  | _ => None
  end.

(** Nothing exists but the secret of the agents, and what is created. *)
Definition get_answer (k : okind) (nn : Kube.NamespacedName) (t : list (@event hz_effects)) : fetched (oobj k) :=
  match k as k return fetched (oobj k) with
  | KStatefulSet => match created_sts t with Some s => Found (with_status s 2) | None => Failed not_found end
  | KSecret => if decide (nn.2 = n_MTLSCertSecretName)
               then Found (mkSecret (mkObjectMeta nn.2 nn.1 None ∅ []) (Some (mkSecretData None None ∅))) else Failed not_found
  | _ => Failed not_found
  end.
Definition answer (h : HazelcastCR) (enterprise : bool) (create : forall k, oobj k -> option error) (o : @op hz_effects)
    (t : list (@event hz_effects)) : @ans hz_effects o :=
  match o as o return hz_ans o with
  | Base o => kube_answer enterprise o
  | GetCR _ => Found h
  | GetMC _ => Failed not_found
  | GetO k nn => get_answer k nn t
  | CreateO k x => create k x
  | ListO _ _ _ => Found []
  | ListNodes => Found []
  | ListPods _ _ => Found []
  | GetHotBackup _ => Failed not_found
  | ListDependents _ _ _ => Found []
  | Observe => mkCluster (fun _ => None) (fun _ => Found ∅) (fun _ => None) (fun _ => None)
  | NewUUID => mk_uuid 1 2
  | HttpPost _ _ => Found (200, "200 OK", "")
  | ClientGet _ | IsClientConnected _ | AreAllMembersAccessible _ => true
  | StatusGet _ => None
  | StatusCreate _ | StatusDelete _ | MTLSDelete _ | TriggerPhoneHome => tt
  | _ => None
  end.
Definition created : forall k, oobj k -> option error := fun _ _ => None.

Definition operator1 : Operator := mkOperator (fun _ => None) false.
Definition run1 (h : HazelcastCR) (enterprise : bool) (create : forall k, oobj k -> option error) :=
  run (answer h enterprise create) (Reconcile operator1 20 nn1) [].

Definition up := run1 (cr1 false [] None "") true created.

(** A call of a run that ended, among those [f] picks. *)
Lemma run_call h b c {X} (f : @event hz_effects -> option X) :
  existsb (fun e => negb (is_nil (f e))) (run1 h b c).1 = true -> (negb (is_nil (run1 h b c).2)) = true ->
  exists t1 e t2 o a, exec (Reconcile operator1 20 nn1) (t1 ++ e :: t2) o /\ f e = Some a.
Proof.
  intros Hf Ho. apply find_event in Hf as (t1 & e & t2 & E & Hf). destruct (run1 h b c).2 as [o|] eqn:Eo; [|done].
  destruct (f e) as [a|] eqn:Ef; [|done]. exists t1, e, t2, o, a. split; [|exact Ef]. rewrite <-E. by apply run_exec_2.
Qed.

Abbreviation Call := (@Ev hz_effects).
Definition says_running (e : @event hz_effects) : option HazelcastCR :=
  match ev_op e : hz_op with StatusUpdateCR h => if strb (cr_phase h) Phase_Running then Some h else None | _ => None end.
Lemma says_running_eq e h : says_running e = Some h -> cr_phase h = Phase_Running /\ exists x, e = Call (StatusUpdateCR h) x.
Proof.
  destruct e as [c x]. destruct c; try discriminate. unfold says_running. cbn [ev_op].
  destruct (strb _ _) eqn:E; [|discriminate]. intros [= <-]. apply bool_decide_eq_true in E. split; [exact E|by exists x].
Qed.
Lemma running_witness : exists t1, running 20 nn1 t1.
Proof.
  destruct (run_call (cr1 false [] None "") true created says_running) as (t1 & e & t2 & o & h & He & Hf);
    [vm_compute; reflexivity|vm_compute; reflexivity|]. apply says_running_eq in Hf as [Hp [x ->]].
  exists t1. exact (running_justified operator1 20 nn1 t1 h x t2 o He Hp).
Defined.

Definition writes_sts (e : @event hz_effects) : option StatefulSet :=
  match ev_op e : hz_op with CreateO KStatefulSet s => Some s | _ => None end.
Lemma writes_sts_eq e s : writes_sts e = Some s -> ev_op e = CreateO KStatefulSet s.
Proof. destruct e as [c x]. destruct c as [| | | | | | | |k o| | | | | | | | | | | | | | | | | | | | | | |]; try discriminate. destruct k; try discriminate. by intros [= ->]. Qed.
Lemma statefulset_witness : exists t1 h0, validated nn1 t1 h0 /\ config_stored t1 h0.
Proof.
  destruct (run_call (cr1 false [] None "") true created writes_sts) as (t1 & e & t2 & o & s & He & Hf);
    [vm_compute; reflexivity|vm_compute; reflexivity|]. apply writes_sts_eq in Hf.
  destruct (statefulset_after_configuration operator1 20 nn1 t1 e t2 o s He (or_introl Hf)) as (h0 & Hv & Hc & _).
  exists t1, h0. split; [exact Hv|exact Hc].
Defined.

Lemma writes_validated_witness : exists t1 h0, validated nn1 t1 h0.
Proof.
  destruct (run_call (cr1 false [] None "") true created writes_sts) as (t1 & e & t2 & o & s & He & Hf);
    [vm_compute; reflexivity|vm_compute; reflexivity|]. apply writes_sts_eq in Hf.
  destruct (writes_validated operator1 20 nn1 t1 e t2 o He) as [h0 Hv]; [by rewrite Hf|]. exists t1, h0. exact Hv.
Defined.

(** No enterprise cluster. *)
Definition deletes_sts (e : @event hz_effects) : option StatefulSet :=
  match ev_op e : hz_op with DeleteO KStatefulSet s => Some s | _ => None end.
Lemma deletes_sts_eq e s : deletes_sts e = Some s -> ev_op e = DeleteO KStatefulSet s.
Proof. destruct e as [c x]. destruct c as [| | | | | | | | | |k o| | | | | | | | | | | | | | | | | | | | |]; try discriminate. destruct k; try discriminate. by intros [= ->]. Qed.
Lemma deletions_witness : exists t1 h0, enterprise 20 nn1 t1 h0 false \/ invalid_answer KStatefulSet t1.
Proof.
  destruct (run_call (cr1 false [] None "") false created deletes_sts) as (t1 & e & t2 & o & s & He & Hf);
    [vm_compute; reflexivity|vm_compute; reflexivity|]. apply deletes_sts_eq in Hf.
  destruct (deletions_justified operator1 20 nn1 t1 e t2 o KStatefulSet s He Hf) as [Hi|(h0 & _ & Hen)].
  - exists t1, (cr1 false [] None ""). right. exact Hi.
  - exists t1, h0. left. exact Hen.
Defined.

(** A resource that is being deleted. *)
Definition drops_finalizer (e : @event hz_effects) : option HazelcastCR :=
  match ev_op e : hz_op with UpdateCR h => if bool_decide (n_Finalizer ∉ cr_Finalizers h) then Some h else None | _ => None end.
Lemma drops_finalizer_eq e h : drops_finalizer e = Some h -> n_Finalizer ∉ cr_Finalizers h /\ exists x, e = Call (UpdateCR h) x.
Proof.
  destruct e as [c x]. destruct c; try discriminate. unfold drops_finalizer. cbn [ev_op].
  destruct (bool_decide _) eqn:E; [|discriminate]. intros [= <-]. apply bool_decide_eq_true in E. split; [exact E|by exists x].
Qed.
Lemma finalizer_witness : exists t1 h0, released operator1 t1 h0.
Proof.
  destruct (run_call (cr1 true [n_Finalizer] None "Running") true created drops_finalizer) as (t1 & e & t2 & o & h & He & Hf);
    [vm_compute; reflexivity|vm_compute; reflexivity|]. apply drops_finalizer_eq in Hf as [Hp [x ->]].
  destruct (finalizer_released operator1 20 nn1 t1 h x t2 o He Hp) as (h0 & _ & _ & Hr). exists t1, h0. exact Hr.
Defined.

(** A force start. *)
Definition posts (e : @event hz_effects) : option (string * string) :=
  match ev_op e : hz_op with HttpPost url data => Some (url, data) | _ => None end.
Lemma posts_eq e url data : posts e = Some (url, data) -> exists x, e = Call (HttpPost url data) x.
Proof. destruct e as [c x]. destruct c; try discriminate. intros [= <- <-]. by exists x. Qed.
Lemma startup_witness : exists t1 url data, startup_ok nn1 t1 url data.
Proof.
  destruct (run_call (cr1 false [] (Some (persistence1 ForceStart)) "Pending") true created posts) as (t1 & e & t2 & o & [url data] & He & Hf);
    [vm_compute; reflexivity|vm_compute; reflexivity|]. apply posts_eq in Hf as [x ->].
  exists t1, url, data. exact (startup_action_justified operator1 20 nn1 t1 url data x t2 o He).
Defined.
End HzRuns.
