(* ===== verification/HzStatusFacts.v ===== *)
(** * Theorems about statuses, secrets and endpoints

    Which members the status of a cluster lists; when a restored cluster is
    activated; what is kept of the secrets; which endpoints remain. *)

From S2P Require Import Prelude Eff HotBackup FieldValidation Json GoPath GoNet HazelcastTypes DataStructureTypes HazelcastValidation MapValidation ConfigTypes Proto CodecBuiltin CodecTypes CodecExtra CodecRequests DataStructureConfig DataStructureValidation WanTypes JetJobValidation HazelcastConfig CustomConfig Kube WanController ConfigSecret HzTypes HzObjects HzStatefulSet HzKube HzServices HzSecrets HzStatus HzController HzLogic HazelcastValidationFacts HazelcastConfigFacts HzStatefulSetFacts HzControllerFacts HzReconcileFacts.
#[local] Open Scope prog_scope.
#[local] Open Scope string_scope.
#[local] Open Scope list_scope.
#[local] Open Scope Z_scope.

Section Members.
Context `{R : MapRange}.

(** A range over a map visits every key once. *)
Lemma go_range_keys {A} (m : gmap string A) : (go_range m).*1 = range_keys m.
Proof.
  unfold go_range. assert (Hf : Forall (fun k => is_Some (m !! k)) (range_keys m)).
  { apply Forall_forall. intros k. apply elem_of_range_keys. }
  induction Hf as [|k l [a Ha] _ IH]; [done|]. cbn. rewrite Ha. cbn. by rewrite IH.
Qed.
Lemma range_keys_perm {A} (m : gmap string A) : range_keys m ≡ₚ (map_to_list ((fun _ => "") <$> m)).*1.
Proof. unfold range_keys. by rewrite range_perm. Qed.
Lemma range_keys_NoDup {A} (m : gmap string A) : NoDup (range_keys m).
Proof. rewrite range_keys_perm. apply NoDup_fst_map_to_list. Qed.
Lemma go_range_length {A} (m : gmap string A) : length (go_range m) = size m.
Proof.
  rewrite <-(length_fmap fst), go_range_keys, range_keys_perm, length_fmap, length_map_to_list. by rewrite map_size_fmap.
Qed.

(** What is reported: the members, the pods that failed, and the pods whose
    address is that of none of these. *)
Definition covered (m : memberStatuses) (ip : string) : Prop :=
  (exists uid d, mst_readyMembersMap m !! uid = Some d /\ before_colon (md_Address d) = ip)
  \/ exists e, e ∈ mst_podErrors m /\ pe_PodIp e = ip.
Inductive reported (m : memberStatuses) : HazelcastMemberStatus -> Prop :=
| rep_ready uid d : mst_readyMembersMap m !! uid = Some d ->
    reported m (ready_status (pod_names (mst_memberPods m)) uid d)
| rep_failed e : e ∈ mst_podErrors m -> reported m (failed_status e)
| rep_pending p : p ∈ mst_memberPods m -> ~ covered m (pod_IP p) -> reported m (pending_status p).

Lemma ready_elem m s : s ∈ readyMemberStatuses (mst_readyMembersMap m) (mst_memberPods m) <->
  exists uid d, mst_readyMembersMap m !! uid = Some d /\ s = ready_status (pod_names (mst_memberPods m)) uid d.
Proof.
  unfold readyMemberStatuses. rewrite list_elem_of_fmap. split.
  - intros ([uid d] & -> & Hin%elem_of_go_range). eauto.
  - intros (uid & d & Hd & ->). exists (uid, d). split; [done|]. by apply elem_of_go_range.
Qed.

Lemma covered_ips m ip :
  ip ∈ ms_Ip <$> (readyMemberStatuses (mst_readyMembersMap m) (mst_memberPods m) ++ failedMemberStatuses (mst_podErrors m))
  <-> covered m ip.
Proof.
  unfold covered, failedMemberStatuses. rewrite fmap_app, elem_of_app, !list_elem_of_fmap. split.
  - intros [(s & -> & (uid & d & Hd & ->)%ready_elem)|(s & -> & (e & -> & He)%list_elem_of_fmap)]; [left|right]; eauto.
  - intros [(uid & d & Hd & <-)|(e & He & <-)]; [left|right].
    + exists (ready_status (pod_names (mst_memberPods m)) uid d). split; [done|]. apply ready_elem. eauto.
    + exists (failed_status e). split; [done|]. apply list_elem_of_fmap. eauto.
Qed.

(** The members of the status are those of the status service, each with
    its data, the pods that failed, and the pods whose address belongs to
    neither; each member and each error is there once. *)
Theorem member_statuses_complete m :
  (forall s, s ∈ allMemberStatuses m <-> reported m s)
  /\ NoDup (ms_Uid <$> readyMemberStatuses (mst_readyMembersMap m) (mst_memberPods m))
  /\ length (readyMemberStatuses (mst_readyMembersMap m) (mst_memberPods m)) = size (mst_readyMembersMap m).
Proof.
  split; [|split].
  - intros s. unfold allMemberStatuses. cbv zeta. rewrite !elem_of_app. unfold failedMemberStatuses at 1, pendingMemberStatuses.
    rewrite !list_elem_of_fmap. split.
    + intros [[(uid & d & Hd & ->)%ready_elem|(e & -> & He)]|(p & -> & Hp)]; [by constructor..|].
      apply list_elem_of_filter in Hp as [Hn Hp]. constructor; [done|]. by rewrite <-covered_ips.
    + intros [uid d Hd|e He|p Hp Hn]; [left; left; apply ready_elem; eauto|left; right; eauto|right].
      exists p. split; [done|]. apply list_elem_of_filter. split; [by rewrite covered_ips|done].
  - unfold readyMemberStatuses. rewrite <-list_fmap_compose.
    rewrite (list_fmap_ext _ fst); [rewrite go_range_keys; apply range_keys_NoDup|by intros i []].
  - unfold readyMemberStatuses. rewrite length_fmap. apply go_range_length.
Qed.

(** When a pod that has no address fails, every other pod that has none
    is left out of the status, also those that only wait to be scheduled. *)
Theorem failed_pod_hides_pending m e s :
  e ∈ mst_podErrors m -> pe_PodIp e = "" -> s ∈ allMemberStatuses m -> ms_Ip s = "" ->
  (exists uid d, mst_readyMembersMap m !! uid = Some d /\ before_colon (md_Address d) = "")
  \/ exists e', e' ∈ mst_podErrors m /\ s = failed_status e'.
Proof.
  intros He Hip Hs Hs0. apply member_statuses_complete in Hs. inversion Hs as [uid d Hd|e' He'|p Hp Hn]; subst.
  - left. by exists uid, d.
  - right. by exists e'.
  - destruct Hn. right. exists e. split; [done|]. simpl in Hs0. by rewrite Hs0.
Qed.
End Members.

Section World.
Context `{P : Proto} `{R : MapRange} `{EJ : EventJson} `{QL : QuantityLib} `{Y : YamlLib} `{YT : !YamlTree}.
Context `{HZJ : !HazelcastJson} `{MJ : !MapJson} `{KE : KErrors} `{JT : JsonText} `{PT : PodTypes} `{HS : HzSecretLib}.
Context `{YV : YamlValid} `{SM : SortByMin} `{HL : !HzLib} `{SL : SelectorLib} `{HJ : !HzSpecJson}.
Context `{CU : !ControllerUtil} `{RL : @RetryLib hz_effects}.
Context (op_env : Operator) (frames : nat) (nn : Kube.NamespacedName).
Implicit Types h : HazelcastCR.
Abbreviation Call := (@Ev hz_effects).
Abbreviation trace := (list (@event hz_effects)).
Implicit Types t : trace.

(** ** Activating a restored cluster *)

Definition asked (req : res ClientMessage) (x : fetched ClientMessage) (e : @event hz_effects) : Prop :=
  exists m, req = Ret m /\ e = Call (Base (InvokeOnRandomTarget nn m)) x.
Definition current_state (resp : ClientMessage) : res Z :=
  bind_res (DecodeMCGetClusterMetadataResponse frames resp) (fun m => Ret (ClusterMetadata_CurrentState m)).

Lemma on_random_target_exec {A} (req : res ClientMessage) (decode : ClientMessage -> res A) t r :
  exec (on_random_target nn req decode) t (Returned r) ->
  exists e x, t = [e] /\ asked req x e
  /\ match x with Failed err => r = inr err | Found resp => exists a, decode resp = Ret a /\ r = inl a end.
Proof.
  unfold on_random_target. intros H. destruct req as [m| |] eqn:Eq; cbn in H; [|by destruct H as [_ [=]]..].
  destruct H as (x & t' & -> & H). exists (Call (Base (InvokeOnRandomTarget nn m)) x), x. destruct x as [resp|e].
  - destruct (decode resp) as [a| |] eqn:Ed; cbn in H; [|by destruct H as [_ [=]]..]. destruct H as [-> [= ->]].
    split; [done|]. split; [by exists m|by exists a].
  - cbn in H. destruct H as [-> [= ->]]. split; [done|]. split; [by exists m|done].
Qed.

Lemma may_activate_iff h : may_activate h = true <->
  restore_enabled h <> None /\ rs_State (ss_Restore (cr_status h)) = RestoreSucceeded /\ cr_phase h <> Phase_Pending
  /\ Forall (fun m => ms_State m = NodeStatePassive) (ss_Members (cr_status h)).
Proof.
  unfold may_activate. rewrite !andb_true_iff, forallb_forall, bool_decide_eq_true, !negb_true_iff, Forall_forall, strb_true, strb_false.
  setoid_rewrite strb_true. setoid_rewrite <- list_elem_of_In. split.
  - intros ((((Hr & _) & Hs) & Hp) & Hm). split; [by destruct (restore_enabled h)|done].
  - intros (Hr & Hs & Hp & Hm). split; [|done]. split; [|done]. split; [|done]. split; [by destruct (restore_enabled h)|].
    intros E. by rewrite E in Hs.
Qed.

(** C28. A cluster is activated only when a restoration is configured and has
    succeeded, the phase is not Pending, every member of the status is
    passive and a member answers that the cluster is in another state than
    active; otherwise no request is made.  An error of a request is returned. *)
Theorem activation_only_after_restore h t err :
  exec (ensureClusterActive frames h nn) t (Returned err) ->
  if decide (restore_enabled h <> None /\ rs_State (ss_Restore (cr_status h)) = RestoreSucceeded /\ cr_phase h <> Phase_Pending
             /\ Forall (fun m => ms_State m = NodeStatePassive) (ss_Members (cr_status h)))
  then
    exists e1 x, asked EncodeMCGetClusterMetadataRequest x e1
    /\ match x with
       | Failed e => t = [e1] /\ err = Some e
       | Found resp => exists st, current_state resp = Ret st
           /\ if st =? ClusterStateActive then t = [e1] /\ err = None
              else exists e2 y, t = [e1; e2] /\ asked (EncodeMCChangeClusterStateRequest ClusterStateActive) y e2
                   /\ err = match y with Failed e => Some e | Found _ => None end
       end
  else t = [] /\ err = None.
Proof.
  pose proof (may_activate_iff h) as Hm.
  unfold ensureClusterActive. destruct (may_activate h); cbn [negb];
    [rewrite decide_True by (by apply Hm)|rewrite decide_False by (by rewrite <- Hm); by intros [-> [= ->]]].
  intros H. exec_step H. apply on_random_target_exec in He as (e1 & x & -> & Hask & Hx). exists e1, x. split; [done|].
  destruct x as [resp|e].
  - destruct Hx as (st & Hst & ->). exists st. split; [exact Hst|]. destruct (st =? ClusterStateActive).
    + destruct H as [-> [= ->]]. done.
    + unfold hz_ChangeClusterState in H. exec_step H. apply on_random_target_exec in He as (e2 & y & -> & Hask2 & Hy).
      destruct H as [-> [= ->]]. exists e2, y. split; [done|]. split; [done|]. destruct y; [by destruct Hy as (? & _ & ->)|by subst].
  - subst. destruct H as [-> [= ->]]. done.
Qed.

(** ** What is kept of the secrets *)

(** A key store that is in the secret of the cluster stays, whatever
    certificates the resource names now. *)
Theorem keystore_never_refreshed h s d k t h' s' err :
  sec_Data s = Some d -> sd_Keystore d = Some k ->
  exec (mutate_secret h s) t (Returned (h', s', err)) -> exists d', sec_Data s' = Some d' /\ sd_Keystore d' = Some k.
Proof.
  intros Hd Hk H. unfold mutate_secret in H. exec_step H. destruct a as [z [config|e]]; cbn [fst snd] in H.
  - rewrite Hd, Hk in H. destruct H as [_ [= -> -> ->]]. eexists. split; [reflexivity|]. done.
  - destruct H as [_ [= -> -> ->]]. by exists d.
Qed.

(** The owner the controller sets on the secret of the agents is not
    stored: the secret is updated, if at all, to what was read last. *)
Theorem mtls_owner_not_stored h t1 s x t2 o :
  exec (reconcileMTLSSecret h) (t1 ++ Call (UpdateO KSecret s) x :: t2) o -> exists key, Call (GetO KSecret key) (Found s) ∈ t1.
Proof.
  set (Gs := fun (t : trace) (c : @op hz_effects) => match c with
    UpdateO KSecret s => exists key, Call (GetO KSecret key) (Found s) ∈ t | _ => True end).
  intros He. change (Gs t1 (UpdateO KSecret s)). apply (holds_call Gs _ _ _ _ _ (fun _ _ => True)) in He; [exact He|].
  unfold reconcileMTLSSecret. apply holds_vis; [done|]. intros [e|] t _ _; [by apply holds_ret|].
  apply holds_vis; [done|]. intros [s1|e] t' _ _; [|by apply holds_ret].
  destruct (SetControllerReference _ _) as [os|e]; [|by apply holds_ret]. unfold force.
  eapply (holds_seq _ _ _ _ (fun _ _ => True)); [|intros; by apply holds_ret]. unfold util_CreateOrUpdateForce.
  assert (Hcu : forall o1 t, holds Gs (controllerutil_CreateOrUpdate KSecret (pure_mutate keep) tt o1) t (fun _ _ => True)).
  { intros o1 t3. rewrite CreateOrUpdate_behaviour. apply holds_vis; [done|]. intros [s2|e] t4 _ E4.
    - cbn. unfold run_mutate. cbn. case_decide; [|by apply holds_ret]. cbn. destruct (Semantic_DeepEqual _ _ _); [by apply holds_ret|].
      apply holds_vis; [by eexists|]. intros; by apply holds_ret.
    - destruct (IsNotFound e); [|by apply holds_ret]. cbn. unfold run_mutate. cbn. case_decide; [|by apply holds_ret]. cbn.
      apply holds_vis; [done|]. intros; by apply holds_ret. }
  eapply (holds_seq _ _ _ _ (fun _ _ => True)); [apply Hcu|]. intros t3 [[[] s3] [e|]] _ _; [|by apply holds_ret].
  destruct (IsAlreadyExists e); [by apply holds_ret|]. destruct (IsInvalid e); [|by apply holds_ret].
  apply holds_vis; [done|]. intros [e'|] t4 _ _; [by apply holds_ret|apply Hcu].
Qed.

(** ** Endpoints *)

(** An endpoint a service that was listed asks for. *)
Definition endpoint_of h (svcs : list Service) (e : HazelcastEndpoint) : Prop :=
  exists s v l e', s ∈ svcs /\ default ∅ (om_Labels (svc_Meta s)) !! n_ServiceEndpointTypeLabelName = Some v
  /\ endpoints_of h s v = Some l /\ e' ∈ l /\ om_Name (he_Meta e') = om_Name (he_Meta e).

Lemma service_endpoints_names h na names l t names' :
  exec (service_endpoints h na names l) t (Returned (inl names')) ->
  forall e, om_Name (he_Meta e) ∈ names' -> om_Name (he_Meta e) ∈ names \/ endpoint_of h l e.
Proof.
  revert names t. induction l as [|s l IH]; intros names t H e He; cbn [service_endpoints] in H.
  { destruct H as [_ [= ->]]. by left. }
  assert (Hl : endpoint_of h l e -> endpoint_of h (s :: l) e).
  { intros (s' & v & es & e' & Hs & Hr). exists s', v, es, e'. split; [by right|done]. }
  destruct (_ !! n_ServiceEndpointTypeLabelName) as [v|] eqn:Ev; [|destruct (IH _ _ H e He); auto].
  destruct (endpoints_of h s v) as [es|] eqn:Ee; [|by destruct H as [_ [=]]]. exec_step H. destruct a as [err|]; [by destruct H as [_ [=]]|].
  destruct (IH _ _ H e He) as [[Hn|Hn]%elem_of_union|Hn]; auto. right.
  apply elem_of_list_to_set, list_elem_of_fmap in Hn as (e' & Heq & Hin). exists s, v, es, e'. split; [by left|done].
Qed.

Lemma each_deleted names es t :
  exec (each (delete_leftover names) es) t (Returned None) ->
  forall e, e ∈ es -> om_Name (he_Meta e) ∈ names \/ Call (DeleteO KEndpoint e) None ∈ t.
Proof.
  revert t. induction es as [|x es IH]; intros t H e He; [by apply not_elem_of_nil in He|]. cbn [each] in H. exec_step H.
  destruct a as [err|]; [by destruct H as [_ [=]]|]. apply elem_of_cons in He as [->|He].
  - unfold delete_leftover in He0. case_bool_decide; [by left|]. right. destruct He0 as (y & t' & -> & [-> [= ->]]). by left.
  - destruct (IH _ H e He) as [?|?]; [by left|right]. apply elem_of_app. by right.
Qed.

(** When the endpoints were reconciled without an error, the endpoints and
    the services of the cluster were listed, and every endpoint belongs to one
    of the services or was deleted. *)
Theorem leftover_endpoints_deleted h t :
  exec (reconcileHazelcastEndpoints op_env h) t (Returned None) ->
  exists svcs es, Call (ListO KService (cr_ns h) (util_Labels h)) (Found svcs) ∈ t
  /\ Call (ListO KEndpoint (cr_ns h) (util_Labels h)) (Found es) ∈ t
  /\ forall e, e ∈ es -> endpoint_of h svcs e \/ Call (DeleteO KEndpoint e) None ∈ t.
Proof.
  unfold reconcileHazelcastEndpoints. intros H. exec_step H. destruct a as [na|err]; [|by destruct H as [_ [=]]].
  exec_step H. destruct x as [svcs|err]; [|by destruct H as [_ [=]]]. exec_step H.
  destruct a as [names|err]; [|by destruct H as [_ [=]]]. exec_step H. destruct x as [es|err]; [|by destruct H as [_ [=]]].
  exists svcs, es. rewrite !elem_of_app, !elem_of_cons, !elem_of_app, !elem_of_cons.
  split; [tauto|]. split; [tauto|]. intros e Hx. destruct (each_deleted _ _ _ H e Hx) as [Hn|Hd].
  - left. by destruct (service_endpoints_names _ _ _ _ _ _ He0 e Hn) as [[]%not_elem_of_empty|].
  - right. rewrite !elem_of_app, !elem_of_cons, !elem_of_app, !elem_of_cons. tauto.
Qed.
End World.

(** * Concrete runs: stateful sets, statuses, endpoints

    Resources and answers for which the hypotheses of the theorems of
    HzStatefulSetFacts.v and HzStatusFacts.v hold. *)

Module HzStatusRuns.
Import RefProto HzRuns.
#[local] Existing Instances RefProto.ref CustomRuns.tree1 HzRuns.json1 HzRuns.map_json1 HzRuns.event_json1 HzRuns.yaml_valid1
  HzRuns.secret_lib1 HzRuns.spec_json1 HzRuns.controller_util1.

(** ** The pods of a cluster with persistence *)

Definition cr2 : HazelcastCR := cr1 false [n_Finalizer] (Some (persistence1 "")) "Running".
Definition returned {A} (d : A) (r : res A) : A := match r with Ret a => a | _ => d end.
Definition returns {A} (r : res A) : bool := match r with Ret _ => true | _ => false end.
Lemma returned_Ret {A} (d : A) r : returns r = true -> r = Ret (returned d r).
Proof. by destruct r. Qed.

Definition no_sts : StatefulSet :=
  mkStatefulSet (metadata cr2) None "" "" None (mkPodTemplate ∅ None false "" None [] [] [] [] None [] ∅ [] None) [] 0 0 0 0 0.
Definition sts2 : StatefulSet := returned no_sts (new_statefulset operator1 cr2).
Definition mutated2 : HazelcastCR * StatefulSet := returned (cr2, no_sts) (mutate_statefulset operator1 cr2 n_PVCName sts2).

(** The specification of [cr2] is recorded, and the update asks for another
    size of the cluster. *)
Definition no_lookups : Cluster := mkCluster (fun _ => None) (fun _ => Found ∅) (fun _ => None) (fun _ => None).
Definition with_size (h : HazelcastCR) (n : Z) (an : gmap string string) : HazelcastCR :=
  let z := cr_hz h in let s := h_Spec z in
  set_hz h (mkHazelcast (h_Name z) (h_Namespace z) an (h_Deleting z)
    (mkHazelcastSpec (Some n) "" "license" None (s_Persistence s) None "" None None None None "" None [] None "dev" None [] [] []
       None None None None) (h_Status z)).
Definition cr2_scaled : HazelcastCR := with_size cr2 3 {[n_LastSuccessfulSpecAnnotation := "2"]}.
Definition mutated_scaled : HazelcastCR * StatefulSet := returned (cr2_scaled, no_sts) (mutate_statefulset operator1 cr2_scaled n_PVCName sts2).

Section Recorded.
#[local] Instance json2 : HazelcastJson := {| HazelcastSpec_Unmarshal _ := inl (cr_spec cr2) |}.

Lemma mounts_witness : exists c0 c1 cs, pt_Containers (sts_Template mutated_scaled.2) = c0 :: c1 :: cs
  /\ mounted mutated_scaled.2 c0 /\ mounted mutated_scaled.2 c1 /\ Forall (mounted mutated_scaled.2) (pt_InitContainers (sts_Template mutated_scaled.2)).
Proof.
  apply (pod_mounts_have_volumes operator1 cr2 sts2 operator1 cr2_scaled n_PVCName sts2 mutated_scaled.1 mutated_scaled.2).
  - apply returned_Ret. vm_compute. reflexivity.
  - reflexivity.
  - apply (au_step (cr_spec cr2) (cr_spec cr2) no_lookups (cr_hz cr2_scaled) "2"); [constructor|reflexivity|reflexivity|].
    vm_compute. reflexivity.
  - intros d Hd. by exists d.
  - rewrite <-surjective_pairing. apply returned_Ret. vm_compute. reflexivity.
Defined.
End Recorded.

(** As long as no specification is recorded, an update is accepted that
    enables persistence of a cluster whose stateful set was made without it:
    the members then mount a volume that the pods do not have, since the
    claims of a stateful set cannot change. *)
Definition cr_plain : HazelcastCR := cr1 false [n_Finalizer] None "Pending".
Definition sts_plain : StatefulSet := returned no_sts (new_statefulset operator1 cr_plain).
Definition mutated_plain : HazelcastCR * StatefulSet :=
  returned (cr2, no_sts) (mutate_statefulset operator1 cr2 n_PVCName sts_plain).

Theorem unrecorded_update_unmounted :
  new_statefulset operator1 cr_plain = Ret sts_plain
  /\ ValidateHazelcastSpec no_lookups (cr_hz cr2) = Ret None
  /\ mutate_statefulset operator1 cr2 n_PVCName sts_plain = Ret mutated_plain
  /\ exists c cs, pt_Containers (sts_Template mutated_plain.2) = c :: cs /\ ~ mounted mutated_plain.2 c.
Proof.
  split; [apply returned_Ret; vm_compute; reflexivity|]. split; [vm_compute; reflexivity|].
  split; [apply returned_Ret; vm_compute; reflexivity|].
  assert (forallb (fun c => forallb (fun m => bool_decide (vm_Name m ∈ volume_names mutated_plain.2)) (ct_VolumeMounts c))
            (take 1 (pt_Containers (sts_Template mutated_plain.2))) = false) as E by (vm_compute; reflexivity).
  destruct (pt_Containers (sts_Template mutated_plain.2)) as [|c cs]; [discriminate|]. exists c, cs. split; [done|].
  intros Hm. apply not_true_iff_false in E. apply E. cbn [take forallb]. rewrite andb_true_r. apply forallb_forall.
  intros m Hin. by apply bool_decide_eq_true, Hm, list_elem_of_In.
Qed.

(** An update takes the image of the agent for the init container only. *)
Lemma sidecar_witness : exists s, ct_Image <$> pt_InitContainers (sts_Template s) = [AgentDockerImage cr2].
Proof.
  exists mutated2.2. apply (sidecar_image_kept operator1 cr2 n_PVCName sts2 mutated2.1 mutated2.2).
  rewrite <-surjective_pairing. apply returned_Ret. vm_compute. reflexivity.
Defined.

(** ** The ports of a cluster with two WAN endpoints *)

Definition wan2 : AdvancedNetwork := mkAdvancedNetwork [] [] [mkWANConfig 5710 2 "NodePort" "a"; mkWANConfig 5720 1 "" "b"].
Definition with_network (s : HazelcastSpec) (a : AdvancedNetwork) : HazelcastSpec :=
  mkHazelcastSpec (s_ClusterSize s) (s_DeprecatedLicenseKeySecret s) (s_LicenseKeySecretName s) (s_ExposeExternally s)
    (s_Persistence s) (s_JetEngineConfiguration s) (s_HighAvailabilityMode s) (s_JVM s) (s_NativeMemory s) (Some a) (s_TLS s)
    (s_CustomConfigCmName s) (s_SQL s) (s_LocalDevices s) (s_CPSubsystem s) (s_ClusterName s) (s_DeprecatedUserCodeDeployment s)
    (s_ExecutorServices s) (s_DurableExecutorServices s) (s_ScheduledExecutorServices s) (s_Properties s)
    (s_ManagementCenterConfig s) (s_Serialization s) (s_UserCodeNamespaces s).
Definition cr_wan2 : HazelcastCR := set_hz cr2 (set_spec (cr_hz cr2) (with_network (cr_spec cr2) wan2)).
Lemma ports_witness : length (hazelcastContainerPorts cr_wan2) = 6%nat
  /\ forall c, c ∈ hazelcastContainerPorts cr_wan2 -> exists p, p ∈ service_ports cr_wan2 /\ reaches p c /\ sp_Port p = cp_ContainerPort c.
Proof.
  split; [reflexivity|]. apply (service_ports_match cr_wan2). repeat constructor; cbn; lia.
Defined.

(** ** A cluster that was restored *)

Definition restored_status : StatusMore :=
  mkStatusMore "" "2/2" "" [mkHazelcastMemberStatus "hz-0" "m1" "10.0.0.1" "5.5.2" NodeStatePassive true false 271 true "" "" 0]
    (mkRestoreStatus RestoreSucceeded 0 0).
Definition restoring : HazelcastPersistenceConfiguration :=
  mkHazelcastPersistenceConfiguration "" MostRecent "" 0 (Some (mkPvcConfiguration (Some ["ReadWriteOnce"]) (Some 8) None))
    (mkRestoreConfiguration None "backup" None).
Definition cr3 : HazelcastCR :=
  mkHazelcastCR (cr_hz (cr1 false [n_Finalizer] (Some restoring) "Running")) more1 "uid" [n_Finalizer] restored_status.
(** The metadata of a cluster that is passive. *)
Definition metadata_answer : message :=
  mkMessage false [mkFrame KData 0 (replicate 40 x01); mkFrame KData 0 [x35]; mkFrame KNull 1024 []].
Definition answer3 (o : @op hz_effects) (t : list (@event hz_effects)) : @ans hz_effects o :=
  match o as o return hz_ans o with
  | Base o => match o as o return kube_ans o with
              | InvokeOnRandomTarget _ _ => Found metadata_answer
              | o => kube_answer true o
              end
  | o => answer cr3 true created o t
  end.
Definition activating := run answer3 (ensureClusterActive 20 cr3 nn1) [].
Lemma activation_witness : may_activate cr3 = true
  /\ exists e1 e2 y, activating.1 = [e1; e2] /\ asked nn1 (EncodeMCChangeClusterStateRequest ClusterStateActive) y e2.
Proof.
  assert (E : activating.2 = Some (Returned None)) by (vm_compute; reflexivity). split; [vm_compute; reflexivity|].
  apply run_exec_2 in E. apply (activation_only_after_restore 20 nn1) in E.
  destruct E as (e1 & x & Hask & E). destruct x as [resp|e]; [|by destruct E].
  destruct E as (st & Hst & E). destruct (st =? ClusterStateActive).
  - destruct E as [E _]. apply (f_equal length) in E. by vm_compute in E.
  - destruct E as (e2 & y & E & Hask2 & _). by exists e1, e2, y.
Defined.

(** ** An endpoint whose service is gone *)

Definition leftover : HazelcastEndpoint :=
  mkHazelcastEndpoint (mkObjectMeta "hz-1" "ns" None ∅ []) HazelcastEndpointTypeMember 5701 "hz" "".
Definition answer4 (o : @op hz_effects) (t : list (@event hz_effects)) : @ans hz_effects o :=
  match o as o return hz_ans o with
  | ListO k _ _ => match k as k return fetched (list (oobj k)) with KEndpoint => Found [leftover] | _ => Found [] end
  | o => answer cr2 true created o t
  end.
Definition cleaning := run answer4 (reconcileHazelcastEndpoints operator1 cr2) [].
Lemma leftover_witness : exists (svcs : list Service) (es : list HazelcastEndpoint),
  @Ev hz_effects (ListO KService "ns" (util_Labels cr2)) (Found svcs) ∈ cleaning.1
  /\ forall e, e ∈ es -> endpoint_of cr2 svcs e \/ @Ev hz_effects (DeleteO KEndpoint e) None ∈ cleaning.1.
Proof.
  assert (E : cleaning.2 = Some (Returned None)) by (vm_compute; reflexivity). apply run_exec_2 in E.
  apply (leftover_endpoints_deleted operator1) in E as (svcs & es & Hs & _ & He). by exists svcs, es.
Defined.
End HzStatusRuns.
