(* ===== verification/StatusService.v ===== *)
(** * What a status service knows of the members

    src/internal/hazelcast-client/status_service.go and
    src/internal/protocol/types/typed_member_state.go: what a service learns
    of its cluster.  [UpdateMembers] and [initMembers] are programs over the
    client of the service; the goroutine that calls them and the registry of
    the services are in StatusRegistry.  Parameter: how the JSON text of a
    member's state is read ([MemberStateJson]). *)

From S2P Require Import Prelude Eff ConfigTypes Proto CodecBuiltin CodecTypes CodecExtra CodecRequests HzTypes HzObjects HzKube.
From stdpp Require Import pretty.
#[local] Open Scope prog_scope.
#[local] Open Scope string_scope.
#[local] Open Scope list_scope.
#[local] Open Scope Z_scope.

(** ** What a service knows of the members *)

(** [cluster.MemberInfo] of the client library. *)
Record MemberInfo := mkMemberInfo {
  mi_Address : string;
  mi_UUID : string;
  mi_Major : Z;
  mi_Minor : Z;
  mi_Patch : Z;
  mi_LiteMember : bool;
}.
(** src/internal/protocol/types/typed_member_state.go; [ClusterHotRestartStatus]
    is in HzTypes. *)
Record NodeState := mkNodeState { ns_State : string; ns_MemberVersion : string }.
Record HotRestartState := mkHotRestartState {
  hrs_BackupTaskState : string;
  hrs_BackupTaskCompleted : Z;
  hrs_BackupTaskTotal : Z;
  hrs_IsHotBackupEnabled : bool;
  hrs_BackupDirectory : string;
}.
Record MemberState := mkMemberState {
  mst_Address : string;
  mst_Uuid : string;
  mst_Name : string;
  mst_NodeState : NodeState;
  mst_HotRestartState : HotRestartState;
  mst_ClusterHotRestartStatus : ClusterHotRestartStatus;
}.
Record MemberPartitionState := mkMemberPartitionState { mps_Partitions : list Z }.
Record TimedMemberState := mkTimedMemberState {
  tms_MemberState : MemberState;
  tms_MemberPartitionState : MemberPartitionState;
  tms_Master : bool;
}.
Record TimedMemberStateWrapper := mkTimedMemberStateWrapper { tmw_TimedMemberState : TimedMemberState }.
(** [json.Unmarshal] into a [TimedMemberStateWrapper]. *)
Class MemberStateJson := { TimedMemberState_Unmarshal : string -> sum TimedMemberStateWrapper error }.

Definition newMemberData (m : MemberInfo) : MemberData :=
  mkMemberData (mi_Address m) (mi_UUID m) (pretty (mi_Major m) ++ "." ++ pretty (mi_Minor m) ++ "." ++ pretty (mi_Patch m))%string
    (mi_LiteMember m) "" false 0 "".
Definition enrichMemberData (d : MemberData) (s : TimedMemberState) : MemberData :=
  mkMemberData (md_Address d) (md_UUID d) (md_Version d) (md_LiteMember d) (ns_State (mst_NodeState (tms_MemberState s)))
    (tms_Master s) (int32 (Z.of_nat (length (mps_Partitions (tms_MemberPartitionState s))))) (mst_Name (tms_MemberState s)).

Section Calls.
Context `{P : Proto}.
Inductive ss_op := OrderedMemberInfos | InvokeOnMemberOf (uuid : string) (req : ClientMessage).
Definition ss_ans (o : ss_op) : Type :=
  match o with OrderedMemberInfos => list MemberInfo | InvokeOnMemberOf _ _ => fetched ClientMessage end.
#[global] Instance ss_effects : Effects := {| op := ss_op; ans := ss_ans |}.
End Calls.
#[export] Remove Hints ss_effects : typeclass_instances.

Section Service.
Context `{P : Proto} `{TJ : MemberStateJson}.
#[local] Existing Instance ss_effects.
Context (frames : nat).

Definition ss_lift {A} (r : res A) : prog A := match r with Ret a => Done a | Panic => Crash | OutOfFuel => Spin end.

(** [DecodeTimedMemberStateJsonString] after [DecodeMCGetTimedMemberStateResponse] *)
Definition decode_state (resp : ClientMessage) : res (sum TimedMemberStateWrapper error) :=
  bind_res (DecodeMCGetTimedMemberStateResponse frames resp) (fun json => Ret (TimedMemberState_Unmarshal json)).
Definition fetchTimedMemberState (uuid : string) : prog (sum TimedMemberStateWrapper error) :=
  req <- ss_lift EncodeMCGetTimedMemberStateRequest ;;
  ask r <- InvokeOnMemberOf uuid req ;;
  match (r : fetched ClientMessage) with
  | Failed e => Done (inr e)
  | Found resp => ss_lift (decode_state resp)
  end.

(** The new map, which starts empty, and the new status of hot restarts. *)
Fixpoint fetch_members (l : list MemberInfo) (members : gmap string MemberData) (hot : ClusterHotRestartStatus) : prog Status :=
  match l with
  | [] => Done (mkStatus members hot)
  | m :: l =>
      state <- fetchTimedMemberState (mi_UUID m) ;;
      match state with
      | inr _ => fetch_members l members hot
      | inl s =>
          let d := enrichMemberData (newMemberData m) (tmw_TimedMemberState s) in
          fetch_members l (<[mi_UUID m := d]> members) (mst_ClusterHotRestartStatus (tms_MemberState (tmw_TimedMemberState s)))
      end
  end.
(** A service without a client keeps what it has. *)
Definition UpdateMembers (client : bool) (status : Status) : prog Status :=
  if negb client then Done status else
  ask l <- OrderedMemberInfos ;; fetch_members (l : list MemberInfo) ∅ ClusterHotRestartStatus_zero.
Definition initMembers (client : bool) (status : Status) : prog Status :=
  if negb client then Done status else
  ask l <- OrderedMemberInfos ;;
  Done (mkStatus (foldl (fun m (i : MemberInfo) => <[mi_UUID i := newMemberData i]> m) ∅ (l : list MemberInfo))
          (stt_ClusterHotRestartStatus status)).

(** *** The status after an update *)

(** The state a member answered. *)
Definition answer_of (e : event) : option (string * ClientMessage) :=
  match e with
  | @Ev _ c x => match c return ss_ans c -> option (string * ClientMessage) with
                 | InvokeOnMemberOf uuid _ => fun x => match x with Found resp => Some (uuid, resp) | Failed _ => None end
                 | OrderedMemberInfos => fun _ => None
                 end x
  end.
Definition answered (t : list event) (uuid : string) (s : TimedMemberStateWrapper) : Prop :=
  exists e resp, e ∈ t /\ answer_of e = Some (uuid, resp) /\ decode_state resp = Ret (inl s).

Lemma fetch_exec uuid t r : exec (fetchTimedMemberState uuid) t (Returned r) ->
  exists e, t = [e] /\ match answer_of e with
                      | Some (uuid', resp) => uuid' = uuid /\ decode_state resp = Ret r
                      | None => exists err, r = inr err
                      end.
Proof.
  unfold fetchTimedMemberState, ss_lift. destruct EncodeMCGetTimedMemberStateRequest as [req| |]; cbn; [|by intros [_ [=]]..].
  intros (x & t' & -> & H). exists (@Ev ss_effects (InvokeOnMemberOf uuid req) x). destruct x as [resp|e]; cbn.
  - destruct (decode_state resp) as [a| |]; cbn in H; [|by destruct H as [_ [=]]..]. destruct H as [-> [= ->]]. by split.
  - destruct H as [-> [= ->]]. split; [done|]. by exists e.
Qed.
Lemma fetch_answered uuid t r s : exec (fetchTimedMemberState uuid) t (Returned r) -> answered t uuid s <-> r = inl s.
Proof.
  intros (e & -> & He)%fetch_exec. split.
  - intros (e' & resp & ->%list_elem_of_singleton & Ha & Hd). rewrite Ha in He. destruct He as [_ He]. rewrite Hd in He. by injection He as <-.
  - intros ->. destruct (answer_of e) as [[uuid' resp]|] eqn:Ea; [|by destruct He]. destruct He as [-> Hd].
    exists e, resp. split; [by left|done].
Qed.
Lemma fetch_other uuid uuid' t r s : exec (fetchTimedMemberState uuid) t (Returned r) -> answered t uuid' s -> uuid' = uuid.
Proof.
  intros (e & -> & He)%fetch_exec (e' & resp & ->%list_elem_of_singleton & Ha & _). rewrite Ha in He. by destruct He.
Qed.

Lemma answered_nil uuid s : ~ answered [] uuid s.
Proof. by intros (? & ? & []%not_elem_of_nil & _). Qed.
Lemma answered_app t1 t2 uuid s : answered (t1 ++ t2) uuid s <-> answered t1 uuid s \/ answered t2 uuid s.
Proof.
  unfold answered. setoid_rewrite elem_of_app. split.
  - intros (e & resp & [H|H] & Hd); [left|right]; by exists e, resp.
  - intros [(e & resp & H & Hd)|(e & resp & H & Hd)]; exists e, resp; auto.
Qed.
Lemma fetch_members_asked l members hot t st uuid s :
  exec (fetch_members l members hot) t (Returned st) -> answered t uuid s -> uuid ∈ mi_UUID <$> l.
Proof.
  revert members hot t. induction l as [|m l IH]; intros members hot t H Ha; cbn [fetch_members] in H.
  { destruct H as [-> _]. by apply answered_nil in Ha. }
  exec_step H. apply answered_app in Ha as [Ha|Ha]; [rewrite (fetch_other _ _ _ _ _ He Ha); left|right].
  destruct a; eauto.
Qed.

(** The list of members of the client. *)
Definition members_of (e : event) : option (list MemberInfo) :=
  match e with
  | @Ev _ c x => match c return ss_ans c -> option (list MemberInfo) with
                 | OrderedMemberInfos => fun x => Some x
                 | InvokeOnMemberOf _ _ => fun _ => None
                 end x
  end.
(** The status of hot restarts of the last member that answered. *)
Definition last_hot (t : list event) (l : list MemberInfo) (hot hot' : ClusterHotRestartStatus) : Prop :=
  (hot' = hot /\ forall m s, m ∈ l -> ~ answered t (mi_UUID m) s)
  \/ exists l1 m l2 s, l = l1 ++ m :: l2 /\ answered t (mi_UUID m) s /\ hot' = mst_ClusterHotRestartStatus (tms_MemberState (tmw_TimedMemberState s))
     /\ forall m' s', m' ∈ l2 -> ~ answered t (mi_UUID m') s'.

Lemma fetch_members_exec l members hot t st : NoDup (mi_UUID <$> l) ->
  exec (fetch_members l members hot) t (Returned st) ->
  (forall uid d, stt_MemberDataMap st !! uid = Some d <->
     (exists m s, m ∈ l /\ mi_UUID m = uid /\ answered t uid s /\ d = enrichMemberData (newMemberData m) (tmw_TimedMemberState s))
     \/ members !! uid = Some d /\ forall s, ~ answered t uid s)
  /\ last_hot t l hot (stt_ClusterHotRestartStatus st).
Proof.
  revert members hot t. induction l as [|m l IH]; intros members hot t Hnd H; cbn [fetch_members] in H.
  { destruct H as [-> [= ->]]. split; [|left; split; [done|intros ? ? ?%not_elem_of_nil; done]].
    intros uid d. cbn. split; [intros Hd; right; split; [done|]|by intros [(? & ? & []%not_elem_of_nil & _)|[? _]]].
    intros s. apply answered_nil. }
  apply NoDup_cons in Hnd as [Hm Hnd]. exec_step H. rename t0 into tm, t1 into tl.
  assert (Hrest : forall s, ~ answered tl (mi_UUID m) s).
  { intros s Ha. apply Hm. destruct a; by eapply fetch_members_asked. }
  assert (Hfirst : forall m' s, m' ∈ l -> ~ answered tm (mi_UUID m') s).
  { intros m' s Hin Ha. apply Hm. rewrite <-(fetch_other _ _ _ _ _ He Ha). by apply list_elem_of_fmap_2. }
  pose proof (fun s => fetch_answered _ _ _ s He) as Hans.
  assert (Hl : forall m' s, m' ∈ l -> answered (tm ++ tl) (mi_UUID m') s <-> answered tl (mi_UUID m') s).
  { intros m' s Hin. rewrite answered_app. split; [|auto]. intros [Ha|]; [by destruct (Hfirst m' s)|done]. }
  destruct a as [s0|e]; destruct (IH _ _ _ Hnd H) as [Hmap Hhot].
  - assert (H0 : answered tm (mi_UUID m) s0) by by apply Hans. split.
    + intros uid d. rewrite Hmap. clear Hmap. split.
      * intros [(m' & s & Hin & <- & Ha & ->)|[Hd Hno]].
        { left. exists m', s. split; [by right|]. split; [done|]. split; [by apply Hl|done]. }
        apply lookup_insert_Some in Hd as [[<- <-]|[Hne Hd]].
        -- left. exists m, s0. split; [by left|]. split; [done|]. rewrite answered_app. auto.
        -- right. split; [done|]. intros s. rewrite answered_app. intros [Ha|Ha]; [|by destruct (Hno s)].
           by rewrite (fetch_other _ _ _ _ _ He Ha) in Hne.
      * intros [(m' & s & Hin & <- & Ha & ->)|[Hd Hno]].
        -- apply elem_of_cons in Hin as [->|Hin]; [|left; exists m', s; by rewrite Hl in Ha by done].
           right. apply answered_app in Ha as [Ha|Ha]; [|by destruct (Hrest s)]. apply Hans in Ha as [= ->].
           split; [by rewrite lookup_insert_eq|done].
        -- right. destruct (decide (uid = mi_UUID m)) as [->|Hne]; [destruct (Hno s0); rewrite answered_app; auto|].
           split; [by rewrite lookup_insert_ne|]. intros s Ha. apply (Hno s). rewrite answered_app. auto.
    + right. destruct Hhot as [[-> Hno]|(l1 & m' & l2 & s & -> & Ha & Hs & Hno)].
      * exists [], m, l, s0. split; [done|]. rewrite answered_app. split; [auto|]. split; [done|].
        intros m' s' Hin Ha. rewrite Hl in Ha by done. by apply (Hno m' s').
      * exists (m :: l1), m', l2, s. split; [done|]. rewrite answered_app. split; [auto|]. split; [done|].
        intros m2 s2 Hin Ha2. rewrite Hl in Ha2 by (apply elem_of_app; right; by right). by apply (Hno m2 s2).
  - assert (H0 : forall s, ~ answered tm (mi_UUID m) s) by (intros s Ha; by apply Hans in Ha). split.
    + intros uid d. rewrite Hmap. clear Hmap.
      assert (Hu : forall s, answered (tm ++ tl) uid s <-> answered tl uid s).
      { intros s. rewrite answered_app. split; [|auto]. intros [Ha|]; [|done].
        rewrite (fetch_other _ _ _ _ _ He Ha) in Ha. by destruct (H0 s). }
      setoid_rewrite Hu. split; (intros [(m' & s & Hin & <- & Ha & ->)|Hd]; [left|by right]).
      * exists m', s. split; [by right|done].
      * apply elem_of_cons in Hin as [->|Hin]; [by destruct (Hrest s)|]. by exists m', s.
    + destruct Hhot as [[-> Hno]|(l1 & m' & l2 & s & -> & Ha & Hs & Hno)].
      * left. split; [done|]. intros m' s' [->|Hin]%elem_of_cons; rewrite answered_app; [|rewrite <-answered_app, Hl by done; eauto].
        by intros [?%H0|?%Hrest].
      * right. exists (m :: l1), m', l2, s. split; [done|]. rewrite answered_app. split; [auto|]. split; [done|].
        intros m2 s2 Hin Ha2. rewrite Hl in Ha2 by (apply elem_of_app; right; by right). by apply (Hno m2 s2).
Qed.

(** C26. After an update the service knows exactly the members that answered
    with a state, each with the data of its last state; a member that could not
    be asked is gone, and the status of hot restarts is that of the last
    member, in the order of the list, that answered - the zero status if none
    did.  A service without a client keeps what it had. *)
Theorem update_members_exact client status t st :
  exec (UpdateMembers client status) t (Returned st) ->
  if client then exists l, head t ≫= members_of = Some l /\
    (NoDup (mi_UUID <$> l) ->
     (forall uid d, stt_MemberDataMap st !! uid = Some d <->
        exists m s, m ∈ l /\ mi_UUID m = uid /\ answered t uid s /\ d = enrichMemberData (newMemberData m) (tmw_TimedMemberState s))
     /\ last_hot t l ClusterHotRestartStatus_zero (stt_ClusterHotRestartStatus st))
  else st = status /\ t = [].
Proof.
  unfold UpdateMembers. destruct client; cbn [negb]; [|by intros [-> [= ->]]]. intros H. exec_step H. exists x. split; [done|].
  intros Hnd. destruct (fetch_members_exec _ _ _ _ _ Hnd H) as [Hmap Hhot].
  assert (Ha : forall uid s, answered (@Ev ss_effects OrderedMemberInfos x :: t0) uid s <-> answered t0 uid s).
  { intros uid s. transitivity (answered ([@Ev ss_effects OrderedMemberInfos x] ++ t0) uid s); [done|].
    rewrite answered_app. split; [|auto]. intros [(e & r & ->%list_elem_of_singleton & [=] & _)|]; done. }
  split.
  - intros uid d. rewrite Hmap. setoid_rewrite Ha. split; [|by left]. intros [?|[Hd _]]; [done|]. by rewrite lookup_empty in Hd.
  - unfold last_hot. by setoid_rewrite Ha.
Qed.
End Service.

(** ** A concrete update

    The first of three members answers, the second cannot be asked, and the
    third answers with a text that is not a state. *)

Module StatusServiceRuns.
Import RefProto.
#[local] Existing Instances RefProto.ref ss_effects.

Definition state1 : TimedMemberStateWrapper :=
  mkTimedMemberStateWrapper (mkTimedMemberState
    (mkMemberState "10.0.0.1:5701" "u1" "hz-0" (mkNodeState "ACTIVE" "5.5.0") (mkHotRestartState "NO_TASK" 0 0 false "")
       (mkClusterHotRestartStatus "SUCCEEDED" 0 0))
    (mkMemberPartitionState [0; 1; 2]) true).
Definition parse1 (text : string) : sum TimedMemberStateWrapper error :=
  if String.eqb text "state1" then inl state1 else inr (errors_New "invalid character").
#[local] Instance json1 : MemberStateJson := {| TimedMemberState_Unmarshal := parse1 |}.

Definition response (text : string) : ClientMessage :=
  AddFrame (AddFrame NewClientMessageForEncode (NewFrame [])) (NewFrame (String.list_byte_of_string text)).
Definition members1 : list MemberInfo :=
  [mkMemberInfo "10.0.0.1:5701" "u1" 5 5 0 false; mkMemberInfo "10.0.0.2:5701" "u2" 5 5 0 false; mkMemberInfo "10.0.0.3:5701" "u3" 5 5 0 true].
Definition answer (o : op) (_ : list event) : ans o :=
  match o as o return ss_ans o with
  | OrderedMemberInfos => members1
  | InvokeOnMemberOf uuid _ =>
      if String.eqb uuid "u1" then Found (response "state1")
      else if String.eqb uuid "u2" then Failed (errors_New "timeout") else Found (response "?")
  end.
Definition old : Status := mkStatus {["gone" := mkMemberData "10.0.0.9:5701" "gone" "5.5.0" false "ACTIVE" false 5 "hz-9"]} ClusterHotRestartStatus_zero.
Definition update_run := run answer (UpdateMembers 10 true old) [].
Definition updated : Status :=
  mkStatus {["u1" := mkMemberData "10.0.0.1:5701" "u1" "5.5.0" false "ACTIVE" true 3 "hz-0"]} (mkClusterHotRestartStatus "SUCCEEDED" 0 0).
Lemma update_exec : exec (UpdateMembers 10 true old) update_run.1 (Returned updated).
Proof. apply run_exec_2. vm_compute. reflexivity. Qed.

Lemma update_members_witness : stt_MemberDataMap updated !! "gone" = None /\ stt_MemberDataMap updated !! "u2" = None
  /\ exists m s, m ∈ members1 /\ mi_UUID m = "u1" /\ answered 10 update_run.1 "u1" s
     /\ stt_MemberDataMap updated !! "u1" = Some (enrichMemberData (newMemberData m) (tmw_TimedMemberState s)).
Proof.
  split; [reflexivity|]. split; [reflexivity|].
  destruct (update_members_exact 10 true old update_run.1 updated update_exec) as (l & Hl & H).
  assert (l = members1) as -> by (vm_compute in Hl; by injection Hl as <-).
  destruct H as [H _]; [apply (bool_decide_unpack _); vm_compute; exact I|].
  assert (E : stt_MemberDataMap updated !! "u1" = Some (mkMemberData "10.0.0.1:5701" "u1" "5.5.0" false "ACTIVE" true 3 "hz-0")) by reflexivity.
  pose proof E as (m & s & Hin & Hm & Ha & Hd)%H. exists m, s. rewrite <-Hd. done.
Defined.
End StatusServiceRuns.
