(* ===== verification/StatusRegistry.v ===== *)
(** * The registry of status services

    src/internal/hazelcast-client/status_service_registry.go with the
    [Start], [Stop] and goroutine of status_service.go: a transition system.
    Its steps are the accesses to the [sync.Map], the statements of [Start]
    and [Stop] and the ways through the [select] of the goroutine; a fired
    tick may be received as long as the goroutine waits for it.  An event sent
    to [triggerReconcileChan] is received at once by the manager, which keeps
    what it received.

    [Create] and [Delete] are called by the Hazelcast controller only, and
    controller-runtime never reconciles one resource twice at the same time:
    the steps of [sstep] begin an operation on a key only when none is going
    on.  [step] alone lets them overlap. *)

From S2P Require Import Prelude.
#[local] Open Scope list_scope.
#[local] Open Scope nat_scope.

Definition NamespacedName : Type := string * string.

(** Where the goroutine of a service is. *)
Inductive loop := LNone | LSelect | LUpdate | LTrigger | LReturned.
Record HzStatusService := mkStatusService {
  ss_nn : NamespacedName;
  ss_ticker : bool;          (* [statusTicker] and [cancel] are set *)
  ss_loop : loop;
}.
(** [NewStatusService] *)
Definition NewStatusService (nn : NamespacedName) : HzStatusService := mkStatusService nn false LNone.

(** Where a reconciler is: in [Create] of a key it found no service for, or
    in [Delete] of a service it took out. *)
Inductive pc :=
| Idle
| CStore (nn : NamespacedName)             (* before [Store] *)
| CStart (nn : NamespacedName) (i : nat)   (* before the ticker is created *)
| CInit (nn : NamespacedName) (i : nat)    (* before [initMembers] *)
| CTrigger (nn : NamespacedName) (i : nat) (* before [triggerReconcile] *)
| CGo (nn : NamespacedName) (i : nat)      (* before the go statement *)
| DStop (nn : NamespacedName) (i : nat)    (* before [ticker.Stop()] *)
| DSend (nn : NamespacedName) (i : nat)    (* before [done <- true] *)
| DCancel (nn : NamespacedName) (i : nat)  (* before [cancel()] *)
| Crashed.
#[export] Instance pc_eq_dec : EqDecision pc.
Proof. solve_decision. Defined.
Definition key_of (p : pc) : option NamespacedName :=
  match p with
  | Idle | Crashed => None
  | CStore nn | CStart nn _ | CInit nn _ | CTrigger nn _ | CGo nn _ | DStop nn _ | DSend nn _ | DCancel nn _ => Some nn
  end.

Record state := mkState {
  st_registry : gmap NamespacedName nat;
  st_services : list HzStatusService;
  st_threads : list pc;
  st_events : list NamespacedName;      (* what the manager received *)
}.
Definition init (n : nat) : state := mkState ∅ [] (replicate n Idle) [].

Definition set_service (s : state) (i : nat) (sv : HzStatusService) : state :=
  mkState (st_registry s) (<[i := sv]> (st_services s)) (st_threads s) (st_events s).
Definition goto (s : state) (j : nat) (p : pc) : state :=
  mkState (st_registry s) (st_services s) (<[j := p]> (st_threads s)) (st_events s).
Definition set_registry (s : state) (r : gmap NamespacedName nat) : state :=
  mkState r (st_services s) (st_threads s) (st_events s).
Definition add_service (s : state) (sv : HzStatusService) : state :=
  mkState (st_registry s) (st_services s ++ [sv]) (st_threads s) (st_events s).
Definition triggerReconcile (s : state) (nn : NamespacedName) : state :=
  mkState (st_registry s) (st_services s) (st_threads s) (st_events s ++ [nn]).
Definition set_loop (sv : HzStatusService) (l : loop) : HzStatusService := mkStatusService (ss_nn sv) (ss_ticker sv) l.

(** A call that begins, a step of what has begun, a tick. *)
Inductive label := Begin (nn : NamespacedName) | Go | Tick.

Inductive step : state -> label -> state -> Prop :=
(* Create *)
| s_create_hit s j nn i : st_threads s !! j = Some Idle -> st_registry s !! nn = Some i -> step s (Begin nn) s
| s_create s j nn : st_threads s !! j = Some Idle -> st_registry s !! nn = None -> step s (Begin nn) (goto s j (CStore nn))
| s_store s j nn : st_threads s !! j = Some (CStore nn) ->
    step s Go (goto (add_service (set_registry s (<[nn := length (st_services s)]> (st_registry s))) (NewStatusService nn))
                 j (CStart nn (length (st_services s))))
| s_start s j nn i sv : st_threads s !! j = Some (CStart nn i) -> st_services s !! i = Some sv ->
    step s Go (goto (set_service s i (mkStatusService (ss_nn sv) true (ss_loop sv))) j (CInit nn i))
| s_init s j nn i : st_threads s !! j = Some (CInit nn i) -> step s Go (goto s j (CTrigger nn i))
| s_trigger s j nn i sv : st_threads s !! j = Some (CTrigger nn i) -> st_services s !! i = Some sv ->
    step s Go (goto (triggerReconcile s (ss_nn sv)) j (CGo nn i))
| s_go s j nn i sv : st_threads s !! j = Some (CGo nn i) -> st_services s !! i = Some sv ->
    step s Go (goto (set_service s i (set_loop sv LSelect)) j Idle)
(* Delete *)
| s_delete_miss s j nn : st_threads s !! j = Some Idle -> st_registry s !! nn = None -> step s (Begin nn) s
| s_delete s j nn i : st_threads s !! j = Some Idle -> st_registry s !! nn = Some i ->
    step s (Begin nn) (goto (set_registry s (delete nn (st_registry s))) j (DStop nn i))
| s_stop s j nn i sv : st_threads s !! j = Some (DStop nn i) -> st_services s !! i = Some sv ->
    step s Go (goto s j (if ss_ticker sv then DSend nn i else Crashed))
| s_send s j nn i sv : st_threads s !! j = Some (DSend nn i) -> st_services s !! i = Some sv -> ss_loop sv = LSelect ->
    step s Go (goto (set_service s i (set_loop sv LReturned)) j (DCancel nn i))
| s_cancel s j nn i : st_threads s !! j = Some (DCancel nn i) -> step s Go (goto s j Idle)
(* the goroutine *)
| s_tick s i sv : st_services s !! i = Some sv -> ss_loop sv = LSelect -> step s Tick (set_service s i (set_loop sv LUpdate))
| s_update s i sv : st_services s !! i = Some sv -> ss_loop sv = LUpdate -> step s Go (set_service s i (set_loop sv LTrigger))
| s_notify s i sv : st_services s !! i = Some sv -> ss_loop sv = LTrigger ->
    step s Go (set_service (triggerReconcile s (ss_nn sv)) i (set_loop sv LSelect)).

(** No operation on the key is going on. *)
Definition free (s : state) (nn : NamespacedName) : Prop := forall j p, st_threads s !! j = Some p -> key_of p <> Some nn.
Definition sstep (s : state) (l : label) (s' : state) : Prop :=
  step s l s' /\ match l with Begin nn => free s nn | Go | Tick => True end.

Inductive steps (R : state -> label -> state -> Prop) : state -> state -> Prop :=
| st_refl s : steps R s s
| st_step s l s' s'' : steps R s s' -> R s' l s'' -> steps R s s''.

(** ** One service for each key *)

Definition looping (sv : HzStatusService) : bool :=
  match ss_loop sv with LSelect | LUpdate | LTrigger => true | LNone | LReturned => false end.

(** Who works at a key. *)
Definition at_key (s : state) (nn : NamespacedName) (o : option (nat * pc)) : Prop :=
  (forall j p, st_threads s !! j = Some p -> key_of p = Some nn -> o = Some (j, p))
  /\ match o with Some (j, p) => st_threads s !! j = Some p /\ key_of p = Some nn | None => True end.
(** The goroutines of all services of a key but one have returned. *)
Definition only (s : state) (nn : NamespacedName) (o : option nat) : Prop :=
  forall i sv, st_services s !! i = Some sv -> ss_nn sv = nn -> o <> Some i -> ss_loop sv = LReturned.

Definition starting (nn : NamespacedName) (i : nat) (ticker : bool) (p : pc) : Prop :=
  match p with
  | CStart nn' i' => nn' = nn /\ i' = i
  | CInit nn' i' | CTrigger nn' i' | CGo nn' i' => nn' = nn /\ i' = i /\ ticker = true
  | _ => False
  end.
Definition stopping (nn : NamespacedName) (i : nat) (p : pc) : Prop :=
  match p with DStop nn' i' | DSend nn' i' => nn' = nn /\ i' = i | _ => False end.

(** The stages of a key. *)
Inductive stage (s : state) (nn : NamespacedName) : Prop :=
| g_absent : st_registry s !! nn = None -> at_key s nn None -> only s nn None -> stage s nn
| g_creating j : st_registry s !! nn = None -> at_key s nn (Some (j, CStore nn)) -> only s nn None -> stage s nn
| g_starting j i p sv :
    st_registry s !! nn = Some i -> at_key s nn (Some (j, p)) -> st_services s !! i = Some sv -> ss_nn sv = nn ->
    ss_loop sv = LNone -> starting nn i (ss_ticker sv) p -> only s nn (Some i) -> stage s nn
| g_live i sv :
    st_registry s !! nn = Some i -> at_key s nn None -> st_services s !! i = Some sv -> ss_nn sv = nn ->
    ss_ticker sv = true -> looping sv = true -> only s nn (Some i) -> stage s nn
| g_stopping j i p sv :
    st_registry s !! nn = None -> at_key s nn (Some (j, p)) -> st_services s !! i = Some sv -> ss_nn sv = nn ->
    ss_ticker sv = true -> looping sv = true -> stopping nn i p -> only s nn (Some i) -> stage s nn
| g_cancelling j i : st_registry s !! nn = None -> at_key s nn (Some (j, DCancel nn i)) -> only s nn None -> stage s nn.

Definition inv (s : state) : Prop := (forall nn, stage s nn) /\ forall j, st_threads s !! j <> Some Crashed.

(** *** Steps at one key leave the others alone *)

Definition frame (nn : NamespacedName) (s s' : state) : Prop :=
  (forall nn', nn' <> nn -> st_registry s' !! nn' = st_registry s !! nn')
  /\ (forall i sv, ss_nn sv <> nn -> st_services s' !! i = Some sv <-> st_services s !! i = Some sv)
  /\ (forall j p nn', nn' <> nn -> key_of p = Some nn' -> st_threads s' !! j = Some p <-> st_threads s !! j = Some p).

Lemma frame_at_key nn s s' nn' o : frame nn s s' -> nn' <> nn -> at_key s nn' o -> at_key s' nn' o.
Proof.
  intros (_ & _ & Ht) Hne [Ha Ho]. split.
  - intros j p Hj Hk. apply Ha; [by apply (Ht _ _ nn')|done].
  - destruct o as [[j p]|]; [|done]. destruct Ho as [Hj Hk]. split; [by apply (Ht _ _ nn')|done].
Qed.
Lemma frame_only nn s s' nn' o : frame nn s s' -> nn' <> nn -> only s nn' o -> only s' nn' o.
Proof. intros (_ & Hs & _) Hne Ho i sv Hi Hk. apply Ho; [|done]. apply Hs; [by rewrite Hk|done]. Qed.
Lemma frame_stage nn s s' nn' : frame nn s s' -> nn' <> nn -> stage s nn' -> stage s' nn'.
Proof.
  intros Hf Hne Hst. pose proof (frame_at_key _ _ _ _ None Hf Hne) as H1.
  pose proof (fun o => frame_at_key _ _ _ _ (Some o) Hf Hne) as H2. pose proof (fun o => frame_only _ _ _ _ o Hf Hne) as H3.
  destruct Hf as (Hr & Hs & _). specialize (Hr nn' Hne).
  destruct Hst as [E|j E|j i p sv E Ha Hi Hn|i sv E Ha Hi Hn|j i p sv E Ha Hi Hn|j i E]; rewrite <-Hr in E.
  - by apply g_absent; auto.
  - by apply (g_creating _ _ j); auto.
  - apply Hs in Hi; [|congruence]. by apply (g_starting _ _ j i p sv); auto.
  - apply Hs in Hi; [|congruence]. by apply (g_live _ _ i sv); auto.
  - apply Hs in Hi; [|congruence]. by apply (g_stopping _ _ j i p sv); auto.
  - by apply (g_cancelling _ _ j i); auto.
Qed.

Lemma frame_goto nn s s' j p p' : frame nn s s' -> st_threads s' !! j = Some p -> (forall k, key_of p = Some k -> k = nn) ->
  (forall k, key_of p' = Some k -> k = nn) -> frame nn s (goto s' j p').
Proof.
  intros (Hr & Hs & Ht) Hj Hp Hp'. split; [done|]. split; [done|]. intros j' q nn' Hne Hq. cbn.
  rewrite <-(Ht j' q nn' Hne Hq). destruct (decide (j' = j)) as [->|]; [|by rewrite list_lookup_insert_ne].
  rewrite list_lookup_insert_eq by by eapply lookup_lt_Some. rewrite Hj.
  split; intros [= <-]; [by destruct (Hne (Hp' _ Hq))|by destruct (Hne (Hp _ Hq))].
Qed.
Lemma frame_refl nn s : frame nn s s.
Proof. done. Qed.
Lemma frame_service nn s i sv sv' : st_services s !! i = Some sv -> ss_nn sv = nn -> ss_nn sv' = nn -> frame nn s (set_service s i sv').
Proof.
  intros Hi Hn Hn'. split; [done|]. split; [|done]. intros i' x Hx. cbn.
  destruct (decide (i' = i)) as [->|]; [|by rewrite list_lookup_insert_ne].
  rewrite list_lookup_insert_eq by by eapply lookup_lt_Some. rewrite Hi. split; intros [= <-]; congruence.
Qed.

(** What works at a key decides its stage. *)
Lemma at_key_thread s nn o j p : at_key s nn o -> st_threads s !! j = Some p -> key_of p = Some nn -> o = Some (j, p).
Proof. intros [H _]. apply H. Qed.
(** The thread that works at a key has moved on. *)
Lemma at_key_goto s s' nn j p p' o : at_key s nn o -> st_threads s !! j = Some p ->
  (key_of p = Some nn \/ key_of p = None /\ o = None) -> st_threads s' = <[j := p']> (st_threads s) ->
  at_key s' nn (match key_of p' with Some nn' => if decide (nn' = nn) then Some (j, p') else None | None => None end).
Proof.
  intros Hat Hj Hp Et. assert (Hlt : j < length (st_threads s)) by by eapply lookup_lt_Some. split.
  - rewrite Et. intros j' q Hq Hk. destruct (decide (j' = j)) as [->|Hne].
    + rewrite list_lookup_insert_eq in Hq by done. injection Hq as <-. by rewrite Hk, decide_True.
    + rewrite list_lookup_insert_ne in Hq by done. pose proof (at_key_thread _ _ _ _ _ Hat Hq Hk) as E.
      destruct Hp as [Hp|[_ ->]]; [|done]. rewrite (at_key_thread _ _ _ _ _ Hat Hj Hp) in E. by injection E as ->.
  - destruct (key_of p') as [nn'|] eqn:Ek; [|done]. case_decide as En; [|done]. subst. rewrite Et, list_lookup_insert_eq; done.
Qed.

(** What holds of a key while a thread works at it, and while none does. *)
Definition thread_stage (s : state) (j : nat) (nn : NamespacedName) (p : pc) : Prop :=
  at_key s nn (Some (j, p)) /\
  match p with
  | CStore _ | DCancel _ _ => st_registry s !! nn = None /\ only s nn None
  | CStart _ i | CInit _ i | CTrigger _ i | CGo _ i =>
      st_registry s !! nn = Some i /\ only s nn (Some i) /\
      exists sv, st_services s !! i = Some sv /\ ss_nn sv = nn /\ ss_loop sv = LNone /\ starting nn i (ss_ticker sv) p
  | DStop _ i | DSend _ i =>
      st_registry s !! nn = None /\ only s nn (Some i) /\
      exists sv, st_services s !! i = Some sv /\ ss_nn sv = nn /\ ss_ticker sv = true /\ looping sv = true
  | Idle | Crashed => False
  end.
Lemma stage_thread s nn j p : stage s nn -> st_threads s !! j = Some p -> key_of p = Some nn -> thread_stage s j nn p.
Proof.
  intros Hst Hj Hk. unfold thread_stage.
  destruct Hst as [E Ha Ho|j' E Ha Ho|j' i q sv E Ha Hi Hn Hl Hs Ho|i sv E Ha Hi Hn Hc Hl Ho|j' i q sv E Ha Hi Hn Hc Hl Hs Ho|j' i E Ha Ho];
    pose proof (at_key_thread _ _ _ _ _ Ha Hj Hk) as Eq; try discriminate Eq; injection Eq as <- <-; try done.
  - destruct q; try done; first [destruct Hs as [-> ->]|destruct Hs as (-> & -> & Hs)]; split_and!; try done; by exists sv.
  - destruct q; try done; destruct Hs as [-> ->]; split_and!; try done; by exists sv.
Qed.
Lemma stage_free s nn : stage s nn -> free s nn ->
  match st_registry s !! nn with
  | None => only s nn None
  | Some i => only s nn (Some i) /\ exists sv, st_services s !! i = Some sv /\ ss_nn sv = nn /\ ss_ticker sv = true /\ looping sv = true
  end.
Proof.
  intros Hst Hf. destruct Hst as [E Ha Ho|j' E Ha Ho|j' i q sv E Ha Hi Hn Hl Hs Ho|i sv E Ha Hi Hn Hc Hl Ho|j' i q sv E Ha Hi Hn Hc Hl Hs Ho|j' i E Ha Ho];
    rewrite E; try done; try (destruct Ha as [_ [Hj Hk]]; by destruct (Hf _ _ Hj)). split; [done|]. by exists sv.
Qed.
Lemma free_at_key s nn : free s nn -> at_key s nn None.
Proof. intros Hf. split; [|done]. intros j p Hj Hk. by destruct (Hf j p Hj). Qed.

Lemma inv_at nn s s' : inv s -> frame nn s s' -> stage s' nn -> (forall j, st_threads s' !! j <> Some Crashed) -> inv s'.
Proof.
  intros [Hall _] Hf Hst Hc. split; [|done]. intros nn'. destruct (decide (nn' = nn)) as [->|]; [done|]. by eapply frame_stage.
Qed.
Lemma no_crash s j p : inv s -> p <> Crashed -> forall j', <[j := p]> (st_threads s) !! j' <> Some Crashed.
Proof.
  intros [_ Hc] Hp j'. destruct (decide (j' = j)) as [->|]; [|rewrite list_lookup_insert_ne by done; apply Hc].
  intros H. apply list_lookup_insert_Some in H as [(_ & E & _)|(? & _)]; [by symmetry in E|done].
Qed.
Lemma only_service s nn i sv o : only s nn o -> (o <> Some i -> ss_loop sv = LReturned) -> only (set_service s i sv) nn o.
Proof.
  intros Ho Hsv i' x Hi Hn Hne. cbn in Hi. apply list_lookup_insert_Some in Hi as [(-> & -> & _)|[_ Hi]]; [by apply Hsv|by eapply Ho].
Qed.

(** *** Every step keeps the invariant *)

Lemma inv_begin s nn s' : inv s -> free s nn -> step s (Begin nn) s' -> inv s'.
Proof.
  intros Hinv Hf Hstep. pose proof (stage_free _ _ (proj1 Hinv nn) Hf) as Hst. pose proof (free_at_key _ _ Hf) as Hat.
  inversion Hstep as [|s0 j nn0 Hj Hr| | | | | | |s0 j nn0 i Hj Hr| | | | | |]; subst; try done; rewrite Hr in Hst.
  - apply (inv_at nn s); [done|apply (frame_goto nn s s j Idle); [done|done|done|by intros k [= ->]]|
      |by apply (no_crash s j (CStore nn))].
    apply (g_creating _ nn j); [done| |done].
    pose proof (at_key_goto s (goto s j (CStore nn)) nn j Idle (CStore nn) None Hat Hj) as H.
    cbn [key_of] in H. rewrite decide_True in H by done. apply H; [by right|done].
  - destruct Hst as [Ho (sv & Hi & Hn & Hc & Hl)]. set (s1 := set_registry s (delete nn (st_registry s))).
    assert (Hf1 : frame nn s s1) by (split; [intros nn' Hne; cbn; by rewrite lookup_delete_ne|done]).
    apply (inv_at nn s); [done|apply (frame_goto nn s s1 j Idle); [done|done|done|by intros k [= ->]]|
      |by apply (no_crash s j (DStop nn i))].
    apply (g_stopping _ nn j i (DStop nn i) sv); try done; [apply lookup_delete_eq|].
    pose proof (at_key_goto s (goto s1 j (DStop nn i)) nn j Idle (DStop nn i) None Hat Hj) as H.
    cbn [key_of] in H. rewrite decide_True in H by done. apply H; [by right|done].
Qed.

(** A step of the thread that works at a key, on which it stays, or leaves. *)
Lemma moves s s' nn j p p' : thread_stage s j nn p -> st_threads s !! j = Some p -> key_of p = Some nn ->
  st_threads s' = <[j := p']> (st_threads s) -> (forall k, key_of p' = Some k -> k = nn) ->
  at_key s' nn (match key_of p' with Some _ => Some (j, p') | None => None end).
Proof.
  intros [Hat _] Hj Hk Et Hp'. pose proof (at_key_goto s s' nn j p p' _ Hat Hj (or_introl Hk) Et) as H.
  destruct (key_of p') as [k|]; [|done]. rewrite (Hp' k eq_refl), decide_True in H by done. exact H.
Qed.

(** The thread moves on, and what it did was to the key alone. *)
Lemma inv_moved s s1 nn j p p' : inv s -> st_threads s !! j = Some p -> key_of p = Some nn -> p' <> Crashed ->
  (forall k, key_of p' = Some k -> k = nn) -> frame nn s s1 -> st_threads s1 = st_threads s ->
  (at_key (goto s1 j p') nn (match key_of p' with Some _ => Some (j, p') | None => None end) -> stage (goto s1 j p') nn) ->
  inv (goto s1 j p').
Proof.
  intros Hinv Hj Hk Hc Hp' Hf Et Hst. pose proof (stage_thread _ nn j _ (proj1 Hinv nn) Hj Hk) as Hts.
  apply (inv_at nn s); [done| | |].
  - apply (frame_goto nn s s1 j p); [done|by rewrite Et|intros k E; congruence|done].
  - apply Hst. apply (moves s _ nn j p p'); [done..|by rewrite <-Et|done].
  - cbn. rewrite Et. by apply no_crash.
Qed.

Lemma inv_event s nn : inv s -> inv (triggerReconcile s nn).
Proof.
  intros [Hall Hc]. split; [|done]. intros nn'. destruct (Hall nn');
    [by apply g_absent|by eapply g_creating|by eapply g_starting|by eapply g_live|by eapply g_stopping|by eapply g_cancelling].
Qed.
(** The goroutine of a service goes round. *)
Lemma inv_loop s i sv l : inv s -> st_services s !! i = Some sv -> looping sv = true ->
  looping (set_loop sv l) = true -> inv (set_service s i (set_loop sv l)).
Proof.
  intros Hinv Hi Hl Hl'. apply (inv_at (ss_nn sv) s); [done|by eapply frame_service| |apply (proj2 Hinv)].
  assert (Hneq : ss_loop sv <> LReturned /\ ss_loop sv <> LNone) by (unfold looping in Hl; by destruct (ss_loop sv)).
  assert (Hin : set_service s i (set_loop sv l) = set_service s i (set_loop sv l)) by done.
  assert (Hit : <[i := set_loop sv l]> (st_services s) !! i = Some (set_loop sv l))
    by (apply list_lookup_insert_eq; by eapply lookup_lt_Some).
  assert (Hthis : forall o, only s (ss_nn sv) o -> o = Some i).
  { intros o Ho. destruct (decide (o = Some i)); [done|]. by destruct (proj1 Hneq (Ho i sv Hi eq_refl n)). }
  destruct (proj1 Hinv (ss_nn sv)) as [E Ha Ho|j E Ha Ho|j i' q sv' E Ha Hi' Hn Hl1 Hs Ho|i' sv' E Ha Hi' Hn Hc Hl1 Ho
    |j i' q sv' E Ha Hi' Hn Hc Hl1 Hs Ho|j i' E Ha Ho]; pose proof (Hthis _ Ho) as Ei; try discriminate Ei; injection Ei as ->; simplify_eq.
  - by destruct Hneq.
  - apply (g_live _ _ i (set_loop sv l)); try done. by apply only_service.
  - apply (g_stopping _ _ j i q (set_loop sv l)); try done. by apply only_service.
Qed.

Lemma inv_go s l s' : inv s -> step s l s' -> (forall nn, l <> Begin nn) -> inv s'.
Proof.
  intros Hinv Hstep Hgo. pose proof (proj1 Hinv) as Hall.
  inversion Hstep as [s0 j nn|s0 j nn|s0 j nn Hj|s0 j nn i sv Hj Hi|s0 j nn i Hj|s0 j nn i sv Hj Hi|s0 j nn i sv Hj Hi|s0 j nn
    |s0 j nn|s0 j nn i sv Hj Hi|s0 j nn i sv Hj Hi Hsel|s0 j nn i Hj|s0 i sv Hi Hl|s0 i sv Hi Hl|s0 i sv Hi Hl]; subst; try by destruct (Hgo nn).
  1-8: pose proof (stage_thread _ nn j _ (Hall nn) Hj eq_refl) as [Hat Hts].
  - destruct Hts as [Hr Ho]. apply (inv_moved s _ nn j (CStore nn)); try done; [by intros k [= ->]| |].
    + split; [intros nn' Hne; cbn; by rewrite lookup_insert_ne|]. split; [|done]. intros i sv Hn. cbn.
      split; [|intros Hi; rewrite lookup_app_l; [done|by eapply lookup_lt_Some]].
      intros [Hi|[_ Hi]]%lookup_app_Some; [done|]. apply list_lookup_singleton_Some in Hi as [_ <-]. by destruct Hn.
    + intros Ha. apply (g_starting _ nn j (length (st_services s)) (CStart nn (length (st_services s))) (NewStatusService nn)); try done.
      * apply lookup_insert_eq.
      * cbn. rewrite lookup_app_r, Nat.sub_diag by lia. done.
      * intros i sv [Hi|[Hle Hi]]%lookup_app_Some Hn Hne; [by eapply Ho|].
        apply list_lookup_singleton_Some in Hi as [Hi <-]. destruct Hne. f_equal. cbn in *. lia.
  - destruct Hts as (Hr & Ho & sv' & Hi' & Hn & Hl & Hs). simplify_eq.
    apply (inv_moved s _ (ss_nn sv) j (CStart (ss_nn sv) i)); try done; [by intros k [= ->]|by eapply frame_service|].
    intros Ha. apply (g_starting _ _ j i (CInit (ss_nn sv) i) (mkStatusService (ss_nn sv) true (ss_loop sv))); try done.
    + apply list_lookup_insert_eq. by eapply lookup_lt_Some.
    + by apply only_service.
  - destruct Hts as (Hr & Ho & sv & Hi & Hn & Hl & Hs).
    apply (inv_moved s s nn j (CInit nn i)); try done; [by intros k [= ->]|].
    intros Ha. by apply (g_starting _ nn j i (CTrigger nn i) sv).
  - destruct Hts as (Hr & Ho & sv' & Hi' & Hn & Hl & Hs). simplify_eq.
    apply (inv_moved s _ (ss_nn sv) j (CTrigger (ss_nn sv) i)); try done; [by intros k [= ->]|].
    intros Ha. by apply (g_starting _ _ j i (CGo (ss_nn sv) i) sv).
  - destruct Hts as (Hr & Ho & sv' & Hi' & Hn & Hl & _ & _ & Hc). simplify_eq.
    apply (inv_moved s _ (ss_nn sv) j (CGo (ss_nn sv) i)); try done; [by eapply frame_service|].
    intros Ha. apply (g_live _ _ i (set_loop sv LSelect)); try done.
    + apply list_lookup_insert_eq. by eapply lookup_lt_Some.
    + by apply only_service.
  - destruct Hts as (Hr & Ho & sv' & Hi' & Hn & Hc & Hl). simplify_eq. rewrite Hc.
    apply (inv_moved s s (ss_nn sv) j (DStop (ss_nn sv) i)); try done; [by intros k [= ->]|].
    intros Ha. by apply (g_stopping _ _ j i (DSend (ss_nn sv) i) sv).
  - destruct Hts as (Hr & Ho & sv' & Hi' & Hn & Hc & Hl). simplify_eq.
    apply (inv_moved s _ (ss_nn sv) j (DSend (ss_nn sv) i)); try done; [by intros k [= ->]|by eapply frame_service|].
    intros Ha. apply (g_cancelling _ _ j i); try done.
    intros i' sv' Hi' Hn' _. cbn in Hi'. apply list_lookup_insert_Some in Hi' as [(-> & <- & _)|[Hne Hi']]; [done|].
    apply (Ho i' sv'); [done..|congruence].
  - destruct Hts as (Hr & Ho). apply (inv_moved s s nn j (DCancel nn i)); try done. intros Ha. by apply g_absent.
  - apply inv_loop; [done|done| |done]. unfold looping. by rewrite Hl.
  - apply inv_loop; [done|done| |done]. unfold looping. by rewrite Hl.
  - apply (inv_loop (triggerReconcile s (ss_nn sv))); [|done| |done]; [|unfold looping; by rewrite Hl].
    by apply inv_event.
Qed.

Lemma inv_sstep s l s' : inv s -> sstep s l s' -> inv s'.
Proof. intros Hinv [Hst Hf]. destruct l; [by eapply inv_begin|by eapply inv_go..]. Qed.
Lemma services_inv_init n : inv (init n).
Proof.
  split.
  - intros nn. apply g_absent; [done| |by intros [|i] sv]. apply free_at_key.
    intros j p [-> _]%lookup_replicate. done.
  - by intros j [[=] _]%lookup_replicate.
Qed.
Lemma services_inv_steps n s : steps sstep (init n) s -> inv s.
Proof. remember (init n) as s0 eqn:E. induction 1 as [|s l s' s'' _ IH Hst]; subst; [apply services_inv_init|]. by eapply inv_sstep; [apply IH|]. Qed.

(** ** Progress *)

Definition work (p : pc) : nat :=
  match p with
  | CStore _ => 5 | CStart _ _ => 4 | CInit _ _ => 3 | CTrigger _ _ => 2 | CGo _ _ => 1
  | DStop _ _ => 3 | DSend _ _ => 2 | DCancel _ _ => 1 | Idle | Crashed => 0
  end.
Definition round (sv : HzStatusService) : nat := match ss_loop sv with LUpdate => 2 | LTrigger => 1 | _ => 0 end.
(** A bound on the steps that are left when nothing begins and no tick
    comes. *)
Definition work_left (s : state) : nat := sum_list_with work (st_threads s) + sum_list_with round (st_services s).
Definition all_idle (s : state) : Prop := forall j p, st_threads s !! j = Some p -> p = Idle.

Lemma sum_insert {A} (f : A -> nat) (l : list A) i x y :
  l !! i = Some x -> sum_list_with f (<[i := y]> l) + f x = sum_list_with f l + f y.
Proof.
  revert i. induction l as [|a l IH]; intros [|i] H; [done..| |].
  - injection H as ->. cbn [sum_list_with insert list_insert]. lia.
  - specialize (IH i H). change (<[S i := y]> (a :: l)) with (a :: <[i := y]> l). cbn [sum_list_with]. lia.
Qed.
Lemma sum_app {A} (f : A -> nat) (l1 l2 : list A) : sum_list_with f (l1 ++ l2) = sum_list_with f l1 + sum_list_with f l2.
Proof. induction l1 as [|a l1 IH]; cbn; [done|]. rewrite IH. lia. Qed.

Lemma services_step_work_left s s' : step s Go s' -> S (work_left s') <= work_left s.
Proof.
  intros Hst. inversion Hst; subst; unfold work_left; cbn [st_threads st_services goto set_service set_registry add_service triggerReconcile];
    repeat match goal with
    | H : st_threads s !! ?j = Some ?p |- context [<[?j := ?q]> (st_threads s)] =>
        pose proof (sum_insert work _ j p q H); revert H
    | H : st_services s !! ?i = Some ?p |- context [<[?i := ?q]> (st_services s)] =>
        pose proof (sum_insert round _ i p q H); revert H
    end; intros; rewrite ?sum_app; cbn [work] in *; unfold round in *; cbn [ss_loop set_loop NewStatusService sum_list_with] in *;
    repeat match goal with H : ss_loop _ = _ |- _ => rewrite H in * end; try destruct (ss_ticker _); cbn [work] in *; try lia.
Qed.

Lemma loop_goes s i sv : st_services s !! i = Some sv -> looping sv = true -> ss_loop sv = LSelect \/ exists s', step s Go s'.
Proof.
  intros Hi Hl. unfold looping in Hl. destruct (ss_loop sv) eqn:E; try done; [by left|right|right].
  - eexists. by eapply s_update.
  - eexists. by eapply s_notify.
Qed.
Lemma thread_goes s j nn p : thread_stage s j nn p -> exists s', step s Go s'.
Proof.
  intros [[_ [Hj _]] Hts].
  destruct p as [|k|k i|k i|k i|k i|k i|k i|k i|]; try done;
    try (destruct Hts as (_ & _ & sv & Hi & _ & Hts)).
  - eexists. by eapply s_store.
  - eexists. by eapply s_start.
  - eexists. by eapply s_init.
  - eexists. by eapply s_trigger.
  - eexists. by eapply s_go.
  - eexists. by eapply s_stop.
  - destruct (loop_goes s i sv Hi (proj2 Hts)) as [E|?]; [|done]. eexists. by eapply s_send.
  - eexists. by eapply s_cancel.
Qed.
Lemma progress s : inv s -> all_idle s \/ exists s', step s Go s'.
Proof.
  intros [Hall Hc]. destruct (decide (Forall (fun p => p = Idle) (st_threads s))) as [Hi|Hi].
  - left. intros j p Hj. eapply Forall_lookup in Hi; done.
  - right. apply not_Forall_Exists in Hi; [|apply _]. apply Exists_exists in Hi as (p & [j Hj]%list_elem_of_lookup & Hp).
    destruct (key_of p) as [nn|] eqn:Ek; [|cbn in Hp; destruct p; try done; by destruct (Hc j)].
    eapply thread_goes. by eapply (stage_thread s nn j p).
Qed.

Inductive go_steps : nat -> state -> state -> Prop :=
| go_refl s : go_steps 0 s s
| go_step n s s1 s2 : step s Go s1 -> go_steps n s1 s2 -> go_steps (S n) s s2.
Lemma go_bounded n s s' : go_steps n s s' -> inv s -> inv s' /\ n + work_left s' <= work_left s.
Proof.
  induction 1 as [s|n s s1 s2 Hst _ IH]; intros Hinv; [done|]. destruct IH as [Hi Hle]; [by eapply inv_go|].
  pose proof (services_step_work_left _ _ Hst). split; [done|lia].
Qed.
Lemma go_finishes s : inv s -> exists n s', go_steps n s s' /\ all_idle s'.
Proof.
  remember (work_left s) as w eqn:Ew. revert s Ew. induction (lt_wf w) as [w _ IH]. intros s -> Hinv.
  destruct (progress s Hinv) as [Hi|[s1 Hst]]; [exists 0, s; split; [constructor|done]|].
  destruct (IH (work_left s1)) with (s := s1) as (n & s' & Hs & Hi);
    [by pose proof (services_step_work_left _ _ Hst); lia|done|by eapply inv_go|].
  exists (S n), s'. split; [by econstructor|done].
Qed.

(** ** Properties *)

(** C7. Whatever creations, deletions and ticks come in whatever order, as long
    as two operations on one cluster do not overlap (the controller runtime
    sees to that; [overlapping_operations_break] shows what happens
    otherwise), no reconciler crashes, two goroutines never serve the same cluster, and a
    cluster no operation is going on at has a running goroutine exactly when
    a service is registered for it: that of the service. *)
Theorem status_goroutines_registered n s : steps sstep (init n) s ->
  (forall j, st_threads s !! j <> Some Crashed)
  /\ (forall i1 i2 sv1 sv2, st_services s !! i1 = Some sv1 -> st_services s !! i2 = Some sv2 -> ss_nn sv1 = ss_nn sv2 ->
        looping sv1 = true -> looping sv2 = true -> i1 = i2)
  /\ (forall nn i, free s nn ->
        st_registry s !! nn = Some i <-> exists sv, st_services s !! i = Some sv /\ ss_nn sv = nn /\ looping sv = true).
Proof.
  intros Hs. pose proof (services_inv_steps _ _ Hs) as [Hall Hc]. split; [done|].
  assert (Hone : forall nn, exists o, only s nn o) by (intros nn; destruct (Hall nn); eauto).
  assert (Hloop : forall nn o i sv, only s nn o -> st_services s !! i = Some sv -> ss_nn sv = nn -> looping sv = true -> o = Some i).
  { intros nn o i sv Ho Hi Hn Hl. destruct (decide (o = Some i)) as [|Hne]; [done|].
    unfold looping in Hl. by rewrite (Ho i sv Hi Hn Hne) in Hl. }
  split.
  - intros i1 i2 sv1 sv2 H1 H2 En L1 L2. destruct (Hone (ss_nn sv2)) as [o Ho].
    rewrite (Hloop _ _ _ _ Ho H1 En L1) in Ho. by injection (Hloop _ _ _ _ Ho H2 eq_refl L2).
  - intros nn i Hf. pose proof (stage_free _ _ (Hall nn) Hf) as Hst. destruct (st_registry s !! nn) as [i'|] eqn:Er.
    + destruct Hst as [Ho (sv & Hi & Hn & _ & Hl)]. split; [intros [= <-]; by exists sv|].
      intros (sv' & Hi' & Hn' & Hl'). by rewrite (Hloop _ _ _ _ Ho Hi' Hn' Hl').
    + split; [done|]. intros (sv' & Hi' & Hn' & Hl'). by pose proof (Hloop _ _ _ _ Hst Hi' Hn' Hl').
Qed.

(** C25. The operations come to an end: from any reachable state, when no other
    operation begins and no tick comes, there are at most [work_left] steps,
    a step can be made as long as an operation is going on - also while a
    deletion waits for the goroutine - and some run ends all of them. *)
Theorem status_operations_finish n s : steps sstep (init n) s ->
  (forall m s', go_steps m s s' -> m <= work_left s /\ (all_idle s' \/ exists s'', step s' Go s''))
  /\ exists m s', go_steps m s s' /\ all_idle s'.
Proof.
  intros Hs%services_inv_steps. split; [|by apply go_finishes]. intros m s' Hg. destruct (go_bounded _ _ _ Hg Hs) as [Hi Hle].
  split; [lia|by apply progress].
Qed.

(** ** Operations that overlap *)

Definition service_of (p : pc) : option nat :=
  match p with
  | Idle | CStore _ | Crashed => None
  | CStart _ i | CInit _ i | CTrigger _ i | CGo _ i | DStop _ i | DSend _ i | DCancel _ i => Some i
  end.
(** A goroutine nobody can stop any more. *)
Definition leaked (s : state) (i : nat) (nn : NamespacedName) : Prop :=
  (exists sv, st_services s !! i = Some sv /\ ss_nn sv = nn /\ looping sv = true)
  /\ (forall k, st_registry s !! k <> Some i) /\ forall j p, st_threads s !! j = Some p -> service_of p <> Some i.

Lemma leaked_goto s i nn j p : leaked s i nn -> service_of p <> Some i -> leaked (goto s j p) i nn.
Proof.
  intros (Hsv & Hr & Ht) Hp. split; [done|]. split; [done|]. intros j' q Hq. cbn in Hq.
  apply list_lookup_insert_Some in Hq as [(-> & <- & _)|[_ Hq]]; [done|by eapply Ht].
Qed.
Lemma leaked_service s i nn i' sv sv' : leaked s i nn -> st_services s !! i' = Some sv -> ss_nn sv' = ss_nn sv ->
  (i' = i -> looping sv' = true) -> leaked (set_service s i' sv') i nn.
Proof.
  intros ((sv0 & Hi & Hn & Hl) & Hr & Ht) Hi' En Hl'. split; [|done]. cbn. destruct (decide (i' = i)) as [->|Hne].
  - simplify_eq. exists sv'. split; [by apply list_lookup_insert_eq; eapply lookup_lt_Some|]. split; [by rewrite En|by apply Hl'].
  - exists sv0. by rewrite list_lookup_insert_ne.
Qed.
Lemma leaked_step s l s' i nn : leaked s i nn -> step s l s' -> leaked s' i nn.
Proof.
  intros Hl Hst. pose proof Hl as ((sv0 & Hi0 & Hn0 & Hl0) & Hr & Ht).
  destruct Hst as [ |s j k Hj Ek|s j k Hj|s j k i' sv Hj Hi|s j k i' Hj|s j k i' sv Hj Hi|s j k i' sv Hj Hi| |s j k i' Hj Ek
    |s j k i' sv Hj Hi|s j k i' sv Hj Hi Hsel|s j k i' Hj|s i' sv Hi El|s i' sv Hi El|s i' sv Hi El]; try done;
    try (pose proof (Ht _ _ Hj) as Hp; cbn in Hp).
  - by apply leaked_goto.
  - assert (Hlt : i < length (st_services s)) by by eapply lookup_lt_Some.
    apply leaked_goto; [|cbn; intros [= ?]; lia]. split; [|split; [|done]].
    + exists sv0. cbn. by rewrite lookup_app_l.
    + cbn. intros k'. rewrite lookup_insert. case_decide; [intros [= ?]; lia|apply Hr].
  - apply leaked_goto; [|done]. eapply leaked_service; [done..|congruence].
  - by apply leaked_goto.
  - by apply leaked_goto.
  - apply leaked_goto; [|done]. by eapply leaked_service.
  - apply leaked_goto; [|cbn; intros [= E]; subst; by apply (Hr k)]. split; [exact (proj1 Hl)|]. split; [|done].
    intros k'. cbn. rewrite lookup_delete. case_decide; [done|apply Hr].
  - apply leaked_goto; [done|]. by destruct (ss_ticker sv).
  - apply leaked_goto; [|done]. eapply leaked_service; [done..|congruence].
  - by apply leaked_goto.
  - by eapply leaked_service.
  - by eapply leaked_service.
  - eapply (leaked_service (triggerReconcile s (ss_nn sv))); done.
Qed.

Lemma steps_one (R : state -> label -> state -> Prop) s l s' : R s l s' -> steps R s s'.
Proof. intros H. eapply st_step; [constructor|exact H]. Qed.
Lemma steps_then (R : state -> label -> state -> Prop) s l s1 s2 : R s l s1 -> steps R s1 s2 -> steps R s s2.
Proof. intros H1 H2. induction H2 as [s1|s1 l' s' s'' _ IH H]; [by eapply steps_one|]. eapply st_step; [by apply IH|exact H]. Qed.

Lemma steps_trans (R : state -> label -> state -> Prop) s s1 s2 : steps R s s1 -> steps R s1 s2 -> steps R s s2.
Proof. intros H1 H2. induction H2 as [s1|s1 l' s' s'' _ IH H]; [done|]. eapply st_step; [by apply IH|exact H]. Qed.

(** What the controller keeps apart: if two operations on one cluster
    overlapped, a deletion could dereference the ticker that is not set yet,
    and two creations could leave a goroutine that polls the members of the
    cluster for ever while another service is registered for it. *)
Theorem overlapping_operations_break nn :
  (exists s, steps step (init 2) s /\ st_threads s !! 1 = Some Crashed)
  /\ exists s, steps step (init 2) s /\ all_idle s /\ st_registry s !! nn = Some 1
     /\ forall s', steps step s s' -> exists sv, st_services s' !! 0 = Some sv /\ ss_nn sv = nn /\ looping sv = true.
Proof.
  split.
  - eexists. split.
    + eapply steps_then; [by eapply (s_create _ 0 nn)|]. eapply steps_then; [by apply (s_store _ 0 nn)|].
      eapply steps_then; [eapply (s_delete _ 1 nn 0); [done|apply lookup_insert_eq]|].
      eapply steps_one. by eapply (s_stop _ 1 nn 0).
    + done.
  - eexists. split; [|split; [|split]].
    + eapply steps_then; [by eapply (s_create _ 0 nn)|]. eapply steps_then; [by eapply (s_create _ 1 nn)|].
      eapply steps_then; [by apply (s_store _ 0 nn)|]. eapply steps_then; [by apply (s_store _ 1 nn)|].
      eapply steps_then; [by eapply (s_start _ 0 nn 0)|]. eapply steps_then; [by apply (s_init _ 0 nn 0)|].
      eapply steps_then; [by eapply (s_trigger _ 0 nn 0)|]. eapply steps_then; [by eapply (s_go _ 0 nn 0)|].
      eapply steps_then; [by eapply (s_start _ 1 nn 1)|]. eapply steps_then; [by apply (s_init _ 1 nn 1)|].
      eapply steps_then; [by eapply (s_trigger _ 1 nn 1)|]. eapply steps_one; by eapply (s_go _ 1 nn 1).
    + intros [|[|j]] p [= <-]; done.
    + apply lookup_insert_eq.
    + intros s' Hs. cut (leaked s' 0 nn); [by intros []|]. remember (goto _ _ _) as s0 eqn:E0 in Hs.
      assert (H0 : leaked s0 0 nn).
      { subst. split; [by eexists|]. split; [|by intros [|[|j]] p [= <-]]. intros k. cbn. rewrite !lookup_insert.
        by repeat case_decide. }
      clear E0. induction Hs as [|s l s1 s2 _ IH Hst]; [done|]. eapply leaked_step; [by apply IH|exact Hst].
Qed.

(** ** A run *)

Definition demo : NamespacedName := ("ns"%string, "hz"%string).
Definition created1 : state := goto (init 1) 0 (CStore demo).
Lemma created1_reachable : steps sstep (init 1) created1.
Proof. eapply steps_one. split; [by apply (s_create _ 0 demo)|]. by intros [|j] p [= <-]. Qed.
Definition stored1 : state :=
  goto (add_service (set_registry created1 (<[demo := 0]> ∅)) (NewStatusService demo)) 0 (CStart demo 0).
Lemma stored1_reachable : steps sstep (init 1) stored1.
Proof. eapply st_step; [exact created1_reachable|]. split; [exact (s_store created1 0 demo eq_refl)|done]. Qed.

Lemma created_reachable : exists s, steps sstep (init 1) s /\ free s demo /\ st_registry s !! demo = Some 0.
Proof.
  eexists. split.
  - eapply steps_trans; [exact stored1_reachable|].
    eapply steps_then; [by split; [by eapply (s_start stored1 0 demo 0)|]|]. eapply steps_then; [by split; [by eapply (s_init _ 0 demo 0)|]|].
    eapply steps_then; [by split; [by eapply (s_trigger _ 0 demo 0)|]|]. eapply steps_one. by split; [by eapply (s_go _ 0 demo 0)|].
  - split; [by intros [|[|j]] p [= <-]|apply lookup_insert_eq].
Qed.
Lemma goroutines_witness : exists s sv, st_registry s !! demo = Some 0 /\ st_services s !! 0 = Some sv /\ looping sv = true.
Proof.
  destruct created_reachable as (s & Hs & Hf & Hr). destruct (status_goroutines_registered 1 s Hs) as (_ & _ & H).
  destruct (proj1 (H demo 0 Hf) Hr) as (sv & Hi & _ & Hl). by exists s, sv.
Defined.
Lemma operations_witness : exists m s', go_steps m stored1 s' /\ all_idle s'.
Proof. apply (status_operations_finish 1 stored1 stored1_reachable). Defined.
