(* ===== verification/ClientRegistry.v ===== *)
(** * The clients of clusters

    src/internal/hazelcast-client/client_registry.go, client.go and
    [clusterConfig] of config.go.  The registry is a [sync.Map]; every
    controller asks it for the client of a cluster, also at the same time.
    The model is a transition system whose steps are the calls of
    [GetOrCreate] and [Delete]: reading the resource, looking into the map,
    building the configuration, starting the client, storing it, taking it
    out, shutting it down.  Parameters: certificates ([X509Lib]), and whether
    a client can be started and shut down. *)

From S2P Require Import Prelude Eff HazelcastTypes DataStructureTypes HazelcastValidation ConfigTypes WanTypes HzTypes HzController.
From stdpp Require Import pretty.
#[local] Open Scope string_scope.
#[local] Open Scope list_scope.

Definition NamespacedName : Type := string * string.

Class X509Lib := {
  CertPool : Type;
  Certificate : Type;
  AppendCertsFromPEM : string -> option CertPool;                 (* of a new pool *)
  X509KeyPair : string -> string -> sum Certificate error;
}.

Section Build.
Context `{QL : QuantityLib} `{XL : X509Lib}.

(** What of [cluster.Config] depends on the resource. *)
Record cluster_Config := mkClusterConfig {
  cc_Name : string;
  cc_Address : string;
  cc_TLS : option (CertPool * option Certificate);
}.
Definition HazelcastUrl (h : Hazelcast) : string :=
  (h_Name h ++ "." ++ h_Namespace h ++ ".svc.cluster.local:" ++ pretty n_DefaultHzPort)%string.
Definition clusterConfig (h : Hazelcast) (pool : option CertPool) (cert : option Certificate) : cluster_Config :=
  mkClusterConfig (s_ClusterName (h_Spec h)) (HazelcastUrl h)
    (match pool with Some p => Some (p, cert) | None => None end).

(** What [GetOrCreate] makes of the resource and of the secret, if one is
    named: a configuration, an error, or - when the secret holds no
    certificate - neither. *)
Inductive built := Config (c : cluster_Config) | NoClient | BuildError (e : error).
Definition build_tls (h : Hazelcast) (t : TLS) (data : gmap string string) : built :=
  let crt := default "" (data !! "tls.crt") in
  match AppendCertsFromPEM crt with
  | None => NoClient
  | Some pool =>
      if strb (tls_MutualAuthentication t) MutualAuthenticationNone then Config (clusterConfig h (Some pool) None) else
      match X509KeyPair crt (default "" (data !! "tls.key")) with
      | inr e => BuildError e
      | inl cert => Config (clusterConfig h (Some pool) (Some cert))
      end
  end.
Definition build (h : Hazelcast) (secret : fetched (gmap string string)) : built :=
  match s_TLS (h_Spec h) with
  | Some t =>
      if strb (tls_SecretName t) "" then Config (clusterConfig h None None) else
      match secret with Failed e => BuildError e | Found data => build_tls h t data end
  | None => Config (clusterConfig h None None)
  end.

(** ** The registry *)

Record client := mkClient {
  cl_nn : NamespacedName;
  cl_config : cluster_Config;
  cl_running : bool;
}.
Inductive pc :=
| Idle
| GLoad (nn : NamespacedName) (h : Hazelcast)      (* the resource was read *)
| GBuild (nn : NamespacedName) (h : Hazelcast)     (* no client is registered *)
| GStore (nn : NamespacedName) (c : nat)           (* a client was started *)
| DShutdown (nn : NamespacedName) (c : nat).       (* a client was taken out *)
Record registry := mkRegistry {
  rg_clients : gmap NamespacedName nat;   (* the [sync.Map] *)
  rg_started : list client;
  rg_threads : list pc;
}.
Definition init (n : nat) : registry := mkRegistry ∅ [] (replicate n Idle).
Definition goto (s : registry) (j : nat) (p : pc) : registry :=
  mkRegistry (rg_clients s) (rg_started s) (<[j := p]> (rg_threads s)).
Definition set_clients (s : registry) (m : gmap NamespacedName nat) : registry := mkRegistry m (rg_started s) (rg_threads s).
Definition start (s : registry) (c : client) : registry := mkRegistry (rg_clients s) (rg_started s ++ [c]) (rg_threads s).
Definition shut (s : registry) (c : nat) : registry :=
  mkRegistry (rg_clients s) (alter (fun cl => mkClient (cl_nn cl) (cl_config cl) false) c (rg_started s)) (rg_threads s).

(** What the callers get, and what happens to clients. *)
Inductive label :=
| Returned_client (nn : NamespacedName) (c : nat)
| Returned_nil (nn : NamespacedName)              (* no client and no error *)
| Returned_error (nn : NamespacedName) (e : error)
| Deleted (nn : NamespacedName) (err : option error)
| Shutdown (c : nat) (err : option error)
| Tau.

Inductive step : registry -> label -> registry -> Prop :=
(* GetOrCreate *)
| s_get_failed s j nn e : rg_threads s !! j = Some Idle -> step s (Returned_error nn e) s
| s_get s j nn h : rg_threads s !! j = Some Idle -> h_Name h = nn.2 -> h_Namespace h = nn.1 -> step s Tau (goto s j (GLoad nn h))
| s_hit s j nn h c : rg_threads s !! j = Some (GLoad nn h) -> rg_clients s !! nn = Some c ->
    step s (Returned_client nn c) (goto s j Idle)
| s_miss s j nn h : rg_threads s !! j = Some (GLoad nn h) -> rg_clients s !! nn = None -> step s Tau (goto s j (GBuild nn h))
| s_build_failed s j nn h secret e : rg_threads s !! j = Some (GBuild nn h) -> build h secret = BuildError e ->
    step s (Returned_error nn e) (goto s j Idle)
| s_no_client s j nn h secret : rg_threads s !! j = Some (GBuild nn h) -> build h secret = NoClient ->
    step s (Returned_nil nn) (goto s j Idle)
| s_start_failed s j nn h secret cc e : rg_threads s !! j = Some (GBuild nn h) -> build h secret = Config cc ->
    step s (Returned_error nn e) (goto s j Idle)
| s_start s j nn h secret cc : rg_threads s !! j = Some (GBuild nn h) -> build h secret = Config cc ->
    step s Tau (goto (start s (mkClient nn cc true)) j (GStore nn (length (rg_started s))))
| s_store s j nn c : rg_threads s !! j = Some (GStore nn c) ->
    step s (Returned_client nn c) (goto (set_clients s (<[nn := c]> (rg_clients s))) j Idle)
(* Get *)
| s_lookup s nn c : rg_clients s !! nn = Some c -> step s (Returned_client nn c) s
(* Delete *)
| s_delete_miss s j nn : rg_threads s !! j = Some Idle -> rg_clients s !! nn = None -> step s (Deleted nn None) s
| s_delete s j nn c : rg_threads s !! j = Some Idle -> rg_clients s !! nn = Some c ->
    step s Tau (goto (set_clients s (delete nn (rg_clients s))) j (DShutdown nn c))
| s_shutdown s j nn c err : rg_threads s !! j = Some (DShutdown nn c) ->
    step s (Shutdown c err) (goto (shut s c) j Idle).

Inductive steps : registry -> list label -> registry -> Prop :=
| ss_nil s : steps s [] s
| ss_snoc s t s1 l s2 : steps s t s1 -> step s1 l s2 -> steps s (t ++ [l]) s2.

(** ** Clients that run *)

Definition owner (p : pc) : option nat := match p with GStore _ c | DShutdown _ c => Some c | _ => None end.
Definition names (nn : NamespacedName) (h : Hazelcast) : Prop := h_Name h = nn.2 /\ h_Namespace h = nn.1.
Definition running (s : registry) (nn : NamespacedName) (c : nat) : Prop :=
  exists cl, rg_started s !! c = Some cl /\ cl_nn cl = nn /\ cl_running cl = true.
Definition well_placed (s : registry) (p : pc) : Prop :=
  match p with
  | Idle => True
  | GLoad nn h | GBuild nn h => names nn h
  | GStore nn c | DShutdown nn c => running s nn c /\ forall nn', rg_clients s !! nn' <> Some c
  end.
(** A client was started with a configuration of a resource of its name. *)
Definition configured (cl : client) : Prop := exists h secret, names (cl_nn cl) h /\ build h secret = Config (cl_config cl).

Record inv (s : registry) : Prop := {
  in_registered : forall nn c, rg_clients s !! nn = Some c -> running s nn c;
  in_threads : forall j p, rg_threads s !! j = Some p -> well_placed s p;
  in_owners : forall j1 j2 p1 p2 c, rg_threads s !! j1 = Some p1 -> rg_threads s !! j2 = Some p2 ->
    owner p1 = Some c -> owner p2 = Some c -> j1 = j2;
  in_configured : forall c cl, rg_started s !! c = Some cl -> configured cl;
}.

Lemma clients_inv_init n : inv (init n).
Proof. split; [by intros nn c H|by intros j p [-> _]%lookup_replicate|by intros j1 j2 p1 p2 c [-> _]%lookup_replicate|by intros [|c] cl]. Qed.

(** One thread has moved: what is to be shown of the new state. *)
Lemma clients_inv_goto s s1 j p : inv s -> rg_threads s1 = rg_threads s ->
  (forall nn c, rg_clients s1 !! nn = Some c -> running s1 nn c) ->
  (forall j' q, j' <> j -> rg_threads s !! j' = Some q -> well_placed s1 q) -> well_placed s1 p ->
  (forall j' q c, j' <> j -> rg_threads s !! j' = Some q -> owner q = Some c -> owner p <> Some c) ->
  (forall c cl, rg_started s1 !! c = Some cl -> configured cl) -> inv (goto s1 j p).
Proof.
  intros Hinv Et Hr Ht Hp Ho Hc. split; [exact Hr| | |done].
  - intros j' q Hq. cbn in Hq. rewrite Et in Hq. apply list_lookup_insert_Some in Hq as [(-> & <- & _)|[Hne Hq]]; [exact Hp|].
    by apply (Ht j').
  - intros j1 j2 p1 p2 c H1 H2 O1 O2. cbn in H1, H2. rewrite Et in H1, H2.
    apply list_lookup_insert_Some in H1 as [(-> & <- & _)|[N1 H1]]; apply list_lookup_insert_Some in H2 as [(-> & <- & _)|[N2 H2]].
    + done.
    + by destruct (Ho j2 p2 c).
    + by destruct (Ho j1 p1 c).
    + by eapply (in_owners _ Hinv).
Qed.
Lemma inv_move s j p : inv s -> well_placed s p -> owner p = None -> inv (goto s j p).
Proof.
  intros Hinv Hp Hn. pose proof Hinv as [Hr Ht Ho Hc]. apply (clients_inv_goto s); try done; [by intros j' q _ Hq; apply (Ht j')|].
  intros; congruence.
Qed.
(** Another thread's client is another one. *)
Lemma owners_differ s j p j' q c : inv s -> rg_threads s !! j = Some p -> owner p = Some c -> j' <> j ->
  rg_threads s !! j' = Some q -> owner q <> Some c.
Proof. intros Hinv Hj Op Hne Hq Oq. apply Hne. by eapply (in_owners _ Hinv). Qed.

Lemma inv_started s j nn h secret cc : inv s -> rg_threads s !! j = Some (GBuild nn h) -> build h secret = Config cc ->
  inv (goto (start s (mkClient nn cc true)) j (GStore nn (length (rg_started s)))).
Proof.
  intros Hinv Hj Hb. pose proof Hinv as [Hr Ht Ho Hc]. set (cl := mkClient nn cc true).
  assert (Hold : forall nn' c, running s nn' c -> running (start s cl) nn' c).
  { intros nn' c (x & Hx & Hn). exists x. split; [|done]. cbn. rewrite lookup_app_l; [done|by eapply lookup_lt_Some]. }
  assert (Hfresh : forall nn', ~ running s nn' (length (rg_started s))).
  { intros nn' (x & Hx & _). apply lookup_lt_Some in Hx. lia. }
  apply (clients_inv_goto s); try done.
  - intros nn' c Hg. by apply Hold, Hr.
  - intros j' q _ Hq. specialize (Ht _ _ Hq).
    destruct q; [exact I|exact Ht|exact Ht|..]; destruct Ht as [H1 H2]; (split; [by apply Hold|exact H2]).
  - split; [|intros nn' Hg; by apply (Hfresh nn'), Hr]. exists cl. split; [|done]. cbn. by rewrite lookup_app_r, Nat.sub_diag.
  - intros j' q c _ Hq Oq [= <-]. specialize (Ht _ _ Hq). destruct q; try discriminate Oq; injection Oq as ->;
      destruct Ht as [Hrun _]; by eapply Hfresh.
  - intros c x Hx. cbn in Hx. apply lookup_app_Some in Hx as [Hx|[_ Hx]]; [by eapply Hc|].
    apply list_lookup_singleton_Some in Hx as [_ <-]. exists h, secret. split; [exact (Ht _ _ Hj)|done].
Qed.
Lemma inv_stored s j nn c : inv s -> rg_threads s !! j = Some (GStore nn c) ->
  inv (goto (set_clients s (<[nn := c]> (rg_clients s))) j Idle).
Proof.
  intros Hinv Hj. pose proof Hinv as [Hr Ht Ho Hc]. destruct (Ht _ _ Hj) as [Hrun Hno]. apply (clients_inv_goto s); try done.
  - intros nn' c' Hg. cbn in Hg. apply lookup_insert_Some in Hg as [[<- <-]|[_ Hg]]; [done|by apply Hr].
  - intros j' q Hne Hq. pose proof (Ht _ _ Hq) as Hpl. pose proof (owners_differ _ _ _ _ _ _ Hinv Hj eq_refl Hne Hq) as Hd.
    destruct q as [| | |nn1 c1|nn1 c1]; try exact Hpl; destruct Hpl as [H1 H2]; (split; [done|]); intros nn'; cbn;
      rewrite lookup_insert; case_decide; try done; intros [= ->]; by destruct Hd.
Qed.
Lemma inv_taken s j nn c : inv s -> rg_threads s !! j = Some Idle -> rg_clients s !! nn = Some c ->
  inv (goto (set_clients s (delete nn (rg_clients s))) j (DShutdown nn c)).
Proof.
  intros Hinv Hj Hg. pose proof Hinv as [Hr Ht Ho Hc]. apply (clients_inv_goto s); try done.
  - intros nn' c' Hg'. cbn in Hg'. apply lookup_delete_Some in Hg' as [_ Hg']. by apply Hr.
  - intros j' q Hne Hq. pose proof (Ht _ _ Hq) as Hpl. destruct q as [| | |nn1 c1|nn1 c1]; try exact Hpl; destruct Hpl as [H1 H2];
      (split; [done|]); intros nn' Hg'; cbn in Hg'; apply lookup_delete_Some in Hg' as [_ Hg']; by eapply H2.
  - split; [by apply Hr|]. intros nn' Hg'. cbn in Hg'. apply lookup_delete_Some in Hg' as [Hne Hg'].
    destruct (Hr _ _ Hg) as (x & Hx & <- & _). destruct (Hr _ _ Hg') as (y & Hy & <- & _). rewrite Hx in Hy. by injection Hy as ->.
  - intros j' q c' Hne Hq Oq [= <-]. pose proof (Ht _ _ Hq) as Hpl.
    destruct q as [| | |nn1 c1|nn1 c1]; try discriminate Oq; injection Oq as ->; by destruct Hpl as [_ []%(fun H => H nn)].
Qed.
Lemma running_shut s nn c c' : running s nn c -> c <> c' -> running (shut s c') nn c.
Proof. intros (x & Hx & Hn) Hne. exists x. split; [|done]. cbn. by rewrite list_lookup_alter_ne. Qed.
Lemma inv_shut s j nn c : inv s -> rg_threads s !! j = Some (DShutdown nn c) -> inv (goto (shut s c) j Idle).
Proof.
  intros Hinv Hj. pose proof Hinv as [Hr Ht Ho Hc]. destruct (Ht _ _ Hj) as [Hrun Hno]. apply (clients_inv_goto s); try done.
  - intros nn' c' Hg. cbn in Hg. apply running_shut; [by apply Hr|]. intros ->. by apply (Hno nn').
  - intros j' q Hne Hq. pose proof (Ht _ _ Hq) as Hpl. pose proof (owners_differ _ _ _ _ _ _ Hinv Hj eq_refl Hne Hq) as Hd.
    destruct q as [| | |nn1 c1|nn1 c1]; try exact Hpl; destruct Hpl as [H1 H2];
      (split; [apply running_shut; [done|]|done]); intros ->; by destruct Hd.
  - intros c' cl Hcl. cbn in Hcl. destruct (decide (c' = c)) as [->|Hne].
    + rewrite list_lookup_alter_eq in Hcl. apply fmap_Some in Hcl as (x & Hx & ->). exact (Hc _ _ Hx).
    + rewrite list_lookup_alter_ne in Hcl by done. by eapply Hc.
Qed.

Lemma clients_inv_step s l s' : inv s -> step s l s' -> inv s'.
Proof.
  intros Hinv Hst. destruct Hst as [|s j nn h Hj|s j nn h c Hj|s j nn h Hj|s j nn h secret e Hj|s j nn h secret Hj|s j nn h secret cc e Hj
    |s j nn h secret cc Hj Hb|s j nn c Hj|s nn c Hg|s j nn Hj|s j nn c Hj Hg|s j nn c err Hj]; try done; try by apply inv_move.
  - apply inv_move; [done|exact (in_threads _ Hinv _ _ Hj)|done].
  - by eapply inv_started.
  - by apply inv_stored.
  - by apply inv_taken.
  - by eapply inv_shut.
Qed.

(** ** Properties *)

Definition shutdowns (t : list label) : list nat := omap (fun l => match l with Shutdown c _ => Some c | _ => None end) t.
Definition stopped (s : registry) (c : nat) : Prop := exists cl, rg_started s !! c = Some cl /\ cl_running cl = false.
Definition of_cluster (s : registry) (nn : NamespacedName) (c : nat) : Prop := exists cl, rg_started s !! c = Some cl /\ cl_nn cl = nn.

(** A client that is there stays, for its cluster, and one that was shut
    down does not run again. *)
Lemma step_client s l s' c cl : step s l s' -> rg_started s !! c = Some cl ->
  exists cl', rg_started s' !! c = Some cl' /\ cl_nn cl' = cl_nn cl /\ (cl_running cl = false -> cl_running cl' = false).
Proof.
  intros Hst Hc. destruct Hst; try by exists cl.
  - exists cl. split; [|done]. cbn. rewrite lookup_app_l; [done|by eapply lookup_lt_Some].
  - cbn. destruct (decide (c = c0)) as [->|Hne].
    + rewrite list_lookup_alter_eq, Hc. by eexists.
    + rewrite list_lookup_alter_ne by done. by exists cl.
Qed.
Lemma stopped_step s l s' c : step s l s' -> stopped s c -> stopped s' c.
Proof. intros Hst (cl & Hc & Hr). destruct (step_client _ _ _ _ _ Hst Hc) as (cl' & ? & _ & H). exists cl'. auto. Qed.
Lemma of_cluster_step s l s' nn c : step s l s' -> of_cluster s nn c -> of_cluster s' nn c.
Proof. intros Hst (cl & Hc & <-). destruct (step_client _ _ _ _ _ Hst Hc) as (cl' & ? & ? & _). by exists cl'. Qed.
Lemma running_of s nn c : running s nn c -> of_cluster s nn c.
Proof. intros (cl & ? & ? & _). by exists cl. Qed.

Lemma steps_inv n t s : steps (init n) t s -> inv s
  /\ (forall nn c, Returned_client nn c ∈ t -> of_cluster s nn c)
  /\ NoDup (shutdowns t) /\ forall c, c ∈ shutdowns t -> stopped s c.
Proof.
  remember (init n) as s0 eqn:E. induction 1 as [s|s t s1 l s2 _ IH Hst]; subst.
  { split; [apply clients_inv_init|]. split; [by intros nn c ?%not_elem_of_nil|]. split; [constructor|by intros c ?%not_elem_of_nil]. }
  destruct (IH eq_refl) as (Hinv & Hret & Hnd & Hsh). split; [by eapply clients_inv_step|]. split; [|].
  - intros nn c [Hin|Hin%list_elem_of_singleton]%elem_of_app; [eapply of_cluster_step; [done|by apply Hret]|].
    eapply of_cluster_step; [exact Hst|]. subst l. inversion Hst; subst.
    + by apply running_of, (in_registered _ Hinv).
    + match goal with H : _ = Some (GStore _ _) |- _ => apply running_of; exact (proj1 (in_threads _ Hinv _ _ H)) end.
    + by apply running_of, (in_registered _ Hinv).
  - unfold shutdowns. rewrite omap_app. fold (shutdowns t). destruct l as [| | | |c err|]; cbn;
      try (rewrite app_nil_r; split; [done|]; intros c0 Hin; by eapply stopped_step, Hsh).
    inversion Hst as [| | | | | | | | | | | |s' j nn c' err' Hj]; subst. destruct (in_threads _ Hinv _ _ Hj) as [(cl & Hc & Hn & Hr) _].
    split.
    + apply NoDup_app. split; [done|]. split; [|apply NoDup_singleton].
      intros c0 Hin ->%list_elem_of_singleton. destruct (Hsh _ Hin) as (cl' & Hc' & Hr'). congruence.
    + intros c0 [Hin|Hin%list_elem_of_singleton]%elem_of_app; [by eapply stopped_step, Hsh|]. subst c0.
      eexists. cbn. rewrite list_lookup_alter_eq, Hc. by split.
Qed.

(** C13. However the controllers interleave: a registered client was started
    with a configuration made of a resource of that name and has not been
    shut down; whoever gets a client gets one of the cluster asked for; and no
    client is shut down twice. *)
Theorem clients_registered_run n t s : steps (init n) t s ->
  (forall nn c, rg_clients s !! nn = Some c -> exists cl, rg_started s !! c = Some cl /\ cl_nn cl = nn /\ cl_running cl = true
     /\ exists h secret, names nn h /\ build h secret = Config (cl_config cl))
  /\ (forall nn c, Returned_client nn c ∈ t -> of_cluster s nn c)
  /\ NoDup (shutdowns t).
Proof.
  intros (Hinv & Hret & Hnd & _)%steps_inv. split; [|done]. intros nn c Hg.
  destruct (in_registered _ Hinv _ _ Hg) as (cl & Hc & <- & Hr). exists cl. split; [done|]. split; [done|]. split; [done|].
  exact (in_configured _ Hinv _ _ Hc).
Qed.

(** ** Clients that are lost *)

(** A client that runs, is not registered and belongs to no thread. *)
Definition lost (s : registry) (nn : NamespacedName) (c : nat) : Prop :=
  running s nn c /\ (forall nn', rg_clients s !! nn' <> Some c) /\ forall j p, rg_threads s !! j = Some p -> owner p <> Some c.
Lemma lost_goto s j p nn c : lost s nn c -> owner p <> Some c -> lost (goto s j p) nn c.
Proof.
  intros (Hr & Hc & Ht) Hp. split; [done|]. split; [done|]. intros j' q Hq. cbn in Hq.
  apply list_lookup_insert_Some in Hq as [(-> & <- & _)|[_ Hq]]; [done|by eapply Ht].
Qed.
Lemma lost_step s l s' nn c : lost s nn c -> step s l s' -> lost s' nn c /\ shutdowns [l] <> [c] /\ forall nn', l <> Returned_client nn' c.
Proof.
  intros Hl Hst. pose proof Hl as (Hr & Hc & Ht). destruct Hst as [|s j k h Hj|s j k h c0 Hj Hg|s j k h Hj|s j k h secret e Hj|s j k h secret Hj
    |s j k h secret cc e Hj|s j k h secret cc Hj Hb|s j k c0 Hj|s k c0 Hg|s j k Hj|s j k c0 Hj Hg|s j k c0 err Hj];
    try (split; [by apply lost_goto|by split]); try done.
  - split; [by apply lost_goto|]. split; [done|]. intros nn' [= _ ->]. by apply (Hc k).
  - destruct Hr as (cl & Hcl & Hn). split; [|by split]. apply lost_goto.
    + split; [|by split]. exists cl. split; [|done]. cbn. rewrite lookup_app_l; [done|by eapply lookup_lt_Some].
    + cbn. intros [= E]. apply lookup_lt_Some in Hcl. lia.
  - pose proof (Ht _ _ Hj) as Ho. cbn in Ho. split; [|split; [done|intros nn' [= _ ->]; done]]. apply lost_goto; [|done].
    split; [done|]. split; [|done]. intros nn'. cbn. rewrite lookup_insert. case_decide; [done|apply Hc].
  - split; [done|]. split; [done|]. intros nn' [= _ ->]. by apply (Hc k).
  - split; [|by split]. apply lost_goto; [|cbn; intros [= ->]; by apply (Hc k)]. split; [done|]. split; [|done].
    intros nn' Hg'. cbn in Hg'. apply lookup_delete_Some in Hg' as [_ Hg']. by apply (Hc nn').
  - pose proof (Ht _ _ Hj) as Ho. cbn in Ho. split; [|split; [cbn; congruence|done]]. apply lost_goto; [|done].
    split; [apply running_shut; [done|congruence]|by split].
Qed.
Lemma lost_steps s t s' nn c : lost s nn c -> steps s t s' -> lost s' nn c /\ c ∉ shutdowns t /\ forall nn', Returned_client nn' c ∉ t.
Proof.
  intros Hl. induction 1 as [s|s t s1 l s2 _ IH Hst]; [split; [done|]; split; [|intros nn']; apply not_elem_of_nil|].
  destruct (IH Hl) as (H1 & H2 & H3). destruct (lost_step _ _ _ _ _ H1 Hst) as (H4 & H5 & H6). split; [done|]. split.
  - unfold shutdowns. rewrite omap_app. fold (shutdowns t) (shutdowns [l]). intros [?|Hin]%elem_of_app; [done|].
    destruct l; cbn in Hin, H5; try by apply not_elem_of_nil in Hin. apply list_elem_of_singleton in Hin. congruence.
  - intros nn' [?|Hin%list_elem_of_singleton]%elem_of_app; [by apply (H3 nn')|]. by destruct (H6 nn').
Qed.

Lemma clients_steps_cons s l s1 t s2 : step s l s1 -> steps s1 t s2 -> steps s (l :: t) s2.
Proof.
  intros H1 H2. change (l :: t) with ([l] ++ t). induction H2 as [s1|s1 t s' l' s'' _ IH Hst].
  - apply (ss_snoc s [] s); [constructor|done].
  - rewrite app_assoc. by eapply ss_snoc; [apply IH|].
Qed.

(** C31. Two controllers that ask for the client of one cluster at the same
    time can both find none: both start one, the second stored replaces the
    first, and the first stays connected for ever - no one is given it again
    and no one shuts it down. *)
Theorem concurrent_creation_leaks nn h secret cc : names nn h -> build h secret = Config cc ->
  exists t s, steps (init 2) t s /\ (forall j p, rg_threads s !! j = Some p -> p = Idle) /\ rg_clients s !! nn = Some 1
  /\ forall t' s', steps s t' s' -> running s' nn 0 /\ 0 ∉ shutdowns t' /\ forall nn', Returned_client nn' 0 ∉ t'.
Proof.
  intros [Hn Hns] Hb. eexists _, _. split; [|split; [|split]].
  - eapply clients_steps_cons; [by apply (s_get _ 0 nn h)|]. eapply clients_steps_cons; [by apply (s_get _ 1 nn h)|].
    eapply clients_steps_cons; [by apply (s_miss _ 0 nn h)|]. eapply clients_steps_cons; [by apply (s_miss _ 1 nn h)|].
    eapply clients_steps_cons; [by apply (s_start _ 0 nn h secret cc)|]. eapply clients_steps_cons; [by apply (s_start _ 1 nn h secret cc)|].
    eapply clients_steps_cons; [by apply (s_store _ 0 nn 0)|]. eapply clients_steps_cons; [by apply (s_store _ 1 nn 1)|]. apply ss_nil.
  - intros [|[|j]] p [= <-]; done.
  - apply lookup_insert_eq.
  - intros t' s' Hs. eapply (lost_steps _ _ _ nn 0) in Hs as ((Hr & _) & Hrest); [done|]. split; [by eexists|].
    split; [|by intros [|[|j]] p [= <-]]. intros nn'. cbn. rewrite !lookup_insert. by repeat case_decide.
Qed.
End Build.

(** ** A run *)

#[local] Instance x509_1 : X509Lib :=
  {| CertPool := unit; Certificate := unit; AppendCertsFromPEM _ := Some tt; X509KeyPair _ _ := inl tt |}.
Definition nn1 : NamespacedName := ("ns", "hz").
Definition h1 : Hazelcast :=
  mkHazelcast "hz" "ns" ∅ false
    (mkHazelcastSpec (Some 3%Z) "" "license" None None None "" None None None None "" None [] None "dev" None [] [] [] None None None None)
    (mkHazelcastStatus 0 "").
Definition config1 : cluster_Config := clusterConfig h1 None None.
Lemma leak_witness : exists t s, steps (init 2) t s /\ rg_clients s !! nn1 = Some 1
  /\ forall t' s', steps s t' s' -> running s' nn1 0 /\ 0 ∉ shutdowns t' /\ forall nn', Returned_client nn' 0 ∉ t'.
Proof.
  destruct (concurrent_creation_leaks nn1 h1 (Found ∅) config1) as (t & s & Hs & _ & Hg & Hl); [by split|done|]. by exists t, s.
Defined.
Lemma clients_created1 : exists t s, steps (init 1) t s /\ rg_clients s !! nn1 = Some 0.
Proof.
  eexists _, _. split.
  - eapply clients_steps_cons; [by apply (s_get _ 0 nn1 h1)|]. eapply clients_steps_cons; [by apply (s_miss _ 0 nn1 h1)|].
    eapply clients_steps_cons; [by apply (s_start _ 0 nn1 h1 (Found ∅) config1)|]. eapply clients_steps_cons; [by apply (s_store _ 0 nn1 0)|]. apply ss_nil.
  - apply lookup_insert_eq.
Qed.
Lemma registered_witness : exists s cl, rg_clients s !! nn1 = Some 0 /\ rg_started s !! 0 = Some cl /\ cl_running cl = true.
Proof.
  destruct clients_created1 as (t & s & Hs & Hg). destruct (clients_registered_run 1 t s Hs) as (H & _).
  destruct (H nn1 0 Hg) as (cl & Hc & _ & Hr & _). by exists s, cl.
Defined.
