(* ===== verification/McController.v ===== *)
(** * The Management Center controller

    src/internal/controller/managementcenter/: its objects, the init command
    with which the center configures itself, and [Reconcile].  Parameters:
    how the configuration of a client is written as YAML ([McYaml]), the JSON
    of a specification ([McJson]), printable runes ([PrintLib]).

    The PEM decoder, the security contexts and the key store are the ones of
    the Hazelcast controller: the code is the same. *)

From S2P Require Import Prelude Eff FieldValidation GoPath GoNet HazelcastTypes DataStructureTypes HazelcastValidation ConfigTypes Proto CodecTypes DataStructureConfig HazelcastConfig JetJobValidation Kube ConfigSecret HzTypes HzObjects HzStatefulSet McTypes HzKube HzServices HzSecrets HzStatus.
From stdpp Require Import pretty.
#[local] Open Scope prog_scope.
#[local] Open Scope string_scope.
#[local] Open Scope list_scope.
#[local] Open Scope Z_scope.

Definition n_ManagementCenter : string := "management-center".
Definition n_MancenterPort : string := "mancenter-port".
Definition n_MancenterStorageName : string := "mancenter-storage".
Definition mcLicenseKey : string := "MC_LICENSE_KEY".
Definition mcInitCmd : string := "MC_INIT_CMD".
Definition mc_javaOpts : string := "JAVA_OPTS".
Definition mc_retryAfter : Z := 10.

(** ** The configuration of a client *)

Record McSSL := mkMcSSL {
  mssl_Enabled : bool;
  mssl_FactoryClassName : string;
  mssl_Properties : gmap string string;
}.
Record McNetwork := mkMcNetwork { mn_ClusterMembers : list string; mn_SSL : McSSL }.
Record McHazelcastClient := mkMcHazelcastClient { mhc_ClusterName : string; mhc_Network : McNetwork }.
(** [yaml.Encoder.Encode] of a [HazelcastClientWrapper]. *)
Class McYaml := { HazelcastClient_Encode : McHazelcastClient -> sum string error }.

Definition mc_NewSSLProperties (path auth : string) : gmap string string :=
  let pass := "hazelcast" in
  if strb auth MutualAuthenticationRequired
  then list_to_map [("protocol", "TLSv1.2"); ("keyStore", path); ("keyStorePassword", pass);
                    ("trustStore", path); ("trustStorePassword", pass)]
  else list_to_map [("protocol", "TLSv1.2"); ("trustStore", path); ("trustStorePassword", pass)].
Definition ssl_factory : string := "com.hazelcast.nio.ssl.BasicSSLContextFactory".
Definition jks_file (cluster : string) : string := (cluster ++ ".jks")%string.
Definition yaml_file (cluster : string) : string := (cluster ++ ".yaml")%string.
Definition client_ssl (config : HazelcastClusterConfig) : McSSL :=
  match has_tls_secret (hcc_TLS config) with
  | Some tls => mkMcSSL true ssl_factory
                  (mc_NewSSLProperties (path_Join ["/config"; jks_file (hcc_Name config)]) (tls_MutualAuthentication tls))
  | None => mkMcSSL false ssl_factory ∅
  end.
Definition client_config (config : HazelcastClusterConfig) : McHazelcastClient :=
  mkMcHazelcastClient (hcc_Name config) (mkMcNetwork [hcc_Address config] (client_ssl config)).
Definition hazelcastClientConfig `{McYaml} (config : HazelcastClusterConfig) : sum string error :=
  HazelcastClient_Encode (client_config config).

Section McController.
Context `{P : Proto} `{QL : QuantityLib} `{Y : YamlLib} `{PT : PodTypes} `{KE : KErrors} `{HS : HzSecretLib} `{SL : SelectorLib}.
Context `{MJ : !McJson} `{MY : McYaml} `{PL : PrintLib} `{CU : !ControllerUtil}.
Context (op_env : Operator).
Implicit Types mc : ManagementCenter.

Abbreviation rec := (hprog (ctrl_Result * option error)).

(** ** Metadata *)

Definition mc_selectorLabels mc : gmap string string :=
  <[n_ApplicationManagedByLabel := n_OperatorName]>
    (<[n_ApplicationInstanceNameLabel := mc_Name mc]> {[n_ApplicationNameLabel := n_ManagementCenter]}).
Definition mc_labels mc : gmap string string :=
  <[n_ApplicationManagedByLabel := n_OperatorName]>
    (<[n_ApplicationInstanceNameLabel := mc_Name mc]>
      (<[n_ApplicationNameLabel := n_ManagementCenter]> (mc_spec_Labels (mc_Spec mc)))).
Definition mc_metadata mc : ObjectMeta :=
  mkObjectMeta (mc_Name mc) (mc_Namespace mc) (Some (mc_labels mc)) (mc_spec_Annotations (mc_Spec mc)) [].

(** ** The service, the ingress and the route *)

Definition httpPort : ServicePort := mkServicePort "http" "TCP" 8080 (FromString n_MancenterPort) None 0.
Definition httpsPort : ServicePort := mkServicePort "https" "TCP" 443 (FromString n_MancenterPort) None 0.

Definition mutate_mc_service mc (s : Service) : res Service :=
  Ret (set_type_ports s (ManagementCenterServiceType (mc_ExternalConnectivity (mc_Spec mc))) [httpPort; httpsPort]).
Definition mc_reconcileService mc : hprog (option error) :=
  with_owner "failed to set owner reference on Service: " (OwnerManagementCenter mc) (mc_metadata mc) (fun m =>
  force (k := KService) (mutate_mc_service mc) (mkService m (mc_selectorLabels mc) "" "" [] false [])).

(** An object that is not asked for is deleted, if it is there. *)
Definition delete_unused (k : okind) (o : oobj k) : hprog (option error) :=
  ask err <- DeleteO k o ;;
  Done (match (err : option error) with Some e => if IsNotFound e then None else Some e | None => None end).

Definition ingress_rules mc (i : ExternalConnectivityIngress) : list IngressRule :=
  [mkIngressRule (eci_Hostname i) [mkHTTPIngressPath (eci_Path i) "Prefix" (mc_Name mc) (sp_Name httpPort)]].
Definition mutate_ingress mc (i : ExternalConnectivityIngress) (o : IngressObject) : res IngressObject :=
  Ret (mkIngressObject (set_om_Annotations (ing_Meta o) (eci_Annotations i)) (Some (eci_IngressClassName i)) (ingress_rules mc i)).
Definition reconcileIngress mc : hprog (option error) :=
  ec <- lift (deref (mc_ExternalConnectivity (mc_Spec mc))) ;;
  match ec_Ingress ec with
  | None => delete_unused KIngress (mkIngressObject (mc_metadata mc) None [])
  | Some i =>
      with_owner "failed to set owner reference on Ingress: " (OwnerManagementCenter mc) (mc_metadata mc) (fun m =>
      force (k := KIngress) (mutate_ingress mc i) (mkIngressObject m None []))
  end.

Definition RouteSpec_zero : RouteSpec := mkRouteSpec "" "" "" None.
Definition mutate_route mc (r : ExternalConnectivityRoute) (o : Route) : res Route :=
  Ret (mkRoute (rt_Meta o) (mkRouteSpec (ecr_Hostname r) "Service" (mc_Name mc) (Some (FromString "http")))).
Definition reconcileRoute mc : hprog (option error) :=
  if negb (op_OpenShift op_env) then Done None else
  ec <- lift (deref (mc_ExternalConnectivity (mc_Spec mc))) ;;
  match ec_Route ec with
  | None => delete_unused KRoute (mkRoute (mc_metadata mc) RouteSpec_zero)
  | Some r =>
      with_owner "failed to set owner reference on Route: " (OwnerManagementCenter mc) (mc_metadata mc) (fun m =>
      force (k := KRoute) (mutate_route mc r) (mkRoute m RouteSpec_zero))
  end.

(** ** The secret with the configurations of the clients *)

Definition mc_loadTLSKeyPair mc (secretName : string) : hprog (sum (string * string) error) :=
  ask got <- Base (GetSecretData (mc_Namespace mc, secretName)) ;;
  Done (match (got : fetched (gmap string string)) with
        | Failed e => inr e
        | Found data =>
            match decodePEM (default "" (data !! "tls.crt")) "CERTIFICATE" with
            | inr e => inr e
            | inl cert =>
                match decodePEM (default "" (data !! "tls.key")) "PRIVATE KEY" with
                | inr e => inr e
                | inl key => inl (cert, key)
                end
            end
        end).
Definition mc_hazelcastKeystore mc (secretName : string) : hprog (sum string error) :=
  if strb secretName "" then Done (keystore_Store None) else
  pair <- mc_loadTLSKeyPair mc secretName ;;
  match pair with
  | inr e => Done (inr e)
  | inl (cert, key) => ask now <- Base Now ;; Done (keystore_Store (Some (now : Z, key, cert)))
  end.

(** The files of one cluster, and of all. *)
Definition add_keystore mc (cluster : HazelcastClusterConfig) (files : gmap string string) : hprog (sum (gmap string string) error) :=
  match hcc_TLS cluster with
  | None => Done (inl files)
  | Some tls =>
      ks <- mc_hazelcastKeystore mc (tls_SecretName tls) ;;
      Done (match ks with inr e => inr e | inl k => inl (<[jks_file (hcc_Name cluster) := k]> files) end)
  end.
Fixpoint add_files mc (clusters : list HazelcastClusterConfig) (files : gmap string string) : hprog (sum (gmap string string) error) :=
  match clusters with
  | [] => Done (inl files)
  | cluster :: clusters =>
      r <- add_keystore mc cluster files ;;
      match r with
      | inr e => Done (inr e)
      | inl files =>
          match hazelcastClientConfig cluster with
          | inr e => Done (inr e)
          | inl text => add_files mc clusters (<[yaml_file (hcc_Name cluster) := text]> files)
          end
      end
  end.
Definition mutate_mc_secret mc (_ : unit) (s : Secret) : hprog (unit * Secret * option error) :=
  r <- add_files mc (mc_HazelcastClusters (mc_Spec mc)) ∅ ;;
  match r with
  | inr e => Done (tt, s, Some e)
  | inl files => Done (tt, mkSecret (sec_Meta s) (Some (mkSecretData None None files)), None)
  end.
Definition mc_reconcileSecret mc : hprog (option error) :=
  with_owner "failed to set owner reference on Secret: " (OwnerManagementCenter mc) (mc_metadata mc) (fun m =>
  r <- util_CreateOrUpdateForce KSecret (mutate_mc_secret mc) tt (mkSecret m None) ;; Done r.2).

(** ** The environment *)

Definition getRootPath mc : string :=
  match mc_ExternalConnectivity (mc_Spec mc) with
  | Some ec =>
      match ec_Ingress ec with
      | Some i => if ExternalConnectivity_IsEnabled (Some ec) then eci_Path i else "/"
      | None => "/"
      end
  | None => "/"
  end.
Definition config_file (cluster : HazelcastClusterConfig) : string := path_Join ["/config"; yaml_file (hcc_Name cluster)].
Definition clusterAddCommand mc : string :=
  String.concat " && " ((fun cluster =>
    "./bin/mc-conf.sh cluster add --lenient=true -H /data --client-config " ++ config_file cluster)%string
    <$> mc_HazelcastClusters (mc_Spec mc)).
Definition ldap_command (ldap : LDAPProvider) (username password : string) : string :=
  let groups l := Quote (String.concat "," l) in
  ("./bin/hz-mc conf ldap configure -H /data --url=" ++ Quote (ldap_URL ldap) ++ " --ldap-username=" ++ Quote username ++
   " --ldap-password=" ++ Quote password ++ " --user-dn=" ++ Quote (ldap_UserDN ldap) ++ " --group-dn=" ++ Quote (ldap_GroupDN ldap) ++
   " --user-search-filter=" ++ Quote (ldap_UserSearchFilter ldap) ++ " --group-search-filter=" ++ Quote (ldap_GroupSearchFilter ldap) ++
   " --admin-groups=" ++ groups (ldap_AdminGroups ldap) ++ " --read-write-groups=" ++ groups (ldap_UserGroups ldap) ++
   " --read-only-groups=" ++ groups (ldap_ReadonlyUserGroups ldap) ++ " --metrics-only-groups=" ++ groups (ldap_MetricsOnlyGroups ldap))%string.
(** Without the secret, the credentials are empty. *)
Definition ldapConfigure mc (ldap : LDAPProvider) : hprog (list string) :=
  ask got <- Base (GetSecretData (mc_Namespace mc, ldap_CredentialsSecretName ldap)) ;;
  let data : gmap string string := match (got : fetched (gmap string string)) with Found d => d | Failed _ => ∅ end in
  Done ["./bin/hz-mc conf security reset -H /data";
        ldap_command ldap (default "" (data !! "username")) (default "" (data !! "password"))].
Definition ldap_of mc : option LDAPProvider :=
  match mc_SecurityProviders (mc_Spec mc) with Some sp => sec_LDAP sp | None => None end.
Definition buildMcInitCmd mc : hprog string :=
  let addCluster := clusterAddCommand mc in
  let commands := if strb addCluster "" then [] else [addCluster] in
  match ldap_of mc with
  | Some ldap =>
      if mcs_Configured (mc_Status mc) then Done (String.concat " && " commands) else
      conf <- ldapConfigure mc ldap ;; Done (String.concat " && " (commands ++ conf))
  | None => Done (String.concat " && " commands)
  end.
Definition mc_javaOPTS mc : string :=
  String.concat " " (
    ["-Dhazelcast.mc.healthCheck.enable=true"; "-Dhazelcast.mc.lock.skip=true"; "-Dhazelcast.mc.tls.enabled=false";
     "-Dmancenter.ssl=false"; ("-Dhazelcast.mc.phone.home.enabled=" ++ FormatBool (IsPhoneHomeEnabled op_env))%string] ++
    (if strb (mc_GetLicenseKeySecretName (mc_Spec mc)) "" then []
     else [("-Dhazelcast.mc.license=$(" ++ mcLicenseKey ++ ")")%string]) ++
    (match mc_ExternalConnectivity (mc_Spec mc) with
     | Some ec => if ExternalConnectivity_IsEnabled (Some ec) && is_set (ec_Ingress ec)
                  then [("-Dhazelcast.mc.contextPath=" ++ getRootPath mc)%string] else []
     | None => []
     end) ++
    (if MCJVM_IsConfigured (mc_JVM (mc_Spec mc)) then match mc_JVM (mc_Spec mc) with Some j => mcj_Args j | None => [] end else [])).
Definition mc_env mc : hprog (list EnvVar) :=
  cmd <- buildMcInitCmd mc ;;
  let secret := mc_GetLicenseKeySecretName (mc_Spec mc) in
  Done ([plain_env mcInitCmd cmd] ++
        (if strb secret "" then [] else [mkEnvVar mcLicenseKey "" (Some (SecretKeyRef secret n_LicenseDataKey))]) ++
        [plain_env mc_javaOpts (mc_javaOPTS mc)]).

(** ** The stateful set *)

Definition mc_persistentVolumeMount : VolumeMount := mkVolumeMount n_MancenterStorageName "/data".
Definition tmpDirMount : VolumeMount := mkVolumeMount n_TmpDirVolName "/tmp".
Definition configMount : VolumeMount := mkVolumeMount "config" "/config".
Definition mc_persistentVolumeClaim mc (p : MCPersistenceConfiguration) : res PersistentVolumeClaim :=
  bind_res (deref (mcp_Size p)) (fun size =>
  Ret (mkPersistentVolumeClaim
         (mkObjectMeta n_MancenterStorageName (mc_Namespace mc) (Some (mc_labels mc)) (mc_spec_Annotations (mc_Spec mc)) [])
         (Some ["ReadWriteOnce"]) size (mcp_StorageClass p))).
Definition existingVolumeClaim (claimName : string) : Volume := mkVolume n_MancenterStorageName (ClaimVolume claimName).
Definition mc_emptyDirVolume (claimName : string) : Volume := mkVolume n_MancenterStorageName EmptyDir.
Definition tmpDir : Volume := mkVolume n_TmpDirVolName EmptyDir.
Definition configVolume mc : Volume := mkVolume "config" (SecretVolume (mc_Name mc) 420).

(** The claims and the volumes for the data. *)
Definition mc_storage mc : res (list PersistentVolumeClaim * list Volume) :=
  let p := mc_Persistence (mc_Spec mc) in
  bind_res (deref p) (fun pc =>
  if MCPersistence_IsEnabled p then
    if strb (mcp_ExistingVolumeClaimName pc) ""
    then bind_res (mc_persistentVolumeClaim mc pc) (fun c => Ret ([c], []))
    else Ret ([], [existingVolumeClaim (mcp_ExistingVolumeClaimName pc)])
  else Ret ([], [mc_emptyDirVolume (mcp_ExistingVolumeClaimName pc)])).
Definition mc_container : Container :=
  mkContainer n_ManagementCenter "" [] [] [mkContainerPort 8080 n_MancenterPort "TCP"] ResourceRequirements_zero
    (Some (mkProbe (HTTPGet "" 8081 "HTTP") 10 10 10 1 10)) (Some (mkProbe (TCPSocket 8080) 10 10 10 1 10))
    [mc_persistentVolumeMount; tmpDirMount; configMount] "" (Some containerSecurityContext) "" "".
Definition mc_template mc (vols : list Volume) : PodTemplate :=
  mkPodTemplate (mc_labels mc) None false "" (Some (podSecurityContext op_env)) [mc_container] [] []
    (vols ++ [tmpDir; configVolume mc]) None [] ∅ [] None.
Definition new_mc_statefulset mc (m : ObjectMeta) : res StatefulSet :=
  bind_res (mc_storage mc) (fun '(claims, vols) =>
  Ret (mkStatefulSet m (Some (mc_selectorLabels mc)) "" "" (Some 1) (mc_template mc vols) claims 0 0 0 0 0)).

Definition update_mc_container mc (c : Container) : hprog Container :=
  envs <- mc_env mc ;;
  liveness <- lift (set_pb_Path (ct_LivenessProbe c) (path_Join [getRootPath mc; "health"])) ;;
  Done (mkContainer (ct_Name c) (mc_DockerImage mc) (ct_Args c) envs (ct_Ports c)
    (match mc_Resources (mc_Spec mc) with Some r => r | None => ct_Resources c end)
    liveness (ct_ReadinessProbe c) (ct_VolumeMounts c) (mc_ImagePullPolicy (mc_Spec mc)) (ct_SecurityContext c)
    (ct_TerminationMessagePath c) (ct_TerminationMessagePolicy c)).
Definition update_mc_template mc (t : PodTemplate) (containers : list Container) : PodTemplate :=
  let secrets := mc_ImagePullSecrets (mc_Spec mc) in
  match mc_Scheduling (mc_Spec mc) with
  | Some s =>
      mkPodTemplate (pt_Labels t) (pt_Annotations t) (pt_SharesSpec t) (pt_ServiceAccountName t) (pt_SecurityContext t) containers
        (pt_InitContainers t) secrets (pt_Volumes t) (sc_Affinity s) (sc_Tolerations s) (sc_NodeSelector s)
        (sc_TopologySpreadConstraints s) (pt_TerminationGracePeriodSeconds t)
  | None =>
      mkPodTemplate (pt_Labels t) (pt_Annotations t) (pt_SharesSpec t) (pt_ServiceAccountName t) (pt_SecurityContext t) containers
        (pt_InitContainers t) secrets (pt_Volumes t) (pt_Affinity t) (pt_Tolerations t) (pt_NodeSelector t)
        (pt_TopologySpreadConstraints t) (pt_TerminationGracePeriodSeconds t)
  end.
Definition mutate_mc_statefulset mc (_ : unit) (s : StatefulSet) : hprog (unit * StatefulSet * option error) :=
  match pt_Containers (sts_Template s) with
  | [] => Crash
  | c :: cs =>
      c <- update_mc_container mc c ;;
      Done (tt, mkStatefulSet (sts_Meta s) (sts_Selector s) (sts_ServiceName s) (sts_PodManagementPolicy s) (sts_Replicas s)
        (update_mc_template mc (sts_Template s) (c :: cs)) (sts_VolumeClaimTemplates s) (sts_Generation s)
        (sts_StatusReplicas s) (sts_ReadyReplicas s) (sts_UpdatedReplicas s) (sts_ObservedGeneration s), None)
  end.
Definition mc_reconcileStatefulset mc : hprog (option error) :=
  with_owner "failed to set owner reference on StatefulSet: " (OwnerManagementCenter mc) (mc_metadata mc) (fun m =>
  sts <- lift (new_mc_statefulset mc m) ;;
  r <- util_CreateOrUpdateForce KStatefulSet (mutate_mc_statefulset mc) tt sts ;; Done r.2).

(** ** managementcenter_status.go *)

Definition McStatusApplier : Type := ManagementCenterStatus -> ManagementCenterStatus.
Definition withMcPhase (p : string) : McStatusApplier := fun ms =>
  mkManagementCenterStatus p (mcs_Configured ms) (if strb p McRunning then "" else mcs_Message ms) (mcs_ExternalAddresses ms).
Definition withConfigured (b : bool) : McStatusApplier := fun ms =>
  mkManagementCenterStatus (mcs_Phase ms) b (mcs_Message ms) (mcs_ExternalAddresses ms).
Definition withMcFailedPhase (msg : string) : McStatusApplier := fun ms =>
  mkManagementCenterStatus McFailed (mcs_Configured ms) msg (mcs_ExternalAddresses ms).
Definition withMcExternalAddresses (l : list string) : McStatusApplier := fun ms =>
  mkManagementCenterStatus (mcs_Phase ms) (mcs_Configured ms) (mcs_Message ms) (String.concat "," l).
Definition mc_update mc (o : ReconcilerOption) (options : list McStatusApplier) : rec :=
  let mc := set_mc_Status mc (foldl (fun ms f => f ms) (mc_Status mc) options) in
  ask err <- StatusUpdateMC mc ;;
  match (err : option error) with
  | Some e => Done (ctrl_Result_zero, Some e)
  | None =>
      match ro_Err o with
      | Some e => Done (ctrl_Result_zero, Some e)
      | None => if strb (mc_phase mc) McPending then Done (mkResult true (ro_RetryAfter o), None) else Done (ctrl_Result_zero, None)
      end
  end.
Definition mc_failed_as (what : string) mc (e : error) : rec :=
  mc_update mc (recoptions_Error e) [withMcFailedPhase (what ++ err_msg e)].
Definition mc_failed mc (e : error) : rec := mc_failed_as "" mc e.

(** ** Reconcile *)

Definition mc_AddFinalizer mc : hprog (ManagementCenter * option error) :=
  if negb (bool_decide (n_Finalizer ∈ mc_Finalizers mc)) && negb (mc_Deleting mc) then
    let mc := set_mc_Finalizers mc (mc_Finalizers mc ++ [n_Finalizer]) in
    ask err <- UpdateMC mc ;; Done (mc, err : option error)
  else Done (mc, None).
Definition mc_executeFinalizer mc : hprog (ManagementCenter * option error) :=
  if negb (bool_decide (n_Finalizer ∈ mc_Finalizers mc)) then Done (mc, None) else
  let mc := set_mc_Finalizers mc (filter (fun f => f <> n_Finalizer) (mc_Finalizers mc)) in
  ask err <- UpdateMC mc ;;
  Done (mc, match (err : option error) with
            | Some e => Some (wrap "failed to remove finalizer from custom resource: " e)
            | None => None
            end).

(** [oldMC] and [&mc] are the same pointer: nothing is ever found mutated. *)
Definition mc_mutate mc : ManagementCenter * bool := (mc_Default mc, false).
Definition isMCReconfigured mc : bool :=
  match mc_Annotations mc !! n_LastSuccessfulSpecAnnotation with
  | None => false
  | Some last =>
      match McSpec_Unmarshal last with
      | inr _ => false
      | inl parsed =>
          negb (bool_decide (mc_SecurityProviders parsed = mc_SecurityProviders (mc_Spec mc))) && mcs_Configured (mc_Status mc)
      end
  end.
Definition mc_IsSuccessfullyApplied mc : bool := is_set (mc_Annotations mc !! n_LastSuccessfulSpecAnnotation).
(** [util.Update]: only the annotation can differ. *)
Definition mc_updateLastSuccessfulConfiguration mc : hprog (ManagementCenter * option error) :=
  let text := McSpec_Marshal (mc_Spec mc) in
  if decide (mc_Annotations mc !! n_LastSuccessfulSpecAnnotation = Some text) then Done (mc, None) else
  let mc := set_mc_Annotation mc n_LastSuccessfulSpecAnnotation text in
  ask err <- UpdateMC mc ;; Done (mc, err : option error).

(** [util.GetExternalAddressesForMC] *)
Definition ingress_addresses (ports : list ServicePort) (i : Ingress) : list string :=
  let addr := GetLoadBalancerAddress i in
  if strb addr "" then [] else (fun p => addr ++ ":" ++ pretty (sp_Port p))%string <$> ports.
Definition GetExternalAddressesForMC mc : hprog (list string) :=
  if negb (ExternalAddressEnabled mc) then Done [] else
  ask got <- GetO KService (mc_key mc) ;;
  Done (match (got : fetched Service) with
        | Failed _ => []
        | Found svc =>
            if strb (svc_Type svc) ServiceTypeLoadBalancer then concat (ingress_addresses (svc_Ports svc) <$> svc_Ingress svc) else []
        end).
Definition enrichPublicAddresses mc (addrs : list string) : hprog (list string) :=
  ec <- lift (deref (mc_ExternalConnectivity (mc_Spec mc))) ;;
  let addrs := addrs ++ match ec_Ingress ec with Some i => [(eci_Hostname i ++ ":80")%string] | None => [] end in
  match ec_Route ec with
  | None => Done addrs
  | Some _ =>
      ask got <- GetO KRoute (mc_key mc) ;;
      Done (match (got : fetched Route) with Failed _ => addrs | Found r => addrs ++ [(rt_Host (rt_Spec r) ++ ":80")%string] end)
  end.

(** The stateful set is ready. *)
Definition mc_reconcile_success mc : rec :=
  (if IsPhoneHomeEnabled op_env && negb (mc_IsSuccessfullyApplied mc) then call TriggerPhoneHome else Done tt) ;;
  r <- mc_updateLastSuccessfulConfiguration mc ;;
  let mc := r.1 in
  externalAddrs <- GetExternalAddressesForMC mc ;;
  enrichedAddrs <- enrichPublicAddresses mc externalAddrs ;;
  if is_set (ldap_of mc) && strb (mc_phase mc) McPending
  then mc_update mc recoptions_Empty [withMcPhase McConfiguring; withConfigured true]
  else mc_update mc recoptions_Empty [withMcPhase McRunning; withMcExternalAddresses enrichedAddrs].
Definition mc_wait mc : rec :=
  mc_update mc (recoptions_RetryAfter mc_retryAfter) [withMcPhase (if strb (mc_phase mc) McConfiguring then McConfiguring else McPending)].
Definition mc_reconcile_running (nn : Kube.NamespacedName) mc : rec :=
  ask got <- GetO KStatefulSet nn ;;
  match (got : fetched StatefulSet) with
  | Failed e => if IsNotFound e then mc_wait mc else mc_failed mc e
  | Found sts =>
      run <- CheckIfRunning sts 1 ;;
      match run with
      | (true, _) => mc_reconcile_success mc
      | (false, err) =>
          if strb (mc_phase mc) McConfiguring then mc_wait mc else
          match err with
          | Some e => mc_failed mc (as_error e)
          | None => mc_wait mc
          end
      end
  end.
Definition mc_reconcile_workload (nn : Kube.NamespacedName) mc : rec :=
  if isMCReconfigured mc then mc_update mc recoptions_Empty [withMcPhase McPending; withConfigured false] else
  err <- mc_reconcileStatefulset mc ;;
  match err with
  | Some e => if IsConflict e then Done (ctrl_Result_zero, None) else mc_failed mc e
  | None => mc_reconcile_running nn mc
  end.
(** The service, the ingress, the route and the secret, and what follows. *)
Definition mc_reconcile_objects (nn : Kube.NamespacedName) mc : rec :=
  err <- each id [mc_reconcileService mc; reconcileIngress mc; reconcileRoute mc; mc_reconcileSecret mc] ;;
  match err with Some e => mc_failed mc e | None => mc_reconcile_workload nn mc end.
Definition mc_reconcile_validated (nn : Kube.NamespacedName) mc : rec :=
  ask c <- Observe ;;
  invalid <- lift (ValidateManagementCenterSpec c (op_OpenShift op_env) mc) ;;
  match invalid with
  | Some e => mc_failed mc e
  | None => mc_reconcile_objects nn mc
  end.
Definition mc_reconcile_live (nn : Kube.NamespacedName) mc : rec :=
  let m := mc_mutate mc in
  if m.2 then
    ask err <- UpdateMC m.1 ;;
    match (err : option error) with
    | Some e => mc_failed_as "error mutating new Spec: " m.1 e
    | None => mc_reconcile_validated nn m.1
    end
  else mc_reconcile_validated nn m.1.
Definition mc_reconcile_deleted mc : rec :=
  r <- mc_executeFinalizer mc ;;
  match r with
  | (mc, Some e) => mc_failed mc e
  | (_, None) => Done (ctrl_Result_zero, None)
  end.

Definition ManagementCenter_zero : ManagementCenter :=
  mkManagementCenter "" "" "" ∅ [] false
    (mkManagementCenterSpec "" "" "" [] "" "" [] None None None None None None ∅ ∅) (mkManagementCenterStatus "" false "" "").
Definition mc_Reconcile (nn : Kube.NamespacedName) : rec :=
  ask got <- GetMC nn ;;
  match (got : fetched ManagementCenter) with
  | Failed e => if IsNotFound e then Done (ctrl_Result_zero, None) else mc_failed ManagementCenter_zero e
  | Found mc =>
      r <- mc_AddFinalizer mc ;;
      match r with
      | (mc, Some e) => mc_failed mc e
      | (mc, None) => if mc_Deleting mc then mc_reconcile_deleted mc else mc_reconcile_live nn mc
      end
  end.
End McController.
