(* ===== verification/McProps.v ===== *)
(** * The objects of a Management Center

    The configurations of the clients, the volumes of the pod, what cannot be
    updated, and the commands that configure the center. *)

From S2P Require Import Prelude Eff FieldValidation GoPath GoNet HazelcastTypes DataStructureTypes HazelcastValidation ConfigTypes Proto CodecTypes DataStructureConfig HazelcastConfig JetJobValidation Kube ConfigSecret HzTypes HzObjects HzStatefulSet HzStatefulSetFacts McTypes HzKube HzServices HzSecrets HzStatus HzLogic McController.
#[local] Open Scope prog_scope.
#[local] Open Scope string_scope.
#[local] Open Scope list_scope.
#[local] Open Scope Z_scope.

(** ** Names of files *)

Lemma no_slash_app a b : no_slash (a ++ b)%string = no_slash a && no_slash b.
Proof.
  induction a as [|c a IH]; [done|]. change (String c a ++ b)%string with (String c (a ++ b)). cbn [no_slash]. by rewrite IH, andb_assoc.
Qed.
Lemma config_path name : no_slash name = true -> (3 <= String.length name)%nat -> path_Join ["/config"; name] = ("/config/" ++ name)%string.
Proof.
  intros Hs Hl. apply (path_Join_child "/config" name "config" []); [done|done|]. split; [done|].
  split_and!; intros ->; cbn in Hl; lia.
Qed.
Lemma config_yaml n : no_slash n = true -> path_Join ["/config"; yaml_file n] = ("/config/" ++ yaml_file n)%string.
Proof.
  intros Hn. apply config_path; unfold yaml_file; [by rewrite no_slash_app, Hn|]. rewrite str_length_app. cbn. lia.
Qed.
Lemma config_jks n : no_slash n = true -> path_Join ["/config"; jks_file n] = ("/config/" ++ jks_file n)%string.
Proof.
  intros Hn. apply config_path; unfold jks_file; [by rewrite no_slash_app, Hn|]. rewrite str_length_app. cbn. lia.
Qed.

Lemma str_app_inj_r (a b c : string) : (a ++ c = b ++ c)%string -> a = b.
Proof.
  intros E. assert (String.length a = String.length b) as El.
  { apply (f_equal String.length) in E. rewrite !str_length_app in E. lia. }
  revert b E El. induction a as [|x a IH]; intros [|y b] E El; try done. cbn in E. injection E as -> E. f_equal. by apply IH; [|injection El].
Qed.
Fixpoint last_char (s : string) : option ascii :=
  match s with "" => None | String c "" => Some c | String _ s => last_char s end.
Lemma last_char_app a c b : last_char (a ++ String c b)%string = last_char (String c b).
Proof.
  induction a as [|x a IH]; [done|]. change ((String x a ++ String c b)%string) with (String x (a ++ String c b)).
  destruct a as [|y a]; [done|]. cbn [last_char] in *. exact IH.
Qed.
Lemma yaml_not_jks n n' : yaml_file n <> jks_file n'.
Proof. intros E. apply (f_equal last_char) in E. unfold yaml_file, jks_file in E. rewrite !last_char_app in E. done. Qed.

Section McProps.
Context `{P : Proto} `{QL : QuantityLib} `{Y : YamlLib} `{PT : PodTypes} `{KE : KErrors} `{HS : HzSecretLib} `{SL : SelectorLib}.
Context `{MJ : !McJson} `{MY : McYaml} `{PL : PrintLib} `{CU : !ControllerUtil}.
Context (op_env : Operator).
Implicit Types mc : ManagementCenter.

(** ** The files of the secret *)

Abbreviation Call := (@Ev hz_effects).
Abbreviation trace := (list (@event hz_effects)).

(** The key store of a cluster: empty when its TLS section names no secret,
    and otherwise made of the certificate and the private key in the secret
    that was read. *)
Definition keystore_made mc (t : trace) (tls : TLS) (ks : string) : Prop :=
  if strb (tls_SecretName tls) "" then keystore_Store None = inl ks
  else exists data cert key now,
    Call (Base (GetSecretData (mc_Namespace mc, tls_SecretName tls))) (Found data) ∈ t
    /\ decodePEM (default "" (data !! "tls.crt")) "CERTIFICATE" = inl cert
    /\ decodePEM (default "" (data !! "tls.key")) "PRIVATE KEY" = inl key
    /\ Call (Base Now) now ∈ t /\ keystore_Store (Some (now : Z, key, cert)) = inl ks.

(** The files hold, for a list of clusters, the configuration of the last
    cluster of each name, and the key store of the last one with TLS; and
    nothing else. *)
Record holds_file mc (t : trace) (l : list HazelcastClusterConfig) (files : gmap string string) : Prop := {
  hf_names name : is_Some (files !! name) <->
    exists c, c ∈ l /\ (name = yaml_file (hcc_Name c) \/ is_Some (hcc_TLS c) /\ name = jks_file (hcc_Name c));
  hf_config l1 c l2 : l = l1 ++ c :: l2 -> Forall (fun c' => hcc_Name c' <> hcc_Name c) l2 ->
    exists text, files !! yaml_file (hcc_Name c) = Some text /\ hazelcastClientConfig c = inl text;
  hf_keystore l1 c l2 tls : l = l1 ++ c :: l2 -> hcc_TLS c = Some tls ->
    Forall (fun c' => hcc_Name c' <> hcc_Name c \/ hcc_TLS c' = None) l2 ->
    exists ks, files !! jks_file (hcc_Name c) = Some ks /\ keystore_made mc t tls ks;
}.

Lemma holds_file_nil mc t : holds_file mc t [] ∅.
Proof.
  constructor; [|by intros [|? ?]..]. intros name. rewrite lookup_empty. split; [by intros [? ?]|]. by intros (c & []%not_elem_of_nil & _).
Qed.
Lemma keystore_made_mono mc t t' tls ks : t ⊆ t' -> keystore_made mc t tls ks -> keystore_made mc t' tls ks.
Proof.
  unfold keystore_made. intros Ht. destruct (strb _ _); [done|]. intros (data & cert & key & now & H1 & H2 & H3 & H4 & H5).
  exists data, cert, key, now. split_and!; [by apply Ht|done|done|by apply Ht|done].
Qed.

(** What the key store of a cluster adds to the files. *)
Definition keystore_added mc t c (files files' : gmap string string) : Prop :=
  match hcc_TLS c with
  | None => files' = files
  | Some tls => exists ks, files' = <[jks_file (hcc_Name c) := ks]> files /\ keystore_made mc t tls ks
  end.

Lemma holds_add_keystore G mc c files h : (forall h c, G h (Base c)) ->
  holds G (add_keystore mc c files) h (fun h' r => match r with inl files' => keystore_added mc h' c files files' | inr _ => True end).
Proof.
  intros HG. unfold add_keystore, keystore_added. destruct (hcc_TLS c) as [tls|]; [|by apply holds_ret].
  eapply (holds_seq _ _ _ _ (fun h' r => match r with inl ks => keystore_made mc h' tls ks | inr _ => True end)).
  2: { intros h' [ks|e] _ Hks; apply holds_ret; [by exists ks|done]. }
  unfold mc_hazelcastKeystore, keystore_made. destruct (strb _ _).
  { apply holds_ret. by destruct (keystore_Store None). }
  unfold mc_loadTLSKeyPair. cbn [pbind]. apply holds_vis; [apply HG|]. intros got h1 Hh1 E1. cbn [pbind].
  destruct (got : fetched (gmap string string)) as [data|e]; [|by apply holds_ret].
  destruct (decodePEM (default "" (data !! "tls.crt")) _) as [cert|e] eqn:Ec; [|by apply holds_ret].
  destruct (decodePEM (default "" (data !! "tls.key")) _) as [key|e] eqn:Ek; [|by apply holds_ret].
  apply holds_vis; [apply HG|]. intros now h2 Hh2 E2. apply holds_ret.
  destruct (keystore_Store (Some (now : Z, key, cert))) as [ks|e] eqn:Es; [|done].
  exists data, cert, key, now. split_and!; [by apply Hh2|done..].
Qed.

(** The last of [l0 ++ \[c\]]. *)
Lemma snoc_split {A} (l0 : list A) c l1 c' l2 : l0 ++ [c] = l1 ++ c' :: l2 ->
  (l1 = l0 /\ c' = c /\ l2 = []) \/ exists l2', l2 = l2' ++ [c] /\ l0 = l1 ++ c' :: l2'.
Proof.
  destruct l2 as [|x l2 _] using rev_ind; [intros [-> ->]%app_inj_tail; by left|].
  rewrite (app_comm_cons l2 [x] c'), (app_assoc l1). intros [-> ->]%app_inj_tail. right. by exists l2.
Qed.

Lemma holds_file_snoc mc t t' l0 files c files1 text :
  holds_file mc t l0 files -> t ⊆ t' -> keystore_added mc t' c files files1 -> hazelcastClientConfig c = inl text ->
  holds_file mc t' (l0 ++ [c]) (<[yaml_file (hcc_Name c) := text]> files1).
Proof.
  intros [Hdom Hcfg Hks] Ht Ha Et. unfold keystore_added in Ha.
  assert (H1 : forall name, is_Some (files1 !! name) <-> is_Some (files !! name) \/ is_Some (hcc_TLS c) /\ name = jks_file (hcc_Name c)).
  { intros name. destruct (hcc_TLS c) as [tls|]; [destruct Ha as (ks & -> & _)|subst files1].
    - rewrite lookup_insert_is_Some. destruct (decide (jks_file (hcc_Name c) = name)) as [<-|Hne]; [split; eauto|].
      split; [intros [?|[_ ?]]; auto; done|]. intros [?|[_ ?]]; [by right|by left].
    - split; [by left|]. intros [?|[[? [=]] _]]. done. }
  constructor.
  - intros name. rewrite lookup_insert_is_Some. setoid_rewrite elem_of_app. setoid_rewrite list_elem_of_singleton. split.
    + intros [<-|[_ [[c' [Hin Hc']]%Hdom|[Hn ->]]%H1]]; [exists c; auto|exists c'; auto|exists c; auto].
    + destruct (decide (yaml_file (hcc_Name c) = name)) as [<-|Hne]; [by left|]. intros (c' & [Hin| ->] & Hc'); right; (split; [done|]); apply H1.
      * left. apply Hdom. by exists c'.
      * destruct Hc' as [->|Hc']; [done|by right].
  - intros l1 c' l2 E Hl2. destruct (decide (hcc_Name c' = hcc_Name c)) as [En|Hne].
    + apply snoc_split in E as [(_ & -> & _)|(l2' & -> & _)]; [exists text; by rewrite lookup_insert_eq|].
      apply Forall_app in Hl2 as [_ Hx%Forall_inv]. by destruct Hx.
    + rewrite lookup_insert_ne by (intros Ey; by apply Hne; apply str_app_inj_r in Ey).
      apply snoc_split in E as [(_ & -> & _)|(l2' & -> & E)]; [done|]. apply Forall_app in Hl2 as [Hl2 _].
      destruct (Hcfg l1 c' l2' E Hl2) as (tx & Hx & Htx). exists tx. split; [|done].
      destruct (hcc_TLS c); [destruct Ha as (ks & -> & _)|by subst files1].
      rewrite lookup_insert_ne; [done|]. intros Ey. symmetry in Ey. by apply yaml_not_jks in Ey.
  - intros l1 c' l2 tls E Htls Hl2. rewrite lookup_insert_ne by apply yaml_not_jks.
    apply snoc_split in E as [(_ & -> & _)|(l2' & -> & E)].
    { rewrite Htls in Ha. destruct Ha as (ks & -> & Hm). exists ks. by rewrite lookup_insert_eq. }
    apply Forall_app in Hl2 as [Hl2 Hx%Forall_inv]. destruct (Hks l1 c' l2' tls E Htls Hl2) as (ks & Hk & Hm).
    exists ks. split; [|by eapply keystore_made_mono]. destruct (hcc_TLS c); [destruct Ha as (ks' & -> & _)|by subst files1].
    destruct Hx as [Hne|[=]]. rewrite lookup_insert_ne; [done|]. intros Ey. apply Hne. by apply str_app_inj_r in Ey.
Qed.

Lemma holds_add_files G mc l0 l files h : (forall h c, G h (Base c)) -> holds_file mc h l0 files ->
  holds G (add_files mc l files) h (fun h' r => match r with inl files' => holds_file mc h' (l0 ++ l) files' | inr _ => True end).
Proof.
  intros HG. revert l0 files h. induction l as [|c l IH]; intros l0 files h Hf; cbn [add_files].
  { apply holds_ret. by rewrite app_nil_r. }
  eapply holds_seq; [by apply holds_add_keystore|]. intros h' [files1|e] Hh Ha; [|by apply holds_ret].
  destruct (hazelcastClientConfig c) as [text|e] eqn:Et; [|by apply holds_ret].
  change (l0 ++ c :: l) with (l0 ++ [c] ++ l). rewrite (app_assoc l0). apply IH. by eapply holds_file_snoc.
Qed.

(** A secret with all that the clusters of the center need, and nothing else:
    under the paths that the init command and the configurations name, the
    configuration of a client of every cluster and, where that has TLS, its
    key store. *)
Definition complete mc (t : trace) (s : Secret) : Prop :=
  exists files, sec_Data s = Some (mkSecretData None None files) /\ holds_file mc t (mc_HazelcastClusters (mc_Spec mc)) files
  /\ forall c, c ∈ mc_HazelcastClusters (mc_Spec mc) -> no_slash (hcc_Name c) = true ->
       (config_file c = "/config/" ++ yaml_file (hcc_Name c))%string /\ is_Some (files !! yaml_file (hcc_Name c))
       /\ (mssl_Enabled (client_ssl c) = true ->
             mssl_Properties (client_ssl c) !! "trustStore" = Some ("/config/" ++ jks_file (hcc_Name c))%string
             /\ is_Some (files !! jks_file (hcc_Name c))).

Lemma holds_file_complete mc t meta files : holds_file mc t (mc_HazelcastClusters (mc_Spec mc)) files ->
  complete mc t (mkSecret meta (Some (mkSecretData None None files))).
Proof.
  intros Hf. exists files. split; [done|]. split; [done|]. destruct Hf as [Hdom _ _]. intros c Hc Hn.
  split; [by apply config_yaml|]. split; [apply Hdom; by exists c; auto|]. unfold client_ssl, has_tls_secret.
  destruct (hcc_TLS c) as [tls|] eqn:Et; [|done]. destruct (strb _ _); [done|]. intros _. split.
  - rewrite config_jks by done. cbn. unfold mc_NewSSLProperties. by destruct (strb _ _).
  - apply Hdom. exists c. split; [done|]. rewrite Et. eauto.
Qed.

Definition secret_guard mc (t : trace) (o : @op hz_effects) : Prop :=
  match o with CreateO KSecret s | UpdateO KSecret s => complete mc t s | _ => True end.

Lemma mc_secret_mutates mc t s0 : mutates (secret_guard mc) KSecret (fun _ _ => True) (fun _ _ _ => True) (fun _ => True) (mutate_mc_secret mc) t tt s0.
Proof.
  unfold mutates, mutate_mc_secret.
  eapply holds_seq; [apply (holds_add_files (secret_guard mc) mc []); [done|apply holds_file_nil]|].
  intros h' [files|err] _ Hf; apply holds_ret; [|done]. split; [done|]. split; [|done].
  pose proof (holds_file_complete mc h' (sec_Meta s0) files Hf). by split.
Qed.

(** C27. Every secret that the controller writes for a Management Center holds
    exactly the files its clusters need.  Of the clusters of one name the last
    counts: there is the configuration of its client and, of the last one with
    TLS, the key store made of the certificate and the private key that were
    read, in this reconciliation, from the secret it names.  When the name has
    no slash, these are the files under the paths that the init command and
    the configuration of the client name. *)
Theorem mc_secret_complete mc t1 (e : @event hz_effects) t2 o s :
  exec (mc_reconcileSecret mc) (t1 ++ e :: t2) o -> ev_op e = CreateO KSecret s \/ ev_op e = UpdateO KSecret s -> complete mc t1 s.
Proof.
  intros He Ho. assert (holds (secret_guard mc) (mc_reconcileSecret mc) [] (fun _ _ => True)) as Hh.
  { unfold mc_reconcileSecret, with_owner. destruct (SetControllerReference _ _) as [os|err]; [|by apply holds_ret].
    eapply (holds_seq _ _ _ _ (fun _ _ => True)); [|intros t r _ _; by apply holds_ret].
    apply (holds_Force_with _ KSecret (fun _ _ => True) (fun _ _ _ => True) (fun _ => True)); try done.
    intros t' [] s0 _ _. apply mc_secret_mutates. }
  apply (holds_call _ _ _ _ _ _ _ Hh) in He. by destruct Ho as [E|E]; rewrite E in He.
Qed.

(** ** The volumes of the pod *)

Definition mc_well_formed (s : StatefulSet) : Prop := Forall (mounted s) (pt_Containers (sts_Template s)).

Lemma new_mc_well_formed mc m s : new_mc_statefulset op_env mc m = Ret s -> mc_well_formed s.
Proof.
  unfold new_mc_statefulset, mc_storage. destruct (mc_Persistence _) as [pc|]; [|done]. cbn [deref bind_res].
  assert (Hgoal : forall claims vols, n_MancenterStorageName ∈ (v_Name <$> vols) ++ (pvc_Name <$> claims) ->
    mc_well_formed (mkStatefulSet m (Some (mc_selectorLabels mc)) "" "" (Some 1) (mc_template op_env mc vols) claims 0 0 0 0 0)).
  { intros claims vols Hd. apply Forall_singleton. intros v Hv. unfold volume_names.
    cbn [sts_Template mc_template pt_Volumes sts_VolumeClaimTemplates]. rewrite fmap_app, !elem_of_app in *.
    cbn in Hv. rewrite !elem_of_cons, elem_of_nil in Hv. destruct Hv as [->|[->|[->|[]]]]; cbn [vm_Name];
      [tauto|left; right; by left|left; right; by right; left]. }
  destruct (MCPersistence_IsEnabled _); [destruct (strb _ _)|].
  - unfold mc_persistentVolumeClaim. destruct (mcp_Size pc) as [q|]; [|done]. cbn [deref bind_res]. intros [= <-].
    apply Hgoal. by left.
  - intros [= <-]. apply Hgoal. by left.
  - intros [= <-]. apply Hgoal. by left.
Qed.
Lemma update_mc_container_mounts mc c t c' : exec (update_mc_container op_env mc c) t (Returned c') ->
  ct_VolumeMounts c' = ct_VolumeMounts c.
Proof.
  unfold update_mc_container. intros H. exec_step H. destruct (set_pb_Path _ _); cbn in H; [|by destruct H as [_ [=]]..].
  by destruct H as [_ [= ->]].
Qed.
Lemma mutate_mc_well_formed mc s t u s' : exec (mutate_mc_statefulset op_env mc tt s) t (Returned (u, s', None)) ->
  mc_well_formed s -> mc_well_formed s'.
Proof.
  unfold mutate_mc_statefulset, mc_well_formed. destruct (pt_Containers (sts_Template s)) as [|c cs]; [by intros [_ [=]]|].
  intros H [Hc Hcs]%Forall_cons. exec_step H. apply update_mc_container_mounts in He. destruct H as [_ [= -> ->]].
  unfold update_mc_template. destruct (mc_Scheduling _); cbn [sts_Template pt_Containers]; apply Forall_cons;
    (split; [intros v; rewrite He; apply Hc|exact Hcs]).
Qed.

(** The pods of a Management Center are well formed: every volume that a
    container mounts is a volume of the pod or a claim of the stateful set,
    when the stateful set is created and after every update. *)
Theorem mc_pods_well_formed mc :
  (forall m s, new_mc_statefulset op_env mc m = Ret s -> mc_well_formed s)
  /\ (forall s t u s', exec (mutate_mc_statefulset op_env mc tt s) t (Returned (u, s', None)) -> mc_well_formed s -> mc_well_formed s').
Proof. split; [intros m s; apply new_mc_well_formed|intros s t u s'; apply mutate_mc_well_formed]. Qed.

(** ** What cannot be updated *)

(** Two specifications that the validator cannot tell apart have the same
    storage of data. *)
Definition same_storage (p q : MCPersistenceConfiguration) : Prop :=
  default false (mcp_Enabled p) = default false (mcp_Enabled q) /\ mcp_ExistingVolumeClaimName p = mcp_ExistingVolumeClaimName q
  /\ DeepEqual_ptr Quantity_DeepEqual (mcp_Size p) (mcp_Size q) = true.

(** C32. After the first success, the persistence of a Management Center is
    accepted exactly when its storage is the one of the specification that
    was recorded and neither of the two names a storage class: a center with a
    storage class is rejected whatever is asked for, also when nothing has
    changed. *)
Theorem mc_storage_class_locked c openshift mc last parsed p q
    (Ha : mc_Annotations mc !! n_LastSuccessfulSpecAnnotation = Some last) (Hp : McSpec_Unmarshal last = inl parsed)
    (Hcur : mc_Persistence (mc_Spec mc) = Some p) (Hlast : mc_Persistence parsed = Some q)
    (Hv : exists es, mc_validateSpecCurrent c openshift mc = Ret es) :
  ValidateManagementCenterSpec c openshift mc = Ret None <->
  mc_validateSpecCurrent c openshift mc = Ret [] /\ same_storage p q /\ mcp_StorageClass p = None /\ mcp_StorageClass q = None.
Proof.
  destruct Hv as [es Hes]. unfold ValidateManagementCenterSpec. rewrite Hes. cbn [bind_res].
  assert (He : mc_validateSpecUpdate mc = [] <-> same_storage p q /\ mcp_StorageClass p = None /\ mcp_StorageClass q = None).
  { unfold mc_validateSpecUpdate. rewrite Ha, Hp, Hcur, Hlast. unfold ValidateNotUpdatableMcPersistenceFields, same_storage, pointers_differ.
    cbn [MCPersistence_IsEnabled]. destruct (Bool.eqb _ _) eqn:E1.
    2: { apply eqb_false_iff in E1. split; [done|]. by intros [[? _] _]. }
    unfold strb. case_bool_decide as E2; [|split; [done|by intros [[_ [? _]] _]]].
    destruct (mcp_StorageClass p); cbn [is_nil andb negb]; [by split; [|intros (_ & [=] & _)]|].
    destruct (mcp_StorageClass q); cbn [is_nil andb negb]; [by split; [|intros (_ & _ & [=])]|].
    destruct (DeepEqual_ptr _ _ _); [|split; [done|by intros [[_ [_ [=]]] _]]]. split; [|done]. apply Bool.eqb_prop in E1. intros _. repeat split; done. }
  split.
  - intros [= Hn%Err_None]. apply app_eq_nil in Hn as [-> Hu]. split; [done|]. by apply He.
  - intros [[= ->] Hs]. apply He in Hs as ->. done.
Qed.

(** [Default] makes a nil pointer of an empty external connectivity, and the
    validator dereferences it. *)
Theorem mc_nil_connectivity_panics c openshift mc :
  mc_ExternalConnectivity (mc_Spec mc) = Some (mkExternalConnectivityConfiguration "" None None) ->
  ValidateManagementCenterSpec c openshift (mc_Default mc) = Panic.
Proof. intros E. unfold ValidateManagementCenterSpec, mc_validateSpecCurrent, mc_Default. cbn. by rewrite E. Qed.

(** ** The commands that configure the center *)

(** The security of a center is reset, and its LDAP provider configured,
    only as long as the center is not configured: afterwards its pod can be
    restarted without losing anything, and the secret with the credentials is
    not read. *)
Theorem mc_configured_once mc t cmd : exec (buildMcInitCmd mc) t (Returned cmd) ->
  if mcs_Configured (mc_Status mc) then t = [] /\ cmd = clusterAddCommand mc
  else match ldap_of mc with
       | None => t = [] /\ cmd = clusterAddCommand mc
       | Some ldap => exists got, t = [@Ev hz_effects (Base (GetSecretData (mc_Namespace mc, ldap_CredentialsSecretName ldap))) got]
           /\ let data := match (got : fetched (gmap string string)) with Found d => d | Failed _ => ∅ end in
              cmd = String.concat " && " ((if strb (clusterAddCommand mc) "" then [] else [clusterAddCommand mc]) ++
                      ["./bin/hz-mc conf security reset -H /data";
                       ldap_command ldap (default "" (data !! "username")) (default "" (data !! "password"))])
       end.
Proof.
  assert (Hone : String.concat " && " (if strb (clusterAddCommand mc) "" then [] else [clusterAddCommand mc]) = clusterAddCommand mc).
  { unfold strb. case_bool_decide as E; [by rewrite E|done]. }
  unfold buildMcInitCmd. destruct (ldap_of mc) as [ldap|]; cbv zeta.
  - destruct (mcs_Configured _); [intros [-> [= ->]]; by rewrite Hone|]. intros H. exec_step H.
    unfold ldapConfigure in He. destruct He as (x & t' & -> & [-> [= ->]]). destruct H as [-> [= ->]]. by exists x.
  - intros [-> [= ->]]. rewrite Hone. by destruct (mcs_Configured _).
Qed.
End McProps.
