(* ===== verification/McFacts.v ===== *)
(** * What the Management Center controller does, and when

    Every call of a reconciliation is justified by the calls before it: [G]
    collects the justifications, [holds_mc_Reconcile] shows that
    [mc_Reconcile] keeps to them.  The statuses it stores are the steps of a
    state machine ([status_step]). *)

From S2P Require Import Prelude Eff FieldValidation GoPath GoNet HazelcastTypes DataStructureTypes HazelcastValidation ConfigTypes Proto CodecTypes DataStructureConfig HazelcastConfig JetJobValidation Kube ConfigSecret HzTypes HzObjects HzStatefulSet McTypes HzKube HzServices HzSecrets HzStatus HzLogic McController McProps HazelcastValidationFacts HazelcastConfigFacts HzStatefulSetFacts HzReconcileFacts.
#[local] Open Scope prog_scope.
#[local] Open Scope string_scope.
#[local] Open Scope list_scope.
#[local] Open Scope Z_scope.

Section McFacts.
Context `{P : Proto} `{QL : QuantityLib} `{Y : YamlLib} `{PT : PodTypes} `{KE : KErrors} `{HS : HzSecretLib} `{SL : SelectorLib}.
Context `{MJ : !McJson} `{MY : McYaml} `{PL : PrintLib} `{CU : !ControllerUtil}.
Context (op_env : Operator) (nn : Kube.NamespacedName).
Implicit Types mc : ManagementCenter.
Abbreviation trace := (list (@event hz_effects)).
Abbreviation Call := (@Ev hz_effects).
Implicit Types t : trace.

(** ** The resource a reconciliation works on *)

Definition mc_read t mc0 : Prop := Call (GetMC nn) (Found mc0) ∈ t.
(** The resource that was read, with its finalizer and the defaults. *)
Record mc_derived mc0 mc : Prop := {
  md_key : mc_key mc = mc_key mc0;
  md_spec : mc_Spec mc = mc_Spec (mc_Default mc0);
  md_status : mc_Status mc = mc_Status mc0;
  md_annotations : mc_Annotations mc = mc_Annotations mc0;
  md_finalizer : n_Finalizer ∈ mc_Finalizers mc;
}.
Record mc_live t mc0 mc : Prop := {
  ml_read : mc_read t mc0;
  ml_deleting : mc_Deleting mc0 = false;
  ml_derived : mc_derived mc0 mc;
}.
Definition mc_validated t mc0 : Prop :=
  mc_read t mc0 /\ mc_Deleting mc0 = false
  /\ exists c mcv, Call Observe c ∈ t /\ mc_derived mc0 mcv /\ ValidateManagementCenterSpec c (op_OpenShift op_env) mcv = Ret None.
Definition mc_ready t : Prop := exists sts, Call (GetO KStatefulSet nn) (Found sts) ∈ t /\ rolled_out sts 1.

(** It is not there, or not rolled out. *)
Definition mc_waits t : Prop :=
  (exists e, Call (GetO KStatefulSet nn) (Failed e) ∈ t /\ IsNotFound e = true)
  \/ exists sts, Call (GetO KStatefulSet nn) (Found sts) ∈ t /\ ~ rolled_out sts 1.

(** ** The statuses *)

(** From the status that was read to the one that is stored: its phase, and
    whether the center is configured. *)
Inductive status_step t mc0 : string -> bool -> Prop :=
| step_failed : status_step t mc0 McFailed (mcs_Configured (mc_Status mc0))
| step_reconfigure : mc_validated t mc0 -> mcs_Configured (mc_Status mc0) = true -> status_step t mc0 McPending false
| step_wait : mc_validated t mc0 -> mc_waits t -> mc_phase mc0 <> McConfiguring ->
    status_step t mc0 McPending (mcs_Configured (mc_Status mc0))
| step_wait_configuring : mc_validated t mc0 -> mc_waits t -> mc_phase mc0 = McConfiguring ->
    status_step t mc0 McConfiguring (mcs_Configured (mc_Status mc0))
| step_configured : mc_validated t mc0 -> mc_ready t -> is_Some (ldap_of mc0) -> mc_phase mc0 = McPending ->
    status_step t mc0 McConfiguring true
| step_running : mc_validated t mc0 -> mc_ready t -> ldap_of mc0 = None \/ mc_phase mc0 <> McPending ->
    status_step t mc0 McRunning (mcs_Configured (mc_Status mc0)).
Definition status_ok t mc : Prop :=
  (exists mc0, mc_read t mc0 /\ status_step t mc0 (mc_phase mc) (mcs_Configured (mc_Status mc)))
  \/ mc_phase mc = McFailed /\ exists e, Call (GetMC nn) (Failed e) ∈ t.

(** An ingress or a route that is not asked for. *)
Definition unused (k : okind) : oobj k -> ManagementCenter -> Prop :=
  match k with
  | KIngress => fun o mc0 => om_key (ing_Meta o) = mc_key mc0
      /\ exists ec, mc_ExternalConnectivity (mc_Spec (mc_Default mc0)) = Some ec /\ ec_Ingress ec = None
  | KRoute => fun o mc0 => om_key (rt_Meta o) = mc_key mc0 /\ op_OpenShift op_env = true
      /\ exists ec, mc_ExternalConnectivity (mc_Spec (mc_Default mc0)) = Some ec /\ ec_Route ec = None
  | _ => fun _ _ => False
  end.

(** ** The guard *)

Definition G t (c : @op hz_effects) : Prop :=
  match c with
  | CreateO k o | UpdateO k o => exists mc0, mc_validated t mc0
  | DeleteO k o => exists mc0, mc_validated t mc0 /\ (k = KSecret \/ invalid_answer k t \/ unused k o mc0)
  | UpdateMC mc => n_Finalizer ∈ mc_Finalizers mc \/ exists mc0, mc_read t mc0 /\ mc_Deleting mc0 = true /\ mc_key mc = mc_key mc0
  | StatusUpdateMC mc => status_ok t mc
  | _ => True
  end.
Definition quiet (c : hz_op) : bool :=
  match c with CreateO _ _ | UpdateO _ _ | DeleteO _ _ | UpdateMC _ | StatusUpdateMC _ => false | _ => true end.
Lemma mc_quiet t (c : hz_op) : quiet c = true -> G t c.
Proof. by destruct c. Qed.

Lemma mc_validated_mono t t' mc0 : t ⊆ t' -> mc_validated t mc0 -> mc_validated t' mc0.
Proof.
  intros Ht (Hr & Hd & c & mcv & Hc & Hv). split; [by apply Ht|]. split; [done|]. exists c, mcv. split; [by apply Ht|done].
Qed.
Lemma mc_live_mono t t' mc0 mc : t ⊆ t' -> mc_live t mc0 mc -> mc_live t' mc0 mc.
Proof. intros Ht []. constructor; [by apply Ht|done..]. Qed.

Abbreviation runs p t := (holds G p t (fun _ _ => True)).

Lemma mc_vis {A} (c : hz_op) (k : hz_ans c -> hprog A) t Q :
  quiet c = true -> (forall x t', t ⊆ t' -> Call c x ∈ t' -> holds G (k x) t' Q) -> holds G (Vis (c : @op hz_effects) k) t Q.
Proof. intros Hc Hk. apply holds_vis; [by apply mc_quiet|exact Hk]. Qed.
Lemma mc_any {A B} (p : hprog A) (f : A -> hprog B) t Q :
  runs p t -> (forall t' a, t ⊆ t' -> holds G (f a) t' Q) -> holds G (pbind p f) t Q.
Proof. intros Hp Hf. eapply holds_seq; [exact Hp|]. intros t' a Ht _. by apply Hf. Qed.
Lemma mc_ret {A} (a : A) t : runs (Done a) t.
Proof. by apply holds_ret. Qed.
Lemma mc_lift {A} (r : res A) t : runs (lift r) t.
Proof. by apply holds_lift. Qed.

(** ** The status *)

Lemma runs_mc_update mc o options t :
  status_ok t (set_mc_Status mc (foldl (fun ms (f : McStatusApplier) => f ms) (mc_Status mc) options)) -> runs (mc_update mc o options) t.
Proof.
  intros Hs. unfold mc_update. apply holds_vis; [exact Hs|]. intros [e|] t' _ _; [apply mc_ret|].
  destruct (ro_Err o); [apply mc_ret|]. destruct (strb _ _); apply mc_ret.
Qed.
Lemma runs_mc_failed_as what mc0 mc e t : mc_read t mc0 -> mc_Status mc = mc_Status mc0 -> runs (mc_failed_as what mc e) t.
Proof.
  intros Hr Hs. apply runs_mc_update. left. exists mc0. split; [done|].
  unfold mc_phase. cbn. rewrite Hs. apply step_failed.
Qed.

(** ** The objects *)

Section Objects.
Context (mc0 mc : ManagementCenter).
Definition mc_on t : Prop := mc_live t mc0 mc /\ mc_validated t mc0.
Lemma mc_on_mono t t' : t ⊆ t' -> mc_on t -> mc_on t'.
Proof. intros Ht [Hl Hv]. split; [by eapply mc_live_mono|by eapply mc_validated_mono]. Qed.

Lemma mc_on_validated t t' : t ⊆ t' -> mc_on t -> mc_validated t' mc0.
Proof. intros Ht [_ Hv]. by eapply mc_validated_mono. Qed.

Lemma runs_mc_Force k (f : unit -> oobj k -> hprog (unit * oobj k * option error)) o t : mc_on t ->
  (forall s o t', t ⊆ t' -> holds G (f s o) t' (fun _ r => k <> KSecret -> r.2 = None)) ->
  runs (util_CreateOrUpdateForce k f tt o) t.
Proof.
  intros Hon Hf.
  apply (holds_Force_with G k (fun _ _ => True) (fun _ _ _ => True) (fun _ => k = KSecret)); try done.
  - intros t' o' e Ht He Hi. exists mc0. split; [by eapply mc_on_validated|]. destruct He as [->|He]; [by left|]. right; left. by apply He.
  - intros t' s' o1 Ht _. eapply holds_mono; [by apply Hf|]. intros t2 [[s2 o2] [e|]] Ht2 Hr; cbn in *.
    + split; [done|]. destruct (decide (k = KSecret)); [done|]. by discriminate Hr.
    + split; [done|]. split; [|done]. assert (mc_validated t2 mc0) by (eapply mc_on_validated, Hon; by etrans).
      split; by exists mc0.
Qed.
Lemma runs_mc_force k (f : oobj k -> res (oobj k)) o t : mc_on t -> runs (force f o) t.
Proof.
  intros Hon. apply mc_any; [|intros t' r _; apply mc_ret]. apply runs_mc_Force; [done|]. intros s o1 t' Ht.
  unfold pure_mutate. apply mc_any; [apply mc_lift|]. intros t2 o2 _. by apply holds_ret.
Qed.
Lemma runs_mc_owner what owner m kk t : (forall m', runs (kk m') t) -> runs (with_owner what owner m kk) t.
Proof. intros Hk. unfold with_owner. destruct (SetControllerReference _ _); [apply Hk|apply mc_ret]. Qed.
Lemma runs_delete_unused k (o : oobj k) t : mc_on t -> unused k o mc0 -> runs (delete_unused k o) t.
Proof.
  intros Hon Hu. apply holds_vis; [|intros [e|] t' _ _; apply mc_ret]. exists mc0. split; [apply Hon|]. by right; right.
Qed.

Lemma mc_on_key t : mc_on t -> mc_key mc = mc_key mc0.
Proof. intros [[_ _ []] _]. done. Qed.
Lemma mc_on_spec t : mc_on t -> mc_Spec mc = mc_Spec (mc_Default mc0).
Proof. intros [[_ _ []] _]. done. Qed.

Lemma runs_mc_env t : runs (mc_env op_env mc) t.
Proof.
  unfold mc_env. apply mc_any; [|intros t' r _; apply mc_ret]. unfold buildMcInitCmd. destruct (ldap_of mc) as [ldap|]; [|apply mc_ret].
  destruct (mcs_Configured _); [apply mc_ret|]. apply mc_any; [|intros t' r _; apply mc_ret]. unfold ldapConfigure.
  apply mc_vis; [done|]. intros x t' _ _. apply mc_ret.
Qed.

Lemma runs_mc_objects p t : mc_on t ->
  p ∈ [mc_reconcileService mc; reconcileIngress mc; reconcileRoute op_env mc; mc_reconcileSecret mc] -> runs p t.
Proof.
  intros Hon. rewrite !elem_of_cons, elem_of_nil. intros [->|[->|[->|[->|[]]]]].
  - apply runs_mc_owner. intros m. by apply runs_mc_force.
  - unfold reconcileIngress. destruct (mc_ExternalConnectivity _) as [ec|] eqn:Ee; cbn [deref lift pbind]; [|apply holds_crash].
    destruct (ec_Ingress ec) as [i|] eqn:Ei; [apply runs_mc_owner; intros m; by apply runs_mc_force|].
    apply runs_delete_unused; [done|]. split; [exact (mc_on_key t Hon)|]. exists ec. by rewrite <-(mc_on_spec t Hon).
  - unfold reconcileRoute. destruct (op_OpenShift op_env) eqn:Eo; cbn [negb]; [|apply mc_ret].
    destruct (mc_ExternalConnectivity _) as [ec|] eqn:Ee; cbn [deref lift pbind]; [|apply holds_crash].
    destruct (ec_Route ec) as [i|] eqn:Ei; [apply runs_mc_owner; intros m; by apply runs_mc_force|].
    apply runs_delete_unused; [done|]. split; [exact (mc_on_key t Hon)|]. split; [done|]. exists ec. by rewrite <-(mc_on_spec t Hon).
  - apply runs_mc_owner. intros m. apply mc_any; [|intros t' r _; apply mc_ret]. apply runs_mc_Force; [done|].
    intros s o t' Ht. unfold mutate_mc_secret. apply mc_any; [eapply holds_mono; [by apply (holds_add_files _ _ []), holds_file_nil|done]|]. intros t2 [files|e] _; by apply holds_ret.
Qed.
Lemma runs_mc_statefulset t : mc_on t -> runs (mc_reconcileStatefulset op_env mc) t.
Proof.
  intros Hon. apply runs_mc_owner. intros m. apply mc_any; [apply mc_lift|]. intros t1 sts Ht1.
  apply mc_any; [|intros t' r _; apply mc_ret]. apply runs_mc_Force; [by eapply mc_on_mono|]. intros s o t' Ht. unfold mutate_mc_statefulset.
  destruct (pt_Containers _) as [|c cs]; [apply holds_crash|]. apply mc_any; [|intros t2 r _; by apply holds_ret].
  unfold update_mc_container. apply mc_any; [apply runs_mc_env|]. intros t2 envs _. apply mc_any; [apply mc_lift|].
  intros t3 l _. apply mc_ret.
Qed.
Lemma runs_mc_each l t : mc_on t -> (forall p t', p ∈ l -> mc_on t' -> runs p t') -> runs (each id l) t.
Proof.
  revert t. induction l as [|p l IH]; intros t Hon Hl; cbn [each]; [apply mc_ret|].
  apply mc_any; [apply Hl; [by left|done]|]. intros t' [e|] Ht; [apply mc_ret|].
  apply IH; [by eapply mc_on_mono|]. intros q t2 Hq. apply Hl. by right.
Qed.
End Objects.

(** ** Reconcile *)

Lemma status_stored mc0 mc t (f : McStatusApplier) o l phase configured :
  mc_read t mc0 -> mc_Status mc = mc_Status mc0 ->
  mcs_Phase (foldl (fun ms (f : McStatusApplier) => f ms) (mc_Status mc0) (f :: l)) = phase ->
  mcs_Configured (foldl (fun ms (f : McStatusApplier) => f ms) (mc_Status mc0) (f :: l)) = configured ->
  status_step t mc0 phase configured -> runs (mc_update mc o (f :: l)) t.
Proof.
  intros Hr Hs Hp Hc Hstep. apply runs_mc_update. left. exists mc0. split; [done|]. unfold mc_phase. cbn -[foldl]. by rewrite Hs, Hp, Hc.
Qed.

Section Running.
Context (mc0 : ManagementCenter).

Lemma ldap_derived mc : mc_derived mc0 mc -> ldap_of mc = ldap_of mc0.
Proof. intros [_ Hs _ _ _]. unfold ldap_of. by rewrite Hs. Qed.

Lemma runs_mc_wait mc t : mc_live t mc0 mc -> mc_validated t mc0 -> mc_waits t -> runs (mc_wait mc) t.
Proof.
  intros [Hr _ [_ _ Hs _ _]] Hv Hw. unfold mc_wait, mc_phase. rewrite Hs. eapply status_stored; [done|done| |done|].
  - cbn. reflexivity.
  - unfold strb. case_bool_decide; [by apply step_wait_configuring|by apply step_wait].
Qed.

Lemma runs_mc_failed mc e t : mc_live t mc0 mc -> runs (mc_failed mc e) t.
Proof. intros [Hr _ [_ _ Hs _ _]]. by eapply runs_mc_failed_as. Qed.

Lemma runs_mc_success mc t : mc_live t mc0 mc -> mc_validated t mc0 -> mc_ready t -> runs (mc_reconcile_success op_env mc) t.
Proof.
  intros Hl Hv Hready. unfold mc_reconcile_success. apply mc_any.
  { destruct (_ && _); [|apply mc_ret]. unfold call. apply mc_vis; [done|]. intros x t1 _ _. apply mc_ret. }
  intros t1 _ Ht1. eapply (holds_seq _ _ _ _ (fun _ r => mc_Status r.1 = mc_Status mc0 /\ mc_Spec r.1 = mc_Spec mc)).
  { unfold mc_updateLastSuccessfulConfiguration. case_decide; [apply holds_ret; split; [apply Hl|done]|].
    apply holds_vis; [left; apply Hl|]. intros err t2 _ _. apply holds_ret. split; [apply Hl|done]. }
  intros t2 [mc' err] Ht2 [Es Esp]; cbn [fst] in *. apply mc_any.
  { unfold GetExternalAddressesForMC. destruct (negb _); [apply mc_ret|]. apply mc_vis; [done|]. intros x t3 _ _. apply mc_ret. }
  intros t3 addrs Ht3. apply mc_any.
  { unfold enrichPublicAddresses. apply mc_any; [apply mc_lift|]. intros t4 ec _. destruct (ec_Route ec); [|apply mc_ret].
    apply mc_vis; [done|]. intros x t5 _ _. apply mc_ret. }
  intros t4 enriched Ht4. assert (Ht : t ⊆ t4) by hist_sub.
  assert (Hv4 : mc_validated t4 mc0) by by eapply mc_validated_mono.
  assert (Hr4 : mc_ready t4) by (destruct Hready as (sts & Hin & Hok); exists sts; split; [by apply Ht|done]).
  assert (Hm4 : mc_read t4 mc0) by apply Hv4.
  assert (ldap_of mc' = ldap_of mc0) as El by (rewrite <-(ldap_derived mc) by apply Hl; unfold ldap_of; by rewrite Esp).
  unfold mc_phase. rewrite El, Es. unfold strb, is_set.
  destruct (ldap_of mc0) as [ldap|] eqn:Eld; cbn [is_nil negb andb]; [case_bool_decide as Hp|].
  - eapply status_stored; [done|done|done|done|]. apply step_configured; [done|done|by rewrite Eld|done].
  - eapply status_stored; [done|done|done|done|]. apply step_running; [done|done|by right].
  - eapply status_stored; [done|done|done|done|]. apply step_running; [done|done|by left].
Qed.

Lemma runs_mc_running mc t : mc_live t mc0 mc -> mc_validated t mc0 -> runs (mc_reconcile_running op_env nn mc) t.
Proof.
  intros Hl Hv. unfold mc_reconcile_running. apply mc_vis; [done|]. intros [sts|e] t1 Ht1 E1.
  2: { destruct (IsNotFound e) eqn:En; [apply runs_mc_wait; [..|left; by exists e]|eapply runs_mc_failed];
       by eauto using mc_live_mono, mc_validated_mono. }
  eapply (holds_seq _ _ _ _ (fun t' r => if r.1 : bool then mc_ready t' else mc_waits t')).
  { unfold CheckIfRunning. destruct (isStatefulSetReady sts 1) eqn:Er.
    - apply holds_ret. apply isStatefulSetReady_iff in Er. by exists sts.
    - apply mc_any; [|intros t2 err Ht2; apply holds_ret; right; exists sts; split; [by apply Ht2|]].
      2: { intros Hro%isStatefulSetReady_iff. congruence. }
      unfold checkPodsForFailure.
      apply mc_vis; [done|]. intros [l|e] t2 _ _; apply mc_ret. }
  intros t2 [ok err] Ht2 Hok; cbn [fst] in *. assert (Ht : t ⊆ t2) by hist_sub.
  assert (Hl2 : mc_live t2 mc0 mc) by by eapply mc_live_mono.
  assert (Hv2 : mc_validated t2 mc0) by by eapply mc_validated_mono.
  destruct ok; [by apply runs_mc_success|].
  destruct (strb _ _); [by apply runs_mc_wait|]. destruct err; [by apply runs_mc_failed|by apply runs_mc_wait].
Qed.

Lemma isMCReconfigured_configured mc : isMCReconfigured mc = true -> mcs_Configured (mc_Status mc) = true.
Proof.
  unfold isMCReconfigured. destruct (_ !! _); [|done]. destruct (McSpec_Unmarshal _); [|done]. by intros [_ ?]%andb_true_iff.
Qed.
Lemma runs_mc_workload mc t : mc_live t mc0 mc -> mc_validated t mc0 -> runs (mc_reconcile_workload op_env nn mc) t.
Proof.
  intros Hl Hv. unfold mc_reconcile_workload. destruct (isMCReconfigured mc) eqn:Er.
  - apply isMCReconfigured_configured in Er. destruct Hl as [Hr _ [_ _ Hs _ _]]. rewrite Hs in Er.
    eapply status_stored; [done|done|done|done|]. by apply step_reconfigure.
  - apply mc_any; [by apply (runs_mc_statefulset mc0)|]. intros t1 [e|] Ht1.
    + destruct (IsConflict e); [apply mc_ret|]. eapply runs_mc_failed, mc_live_mono; done.
    + apply runs_mc_running; [by eapply mc_live_mono|by eapply mc_validated_mono].
Qed.

Lemma runs_mc_validated mc t : mc_live t mc0 mc -> runs (mc_reconcile_validated op_env nn mc) t.
Proof.
  intros Hl. unfold mc_reconcile_validated. apply mc_vis; [done|]. intros c t1 Ht1 E1. assert (Hl1 := mc_live_mono _ _ _ _ Ht1 Hl).
  eapply holds_seq.
  { apply (holds_lift _ _ _ (fun t' r => t' = t1 /\ ValidateManagementCenterSpec c (op_OpenShift op_env) mc = Ret r)). by intros r Er. }
  intros t2 [e|] _ [-> Hval]; [by eapply runs_mc_failed|].
  assert (Hv : mc_validated t1 mc0) by (split; [apply Hl1|]; split; [apply Hl1|]; exists c, mc; split; [done|]; split; [apply Hl1|done]).
  apply mc_any.
  { apply (runs_mc_each mc0 mc); [by split|]. intros p t' Hp Hon. by eapply runs_mc_objects. }
  intros t2 [e|] Ht2; [eapply runs_mc_failed, mc_live_mono; done|].
  apply runs_mc_workload; [by eapply mc_live_mono|by eapply mc_validated_mono].
Qed.
End Running.

Lemma mc_derived_Default mc0 mc : mc_key mc = mc_key mc0 -> mc_Spec mc = mc_Spec mc0 -> mc_Status mc = mc_Status mc0 ->
  mc_Annotations mc = mc_Annotations mc0 -> n_Finalizer ∈ mc_Finalizers mc -> mc_derived mc0 (mc_Default mc).
Proof. intros Hk Hs Hst Ha Hf. constructor; try done. unfold mc_Default. cbn. by rewrite Hs. Qed.

Lemma holds_mc_Reconcile : runs (mc_Reconcile op_env nn) [].
Proof.
  unfold mc_Reconcile. apply mc_vis; [done|]. intros [mc0|e] t1 _ E1.
  2: { destruct (IsNotFound e); [apply mc_ret|]. apply runs_mc_update. right. split; [done|by exists e]. }
  eapply (holds_seq _ _ _ _ (fun t' r => mc_read t' mc0 /\ mc_Spec r.1 = mc_Spec mc0 /\ mc_Status r.1 = mc_Status mc0
     /\ mc_key r.1 = mc_key mc0 /\ mc_Annotations r.1 = mc_Annotations mc0 /\ mc_Deleting r.1 = mc_Deleting mc0
     /\ (mc_Deleting mc0 = false -> n_Finalizer ∈ mc_Finalizers r.1))).
  { unfold mc_AddFinalizer. destruct (negb _ && _) eqn:E.
    - apply holds_vis; [left; cbn; set_solver|]. intros e t2 Ht2 _. apply holds_ret. split_and!; try done; [by apply Ht2|].
      intros _. cbn. set_solver.
    - apply holds_ret. split_and!; try done. intros Hd. cbn in Hd. rewrite Hd, andb_true_r in E.
      by apply negb_false_iff, bool_decide_eq_true in E. }
  intros t2 [mc [e|]] _ (Hr & Hsp & Hst & Hk & Ha & Hd & Hf); cbn [fst] in *; [by eapply runs_mc_failed_as|].
  rewrite Hd. destruct (mc_Deleting mc0) eqn:Ed.
  - unfold mc_reconcile_deleted. eapply (holds_seq _ _ _ _ (fun _ r => mc_Status r.1 = mc_Status mc0)).
    + unfold mc_executeFinalizer. destruct (negb _); [by apply holds_ret|]. apply holds_vis; [right; by exists mc0|].
      intros err t3 Ht3 _. by apply holds_ret.
    + intros t3 [mc' [e|]] Ht3 Hst3; [|apply mc_ret]. eapply runs_mc_failed_as; [by apply Ht3|done].
  - unfold mc_reconcile_live, mc_mutate. cbn [snd fst]. apply (runs_mc_validated mc0). constructor; [done|done|].
    apply mc_derived_Default; auto.
Qed.

Lemma mc_reconcile_call t1 (e : @event hz_effects) t2 o : exec (mc_Reconcile op_env nn) (t1 ++ e :: t2) o -> G t1 (ev_op e).
Proof. apply holds_call with (Q := fun _ _ => True). exact holds_mc_Reconcile. Qed.

(** ** The theorems *)

(** C14. Whatever the API server answers, the statuses the controller stores are
    steps of a state machine.  Every phase but Failed needs a specification
    found valid in this reconciliation.  Running needs a stateful set that is
    rolled out, and that the center has no LDAP provider or was not Pending.
    Configuring is entered, and the center becomes configured, only from
    Pending, with an LDAP provider and a stateful set that is rolled out; it
    is kept while the stateful set is not there or not rolled out, when any
    other phase becomes Pending.  Pending is stored too when a configured
    center has to be configured again, which is the only way it stops being
    so. *)
Theorem mc_status_steps t1 mc x t2 o :
  exec (mc_Reconcile op_env nn) (t1 ++ Call (StatusUpdateMC mc) x :: t2) o -> status_ok t1 mc.
Proof. intros He. exact (mc_reconcile_call _ _ _ _ He). Qed.

(** Nothing is created, updated or deleted for a Management Center that is
    being deleted or whose specification was not found valid; and an object is
    deleted only if it is an ingress or a route that is not asked for, the
    secret, or of a kind the server rejected an object of as invalid. *)
Theorem mc_writes_justified t1 (e : @event hz_effects) t2 o :
  exec (mc_Reconcile op_env nn) (t1 ++ e :: t2) o ->
  match ev_op e : hz_op with
  | CreateO _ _ | UpdateO _ _ => exists mc0, mc_validated t1 mc0
  | DeleteO k obj => exists mc0, mc_validated t1 mc0 /\ (k = KSecret \/ invalid_answer k t1 \/ unused k obj mc0)
  | _ => True
  end.
Proof. intros He. apply mc_reconcile_call in He. by destruct (ev_op e). Qed.
End McFacts.

(** * Concrete runs of the Management Center controller

    A Management Center with two clusters, one with TLS, and an LDAP
    provider, for which the hypotheses of the theorems of McProps.v and
    McFacts.v hold. *)

Module McRuns.
Import RefProto HzRuns QuoteRuns.
#[local] Existing Instances RefProto.ref CustomRuns.tree1 HzRuns.secret_lib1 HzRuns.controller_util1 QuoteRuns.print_all.

Definition ldap1 : LDAPProvider :=
  mkLDAPProvider "ldap://ldap:389" "ldap-credentials" "dc=example" "dc=example" ["admin"] ["users"] ["readers"] ["metrics"]
    "uid={0}" "uniquemember={0}" false.
Definition clusters1 : list HazelcastClusterConfig :=
  [mkHazelcastClusterConfig "dev" "hz.ns" None; mkHazelcastClusterConfig "prod" "hz-2" (Some (mkTLS "prod-tls" MutualAuthenticationRequired))].
Definition mc_spec1 (class : option string) : ManagementCenterSpec :=
  mkManagementCenterSpec "docker.io/hazelcast/management-center" "5.4.1" "IfNotPresent" [] "" "license" [mkHazelcastClusterConfig "dev" "hz.ns" None]
    (Some (mkExternalConnectivityConfiguration "LoadBalancer" None None)) (Some (mkMCPersistenceConfiguration (Some true) "" class (Some 10)))
    None None None (Some (mkSecurityProviders (Some ldap1))) ∅ ∅.
#[local] Instance mc_json1 : McJson := {|
  McSpec_Marshal s := default "" (mc_Persistence s ≫= mcp_StorageClass);
  McSpec_Unmarshal c := inl (mc_spec1 (if strb c "" then None else Some c));
|}.
#[local] Instance mc_yaml1 : McYaml := {| HazelcastClient_Encode c := inl (mhc_ClusterName c) |}.

Definition mc_nn : Kube.NamespacedName := ("ns", "mc").
Definition mc1 (phase : string) : ManagementCenter :=
  mkManagementCenter "mc" "ns" "uid" ∅ [n_Finalizer] false (mc_spec1 None) (mkManagementCenterStatus phase false "" "").

Definition mc_answer (mc : ManagementCenter) (o : @op hz_effects) (t : list (@event hz_effects)) : @ans hz_effects o :=
  match o as o return hz_ans o with
  | GetMC _ => Found mc
  | GetO k nn =>
      match k as k return fetched (oobj k) with
      | KStatefulSet => match created_sts t with Some s => Found (with_status s 1) | None => Failed not_found end
      | _ => Failed not_found
      end
  | o => answer (cr1 false [] None "") true created o t
  end.
Definition configuring := run (mc_answer (mc1 McPending)) (mc_Reconcile operator1 mc_nn) [].

Lemma configuring_exec o : configuring.2 = Some o -> exec (mc_Reconcile operator1 mc_nn) configuring.1 o.
Proof. apply run_exec_2. Qed.

Definition stores_status (e : @event hz_effects) : option ManagementCenter :=
  match ev_op e : hz_op with StatusUpdateMC mc => Some mc | _ => None end.
Lemma stores_status_eq e mc : stores_status e = Some mc -> exists x, e = @Ev hz_effects (StatusUpdateMC mc) x.
Proof. destruct e as [c x]. destruct c; try discriminate. intros [= <-]. by exists x. Qed.

(** Pending with an LDAP provider: the center is configured. *)
Lemma mc_status_witness : exists t1 mc, status_ok operator1 mc_nn t1 mc /\ mc_phase mc = McConfiguring /\ mcs_Configured (mc_Status mc) = true.
Proof.
  destruct (find_event (F := hz_effects) (fun e => negb (is_nil (stores_status e))) configuring.1) as (t1 & e & t2 & Ht & Hf); [vm_compute; reflexivity|].
  assert (Ho : is_nil configuring.2 = false) by (vm_compute; reflexivity). destruct configuring.2 as [o|] eqn:Eo; [|discriminate Ho].
  destruct (stores_status e) as [mc|] eqn:Es; [|discriminate Hf].
  assert (Hmc : forallb (fun e => match stores_status e with
     Some mc => strb (mc_phase mc) McConfiguring && mcs_Configured (mc_Status mc) | None => true end) configuring.1 = true) by (vm_compute; reflexivity).
  rewrite Ht, forallb_app in Hmc. apply andb_true_iff in Hmc as [_ Hmc]. cbn [forallb] in Hmc.
  apply andb_true_iff in Hmc as [Hmc _]. rewrite Es in Hmc.
  apply andb_true_iff in Hmc as [Hp%bool_decide_eq_true Hc]. apply stores_status_eq in Es as [x ->].
  exists t1, mc. split; [|by split]. apply (mc_status_steps operator1 mc_nn t1 mc x t2 o). rewrite <-Ht. exact (configuring_exec o Eo).
Defined.

(** A center that was Failed, not Pending, when its pod became ready is
    Running without being configured: the commands that reset its security
    stay in its environment. *)
Definition statuses (t : list (@event hz_effects)) : list (string * bool) :=
  omap (fun e => (fun mc => (mc_phase mc, mcs_Configured (mc_Status mc))) <$> stores_status e) t.
Example failed_runs_unconfigured :
  statuses (run (mc_answer (mc1 McFailed)) (mc_Reconcile operator1 mc_nn) []).1 = [(McRunning, false)]
  /\ statuses configuring.1 = [(McConfiguring, true)].
Proof. vm_compute. done. Qed.

Definition creates (e : @event hz_effects) : bool := match ev_op e : hz_op with CreateO _ _ | UpdateO _ _ => true | _ => false end.
Lemma mc_writes_witness : exists t1 mc0, mc_validated operator1 mc_nn t1 mc0.
Proof.
  destruct (find_event (F := hz_effects) creates configuring.1) as (t1 & e & t2 & Ht & Hf); [vm_compute; reflexivity|].
  assert (Ho : is_nil configuring.2 = false) by (vm_compute; reflexivity). destruct configuring.2 as [o|] eqn:Eo; [|discriminate Ho].
  exists t1. assert (He : exec (mc_Reconcile operator1 mc_nn) (t1 ++ e :: t2) o) by (rewrite <-Ht; exact (configuring_exec o Eo)).
  apply (mc_writes_justified operator1 mc_nn t1 e t2 o) in He. unfold creates in Hf.
  destruct (ev_op e); try discriminate Hf; exact He.
Defined.

(** The secret of two clusters, one with a certificate. *)
Definition mc2 : ManagementCenter :=
  let s := mc_spec1 None in
  mkManagementCenter "mc" "ns" "uid" ∅ [n_Finalizer] false
    (mkManagementCenterSpec (mc_Repository s) (mc_Version s) (mc_ImagePullPolicy s) [] "" "license" clusters1
      (mc_ExternalConnectivity s) (mc_Persistence s) None None None None ∅ ∅) (mc_Status (mc1 "")).
Definition tls_answer (o : @op hz_effects) (t : list (@event hz_effects)) : @ans hz_effects o :=
  match o as o return hz_ans o with
  | Base o =>
      match o as o return kube_ans o with
      | GetSecretData _ => Found {["tls.crt" := "certificate"; "tls.key" := "key"]}
      | o => kube_answer true o
      end
  | o => mc_answer mc2 o t
  end.
Definition writes_secret (e : @event hz_effects) : option Secret :=
  match ev_op e : hz_op with CreateO KSecret s => Some s | _ => None end.
Lemma writes_secret_eq e s : writes_secret e = Some s -> ev_op e = CreateO KSecret s.
Proof. destruct e as [c x]. destruct c as [| | | | | | | |k o| | | | | | | | | | | | | | | | | | | | | | |]; try discriminate. destruct k; try discriminate. by intros [= ->]. Qed.

Section Keystores.
(** A block of PEM is its own bytes, and a key store shows what is in it. *)
#[local] Instance secret_lib2 : HzSecretLib := {|
  Url := string; ParseRequestURI s := Some s; query_prefix s := s; with_query_prefix _ p := Some p;
  pem_Decode s := Some (if strb s "key" then "PRIVATE KEY" else "CERTIFICATE", s);
  keystore_Store e := inl (match e with None => "empty" | Some (_, key, cert) => (key ++ "+" ++ cert)%string end);
|}.
Definition secret_run := run tls_answer (mc_reconcileSecret mc2) [].
Lemma mc_secret_witness : exists t (s : Secret), complete mc2 t s
  /\ (sec_Data s ≫= fun d => sd_Other d !! "prod.jks") = Some "key+certificate".
Proof.
  destruct (find_event (F := hz_effects) (fun e => negb (is_nil (writes_secret e))) secret_run.1) as (t1 & e & t2 & Ht & Hf); [vm_compute; reflexivity|].
  assert (Ho : is_nil secret_run.2 = false) by (vm_compute; reflexivity). destruct secret_run.2 as [o|] eqn:Eo; [|discriminate Ho].
  assert (Hk : forallb (fun e => match writes_secret e with
     Some s => bool_decide ((sec_Data s ≫= fun d => sd_Other d !! "prod.jks") = Some "key+certificate") | None => true end) secret_run.1 = true)
    by (vm_compute; reflexivity).
  rewrite Ht, forallb_app in Hk. apply andb_true_iff in Hk as [_ Hk]. apply andb_true_iff in Hk as [Hk _].
  destruct (writes_secret e) as [s|] eqn:Es; [|discriminate Hf]. apply writes_secret_eq in Es. exists t1, s.
  split; [|exact (proj1 (bool_decide_eq_true _) Hk)].
  apply (mc_secret_complete mc2 t1 e t2 o s); [rewrite <-Ht; by apply run_exec_2|by left].
Defined.
End Keystores.

(** A center with a storage class that succeeded once. *)
Definition mc3 (class : string) : ManagementCenter :=
  mkManagementCenter "mc" "ns" "uid" {[n_LastSuccessfulSpecAnnotation := class]} [n_Finalizer] false
    (mc_spec1 (if strb class "" then None else Some class)) (mkManagementCenterStatus McRunning true "" "").
Definition world1 : Cluster := mkCluster (fun _ => None) (fun _ => Found ∅) (fun _ => None) (fun _ => None).
Lemma mc_storage_witness : ValidateManagementCenterSpec world1 false (mc3 "") = Ret None
  /\ ValidateManagementCenterSpec world1 false (mc3 "fast") <> Ret None.
Proof.
  split.
  - eapply (mc_storage_class_locked world1 false (mc3 "") "" (mc_spec1 None)); [reflexivity|reflexivity|reflexivity|reflexivity| |].
    + exists []. reflexivity.
    + split; [reflexivity|]. split; [split; [reflexivity|split; reflexivity]|]. split; reflexivity.
  - intros E. eapply (mc_storage_class_locked world1 false (mc3 "fast") "fast" (mc_spec1 (Some "fast"))) in E;
      [|reflexivity|reflexivity|reflexivity|reflexivity|exists []; reflexivity]. destruct E as (_ & _ & E & _). discriminate E.
Defined.

(** The init command of a center that is configured, and of one that is not. *)
Definition mc4 (configured : bool) : ManagementCenter := set_mc_Status (mc1 "") (mkManagementCenterStatus "" configured "" "").
Definition init_cmd (configured : bool) := run (mc_answer (mc4 configured)) (buildMcInitCmd (mc4 configured)) [].
Lemma mc_configured_witness : exists t, exec (buildMcInitCmd (mc4 true)) t
    (Returned "./bin/mc-conf.sh cluster add --lenient=true -H /data --client-config /config/dev.yaml") /\ t = [].
Proof.
  exists (init_cmd true).1. assert (E : exec (buildMcInitCmd (mc4 true)) (init_cmd true).1
    (Returned "./bin/mc-conf.sh cluster add --lenient=true -H /data --client-config /config/dev.yaml")).
  { apply run_exec_2. vm_compute. reflexivity. }
  split; [exact E|]. apply (mc_configured_once (mc4 true)) in E. exact (proj1 E).
Defined.
End McRuns.
