(* ===== verification/Webhooks.v ===== *)
(** * The admission webhooks

    The *_webhook.go files of src/api/v1alpha1: one [Validator] for each kind
    of resource, with the verdict on a request to create, to update and to
    delete one.  [Default] of Hazelcast is in HzController.v, that of
    ManagementCenter in McTypes.v.  The deletion of a hot backup asks the API
    server ([HotBackup_ValidateDelete]).

    The second part relates the webhooks of Hazelcast and ManagementCenter to
    the reconciliations of their controllers ([decides]). *)

From S2P Require Import Prelude Eff HotBackup FieldValidation Json GoPath GoNet HazelcastTypes DataStructureTypes HazelcastValidation HazelcastValidationFacts MapValidation ConfigTypes CustomConfig DataStructureConfig DataStructureValidation WanTypes JetJobValidation Kube ConfigSecret CronHotBackup Proto HzTypes HzObjects HzStatefulSet McTypes HzKube HzServices HzSecrets HzStatus HzController McController HazelcastConfigFacts HzReconcileFacts McFacts.
#[local] Open Scope string_scope.
#[local] Open Scope list_scope.

(** [admission.Warnings] are always empty. *)
Class Validator (A : Type) := {
  ValidateCreate : A -> res (option error);
  ValidateUpdate : A -> A -> res (option error);      (* the new object and the old one *)
  ValidateDelete : A -> res (option error);
}.
Definition admitted : res (option error) := Ret None.

Section Webhooks.
Context `{QL : QuantityLib} `{PT : PodTypes} `{HZJ : !HazelcastJson} `{MJ : !MapJson} `{YV : YamlValid} `{SM : SortByMin}.
Context `{KE : KErrors} `{JT : JsonText} `{WJ : WanJson} `{JJ : JetJobJson} `{McJ : !McJson} (c : Cluster) (openshift : bool).

#[export] Instance Hazelcast_webhook : Validator HazelcastCR := {|
  ValidateCreate h := ValidateHazelcastSpec c (cr_hz h);
  ValidateUpdate h _ := if h_Deleting (cr_hz h) then admitted else ValidateHazelcastSpec c (cr_hz h);
  ValidateDelete _ := admitted;
|}.
#[export] Instance ManagementCenter_webhook : Validator ManagementCenter := {|
  ValidateCreate mc := ValidateManagementCenterSpec c openshift mc;
  ValidateUpdate mc _ := if mc_Deleting mc then admitted else ValidateManagementCenterSpec c openshift mc;
  ValidateDelete _ := admitted;
|}.

#[export] Instance Map_webhook : Validator Map := {|
  ValidateCreate m := ValidateMapSpecCreate m;
  ValidateUpdate m _ := ValidateMapSpecUpdate m;
  ValidateDelete _ := admitted;
|}.
#[export] Instance MultiMap_webhook : Validator MultiMap := {|
  ValidateCreate m := Ret (validateMultiMapSpecCreate m);
  ValidateUpdate m _ := Ret (validateMultiMapSpecUpdate m);
  ValidateDelete _ := admitted;
|}.
#[export] Instance Queue_webhook : Validator Queue := {|
  ValidateCreate q := Ret (validateQueueSpecCreate q);
  ValidateUpdate q _ := Ret (validateQueueSpecUpdate q);
  ValidateDelete _ := admitted;
|}.
#[export] Instance Topic_webhook : Validator Topic := {|
  ValidateCreate _ := admitted;
  ValidateUpdate t _ := Ret (validateTopicSpecUpdate t);
  ValidateDelete _ := admitted;
|}.
#[export] Instance ReplicatedMap_webhook : Validator ReplicatedMap := {|
  ValidateCreate _ := admitted;
  ValidateUpdate m _ := Ret (validateReplicatedMapSpecUpdate m);
  ValidateDelete _ := admitted;
|}.
#[export] Instance Cache_webhook : Validator Cache := {|
  ValidateCreate o := Ret (validateCacheSpecCreate (r_Name o) (r_Spec o));
  ValidateUpdate o _ := Ret (validateCacheSpecUpdate (r_Name o) (ds_view CacheSpec_encode o) (r_Spec o));
  ValidateDelete _ := admitted;
|}.

#[export] Instance JetJob_webhook : Validator JetJob := {|
  ValidateCreate jj := Ret (ValidateJetJobCreateSpec c jj);
  ValidateUpdate jj old := Ret (ValidateJetJobUpdateStateSpec jj old);
  ValidateDelete _ := admitted;
|}.
#[export] Instance JetJobSnapshot_webhook : Validator JetJobSnapshot := {|
  ValidateCreate _ := admitted;
  ValidateUpdate jjs _ := Ret (ValidateJetJobSnapshotSpecUpdate jjs);
  ValidateDelete _ := admitted;
|}.
#[export] Instance WanReplication_webhook : Validator WanReplication := {|
  ValidateCreate _ := admitted;
  ValidateUpdate w _ := Ret (ValidateWanReplicationSpec w);
  ValidateDelete _ := admitted;
|}.
#[export] Instance WanSync_webhook : Validator WanSync := {|
  ValidateCreate _ := admitted;
  ValidateUpdate w _ := Ret (ValidateWanSyncSpec w);
  ValidateDelete _ := admitted;
|}.
#[export] Instance UserCodeNamespace_webhook : Validator UserCodeNamespace := {|
  ValidateCreate _ := admitted;
  ValidateUpdate _ _ := admitted;
  ValidateDelete _ := admitted;
|}.
#[export] Instance CronHotBackup_webhook : Validator CronHotBackup := {|
  ValidateCreate _ := admitted;
  ValidateUpdate _ _ := admitted;
  ValidateDelete _ := admitted;
|}.
Definition endpoint_spec (e : HazelcastEndpoint) : string * Z * string := (he_Type e, he_Port e, he_HazelcastResourceName e).
#[export] Instance HazelcastEndpoint_webhook : Validator HazelcastEndpoint := {|
  ValidateCreate _ := admitted;
  ValidateUpdate e old :=
    if bool_decide (endpoint_spec e = endpoint_spec old) then admitted
    else Ret (Some (NewInvalid "HazelcastEndpoint" (om_Name (he_Meta e)) (Forbidden (Path "spec" []) "field cannot be updated")));
  ValidateDelete _ := admitted;
|}.

Definition HotBackup_ValidateDelete (hb : HotBackup.HotBackup) : @prog hb_effects (option error) :=
  ValidateHotBackupIsNotReferencedByHazelcast hb.

(** ** Defaults *)

Lemma unless_idem {A} (f : A -> bool) o : unless f (unless f o) = unless f o.
Proof. destruct o as [a|]; cbn; [|done]. destruct (f a) eqn:E; cbn; [done|]. by rewrite E. Qed.
Lemma unset_idem {A} (f : A -> bool) o : unset f (unset f o) = unset f o.
Proof. destruct o as [a|]; cbn; [|done]. destruct (f a) eqn:E; cbn; [done|]. by rewrite E. Qed.

Lemma Default_spec_idem s trigger trigger' :
  (s_DeprecatedUserCodeDeployment (Default_spec s trigger) <> None -> trigger' = trigger) ->
  Default_spec (Default_spec s trigger) trigger' = Default_spec s trigger.
Proof.
  intros Ht. destruct s as [n dep lic ? ? ? ? ? ? an tls ? ? ? ? ? ucd ? ? ? ? mcc ? ?]. unfold Default_spec in *. cbn in *.
  rewrite !unless_idem.
  assert (Hu : unless (fun c => UserCodeDeployment_is_zero c trigger') (unless (fun c => UserCodeDeployment_is_zero c trigger) ucd)
               = unless (fun c => UserCodeDeployment_is_zero c trigger) ucd).
  { destruct (unless (fun c => UserCodeDeployment_is_zero c trigger) ucd) as [u|] eqn:E; [|done]. rewrite Ht by done.
    rewrite <-E at 1. by rewrite unless_idem. }
  rewrite Hu. unfold strb. repeat (case_bool_decide; cbn); subst; try done.
Qed.

Lemma Default_more_idem x s : Default_more (Default_more x s) s = Default_more x s.
Proof.
  unfold Default_more. cbn. rewrite !unless_idem. by destruct (s_DeprecatedUserCodeDeployment s).
Qed.
Lemma Default_idem h : Default (Default h) = Default h.
Proof.
  destruct h as [[n ns an del s st] x uid fs ss]. unfold Default. cbn -[Default_spec Default_more].
  set (s1 := Default_spec s (x_TriggerSequence x)).
  assert (E : Default_spec s1 (x_TriggerSequence (Default_more x s1)) = s1).
  { apply Default_spec_idem. fold s1. clearbody s1. intros Hs. unfold Default_more. cbn [x_TriggerSequence].
    by destruct (s_DeprecatedUserCodeDeployment s1). }
  unfold set_more, set_hz, set_spec, cr_spec. cbn -[Default_spec Default_more]. by rewrite !E, Default_more_idem.
Qed.
Lemma mc_Default_idem mc : mc_Default (mc_Default mc) = mc_Default mc.
Proof.
  destruct mc as [n ns uid an fs del s st]. unfold mc_Default. cbn. rewrite !unset_idem, <-list_fmap_compose. do 2 f_equal.
  apply list_fmap_ext. intros i cl _. unfold compose, default_tls. cbn. by rewrite unset_idem.
Qed.

(** A topic with global ordering and multi threading is admitted by the
    webhook, whatever else it says, and then rejected by its controller. *)
Theorem topic_admitted_then_failed (t : Topic) :
  t_GlobalOrderingEnabled (r_Spec t) = true -> t_MultiThreadingEnabled (r_Spec t) = true ->
  ValidateCreate t = admitted /\ validateTopicSpecCurrent t <> None.
Proof. intros Hg Hm. split; [done|]. unfold validateTopicSpecCurrent. by rewrite Hg, Hm. Qed.
End Webhooks.

(** ** Webhooks and controllers *)

(** What the webhook says of a request to create an object, or to update an
    old one. *)
Definition review `{Validator A} (old : option A) (new : A) : res (option error) :=
  match old with None => ValidateCreate new | Some old => ValidateUpdate new old end.

Abbreviation trace := (list (@event hz_effects)).
Abbreviation Call := (@Ev hz_effects).

(** A reconciliation decides as [verdict] says of what the API server shows:
    it goes on exactly when the object is admitted, and otherwise reports the
    very error, or panics.  Before that it makes only calls that are its
    [own], and it may have to stop ([stops]). *)
Section Decides.
Context `{P : Proto} `{QL : QuantityLib} `{Y : YamlLib} `{PT : PodTypes}.
Context {A : Type} (own : @event hz_effects -> Prop) (stops : trace -> Prop) (verdict : Cluster -> res (option error)).
Context (reports : error -> @event hz_effects -> Prop) (goes_on : trace -> outcome A -> Prop).
Inductive decides : trace -> outcome A -> Prop :=
| decides_stops t o : Forall own t -> stops t -> decides t o
| decides_admitted t0 c t o : Forall own t0 -> verdict c = admitted -> goes_on t o -> decides (t0 ++ Call Observe c :: t) o
| decides_rejected t0 c err e o : Forall own t0 -> verdict c = Ret (Some err) -> reports err e ->
    decides (t0 ++ [Call Observe c; e]) o
| decides_panics t0 c : Forall own t0 -> verdict c = Panic -> decides (t0 ++ [Call Observe c]) Panicked.

Lemma decides_app t1 t o : Forall own t1 -> (forall t, stops t -> stops (t1 ++ t)) -> decides t o -> decides (t1 ++ t) o.
Proof.
  intros H1 Hs [t' o' Ht' Hst|t0 c t' o' Ht0 Hv Hg|t0 c err e o' Ht0 Hv Hr|t0 c Ht0 Hv]; rewrite ?(app_assoc t1).
  - apply decides_stops; [by apply Forall_app|by apply Hs].
  - apply decides_admitted; [by apply Forall_app|done..].
  - apply decides_rejected with err; [by apply Forall_app|done..].
  - apply decides_panics; [by apply Forall_app|done].
Qed.
End Decides.

Section Agreement.
Context `{P : Proto} `{R : MapRange} `{EJ : EventJson} `{QL : QuantityLib} `{Y : YamlLib} `{YT : !YamlTree}.
Context `{HZJ : !HazelcastJson} `{MJ : !MapJson} `{KE : KErrors} `{JT : JsonText} `{PT : PodTypes} `{HS : HzSecretLib}.
Context `{YV : YamlValid} `{SM : SortByMin} `{HL : !HzLib} `{SL : SelectorLib} `{HJ : !HzSpecJson}.
Context `{McJ : !McJson} `{MY : McYaml} `{PL : PrintLib} `{CU : !ControllerUtil} `{RL : @RetryLib hz_effects}.
Context (op_env : Operator) (frames : nat) (nn : Kube.NamespacedName).

(** *** Hazelcast *)

(** The calls before the validation store the resource itself: its finalizer,
    the annotation with its specification, and a failure of these. *)
Definition hz_own (e : @event hz_effects) : Prop :=
  match ev_op e : hz_op with UpdateCR _ => True | StatusUpdateCR h => cr_phase h = Phase_Failed | _ => False end.
(** One of these failed, or the specification is the one that was applied
    before, of a cluster that turned out to be no enterprise cluster. *)
Definition hz_stops (h : HazelcastCR) (t : trace) : Prop :=
  (exists h' err, Call (UpdateCR h') (Some err) ∈ t)
  \/ isSpecChanged h = false /\ ss_Message (cr_status h) = err_msg illegalClusterType.
Definition hz_reports (err : error) (e : @event hz_effects) : Prop :=
  exists h x, e = Call (StatusUpdateCR h) x /\ cr_phase h = Phase_Failed
  /\ ss_Message (cr_status h) = ("error validating Spec: " ++ err_msg err)%string.
Definition hz_goes_on (h : HazelcastCR) (t : trace) (o : outcome (ctrl_Result * option error)) : Prop :=
  exists h', cr_key h' = cr_key h /\ cr_spec h' = cr_spec h /\ exec (reconcile_objects op_env frames nn h') t o.

(** The object in the hands of the controller, until it is validated. *)
Record in_hand (h h' : HazelcastCR) : Prop := {
  ih_name : h_Name (cr_hz h') = h_Name (cr_hz h);
  ih_ns : h_Namespace (cr_hz h') = h_Namespace (cr_hz h);
  ih_spec : cr_spec h' = cr_spec h;
  ih_trigger : x_TriggerSequence (cr_more h') = x_TriggerSequence (cr_more h);
  ih_deleting : h_Deleting (cr_hz h') = h_Deleting (cr_hz h);
  ih_status : h_Status (cr_hz h') = h_Status (cr_hz h);
  ih_recorded : h_Annotations (cr_hz h') !! n_LastSuccessfulSpecAnnotation = h_Annotations (cr_hz h) !! n_LastSuccessfulSpecAnnotation;
}.

(** A verdict is about the name, the specification, the status and the
    recorded specification. *)
Lemma Validate_in_hand c h h' : in_hand h h' -> ValidateHazelcastSpec c (cr_hz h') = ValidateHazelcastSpec c (cr_hz h).
Proof.
  intros [En Ens Es _ Ed Est Ea]. unfold cr_spec in Es. destruct h as [[n ns an d s st] x u fs m], h' as [[n' ns' an' d' s' st'] x' u' fs' m'].
  cbn in *. subst. unfold ValidateHazelcastSpec, validateSpecUpdate. cbn [h_Annotations]. rewrite Ea. reflexivity.
Qed.

(** The defaults are filled in already. *)
Lemma Default_spec_again h h' : cr_spec h' = cr_spec (Default h) ->
  x_TriggerSequence (cr_more h') = x_TriggerSequence (cr_more (Default h)) ->
  cr_spec (Default h') = cr_spec (Default h) /\ x_TriggerSequence (cr_more (Default h')) = x_TriggerSequence (cr_more (Default h)).
Proof.
  intros Es Et. assert (forall a b : HazelcastCR, cr_spec a = cr_spec b -> x_TriggerSequence (cr_more a) = x_TriggerSequence (cr_more b) ->
    cr_spec (Default a) = cr_spec (Default b) /\ x_TriggerSequence (cr_more (Default a)) = x_TriggerSequence (cr_more (Default b))) as Hd.
  { intros a b E1 E2. unfold Default, cr_spec. cbn -[Default_spec]. unfold cr_spec in E1. by rewrite E1, E2. }
  destruct (Hd h' (Default h) Es Et) as [-> ->]. by rewrite Default_idem.
Qed.
Lemma in_hand_mutate h h' : in_hand (Default h) h' -> in_hand (Default h) (mutate_HazelcastSpec h').1.
Proof.
  intros [En Ens Es Et Ed Est Ea]. unfold mutate_HazelcastSpec. cbn [fst].
  set (h1 := if _ && _ then _ else _).
  assert (cr_hz h1 = cr_hz h' /\ x_TriggerSequence (cr_more h1) = x_TriggerSequence (cr_more h')) as [E1 E2].
  { unfold h1. by destruct (_ && _). }
  destruct (Default_spec_again h h1) as [Es' Et']; [by unfold cr_spec; rewrite E1|by rewrite E2|].
  constructor; [..|exact Et'| | |]; cbn -[Default_spec]; rewrite ?E1; try done.
Qed.

(** *** The calls of a reconciliation up to the validation *)

Lemma hz_update_exec h o opts t out : exec (update h o opts) t out -> exists x, t = [Call (StatusUpdateCR (apply_all opts h)) x].
Proof.
  unfold update. intros H. exec_step H. exists x. f_equal.
  destruct (x : option error); [by destruct H as [-> _]|]. destruct (ro_Err o); [by destruct H as [-> _]|].
  destruct (strb _ _); by destruct H as [-> _].
Qed.
Lemma failed_own h e t out : exec (failed h e) t out -> Forall hz_own t.
Proof. intros [x ->]%hz_update_exec. by repeat constructor. Qed.

(** A step that stores the object. *)
Lemma or_fail_h_decides h verdict (K : HazelcastCR -> Prop) (p : hprog (HazelcastCR * option error))
    (k : HazelcastCR -> hprog (ctrl_Result * option error)) t o :
  (forall t r, exec p t (Returned r) -> K r.1 /\ Forall hz_own t /\ (r.2 <> None -> exists h' err, Call (UpdateCR h') (Some err) ∈ t)) ->
  ~ exec p t Panicked -> ~ exec p t Exhausted ->
  (forall h' t, K h' -> exec (k h') t o -> decides hz_own (hz_stops h) verdict hz_reports (hz_goes_on h) t o) ->
  exec (or_fail_h p k) t o -> decides hz_own (hz_stops h) verdict hz_reports (hz_goes_on h) t o.
Proof.
  intros Hp Hnp Hne Hk. unfold or_fail_h. intros [([h' e] & t1 & t2 & -> & H1 & H2)|[[H _]|[H _]]]%exec_bind; [|done..].
  apply Hp in H1 as (Hin & Ho & Hs). cbn [fst snd] in *. destruct e as [e|].
  - apply decides_stops; [apply Forall_app; split; [done|by eapply failed_own]|]. left.
    destruct (Hs ltac:(done)) as (h1 & err & Hi). exists h1, err. apply elem_of_app. by left.
  - apply decides_app; [done| |by eapply Hk].
    intros t [(h1 & err & Hi)|Hc]; [left; exists h1, err; apply elem_of_app; by right|by right].
Qed.

Section Hazelcast.
Context (h : HazelcastCR) (Hd : h_Deleting (cr_hz h) = false) (old : option HazelcastCR).
Definition hz_verdict (c : Cluster) : res (option error) := @review _ (Hazelcast_webhook c) old (Default h).
Abbreviation decided := (decides hz_own (hz_stops (Default h)) hz_verdict hz_reports (hz_goes_on (Default h))).

Lemma hz_verdict_eq c : hz_verdict c = ValidateHazelcastSpec c (cr_hz (Default h)).
Proof.
  unfold hz_verdict, review. destruct old; [|done]. cbn -[Default ValidateHazelcastSpec].
  assert (h_Deleting (cr_hz (Default h)) = false) as -> by exact Hd. done.
Qed.

Lemma reconcile_validated_decides h' t o : in_hand (Default h) h' ->
  exec (reconcile_validated op_env frames nn h') t o -> decided t o.
Proof.
  intros Hin H. unfold reconcile_validated in H. exec_step H. rename x into c, t0 into t.
  assert (hz_verdict c = ValidateHazelcastSpec c (cr_hz h')) as Ev by by rewrite hz_verdict_eq, (Validate_in_hand c _ h' Hin).
  destruct (ValidateHazelcastSpec c (cr_hz h')) as [[e|]| |] eqn:Er; cbn [lift pbind] in H.
  - unfold fail_as in H. apply hz_update_exec in H as [x ->]. apply (decides_rejected _ _ _ _ _ [] c e); [done|exact Ev|].
    by eexists _, x.
  - apply (decides_admitted _ _ _ _ _ []); [done|exact Ev|]. exists h'. split; [|split; [apply Hin|done]].
    unfold cr_key, cr_name, cr_ns. f_equal; apply Hin.
  - destruct H as [-> ->]. by apply (decides_panics _ _ _ _ _ []).
  - exfalso. unfold ValidateHazelcastSpec in Er.
    destruct (validateSpecCurrent_cases c (cr_hz h')) as [[_ Ec]|(n & es & _ & Ec)]; rewrite Ec in Er; discriminate.
Qed.

Lemma reconcile_spec_decides h' t o : in_hand (Default h) h' -> exec (reconcile_spec op_env frames nn h') t o -> decided t o.
Proof.
  intros Hin H. unfold reconcile_spec, store_mutated in H. apply in_hand_mutate in Hin.
  destruct (mutate_HazelcastSpec h').2; [|by eapply reconcile_validated_decides]. exec_step H. rename x into err, t0 into t.
  destruct (err : option error) as [e|].
  - unfold fail_as in H. apply hz_update_exec in H as [x ->]. apply decides_stops; [by repeat constructor|].
    left. eexists _, e. by left.
  - apply (decides_app _ _ _ _ _ [_]); [by repeat constructor| |by eapply reconcile_validated_decides].
    intros t' [(h1 & e & Hi)|Hc]; [left; exists h1, e; by right|by right].
Qed.

Lemma reconcile_live_decides h' t o : in_hand (Default h) h' -> cr_more h' = cr_more (Default h) ->
  h_Annotations (cr_hz h') = h_Annotations (cr_hz (Default h)) -> cr_status h' = cr_status (Default h) ->
  exec (reconcile_live op_env frames nn h') t o -> decided t o.
Proof.
  intros Hin Em Ea Es H. unfold reconcile_live in H.
  assert (isSpecChanged h' = isSpecChanged (Default h)) as Ec by (unfold isSpecChanged, spec_text; by rewrite Ea, Em, (ih_spec _ _ Hin)).
  rewrite Ec, Es in H. destruct (isSpecChanged (Default h)) eqn:Echg.
  - eapply (or_fail_h_decides _ _ (in_hand (Default h))), H; [| | |intros h2 t2; apply reconcile_spec_decides].
    + intros t1 r Hr. unfold updateLastAppliedSpec, insert_spec in Hr. destruct (decide _); [by destruct Hr as [-> [= ->]]|].
      exec_step Hr. destruct Hr as [-> [= ->]]. split; [|split; [by repeat constructor|]].
      * destruct Hin. constructor; try done. cbn. rewrite lookup_insert_ne; [done|discriminate].
      * intros Hx. destruct (x : option error) as [e|]; [|done]. eexists _, e. by left.
    + unfold updateLastAppliedSpec, insert_spec. intros Hr. destruct (decide _); exec_step Hr; by destruct Hr.
    + unfold updateLastAppliedSpec, insert_spec. intros Hr. destruct (decide _); exec_step Hr; by destruct Hr.
  - destruct (strb _ _) eqn:Em'; [|by eapply reconcile_spec_decides]. apply bool_decide_eq_true in Em'.
    destruct H as [-> _]. apply decides_stops; [done|]. by right.
Qed.

Definition got_cr (e : @event hz_effects) : option (fetched HazelcastCR) :=
  match e with Ev c x => match (c : hz_op) as c return hz_ans c -> option (fetched HazelcastCR) with GetCR _ => fun x => Some x | _ => fun _ => None end x end.
Lemma Reconcile_decides t o :
  exec (Reconcile op_env frames nn) (Call (GetCR nn) (Found (Default h)) :: t) o -> decided t o.
Proof.
  unfold Reconcile. intros (x & t' & E & H). pose proof (f_equal (fun l => head l ≫= got_cr) E) as Ex. cbn in Ex.
  injection Ex as <-. injection E as <-. cbn beta iota zeta in H.
  eapply (or_fail_h_decides _ _ (fun h' => in_hand (Default h) h' /\ cr_more h' = cr_more (Default h)
    /\ h_Annotations (cr_hz h') = h_Annotations (cr_hz (Default h)) /\ cr_status h' = cr_status (Default h))), H.
  - intros t1 r Hr. unfold hz_AddFinalizer in Hr. destruct (_ && _); [exec_step Hr|]; destruct Hr as [-> [= ->]].
    + split; [done|]. split; [by repeat constructor|]. intros Hx. destruct (x : option error) as [e|]; [|done]. eexists _, e. by left.
    + split; [done|]. split; [done|]. by intros [].
  - unfold hz_AddFinalizer. intros Hr. destruct (_ && _); [exec_step Hr|]; by destruct Hr.
  - unfold hz_AddFinalizer. intros Hr. destruct (_ && _); [exec_step Hr|]; by destruct Hr.
  - intros h' t' (Hin & Em & Ea & Es) Hr. rewrite (ih_deleting _ _ Hin) in Hr.
    assert (h_Deleting (cr_hz (Default h)) = false) as Ed by exact Hd. rewrite Ed in Hr. by eapply reconcile_live_decides.
Qed.
End Hazelcast.

(** *** Management Center *)

Definition mc_own (e : @event hz_effects) : Prop :=
  match ev_op e : hz_op with UpdateMC _ => True | StatusUpdateMC mc => mc_phase mc = McFailed | _ => False end.
(** The finalizer could not be stored. *)
Definition mc_stops (t : trace) : Prop := exists mc err, Call (UpdateMC mc) (Some err) ∈ t.
Definition mc_reports (err : error) (e : @event hz_effects) : Prop :=
  exists mc x, e = Call (StatusUpdateMC mc) x /\ mc_phase mc = McFailed /\ mcs_Message (mc_Status mc) = err_msg err.
Definition mc_goes_on (mc : ManagementCenter) (t : trace) (o : outcome (ctrl_Result * option error)) : Prop :=
  exists mc', mc_key mc' = mc_key mc /\ mc_Spec mc' = mc_Spec mc /\ exec (mc_reconcile_objects op_env nn mc') t o.

Section ManagementCenter.
Context (mc : ManagementCenter) (Hd : mc_Deleting mc = false) (old : option ManagementCenter).
Definition mc_verdict (c : Cluster) : res (option error) :=
  @review _ (ManagementCenter_webhook c (op_OpenShift op_env)) old (mc_Default mc).
Abbreviation decided := (decides mc_own mc_stops mc_verdict mc_reports (mc_goes_on (mc_Default mc))).

Lemma mc_verdict_eq c fs :
  mc_verdict c = ValidateManagementCenterSpec c (op_OpenShift op_env) (mc_Default (set_mc_Finalizers (mc_Default mc) fs)).
Proof.
  transitivity (ValidateManagementCenterSpec c (op_OpenShift op_env) (mc_Default mc)).
  - unfold mc_verdict, review. destruct old; [|done]. cbn -[mc_Default ValidateManagementCenterSpec].
    assert (mc_Deleting (mc_Default mc) = false) as -> by exact Hd. done.
  - change (mc_Default (set_mc_Finalizers (mc_Default mc) fs)) with (set_mc_Finalizers (mc_Default (mc_Default mc)) fs).
    by rewrite mc_Default_idem.
Qed.

Lemma mc_failed_exec what m e t out : exec (mc_failed_as what m e) t out ->
  exists m' x, t = [Call (StatusUpdateMC m') x] /\ mc_phase m' = McFailed /\ mcs_Message (mc_Status m') = (what ++ err_msg e)%string.
Proof.
  unfold mc_failed_as, mc_update. intros H. exec_step H. eexists _, x. split; [|by split]. f_equal.
  destruct (x : option error); [by destruct H as [-> _]|]. cbn in H. by destruct H as [-> _].
Qed.

Lemma mc_live_decides fs t o : exec (mc_reconcile_live op_env nn (set_mc_Finalizers (mc_Default mc) fs)) t o -> decided t o.
Proof.
  unfold mc_reconcile_live, mc_mutate, mc_reconcile_validated. cbn [fst snd]. intros H. exec_step H. rename x into c, t0 into t.
  pose proof (mc_verdict_eq c fs) as Ev.
  destruct (ValidateManagementCenterSpec _ _ _) as [[e|]| |] eqn:Er; cbn [lift pbind] in H.
  - apply mc_failed_exec in H as (m & x & -> & Hp & Hm). apply (decides_rejected _ _ _ _ _ [] c e); [done|exact Ev|]. by exists m, x.
  - apply (decides_admitted _ _ _ _ _ []); [done|exact Ev|]. eexists. split; [|split; [|exact H]]; [done|].
    change (mc_Spec (mc_Default (mc_Default mc)) = mc_Spec (mc_Default mc)). by rewrite mc_Default_idem.
  - destruct H as [-> ->]. by apply (decides_panics _ _ _ _ _ []).
  - exfalso. unfold ValidateManagementCenterSpec, mc_validateSpecCurrent in Er. by destruct (mc_ExternalConnectivity _).
Qed.

Definition got_mc (e : @event hz_effects) : option (fetched ManagementCenter) :=
  match e with Ev c x => match (c : hz_op) as c return hz_ans c -> option (fetched ManagementCenter) with GetMC _ => fun x => Some x | _ => fun _ => None end x end.
Lemma mc_Reconcile_decides t o :
  exec (mc_Reconcile op_env nn) (Call (GetMC nn) (Found (mc_Default mc)) :: t) o -> decided t o.
Proof.
  unfold mc_Reconcile. intros (x & t' & E & H). pose proof (f_equal (fun l => head l ≫= got_mc) E) as Ex. cbn in Ex.
  injection Ex as <-. injection E as <-. cbn beta iota zeta in H.
  assert (forall fs, mc_Deleting (set_mc_Finalizers (mc_Default mc) fs) = false) as Ed by (intros fs; exact Hd).
  unfold mc_AddFinalizer in H. destruct (_ && _).
  - cbn [pbind] in H. exec_step H. rename x into err, t0 into t. destruct (err : option error) as [e|].
    + apply mc_failed_exec in H as (m & x & -> & Hp & _). apply decides_stops; [by repeat constructor|]. eexists _, e. by left.
    + rewrite Ed in H. apply (decides_app _ _ _ _ _ [_]); [by repeat constructor| |by eapply mc_live_decides].
      intros t' (m & e & Hi). exists m, e. by right.
  - cbn [pbind] in H. assert (mc_Deleting (mc_Default mc) = false) as Ed' by exact Hd. rewrite Ed' in H.
    apply (mc_live_decides (mc_Finalizers (mc_Default mc))).
    assert (set_mc_Finalizers (mc_Default mc) (mc_Finalizers (mc_Default mc)) = mc_Default mc) as -> by by destruct mc. exact H.
Qed.
End ManagementCenter.

(** C22. The webhooks and the controllers decide alike.  When a
    reconciliation reads a Hazelcast or Management Center resource that went
    through the defaulting webhook and is not being deleted, it goes on, with
    the specification as it is, exactly when the validating webhook admits the
    resource, as a new one or as an update of any old one, in what the API
    server shows at that time; otherwise it stores the phase Failed with the
    error of the webhook and ends, or panics when the webhook does.  Before it
    has decided it stores nothing but the resource itself; and it decides,
    unless that cannot be stored or, for Hazelcast, the specification is the
    one that was applied to a cluster that is no enterprise cluster. *)
Theorem webhook_agrees_with_controller :
  (forall h old t o, h_Deleting (cr_hz h) = false ->
     exec (Reconcile op_env frames nn) (Call (GetCR nn) (Found (Default h)) :: t) o ->
     decides hz_own (hz_stops (Default h)) (fun c => @review _ (Hazelcast_webhook c) old (Default h))
       hz_reports (hz_goes_on (Default h)) t o)
  /\ (forall mc old t o, mc_Deleting mc = false ->
     exec (mc_Reconcile op_env nn) (Call (GetMC nn) (Found (mc_Default mc)) :: t) o ->
     decides mc_own mc_stops (fun c => @review _ (ManagementCenter_webhook c (op_OpenShift op_env)) old (mc_Default mc))
       mc_reports (mc_goes_on (mc_Default mc)) t o).
Proof. split; intros; [by eapply Reconcile_decides|by eapply mc_Reconcile_decides]. Qed.
End Agreement.

(** ** Concrete runs

    A cluster that comes up, one whose license is missing, and a Management
    Center that is configured. *)

Module WebhookRuns.
Import RefProto HzRuns QuoteRuns McRuns.
#[local] Existing Instances RefProto.ref CustomRuns.tree1 HzRuns.json1 HzRuns.map_json1 HzRuns.event_json1 HzRuns.yaml_valid1
  HzRuns.secret_lib1 HzRuns.spec_json1 HzRuns.controller_util1 QuoteRuns.print_all McRuns.mc_json1 McRuns.mc_yaml1.

Definition h1 : HazelcastCR := cr1 false [] None "".
Definition unlicensed (o : @op hz_effects) (t : list (@event hz_effects)) : @ans hz_effects o :=
  match o as o return hz_ans o with
  | Observe => mkCluster (fun _ => Some not_found) (fun _ => Found ∅) (fun _ => None) (fun _ => None)
  | o => answer (Default h1) true created o t
  end.
Definition admitted_run := run (answer (Default h1) true created) (Reconcile operator1 20 nn1) [].
Definition rejected_run := run unlicensed (Reconcile operator1 20 nn1) [].
Definition m1 : ManagementCenter := mc1 McPending.
Definition mc_run := run (mc_answer (mc_Default m1)) (mc_Reconcile operator1 mc_nn) [].

Definition ended {A} (r : list (@event hz_effects) * option A) : bool := negb (is_nil r.2).
Lemma run_tail {A} (r : list (@event hz_effects) * option A) e :
  ended r = true -> head r.1 = Some e -> exists t o, r.1 = e :: t /\ r.2 = Some o.
Proof. destruct r as [[|e' t] [o|]]; cbn; intros H1 H2; try discriminate. injection H2 as ->. by exists t, o. Qed.

Definition hz_decided (h : HazelcastCR) (old : option HazelcastCR) : list (@event hz_effects) -> outcome (ctrl_Result * option error) -> Prop :=
  decides hz_own (hz_stops (Default h)) (fun c => @review _ (Hazelcast_webhook c) old (Default h)) hz_reports
    (hz_goes_on operator1 20 nn1 (Default h)).
Definition mc_decided (m : ManagementCenter) (old : option ManagementCenter) : list (@event hz_effects) -> outcome (ctrl_Result * option error) -> Prop :=
  decides mc_own mc_stops (fun c => @review _ (ManagementCenter_webhook c (op_OpenShift operator1)) old (mc_Default m)) mc_reports
    (mc_goes_on operator1 mc_nn (mc_Default m)).

Lemma webhook_agrees_witness :
  (exists t o, admitted_run = (Call (GetCR nn1) (Found (Default h1)) :: t, Some o) /\ (20 < length t)%nat /\ hz_decided h1 None t o)
  /\ (exists t o, rejected_run = (Call (GetCR nn1) (Found (Default h1)) :: t, Some o) /\ length t = 4%nat /\ hz_decided h1 (Some h1) t o)
  /\ (exists t o, mc_run = (Call (GetMC mc_nn) (Found (mc_Default m1)) :: t, Some o) /\ (10 < length t)%nat /\ mc_decided m1 None t o).
Proof.
  assert (forall {A} (r : list (@event hz_effects) * option A), r = (r.1, r.2)) as Hr by (intros A [? ?]; reflexivity).
  destruct (run_tail admitted_run (Call (GetCR nn1) (Found (Default h1)))) as (t1 & o1 & E1 & O1); [vm_compute; reflexivity|reflexivity|].
  destruct (run_tail rejected_run (Call (GetCR nn1) (Found (Default h1)))) as (t2 & o2 & E2 & O2); [vm_compute; reflexivity|reflexivity|].
  destruct (run_tail mc_run (Call (GetMC mc_nn) (Found (mc_Default m1)))) as (t3 & o3 & E3 & O3); [vm_compute; reflexivity|reflexivity|].
  split; [|split].
  - exists t1, o1. split; [rewrite (Hr _ admitted_run), E1, O1; reflexivity|]. split.
    + assert (length admitted_run.1 = 51%nat) as El by (vm_compute; reflexivity). rewrite E1 in El. cbn in El. lia.
    + apply (proj1 (webhook_agrees_with_controller operator1 20 nn1) h1 None t1 o1 eq_refl). rewrite <-E1. exact (run_exec_2 _ _ _ O1).
  - exists t2, o2. split; [rewrite (Hr _ rejected_run), E2, O2; reflexivity|]. split.
    + assert (length rejected_run.1 = 5%nat) as El by (vm_compute; reflexivity). rewrite E2 in El. by injection El.
    + apply (proj1 (webhook_agrees_with_controller operator1 20 nn1) h1 (Some h1) t2 o2 eq_refl). rewrite <-E2. exact (run_exec_2 _ _ _ O2).
  - exists t3, o3. split; [rewrite (Hr _ mc_run), E3, O3; reflexivity|]. split.
    + assert (length mc_run.1 = 15%nat) as El by (vm_compute; reflexivity). rewrite E3 in El. cbn in El. lia.
    + apply (proj2 (webhook_agrees_with_controller operator1 20 mc_nn) m1 None t3 o3 eq_refl). rewrite <-E3. exact (run_exec_2 _ _ _ O3).
Defined.
End WebhookRuns.
