(* ===== verification/PhoneHome.v ===== *)
(** * Phone home

    src/internal/phonehome/phonehome.go: the report of what the operator
    manages, and the goroutine that sends it; with what it reads of
    src/internal/util/operator_info.go and src/internal/platform/platform.go.

    Every [fill] method sets fields of its own of [PhoneHomeData]: a method is
    a program that returns them, and [newPhoneHomeData] puts the report
    together.  The report is listed with one [client.InNamespace] option for
    each watched namespace.  A nil dereference is [Crash]; in Go it ends the
    operator, since the report is made by a goroutine of its own.
    Parameters: the limits of resource requirements, [String] of a UUID, and
    the JSON text of a report ([PhoneLib]). *)

From S2P Require Import Prelude Eff HotBackup FieldValidation HazelcastTypes DataStructureTypes HazelcastValidation HazelcastValidationFacts WanTypes JetJobValidation Proto CronHotBackup HzTypes McTypes HzReconcileFacts.
#[local] Open Scope prog_scope.
#[local] Open Scope string_scope.
#[local] Open Scope list_scope.
#[local] Open Scope Z_scope.
#[export] Remove Hints hb_effects cron_effects : typeclass_instances.

(** ** src/internal/util/operator_info.go *)

(** [strings.Split] at a separator of one byte, [strings.Join] *)
Fixpoint Split (s : string) (sep : ascii) : list string :=
  match s with
  | "" => [""]
  | String a s =>
      if Ascii.eqb a sep then "" :: Split s sep
      else match Split s sep with w :: ws => String a w :: ws | [] => [String a ""] end
  end.

Definition WatchedNsTypeAll : string := "All".
Definition WatchedNsTypeMulti : string := "Multi".
Definition WatchedNsTypeSingle : string := "Single".
Definition WatchedNsTypeOwn : string := "Own".
Definition WatchedNamespaceType (operatorNamespace : string) (watchedNamespaces : list string) : string :=
  if strb operatorNamespace "" then WatchedNsTypeAll else
  match watchedNamespaces with
  | [w] =>
      if strb w "" || strb w "*" then WatchedNsTypeAll
      else if strb w operatorNamespace then WatchedNsTypeOwn else WatchedNsTypeSingle
  | _ :: _ :: _ => WatchedNsTypeMulti
  | [] => WatchedNsTypeAll
  end.

Definition n_WatchedNamespacesEnv : string := "WATCHED_NAMESPACES".
Definition n_NamespaceEnv : string := "NAMESPACE".
(** [os.Getenv] *)
Definition Getenv (o : Operator) (name : string) : string := default "" (op_Env o name).
Definition WatchedNamespaces (o : Operator) : list string := Split (Getenv o n_WatchedNamespacesEnv) ",".
Definition OperatorNamespace (o : Operator) : string := Getenv o n_NamespaceEnv.

(** [s[:len(s)-2]] panics when the name has no dash. *)
Definition DeploymentName (podName : string) : res string :=
  let s := Split podName "-" in
  if Nat.ltb (length s) 2 then Panic else Ret (String.concat "-" (take (length s - 2) s)).

(** ** src/internal/platform/platform.go *)

Definition OpenShift : string := "OpenShift".
Definition Kubernetes : string := "Kubernetes".
Definition EKS : string := "EKS".
Definition AKS : string := "AKS".
Definition GKE : string := "GKE".
Record Platform := mkPlatform { plt_Type : string; plt_Provider : string; plt_Version : string }.
Definition Platform_zero : Platform := mkPlatform "" "" "".

Definition GetDistribution (plt : Platform) : string :=
  if strb (plt_Type plt) OpenShift then OpenShift
  else if strb (plt_Provider plt) "" then Kubernetes else plt_Provider plt.

Definition provider_of_group (name : string) : option string :=
  if strb name "crd.k8s.amazonaws.com" then Some EKS
  else if strb name "networking.gke.io" then Some GKE
  else if strb name "azmon.container.insights" then Some AKS else None.
Fixpoint first_provider (groups : list string) : string :=
  match groups with
  | [] => ""
  | g :: groups => match provider_of_group g with Some p => p | None => first_provider groups end
  end.
(** The answers of the discovery client: its creation, the version of the
    server, the names of the API groups. *)
Definition GetPlatformInfo (client : option error) (version : fetched (string * string)) (groups : fetched (list string))
  : Platform * option error :=
  match client, version, groups with
  | Some e, _, _ | None, Failed e, _ | None, Found _, Failed e => (Platform_zero, Some e)
  | None, Found (major, minor), Found groups =>
      let v := (major ++ "." ++ minor)%string in
      if existsb (fun g => strb g "route.openshift.io") groups then (mkPlatform OpenShift "" v, None)
      else (mkPlatform Kubernetes (first_provider groups) v, None)
  end.
Definition FindAndSetPlatform (plt : Platform) (client : option error) (version : fetched (string * string))
  (groups : fetched (list string)) : Platform * option error :=
  match GetPlatformInfo client version groups with
  | (_, Some e) => (plt, Some e)
  | (info, None) => (info, None)
  end.

(** ** The parts of a report *)

Record ExposeExternallyUsage := mkExposeExternallyUsage {
  xe_Unisocket : Z;
  xe_Smart : Z;
  xe_DiscoveryLoadBalancer : Z;
  xe_DiscoveryNodePort : Z;
  xe_MemberNodePortExternalIP : Z;
  xe_MemberNodePortNodeName : Z;
  xe_MemberLoadBalancer : Z;
}.
Record UserCodeDeploymentUsage := mkUserCodeDeploymentUsage {
  ucd_ClientEnabled : Z;
  ucd_FromBucket : Z;
  ucd_FromConfigMap : Z;
  ucd_FromURL : Z;
}.
Record JetEngineUsage := mkJetEngineUsage { je_EnabledCount : Z; je_LosslessRestart : Z }.
Record TLSUsage := mkTLSUsage { tu_Count : Z; tu_MTLSCount : Z }.
Record Resources := mkResources { res_LimitMemory : Z; res_LimitCPU : Z }.
(** [BackupAndRestore]: what the persistence of clusters adds, and what hot
    backups add. *)
Record PersistenceUsage := mkPersistenceUsage { br_PvcCount : Z; br_RestoreEnabledCount : Z }.
Record HotBackupUsage := mkHotBackupUsage {
  br_LocalBackupCount : Z;
  br_ExternalBackupCount : Z;
  br_GoogleStorage : Z;
  br_S3 : Z;
  br_AzureBlobStorage : Z;
}.
Record McExternalConnectivityUsage := mkMcExternalConnectivityUsage {
  mec_ServiceTypeClusterIP : Z;
  mec_ServiceTypeNodePort : Z;
  mec_ServiceTypeLoadBalancer : Z;
  mec_IngressEnabledCount : Z;
  mec_RouteEnabledCount : Z;
}.
Record MapUsage := mkMapUsage {
  mu_Count : Z;
  mu_PersistenceCount : Z;
  mu_MapStoreCount : Z;
  mu_NativeMemoryCount : Z;
  mu_NearCacheCount : Z;
}.
Record CacheUsage := mkCacheUsage { cu_Count : Z; cu_PersistenceCount : Z; cu_NativeMemoryCount : Z }.
(** What [fillHazelcastMetrics] sets; nil slices are left when the clusters
    cannot be listed. *)
Record HazelcastUsage := mkHazelcastUsage {
  hu_CreatedClusterCount : Z;
  hu_CreatedEnterpriseClusterCount : Z;
  hu_CreatedMemberCount : Z;
  hu_ExecutorServiceCount : Z;
  hu_ClusterUUIDs : option (list string);
  hu_HighAvailabilityMode : option (list string);
  hu_Resources : option (list Resources);
  hu_NativeMemoryCount : Z;
  hu_SerializationCount : Z;
  hu_CustomConfigCount : Z;
  hu_SQLCount : Z;
  hu_ExposeExternally : ExposeExternallyUsage;
  hu_WANEndpointCount : Z;
  hu_Persistence : PersistenceUsage;
  hu_UserCodeDeployment : UserCodeDeploymentUsage;
  hu_JVMConfigUsage : Z;
  hu_JetEngine : JetEngineUsage;
  hu_TLS : TLSUsage;
  hu_CPSubsystem : Z;
}.
Record PhoneHomeData := mkPhoneHomeData {
  ph_OperatorID : string;
  ph_PardotID : string;
  ph_Version : string;
  ph_Uptime : Z;
  ph_K8sDistribution : string;
  ph_K8sVersion : string;
  ph_WatchedNamespaceType : string;
  ph_Hazelcast : HazelcastUsage;
  ph_CreatedMCcount : Z;
  ph_McExternalConnectivity : McExternalConnectivityUsage;
  ph_Map : MapUsage;
  ph_Cache : CacheUsage;
  ph_WanReplicationCount : Z;
  ph_WanSyncCount : Z;
  ph_HotBackup : HotBackupUsage;
  ph_MultiMapCount : Z;
  ph_ReplicatedMapCount : Z;
  ph_CronHotBackupCount : Z;
  ph_TopicCount : Z;
  ph_JetCount : Z;
  ph_JetJobSnapshotCount : Z;
  ph_TieredStorageCount : Z;
  ph_UserCodeNamespacesCount : Z;
}.
Record OperatorInfo := mkOperatorInfo {
  oi_UID : string;
  oi_PardotID : string;
  oi_Version : string;
  oi_CreatedAt : Z;        (* in nanoseconds *)
  oi_K8sDistribution : string;
  oi_K8sVersion : string;
  oi_WatchedNamespaceType : string;
}.

Definition ExposeExternallyUsage_zero := mkExposeExternallyUsage 0 0 0 0 0 0 0.
Definition HazelcastUsage_zero : HazelcastUsage :=
  mkHazelcastUsage 0 0 0 0 None None None 0 0 0 0 ExposeExternallyUsage_zero 0 (mkPersistenceUsage 0 0)
    (mkUserCodeDeploymentUsage 0 0 0 0) 0 (mkJetEngineUsage 0 0) (mkTLSUsage 0 0) 0.

(** [if b { c++ }] *)
Definition inc (b : bool) (c : Z) : Z := if b then c + 1 else c.

Section Usage.
Context `{QL : QuantityLib} `{PT : PodTypes}.

Definition xe_addUsageMetrics (e : option ExposeExternallyConfiguration) (xe : ExposeExternallyUsage) : ExposeExternallyUsage :=
  if negb (ExposeExternally_IsEnabled e) then xe else
  let lb := strb (DiscoveryK8ServiceType e) ServiceTypeLoadBalancer in
  let xe := mkExposeExternallyUsage (xe_Unisocket xe) (xe_Smart xe) (inc lb (xe_DiscoveryLoadBalancer xe))
              (inc (negb lb) (xe_DiscoveryNodePort xe)) (xe_MemberNodePortExternalIP xe) (xe_MemberNodePortNodeName xe)
              (xe_MemberLoadBalancer xe) in
  if negb (ExposeExternally_IsSmart e)
  then mkExposeExternallyUsage (xe_Unisocket xe + 1) (xe_Smart xe) (xe_DiscoveryLoadBalancer xe) (xe_DiscoveryNodePort xe)
         (xe_MemberNodePortExternalIP xe) (xe_MemberNodePortNodeName xe) (xe_MemberLoadBalancer xe)
  else
  let ma := match e with Some e => ee_MemberAccess e | None => "" end in
  let byLoadBalancer := strb ma MemberAccessLoadBalancer in
  let byNodeName := strb ma MemberAccessNodePortNodeName in
  mkExposeExternallyUsage (xe_Unisocket xe) (xe_Smart xe + 1) (xe_DiscoveryLoadBalancer xe) (xe_DiscoveryNodePort xe)
    (inc (negb byLoadBalancer && negb byNodeName) (xe_MemberNodePortExternalIP xe))
    (inc (negb byLoadBalancer && byNodeName) (xe_MemberNodePortNodeName xe)) (inc byLoadBalancer (xe_MemberLoadBalancer xe)).

(** [int] of a [uint] *)
Definition an_addUsageMetrics (wc : list WANConfig) (count : Z) : Z :=
  foldl (fun c w => int64 (c + int64 (w_PortCount w))) count wc.

Definition br_addUsageMetrics (p : option HazelcastPersistenceConfiguration) (br : PersistenceUsage) : PersistenceUsage :=
  match p with
  | None => br
  | Some p => mkPersistenceUsage (inc (negb (is_nil (p_PVC p))) (br_PvcCount br))
                (inc (Persistence_IsRestoreEnabled p) (br_RestoreEnabledCount br))
  end.
Definition ucd_addUsageMetrics (hucd : option UserCodeDeploymentConfig) (u : UserCodeDeploymentUsage) : UserCodeDeploymentUsage :=
  match hucd with
  | None => u
  | Some d => mkUserCodeDeploymentUsage (inc (default false (ud_ClientEnabled d)) (ucd_ClientEnabled u))
                (inc (UserCodeDeployment_IsBucketEnabled hucd) (ucd_FromBucket u))
                (inc (UserCodeDeployment_IsConfigMapEnabled hucd) (ucd_FromConfigMap u))
                (inc (UserCodeDeployment_IsRemoteURLsEnabled hucd) (ucd_FromURL u))
  end.
Definition cp_addUsageMetrics (cpc : option CPSubsystem) (count : Z) : Z := inc (negb (is_nil cpc)) count.
Definition j_addUsageMetrics (jc : option JVMConfiguration) (count : Z) : Z :=
  match jc with
  | None => count
  | Some c =>
      let memory := match jvm_Memory c with
                    | Some m => negb (is_nil (jm_MaxRAMPercentage m)) || negb (is_nil (jm_MinRAMPercentage m))
                                || negb (is_nil (jm_InitialRAMPercentage m))
                    | None => false
                    end in
      if memory then count + 1 else
      let gc := match jvm_GC c with Some g => negb (is_nil (gc_Logging g)) || negb (is_nil (gc_Collector g)) | None => false end in
      if gc then count + 1 else inc (Nat.ltb 0 (length (jvm_Args c))) count
  end.
Definition je_addUsageMetrics (jec : option JetEngineConfiguration) (je : JetEngineUsage) : JetEngineUsage :=
  if negb (Jet_IsEnabled jec) then je else
  let lossless := match jec with
                  | Some {| j_Instance := Some i |} => ji_LosslessRestartEnabled i
                  | _ => false
                  end in
  mkJetEngineUsage (je_EnabledCount je + 1) (inc lossless (je_LosslessRestart je)).
Definition t_addUsageMetrics (tls : option TLS) (t : TLSUsage) : TLSUsage :=
  match tls with
  | None => t
  | Some c => mkTLSUsage (tu_Count t + 1) (inc (strb (tls_MutualAuthentication c) MutualAuthenticationRequired) (tu_MTLSCount t))
  end.
Definition mec_addUsageMetrics (ec : option ExternalConnectivityConfiguration) (m : McExternalConnectivityUsage) : McExternalConnectivityUsage :=
  match ec with
  | Some c =>
      if negb (ExternalConnectivity_IsEnabled ec) then m else
      mkMcExternalConnectivityUsage
        (inc (strb (ec_Type c) ExternalConnectivityTypeClusterIP) (mec_ServiceTypeClusterIP m))
        (inc (strb (ec_Type c) ExternalConnectivityTypeNodePort) (mec_ServiceTypeNodePort m))
        (inc (strb (ec_Type c) ExternalConnectivityTypeLoadBalancer) (mec_ServiceTypeLoadBalancer m))
        (inc (negb (is_nil (ec_Ingress c))) (mec_IngressEnabledCount m))
        (inc (negb (is_nil (ec_Route c))) (mec_RouteEnabledCount m))
  | None => m
  end.
End Usage.

Class PhoneLib `{PT : PodTypes} `{P : Proto} := {
  Limits_Memory_Value : ResourceRequirements -> Z;
  Limits_Cpu_MilliValue : ResourceRequirements -> Z;
  UUID_String : UUID -> string;
  PhoneHomeData_Marshal : PhoneHomeData -> sum string error;
}.

(** ** Calls *)

Inductive ph_kind :=
| PHazelcast | PManagementCenter | PMap | PCache | PHotBackup
| PWanReplication | PWanSync | PMultiMap | PReplicatedMap | PCronHotBackup | PTopic | PJetJob | PJetJobSnapshot
| PUserCodeNamespace.

Section Calls.
Context `{QL : QuantityLib} `{PT : PodTypes} `{P : Proto}.

Definition ph_obj (k : ph_kind) : Type :=
  match k with
  | PHazelcast => HazelcastCR
  | PManagementCenter => ManagementCenter
  | PMap => Map
  | PCache => Cache
  | PHotBackup => HotBackup
  | PWanReplication => WanReplication
  | PWanSync => WanSync
  | PMultiMap => MultiMap
  | PReplicatedMap => ReplicatedMap
  | PCronHotBackup => CronHotBackup
  | PTopic => Topic
  | PJetJob => JetJob
  | PJetJobSnapshot => JetJobSnapshot
  | PUserCodeNamespace => UserCodeNamespace
  end.
Inductive ph_op :=
| ListP (k : ph_kind) (namespaces : list string)   (* one [client.InNamespace] option each *)
| GetOrCreateP (nn : NamespacedName)
| ClusterIdP (nn : NamespacedName)
| NowP
| PostP (body : string).
Definition ph_ans (o : ph_op) : Type :=
  match o with
  | ListP k _ => fetched (list (ph_obj k))
  | GetOrCreateP _ => fetched bool                 (* is there a client, when there is no error *)
  | ClusterIdP _ => UUID
  | NowP => Z
  | PostP _ => option error
  end.
#[global] Instance ph_effects : Effects := {| op := ph_op; ans := ph_ans |}.
End Calls.
#[export] Remove Hints ph_effects : typeclass_instances.

Section PhoneHome.
Context `{QL : QuantityLib} `{PT : PodTypes} `{P : Proto} `{PL : !PhoneLib} (env : Operator).
#[local] Existing Instance ph_effects.
#[local] Abbreviation pprog := (@prog ph_effects).
Implicit Types h : HazelcastCR.

Definition listOptions : list string :=
  if strb (WatchedNamespaceType (OperatorNamespace env) (WatchedNamespaces env)) WatchedNsTypeAll then [] else WatchedNamespaces env.

(** ** Clusters *)

Definition newResources h : Resources :=
  match x_Resources (cr_more h) with
  | None => mkResources 0 0
  | Some r => mkResources (Limits_Memory_Value r) (Limits_Cpu_MilliValue r)
  end.
(** A method of a nil client panics. *)
Definition ClusterUUID (nn : NamespacedName) : pprog (option string) :=
  ask hzcl <- GetOrCreateP nn ;;
  match (hzcl : fetched bool) with
  | Failed _ => Done None
  | Found false => Crash
  | Found true =>
      ask cid <- ClusterIdP nn ;;
      Done (if UUID_Default (cid : UUID) then None else Some (UUID_String cid))
  end.
Definition snoc {A} (o : option (list A)) (a : A) : option (list A) := (fun l => l ++ [a]) <$> o.
(** What a cluster adds before it is asked for its identifier. *)
Definition add_hazelcast h (m : HazelcastUsage) : res HazelcastUsage :=
  let s := cr_spec h in
  match s_ClusterSize s with
  | None => Panic
  | Some size =>
      Ret (mkHazelcastUsage (hu_CreatedClusterCount m) (hu_CreatedEnterpriseClusterCount m + 1)
        (int64 (hu_CreatedMemberCount m + size))
        (hu_ExecutorServiceCount m + (Z.of_nat (length (s_ExecutorServices s)) + Z.of_nat (length (s_DurableExecutorServices s))
           + Z.of_nat (length (s_ScheduledExecutorServices s))))
        (hu_ClusterUUIDs m) (snoc (hu_HighAvailabilityMode m) (s_HighAvailabilityMode s)) (snoc (hu_Resources m) (newResources h))
        (inc (NativeMemory_IsEnabled (s_NativeMemory s)) (hu_NativeMemoryCount m))
        (inc (negb (is_nil (s_Serialization s))) (hu_SerializationCount m))
        (inc (negb (strb (s_CustomConfigCmName s) "")) (hu_CustomConfigCount m))
        (inc (negb (is_nil (s_SQL s))) (hu_SQLCount m))
        (xe_addUsageMetrics (s_ExposeExternally s) (hu_ExposeExternally m))
        (match s_AdvancedNetwork s with Some an => an_addUsageMetrics (an_WAN an) (hu_WANEndpointCount m) | None => hu_WANEndpointCount m end)
        (br_addUsageMetrics (s_Persistence s) (hu_Persistence m))
        (ucd_addUsageMetrics (s_DeprecatedUserCodeDeployment s) (hu_UserCodeDeployment m))
        (j_addUsageMetrics (s_JVM s) (hu_JVMConfigUsage m)) (je_addUsageMetrics (s_JetEngineConfiguration s) (hu_JetEngine m))
        (t_addUsageMetrics (s_TLS s) (hu_TLS m)) (cp_addUsageMetrics (s_CPSubsystem s) (hu_CPSubsystem m)))
  end.
Definition add_uuid (m : HazelcastUsage) (cid : string) : HazelcastUsage :=
  mkHazelcastUsage (hu_CreatedClusterCount m) (hu_CreatedEnterpriseClusterCount m) (hu_CreatedMemberCount m)
    (hu_ExecutorServiceCount m) (snoc (hu_ClusterUUIDs m) cid) (hu_HighAvailabilityMode m) (hu_Resources m)
    (hu_NativeMemoryCount m) (hu_SerializationCount m) (hu_CustomConfigCount m) (hu_SQLCount m) (hu_ExposeExternally m)
    (hu_WANEndpointCount m) (hu_Persistence m) (hu_UserCodeDeployment m) (hu_JVMConfigUsage m) (hu_JetEngine m) (hu_TLS m)
    (hu_CPSubsystem m).
Definition with_lists (m : HazelcastUsage) : HazelcastUsage :=
  mkHazelcastUsage (hu_CreatedClusterCount m) (hu_CreatedEnterpriseClusterCount m) (hu_CreatedMemberCount m)
    (hu_ExecutorServiceCount m) (Some []) (Some []) (Some [])
    (hu_NativeMemoryCount m) (hu_SerializationCount m) (hu_CustomConfigCount m) (hu_SQLCount m) (hu_ExposeExternally m)
    (hu_WANEndpointCount m) (hu_Persistence m) (hu_UserCodeDeployment m) (hu_JVMConfigUsage m) (hu_JetEngine m) (hu_TLS m)
    (hu_CPSubsystem m).
Fixpoint add_hazelcasts (items : list HazelcastCR) (m : HazelcastUsage) : pprog HazelcastUsage :=
  match items with
  | [] => Done m
  | h :: items =>
      match add_hazelcast h m with
      | Ret m =>
          cid <- ClusterUUID (cr_key h) ;;
          add_hazelcasts items (match cid with Some c => add_uuid m c | None => m end)
      | _ => Crash
      end
  end.
Definition fillHazelcastMetrics : pprog HazelcastUsage :=
  ask hzl <- ListP PHazelcast listOptions ;;
  match (hzl : fetched (list HazelcastCR)) with
  | Failed _ => Done HazelcastUsage_zero
  | Found items => add_hazelcasts items (with_lists HazelcastUsage_zero)
  end.

(** ** The other resources *)

(** The loops that only count: a listing that fails leaves the zero value. *)
Definition fill {A} (k : ph_kind) (zero : A) (add : ph_obj k -> A -> A) : pprog A :=
  ask l <- ListP k listOptions ;;
  Done (match (l : fetched (list (ph_obj k))) with Failed _ => zero | Found items => foldl (fun a x => add x a) zero items end).

Definition add_mc (mc : ManagementCenter) (m : Z * McExternalConnectivityUsage) : Z * McExternalConnectivityUsage :=
  (m.1 + 1, mec_addUsageMetrics (mc_ExternalConnectivity (mc_Spec mc)) m.2).
Definition fillMCMetrics : pprog (Z * McExternalConnectivityUsage) :=
  fill PManagementCenter (0, mkMcExternalConnectivityUsage 0 0 0 0 0) add_mc.

Definition add_map (m : Map) (u : MapUsage) : MapUsage :=
  let s := r_Spec m in
  mkMapUsage (mu_Count u + 1) (inc (m_PersistenceEnabled s) (mu_PersistenceCount u))
    (inc (negb (is_nil (m_MapStore s))) (mu_MapStoreCount u))
    (inc (strb (m_InMemoryFormat s) InMemoryFormatNative) (mu_NativeMemoryCount u))
    (inc (negb (is_nil (m_NearCache s))) (mu_NearCacheCount u)).
Definition fillMapMetrics : pprog MapUsage := fill PMap (mkMapUsage 0 0 0 0 0) add_map.

Definition add_cache (c : Cache) (u : CacheUsage) : CacheUsage :=
  let s := r_Spec c in
  mkCacheUsage (cu_Count u + 1) (inc (c_PersistenceEnabled s) (cu_PersistenceCount u))
    (inc (strb (c_InMemoryFormat s) InMemoryFormatNative) (cu_NativeMemoryCount u)).
Definition fillCacheMetrics : pprog CacheUsage := fill PCache (mkCacheUsage 0 0 0) add_cache.

Definition add_hot_backup (hb : HotBackup) (u : HotBackupUsage) : HotBackupUsage :=
  let uri := hb_BucketURI (hb_Spec hb) in
  let s3 := String.prefix "s3" uri in
  let gs := negb s3 && String.prefix "gs" uri in
  let azblob := negb s3 && negb gs && String.prefix "azblob" uri in
  let external := HotBackupSpec_IsExternal (hb_Spec hb) in
  mkHotBackupUsage (inc (negb external) (br_LocalBackupCount u)) (inc external (br_ExternalBackupCount u))
    (inc gs (br_GoogleStorage u)) (inc s3 (br_S3 u)) (inc azblob (br_AzureBlobStorage u)).
Definition fillHotBackupMetrics : pprog HotBackupUsage := fill PHotBackup (mkHotBackupUsage 0 0 0 0 0) add_hot_backup.

(** The kinds whose items are only counted. *)
Definition fill_count (k : ph_kind) : pprog Z :=
  ask l <- ListP k listOptions ;;
  Done (match (l : fetched (list (ph_obj k))) with Failed _ => 0 | Found items => Z.of_nat (length items) end).
Definition fillWanReplicationMetrics : pprog Z := fill_count PWanReplication.
Definition fillWanSyncMetrics : pprog Z := fill_count PWanSync.
Definition fillMultiMapMetrics : pprog Z := fill_count PMultiMap.
Definition fillReplicatedMapMetrics : pprog Z := fill_count PReplicatedMap.
Definition fillCronHotBackupMetrics : pprog Z := fill_count PCronHotBackup.
Definition fillTopicMetrics : pprog Z := fill_count PTopic.
Definition fillJetMetrics : pprog Z := fill_count PJetJob.
Definition fillSnapshotMetrics : pprog Z := fill_count PJetJobSnapshot.
Definition fillUCNMetrics : pprog Z := fill_count PUserCodeNamespace.
Definition fillTieredStorageMetrics : pprog Z :=
  fill PMap 0 (fun (m : Map) c => inc (negb (is_nil (m_TieredStore (r_Spec m)))) c).

(** ** The report *)

(** [time.Now().Sub(t)], which saturates, and [Milliseconds] *)
Definition upTime (now t : Z) : Z := Z.max (- 2 ^ 63) (Z.min (2 ^ 63 - 1) (now - t)).
Definition Milliseconds (d : Z) : Z := Z.quot d 1000000.
Definition newPhoneHomeData (info : OperatorInfo) : pprog PhoneHomeData :=
  ask now <- NowP ;;
  hazelcast <- fillHazelcastMetrics ;;
  mc <- fillMCMetrics ;;
  map <- fillMapMetrics ;;
  cache <- fillCacheMetrics ;;
  wanReplication <- fillWanReplicationMetrics ;;
  wanSync <- fillWanSyncMetrics ;;
  hotBackup <- fillHotBackupMetrics ;;
  multiMap <- fillMultiMapMetrics ;;
  replicatedMap <- fillReplicatedMapMetrics ;;
  cronHotBackup <- fillCronHotBackupMetrics ;;
  topic <- fillTopicMetrics ;;
  jet <- fillJetMetrics ;;
  snapshot <- fillSnapshotMetrics ;;
  tiered <- fillTieredStorageMetrics ;;
  ucn <- fillUCNMetrics ;;
  Done (mkPhoneHomeData (oi_UID info) (oi_PardotID info) (oi_Version info) (Milliseconds (upTime now (oi_CreatedAt info)))
    (oi_K8sDistribution info) (oi_K8sVersion info) (oi_WatchedNamespaceType info) hazelcast mc.1 mc.2 map cache
    wanReplication wanSync hotBackup multiMap replicatedMap cronHotBackup topic jet snapshot tiered ucn).
(** A report that cannot be written or sent is dropped. *)
Definition PhoneHome (info : OperatorInfo) : pprog unit :=
  phd <- newPhoneHomeData info ;;
  match PhoneHomeData_Marshal phd with
  | inr _ => Done tt
  | inl jsn => do_ PostP jsn ;; Done tt
  end.
End PhoneHome.

(** ** Names of deployments, platforms, namespaces *)

Lemma Split_not_nil s sep : Split s sep <> [].
Proof. destruct s as [|a s]; cbn [Split]; [done|]. destruct (Ascii.eqb a sep); [done|]. by destruct (Split s sep). Qed.
Lemma Split_app a b sep : Split (a ++ String sep b) sep = Split a sep ++ Split b sep.
Proof.
  induction a as [|c a IH].
  { change ((if Ascii.eqb sep sep then "" :: Split b sep else match Split b sep with w :: ws => String sep w :: ws | [] => [String sep ""] end)
      = "" :: Split b sep). by rewrite Ascii.eqb_refl. }
  change (String c a +:+ String sep b) with (String c (a +:+ String sep b)). cbn [Split].
  destruct (Ascii.eqb c sep); [by rewrite IH|]. rewrite IH.
  pose proof (Split_not_nil a sep). by destruct (Split a sep).
Qed.
Lemma concat_Split s sep : String.concat (String sep "") (Split s sep) = s.
Proof.
  induction s as [|a s IH]; cbn [Split]; [done|]. pose proof (Split_not_nil s sep) as Hn. destruct (Ascii.eqb a sep) eqn:E.
  - apply Ascii.eqb_eq in E as ->. destruct (Split s sep) as [|w ws]; [done|]. by rewrite <-IH.
  - destruct (Split s sep) as [|w ws]; [done|]. rewrite <-IH. by destruct ws.
Qed.
Fixpoint has_char (a : ascii) (s : string) : bool := match s with "" => false | String b s => Ascii.eqb b a || has_char a s end.
Lemma Split_single s sep : has_char sep s = false -> Split s sep = [s].
Proof. induction s as [|a s IH]; cbn [Split has_char]; [done|]. intros [-> Hs]%orb_false_iff. by rewrite IH. Qed.

(** The deployment of a pod: the name of the pod without the suffixes of the
    replica set and of the pod. *)
Theorem deployment_of_pod deployment replicaSet pod :
  has_char "-" replicaSet = false -> has_char "-" pod = false ->
  DeploymentName (deployment ++ "-" ++ replicaSet ++ "-" ++ pod) = Ret deployment.
Proof.
  intros Hr Hp. unfold DeploymentName.
  change (deployment ++ "-" ++ replicaSet ++ "-" ++ pod)%string with (deployment +:+ String "-" (replicaSet +:+ String "-" pod)).
  rewrite Split_app, Split_app, (Split_single replicaSet), (Split_single pod) by done.
  rewrite !length_app. cbn [length]. destruct (Nat.ltb_spec (length (Split deployment "-") + (1 + 1)) 2); [lia|].
  rewrite take_app_le, take_ge by lia. f_equal. apply concat_Split.
Qed.

(** The platform is OpenShift exactly when its API group is served, whatever
    else is; otherwise the provider is the one of the first group that tells. *)
Theorem platform_detected groups major minor :
  let p := (GetPlatformInfo None (Found (major, minor)) (Found groups)).1 in
  (plt_Type p = OpenShift <-> "route.openshift.io" ∈ groups)
  /\ (plt_Type p <> OpenShift -> plt_Type p = Kubernetes
      /\ forall l1 g l2, groups = l1 ++ g :: l2 -> (forall g', g' ∈ l1 -> provider_of_group g' = None) ->
           forall q, provider_of_group g = Some q -> GetDistribution p = q).
Proof.
  cbn. destruct (existsb _ groups) eqn:E; cbn.
  - split; [|done]. split; [|done]. intros _. apply existsb_exists in E as (g & Hg & ->%strb_true). by apply list_elem_of_In.
  - split.
    + split; [done|]. intros Hin%list_elem_of_In. exfalso. assert (existsb (fun g => strb g "route.openshift.io") groups = true) as Ht
        by (apply existsb_exists; exists "route.openshift.io"; split; [done|by apply strb_true]). congruence.
    + intros _. split; [done|]. intros l1 g l2 -> Hl1 q Hq. assert (first_provider (l1 ++ g :: l2) = q) as Hf.
      { clear E. induction l1 as [|g' l1 IH]; cbn; [by rewrite Hq|]. rewrite Hl1 by left. apply IH. intros g'' Hg. apply Hl1. by right. }
      assert (q = EKS \/ q = GKE \/ q = AKS) as Hqs by (unfold provider_of_group in Hq; repeat case_match; simplify_eq; auto).
      unfold GetDistribution. cbn. rewrite Hf. by destruct Hqs as [->|[->| ->]].
Qed.

(** ** What is reported *)

(** The number of elements with a property. *)
Definition cnt {A} (p : A -> bool) (l : list A) : Z := Z.of_nat (length (List.filter p l)).
Definition zsum (l : list Z) : Z := foldr Z.add 0 l.

Lemma cnt_snoc {A} (p : A -> bool) l x : cnt p (l ++ [x]) = inc (p x) (cnt p l).
Proof. unfold cnt, inc. rewrite List.filter_app, length_app. cbn. destruct (p x); cbn; lia. Qed.
Lemma zsum_snoc l x : zsum (l ++ [x]) = zsum l + x.
Proof. unfold zsum. induction l as [|y l IH]; cbn in *; lia. Qed.
Lemma zsum_app l1 l2 : zsum (l1 ++ l2) = zsum l1 + zsum l2.
Proof. unfold zsum. induction l1 as [|y l IH]; cbn in *; lia. Qed.
Lemma length_snoc {A} (l : list A) x : Z.of_nat (length (l ++ [x])) = Z.of_nat (length l) + 1.
Proof. rewrite length_app. cbn. lia. Qed.
(** A loop computes what it computes for lists that grow at the end. *)
Lemma foldl_grows {A B} (f : A -> B -> A) (g : list B -> A) : (forall l x, f (g l) x = g (l ++ [x])) ->
  forall l l', foldl f (g l') l = g (l' ++ l).
Proof. intros H l. induction l as [|x l IH]; intros l'; cbn; [by rewrite app_nil_r|]. by rewrite H, IH, <-app_assoc. Qed.

Section Report.
Context `{QL : QuantityLib} `{PT : PodTypes} `{P : Proto} `{PL : !PhoneLib} (env : Operator).
#[local] Existing Instance ph_effects.
Implicit Types h : HazelcastCR.

(** The reference: the report as counts over the lists. *)
Definition with_spec (f : HazelcastSpec -> bool) h : bool := f (cr_spec h).
Definition exposed (f : option ExposeExternallyConfiguration -> bool) (s : HazelcastSpec) : bool :=
  ExposeExternally_IsEnabled (s_ExposeExternally s) && f (s_ExposeExternally s).
Definition access (e : option ExposeExternallyConfiguration) : string := match e with Some e => ee_MemberAccess e | None => "" end.
Definition exposed_usage (l : list HazelcastCR) : ExposeExternallyUsage :=
  let n f := cnt (with_spec (exposed f)) l in
  let smart e := ExposeExternally_IsSmart e in
  let lb e := strb (access e) MemberAccessLoadBalancer in
  let node e := strb (access e) MemberAccessNodePortNodeName in
  mkExposeExternallyUsage (n (fun e => negb (smart e))) (n smart)
    (n (fun e => strb (DiscoveryK8ServiceType e) ServiceTypeLoadBalancer))
    (n (fun e => negb (strb (DiscoveryK8ServiceType e) ServiceTypeLoadBalancer)))
    (n (fun e => smart e && negb (lb e) && negb (node e))) (n (fun e => smart e && negb (lb e) && node e)) (n (fun e => smart e && lb e)).
Definition wan_ports h : Z :=
  match s_AdvancedNetwork (cr_spec h) with Some an => zsum ((fun w => int64 (w_PortCount w)) <$> an_WAN an) | None => 0 end.
Definition executors h : Z :=
  let s := cr_spec h in
  Z.of_nat (length (s_ExecutorServices s) + length (s_DurableExecutorServices s) + length (s_ScheduledExecutorServices s)).
Definition jvm_configured (c : option JVMConfiguration) : bool :=
  match c with
  | Some c =>
      match jvm_Memory c with
      | Some m => negb (is_nil (jm_InitialRAMPercentage m) && is_nil (jm_MinRAMPercentage m) && is_nil (jm_MaxRAMPercentage m))
      | None => false
      end
      || match jvm_GC c with Some g => negb (is_nil (gc_Logging g) && is_nil (gc_Collector g)) | None => false end
      || negb (bool_decide (jvm_Args c = []))
  | None => false
  end.
Definition lossless (j : option JetEngineConfiguration) : bool :=
  match j with Some {| j_Instance := Some i |} => ji_LosslessRestartEnabled i | _ => false end.
Definition mutual (t : option TLS) : bool :=
  match t with Some t => strb (tls_MutualAuthentication t) MutualAuthenticationRequired | None => false end.
Definition client_enabled (u : option UserCodeDeploymentConfig) : bool :=
  match u with Some u => bool_decide (ud_ClientEnabled u = Some true) | None => false end.
Definition hazelcast_report (l : list HazelcastCR) (uuids : list string) : HazelcastUsage :=
  let n f := cnt (with_spec f) l in
  mkHazelcastUsage 0 (Z.of_nat (length l)) (int64 (zsum ((fun h => default 0 (s_ClusterSize (cr_spec h))) <$> l)))
    (zsum (executors <$> l)) (Some uuids) (Some ((fun h => s_HighAvailabilityMode (cr_spec h)) <$> l)) (Some (newResources <$> l))
    (n (fun s => NativeMemory_IsEnabled (s_NativeMemory s))) (n (fun s => negb (is_nil (s_Serialization s))))
    (n (fun s => negb (strb (s_CustomConfigCmName s) ""))) (n (fun s => negb (is_nil (s_SQL s))))
    (exposed_usage l) (int64 (zsum (wan_ports <$> l)))
    (mkPersistenceUsage (n (fun s => match s_Persistence s with Some p => negb (is_nil (p_PVC p)) | None => false end))
       (n (fun s => match s_Persistence s with Some p => Persistence_IsRestoreEnabled p | None => false end)))
    (mkUserCodeDeploymentUsage (n (fun s => client_enabled (s_DeprecatedUserCodeDeployment s)))
       (n (fun s => UserCodeDeployment_IsBucketEnabled (s_DeprecatedUserCodeDeployment s)))
       (n (fun s => UserCodeDeployment_IsConfigMapEnabled (s_DeprecatedUserCodeDeployment s)))
       (n (fun s => UserCodeDeployment_IsRemoteURLsEnabled (s_DeprecatedUserCodeDeployment s))))
    (n (fun s => jvm_configured (s_JVM s)))
    (mkJetEngineUsage (n (fun s => Jet_IsEnabled (s_JetEngineConfiguration s)))
       (n (fun s => Jet_IsEnabled (s_JetEngineConfiguration s) && lossless (s_JetEngineConfiguration s))))
    (mkTLSUsage (n (fun s => negb (is_nil (s_TLS s)))) (n (fun s => mutual (s_TLS s)))) (n (fun s => negb (is_nil (s_CPSubsystem s)))).

Lemma exposed_snoc l h : xe_addUsageMetrics (s_ExposeExternally (cr_spec h)) (exposed_usage l) = exposed_usage (l ++ [h]).
Proof.
  unfold exposed_usage. rewrite !cnt_snoc. unfold with_spec, exposed, xe_addUsageMetrics.
  destruct (ExposeExternally_IsEnabled _); cbn; [|done]. fold (access (s_ExposeExternally (cr_spec h))).
  destruct (ExposeExternally_IsSmart _); cbn; [|done].
  by destruct (strb (access _) MemberAccessLoadBalancer), (strb (access _) MemberAccessNodePortNodeName).
Qed.
Lemma wan_snoc l c : an_addUsageMetrics l (int64 c) = int64 (c + zsum ((fun w => int64 (w_PortCount w)) <$> l)).
Proof.
  unfold an_addUsageMetrics. revert c. induction l as [|w l IH]; intros c; cbn; [by rewrite Z.add_0_r|].
  rewrite (swrap_add 64), IH. f_equal. unfold zsum. cbn. lia.
Qed.
Lemma jvm_snoc c n : j_addUsageMetrics c n = inc (jvm_configured c) n.
Proof.
  destruct c as [[m g args]|]; [|done]. unfold j_addUsageMetrics, jvm_configured, inc. cbn.
  destruct m as [[[] [] []]|], g as [[[] []]|], args; done.
Qed.
Lemma add_hazelcast_report h l us : s_ClusterSize (cr_spec h) <> None ->
  add_hazelcast h (hazelcast_report l us) = Ret (hazelcast_report (l ++ [h]) us).
Proof.
  intros Hs. unfold add_hazelcast. destruct (s_ClusterSize (cr_spec h)) as [size|] eqn:Es; [|done]. f_equal.
  unfold hazelcast_report. cbn. rewrite !fmap_app, !zsum_app, !length_snoc, !cnt_snoc, exposed_snoc, (swrap_add 64), jvm_snoc. cbn. rewrite Es. cbn.
  unfold with_spec. f_equal.
  - f_equal. unfold zsum. cbn. lia.
  - unfold zsum, executors. cbn. lia.
  - set (w := wan_ports h). assert (w = match s_AdvancedNetwork (cr_spec h) with
      Some an => zsum ((fun w => int64 (w_PortCount w)) <$> an_WAN an) | None => 0 end) as Hw by done. clearbody w.
    rewrite Z.add_0_r. destruct (s_AdvancedNetwork _); subst w; [by rewrite wan_snoc|]. by rewrite Z.add_0_r.
  - by destruct (s_Persistence _).
  - destruct (s_DeprecatedUserCodeDeployment _) as [[[[]|] ? ? ?]|]; done.
  - unfold je_addUsageMetrics. by destruct (s_JetEngineConfiguration _) as [[[[]|] ? ? ? ? [] ?]|].
  - by destruct (s_TLS _).
Qed.

(** The identifiers of clusters: those of the clusters that have a client
    which knows one, in the order of the list. *)
#[local] Abbreviation trace := (list (@event (@ph_effects QL PT P))).
Inductive identified (t : trace) : list HazelcastCR -> list string -> Prop :=
| id_nil : identified t [] []
| id_failed l us h e : identified t l us -> Ev (GetOrCreateP (cr_key h)) (Failed e) ∈ t -> identified t (l ++ [h]) us
| id_unknown l us h u : identified t l us -> Ev (ClusterIdP (cr_key h)) u ∈ t -> UUID_Default u = true -> identified t (l ++ [h]) us
| id_known l us h u : identified t l us -> Ev (ClusterIdP (cr_key h)) u ∈ t -> UUID_Default u = false ->
    identified t (l ++ [h]) (us ++ [UUID_String u]).
Lemma identified_mono t t' l us : t ⊆ t' -> identified t l us -> identified t' l us.
Proof. intros Ht. induction 1; [constructor|eapply id_failed|eapply id_unknown|eapply id_known]; eauto. Qed.

Lemma ClusterUUID_exec h t r l us t0 : exec (ClusterUUID (cr_key h)) t (Returned r) -> identified t0 l us -> t ⊆ t0 ->
  identified t0 (l ++ [h]) (us ++ match r with Some u => [u] | None => [] end).
Proof.
  intros H Hi Ht. unfold ClusterUUID in H. destruct H as ([[]|e] & t' & -> & H).
  - destruct H as (u & t1 & -> & [-> [= Hr]]). assert (Ev (ClusterIdP (cr_key h)) u ∈ t0) by (apply Ht; right; left).
    destruct (UUID_Default u) eqn:E; subst r; [rewrite app_nil_r; by eapply id_unknown|by eapply id_known].
  - by destruct H.
  - destruct H as [-> [= ->]]. rewrite app_nil_r. eapply id_failed; [done|]. apply Ht. left.
Qed.
Lemma add_uuid_report l us u : add_uuid (hazelcast_report l us) u = hazelcast_report l (us ++ [u]).
Proof. done. Qed.
Lemma add_hazelcasts_exec items l us t m t0 : exec (add_hazelcasts items (hazelcast_report l us)) t (Returned m) ->
  identified t0 l us -> t ⊆ t0 -> exists us', identified t0 (l ++ items) us' /\ m = hazelcast_report (l ++ items) us'.
Proof.
  revert l us t. induction items as [|h items IH]; intros l us t H Hi Ht; cbn [add_hazelcasts] in H.
  { destruct H as [-> [= ->]]. exists us. by rewrite app_nil_r. }
  destruct (s_ClusterSize (cr_spec h)) as [size|] eqn:Es; [|by unfold add_hazelcast in H; rewrite Es in H; destruct H].
  rewrite add_hazelcast_report in H by congruence. exec_step H. rewrite cons_middle, app_assoc.
  apply (ClusterUUID_exec h _ _ l us t0) in He; [|done|set_solver].
  apply (IH _ (us ++ match a with Some u => [u] | None => [] end) t2); [|done|set_solver].
  destruct a; [by rewrite <-add_uuid_report|by rewrite app_nil_r].
Qed.

(** A part of the report is what a list says, or zero if there is no list. *)
Definition of_list {A} (t : trace) (k : ph_kind) (zero : A) (f : list (ph_obj k) -> A) (a : A) : Prop :=
  exists got, Ev (ListP k (listOptions env)) got ∈ t
  /\ a = match (got : fetched (list (ph_obj k))) with Failed _ => zero | Found items => f items end.
Lemma fill_exec {A} k (zero : A) add f t a : exec (fill env k zero add) t (Returned a) ->
  (forall l x, add x (f l) = f (l ++ [x])) -> f [] = zero -> of_list t k zero f a.
Proof.
  intros (got & t' & -> & [-> [= ->]]) Hf Hz. exists got. split; [left|]. destruct got as [items|e]; [|done].
  rewrite <-Hz. by apply (foldl_grows (fun a x => add x a) f (fun l x => Hf l x) items []).
Qed.
Lemma fill_count_exec k t n : exec (fill_count env k) t (Returned n) -> of_list t k 0 (fun l => Z.of_nat (length l)) n.
Proof. intros (got & t' & -> & [-> [= ->]]). exists got. split; [left|done]. Qed.
Lemma of_list_mono {A} t t' k (zero : A) f a : of_list t k zero f a -> t ⊆ t' -> of_list t' k zero f a.
Proof. intros (got & Hin & Ha) Ht. exists got. auto. Qed.

Definition reached (f : ExternalConnectivityConfiguration -> bool) (mc : ManagementCenter) : bool :=
  match mc_ExternalConnectivity (mc_Spec mc) with Some c => ExternalConnectivity_IsEnabled (Some c) && f c | None => false end.
Definition mc_report (l : list ManagementCenter) : Z * McExternalConnectivityUsage :=
  (Z.of_nat (length l),
   mkMcExternalConnectivityUsage (cnt (reached (fun c => strb (ec_Type c) ExternalConnectivityTypeClusterIP)) l)
     (cnt (reached (fun c => strb (ec_Type c) ExternalConnectivityTypeNodePort)) l)
     (cnt (reached (fun c => strb (ec_Type c) ExternalConnectivityTypeLoadBalancer)) l)
     (cnt (reached (fun c => negb (is_nil (ec_Ingress c)))) l) (cnt (reached (fun c => negb (is_nil (ec_Route c)))) l)).
Definition map_report (l : list Map) : MapUsage :=
  let n f := cnt (fun m : Map => f (r_Spec m)) l in
  mkMapUsage (Z.of_nat (length l)) (n m_PersistenceEnabled) (n (fun s => negb (is_nil (m_MapStore s))))
    (n (fun s => strb (m_InMemoryFormat s) InMemoryFormatNative)) (n (fun s => negb (is_nil (m_NearCache s)))).
Definition cache_report (l : list Cache) : CacheUsage :=
  let n f := cnt (fun c : Cache => f (r_Spec c)) l in
  mkCacheUsage (Z.of_nat (length l)) (n c_PersistenceEnabled) (n (fun s => strb (c_InMemoryFormat s) InMemoryFormatNative)).
Definition hot_backup_report (l : list HotBackup) : HotBackupUsage :=
  let n f := cnt (fun hb => f (hb_BucketURI (hb_Spec hb))) l in
  mkHotBackupUsage (n (fun uri => strb uri "")) (n (fun uri => negb (strb uri "")))
    (n (String.prefix "gs")) (n (String.prefix "s3")) (n (String.prefix "azblob")).
Definition tiered_report (l : list Map) : Z := cnt (fun m : Map => negb (is_nil (m_TieredStore (r_Spec m)))) l.

Lemma mc_grows l mc : add_mc mc (mc_report l) = mc_report (l ++ [mc]).
Proof.
  unfold add_mc, mc_report. cbn. rewrite length_snoc, !cnt_snoc. unfold mec_addUsageMetrics, reached.
  destruct (mc_ExternalConnectivity _); [|done]. by destruct (ExternalConnectivity_IsEnabled _).
Qed.
Lemma map_grows l m : add_map m (map_report l) = map_report (l ++ [m]).
Proof. unfold map_report. by rewrite length_snoc, !cnt_snoc. Qed.
Lemma cache_grows l c : add_cache c (cache_report l) = cache_report (l ++ [c]).
Proof. unfold cache_report. by rewrite length_snoc, !cnt_snoc. Qed.
(** The schemes exclude each other. *)
Lemma prefix_first a b s uri : String.prefix (String a s) uri = true -> a <> b -> forall s', String.prefix (String b s') uri = false.
Proof. destruct uri as [|c uri]; [done|]. cbn. intros H Hne s'. destruct (ascii_dec a c), (ascii_dec b c); congruence. Qed.
Lemma hot_backup_grows l hb : add_hot_backup hb (hot_backup_report l) = hot_backup_report (l ++ [hb]).
Proof.
  unfold hot_backup_report, add_hot_backup. rewrite !cnt_snoc. cbn [br_LocalBackupCount br_ExternalBackupCount br_GoogleStorage br_S3 br_AzureBlobStorage].
  unfold HotBackupSpec_IsExternal. rewrite negb_involutive. f_equal.
  - destruct (String.prefix "s3" _) eqn:E; [|done]. by rewrite (prefix_first _ "g" _ _ E).
  - destruct (String.prefix "s3" _) eqn:E; [by rewrite (prefix_first _ "a" _ _ E)|].
    destruct (String.prefix "gs" _) eqn:E'; [by rewrite (prefix_first _ "a" _ _ E')|done].
Qed.

#[local] Ltac in_trace := let x := fresh in let Hx := fresh in intros x Hx; right; repeat (apply elem_of_app; first [by left|right]).
Definition of_clusters (t : trace) (m : HazelcastUsage) : Prop :=
  exists got, Ev (ListP PHazelcast (listOptions env)) got ∈ t
  /\ match (got : fetched (list HazelcastCR)) with
     | Failed _ => m = HazelcastUsage_zero
     | Found items => exists us, identified t items us /\ m = hazelcast_report items us
     end.
Lemma fillHazelcastMetrics_exec t t0 m : exec (fillHazelcastMetrics env) t (Returned m) -> t ⊆ t0 -> of_clusters t0 m.
Proof.
  intros (got & t' & -> & H) Ht. exists got. split; [apply Ht; left|]. destruct got as [items|e]; [|by destruct H as [_ [= ->]]].
  change (with_lists HazelcastUsage_zero) with (hazelcast_report [] []) in H.
  apply (add_hazelcasts_exec items [] [] t' m t0 H); [constructor|]. intros x Hx. apply Ht. by right.
Qed.
(** C29. The report is exact: every part of it is made of one list of the
    resources in the watched namespaces, or is zero when that list could not be
    read; the counters are the numbers of resources with the property they
    count, and every identifier is one that the client of a listed cluster
    gave. *)
Theorem phone_home_exact info (t : trace) phd : exec (newPhoneHomeData env info) t (Returned phd) ->
  of_clusters t (ph_Hazelcast phd)
  /\ of_list t PManagementCenter (0, mkMcExternalConnectivityUsage 0 0 0 0 0) mc_report (ph_CreatedMCcount phd, ph_McExternalConnectivity phd)
  /\ of_list t PMap (mkMapUsage 0 0 0 0 0) map_report (ph_Map phd) /\ of_list t PMap 0 tiered_report (ph_TieredStorageCount phd)
  /\ of_list t PCache (mkCacheUsage 0 0 0) cache_report (ph_Cache phd)
  /\ of_list t PHotBackup (mkHotBackupUsage 0 0 0 0 0) hot_backup_report (ph_HotBackup phd)
  /\ Forall (fun '(k, n) => of_list t k 0 (fun l => Z.of_nat (length l)) n)
       [(PWanReplication, ph_WanReplicationCount phd); (PWanSync, ph_WanSyncCount phd); (PMultiMap, ph_MultiMapCount phd);
        (PReplicatedMap, ph_ReplicatedMapCount phd); (PCronHotBackup, ph_CronHotBackupCount phd); (PTopic, ph_TopicCount phd);
        (PJetJob, ph_JetCount phd); (PJetJobSnapshot, ph_JetJobSnapshotCount phd); (PUserCodeNamespace, ph_UserCodeNamespacesCount phd)].
Proof.
  intros H. destruct H as (now & t' & -> & H). unfold newPhoneHomeData in H.
  do 15 exec_step H. destruct H as [-> [= ->]]. cbn [ph_Hazelcast ph_CreatedMCcount ph_McExternalConnectivity ph_Map ph_TieredStorageCount ph_Cache
    ph_HotBackup ph_WanReplicationCount ph_WanSyncCount ph_MultiMapCount ph_ReplicatedMapCount ph_CronHotBackupCount ph_TopicCount ph_JetCount
    ph_JetJobSnapshotCount ph_UserCodeNamespacesCount]. rewrite <-surjective_pairing.
  split; [by eapply fillHazelcastMetrics_exec; [exact He|in_trace]|].
  split; [by eapply of_list_mono; [eapply fill_exec; [exact He0|exact mc_grows|done]|in_trace]|].
  split; [by eapply of_list_mono; [eapply fill_exec; [exact He1|exact map_grows|done]|in_trace]|].
  split; [by eapply of_list_mono; [eapply fill_exec; [exact He12|intros l x; unfold tiered_report; by rewrite cnt_snoc|done]|in_trace]|].
  split; [by eapply of_list_mono; [eapply fill_exec; [exact He2|exact cache_grows|done]|in_trace]|].
  split; [by eapply of_list_mono; [eapply fill_exec; [exact He5|exact hot_backup_grows|done]|in_trace]|].
  repeat apply Forall_cons_2; [..|apply Forall_nil_2];
    (eapply of_list_mono; [eapply fill_count_exec; eassumption|in_trace]).
Qed.

(** Making a report panics - which ends the operator - only for a listed
    cluster whose size is not set, or for which the registry has neither a
    client nor an error. *)
Lemma add_hazelcasts_panics (items : list HazelcastCR) m (t : trace) : exec (add_hazelcasts items m) t Panicked ->
  exists h, h ∈ items /\ (s_ClusterSize (cr_spec h) = None \/ @Ev ph_effects (GetOrCreateP (cr_key h)) (Found false) ∈ t).
Proof.
  revert m t. induction items as [|h items IH]; intros m t H; cbn [add_hazelcasts] in H; [by destruct H|].
  destruct (s_ClusterSize (cr_spec h)) as [size|] eqn:Es; [|by exists h; split; [left|left]].
  unfold add_hazelcast in H. rewrite Es in H. apply exec_bind in H as [(a & t1 & t2 & -> & He & H)|[[H _]|[_ [=]]]].
  - apply IH in H as (h' & Hh & H). exists h'. split; [by right|]. destruct H as [H|H]; [by left|right]. apply elem_of_app. by right.
  - exists h. split; [left|right]. unfold ClusterUUID in H. destruct H as ([[]|e] & t' & -> & H).
    + by destruct H as (u & t1 & _ & [_ [=]]).
    + left.
    + by destruct H as [_ [=]].
Qed.
Lemma returns_fill {A} k (zero : A) add : returns (fill env k zero add).
Proof. unfold fill. auto with returns. Qed.
Lemma returns_fill_count k : returns (fill_count env k).
Proof. unfold fill_count. auto with returns. Qed.
Theorem phone_home_panics info (t : trace) : exec (newPhoneHomeData env info) t Panicked ->
  exists (items : list HazelcastCR) h, @Ev ph_effects (ListP PHazelcast (listOptions env)) (Found items) ∈ t /\ h ∈ items
  /\ (s_ClusterSize (cr_spec h) = None \/ @Ev ph_effects (GetOrCreateP (cr_key h)) (Found false) ∈ t).
Proof.
  intros (now & t' & -> & H). apply exec_bind in H as [(a & t1 & t2 & -> & He & H)|[[H _]|[_ [=]]]].
  - exfalso. revert H. match goal with |- exec ?p _ _ -> _ => assert (returns p) as Hr end.
    { repeat (apply returns_bind; [apply returns_fill || apply returns_fill_count|intros ?]). apply returns_done. }
    intros H. by apply Hr in H as [? [=]].
  - destruct H as ([items|e] & t1 & -> & H); [|by destruct H as [_ [=]]].
    apply add_hazelcasts_panics in H as (h & Hh & H). exists items, h. split; [right; left|]. split; [done|].
    destruct H as [H|H]; [by left|right]. by do 2 right.
Qed.
End Report.

(** ** When reports are made: [Start] *)

(** The channel [Trigger] (src/cmd/main.go), which controllers send to from
    goroutines of their own, and the goroutine of [Start]. *)
Definition trigger_capacity : nat := 10.
Inductive home_loop := HSelect | HSleep | HDrain | HCall.
#[export] Instance home_loop_eq_dec : EqDecision home_loop.
Proof. solve_decision. Defined.
Record home := mkHome {
  ho_senders : nat;     (* goroutines that wait to send *)
  ho_buffer : nat;
  ho_loop : home_loop;
  ho_calls : nat;       (* of [PhoneHome] that have returned *)
}.
Definition home_init : home := mkHome 0 0 HSelect 0.
Inductive home_label := HTrigger | HTick | HGo.
Inductive home_step : home -> home_label -> home -> Prop :=
| h_trigger s b l c : home_step (mkHome s b l c) HTrigger (mkHome (S s) b l c)
| h_tick s b c : home_step (mkHome s b HSelect c) HTick (mkHome s b HCall c)
| h_send s b l c : (b < trigger_capacity)%nat -> home_step (mkHome (S s) b l c) HGo (mkHome s (S b) l c)
| h_receive s b c : home_step (mkHome s (S b) HSelect c) HGo (mkHome s b HSleep c)
| h_slept s b c : home_step (mkHome s b HSleep c) HGo (mkHome s b HDrain c)
| h_drain s b c : home_step (mkHome s (S b) HDrain c) HGo (mkHome s b HDrain c)
| h_drained s c : home_step (mkHome s 0 HDrain c) HGo (mkHome s 0 HCall c)
| h_call s b c : home_step (mkHome s b HCall c) HGo (mkHome s b HSelect (S c)).
Inductive home_steps : home -> home -> Prop :=
| hs_refl x : home_steps x x
| hs_step x l y z : home_steps x y -> home_step y l z -> home_steps x z.
(** Steps without another trigger or tick, and how many. *)
Inductive home_run : nat -> home -> home -> Prop :=
| hr_nil x : home_run 0 x x
| hr_cons n x y z : home_step x HGo y -> home_run n y z -> home_run (S n) x z.

Definition at_rest (x : home) : Prop := ho_senders x = 0%nat /\ ho_buffer x = 0%nat /\ ho_loop x = HSelect.
#[export] Instance at_rest_dec x : Decision (at_rest x).
Proof. unfold at_rest. apply _. Defined.
Definition rank (l : home_loop) : nat := match l with HSelect => 0 | HCall => 1 | HDrain => 2 | HSleep => 3 end.
Definition home_work (x : home) : nat := 6 * ho_senders x + 5 * ho_buffer x + rank (ho_loop x).
(** What can still lead to a report of its own. *)
Definition owed (x : home) : nat := ho_senders x + ho_buffer x + match ho_loop x with HSelect => 0 | _ => 1 end.

Lemma home_bounded x : home_steps home_init x -> (ho_buffer x <= trigger_capacity)%nat.
Proof.
  remember home_init as x0 eqn:E. induction 1 as [|x l y z _ IH Hs]; [by subst; unfold trigger_capacity; cbn; lia|].
  specialize (IH E). destruct Hs; cbn in *; lia.
Qed.
Lemma home_progress x : (ho_buffer x <= trigger_capacity)%nat -> at_rest x \/ exists y, home_step x HGo y.
Proof.
  destruct x as [s b [] c]; cbn; intros Hb; [|right; eauto using home_step|..].
  - destruct b as [|b]; [|right; eauto using home_step]. destruct s as [|s]; [by left|]. right. eexists. apply h_send. unfold trigger_capacity. lia.
  - right. destruct b; eauto using home_step.
  - right. eauto using home_step.
Qed.
Lemma home_step_work x y : home_step x HGo y -> (home_work y < home_work x)%nat /\ (ho_calls x <= ho_calls y)%nat
  /\ (ho_calls y + owed y <= ho_calls x + owed x)%nat /\ (~ at_rest x -> at_rest y -> (ho_calls x < ho_calls y)%nat)
  /\ ((ho_buffer x <= trigger_capacity) -> ho_buffer y <= trigger_capacity)%nat.
Proof.
  inversion 1; subst; unfold home_work, owed, at_rest; cbn; (split; [lia|]); (split; [lia|]); (split; [lia|]); (split; [|lia]);
    intros Hx (Hs & Hb & Hl); try discriminate; lia.
Qed.

(** Reports are made when they are asked for: from any reachable state, when
    no other trigger and no tick comes, the goroutine and the controllers take
    a bounded number of steps and are never stuck before they are at rest; a
    report is made before, if they were not at rest, and never more reports
    than triggers that were not answered, with the one that is being made. *)
Theorem triggers_answered x : home_steps home_init x ->
  (forall n y, home_run n x y -> (n <= home_work x)%nat /\ (ho_calls y <= ho_calls x + owed x)%nat
     /\ (at_rest y -> ~ at_rest x -> (ho_calls x < ho_calls y)%nat)
     /\ (at_rest y \/ exists z, home_step y HGo z))
  /\ exists n y, home_run n x y /\ at_rest y.
Proof.
  intros Hb%home_bounded. split.
  - intros n y Hr. induction Hr as [x|n x y z Hs Hr IH].
    + split; [lia|]. split; [lia|]. split; [done|]. by apply home_progress.
    + apply home_step_work in Hs as (Hw & Hc & Ho & Hrest & Hb'). destruct (IH (Hb' Hb)) as (IHn & IHc & IHr & IHp).
      split; [lia|]. split; [lia|]. split; [|done]. intros Hz Hx.
      destruct (decide (at_rest y)) as [Hy|Hy]; [|specialize (IHr Hz Hy); lia]. specialize (Hrest Hx Hy).
      assert (ho_calls y <= ho_calls z)%nat; [|lia]. clear -Hr. induction Hr as [|n y y' z Hs _ IH]; [done|].
      apply home_step_work in Hs as (_ & Hc & _). lia.
  - remember (home_work x) as w eqn:Ew. revert x Hb Ew. induction (lt_wf w) as [w _ IH]. intros x Hb ->.
    destruct (home_progress x Hb) as [Hx|[y Hs]]; [exists 0%nat, x; by split; [constructor|]|].
    destruct (home_step_work _ _ Hs) as (Hw & _ & _ & _ & Hb'). destruct (IH _ Hw y (Hb' Hb) eq_refl) as (n & z & Hr & Hz).
    exists (S n), z. split; [by econstructor|done].
Qed.

(** ** Runs *)

Module PhoneHomeRuns.
Import RefProto HzRuns.
#[local] Existing Instances RefProto.ref ph_effects.
#[local] Instance phone_lib1 : PhoneLib :=
  {| Limits_Memory_Value r := r; Limits_Cpu_MilliValue _ := 500; UUID_String _ := "uuid"; PhoneHomeData_Marshal _ := inl "{}" |}.
Definition two_triggers : home := mkHome 2 0 HSelect 0.
Lemma two_triggers_reachable : home_steps home_init two_triggers.
Proof. eapply hs_step; [eapply hs_step; [apply hs_refl|]|]; apply h_trigger. Qed.
Lemma triggers_witness : exists n y, home_run n two_triggers y /\ at_rest y /\ (1 <= ho_calls y <= 2)%nat.
Proof.
  destruct (triggers_answered two_triggers two_triggers_reachable) as (H & n & y & Hr & Hy). exists n, y. split; [exact Hr|].
  split; [exact Hy|]. destruct (H n y Hr) as (_ & Hle & Hlt & _). split; [apply Hlt; [exact Hy|by intros [[=] _]]|exact Hle].
Defined.
(** Two clusters, one without a client; no other list can be read. *)
Definition operator : Operator := mkOperator (fun _ => None) false.
Definition info1 : OperatorInfo := mkOperatorInfo "uid" "" "5.15" 0 Kubernetes "1.30" WatchedNsTypeAll.
Definition clusters : list HazelcastCR := [cr1 false [] (Some (persistence1 "")) "Running"; cr1 false [] None "Pending"].
Definition answers (o : ph_op) (_ : list (@event ph_effects)) : ph_ans o :=
  match o as o return ph_ans o with
  | ListP k _ => match k as k return fetched (list (ph_obj k)) with PHazelcast => Found clusters | _ => Failed (errors_New "no list") end
  | GetOrCreateP _ => Failed (errors_New "not ready")
  | ClusterIdP _ => UUID_zero
  | NowP => 90000000
  | PostP _ => None
  end.
Definition home_run1 := run answers (newPhoneHomeData operator info1) [].
Definition reported : option PhoneHomeData := match home_run1.2 with Some (Returned phd) => Some phd | _ => None end.
Lemma phone_home_witness : (exists phd, reported = Some phd /\ of_clusters operator home_run1.1 (ph_Hazelcast phd))
  /\ (fun phd => (hu_CreatedMemberCount (ph_Hazelcast phd), br_PvcCount (hu_Persistence (ph_Hazelcast phd)), ph_Uptime phd)) <$> reported
     = Some (4, 1, 90).
Proof.
  split; [|vm_compute; reflexivity]. assert (exists phd, home_run1.2 = Some (Returned phd)) as [phd E] by (eexists; vm_compute; reflexivity).
  exists phd. split; [unfold reported; by rewrite E|]. apply run_exec_2 in E. by apply (phone_home_exact operator) in E as [H _].
Defined.
(** The client registry gives neither a client nor an error: the operator
    ends. *)
Definition no_client (o : ph_op) (t : list (@event ph_effects)) : ph_ans o :=
  match o as o return ph_ans o with GetOrCreateP _ => Found false | o => answers o t end.
Definition home_run2 := run no_client (newPhoneHomeData operator info1) [].
Lemma phone_home_panics_witness : home_run2.2 = Some Panicked /\ exists h : HazelcastCR,
  s_ClusterSize (cr_spec h) = None \/ @Ev ph_effects (GetOrCreateP (cr_key h)) (Found false) ∈ home_run2.1.
Proof.
  assert (home_run2.2 = Some Panicked) as E by (vm_compute; reflexivity). split; [exact E|].
  apply run_exec_2 in E. apply (phone_home_panics operator) in E as (items & h & _ & _ & H). by exists h.
Defined.
Example watched_namespaces :
  WatchedNamespaceType "op" ["a"; "b"] = WatchedNsTypeMulti /\ WatchedNamespaceType "op" ["op"] = WatchedNsTypeOwn
  /\ DeploymentName "hazelcast-operator-7c9d-x2" = Ret "hazelcast-operator" /\ DeploymentName "operator" = Panic.
Proof. by vm_compute. Qed.
(** Several watched namespaces are several options of one request. *)
Example several_namespaces :
  listOptions (mkOperator (fun v => if strb v n_NamespaceEnv then Some "op" else Some "a,b") false) = ["a"; "b"].
Proof. by vm_compute. Qed.
End PhoneHomeRuns.
