(* ===== verification/DataStructuresFacts.v ===== *)
(** * Theorems about the data structure controllers

    What members are sent, when Success is stored, and what is recorded. *)

From S2P Require Import Prelude Eff FieldValidation Json HazelcastTypes DataStructureTypes HazelcastValidation HazelcastValidationFacts MapValidation ConfigTypes Proto CodecBuiltin CodecTypes CodecConfig CodecExtra CodecRequests DataStructureConfig DataStructureValidation WanTypes Kube DataStructures.
#[local] Open Scope prog_scope.
#[local] Open Scope string_scope.
#[local] Open Scope list_scope.
#[local] Open Scope Z_scope.

#[local] Arguments updateDSStatus : simpl never.
#[local] Arguments ds_fail : simpl never.
#[local] Arguments startDelete : simpl never.
#[local] Arguments handleCreatedBefore : simpl never.
#[local] Arguments getHZClient : simpl never.
#[local] Arguments initialSetupDS : simpl never.
#[local] Arguments sendCodecRequest : simpl never.
#[local] Arguments finalSetupDS : simpl never.

Section Facts.
Context `{P : Proto} `{R : MapRange} `{EJ : EventJson} `{QL : QuantityLib} `{Y : YamlLib}.
Context `{!HazelcastJson} `{KE : KErrors} `{JT : JsonText}.
Context (d : ds_kind) (nn : NamespacedName).

(** ** The resource a reconciliation works on *)

(** Appliers that leave the statuses of the members alone. *)
Definition keeps_members (w : DSStatusApplier) : Prop :=
  match w with withDSMemberStatuses _ => False | _ => True end.

Lemma apply_members ws st : Forall keeps_members ws ->
  st_MemberStatuses (foldl DSStatusApply st ws) = st_MemberStatuses st.
Proof.
  intros Hk. revert st. induction Hk as [|w ws Hw _ IH]; intros st; simpl; [done|].
  rewrite IH. by destruct w.
Qed.

Abbreviation members_of o := (st_MemberStatuses (r_Status o)).

(** The functions of the interface only read those parts. *)
Lemma same_GetSpec (o0 o : ds_obj d) : same o0 o -> GetSpec o = GetSpec o0.
Proof. intros [? ? ? Hs]. destruct d; simpl in *; unfold ds_GetSpec; by rewrite Hs. Qed.

Lemma same_GetHZResourceName (o0 o : ds_obj d) : same o0 o -> GetHZResourceName o = GetHZResourceName o0.
Proof. intros [? ? ? Hs]. destruct d; simpl in *; by rewrite Hs. Qed.

Lemma same_request (o0 o : ds_obj d) : same o0 o -> ds_request d o = ds_request d o0.
Proof.
  intros [? Hn ? Hs]. destruct d; simpl in *;
    unfold MultiMap_request, Topic_request, ReplicatedMap_request, Queue_request, Cache_request,
      fillMultiMapConfigInput, fillTopicConfigInput, fillReplicatedConfigInput, fillQueueConfigInput,
      fillCacheConfigInput, MultiMap_GetDSName, Topic_GetDSName, ReplicatedMap_GetDSName, Queue_GetDSName,
      Cache_GetDSName; by rewrite ?Hn, Hs.
Qed.

Lemma same_persisted c (o0 o : ds_obj d) : same o0 o -> ds_persisted d c o = ds_persisted d c o0.
Proof.
  intros [? Hn ? Hs]. destruct d; simpl in *;
    unfold MultiMap_persisted, Topic_persisted, ReplicatedMap_persisted, Queue_persisted, Cache_persisted,
      createMultiMapConfig, createTopicConfig, createReplicatedMapConfig, createQueueConfig,
      createCacheConfig, MultiMap_GetDSName, Topic_GetDSName, ReplicatedMap_GetDSName, Queue_GetDSName,
      Cache_GetDSName; by rewrite ?Hn, Hs.
Qed.

Lemma same_validate_current (o0 o : ds_obj d) h : same o0 o -> ValidateSpecCurrent o h = ValidateSpecCurrent o0 h.
Proof.
  intros [? Hn ? Hs]. destruct d; simpl in *; [done| |done|done|].
  - unfold validateTopicSpecCurrent. by rewrite Hn, Hs.
  - by rewrite Hn, Hs.
Qed.

Lemma same_validate_update (o0 o : ds_obj d) : same o0 o -> ValidateSpecUpdate o = ValidateSpecUpdate o0.
Proof.
  intros [? Hn Ha Hs]. destruct d; simpl in *;
    unfold validateMultiMapSpecUpdate, validateTopicSpecUpdate, validateReplicatedMapSpecUpdate,
      validateQueueSpecUpdate, ds_view, ds_GetSpec; by rewrite Hn, Ha, Hs.
Qed.

(** ** When success may be stored *)

(** The spec was applied before. *)
Definition already_applied (o : ds_obj d) : Prop :=
  exists s, r_Annotations o !! n_LastSuccessfulSpecAnnotation = Some s /\ GetSpec o = inl s.

(** The resource is valid and its cluster is running. *)
Record ready (h : list event) (o : ds_obj d) (hz : NamespacedName) : Prop := {
  rd_live : r_Deleting o = false;
  rd_hazelcast : exists hzr, ev_hazelcast (nn.1, GetHZResourceName o) hzr ∈ h
    /\ hz = (h_Namespace hzr, h_Name hzr) /\ st_Phase (h_Status hzr) = hz_Running
    /\ ValidateSpecCurrent o hzr = None /\ ValidateSpecUpdate o = None;
}.

(** Every member has the configuration: it was recorded as done before, or
    it acknowledged the request in this reconciliation. *)
Definition delivered (h : list event) (o : ds_obj d) (hz : NamespacedName) : Prop :=
  exists members req, ev_members hz members ∈ h /\ ds_request d o = Ret req
    /\ forall uuid, uuid ∈ members ->
         st_MemberStatuses (r_Status o) !! uuid = Some DataStructureSuccess
         \/ exists resp, ev_acked hz uuid req resp ∈ h.

(** The persisted configuration that was read has the one of the resource. *)
Definition persisted (h : list event) (o : ds_obj d) : Prop :=
  exists doc c, ev_config (r_Namespace o, GetHZResourceName o) doc ∈ h
    /\ yaml_Unmarshal doc = Some c /\ ds_persisted d c o = Ret true.

Definition justified (h : list event) : Prop :=
  exists o : ds_obj d, ev_read (KDS d) nn o ∈ h /\
    (already_applied o \/ exists hz, ready h o hz /\ delivered h o hz /\ persisted h o).

Definition stores_success (c : kube_op) : bool :=
  match c with
  | StatusUpdate (KDS _) o => strb (st_State (r_Status o)) DataStructureSuccess
  | _ => false
  end.

(** The request brings the configuration of a valid resource to a member
    that is not recorded as having it. *)
Definition to_send (h : list event) (hz : NamespacedName) (uuid : string) (req : ClientMessage) : Prop :=
  exists (o : ds_obj d) members, ev_read (KDS d) nn o ∈ h /\ ready h o hz /\ ev_members hz members ∈ h /\ uuid ∈ members
    /\ ds_request d o = Ret req /\ st_MemberStatuses (r_Status o) !! uuid <> Some DataStructureSuccess.

(** What the controller may do after the history [h]. *)
Definition ds_guard (h : list event) (c : kube_op) : Prop :=
  match c with
  | StatusUpdate _ _ => stores_success c = true -> justified h
  | InvokeOnMember hz uuid req => to_send h hz uuid req
  | _ => True
  end.
#[local] Hint Extern 0 (ds_guard _ _) => exact I : core.

Lemma ready_mono h h' o hz : h ⊆ h' -> ready h o hz -> ready h' o hz.
Proof. intros Hs [? (z & Hz & ?)]. constructor; [done|]. exists z. split; [by apply Hs|done]. Qed.

Lemma delivered_mono h h' o hz : h ⊆ h' -> delivered h o hz -> delivered h' o hz.
Proof.
  intros Hs (ms & req & Hm & Hr & Ha). exists ms, req. split; [by apply Hs|]. split; [done|].
  intros u [?|[resp ?]]%Ha; [by left|right; exists resp; by apply Hs].
Qed.

(** ** The parts of a reconciliation *)

Abbreviation wps := (wp ds_guard).

(** A status other than success. *)
Definition not_success (ws : list DSStatusApplier) : Prop :=
  forall st, st_State (foldl DSStatusApply st ws) <> DataStructureSuccess.

Lemma wp_updateDSStatus o ro ws h Q :
  ds_guard h (StatusUpdate (KDS d) (set_Status o (foldl DSStatusApply (r_Status o) ws))) ->
  (forall err h', h ⊆ h' ->
     Q h' (set_Status o (foldl DSStatusApply (r_Status o) ws),
           status_result (st_State (foldl DSStatusApply (r_Status o) ws)) ro err)) ->
  wps (updateDSStatus d o ro ws) h Q.
Proof. intros HG HQ. apply wp_vis; [done|]. intros err h' Hs _. by apply HQ. Qed.

Lemma wp_update_other o ro ws h (Q : list event -> ds_obj d * (ctrl_Result * option error) -> Prop) :
  not_success ws ->
  (forall err h', h ⊆ h' ->
     Q h' (set_Status o (foldl DSStatusApply (r_Status o) ws),
           status_result (st_State (foldl DSStatusApply (r_Status o) ws)) ro err)) ->
  wps (updateDSStatus d o ro ws) h Q.
Proof.
  intros Hn HQ. apply wp_updateDSStatus; [|done]. intros Hs. by apply strb_true, Hn in Hs.
Qed.

Lemma wp_ds_fail o e msg h Q : (forall h' r, h ⊆ h' -> Q h' r) -> wps (ds_fail d o e msg) h Q.
Proof.
  intros HQ. eapply wp_seq; [apply wp_update_other with (Q := fun _ _ => True); [by intros st [=]|done]|].
  intros h' a Hs _. simpl. by apply HQ.
Qed.

#[local] Instance ds_permissive : Permissive ds_guard.
Proof. intros h c Hc. by destruct c. Qed.

Lemma wp_finalizer o h (Q : list event -> ds_obj d * option error -> Prop) :
  (forall h' o' err, h ⊆ h' -> same o o' -> r_Deleting o' = r_Deleting o -> members_of o' = members_of o ->
     Q h' (o', err)) ->
  wps (AddFinalizer (KDS d) o) h Q.
Proof.
  intros HQ. apply (wp_AddFinalizer ds_guard (KDS d)). intros h' fs err Hs.
  apply HQ; [done| |done|done]. by apply same_finalizers.
Qed.

Lemma wp_startDelete o h Q : (forall h' r, h ⊆ h' -> Q h' r) -> wps (startDelete d o) h Q.
Proof.
  intros HQ. eapply wp_seq; [apply wp_update_other with (Q := fun _ _ => True); [by intros st [=]|done]|].
  intros h1 a Hs _. apply (wp_executeFinalizer ds_guard (KDS d)). intros h2 r Hs2. apply HQ. by etrans.
Qed.

Lemma wp_handleCreatedBefore o h Q :
  (already_applied o -> justified h) ->
  (forall h' r, h ⊆ h' -> Q h' (Some r)) -> (~ already_applied o -> Q h None) ->
  wps (handleCreatedBefore d o) h Q.
Proof.
  intros Hj Hsome Hnone. unfold handleCreatedBefore.
  destruct (r_Annotations o !! _) as [s|] eqn:Ea; [|apply Hnone; intros (s & Hs & _); congruence].
  destruct (GetSpec o) as [mms|err] eqn:Eg.
  - unfold strb. case_bool_decide as Hm.
    + subst mms. eapply wp_seq.
      * apply wp_updateDSStatus with (Q := fun _ _ => True); [|done]. intros _. apply Hj. by exists s.
      * intros h' a Hs _. simpl. by apply Hsome.
    + apply Hnone. intros (s' & Hs' & Hg'). congruence.
  - eapply wp_seq; [apply wp_update_other with (Q := fun _ _ => True); [by intros st [=]|done]|].
    intros h' a Hs _. simpl. by apply Hsome.
Qed.

Lemma wp_getHZClient o hzr h Q :
  (forall h' r, h ⊆ h' -> Q h' (inr r)) ->
  (forall h', h ⊆ h' -> st_Phase (h_Status hzr) = hz_Running -> Q h' (inl (h_Namespace hzr, h_Name hzr))) ->
  wps (getHZClient d o hzr) h Q.
Proof.
  intros Hstop Hgo. unfold getHZClient. destruct (strb (st_Phase _) _) eqn:Ep; simpl negb.
  2: { apply wp_bind, wp_ds_fail. intros h' r Hs. simpl. by apply Hstop. }
  apply strb_true in Ep. apply wp_vis; [done|]. intros [[]|e] h1 Hs1 _; cbv iota; [|done|].
  - apply wp_vis; [done|]. intros [] h2 Hs2 _; cbv iota; [apply Hgo; set_solver|].
    eapply wp_seq; [apply wp_update_other with (Q := fun _ _ => True); [by intros st [=]|done]|].
    intros h3 a Hs3 _. simpl. apply Hstop. set_solver.
  - apply wp_bind, wp_ds_fail. intros h' r Hs. simpl. apply Hstop. set_solver.
Qed.

(** A status update that ends the work. *)
Lemma wp_stop {B} o ro ws (f : ds_obj d * (ctrl_Result * option error) -> B) h (Q : list event -> B -> Prop) :
  not_success ws -> (forall h' a, h ⊆ h' -> Q h' (f a)) ->
  wps (r <- updateDSStatus d o ro ws ;; Done (f r)) h Q.
Proof.
  intros Hn HQ. eapply wp_seq; [by apply wp_update_other with (Q := fun _ _ => True)|].
  intros h' a Hs _. by apply wp_ret, HQ.
Qed.

Lemma wp_stop_fail {B} o e msg (f : ctrl_Result * option error -> B) h (Q : list event -> B -> Prop) :
  (forall h' a, h ⊆ h' -> Q h' (f a)) -> wps (r <- ds_fail d o e msg ;; Done (f r)) h Q.
Proof. intros HQ. apply wp_bind, wp_ds_fail. intros h' a Hs. by apply wp_ret, HQ. Qed.

Lemma same_already (o0 o : ds_obj d) : same o0 o -> already_applied o -> already_applied o0.
Proof.
  intros Hs (s & Ha & Hg). exists s. rewrite <-(same_ann _ _ Hs). split; [done|].
  by rewrite <-(same_GetSpec _ _ Hs).
Qed.

Lemma wp_initialSetupDS h Q :
  (forall h' r, h ⊆ h' -> Q h' (inr r)) ->
  (forall h' (o0 o : ds_obj d) hz, h ⊆ h' -> ev_read (KDS d) nn o0 ∈ h' -> same o0 o -> members_of o = members_of o0 -> ready h' o0 hz ->
     Q h' (inl (o, hz))) ->
  wps (initialSetupDS d nn) h Q.
Proof.
  intros Hstop Hgo. unfold initialSetupDS, getCR. apply wp_vis; [done|].
  intros [o0|e] h1 Hs1 E1; [|by apply wp_ret, Hstop]. cbn [pbind].
  apply wp_bind, wp_finalizer. intros h2 o err Hs2 Hso Hdel Hmem. cbn [fst snd].
  destruct err as [e|]; [apply wp_stop_fail; intros; apply Hstop; set_solver|].
  destruct (r_Deleting o) eqn:Edel.
  { apply wp_bind, wp_startDelete. intros h3 [o3 [e|]] Hs3; cbn [fst snd].
    - apply wp_stop; [by intros st [=]|]. intros. apply Hstop. set_solver.
    - apply wp_ret, Hstop. set_solver. }
  rewrite (same_GetHZResourceName _ _ Hso).
  apply wp_vis; [done|]. intros [hzr|e] h3 Hs3 E3;
    [|apply wp_stop_fail; intros; apply Hstop; set_solver].
  apply wp_bind, wp_handleCreatedBefore.
  { intros Ha. exists o0. split; [unfold ev_read; hist|]. left. by eapply same_already. }
  { intros h4 r Hs4. apply wp_ret, Hstop. set_solver. }
  intros _. destruct (ValidateSpecCurrent o hzr) as [e|] eqn:Ec;
    [apply wp_stop_fail; intros; apply Hstop; set_solver|].
  destruct (ValidateSpecUpdate o) as [e|] eqn:Eu; [apply wp_stop_fail; intros; apply Hstop; set_solver|].
  apply wp_bind, wp_getHZClient.
  { intros h4 r Hs4. apply wp_ret, Hstop. set_solver. }
  intros h4 Hs4 Hrun.
  assert (Hready : ready h4 o0 (h_Namespace hzr, h_Name hzr)).
  { constructor; [congruence|]. exists hzr. rewrite <-(same_validate_current _ _ _ Hso),
      <-(same_validate_update _ _ Hso). split; [unfold ev_hazelcast; hist|done]. }
  destruct (negb _).
  - eapply wp_seq; [apply wp_updateDSStatus with
      (Q := fun h' r => same o0 r.1 /\ members_of r.1 = members_of o0)|].
    + intros Hs. by apply strb_true in Hs.
    + intros err h' _. split; [by apply same_status|done].
    + intros h5 [o5 [res [e|]]] Hs5 [Hso5 Hm5]; cbn [fst snd]; apply wp_ret; [apply Hstop; set_solver|].
      apply (Hgo _ o0); [set_solver|unfold ev_read; hist|done|done|by eapply ready_mono].
  - apply wp_ret. apply (Hgo _ o0); [set_solver|unfold ev_read; hist|done|done|done].
Qed.

Lemma wp_ReconcileConfig (o0 : ds_obj d) hz (o : ds_obj d) h Q :
  same o0 o -> members_of o = members_of o0 -> ev_read (KDS d) nn o0 ∈ h -> ready h o0 hz ->
  (forall h' ms err members, h ⊆ h' -> ev_members hz members ∈ h' -> (err = None -> delivered h' o0 hz) ->
     Q h' (ms, err)) ->
  wps (ReconcileConfig d hz o) h Q.
Proof.
  intros Hso Hmem E0 Hready HQ. unfold ReconcileConfig. rewrite (same_request _ _ Hso).
  destruct (ds_request d o0) as [req| |] eqn:Er; [|done|done].
  change (wps (sendCodecRequest d hz o req) h Q). unfold sendCodecRequest.
  apply wp_vis; [done|]. intros members h1 Hs1 E1. apply wp_bind, (wp_send_to_members ds_guard); cycle 1.
  { intros h' u Hs' Hu Hns. exists o0, members. split; [unfold ev_read; hist|].
    split; [eapply ready_mono; [|done]; by etrans|]. split; [unfold ev_members; hist|]. by rewrite <-Hmem. }
  intros h2 ms [|f fs] Hs2 _ Hu; cbn [fst snd]; apply wp_ret, (HQ _ _ _ members);
    [by etrans|unfold ev_members; hist| |by etrans|unfold ev_members; hist|done].
  intros _. exists members, req. split; [unfold ev_members; hist|]. split; [done|].
  intros u [Hm|[Hr|[]%not_elem_of_nil]]%Hu; [left|by right]. by rewrite <-Hmem.
Qed.

Lemma wp_validateConfigPersistence (o0 o : ds_obj d) h Q :
  same o0 o ->
  (forall h' r, h ⊆ h' -> (r = Found true -> persisted h' o0) -> Q h' r) ->
  wps (validateConfigPersistence d o) h Q.
Proof.
  intros Hso HQ. unfold validateConfigPersistence, getHzNamespacedName.
  rewrite (same_ns _ _ Hso), (same_GetHZResourceName _ _ Hso).
  apply wp_bind, (wp_getHazelcastConfig ds_guard). intros h1 [c|e] Hs1 Hc; [|by apply wp_ret, HQ].
  destruct (Hc c eq_refl) as (doc & E1 & Ec). rewrite (same_persisted _ _ _ Hso).
  apply wp_bind, wp_lift_res. intros b Hp. apply wp_ret, HQ; [done|]. intros [= ->]. by exists doc, c.
Qed.

Lemma wp_finalSetupDS o h Q : (forall h', h ⊆ h' -> justified h') ->
  (forall h' r, h ⊆ h' -> Q h' r) -> wps (finalSetupDS d o) h Q.
Proof.
  intros Hj HQ. unfold finalSetupDS, updateLastSuccessfulConfigurationDS.
  eapply wp_seq with (R := fun _ _ => True).
  { destruct (GetSpec o) as [spec|e]; [|done]. by apply (wp_UpdateAnnotation ds_guard (KDS d)). }
  intros h1 u Hs1 _. eapply wp_seq; [apply wp_updateDSStatus with (Q := fun _ _ => True); [|done]|].
  - intros _. by apply Hj.
  - intros h2 r Hs2 _. apply wp_ret, HQ. set_solver.
Qed.

Lemma persisted_mono h h' o : h ⊆ h' -> persisted h o -> persisted h' o.
Proof. intros Hs (doc & c & Hd & ?). exists doc, c. split; [by apply Hs|done]. Qed.

(** The members were asked for: the setup of the reconciliation is over. *)
Definition set_up (h : list event) : Prop := exists hz members, ev_members hz members ∈ h.

Lemma wp_reconcileDS persisting waiting :
  wps (reconcileDS d persisting waiting nn) [] (fun h r => forall e, r.2 = Some e -> set_up h).
Proof.
  unfold reconcileDS. apply wp_bind, wp_initialSetupDS.
  { intros h' [res [e|]] _; [destruct (IsNotFound e)|]; apply wp_ret; intros e' [=]. }
  intros h1 o0 o hz _ E1 Hso Hmem Hready. apply wp_bind, (wp_ReconcileConfig o0); [done|done|done|done|].
  intros h2 ms err members Hs2 E2 Hdel.
  assert (Hset : forall h' (r : ctrl_Result * option error), h2 ⊆ h' -> forall e, r.2 = Some e -> set_up h').
  { intros h' r Hs' e _. exists hz, members. by apply Hs'. }
  destruct err as [e|]; cbn [fst snd].
  { apply wp_stop; [by intros st [=]|]. intros h' a Hs'. by apply Hset. }
  specialize (Hdel eq_refl).
  eapply wp_seq; [apply wp_updateDSStatus with (Q := fun h' r => same o0 r.1)|].
  - intros Hs. by apply strb_true in Hs.
  - intros. by apply same_status.
  - intros h3 [o3 [res [e|]]] Hs3 Hso3; cbn [fst snd] in *; [by apply wp_ret, Hset|].
    apply wp_bind, (wp_validateConfigPersistence o0); [done|].
    intros h4 [[]|e] Hs4 Hper.
    + apply wp_finalSetupDS; [|intros h' r Hs'; apply Hset; set_solver].
      intros h5 Hs5. exists o0. split; [unfold ev_read; hist|]. right. exists hz.
      split; [eapply ready_mono; [|done]; set_solver|].
      split; [eapply delivered_mono; [|done]; set_solver|].
      by eapply persisted_mono; [|apply Hper].
    + apply wp_stop; [by intros st [=]|]. intros h' a Hs'. apply Hset. set_solver.
    + apply wp_stop; [by intros st [=]|]. intros h' a Hs'. apply Hset. set_solver.
Qed.

Lemma wp_DS_Reconcile : wps (DS_Reconcile d nn) [] (fun h r => forall e, r.2 = Some e -> set_up h).
Proof. pose proof wp_reconcileDS as Hw. destruct d; apply Hw. Qed.
End Facts.

(** ** The theorems *)

Section Theorems.
Context `{P : Proto} `{R : MapRange} `{EJ : EventJson} `{QL : QuantityLib} `{Y : YamlLib}.
Context `{!HazelcastJson} `{KE : KErrors} `{JT : JsonText}.

Lemma wp_ds_call d nn t1 e t2 out :
  exec (DS_Reconcile d nn) (t1 ++ e :: t2) out -> ds_guard d nn t1 (ev_op e).
Proof. apply wp_call. eapply wp_mono; [apply wp_DS_Reconcile|done]. Qed.

(** C5. A controller stores the state Success only for a resource it has
    read and whose spec was applied before, or that passed validation on a
    running cluster, whose configuration was acknowledged in this
    reconciliation by every member that the status that was read does not
    record as successful, and whose configuration hazelcast.yaml was seen to
    hold.  A recorded member is not asked again, also when the record is of an
    earlier spec. *)
Theorem ds_success_justified d nn t1 e t2 out :
  exec (DS_Reconcile d nn) (t1 ++ e :: t2) out -> stores_success (ev_op e) = true -> justified d nn t1.
Proof.
  intros He Hs. apply wp_ds_call in He. destruct e as [[| |k o| | | | | | | | | | | | | | | | | | | | | |] x]; try done.
  destruct k; [|done..]. by apply He.
Qed.

(** A controller sends a member a configuration only for a valid
    resource of a running cluster, only the configuration of that resource,
    and only to a member of the cluster that is not recorded as having
    it. *)
Theorem ds_requests_justified d nn t1 hz uuid req x t2 out :
  exec (DS_Reconcile d nn) (t1 ++ Ev (InvokeOnMember hz uuid req) x :: t2) out -> to_send d nn t1 hz uuid req.
Proof. apply wp_ds_call. Qed.

(** Before the members of the cluster are asked for nothing that goes
    wrong is reported to the caller: the five controllers drop the error of
    their setup, so that failing to read or to update the resource or its
    cluster is not retried with the back-off of the work queue. *)
Theorem ds_setup_errors_dropped d nn t res err :
  exec (DS_Reconcile d nn) t (Returned (res, err)) -> ~ set_up t -> err = None.
Proof.
  intros He Hno. destruct (wp_sound _ _ _ _ _ _ (wp_DS_Reconcile d nn) He) as [_ Hr].
  destruct err as [e|]; [|done]. destruct Hno. by apply (Hr _ eq_refl e).
Qed.
End Theorems.

(** ** Concrete runs *)

Module DataStructureRuns.
Import RefProto.
#[local] Existing Instance RefProto.ref.
#[local] Instance bad_json : HazelcastJson := {| HazelcastSpec_Unmarshal _ := inr (errors_New "bad json") |}.

Definition mm1 : MultiMap :=
  mkResource "ns" "mm" "uid" [] [n_Finalizer] false ∅
    (mkMultiMapSpec (mkDataStructureSpec "" "hz" (Some 1) 2 "") true "SET")
    (mkDataStructureStatus "Pending" "" {["m1" := "Success"; "m2" := "Failed"]}).
Definition hz1 : Hazelcast :=
  mkHazelcast "hz" "ns" ∅ false
    (mkHazelcastSpec (Some 3) "" "license" None None None "" None None None None "" None [] None "dev" None [] [] [] None None None None)
    (mkHazelcastStatus 3 "Running").
(** hazelcast.yaml with the section of the multimap. *)
Definition conf1 : cfg_Hazelcast :=
  mk_cfg_Hazelcast cfg_Jet_zero "" cfg_Persistence_zero None None None None cfg_UserCodeDeployment_zero None None
    (Some {["mm" := mk_cfg_MultiMap 1 2 true "SET" true cfg_DefaultMergePolicy ""]})
    None None None None cfg_PartitionGroup_zero cfg_NativeMemory_zero cfg_AdvancedNetwork_zero
    cfg_ManagementCenterConfig_zero cfg_Serialization_zero cfg_SQL_zero None cfg_CPSubsystem_zero
    cfg_UserCodeNamespaces_zero.
Definition resp1 : ClientMessage := NewClientMessageForEncode.

(** An environment in which everything works. *)
Definition answer (mm : fetched MultiMap) (o : op) (_ : list event) : ans o :=
  match o as o return kube_ans o with
  | Get (KDS MultiMapKind) _ => mm
  | Get _ _ => Failed (mkError ENotFound "not found")
  | ListByHz _ _ _ | ListIn _ _ => Found []
  | GetHazelcast _ => Found hz1
  | GetConfigSecret _ => Found conf1
  | GetSecretData _ => Found ∅
  | GetOrCreate _ => Found true
  | Running _ => true
  | OrderedMembers _ => ["m1"; "m2"; "m3"]
  | InvokeOnMember _ _ _ | InvokeOnRandomTarget _ _ => Found resp1
  | GetStatusService _ => None
  | GetConfigMap _ => Failed (errors_New "not found")
  | GetJetJob _ => Failed (errors_New "not found")
  | MemberAddresses _ => []
  | Now => 0
  | GoSync _ _ | GoExport _ _ _ _ _ => tt
  | _ => None
  end.

Definition key : NamespacedName := ("ns", "mm").
Definition success_run : list event * option (outcome (ctrl_Result * option error)) :=
  run (answer (Found mm1)) (DS_Reconcile MultiMapKind key) [].

Lemma success_exec :
  exec (DS_Reconcile MultiMapKind key) success_run.1 (Returned (ctrl_Result_zero, None)).
Proof. apply run_exec_2. vm_compute. reflexivity. Qed.

Lemma ds_success_witness : exists t1, justified MultiMapKind key t1.
Proof.
  destruct (find_event (F := kube_effects) (fun e => stores_success (ev_op e)) success_run.1) as (t1 & e & t2 & Ht & He);
    [vm_compute; reflexivity|].
  exists t1. apply (ds_success_justified MultiMapKind key t1 e t2 (Returned (ctrl_Result_zero, None))).
  - rewrite <-Ht. exact success_exec.
  - exact He.
Defined.

Definition is_request (e : event) : bool :=
  match ev_op e with InvokeOnMember _ uuid _ => strb uuid "m3" | _ => false end.

Lemma ds_requests_witness : exists t1 hz req, to_send MultiMapKind key t1 hz "m3" req.
Proof.
  destruct (find_event is_request success_run.1) as (t1 & [c x] & t2 & Ht & He); [vm_compute; reflexivity|].
  destruct c as [| | | | | | | | | | |hz uuid req| | | | | | | | | | | | |]; try discriminate He.
  exists t1, hz, req. apply strb_true in He. simpl in He. subst uuid.
  apply (ds_requests_justified MultiMapKind key t1 hz "m3" req x t2 (Returned (ctrl_Result_zero, None))).
  rewrite <-Ht. exact success_exec.
Defined.

(** The API server is not there. *)
Definition lost_run : list event * option (outcome (ctrl_Result * option error)) :=
  run (answer (Failed (errors_New "connection refused"))) (DS_Reconcile MultiMapKind key) [].

Definition asks_members (e : event) : bool := match ev_op e with OrderedMembers _ => true | _ => false end.

Lemma set_up_asks t : set_up t -> existsb asks_members t = true.
Proof. intros (hz & ms & Hin%list_elem_of_In). apply existsb_exists. by eexists. Qed.

Lemma ds_setup_errors_witness :
  length lost_run.1 = 1%nat
  /\ exists err, exec (DS_Reconcile MultiMapKind key) lost_run.1 (Returned (ctrl_Result_zero, err)) /\ err = None.
Proof.
  split; [vm_compute; reflexivity|]. exists None.
  assert (He : exec (DS_Reconcile MultiMapKind key) lost_run.1 (Returned (ctrl_Result_zero, None)))
    by (apply run_exec_2; vm_compute; reflexivity).
  split; [exact He|]. apply (ds_setup_errors_dropped MultiMapKind key _ _ _ He).
  intros Hs. apply set_up_asks in Hs. revert Hs. vm_compute. discriminate.
Defined.
End DataStructureRuns.
