(* ===== verification/MemberConfig.v ===== *)
(** * What a member gets: the request and hazelcast.yaml agree

    A running member gets the configuration of a data structure in a request,
    a member that starts reads it in hazelcast.yaml.  The abstract
    specification is the settings a resource asks for, a list of named
    values; the request as the member decodes it and the section of
    hazelcast.yaml both refine it. *)

From S2P Require Import Prelude Eff FieldValidation Json HazelcastTypes DataStructureTypes HazelcastValidation HazelcastValidationFacts MapValidation ConfigTypes Proto CodecBuiltin CodecFacts CodecTypes CodecConfig CodecConfigFacts CodecExtra CodecRequests CodecTransmit CodecRequestFacts DataStructureConfig DataStructureValidation WanTypes Kube DataStructures.
#[local] Open Scope string_scope.
#[local] Open Scope list_scope.
#[local] Open Scope Z_scope.
#[local] Set Warnings "-register-all".

(** ** Settings *)

Inductive setting :=
| Num (z : Z)
| Flag (b : bool)
| Text (s : string)
| Items (l : list setting)
| Group (l : list (string * setting)).
Definition settings : Type := list (string * setting).

(** A text that is absent when it is blank. *)
Definition Optional (s : string) : setting := Text (norm_string s).

Lemma norm_string_idem s : norm_string (norm_string s) = norm_string s.
Proof. unfold norm_string. destruct (is_blank s) eqn:E; [done|]. by rewrite E. Qed.

Definition MergePolicy_settings (policy : string) (batch : Z) : settings :=
  [("merge-policy", Text policy); ("merge-batch-size", Num batch)].
Definition yaml_MergePolicy (m : cfg_MergePolicy) : settings :=
  MergePolicy_settings (cfg_MergePolicy_ClassName m) (cfg_MergePolicy_BatchSize m).

Definition EventJournal_settings (enabled : bool) (capacity ttl : Z) : settings :=
  [("event-journal", Group [("enabled", Flag enabled); ("capacity", Num capacity); ("time-to-live-seconds", Num ttl)])].

(** ** The specification: what a resource asks for *)

Definition backups (ds : DataStructureSpec) : settings :=
  [("backup-count", Num (default 1 (ds_BackupCount ds))); ("async-backup-count", Num (ds_AsyncBackupCount ds))].
Definition default_merge : settings := MergePolicy_settings DefaultMergePolicy DefaultMergeBatchSize.

Section Specification.
Context `{QL : QuantityLib}.

Definition MultiMap_settings (mm : MultiMap) : settings :=
  let s := r_Spec mm in
  ("name", Text (MultiMap_GetDSName mm)) :: backups (mm_DataStructureSpec s) ++
  [("value-collection-type", Text (mm_CollectionType s)); ("binary", Flag (mm_Binary s));
   ("statistics-enabled", Flag true)] ++ default_merge ++
  [("user-code-namespace", Optional (ds_UserCodeNamespace (mm_DataStructureSpec s)))].

Definition Queue_settings (q : Queue) : settings :=
  let s := r_Spec q in
  ("name", Text (Queue_GetDSName q)) :: backups (q_DataStructureSpec s) ++
  [("max-size", Num (q_MaxSize s)); ("empty-queue-ttl", Num (default (-1) (q_EmptyQueueTtlSeconds s)));
   ("priority-comparator-class-name", Optional (q_PriorityComparatorClassName s));
   ("statistics-enabled", Flag true)] ++ default_merge ++
  [("user-code-namespace", Optional (ds_UserCodeNamespace (q_DataStructureSpec s)))].

Definition Topic_settings (t : Topic) : settings :=
  let s := r_Spec t in
  [("name", Text (Topic_GetDSName t)); ("global-ordering-enabled", Flag (t_GlobalOrderingEnabled s));
   ("multi-threading-enabled", Flag (t_MultiThreadingEnabled s)); ("statistics-enabled", Flag true);
   ("user-code-namespace", Optional (t_UserCodeNamespace s))].

Definition ReplicatedMap_settings (rm : ReplicatedMap) : settings :=
  let s := r_Spec rm in
  [("name", Text (ReplicatedMap_GetDSName rm)); ("in-memory-format", Text (rm_InMemoryFormat s));
   ("async-fillup", Flag (default true (rm_AsyncFillup s))); ("statistics-enabled", Flag true)] ++ default_merge ++
  [("user-code-namespace", Optional (rm_UserCodeNamespace s))].

Definition Cache_settings (c : Cache) : settings :=
  let s := r_Spec c in
  ("name", Text (Cache_GetDSName c)) :: backups (c_DataStructureSpec s) ++
  [("key-type", Optional (c_KeyType s)); ("value-type", Optional (c_ValueType s));
   ("in-memory-format", Text (c_InMemoryFormat s)); ("data-persistence", Flag (c_PersistenceEnabled s));
   ("statistics-enabled", Flag false); ("management-enabled", Flag false);
   ("read-through", Flag false); ("write-through", Flag false)] ++ default_merge ++
  match c_EventJournal s with
  | Some e => EventJournal_settings true (ej_Capacity e) (ej_TimeToLiveSeconds e)
  | None => EventJournal_settings false 0 0
  end ++
  [("user-code-namespace", Optional (ds_UserCodeNamespace (c_DataStructureSpec s)))].

Definition ds_settings (d : ds_kind) : ds_obj d -> settings :=
  match d with
  | MultiMapKind => MultiMap_settings
  | TopicKind => Topic_settings
  | ReplicatedMapKind => ReplicatedMap_settings
  | QueueKind => Queue_settings
  | CacheKind => Cache_settings
  end.

(** The fields the API server defaults are set, and integers are as wide as
    their Go types. *)
Definition backups_typed (ds : DataStructureSpec) : Prop :=
  (exists bc, ds_BackupCount ds = Some bc /\ is_int32 bc) /\ is_int32 (ds_AsyncBackupCount ds).

Definition ds_typed (d : ds_kind) : ds_obj d -> Prop :=
  match d with
  | MultiMapKind => fun o : MultiMap => backups_typed (mm_DataStructureSpec (r_Spec o))
  | TopicKind => fun _ : Topic => True
  | ReplicatedMapKind => fun o : ReplicatedMap => rm_AsyncFillup (r_Spec o) <> None
  | QueueKind => fun o : Queue => backups_typed (q_DataStructureSpec (r_Spec o)) /\ is_int32 (q_MaxSize (r_Spec o))
      /\ exists ttl, q_EmptyQueueTtlSeconds (r_Spec o) = Some ttl /\ is_int32 ttl
  | CacheKind => fun o : Cache => backups_typed (c_DataStructureSpec (r_Spec o))
      /\ forall e, c_EventJournal (r_Spec o) = Some e -> is_int32 (ej_Capacity e) /\ is_int32 (ej_TimeToLiveSeconds e)
  end.
End Specification.

(** ** What a member understands *)

Definition input_MultiMap (i : MultiMapConfig) : settings :=
  ("name", Text (MultiMapConfig_Name i)) ::
  [("backup-count", Num (MultiMapConfig_BackupCount i)); ("async-backup-count", Num (MultiMapConfig_AsyncBackupCount i));
   ("value-collection-type", Text (MultiMapConfig_CollectionType i)); ("binary", Flag (MultiMapConfig_Binary i));
   ("statistics-enabled", Flag (MultiMapConfig_StatisticsEnabled i))] ++
  MergePolicy_settings (MultiMapConfig_MergePolicy i) (MultiMapConfig_MergeBatchSize i) ++
  [("user-code-namespace", Optional (MultiMapConfig_UserCodeNamespace i))].
Definition yaml_MultiMap (name : string) (c : cfg_MultiMap) : settings :=
  ("name", Text name) ::
  [("backup-count", Num (cfg_MultiMap_BackupCount c)); ("async-backup-count", Num (cfg_MultiMap_AsyncBackupCount c));
   ("value-collection-type", Text (cfg_MultiMap_CollectionType c)); ("binary", Flag (cfg_MultiMap_Binary c));
   ("statistics-enabled", Flag (cfg_MultiMap_StatisticsEnabled c))] ++
  yaml_MergePolicy (cfg_MultiMap_MergePolicy c) ++
  [("user-code-namespace", Optional (cfg_MultiMap_UserCodeNamespace c))].

Definition input_Queue (i : QueueConfigInput) : settings :=
  ("name", Text (QueueConfigInput_Name i)) ::
  [("backup-count", Num (QueueConfigInput_BackupCount i)); ("async-backup-count", Num (QueueConfigInput_AsyncBackupCount i));
   ("max-size", Num (QueueConfigInput_MaxSize i)); ("empty-queue-ttl", Num (QueueConfigInput_EmptyQueueTtl i));
   ("priority-comparator-class-name", Optional (QueueConfigInput_PriorityComparatorClassName i));
   ("statistics-enabled", Flag (QueueConfigInput_StatisticsEnabled i))] ++
  MergePolicy_settings (QueueConfigInput_MergePolicy i) (QueueConfigInput_MergeBatchSize i) ++
  [("user-code-namespace", Optional (QueueConfigInput_UserCodeNamespace i))].
Definition yaml_Queue (name : string) (c : cfg_Queue) : settings :=
  ("name", Text name) ::
  [("backup-count", Num (cfg_Queue_BackupCount c)); ("async-backup-count", Num (cfg_Queue_AsyncBackupCount c));
   ("max-size", Num (cfg_Queue_MaxSize c)); ("empty-queue-ttl", Num (cfg_Queue_EmptyQueueTtl c));
   ("priority-comparator-class-name", Optional (cfg_Queue_PriorityComparatorClass c));
   ("statistics-enabled", Flag (cfg_Queue_StatisticsEnabled c))] ++
  yaml_MergePolicy (cfg_Queue_MergePolicy c) ++
  [("user-code-namespace", Optional (cfg_Queue_UserCodeNamespace c))].

Definition input_Topic (i : TopicConfig) : settings :=
  [("name", Text (TopicConfig_Name i)); ("global-ordering-enabled", Flag (TopicConfig_GlobalOrderingEnabled i));
   ("multi-threading-enabled", Flag (TopicConfig_MultiThreadingEnabled i));
   ("statistics-enabled", Flag (TopicConfig_StatisticsEnabled i));
   ("user-code-namespace", Optional (TopicConfig_UserCodeNamespace i))].
Definition yaml_Topic (name : string) (c : cfg_Topic) : settings :=
  [("name", Text name); ("global-ordering-enabled", Flag (cfg_Topic_GlobalOrderingEnabled c));
   ("multi-threading-enabled", Flag (cfg_Topic_MultiThreadingEnabled c));
   ("statistics-enabled", Flag (cfg_Topic_StatisticsEnabled c));
   ("user-code-namespace", Optional (cfg_Topic_UserCodeNamespace c))].

Definition input_ReplicatedMap (i : ReplicatedMapConfig) : settings :=
  [("name", Text (ReplicatedMapConfig_Name i)); ("in-memory-format", Text (ReplicatedMapConfig_InMemoryFormat i));
   ("async-fillup", Flag (ReplicatedMapConfig_AsyncFillup i));
   ("statistics-enabled", Flag (ReplicatedMapConfig_StatisticsEnabled i))] ++
  MergePolicy_settings (ReplicatedMapConfig_MergePolicy i) (ReplicatedMapConfig_MergeBatchSize i) ++
  [("user-code-namespace", Optional (ReplicatedMapConfig_UserCodeNamespace i))].
Definition yaml_ReplicatedMap (name : string) (c : cfg_ReplicatedMap) : settings :=
  [("name", Text name); ("in-memory-format", Text (cfg_ReplicatedMap_InMemoryFormat c));
   ("async-fillup", Flag (cfg_ReplicatedMap_AsyncFillup c));
   ("statistics-enabled", Flag (cfg_ReplicatedMap_StatisticsEnabled c))] ++
  yaml_MergePolicy (cfg_ReplicatedMap_MergePolicy c) ++
  [("user-code-namespace", Optional (cfg_ReplicatedMap_UserCodeNamespace c))].

Definition input_Cache (i : CacheConfigInput) : settings :=
  ("name", Text (CacheConfigInput_Name i)) ::
  [("backup-count", Num (CacheConfigInput_BackupCount i)); ("async-backup-count", Num (CacheConfigInput_AsyncBackupCount i));
   ("key-type", Optional (CacheConfigInput_KeyType i)); ("value-type", Optional (CacheConfigInput_ValueType i));
   ("in-memory-format", Text (CacheConfigInput_InMemoryFormat i));
   ("data-persistence", Flag (HotRestartConfig_Enabled (CacheConfigInput_HotRestartConfig i)));
   ("statistics-enabled", Flag (CacheConfigInput_StatisticsEnabled i));
   ("management-enabled", Flag (CacheConfigInput_ManagementEnabled i));
   ("read-through", Flag (CacheConfigInput_ReadThrough i)); ("write-through", Flag (CacheConfigInput_WriteThrough i))] ++
  MergePolicy_settings (CacheConfigInput_MergePolicy i) (CacheConfigInput_MergeBatchSize i) ++
  EventJournal_settings (EventJournalConfig_Enabled (CacheConfigInput_EventJournalConfig i))
    (EventJournalConfig_Capacity (CacheConfigInput_EventJournalConfig i))
    (EventJournalConfig_TimeToLiveSeconds (CacheConfigInput_EventJournalConfig i)) ++
  [("user-code-namespace", Optional (CacheConfigInput_UserCodeNamespace i))].
Definition yaml_Cache (name : string) (c : cfg_Cache) : settings :=
  ("name", Text name) ::
  [("backup-count", Num (cfg_Cache_BackupCount c)); ("async-backup-count", Num (cfg_Cache_AsyncBackupCount c));
   ("key-type", Optional (cfg_ClassType_ClassName (cfg_Cache_KeyType c)));
   ("value-type", Optional (cfg_ClassType_ClassName (cfg_Cache_ValueType c)));
   ("in-memory-format", Text (cfg_Cache_InMemoryFormat c));
   ("data-persistence", Flag (cfg_DataPersistence_Enabled (cfg_Cache_DataPersistence c)));
   ("statistics-enabled", Flag (cfg_Cache_StatisticsEnabled c));
   ("management-enabled", Flag (cfg_Cache_ManagementEnabled c));
   ("read-through", Flag (cfg_Cache_ReadThrough c)); ("write-through", Flag (cfg_Cache_WriteThrough c))] ++
  yaml_MergePolicy (cfg_Cache_MergePolicy c) ++
  EventJournal_settings (cfg_EventJournal_Enabled (cfg_Cache_EventJournal c))
    (cfg_EventJournal_Capacity (cfg_Cache_EventJournal c)) (cfg_EventJournal_TimeToLiveSeconds (cfg_Cache_EventJournal c)) ++
  [("user-code-namespace", Optional (cfg_Cache_UserCodeNamespace c))].

Section Refinement.
Context `{P : Proto} `{!ProtoLaws P} `{R : MapRange} `{EJ : EventJson} `{QL : QuantityLib}.

(** The request of a resource is built, a member that decodes it consumes
    the whole message, and what it decodes has the settings [s]. *)
Definition received {I} (req : res ClientMessage) (read : Dec I) (view : I -> settings) (s : settings) : Prop :=
  exists v, Transmits req read v /\ view v = s.
(** The section of hazelcast.yaml is built and has the settings [s]. *)
Definition written {C} (entry : res C) (view : C -> settings) (s : settings) : Prop :=
  exists c, entry = Ret c /\ view c = s.

Definition ds_received (d : ds_kind) : ds_obj d -> settings -> Prop :=
  match d with
  | MultiMapKind => fun o : MultiMap => received (MultiMap_request o) ReadDynamicConfigAddMultiMapConfigRequest input_MultiMap
  | TopicKind => fun o : Topic => received (Topic_request o) ReadDynamicConfigAddTopicConfigRequest input_Topic
  | ReplicatedMapKind => fun o : ReplicatedMap =>
      received (ReplicatedMap_request o) ReadDynamicConfigAddReplicatedMapConfigRequest input_ReplicatedMap
  | QueueKind => fun o : Queue => received (Queue_request o) ReadDynamicConfigAddQueueConfigRequest input_Queue
  | CacheKind => fun o : Cache => received (Cache_request o) ReadDynamicConfigAddCacheConfigRequest input_Cache
  end.
Definition ds_written (d : ds_kind) : ds_obj d -> settings -> Prop :=
  match d with
  | MultiMapKind => fun o : MultiMap => written (createMultiMapConfig o) (yaml_MultiMap (MultiMap_GetDSName o))
  | TopicKind => fun o : Topic => written (createTopicConfig o) (yaml_Topic (Topic_GetDSName o))
  | ReplicatedMapKind => fun o : ReplicatedMap => written (createReplicatedMapConfig o) (yaml_ReplicatedMap (ReplicatedMap_GetDSName o))
  | QueueKind => fun o : Queue => written (createQueueConfig o) (yaml_Queue (Queue_GetDSName o))
  | CacheKind => fun o : Cache => written (createCacheConfig o) (yaml_Cache (Cache_GetDSName o))
  end.

Lemma received_by {I} (req : res ClientMessage) (read : Dec I) view s v :
  Transmits req read v -> view v = s -> received req read view s.
Proof. intros. by exists v. Qed.

Lemma class_type_name s : cfg_ClassType_ClassName
  (if negb (strb s "") then mk_cfg_ClassType s else cfg_ClassType_zero) = s.
Proof. unfold strb. by case_bool_decide. Qed.

Lemma int32_small z : -1000 <= z < 100000 -> is_int32 z.
Proof. unfold is_sint. lia. Qed.

(** An input is within the widths of the wire format. *)
Ltac input_ok :=
  unfold MultiMapConfig_ok, TopicConfig_ok, ReplicatedMapConfig_ok, QueueConfigInput_ok, CacheConfigInput_ok,
    TimedExpiryPolicyFactoryConfig_ok, DurationConfig_ok, EvictionConfigHolder_ok, EventJournalConfig_ok,
    MerkleTreeConfig_ok; simpl;
  repeat match goal with |- _ /\ _ => split end; simpl;
  try solve [assumption | apply Forall_nil_2 | apply int32_small; unfold DefaultMergeBatchSize; lia
            | unfold is_sint; lia].
Ltac views := unfold input_MultiMap, input_Topic, input_ReplicatedMap, input_Queue, input_Cache, Optional; simpl.

(** The request of an input, and the section of hazelcast.yaml. *)
Ltac refine_request t := eapply received_by; [apply t; input_ok|views; by rewrite ?norm_string_idem].
Ltac refine_section := eexists; split; [reflexivity|try done; unfold yaml_Cache; simpl; by rewrite ?class_type_name].

Lemma MultiMap_agree (o : MultiMap) : ds_typed MultiMapKind o ->
  ds_received MultiMapKind o (MultiMap_settings o) /\ ds_written MultiMapKind o (MultiMap_settings o).
Proof.
  intros [(bc & Hbc & Hb) Ha]. simpl. unfold MultiMap_request, fillMultiMapConfigInput, createMultiMapConfig,
    MultiMap_settings, backups. rewrite Hbc. simpl.
  split; [refine_request DynamicConfigAddMultiMapConfigRequest_transmits|refine_section].
Qed.

Lemma Topic_agree (o : Topic) :
  ds_received TopicKind o (Topic_settings o) /\ ds_written TopicKind o (Topic_settings o).
Proof.
  simpl. unfold Topic_request, fillTopicConfigInput, createTopicConfig, Topic_settings.
  split; [refine_request DynamicConfigAddTopicConfigRequest_transmits|refine_section].
Qed.

Lemma ReplicatedMap_agree (o : ReplicatedMap) : ds_typed ReplicatedMapKind o ->
  ds_received ReplicatedMapKind o (ReplicatedMap_settings o) /\ ds_written ReplicatedMapKind o (ReplicatedMap_settings o).
Proof.
  simpl. unfold ReplicatedMap_request, fillReplicatedConfigInput, createReplicatedMapConfig, ReplicatedMap_settings.
  destruct (rm_AsyncFillup (r_Spec o)) as [a|]; [intros _; simpl|done].
  split; [refine_request DynamicConfigAddReplicatedMapConfigRequest_transmits|refine_section].
Qed.

Lemma Queue_agree (o : Queue) : ds_typed QueueKind o ->
  ds_received QueueKind o (Queue_settings o) /\ ds_written QueueKind o (Queue_settings o).
Proof.
  intros ([(bc & Hbc & Hb) Ha] & Hm & ttl & Ht & Htt). simpl. unfold Queue_request, fillQueueConfigInput,
    createQueueConfig, Queue_settings, backups. rewrite Hbc, Ht. simpl.
  split; [refine_request DynamicConfigAddQueueConfigRequest_transmits|refine_section].
Qed.

Lemma Cache_agree (o : Cache) : ds_typed CacheKind o ->
  ds_received CacheKind o (Cache_settings o) /\ ds_written CacheKind o (Cache_settings o).
Proof.
  intros [[(bc & Hbc & Hb) Ha] He]. simpl. unfold Cache_request, fillCacheConfigInput, createCacheConfig,
    Cache_settings, backups. rewrite Hbc. simpl.
  destruct (c_EventJournal (r_Spec o)) as [e|]; [destruct (He e eq_refl)|]; simpl;
    (split; [refine_request DynamicConfigAddCacheConfigRequest_transmits|refine_section]).
Qed.

(** The five kinds of data structures: the request a running member
    decodes and the section a restarted member reads in hazelcast.yaml give
    the same settings, the ones the resource asks for. *)
Theorem ds_configurations_agree (d : ds_kind) (o : ds_obj d) :
  ds_typed d o -> ds_received d o (ds_settings d o) /\ ds_written d o (ds_settings d o).
Proof.
  destruct d; [apply MultiMap_agree|intros _; apply Topic_agree|apply ReplicatedMap_agree|apply Queue_agree
    |apply Cache_agree].
Qed.
End Refinement.

(** ** Maps *)



Section MapSpecification.
Context `{QL : QuantityLib}.





End MapSpecification.





Section MapRefinement.
Context `{P : Proto} `{!ProtoLaws P} `{R : MapRange} `{EJ : EventJson} `{QL : QuantityLib}.







(** *** The parts of the request *)














#[local] Arguments read_omit_map : simpl never.
#[local] Arguments read_omit_list : simpl never.








End MapRefinement.

(** ** Concrete resources *)

Module MemberConfigRuns.
Import RefProto.
#[local] Existing Instance RefProto.ref.
#[local] Instance no_event_json : EventJson := {| unmarshal_event := fun _ => None |}.

Definition cache1 : Cache :=
  mkResource "ns" "c" "" [] [] false ∅
    (mkCacheSpec (mkDataStructureSpec "cache" "hz" (Some 1) 2 "") "java.lang.String" "" true "BINARY"
       (Some (mkEventJournal 10000 0)))
    (mkDataStructureStatus "" "" ∅).

Lemma ds_configurations_agree_witness :
  ds_typed CacheKind cache1 /\ ds_received CacheKind cache1 (Cache_settings cache1)
  /\ ds_written CacheKind cache1 (Cache_settings cache1).
Proof.
  assert (Ht : ds_typed CacheKind cache1).
  { split; [split; [exists 1; split; [reflexivity|]|]|]; try (unfold is_sint; simpl; lia).
    intros e [= <-]. split; unfold is_sint; simpl; lia. }
  split; [exact Ht|]. apply (ds_configurations_agree CacheKind cache1 Ht).
Defined.



End MemberConfigRuns.
