(* ===== verification/AnnotationFacts.v ===== *)
(** * The recorded spec of a data structure, read back

    [GetSpec] records the spec a data structure was applied with as JSON in an
    annotation; [SetSpec] decodes it into the spec the resource has.  Fields
    the encoder omits keep the value they had: reading back merges. *)

From S2P Require Import Prelude Eff FieldValidation Json HazelcastTypes DataStructureTypes HazelcastValidation HazelcastValidationFacts MapValidation ConfigTypes Proto CodecBuiltin CodecTypes CodecExtra CodecRequests DataStructureConfig DataStructureValidation WanTypes Kube DataStructures.
#[local] Open Scope string_scope.
#[local] Open Scope list_scope.
#[local] Open Scope Z_scope.

(** ** Merging a recorded spec into a current one *)

Definition merge_ptr {A} (o old : option A) : option A := match o with Some a => Some a | None => old end.

Definition DataStructureSpec_merge (s old : DataStructureSpec) : DataStructureSpec :=
  mkDataStructureSpec (merge_str (ds_Name s) (ds_Name old)) (ds_HazelcastResourceName s)
    (merge_ptr (ds_BackupCount s) (ds_BackupCount old)) (ds_AsyncBackupCount s)
    (merge_str (ds_UserCodeNamespace s) (ds_UserCodeNamespace old)).

Definition EventJournal_merge (e old : EventJournal) : EventJournal :=
  mkEventJournal (merge_num (ej_Capacity e) (ej_Capacity old))
    (merge_num (ej_TimeToLiveSeconds e) (ej_TimeToLiveSeconds old)).

Definition ds_merge (d : ds_kind) : ds_spec d -> ds_spec d -> ds_spec d :=
  match d with
  | MultiMapKind => fun s old =>
      mkMultiMapSpec (DataStructureSpec_merge (mm_DataStructureSpec s) (mm_DataStructureSpec old)) (mm_Binary s)
        (merge_str (mm_CollectionType s) (mm_CollectionType old))
  | QueueKind => fun s old =>
      mkQueueSpec (DataStructureSpec_merge (q_DataStructureSpec s) (q_DataStructureSpec old)) (q_MaxSize s)
        (merge_ptr (q_EmptyQueueTtlSeconds s) (q_EmptyQueueTtlSeconds old))
        (merge_str (q_PriorityComparatorClassName s) (q_PriorityComparatorClassName old))
  | TopicKind => fun s old =>
      mkTopicSpec (merge_str (t_Name s) (t_Name old)) (t_GlobalOrderingEnabled s) (t_MultiThreadingEnabled s)
        (t_HazelcastResourceName s) (merge_str (t_UserCodeNamespace s) (t_UserCodeNamespace old))
  | CacheKind => fun s old =>
      mkCacheSpec (DataStructureSpec_merge (c_DataStructureSpec s) (c_DataStructureSpec old))
        (merge_str (c_KeyType s) (c_KeyType old)) (merge_str (c_ValueType s) (c_ValueType old))
        (c_PersistenceEnabled s) (merge_str (c_InMemoryFormat s) (c_InMemoryFormat old))
        (match c_EventJournal s with
         | Some e => Some (EventJournal_merge e (default (mkEventJournal 0 0) (c_EventJournal old)))
         | None => c_EventJournal old
         end)
  | ReplicatedMapKind => fun s old =>
      mkReplicatedMapSpec (merge_str (rm_Name s) (rm_Name old)) (merge_ptr (rm_AsyncFillup s) (rm_AsyncFillup old))
        (merge_str (rm_InMemoryFormat s) (rm_InMemoryFormat old)) (rm_HazelcastResourceName s)
        (merge_str (rm_UserCodeNamespace s) (rm_UserCodeNamespace old))
  end.

(** The integers of a spec fit their Go types. *)
Definition opt_int32 (o : option Z) : Prop := forall z, o = Some z -> is_int32 z.
Definition DataStructureSpec_ints (s : DataStructureSpec) : Prop :=
  opt_int32 (ds_BackupCount s) /\ is_int32 (ds_AsyncBackupCount s).
Definition ds_ints (d : ds_kind) : ds_spec d -> Prop :=
  match d with
  | MultiMapKind => fun s => DataStructureSpec_ints (mm_DataStructureSpec s)
  | QueueKind => fun s => DataStructureSpec_ints (q_DataStructureSpec s) /\ is_int32 (q_MaxSize s)
      /\ opt_int32 (q_EmptyQueueTtlSeconds s)
  | CacheKind => fun s => DataStructureSpec_ints (c_DataStructureSpec s)
      /\ forall e, c_EventJournal s = Some e -> is_int32 (ej_Capacity e) /\ is_int32 (ej_TimeToLiveSeconds e)
  | _ => fun _ => True
  end.

(** ** Decoders on encoded structs *)

Lemma dec_field_app_other {A} fs gs k (d : decoder A) old :
  jget gs k = None -> dec_field (fs ++ gs) k d old = dec_field fs k d old.
Proof. intros Hk. unfold dec_field. by rewrite jget_app, Hk. Qed.

(** The fields of the embedded struct, in front of others. *)
Lemma DataStructureSpec_read s fs old : DataStructureSpec_ints s ->
  (forall k, k ∈ ["name"; "hazelcastResourceName"; "backupCount"; "asyncBackupCount"; "userCodeNamespace"] -> jget fs k = None) ->
  DataStructureSpec_decode (DataStructureSpec_fields s ++ fs) old = inl (DataStructureSpec_merge s old).
Proof.
  intros [Hb Ha] Hfs. unfold DataStructureSpec_decode. rewrite !dec_field_app_other by (apply Hfs; set_solver).
  unfold DataStructureSpec_fields. repeat read_field. reflexivity.
Qed.

Lemma EventJournal_read (e old : EventJournal) : is_int32 (ej_Capacity e) -> is_int32 (ej_TimeToLiveSeconds e) ->
  EventJournal_decode (EventJournal_encode e) old = inl (EventJournal_merge e old).
Proof. intros Hc Ht. unfold EventJournal_decode, EventJournal_encode, dec_obj. by repeat read_field. Qed.

Lemma EventJournal_ptr_read (e : EventJournal) old : is_int32 (ej_Capacity e) -> is_int32 (ej_TimeToLiveSeconds e) ->
  dec_ptr (mkEventJournal 0 0) EventJournal_decode (EventJournal_encode e) old
  = inl (Some (EventJournal_merge e (default (mkEventJournal 0 0) old))).
Proof.
  intros Hc Ht. transitivity (match EventJournal_decode (EventJournal_encode e) (default (mkEventJournal 0 0) old) with
    inl a => inl (Some a) | inr err => inr err end : sum (option EventJournal) error); [reflexivity|].
  by rewrite EventJournal_read.
Qed.

Lemma bool_ptr_read (b : bool) old : dec_ptr false dec_bool (JBool b) old = inl (Some b).
Proof. done. Qed.

Lemma jget_omit_ptr_same {A} k (enc : A -> json) o : jget (omit_ptr k enc o) k = enc <$> o.
Proof. destruct o; simpl; [by rewrite decide_True|done]. Qed.

Section Kinds.
Context `{P : Proto} `{R : MapRange} `{EJ : EventJson} `{QL : QuantityLib}.
Context `{!HazelcastJson} `{KE : KErrors} `{JT : JsonText}.

(** The embedded struct is read, then the other fields. *)
Ltac read_struct :=
  match goal with
  | |- sum_bind (DataStructureSpec_decode _ ?old) _ = _ =>
      rewrite DataStructureSpec_read;
      [ cbn [sum_bind]; unfold DataStructureSpec_fields
      | assumption
      | let k := fresh "k" in let Hk := fresh "Hk" in
        intros k Hk; rewrite !elem_of_cons, elem_of_nil in Hk;
        destruct Hk as [->|[->|[->|[->|[->|[]]]]]]; by jget_simpl ]
  end.

Lemma MultiMapSpec_read s old : ds_ints MultiMapKind s ->
  MultiMapSpec_decode (MultiMapSpec_encode s) old = inl (ds_merge MultiMapKind s old).
Proof. intros Hi. unfold MultiMapSpec_decode, MultiMapSpec_encode, dec_obj. read_struct. by repeat read_field. Qed.

Lemma QueueSpec_read s old : ds_ints QueueKind s ->
  QueueSpec_decode (QueueSpec_encode s) old = inl (ds_merge QueueKind s old).
Proof.
  intros (Hi & Hm & Ht). unfold QueueSpec_decode, QueueSpec_encode, dec_obj. read_struct. by repeat read_field.
Qed.

Lemma TopicSpec_read s old : TopicSpec_decode (TopicSpec_encode s) old = inl (ds_merge TopicKind s old).
Proof. unfold TopicSpec_decode, TopicSpec_encode, dec_obj. by repeat read_field. Qed.

Lemma CacheSpec_read s old : ds_ints CacheKind s ->
  CacheSpec_decode (CacheSpec_encode s) old = inl (ds_merge CacheKind s old).
Proof.
  intros [Hi He]. unfold CacheSpec_decode, CacheSpec_encode, dec_obj. read_struct. repeat read_field.
  unfold dec_field. jget_simpl. rewrite jget_omit_ptr_same.
  unfold ds_merge. destruct (c_EventJournal s) as [e|]; [|done]. destruct (He e eq_refl).
  cbn [fmap option_fmap option_map]. by rewrite EventJournal_ptr_read.
Qed.

Lemma ReplicatedMapSpec_read s old :
  ReplicatedMapSpec_decode (ReplicatedMapSpec_encode s) old = inl (ds_merge ReplicatedMapKind s old).
Proof.
  unfold ReplicatedMapSpec_decode, ReplicatedMapSpec_encode, dec_obj. read_field.
  unfold dec_field at 1. jget_simpl. rewrite jget_omit_ptr_same. unfold ds_merge.
  destruct (rm_AsyncFillup s) as [b|]; cbn [fmap option_fmap option_map]; rewrite ?bool_ptr_read; cbn [sum_bind];
    by repeat read_field.
Qed.

Definition ds_encode (d : ds_kind) : ds_spec d -> json :=
  match d with
  | MultiMapKind => MultiMapSpec_encode
  | TopicKind => TopicSpec_encode
  | ReplicatedMapKind => ReplicatedMapSpec_encode
  | QueueKind => QueueSpec_encode
  | CacheKind => CacheSpec_encode
  end.

Lemma ds_GetSpec_text (d : ds_kind) (o : ds_obj d) : GetSpec o = inl (json_print (ds_encode d (r_Spec o))).
Proof. by destruct d. Qed.

Lemma SetSpec_merges (d : ds_kind) (o : ds_obj d) (s : ds_spec d) : ds_ints d s ->
  SetSpec o (json_print (ds_encode d s)) = inl (set_Spec o (ds_merge d s (r_Spec o))).
Proof.
  intros Hi. destruct d; simpl in *; unfold ds_SetSpec, json_Unmarshal; rewrite json_parse_print.
  - by rewrite MultiMapSpec_read.
  - by rewrite TopicSpec_read.
  - by rewrite ReplicatedMapSpec_read.
  - by rewrite QueueSpec_read.
  - by rewrite CacheSpec_read.
Qed.

(** A resource without a spec, as one that was just allocated. *)
Definition ds_zero (d : ds_kind) : ds_spec d :=
  match d with
  | MultiMapKind => mkMultiMapSpec (mkDataStructureSpec "" "" None 0 "") false ""
  | TopicKind => mkTopicSpec "" false false "" ""
  | ReplicatedMapKind => mkReplicatedMapSpec "" None "" "" ""
  | QueueKind => mkQueueSpec (mkDataStructureSpec "" "" None 0 "") 0 None ""
  | CacheKind => mkCacheSpec (mkDataStructureSpec "" "" None 0 "") "" "" false "" None
  end.

Lemma merge_str_empty s : merge_str s "" = s.
Proof. unfold merge_str. by case_decide. Qed.
Lemma merge_num_zero z : merge_num z 0 = z.
Proof. unfold merge_num. by case_decide. Qed.
Lemma merge_ptr_none {A} (o : option A) : merge_ptr o None = o.
Proof. by destruct o. Qed.

Lemma ds_merge_zero (d : ds_kind) (s : ds_spec d) : ds_merge d s (ds_zero d) = s.
Proof.
  destruct d, s as []; simpl; unfold DataStructureSpec_merge; simpl;
    rewrite ?merge_str_empty, ?merge_ptr_none; try done;
    try (match goal with ds : DataStructureSpec |- _ => destruct ds end; done).
  match goal with ds : DataStructureSpec |- _ => destruct ds end.
  match goal with e : option EventJournal |- _ => destruct e as [[]|] end; [|done].
  unfold EventJournal_merge. simpl. by rewrite !merge_num_zero.
Qed.

(** The text a controller records of a spec, decoded into a fresh
    resource, is the spec again; decoded into a resource that has a spec it
    is the merge of the two, in which every field the text omits keeps its
    value. *)
Theorem recorded_spec_round_trip (d : ds_kind) (o cur : ds_obj d) : ds_ints d (r_Spec o) ->
  exists text, GetSpec o = inl text
  /\ SetSpec cur text = inl (set_Spec cur (ds_merge d (r_Spec o) (r_Spec cur)))
  /\ SetSpec (set_Spec cur (ds_zero d)) text = inl (set_Spec cur (r_Spec o)).
Proof.
  intros Hi. exists (json_print (ds_encode d (r_Spec o))). rewrite ds_GetSpec_text, !SetSpec_merges by done.
  simpl. by rewrite ds_merge_zero.
Qed.

(** A data structure that failed is persisted with its recorded spec
    merged into the one that was rejected: a value the recorded spec leaves
    out, such as the user code namespace, goes into hazelcast.yaml as it was
    rejected. *)
Theorem rejected_value_persisted (mm : MultiMap) (applied : MultiMapSpec) (rejected : string) :
  let old := mm_DataStructureSpec applied in
  DataStructureSpec_ints old -> ds_UserCodeNamespace old = "" ->
  st_State (r_Status mm) = DataStructureFailed ->
  r_Annotations mm !! n_LastSuccessfulSpecAnnotation = Some (json_print (MultiMapSpec_encode applied)) ->
  ds_UserCodeNamespace (mm_DataStructureSpec (r_Spec mm)) = rejected ->
  exists mm', isDSPersisted MultiMapKind mm = Some mm'
    /\ ds_UserCodeNamespace (mm_DataStructureSpec (r_Spec mm')) = rejected.
Proof.
  intros old Hi Hu Hs Ha Hr. unfold isDSPersisted. change (ds_spec MultiMapKind) with MultiMapSpec. rewrite Hs, Ha.
  change (MultiMapSpec_encode applied) with (ds_encode MultiMapKind applied).
  rewrite (SetSpec_merges MultiMapKind) by done. eexists. split; [reflexivity|].
  simpl. fold old. rewrite Hu. unfold merge_str. by rewrite decide_True.
Qed.
End Kinds.

(** ** Concrete resources *)

Module AnnotationRuns.
Import RefProto.
#[local] Existing Instance RefProto.ref.
#[local] Instance bad_json : HazelcastJson := {| HazelcastSpec_Unmarshal _ := inr (errors_New "bad json") |}.

Definition applied1 : MultiMapSpec := mkMultiMapSpec (mkDataStructureSpec "" "hz" (Some 1) 0 "") false "SET".
Definition edited1 : MultiMapSpec := mkMultiMapSpec (mkDataStructureSpec "" "hz" (Some 2) 0 "code") false "SET".
Definition failed1 : MultiMap :=
  mkResource "ns" "mm" "" [] [] false
    {[n_LastSuccessfulSpecAnnotation := json_print (MultiMapSpec_encode applied1)]} edited1
    (mkDataStructureStatus DataStructureFailed "" ∅).

Lemma applied1_ints : DataStructureSpec_ints (mm_DataStructureSpec applied1).
Proof. split; [intros z [= <-]|]; unfold is_sint; simpl; lia. Qed.

Lemma recorded_spec_witness :
  ds_ints MultiMapKind (r_Spec (set_Spec failed1 applied1 : MultiMap)) /\
  exists text, SetSpec (set_Spec failed1 (ds_zero MultiMapKind) : ds_obj MultiMapKind) text = inl (set_Spec failed1 applied1).
Proof.
  split; [apply applied1_ints|].
  destruct (recorded_spec_round_trip MultiMapKind (set_Spec failed1 applied1) failed1) as (text & _ & _ & H);
    [apply applied1_ints|].
  exists text. exact H.
Defined.

Lemma rejected_value_witness :
  exists mm', isDSPersisted MultiMapKind failed1 = Some mm'
    /\ ds_UserCodeNamespace (mm_DataStructureSpec (r_Spec mm')) = "code".
Proof.
  apply (rejected_value_persisted failed1 applied1 "code").
  - apply applied1_ints.
  - reflexivity.
  - reflexivity.
  - unfold failed1. simpl. apply lookup_insert_eq.
  - reflexivity.
Defined.
End AnnotationRuns.
