(* ===== verification/MapController.v ===== *)
(** * The Map controller

    src/internal/controller/hazelcast/map_controller.go and map_status.go.  A
    new map is added to every member, one that was applied before is updated
    on them; then the controller waits until hazelcast.yaml holds the map and
    records the spec.  The phone home trigger and logging are left out. *)

From S2P Require Import Prelude Eff FieldValidation Json HazelcastTypes DataStructureTypes HazelcastValidation HazelcastValidationFacts MapValidation ConfigTypes Proto CodecBuiltin CodecTypes CodecConfig CodecExtra CodecRequests DataStructureConfig DataStructureValidation WanTypes Kube DataStructures.
#[local] Open Scope prog_scope.
#[local] Open Scope string_scope.
#[local] Open Scope list_scope.
#[local] Open Scope Z_scope.

Abbreviation MapSuccess := DataStructureSuccess.
Abbreviation MapFailed := DataStructureFailed.
Abbreviation MapPending := DataStructurePending.
Abbreviation MapPersisting := DataStructurePersisting.
Abbreviation MapTerminating := DataStructureTerminating.

(** ** map_status.go *)

Inductive MapStatusApplier :=
| withMapState (s : string)
| withMapFailedState (msg : string)
| withMapMessage (msg : string)
| withMapMemberStatuses (ms : gmap string string).

Definition MapStatusApply (ms : MapStatus) (w : MapStatusApplier) : MapStatus :=
  match w with
  | withMapState s => mkDataStructureStatus s (if strb s MapSuccess then "" else st_Message ms) (st_MemberStatuses ms)
  | withMapFailedState msg => mkDataStructureStatus MapFailed msg (st_MemberStatuses ms)
  | withMapMessage msg => mkDataStructureStatus (st_State ms) msg (st_MemberStatuses ms)
  | withMapMemberStatuses l => mkDataStructureStatus (st_State ms) (st_Message ms) l
  end.

Section MapController.
Context `{P : Proto} `{R : MapRange} `{EJ : EventJson} `{QL : QuantityLib} `{Y : YamlLib}.
Context `{!HazelcastJson} `{!MapJson} `{KE : KErrors}.
Abbreviation reconcile_result := (ctrl_Result * option error)%type.

(** What [updateMapStatus] returns, from the answer of the API server. *)
Definition map_status_result (state : string) (recOption : ReconcilerOption) (err : option error) : reconcile_result :=
  match err with
  | Some e => if IsConflict e then (ctrl_Result_zero, None) else (ctrl_Result_zero, Some e)
  | None =>
      match ro_Err recOption with
      | Some e => (ctrl_Result_zero, Some e)
      | None =>
          if strb state MapPending || strb state MapPersisting
          then (mkResult true (ro_RetryAfter recOption), None)
          else (ctrl_Result_zero, None)
      end
  end.

Definition updateMapStatus (m : Map) (recOption : ReconcilerOption) (options : list MapStatusApplier)
  : prog (Map * reconcile_result) :=
  let m : Map := set_Status m (foldl MapStatusApply (r_Status m) options) in
  ask err <- StatusUpdate KMap m ;;
  Done (m, map_status_result (st_State (r_Status m)) recOption err).

Definition map_fail (m : Map) (e : error) (msg : string) : prog reconcile_result :=
  r <- updateMapStatus m (recoptions_Error e) [withMapFailedState msg] ;; Done r.2.

(** ** map_controller.go *)

(** [fillAddMapConfigInput] on the default input, and the request. *)
Definition add_map_request (m : Map) (h : Hazelcast) : prog (fetched ClientMessage) :=
  lift_res (deref (ds_BackupCount (m_DataStructureSpec (r_Spec m)))) ;;
  props <- map_store_props m (h_Namespace h) ;;
  match props with
  | Failed e => Done (Failed e)
  | Found props =>
      req <- lift_res (bind_res (fill_map_input DefaultAddMapConfigInput props m)
                         EncodeDynamicConfigAddMapConfigRequest) ;;
      Done (Found req)
  end.

Definition update_map_request (m : Map) : res ClientMessage :=
  let ms := r_Spec m in
  EncodeMCUpdateMapConfigRequest (DataStructureTypes.MapName m) (m_TimeToLiveSeconds ms) (m_MaxIdleSeconds ms)
    (EncodeEvictionPolicyType (ev_EvictionPolicy (m_Eviction ms))) false (ev_MaxSize (m_Eviction ms))
    (EncodeMaxSizePolicy (ev_MaxSizePolicy (m_Eviction ms))) (defaultWanReplicationRefCodec m).

Definition map_request (m : Map) (h : Hazelcast) (createdBefore : bool) : prog (fetched ClientMessage) :=
  if createdBefore then req <- lift_res (update_map_request m) ;; Done (Found req)
  else add_map_request m h.

Definition ReconcileMapConfig (m : Map) (h : Hazelcast) (hz : NamespacedName) (createdBefore : bool)
  : prog (gmap string string * option error) :=
  req <- map_request m h createdBefore ;;
  match req with
  | Failed e => Done (∅, Some e)
  | Found req =>
      ask members <- OrderedMembers hz ;;
      r <- send_to_members hz (st_MemberStatuses (r_Status m)) req members ∅ [] ;;
      match r.2 with
      | [] => Done (r.1, None)
      | failed => Done (r.1, Some (errors_New ("error creating/updating the Map config "
                    ++ DataStructureTypes.MapName m ++ " for members " ++ join_names failed)))
      end
  end.

Definition updateLastSuccessfulConfiguration (m : Map) : prog (Map * option error) :=
  match MapSpec_Marshal (r_Spec m) with
  | inr e => Done (m, Some e)
  | inl ms => UpdateAnnotation KMap m n_LastSuccessfulSpecAnnotation ms
  end.

Definition validateMapConfigPersistence (h : Hazelcast) (m : Map) : prog (fetched bool) :=
  ask got <- GetConfigSecret (r_Namespace m, ds_HazelcastResourceName (m_DataStructureSpec (r_Spec m))) ;;
  match (got : fetched Document) with
  | Failed _ => Done (Failed (errors_New "could not find Secret for map config persistence"))
  | Found doc =>
  match yaml_Unmarshal doc with
  | None => Done (Failed (errors_New "persisted Secret is not formatted correctly"))
  | Some hzConfig =>
  match default ∅ (cfg_Hazelcast_Map hzConfig) !! DataStructureTypes.MapName m with
  | None => Done (Found false)
  | Some mcfg =>
      currentMcfg <- createMapConfig (h_Namespace h) m ;;
      match currentMcfg with
      | Failed e => Done (Failed e)
      | Found currentMcfg => Done (Found (bool_decide (mcfg = currentMcfg)))
      end
  end end end.

(** The result that stops a reconciliation because the spec was applied, or
    whether the map was applied before. *)
Definition applied_before (m : Map) : prog (sum bool reconcile_result) :=
  match r_Annotations m !! n_LastSuccessfulSpecAnnotation with
  | None => Done (inl false)
  | Some s =>
      match MapSpec_Marshal (r_Spec m) with
      | inr e => let e := wrap "error marshaling Map as JSON: " e in r <- map_fail m e (err_msg e) ;; Done (inr r)
      | inl ms =>
          if strb s ms then
            r <- updateMapStatus m recoptions_Empty [withMapState MapSuccess] ;; Done (inr r.2)
          else Done (inl true)
      end
  end.

Definition map_pending (m : Map) : prog (sum Map reconcile_result) :=
  if strb (st_State (r_Status m)) "" then
    r <- updateMapStatus m recoptions_Empty [withMapState MapPending; withMapMessage "Applying new map configuration."] ;;
    match r.2.2 with
    | Some _ => Done (inr r.2)
    | None => Done (inl r.1)
    end
  else Done (inl m).

(** The part of [Reconcile] behind the configuration of the members. *)
Definition persist_map (m : Map) (h : Hazelcast) : prog reconcile_result :=
  r <- updateMapStatus m (recoptions_RetryAfter 1)
         [withMapState MapPersisting; withMapMessage "Persisting the applied map config."] ;;
  match r.2.2 with
  | Some _ => Done r.2
  | None =>
  let m := r.1 in
  persisted <- validateMapConfigPersistence h m ;;
  match persisted with
  | Failed e => map_fail m e (err_msg e)
  | Found false =>
      r <- updateMapStatus m (recoptions_RetryAfter 1)
             [withMapState MapPersisting; withMapMessage "Waiting for Map Config to be persisted."] ;;
      Done r.2
  | Found true =>
      u <- updateLastSuccessfulConfiguration m ;;
      r <- updateMapStatus u.1 recoptions_Empty
             [withMapState MapSuccess; withMapMessage ""; withMapMemberStatuses ∅] ;;
      Done r.2
  end end.

Definition Map_Reconcile (nn : NamespacedName) : prog reconcile_result :=
  ask got <- Get KMap nn ;;
  match (got : fetched Map) with
  | Failed e =>
      if IsNotFound e then Done (ctrl_Result_zero, None)
      else Done (ctrl_Result_zero, Some (wrap "failed to get Map: " e))
  | Found m =>
  af <- AddFinalizer KMap m ;;
  let m : Map := af.1 in
  match af.2 with
  | Some e => map_fail m e (err_msg e)
  | None =>
  if r_Deleting m then
    r <- updateMapStatus m recoptions_Empty [withMapState MapTerminating] ;;
    del <- executeFinalizer KMap r.1 ;;
    match del.2 with
    | Some e =>
        r <- updateMapStatus del.1 (recoptions_Error e) [withMapState MapTerminating; withMapMessage (err_msg e)] ;;
        Done r.2
    | None => Done (ctrl_Result_zero, None)
    end
  else
  let hzName := ds_HazelcastResourceName (m_DataStructureSpec (r_Spec m)) in
  ask hz <- GetHazelcast (nn.1, hzName) ;;
  match (hz : fetched Hazelcast) with
  | Failed e =>
      let e := wrap "could not create/update Map config: Hazelcast resource not found: " e in
      map_fail m e (err_msg e)
  | Found h =>
  if negb (strb (st_Phase (h_Status h)) hz_Running) then
    map_fail m (errors_New "Hazelcast CR is not ready") "Hazelcast CR is not ready"
  else
  valid <- lift_res (ValidateMapSpec m h) ;;
  match valid with
  | Some e => map_fail m e ("error validating new Spec: " ++ err_msg e)
  | None =>
  before <- applied_before m ;;
  match before with
  | inr r => Done r
  | inl createdBefore =>
  cl <- getHazelcastClient (r_Namespace m, hzName) ;;
  match cl with
  | Some e => map_fail m e (err_msg e)
  | None =>
  pending <- map_pending m ;;
  match pending with
  | inr r => Done r
  | inl m =>
  ms <- ReconcileMapConfig m h (r_Namespace m, hzName) createdBefore ;;
  match ms.2 with
  | Some e =>
      r <- updateMapStatus m (recoptions_Error e)
             [withMapState MapFailed; withMapMessage (err_msg e); withMapMemberStatuses ms.1] ;;
      Done r.2
  | None => persist_map m h
  end end end end end end end end.
End MapController.
