(* ===== verification/MapControllerFacts.v ===== *)
(** * Theorems about the Map controller

    What members are sent, when Success is stored, and maps whose section of
    hazelcast.yaml never becomes what the controller waits for. *)

From S2P Require Import Prelude Eff FieldValidation Json HazelcastTypes DataStructureTypes HazelcastValidation HazelcastValidationFacts MapValidation ConfigTypes Proto CodecBuiltin CodecTypes CodecConfig CodecExtra CodecRequests DataStructureConfig DataStructureValidation WanTypes Kube DataStructures MapController.
#[local] Open Scope prog_scope.
#[local] Open Scope string_scope.
#[local] Open Scope list_scope.
#[local] Open Scope Z_scope.

#[local] Arguments updateMapStatus : simpl never.
#[local] Arguments map_fail : simpl never.

Section Facts.
Context `{P : Proto} `{R : MapRange} `{EJ : EventJson} `{QL : QuantityLib} `{Y : YamlLib}.
Context `{!HazelcastJson} `{!MapJson} `{KE : KErrors}.
Context (nn : NamespacedName).
Implicit Types (m : Map).

(** ** When success may be stored *)

Definition map_hz_name m : string := ds_HazelcastResourceName (m_DataStructureSpec (r_Spec m)).
(** The cluster the controller talks to. *)
Definition map_hz m : NamespacedName := (r_Namespace m, map_hz_name m).
Definition created_before m : Prop := r_Annotations m !! n_LastSuccessfulSpecAnnotation <> None.

(** The spec was applied before. *)
Definition map_already_applied m : Prop :=
  exists s, r_Annotations m !! n_LastSuccessfulSpecAnnotation = Some s /\ MapSpec_Marshal (r_Spec m) = inl s.

(** The map is valid and its cluster, [h], is running. *)
Record map_ready (t : list event) m (h : Hazelcast) : Prop := {
  mr_live : r_Deleting m = false;
  mr_hazelcast : ev_hazelcast (nn.1, map_hz_name m) h ∈ t;
  mr_running : st_Phase (h_Status h) = hz_Running;
  mr_valid : ValidateMapSpec m h = Ret None;
}.

(** The request for a map: the whole configuration with the properties that
    were read, or an update of a map that was applied before. *)
Definition is_map_request (t : list event) m (h : Hazelcast) (req : ClientMessage) : Prop :=
  (created_before m /\ update_map_request m = Ret req)
  \/ (~ created_before m /\ exists props, props_read t (h_Namespace h) m props
      /\ bind_res (fill_map_input DefaultAddMapConfigInput props m) EncodeDynamicConfigAddMapConfigRequest = Ret req).

Definition map_delivered (t : list event) m (h : Hazelcast) : Prop :=
  exists members req, ev_members (map_hz m) members ∈ t /\ is_map_request t m h req
    /\ forall uuid, uuid ∈ members ->
         st_MemberStatuses (r_Status m) !! uuid = Some DataStructureSuccess
         \/ exists resp, ev_acked (map_hz m) uuid req resp ∈ t.

Definition map_persisted (t : list event) m (h : Hazelcast) : Prop :=
  exists doc c cfg props, ev_config (map_hz m) doc ∈ t /\ yaml_Unmarshal doc = Some c
    /\ default ∅ (cfg_Hazelcast_Map c) !! DataStructureTypes.MapName m = Some cfg
    /\ props_read t (h_Namespace h) m props /\ create_map_config props m = Ret cfg.

Definition map_justified (t : list event) : Prop :=
  exists (m : Map) h, ev_read KMap nn m ∈ t /\ map_ready t m h /\
    (map_already_applied m \/ (map_delivered t m h /\ map_persisted t m h)).

Definition stores_map_success (c : kube_op) : bool :=
  match c with
  | StatusUpdate KMap o => strb (st_State (r_Status o)) DataStructureSuccess
  | _ => false
  end.

Definition map_to_send (t : list event) (hz : NamespacedName) (uuid : string) (req : ClientMessage) : Prop :=
  exists (m : Map) h members, ev_read KMap nn m ∈ t /\ map_ready t m h /\ hz = map_hz m
    /\ ev_members hz members ∈ t /\ uuid ∈ members /\ is_map_request t m h req
    /\ st_MemberStatuses (r_Status m) !! uuid <> Some DataStructureSuccess.

(** What the controller may do after the history [t]. *)
Definition map_guard (t : list event) (c : kube_op) : Prop :=
  match c with
  | StatusUpdate _ _ => stores_map_success c = true -> map_justified t
  | InvokeOnMember hz uuid req => map_to_send t hz uuid req
  | InvokeOnRandomTarget _ _ => False
  | _ => True
  end.

#[local] Instance map_permissive : Permissive map_guard.
Proof. intros h c Hc. by destruct c. Qed.

Abbreviation wpm := (wp map_guard).

(** ** Facts that later calls keep *)

Lemma map_ready_mono t t' m h : t ⊆ t' -> map_ready t m h -> map_ready t' m h.
Proof. intros Hs []. constructor; try done. by apply Hs. Qed.

Lemma is_map_request_mono t t' m h req : t ⊆ t' -> is_map_request t m h req -> is_map_request t' m h req.
Proof.
  intros Hs [?|(? & props & Hp & ?)]; [by left|]. right. split; [done|]. exists props. split; [|done].
  by eapply props_read_mono.
Qed.

Lemma map_delivered_mono t t' m h : t ⊆ t' -> map_delivered t m h -> map_delivered t' m h.
Proof.
  intros Hs (ms & req & Hm & Hr & Ha). exists ms, req. split; [by apply Hs|].
  split; [by eapply is_map_request_mono|].
  intros u [?|[resp ?]]%Ha; [by left|right; exists resp; by apply Hs].
Qed.

(** ** Facts that only depend on what was read *)

Lemma same_valid m0 m h : same m0 m -> ValidateMapSpec m h = ValidateMapSpec m0 h.
Proof. intros [Hns Hn Ha Hs]. destruct m, m0; simpl in *; by subst. Qed.

(** Only the status and the finalizers may differ. *)
Ltac same_as_read := intros [? ? ? ?]; repeat match goal with m : Map |- _ => destruct m end; simpl in *; by subst.

Lemma same_update m0 m : same m0 m -> update_map_request m = update_map_request m0.
Proof. same_as_read. Qed.
Lemma same_fill i props m0 m : same m0 m -> fill_map_input i props m = fill_map_input i props m0.
Proof. same_as_read. Qed.
Lemma same_create props m0 m : same m0 m -> create_map_config props m = create_map_config props m0.
Proof. same_as_read. Qed.
Lemma same_props t ns m0 m props : same m0 m -> props_read t ns m props -> props_read t ns m0 props.
Proof. same_as_read. Qed.

Abbreviation members_of m := (st_MemberStatuses (r_Status m)).

(** ** The parts of a reconciliation *)

Definition map_not_success (ws : list MapStatusApplier) : Prop :=
  forall st, st_State (foldl MapStatusApply st ws) <> DataStructureSuccess.

Lemma wp_updateMapStatus m ro ws t Q :
  map_guard t (StatusUpdate KMap (set_Status m (foldl MapStatusApply (r_Status m) ws))) ->
  (forall err t', t ⊆ t' ->
     Q t' (set_Status m (foldl MapStatusApply (r_Status m) ws),
           map_status_result (st_State (foldl MapStatusApply (r_Status m) ws)) ro err)) ->
  wpm (updateMapStatus m ro ws) t Q.
Proof. intros HG HQ. apply wp_vis; [done|]. intros err t' Hs _. by apply HQ. Qed.

Lemma wp_update_quietly m ro ws t Q :
  map_not_success ws ->
  (forall err t', t ⊆ t' ->
     Q t' (set_Status m (foldl MapStatusApply (r_Status m) ws),
           map_status_result (st_State (foldl MapStatusApply (r_Status m) ws)) ro err)) ->
  wpm (updateMapStatus m ro ws) t Q.
Proof. intros Hn HQ. apply wp_updateMapStatus; [|done]. intros Hs. by apply strb_true, Hn in Hs. Qed.

Lemma wp_map_stop {B} m ro ws (f : Map * (ctrl_Result * option error) -> B) t (Q : list event -> B -> Prop) :
  map_not_success ws -> (forall t' a, t ⊆ t' -> Q t' (f a)) ->
  wpm (r <- updateMapStatus m ro ws ;; Done (f r)) t Q.
Proof.
  intros Hn HQ. eapply wp_seq; [by apply wp_update_quietly with (Q := fun _ _ => True)|].
  intros t' a Hs _. by apply wp_ret, HQ.
Qed.

Lemma wp_map_fail m e msg t Q : (forall t' r, t ⊆ t' -> Q t' r) -> wpm (map_fail m e msg) t Q.
Proof. intros HQ. apply wp_map_stop; [by intros st [=]|]. intros t' a Hs. by apply HQ. Qed.

Lemma wp_applied_before m0 m t (Q : list event -> bool + (ctrl_Result * option error) -> Prop) : same m0 m ->
  (map_already_applied m0 -> map_justified t) ->
  (forall t' r, t ⊆ t' -> Q t' (inr r)) ->
  (forall b, b = true <-> created_before m0 -> Q t (inl b)) ->
  wpm (applied_before m) t Q.
Proof.
  intros Hso Hj Hstop Hgo. unfold applied_before, created_before, map_already_applied in *.
  rewrite (same_ann _ _ Hso), (same_spec _ _ Hso) in *.
  destruct (r_Annotations m0 !! _) as [s|] eqn:Ea; [|by apply wp_ret, Hgo].
  destruct (MapSpec_Marshal _) as [ms|e] eqn:Eg.
  - destruct (strb s ms) eqn:Es; [|by apply wp_ret, Hgo]. apply strb_true in Es. subst ms.
    eapply wp_seq; [apply wp_updateMapStatus with (Q := fun _ _ => True); [|done]|].
    + intros _. apply Hj. by exists s.
    + intros t' a Hs _. by apply wp_ret, Hstop.
  - apply wp_bind, wp_map_fail. intros t' r Hs. by apply wp_ret, Hstop.
Qed.

Lemma wp_map_pending m0 m t Q : same m0 m -> members_of m = members_of m0 ->
  (forall t' r, t ⊆ t' -> Q t' (inr r)) ->
  (forall t' m', t ⊆ t' -> same m0 m' -> members_of m' = members_of m0 -> Q t' (inl m')) ->
  wpm (map_pending m) t Q.
Proof.
  intros Hso Hm Hstop Hgo. unfold map_pending. destruct (strb _ _); [|by apply wp_ret, Hgo].
  eapply wp_seq; [apply wp_update_quietly with (Q := fun _ r => same m0 r.1 /\ members_of r.1 = members_of m0)|].
  - by intros st [=].
  - intros err t' _. split; [by apply same_status|done].
  - intros t' [m' [res [e|]]] Hs [Hs' Hm']; apply wp_ret; [by apply Hstop|by apply Hgo].
Qed.

Lemma wp_map_request m0 m h b t Q : same m0 m -> (b = true <-> created_before m0) ->
  (forall t' r, t ⊆ t' -> (forall req, r = Found req -> is_map_request t' m0 h req) -> Q t' r) ->
  wpm (map_request m h b) t Q.
Proof.
  intros Hso Hb HQ. unfold map_request. destruct b.
  - apply wp_bind, wp_lift_res. intros req Hreq. apply wp_ret, HQ; [done|]. intros req' [= <-].
    left. split; [by apply Hb|]. by rewrite <-(same_update _ _ Hso).
  - unfold add_map_request. apply wp_bind, wp_lift_res. intros bc _.
    apply wp_bind, (wp_map_store_props map_guard). intros t1 [props|e] Hs1 Hp; [|apply wp_ret, HQ; [done|by intros ? [=]]].
    apply wp_bind, wp_lift_res. intros req Hreq. apply wp_ret, HQ; [done|]. intros req' [= <-].
    right. split; [intros Hc; by apply Hb in Hc|]. exists props. specialize (Hp _ eq_refl).
    rewrite <-(same_fill _ _ _ _ Hso). split; [by eapply same_props|done].
Qed.

Lemma wp_ReconcileMapConfig m0 m h b t Q :
  same m0 m -> members_of m = members_of m0 -> (b = true <-> created_before m0) ->
  ev_read KMap nn m0 ∈ t -> map_ready t m0 h ->
  (forall t' ms err, t ⊆ t' -> (err = None -> map_delivered t' m0 h) -> Q t' (ms, err)) ->
  wpm (ReconcileMapConfig m h (map_hz m0) b) t Q.
Proof.
  intros Hso Hm Hb E0 Hready HQ. unfold ReconcileMapConfig.
  apply wp_bind, (wp_map_request m0); [done|done|]. intros t1 [req|e] Hs1 Hr; [|by apply wp_ret, HQ].
  specialize (Hr _ eq_refl). apply (wp_quiet map_guard); [done|]. intros members t2 Hs2 E2.
  apply wp_bind, (wp_send_to_members map_guard).
  - intros t3 ms [|f fs] Hs3 _ Hu; cbn [fst snd]; apply wp_ret, HQ; [by do 2 etrans| |by do 2 etrans|done].
    intros _. exists members, req. split; [unfold ev_members; hist|].
    split; [eapply is_map_request_mono; [|done]; by etrans|].
    intros u [Hu'|[Hu'|[]%not_elem_of_nil]]%Hu; [left; by rewrite <-Hm|by right].
  - intros t3 u Hs3 Hu Hns. exists m0, h, members. split; [unfold ev_read; hist|].
    split; [eapply map_ready_mono; [|done]; by do 2 etrans|]. split; [done|].
    split; [unfold ev_members; hist|]. split; [done|].
    split; [eapply is_map_request_mono; [|done]; by etrans|]. by rewrite <-Hm.
Qed.

Lemma wp_createMapConfig ns m t Q :
  (forall t' r, t ⊆ t' ->
     (forall cfg, r = Found cfg -> exists props, props_read t' ns m props /\ create_map_config props m = Ret cfg) -> Q t' r) ->
  wpm (createMapConfig ns m) t Q.
Proof.
  intros HQ. unfold createMapConfig. apply wp_bind, wp_lift_res. intros bc _.
  apply wp_bind, (wp_map_store_props map_guard). intros t1 [props|e] Hs1 Hp; [|apply wp_ret, HQ; [done|by intros ? [=]]].
  apply wp_bind, wp_lift_res. intros cfg Hc. apply wp_ret, HQ; [done|]. intros cfg' [= <-].
  exists props. split; [by apply Hp|done].
Qed.

Lemma same_persisted_map t m0 m h : same m0 m -> map_persisted t m h -> map_persisted t m0 h.
Proof.
  intros Hso (doc & c & cfg & props & Hd & Hy & Hl & Hp & Hc). exists doc, c, cfg, props.
  rewrite <-(same_create _ _ _ Hso). split_and!; try done; [| |by eapply same_props].
  - revert Hd. clear -Hso. revert Hso. same_as_read.
  - revert Hl. clear -Hso. revert Hso. same_as_read.
Qed.

Lemma wp_validateMapConfigPersistence m h t Q :
  (forall t' r, t ⊆ t' -> (r = Found true -> map_persisted t' m h) -> Q t' r) ->
  wpm (validateMapConfigPersistence h m) t Q.
Proof.
  intros HQ. unfold validateMapConfigPersistence. apply (wp_quiet map_guard); [done|].
  intros [doc|e] t1 Hs1 E1; [|by apply wp_ret, HQ]. cbv iota.
  destruct (yaml_Unmarshal doc) as [c|] eqn:Ec; [|by apply wp_ret, HQ].
  destruct (default ∅ _ !! _) as [cfg|] eqn:El; [|by apply wp_ret, HQ].
  apply wp_bind, wp_createMapConfig. intros t2 [cfg'|e] Hs2 Hc; [|apply wp_ret, HQ; [by etrans|done]].
  apply wp_ret, HQ; [by etrans|]. intros [= Heq%bool_decide_eq_true]. subst cfg'.
  destruct (Hc _ eq_refl) as (props & Hp & Hcfg).
  exists doc, c, cfg, props. split_and!; try done. unfold ev_config, map_hz, map_hz_name. hist.
Qed.

Lemma wp_persist_map m0 m h t : same m0 m -> ev_read KMap nn m0 ∈ t -> map_ready t m0 h -> map_delivered t m0 h ->
  wpm (persist_map m h) t (fun _ _ => True).
Proof.
  intros Hso E0 Hready Hdel. unfold persist_map.
  eapply wp_seq; [apply wp_update_quietly with (Q := fun _ r => same m0 r.1)|].
  - by intros st [=].
  - intros. by apply same_status.
  - intros t1 [m1 [res [e|]]] Hs1 Hso1; [done|]. cbn [fst snd] in *.
    apply wp_bind, wp_validateMapConfigPersistence. intros t2 [[]|e] Hs2 Hper.
    + eapply wp_seq with (R := fun _ _ => True).
      { unfold updateLastSuccessfulConfiguration. destruct (MapSpec_Marshal _); [|done].
        by apply (wp_UpdateAnnotation map_guard KMap). }
      intros t3 u Hs3 _. eapply wp_seq; [apply wp_updateMapStatus with (Q := fun _ _ => True); [|done]|done].
      intros _. exists m0, h. split; [unfold ev_read; hist|].
      split; [eapply map_ready_mono; [|done]; by do 2 etrans|]. right.
      split; [eapply map_delivered_mono; [|done]; by do 2 etrans|].
      apply (same_persisted_map _ _ m1); [done|]. specialize (Hper eq_refl). revert Hper.
      intros (doc & c & cfg & props & Hd & Hy & Hl & Hp & Hc). exists doc, c, cfg, props.
      split_and!; try done; [by apply Hs3|by eapply props_read_mono].
    + by apply wp_map_stop; [intros st [=]|].
    + by apply wp_map_fail.
Qed.

Lemma wp_map_deleted m t Q : (forall t' r, t ⊆ t' -> Q t' r) ->
  wpm (r <- updateMapStatus m recoptions_Empty [withMapState MapTerminating] ;;
       del <- executeFinalizer KMap r.1 ;;
       match del.2 with
       | Some e =>
           r <- updateMapStatus del.1 (recoptions_Error e) [withMapState MapTerminating; withMapMessage (err_msg e)] ;;
           Done r.2
       | None => Done (ctrl_Result_zero, None)
       end) t Q.
Proof.
  intros HQ. eapply wp_seq; [apply wp_update_quietly with (Q := fun _ _ => True); [by intros st [=]|done]|].
  intros t1 r Hs1 _. apply wp_bind, (wp_executeFinalizer map_guard KMap). intros t2 [m2 [e|]] Hs2; cbn [fst snd].
  - apply wp_map_stop; [by intros st [=]|]. intros t3 a Hs3. apply HQ. by do 2 etrans.
  - apply wp_ret, HQ. by etrans.
Qed.

Lemma wp_map_finalizer m t (Q : list event -> Map * option error -> Prop) :
  (forall t' m' err, t ⊆ t' -> same m m' -> r_Deleting m' = r_Deleting m -> members_of m' = members_of m ->
     Q t' (m', err)) ->
  wpm (AddFinalizer KMap m) t Q.
Proof.
  intros HQ. apply (wp_AddFinalizer map_guard KMap). intros t' fs err Hs.
  apply HQ; [done| |done|done]. by apply same_finalizers.
Qed.

Lemma wp_Map_Reconcile : wpm (Map_Reconcile nn) [] (fun _ _ => True).
Proof.
  unfold Map_Reconcile. apply (wp_quiet map_guard); [done|]. intros [m0|e] t1 Hs1 E1; [|by destruct (IsNotFound e)].
  change (obj KMap) with Map in *. cbv iota. apply wp_bind, wp_map_finalizer. intros t2 m err Hs2 Hso Hdel0 Hmem. cbn [fst snd].
  destruct err as [e|]; [by apply wp_map_fail|].
  destruct (r_Deleting m) eqn:Edel; [by apply wp_map_deleted|].
  rewrite !(same_spec _ _ Hso), !(same_ns _ _ Hso).
  change (r_Namespace m0, ds_HazelcastResourceName (m_DataStructureSpec (r_Spec m0))) with (map_hz m0).
  change (ds_HazelcastResourceName (m_DataStructureSpec (r_Spec m0))) with (map_hz_name m0).
  apply (wp_quiet map_guard); [done|]. intros [h|e] t3 Hs3 E3; [|by apply wp_map_fail]. cbv iota.
  destruct (strb (st_Phase (h_Status h)) hz_Running) eqn:Ep; [|by apply wp_map_fail]. apply strb_true in Ep. simpl negb. cbv iota.
  apply wp_bind, wp_lift_res. intros [e|] Hv; [by apply wp_map_fail|]. rewrite (same_valid _ _ _ Hso) in Hv.
  assert (Hready : map_ready t3 m0 h) by (by constructor).
  assert (E0 : ev_read KMap nn m0 ∈ t3) by (unfold ev_read; hist).
  apply wp_bind, (wp_applied_before m0); [done| | |].
  - intros Ha. exists m0, h. split; [done|]. split; [done|]. by left.
  - done.
  - intros b Hb. apply wp_bind, (wp_getHazelcastClient map_guard). intros t4 [e|] Hs4; [by apply wp_map_fail|].
    apply wp_bind, (wp_map_pending m0); [done|done|done|]. intros t5 m5 Hs5 Hso5 Hm5.
    rewrite (same_ns _ _ Hso5). fold (map_hz m0). apply wp_bind, (wp_ReconcileMapConfig m0); [done|done|done|hist|eapply map_ready_mono; [|done]; by etrans|].
    intros t6 ms [e|] Hs6 Hdel; cbn [fst snd]; [by apply wp_map_stop; [intros st [=]|]|].
    apply (wp_persist_map m0); [done|hist|eapply map_ready_mono; [|done]; by do 2 etrans|by apply Hdel].
Qed.

Lemma map_call t1 e t2 out : exec (Map_Reconcile nn) (t1 ++ e :: t2) out -> map_guard t1 (ev_op e).
Proof. apply wp_call, wp_Map_Reconcile. Qed.

(** C3. The Map controller stores the state Success only for a valid map it
    has read, whose cluster is running, and whose spec was applied before, or
    whose configuration was acknowledged in this reconciliation by every
    member that the status that was read does not record as successful, and
    hazelcast.yaml was seen to hold it, entry for entry.  A recorded member is
    not asked again, also when the record is of an earlier spec
    ([map_member_outdated]). *)
Theorem map_success_justified t1 e t2 out :
  exec (Map_Reconcile nn) (t1 ++ e :: t2) out -> stores_map_success (ev_op e) = true -> map_justified t1.
Proof.
  intros He Hs. apply map_call in He. destruct e as [[| |k o| | | | | | | | | | | | | | | | | | | | | |] x]; try done.
  by apply He.
Qed.

(** The Map controller sends a member only the configuration of a valid
    map, the whole of it for a new map and an update for one that was applied
    before, and only to members of its running cluster that are not recorded
    as having it. *)
Theorem map_requests_justified t1 hz uuid req x t2 out :
  exec (Map_Reconcile nn) (t1 ++ Ev (InvokeOnMember hz uuid req) x :: t2) out -> map_to_send t1 hz uuid req.
Proof. apply map_call. Qed.
End Facts.

(** ** A map's section through hazelcast.yaml *)

(** The entry for an index. *)
Definition index_cfg (i : DataStructureTypes.IndexConfig) : cfg_MapIndex :=
  mk_cfg_MapIndex (ix_Name i) (ix_Type i) (ix_Attributes i)
    match ix_BitmapIndexOptions i with
    | Some b => mk_cfg_BitmapIndexOptions (bi_UniqueKey b) (bi_UniqueKeyTransition b)
    | None => cfg_BitmapIndexOptions_zero
    end.

Lemma index_stable i : cfg_MapIndex_read (index_cfg i) = index_cfg i <-> ix_Attributes i <> None.
Proof.
  unfold cfg_MapIndex_read, index_cfg. simpl. rewrite <-(read_list_stable (ix_Attributes i)).
  split; [intros [=]; done|intros Hr; by rewrite Hr].
Qed.

Lemma indexes_stable idx :
  read_omit_list cfg_MapIndex_read (copyMapIndexes idx) = copyMapIndexes idx
  <-> idx <> Some [] /\ forall l i, idx = Some l -> i ∈ l -> ix_Attributes i <> None.
Proof.
  destruct idx as [[|i l]|]; [split; [done|by intros []]| |split; [intros _; split; [done|by intros ? ? [=]]|done]].
  change (copyMapIndexes (Some (i :: l))) with (Some (fmap (M := list) index_cfg (i :: l))).
  change (read_omit_list cfg_MapIndex_read (Some (fmap (M := list) index_cfg (i :: l))))
    with (Some (fmap (M := list) cfg_MapIndex_read (fmap (M := list) index_cfg (i :: l)))).
  rewrite (inj_iff Some), fmap_fixed, Forall_fmap.
  rewrite Forall_forall. split.
  - intros Hall. split; [done|]. intros l' j [= <-] Hj. by apply index_stable, Hall.
  - intros [_ Hall] j Hj. by apply index_stable, (Hall _ _ eq_refl).
Qed.

Lemma map_store_stable props st :
  cfg_MapStoreConfig_read (create_map_store props st) = create_map_store props st <-> (st <> None -> props <> Some ∅).
Proof.
  destruct st as [st|]; simpl; [|done]. unfold cfg_MapStoreConfig_read. simpl.
  rewrite <-(read_omit_map_id props). split; [intros [=]; done|]. intros Hp. by rewrite Hp.
Qed.

#[local] Arguments read_omit_map : simpl never.
#[local] Arguments read_omit_list : simpl never.
#[local] Arguments read_list : simpl never.

Section Stability.
Context `{QL : QuantityLib} `{Y : YamlLib}.

(** The lists and maps of a map's section that a YAML document does not give
    back as they are: an empty list of indexes, an index without a list of
    attributes, and a map store with an empty set of properties. *)
Definition yaml_stable (props : option (gmap string string)) (m : Map) : Prop :=
  m_Indexes (r_Spec m) <> Some []
  /\ (forall l i, m_Indexes (r_Spec m) = Some l -> i ∈ l -> ix_Attributes i <> None)
  /\ (m_MapStore (r_Spec m) <> None -> props <> Some ∅).

Lemma wan_ref_stable (m : Map) :
  read_omit_map cfg_WanReplicationReference_read (Some (wanReplicationRef (defaultWanReplicationRefCodec m)))
  = Some (wanReplicationRef (defaultWanReplicationRefCodec m)).
Proof.
  unfold read_omit_map, map_is_empty, wanReplicationRef. rewrite map_size_singleton. simpl.
  by rewrite map_fmap_singleton.
Qed.

Lemma appended_stable {A} (l : list A) : read_omit_list id (appended l) = appended l.
Proof. apply read_omit_list_id. by destruct l. Qed.

Lemma map_section_stable props (m : Map) cfg : create_map_config props m = Ret cfg ->
  (cfg_Map_read cfg = cfg <-> yaml_stable props m).
Proof.
  unfold create_map_config. destruct (deref _) as [bc| |]; [|done|done]. simpl.
  destruct (create_near_cache _) as [near| |]; [|done|done]. simpl.
  destruct (create_tiered_store _) as [ts| |]; [|done|done]. simpl. intros [= <-].
  unfold cfg_Map_read, yaml_stable. simpl.
  unfold attributes. rewrite !appended_stable, wan_ref_stable.
  pose proof (indexes_stable (m_Indexes (r_Spec m))) as Hi.
  pose proof (map_store_stable props (m_MapStore (r_Spec m))) as Hst.
  split.
  - intros [= Hi' Hst']. destruct (proj1 Hi Hi'). pose proof (proj1 Hst Hst'). done.
  - intros (? & ? & ?). f_equal; [by apply Hi|by apply Hst].
Qed.

(** A map's section of hazelcast.yaml is read back as it was created
    exactly when the map has no empty list of indexes, no index without
    attributes, and no map store with an empty set of properties. *)
Theorem map_section_stable_iff props (m : Map) cfg : create_map_config props m = Ret cfg ->
  (cfg_Map_read cfg = cfg <-> yaml_stable props m).
Proof. apply map_section_stable. Qed.
End Stability.

Section Liveness.
Context `{P : Proto} `{R : MapRange} `{EJ : EventJson} `{QL : QuantityLib} `{Y : YamlLib}.
Context `{!HazelcastJson} `{!MapJson} `{KE : KErrors}.

(** A document the operator wrote. *)
Definition marshalled (doc : Document) : Prop := exists c, yaml_Marshal c = Some doc.

Lemma persisted_stable t (m : Map) h : (forall hz doc, ev_config hz doc ∈ t -> marshalled doc) ->
  map_persisted t m h -> exists props, props_read t (h_Namespace h) m props /\ yaml_stable props m.
Proof.
  intros Hdocs (doc & c & cfg & props & Hd & Hy & Hl & Hp & Hc). exists props. split; [done|].
  apply (map_section_stable props m cfg Hc). destruct (Hdocs _ _ Hd) as [c0 Hc0].
  rewrite (yaml_law _ _ Hc0) in Hy. injection Hy as <-. unfold cfg_Hazelcast_read in Hl. cbn [cfg_Hazelcast_Map] in Hl.
  rewrite default_read_omit_map, lookup_fmap in Hl. destruct (default ∅ _ !! _) as [x|]; [|done]. injection Hl as <-.
  apply cfg_Map_read_idem.
Qed.

(** A new map that hazelcast.yaml does not give back as it was created
    never becomes successful: as long as the documents the controller reads
    were written by the operator, no reconciliation stores Success, however
    often it is repeated. *)
Theorem unstable_map_never_succeeds nn t1 e t2 out :
  exec (Map_Reconcile nn) (t1 ++ e :: t2) out ->
  (forall m, ev_read KMap nn m ∈ t1 -> ~ created_before m /\ forall props, ~ yaml_stable props m) ->
  (forall hz doc, ev_config hz doc ∈ t1 -> marshalled doc) ->
  stores_map_success (ev_op e) = false.
Proof.
  intros He Hm Hdocs. apply map_call in He. apply not_true_is_false. intros Hs.
  destruct e as [[| |k o| | | | | | | | | | | | | | | | | | | | | |] x]; try done.
  destruct (He Hs) as (m & h & Hr & _ & [(s & Ha & _)|[_ Hp]]); destruct (Hm m Hr) as [Hc Hu].
  - apply Hc. unfold created_before. by rewrite Ha.
  - destruct (persisted_stable _ _ _ Hdocs Hp) as (props & _ & Hst). by apply (Hu props).
Qed.
End Liveness.

(** ** Concrete runs *)

Module MapRuns.
Import RefProto.
#[local] Existing Instance RefProto.ref.
#[local] Instance bad_json : HazelcastJson := {| HazelcastSpec_Unmarshal _ := inr (errors_New "bad json") |}.
#[local] Instance ttl_json : MapJson :=
  {| MapSpec_Marshal s := inl (if Z.eqb (m_TimeToLiveSeconds s) 10 then "10" else "20");
     MapSpec_Unmarshal _ := inr (errors_New "bad json") |}.
#[local] Instance no_event_json : EventJson := {| unmarshal_event := fun _ => None |}.

Definition spec1 (ttl : Z) (indexes : option (list DataStructureTypes.IndexConfig)) : MapSpec :=
  mkMapSpec (mkDataStructureSpec "" "hz" (Some 1) 0 "") ttl 0 (mkEvictionConfig "NONE" 0 "PER_NODE") indexes [] false None
    "BINARY" [] None None None None.
Definition map1 (ttl : Z) indexes (st : MapStatus) : Map :=
  mkResource "ns" "m" "uid" [] [n_Finalizer] false ∅ (spec1 ttl indexes) st.
Definition new : MapStatus := mkDataStructureStatus "" "" ∅.
Definition hz1 : Hazelcast :=
  mkHazelcast "hz" "ns" ∅ false
    (mkHazelcastSpec (Some 3) "" "license" None None None "" None None None None "" None [] None "dev" None [] [] [] None None None None)
    (mkHazelcastStatus 3 "Running").

(** hazelcast.yaml with the section of a map, as the operator writes it. *)
Definition yaml1 (m : Map) : Document :=
  default cfg_Hazelcast_zero (yaml_Marshal (mk_cfg_Hazelcast cfg_Jet_zero "" cfg_Persistence_zero
    (match create_map_config None m with Ret c => Some {["m" := c]} | _ => None end)
    None None None cfg_UserCodeDeployment_zero None None None
    None None None None cfg_PartitionGroup_zero cfg_NativeMemory_zero cfg_AdvancedNetwork_zero
    cfg_ManagementCenterConfig_zero cfg_Serialization_zero cfg_SQL_zero None cfg_CPSubsystem_zero
    cfg_UserCodeNamespaces_zero)).
Definition resp1 : ClientMessage := NewClientMessageForEncode.

(** An environment in which everything works, but for the members that are
    [down]. *)
Definition answer (m : Map) (down : list string) (o : op) (_ : list event) : ans o :=
  match o as o return kube_ans o with
  | Get KMap _ => Found m
  | Get _ _ => Failed (mkError ENotFound "not found")
  | ListByHz _ _ _ | ListIn _ _ => Found []
  | GetHazelcast _ => Found hz1
  | GetConfigSecret _ => Found (yaml1 m)
  | GetSecretData _ => Found ∅
  | GetOrCreate _ => Found true
  | Running _ => true
  | OrderedMembers _ => ["m1"; "m2"]
  | InvokeOnMember _ uuid _ => if decide (uuid ∈ down) then Failed (errors_New "member left") else Found resp1
  | InvokeOnRandomTarget _ _ => Found resp1
  | GetStatusService _ => None
  | GetConfigMap _ => Failed (errors_New "not found")
  | GetJetJob _ => Failed (errors_New "not found")
  | MemberAddresses _ => []
  | Now => 0
  | GoSync _ _ | GoExport _ _ _ _ _ => tt
  | _ => None
  end.

Definition key : NamespacedName := ("ns", "m").
Definition run1 (m : Map) (down : list string) := run (answer m down) (Map_Reconcile key) [].

Lemma map_success_exec : exec (Map_Reconcile key) (run1 (map1 10 None new) []).1 (Returned (ctrl_Result_zero, None)).
Proof. apply run_exec_2. vm_compute. reflexivity. Qed.

Lemma map_success_witness : exists t1, map_justified key t1.
Proof.
  destruct (find_event (F := kube_effects) (fun e => stores_map_success (ev_op e)) (run1 (map1 10 None new) []).1)
    as (t1 & e & t2 & Ht & He); [vm_compute; reflexivity|].
  exists t1. apply (map_success_justified key t1 e t2 (Returned (ctrl_Result_zero, None))).
  - rewrite <-Ht. exact map_success_exec.
  - exact He.
Defined.

Definition asks (uuid : string) (e : event) : bool :=
  match ev_op e with InvokeOnMember _ u _ => strb u uuid | _ => false end.

Lemma map_requests_witness : exists t1 hz req, map_to_send key t1 hz "m2" req.
Proof.
  destruct (find_event (asks "m2") (run1 (map1 10 None new) []).1) as (t1 & [c x] & t2 & Ht & He);
    [vm_compute; reflexivity|].
  destruct c as [| | | | | | | | | | |hz uuid req| | | | | | | | | | | | |]; try discriminate He.
  exists t1, hz, req. apply strb_true in He. simpl in He. subst uuid.
  apply (map_requests_justified key t1 hz "m2" req x t2 (Returned (ctrl_Result_zero, None))).
  rewrite <-Ht. exact map_success_exec.
Defined.

Lemma map_section_witness :
  exists cfg, create_map_config None (map1 10 (Some []) new) = Ret cfg /\ cfg_Map_read cfg <> cfg.
Proof.
  eexists. split; [vm_compute; reflexivity|]. intros Heq.
  apply (map_section_stable_iff None (map1 10 (Some []) new)) in Heq; [|vm_compute; reflexivity].
  destruct Heq as [Hn _]. apply Hn. reflexivity.
Defined.

(** The object the last status update stored. *)
Definition stored (t : list event) (m : Map) : Map :=
  foldl (fun m e => match ev_op e with
                    | StatusUpdate KMap o => o
                    | _ => m
                    end) m t.

(** The trace only has reads of the map with an empty list of indexes, and
    documents as the operator writes them. *)
Definition unstable_event (e : event) : bool :=
  match e with
  | Ev (Get KMap _) (Found m) =>
      bool_decide (r_Annotations (m : Map) !! n_LastSuccessfulSpecAnnotation = None)
      && bool_decide (length <$> m_Indexes (r_Spec (m : Map)) = Some 0%nat)
  | Ev (GetConfigSecret _) (Found doc) => negb (inline_conflict doc) && bool_decide (cfg_Hazelcast_read doc = doc)
  | _ => true
  end.

Lemma unstable_events t : forallb unstable_event t = true ->
  (forall m : Map, ev_read KMap key m ∈ t -> ~ created_before m /\ forall props, ~ yaml_stable props m)
  /\ (forall hz doc, ev_config hz doc ∈ t -> marshalled doc).
Proof.
  intros Ht. rewrite forallb_forall in Ht. split.
  - intros m Hm%list_elem_of_In. apply Ht in Hm. simpl in Hm. apply andb_true_iff in Hm as [Ha%bool_decide_eq_true Hi%bool_decide_eq_true].
    split; [by intros Hc|]. intros props [Hn _]. apply Hn.
    destruct (m_Indexes (r_Spec m)) as [[|]|]; done.
  - intros hz doc Hd%list_elem_of_In. apply Ht in Hd. simpl in Hd. apply andb_true_iff in Hd as [Hi%negb_true_iff Hd%bool_decide_eq_true].
    exists doc. simpl. by rewrite Hi, Hd.
Qed.

Definition stuck_run := run1 (map1 10 (Some []) new) [].

Lemma unstable_map_witness : exists t1 e t2, stuck_run.1 = t1 ++ e :: t2 /\ asks "m2" e = true
  /\ forallb (fun e => negb (stores_map_success (ev_op e))) stuck_run.1 = true /\ stores_map_success (ev_op e) = false.
Proof.
  destruct (find_event (asks "m2") stuck_run.1) as (t1 & e & t2 & Ht & He); [vm_compute; reflexivity|].
  exists t1, e, t2. split; [exact Ht|]. split; [exact He|]. split; [vm_compute; reflexivity|].
  assert (Hex : exec (Map_Reconcile key) (t1 ++ e :: t2) (Returned (mkResult true 1, None))).
  { rewrite <-Ht. apply run_exec_2. vm_compute. reflexivity. }
  assert (Hall : forallb unstable_event t1 = true).
  { assert (Hf : forallb unstable_event stuck_run.1 = true) by (vm_compute; reflexivity).
    rewrite Ht, forallb_app in Hf. apply andb_true_iff in Hf. apply Hf. }
  destruct (unstable_events t1 Hall) as [Hm Hd].
  exact (unstable_map_never_succeeds key t1 e t2 _ Hex Hm Hd).
Defined.

(** A member can keep an outdated configuration.  A map is added, one of
    two members fails, the map's time to live is changed from 10 to 20
    seconds: the next reconciliation skips the member that had acknowledged
    the first request, stores Success, and no request with the new time to
    live is ever sent to that member. *)
Theorem map_member_outdated :
  let first := run1 (map1 10 None new) ["m2"] in
  let edited := map1 20 None (r_Status (stored first.1 (map1 10 None new))) in
  let second := run1 edited [] in
  exec (Map_Reconcile key) first.1 (Returned (ctrl_Result_zero,
    Some (errors_New "error creating/updating the Map config m for members m2")))
  /\ exec (Map_Reconcile key) second.1 (Returned (ctrl_Result_zero, None))
  /\ existsb (fun e => stores_map_success (ev_op e)) second.1 = true
  /\ existsb (asks "m1") first.1 = true /\ existsb (asks "m1") second.1 = false
  /\ existsb (asks "m2") second.1 = true.
Proof.
  split; [apply run_exec_2; vm_compute; reflexivity|]. split; [apply run_exec_2; vm_compute; reflexivity|].
  split_and!; vm_compute; reflexivity.
Qed.
End MapRuns.
