(* ===== verification/JetChecker.v ===== *)
(** * The status checker of Jet jobs (src/internal/controller/hazelcast/jetjob_status.go)

    One [jetJobStatusChecker] per Hazelcast cluster: the jobs to watch, and a
    goroutine that asks for their summaries every ten seconds until no job is
    left.  Reconciliations store and delete jobs and start the goroutine; the
    goroutine runs concurrently.  The model is a transition system whose
    steps are the critical sections of the mutex and the accesses to
    [sc.ticker] outside of them, interleaved freely.

    A [time.Ticker] is its identity; a fired tick waits in its channel
    ([buffered]) until it is received, and a stopped ticker fires no more. *)

From S2P Require Import Prelude.
#[local] Set Warnings "-clear-no-such-hyp".

Definition NamespacedName : Type := string * string.

Record jetJobStatusChecker := mkChecker {
  sc_jobs : gmap string NamespacedName;
  sc_ticker : option nat;
  sc_checkInProgress : bool;
}.

Definition newJetJobStatusChecker : jetJobStatusChecker := mkChecker ∅ None false.

Definition storeJob (sc : jetJobStatusChecker) (jobName : string) (nn : NamespacedName) : jetJobStatusChecker :=
  mkChecker (<[jobName := nn]> (sc_jobs sc)) (sc_ticker sc) (sc_checkInProgress sc).

Definition deleteJob (sc : jetJobStatusChecker) (jobName : string) : jetJobStatusChecker :=
  mkChecker (delete jobName (sc_jobs sc)) (sc_ticker sc) (sc_checkInProgress sc).

Definition loadJob (sc : jetJobStatusChecker) (jobName : string) : option NamespacedName :=
  sc_jobs sc !! jobName.

(** Where a goroutine of [runChecker] is. *)
Inductive gpc :=
| GLoop                        (* before the critical section of an iteration *)
| GStop                        (* no job left, mutex released: before [sc.ticker.Stop()] *)
| GFetch                       (* before [service.JobSummaries] *)
| GDeliver (rest : list string) (* in the loop over the summaries, by their names *)
| GTick                        (* before reading [sc.ticker] to wait for it *)
| GWait (t : nat)              (* receiving from the channel of ticker [t] *)
| GDone.

Record state := mkState {
  st_sc : jetJobStatusChecker;
  st_fresh : nat;              (* tickers created so far *)
  st_stopped : gset nat;
  st_buffered : gset nat;
  st_gs : list gpc;            (* the goroutines, in the order they were started *)
}.

Definition init : state := mkState newJetJobStatusChecker 0 ∅ ∅ [].

(** [runChecker], which holds the mutex from its first to its last statement:
    with no check in progress it creates a ticker and starts the goroutine. *)
Definition runChecker (s : state) : state :=
  let sc := st_sc s in
  if sc_checkInProgress sc then s else
  mkState (mkChecker (sc_jobs sc) (Some (st_fresh s)) true)
    (S (st_fresh s)) (st_stopped s) (st_buffered s) (st_gs s ++ [GLoop]).

(** The critical section at the top of an iteration, and where it leads. *)
Definition check_jobs (sc : jetJobStatusChecker) : jetJobStatusChecker * gpc :=
  if decide (sc_jobs sc = ∅) then (mkChecker (sc_jobs sc) (sc_ticker sc) false, GStop) else (sc, GFetch).

Definition set_sc (s : state) (sc : jetJobStatusChecker) : state :=
  mkState sc (st_fresh s) (st_stopped s) (st_buffered s) (st_gs s).
Definition goto (s : state) (g : nat) (pc : gpc) : state :=
  mkState (st_sc s) (st_fresh s) (st_stopped s) (st_buffered s) (<[g := pc]> (st_gs s)).

(** Calls of the reconcilers, and everything else. *)
Inductive label := LStore (jobName : string) (nn : NamespacedName) | LDelete (jobName : string) | LRun
                 | LUpdate (jobName : string) (nn : NamespacedName) | LTau.

Inductive step : state -> label -> state -> Prop :=
| s_store s k nn : step s (LStore k nn) (set_sc s (storeJob (st_sc s) k nn))
| s_delete s k : step s (LDelete k) (set_sc s (deleteJob (st_sc s) k))
| s_run s : step s LRun (runChecker s)
| s_check s g sc pc :
    st_gs s !! g = Some GLoop -> check_jobs (st_sc s) = (sc, pc) ->
    step s LTau (goto (set_sc s sc) g pc)
| s_stop s g t :
    st_gs s !! g = Some GStop -> sc_ticker (st_sc s) = Some t ->
    step s LTau (mkState (st_sc s) (st_fresh s) ({[t]} ∪ st_stopped s) (st_buffered s) (<[g := GDone]> (st_gs s)))
| s_fetch_failed s g : st_gs s !! g = Some GFetch -> step s LTau (goto s g GTick)
| s_fetch s g names : st_gs s !! g = Some GFetch -> step s LTau (goto s g (GDeliver names))
| s_deliver_end s g : st_gs s !! g = Some (GDeliver []) -> step s LTau (goto s g GTick)
| s_deliver_unknown s g k rest :
    st_gs s !! g = Some (GDeliver (k :: rest)) -> loadJob (st_sc s) k = None ->
    step s LTau (goto s g (GDeliver rest))
| s_deliver s g k rest nn :
    st_gs s !! g = Some (GDeliver (k :: rest)) -> loadJob (st_sc s) k = Some nn ->
    step s (LUpdate k nn) (goto s g (GDeliver rest))
| s_read_ticker s g t :
    st_gs s !! g = Some GTick -> sc_ticker (st_sc s) = Some t -> step s LTau (goto s g (GWait t))
| s_fire s t :
    (t < st_fresh s)%nat -> t ∉ st_stopped s ->
    step s LTau (mkState (st_sc s) (st_fresh s) (st_stopped s) ({[t]} ∪ st_buffered s) (st_gs s))
| s_tick s g t :
    st_gs s !! g = Some (GWait t) -> t ∈ st_buffered s ->
    step s LTau (mkState (st_sc s) (st_fresh s) (st_stopped s) (st_buffered s ∖ {[t]}) (<[g := GLoop]> (st_gs s))).

Inductive steps : state -> state -> Prop :=
| st_refl s : steps s s
| st_step s l s' s'' : steps s s' -> step s' l s'' -> steps s s''.

Definition reachable (s : state) : Prop := steps init s.

(** ** The loop is run by one goroutine, while a check is in progress *)

Definition looping (pc : gpc) : bool := match pc with GStop | GDone => false | _ => true end.

Definition loopers (gs : list gpc) : nat := length (filter (fun pc => looping pc = true) gs).

Lemma loopers_insert gs g pc pc' :
  gs !! g = Some pc ->
  loopers (<[g := pc']> gs) =
    (loopers gs + (if looping pc' then 1 else 0) - (if looping pc then 1 else 0))%nat.
Proof.
  unfold loopers. intros Hg. rewrite insert_take_drop by (by eapply lookup_lt_Some).
  rewrite <-(take_drop_middle gs g pc Hg) at 3.
  rewrite !filter_app, !filter_cons, !length_app.
  destruct (looping pc), (looping pc'); simpl; repeat case_decide; try done; simpl; lia.
Qed.

Lemma loopers_pos gs : (0 < loopers gs)%nat <-> exists g pc, gs !! g = Some pc /\ looping pc = true.
Proof.
  unfold loopers. split.
  - intros Hp. destruct (filter _ gs) as [|pc l] eqn:E; simpl in Hp; [lia|].
    assert (pc ∈ filter (fun pc => looping pc = true) gs) as Hin by (rewrite E; left).
    apply list_elem_of_filter in Hin as [Hl Hin]. apply list_elem_of_lookup in Hin as [g Hg]. eauto.
  - intros (g & pc & Hg & Hl).
    assert (pc ∈ filter (fun pc => looping pc = true) gs) as Hin.
    { apply list_elem_of_filter. split; [done|]. by eapply list_elem_of_lookup_2. }
    destruct (filter _ gs); [by apply elem_of_nil in Hin|simpl; lia].
Qed.

(** One goroutine is in the loop exactly while a check is in progress, and
    every goroutine that still needs [sc.ticker] finds one. *)
Record inv (s : state) : Prop := {
  inv_one : loopers (st_gs s) = if sc_checkInProgress (st_sc s) then 1%nat else 0%nat;
  inv_fresh t : sc_ticker (st_sc s) = Some t -> (t < st_fresh s)%nat;
  inv_ticker : sc_ticker (st_sc s) = None -> st_gs s = [];
}.

Lemma inv_init : inv init.
Proof. by constructor. Qed.

Lemma loopers_same gs g pc pc' :
  gs !! g = Some pc -> looping pc = looping pc' -> loopers (<[g := pc']> gs) = loopers gs.
Proof.
  intros Hg Hl. rewrite (loopers_insert gs g pc pc' Hg), Hl.
  destruct (looping pc') eqn:E; [|lia].
  assert (0 < loopers gs)%nat by (apply loopers_pos; exists g, pc; by rewrite Hl). lia.
Qed.

Lemma inv_goto s g pc pc' :
  inv s -> st_gs s !! g = Some pc -> looping pc = looping pc' -> inv (goto s g pc').
Proof.
  intros [H1 H2 H3] Hg Hl. constructor; simpl; [|done|].
  - by rewrite (loopers_same _ _ _ _ Hg Hl).
  - intros Ht. rewrite (H3 Ht) in Hg. done.
Qed.

Lemma inv_check s g sc pc :
  inv s -> st_gs s !! g = Some GLoop -> check_jobs (st_sc s) = (sc, pc) -> inv (goto (set_sc s sc) g pc).
Proof.
  intros Hi Hg. unfold check_jobs. case_decide; intros [= <- <-].
  - destruct Hi as [H1 H2 H3]. constructor; simpl; [|done|].
    + rewrite (loopers_insert _ _ _ _ Hg), H1. simpl. by destruct (sc_checkInProgress _).
    + intros Ht. rewrite (H3 Ht) in Hg. done.
  - destruct s. by apply (inv_goto _ _ GLoop).
Qed.

Lemma inv_run s : inv s -> inv (runChecker s).
Proof.
  intros [H1 H2 H3]. unfold runChecker. destruct (sc_checkInProgress (st_sc s)) eqn:E; [constructor; by rewrite ?E|].
  constructor; simpl; [|intros t [= <-]; lia|done].
  unfold loopers in *. rewrite filter_app, length_app, H1. done.
Qed.

Lemma inv_step s l s' : inv s -> step s l s' -> inv s'.
Proof.
  intros Hi Hs. destruct Hs;
    try (by eapply inv_goto; [done|done|reflexivity]);
    try (by destruct Hi as [? ? ?]; constructor); try (by eapply inv_check); try (by apply inv_run).
  - destruct Hi as [H1 H2 H3]. constructor; simpl; [|done|congruence].
    by rewrite (loopers_same _ _ GStop).
  - destruct Hi as [H1 H2 H3]. constructor; simpl; [|done|].
    + by rewrite (loopers_same _ _ (GWait t)).
    + intros Ht. match goal with Hg : st_gs s !! _ = _ |- _ => rewrite (H3 Ht) in Hg; done end.
Qed.

Lemma inv_steps s s' : inv s -> steps s s' -> inv s'.
Proof. intros Hi Hs. induction Hs; [done|]. eauto using inv_step. Qed.

(** Steps through states in which some job is stored. *)
Inductive steps_with_jobs : state -> state -> Prop :=
| sw_refl s : sc_jobs (st_sc s) <> ∅ -> steps_with_jobs s s
| sw_step s l s' s'' :
    steps_with_jobs s s' -> step s' l s'' -> sc_jobs (st_sc s'') <> ∅ -> steps_with_jobs s s''.

Lemma jobs_of_steps s s' : steps_with_jobs s s' -> sc_jobs (st_sc s') <> ∅.
Proof. by destruct 1. Qed.

Lemma in_progress_step s l s' :
  step s l s' -> sc_jobs (st_sc s) <> ∅ -> sc_checkInProgress (st_sc s) = true ->
  sc_checkInProgress (st_sc s') = true.
Proof.
  intros Hs Hj Hp. destruct Hs; simpl; try done.
  - unfold runChecker. by rewrite Hp.
  - match goal with Hc : check_jobs _ = _ |- _ => revert Hc end.
    unfold check_jobs. case_decide; [done|]. by intros [= <- _].
Qed.

(** C39. Whatever the interleaving of reconcilers and goroutines, at most one
    goroutine runs the check loop; and once [runChecker] was called with jobs
    stored, exactly one runs it for as long as there are jobs. *)
Theorem checker_runs_once s :
  reachable s ->
  (loopers (st_gs s) <= 1)%nat
  /\ (forall s', steps_with_jobs (runChecker s) s' -> loopers (st_gs s') = 1%nat).
Proof.
  intros Hr. pose proof (inv_steps _ _ inv_init Hr) as Hi. split.
  - rewrite (inv_one s Hi). destruct (sc_checkInProgress _); lia.
  - intros s' Hs. enough (inv s' /\ sc_checkInProgress (st_sc s') = true) as [Hi' Hp].
    { by rewrite (inv_one s' Hi'), Hp. }
    remember (runChecker s) as s0 eqn:E. induction Hs as [s0|s0 l s1 s2 Hs IH Hst Hj]; subst.
    + split; [by apply inv_run|]. unfold runChecker. by destruct (sc_checkInProgress (st_sc s)) eqn:E.
    + destruct (IH eq_refl) as [Hi1 Hp1]. split; [by eapply inv_step|].
      eapply in_progress_step; [done|by eapply jobs_of_steps|done].
Qed.

(** ** Ticks *)

(** Steps in which [runChecker] does not come between the end of a check loop
    and the stop of its ticker. *)
Definition no_stop_pending (s : state) : Prop := forall g, st_gs s !! g <> Some GStop.

Inductive quiet_steps : state -> state -> Prop :=
| qs_refl s : quiet_steps s s
| qs_step s l s' s'' :
    quiet_steps s s' -> step s' l s'' -> (l = LRun -> no_stop_pending s') -> quiet_steps s s''.

Lemma quiet_steps_steps s s' : quiet_steps s s' -> steps s s'.
Proof. induction 1; econstructor; eauto. Qed.

Record ticking (s : state) : Prop := {
  tk_stopped t : t ∈ st_stopped s -> (t < st_fresh s)%nat;
  tk_running : sc_checkInProgress (st_sc s) = true ->
    no_stop_pending s /\ exists t, sc_ticker (st_sc s) = Some t /\ (t < st_fresh s)%nat /\ t ∉ st_stopped s;
  tk_wait g t : st_gs s !! g = Some (GWait t) -> sc_ticker (st_sc s) = Some t;
}.

Lemma lookup_insert_cases {A} (l : list A) g x i y :
  <[g := x]> l !! i = Some y -> y = x \/ l !! i = Some y.
Proof. intros Hi. apply list_lookup_insert_Some in Hi as [(? & <- & ?)|[? ?]]; auto. Qed.

Lemma ticking_goto s g pc' :
  ticking s -> pc' <> GStop -> (forall t, pc' = GWait t -> sc_ticker (st_sc s) = Some t) -> ticking (goto s g pc').
Proof.
  intros [H1 H2 H3] Hn Hw. constructor; simpl; [done| |].
  - intros Hp. destruct (H2 Hp) as [Hs Ht]. split; [|done].
    intros i Hi. apply lookup_insert_cases in Hi as [E|Hi]; [congruence|]. by destruct (Hs i).
  - intros i t Hi. apply lookup_insert_cases in Hi as [E|Hi]; eauto.
Qed.

Lemma no_waiter s g t :
  inv s -> sc_checkInProgress (st_sc s) = false -> st_gs s !! g = Some (GWait t) -> False.
Proof.
  intros [H1 _ _] Hp Hg. rewrite Hp in H1.
  assert (0 < loopers (st_gs s))%nat by (apply loopers_pos; eauto). lia.
Qed.

Lemma ticking_run s : inv s -> ticking s -> no_stop_pending s -> ticking (runChecker s).
Proof.
  intros Hi [H1 H2 H3] Hn. unfold runChecker. destruct (sc_checkInProgress (st_sc s)) eqn:E; [constructor; auto|].
  constructor; simpl.
  - intros t Ht. specialize (H1 t Ht). lia.
  - intros _. split.
    + intros i Hl. apply lookup_app_Some in Hl as [Hl|[_ Hl]]; [by apply (Hn i)|].
      by destruct (i - length (st_gs s))%nat.
    + exists (st_fresh s). split; [done|]. split; [lia|]. intros Ht. specialize (H1 _ Ht). lia.
  - intros i t Hl. apply lookup_app_Some in Hl as [Hl|[_ Hl]]; [by destruct (no_waiter s i t Hi E)|].
    by destruct (i - length (st_gs s))%nat.
Qed.

Lemma ticking_check s g sc pc :
  ticking s -> st_gs s !! g = Some GLoop -> check_jobs (st_sc s) = (sc, pc) -> ticking (goto (set_sc s sc) g pc).
Proof.
  intros Ht Hg. unfold check_jobs. case_decide; intros [= <- <-].
  - destruct Ht as [H1 H2 H3]. constructor; simpl; [done|done|].
    intros i t Hi. apply lookup_insert_cases in Hi as [?|Hi]; [done|eauto].
  - destruct s. by apply ticking_goto.
Qed.

Lemma ticking_step s l s' :
  inv s -> ticking s -> step s l s' -> (l = LRun -> no_stop_pending s) -> ticking s'.
Proof.
  intros Hi Ht Hs Hl. destruct Hs; try (by apply ticking_goto; [done|done|naive_solver]);
    try (by destruct Ht as [? ? ?]; constructor); try (by eapply ticking_check).
  - apply ticking_run; auto.
  - destruct Ht as [H1 H2 H3]. constructor; simpl.
    + intros t' Ht'. apply elem_of_union in Ht' as [->%elem_of_singleton|Ht']; [by apply (inv_fresh s Hi)|auto].
    + intros Hp. destruct (H2 Hp) as [Hn _]. by destruct (Hn g).
    + intros i t' Hl'. apply lookup_insert_cases in Hl' as [?|?]; [done|eauto].
  - apply (ticking_goto _ g GLoop) in Ht; [|done..]. by destruct Ht; constructor.
Qed.

Lemma quiet_ticking s : quiet_steps init s -> inv s /\ ticking s.
Proof.
  intros Hs. remember init as s0 eqn:E. induction Hs as [|s0 l s1 s2 Hs IH Hst Hl]; subst.
  - split; [apply inv_init|]. constructor; simpl; [set_solver|done|done].
  - destruct (IH eq_refl) as [Hi Ht]. split; [by eapply inv_step|by eapply ticking_step].
Qed.

(** If [runChecker] is never called between the end of a check loop and
    the stop of its ticker, a goroutine that waits for the next tick waits for
    a ticker that was not stopped: it can always go on to its next check. *)
Theorem checker_keeps_ticking s g t :
  quiet_steps init s -> st_gs s !! g = Some (GWait t) ->
  (t ∉ st_stopped s) /\ (exists s', steps s s' /\ st_gs s' !! g = Some GLoop /\ st_sc s' = st_sc s).
Proof.
  intros Hq Hg. destruct (quiet_ticking s Hq) as [Hi Ht].
  destruct (sc_checkInProgress (st_sc s)) eqn:Hp; [|by destruct (no_waiter s g t Hi Hp)].
  destruct (tk_running s Ht Hp) as [_ (t' & Htk & Hf & Hns)].
  rewrite (tk_wait s Ht g t Hg) in Htk. injection Htk as <-. split; [done|].
  eexists. split.
  - eapply st_step; [eapply st_step; [apply st_refl|by apply (s_fire s t)]|].
    apply (s_tick _ g t); simpl; [done|set_solver].
  - simpl. split; [|done]. apply list_lookup_insert_eq. by eapply lookup_lt_Some.
Qed.

(** ** The race on the ticker *)

(** The goroutine in the loop waits for a ticker that will not fire. *)
Definition stuck (s : state) : Prop :=
  inv s /\ sc_checkInProgress (st_sc s) = true /\
  exists g t, st_gs s !! g = Some (GWait t) /\ t ∈ st_stopped s /\ t ∉ st_buffered s.

Lemma only_looper s g pc g' pc' :
  inv s -> st_gs s !! g = Some pc -> looping pc = true -> st_gs s !! g' = Some pc' -> looping pc' = true -> g = g'.
Proof.
  intros Hi Hg Hl Hg' Hl'. destruct (decide (g = g')) as [|Hne]; [done|exfalso].
  assert (0 < loopers (<[g := GDone]> (st_gs s)))%nat as Hpos.
  { apply loopers_pos. exists g', pc'. by rewrite list_lookup_insert_ne. }
  rewrite (loopers_insert _ _ _ _ Hg), Hl in Hpos. simpl in Hpos.
  pose proof (inv_one s Hi). destruct (sc_checkInProgress _); lia.
Qed.

Lemma stuck_step s l s' : stuck s -> step s l s' -> stuck s' /\ (forall k nn, l <> LUpdate k nn).
Proof.
  intros (Hi & Hp & g & t & Hg & Hst & Hb) Hs.
  assert (inv s') as Hi' by (by eapply inv_step).
  assert (forall g' pc, st_gs s !! g' = Some pc -> looping pc = true -> pc = GWait t) as Hno.
  { intros g' pc Hg' Hl. rewrite (only_looper s g (GWait t) g' pc) in Hg by done. congruence. }
  destruct Hs; try (match goal with Hx : st_gs s !! _ = Some _ |- _ => by specialize (Hno _ _ Hx eq_refl) end);
    (split; [|done]); (split; [exact Hi'|]).
  - split; [done|]. by exists g, t.
  - split; [done|]. by exists g, t.
  - unfold runChecker. rewrite Hp. split; [done|]. by exists g, t.
  - split; [done|]. exists g, t. simpl. rewrite list_lookup_insert_ne by congruence.
    split; [done|]. split; [set_solver|done].
  - split; [done|]. exists g, t. simpl. split; [done|]. split; [done|set_solver].
  - match goal with Hx : st_gs s !! _ = Some _ |- _ => specialize (Hno _ _ Hx eq_refl) end. congruence.
Qed.

Lemma stuck_steps s s' : stuck s -> steps s s' -> stuck s'.
Proof.
  intros Hs Hst. induction Hst as [|s l s1 s2 _ IH Hst]; [done|].
  apply (stuck_step s1 l s2 (IH Hs) Hst).
Qed.

(** A race: the loop ends with no job left; before its goroutine stops the
    ticker, another reconciliation stores a job and starts a new loop with a
    new ticker, which the first goroutine then stops. *)
Definition raced : state :=
  mkState (mkChecker {["b" := ("ns", "b")]} (Some 1%nat) true) 2 {[1%nat]} ∅ [GDone; GWait 1].

Lemma reach_step s l s' : reachable s -> step s l s' -> reachable s'.
Proof. intros Hr Hs. by eapply st_step. Qed.

Lemma reach_check s g :
  reachable s -> st_gs s !! g = Some GLoop ->
  reachable (goto (set_sc s (check_jobs (st_sc s)).1) g (check_jobs (st_sc s)).2).
Proof. intros Hr Hg. eapply reach_step; [exact Hr|]. eapply s_check; [done|apply surjective_pairing]. Qed.

Lemma raced_reachable : reachable raced.
Proof.
  pose proof (st_refl init : reachable init) as R.
  apply (fun R => reach_step _ _ _ R (s_store _ "a" ("ns", "a"))) in R.
  apply (fun R => reach_step _ _ _ R (s_run _)) in R.
  apply (fun R => reach_step _ _ _ R (s_delete _ "a")) in R.
  apply reach_check with (g := 0%nat) in R; [|reflexivity].
  apply (fun R => reach_step _ _ _ R (s_store _ "b" ("ns", "b"))) in R.
  apply (fun R => reach_step _ _ _ R (s_run _)) in R.
  eapply reach_step in R; [|apply (s_stop _ 0 1); reflexivity].
  apply reach_check with (g := 1%nat) in R; [|reflexivity].
  eapply reach_step in R; [|apply (s_fetch _ 1 []); reflexivity].
  eapply reach_step in R; [|apply (s_deliver_end _ 1); reflexivity].
  eapply reach_step in R; [|apply (s_read_ticker _ 1 1); reflexivity].
  exact R.
Qed.

(** The stop of a ticker can hit the ticker of the next check loop: there
    is a reachable state with a job stored, a check marked in progress and a
    goroutine in the loop, from which no status update is ever delivered
    again, whatever the reconcilers do. *)
Theorem stale_ticker_stop_freezes_checker :
  exists s, reachable s /\ sc_jobs (st_sc s) <> ∅ /\
    forall s' l s'', steps s s' -> step s' l s'' ->
      sc_checkInProgress (st_sc s') = true /\ forall k nn, l <> LUpdate k nn.
Proof.
  exists raced. split; [apply raced_reachable|]. split; [done|].
  intros s' l s'' Hs Hst.
  assert (stuck raced) as Hr.
  { split; [by apply (inv_steps _ _ inv_init raced_reachable)|]. split; [done|].
    exists 1%nat, 1%nat. split; [done|]. split; set_solver. }
  apply (stuck_steps _ _ Hr) in Hs as Hs'. split; [apply Hs'|]. by apply (stuck_step s' l s'').
Qed.

Module JetCheckerWitnesses.

Definition watched : state := set_sc init (storeJob (st_sc init) "a" ("ns", "a")).

Lemma watched_reachable : reachable watched.
Proof. eapply st_step; [apply st_refl|apply s_store]. Qed.

Lemma checker_runs_once_witness :
  (loopers (st_gs raced) <= 1)%nat /\ loopers (st_gs (runChecker watched)) = 1%nat.
Proof.
  split; [apply (checker_runs_once raced raced_reachable)|].
  apply (checker_runs_once watched watched_reachable). constructor. discriminate.
Defined.

Definition waiting : state :=
  mkState (mkChecker {["a" := ("ns", "a")]} (Some 0%nat) true) 1 ∅ ∅ [GWait 0].

Lemma quiet_tau s s' : quiet_steps init s -> step s LTau s' -> quiet_steps init s'.
Proof. intros Hq Hs. by eapply qs_step. Qed.

Lemma waiting_quiet : quiet_steps init waiting.
Proof.
  assert (quiet_steps init watched) as R by (eapply qs_step; [apply qs_refl|apply s_store|done]).
  apply (fun R => qs_step _ _ _ _ R (s_run _)) in R; [|by intros _ []].
  eapply quiet_tau in R; [|eapply (s_check _ 0); [reflexivity|apply surjective_pairing]].
  eapply quiet_tau in R; [|apply (s_fetch _ 0 []); reflexivity].
  eapply quiet_tau in R; [|apply (s_deliver_end _ 0); reflexivity].
  eapply quiet_tau in R; [|apply (s_read_ticker _ 0 0); reflexivity].
  exact R.
Qed.

Lemma checker_keeps_ticking_witness :
  (0%nat ∉ st_stopped waiting) /\
  (exists s', steps waiting s' /\ st_gs s' !! 0%nat = Some GLoop /\ st_sc s' = st_sc waiting).
Proof. apply (checker_keeps_ticking waiting 0 0 waiting_quiet). reflexivity. Defined.

End JetCheckerWitnesses.
