(* ===== verification/JetJob.v ===== *)
(** * The JetJob controller (src/internal/controller/hazelcast/jetjob_controller.go)

    [Reconcile] and everything it calls, as programs over the calls to the
    Kubernetes API, to the members (through the Jet service) and to the
    agents.  The status checker of a cluster (see [JetChecker]) is reached
    through the calls [StoreJob], [DeleteJob] and [RunChecker]; the
    reconciler's own state is the set of clusters that have one.  The
    goroutine that submits a job is started by [GoRunJob]; its body is
    [run_job].

    The phone home trigger and logging are left out. *)

From S2P Require Import Prelude Proto CodecTypes CodecRequests Eff FieldValidation HazelcastTypes HazelcastValidation JetJobValidation.

#[local] Open Scope prog_scope.
#[local] Open Scope string_scope.
#[local] Open Scope list_scope.
#[local] Open Scope Z_scope.

Definition NamespacedName : Type := string * string.  (* namespace, name *)

Definition n_Finalizer : string := "hazelcast.com/finalizer".
Definition n_JetJobJarsPath : string := "/opt/hazelcast/jetJobJars".

(** ** Paths *)

(** [strings.Split(s, "/")] *)
Fixpoint split_slash (s : string) : list string :=
  match s with
  | EmptyString => [EmptyString]
  | String a s =>
      if Ascii.eqb a "/" then EmptyString :: split_slash s
      else match split_slash s with
           | [] => [String a EmptyString]
           | x :: rest => String a x :: rest
           end
  end.

(** [path.Clean] of a rooted path, by its elements. *)
Definition clean_rooted (elems : list string) : list string :=
  foldl (fun acc e => if strb e "" || strb e "." then acc
                      else if strb e ".." then take (length acc - 1) acc
                      else acc ++ [e]) [] elems.

(** [path.Join(base, name)] for a rooted [base]. *)
Definition path_Join (base name : string) : string :=
  match clean_rooted (split_slash base ++ (if strb name "" then [] else split_slash name)) with
  | [] => "/"
  | l => foldr (fun e r => "/" ++ e ++ r) "" l
  end%string.

(** [url[strings.LastIndex(url, "/")+1:]] *)
Definition after_last_slash (url : string) : string := default "" (last (split_slash url)).

(** What the controller reads of a JetJobSnapshot. *)
Record JetJobSnapshot := mkJetJobSnapshot {
  sn_Name : string;
  sn_SpecName : string;
  sn_CreationTime : option Z;   (* [None] for the zero time *)
}.

Definition JetJobSnapshot_SnapshotName (s : JetJobSnapshot) : string :=
  if negb (strb (sn_SpecName s) "") then sn_SpecName s else sn_Name s.

(** The request of the agent's sidecar package; its download types are
    constants of that package, the first constructor is the zero value. *)
Inductive DownloadType := DownloadType_zero | BucketDownload | URLDownload.

Record DownloadFileReq := mkDownloadFileReq {
  df_URL : string; df_FileName : string; df_DestDir : string; df_SecretName : string; df_DownloadType : DownloadType;
}.

Definition jobStatusPhase (readStatus : Z) : string :=
  match readStatus with
  | 0 => JetJobNotRunning
  | 1 => JetJobStarting
  | 2 => JetJobRunning
  | 3 => JetJobSuspended
  | 4 => JetJobSuspendedExportingSnapshot
  | 5 => JetJobCompleting
  | 6 => JetJobExecutionFailed
  | 7 => JetJobCompleted
  | _ => JetJobNotRunning
  end.

Definition jetJobTerminateMode (jjs : string) : Z :=
  if strb jjs SuspendedJobState then SuspendGracefully
  else if strb jjs CanceledJobState then CancelGracefully
  else if strb jjs RestartedJobState then RestartGracefully
  else CancelGracefully.

Definition fileDownloadReq (job : JetJob) : DownloadFileReq :=
  match jj_BucketConfiguration (job_Spec job) with
  | Some b => mkDownloadFileReq (bc_BucketURI b) (jj_JarName (job_Spec job)) n_JetJobJarsPath
                (BucketConfiguration_GetSecretName b) BucketDownload
  | None =>
      if JetJobSpec_IsRemoteURLsEnabled (job_Spec job)
      then mkDownloadFileReq (jj_RemoteURL (job_Spec job)) (jj_JarName (job_Spec job)) n_JetJobJarsPath "" URLDownload
      else mkDownloadFileReq "" (jj_JarName (job_Spec job)) n_JetJobJarsPath "" DownloadType_zero
  end.

Definition job_nn (j : JetJob) : NamespacedName := (job_Namespace j, job_Name j).
Definition job_hz (j : JetJob) : NamespacedName := (job_Namespace j, jj_HazelcastResourceName (job_Spec j)).
Definition set_job_Status (j : JetJob) (s : JetJobStatus) : JetJob :=
  mkJetJob (job_Namespace j) (job_Name j) (job_Finalizers j) (job_Deleting j) (job_Annotations j) (job_Spec j) s.
Definition set_job_Finalizers (j : JetJob) (fs : list string) : JetJob :=
  mkJetJob (job_Namespace j) (job_Name j) fs (job_Deleting j) (job_Annotations j) (job_Spec j) (job_Status j).

(** ** jetjob_status.go: the status to store *)

Record jetJobStatusBuilder := mkStatusBuilder { sb_status : string; sb_err : option error }.
Definition jetJobWithStatus (s : string) : jetJobStatusBuilder := mkStatusBuilder s None.
Definition failedJetJobStatus (e : error) : jetJobStatusBuilder := mkStatusBuilder JetJobFailed (Some e).

(** The clusters that have a status checker. *)
Record JetJobReconciler := mkJetJobReconciler { clusterStatusChecker : gset NamespacedName }.
Definition NewJetJobReconciler : JetJobReconciler := mkJetJobReconciler ∅.

Section JetJob.
Context `{P : Proto} `{QL : QuantityLib}.

Inductive jj_op :=
(* Kubernetes API *)
| GetJetJob (name : NamespacedName)
| UpdateJetJob (j : JetJob)
| UpdateJetJobStatus (j : JetJob)
| ListJetJobs (namespace : string)
| GetHazelcast (name : NamespacedName)
| GetJetJobSnapshot (name : NamespacedName)
(* registries *)
| GetOrCreateClient (name : NamespacedName)
| GetOrCreateMTLSClient (namespace : string)
(* members and agents *)
| OrderedMembers (name : NamespacedName)
| NewFileDownloadService (address : string)
| Download (address : string) (req : DownloadFileReq)
| UpdateJobState (job : JetTerminateJob)
| ResumeJob (id : Z)
| RunJob (m : JobMetaData)
(* the status checker of a cluster, and [go] *)
| StoreJob (hz : NamespacedName) (jobName : string) (name : NamespacedName)
| DeleteJob (hz : NamespacedName) (jobName : string)
| RunChecker (hz : NamespacedName)
| GoRunJob (m : JobMetaData) (name : NamespacedName).

Definition jj_ans (o : jj_op) : Type :=
  match o with
  | GetJetJob _ => fetched JetJob
  | ListJetJobs _ => fetched (list JetJob)
  | GetHazelcast _ => fetched Hazelcast
  | GetJetJobSnapshot _ => fetched JetJobSnapshot
  | OrderedMembers _ => list string
  | StoreJob _ _ _ | DeleteJob _ _ | RunChecker _ | GoRunJob _ _ => unit
  | _ => option error
  end.

#[global] Instance jj_effects : Effects := {| op := jj_op; ans := jj_ans |}.

Context `{RL : @RetryLib jj_effects} `{KE : KErrors} `{JJ : JetJobJson}.

Definition updateStatus (name : NamespacedName) (options : jetJobStatusBuilder)
  : prog (ctrl_Result * option error) :=
  r <- RetryOnConflict (stateless (
    ask got <- GetJetJob name ;;
    match (got : fetched JetJob) with
    | Failed e => Done (Some e)
    | Found jj =>
        let st := job_Status jj in
        let text := match sb_err options with Some e => err_msg e | None => jjs_FailureText st end in
        call (UpdateJetJobStatus (set_job_Status jj
          (mkJetJobStatus (jjs_Id st) (sb_status options) (jjs_SubmissionTime st) (jjs_CompletionTime st)
             text (jjs_SuspensionCause st))))
    end)) tt ;;
  if strb (sb_status options) JetJobFailed then Done (ctrl_Result_zero, sb_err options) else
  if strb (sb_status options) JetJobNotRunning then Done (mkResult true 1, None) else
  Done (ctrl_Result_zero, r.2).

Definition AddFinalizer (j : JetJob) : prog (JetJob * option error) :=
  if negb (bool_decide (n_Finalizer ∈ job_Finalizers j)) && negb (job_Deleting j) then
    let j := set_job_Finalizers j (job_Finalizers j ++ [n_Finalizer]) in
    ask err <- UpdateJetJob j ;;
    Done (j, err : option error)
  else Done (j, None).

Definition removeJobFromChecker (r : JetJobReconciler) (j : JetJob) : prog unit :=
  if decide (job_hz j ∈ clusterStatusChecker r)
  then do_ DeleteJob (job_hz j) (JetJob_JobName j) ;; Done tt
  else Done tt.

Definition updateLastSuccessfulConfiguration (name : NamespacedName) : prog (option error) :=
  r <- RetryOnConflict (stateless (
    ask got <- GetJetJob name ;;
    match (got : fetched JetJob) with
    | Failed e => Done (Some e)
    | Found jj =>
        let b := match JetJobSpec_Marshal (job_Spec jj) with inl s => s | inr _ => "" end in
        call (UpdateJetJob (mkJetJob (job_Namespace jj) (job_Name jj) (job_Finalizers jj) (job_Deleting jj)
          (<[n_LastSuccessfulSpecAnnotation := b]> (job_Annotations jj)) (job_Spec jj) (job_Status jj)))
    end)) tt ;;
  Done r.2.

Definition stopJetExecution (j : JetJob) (hzNn : NamespacedName) : prog (option error) :=
  if jjs_Id (job_Status j) =? 0 then Done None else
  ask err <- GetOrCreateClient hzNn ;;
  match (err : option error) with
  | Some e => Done (Some e)
  | None => call (UpdateJobState (mkJetTerminateJob (jjs_Id (job_Status j)) CancelForcefully UUID_zero))
  end.

Definition removeCheckerAndFinalizer (r : JetJobReconciler) (j : JetJob) : prog (option error) :=
  removeJobFromChecker r j ;;
  let j := set_job_Finalizers j (filter (fun f => f <> n_Finalizer) (job_Finalizers j)) in
  ask err <- UpdateJetJob j ;;
  match (err : option error) with
  | Some e => Done (Some (wrap "failed to remove finalizer from custom resource: " e))
  | None => Done None
  end.

Definition executeFinalizer (r : JetJobReconciler) (j : JetJob) : prog (option error) :=
  if negb (bool_decide (n_Finalizer ∈ job_Finalizers j)) then Done None else
  let hzNn := job_hz j in
  ask got <- GetHazelcast hzNn ;;
  match (got : fetched Hazelcast) with
  | Failed e => if IsNotFound e then removeCheckerAndFinalizer r j else Done (Some e)
  | Found hz =>
      if h_Deleting hz then removeCheckerAndFinalizer r j else
      err <- stopJetExecution j hzNn ;;
      match err with
      | Some e => Done (Some (wrap "failed to remove finalizer: " e))
      | None => removeCheckerAndFinalizer r j
      end
  end.

(** The goroutine that has one member download the jar; both the parsing of
    the address and the creation of the service can fail. *)
Definition download_member (job : JetJob) (address : string) : prog (option error) :=
  ask err <- NewFileDownloadService address ;;
  match (err : option error) with
  | Some e => Done (Some e)
  | None => call (Download address (fileDownloadReq job))
  end.

Definition downloadFile (job : JetJob) (hazelcastName jjnn : NamespacedName) : prog (option error) :=
  ask err <- GetOrCreateMTLSClient hazelcastName.1 ;;
  match (err : option error) with
  | Some e => res <- updateStatus jjnn (failedJetJobStatus e) ;; Done res.2
  | None =>
      ask members <- OrderedMembers hazelcastName ;;
      Par (length (members : list string))
        (fun i => match (members : list string) !! i with Some m => download_member job m | None => Done None end)
        (fun errs first => Done (group_Wait errs first))
  end.

Definition changeJobState (jj : JetJob) : prog (option error) :=
  call (UpdateJobState (mkJetTerminateJob (jjs_Id (job_Status jj)) (jetJobTerminateMode (jj_State (job_Spec jj))) UUID_zero)).

(** [DefaultExistingJarJobMetaData] *)
Definition DefaultExistingJarJobMetaData (jobName jarName : string) : JobMetaData :=
  mkJobMetaData UUID_zero true jarName "" "" jobName "" [].

(** The job as it is submitted, but for the snapshot. *)
Definition job_metadata (job : JetJob) (snapshot : string) : JobMetaData :=
  let s := job_Spec job in
  let jarName := if JetJobSpec_IsRemoteURLsEnabled s && strb (jj_JarName s) ""
                 then after_last_slash (jj_RemoteURL s) else jj_JarName s in
  let m := DefaultExistingJarJobMetaData (JetJob_JobName job) (path_Join n_JetJobJarsPath jarName) in
  mkJobMetaData (JobMetaData_SessionId m) (JobMetaData_JarOnMember m) (JobMetaData_FileName m)
    (JobMetaData_Sha256Hex m) snapshot (JobMetaData_JobName m)
    (if negb (strb (jj_MainClass s) "") then jj_MainClass s else JobMetaData_MainClass m)
    (JobMetaData_JobParameters m).

(** The end of [applyJetJob], once the snapshot is known. *)
Definition submit_job (job : JetJob) (hazelcastName : NamespacedName) (snapshot : string)
  : prog (ctrl_Result * option error) :=
  let jjnn := job_nn job in
  err <- (if JetJobSpec_IsDownloadEnabled (job_Spec job) then downloadFile job hazelcastName jjnn else Done None) ;;
  match err with
  | Some e => updateStatus jjnn (failedJetJobStatus e)
  | None =>
      do_ GoRunJob (job_metadata job snapshot) jjnn ;;
      do_ RunChecker hazelcastName ;;
      updateStatus jjnn (jetJobWithStatus JetJobStarting)
  end.

Definition applyJetJob (r : JetJobReconciler) (job : JetJob) (hazelcastName : NamespacedName)
  : prog (JetJobReconciler * (ctrl_Result * option error)) :=
  let jjnn := job_nn job in
  ask err <- GetOrCreateClient hazelcastName ;;
  match (err : option error) with
  | Some e => res <- updateStatus jjnn (failedJetJobStatus e) ;; Done (r, res)
  | None =>
      let r := mkJetJobReconciler ({[hazelcastName]} ∪ clusterStatusChecker r) in
      if negb (strb (jj_State (job_Spec job)) RunningJobState) then
        err <- changeJobState job ;; Done (r, (ctrl_Result_zero, err))
      else if Phase_IsSuspended (jjs_Phase (job_Status job)) && strb (jj_State (job_Spec job)) RunningJobState then
        ask err <- ResumeJob (jjs_Id (job_Status job)) ;; Done (r, (ctrl_Result_zero, err : option error))
      else
        do_ StoreJob hazelcastName (JetJob_JobName job) jjnn ;;
        let s := job_Spec job in
        if negb (strb (jj_InitialSnapshotResourceName s) "") then
          ask got <- GetJetJobSnapshot (job_Namespace job, jj_InitialSnapshotResourceName s) ;;
          match (got : fetched JetJobSnapshot) with
          | Failed e => res <- updateStatus jjnn (failedJetJobStatus e) ;; Done (r, res)
          | Found jjs =>
              match sn_CreationTime jjs with
              | None =>
                  res <- updateStatus jjnn (failedJetJobStatus (errors_New
                           ("JetJobSnapshot '" ++ jj_InitialSnapshotResourceName s ++ "' is not exported"))) ;;
                  Done (r, res)
              | Some _ => res <- submit_job job hazelcastName (JetJobSnapshot_SnapshotName jjs) ;; Done (r, res)
              end
          end
        else res <- submit_job job hazelcastName "" ;; Done (r, res)
  end.

(** The goroutine started by [GoRunJob]. *)
Definition run_job (m : JobMetaData) (jjnn : NamespacedName) : prog unit :=
  ask err <- RunJob m ;;
  match (err : option error) with
  | Some e => updateStatus jjnn (failedJetJobStatus e) ;; Done tt
  | None => Done tt
  end.

(** [updateJob], called by the status checker for each summary of a stored
    job; times are in nanoseconds. *)
Definition updateJob (r : JetJobReconciler) (summary : JobAndSqlSummary) (name : NamespacedName) : prog unit :=
  ask got <- GetJetJob name ;;
  match (got : fetched JetJob) with
  | Failed _ => Done tt
  | Found job =>
      (if Phase_IsFinished (jjs_Phase (job_Status job)) then removeJobFromChecker r job else Done tt) ;;
      let nanos ms := int64 (ms * 1000000) in
      do_ UpdateJetJobStatus (set_job_Status job
        (mkJetJobStatus (JobAndSqlSummary_JobId summary) (jobStatusPhase (JobAndSqlSummary_Status summary))
           (Some (nanos (JobAndSqlSummary_SubmissionTime summary)))
           (if JobAndSqlSummary_CompletionTime summary =? 0 then jjs_CompletionTime (job_Status job)
            else Some (nanos (JobAndSqlSummary_CompletionTime summary)))
           (JobAndSqlSummary_FailureText summary) (JobAndSqlSummary_SuspensionCause summary))) ;;
      Done tt
  end.

(** The checks between reading the resource and applying it. *)
Definition validate_job (req : NamespacedName) (jj : JetJob) (jjs : string) : prog (option (option error)) :=
  match job_Annotations jj !! n_LastSuccessfulSpecAnnotation with
  | Some s =>
      if strb s jjs then Done None  (* already applied *)
      else Done (Some (ValidateJetJobUpdateSpec jj))
  | None =>
      ask got <- ListJetJobs req.1 ;;
      let items := match (got : fetched (list JetJob)) with Found l => l | Failed _ => [] end in
      Done (Some (ValidateExistingJobName jj items))
  end.

Definition Reconcile (r : JetJobReconciler) (req : NamespacedName)
  : prog (JetJobReconciler * (ctrl_Result * option error)) :=
  let fail r e := (res <- updateStatus req (failedJetJobStatus e) ;; Done (r, res)) in
  ask got <- GetJetJob req ;;
  match (got : fetched JetJob) with
  | Failed e => if IsNotFound e then Done (r, (ctrl_Result_zero, None)) else fail r e
  | Found jj =>
  fin <- AddFinalizer jj ;;
  let '(jj, err) := fin in
  match err with Some e => fail r e | None =>
  if job_Deleting jj then
    err <- executeFinalizer r jj ;;
    match err with Some e => fail r e | None => Done (r, (ctrl_Result_zero, None)) end
  else
  if Phase_IsRunning (jjs_Phase (job_Status jj)) && strb (jj_State (job_Spec jj)) RunningJobState then
    Done (r, (ctrl_Result_zero, None)) else
  if Phase_IsFinished (jjs_Phase (job_Status jj)) then
    removeJobFromChecker r jj ;; Done (r, (ctrl_Result_zero, None)) else
  match JetJobSpec_Marshal (job_Spec jj) with
  | inr e => fail r (wrap "error marshaling JetJob as JSON: " e)
  | inl jjs =>
  v <- validate_job req jj jjs ;;
  match v with
  | None => Done (r, (ctrl_Result_zero, None))
  | Some (Some e) => fail r e
  | Some None =>
  let hazelcastName := (req.1, jj_HazelcastResourceName (job_Spec jj)) in
  ask hz <- GetHazelcast hazelcastName ;;
  match (hz : fetched Hazelcast) with
  | Failed _ => res <- updateStatus req (jetJobWithStatus JetJobNotRunning) ;; Done (r, res)
  | Found h =>
  if negb (strb (st_Phase (h_Status h)) "Running") then
    fail r (errors_New ("hazelcast cluster " ++ h_Name h ++ " cluster is not ready")) else
  match ValidateJetConfiguration h with
  | Panic => Crash
  | OutOfFuel => Spin
  | Ret (Some e) => fail r e
  | Ret None =>
  applied <- applyJetJob r jj hazelcastName ;;
  let '(r, (result, err)) := applied in
  match err with
  | Some e => Done (r, (result, Some e))
  | None => err <- updateLastSuccessfulConfiguration req ;; Done (r, (result, err))
  end end end end end end end.
End JetJob.
