(* ===== verification/JetJobFacts.v ===== *)
(** * What a reconciliation of a Jet job does

    Whatever the API server, the members and the agents answer: one
    reconciliation acts on the cluster at most once, as the resource asks, and
    only when the resource and the cluster allow it; the finalizer is removed
    only when the job needs no cancellation or was cancelled; and the only
    panic is the nil Jet section. *)

From S2P Require Import Prelude Proto CodecTypes CodecRequests Eff FieldValidation HazelcastTypes HazelcastValidation HazelcastValidationFacts JetJobValidation JetJob.

#[local] Open Scope prog_scope.
#[local] Open Scope list_scope.
#[local] Set Warnings "-clear-no-such-hyp".
#[local] Open Scope Z_scope.

Section Facts.
Context `{P : Proto} `{QL : QuantityLib} `{RL : @RetryLib jj_effects} `{KE : KErrors} `{JJ : JetJobJson}.

(** Calls that submit, resume or terminate a job. *)
Definition act (o : op) : bool :=
  match o with GoRunJob _ _ | RunJob _ | UpdateJobState _ | ResumeJob _ => true | _ => false end.
Definition still (t : list event) : Prop := count act t = 0%nat.

Lemma still_app t1 t2 : still t1 -> still t2 -> still (t1 ++ t2).
Proof. unfold still. rewrite count_app. lia. Qed.
Lemma still_cons e t : act (ev_op e) = false -> still t -> still (e :: t).
Proof. unfold still. rewrite count_cons. intros ->. done. Qed.
Lemma still_nil : still [].
Proof. done. Qed.

Ltac still := repeat first [apply still_nil | apply still_cons; [done|] | apply still_app]; try done.

Lemma never_jet_updateStatus Q name options :
  (forall n, Q (GetJetJob n) = false) -> (forall j, Q (UpdateJetJobStatus j) = false) ->
  never Q (updateStatus name options).
Proof.
  intros H1 H2. apply never_bind.
  - apply OnError_never. intros []. apply never_bind; [|done].
    split; [apply H1|]. intros [jj|e]; [|done]. split; [apply H2|done].
  - intros [[] err]. unfold strb. by repeat case_bool_decide.
Qed.

Lemma still_updateStatus name options t o : exec (updateStatus name options) t o -> still t.
Proof. apply never_count, never_jet_updateStatus; done. Qed.

Lemma still_updateLast name t o : exec (updateLastSuccessfulConfiguration name) t o -> still t.
Proof.
  apply never_count, never_bind; [|done]. apply OnError_never. intros s.
  apply never_bind; [|done]. split; [done|]. by intros [jj|e].
Qed.

Lemma still_removeJob r j t o : exec (removeJobFromChecker r j) t o -> still t.
Proof. apply never_count. unfold removeJobFromChecker. by case_decide. Qed.

Lemma still_download job hz nn t o : exec (downloadFile job hz nn) t o -> still t.
Proof.
  apply never_count. unfold downloadFile. split; [done|]. intros [e|].
  - apply never_bind; [by apply never_jet_updateStatus|done].
  - split; [done|]. intros members. split; [|done]. intros i.
    destruct ((members : list string) !! i); [|done]. split; [done|]. by intros [e|].
Qed.

(** A program that ends with a status update and hands the reconciler on. *)
Lemma ret_status_still (r : JetJobReconciler) name options t r' res :
  exec (res <- updateStatus name options ;; Done (r, res)) t (Returned (r', res)) -> still t /\ r' = r.
Proof.
  intros H. apply exec_bind in H as [(a & u1 & u2 & -> & He & H)|[[_ [=]]|[_ [=]]]].
  destruct H as [-> [= -> _]]. rewrite app_nil_r. eauto using still_updateStatus.
Qed.

Definition ev_got (name : NamespacedName) (j : JetJob) : event := Ev (GetJetJob name : op) (Found j).
Definition ev_cluster (name : NamespacedName) (h : Hazelcast) : event := Ev (GetHazelcast name : op) (Found h).
Definition ev_terminate (job : JetTerminateJob) (e : option error) : event := Ev (UpdateJobState job : op) e.
Definition ev_resume (id : Z) (e : option error) : event := Ev (ResumeJob id : op) e.
Definition ev_submit (m : JobMetaData) (nn : NamespacedName) : event := Ev (GoRunJob m nn : op) tt.
Definition ev_store (hz : NamespacedName) (k : string) (nn : NamespacedName) : event := Ev (StoreJob hz k nn : op) tt.
Definition ev_check (hz : NamespacedName) : event := Ev (RunChecker hz : op) tt.

Definition ev_client (hz : NamespacedName) : event := Ev (GetOrCreateClient hz : op) None.

(** [t] is quiet but for one event. *)
Definition one_act (e : event) (t : list event) : Prop :=
  exists t1 t2, t = t1 ++ e :: t2 /\ still t1 /\ still t2.

Lemma one_act_l e t1 t2 : still t1 -> one_act e t2 -> one_act e (t1 ++ t2).
Proof.
  intros Hs (u1 & u2 & -> & H1 & H2). exists (t1 ++ u1), u2. rewrite app_assoc. split; [done|]. split; [still|done].
Qed.
Lemma one_act_r e t1 t2 : one_act e t1 -> still t2 -> one_act e (t1 ++ t2).
Proof.
  intros (u1 & u2 & -> & H1 & H2) Hs. exists u1, (u2 ++ t2). split; [by rewrite <-app_assoc|]. split; [done|still].
Qed.
Lemma one_act_cons e e' t : act (ev_op e') = false -> one_act e t -> one_act e (e' :: t).
Proof. intros Hs. apply (one_act_l e [e']). still. Qed.

(** What the resource asks of the cluster. *)
Inductive asked (job : JetJob) (hz : NamespacedName) (t : list event) : Prop :=
| ask_state e :
    jj_State (job_Spec job) <> RunningJobState ->
    one_act (ev_terminate (mkJetTerminateJob (jjs_Id (job_Status job))
               (jetJobTerminateMode (jj_State (job_Spec job))) UUID_zero) e) t ->
    asked job hz t
| ask_resume e :
    jj_State (job_Spec job) = RunningJobState -> Phase_IsSuspended (jjs_Phase (job_Status job)) = true ->
    one_act (ev_resume (jjs_Id (job_Status job)) e) t -> asked job hz t
| ask_submit snapshot t1 t2 t3 :
    jj_State (job_Spec job) = RunningJobState -> Phase_IsSuspended (jjs_Phase (job_Status job)) = false ->
    t = t1 ++ ev_store hz (JetJob_JobName job) (job_nn job) :: t2
           ++ ev_submit (job_metadata job snapshot) (job_nn job) :: ev_check hz :: t3 ->
    still t1 -> still t2 -> still t3 -> asked job hz t.

Lemma submit_cases job hz snapshot t res :
  exec (submit_job job hz snapshot) t (Returned res) ->
  still t \/
  exists t2 t3, t = t2 ++ ev_submit (job_metadata job snapshot) (job_nn job) :: ev_check hz :: t3
    /\ still t2 /\ still t3.
Proof.
  unfold submit_job. cbv zeta. intros H.
  apply exec_bind in H as [(err & u1 & u2 & -> & He & H)|[[_ [=]]|[_ [=]]]].
  assert (still u1) as Hs1.
  { destruct (JetJobSpec_IsDownloadEnabled _); [by eapply still_download|]. by destruct He as [-> _]. }
  destruct err as [e|].
  - left. apply still_updateStatus in H. still.
  - destruct H as ([] & u3 & -> & [] & u4 & -> & H). right. exists u1, u4.
    apply still_updateStatus in H. done.
Qed.

Lemma submit_asked (r r' : JetJobReconciler) job hz snapshot u w res :
  jj_State (job_Spec job) = RunningJobState -> Phase_IsSuspended (jjs_Phase (job_Status job)) = false ->
  still u ->
  exec (res <- submit_job job hz snapshot ;; Done (r, res)) w (Returned (r', res)) ->
  let t := ev_client hz :: ev_store hz (JetJob_JobName job) (job_nn job) :: u ++ w in
  still t \/ asked job hz t.
Proof.
  intros Est Esu Hu Hw.
  apply exec_bind in Hw as [(a & w1 & w2 & -> & He & Hw)|[[_ [=]]|[_ [=]]]]. destruct Hw as [-> _].
  apply submit_cases in He as [Hs|(t2 & t3 & -> & H2 & H3)]; [left; still|right].
  apply (ask_submit _ _ _ snapshot [ev_client hz] (u ++ t2) t3); try done; [|still].
  rewrite app_nil_r. by list_simplifier.
Qed.

Lemma apply_cases r job hz t r' res :
  exec (applyJetJob r job hz) t (Returned (r', res)) -> still t \/ asked job hz t.
Proof.
  unfold applyJetJob. cbv zeta. intros (err & u1 & -> & H).
  destruct err as [e|]; [left; apply ret_status_still in H as [? _]; still|].
  destruct (strb (jj_State (job_Spec job)) RunningJobState) eqn:Est; simpl negb in H; cbv iota in H.
  2: { right. apply bool_decide_eq_false in Est.
    apply exec_bind in H as [(a & v1 & v2 & -> & He & H)|[[_ [=]]|[_ [=]]]].
    destruct He as (e & v3 & -> & -> & [= ->]), H as [-> _].
    eapply ask_state; [done|]. apply one_act_cons; [done|]. exists [], []. done. }
  apply bool_decide_eq_true in Est. rewrite andb_true_r in H.
  destruct (Phase_IsSuspended _) eqn:Esu.
  { right. destruct H as (e & v3 & -> & -> & _). eapply ask_resume; [done..|].
    apply one_act_cons; [done|]. exists [], []. done. }
  destruct H as ([] & v1 & -> & H). destruct (negb _).
  - destruct H as (got & v2 & -> & H). destruct got as [jjs|e].
    + destruct (sn_CreationTime jjs) as [ct|].
      * eapply (submit_asked _ _ _ _ _ [_]); [done|done|still|exact H].
      * left. apply ret_status_still in H as [? _]. still.
    + left. apply ret_status_still in H as [? _]. still.
  - eapply (submit_asked _ _ _ _ _ []); [done|done|still|exact H].
Qed.

(** ** Deletion *)

Definition ev_gone (name : NamespacedName) (e : error) : event := Ev (GetHazelcast name : op) (Failed e).
Definition is_update (o : op) : bool := match o with UpdateJetJob _ => true | _ => false end.
Definition cancelled (j : JetJob) (e : option error) : event :=
  ev_terminate (mkJetTerminateJob (jjs_Id (job_Status j)) CancelForcefully UUID_zero) e.

(** The job needs no cancellation, or was cancelled. *)
Definition released (j : JetJob) (t : list event) : Prop :=
  (exists e, ev_gone (job_hz j) e ∈ t /\ IsNotFound e = true)
  \/ (exists h, ev_cluster (job_hz j) h ∈ t /\ h_Deleting h = true)
  \/ jjs_Id (job_Status j) = 0
  \/ cancelled j None ∈ t.

Definition without_finalizer (j : JetJob) : JetJob :=
  set_job_Finalizers j (filter (fun f => f <> n_Finalizer) (job_Finalizers j)).
Definition ev_update (j : JetJob) (e : option error) : event := Ev (UpdateJetJob j : op) e.

Lemma remove_cases r j t err :
  exec (removeCheckerAndFinalizer r j) t (Returned err) ->
  exists t1 e, t = t1 ++ [ev_update (without_finalizer j) e] /\ still t1 /\ count is_update t1 = 0%nat.
Proof.
  unfold removeCheckerAndFinalizer. intros H.
  apply exec_bind in H as [(a & u1 & u2 & -> & He & H)|[[_ [=]]|[_ [=]]]].
  destruct H as (e & u3 & -> & H). exists u1, e. split; [|split].
  - destruct e as [e|]; by destruct H as [-> _].
  - by eapply still_removeJob.
  - revert He. apply never_count. unfold removeJobFromChecker. by case_decide.
Qed.

Lemma stop_cases j hz t err :
  exec (stopJetExecution j hz) t (Returned err) ->
  count is_update t = 0%nat
  /\ (still t \/ (jjs_Id (job_Status j) <> 0 /\ exists e, one_act (cancelled j e) t))
  /\ (err = None -> jjs_Id (job_Status j) = 0 \/ cancelled j None ∈ t).
Proof.
  unfold stopJetExecution. destruct (jjs_Id (job_Status j) =? 0) eqn:E.
  { apply Z.eqb_eq in E. intros [-> [= ->]]. split; [done|]. split; [by left|]. by left. }
  apply Z.eqb_neq in E. intros (x & u & -> & H). destruct x as [e|].
  { destruct H as [-> [= ->]]. split; [done|]. split; [left; still|done]. }
  destruct H as (e & v & -> & -> & [= ->]). split; [done|]. split.
  - right. split; [done|]. exists e. apply one_act_cons; [done|]. by exists [], [].
  - intros ->. right. right. left.
Qed.

(** Acting on behalf of a deletion: nothing, or one forceful cancellation. *)
Definition deletion_acts (j : JetJob) (t : list event) : Prop :=
  still t \/ (jjs_Id (job_Status j) <> 0 /\ exists e, one_act (cancelled j e) t).

Lemma remove_after r j w err :
  exec (removeCheckerAndFinalizer r j) w (Returned err) ->
  forall pre, deletion_acts j pre -> count is_update pre = 0%nat -> released j pre ->
  deletion_acts j (pre ++ w)
  /\ (count is_update (pre ++ w) = 0%nat \/
      exists t1 e, pre ++ w = t1 ++ [ev_update (without_finalizer j) e] /\ count is_update t1 = 0%nat
        /\ released j t1).
Proof.
  intros Hw pre Hd Hc Hr. apply remove_cases in Hw as (w1 & e & -> & Hs & Hu).
  assert (still (w1 ++ [ev_update (without_finalizer j) e])) as Hs' by still. split.
  - destruct Hd as [Hd|[Hi [e' Hd]]]; [left; still|right]. split; [done|]. exists e'. by apply one_act_r.
  - right. exists (pre ++ w1), e. rewrite app_assoc, count_app, Hc, Hu. split; [done|]. split; [done|].
    unfold released in *. setoid_rewrite elem_of_app. naive_solver.
Qed.

Lemma finalizer_cases r j t err :
  exec (executeFinalizer r j) t (Returned err) ->
  deletion_acts j t
  /\ (count is_update t = 0%nat \/
      exists t1 e, t = t1 ++ [ev_update (without_finalizer j) e] /\ count is_update t1 = 0%nat /\ released j t1).
Proof.
  unfold executeFinalizer. cbv zeta. destruct (negb _).
  { intros [-> _]. split; [left; still|by left]. }
  intros (got & u & -> & H).
  destruct got as [h|e].
  - destruct (h_Deleting h) eqn:Ed.
    + apply (remove_after r j u err H [ev_cluster (job_hz j) h]); [left; still|done|].
      right; left. exists h. split; [left|done].
    + apply exec_bind in H as [(a & u1 & u2 & -> & He & H)|[[_ [=]]|[_ [=]]]].
      apply stop_cases in He as (Hc & Hd & Hok).
      assert (deletion_acts j (ev_cluster (job_hz j) h :: u1)) as Hd'.
      { destruct Hd as [Hd|[Hi [e Hd]]]; [left; still|right]. split; [done|]. exists e. by apply one_act_cons. }
      destruct a as [e|].
      * destruct H as [-> _]. rewrite app_nil_r. split; [done|]. left. rewrite count_cons. simpl. lia.
      * apply (remove_after r j u2 err H (ev_cluster (job_hz j) h :: u1)); [done|rewrite count_cons; simpl; lia|].
        destruct (Hok eq_refl) as [Hi|Hin]; [by right; right; left|right; right; right; by right].
  - destruct (IsNotFound e) eqn:En.
    + apply (remove_after r j u err H [ev_gone (job_hz j) e]); [left; still|done|].
      left. exists e. split; [left|done].
    + destruct H as [-> _]. split; [left; still|by left].
Qed.

(** ** Reconciliation *)

Definition ev_listed (ns : string) (got : fetched (list JetJob)) : event := Ev (ListJetJobs ns : op) got.
Definition listed (got : fetched (list JetJob)) : list JetJob :=
  match got with Found l => l | Failed _ => [] end.

(** The recorded spec allows the update, or the name is not taken. *)
Definition validated (req : NamespacedName) (jj : JetJob) (t : list event) : Prop :=
  match job_Annotations jj !! n_LastSuccessfulSpecAnnotation with
  | Some _ => validateJetJobUpdateSpec jj = []
  | None => exists got, ev_listed req.1 got ∈ t /\ ValidateExistingJobName jj (listed got) = None
  end.

(** When a reconciliation may act on the cluster. *)
Definition ready (req : NamespacedName) (jj : JetJob) (t : list event) : Prop :=
  let hz := (req.1, jj_HazelcastResourceName (job_Spec jj)) in
  job_Deleting jj = false
  /\ (Phase_IsRunning (jjs_Phase (job_Status jj)) = true -> jj_State (job_Spec jj) <> RunningJobState)
  /\ Phase_IsFinished (jjs_Phase (job_Status jj)) = false
  /\ (exists jjs, JetJobSpec_Marshal (job_Spec jj) = inl jjs
        /\ job_Annotations jj !! n_LastSuccessfulSpecAnnotation <> Some jjs)
  /\ validated req jj t
  /\ (exists h, ev_cluster hz h ∈ t /\ st_Phase (h_Status h) = "Running"
        /\ ValidateJetConfiguration h = Ret None).

Lemma validate_cases req jj jjs t v :
  exec (validate_job req jj jjs) t (Returned v) ->
  still t
  /\ (v = Some None -> job_Annotations jj !! n_LastSuccessfulSpecAnnotation <> Some jjs /\ validated req jj t).
Proof.
  unfold validate_job, validated. destruct (job_Annotations jj !! _) as [a|].
  - destruct (strb a jjs) eqn:Ea.
    + intros [-> [= ->]]. split; [still|done].
    + intros [-> [= ->]]. split; [still|]. intros [= Hv]. apply Err_None in Hv.
      apply bool_decide_eq_false in Ea. split; [congruence|done].
  - intros (got & u & -> & -> & [= ->]). split; [still|]. intros [= Hv]. split; [done|].
    exists got. split; [left|done].
Qed.

Lemma jet_AddFinalizer_cases j t j' err :
  exec (AddFinalizer j) t (Returned (j', err)) ->
  still t /\ (j' = j \/ exists fs, j' = set_job_Finalizers j fs).
Proof.
  unfold AddFinalizer. destruct (_ && _).
  - intros (x & t' & -> & -> & [= -> _]). split; [still|right; eauto].
  - intros [-> [= -> _]]. split; [still|by left].
Qed.

Lemma asked_fin j fs hz t : asked (set_job_Finalizers j fs) hz t -> asked j hz t.
Proof.
  intros [e Hs Ho|e Hs Hp Ho|sn t1 t2 t3 Hs Hp Ht H1 H2 H3].
  - by eapply ask_state.
  - by eapply ask_resume.
  - by eapply (ask_submit _ _ _ sn t1 t2 t3).
Qed.

Lemma asked_pre j hz t1 t2 : still t1 -> asked j hz t2 -> asked j hz (t1 ++ t2).
Proof.
  intros Hs [e Hst Ho|e Hst Hp Ho|sn u1 u2 u3 Hst Hp -> H1 H2 H3].
  - eapply ask_state; [done|]. by apply one_act_l.
  - eapply ask_resume; [done..|]. by apply one_act_l.
  - apply (ask_submit _ _ _ sn (t1 ++ u1) u2 u3); try done; [by rewrite <-app_assoc|still].
Qed.

Lemma asked_post j hz t1 t2 : asked j hz t1 -> still t2 -> asked j hz (t1 ++ t2).
Proof.
  intros [e Hst Ho|e Hst Hp Ho|sn u1 u2 u3 Hst Hp -> H1 H2 H3] Hs.
  - eapply ask_state; [done|]. by apply one_act_r.
  - eapply ask_resume; [done..|]. by apply one_act_r.
  - apply (ask_submit _ _ _ sn u1 u2 (u3 ++ t2)); try done; [by list_simplifier|still].
Qed.

Lemma deletion_acts_app j t1 t2 t3 : still t1 -> deletion_acts j t2 -> still t3 -> deletion_acts j (t1 ++ t2 ++ t3).
Proof.
  intros H1 [H2|[Hi [e Ho]]] H3; [left; still|right]. split; [done|]. exists e.
  apply one_act_l; [done|]. by apply one_act_r.
Qed.

(** What [Reconcile] does after the resource was read and has its finalizer. *)
Definition acts_of (req : NamespacedName) (jj : JetJob) (t : list event) : Prop :=
  still t
  \/ (job_Deleting jj = true /\ deletion_acts jj t)
  \/ (ready req jj t /\ asked jj (req.1, jj_HazelcastResourceName (job_Spec jj)) t).

Ltac idle H := left; first [destruct H as [-> _] | apply ret_status_still in H as [? _]]; still.

Lemma existing_name_fin j fs items :
  ValidateExistingJobName (set_job_Finalizers j fs) items = ValidateExistingJobName j items.
Proof. induction items as [|job items IH]; [done|]. simpl. by rewrite IH. Qed.

Lemma ready_fin req j fs t : ready req (set_job_Finalizers j fs) t -> ready req j t.
Proof.
  unfold ready, validated. simpl. destruct (job_Annotations j !! _); [done|].
  by setoid_rewrite existing_name_fin.
Qed.

Lemma acts_fin req j fs t : acts_of req (set_job_Finalizers j fs) t -> acts_of req j t.
Proof.
  intros [Hs|[[Hd Ha]|[Hr Ha]]]; [by left|by right; left|right; right].
  split; [by apply ready_fin in Hr|]. by apply asked_fin in Ha.
Qed.

(** The last part of [Reconcile], from the point where the cluster is known. *)
Lemma apply_phase req r jj h jjs pre t r' res :
  let hz := (req.1, jj_HazelcastResourceName (job_Spec jj)) in
  still pre -> job_Deleting jj = false ->
  (Phase_IsRunning (jjs_Phase (job_Status jj)) = true -> jj_State (job_Spec jj) <> RunningJobState) ->
  Phase_IsFinished (jjs_Phase (job_Status jj)) = false ->
  JetJobSpec_Marshal (job_Spec jj) = inl jjs ->
  job_Annotations jj !! n_LastSuccessfulSpecAnnotation <> Some jjs -> validated req jj pre ->
  ev_cluster hz h ∈ pre -> st_Phase (h_Status h) = "Running" -> ValidateJetConfiguration h = Ret None ->
  exec (applied <- applyJetJob r jj hz ;;
        let '(r, (result, err)) := applied in
        match err with
        | Some e => Done (r, (result, Some e))
        | None => err <- updateLastSuccessfulConfiguration req ;; Done (r, (result, err))
        end) t (Returned (r', res)) ->
  acts_of req jj (pre ++ t).
Proof.
  intros hz Hpre Hdel Hrun Hfin Hms Hann Hval Hcl Hph Hjet H.
  apply exec_bind in H as [([r1 [result err]] & u1 & u2 & -> & Ha & H)|[[_ [=]]|[_ [=]]]].
  assert (still u2) as Hs2.
  { destruct err as [e|]; [by destruct H as [-> _]|].
    apply exec_bind in H as [(a & w1 & w2 & -> & He & H)|[[_ [=]]|[_ [=]]]].
    destruct H as [-> _]. apply still_updateLast in He. still. }
  apply apply_cases in Ha as [Hs|Ha]; [left; still|right; right]. split.
  - split_and!; try done; [by exists jjs| |].
    + unfold validated in *. destruct (job_Annotations jj !! _); [done|].
      destruct Hval as (got & Hin & Hv). exists got. split; [set_solver|done].
    + exists h. split; [set_solver|done].
  - apply asked_pre; [done|]. by apply asked_post.
Qed.

Lemma reconcile_acts r req t r' res :
  exec (Reconcile r req) t (Returned (r', res)) ->
  still t \/ exists jj t', t = ev_got req jj :: t' /\ acts_of req jj t.
Proof.
  unfold Reconcile. cbv zeta. intros (got & t1 & -> & H).
  destruct got as [jj0|e]; [|left; destruct (IsNotFound e);
    first [by destruct H as [-> _] | apply ret_status_still in H as [? _]; still]].
  right. exists jj0, t1. split; [done|].
  apply exec_bind in H as [([jj err] & u1 & u2 & -> & Hadd & H)|[[_ [=]]|[_ [=]]]].
  apply jet_AddFinalizer_cases in Hadd as (Hq1 & Hjj).
  enough (acts_of req jj (ev_got req jj0 :: u1 ++ u2)) as Hacts.
  { destruct Hjj as [->|[fs ->]]; [done|by apply acts_fin in Hacts]. }
  clear Hjj. destruct err as [e|]; [idle H|].
  destruct (job_Deleting jj) eqn:Edel.
  { apply exec_bind in H as [(err & v1 & v2 & -> & Hf & H)|[[_ [=]]|[_ [=]]]].
    apply finalizer_cases in Hf as [Hd _]. right; left. split; [done|].
    apply (deletion_acts_app jj (ev_got req jj0 :: u1) v1 v2); [still|done|].
    destruct err; [by apply ret_status_still in H as [? _]|by destruct H as [-> _]]. }
  destruct (Phase_IsRunning _ && _) eqn:Erun; [idle H|].
  destruct (Phase_IsFinished _) eqn:Efin.
  { apply exec_bind in H as [(a & v1 & v2 & -> & Hf & H)|[[_ [=]]|[_ [=]]]].
    apply still_removeJob in Hf. idle H. }
  destruct (JetJobSpec_Marshal (job_Spec jj)) as [jjs|e] eqn:Ems; [|idle H].
  apply exec_bind in H as [(v & v1 & v2 & -> & Hv & H)|[[_ [=]]|[_ [=]]]].
  apply validate_cases in Hv as [Hs1 Hv]. destruct v as [[e|]|]; [idle H| |idle H].
  destruct (Hv eq_refl) as [Hann Hval]. destruct H as (hz & w1 & -> & H).
  destruct hz as [h|e]; [|idle H].
  destruct (strb (st_Phase (h_Status h)) "Running") eqn:Eph; simpl negb in H; cbv iota in H; [|idle H].
  destruct (ValidateJetConfiguration h) as [[e|]| |] eqn:Ejet;
    [idle H| |by destruct H as [_ H]|by destruct H as [_ H]].
  set (pre := ev_got req jj0 :: u1 ++ v1 ++ [ev_cluster (req.1, jj_HazelcastResourceName (job_Spec jj)) h]).
  replace (ev_got req jj0 :: u1 ++ v1 ++ _) with (pre ++ w1) by (unfold pre; by list_simplifier).
  eapply apply_phase; try done.
  - unfold pre. still.
  - intros Hr Hst. apply (proj2 (strb_true _ _)) in Hst. rewrite Hr, Hst in Erun. done.
  - unfold validated in *. destruct (job_Annotations jj !! _); [done|].
    destruct Hval as (got & Hin & Hvn). exists got. split; [unfold pre; set_solver|done].
  - unfold pre. set_solver.
  - by apply strb_true in Eph.
Qed.

Lemma still_count e t : act (ev_op e) = true -> one_act e t -> count act t = 1%nat.
Proof.
  unfold still. intros Ha (t1 & t2 & -> & H1 & H2). unfold still in *.
  rewrite count_app, count_cons, H1, H2, Ha. done.
Qed.

Lemma asked_count j hz t : asked j hz t -> count act t = 1%nat.
Proof.
  intros [e _ Ho|e _ _ Ho|sn t1 t2 t3 _ _ -> H1 H2 H3]; [by eapply still_count, Ho..|].
  eapply (still_count (ev_submit (job_metadata j sn) (job_nn j))); [done|].
  eexists (t1 ++ _ :: t2), (_ :: t3). split; [by list_simplifier|]. split; still.
Qed.

(** C11. Whatever the API server, the members and the agents answer, one
    reconciliation of a Jet job acts on the cluster at most once.  If it
    acts, then for a resource being deleted it cancels the job, which has an
    identifier; otherwise the resource is not finished, its spec is valid and
    differs from the one applied, its cluster is running with Jet and resource
    upload enabled, and it does what the spec asks: terminate in the mode of
    the requested state, resume a suspended job, or store the job with the
    status checker, submit it once and start the checker. *)
Theorem jet_reconcile_acts_once r req t r' res :
  exec (Reconcile r req) t (Returned (r', res)) -> (0 < count act t)%nat ->
  count act t = 1%nat /\
  exists jj t', t = ev_got req jj :: t' /\
    ((job_Deleting jj = true /\ jjs_Id (job_Status jj) <> 0 /\ exists e, one_act (cancelled jj e) t)
     \/ (ready req jj t /\ asked jj (req.1, jj_HazelcastResourceName (job_Spec jj)) t)).
Proof.
  intros He Hc.
  apply reconcile_acts in He as [Hs|(jj & t' & Ht & [Hs|[[Hd [Hs|[Hi [e Ho]]]]|[Hr Ha]]])];
    [unfold still in Hs; lia..| |].
  - split; [by apply (still_count (cancelled jj e))|]. exists jj, t'. split; [done|]. left. eauto.
  - split; [by eapply asked_count|]. exists jj, t'. split; [done|]. by right.
Qed.

(** The finalizer of a Jet job is removed, by a single update that comes
    last, only when its cluster does not exist or is being deleted, the job
    has no identifier, or its forceful cancellation was acknowledged. *)
Theorem jet_finalizer_released r j t err :
  exec (executeFinalizer r j) t (Returned err) -> (0 < count is_update t)%nat ->
  exists t1 e, t = t1 ++ [ev_update (without_finalizer j) e] /\ count is_update t1 = 0%nat /\ released j t1.
Proof. intros He Hu. apply finalizer_cases in He as [_ [H0|H0]]; [lia|done]. Qed.

(** ** Panics *)

Lemma returns_updateStatus name options : returns (updateStatus name options).
Proof.
  unfold updateStatus. apply returns_bind.
  - apply returns_OnError. intros []. apply returns_bind; [|auto with returns].
    apply returns_vis. intros [jj|e]; [|auto with returns]. apply returns_vis. auto with returns.
  - intros [[] err]. unfold strb. repeat case_bool_decide; auto with returns.
Qed.

Lemma returns_updateLast name : returns (updateLastSuccessfulConfiguration name).
Proof.
  apply returns_bind; [|auto with returns]. apply returns_OnError. intros [].
  apply returns_bind; [|auto with returns].
  apply returns_vis. intros [jj|e]; [|auto with returns]. apply returns_vis. auto with returns.
Qed.

Lemma returns_removeJob r j : returns (removeJobFromChecker r j).
Proof. unfold removeJobFromChecker. case_decide; auto with returns. Qed.

Ltac returns := repeat first
  [ done | apply returns_done | apply returns_updateStatus | apply returns_updateLast | apply returns_removeJob
  | apply returns_bind; [|intros ?] | apply returns_vis; intros ? | apply returns_par; intros ? ? ].

Lemma returns_finalizer r j : returns (executeFinalizer r j).
Proof.
  assert (returns (removeCheckerAndFinalizer r j)) as Hrem.
  { unfold removeCheckerAndFinalizer. returns. match goal with x : ans _ |- _ => destruct x end; returns. }
  unfold executeFinalizer. cbv zeta. destruct (negb _); [returns|]. apply returns_vis. intros [h|e].
  - destruct (h_Deleting h); [done|]. apply returns_bind; [|intros [e|]; returns].
    unfold stopJetExecution. destruct (_ =? 0); [returns|]. apply returns_vis. intros [e|]; returns.
  - destruct (IsNotFound e); returns.
Qed.

Lemma returns_submit job hz sn : returns (submit_job job hz sn).
Proof.
  unfold submit_job. apply returns_bind; [|intros [e|]; returns].
  destruct (JetJobSpec_IsDownloadEnabled _); [|returns]. unfold downloadFile.
  apply returns_vis. intros [e|]; returns.
Qed.

Lemma returns_apply r job hz : returns (applyJetJob r job hz).
Proof.
  unfold applyJetJob. cbv zeta. apply returns_vis. intros [e|]; [returns|].
  destruct (negb (strb _ RunningJobState)); [unfold changeJobState; returns|].
  destruct (_ && _); [returns|]. apply returns_vis. intros [].
  assert (forall sn, returns (res <- submit_job job hz sn ;;
    Done (mkJetJobReconciler ({[hz]} ∪ clusterStatusChecker r), res))) as Hs.
  { intros sn. apply returns_bind; [apply returns_submit|intros ?; returns]. }
  destruct (negb _); [|apply Hs]. apply returns_vis. intros [jjs|e]; [|returns].
  destruct (sn_CreationTime jjs); [apply Hs|returns].
Qed.

Lemma returns_validate req jj jjs : returns (validate_job req jj jjs).
Proof. unfold validate_job. destruct (_ !! _); [destruct (strb _ _)|]; returns. Qed.

Lemma returns_AddFinalizer j : returns (AddFinalizer j).
Proof. unfold AddFinalizer. destruct (_ && _); returns. Qed.

(** A reconciliation always comes to an end, and panics exactly when it
    gets to a running cluster whose resource has no Jet section. *)
Theorem jet_reconcile_panics r req t o :
  exec (Reconcile r req) t o ->
  (exists a, o = Returned a)
  \/ (o = Panicked /\ exists t1 hz h, t = t1 ++ [ev_cluster hz h] /\ st_Phase (h_Status h) = "Running"
      /\ s_JetEngineConfiguration (h_Spec h) = None).
Proof.
  unfold Reconcile. cbv zeta. intros (got & t1 & -> & H).
  assert (forall r' e, returns (res <- updateStatus req (failedJetJobStatus e) ;;
    Done ((r' : JetJobReconciler), res))) as Hfail by (intros; returns).
  destruct got as [jj0|e]; [|left; destruct (IsNotFound e); [by eapply returns_done|by eapply Hfail]].
  apply exec_bind in H as [([jj err] & u1 & u2 & -> & Hadd & H)|[[H ->]|[H ->]]];
    [|by apply returns_AddFinalizer in H as [? [=]]..].
  destruct err as [e|]; [left; by eapply Hfail|].
  destruct (job_Deleting jj).
  { left. revert H. apply returns_bind; [apply returns_finalizer|]. intros [e|]; returns. }
  destruct (_ && _); [left; by eapply returns_done|].
  destruct (Phase_IsFinished _); [left; revert H; returns|].
  destruct (JetJobSpec_Marshal _) as [jjs|e]; [|left; by eapply Hfail].
  apply exec_bind in H as [(v & v1 & v2 & -> & Hv & H)|[[H ->]|[H ->]]];
    [|by apply returns_validate in H as [? [=]]..].
  destruct v as [[e|]|]; [left; by eapply Hfail| |left; by eapply returns_done].
  destruct H as (hz & w1 & -> & H). destruct hz as [h|e]; [|left; revert H; returns].
  destruct (strb (st_Phase (h_Status h)) "Running") eqn:Eph; simpl negb in H; cbv iota in H;
    [|left; by eapply Hfail].
  destruct (ValidateJetConfiguration h) as [[e|]| |] eqn:Ejet.
  - left. by eapply Hfail.
  - left. revert H. apply returns_bind; [apply returns_apply|]. intros [r1 [result [e|]]]; returns.
  - right. destruct H as [-> ->]. split; [done|].
    exists (ev_got req jj0 :: u1 ++ v1), (req.1, jj_HazelcastResourceName (job_Spec jj)), h.
    split; [by list_simplifier|]. apply strb_true in Eph. split; [done|].
    unfold ValidateJetConfiguration in Ejet. by destruct (s_JetEngineConfiguration (h_Spec h)).
  - unfold ValidateJetConfiguration in Ejet. by destruct (s_JetEngineConfiguration (h_Spec h)).
Qed.
End Facts.

(** ** Concrete runs *)

Module JetJobRuns.
Import RefProto.
#[local] Existing Instance RefProto.ref.

#[local] Instance json1 : JetJobJson :=
  {| JetJobSpec_Unmarshal _ := inr (errors_New "bad json"); JetJobSpec_Marshal s := inl (jj_JarName s) |}.

Definition spec1 : JetJobSpec := mkJetJobSpec "" "hz" "Running" "job.jar" "" "" None "https://host/job.jar".
Definition job1 (deleting : bool) (id : Z) : JetJob :=
  mkJetJob "ns" "job" [n_Finalizer] deleting ∅ spec1 (mkJetJobStatus id "" None None "" "").
Definition hz1 (jet : option JetEngineConfiguration) : Hazelcast :=
  mkHazelcast "hz" "ns" ∅ false
    (mkHazelcastSpec (Some 3) "" "license" None None jet "" None None None None "" None [] None "dev" None [] [] [] None None None None)
    (mkHazelcastStatus 3 "Running").
Definition jet1 : option JetEngineConfiguration := Some (mkJetEngineConfiguration (Some true) true None [] [] None None).

(** An environment in which everything works. *)
Definition answer (j : JetJob) (h : Hazelcast) (o : op) (_ : list event) : ans o :=
  match o as o return jj_ans o with
  | GetJetJob _ => Found j
  | ListJetJobs _ => Found [j]
  | GetHazelcast _ => Found h
  | GetJetJobSnapshot _ => Found (mkJetJobSnapshot "s" "" (Some 1))
  | OrderedMembers _ => ["10.0.0.1:5701"; "10.0.0.2:5701"]
  | StoreJob _ _ _ | DeleteJob _ _ | RunChecker _ | GoRunJob _ _ => tt
  | _ => None
  end.

Definition key : NamespacedName := ("ns", "job").
Definition submit_trace : list event := (run (answer (job1 false 0) (hz1 jet1)) (Reconcile NewJetJobReconciler key) []).1.
Definition after : JetJobReconciler := mkJetJobReconciler {[("ns", "hz")]}.

Lemma submit_exec :
  exec (Reconcile NewJetJobReconciler key) submit_trace (Returned (after, (ctrl_Result_zero, None))).
Proof. apply run_exec_2. vm_compute. reflexivity. Qed.

Lemma jet_reconcile_acts_witness :
  count act submit_trace = 1%nat /\ exists jj t', submit_trace = ev_got key jj :: t'.
Proof.
  destruct (jet_reconcile_acts_once NewJetJobReconciler key submit_trace after _ submit_exec)
    as [H (jj & t' & Ht & _)].
  { vm_compute. lia. }
  split; [exact H|]. exists jj, t'. exact Ht.
Defined.

Definition fin_trace : list event :=
  (run (answer (job1 true 7) (hz1 jet1)) (executeFinalizer after (job1 true 7)) []).1.

Lemma fin_exec : exec (executeFinalizer after (job1 true 7)) fin_trace (Returned None).
Proof. apply run_exec_2. vm_compute. reflexivity. Qed.

Lemma jet_finalizer_witness : exists t1, released (job1 true 7) t1.
Proof.
  destruct (jet_finalizer_released after (job1 true 7) fin_trace None fin_exec) as (t1 & e & _ & _ & H).
  { vm_compute. lia. }
  exists t1. exact H.
Defined.

Definition jet_panic_trace : list event :=
  (run (answer (job1 false 0) (hz1 None)) (Reconcile NewJetJobReconciler key) []).1.

Lemma jet_panic_exec : exec (Reconcile NewJetJobReconciler key) jet_panic_trace Panicked.
Proof. apply run_exec_2. vm_compute. reflexivity. Qed.

Lemma jet_panic_witness :
  exists h, st_Phase (h_Status h) = "Running" /\ s_JetEngineConfiguration (h_Spec h) = None.
Proof.
  destruct (jet_reconcile_panics NewJetJobReconciler key jet_panic_trace Panicked jet_panic_exec)
    as [[a H]|[_ (t1 & hz & h & _ & H1 & H2)]]; [discriminate H|].
  exists h. split; [exact H1|exact H2].
Defined.
End JetJobRuns.
