(* ===== verification/Agents.v ===== *)
(** * The HTTP clients of the operator

    src/internal/mtls (the client certificate the agents trust, and the
    registry of HTTP clients), src/internal/rest (requests to the agents of
    the members) and the REST client of members in
    src/internal/controller/hazelcast/hazelcast_rest_client.go.

    The other files call the services of the agents as single calls; here
    they are programs over HTTP requests.  Parameters: URLs, the JSON texts of
    the agent's messages ([AgentLib]), certificates ([X509Lib]), and what is
    generated for a new certificate. *)

From S2P Require Import Prelude Eff HotBackup FieldValidation HazelcastTypes HazelcastValidation HazelcastValidationFacts Kube HzTypes ClientRegistry JetJobValidation JetJob.
From stdpp Require Import pretty.
#[local] Open Scope prog_scope.
#[local] Open Scope string_scope.
#[local] Open Scope list_scope.
#[local] Open Scope Z_scope.
#[export] Remove Hints hb_effects kube_effects : typeclass_instances.

(** ** Calls *)

Record http_request := mkHttpRequest {
  rq_Method : string;
  rq_URL : string;
  rq_ContentType : option string;
  rq_Body : option string;
}.
Record http_response := mkHttpResponse { rs_StatusCode : Z; rs_Status : string; rs_Body : string }.
Inductive ag_op :=
| HttpDo (req : http_request)
| CtxErr
| GetSecretM (nn : NamespacedName)
| GenerateCA
| CreateSecretM (nn : NamespacedName) (data : gmap string string).
Definition ag_ans (o : ag_op) : Type :=
  match o with
  | HttpDo _ => fetched http_response
  | CtxErr | CreateSecretM _ _ => option error
  | GetSecretM _ | GenerateCA => fetched (gmap string string)
  end.
#[global] Instance ag_effects : Effects := {| op := ag_op; ans := ag_ans |}.
#[export] Remove Hints ag_effects : typeclass_instances.

(** A JSON decoder reads a value, or nothing at all, or fails. *)
Inductive json_decoded (A : Type) := JDecoded (a : A) | JEof | JError (e : error).
Arguments JDecoded {A}. Arguments JEof {A}. Arguments JError {A}.

Record DialResponse := mkDialResponse { dr_Success : bool; dr_ErrorMessages : list string }.
Record LocalBackupsReq := mkLocalBackupsReq { lbr_BackupBaseDir : string; lbr_MemberID : nat }.
Inductive payload :=
| UploadPayload (r : UploadReq)
| LocalBackupsPayload (r : LocalBackupsReq)
| DialPayload (endpoints : list string)
| BundlePayload (r : BundleReq)
| DownloadPayload (r : DownloadFileReq).

Class AgentLib := {
  AUrl : Type;
  url_Parse : string -> sum AUrl error;
  Url_Resolve : AUrl -> string -> sum string error;      (* [BaseURL.Parse] and [String] *)
  http_NewRequest : string -> string -> option error;    (* of a method and a URL *)
  payload_Encode : payload -> sum string error;
  decode_Upload : string -> json_decoded string;         (* the identifier, in its canonical form *)
  decode_Status : string -> json_decoded UploadStatus;
  decode_LocalBackups : string -> json_decoded (list string);
  decode_Dial : string -> json_decoded DialResponse;
}.

Section Rest.
Context `{AL : AgentLib}.
#[local] Existing Instance ag_effects.

(** ** src/internal/rest/client.go *)

Definition NewRequest (base : AUrl) (method url : string) (body : option payload) : sum http_request error :=
  match Url_Resolve base url with
  | inr e => inr e
  | inl u =>
      let text := match body with None => inl None | Some p => match payload_Encode p with inl t => inl (Some t) | inr e => inr e end end in
      match text with
      | inr e => inr e
      | inl text =>
          match http_NewRequest method u with
          | Some e => inr e
          | None => inl (mkHttpRequest method u (match text with Some _ => Some "application/json" | None => None end) text)
          end
      end
  end.
Definition ErrorResponse (req : http_request) (resp : http_response) : error :=
  errors_New (rq_Method req ++ " " ++ rq_URL req ++ ": " ++ pretty (rs_StatusCode resp)).
Definition checkResponse (req : http_request) (resp : http_response) : option error :=
  if (200 <=? rs_StatusCode resp) && (rs_StatusCode resp <=? 299) then None else Some (ErrorResponse req resp).
(** The value that is decoded into starts as the zero value, which an empty
    body leaves. *)
Definition Do {A} (req : http_request) (zero : A) (decode : option (string -> json_decoded A)) : prog (sum A error) :=
  ask r <- HttpDo req ;;
  match (r : fetched http_response) with
  | Failed e => ask ctx <- CtxErr ;; Done (inr (default e (ctx : option error)))
  | Found resp =>
      Done (match checkResponse req resp with
            | Some e => inr e
            | None => match decode with
                      | None => inl zero
                      | Some d => match d (rs_Body resp) with JDecoded a => inl a | JEof => inl zero | JError e => inr e end
                      end
            end)
  end.

(** ** The services *)

(** [New...Service] and one of its methods. *)
Definition agent_call {A} (address method url : string) (body : option payload) (zero : A) (decode : option (string -> json_decoded A))
  : prog (sum A error) :=
  match url_Parse address with
  | inr e => Done (inr e)
  | inl base =>
      match NewRequest base method url body with
      | inr e => Done (inr e)
      | inl req => Do req zero decode
      end
  end.
Definition uuid_nil : string := "00000000-0000-0000-0000-000000000000".
Definition UploadService_Upload (address : string) (opts : UploadReq) : prog (sum string error) :=
  agent_call address "POST" "upload" (Some (UploadPayload opts)) uuid_nil (Some decode_Upload).
Definition UploadService_Status (address id : string) : prog (sum UploadStatus error) :=
  agent_call address "GET" ("upload/" ++ id) None (mkUploadStatus "" "" "") (Some decode_Status).
Definition UploadService_Cancel (address id : string) : prog (sum unit error) :=
  agent_call address "POST" ("upload/" ++ id ++ "/cancel") None tt None.
Definition UploadService_Delete (address id : string) : prog (sum unit error) :=
  agent_call address "DELETE" ("upload/" ++ id) None tt None.
Definition UploadService_Cleanup (address id : string) : prog (sum unit error) :=
  agent_call address "POST" ("upload/" ++ id ++ "/cleanup") None tt None.
Definition LocalBackupService_LocalBackups (address : string) (opts : LocalBackupsReq) : prog (sum (list string) error) :=
  agent_call address "GET" "backup" (Some (LocalBackupsPayload opts)) [] (Some decode_LocalBackups).
Definition DialerService_TryDial (address : string) (endpoints : list string) : prog (sum DialResponse error) :=
  agent_call address "POST" "dial" (Some (DialPayload endpoints)) (mkDialResponse false []) (Some decode_Dial).
Definition BundleService_Download (address : string) (opts : BundleReq) : prog (sum unit error) :=
  agent_call address "POST" "bundle" (Some (BundlePayload opts)) tt None.
Definition FileDownloadService_Download (address : string) (opts : DownloadFileReq) : prog (sum unit error) :=
  agent_call address "POST" "download" (Some (DownloadPayload opts)) tt None.
(** src/internal/dialer/dialer.go *)
Definition Dialer_TryDial (address : string) (endpoints : list string) : prog (option error) :=
  r <- DialerService_TryDial address endpoints ;;
  Done (match r with
        | inr e => Some e
        | inl resp => if negb (dr_Success resp) then Some (errors_New (String.concat (String "009" "") (dr_ErrorMessages resp))) else None
        end).

(** What a call is: at most one request, with the method, the URL and the
    body of the service; it succeeds exactly when the agent answered with a
    status from 200 to 299 and a body that can be read, and what it returns was
    read from that body - the zero value from an empty one. *)
Definition read_of {A} (zero : A) (decode : option (string -> json_decoded A)) (body : string) (a : A) : Prop :=
  match decode with None => a = zero | Some d => d body = JDecoded a \/ (d body = JEof /\ a = zero) end.
Theorem agent_call_succeeds {A} address method url body (zero : A) decode t a :
  exec (agent_call address method url body zero decode) t (Returned (inl a)) <->
  exists base u text code status got,
    url_Parse address = inl base /\ Url_Resolve base url = inl u /\ http_NewRequest method u = None
    /\ match body with None => text = None | Some p => exists s, payload_Encode p = inl s /\ text = Some s end
    /\ t = [@Ev ag_effects (HttpDo (mkHttpRequest method u ((fun _ => "application/json") <$> text) text)) (Found (mkHttpResponse code status got))]
    /\ 200 <= code <= 299 /\ read_of zero decode got a.
Proof.
  unfold agent_call, NewRequest. split.
  - intros H. destruct (url_Parse address) as [base|e] eqn:Eb; [|by destruct H as [_ [=]]].
    destruct (Url_Resolve base url) as [u|e] eqn:Eu; [|by destruct H as [_ [=]]].
    destruct (match body with None => inl None | Some p => match payload_Encode p with inl t => inl (Some t) | inr e => inr e end end)
      as [text|e] eqn:Et; [|by destruct H as [_ [=]]].
    destruct (http_NewRequest method u) as [e|] eqn:En; [by destruct H as [_ [=]]|].
    destruct H as (r & t' & -> & H). destruct r as [[code status got]|e]; [|by destruct H as (ctx & t1 & _ & [_ [=]])].
    destruct H as [-> H]. unfold checkResponse in H. cbn [rs_StatusCode rs_Body] in H.
    destruct ((200 <=? code) && (code <=? 299)) eqn:Ec; [|done]. apply andb_true_iff in Ec as [E1 E2].
    exists base, u, text, code, status, got. split; [done|]. split; [done|]. split; [done|]. split; [|split; [|split; [lia|]]].
    + destruct body as [p|]; [|by injection Et]. destruct (payload_Encode p) as [s|]; [|done]. injection Et as <-. eauto.
    + by destruct text.
    + unfold read_of. destruct decode as [d|]; [|by injection H as ->]. destruct (d got) as [b| |e]; [..|done]; injection H as ->; auto.
  - intros (base & u & text & code & status & got & -> & -> & -> & Ht & -> & Hc & Hr).
    assert ((match body with None => inl None | Some p => match payload_Encode p with inl t => inl (Some t) | inr e => inr e end end
      : sum (option string) error) = inl text) as -> by (destruct body as [p|]; [by destruct Ht as (s & -> & ->)|by subst]).
    eexists _, []. split; [by destruct text|]. split; [done|]. unfold checkResponse. cbn [rs_StatusCode rs_Body].
    destruct (Z.leb_spec 200 code), (Z.leb_spec code 299); [|lia..]. cbn. f_equal. unfold read_of in Hr.
    destruct decode as [d|]; [|by subst]. by destruct Hr as [->|[-> ->]].
Qed.
End Rest.

(** ** src/internal/mtls/client.go *)

Section Mtls.
Context `{XL : X509Lib}.
#[local] Existing Instance ag_effects.

Definition TLSCAKey : string := "ca.crt".
Definition errMissingCA : error := errors_New "mtls: missing ca.crt in secret".
Definition errInvalidCA : error := errors_New "mtls: failed to find any PEM data in ca input".
Definition errMissingTLSCert : error := errors_New "mtls: missing tls.crt in secret".
Definition errMissingTLSKey : error := errors_New "mtls: missing tls.key in secret".

(** [http.Client] with what [tls.Config] says. *)
Record HttpClient := mkHttpClient { hc_ServerName : string; hc_RootCAs : CertPool; hc_Certificate : Certificate }.
Definition client_of_data (data : gmap string string) : sum HttpClient error :=
  match data !! TLSCAKey with
  | None => inr errMissingCA
  | Some ca =>
      match data !! "tls.crt" with
      | None => inr errMissingTLSCert
      | Some tlsCert =>
          match data !! "tls.key" with
          | None => inr errMissingTLSKey
          | Some tlsKey =>
              match AppendCertsFromPEM ca with
              | None => inr errInvalidCA
              | Some pool =>
                  match X509KeyPair tlsCert tlsKey with
                  | inr e => inr (wrap "mtls: " e)
                  | inl cert => inl (mkHttpClient "mtls" pool cert)
                  end
              end
          end
      end
  end.
Definition createSecret (secretName : NamespacedName) : prog (fetched (gmap string string)) :=
  ask ca <- GenerateCA ;;
  match (ca : fetched (gmap string string)) with
  | Failed e => Done (Failed (wrap "mtls: " e))
  | Found ca =>
      ask err <- CreateSecretM secretName ca ;;
      Done (match (err : option error) with Some e => Failed e | None => Found ca end)
  end.
Definition secret_key (secretName : NamespacedName) : NamespacedName :=
  if strb secretName.1 "" then ("default", secretName.2) else secretName.
Definition NewClient (secretName : NamespacedName) : prog (sum HttpClient error) :=
  let secretName := secret_key secretName in
  ask got <- GetSecretM secretName ;;
  secret <- match (got : fetched (gmap string string)) with
            | Failed e => if IsNotFound e then createSecret secretName else Done (Failed e)
            | Found data => Done (Found data)
            end ;;
  Done (match secret with Failed e => inr e | Found data => client_of_data data end).

(** ** src/internal/mtls/client_registry.go *)

Definition mtls_nn (ns : string) : NamespacedName := (ns, n_MTLSCertSecretName).
Definition mtls_Create (clients : gmap NamespacedName HttpClient) (ns : string) : prog (gmap NamespacedName HttpClient * sum HttpClient error) :=
  match clients !! mtls_nn ns with
  | Some c => Done (clients, inl c)
  | None =>
      r <- NewClient (mtls_nn ns) ;;
      Done (match r with inr e => (clients, inr e) | inl c => (<[mtls_nn ns := c]> clients, inl c) end)
  end.
Definition mtls_GetOrCreate (clients : gmap NamespacedName HttpClient) (ns : string) : prog (gmap NamespacedName HttpClient * sum HttpClient error) :=
  match clients !! mtls_nn ns with Some c => Done (clients, inl c) | None => mtls_Create clients ns end.
Definition mtls_Delete (clients : gmap NamespacedName HttpClient) (ns : string) : gmap NamespacedName HttpClient :=
  delete (mtls_nn ns) clients.

(** The secret a client is made of: one that was read, or one that was not
    there, was generated, and is stored now. *)
Definition secret_was (t : list event) (nn : NamespacedName) (data : gmap string string) : Prop :=
  Ev (GetSecretM (secret_key nn)) (Found data) ∈ t
  \/ (exists e, Ev (GetSecretM (secret_key nn)) (Failed e) ∈ t /\ IsNotFound e = true)
     /\ Ev GenerateCA (Found data) ∈ t /\ Ev (CreateSecretM (secret_key nn) data) None ∈ t.
Lemma secret_was_app t1 t2 nn data : secret_was t1 nn data \/ secret_was t2 nn data -> secret_was (t1 ++ t2) nn data.
Proof. unfold secret_was. setoid_rewrite elem_of_app. naive_solver. Qed.

Lemma NewClient_exec nn t c : exec (NewClient nn) t (Returned (inl c)) -> exists data, secret_was t nn data /\ client_of_data data = inl c.
Proof.
  intros (got & t1 & -> & H). destruct got as [data|e].
  - destruct H as [-> [= Hc]]. exists data. split; [left; left|done].
  - destruct (IsNotFound e) eqn:En; [|by destruct H as [_ [=]]]. destruct H as ([ca|e'] & t2 & -> & H); [|by destruct H as [_ [=]]].
    destruct H as ([e'|] & t3 & -> & H); destruct H as [-> [= Hc]]. exists ca. split; [|done]. right.
    split; [exists e; split; [left|done]|]. split; [right; left|do 2 right; left].
Qed.

(** What the operator has asked of the registry, and what the registry is
    afterwards. *)
Inductive mtls_run : gmap NamespacedName HttpClient -> list event -> list (string * HttpClient) -> Prop :=
| mr_nil : mtls_run ∅ [] []
| mr_get m t h ns t' m' r : mtls_run m t h -> exec (mtls_GetOrCreate m ns) t' (Returned (m', r)) ->
    mtls_run m' (t ++ t') (match r with inl c => h ++ [(ns, c)] | inr _ => h end)
| mr_delete m t h ns : mtls_run m t h -> mtls_run (mtls_Delete m ns) t h.

(** C30. Every client that was handed out for a namespace presents the
    certificate, and trusts the authority, of the secret of that namespace. *)
Theorem mtls_clients_of_namespace m t h : mtls_run m t h ->
  (forall ns c, (ns, c) ∈ h -> exists data, secret_was t (mtls_nn ns) data /\ client_of_data data = inl c)
  /\ forall nn c, m !! nn = Some c -> exists ns data, nn = mtls_nn ns /\ secret_was t nn data /\ client_of_data data = inl c.
Proof.
  induction 1 as [|m t h ns t' m' r _ [IHh IHm] He|m t h ns _ [IHh IHm]].
  - split; [by intros ns c []%not_elem_of_nil|]. intros nn c. by rewrite lookup_empty.
  - assert (exists_app : forall nn c, (exists data, secret_was t nn data /\ client_of_data data = inl c) ->
      exists data, secret_was (t ++ t') nn data /\ client_of_data data = inl c).
    { intros nn c (data & Hs & Hc). exists data. split; [apply secret_was_app; by left|done]. }
    assert (m_app : forall nn c, m !! nn = Some c -> exists ns data, nn = mtls_nn ns /\ secret_was (t ++ t') nn data /\ client_of_data data = inl c).
    { intros nn c (ns' & data & Hn & Hs & Hc)%IHm. exists ns', data. split; [done|]. split; [apply secret_was_app; by left|done]. }
    unfold mtls_GetOrCreate, mtls_Create in He. destruct (m !! mtls_nn ns) as [c|] eqn:Em.
    + destruct He as [-> [= -> ->]]. split; [|exact m_app]. intros ns' c' [Hin|[= -> ->]%list_elem_of_singleton]%elem_of_app; [by apply exists_app, IHh|].
      apply exists_app. destruct (IHm _ _ Em) as (_ & data & _ & Hs & Hc). by exists data.
    + exec_step He. destruct a as [c|e]; destruct He as [-> [= -> ->]].
      * rewrite !app_nil_r in *. apply NewClient_exec in He0 as (data & Hs & Hc). assert (Hs' : secret_was (t ++ t0) (mtls_nn ns) data).
        { apply secret_was_app. by right. }
        split.
        -- intros ns' c' [Hin|[= -> ->]%list_elem_of_singleton]%elem_of_app; [by apply exists_app, IHh|]. by exists data.
        -- intros nn c' [[<- <-]|[_ Hm]]%lookup_insert_Some; [by exists ns, data|by apply m_app].
      * split; [|exact m_app]. intros ns' c' Hin. by apply exists_app, IHh.
  - split; [exact IHh|]. intros nn c Hm. unfold mtls_Delete in Hm. apply lookup_delete_Some in Hm as [_ Hm]. by apply IHm.
Qed.
End Mtls.

(** ** The REST client of members: hazelcast_rest_client.go *)

Definition rest_changeState : string := "/hazelcast/rest/management/cluster/changeState".
Definition rest_getState : string := "/hazelcast/rest/management/cluster/state".
Definition rest_hotBackup : string := "/hazelcast/rest/management/cluster/hotBackup".
Definition rest_Active : string := "ACTIVE".
Definition rest_Passive : string := "PASSIVE".

Class StateJson := {
  stateResponse_Unmarshal : string -> sum string error;                     (* the field [state] *)
  status_Decode : string -> sum (gmap string string) error;                 (* [NewDecoder(body).Decode] of a map *)
}.

Section RestClient.
Context `{AL : AgentLib} `{SJ : StateJson}.
#[local] Existing Instance ag_effects.

Record RestClient := mkRestClient { rc_url : string; rc_clusterName : string }.
Definition postRequest (data url endpoint : string) : sum http_request error :=
  match http_NewRequest "POST" (url ++ endpoint) with
  | Some e => inr e
  | None => inl (mkHttpRequest "POST" (url ++ endpoint) None (Some data))
  end.
Definition http_error (resp : http_response) : error :=
  errors_New ("unexpected HTTP error: " ++ rs_Status resp ++ ", " ++ rs_Body resp).
Definition rest_executeRequest (req : http_request) : prog (sum http_response error) :=
  ask r <- HttpDo req ;;
  Done (match (r : fetched http_response) with
        | Failed e => inr e
        | Found resp =>
            if (rs_StatusCode resp <? 200) || (400 <=? rs_StatusCode resp) then inr (http_error resp) else inl resp
        end).
Definition rest_post {A} (c : RestClient) (data endpoint : string) (k : http_response -> sum A error) : prog (sum A error) :=
  match postRequest data (rc_url c) endpoint with
  | inr e => Done (inr e)
  | inl req => r <- rest_executeRequest req ;; Done (match r with inr e => inr e | inl resp => k resp end)
  end.
Definition rest_GetState (c : RestClient) : prog (sum string error) :=
  rest_post c (rc_clusterName c ++ "&") rest_getState (fun resp =>
    if negb (rs_StatusCode resp =? 200)
    then inr (errors_New ("unexpected status code when checking for Cluster state: " ++ pretty (rs_StatusCode resp) ++ ", " ++ rs_Status resp))
    else stateResponse_Unmarshal (rs_Body resp)).
Definition rest_ChangeState (c : RestClient) (state : string) : prog (sum unit error) :=
  rest_post c (rc_clusterName c ++ "&&" ++ state) rest_changeState (fun resp =>
    match status_Decode (rs_Body resp) with
    | inr e => inr e
    | inl rBody =>
        let s := default "" (rBody !! "status") in
        if negb (strb s "success") then inr (errors_New ("unexpected Hot Backup status: " ++ s)) else inl tt
    end).
Definition rest_HotBackup (c : RestClient) : prog (sum unit error) :=
  rest_post c (rc_clusterName c ++ "&") rest_hotBackup (fun _ => inl tt).

(** A change of the state is reported only when the member confirmed it;
    a hot backup is reported whatever the member says of it, as long as the
    status of the response is below 400. *)
Theorem rest_change_confirmed c state t :
  exec (rest_ChangeState c state) t (Returned (inl tt)) ->
  exists resp body, t = [@Ev ag_effects (HttpDo (mkHttpRequest "POST" (rc_url c ++ rest_changeState) None
                            (Some (rc_clusterName c ++ "&&" ++ state))%string)) (Found resp)]
  /\ 200 <= rs_StatusCode resp < 400 /\ status_Decode (rs_Body resp) = inl body /\ body !! "status" = Some "success".
Proof.
  unfold rest_ChangeState, rest_post, postRequest. destruct (http_NewRequest _ _); [by intros [_ [=]]|].
  intros ([resp|e] & t' & -> & H); [|by destruct H as [_ [=]]]. cbn in H.
  destruct (Z.ltb_spec (rs_StatusCode resp) 200); [by destruct H as [_ [=]]|].
  destruct (Z.leb_spec 400 (rs_StatusCode resp)); [by destruct H as [_ [=]]|]. cbn in H. destruct H as [-> [= H]].
  destruct (status_Decode (rs_Body resp)) as [body|e] eqn:Ed; [|done]. exists resp, body. split; [done|]. split; [lia|]. split; [done|].
  destruct (strb _ "success") eqn:Es; [|done]. apply strb_true in Es. by destruct (body !! "status"); cbn in Es; subst.
Qed.
Theorem rest_backup_unconfirmed c code status body : http_NewRequest "POST" (rc_url c ++ rest_hotBackup) = None -> 200 <= code < 400 ->
  exists t, exec (rest_HotBackup c) t (Returned (inl tt))
  /\ exists req, t = [@Ev ag_effects (HttpDo req) (Found (mkHttpResponse code status body))].
Proof.
  intros Hn Hc. unfold rest_HotBackup, rest_post, postRequest. rewrite Hn. eexists. split; [|by eexists].
  eexists (Found (mkHttpResponse code status body)), []. split; [done|]. cbn.
  destruct (Z.ltb_spec code 200), (Z.leb_spec 400 code); [lia..|]. done.
Qed.
End RestClient.

(** ** A run: the secret does not exist yet *)

Module AgentRuns.
#[local] Existing Instance ag_effects.
#[local] Instance x509_text : X509Lib :=
  {| CertPool := string; Certificate := string * string; AppendCertsFromPEM s := Some s; X509KeyPair c k := inl (c, k) |}.
Definition generated : gmap string string := <["ca.crt" := "ca"]> (<["tls.crt" := "ca"]> {["tls.key" := "key"]}).
Definition made : HttpClient := mkHttpClient "mtls" "ca" ("ca", "key").
Definition key : NamespacedName := ("ns", n_MTLSCertSecretName).
Definition first : list event :=
  [Ev (GetSecretM key) (Failed (mkError ENotFound "not found")); Ev GenerateCA (Found generated); Ev (CreateSecretM key generated) None].
Lemma generated_client : client_of_data generated = inl made.
Proof. unfold client_of_data, generated. by simplify_map_eq. Qed.
Lemma first_exec : exec (mtls_GetOrCreate ∅ "ns") first (Returned (<[mtls_nn "ns" := made]> ∅, inl made)).
Proof.
  unfold mtls_GetOrCreate, mtls_Create. rewrite lookup_empty. do 3 (eexists _, _; split; [reflexivity|]). split; [done|].
  by rewrite generated_client.
Qed.
Lemma mtls_witness : exists data, secret_was first key data /\ client_of_data data = inl made.
Proof.
  destruct (mtls_clients_of_namespace _ _ _ (mr_get _ _ _ "ns" _ _ _ mr_nil first_exec)) as [H _]. apply (H "ns" made). by left.
Defined.
End AgentRuns.
